(* ===== verification/_CoqProject ===== *)
-Q . S2P
Prelude.v
LltdTypes.v
Event.v
SeesList.v
Band.v
Tlv.v
PacketTx.v
Mapping.v
Frames.v
Hello.v
SessionMgr.v
Enumeration.v
StateProc.v
Qos.v
PacketRx.v
Mainloop.v
Behaviour.v
Discovery.v
QosEvents.v
Sample.v
DhcpTypes.v
DhcpOptions.v
DhcpConfig.v
DhcpLeases.v
DhcpConfigText.v
DhcpPacket.v
DhcpServer.v
DhcpFiles.v
DhcpMain.v
DhcpBehaviour.v
DhcpLoop.v
ClientTypes.v
ClientPacket.v
ClientMachine.v
ClientSend.v
ClientLoop.v
ClientLease.v
ClientScript.v
ClientServer.v
DhcpSample.v
ClientSample.v
IgmpTypes.v
IgmpProxy.v
IgmpRouter.v
IgmpSpec.v
IgmpLemmas.v
IgmpInvariant.v
IgmpHosts.v
IgmpInput.v
IgmpBehaviour.v
IgmpMain.v
IgmpResults.v
IgmpSample.v
Md5.v
Md5Proofs.v
Md5Sample.v
NtpFloat.v
NtpPhaselock.v
NtpPhaselockSpec.v
NtpPhaselockProofs.v
NtpDaylight.v
NtpTypes.v
NtpClient.v
NtpMain.v
NtpProofs.v
NtpResults.v
NtpSample.v
DnsTypes.v
DnsCache.v
DnsPacket.v
DnsForward.v
DnsMain.v
DnsCacheProofs.v
DnsLookup.v
DnsName.v
DnsSafe.v
DnsAnswers.v
DnsForwardProofs.v
DnsResults.v
DnsSample.v
