(* ===== verification/Prelude.v ===== *)
(** * Verification of network programs of the XWR100 router

    The repository is the firmware of a router: a Linux kernel, a boot loader,
    toolchains, and many user programs, most of them third-party.  This
    development models, in C order and with the C names, the programs whose own
    logic decides what the router does on its networks:

    - [lld2d] (src/GTK/user/apps/ms-lltd), the Link Layer Topology Discovery
      responder: it answers a mapper's Discover, Emit, Query and
      QueryLargeTlv frames and the probes of the QoS-diagnostics service;
    - [udhcpd] (src/GTK/user/apps/udhcpd-0.9.8, with the vendor's macros in
      gemtek_added_SRC), the DHCP server of the LAN;
    - [udhcpc] (src/GTK/user/apps/udhcpc-0.9.8), the DHCP client of the WAN;
    - [igmp] (src/GTK/user/apps/igmp), the IGMP proxy, which joins upstream the
      multicast groups that the hosts of the LAN ask for;
    - [md5] (src/GTK/user/apps/md5), which writes the digest of a file, the check of
      an upgrade image;
    - [ntpclient] (src/GTK/user/apps/ntpclient), the NTP client, which sets the clock
      to the local time of the zone, and its control program [exeNtp];
    - [dnsmasq] (src/GTK/user/apps/dnsmasq, version 1.10 with the vendor's changes),
      the DNS forwarder of the LAN.

    The daemons are single-threaded: they wait in [select], and run one handler at a
    time on global state.  A program is therefore a state record, each function
    a computation in the state-and-fault monad [M] of this file (it gives a value
    and a new state, or a fault), and a run is a sequence of handlers.  A fault
    is [Died] for an exit the source asks for, and otherwise what C must never do: an
    assertion that fails, NULL dereferenced, an access outside of a buffer, a read of
    memory that was never written or was freed; or
    [Out_of_fuel], which the theorems exclude.  Integers are [Z] with the C
    wrap-around written ([u8], [u16], [u32], [s32]); byte buffers are [list Z] accessed
    through [load] and [store], which fail outside.  The target is big-endian
    with 32-bit words.  What is asked of the operating system (clock, memory,
    sockets, files, configuration memory) is a parameter: the classes
    [LltdTypes.Env], [DhcpTypes.DhcpEnv], [ClientTypes.ClientEnv],
    [IgmpTypes.IgmpEnv], [NtpTypes.NtpEnv] and [DnsTypes.DnsEnv], answers indexed by
    the number of calls made before, with
    their documented ranges in [EnvLaws], [DhcpLaws], [ClientLaws], [IgmpLaws].
    [wp] is the weakest precondition that allows [Died]; [twp] is total; [wpf]
    names the faults that it allows.

    ** The LLTD responder

    - LltdTypes: protocol.h, lld2d_types.h, globals.h, band.h, tlv.h: constants,
      packet layouts, the process state [G] and its parts.
    - Event: event.c and the timer macros of util.h.  SeesList: seeslist.c.
      Band: band.c.  Tlv: tlv.c.
    - PacketTx: the sending half of packetio.c; PacketRx: the receiving half.
    - Mapping, SessionMgr, Enumeration: the machines smT (mapping.c), smS
      (sessionmgr.c) and smE (enumeration.c).  StateProc: state.c, which
      gives each packet and timeout to the machines.  Qos: qospktio.c.
    - Mainloop: event_mainloop of event.c and the set-up of main.c, the step
      relation [step] (a frame is read, or the first event fires) and the
      states [reachable] from a start.
    - Frames, Hello: the exact bytes of the frames that are sent, and a
      reference encoding and parser of the property list of a Hello, with the list
      that a table of TLVs gives ([hello_list]).
    - Behaviour, Discovery, QosEvents: functional theorems across components.
    - Sample: a start, an environment and frames on which the theorems are
      evaluated.

    Theorems.  Mainloop: no reachable state faults; the invariants of sessions,
    of the topology session, of the enumeration machine, of credit, of the Emit
    state and of timers; the event loop implements the step relation.  Event,
    SeesList, Band: the data structures against lists and arithmetic bounds.
    Behaviour and Hello: what an Emit, a Query, a retry, a foreign frame and a
    Hello give, down to bytes.  Discovery: what a Discover or a Reset does to
    the session table.  QosEvents: the ring of event buckets refines a bounded
    log, and the countdown of a session.

    Fuel.  [smT_loop] gets one turn per descriptor of the Emit and two more,
    because each further turn sends a descriptor; [queryresp_fill] one per
    descriptor that fits the frame and one; [usec_carry] one per second in the
    sum.  The theorems prove that these never run out.  [run_due] runs the events
    that are due, and the clock is read again after each, so their number is an
    answer of the environment: its fuel is an argument.

    ** The DHCP server

    - DhcpTypes: dhcpd.h, packet.h, leases.h; the process state [dhcpd].
    - DhcpOptions: options.c.  DhcpLeases: leases.c and the macros of
      gemtek_jimmy_added_004.h; a pointer into the table is an index.
      DhcpPacket: packet.c.  DhcpServer: serverpacket.c, and the handling of a
      message in main() of dhcpd.c with the macros of gemtek_jimmy_added_002.h.
      DhcpConfig: read_config of files.c, down to strtok and strtoul, with the
      invariant of the option list; DhcpConfigText: a printer for its settings.
      DhcpFiles: write_leases and read_leases of files.c.  DhcpMain: the start of
      dhcpd.c (the table that malloc gives, of a size computed in 32 bits, the texts
      that are copied, the exits) and its loop with the socket that is opened and
      closed.
    - DhcpBehaviour, DhcpLoop: theorems across components.  DhcpSample: their
      evaluation at a sample router, and counterexamples that the modelling found.

    Theorems.  DhcpOptions: the search ends on every message; options that were
    added are found.  DhcpLeases: what add_lease and find_address do, with the
    invariant that no two entries share an address or a hardware address
    ([table_ok], [unique_leases]).  [quiet], [calm], [from], [keeps] say
    what an operation leaves alone: other clients' unexpired leases.
    DhcpPacket: both checksums of the packet built by hand verify.
    DhcpBehaviour: an OFFER, an ACK and the whole handler of a message; the log file
    of an OFFER, whose fopen is not tested, is the one fault left ([unlogged]).
    DhcpFiles and DhcpConfigText: the lease file and the settings read back.
    DhcpConfig: the option list is well formed whatever the file holds.  DhcpLoop:
    the start establishes the invariant, and any sequence of turns keeps it (the
    signal that rereads the configuration apart: the table keeps its old size).  The
    start stops otherwise for the reasons of [start_stops] only, a turn for those of
    [turn_stops]: the socket cannot be opened, the signal to end, the log file.
    The theorems on messages are stated for those whose option field is a list
    of options without overload ([good_request]); outside of these the search of
    options can read after its field, which DhcpSample shows.

    Fuel.  [get_option] has 512 rounds: an area of [n] bytes takes at most [n + 1]
    and the three have 308, 128 and 64 (308 + 128 + 64 + 3 < 512).
    [end_option] has one per byte and one.  [find_address] has one per address
    of the range and one.  The loops of [read_config] and [read_opt] have one per
    byte of the file or line, and one.

    ** The DHCP client

    - ClientTypes: dhcpc.h and the variables of dhcpc.c, the process state
      [dhcpc].  The messages, the table of options and the additions to a message
      are those of the server (DhcpTypes, DhcpOptions, DhcpPacket): the two
      directories hold the same code.
    - ClientPacket: clientpacket.c, the search of options (this copy of
      options.c knows no vendor option) and the reception of packet.c.
      ClientMachine: main() of dhcpc.c, a definition for each timeout, each
      kind of message and each signal, the turn of the loop, the command line and
      the start.  ClientScript: script.c, with the size of every block that it
      allocates.
    - ClientSend: the options of the four messages.  ClientLoop: the abstract
      machine [client_step] and the invariant [client_inv].  ClientLease: a
      lease of which nothing is heard any more.  ClientServer: the client and
      the server together.  ClientSample: evaluation at a sample client, the
      whole handshake from frame to frame, and counterexamples.

    Theorems.  ClientLoop: a turn of the loop implements the abstract machine,
    and the invariant holds from the start on, on any packets; a packet may make
    the search of options read after its field, and a signal follows NULL when the
    log file cannot be opened, which the code does not test: the faults left besides
    exits, each in the turn of its cause ([stops_in]).  ClientLease: the timeouts of a
    lease end, in its last steps, and the script is told so when there is one and a
    child can be made ([told_down]).
    ClientPacket: a packet built by the server's raw_packet is received as it
    was; the two searches of options agree.  ClientScript: the environment of
    the script, and that it fits its blocks for addresses of at most 15
    characters with the blank.  ClientServer: a DISCOVER leads to an OFFER that
    the client takes, and the REQUEST for it to an ACK that binds it to the
    address that the server has in its table, for the time it is configured with.

    Fuel.  The search of options has the server's 512 rounds; [fill_loop] has
    256, because an element takes a byte at least of an option of at most 255;
    [unheard] is used with 65: each gap between the two times of a lease is
    halved, at most 31 times.

    ** The IGMP proxy

    - IgmpTypes: igmp.h, igmprt.h and the variables of igmprt.c, the state
      [igmp_router]; what is asked of the kernel and of iptables is a list of outputs.
      A linked list is a list and a pointer to a group its position in it.
    - IgmpProxy: proxy.c and util.c.  IgmpRouter: igmprt.c and igmpv2.c, from the
      lists of members to the main loop, with the loops that go on from a node they
      have freed ([freed_next]).
    - IgmpSpec: the same as functions on the tables, without store or loops: a
      second passes ([tick_if]), an event is heard ([apply_heard]), and the invariant
      [router_ok].  IgmpLemmas, IgmpHosts, IgmpInput: the code computes these
      functions; [becomes] says which tables and outputs a run leaves.
      IgmpInvariant: the functions keep the invariant.  IgmpBehaviour: a turn of
      the loop and the loop.  IgmpMain: the start.  IgmpResults: the theorems.
      IgmpSample: evaluation at a sample proxy, and counterexamples.

    Theorems.  A turn of the loop implements the abstract turn; the invariant holds
    in every run; with one upstream interface the rules of the firewall
    follow the tables; a group that nobody reports expires in 260 turns; a
    downstream interface sends a general query in 380 turns unless it hears a querier
    with a lower address.  The one fault that they allow is the read of the next pointer
    of a group that was just freed, when the allocator has reused its block
    ([unless_reused], [exits_or_reused]): the loops are proved first with an allocator
    that leaves a freed block readable until the next call, and IgmpMain compares the
    run with that one ([cut]).  malloc() gives memory, each socket that is read
    delivers a datagram, and no interface has the index 32: IgmpSample shows what
    happens otherwise.

    Fuel.  [leave_groups] and [timer_groups] get one round per group and one more.

    ** The digest

    - Md5: md5.c, with the 64 operations listed as the code lists them, and the
      parts of md5main.c that compute; beside them the digest of RFC 1321
      ([ref_digest]), with its own tables: the functions bit by bit, the rotation as arithmetic, words from their bytes, and
      the loop over 64 steps on the padded message.
    - Md5Proofs: the operations are the steps of the loop ([block_is_reference]),
      what the state holds of the message so far ([holds_message]), and the theorem: the
      digest does not depend on how the message is cut, and is the reference's.
    - Md5Sample: the self-test of md5main, and the name that overflows.

    Fuel.  [full_blocks] gets one round per byte and one more.

    ** The NTP client

    - NtpFloat: float and double, as the IEEE 754 operations of the Standard
      Library.  NtpPhaselock: phaselock.c, the ring of 16 measurements and the
      arrays of segments, with the indices of the code.
    - NtpDaylight: gmtime() as far as it is read, and nationselect and
      autodaylightsave of Getntp.c.  NtpTypes: the variables of Getntp.c, the
      clock of the kernel (an offset to the time since the start, because the client
      sets it), the outputs (servers asked, datagrams, clock settings).
      NtpClient: the rest of Getntp.c, from the fixed-point times over the
      request and a reply to primary_loop, the replay and main.
      NtpMain: exeNtp.c, the 33 servers and the test that ends it.
    - NtpPhaselockSpec: the decision of the loop as a function of the list of
      measurements ([next_freq]).  NtpPhaselockProofs: the code computes it.
      NtpProofs: the times, the request, the loop.  NtpResults: a server that
      answers, and the control program.  NtpSample: evaluation at a sample
      router, and counterexamples that the modelling found.

    Theorems.  NtpPhaselockProofs: the ring refines the list of the last 16
    measurements, and no array is left, whatever the uninitialised variables hold.
    NtpDaylight: the test of a day is the rule of the zone on the calendar, at every
    time.  NtpProofs: the conversions of time are exact to 381 microseconds; the
    loop ends.  NtpResults: a server that answers leads to the clock that shows local
    time; the control program asks its servers in their order and ends.  The loops
    end when the network is silent from some call on ([silent_from]): a network
    that keeps sending keeps the client reading.  [atof_reads] says that atof()
    reads two digits; the texts of the configuration memory fit the
    buffers of 64 characters they are copied to: NtpSample shows what longer ones do.

    Fuel.  The passes over the ring have 17 rounds, one per measurement and one;
    the search for a Sunday 8, a week and one; [primary_loop] one per system call before
    the silence and per probe, and two.

    ** The DNS forwarder

    - DnsTypes: dnsmasq.h: records, flags, the state [dns] with the two buffers, the
      cache, the table of queries, the message buffers and the heap of servers.
    - DnsCache: cache.c, a doubly linked list with its pointers as numbers of records.
      DnsPacket: rfc1035.c.  DnsForward: forward.c, and the message buffers and
      check_servers_response of dnsmasq.c.  DnsMain: dhcp.c, the lists of servers of
      network.c, and the start ([dns_start]) and the turns ([dns_turn]) of main().
    - DnsCacheProofs: [linked c l], the list of entries of a cache, and the walks that
      promote and free entries during their run.  DnsLookup: the searches and the
      insertion on such lists.  DnsName: names with pointers ([name_at], RFC 1035),
      and extract_name on any bytes.  DnsSafe: replies, DnsAnswers: queries, on any
      bytes; the bytes of an answer.  DnsForwardProofs: the servers as a circle, the
      invariant [table_ok] of queries and buffers, and what forwarding does to it.
      DnsResults: the properties.  DnsSample: a router with its servers.

    Theorems of DnsResults: searches find the live entries; insertion is [insert_list];
    what is inserted is found; names are read back; any message of at most 512 bytes is
    handled inside of the buffers; the router's page is answered.  A query goes to one
    server responsible for its name, under an identifier of its own; a reply goes back to
    the client that waits; a client whose servers are silent is told within a number of
    turns, after its query went to the servers left to try ([asks_still]); any number
    of turns on any datagrams ends without a fault.

    Hypotheses.  The cache has the size 0 of config.h (CACHESIZ) where any message is
    handled, with the names of /etc/hosts in it, and 3 records or more where something is
    inserted: with 1 or 2 the code follows NULL.  Names of /etc/hosts have at most 1000
    bytes: with 1023 the record of an answer ends after the packet.  sendto() succeeds
    ([sends]); rand() gives an identifier that is not in use ([fresh_ids]); a server has
    no domain; no reply has the identifier 0 ([datagrams_ok]), which a free entry has;
    the files of servers and leases do not change while datagrams are served and no
    SIGHUP comes ([files_rest]): a reload of the servers loses message buffers; select()
    waits a second when it times out and the clock is not set back ([select_waits]);
    the router's address and URL are valid ([page_ok]).

    Fuel.  A name: 256 times the size of the message, since 255 pointers can be
    followed and each other turn passes a byte.  A walk over the cache: twice its records,
    since those that are freed are met once more at the tail.  A search for a buffer:
    151 turns.  A circle of servers: one turn for each server.
    Identifiers: a parameter, which [fresh_ids] makes enough.

    ** Not modelled

    Tracing, what is logged, the command line, pid files, the pipes of signals;
    the ioctl queries of osl-linux.c that fill TLVs (answers of [Env]); lld2test,
    the tester of ms-lltd; arpping(), socket.c and the name service (answers of
    [DhcpEnv] and [ClientEnv]); dumpleases.c; the IGMPv3 records of the proxy (empty in the
    source) and its specific queries (called by nothing); what the NTP client prints;
    the options of dnsmasq (option.c) and its search for interfaces.
    The other programs of the repository are listed in the manifest with the reason;
    the one worth modelling next is the kernel module of the LEDs and buttons (GPIO). *)

From stdpp Require Export base list numbers option.
From Stdlib Require Export ZArith Lia.

#[global] Open Scope Z_scope.

(** ** Faults and the monad

    Every C function of the program is a computation over the global state
    [S] of its process.  It either returns a value and the new state, or stops
    with a fault.  [Died] is the program's own [die()] (it logs and exits);
    the others are what the C code must never do. *)

Inductive fault : Type :=
  | Assert_failed       (* an assert() of the source does not hold *)
  | Null_deref          (* a NULL pointer is dereferenced *)
  | Out_of_bounds       (* an access outside of an array or a buffer *)
  | Uninitialised       (* a variable is read before it is assigned *)
  | Use_after_free      (* memory is read after it was freed *)
  | Died                (* the source called die() *)
  | Out_of_fuel.        (* the fuel of a bounded loop was too small *)

#[export] Instance fault_eq_dec : EqDecision fault.
Proof. solve_decision. Defined.

Inductive res (S A : Type) : Type :=
  | Ok (a : A) (s : S)
  | Err (f : fault).
Arguments Ok {S A} a s.
Arguments Err {S A} f.

Definition M (S A : Type) : Type := S -> res S A.

#[export] Instance M_ret (S : Type) : MRet (M S) := fun A a s => Ok a s.

#[export] Instance M_bind (S : Type) : MBind (M S) := fun A B f m s =>
  match m s with
  | Ok a s' => f a s'
  | Err e => Err e
  end.

#[export] Instance M_fmap (S : Type) : FMap (M S) := fun A B f m => a ← m; mret (f a).

Section primitives.
Context {S : Type}.

Definition fail {A} (f : fault) : M S A := fun _ => Err f.
Definition gets {A} (f : S -> A) : M S A := fun s => Ok (f s) s.
Definition modify (f : S -> S) : M S unit := fun s => Ok tt (f s).
(** [assert(b)] of <assert.h>. *)
Definition assert_ (b : bool) : M S unit :=
  if b then mret tt else fail Assert_failed.
Definition when (b : bool) (m : M S unit) : M S unit :=
  if b then m else mret tt.
(** A value that the code obtains through a pointer. *)
Definition deref {A} (o : option A) : M S A :=
  match o with Some a => mret a | None => fail Null_deref end.
Definition in_bounds {A} (o : option A) : M S A :=
  match o with Some a => mret a | None => fail Out_of_bounds end.
(** Run [body i] for [i = 0, 1, ..., n-1] (a counted [for] loop). *)
Fixpoint for_n (n i : nat) (body : nat -> M S unit) : M S unit :=
  match n with
  | O => mret tt
  | Datatypes.S n' => body i;; for_n n' (Datatypes.S i) body
  end.
End primitives.

(** ** Weakest preconditions

    [wp m Q s]: run from [s], the computation [m] ends in a state and value
    that satisfy [Q], or the program exits through [die()]; it never stops with
    any other fault. *)

Definition wp {S A} (m : M S A) (Q : A -> S -> Prop) (s : S) : Prop :=
  match m s with
  | Ok a s' => Q a s'
  | Err f => f = Died
  end.

Section wp_rules.
Context {S : Type}.
Implicit Types s : S.

Lemma wp_ret {A} (a : A) (Q : A -> S -> Prop) s : Q a s -> wp (mret a) Q s.
Proof. done. Qed.

Lemma wp_bind {A B} (m : M S A) (f : A -> M S B) Q s :
  wp m (fun a s' => wp (f a) Q s') s -> wp (m ≫= f) Q s.
Proof. unfold wp, mbind, M_bind. by destruct (m s). Qed.

Lemma wp_mono {A} (m : M S A) (P Q : A -> S -> Prop) s :
  wp m P s -> (forall a s', P a s' -> Q a s') -> wp m Q s.
Proof. unfold wp. destruct (m s); auto. Qed.

Lemma wp_fmap {A B} (f : A -> B) (m : M S A) (Q : B -> S -> Prop) s :
  wp m (fun a => Q (f a)) s -> wp (f <$> m) Q s.
Proof. intros H. by apply wp_bind. Qed.

Lemma wp_gets {A} (f : S -> A) (Q : A -> S -> Prop) s : Q (f s) s -> wp (gets f) Q s.
Proof. done. Qed.

Lemma wp_modify (f : S -> S) (Q : unit -> S -> Prop) s :
  Q tt (f s) -> wp (modify f) Q s.
Proof. done. Qed.

Lemma wp_assert (b : bool) (Q : unit -> S -> Prop) s :
  b = true -> Q tt s -> wp (assert_ b) Q s.
Proof. by intros ->. Qed.

Lemma wp_die {A} (Q : A -> S -> Prop) s : wp (fail Died) Q s.
Proof. done. Qed.

Lemma wp_when (b : bool) (m : M S unit) (Q : unit -> S -> Prop) s :
  (b = true -> wp m Q s) -> (b = false -> Q tt s) -> wp (when b m) Q s.
Proof. destruct b; simpl; intros H1 H2; [by apply H1|by apply H2]. Qed.

Lemma wp_if {A} (b : bool) (m1 m2 : M S A) (Q : A -> S -> Prop) s :
  (b = true -> wp m1 Q s) -> (b = false -> wp m2 Q s) ->
  wp (if b then m1 else m2) Q s.
Proof. destruct b; auto. Qed.

Lemma wp_deref {A} (o : option A) (Q : A -> S -> Prop) s a :
  o = Some a -> Q a s -> wp (deref o) Q s.
Proof. by intros ->. Qed.

Lemma wp_in_bounds {A} (o : option A) (Q : A -> S -> Prop) s a :
  o = Some a -> Q a s -> wp (in_bounds o) Q s.
Proof. by intros ->. Qed.

(** A counted loop: an invariant indexed by the counter. *)
Lemma wp_for_n (I : nat -> S -> Prop) (body : nat -> M S unit) n i (Q : unit -> S -> Prop) s :
  I i s ->
  (forall j s', (i <= j < i + n)%nat -> I j s' -> wp (body j) (fun _ => I (Datatypes.S j)) s') ->
  (forall s', I (i + n)%nat s' -> Q tt s') ->
  wp (for_n n i body) Q s.
Proof.
  revert i s. induction n as [|n IH]; intros i s HI Hbody HQ; simpl.
  - apply HQ. by rewrite Nat.add_0_r.
  - apply wp_bind. eapply wp_mono; [apply Hbody; [lia|done]|].
    intros [] s' HI'. apply IH; [done| |].
    + intros j s'' Hj. apply Hbody. lia.
    + intros s'' H. apply HQ. by replace (i + Datatypes.S n)%nat with (Datatypes.S i + n)%nat by lia.
Qed.

(** Two postconditions proved separately. *)
Lemma wp_and {A} (m : M S A) (P Q : A -> S -> Prop) s :
  wp m P s -> wp m Q s -> wp m (fun a s' => P a s' /\ Q a s') s.
Proof. unfold wp. by destruct (m s). Qed.

(** What a computation that ends in [Ok] satisfies. *)
Lemma wp_ok {A} (m : M S A) (Q : A -> S -> Prop) s a s' :
  wp m Q s -> m s = Ok a s' -> Q a s'.
Proof. unfold wp. intros H E. by rewrite E in H. Qed.
End wp_rules.

(** ** Exact runs

    The result of a computation that cannot stop: [P] is any property of the
    result, a fault included. *)

Section run_rules.
Context {S : Type}.
Implicit Types s : S.

Lemma run_bind {A B} (m : M S A) (f : A -> M S B) (P : res S B -> Prop) s a s' :
  m s = Ok a s' -> P (f a s') -> P ((m ≫= f) s).
Proof. unfold mbind, M_bind. by intros ->. Qed.

Lemma run_if {A} (b : bool) (m1 m2 : M S A) (P : res S A -> Prop) s :
  (b = true -> P (m1 s)) -> (b = false -> P (m2 s)) -> P ((if b then m1 else m2) s).
Proof. destruct b; auto. Qed.

Lemma gets_run {A} (f : S -> A) s : gets f s = Ok (f s) s.
Proof. done. Qed.

Lemma in_bounds_run {A} (o : option A) a s : o = Some a -> in_bounds o s = Ok a s.
Proof. by intros ->. Qed.
End run_rules.

(** ** Total weakest preconditions

    [twp m Q s]: the computation ends with a value and a state that satisfy [Q];
    it does not stop with a fault, [Died] included. *)

Definition twp {S A} (m : M S A) (Q : A -> S -> Prop) (s : S) : Prop :=
  match m s with
  | Ok a s' => Q a s'
  | Err _ => False
  end.

Section twp_rules.
Context {S : Type}.
Implicit Types s : S.

Lemma twp_ret {A} (a : A) (Q : A -> S -> Prop) s : Q a s -> twp (mret a) Q s.
Proof. done. Qed.

Lemma twp_bind {A B} (m : M S A) (f : A -> M S B) Q s :
  twp m (fun a s' => twp (f a) Q s') s -> twp (m ≫= f) Q s.
Proof. unfold twp, mbind, M_bind. by destruct (m s). Qed.

Lemma twp_gets {A} (f : S -> A) (Q : A -> S -> Prop) s : Q (f s) s -> twp (gets f) Q s.
Proof. done. Qed.

Lemma twp_modify (f : S -> S) (Q : unit -> S -> Prop) s : Q tt (f s) -> twp (modify f) Q s.
Proof. done. Qed.

Lemma twp_if {A} (b : bool) (m1 m2 : M S A) (Q : A -> S -> Prop) s :
  (b = true -> twp m1 Q s) -> (b = false -> twp m2 Q s) -> twp (if b then m1 else m2) Q s.
Proof. destruct b; auto. Qed.

(** A computation whose run is known. *)
Lemma twp_run {A} (m : M S A) a s' (Q : A -> S -> Prop) s : m s = Ok a s' -> Q a s' -> twp m Q s.
Proof. unfold twp. by intros ->. Qed.

Lemma twp_mono {A} (m : M S A) (P Q : A -> S -> Prop) s :
  twp m P s -> (forall a s', P a s' -> Q a s') -> twp m Q s.
Proof. unfold twp. destruct (m s); auto. Qed.

Lemma twp_elim {A} (m : M S A) (Q : A -> S -> Prop) s : twp m Q s -> exists a s', m s = Ok a s' /\ Q a s'.
Proof. unfold twp. destruct (m s) as [a s'|f]; [|done]. intros H. by exists a, s'. Qed.
End twp_rules.

(** ** Computations that may stop with some faults *)

Definition wpf {S A} (F : fault -> Prop) (m : M S A) (Q : A -> S -> Prop) (s : S) : Prop :=
  match m s with Ok a s' => Q a s' | Err f => F f end.

Section wpf_rules.
Context {S : Type} (F : fault -> Prop).

Lemma wpf_ret {A} (a : A) (Q : A -> S -> Prop) s : Q a s -> wpf F (mret a) Q s.
Proof. done. Qed.
Lemma wpf_bind {A B} (m : M S A) (f : A -> M S B) Q s : wpf F m (fun a s' => wpf F (f a) Q s') s -> wpf F (m ≫= f) Q s.
Proof. unfold wpf, mbind, M_bind. by destruct (m s). Qed.
Lemma wpf_gets {A} (f : S -> A) (Q : A -> S -> Prop) s : Q (f s) s -> wpf F (gets f) Q s.
Proof. done. Qed.
Lemma wpf_modify (f : S -> S) (Q : unit -> S -> Prop) s : Q tt (f s) -> wpf F (modify f) Q s.
Proof. done. Qed.
Lemma wpf_fail {A} f (Q : A -> S -> Prop) s : F f -> wpf F (fail f) Q s.
Proof. done. Qed.
Lemma wpf_if {A} (b : bool) (m1 m2 : M S A) (Q : A -> S -> Prop) s :
  (b = true -> wpf F m1 Q s) -> (b = false -> wpf F m2 Q s) -> wpf F (if b then m1 else m2) Q s.
Proof. destruct b; auto. Qed.
Lemma wpf_when (b : bool) (m : M S unit) (Q : unit -> S -> Prop) s :
  (b = true -> wpf F m Q s) -> (b = false -> Q tt s) -> wpf F (when b m) Q s.
Proof. destruct b; simpl; intros H1 H2; [by apply H1|by apply H2]. Qed.
Lemma wpf_run {A} (m : M S A) a s' (Q : A -> S -> Prop) s : m s = Ok a s' -> Q a s' -> wpf F m Q s.
Proof. unfold wpf. by intros ->. Qed.
Lemma wpf_mono {A} (m : M S A) (P Q : A -> S -> Prop) s : wpf F m P s -> (forall a s', P a s' -> Q a s') -> wpf F m Q s.
Proof. unfold wpf. destruct (m s); auto. Qed.
Lemma wpf_weaken {A} (G : fault -> Prop) (m : M S A) (Q : A -> S -> Prop) s :
  (forall f, G f -> F f) -> wpf G m Q s -> wpf F m Q s.
Proof. unfold wpf. destruct (m s); auto. Qed.
Lemma wpf_in_bounds {A} (o : option A) (Q : A -> S -> Prop) s : F Out_of_bounds -> (forall a, o = Some a -> Q a s) ->
  wpf F (in_bounds o) Q s.
Proof. intros HF HQ. destruct o; [by apply HQ|done]. Qed.
Lemma wpf_elim {A} (m : M S A) (Q : A -> S -> Prop) s : wpf F m Q s ->
  (exists a s', m s = Ok a s' /\ Q a s') \/ (exists f, m s = Err f /\ F f).
Proof. unfold wpf. destruct (m s) as [a s'|f]; [left; by exists a, s'|right; by exists f]. Qed.
Lemma wpf_of_twp {A} (m : M S A) (Q : A -> S -> Prop) s : twp m Q s -> wpf F m Q s.
Proof. unfold twp, wpf. by destruct (m s). Qed.
End wpf_rules.

Ltac wpf_step :=
  lazymatch goal with
  | |- wpf _ (mbind _ _) _ _ => apply wpf_bind
  | |- wpf _ (mret _) _ _ => apply wpf_ret
  | |- wpf _ (gets _) _ _ => apply wpf_gets
  | |- wpf _ (modify _) _ _ => apply wpf_modify
  | |- wpf _ (if _ then _ else _) _ _ =>
      apply wpf_if; [let H := fresh "Hb" in intros H|let H := fresh "Hb" in intros H]
  | |- wpf _ (when _ _) _ _ =>
      apply wpf_when; [let H := fresh "Hb" in intros H|let H := fresh "Hb" in intros H]
  end.
Ltac wpf_steps := repeat (wpf_step; cbv beta).

(** One step of symbolic execution of a monadic program. *)
Ltac wp_step :=
  lazymatch goal with
  | |- wp (mbind _ _) _ _ => apply wp_bind
  | |- wp (fmap _ _) _ _ => apply wp_fmap
  | |- wp (mret _) _ _ => apply wp_ret
  | |- wp (gets _) _ _ => apply wp_gets
  | |- wp (modify _) _ _ => apply wp_modify
  | |- wp (fail Died) _ _ => apply wp_die
  | |- wp (when _ _) _ _ => apply wp_when; [let H := fresh "Hb" in intros H|let H := fresh "Hb" in intros H]
  | |- wp (if _ then _ else _) _ _ =>
      apply wp_if; [let H := fresh "Hb" in intros H|let H := fresh "Hb" in intros H]
  | |- wp (match ?x with _ => _ end) _ _ => let E := fresh "E" in destruct x eqn:E
  end.
Ltac wp_steps := repeat (wp_step; cbv beta).

(** ** Machine integers

    A [w]-bit unsigned integer is the [Z] in [[0, 2^w)] it denotes. *)

Definition u8 (z : Z) : Z := z mod 2 ^ 8.
Definition u16 (z : Z) : Z := z mod 2 ^ 16.
Definition u32 (z : Z) : Z := z mod 2 ^ 32.
Definition u64 (z : Z) : Z := z mod 2 ^ 64.
(** The signed reading of a 32-bit word. *)
Definition s32 (z : Z) : Z := (z + 2 ^ 31) mod 2 ^ 32 - 2 ^ 31.

Lemma u8_range z : 0 <= u8 z < 256.
Proof. unfold u8. apply Z.mod_pos_bound. lia. Qed.
Lemma u16_range z : 0 <= u16 z < 65536.
Proof. unfold u16. apply Z.mod_pos_bound. lia. Qed.
Lemma u32_range z : 0 <= u32 z < 4294967296.
Proof. unfold u32. apply Z.mod_pos_bound. lia. Qed.
Lemma u8_small z : 0 <= z < 256 -> u8 z = z.
Proof. apply Z.mod_small. Qed.
Lemma u16_small z : 0 <= z < 65536 -> u16 z = z.
Proof. apply Z.mod_small. Qed.
Lemma u32_small z : 0 <= z < 4294967296 -> u32 z = z.
Proof. apply Z.mod_small. Qed.
Lemma s32_small z : - 2147483648 <= z < 2147483648 -> s32 z = z.
Proof. intros H. unfold s32. rewrite Z.mod_small by lia. lia. Qed.

(** ** Bytes and byte buffers *)

Definition is_byte (z : Z) : Prop := 0 <= z < 256.

(** Network (big-endian) order: [htons]/[ntohs] and [htonl]/[ntohl] are the
    conversion between a number and the bytes that hold it. *)
Definition be16 (z : Z) : list Z := [u8 (z / 256); u8 z].
Definition be32 (z : Z) : list Z :=
  [u8 (z / 16777216); u8 (z / 65536); u8 (z / 256); u8 z].
Definition be64 (z : Z) : list Z := be32 (z / 4294967296) ++ be32 z.
Definition of_be (l : list Z) : Z := fold_left (fun a b => a * 256 + b) l 0.

Lemma of_be16 z : of_be (be16 z) = u16 z.
Proof.
  unfold of_be, be16, u8, u16; cbn [fold_left].
  change (2 ^ 8) with 256. change (2 ^ 16) with (256 * 256).
  rewrite (Z.rem_mul_r z 256 256) by lia. ring.
Qed.

Lemma of_be32 z : of_be (be32 z) = u32 z.
Proof.
  unfold of_be, be32, u8, u32; cbn [fold_left].
  change (2 ^ 8) with 256. change (2 ^ 32) with (256 * (256 * (256 * 256))).
  rewrite (Z.rem_mul_r z 256 (256 * (256 * 256))) by lia.
  rewrite (Z.rem_mul_r (z / 256) 256 (256 * 256)) by lia.
  rewrite (Z.rem_mul_r (z / 256 / 256) 256 256) by lia.
  replace (z / 16777216) with (z / 256 / 256 / 256) by (by rewrite !Z.div_div).
  replace (z / 65536) with (z / 256 / 256) by (by rewrite !Z.div_div). ring.
Qed.

Lemma be16_bytes z : Forall is_byte (be16 z).
Proof. repeat constructor; apply u8_range. Qed.
Lemma be32_bytes z : Forall is_byte (be32 z).
Proof. repeat constructor; apply u8_range. Qed.

(** [load n buf off]: the [n] bytes at offset [off] of a buffer; [None] when
    they are not all inside it. *)
Definition load (n : nat) (buf : list Z) (off : Z) : option (list Z) :=
  if decide (0 <= off) then sublist_lookup (Z.to_nat off) n buf else None.

(** The same with a length computed by the program. *)
Definition load_len (n : Z) (buf : list Z) (off : Z) : option (list Z) :=
  if decide (0 <= n <= Z.of_nat (length buf)) then load (Z.to_nat n) buf off else None.

(** [store bytes buf off]: the buffer with [bytes] written at [off]. *)
Definition store (bytes buf : list Z) (off : Z) : option (list Z) :=
  if decide (0 <= off /\ off + Z.of_nat (length bytes) <= Z.of_nat (length buf))
  then Some (list_inserts (Z.to_nat off) bytes buf) else None.

Lemma load_ok n buf off :
  0 <= off -> off + Z.of_nat n <= Z.of_nat (length buf) ->
  load n buf off = Some (take n (drop (Z.to_nat off) buf)).
Proof.
  intros H1 H2. unfold load. rewrite decide_True by done.
  apply sublist_lookup_Some. lia.
Qed.

Lemma load_len_ok n buf off :
  0 <= off -> 0 <= n -> off + n <= Z.of_nat (length buf) ->
  load_len n buf off = Some (take (Z.to_nat n) (drop (Z.to_nat off) buf)).
Proof. intros. unfold load_len. rewrite decide_True by lia. apply load_ok; lia. Qed.

Lemma load_length n buf off l : load n buf off = Some l -> length l = n.
Proof. unfold load. case_decide; [|done]. apply sublist_lookup_length. Qed.

Lemma load_bytes n buf off l :
  load n buf off = Some l -> Forall is_byte buf -> Forall is_byte l.
Proof. unfold load. case_decide; [|done]. apply Forall_sublist_lookup. Qed.

(** A list of updates at consecutive places is a splice. *)
Lemma inserts_app {A} (i : nat) (xs b : list A) : (i + length xs <= length b)%nat ->
  list_inserts i xs b = take i b ++ xs ++ drop (i + length xs) b.
Proof.
  revert i. induction xs as [|x xs IH]; intros i H; simpl in *; [by rewrite Nat.add_0_r, take_drop|].
  rewrite IH by lia. destruct (lookup_lt_is_Some_2 b i) as [y Hy]; [lia|].
  rewrite (take_S_r b i y Hy), <- app_assoc, insert_app_r_alt by (rewrite length_take; lia).
  rewrite length_take_le, Nat.sub_diag by lia. simpl. by rewrite Nat.add_succ_r.
Qed.

Lemma store_ok bytes buf off :
  0 <= off -> off + Z.of_nat (length bytes) <= Z.of_nat (length buf) ->
  store bytes buf off = Some (list_inserts (Z.to_nat off) bytes buf).
Proof. intros. unfold store. by rewrite decide_True. Qed.

Lemma store_length bytes buf off buf' :
  store bytes buf off = Some buf' -> length buf' = length buf.
Proof. unfold store. case_decide; [|done]. intros [= <-]. apply length_inserts. Qed.

Lemma store_bytes bytes buf off buf' :
  store bytes buf off = Some buf' ->
  Forall is_byte buf -> Forall is_byte bytes -> Forall is_byte buf'.
Proof. unfold store. case_decide; [|done]. intros [= <-] ??. by apply Forall_inserts. Qed.

(** Number held in [n] big-endian bytes of a buffer. *)
Lemma of_be_snoc l b : of_be (l ++ [b]) = of_be l * 256 + b.
Proof. unfold of_be. by rewrite fold_left_app. Qed.

Lemma of_be_range l :
  Forall is_byte l -> 0 <= of_be l < 256 ^ Z.of_nat (length l).
Proof.
  induction l as [|b l IH] using rev_ind; intros Hl; [done|].
  apply Forall_app in Hl as [Hl Hb]. rewrite Forall_singleton in Hb. unfold is_byte in Hb.
  specialize (IH Hl). rewrite of_be_snoc, length_app, Nat2Z.inj_add, Z.pow_add_r by lia.
  change (256 ^ Z.of_nat (length [b])) with 256. nia.
Qed.

(** ** Lists *)

Lemma Forall_weaken {A} (P Q : A -> Prop) l :
  Forall P l -> (forall x, P x -> Q x) -> Forall Q l.
Proof. induction 1; auto. Qed.

Lemma Forall_elem {A} (P : A -> Prop) l x : Forall P l -> x ∈ l -> P x.
Proof. induction 1; intros Hx; [by apply elem_of_nil in Hx|]. by apply elem_of_cons in Hx as [->|Hx]; auto. Qed.

Lemma list_alter_insert {A} (f : A -> A) (l : list A) (i : nat) (x : A) : l !! i = Some x -> alter f i l = <[i := f x]> l.
Proof.
  revert i. induction l as [|y l IH]; intros [|i] H; try done; simpl in *; [by injection H as ->|].
  f_equal. by apply IH.
Qed.

Lemma some_not_none {A} (o : option A) : is_Some o -> o = None -> False.
Proof. intros [x ->]. done. Qed.

(** ** Automation shared by the components *)

Create HintDb lltd.
#[export] Hint Resolve u8_range u16_range u32_range be16_bytes be32_bytes : lltd.
#[export] Hint Resolve load_length store_length : lltd.

(** Split hypotheses and boolean tests into propositions that [lia] uses. *)
Ltac bool_to_prop :=
  repeat match goal with
  | H : (_ && _)%bool = true |- _ => apply andb_true_iff in H; destruct H
  | H : (_ || _)%bool = false |- _ => apply orb_false_iff in H; destruct H
  | H : negb _ = true |- _ => apply negb_true_iff in H
  | H : negb _ = false |- _ => apply negb_false_iff in H
  | H : (_ =? _) = true |- _ => apply Z.eqb_eq in H
  | H : (_ =? _) = false |- _ => apply Z.eqb_neq in H
  | H : (_ <? _) = true |- _ => apply Z.ltb_lt in H
  | H : (_ <? _) = false |- _ => apply Z.ltb_ge in H
  | H : (_ <=? _) = true |- _ => apply Z.leb_le in H
  | H : (_ <=? _) = false |- _ => apply Z.leb_gt in H
  | H : bool_decide _ = true |- _ => apply bool_decide_eq_true in H
  | H : bool_decide _ = false |- _ => apply bool_decide_eq_false in H
  end.
