(* ===== verification/LltdTypes.v ===== *)
(** * LltdTypes: the data of the LLTD responder (lld2d)

    Protocol constants and packet layouts of protocol.h and qosprotocol.h, the
    types of lld2d_types.h, smevent.h, band.h, tlv.h and qosglobals.h, the
    process state of globals.h with one assignment function per global, and
    the interface [Env] of the operating system the daemon calls. *)

From S2P Require Import Prelude.

(** ** Constants of protocol.h *)

Definition TOPO_ETHERTYPE : Z := 0x88D9.
Definition TOPO_VERSION : Z := 1.
Definition TOPO_MAX_FRAMESZ : Z := 1514.
Definition RXBUFSZ : Z := 2048.
Definition TXBUFSZ : Z := 2048.
Definition MAX_NUM_SESSIONS : nat := 11.
Definition NUM_SEES : Z := 1024.

(** lld2_tos_t *)
Definition ToS_TopologyDiscovery : Z := 0.
Definition ToS_QuickDiscovery : Z := 1.
Definition ToS_QoSDiagnostics : Z := 2.
Definition ToS_MAX : Z := 3.
Definition ToS_Unknown : Z := 4.

(** topo_opcode_t *)
Definition Opcode_Discover : Z := 0.
Definition Opcode_Hello : Z := 1.
Definition Opcode_Emit : Z := 2.
Definition Opcode_Train : Z := 3.
Definition Opcode_Probe : Z := 4.
Definition Opcode_ACK : Z := 5.
Definition Opcode_Query : Z := 6.
Definition Opcode_QueryResp : Z := 7.
Definition Opcode_Reset : Z := 8.
Definition Opcode_Charge : Z := 9.
Definition Opcode_Flat : Z := 10.
Definition Opcode_QueryLargeTlv : Z := 11.
Definition Opcode_QueryLargeTlvResp : Z := 12.
Definition Opcode_INVALID : Z := 13.

Definition BCAST_VALID (op : Z) : bool :=
  (op =? Opcode_Hello) || (op =? Opcode_Discover) || (op =? Opcode_Reset).

Definition SEQNUM_VALID (op : Z) : bool :=
  (op =? Opcode_Discover) || (op =? Opcode_Emit) || (op =? Opcode_ACK)
  || (op =? Opcode_Query) || (op =? Opcode_QueryResp) || (op =? Opcode_Charge)
  || (op =? Opcode_Flat) || (op =? Opcode_QueryLargeTlv)
  || (op =? Opcode_QueryLargeTlvResp).

Definition SEQNUM_REQUIRED (op : Z) : bool :=
  (op =? Opcode_ACK) || (op =? Opcode_Query) || (op =? Opcode_QueryResp)
  || (op =? Opcode_Flat).

Definition SEQNUM_NEXT (s : Z) : Z :=
  if Z.land (s + 1) 0xFFFF =? 0 then 1 else s + 1.

Definition TOPO_HELLO_ACTIVITYTIMEOUT : Z := 15000.
Definition TOPO_CMD_ACTIVITYTIMEOUT : Z := 60000.
Definition TOPO_GENERAL_ACTIVITYTIMEOUT : Z := 30000.
Definition TOPO_CHARGE_TIMEOUT : Z := 1000.
Definition TOPO_TOTALPAUSE_MAX : Z := 1000.
Definition TOPO_CTC_PACKETS_MAX : Z := 64.
Definition TOPO_CTC_BYTES_MAX : Z := 65536.

(** ** Packet layouts

    The structures are packed (14, 18, 4, 14, 2, 14, 2, 20, 6 and 4 bytes); a
    field is an offset from the start of its header. *)

Definition sizeof_etheraddr : Z := 6.
(** topo_ether_header_t *)
Definition eh_dst : Z := 0.
Definition eh_src : Z := 6.
Definition eh_ethertype : Z := 12.
Definition sizeof_ether_header : Z := 14.
(** topo_base_header_t, which follows the Ethernet header *)
Definition tbh_version : Z := 14 + 0.
Definition tbh_tos : Z := 14 + 1.
Definition tbh_resrvd : Z := 14 + 2.
Definition tbh_opcode : Z := 14 + 3.
Definition tbh_realdst : Z := 14 + 4.
Definition tbh_realsrc : Z := 14 + 10.
Definition tbh_seqnum : Z := 14 + 16.
Definition sizeof_base_header : Z := 18.
(** the headers that follow the base header *)
Definition mh_gen : Z := 32 + 0.
Definition mh_numstations : Z := 32 + 2.
Definition sizeof_discover_header : Z := 4.
Definition hh_gen : Z := 32 + 0.
Definition hh_curmapraddr : Z := 32 + 2.
Definition hh_aprmapraddr : Z := 32 + 8.
Definition sizeof_hello_header : Z := 14.
Definition eh_numdescs : Z := 32 + 0.
Definition sizeof_emit_header : Z := 2.
Definition qr_numdescs : Z := 32 + 0.
Definition sizeof_queryresp_header : Z := 2.
Definition fh_ctc_bytes : Z := 32 + 0.
Definition fh_ctc_packets : Z := 32 + 4.
Definition qh_type : Z := 32 + 0.
Definition qh_rsvd1 : Z := 32 + 1.
Definition qh_offset : Z := 32 + 2.
Definition sizeof_qltlv_header : Z := 4.
(** topo_emitee_desc_t, as offsets from the descriptor *)
Definition ed_type : Z := 0.
Definition ed_pause : Z := 1.
Definition ed_src : Z := 2.
Definition ed_dst : Z := 8.
Definition sizeof_emitee_desc : Z := 14.

(** topo_recvee_desc_t: one entry of the sees-list. *)
Record recvee_desc : Type := RecveeDesc {
  rd_type : Z;          (* 0 = Probe, 1 = ARP *)
  rd_realsrc : list Z;
  rd_src : list Z;
  rd_dst : list Z
}.
Definition sizeof_recvee_desc : Z := 20.
(** The bytes of an entry, in the order the structure lays them out. *)
Definition recvee_bytes (d : recvee_desc) : list Z :=
  be16 (rd_type d) ++ rd_realsrc d ++ rd_src d ++ rd_dst d.

(** ** Ethernet addresses (util.h): six bytes *)

Definition Etheraddr_broadcast : list Z := [0xff; 0xff; 0xff; 0xff; 0xff; 0xff].
Definition Etheraddr_null : list Z := [0; 0; 0; 0; 0; 0].

Definition ETHERADDR_EQUALS (x y : list Z) : bool :=
  match x, y with
  | [x0; x1; x2; x3; x4; x5], [y0; y1; y2; y3; y4; y5] =>
      (x0 =? y0) && (x1 =? y1) && (x2 =? y2) && (x3 =? y3) && (x4 =? y4) && (x5 =? y5)
  | _, _ => false
  end.

Definition ETHERADDR_IS_BCAST (x : list Z) : bool := ETHERADDR_EQUALS x Etheraddr_broadcast.

Definition ETHERADDR_IS_MCAST (x : list Z) : bool :=
  match x with a0 :: _ => Z.land a0 0x01 =? 0x01 | [] => false end.

(** The block of source addresses that an Emit may use. *)
Definition TOPO_ETHERADDR_OUI (hw : list Z) : bool :=
  match hw with
  | [a0; a1; a2; a3; a4; a5] =>
      (a0 =? 0x00) && (a1 =? 0x0d) && (a2 =? 0x3a)
      && (0xd7f140 <=? Z.lor (Z.lor (Z.shiftl a3 16) (Z.shiftl a4 8)) a5)
  | _ => false
  end.

(** ** Types of lld2d_types.h, smevent.h and band.h *)

Record timeval : Type := Timeval { tv_sec : Z; tv_usec : Z }.

Inductive smS_state : Type := smS_Nascent | smS_Pending | smS_Temporary | smS_Complete.
Inductive smE_state : Type := smE_Quiescent | smE_Pausing | smE_Wait.
Inductive smT_state : Type := smT_Quiescent | smT_Command | smT_Emit.
Inductive sm_Status : Type := PROCESSING_COMPLETED | KEEP_GOING | PROCESSING_ABORTED.

Inductive smEvent : Type :=
  | evtPacketRcvd | evtDiscoverRcvd | evtEmitRcvd | evtResetRcvd
  | evtBlockTimeout | evtChargeTimeout | evtEmitTimeout | evtHelloDelayTimeout
  | evtInactivityTimeout | evtInvalidPacket.

#[export] Instance smS_state_eq_dec : EqDecision smS_state.
Proof. solve_decision. Defined.
#[export] Instance smE_state_eq_dec : EqDecision smE_state.
Proof. solve_decision. Defined.
#[export] Instance smT_state_eq_dec : EqDecision smT_state.
Proof. solve_decision. Defined.
#[export] Instance sm_Status_eq_dec : EqDecision sm_Status.
Proof. solve_decision. Defined.
#[export] Instance smEvent_eq_dec : EqDecision smEvent.
Proof. solve_decision. Defined.

(** session_t; a session pointer is an index into [g_sessions]. *)
Record session : Type := Session {
  ssn_is_valid : bool;
  ssn_state : smS_state;
  ssn_count : Z;                 (* uint *)
  ssn_XID : Z;                   (* uint16_t *)
  ssn_mapper_real : list Z;
  ssn_mapper_current : list Z;
  ssn_use_broadcast : bool;
  ssn_TypeOfSvc : Z;             (* uint8_t *)
  ssn_InactivityTimer : option nat
}.

(** The fields of a session that the code assigns one at a time. *)
Definition set_ssn_valid (v : bool) (s : session) : session :=
  Session v (ssn_state s) (ssn_count s) (ssn_XID s) (ssn_mapper_real s)
    (ssn_mapper_current s) (ssn_use_broadcast s) (ssn_TypeOfSvc s) (ssn_InactivityTimer s).
Definition set_ssn_state (v : smS_state) (s : session) : session :=
  Session (ssn_is_valid s) v (ssn_count s) (ssn_XID s) (ssn_mapper_real s)
    (ssn_mapper_current s) (ssn_use_broadcast s) (ssn_TypeOfSvc s) (ssn_InactivityTimer s).
Definition set_ssn_count (v : Z) (s : session) : session :=
  Session (ssn_is_valid s) (ssn_state s) v (ssn_XID s) (ssn_mapper_real s)
    (ssn_mapper_current s) (ssn_use_broadcast s) (ssn_TypeOfSvc s) (ssn_InactivityTimer s).
Definition set_ssn_XID (v : Z) (s : session) : session :=
  Session (ssn_is_valid s) (ssn_state s) (ssn_count s) v (ssn_mapper_real s)
    (ssn_mapper_current s) (ssn_use_broadcast s) (ssn_TypeOfSvc s) (ssn_InactivityTimer s).
Definition set_ssn_timer (v : option nat) (s : session) : session :=
  Session (ssn_is_valid s) (ssn_state s) (ssn_count s) (ssn_XID s) (ssn_mapper_real s)
    (ssn_mapper_current s) (ssn_use_broadcast s) (ssn_TypeOfSvc s) v.

(** protocol_event_t *)
Record protocol_event : Type := ProtocolEvent {
  evtType : smEvent;
  evt_ssn : option nat;          (* None = NULL *)
  isNewSession : bool;
  isAckingMe : bool;
  isInternalEvt : bool;
  numDescrs : Z                  (* uint *)
}.
Definition set_evtType (v : smEvent) (e : protocol_event) : protocol_event :=
  ProtocolEvent v (evt_ssn e) (isNewSession e) (isAckingMe e) (isInternalEvt e) (numDescrs e).
Definition set_evt_ssn (v : option nat) (e : protocol_event) : protocol_event :=
  ProtocolEvent (evtType e) v (isNewSession e) (isAckingMe e) (isInternalEvt e) (numDescrs e).
Definition set_isNewSession (v : bool) (e : protocol_event) : protocol_event :=
  ProtocolEvent (evtType e) (evt_ssn e) v (isAckingMe e) (isInternalEvt e) (numDescrs e).
Definition set_isAckingMe (v : bool) (e : protocol_event) : protocol_event :=
  ProtocolEvent (evtType e) (evt_ssn e) (isNewSession e) v (isInternalEvt e) (numDescrs e).
Definition set_isInternalEvt (v : bool) (e : protocol_event) : protocol_event :=
  ProtocolEvent (evtType e) (evt_ssn e) (isNewSession e) (isAckingMe e) v (numDescrs e).
Definition set_numDescrs (v : Z) (e : protocol_event) : protocol_event :=
  ProtocolEvent (evtType e) (evt_ssn e) (isNewSession e) (isAckingMe e) (isInternalEvt e) v.

(** The functions the event list may call (event_fn_t). *)
Inductive event_fn : Type :=
  | state_block_timeout_fn | state_charge_timeout_fn | state_emit_timeout_fn
  | state_hello_delay_timeout_fn | state_inactivity_timeout_fn
  | qos_inactivity_timeout_fn | interface_counter_recorder_fn.
#[export] Instance event_fn_eq_dec : EqDecision event_fn.
Proof. solve_decision. Defined.

(** event_t; [ev_addr] is the address of the allocated structure, [ev_state]
    its [void *], which is NULL or a session pointer. *)
Record event : Type := Event {
  ev_addr : nat;
  ev_firetime : timeval;
  ev_function : event_fn;
  ev_state : option nat
}.

(** band_t and the constants of band.h *)
Definition BAND_NMAX : Z := 10000.
Definition BAND_ALPHA : Z := 45.
Definition BAND_BETA : Z := 2.
Definition BAND_GAMMA : Z := 10.
Definition BAND_TXC : Z := 4.
Definition BAND_BLOCK_TIME : Z := 300.
(** A [uint32_t] expression. *)
Definition BAND_MUL_FRAME (x : Z) : Z := u32 (u32 (x * 20) + 2) / 3.
Record band : Type := Band { Ni : Z; b_r : Z; begun : bool }.

(** topo_seeslist_st *)
Record seeslist : Type := Seeslist {
  sl_data : list recvee_desc;
  sl_count : Z;
  sl_wr : Z;
  sl_rd : Z
}.

(** ** Types of tlv.h *)

Inductive tlv_access_t : Type := Access_invalid | Access_unset | Access_static | Access_dynamic.

(** The C types of tlvdef.h, which select the writer of a TLV. *)
Inductive tlv_ctype : Type :=
  | C_etheraddr | C_uint8 | C_uint16 | C_uint32 | C_uint64 | C_ipv4addr | C_ipv6addr
  | C_ucs2char | C_icon_file | C_lg_icon | C_assns | C_comptbl.

Record assn_table_entry : Type := AssnEntry {
  assn_MACaddr : list Z;
  assn_MOR : list Z;             (* the two bytes of a uint16_t in memory *)
  assn_PHYtype : Z
}.
Record radio : Type := Radio {
  radio_MOR : list Z;            (* two bytes *)
  radio_PHYtype : Z;
  radio_mode : Z;
  radio_BSSID : list Z
}.
Record comptbl : Type := Comptbl {
  ct_version : Z;
  ct_bridge_behavior : Z;
  ct_link_speed : list Z;        (* four bytes *)
  ct_radios : list radio
}.

(** The storage of a TLV in [g_info]: the bytes of a scalar or string in
    memory, an icon file (its size and the contents behind the descriptor, or
    no descriptor), the association table (NULL or allocated, with its count)
    or the component table. *)
Inductive tlv_data : Type :=
  | D_mem (bytes : list Z)
  | D_icon (sz_iconfile : Z) (fd_icon : option (list Z))
  | D_assns (table : option (list assn_table_entry)) (assn_cnt : Z)
  | D_comptbl (t : comptbl).

(** tlv_desc_t with the storage its [offset] designates. *)
Record tlv_desc : Type := TlvDesc {
  tlv_number : Z;
  tlv_access : tlv_access_t;
  tlv_inHello : bool;
  tlv_get : bool;                (* the get function is not NULL *)
  tlv_write : tlv_ctype;
  tlv_storage : tlv_data
}.

(** ** Types of qosprotocol.h and qosglobals.h *)

Definition MAX_QOS_SESSIONS : nat := 10.
Definition MAX_QOS_BUCKETS : Z := 8.
Definition MAX_QOS_EVENTS_PER_BUCKET : Z := 32.
Definition sizeof_qosEventDescr : Z := 18.

Record qosEventBucket : Type := QosBucket {
  evt_seqNum : Z;
  evt_numEvts : Z;
  evt_descs : list (list Z)      (* MAX_QOS_EVENTS_PER_BUCKET times 18 bytes *)
}.
Record qos_session : Type := QosSession {
  qssn_ticks_til_discard : Z;
  qssn_first_bucket : Z;
  qssn_num_active_buckets : Z;
  qssn_evt_buckets : list qosEventBucket;
  qssn_ctrlr_real : list Z;
  qssn_is_valid : bool
}.
Record perf_sample : Type := PerfSample {
  bytes_rcvd : Z;
  pkts_rcvd : Z;
  bytes_sent : Z;
  pkts_sent : Z
}.

(** ** The operating system

    What the daemon hands to the operating system, in order. *)
Inductive output : Type :=
  | Frame (bytes : list Z)       (* write() on the packet socket *)
  | Promisc (on : bool).         (* osl_set_promisc *)

(** The system calls and library functions the daemon uses.  Each call carries
    the number of calls made before it, so two calls may answer differently. *)
Class Env : Type := {
  (** gettimeofday *)
  env_now : nat -> timeval;
  (** random_uniform (rand() scaled in floating point) *)
  env_random_uniform : nat -> Z -> Z;
  (** malloc: true when memory is available *)
  env_malloc : nat -> bool;
  (** write(sock, buf, n): its return value *)
  env_write : nat -> Z -> Z;
  (** the two ioctl calls of osl_set_promisc both succeed *)
  env_promisc : nat -> bool;
  (** the get function of a TLV: its new value, or failure *)
  env_tlv_get : nat -> Z -> option tlv_data;
  (** lseek and read on an icon file succeed *)
  env_lseek : nat -> bool;
  env_read : nat -> bool;
  (** the counters of /proc/net/dev: file cannot be opened (None), opened
      without a line for the interface (Some None), or read *)
  env_netdev : nat -> option (option (Z * Z * Z * Z));
  (** ioctl(SIOCGSTAMP) *)
  env_stamp : nat -> timeval;
  (** the address of g_rxbuf minus the address of g_txbuf *)
  env_rx_minus_tx : Z
}.

(** What POSIX says of them: microseconds are below a second, and the range
    util.h documents for random_uniform. *)
Class EnvLaws (E : Env) : Prop := {
  env_now_usec n : 0 <= tv_usec (env_now n) < 1000000;
  env_random_range n upper : 0 <= upper -> 0 <= env_random_uniform n upper <= upper
}.

(** ** Globals of globals.h *)

(** State: the state machines' own globals. *)
Record core : Type := Core {
  g_smE_state : smE_state;  (* enumeration machine *)
  g_smT_state : smT_state;  (* topology machine *)
  g_this_event : protocol_event;  (* the event being processed *)
  g_sessions : list session;  (* MAX_NUM_SESSIONS entries *)
  g_topo_session : option nat;  (* pointer into g_sessions, None = NULL *)
  g_generation : Z;  (* uint16_t *)
  g_hwaddr : list Z  (* etheraddr_t of this interface *)
}.

(** State: event.c's list and the timer pointers. *)
Record timers : Type := Timers {
  Events : list event;  (* sorted by firing time *)
  next_event : nat;  (* address of the next event allocated *)
  g_block_timer : option nat;  (* None = NULL *)
  g_charge_timer : option nat;
  g_emit_timer : option nat;
  g_hello_timer : option nat;
  g_qos_inactivity_timer : option nat;
  g_qos_CTA_timer : option nat
}.

(** State: receive context. *)
Record rxctx : Type := RxCtx {
  g_rxbuf : list Z;  (* RXBUFSZ bytes *)
  g_rcvd_pkt_len : Z;  (* size_t *)
  g_sequencenum : Z;  (* uint16_t *)
  g_opcode : Z  (* uint *)
}.

(** State: transmit context. *)
Record txctx : Type := TxCtx {
  g_txbuf : list Z;  (* TXBUFSZ bytes *)
  g_re_txbuf : list Z;  (* TXBUFSZ bytes *)
  g_rtxseqnum : Z;  (* uint16_t *)
  g_tx_len : Z;  (* size_t *)
  g_re_tx_len : Z;  (* size_t *)
  g_re_tx_opcode : Z  (* uint8_t *)
}.

(** State: transmit credit. *)
Record charge : Type := Charge {
  g_ctc_packets : Z;  (* uint32_t *)
  g_ctc_bytes : Z;  (* uint32_t *)
  g_totalPause : Z;  (* uint32_t *)
  g_neededPackets : Z;  (* uint32_t *)
  g_neededBytes : Z  (* uint32_t *)
}.

(** State: the QoS sink. *)
Record qosst : Type := QosSt {
  g_QosSessions : list qos_session;  (* MAX_QOS_SESSIONS entries *)
  g_LinkSpeed : Z;  (* uint32_t *)
  g_TimeStampFreq : Z;  (* uint64_t *)
  g_pktio_timestamp : Z;  (* uint64_t *)
  g_perf_timestamp : Z;  (* uint64_t *)
  g_perf_samples : list perf_sample;  (* 60 entries *)
  g_next_sample : Z;  (* uint32_t *)
  g_sample_count : Z;  (* uint32_t *)
  g_samples_remaining : Z;  (* uint32_t *)
  g_rbytes : Z;  (* uint32_t *)
  g_rpkts : Z;  (* uint32_t *)
  g_tbytes : Z;  (* uint32_t *)
  g_tpkts : Z  (* uint32_t *)
}.

(** State: what the daemon exchanged with the operating system. *)
Record osst : Type := OsSt {
  os_clk : nat;  (* number of calls made to it *)
  os_out : list output  (* frames sent and mode changes, oldest first *)
}.

(** State: the Emit in progress. *)
Record emitst : Type := EmitSt {
  g_emitbuf : list Z;  (* RXBUFSZ bytes *)
  g_emit_remaining : Z;  (* uint16_t *)
  g_emit_seqnum : Z;  (* uint16_t *)
  g_emitdesc : option Z  (* pointer into g_emitbuf, as an offset *)
}.

(** The whole process state: every global of the daemon. *)
Record G : Type := MkG {
  co : core;  (* the state machines' own globals *)
  tm : timers;  (* event.c's list and the timer pointers *)
  rx : rxctx;  (* receive context *)
  tx : txctx;  (* transmit context *)
  ch : charge;  (* transmit credit *)
  qs : qosst;  (* the QoS sink *)
  os : osst;  (* what the daemon exchanged with the operating system *)
  em : emitst;  (* the Emit in progress *)
  g_sees : seeslist;  (* the sees-list *)
  g_band : band;  (* BAND load control *)
  g_tlvs : list tlv_desc  (* Tlvs[] and g_info *)
}.

(** ** Assignments to the globals *)

Definition set_co (v : core) (g : G) : G :=
  MkG v (tm g) (rx g) (tx g) (ch g) (qs g) (os g) (em g) (g_sees g) (g_band g) (g_tlvs g).
Definition set_tm (v : timers) (g : G) : G :=
  MkG (co g) v (rx g) (tx g) (ch g) (qs g) (os g) (em g) (g_sees g) (g_band g) (g_tlvs g).
Definition set_rx (v : rxctx) (g : G) : G :=
  MkG (co g) (tm g) v (tx g) (ch g) (qs g) (os g) (em g) (g_sees g) (g_band g) (g_tlvs g).
Definition set_tx (v : txctx) (g : G) : G :=
  MkG (co g) (tm g) (rx g) v (ch g) (qs g) (os g) (em g) (g_sees g) (g_band g) (g_tlvs g).
Definition set_ch (v : charge) (g : G) : G :=
  MkG (co g) (tm g) (rx g) (tx g) v (qs g) (os g) (em g) (g_sees g) (g_band g) (g_tlvs g).
Definition set_qs (v : qosst) (g : G) : G :=
  MkG (co g) (tm g) (rx g) (tx g) (ch g) v (os g) (em g) (g_sees g) (g_band g) (g_tlvs g).
Definition set_os (v : osst) (g : G) : G :=
  MkG (co g) (tm g) (rx g) (tx g) (ch g) (qs g) v (em g) (g_sees g) (g_band g) (g_tlvs g).
Definition set_em (v : emitst) (g : G) : G :=
  MkG (co g) (tm g) (rx g) (tx g) (ch g) (qs g) (os g) v (g_sees g) (g_band g) (g_tlvs g).
Definition set_g_sees (v : seeslist) (g : G) : G :=
  MkG (co g) (tm g) (rx g) (tx g) (ch g) (qs g) (os g) (em g) v (g_band g) (g_tlvs g).
Definition set_g_band (v : band) (g : G) : G :=
  MkG (co g) (tm g) (rx g) (tx g) (ch g) (qs g) (os g) (em g) (g_sees g) v (g_tlvs g).
Definition set_g_tlvs (v : list tlv_desc) (g : G) : G :=
  MkG (co g) (tm g) (rx g) (tx g) (ch g) (qs g) (os g) (em g) (g_sees g) (g_band g) v.

Definition set_g_smE_state (v : smE_state) (g : G) : G :=
  set_co (let r := co g in Core v (g_smT_state r) (g_this_event r) (g_sessions r) (g_topo_session r) (g_generation r) (g_hwaddr r)) g.
Definition set_g_smT_state (v : smT_state) (g : G) : G :=
  set_co (let r := co g in Core (g_smE_state r) v (g_this_event r) (g_sessions r) (g_topo_session r) (g_generation r) (g_hwaddr r)) g.
Definition set_g_this_event (v : protocol_event) (g : G) : G :=
  set_co (let r := co g in Core (g_smE_state r) (g_smT_state r) v (g_sessions r) (g_topo_session r) (g_generation r) (g_hwaddr r)) g.
Definition set_g_sessions (v : list session) (g : G) : G :=
  set_co (let r := co g in Core (g_smE_state r) (g_smT_state r) (g_this_event r) v (g_topo_session r) (g_generation r) (g_hwaddr r)) g.
Definition set_g_topo_session (v : option nat) (g : G) : G :=
  set_co (let r := co g in Core (g_smE_state r) (g_smT_state r) (g_this_event r) (g_sessions r) v (g_generation r) (g_hwaddr r)) g.
Definition set_g_generation (v : Z) (g : G) : G :=
  set_co (let r := co g in Core (g_smE_state r) (g_smT_state r) (g_this_event r) (g_sessions r) (g_topo_session r) v (g_hwaddr r)) g.
Definition set_g_hwaddr (v : list Z) (g : G) : G :=
  set_co (let r := co g in Core (g_smE_state r) (g_smT_state r) (g_this_event r) (g_sessions r) (g_topo_session r) (g_generation r) v) g.

Definition set_Events (v : list event) (g : G) : G :=
  set_tm (let r := tm g in Timers v (next_event r) (g_block_timer r) (g_charge_timer r) (g_emit_timer r) (g_hello_timer r) (g_qos_inactivity_timer r) (g_qos_CTA_timer r)) g.
Definition set_next_event (v : nat) (g : G) : G :=
  set_tm (let r := tm g in Timers (Events r) v (g_block_timer r) (g_charge_timer r) (g_emit_timer r) (g_hello_timer r) (g_qos_inactivity_timer r) (g_qos_CTA_timer r)) g.
Definition set_g_block_timer (v : option nat) (g : G) : G :=
  set_tm (let r := tm g in Timers (Events r) (next_event r) v (g_charge_timer r) (g_emit_timer r) (g_hello_timer r) (g_qos_inactivity_timer r) (g_qos_CTA_timer r)) g.
Definition set_g_charge_timer (v : option nat) (g : G) : G :=
  set_tm (let r := tm g in Timers (Events r) (next_event r) (g_block_timer r) v (g_emit_timer r) (g_hello_timer r) (g_qos_inactivity_timer r) (g_qos_CTA_timer r)) g.
Definition set_g_emit_timer (v : option nat) (g : G) : G :=
  set_tm (let r := tm g in Timers (Events r) (next_event r) (g_block_timer r) (g_charge_timer r) v (g_hello_timer r) (g_qos_inactivity_timer r) (g_qos_CTA_timer r)) g.
Definition set_g_hello_timer (v : option nat) (g : G) : G :=
  set_tm (let r := tm g in Timers (Events r) (next_event r) (g_block_timer r) (g_charge_timer r) (g_emit_timer r) v (g_qos_inactivity_timer r) (g_qos_CTA_timer r)) g.
Definition set_g_qos_inactivity_timer (v : option nat) (g : G) : G :=
  set_tm (let r := tm g in Timers (Events r) (next_event r) (g_block_timer r) (g_charge_timer r) (g_emit_timer r) (g_hello_timer r) v (g_qos_CTA_timer r)) g.
Definition set_g_qos_CTA_timer (v : option nat) (g : G) : G :=
  set_tm (let r := tm g in Timers (Events r) (next_event r) (g_block_timer r) (g_charge_timer r) (g_emit_timer r) (g_hello_timer r) (g_qos_inactivity_timer r) v) g.

Definition set_g_rxbuf (v : list Z) (g : G) : G :=
  set_rx (let r := rx g in RxCtx v (g_rcvd_pkt_len r) (g_sequencenum r) (g_opcode r)) g.
Definition set_g_rcvd_pkt_len (v : Z) (g : G) : G :=
  set_rx (let r := rx g in RxCtx (g_rxbuf r) v (g_sequencenum r) (g_opcode r)) g.
Definition set_g_sequencenum (v : Z) (g : G) : G :=
  set_rx (let r := rx g in RxCtx (g_rxbuf r) (g_rcvd_pkt_len r) v (g_opcode r)) g.
Definition set_g_opcode (v : Z) (g : G) : G :=
  set_rx (let r := rx g in RxCtx (g_rxbuf r) (g_rcvd_pkt_len r) (g_sequencenum r) v) g.

Definition set_g_txbuf (v : list Z) (g : G) : G :=
  set_tx (let r := tx g in TxCtx v (g_re_txbuf r) (g_rtxseqnum r) (g_tx_len r) (g_re_tx_len r) (g_re_tx_opcode r)) g.
Definition set_g_re_txbuf (v : list Z) (g : G) : G :=
  set_tx (let r := tx g in TxCtx (g_txbuf r) v (g_rtxseqnum r) (g_tx_len r) (g_re_tx_len r) (g_re_tx_opcode r)) g.
Definition set_g_rtxseqnum (v : Z) (g : G) : G :=
  set_tx (let r := tx g in TxCtx (g_txbuf r) (g_re_txbuf r) v (g_tx_len r) (g_re_tx_len r) (g_re_tx_opcode r)) g.
Definition set_g_tx_len (v : Z) (g : G) : G :=
  set_tx (let r := tx g in TxCtx (g_txbuf r) (g_re_txbuf r) (g_rtxseqnum r) v (g_re_tx_len r) (g_re_tx_opcode r)) g.
Definition set_g_re_tx_len (v : Z) (g : G) : G :=
  set_tx (let r := tx g in TxCtx (g_txbuf r) (g_re_txbuf r) (g_rtxseqnum r) (g_tx_len r) v (g_re_tx_opcode r)) g.
Definition set_g_re_tx_opcode (v : Z) (g : G) : G :=
  set_tx (let r := tx g in TxCtx (g_txbuf r) (g_re_txbuf r) (g_rtxseqnum r) (g_tx_len r) (g_re_tx_len r) v) g.

Definition set_g_ctc_packets (v : Z) (g : G) : G :=
  set_ch (let r := ch g in Charge v (g_ctc_bytes r) (g_totalPause r) (g_neededPackets r) (g_neededBytes r)) g.
Definition set_g_ctc_bytes (v : Z) (g : G) : G :=
  set_ch (let r := ch g in Charge (g_ctc_packets r) v (g_totalPause r) (g_neededPackets r) (g_neededBytes r)) g.
Definition set_g_totalPause (v : Z) (g : G) : G :=
  set_ch (let r := ch g in Charge (g_ctc_packets r) (g_ctc_bytes r) v (g_neededPackets r) (g_neededBytes r)) g.
Definition set_g_neededPackets (v : Z) (g : G) : G :=
  set_ch (let r := ch g in Charge (g_ctc_packets r) (g_ctc_bytes r) (g_totalPause r) v (g_neededBytes r)) g.
Definition set_g_neededBytes (v : Z) (g : G) : G :=
  set_ch (let r := ch g in Charge (g_ctc_packets r) (g_ctc_bytes r) (g_totalPause r) (g_neededPackets r) v) g.

Definition set_g_QosSessions (v : list qos_session) (g : G) : G :=
  set_qs (let r := qs g in QosSt v (g_LinkSpeed r) (g_TimeStampFreq r) (g_pktio_timestamp r) (g_perf_timestamp r) (g_perf_samples r) (g_next_sample r) (g_sample_count r) (g_samples_remaining r) (g_rbytes r) (g_rpkts r) (g_tbytes r) (g_tpkts r)) g.
Definition set_g_LinkSpeed (v : Z) (g : G) : G :=
  set_qs (let r := qs g in QosSt (g_QosSessions r) v (g_TimeStampFreq r) (g_pktio_timestamp r) (g_perf_timestamp r) (g_perf_samples r) (g_next_sample r) (g_sample_count r) (g_samples_remaining r) (g_rbytes r) (g_rpkts r) (g_tbytes r) (g_tpkts r)) g.
Definition set_g_TimeStampFreq (v : Z) (g : G) : G :=
  set_qs (let r := qs g in QosSt (g_QosSessions r) (g_LinkSpeed r) v (g_pktio_timestamp r) (g_perf_timestamp r) (g_perf_samples r) (g_next_sample r) (g_sample_count r) (g_samples_remaining r) (g_rbytes r) (g_rpkts r) (g_tbytes r) (g_tpkts r)) g.
Definition set_g_pktio_timestamp (v : Z) (g : G) : G :=
  set_qs (let r := qs g in QosSt (g_QosSessions r) (g_LinkSpeed r) (g_TimeStampFreq r) v (g_perf_timestamp r) (g_perf_samples r) (g_next_sample r) (g_sample_count r) (g_samples_remaining r) (g_rbytes r) (g_rpkts r) (g_tbytes r) (g_tpkts r)) g.
Definition set_g_perf_timestamp (v : Z) (g : G) : G :=
  set_qs (let r := qs g in QosSt (g_QosSessions r) (g_LinkSpeed r) (g_TimeStampFreq r) (g_pktio_timestamp r) v (g_perf_samples r) (g_next_sample r) (g_sample_count r) (g_samples_remaining r) (g_rbytes r) (g_rpkts r) (g_tbytes r) (g_tpkts r)) g.
Definition set_g_perf_samples (v : list perf_sample) (g : G) : G :=
  set_qs (let r := qs g in QosSt (g_QosSessions r) (g_LinkSpeed r) (g_TimeStampFreq r) (g_pktio_timestamp r) (g_perf_timestamp r) v (g_next_sample r) (g_sample_count r) (g_samples_remaining r) (g_rbytes r) (g_rpkts r) (g_tbytes r) (g_tpkts r)) g.
Definition set_g_next_sample (v : Z) (g : G) : G :=
  set_qs (let r := qs g in QosSt (g_QosSessions r) (g_LinkSpeed r) (g_TimeStampFreq r) (g_pktio_timestamp r) (g_perf_timestamp r) (g_perf_samples r) v (g_sample_count r) (g_samples_remaining r) (g_rbytes r) (g_rpkts r) (g_tbytes r) (g_tpkts r)) g.
Definition set_g_sample_count (v : Z) (g : G) : G :=
  set_qs (let r := qs g in QosSt (g_QosSessions r) (g_LinkSpeed r) (g_TimeStampFreq r) (g_pktio_timestamp r) (g_perf_timestamp r) (g_perf_samples r) (g_next_sample r) v (g_samples_remaining r) (g_rbytes r) (g_rpkts r) (g_tbytes r) (g_tpkts r)) g.
Definition set_g_samples_remaining (v : Z) (g : G) : G :=
  set_qs (let r := qs g in QosSt (g_QosSessions r) (g_LinkSpeed r) (g_TimeStampFreq r) (g_pktio_timestamp r) (g_perf_timestamp r) (g_perf_samples r) (g_next_sample r) (g_sample_count r) v (g_rbytes r) (g_rpkts r) (g_tbytes r) (g_tpkts r)) g.
Definition set_g_rbytes (v : Z) (g : G) : G :=
  set_qs (let r := qs g in QosSt (g_QosSessions r) (g_LinkSpeed r) (g_TimeStampFreq r) (g_pktio_timestamp r) (g_perf_timestamp r) (g_perf_samples r) (g_next_sample r) (g_sample_count r) (g_samples_remaining r) v (g_rpkts r) (g_tbytes r) (g_tpkts r)) g.
Definition set_g_rpkts (v : Z) (g : G) : G :=
  set_qs (let r := qs g in QosSt (g_QosSessions r) (g_LinkSpeed r) (g_TimeStampFreq r) (g_pktio_timestamp r) (g_perf_timestamp r) (g_perf_samples r) (g_next_sample r) (g_sample_count r) (g_samples_remaining r) (g_rbytes r) v (g_tbytes r) (g_tpkts r)) g.
Definition set_g_tbytes (v : Z) (g : G) : G :=
  set_qs (let r := qs g in QosSt (g_QosSessions r) (g_LinkSpeed r) (g_TimeStampFreq r) (g_pktio_timestamp r) (g_perf_timestamp r) (g_perf_samples r) (g_next_sample r) (g_sample_count r) (g_samples_remaining r) (g_rbytes r) (g_rpkts r) v (g_tpkts r)) g.
Definition set_g_tpkts (v : Z) (g : G) : G :=
  set_qs (let r := qs g in QosSt (g_QosSessions r) (g_LinkSpeed r) (g_TimeStampFreq r) (g_pktio_timestamp r) (g_perf_timestamp r) (g_perf_samples r) (g_next_sample r) (g_sample_count r) (g_samples_remaining r) (g_rbytes r) (g_rpkts r) (g_tbytes r) v) g.

Definition set_os_clk (v : nat) (g : G) : G :=
  set_os (let r := os g in OsSt v (os_out r)) g.
Definition set_os_out (v : list output) (g : G) : G :=
  set_os (let r := os g in OsSt (os_clk r) v) g.

Definition set_g_emitbuf (v : list Z) (g : G) : G :=
  set_em (let r := em g in EmitSt v (g_emit_remaining r) (g_emit_seqnum r) (g_emitdesc r)) g.
Definition set_g_emit_remaining (v : Z) (g : G) : G :=
  set_em (let r := em g in EmitSt (g_emitbuf r) v (g_emit_seqnum r) (g_emitdesc r)) g.
Definition set_g_emit_seqnum (v : Z) (g : G) : G :=
  set_em (let r := em g in EmitSt (g_emitbuf r) (g_emit_remaining r) v (g_emitdesc r)) g.
Definition set_g_emitdesc (v : option Z) (g : G) : G :=
  set_em (let r := em g in EmitSt (g_emitbuf r) (g_emit_remaining r) (g_emit_seqnum r) v) g.

(** ** Reading and writing the globals from the monad *)

Abbreviation CM := (M G).

Definition evt_update (f : protocol_event -> protocol_event) (g : G) : G :=
  set_g_this_event (f (g_this_event (co g))) g.

(** Access through a session pointer. *)
Definition ssn_get (p : option nat) : CM session :=
  i ← deref p; ss ← gets (fun g => g_sessions (co g)); in_bounds (ss !! i).
Definition ssn_update (p : option nat) (f : session -> session) : CM unit :=
  i ← deref p; s ← ssn_get p;
  modify (fun g => set_g_sessions (<[i := f s]> (g_sessions (co g))) g).

(** Fields of the received packet, at an offset of [g_rxbuf]. *)
Definition rx_load (n : nat) (off : Z) : CM (list Z) :=
  b ← gets (fun g => g_rxbuf (rx g)); in_bounds (load n b off).
Definition rx8 (off : Z) : CM Z := of_be <$> rx_load 1 off.
Definition rx16 (off : Z) : CM Z := of_be <$> rx_load 2 off.
Definition rx_mac (off : Z) : CM (list Z) := rx_load 6 off.

(** Fields of the packet being built, at an offset of [g_txbuf]. *)
Definition tx_store (bytes : list Z) (off : Z) : CM unit :=
  b ← gets (fun g => g_txbuf (tx g)); b' ← in_bounds (store bytes b off);
  modify (set_g_txbuf b').

(** One call to the operating system. *)
Definition sys {A} (f : nat -> A) : CM A :=
  n ← gets (fun g => os_clk (os g)); modify (fun g => set_os_clk (S n) g);; mret (f n).
Definition emit_output (o : output) : CM unit :=
  modify (fun g => set_os_out (os_out (os g) ++ [o]) g).

(** ** The global buffers

    [rx_ok] and [tx_ok]: the buffers have their size, and the recorded lengths
    describe a part of them. *)

Record rx_ok (r : rxctx) : Prop := RxOk {
  ro_size : Z.of_nat (length (g_rxbuf r)) = RXBUFSZ;
  ro_bytes : Forall is_byte (g_rxbuf r);
  ro_len : 0 <= g_rcvd_pkt_len r <= RXBUFSZ
}.
Record tx_ok (r : txctx) : Prop := TxOk {
  xo_size : Z.of_nat (length (g_txbuf r)) = TXBUFSZ;
  xo_re_size : Z.of_nat (length (g_re_txbuf r)) = TXBUFSZ;
  xo_len : 0 <= g_tx_len r <= TOPO_MAX_FRAMESZ;
  xo_re_len : 0 <= g_re_tx_len r <= TOPO_MAX_FRAMESZ;
  xo_rtx : g_rtxseqnum r <> 0 -> 32 <= g_re_tx_len r
}.

Lemma wp_rx_load n off (Q : list Z -> G -> Prop) g :
  rx_ok (rx g) -> 0 <= off -> off + Z.of_nat n <= 2048 ->
  (forall l, load n (g_rxbuf (rx g)) off = Some l -> length l = n -> Forall is_byte l -> Q l g) ->
  wp (rx_load n off) Q g.
Proof.
  intros [Hs Hb _] H1 H2 HQ. unfold RXBUFSZ in Hs.
  destruct (load n (g_rxbuf (rx g)) off) as [l|] eqn:Hl.
  - unfold rx_load, wp, mbind, M_bind, gets. simpl. rewrite Hl. simpl.
    apply HQ; [done|by eapply load_length|by eapply load_bytes].
  - rewrite load_ok in Hl by lia. done.
Qed.

Lemma wp_rx8 off (Q : Z -> G -> Prop) g :
  rx_ok (rx g) -> 0 <= off < 2048 -> (forall v, 0 <= v < 256 -> Q v g) -> wp (rx8 off) Q g.
Proof.
  intros H Ho HQ. unfold rx8. apply wp_fmap, wp_rx_load; [done|lia..|].
  intros l _ Hl Hb. apply HQ. pose proof (of_be_range l Hb) as Hr. by rewrite Hl in Hr.
Qed.

Lemma wp_rx16 off (Q : Z -> G -> Prop) g :
  rx_ok (rx g) -> 0 <= off <= 2046 -> (forall v, 0 <= v < 65536 -> Q v g) -> wp (rx16 off) Q g.
Proof.
  intros H Ho HQ. unfold rx16. apply wp_fmap, wp_rx_load; [done|lia..|].
  intros l _ Hl Hb. apply HQ. pose proof (of_be_range l Hb) as Hr. by rewrite Hl in Hr.
Qed.

Lemma wp_rx_mac off (Q : list Z -> G -> Prop) g :
  rx_ok (rx g) -> 0 <= off <= 2042 -> (forall l, length l = 6%nat -> Q l g) -> wp (rx_mac off) Q g.
Proof. intros H Ho HQ. apply wp_rx_load; [done|lia..|]. auto. Qed.

Lemma tx_ok_store r b :
  tx_ok r -> length b = length (g_txbuf r) ->
  tx_ok (TxCtx b (g_re_txbuf r) (g_rtxseqnum r) (g_tx_len r) (g_re_tx_len r) (g_re_tx_opcode r)).
Proof. intros [H1 H2 H3 H4 H5] Hb. split; simpl; try done. by rewrite Hb. Qed.

(** A store into the transmit buffer changes nothing else. *)
Lemma wp_tx_store bytes off (Q : unit -> G -> Prop) g :
  tx_ok (tx g) -> 0 <= off -> off + Z.of_nat (length bytes) <= 2048 ->
  (forall b, store bytes (g_txbuf (tx g)) off = Some b -> tx_ok (tx (set_g_txbuf b g)) ->
             Q tt (set_g_txbuf b g)) ->
  wp (tx_store bytes off) Q g.
Proof.
  intros Ht H1 H2 HQ. pose proof (xo_size _ Ht) as Hs. unfold TXBUFSZ in Hs.
  unfold tx_store, wp, mbind, M_bind, gets. simpl. rewrite store_ok by lia. simpl.
  apply HQ; [by apply store_ok; lia|]. by apply tx_ok_store; rewrite ?length_inserts.
Qed.

(** The table has its size, addresses are six bytes, and the topology session
    points into the table. *)
Definition session_wf (s : session) : Prop :=
  length (ssn_mapper_real s) = 6%nat /\ length (ssn_mapper_current s) = 6%nat.
Record core_wf (r : core) : Prop := CoreWf {
  cw_hw : length (g_hwaddr r) = 6%nat;
  cw_size : length (g_sessions r) = MAX_NUM_SESSIONS;
  cw_sessions : Forall session_wf (g_sessions r);
  cw_topo i : g_topo_session r = Some i -> (i < MAX_NUM_SESSIONS)%nat
}.

(** Access through a session pointer that is inside the table. *)
Lemma wp_ssn_get i s (Q : session -> G -> Prop) g :
  g_sessions (co g) !! i = Some s -> Q s g -> wp (ssn_get (Some i)) Q g.
Proof. intros Hs HQ. unfold ssn_get, wp, mbind, M_bind, gets. simpl. by rewrite Hs. Qed.

Lemma wp_ssn_update i s f (Q : unit -> G -> Prop) g :
  g_sessions (co g) !! i = Some s ->
  Q tt (set_g_sessions (<[i := f s]> (g_sessions (co g))) g) -> wp (ssn_update (Some i) f) Q g.
Proof. intros Hs HQ. unfold ssn_update, ssn_get, wp, mbind, M_bind, gets. simpl. by rewrite Hs. Qed.

(** One system call: the clock moves. *)
Lemma wp_sys {A} (f : nat -> A) (Q : A -> G -> Prop) g :
  Q (f (os_clk (os g))) (set_os_clk (S (os_clk (os g))) g) -> wp (sys f) Q g.
Proof. done. Qed.

Lemma ETHERADDR_EQUALS_true x y : ETHERADDR_EQUALS x y = true <-> x = y /\ length x = 6%nat.
Proof.
  destruct x as [|x0 [|x1 [|x2 [|x3 [|x4 [|x5 [|]]]]]]]; simpl; try (split; [done|intros [_ ?]; lia]).
  destruct y as [|y0 [|y1 [|y2 [|y3 [|y4 [|y5 [|]]]]]]]; try (split; [done|intros [? _]; done]).
  rewrite !andb_true_iff, !Z.eqb_eq. split.
  - intros [[[[[-> ->] ->] ->] ->] ->]. done.
  - intros [[= -> -> -> -> -> ->] _]. done.
Qed.
