(* ===== verification/Event.v ===== *)
(** * Event: the sorted event list and the timers (event.c, util.h)

    [event_add], [event_cancel], the [timeval] macros and the [CANCEL] macro,
    with the invariant [timers_ok]: the list is sorted by firing time, no
    timer pointer dangles, and no event is in the list without the pointer
    that owns it. *)

From Stdlib Require Import Sorted.
From S2P Require Import Prelude LltdTypes.

(** ** timeval macros *)

Definition timerle (a b : timeval) : bool :=
  if tv_sec a =? tv_sec b then tv_usec a <=? tv_usec b else tv_sec a <=? tv_sec b.

(** The loop of [timeval_add_ms]: carry the microseconds over into seconds
    while they exceed (and not: reach) one million. *)
Fixpoint usec_carry (fuel : nat) (t : timeval) : timeval :=
  match fuel with
  | O => t
  | S n => if 1000000 <? tv_usec t
           then usec_carry n (Timeval (tv_sec t + 1) (tv_usec t - 1000000)) else t
  end.

Definition timeval_add_ms (t : timeval) (ms : Z) : timeval :=
  let usec := tv_usec t + ms * 1000 in
  usec_carry (Z.to_nat (usec / 1000000)) (Timeval (tv_sec t) usec).

Definition bsd_timersub (a b : timeval) : timeval :=
  let sec := tv_sec a - tv_sec b in
  let usec := tv_usec a - tv_usec b in
  if usec <? 0 then Timeval (sec - 1) (usec + 1000000) else Timeval sec usec.

(** A [timeval] as a number of microseconds. *)
Definition usecs (t : timeval) : Z := tv_sec t * 1000000 + tv_usec t.

(** ** The list *)

Fixpoint event_insert (ne : event) (l : list event) : list event :=
  match l with
  | [] => [ne]
  | here :: l' =>
      if timerle (ev_firetime here) (ev_firetime ne)
      then here :: event_insert ne l' else ne :: here :: l'
  end.

(** The IO handlers: [NIOS] slots; only osl-linux.c registers one, the packet
    socket with packetio_recv_handler. *)
Definition NIOS : nat := 2.
Inductive event_io_fn : Type := packetio_recv_handler_fn.
Record event_io : Type := EventIo {
  eio_fd : Z;
  eio_function : option event_io_fn;
  eio_state : option nat
}.
Definition free_io : event_io := EventIo (-1) None None.

Definition event_init : list event_io := replicate NIOS free_io.

Definition io_slot (fd : Z) (ios : list event_io) : option nat :=
  fst <$> list_find (fun io => eio_fd io = fd) ios.

(** None: the process dies, all slots are used. *)
Definition event_add_io (fd : Z) (function : event_io_fn) (state : option nat) (ios : list event_io) :
    option (list event_io) :=
  i ← io_slot (-1) ios; Some (<[i := EventIo fd (Some function) state]> ios).

(** An unknown descriptor is ignored. *)
Definition event_remove_io (fd : Z) (ios : list event_io) : list event_io :=
  match io_slot fd ios with
  | Some i => <[i := free_io]> ios
  | None => ios
  end.

Section with_env.
Context `{E : Env}.

Definition event_add (firetime : timeval) (function : event_fn) (state : option nat) : CM nat :=
  available ← sys env_malloc;
  if (available : bool) then
    ne ← gets (fun g => next_event (tm g));
    modify (fun g => set_next_event (S ne) g);;
    modify (fun g => set_Events (event_insert (Event ne firetime function state) (Events (tm g))) g);;
    mret ne
  else fail Died.
End with_env.

Fixpoint event_remove (addr : nat) (l : list event) : option (list event) :=
  match l with
  | [] => None
  | here :: l' =>
      if decide (ev_addr here = addr) then Some l' else cons here <$> event_remove addr l'
  end.

Definition event_cancel (addr : nat) : CM bool :=
  l ← gets (fun g => Events (tm g));
  match event_remove addr l with
  | Some l' => modify (set_Events l');; mret true
  | None => mret false
  end.

(** ** Timer variables

    The variables of type [event_t *] that the state machines own. *)

Inductive timer_ref : Type :=
  | T_block | T_charge | T_emit | T_hello | T_inactivity (i : nat).
#[export] Instance timer_ref_eq_dec : EqDecision timer_ref.
Proof. solve_decision. Defined.

Definition timer_get (t : timer_ref) (g : G) : option nat :=
  match t with
  | T_block => g_block_timer (tm g)
  | T_charge => g_charge_timer (tm g)
  | T_emit => g_emit_timer (tm g)
  | T_hello => g_hello_timer (tm g)
  | T_inactivity i => s ← g_sessions (co g) !! i; ssn_InactivityTimer s
  end.

Definition timer_set (t : timer_ref) (v : option nat) (g : G) : G :=
  match t with
  | T_block => set_g_block_timer v g
  | T_charge => set_g_charge_timer v g
  | T_emit => set_g_emit_timer v g
  | T_hello => set_g_hello_timer v g
  | T_inactivity i => set_g_sessions (alter (set_ssn_timer v) i (g_sessions (co g))) g
  end.

(** The function and argument each variable is armed with. *)
Definition timer_fn (t : timer_ref) : event_fn :=
  match t with
  | T_block => state_block_timeout_fn
  | T_charge => state_charge_timeout_fn
  | T_emit => state_emit_timeout_fn
  | T_hello => state_hello_delay_timeout_fn
  | T_inactivity _ => state_inactivity_timeout_fn
  end.
Definition timer_state (t : timer_ref) : option nat :=
  match t with T_inactivity i => Some i | _ => None end.

(** The CANCEL macro of util.h. *)
Definition CANCEL (t : timer_ref) : CM unit :=
  tmr ← gets (timer_get t);
  match tmr with
  | Some addr => event_cancel addr;; modify (timer_set t None)
  | None => mret tt
  end.

Section with_env2.
Context `{E : Env}.

(** [gettimeofday(&now, NULL); timeval_add_ms(&now, ms)] *)
Definition now_plus (ms : Z) : CM timeval :=
  now ← sys env_now; mret (timeval_add_ms now ms).
(** [tmr = event_add(&now, fn, state)] *)
Definition arm (t : timer_ref) (when : timeval) : CM unit :=
  ne ← event_add when (timer_fn t) (timer_state t); modify (timer_set t (Some ne)).
End with_env2.

(** ** Lemmas on timevals *)

Lemma usec_carry_spec fuel t :
  0 <= tv_usec t -> tv_usec t <= 1000000 + Z.of_nat fuel * 1000000 ->
  usecs (usec_carry fuel t) = usecs t /\ 0 <= tv_usec (usec_carry fuel t) <= 1000000.
Proof.
  revert t. induction fuel as [|n IH]; intros t H0 H; simpl; [lia|].
  destruct (Z.ltb_spec 1000000 (tv_usec t)) as [Hlt|Hle]; [|lia].
  destruct (IH (Timeval (tv_sec t + 1) (tv_usec t - 1000000))) as [IH1 IH2]; simpl; [lia..|].
  split; [|exact IH2]. rewrite IH1. unfold usecs; simpl. lia.
Qed.

Lemma timeval_add_ms_sum t ms :
  0 <= tv_usec t < 1000000 -> 0 <= ms ->
  usecs (timeval_add_ms t ms) = usecs t + ms * 1000
  /\ 0 <= tv_usec (timeval_add_ms t ms) <= 1000000.
Proof.
  intros Ht Hms. unfold timeval_add_ms. set (usec := tv_usec t + ms * 1000).
  assert (Hu : 0 <= usec / 1000000) by (apply Z.div_pos; lia).
  destruct (usec_carry_spec (Z.to_nat (usec / 1000000)) (Timeval (tv_sec t) usec)) as [H1 H2]; simpl.
  - lia.
  - rewrite Z2Nat.id by done. pose proof (Z.div_mod usec 1000000).
    pose proof (Z.mod_pos_bound usec 1000000). lia.
  - rewrite H1. split; [unfold usecs; simpl; lia|done].
Qed.

Lemma timeval_add_ms_total t ms :
  0 <= tv_usec t < 1000000 -> 0 <= ms ->
  usecs (timeval_add_ms t ms) = usecs t + ms * 1000.
Proof. intros Ht Hms. apply (timeval_add_ms_sum t ms Ht Hms). Qed.

Lemma timerle_refl a : timerle a a = true.
Proof. unfold timerle. rewrite Z.eqb_refl. apply Z.leb_refl. Qed.

Lemma timerle_total a b : timerle a b = false -> timerle b a = true.
Proof.
  unfold timerle. destruct (Z.eqb_spec (tv_sec a) (tv_sec b)) as [E|E];
    destruct (Z.eqb_spec (tv_sec b) (tv_sec a)); intros H; bool_to_prop; try lia; apply Z.leb_le; lia.
Qed.

Lemma timerle_trans a b c : timerle a b = true -> timerle b c = true -> timerle a c = true.
Proof.
  unfold timerle. destruct (Z.eqb_spec (tv_sec a) (tv_sec b));
    destruct (Z.eqb_spec (tv_sec b) (tv_sec c)); destruct (Z.eqb_spec (tv_sec a) (tv_sec c));
    intros H1 H2; bool_to_prop; apply Z.leb_le; lia.
Qed.

(** ** Lemmas on the list *)

Definition fires_before (e1 e2 : event) : Prop := timerle (ev_firetime e1) (ev_firetime e2) = true.
Definition events_sorted : list event -> Prop := StronglySorted fires_before.

(** Insertion splits a sorted list after the events that fire no later. *)
Lemma event_insert_split ne l :
  events_sorted l ->
  exists l1 l2, l = l1 ++ l2 /\ event_insert ne l = l1 ++ ne :: l2
    /\ Forall (fun e => fires_before e ne) l1
    /\ Forall (fun e => timerle (ev_firetime e) (ev_firetime ne) = false) l2.
Proof.
  induction 1 as [|h l Hs IH Hh]; simpl.
  - exists [], []. repeat split; constructor.
  - destruct (timerle (ev_firetime h) (ev_firetime ne)) eqn:E.
    + destruct IH as (l1 & l2 & -> & -> & H1 & H2). exists (h :: l1), l2. repeat split; auto.
    + exists [], (h :: l). repeat split; [constructor|]. constructor; [done|].
      eapply Forall_weaken; [exact Hh|]. intros x Hx. cbn beta.
      destruct (timerle (ev_firetime x) (ev_firetime ne)) eqn:E'; [|done].
      unfold fires_before in Hx. by rewrite (timerle_trans _ _ _ Hx E') in E.
Qed.

Lemma sorted_app_mid l1 x l2 :
  events_sorted (l1 ++ l2) -> Forall (fun e => fires_before e x) l1 ->
  Forall (fires_before x) l2 -> events_sorted (l1 ++ x :: l2).
Proof.
  induction l1 as [|h l1 IH]; simpl; intros Hs H1 H2; [by constructor|].
  inversion_clear Hs as [|? ? Hs' Hh]. inversion_clear H1 as [|? ? Hhx H1'].
  constructor; [by apply IH|].
  apply Forall_app in Hh as [Hh1 Hh2]. apply Forall_app. split; [done|]. by constructor.
Qed.

Lemma event_insert_sorted ne l : events_sorted l -> events_sorted (event_insert ne l).
Proof.
  intros Hs. destruct (event_insert_split ne l Hs) as (l1 & l2 & -> & -> & H1 & H2).
  apply sorted_app_mid; [done..|]. eapply Forall_weaken; [exact H2|].
  intros x Hx. by apply timerle_total.
Qed.

Lemma event_insert_perm ne l : event_insert ne l ≡ₚ ne :: l.
Proof.
  induction l as [|h l IH]; simpl; [done|]. destruct timerle; [|done].
  rewrite IH. apply Permutation_swap.
Qed.

Lemma event_remove_perm addr l l' :
  event_remove addr l = Some l' -> exists e, ev_addr e = addr /\ l ≡ₚ e :: l'.
Proof.
  revert l'. induction l as [|h l IH]; intros l'; simpl; [done|].
  case_decide as E; intros H; simplify_option_eq.
  - by exists h.
  - destruct (IH _ eq_refl) as (e & He & Hp). exists e. split; [done|].
    rewrite Hp. apply Permutation_swap.
Qed.

Lemma event_remove_sorted addr l l' :
  event_remove addr l = Some l' -> events_sorted l -> events_sorted l'.
Proof.
  revert l'. induction l as [|h l IH]; intros l'; simpl; [done|].
  case_decide as E; intros H Hs; inversion_clear Hs as [|? ? Hs' Hh]; simplify_option_eq; [done|].
  constructor; [by apply IH|].
  destruct (event_remove_perm _ _ _ Heqo) as (e & _ & Hp). rewrite Hp in Hh.
  by inversion_clear Hh.
Qed.

Lemma event_remove_None addr l :
  event_remove addr l = None -> Forall (fun e => ev_addr e <> addr) l.
Proof.
  induction l as [|h l IH]; simpl; [done|]. case_decide as E; intros H; [done|].
  simplify_option_eq. constructor; auto.
Qed.

(** ** The timer invariant

    [timers_ok]: the list is sorted, the addresses of its events are distinct
    and already allocated, and a timer variable holds an address exactly when
    the event it was armed with is in the list.  So no variable dangles, and
    no event of a state machine is lost. *)

Definition is_timer_event (t : timer_ref) (e : event) : Prop :=
  ev_function e = timer_fn t /\ ev_state e = timer_state t.
Definition is_qos_event (e : event) : Prop :=
  ev_function e = qos_inactivity_timeout_fn \/ ev_function e = interface_counter_recorder_fn.

Record timers_ok (g : G) : Prop := TimersOk {
  to_sorted : events_sorted (Events (tm g));
  to_fresh : Forall (fun e => (ev_addr e < next_event (tm g))%nat) (Events (tm g));
  to_nodup : NoDup (ev_addr <$> Events (tm g));
  to_typed : Forall (fun e => is_qos_event e \/ exists t, is_timer_event t e) (Events (tm g));
  to_owned t a :
    timer_get t g = Some a <->
    exists e, e ∈ Events (tm g) /\ ev_addr e = a /\ is_timer_event t e
}.

(** The variable exists: the session index is inside the table. *)
Definition timer_valid (t : timer_ref) (g : G) : Prop :=
  match t with T_inactivity i => (i < length (g_sessions (co g)))%nat | _ => True end.

(** The states after [arm] and [CANCEL]. *)
Definition arm_g (t : timer_ref) (w : timeval) (g : G) : G :=
  let n := next_event (tm g) in
  timer_set t (Some n)
    (set_Events (event_insert (Event n w (timer_fn t) (timer_state t)) (Events (tm g)))
       (set_next_event (S n) (set_os_clk (S (os_clk (os g))) g))).
Definition cancel_g (t : timer_ref) (g : G) : G :=
  match timer_get t g with
  | Some a =>
      timer_set t None
        (match event_remove a (Events (tm g)) with Some l => set_Events l g | None => g end)
  | None => g
  end.

Lemma is_timer_event_inj t t' e : is_timer_event t e -> is_timer_event t' e -> t = t'.
Proof.
  intros [H1 H2] [H3 H4]. rewrite H1 in H3. rewrite H2 in H4.
  destruct t, t'; simpl in *; congruence.
Qed.

Lemma is_timer_event_qos t e : is_timer_event t e -> is_qos_event e -> False.
Proof. intros [H1 _] [H|H]; rewrite H1 in H; by destruct t. Qed.

Lemma timer_get_set_eq t v g : timer_valid t g -> timer_get t (timer_set t v g) = v.
Proof.
  destruct t as [| | | |i]; try done. cbn. intros Hi.
  rewrite list_lookup_alter, decide_True by done.
  destruct (lookup_lt_is_Some_2 _ _ Hi) as [s Hs]. by rewrite Hs.
Qed.

Lemma timer_get_set_ne t t' v g : t <> t' -> timer_get t (timer_set t' v g) = timer_get t g.
Proof.
  destruct t, t'; try done; cbn; try congruence.
  - intros Hne. rewrite list_lookup_alter_ne by congruence. done.
Qed.

(** What [timers_ok] depends on. *)
Lemma timers_ok_ext g g' :
  tm g' = tm g -> (forall t, timer_get t g' = timer_get t g) -> timers_ok g -> timers_ok g'.
Proof.
  intros Htm Hget [Hs Hf Hn Ht Ho].
  split; rewrite ?Htm; try done. intros t a. rewrite Hget. apply Ho.
Qed.

Lemma timers_ok_fresh g t a : timers_ok g -> timer_get t g = Some a -> (a < next_event (tm g))%nat.
Proof.
  intros H Ha. apply (to_owned _ H) in Ha as (e & He & <- & _).
  exact (Forall_elem _ _ _ (to_fresh _ H) He).
Qed.

Lemma timer_set_tm t v g :
  Events (tm (timer_set t v g)) = Events (tm g)
  /\ next_event (tm (timer_set t v g)) = next_event (tm g).
Proof. by destruct t. Qed.

Lemma timer_get_set_Events t l g : timer_get t (set_Events l g) = timer_get t g.
Proof. by destruct t. Qed.

Lemma timers_ok_arm t w g :
  timers_ok g -> timer_valid t g -> timer_get t g = None -> timers_ok (arm_g t w g).
Proof.
  intros [Hs Hf Hn Ht Ho] Hv Hnone. unfold arm_g. set (ne := Event _ _ _ _).
  set (g1 := set_Events _ _).
  assert (Hg : forall t', timer_get t' g1 = timer_get t' g) by (by intros []).
  assert (Hp : Events (tm g1) ≡ₚ ne :: Events (tm g)) by apply event_insert_perm.
  destruct (timer_set_tm t (Some (next_event (tm g))) g1) as [E1 E2].
  split; rewrite ?E1, ?E2.
  - by apply event_insert_sorted.
  - rewrite Hp. constructor; [simpl; lia|]. eapply Forall_weaken; [exact Hf|]. simpl. lia.
  - rewrite Hp. simpl. constructor; [|done]. intros (e & He & Hin)%list_elem_of_fmap.
    apply (Forall_elem _ _ _ Hf) in Hin. lia.
  - rewrite Hp. constructor; [|done]. right. by exists t.
  - intros t' a. setoid_rewrite Hp. setoid_rewrite elem_of_cons.
    destruct (decide (t' = t)) as [->|Hne].
    + rewrite timer_get_set_eq by (by destruct t). split.
      * intros [= <-]. exists ne. repeat split. by left.
      * intros (e & [->|Hin] & <- & Hte); [done|].
        exfalso. assert (timer_get t g = Some (ev_addr e)) by (apply Ho; by exists e). congruence.
    + rewrite timer_get_set_ne, Hg, Ho by done. split.
      * intros (e & Hin & ?). exists e. auto.
      * intros (e & [->|Hin] & ? & Hte); [|by exists e].
        exfalso. apply Hne. by apply (is_timer_event_inj t' t ne).
Qed.

(** Unlinking the event of an armed timer and clearing its variable. *)
Lemma timers_ok_unlink t a e l g :
  timers_ok g -> timer_valid t g -> timer_get t g = Some a -> ev_addr e = a ->
  Events (tm g) ≡ₚ e :: l -> events_sorted l -> timers_ok (timer_set t None (set_Events l g)).
Proof.
  intros [Hs Hf Hn Ht Ho] Hv Ha He Hp Hsl.
  set (g1 := set_Events l g). destruct (timer_set_tm t None g1) as [E1 E2].
  rewrite Hp in Hf, Hn, Ht. inversion_clear Hf. inversion_clear Ht.
  simpl in Hn. apply list.NoDup_cons in Hn as [Hni Hn].
  assert (Hte : is_timer_event t e).
  { apply Ho in Ha as (e' & Hin & Hae & Hte). rewrite Hp in Hin.
    apply elem_of_cons in Hin as [->|Hin]; [done|]. exfalso. apply Hni.
    rewrite He, <- Hae. by apply list_elem_of_fmap_2. }
  split; rewrite ?E1, ?E2; try done.
  intros t' a'. change (Events (tm g1)) with l.
  destruct (decide (t' = t)) as [->|Hne].
  - rewrite timer_get_set_eq by (by destruct t). split; [done|].
    intros (e' & Hin & <- & Hte'). exfalso.
    assert (Ht' : timer_get t g = Some (ev_addr e')).
    { apply Ho. exists e'. rewrite Hp. repeat split; try apply Hte'. by apply list_elem_of_further. }
    apply Hni. rewrite He. rewrite Ha in Ht'. injection Ht' as ->. by apply list_elem_of_fmap_2.
  - rewrite timer_get_set_ne by done. unfold g1. rewrite timer_get_set_Events, Ho. split.
    + intros (e' & Hin & Hae & Hte'). rewrite Hp in Hin.
      apply elem_of_cons in Hin as [->|Hin]; [|by exists e'].
      exfalso. apply Hne. by apply (is_timer_event_inj t' t e).
    + intros (e' & Hin & ?). exists e'. rewrite Hp. split; [by apply list_elem_of_further|done].
Qed.

Lemma timers_ok_cancel t g : timers_ok g -> timer_valid t g -> timers_ok (cancel_g t g).
Proof.
  intros H Hv. unfold cancel_g. destruct (timer_get t g) as [a|] eqn:Ha; [|done].
  destruct (event_remove a (Events (tm g))) as [l|] eqn:Hr.
  - destruct (event_remove_perm _ _ _ Hr) as (e & He & Hp).
    eapply timers_ok_unlink; eauto. eapply event_remove_sorted; [done|apply H].
  - exfalso. apply event_remove_None in Hr. apply (to_owned _ H) in Ha as (e & Hin & He & _).
    by apply (Forall_elem _ _ _ Hr) in Hin.
Qed.

(** An event of the QoS sink is added, or leaves the list to be run. *)
Lemma timers_ok_add w fn st g :
  timers_ok g -> fn = qos_inactivity_timeout_fn \/ fn = interface_counter_recorder_fn ->
  timers_ok (set_Events (event_insert (Event (next_event (tm g)) w fn st) (Events (tm g)))
               (set_next_event (S (next_event (tm g))) g)).
Proof.
  intros [Hs Hf Hn Ht Ho] Hfn. set (ne := Event _ _ _ _).
  assert (Hq : is_qos_event ne) by (destruct Hfn; [by left|by right]).
  pose proof (event_insert_perm ne (Events (tm g))) as Hp.
  split; simpl.
  - by apply event_insert_sorted.
  - rewrite Hp. constructor; [simpl; lia|]. eapply Forall_weaken; [exact Hf|]. simpl. lia.
  - rewrite Hp. simpl. constructor; [|done]. intros (e & He & Hin)%list_elem_of_fmap.
    apply (Forall_elem _ _ _ Hf) in Hin. lia.
  - rewrite Hp. constructor; [by left|done].
  - intros t a. transitivity (timer_get t g = Some a); [by destruct t|]. rewrite Ho.
    setoid_rewrite Hp. setoid_rewrite elem_of_cons. split.
    + intros (e & Hin & ?). exists e. auto.
    + intros (e & [->|Hin] & ? & Hte); [|by exists e]. by destruct (is_timer_event_qos _ _ Hte Hq).
Qed.

Lemma timers_ok_qos_unlink e l g :
  timers_ok g -> Events (tm g) = e :: l -> is_qos_event e -> timers_ok (set_Events l g).
Proof.
  intros [Hs Hf Hn Ht Ho] Hl Hq. rewrite Hl in Hs, Hf, Hn, Ht.
  inversion_clear Hs. inversion_clear Hf. inversion_clear Ht.
  simpl in Hn. apply list.NoDup_cons in Hn as [_ Hn]. split; try done.
  intros t a. transitivity (timer_get t g = Some a); [by destruct t|]. rewrite Ho, Hl.
  setoid_rewrite elem_of_cons. split.
  - intros (e' & [->|Hin] & ? & Hte); [by destruct (is_timer_event_qos _ _ Hte Hq)|by exists e'].
  - intros (e' & Hin & ?). exists e'. auto.
Qed.

(** ** Symbolic execution of the timer operations *)

Lemma wp_CANCEL t (Q : unit -> G -> Prop) g : Q tt (cancel_g t g) -> wp (CANCEL t) Q g.
Proof.
  unfold CANCEL, cancel_g, event_cancel, wp, mbind, M_bind, gets. simpl.
  destruct (timer_get t g) as [a|]; simpl; [|done].
  by destruct (event_remove a (Events (tm g))).
Qed.

Section wp_env.
Context `{E : Env}.

Lemma wp_arm t w (Q : unit -> G -> Prop) g : Q tt (arm_g t w g) -> wp (arm t w) Q g.
Proof.
  unfold arm, event_add, sys, wp, mbind, M_bind, gets, modify. simpl.
  by destruct (env_malloc _); simpl.
Qed.

Lemma wp_now_plus ms (Q : timeval -> G -> Prop) g :
  Q (timeval_add_ms (env_now (os_clk (os g))) ms) (set_os_clk (S (os_clk (os g))) g) ->
  wp (now_plus ms) Q g.
Proof. done. Qed.
End wp_env.

(** What the two operations leave alone. *)
Lemma timer_get_arm_eq t w g : timer_valid t g -> timer_get t (arm_g t w g) = Some (next_event (tm g)).
Proof. intros Hv. unfold arm_g. by rewrite timer_get_set_eq by (by destruct t). Qed.

Lemma timer_get_arm_ne t t' w g : t <> t' -> timer_get t (arm_g t' w g) = timer_get t g.
Proof. intros Hne. unfold arm_g. rewrite timer_get_set_ne by done. by destruct t. Qed.

Lemma timer_get_cancel_eq t g : timer_valid t g -> timer_get t (cancel_g t g) = None.
Proof.
  intros Hv. unfold cancel_g. destruct (timer_get t g) eqn:Ht; [|done].
  apply timer_get_set_eq. destruct event_remove; by destruct t.
Qed.

Lemma timer_get_cancel_ne t t' g : t <> t' -> timer_get t (cancel_g t' g) = timer_get t g.
Proof.
  intros Hne. unfold cancel_g. destruct (timer_get t' g); [|done].
  rewrite timer_get_set_ne by done. destruct event_remove; by destruct t.
Qed.

Lemma timer_valid_ext t g g' :
  length (g_sessions (co g')) = length (g_sessions (co g)) -> timer_valid t g -> timer_valid t g'.
Proof. destruct t; simpl; [done..|]. by intros ->. Qed.

(** The session table after an operation on a timer: only the pointer of the
    timer's own session changes. *)
Definition co_timer_set (t : timer_ref) (v : option nat) (r : core) : core :=
  match t with
  | T_inactivity i =>
      Core (g_smE_state r) (g_smT_state r) (g_this_event r) (alter (set_ssn_timer v) i (g_sessions r))
        (g_topo_session r) (g_generation r) (g_hwaddr r)
  | _ => r
  end.

Lemma co_arm_g t w g : co (arm_g t w g) = co_timer_set t (Some (next_event (tm g))) (co g).
Proof. by destruct t. Qed.

Lemma co_cancel_g t g : co (cancel_g t g) = co_timer_set t None (co g).
Proof.
  unfold cancel_g. destruct (timer_get t g) as [a|] eqn:Ht.
  - destruct event_remove; by destruct t.
  - destruct t as [| | | |i]; try done. simpl in Ht. simpl.
    assert (Ha : alter (set_ssn_timer None) i (g_sessions (co g)) = g_sessions (co g)).
    { apply list_eq. intros j. destruct (decide (i = j)) as [->|Hne].
      - rewrite list_lookup_alter, decide_True by done.
        destruct (g_sessions (co g) !! j) as [s|] eqn:Hs; [|done]. simpl in *. f_equal.
        destruct s; simpl in *. by subst.
      - by rewrite list_lookup_alter_ne. }
    rewrite Ha. by destruct (co g).
Qed.

(** Everything else but the event list, the clock and that pointer. *)
Record same_rest (g g' : G) : Prop := SameRest {
  sr_rx : rx g' = rx g; sr_tx : tx g' = tx g; sr_ch : ch g' = ch g; sr_qs : qs g' = qs g;
  sr_out : os_out (os g') = os_out (os g); sr_em : em g' = em g; sr_sees : g_sees g' = g_sees g;
  sr_band : g_band g' = g_band g; sr_tlvs : g_tlvs g' = g_tlvs g
}.

Lemma arm_rest t w g : same_rest g (arm_g t w g).
Proof. by destruct t. Qed.
Lemma cancel_rest t g : same_rest g (cancel_g t g).
Proof.
  unfold cancel_g. destruct (timer_get t g); [|done]. destruct event_remove; by destruct t.
Qed.

(** A handler that was added can be removed, and then the slots are as before. *)
Lemma event_add_remove_io fd f st ios ios' :
  fd <> -1 -> Forall (fun io => eio_fd io = -1 -> io = free_io) ios ->
  Forall (fun io => eio_fd io <> fd) ios ->
  event_add_io fd f st ios = Some ios' -> event_remove_io fd ios' = ios.
Proof.
  intros Hfd Hfree Hnew H. unfold event_add_io, io_slot in H.
  destruct (list_find _ ios) as [[i io]|] eqn:Hf; [|done]. simpl in H. injection H as <-.
  apply list_find_Some in Hf as (Hi & Hio & _). unfold event_remove_io, io_slot.
  pose proof (lookup_lt_Some _ _ _ Hi) as Hlt.
  assert (Hf : list_find (fun io => eio_fd io = fd) (<[i := EventIo fd (Some f) st]> ios)
               = Some (i, EventIo fd (Some f) st)).
  { apply list_find_Some. split; [by apply list_lookup_insert_eq|]. split; [done|].
    intros j y Hj Hlt'. rewrite list_lookup_insert_ne in Hj by lia. by apply (Forall_lookup_1 _ _ _ _ Hnew Hj). }
  rewrite Hf. simpl. rewrite list_insert_insert_eq. apply list_insert_id. rewrite Hi. f_equal.
  by apply (Forall_lookup_1 _ _ _ _ Hfree Hi).
Qed.

(** ** Properties *)

(** Adding milliseconds to a time read from the clock adds exactly that
    many microseconds, and the carry loop runs long enough to leave at most
    one million of them (one million itself is possible: the loop tests with
    [>]). *)
Theorem timeval_add_ms_spec t ms :
  0 <= tv_usec t < 1000000 -> 0 <= ms ->
  usecs (timeval_add_ms t ms) = usecs t + ms * 1000
  /\ 0 <= tv_usec (timeval_add_ms t ms) <= 1000000.
Proof. intros Ht Hms. by apply timeval_add_ms_sum. Qed.

Lemma timeval_add_ms_spec_witness :
  usecs (timeval_add_ms (Timeval 7 900000) 300) = usecs (Timeval 7 900000) + 300 * 1000
  /\ 0 <= tv_usec (timeval_add_ms (Timeval 7 900000) 300) <= 1000000.
Proof. apply timeval_add_ms_spec; simpl; lia. Defined.

(** The documented range of [tv_usec] is left when the sum is a whole second. *)
Lemma timeval_add_ms_unnormalised :
  timeval_add_ms (Timeval 5 700000) 300 = Timeval 5 1000000.
Proof. reflexivity. Qed.

(** Inserting an event keeps the list sorted by firing time, adds exactly
    that event, and puts it behind every event that fires no later (events of
    equal time run in the order they were added) and before all the others. *)
Theorem event_insert_fifo ne l :
  events_sorted l ->
  events_sorted (event_insert ne l)
  /\ exists l1 l2, l = l1 ++ l2 /\ event_insert ne l = l1 ++ ne :: l2
     /\ Forall (fun e => fires_before e ne) l1
     /\ Forall (fun e => timerle (ev_firetime e) (ev_firetime ne) = false) l2.
Proof. intros H. split; [by apply event_insert_sorted|by apply event_insert_split]. Qed.

Lemma event_insert_fifo_witness :
  let ev n t := Event n (Timeval t 0) state_block_timeout_fn None in
  let l := [ev 0%nat 3; ev 1%nat 5; ev 2%nat 9] in
  events_sorted (event_insert (ev 3%nat 5) l)
  /\ exists l1 l2, l = l1 ++ l2 /\ event_insert (ev 3%nat 5) l = l1 ++ ev 3%nat 5 :: l2
     /\ Forall (fun e => fires_before e (ev 3%nat 5)) l1
     /\ Forall (fun e => timerle (ev_firetime e) (ev_firetime (ev 3%nat 5)) = false) l2.
Proof. apply event_insert_fifo. repeat constructor. Defined.

(** CANCEL on a timer variable never faults, clears the variable, removes
    the event of that timer and no other one from the list, keeps every other
    timer variable and the timer invariant. *)
Theorem CANCEL_exact t g :
  timers_ok g -> timer_valid t g ->
  exists g', CANCEL t g = Ok tt g' /\ timers_ok g' /\ timer_get t g' = None
    /\ (forall t', t' <> t -> timer_get t' g' = timer_get t' g)
    /\ (forall e, e ∈ Events (tm g') <-> e ∈ Events (tm g) /\ ~ is_timer_event t e).
Proof.
  intros H Hv. exists (cancel_g t g).
  assert (Hok : timers_ok (cancel_g t g)) by by apply timers_ok_cancel.
  split; [|split; [done|split; [by apply timer_get_cancel_eq|split]]].
  - unfold CANCEL, cancel_g, event_cancel, mbind, M_bind, gets. simpl.
    destruct (timer_get t g) as [a|]; simpl; [|done].
    by destruct (event_remove a (Events (tm g))).
  - intros t' Hne. by apply timer_get_cancel_ne.
  - intros e. assert (Hno : forall e, e ∈ Events (tm (cancel_g t g)) -> ~ is_timer_event t e).
    { intros e' Hin Hte. assert (Hs : timer_get t (cancel_g t g) = Some (ev_addr e'))
        by (apply (to_owned _ Hok); by exists e').
      by rewrite timer_get_cancel_eq in Hs. }
    unfold cancel_g in *. destruct (timer_get t g) as [a|] eqn:Ha.
    + destruct (timer_set_tm t None (match event_remove a (Events (tm g)) with
                                     | Some l => set_Events l g | None => g end)) as [E1 _].
      rewrite E1 in *. destruct (event_remove a (Events (tm g))) as [l|] eqn:Hr; simpl in *.
      * destruct (event_remove_perm _ _ _ Hr) as (e0 & He0 & Hp). rewrite Hp, elem_of_cons.
        split; [intros Hin; split; [by right|by apply Hno]|].
        intros [[->|Hin] Hn]; [|done]. exfalso. apply Hn.
        apply (to_owned _ H) in Ha as (e' & Hin & Hae & Hte). rewrite Hp in Hin.
        apply elem_of_cons in Hin as [->|Hin]; [done|].
        pose proof (to_nodup _ H) as Hnd. rewrite Hp in Hnd. simpl in Hnd.
        apply list.NoDup_cons in Hnd as [Hnd _]. destruct Hnd.
        rewrite He0, <- Hae. by apply list_elem_of_fmap_2.
      * split; [intros Hin; split; [done|by apply Hno]|tauto].
    + split; [intros Hin; split; [done|by apply Hno]|tauto].
Qed.

(** Arming an idle timer either exits through die() because no memory is
    left, or adds exactly one event with the function and argument of that
    timer at the requested time, whose address the variable holds; every
    other variable and the timer invariant are kept. *)
Theorem arm_exact `{E : Env} t w g :
  timers_ok g -> timer_valid t g -> timer_get t g = None ->
  arm t w g = Err Died \/
  exists g', arm t w g = Ok tt g' /\ timers_ok g' /\ timer_get t g' = Some (next_event (tm g))
    /\ (forall t', t' <> t -> timer_get t' g' = timer_get t' g)
    /\ Events (tm g') ≡ₚ Event (next_event (tm g)) w (timer_fn t) (timer_state t) :: Events (tm g).
Proof.
  intros H Hv Hnone. destruct (env_malloc (os_clk (os g))) eqn:Hm; [right|left].
  - exists (arm_g t w g). split.
    { unfold arm, event_add, sys, mbind, M_bind, gets, modify. simpl. by rewrite Hm. }
    split; [by apply timers_ok_arm|]. split; [by apply timer_get_arm_eq|].
    split; [intros; by apply timer_get_arm_ne|].
    unfold arm_g. rewrite (proj1 (timer_set_tm _ _ _)). apply event_insert_perm.
  - unfold arm, event_add, sys, mbind, M_bind, gets, modify. simpl. by rewrite Hm.
Qed.
