(* ===== verification/SeesList.v ===== *)
(** * SeesList: the circular buffer of observed probes (seeslist.c)

    The buffer of [sl_count] slots is a bounded FIFO queue of [sl_count - 1]
    entries: [sees_contents] is the queue it represents, and the operations
    refine the operations of a list. *)

From S2P Require Import Prelude LltdTypes.

(** [xmalloc] does not initialise the slots: [data] is what they hold. *)
Definition seeslist_new (data : list recvee_desc) (count : Z) : seeslist :=
  Seeslist data count 0 0.

Definition sees_full (sl : seeslist) : bool := (sl_wr sl + 1) mod sl_count sl =? sl_rd sl.
Definition sees_empty (sl : seeslist) : bool := sl_rd sl =? sl_wr sl.

Definition seeslist_enqueue (isARP : bool) (realsrc : list Z) : CM bool :=
  sl ← gets g_sees;
  if sees_full sl then mret false (* circular buffer full *)
  else
    src ← rx_mac eh_src;
    dst ← rx_mac eh_dst;
    let slot := Z.to_nat (sl_wr sl) in
    _ ← in_bounds (sl_data sl !! slot);
    let desc := RecveeDesc (if isARP then 1 else 0) realsrc src dst in
    modify (set_g_sees (Seeslist (<[slot := desc]> (sl_data sl)) (sl_count sl)
                          ((sl_wr sl + 1) mod sl_count sl) (sl_rd sl)));;
    mret true.

Definition seeslist_dequeue : CM (option recvee_desc) :=
  sl ← gets g_sees;
  if sees_empty sl then mret None (* buffer empty *)
  else
    desc ← in_bounds (sl_data sl !! Z.to_nat (sl_rd sl));
    modify (set_g_sees (Seeslist (sl_data sl) (sl_count sl) (sl_wr sl)
                          ((sl_rd sl + 1) mod sl_count sl)));;
    mret (Some desc).

Definition seeslist_clear : CM unit :=
  modify (fun g => set_g_sees (Seeslist (sl_data (g_sees g)) (sl_count (g_sees g)) 0 0) g).

Definition seeslist_is_empty : CM bool := gets (fun g => sees_empty (g_sees g)).

(** ** The queue it represents *)

#[export] Instance recvee_desc_inhabited : Inhabited recvee_desc := populate (RecveeDesc 0 [] [] []).

Definition sees_len (sl : seeslist) : Z := (sl_wr sl - sl_rd sl) mod sl_count sl.
(** Entry [i], counted from the oldest. *)
Definition sees_slot (sl : seeslist) (i : nat) : nat :=
  Z.to_nat ((sl_rd sl + Z.of_nat i) mod sl_count sl).
Definition sees_contents (sl : seeslist) : list recvee_desc :=
  (fun i => sl_data sl !!! sees_slot sl i) <$> seq 0 (Z.to_nat (sees_len sl)).

(** An entry of 20 bytes, as [topo_recvee_desc_t] has it. *)
Definition recvee_ok (d : recvee_desc) : Prop :=
  length (rd_realsrc d) = 6%nat /\ length (rd_src d) = 6%nat /\ length (rd_dst d) = 6%nat.

Record sees_ok (sl : seeslist) : Prop := SeesOk {
  so_count : 1 < sl_count sl;
  so_data : Z.of_nat (length (sl_data sl)) = sl_count sl;
  so_wr : 0 <= sl_wr sl < sl_count sl;
  so_rd : 0 <= sl_rd sl < sl_count sl;
  so_entries : Forall recvee_ok (sl_data sl)
}.

Lemma sees_len_range sl : sees_ok sl -> 0 <= sees_len sl < sl_count sl.
Proof. intros [Hc _ _ _ _]. unfold sees_len. apply Z.mod_pos_bound. lia. Qed.

(** The two forms of a position in the circle. *)
Lemma circle_pos c x : 0 < c -> 0 <= x < 2 * c -> x mod c = if x <? c then x else x - c.
Proof.
  intros Hc Hx. destruct (Z.ltb_spec x c); [by apply Z.mod_small; lia|].
  symmetry. apply (Z.mod_unique x c 1); lia.
Qed.
Lemma circle_dist c x : 0 < c -> - c < x < c -> x mod c = if x <? 0 then x + c else x.
Proof.
  intros Hc Hx. destruct (Z.ltb_spec x 0); [|by apply Z.mod_small; lia].
  symmetry. apply (Z.mod_unique x c (-1)); lia.
Qed.

Ltac circle :=
  repeat match goal with
  | |- context [?x mod ?c] => first [rewrite (circle_dist c x) by lia | rewrite (circle_pos c x) by lia]
  | H : context [?x mod ?c] |- _ =>
      first [rewrite (circle_dist c x) in H by lia | rewrite (circle_pos c x) in H by lia]
  | |- context [?x <? ?y] => destruct (Z.ltb_spec x y)
  | H : context [?x <? ?y] |- _ => destruct (Z.ltb_spec x y)
  end; try lia.

Lemma sees_empty_len sl : sees_ok sl -> sees_empty sl = (sees_len sl =? 0).
Proof.
  intros [Hc Hd Hw Hr _]. unfold sees_empty, sees_len.
  apply eq_true_iff_eq. rewrite !Z.eqb_eq. circle.
Qed.

Lemma sees_full_len sl : sees_ok sl -> sees_full sl = (sees_len sl =? sl_count sl - 1).
Proof.
  intros [Hc Hd Hw Hr _]. unfold sees_full, sees_len.
  apply eq_true_iff_eq. rewrite !Z.eqb_eq. circle.
Qed.

Lemma sees_contents_length sl : sees_ok sl -> Z.of_nat (length (sees_contents sl)) = sees_len sl.
Proof.
  intros H. unfold sees_contents. rewrite length_fmap, length_seq, Z2Nat.id; [done|].
  by apply sees_len_range.
Qed.

(** The states after the operations. *)
Definition sees_push (d : recvee_desc) (sl : seeslist) : seeslist :=
  Seeslist (<[Z.to_nat (sl_wr sl) := d]> (sl_data sl)) (sl_count sl)
    ((sl_wr sl + 1) mod sl_count sl) (sl_rd sl).
Definition sees_pop (sl : seeslist) : seeslist :=
  Seeslist (sl_data sl) (sl_count sl) (sl_wr sl) ((sl_rd sl + 1) mod sl_count sl).

Lemma sees_push_ok d sl : sees_ok sl -> recvee_ok d -> sees_ok (sees_push d sl).
Proof.
  intros [Hc Hd Hw Hr He] Hdd. split; simpl; rewrite ?length_insert; try done.
  - apply Z.mod_pos_bound. lia.
  - by apply Forall_insert.
Qed.

Lemma sees_pop_ok sl : sees_ok sl -> sees_ok (sees_pop sl).
Proof. intros [Hc Hd Hw Hr He]. split; simpl; try done. apply Z.mod_pos_bound. lia. Qed.

Lemma sees_push_contents d sl :
  sees_ok sl -> sees_full sl = false -> sees_contents (sees_push d sl) = sees_contents sl ++ [d].
Proof.
  intros Hok Hf. pose proof (sees_len_range _ Hok) as Hlen. rewrite sees_full_len in Hf by done.
  bool_to_prop. destruct Hok as [Hc Hd Hw Hr He].
  assert (Hl : sees_len (sees_push d sl) = sees_len sl + 1)
    by (unfold sees_len in *; simpl; circle).
  unfold sees_contents. rewrite Hl, Z2Nat.inj_add, seq_app, fmap_app by lia. f_equal.
  - apply list_fmap_ext. intros i x Hx. apply lookup_seq in Hx as [-> Hi]. simpl.
    rewrite list_lookup_total_insert_ne; [done|]. unfold sees_len, sees_slot in *. simpl. circle.
  - simpl. f_equal. unfold sees_slot. simpl.
    replace ((sl_rd sl + Z.of_nat (Z.to_nat (sees_len sl))) mod sl_count sl) with (sl_wr sl)
      by (rewrite Z2Nat.id by lia; unfold sees_len in *; circle).
    apply list_lookup_total_insert_eq. lia.
Qed.

Lemma sees_pop_contents sl :
  sees_ok sl -> sees_empty sl = false ->
  sees_contents sl = (sl_data sl !!! Z.to_nat (sl_rd sl)) :: sees_contents (sees_pop sl).
Proof.
  intros Hok Hf. pose proof (sees_len_range _ Hok) as Hlen. rewrite sees_empty_len in Hf by done.
  bool_to_prop. destruct Hok as [Hc Hd Hw Hr He].
  assert (Hl : sees_len sl = 1 + sees_len (sees_pop sl))
    by (unfold sees_len in *; simpl; circle).
  assert (0 <= sees_len (sees_pop sl)) by (unfold sees_len; simpl; apply Z.mod_pos_bound; lia).
  unfold sees_contents. rewrite Hl, Z2Nat.inj_add by lia. simpl. f_equal.
  - unfold sees_slot. rewrite Z.add_0_r, Z.mod_small by lia. done.
  - rewrite <- fmap_S_seq, <- list_fmap_compose. apply list_fmap_ext. intros i x Hx.
    apply lookup_seq in Hx as [-> Hi]. unfold sees_slot. simpl. do 2 f_equal.
    rewrite Z.add_mod_idemp_l by lia. f_equal. lia.
Qed.

(** ** The operations on the state *)

Lemma wp_seeslist_enqueue (isARP : bool) realsrc (Q : bool -> G -> Prop) g :
  rx_ok (rx g) -> sees_ok (g_sees g) ->
  (sees_full (g_sees g) = true -> Q false g) ->
  (forall src dst, sees_full (g_sees g) = false -> length src = 6%nat -> length dst = 6%nat ->
     Q true (set_g_sees (sees_push (RecveeDesc (if isARP then 1 else 0) realsrc src dst) (g_sees g)) g)) ->
  wp (seeslist_enqueue isARP realsrc) Q g.
Proof.
  intros Hrx Hok Hfull Hpush. unfold seeslist_enqueue. do 2 wp_step. apply wp_if; [done|].
  intros Hf. apply wp_bind, wp_rx_mac; [done|unfold eh_src; lia|]. intros src Hsrc.
  apply wp_bind, wp_rx_mac; [done|unfold eh_dst; lia|]. intros dst Hdst.
  pose proof (so_data _ Hok) as Hd. pose proof (so_wr _ Hok) as Hw.
  destruct (lookup_lt_is_Some_2 (sl_data (g_sees g)) (Z.to_nat (sl_wr (g_sees g)))) as [d Hslot]; [lia|].
  apply wp_bind. eapply wp_in_bounds; [done|]. do 3 wp_step. by apply Hpush.
Qed.

Lemma wp_seeslist_dequeue (Q : option recvee_desc -> G -> Prop) g :
  sees_ok (g_sees g) ->
  (sees_empty (g_sees g) = true -> Q None g) ->
  (forall d, sees_empty (g_sees g) = false ->
     d = sl_data (g_sees g) !!! Z.to_nat (sl_rd (g_sees g)) -> recvee_ok d ->
     Q (Some d) (set_g_sees (sees_pop (g_sees g)) g)) ->
  wp seeslist_dequeue Q g.
Proof.
  intros Hok He Hpop. unfold seeslist_dequeue. do 2 wp_step. apply wp_if; [done|]. intros Hf.
  pose proof (so_data _ Hok) as Hd. pose proof (so_rd _ Hok) as Hr.
  destruct (lookup_lt_is_Some_2 (sl_data (g_sees g)) (Z.to_nat (sl_rd (g_sees g)))) as [d Hslot]; [lia|].
  apply wp_bind. eapply wp_in_bounds; [done|]. do 3 wp_step. apply Hpop; [done| |].
  - symmetry. by apply list_lookup_total_correct.
  - eapply Forall_lookup_1; [apply Hok|done].
Qed.

(** ** Properties *)

(** The sees-list is a bounded first-in first-out queue of [sl_count - 1]
    entries: recording an observed frame appends the entry made of its
    addresses when there is room, and otherwise changes nothing and answers
    FALSE. *)
Theorem seeslist_enqueue_fifo (isARP : bool) realsrc g :
  rx_ok (rx g) -> sees_ok (g_sees g) -> length realsrc = 6%nat ->
  exists ok g', seeslist_enqueue isARP realsrc g = Ok ok g' /\ sees_ok (g_sees g')
    /\ (ok = true <-> Z.of_nat (length (sees_contents (g_sees g))) < sl_count (g_sees g) - 1)
    /\ (ok = false -> g' = g)
    /\ (ok = true -> exists src dst,
          load 6 (g_rxbuf (rx g)) eh_src = Some src /\ load 6 (g_rxbuf (rx g)) eh_dst = Some dst
          /\ sees_contents (g_sees g')
             = sees_contents (g_sees g) ++ [RecveeDesc (if isARP then 1 else 0) realsrc src dst]).
Proof.
  intros Hrx Hok Hreal. pose proof (sees_len_range _ Hok) as Hlen.
  pose proof (ro_size _ Hrx) as Hsz. unfold RXBUFSZ in Hsz.
  rewrite sees_contents_length by done.
  unfold seeslist_enqueue, mbind, M_bind, gets. simpl.
  destruct (sees_full (g_sees g)) eqn:Hf; pose proof Hf as Hf'; rewrite sees_full_len in Hf' by done;
    bool_to_prop; simpl.
  - exists false, g. split; [done|]. split; [done|]. split; [split; [done|lia]|done].
  - unfold rx_mac, rx_load, mbind, M_bind, gets. simpl.
    unfold eh_src, eh_dst.
    rewrite (load_ok 6 _ 6) by lia. simpl. rewrite (load_ok 6 _ 0) by lia. simpl.
    pose proof (so_data _ Hok) as Hd. pose proof (so_wr _ Hok) as Hw.
    destruct (lookup_lt_is_Some_2 (sl_data (g_sees g)) (Z.to_nat (sl_wr (g_sees g)))) as [d Hslot]; [lia|].
    rewrite Hslot. simpl. eexists _, _. split; [reflexivity|].
    split; [|split; [split; [lia|done]|split; [done|]]].
    + apply sees_push_ok; [done|].
      split; [done|]. split; simpl; rewrite length_take, length_drop; lia.
    + intros _. eexists _, _. split; [done|]. split; [done|]. by apply sees_push_contents.
Qed.

(** Taking an entry out of the sees-list gives the oldest one and removes
    it, and answers NULL exactly when the list is empty. *)
Theorem seeslist_dequeue_fifo g :
  sees_ok (g_sees g) ->
  match sees_contents (g_sees g) with
  | [] => seeslist_dequeue g = Ok None g
  | d :: rest =>
      exists g', seeslist_dequeue g = Ok (Some d) g' /\ sees_ok (g_sees g')
        /\ sees_contents (g_sees g') = rest /\ recvee_ok d
  end.
Proof.
  intros Hok. pose proof (sees_contents_length _ Hok) as Hlen.
  pose proof (sees_empty_len _ Hok) as He. unfold seeslist_dequeue, mbind, M_bind, gets. simpl.
  destruct (sees_empty (g_sees g)) eqn:Hem; simpl.
  - symmetry in He. bool_to_prop. destruct (sees_contents (g_sees g)); [done|simpl in Hlen; lia].
  - rewrite (sees_pop_contents _ Hok Hem).
    pose proof (so_data _ Hok) as Hd. pose proof (so_rd _ Hok) as Hr.
    destruct (lookup_lt_is_Some_2 (sl_data (g_sees g)) (Z.to_nat (sl_rd (g_sees g)))) as [d Hslot]; [lia|].
    rewrite Hslot. simpl. rewrite (list_lookup_total_correct _ _ _ Hslot).
    eexists. split; [done|]. split; [by apply sees_pop_ok|]. split; [done|].
    eapply Forall_lookup_1; [apply Hok|done].
Qed.
