(* ===== verification/Band.v ===== *)
(** * Band: the load control that spaces Hello frames (band.c)

    The block arithmetic with its 32-bit wrap-around, and the block and hello
    timers that it arms. *)

From S2P Require Import Prelude LltdTypes Event.

Definition band_ResetNi : CM unit :=
  modify (fun g => set_g_band (Band BAND_NMAX (b_r (g_band g)) (begun (g_band g))) g).

(** The new value of [Ni] at the end of a block, before the doubling that
    follows a Discover. *)
Definition band_value (b : band) : Z :=
  BAND_MUL_FRAME (u32 (b_r b * Ni b)) / u32 (BAND_BLOCK_TIME * 1000).
Definition band_bound (b : band) : Z :=
  u32 (u32 (Ni b * BAND_GAMMA) + (BAND_ALPHA * BAND_BETA - 1)) / (BAND_ALPHA * BAND_BETA).
Definition band_block_Ni (b : band) : Z :=
  Z.min (100 * BAND_NMAX) (Z.max (band_bound b) (band_value b)).
Definition band_update (b : band) : band :=
  let ni := band_block_Ni b in
  let ni' := if begun b then
               if ni <? BAND_NMAX / 2 then u32 (ni * 2)
               else if ni <? BAND_NMAX then BAND_NMAX else ni
             else ni in
  Band ni' (b_r b) false.

Section with_env.
Context `{E : Env}.

Definition random_uniform (upperlimit : Z) : CM Z :=
  sys (fun n => env_random_uniform n upperlimit).

Definition band_InitStats : CM unit :=
  modify (set_g_band (Band BAND_NMAX BAND_BLOCK_TIME false));;
  when_ ← now_plus BAND_BLOCK_TIME;
  running ← gets (timer_get T_block);
  assert_ (bool_decide (running = None));;
  arm T_block when_.

Definition band_UpdateStats : CM unit :=
  modify (fun g => set_g_band (band_update (g_band g)) g);;
  running ← gets (timer_get T_block);
  match running with
  | None => when_ ← now_plus BAND_BLOCK_TIME; arm T_block when_
  | Some _ => mret tt (* warn: block timer still running *)
  end.

Definition band_ChooseHelloTime : CM unit :=
  ni ← gets (fun g => Ni (g_band g));
  delay ← random_uniform ni;
  running ← gets (timer_get T_hello);
  (* if the delay falls within this block, set a timer to send the Hello *)
  when ((delay <? BAND_ALPHA) && bool_decide (running = None))
    (when_ ← now_plus (BAND_MUL_FRAME delay); arm T_hello when_).
End with_env.

Definition band_IncreaseLoad (mapbegin : bool) : CM unit :=
  modify (fun g => let b := g_band g in
    set_g_band (Band (Ni b) (u32 (b_r b + 1)) (if mapbegin then true else begun b)) g).

(** ** The range of [Ni] *)

Definition band_ok (b : band) : Prop := 1 <= Ni b <= BAND_NMAX /\ 0 <= b_r b < 2 ^ 32.

Lemma band_value_range b : 0 <= band_value b <= 4772.
Proof.
  unfold band_value, BAND_MUL_FRAME. rewrite (u32_small (BAND_BLOCK_TIME * 1000)) by (unfold BAND_BLOCK_TIME; lia).
  set (x := u32 (_ + 2)). pose proof (u32_range (u32 (u32 (b_r b * Ni b) * 20) + 2)) as Hx. fold x in Hx.
  change (BAND_BLOCK_TIME * 1000) with 300000.
  rewrite Z.div_div by lia. split; [apply Z.div_pos; lia|].
  apply Z.lt_succ_r, Z.div_lt_upper_bound; lia.
Qed.

(** Without wrap-around the decay bound is the rounded-up ninth of [Ni]. *)
Lemma band_bound_eq b : band_ok b -> band_bound b = (10 * Ni b + 89) / 90.
Proof.
  intros [Hn _]. unfold band_bound, BAND_NMAX, BAND_GAMMA, BAND_ALPHA, BAND_BETA in *.
  rewrite (u32_small (Ni b * 10)) by lia. rewrite u32_small by lia. f_equal. lia.
Qed.

Lemma band_bound_range b : band_ok b -> 1 <= band_bound b <= 1112.
Proof.
  intros H. rewrite band_bound_eq by done. destruct H as [Hn _]. unfold BAND_NMAX in Hn.
  split; [apply Z.div_le_lower_bound; lia|]. apply Z.lt_succ_r, Z.div_lt_upper_bound; lia.
Qed.

(** The clamp to [100 * BAND_NMAX] is never reached, nor is the middle branch
    of the doubling. *)
Lemma band_block_Ni_eq b :
  band_ok b -> band_block_Ni b = Z.max (band_bound b) (band_value b) /\ 1 <= band_block_Ni b <= 4772.
Proof.
  intros H. pose proof (band_bound_range _ H). pose proof (band_value_range b).
  unfold band_block_Ni, BAND_NMAX. split; lia.
Qed.

Lemma band_update_ok b : band_ok b -> band_ok (band_update b).
Proof.
  intros H. destruct (band_block_Ni_eq _ H) as [_ Hr]. destruct H as [Hn Hb].
  split; [|done]. unfold band_update, BAND_NMAX. simpl.
  destruct (begun b); [|lia]. destruct (Z.ltb_spec (band_block_Ni b) (10000 / 2)).
  - rewrite u32_small; lia.
  - change (10000 / 2) with 5000 in *. lia.
Qed.

Lemma band_increase_ok b mapbegin :
  band_ok b -> band_ok (Band (Ni b) (u32 (b_r b + 1)) (if mapbegin : bool then true else begun b)).
Proof. intros [Hn Hb]. split; [done|]. simpl. pose proof (u32_range (b_r b + 1)). lia. Qed.

Lemma hello_delay_range d : 0 <= d < BAND_ALPHA -> 0 <= BAND_MUL_FRAME d < BAND_BLOCK_TIME.
Proof.
  unfold BAND_ALPHA, BAND_MUL_FRAME, BAND_BLOCK_TIME. intros Hd.
  rewrite (u32_small (d * 20)), (u32_small (d * 20 + 2)) by lia.
  split; [apply Z.div_pos; lia|]. apply Z.div_lt_upper_bound; lia.
Qed.

(** ** Properties *)

(** The estimate Ni stays between 1 and BAND_NMAX at the end of every
    block, whatever the number of Hellos counted and in spite of the 32-bit
    products; it is the larger of the decay bound (a ninth, rounded up) and
    the load value, doubled when a mapper began during the block, so the two
    clamps to BAND_NMAX are never used. *)
Theorem band_update_spec b :
  band_ok b ->
  band_ok (band_update b)
  /\ Ni (band_update b)
     = (if begun b then 2 else 1) * Z.max ((10 * Ni b + 89) / 90) (band_value b)
  /\ begun (band_update b) = false /\ b_r (band_update b) = b_r b.
Proof.
  intros H. split; [by apply band_update_ok|]. split; [|done].
  destruct (band_block_Ni_eq _ H) as [He Hr]. rewrite <- band_bound_eq, <- He by done.
  unfold band_update. simpl. destruct (begun b); [|lia].
  change (BAND_NMAX / 2) with 5000. destruct (Z.ltb_spec (band_block_Ni b) 5000); [|lia].
  rewrite u32_small; lia.
Qed.

Lemma band_update_spec_witness :
  band_ok (band_update (Band 10000 4294967295 true)) /\ Ni (band_update (Band 10000 300 true)) = 2224
  /\ begun (band_update (Band 10000 300 true)) = false /\ b_r (band_update (Band 10000 300 true)) = 300.
Proof.
  assert (H1 : band_ok (Band 10000 4294967295 true)) by (split; cbn; unfold BAND_NMAX; lia).
  assert (H2 : band_ok (Band 10000 300 true)) by (split; cbn; unfold BAND_NMAX; lia).
  split; [exact (proj1 (band_update_spec _ H1))|].
  destruct (band_update_spec _ H2) as (_ & H & Hb & Hr).
  split; [|split; [exact Hb|exact Hr]]. etransitivity; [exact H|]. vm_compute. reflexivity.
Defined.

(** Blocks that pass without a new mapper. *)
Lemma band_update_quiet b n :
  band_ok b -> begun b = false -> b_r b <= 1000 -> Ni b <= n -> n <= BAND_NMAX ->
  band_ok (band_update b) /\ begun (band_update b) = false /\ b_r (band_update b) <= 1000
  /\ Ni (band_update b) <= (10 * n + 89) / 90.
Proof.
  intros H Hbg Hr Hn Hm. split; [by apply band_update_ok|]. split; [done|]. split; [done|].
  unfold band_update. rewrite Hbg. simpl. destruct (band_block_Ni_eq _ H) as [-> _].
  rewrite band_bound_eq by done. destruct H as [Hni Hbr]. unfold BAND_NMAX in *.
  apply Z.max_lub; [apply Z.div_le_mono; lia|].
  assert (Hp : 0 <= b_r b * Ni b <= 1000 * n) by nia.
  unfold band_value, BAND_MUL_FRAME. rewrite (u32_small (BAND_BLOCK_TIME * 1000)) by (unfold BAND_BLOCK_TIME; lia).
  rewrite (u32_small (b_r b * Ni b)) by lia. rewrite (u32_small (b_r b * Ni b * 20)) by lia.
  rewrite u32_small by lia. change (BAND_BLOCK_TIME * 1000) with 300000. rewrite Z.div_div by lia.
  apply Z.div_le_lower_bound; [lia|].
  pose proof (Z.mul_div_le (b_r b * Ni b * 20 + 2) (3 * 300000) ltac:(lia)). lia.
Qed.

(** The state after [band_ChooseHelloTime] drew [delay]. *)
Definition choose_hello_g (now : timeval) (delay : Z) (g : G) : G :=
  arm_g T_hello (timeval_add_ms now (BAND_MUL_FRAME delay)) g.

Section with_env_lemmas.
Context `{E : Env}.

Lemma wp_band_InitStats (Q : unit -> G -> Prop) g :
  timer_get T_block g = None ->
  (forall w n, Q tt (arm_g T_block w (set_os_clk n (set_g_band (Band BAND_NMAX BAND_BLOCK_TIME false) g)))) ->
  wp band_InitStats Q g.
Proof.
  intros Hb HQ. unfold band_InitStats. do 2 wp_step. apply wp_bind, wp_now_plus.
  do 2 wp_step. apply wp_bind, wp_assert.
  - apply bool_decide_eq_true. exact Hb.
  - apply wp_arm, HQ.
Qed.

Lemma wp_band_UpdateStats (Q : unit -> G -> Prop) g :
  timer_get T_block g = None ->
  (forall w n, Q tt (arm_g T_block w (set_os_clk n (set_g_band (band_update (g_band g)) g)))) ->
  wp band_UpdateStats Q g.
Proof.
  intros Hb HQ. unfold band_UpdateStats. do 4 wp_step. simpl in Hb. cbn [timer_get].
  change (tm (set_g_band _ g)) with (tm g). rewrite Hb.
  apply wp_bind, wp_now_plus, wp_arm, HQ.
Qed.

(** Either the Hello waits for another block, or its timer is armed. *)
Lemma wp_band_ChooseHelloTime (Q : unit -> G -> Prop) g :
  (forall n, Q tt (set_os_clk n g)) ->
  (forall w n, timer_get T_hello g = None -> Q tt (arm_g T_hello w (set_os_clk n g))) ->
  wp band_ChooseHelloTime Q g.
Proof.
  intros H1 H2. unfold band_ChooseHelloTime, random_uniform. do 2 wp_step.
  apply wp_bind, wp_sys. do 2 wp_step. apply wp_when; intros Hb; [|apply H1].
  apply andb_true_iff in Hb as [_ Hb]. apply bool_decide_eq_true in Hb.
  apply wp_bind, wp_now_plus, wp_arm. by apply (H2 _ (S (S (os_clk (os g))))).
Qed.
End with_env_lemmas.

(** A responder that hears no new mapper answers soon: after three blocks
    Ni is at most 14, and from then on the Hello is scheduled in the current
    block, less than BAND_BLOCK_TIME after the clock reading (or the process
    exits because no memory is left). *)
Theorem hello_within_four_blocks `{E : Env} `{!EnvLaws E} b g :
  band_ok b -> begun b = false -> b_r b <= 1000 ->
  g_band g = band_update (band_update (band_update b)) -> timer_get T_hello g = None ->
  band_ChooseHelloTime g = Err Died \/
  exists g' e, band_ChooseHelloTime g = Ok tt g' /\ timer_get T_hello g' = Some (ev_addr e)
    /\ e ∈ Events (tm g') /\ is_timer_event T_hello e
    /\ exists n, usecs (env_now n) <= usecs (ev_firetime e)
                 /\ usecs (ev_firetime e) < usecs (env_now n) + BAND_BLOCK_TIME * 1000.
Proof.
  intros H Hbg Hr Hg Hnone. pose proof H as H0. destruct H0 as [[Hn0 Hn] _].
  destruct (band_update_quiet b 10000 H Hbg Hr) as (H1 & Hb1 & Hr1 & Hn1); [unfold BAND_NMAX in *; lia..|].
  change ((10 * 10000 + 89) / 90) with 1112 in Hn1.
  destruct (band_update_quiet _ 1112 H1 Hb1 Hr1) as (H2 & Hb2 & Hr2 & Hn2); [unfold BAND_NMAX in *; lia..|].
  change ((10 * 1112 + 89) / 90) with 124 in Hn2.
  destruct (band_update_quiet _ 124 H2 Hb2 Hr2) as (H3 & Hb3 & Hr3 & Hn3); [unfold BAND_NMAX in *; lia..|].
  change ((10 * 124 + 89) / 90) with 14 in Hn3. rewrite <- Hg in *. destruct H3 as [[Hni _] _].
  pose proof (env_random_range (os_clk (os g)) (Ni (g_band g)) ltac:(lia)) as Hd.
  set (d := env_random_uniform (os_clk (os g)) (Ni (g_band g))) in *.
  assert (Hda : 0 <= d < BAND_ALPHA) by (unfold BAND_ALPHA; lia).
  pose proof (hello_delay_range d Hda) as Hms.
  unfold band_ChooseHelloTime, random_uniform, sys, mbind, M_bind, gets, modify. cbn -[BAND_MUL_FRAME timer_get Z.ltb].
  fold d. replace (d <? BAND_ALPHA) with true by (symmetry; apply Z.ltb_lt; lia).
  change (timer_get T_hello (set_os_clk _ g)) with (timer_get T_hello g). rewrite Hnone.
  cbn -[BAND_MUL_FRAME timer_get timeval_add_ms].
  unfold now_plus, arm, event_add, sys, mbind, M_bind, gets, modify. cbn -[BAND_MUL_FRAME timeval_add_ms event_insert].
  destruct (env_malloc (S (S (os_clk (os g))))); [right|by left]. cbn -[BAND_MUL_FRAME timeval_add_ms event_insert].
  eexists _, (Event (next_event (tm g))
    (timeval_add_ms (env_now (S (os_clk (os g)))) (BAND_MUL_FRAME d)) state_hello_delay_timeout_fn None).
  split; [reflexivity|]. cbn -[BAND_MUL_FRAME timeval_add_ms event_insert].
  rewrite event_insert_perm. split; [done|]. split; [apply list_elem_of_here|]. split; [done|].
  exists (S (os_clk (os g))). simpl. pose proof (env_now_usec (S (os_clk (os g)))) as Hus.
  assert (Hc : usecs (timeval_add_ms (env_now (S (os_clk (os g)))) (BAND_MUL_FRAME d))
               = usecs (env_now (S (os_clk (os g)))) + BAND_MUL_FRAME d * 1000).
  { apply timeval_add_ms_total; lia. }
  rewrite Hc. unfold BAND_BLOCK_TIME in *. lia.
Qed.
