(* ===== verification/Tlv.v ===== *)
(** * Tlv: type-length-value fields of Hello and QueryLargeTlvResp (tlv.c)

    Every writer returns the bytes it puts in the buffer (their number is the
    C return value) and the new storage of the TLV. *)

From S2P Require Import Prelude LltdTypes.

(** Header of a TLV in a Hello frame, and of one in a QueryLargeTlvResp. *)
Definition hello_hdr (number len : Z) : list Z := [u8 number; u8 len].
Definition ltlv_hdr (len : Z) : list Z := be16 (u16 len).

(** The common shape of write_etheraddr_t, write_uint8_t, write_uint16_t,
    write_uint32_t, write_uint64_t and write_ipv6addr_t, which differ by the
    size of the C type. *)
Definition write_fixed (size : Z) (number : Z) (data : list Z) (bytes_free : Z)
    (isHello isLarge : bool) : CM (list Z) :=
  if bytes_free <? 2 + size then mret []
  else if (isHello && isLarge)%bool then mret (hello_hdr number 0)
  else
    value ← in_bounds (load (Z.to_nat size) data 0);
    mret ((if isHello then hello_hdr number size else ltlv_hdr size) ++ value).

Definition write_etheraddr_t := write_fixed 6.
Definition write_uint8_t := write_fixed 1.
Definition write_uint16_t := write_fixed 2.
Definition write_uint32_t := write_fixed 4.
Definition write_uint64_t := write_fixed 8.
Definition write_ipv4addr_t := write_uint32_t.
Definition write_ipv6addr_t := write_fixed 16.

(** [while ( *s != 0) { bytes_needed += 2; s++; }] over the bytes of the string
    in memory; it runs out of the storage when there is no double zero. *)
Fixpoint ucs2_bytes (s : list Z) : option Z :=
  match s with
  | a :: b :: s' => if (a =? 0) && (b =? 0) then Some 0 else Z.add 2 <$> ucs2_bytes s'
  | _ => None
  end.

Definition sizeof_int : Z := 4.

Definition write_ucs2char_t (number : Z) (data : list Z) (bytes_free : Z)
    (isHello isLarge : bool) : CM (list Z) :=
  bytes_needed ← in_bounds (ucs2_bytes data);
  if bytes_free <? 2 + bytes_needed then mret []
  else if (isHello && isLarge)%bool then mret (hello_hdr number 0)
  else
    value ← in_bounds (load (Z.to_nat bytes_needed) data 0);
    mret ((if isHello then hello_hdr number bytes_needed else ltlv_hdr sizeof_int) ++ value).

Section with_env.
Context `{E : Env}.

(** lseek to [offset] and read at most [n] bytes: the bytes, or None when
    one of the two calls fails. *)
Definition seek_read (contents : list Z) (offset n : Z) : CM (option (list Z)) :=
  seek_ok ← sys env_lseek;
  if negb seek_ok then mret None
  else
    read_ok ← sys env_read;
    if negb read_ok then mret None
    else mret (Some (take (Z.to_nat n) (drop (Z.to_nat offset) contents))).

(** [read(fd, buf, 1) > 0] once [consumed] bytes are behind the file offset. *)
Definition more_to_read (contents : list Z) (consumed : Z) : CM bool :=
  read_ok ← sys env_read;
  mret (read_ok && (consumed <? Z.of_nat (length contents))).

(** The large-TLV answer of both icon writers. *)
Definition ltlv_icon (contents : list Z) (bytes_free offset : Z) : CM (list Z) :=
  got ← seek_read contents offset (bytes_free - 2);
  match got with
  | None => mret []
  | Some bytes =>
      let num_read := Z.of_nat (length bytes) in
      remaining ← more_to_read contents (offset + num_read);
      let num := u16 num_read in
      mret (be16 (if remaining : bool then Z.lor 0x8000 num else num) ++ bytes)
  end.

Definition write_lg_icon_t (number sz : Z) (fd_icon : option (list Z)) (bytes_free : Z)
    (isHello : bool) (offset : Z) : CM (list Z * tlv_data) :=
  match fd_icon with
  | None => mret ([], D_icon sz None) (* no jumbo icon was correctly declared *)
  | Some contents =>
      bytes ← (if isHello then mret (hello_hdr number 0)
               else ltlv_icon contents bytes_free offset);
      mret (bytes, D_icon sz None) (* the descriptor is closed on every path *)
  end.

Definition write_icon_file_t (number sz : Z) (fd_icon : option (list Z)) (bytes_free : Z)
    (isHello isLarge : bool) (offset : Z) : CM (list Z * tlv_data) :=
  match fd_icon with
  | None => mret ([], D_icon sz None)
  | Some contents =>
      bytes ←
        (if isHello then
           if (255 <? sz) || (bytes_free <? 2 + sz) || isLarge then mret (hello_hdr number 0)
           else
             got ← seek_read contents offset (bytes_free - 2);
             match got with
             | None => mret []
             | Some b => mret (hello_hdr number (Z.of_nat (length b)) ++ b)
             end
         else ltlv_icon contents bytes_free offset);
      mret (bytes, D_icon sz None)
  end.
End with_env.

Definition SIZEOF_PKT_ASSN_TABLE_ENTRY : Z := 10.
Definition assn_bytes (a : assn_table_entry) : list Z :=
  assn_MACaddr a ++ assn_MOR a ++ [assn_PHYtype a; 0].

Definition write_assns_t (number : Z) (table : option (list assn_table_entry)) (assn_cnt : Z)
    (bytes_free : Z) (isHello : bool) (offset : Z) : CM (list Z * tlv_data) :=
  let offset_index := u32 offset / SIZEOF_PKT_ASSN_TABLE_ENTRY in
  if isHello then mret (hello_hdr number 0, D_assns table assn_cnt)
  else
    match table with
    | None => mret ([0; 0], D_assns None assn_cnt) (* no list was generated *)
    | Some entries =>
        if assn_cnt <=? offset_index then
          (* offset too big: empty list, marked for re-collection *)
          mret ([0; 0], D_assns table 0)
        else
          let '(copy_cnt, hdr, cnt') :=
            if u32 (bytes_free - 2) <? u32 ((assn_cnt - offset_index) * SIZEOF_PKT_ASSN_TABLE_ENTRY)
            then
              let c := (bytes_free - 2) / SIZEOF_PKT_ASSN_TABLE_ENTRY in
              (c, be16 (Z.lor (u16 (c * SIZEOF_PKT_ASSN_TABLE_ENTRY + 2)) 0x8000), assn_cnt)
            else
              let c := assn_cnt - offset_index in
              (c, be16 (u16 (c * SIZEOF_PKT_ASSN_TABLE_ENTRY)), 0) in
          rows ← in_bounds (sublist_lookup (Z.to_nat offset_index) (Z.to_nat copy_cnt) entries);
          mret (hdr ++ concat (assn_bytes <$> rows), D_assns table cnt')
    end.

Definition Bridge_Component : Z := 0.
Definition RadioBand_Component : Z := 1.
Definition Switch_Component : Z := 2.
Definition radio_bytes (rb : radio) : list Z :=
  [RadioBand_Component; 10] ++ radio_MOR rb ++ [radio_PHYtype rb; radio_mode rb] ++ radio_BSSID rb.

Definition write_comptbl_t (number : Z) (t : comptbl) (isHello : bool) : CM (list Z * tlv_data) :=
  if isHello then mret (hello_hdr number 0, D_comptbl t)
  else
    let body :=
      [ct_version t; 0]
      ++ (if negb (Bridge_Component =? 0xFF)
          then [Bridge_Component; 1; ct_bridge_behavior t] else [])
      ++ concat (radio_bytes <$> ct_radios t)
      ++ (if negb (Switch_Component =? 0xFFFFFFFF)
          then [Switch_Component; 4] ++ ct_link_speed t else []) in
    (* the length counts what follows the two bytes that hold it *)
    mret (be16 (Z.of_nat (length body)) ++ body, D_comptbl t).

(** The table [Tlvs] of tlv.c, which tlvdef.h generates, with the zeroed
    storage of [g_info] (no descriptor is open and no table allocated).  Every
    entry has a get function. *)
Definition TLVDEF (ctype : tlv_ctype) (storage : tlv_data) (number : Z) (access : tlv_access_t)
    (inHello : bool) : tlv_desc := TlvDesc number access inHello true ctype storage.
Definition zeros (n : nat) : tlv_data := D_mem (replicate n 0).
Definition Tlvs : list tlv_desc :=
  [ TLVDEF C_etheraddr (zeros 6) 1 Access_unset true          (* hostid *)
  ; TLVDEF C_uint32 (zeros 4) 2 Access_unset true             (* net_flags *)
  ; TLVDEF C_uint32 (zeros 4) 3 Access_unset true             (* physical_medium *)
  ; TLVDEF C_uint8 (zeros 1) 4 Access_unset true              (* wireless_mode *)
  ; TLVDEF C_etheraddr (zeros 6) 5 Access_unset true          (* bssid *)
  ; TLVDEF C_ipv4addr (zeros 4) 7 Access_unset true           (* ipv4addr *)
  ; TLVDEF C_ipv6addr (zeros 16) 8 Access_unset true          (* ipv6addr *)
  ; TLVDEF C_uint16 (zeros 2) 9 Access_unset true             (* max_op_rate *)
  ; TLVDEF C_uint32 (zeros 4) 0xC Access_unset true           (* link_speed *)
  ; TLVDEF C_uint64 (zeros 8) 0xA Access_unset true           (* tsc_ticks_per_sec *)
  ; TLVDEF C_icon_file (D_icon 0 None) 0xE Access_dynamic true (* icon_image *)
  ; TLVDEF C_ucs2char (zeros 32) 0xF Access_unset true        (* machine_name [16] *)
  ; TLVDEF C_ucs2char (zeros 64) 0x10 Access_unset false      (* support_info [32] *)
  ; TLVDEF C_ucs2char (zeros 64) 0x11 Access_unset true       (* friendly_name [32] *)
  ; TLVDEF C_ucs2char (zeros 400) 0x13 Access_unset false     (* hw_id [200] *)
  ; TLVDEF C_uint32 (zeros 4) 0x14 Access_unset true          (* qos_flags *)
  ; TLVDEF C_uint8 (zeros 1) 0x15 Access_unset true           (* wl_physical_medium *)
  ; TLVDEF C_assns (D_assns None 0) 0x16 Access_unset false   (* accesspt_assns *)
  ; TLVDEF C_lg_icon (D_icon 0 None) 0x18 Access_dynamic false (* jumbo_icon *)
  ; TLVDEF C_uint16 (zeros 2) 0x19 Access_unset true          (* sees_max *)
  ; TLVDEF C_comptbl (D_comptbl (Comptbl 0 0 [0; 0; 0; 0] [])) 0x1A Access_unset false ].

Section dispatch.
Context `{E : Env}.

(** [tlv->write(...)]: the writer of the C type of the TLV. *)
Definition tlv_write_fn (d : tlv_desc) (bytes_free : Z) (isHello isLarge : bool)
    (offset : Z) : CM (list Z * tlv_data) :=
  let number := tlv_number d in
  let scalar (write : Z -> list Z -> Z -> bool -> bool -> CM (list Z)) data :=
    bytes ← write number data bytes_free isHello isLarge; mret (bytes, D_mem data) in
  match tlv_write d, tlv_storage d with
  | C_etheraddr, D_mem data => scalar write_etheraddr_t data
  | C_uint8, D_mem data => scalar write_uint8_t data
  | C_uint16, D_mem data => scalar write_uint16_t data
  | C_uint32, D_mem data => scalar write_uint32_t data
  | C_uint64, D_mem data => scalar write_uint64_t data
  | C_ipv4addr, D_mem data => scalar write_ipv4addr_t data
  | C_ipv6addr, D_mem data => scalar write_ipv6addr_t data
  | C_ucs2char, D_mem data => scalar write_ucs2char_t data
  | C_icon_file, D_icon sz fd => write_icon_file_t number sz fd bytes_free isHello isLarge offset
  | C_lg_icon, D_icon sz fd => write_lg_icon_t number sz fd bytes_free isHello offset
  | C_assns, D_assns table cnt => write_assns_t number table cnt bytes_free isHello offset
  | C_comptbl, D_comptbl t => write_comptbl_t number t isHello
  | _, _ => fail Out_of_bounds (* storage of another type *)
  end.

(** The descriptor a [tlv_desc_t *] designates. *)
Definition tlv_at (k : nat) : CM tlv_desc :=
  ts ← gets g_tlvs; in_bounds (ts !! k).
Definition tlv_put (k : nat) (access : tlv_access_t) (storage : tlv_data) : CM unit :=
  modify (fun g => set_g_tlvs
    (alter (fun d => TlvDesc (tlv_number d) access (tlv_inHello d) (tlv_get d) (tlv_write d) storage)
       k (g_tlvs g)) g).

(** The [Access_static] case: run the writer and put its bytes at [buf]. *)
Definition tlv_emit (k : nat) (access : tlv_access_t) (storage : tlv_data)
    (buf bytes_free : Z) (isHello : bool) (LtlvOffset : Z) : CM Z :=
  tlv_put k access storage;;
  d ← tlv_at k;
  '(bytes, storage') ← tlv_write_fn d bytes_free isHello (negb (tlv_inHello d)) LtlvOffset;
  tlv_put k access storage';;
  tx_store bytes buf;;
  mret (Z.of_nat (length bytes)).

Definition tlv_write_tlv (k : nat) (buf bytes_free : Z) (isHello : bool) (LtlvOffset : Z) : CM Z :=
  d ← tlv_at k;
  match tlv_access d with
  | Access_invalid => mret 0
  | Access_static => tlv_emit k Access_static (tlv_storage d) buf bytes_free isHello LtlvOffset
  | (Access_unset | Access_dynamic) as access =>
      if negb (tlv_get d) then mret 0 (* warn: NULL get_fn *)
      else
        (* an unset TLV is marked static before its get function runs *)
        let access' := match access with Access_unset => Access_static | a => a end in
        got ← sys (fun n => env_tlv_get n (tlv_number d));
        match got with
        | Some storage => tlv_emit k access' storage buf bytes_free isHello LtlvOffset
        | None => (* on get-failure, reset to "unset" if it was "static" *)
            tlv_put k (match access' with Access_static => Access_unset | a => a end)
              (tlv_storage d);;
            mret 0
        end
  end.

(** [while (tlv->write != NULL && bytes_free > 1)]; [n] descriptors are left
    before the terminating one. *)
Fixpoint tlv_write_loop (n k : nat) (buf bytes_free total : Z) : CM Z :=
  match n with
  | O => mret total
  | S n' =>
      if 1 <? bytes_free then
        nb ← tlv_write_tlv k buf bytes_free true 0;
        tlv_write_loop n' (S k) (buf + nb) (bytes_free - nb) (total + nb)
      else mret total
  end.

Definition tlv_write_info (buf bytes_free : Z) : CM Z :=
  n ← gets (fun g => length (g_tlvs g));
  tlv_write_loop n 0 buf bytes_free 0.
End dispatch.

(** ** Well-formed storage and the bounds of the writers *)

Definition fixed_ok (size : nat) (s : tlv_data) : Prop :=
  match s with D_mem data => (size <= length data)%nat | _ => False end.
Definition radio_ok (r : radio) : Prop := length (radio_MOR r) = 2%nat /\ length (radio_BSSID r) = 6%nat.
Definition assn_ok (a : assn_table_entry) : Prop :=
  length (assn_MACaddr a) = 6%nat /\ length (assn_MOR a) = 2%nat.

(** The storage is of the C type and, for what an operation of the system
    filled in, complete: a terminated string, a table as long as its count. *)
Definition storage_ok (c : tlv_ctype) (s : tlv_data) : Prop :=
  match c with
  | C_etheraddr => fixed_ok 6 s
  | C_uint8 => fixed_ok 1 s
  | C_uint16 => fixed_ok 2 s
  | C_uint32 | C_ipv4addr => fixed_ok 4 s
  | C_uint64 => fixed_ok 8 s
  | C_ipv6addr => fixed_ok 16 s
  | C_ucs2char => match s with D_mem data => is_Some (ucs2_bytes data) | _ => False end
  | C_icon_file | C_lg_icon => match s with D_icon sz _ => 0 <= sz | _ => False end
  | C_assns =>
      match s with
      | D_assns None _ => True
      | D_assns (Some entries) cnt =>
          0 <= cnt <= Z.of_nat (length entries) /\ cnt < 1000000 /\ Forall assn_ok entries
      | _ => False
      end
  | C_comptbl =>
      match s with
      | D_comptbl t => length (ct_link_speed t) = 4%nat /\ Forall radio_ok (ct_radios t)
                       /\ (length (ct_radios t) <= 100)%nat
      | _ => False
      end
  end.

(** Every descriptor has storage of its type, and its get function keeps it so. *)
Definition tlv_desc_ok `{E : Env} (d : tlv_desc) : Prop :=
  storage_ok (tlv_write d) (tlv_storage d)
  /\ forall n s, env_tlv_get n (tlv_number d) = Some s -> storage_ok (tlv_write d) s.
Definition tlvs_ok `{E : Env} (ts : list tlv_desc) : Prop := Forall tlv_desc_ok ts.

(** What a writer may answer: at most [bytes_free] bytes, and storage of the
    same type; only the clock of the system calls moves. *)
Definition writer_post (c : tlv_ctype) (bytes_free : Z) (g : G) (r : list Z * tlv_data) (g' : G) : Prop :=
  Z.of_nat (length r.1) <= bytes_free /\ storage_ok c r.2 /\ exists n, g' = set_os_clk n g.

Lemma set_os_clk_id g : set_os_clk (os_clk (os g)) g = g.
Proof. unfold set_os_clk, set_os. destruct g as [?????? o]; simpl. by destruct o. Qed.

Lemma ucs2_bytes_bound s n : ucs2_bytes s = Some n -> 0 <= n <= Z.of_nat (length s).
Proof.
  remember (length s) as k eqn:Hk. revert s n Hk.
  induction k as [k IH] using (well_founded_induction lt_wf). intros s n Hk.
  destruct s as [|a [|b s']]; simpl; [done..|].
  destruct ((a =? 0) && (b =? 0)); [intros [= <-]; lia|].
  destruct (ucs2_bytes s') as [m|] eqn:Hm; simpl; [|done].
  intros [= <-]. eapply (IH (length s')) in Hm; simpl in Hk; lia.
Qed.

Lemma concat_length_const {A} (f : A -> list Z) (n : nat) (P : A -> Prop) l :
  (forall x, P x -> length (f x) = n) -> Forall P l -> length (concat (f <$> l)) = (n * length l)%nat.
Proof.
  intros Hf. induction 1 as [|x l Hx Hl IH]; [simpl; lia|].
  rewrite fmap_cons. cbn [concat length]. rewrite length_app, Hf, IH by done. lia.
Qed.

Section writers.
Context `{E : Env}.

(** A writer of a scalar: [None] when it has no room, and otherwise two bytes
    of header and the value, or the header alone. *)
Lemma wp_write_fixed (size : nat) number data bytes_free (isHello isLarge : bool)
    (Q : list Z -> G -> Prop) g :
  (size <= length data)%nat -> 0 <= bytes_free ->
  (forall bytes, Z.of_nat (length bytes) <= bytes_free -> Q bytes g) ->
  wp (write_fixed (Z.of_nat size) number data bytes_free isHello isLarge) Q g.
Proof.
  intros Hd Hb HQ. unfold write_fixed. apply wp_if; intros H1; [apply HQ; simpl; lia|].
  bool_to_prop. apply wp_if; intros H2; [apply HQ; simpl; lia|].
  apply wp_bind. eapply wp_in_bounds; [apply load_ok; rewrite ?Nat2Z.id; lia|].
  apply HQ. rewrite length_app, length_take, length_drop, Nat2Z.id.
  destruct isHello; simpl length; lia.
Qed.

Lemma wp_write_ucs2char_t number data bytes_free isHello isLarge (Q : list Z -> G -> Prop) g :
  is_Some (ucs2_bytes data) -> 0 <= bytes_free ->
  (forall bytes, Z.of_nat (length bytes) <= bytes_free -> Q bytes g) ->
  wp (write_ucs2char_t number data bytes_free isHello isLarge) Q g.
Proof.
  intros [n Hn] Hb HQ. pose proof (ucs2_bytes_bound _ _ Hn). unfold write_ucs2char_t.
  apply wp_bind. eapply wp_in_bounds; [exact Hn|].
  apply wp_if; intros H1; [apply HQ; simpl; lia|].
  bool_to_prop. apply wp_if; intros H2; [apply HQ; simpl; lia|].
  apply wp_bind. eapply wp_in_bounds; [apply load_ok; rewrite ?Z2Nat.id; lia|].
  apply HQ. rewrite length_app, length_take. destruct isHello; simpl length; lia.
Qed.

Lemma wp_ltlv_icon contents bytes_free offset (Q : list Z -> G -> Prop) g :
  2 <= bytes_free ->
  (forall bytes n, Z.of_nat (length bytes) <= bytes_free -> Q bytes (set_os_clk n g)) ->
  wp (ltlv_icon contents bytes_free offset) Q g.
Proof.
  intros Hb HQ. unfold ltlv_icon, seek_read, more_to_read.
  apply wp_bind, wp_bind, wp_sys, wp_if; intros H1.
  { wp_step. apply (HQ []). simpl. lia. }
  apply wp_bind, wp_sys, wp_if; intros H2.
  { wp_step. apply (HQ []). simpl. lia. }
  wp_step. apply wp_bind, wp_bind, wp_sys. do 2 wp_step.
  match goal with |- Q ?b _ => apply (HQ b) end. rewrite length_app, length_take.
  replace (length (be16 _)) with 2%nat by done. lia.
Qed.

Lemma wp_write_icon_file_t c number sz fd bytes_free (isHello isLarge : bool) offset g :
  c = C_icon_file -> 0 <= sz -> 2 <= bytes_free ->
  wp (write_icon_file_t number sz fd bytes_free isHello isLarge offset) (writer_post c bytes_free g) g.
Proof.
  intros -> Hsz Hb. unfold write_icon_file_t. destruct fd as [contents|].
  2:{ split; [simpl; lia|]. split; [done|]. exists (os_clk (os g)). by rewrite set_os_clk_id. }
  apply wp_bind. destruct isHello.
  - apply wp_if; intros H1.
    { do 2 wp_step. split; [simpl; lia|]. split; [done|].
      exists (os_clk (os g)). by rewrite set_os_clk_id. }
    unfold seek_read. apply wp_bind, wp_bind, wp_sys, wp_if; intros H2.
    { do 3 wp_step. split; [simpl; lia|]. split; [done|]. by eexists. }
    apply wp_bind, wp_sys, wp_if; intros H3.
    { do 3 wp_step. split; [simpl; lia|]. split; [done|]. by eexists. }
    do 3 wp_step. split; [|split; [done|by eexists]]. unfold fst.
    rewrite length_app, length_take. simpl (length (hello_hdr _ _)). lia.
  - apply wp_ltlv_icon; [done|]. intros bytes n Hn. wp_step. split; [done|]. split; [done|]. by eexists.
Qed.

Lemma wp_write_lg_icon_t c number sz fd bytes_free (isHello : bool) offset g :
  c = C_lg_icon -> 0 <= sz -> 2 <= bytes_free ->
  wp (write_lg_icon_t number sz fd bytes_free isHello offset) (writer_post c bytes_free g) g.
Proof.
  intros -> Hsz Hb. unfold write_lg_icon_t. destruct fd as [contents|].
  2:{ split; [simpl; lia|]. split; [done|]. exists (os_clk (os g)). by rewrite set_os_clk_id. }
  apply wp_bind. destruct isHello.
  - do 2 wp_step. split; [simpl; lia|]. split; [done|].
    exists (os_clk (os g)). by rewrite set_os_clk_id.
  - apply wp_ltlv_icon; [done|]. intros bytes n Hn. wp_step. split; [done|]. split; [done|]. by eexists.
Qed.

Lemma wp_write_assns_t number table cnt bytes_free (isHello : bool) offset g :
  storage_ok C_assns (D_assns table cnt) -> 2 <= bytes_free < 4294967298 ->
  wp (write_assns_t number table cnt bytes_free isHello offset) (writer_post C_assns bytes_free g) g.
Proof.
  intros Hok Hb.
  assert (Hid : exists n, g = set_os_clk n g) by (exists (os_clk (os g)); by rewrite set_os_clk_id).
  unfold write_assns_t. pose proof (u32_range offset) as Hoff.
  set (idx := u32 offset / SIZEOF_PKT_ASSN_TABLE_ENTRY).
  assert (Hi : 0 <= idx) by (apply Z.div_pos; unfold SIZEOF_PKT_ASSN_TABLE_ENTRY; lia).
  apply wp_if; intros H1; [wp_step; split; [simpl; lia|by split]|].
  destruct table as [entries|]; [|wp_step; split; [simpl; lia|by split]].
  destruct Hok as ((Hc0 & Hc) & Hcm & He).
  apply wp_if; intros H2; [wp_step; split; [simpl; lia|split; [|done]]; simpl; split; [lia|split; [lia|done]]|].
  bool_to_prop. unfold SIZEOF_PKT_ASSN_TABLE_ENTRY in *.
  rewrite (u32_small (bytes_free - 2)) by lia. rewrite (u32_small ((cnt - idx) * 10)) by lia.
  set (more := _ <? _). destruct more eqn:Hm; unfold more in Hm; bool_to_prop.
  - pose proof (Z.mul_div_le (bytes_free - 2) 10 ltac:(lia)).
    assert (0 <= (bytes_free - 2) / 10) by (apply Z.div_pos; lia).
    apply wp_bind. eapply wp_in_bounds; [apply sublist_lookup_Some; lia|].
    wp_step. split; [|split; [simpl; split; [lia|split; [lia|done]]|done]].
    unfold fst. rewrite length_app, (concat_length_const _ 10 assn_ok).
    + rewrite length_take, length_drop. replace (length (be16 _)) with 2%nat by done. lia.
    + intros [] [??]; simpl in *. unfold assn_bytes. simpl. rewrite !length_app. simpl. lia.
    + by apply Forall_take, Forall_drop.
  - apply wp_bind. eapply wp_in_bounds; [apply sublist_lookup_Some; lia|].
    wp_step. split; [|split; [simpl; split; [lia|split; [lia|done]]|done]].
    unfold fst. rewrite length_app, (concat_length_const _ 10 assn_ok).
    + rewrite length_take, length_drop. replace (length (be16 _)) with 2%nat by done. lia.
    + intros [] [??]; simpl in *. unfold assn_bytes. simpl. rewrite !length_app. simpl. lia.
    + by apply Forall_take, Forall_drop.
Qed.

Lemma wp_write_comptbl_t number t bytes_free (isHello : bool) g :
  storage_ok C_comptbl (D_comptbl t) -> 2 <= bytes_free -> (isHello = false -> 1300 <= bytes_free) ->
  wp (write_comptbl_t number t isHello) (writer_post C_comptbl bytes_free g) g.
Proof.
  intros Hok Hb Hl.
  assert (Hid : exists n, g = set_os_clk n g) by (exists (os_clk (os g)); by rewrite set_os_clk_id).
  unfold write_comptbl_t. apply wp_if; intros H1; [wp_step; split; [simpl; lia|by split]|].
  specialize (Hl H1). wp_step. split; [|by split]. destruct Hok as (Hs & Hr & Hc).
  unfold fst. rewrite !length_app, (concat_length_const _ 12 radio_ok); [|..|done].
  - replace (length (be16 _)) with 2%nat by done. simpl. rewrite Hs. lia.
  - intros [] [??]; simpl in *. unfold radio_bytes. simpl. rewrite !length_app. simpl. lia.
Qed.

Lemma wp_tlv_write_fn d bytes_free (isHello isLarge : bool) offset g :
  storage_ok (tlv_write d) (tlv_storage d) -> 2 <= bytes_free < 4294967298 ->
  (isHello = false -> 1300 <= bytes_free) ->
  wp (tlv_write_fn d bytes_free isHello isLarge offset) (writer_post (tlv_write d) bytes_free g) g.
Proof.
  intros Hok Hb Hl. unfold tlv_write_fn.
  assert (Hid : exists n, g = set_os_clk n g) by (exists (os_clk (os g)); by rewrite set_os_clk_id).
  destruct (tlv_write d), (tlv_storage d) as [data|sz fd|table cnt|t]; try done;
    try (apply wp_bind; first
      [ apply (wp_write_fixed 6) | apply (wp_write_fixed 1) | apply (wp_write_fixed 2)
      | apply (wp_write_fixed 4) | apply (wp_write_fixed 8) | apply (wp_write_fixed 16)
      | apply wp_write_ucs2char_t ]; [done|lia|]; intros bytes Hn; wp_step; by split).
  - apply wp_write_icon_file_t; [done|exact Hok|lia].
  - apply wp_write_lg_icon_t; [done|exact Hok|lia].
  - by apply wp_write_assns_t.
  - apply wp_write_comptbl_t; [done|lia|done].
Qed.
End writers.

(** ** The sending half of the state

    The operations that build and send frames touch only the transmit context,
    the TLV table and the operating system: their result is [txs x o ts g]. *)

Definition txs (x : txctx) (o : osst) (ts : list tlv_desc) (g : G) : G :=
  set_tx x (set_os o (set_g_tlvs ts g)).

Lemma txs_id g : txs (tx g) (os g) (g_tlvs g) g = g.
Proof. by destruct g. Qed.

(** A frame on the wire has at least the Ethernet and base headers and at most
    the size of a buffer. *)
Definition output_ok (o : output) : Prop :=
  match o with Frame b => 32 <= Z.of_nat (length b) <= 2048 | Promisc _ => True end.

Record io_ok `{E : Env} (g : G) : Prop := IoOk {
  io_tx : tx_ok (tx g);
  io_tlvs : tlvs_ok (g_tlvs g);
  io_out : Forall output_ok (os_out (os g))
}.

Section tlv_state.
Context `{E : Env}.

Lemma io_ok_ext g g' :
  tx g' = tx g -> g_tlvs g' = g_tlvs g -> os_out (os g') = os_out (os g) -> io_ok g -> io_ok g'.
Proof. intros H1 H2 H3 [Ht Hv Ho]. split; by rewrite ?H1, ?H2, ?H3. Qed.

Lemma wp_io_store bytes off (Q : unit -> G -> Prop) g :
  io_ok g -> 0 <= off -> off + Z.of_nat (length bytes) <= 2048 ->
  (forall x, io_ok (txs x (os g) (g_tlvs g) g) -> Q tt (txs x (os g) (g_tlvs g) g)) ->
  wp (tx_store bytes off) Q g.
Proof.
  intros [Ht Hv Ho] H1 H2 HQ. apply wp_tx_store; [done..|]. intros b Hb Htx.
  replace (set_g_txbuf b g) with (txs (tx (set_g_txbuf b g)) (os g) (g_tlvs g) g)
    by (by destruct g).
  apply HQ. by split.
Qed.

Lemma tlvs_ok_put k access storage ts :
  tlvs_ok ts -> (forall d, ts !! k = Some d -> storage_ok (tlv_write d) storage) ->
  tlvs_ok (alter (fun d => TlvDesc (tlv_number d) access (tlv_inHello d) (tlv_get d) (tlv_write d) storage)
             k ts).
Proof.
  intros H Hs. apply Forall_alter; [done|]. intros d Hd [_ Hg]. split; [exact (Hs d Hd)|exact Hg].
Qed.

Lemma wp_tlv_put k access storage (Q : unit -> G -> Prop) g :
  io_ok g -> (forall d, g_tlvs g !! k = Some d -> storage_ok (tlv_write d) storage) ->
  (forall ts, (forall d', ts !! k = Some d' -> exists d, g_tlvs g !! k = Some d
                 /\ d' = TlvDesc (tlv_number d) access (tlv_inHello d) (tlv_get d) (tlv_write d) storage) ->
     length ts = length (g_tlvs g) -> io_ok (set_g_tlvs ts g) -> Q tt (set_g_tlvs ts g)) ->
  wp (tlv_put k access storage) Q g.
Proof.
  intros [Ht Hv Ho] Hs HQ. unfold tlv_put. wp_step. apply HQ.
  - intros d' Hd'. rewrite list_lookup_alter, decide_True in Hd' by done.
    destruct (g_tlvs g !! k) as [d|] eqn:Hd; [|done]. injection Hd' as <-. by exists d.
  - apply length_alter.
  - split; [done| |done]. by apply tlvs_ok_put.
Qed.

Lemma wp_tlv_emit k access storage d buf bytes_free isHello off (Q : Z -> G -> Prop) g :
  io_ok g -> g_tlvs g !! k = Some d -> storage_ok (tlv_write d) storage ->
  2 <= bytes_free -> (isHello = false -> 1300 <= bytes_free) ->
  0 <= buf -> buf + bytes_free <= 2048 ->
  (forall n x o ts, 0 <= n <= bytes_free -> length ts = length (g_tlvs g) ->
     io_ok (txs x o ts g) -> Q n (txs x o ts g)) ->
  wp (tlv_emit k access storage buf bytes_free isHello off) Q g.
Proof.
  intros Hio Hd Hs Hb Hl Hbuf Hfit HQ. unfold tlv_emit. apply wp_bind.
  apply wp_tlv_put; [done|intros ? [= <-]%(eq_trans (eq_sym Hd)); done|].
  intros ts1 Hts1 Hlen1 Hio1.
  assert (Hk : (k < length ts1)%nat) by (rewrite Hlen1; by eapply lookup_lt_Some).
  destruct (lookup_lt_is_Some_2 ts1 k Hk) as [d1 Hd1].
  destruct (Hts1 _ Hd1) as (d0 & Hd0 & ->). rewrite Hd in Hd0. injection Hd0 as <-.
  unfold tlv_at. apply wp_bind, wp_bind, wp_gets. eapply wp_in_bounds; [exact Hd1|].
  apply wp_bind. eapply wp_mono; [apply wp_tlv_write_fn; [done|lia|done]|].
  intros [bytes st] g1 (Hn & Hst & clk & ->). simpl in Hn, Hst.
  apply wp_bind, wp_tlv_put.
  { by eapply io_ok_ext; [..|exact Hio1]. }
  { intros d' Hd'. destruct (Hts1 _ Hd') as (d0 & Hd0 & ->). rewrite Hd in Hd0. by injection Hd0 as <-. }
  intros ts2 Hts2 Hlen2 Hio2. apply wp_bind, wp_io_store; [done|lia..|]. intros x Hx.
  wp_step. change (txs x _ _ _) with (txs x (OsSt clk (os_out (os g))) ts2 g) in *.
  apply HQ; [lia|by rewrite Hlen2|done].
Qed.

(** A TLV takes at most the bytes that are free. *)
Lemma wp_tlv_write_tlv k buf bytes_free isHello off (Q : Z -> G -> Prop) g :
  io_ok g -> (k < length (g_tlvs g))%nat ->
  2 <= bytes_free -> (isHello = false -> 1300 <= bytes_free) ->
  0 <= buf -> buf + bytes_free <= 2048 ->
  (forall n x o ts, 0 <= n <= bytes_free -> length ts = length (g_tlvs g) ->
     io_ok (txs x o ts g) -> Q n (txs x o ts g)) ->
  wp (tlv_write_tlv k buf bytes_free isHello off) Q g.
Proof.
  intros Hio Hk Hb Hl Hbuf Hfit HQ. destruct (lookup_lt_is_Some_2 _ _ Hk) as [d Hd].
  pose proof (Forall_lookup_1 _ _ _ _ (io_tlvs _ Hio) Hd) as [Hs Hget].
  assert (H0 : forall o, io_ok (txs (tx g) o (g_tlvs g) g) -> Q 0 (txs (tx g) o (g_tlvs g) g))
    by (intros; apply HQ; [lia|done..]).
  unfold tlv_write_tlv, tlv_at. apply wp_bind, wp_bind, wp_gets. eapply wp_in_bounds; [exact Hd|].
  destruct (tlv_access d) eqn:Ha.
  - wp_step. rewrite <- (txs_id g). apply H0. by rewrite txs_id.
  - apply wp_if; intros Hg; [wp_step; rewrite <- (txs_id g); apply H0; by rewrite txs_id|].
    apply wp_bind, wp_sys. destruct (env_tlv_get (os_clk (os g)) (tlv_number d)) as [s|] eqn:Henv.
    + apply (wp_tlv_emit _ _ _ d); [by eapply io_ok_ext; [..|exact Hio]|done|by eapply Hget|done..|].
      intros n x o ts. apply HQ.
    + apply wp_bind, wp_tlv_put; [by eapply io_ok_ext; [..|exact Hio]| |].
      { intros d' Hd'. simpl in Hd'. rewrite Hd in Hd'. by injection Hd' as <-. }
      intros ts _ Hlen Hio1. wp_step.
      change (set_g_tlvs ts _) with (txs (tx g) (OsSt (S (os_clk (os g))) (os_out (os g))) ts g) in *.
      apply HQ; [lia|done..].
  - apply (wp_tlv_emit _ _ _ d); [done..|]. apply HQ.
  - apply wp_if; intros Hg; [wp_step; rewrite <- (txs_id g); apply H0; by rewrite txs_id|].
    apply wp_bind, wp_sys. destruct (env_tlv_get (os_clk (os g)) (tlv_number d)) as [s|] eqn:Henv.
    + apply (wp_tlv_emit _ _ _ d); [by eapply io_ok_ext; [..|exact Hio]|done|by eapply Hget|done..|].
      intros n x o ts. apply HQ.
    + apply wp_bind, wp_tlv_put; [by eapply io_ok_ext; [..|exact Hio]| |].
      { intros d' Hd'. simpl in Hd'. rewrite Hd in Hd'. by injection Hd' as <-. }
      intros ts _ Hlen Hio1. wp_step.
      change (set_g_tlvs ts _) with (txs (tx g) (OsSt (S (os_clk (os g))) (os_out (os g))) ts g) in *.
      apply HQ; [lia|done..].
Qed.

(** The Hello properties stay inside the free bytes. *)
Lemma wp_tlv_write_loop n k buf bytes_free total (Q : Z -> G -> Prop) g :
  io_ok g -> (k + n)%nat = length (g_tlvs g) -> 0 <= bytes_free -> 0 <= buf ->
  buf + bytes_free <= 2048 ->
  (forall m x o ts, total <= m <= total + bytes_free -> io_ok (txs x o ts g) -> Q m (txs x o ts g)) ->
  wp (tlv_write_loop n k buf bytes_free total) Q g.
Proof.
  revert k buf bytes_free total g. induction n as [|n IH]; intros k buf bf total g Hio Hk Hb Hbuf Hfit HQ;
    simpl.
  - wp_step. rewrite <- (txs_id g). apply HQ; [lia|by rewrite txs_id].
  - apply wp_if; intros H1; bool_to_prop.
    2:{ wp_step. rewrite <- (txs_id g). apply HQ; [lia|by rewrite txs_id]. }
    apply wp_bind, wp_tlv_write_tlv; [done|lia..|done|lia|lia|].
    intros m x o ts Hm Hlen Hio1. apply IH; [done|simpl; lia|lia..|].
    intros m' x' o' ts' Hm' Hio2. change (txs x' o' ts' (txs x o ts g)) with (txs x' o' ts' g) in *.
    apply HQ; [lia|done].
Qed.
End tlv_state.

(** ** Large TLVs *)

Section large.
Context `{E : Env}.

(** The answer for a page of an icon file, when the system calls succeed. *)
Definition icon_page (contents : list Z) (size offset : Z) : list Z :=
  let body := take (Z.to_nat size) (drop (Z.to_nat offset) contents) in
  let len := Z.of_nat (length body) in
  be16 (if offset + len <? Z.of_nat (length contents) then 0x8000 + len else len) ++ body.

Lemma lor_top_bit n : 0 <= n < 0x8000 -> Z.lor 0x8000 n = 0x8000 + n.
Proof.
  intros H. symmetry. apply Z.add_nocarry_lor, Z.bits_inj_0. intros i.
  rewrite Z.land_spec. destruct (Z.lt_trichotomy i 15) as [Hi|[->|Hi]].
  - change 0x8000 with (2 ^ 15). destruct (decide (i < 0)); [by rewrite Z.testbit_neg_r by lia|].
    by rewrite Z.pow2_bits_false by lia.
  - rewrite andb_comm. rewrite Z.testbit_eqb by lia. change (2 ^ 15) with 32768. by rewrite Z.div_small by lia.
  - change 0x8000 with (2 ^ 15). by rewrite Z.pow2_bits_false by lia.
Qed.

Lemma ltlv_icon_page contents bytes_free offset g :
  (forall n, env_lseek n = true) -> (forall n, env_read n = true) -> 2 <= bytes_free < 0x8000 -> 0 <= offset ->
  exists n, ltlv_icon contents bytes_free offset g
            = Ok (icon_page contents (bytes_free - 2) offset) (set_os_clk n g).
Proof.
  intros Hl Hr Hb Ho. eexists. unfold ltlv_icon, seek_read, more_to_read, sys, mbind, M_bind, gets, modify, mret, M_ret.
  rewrite Hl. cbn [negb]. rewrite Hr. cbn [negb]. rewrite Hr. cbn [andb]. unfold icon_page.
  set (body := take _ _). assert (Hlen : Z.of_nat (length body) <= bytes_free - 2)
    by (unfold body; rewrite length_take; lia).
  rewrite u16_small by lia. rewrite lor_top_bit by lia. reflexivity.
Qed.

(** A client that asks for the rest while the top bit of the length is set. *)
Fixpoint fetch_icon (fuel : nat) (contents : list Z) (bytes_free offset : Z) (g : G) : option (list Z) :=
  match fuel with
  | O => None
  | S fuel' =>
      match ltlv_icon contents bytes_free offset g with
      | Ok bytes g' =>
          let body := drop 2 bytes in
          if of_be (take 2 bytes) <? 0x8000 then Some body
          else app body <$> fetch_icon fuel' contents bytes_free (offset + Z.of_nat (length body)) g'
      | Err _ => None
      end
  end.

Lemma fetch_icon_drop fuel contents bytes_free offset g :
  (forall n, env_lseek n = true) -> (forall n, env_read n = true) -> 2 < bytes_free < 0x8000 ->
  0 <= offset <= Z.of_nat (length contents) ->
  Z.of_nat (length contents) - offset < Z.of_nat fuel * (bytes_free - 2) ->
  fetch_icon fuel contents bytes_free offset g = Some (drop (Z.to_nat offset) contents).
Proof.
  intros Hl Hr Hb. revert offset g. induction fuel as [|fuel IH]; intros offset g Ho Hf; [lia|].
  cbn [fetch_icon]. destruct (ltlv_icon_page contents bytes_free offset g Hl Hr ltac:(lia) ltac:(lia)) as [n ->].
  unfold icon_page. set (rest := drop (Z.to_nat offset) contents). set (body := take _ rest).
  assert (Hrest : Z.of_nat (length rest) = Z.of_nat (length contents) - offset)
    by (unfold rest; rewrite length_drop; lia).
  assert (Hbody : length body = Nat.min (Z.to_nat (bytes_free - 2)) (length rest))
    by (unfold body; by rewrite length_take).
  set (hdr := if offset + _ <? _ then _ else _). change (drop 2 (be16 hdr ++ body)) with body.
  change (take 2 (be16 hdr ++ body)) with (be16 hdr). rewrite of_be16. unfold hdr.
  destruct (Z.ltb_spec (offset + Z.of_nat (length body)) (Z.of_nat (length contents))) as [Hmore|Hlast].
  - rewrite u16_small by lia. rewrite (proj2 (Z.ltb_ge _ _)) by lia.
    rewrite IH by lia. simpl. f_equal. rewrite <- (take_drop (Z.to_nat (bytes_free - 2)) rest). fold body. f_equal.
    unfold rest. rewrite drop_drop. f_equal. lia.
  - rewrite u16_small by lia. rewrite (proj2 (Z.ltb_lt _ _)) by lia. f_equal.
    unfold body. apply take_ge. lia.
Qed.

(** An icon of any size can be read in pages: a client that asks for the
    next page while the "more" bit is set puts together exactly the file,
    whatever the room in a frame. *)
Theorem icon_reassembled fuel contents bytes_free g :
  (forall n, env_lseek n = true) -> (forall n, env_read n = true) -> 2 < bytes_free < 0x8000 ->
  Z.of_nat (length contents) < Z.of_nat fuel * (bytes_free - 2) ->
  fetch_icon fuel contents bytes_free 0 g = Some contents.
Proof. intros Hl Hr Hb Hf. rewrite fetch_icon_drop by (done || lia). done. Qed.
End large.

(** The length field of a string in a QueryLargeTlvResp is always 4, the
    size of the variable that holds the length, whatever the string. *)
Theorem ltlv_string_length_field number data n bytes_free (isLarge : bool) g :
  ucs2_bytes data = Some n -> 2 + n <= bytes_free ->
  exists value, write_ucs2char_t number data bytes_free false isLarge g = Ok (be16 4 ++ value) g
    /\ Z.of_nat (length value) = n.
Proof.
  intros Hn Hb. pose proof (ucs2_bytes_bound _ _ Hn). exists (take (Z.to_nat n) data). split.
  - unfold write_ucs2char_t, mbind, M_bind. rewrite Hn. cbn [in_bounds].
    unfold mret at 1, M_ret at 1. rewrite (proj2 (Z.ltb_ge _ _)) by lia. cbn [andb].
    rewrite load_ok by (rewrite ?Z2Nat.id; lia). reflexivity.
  - rewrite length_take. lia.
Qed.

(** In a page of the association table that is not the last one the
    length field counts its own two bytes as well: it is two more than the
    length of the rows that follow it. *)
Theorem assns_page_length_field number entries cnt bytes_free offset g :
  let idx := u32 offset / SIZEOF_PKT_ASSN_TABLE_ENTRY in
  let rows := (bytes_free - 2) / SIZEOF_PKT_ASSN_TABLE_ENTRY in
  storage_ok C_assns (D_assns (Some entries) cnt) -> 2 <= bytes_free < 0x8000 ->
  bytes_free - 2 < (cnt - idx) * SIZEOF_PKT_ASSN_TABLE_ENTRY ->
  exists value, write_assns_t number (Some entries) cnt bytes_free false offset g
      = Ok (be16 (Z.lor (Z.of_nat (length value) + 2) 0x8000) ++ value, D_assns (Some entries) cnt) g
    /\ Z.of_nat (length value) = 10 * rows.
Proof.
  intros idx rows ((Hc0 & Hc) & Hcm & He) Hb Hmore. unfold SIZEOF_PKT_ASSN_TABLE_ENTRY in *.
  pose proof (u32_range offset) as Hoff. assert (Hi : 0 <= idx) by (apply Z.div_pos; lia).
  pose proof (Z.mul_div_le (bytes_free - 2) 10 ltac:(lia)) as Hdiv. fold rows in Hdiv.
  assert (Hrows : 0 <= rows) by (apply Z.div_pos; lia).
  set (l := take (Z.to_nat rows) (drop (Z.to_nat idx) entries)).
  assert (Hlen : length (concat (assn_bytes <$> l)) = (10 * length l)%nat).
  { apply (concat_length_const _ 10 assn_ok); [|by apply Forall_take, Forall_drop].
    intros [] [??]; simpl in *. unfold assn_bytes. simpl. rewrite !length_app. simpl. lia. }
  assert (Hl : length l = Z.to_nat rows) by (unfold l; rewrite length_take, length_drop; lia).
  exists (concat (assn_bytes <$> l)). split; [|lia]. unfold write_assns_t, SIZEOF_PKT_ASSN_TABLE_ENTRY. fold idx.
  rewrite (proj2 (Z.leb_gt cnt idx)) by lia.
  rewrite (u32_small (bytes_free - 2)), (u32_small ((cnt - idx) * 10)) by lia.
  rewrite (proj2 (Z.ltb_lt (bytes_free - 2) _)) by lia. fold rows.
  assert (Hsl : sublist_lookup (Z.to_nat idx) (Z.to_nat rows) entries = Some l) by (apply sublist_lookup_Some; lia).
  unfold mbind, M_bind. rewrite Hsl. cbn [in_bounds]. unfold mret, M_ret. rewrite Hlen, Hl, u16_small by lia.
  do 4 f_equal. f_equal. lia.
Qed.
