(* ===== verification/PacketTx.v ===== *)
(** * PacketTx: building and sending frames (packetio.c, sending half)

    Frames are built in [g_txbuf] by writing the fields of the packed headers
    at their offsets, as the C code does through its header pointers. *)

From S2P Require Import Prelude LltdTypes Event SeesList Tlv.

Definition packetio_invalidate_retxbuf : CM unit :=
  modify (set_g_re_tx_opcode Opcode_INVALID);;
  modify (set_g_re_tx_len 0);;
  modify (set_g_rtxseqnum 0).

(** The Ethernet and base headers; [tbh_resrvd] is left as it is. *)
Definition fmt_base (srchw dsthw : list Z) (tos opcode seqnum : Z) (use_broadcast : bool) : CM unit :=
  tx_store srchw eh_src;;
  tx_store (if use_broadcast then Etheraddr_broadcast else dsthw) eh_dst;;
  tx_store (be16 TOPO_ETHERTYPE) eh_ethertype;;
  tx_store [TOPO_VERSION] tbh_version;;
  tx_store [u8 tos] tbh_tos;;
  tx_store [u8 opcode] tbh_opcode;;
  tx_store srchw tbh_realsrc;;
  tx_store dsthw tbh_realdst;;
  tx_store (be16 seqnum) tbh_seqnum.

Section with_env.
Context `{E : Env}.

(** [tx_write(buf, nbytes)], where [buf] is a global buffer. *)
Definition tx_write (buf : list Z) (nbytes : Z) : CM unit :=
  frame ← in_bounds (load_len nbytes buf 0);
  ret ← sys (fun n => env_write n nbytes);
  if ret <? 0 then fail Died
  else if negb (ret =? nbytes) then fail Died
  else emit_output (Frame frame).

Definition tx_sendpacket (nbytes thisSeqNum : Z) : CM unit :=
  txbuf ← gets (fun g => g_txbuf (tx g));
  tx_write txbuf nbytes;;
  modify (set_g_tx_len nbytes);;
  (* a reliable packet is kept aside and consumes the sequence number *)
  when (negb (thisSeqNum =? 0))
    (re ← gets (fun g => g_re_txbuf (tx g));
     frame ← in_bounds (load_len nbytes txbuf 0);
     re' ← in_bounds (store frame re 0);
     modify (set_g_re_txbuf re');;
     modify (set_g_rtxseqnum thisSeqNum);;
     modify (set_g_re_tx_len nbytes);;
     op ← gets (fun g => g_opcode (rx g));
     modify (set_g_re_tx_opcode (u8 op))).

Definition tx_rtxpacket : CM unit :=
  seq ← gets (fun g => g_rtxseqnum (tx g));
  assert_ (negb (seq =? 0));;
  re ← gets (fun g => g_re_txbuf (tx g));
  len ← gets (fun g => g_re_tx_len (tx g));
  tx_write re len.

(** [g_topo_session != NULL && g_topo_session->ssn_is_valid] *)
Definition topo_session_valid : CM bool :=
  topo ← gets (fun g => g_topo_session (co g));
  match topo with
  | None => mret false
  | Some _ => s ← ssn_get topo; mret (ssn_is_valid s)
  end.

Definition packetio_tx_hello : CM unit :=
  hw ← gets (fun g => g_hwaddr (co g));
  fmt_base hw Etheraddr_broadcast ToS_TopologyDiscovery Opcode_Hello 0 true;;
  gen ← gets (fun g => g_generation (co g));
  tx_store (be16 gen) hh_gen;;
  valid ← topo_session_valid;
  (if valid : bool then
     topo ← gets (fun g => g_topo_session (co g));
     s ← ssn_get topo;
     tx_store (ssn_mapper_real s) hh_curmapraddr;;
     tx_store (ssn_mapper_current s) hh_aprmapraddr
   else
     tx_store Etheraddr_null hh_curmapraddr;;
     tx_store Etheraddr_null hh_aprmapraddr);;
  let nbytes := sizeof_ether_header + sizeof_base_header + sizeof_hello_header in
  (* the TLVs, reserving room for the end-of-properties byte *)
  n ← tlv_write_info nbytes (TOPO_MAX_FRAMESZ - nbytes - 1);
  let nbytes := nbytes + n in
  tx_store [0] nbytes;;
  tx_sendpacket (nbytes + 1) 0.

(** The address of the mapper that owns the topology session. *)
Definition topo_mapper_real : CM (list Z) :=
  topo ← gets (fun g => g_topo_session (co g)); s ← ssn_get topo; mret (ssn_mapper_real s).

(** The loop of packetio_tx_queryresp: (offset after the last entry, count). *)
Fixpoint queryresp_fill (fuel : nat) (p bytes_left numdescs : Z) : CM (Z * Z) :=
  match fuel with
  | O => fail Out_of_fuel
  | S fuel' =>
      if sizeof_recvee_desc <=? bytes_left then
        d ← seeslist_dequeue;
        match d with
        | None => mret (p, numdescs)
        | Some d =>
            tx_store (recvee_bytes d) p;;
            queryresp_fill fuel' (p + sizeof_recvee_desc) (bytes_left - sizeof_recvee_desc)
              (u16 (numdescs + 1))
        end
      else mret (p, numdescs)
  end.

Definition packetio_tx_queryresp : CM unit :=
  hw ← gets (fun g => g_hwaddr (co g));
  mapper ← topo_mapper_real;
  seq ← gets (fun g => g_sequencenum (rx g));
  fmt_base hw mapper ToS_TopologyDiscovery Opcode_QueryResp seq false;;
  let nbytes := sizeof_ether_header + sizeof_base_header + sizeof_queryresp_header in
  let bytes_left := TOPO_MAX_FRAMESZ - nbytes in
  '(nbytes, numdescs) ← queryresp_fill (Z.to_nat (bytes_left / sizeof_recvee_desc) + 1)
                           nbytes bytes_left 0;
  more ← seeslist_is_empty;
  (* the M (more) bit *)
  let numdescs := if more : bool then numdescs else Z.lor numdescs 0x8000 in
  tx_store (be16 numdescs) qr_numdescs;;
  tx_sendpacket nbytes seq.

Definition packetio_tx_flat : CM unit :=
  hw ← gets (fun g => g_hwaddr (co g));
  mapper ← topo_mapper_real;
  seq ← gets (fun g => g_sequencenum (rx g));
  fmt_base hw mapper ToS_TopologyDiscovery Opcode_Flat seq false;;
  bytes ← gets (fun g => g_ctc_bytes (ch g));
  packets ← gets (fun g => g_ctc_packets (ch g));
  tx_store (be32 bytes) fh_ctc_bytes;;
  tx_store (be16 (u16 packets)) fh_ctc_packets;;
  tx_sendpacket (sizeof_ether_header + sizeof_base_header + 4 + 2) seq.

(** A field of the descriptor at offset [ed] of [g_emitbuf]. *)
Definition emitbuf_load (n : nat) (off : Z) : CM (list Z) :=
  b ← gets (fun g => g_emitbuf (em g)); in_bounds (load n b off).

Definition packetio_tx_emitee (ed : Z) : CM unit :=
  type ← of_be <$> emitbuf_load 1 (ed + ed_type);
  let Opcode := if type =? 0 then Opcode_Train else Opcode_Probe in
  src ← emitbuf_load 6 (ed + ed_src);
  dst ← emitbuf_load 6 (ed + ed_dst);
  hw ← gets (fun g => g_hwaddr (co g));
  tx_store src eh_src;;
  tx_store dst eh_dst;;
  tx_store (be16 TOPO_ETHERTYPE) eh_ethertype;;
  tx_store [TOPO_VERSION] tbh_version;;
  tx_store [u8 ToS_TopologyDiscovery] tbh_tos;;
  tx_store [u8 Opcode] tbh_opcode;;
  tx_store hw tbh_realsrc;;
  tx_store dst tbh_realdst;;
  tx_store (be16 0) tbh_seqnum;;
  tx_sendpacket (sizeof_ether_header + sizeof_base_header) 0.

Definition packetio_tx_ack (thisSeqNum : Z) : CM unit :=
  hw ← gets (fun g => g_hwaddr (co g));
  mapper ← topo_mapper_real;
  fmt_base hw mapper ToS_TopologyDiscovery Opcode_ACK thisSeqNum false;;
  tx_sendpacket (sizeof_ether_header + sizeof_base_header) thisSeqNum.

(** [tlvDescr] is an index into [Tlvs]. *)
Definition packetio_tx_qltlvResp (thisSeqNum : Z) (tlvDescr : nat) (LtlvOffset : Z) : CM unit :=
  topo ← gets (fun g => g_topo_session (co g));
  match topo with
  | None => mret tt (* warn: no mapping session *)
  | Some _ =>
      hw ← gets (fun g => g_hwaddr (co g));
      mapper ← topo_mapper_real;
      fmt_base hw mapper ToS_TopologyDiscovery Opcode_QueryLargeTlvResp thisSeqNum false;;
      let nbytes := sizeof_ether_header + sizeof_base_header in
      sz_ltlv ← tlv_write_tlv tlvDescr nbytes (TOPO_MAX_FRAMESZ - nbytes) false LtlvOffset;
      nbytes ← (if sz_ltlv =? 0 then
                  (* zero the two bytes of LTLV length and flag *)
                  tx_store [0] nbytes;; tx_store [0] (nbytes + 1);; mret (nbytes + 2)
                else mret nbytes);
      tx_sendpacket (nbytes + sz_ltlv) thisSeqNum
  end.

(** osl_set_promisc, which dies when one of its ioctl calls fails. *)
Definition osl_set_promisc (promisc : bool) : CM unit :=
  ok ← sys env_promisc;
  if (ok : bool) then emit_output (Promisc promisc) else fail Died.
End with_env.

(** ** What the sending functions leave behind *)

Ltac io_store :=
  apply wp_io_store;
  [ by auto | unfold eh_src, eh_dst, eh_ethertype, tbh_version, tbh_tos, tbh_opcode, tbh_realsrc,
      tbh_realdst, tbh_seqnum, hh_gen, hh_curmapraddr, hh_aprmapraddr, qr_numdescs, fh_ctc_bytes,
      fh_ctc_packets; lia
  | unfold eh_src, eh_dst, eh_ethertype, tbh_version, tbh_tos, tbh_opcode, tbh_realsrc,
      tbh_realdst, tbh_seqnum, hh_gen, hh_curmapraddr, hh_aprmapraddr, qr_numdescs, fh_ctc_bytes,
      fh_ctc_packets; simpl length; lia
  | let x := fresh "x" in let Hx := fresh "Hio" in intros x Hx ].

(** The final state, as the initial one with the sending half replaced. *)
Ltac txs_done g HQ :=
  match goal with |- _ ?s => change s with (txs (tx s) (os s) (g_tlvs s) g) end;
  apply HQ; assumption.

Section tx_lemmas.
Context `{E : Env}.

Lemma wp_fmt_base srchw dsthw tos opcode seqnum (use_broadcast : bool) (Q : unit -> G -> Prop) g :
  io_ok g -> length srchw = 6%nat -> length dsthw = 6%nat ->
  (forall x, io_ok (txs x (os g) (g_tlvs g) g) -> Q tt (txs x (os g) (g_tlvs g) g)) ->
  wp (fmt_base srchw dsthw tos opcode seqnum use_broadcast) Q g.
Proof.
  intros Hio Hs Hd HQ. unfold fmt_base.
  assert (Hb : length (if use_broadcast then Etheraddr_broadcast else dsthw) = 6%nat)
    by by destruct use_broadcast.
  apply wp_bind; io_store. apply wp_bind; io_store. do 6 (apply wp_bind; io_store). io_store.
  match goal with |- Q tt ?s => change s with (txs x7 (os g) (g_tlvs g) g) in * end.
  by apply HQ.
Qed.

Lemma wp_tx_write buf nbytes (Q : unit -> G -> Prop) g :
  io_ok g -> 32 <= nbytes <= 2048 -> nbytes <= Z.of_nat (length buf) ->
  (forall o, io_ok (txs (tx g) o (g_tlvs g) g) -> Q tt (txs (tx g) o (g_tlvs g) g)) ->
  wp (tx_write buf nbytes) Q g.
Proof.
  intros [Ht Hv Ho] Hn Hl HQ. unfold tx_write. apply wp_bind.
  eapply wp_in_bounds; [apply load_len_ok; lia|].
  apply wp_bind, wp_sys, wp_if; intros H1; [apply wp_die|].
  apply wp_if; intros H2; [apply wp_die|]. unfold emit_output. wp_step.
  match goal with |- Q tt (set_os_out ?l (set_os_clk ?n g)) =>
    change (set_os_out l (set_os_clk n g)) with (set_os (OsSt n l) g) end.
  replace (set_os _ g) with (txs (tx g) (OsSt (S (os_clk (os g))) (os_out (os g) ++
    [Frame (take (Z.to_nat nbytes) (drop (Z.to_nat 0) buf))])) (g_tlvs g) g) by (by destruct g).
  apply HQ. split; [done|done|]. apply Forall_app. split; [done|]. apply Forall_singleton.
  simpl. rewrite length_take, length_drop. lia.
Qed.

Lemma wp_tx_sendpacket nbytes seq (Q : unit -> G -> Prop) g :
  io_ok g -> 32 <= nbytes <= TOPO_MAX_FRAMESZ ->
  (forall x o, g_tx_len x = nbytes -> io_ok (txs x o (g_tlvs g) g) -> Q tt (txs x o (g_tlvs g) g)) ->
  wp (tx_sendpacket nbytes seq) Q g.
Proof.
  intros Hio Hn HQ. unfold TOPO_MAX_FRAMESZ in Hn. unfold tx_sendpacket.
  pose proof (xo_size _ (io_tx _ Hio)) as Hs1. unfold TXBUFSZ in Hs1.
  pose proof (xo_re_size _ (io_tx _ Hio)) as Hs2. unfold TXBUFSZ in Hs2.
  apply wp_bind, wp_gets, wp_bind, wp_tx_write; [done|lia|lia|]. intros o [Ht Hv Ho].
  do 2 wp_step. set (g1 := set_g_tx_len _ _).
  set (x1 := TxCtx (g_txbuf (tx g)) (g_re_txbuf (tx g)) (g_rtxseqnum (tx g)) nbytes
               (g_re_tx_len (tx g)) (g_re_tx_opcode (tx g))).
  assert (E1 : g1 = txs x1 o (g_tlvs g) g) by by destruct g.
  rewrite E1. clear g1 E1. destruct Ht as [H1 H2 H3 H4 H5]. simpl in H1, H2, H3, H4, H5.
  apply wp_when; intros Hseq.
  - apply wp_bind, wp_gets, wp_bind. eapply wp_in_bounds; [apply load_len_ok; lia|].
    set (frame := take _ _). assert (Hf : Z.of_nat (length frame) = nbytes)
      by (unfold frame; rewrite length_take, length_drop; lia).
    apply wp_bind. eapply wp_in_bounds; [apply store_ok; simpl; lia|].
    do 6 wp_step. apply wp_bind, wp_gets. wp_step.
    match goal with |- Q tt ?s =>
      change s with (txs (tx s) o (g_tlvs g) g) end.
    apply HQ; [done|]. split; [|done|done].
    split; simpl; rewrite ?length_inserts; unfold TXBUFSZ, TOPO_MAX_FRAMESZ; lia.
  - apply HQ; [done|]. split; [|done|done].
    split; simpl; unfold TXBUFSZ, TOPO_MAX_FRAMESZ in *; try done; lia.
Qed.

Lemma wp_tx_rtxpacket (Q : unit -> G -> Prop) g :
  io_ok g -> g_rtxseqnum (tx g) <> 0 ->
  (forall o, io_ok (txs (tx g) o (g_tlvs g) g) -> Q tt (txs (tx g) o (g_tlvs g) g)) ->
  wp tx_rtxpacket Q g.
Proof.
  intros Hio Hseq HQ. pose proof (io_tx _ Hio) as [H1 H2 H3 H4 H5].
  unfold TXBUFSZ, TOPO_MAX_FRAMESZ in *. specialize (H5 Hseq).
  unfold tx_rtxpacket. do 2 wp_step. apply wp_bind, wp_assert.
  { by apply negb_true_iff, Z.eqb_neq. }
  do 4 wp_step. apply wp_tx_write; [done|lia|lia|done].
Qed.

Lemma wp_invalidate_retxbuf (Q : unit -> G -> Prop) g :
  io_ok g ->
  (forall x, io_ok (txs x (os g) (g_tlvs g) g) -> Q tt (txs x (os g) (g_tlvs g) g)) ->
  wp packetio_invalidate_retxbuf Q g.
Proof.
  intros [[H1 H2 H3 H4 H5] Hv Ho] HQ. unfold packetio_invalidate_retxbuf. do 5 wp_step.
  match goal with |- Q tt ?s => replace s with (txs (tx s) (os g) (g_tlvs g) g) by (by destruct g) end.
  apply HQ. split; [|done|done].
  split; simpl; unfold TXBUFSZ, TOPO_MAX_FRAMESZ in *; try done; lia.
Qed.

(** The test of the topology session. *)
Definition topo_valid (r : core) : bool :=
  match g_topo_session r with
  | Some i => match g_sessions r !! i with Some s => ssn_is_valid s | None => false end
  | None => false
  end.

Lemma wp_topo_session_valid (Q : bool -> G -> Prop) g :
  core_wf (co g) -> Q (topo_valid (co g)) g -> wp topo_session_valid Q g.
Proof.
  intros H HQ. unfold topo_session_valid. apply wp_bind, wp_gets. unfold topo_valid in HQ.
  destruct (g_topo_session (co g)) as [i|] eqn:Ht; [|wp_step; done].
  destruct (lookup_lt_is_Some_2 (g_sessions (co g)) i) as [s Hs].
  { rewrite (cw_size _ H). by apply (cw_topo _ H). }
  rewrite Hs in HQ. apply wp_bind. eapply wp_ssn_get; [exact Hs|]. by wp_step.
Qed.

Lemma topo_valid_Some r : topo_valid r = true ->
  exists i s, g_topo_session r = Some i /\ g_sessions r !! i = Some s /\ ssn_is_valid s = true.
Proof.
  unfold topo_valid. destruct (g_topo_session r) as [i|]; [|done].
  destruct (g_sessions r !! i) as [s|] eqn:Hs; [|done]. intros Hv. by exists i, s.
Qed.

Lemma wp_packetio_tx_hello (Q : unit -> G -> Prop) g :
  io_ok g -> core_wf (co g) ->
  (forall x o ts, io_ok (txs x o ts g) -> Q tt (txs x o ts g)) ->
  wp packetio_tx_hello Q g.
Proof.
  intros Hio Hw HQ. unfold packetio_tx_hello. apply wp_bind, wp_gets, wp_bind, wp_fmt_base;
    [done|apply Hw|done|]. intros x1 H1.
  apply wp_bind, wp_gets, wp_bind. io_store. apply wp_bind, wp_topo_session_valid; [done|].
  apply wp_bind.
  match goal with |- wp _ ?P _ => assert (Hrest : forall x, io_ok (txs x (os g) (g_tlvs g) g) ->
                                    P tt (txs x (os g) (g_tlvs g) g)) end.
  { intros x2 H2. cbv beta. unfold tlv_write_info.
    apply wp_bind, wp_bind, wp_gets, wp_tlv_write_loop; [done|done|done|done|done|].
    intros m x3 o3 ts3 Hm H3. unfold TOPO_MAX_FRAMESZ, sizeof_ether_header, sizeof_base_header,
      sizeof_hello_header in *. apply wp_bind. io_store.
    apply wp_tx_sendpacket; [done|unfold TOPO_MAX_FRAMESZ; lia|].
    intros x4 o4 _ H4. txs_done g HQ. }
  apply wp_if; intros Hv.
  - destruct (topo_valid_Some _ Hv) as (i & s & Ht & Hs & _). simpl in Ht, Hs.
    apply wp_bind, wp_gets. simpl. rewrite Ht. apply wp_bind. eapply wp_ssn_get; [exact Hs|].
    destruct (Forall_lookup_1 _ _ _ _ (cw_sessions _ Hw) Hs) as [Hr Hc].
    apply wp_bind. io_store. io_store. by apply Hrest.
  - apply wp_bind. io_store. io_store. by apply Hrest.
Qed.

(** The topology session of a running machine. *)
Lemma wp_topo_mapper_real i (Q : list Z -> G -> Prop) g :
  core_wf (co g) -> g_topo_session (co g) = Some i ->
  (forall m, length m = 6%nat -> Q m g) -> wp topo_mapper_real Q g.
Proof.
  intros Hw Hi HQ. unfold topo_mapper_real. apply wp_bind, wp_gets. rewrite Hi.
  destruct (lookup_lt_is_Some_2 (g_sessions (co g)) i) as [s Hs].
  { rewrite (cw_size _ Hw). by apply (cw_topo _ Hw). }
  apply wp_bind. eapply wp_ssn_get; [exact Hs|]. wp_step. apply HQ.
  by destruct (Forall_lookup_1 _ _ _ _ (cw_sessions _ Hw) Hs).
Qed.

(** The entries of a query response fit in the frame. *)
Lemma wp_queryresp_fill fuel p bytes_left n (Q : Z * Z -> G -> Prop) g :
  io_ok g -> sees_ok (g_sees g) -> 0 <= p -> 0 <= bytes_left -> p + bytes_left <= TOPO_MAX_FRAMESZ ->
  bytes_left / sizeof_recvee_desc < Z.of_nat fuel ->
  (forall p' n' x sl, p <= p' <= p + bytes_left -> sees_ok sl ->
     io_ok (txs x (os g) (g_tlvs g) (set_g_sees sl g)) ->
     Q (p', n') (txs x (os g) (g_tlvs g) (set_g_sees sl g))) ->
  wp (queryresp_fill fuel p bytes_left n) Q g.
Proof.
  unfold TOPO_MAX_FRAMESZ, sizeof_recvee_desc.
  revert p bytes_left n g. induction fuel as [|fuel IH]; intros p bl n g Hio Hsl Hp Hb Hfit Hfuel HQ.
  { assert (0 <= bl / 20) by (apply Z.div_pos; lia). lia. }
  assert (Hstop : Q (p, n) g).
  { replace g with (txs (tx g) (os g) (g_tlvs g) (set_g_sees (g_sees g) g)) by (by destruct g).
    apply HQ; [lia|done|]. by destruct g. }
  simpl. unfold sizeof_recvee_desc. apply wp_if; intros H1; bool_to_prop; [|by wp_step].
  apply wp_bind, wp_seeslist_dequeue; [done|intros _; by wp_step|].
  intros d Hne Hd (Hd1 & Hd2 & Hd3). apply wp_bind, wp_io_store.
  - by eapply io_ok_ext; [..|exact Hio].
  - lia.
  - unfold recvee_bytes. rewrite !length_app. simpl (length (be16 _)). lia.
  - intros x Hx. apply IH; [done|by apply sees_pop_ok|lia..| |].
    + replace bl with (1 * 20 + (bl - 20)) in Hfuel by lia. rewrite Z.div_add_l in Hfuel by lia. lia.
    + intros p' n' x' sl' Hp' Hsl' Hio'.
      change (txs x' _ _ _) with (txs x' (os g) (g_tlvs g) (set_g_sees sl' g)) in *.
      apply HQ; [lia|done..].
Qed.

Lemma wp_packetio_tx_queryresp i (Q : unit -> G -> Prop) g :
  io_ok g -> core_wf (co g) -> sees_ok (g_sees g) -> g_topo_session (co g) = Some i ->
  (forall x o ts sl, sees_ok sl -> io_ok (txs x o ts (set_g_sees sl g)) ->
     Q tt (txs x o ts (set_g_sees sl g))) ->
  wp packetio_tx_queryresp Q g.
Proof.
  intros Hio Hw Hsl Hi HQ. unfold packetio_tx_queryresp. apply wp_bind, wp_gets, wp_bind.
  apply (wp_topo_mapper_real i); [done..|]. intros m Hm. apply wp_bind, wp_gets, wp_bind.
  apply wp_fmt_base; [done|apply Hw|done|]. intros x1 H1. apply wp_bind, wp_queryresp_fill;
    [done|done|done|done|done|done|].
  unfold sizeof_ether_header, sizeof_base_header, sizeof_queryresp_header, TOPO_MAX_FRAMESZ.
  intros p n x2 sl Hp Hsl2 H2. apply wp_bind, wp_gets, wp_bind. io_store.
  apply wp_tx_sendpacket; [done|unfold TOPO_MAX_FRAMESZ; lia|]. intros x4 o4 _ H4.
  match goal with |- Q tt ?s => change s with (txs (tx s) (os s) (g_tlvs s) (set_g_sees sl g)) end.
  by apply HQ.
Qed.

Lemma wp_packetio_tx_flat i (Q : unit -> G -> Prop) g :
  io_ok g -> core_wf (co g) -> g_topo_session (co g) = Some i ->
  (forall x o ts, g_tx_len x = 38 -> io_ok (txs x o ts g) -> Q tt (txs x o ts g)) ->
  wp packetio_tx_flat Q g.
Proof.
  intros Hio Hw Hi HQ. unfold packetio_tx_flat. apply wp_bind, wp_gets, wp_bind.
  apply (wp_topo_mapper_real i); [done..|]. intros m Hm. apply wp_bind, wp_gets, wp_bind.
  apply wp_fmt_base; [done|apply Hw|done|]. intros x1 H1. do 2 apply wp_bind, wp_gets.
  apply wp_bind. io_store. apply wp_bind. io_store. apply wp_tx_sendpacket; [done|done|].
  intros x4 o4 Hl H4. match goal with |- Q tt ?s => change s with (txs x4 o4 (g_tlvs g) g) in * end.
  by apply HQ.
Qed.

Lemma wp_emitbuf_load n off (Q : list Z -> G -> Prop) g :
  Z.of_nat (length (g_emitbuf (em g))) = RXBUFSZ -> 0 <= off -> off + Z.of_nat n <= 2048 ->
  (forall l, length l = n -> Q l g) -> wp (emitbuf_load n off) Q g.
Proof.
  unfold RXBUFSZ. intros Hl H0 H1 HQ. unfold emitbuf_load. apply wp_bind, wp_gets.
  eapply wp_in_bounds; [apply load_ok; lia|]. apply HQ. rewrite length_take, length_drop. lia.
Qed.

Lemma wp_packetio_tx_emitee ed (Q : unit -> G -> Prop) g :
  io_ok g -> core_wf (co g) -> Z.of_nat (length (g_emitbuf (em g))) = RXBUFSZ ->
  0 <= ed -> ed + sizeof_emitee_desc <= 2048 ->
  (forall x o ts, io_ok (txs x o ts g) -> Q tt (txs x o ts g)) ->
  wp (packetio_tx_emitee ed) Q g.
Proof.
  unfold sizeof_emitee_desc.
  intros Hio Hw Hl H0 H1 HQ. unfold packetio_tx_emitee. apply wp_bind, wp_fmap, wp_emitbuf_load;
    [done|unfold ed_type; lia..|]. intros l1 Hl1.
  apply wp_bind, wp_emitbuf_load; [done|unfold ed_src; lia..|]. intros src Hsrc.
  apply wp_bind, wp_emitbuf_load; [done|unfold ed_dst; lia..|]. intros dst Hdst.
  apply wp_bind, wp_gets. pose proof (cw_hw _ Hw) as Hhw. do 9 (apply wp_bind; io_store).
  apply wp_tx_sendpacket; [done|done|]. intros x' o' _ Hx'. txs_done g HQ.
Qed.

Lemma wp_packetio_tx_ack seq i (Q : unit -> G -> Prop) g :
  io_ok g -> core_wf (co g) -> g_topo_session (co g) = Some i ->
  (forall x o ts, g_tx_len x = 32 -> io_ok (txs x o ts g) -> Q tt (txs x o ts g)) ->
  wp (packetio_tx_ack seq) Q g.
Proof.
  intros Hio Hw Hi HQ. unfold packetio_tx_ack. apply wp_bind, wp_gets, wp_bind.
  apply (wp_topo_mapper_real i); [done..|]. intros m Hm. apply wp_bind.
  apply wp_fmt_base; [done|apply Hw|done|]. intros x1 H1. apply wp_tx_sendpacket; [done|done|].
  intros x4 o4 Hl H4. match goal with |- Q tt ?s => change s with (txs x4 o4 (g_tlvs g) g) in * end.
  by apply HQ.
Qed.

Lemma wp_packetio_tx_qltlvResp seq k off (Q : unit -> G -> Prop) g :
  io_ok g -> core_wf (co g) -> (k < length (g_tlvs g))%nat ->
  (forall x o ts, io_ok (txs x o ts g) -> Q tt (txs x o ts g)) ->
  wp (packetio_tx_qltlvResp seq k off) Q g.
Proof.
  intros Hio Hw Hk HQ. unfold packetio_tx_qltlvResp. apply wp_bind, wp_gets.
  destruct (g_topo_session (co g)) as [i|] eqn:Hi.
  2:{ wp_step. rewrite <- (txs_id g). apply HQ. by rewrite txs_id. }
  apply wp_bind, wp_gets, wp_bind, (wp_topo_mapper_real i); [done..|]. intros m Hm. apply wp_bind.
  apply wp_fmt_base; [done|apply Hw|done|]. intros x1 H1.
  unfold sizeof_ether_header, sizeof_base_header, TOPO_MAX_FRAMESZ.
  apply wp_bind, wp_tlv_write_tlv; [done|done|lia..|].
  intros n x2 o2 ts2 Hn _ H2. apply wp_bind, wp_if; intros Hz; bool_to_prop.
  - apply wp_bind. io_store. apply wp_bind. io_store. wp_step.
    apply wp_tx_sendpacket; [done|unfold TOPO_MAX_FRAMESZ; lia|]. intros x' o' _ Hx'. txs_done g HQ.
  - wp_step. apply wp_tx_sendpacket; [done|unfold TOPO_MAX_FRAMESZ; lia|].
    intros x' o' _ Hx'. txs_done g HQ.
Qed.

Lemma wp_osl_set_promisc b (Q : unit -> G -> Prop) g :
  io_ok g -> (forall o, io_ok (txs (tx g) o (g_tlvs g) g) -> Q tt (txs (tx g) o (g_tlvs g) g)) ->
  wp (osl_set_promisc b) Q g.
Proof.
  intros [Ht Hv Ho] HQ. unfold osl_set_promisc. apply wp_bind, wp_sys, wp_if; intros H1; [|apply wp_die].
  unfold emit_output. wp_step.
  match goal with |- Q tt ?s => change s with (set_os (os s) g) end.
  match goal with |- Q tt (set_os ?o g) =>
    replace (set_os o g) with (txs (tx g) o (g_tlvs g) g) by (by destruct g) end.
  apply HQ. split; [done|done|]. apply Forall_app. split; [done|]. by apply Forall_singleton.
Qed.
End tx_lemmas.
