(* ===== verification/Mapping.v ===== *)
(** * Mapping: the topology state machine smT (mapping.c, set_emit_timer of state.c)

    The handlers of the three states, and the loop that re-enters them while
    they answer [KEEP_GOING].  Their argument [evt] is always [&g_this_event],
    so they read and write the event in the state. *)

From S2P Require Import Prelude LltdTypes Event SeesList Tlv PacketTx.

Section with_env.
Context `{E : Env}.

(** set_emit_timer of state.c: true when the next descriptor asks for a pause. *)
Definition set_emit_timer : CM bool :=
  remaining ← gets (fun g => g_emit_remaining (em g));
  assert_ (0 <? remaining);;
  tmr ← gets (timer_get T_emit);
  assert_ (bool_decide (tmr = None));;
  p ← gets (fun g => g_emitdesc (em g));
  ed ← deref p;
  pause ← of_be <$> emitbuf_load 1 (ed + ed_pause);
  if negb (pause =? 0) then
    now ← now_plus pause; arm T_emit now;; mret true
  else mret false.

Definition SufficientChargeAvailable (c : charge) : bool :=
  (g_neededPackets c <=? g_ctc_packets c) && (g_neededBytes c <=? g_ctc_bytes c).

Definition ProcessEmits : CM unit :=
  (* copy the receive buffer into the emit buffer *)
  len ← gets (fun g => g_rcvd_pkt_len (rx g));
  rxb ← gets (fun g => g_rxbuf (rx g));
  pkt ← in_bounds (load_len len rxb 0);
  eb ← gets (fun g => g_emitbuf (em g));
  eb' ← in_bounds (store pkt eb 0);
  modify (set_g_emitbuf eb');;
  remaining ← gets (fun g => g_emit_remaining (em g));
  assert_ (remaining =? 0);;
  n ← gets (fun g => numDescrs (g_this_event (co g)));
  modify (set_g_emit_remaining (u16 n));;
  seq ← gets (fun g => g_sequencenum (rx g));
  modify (set_g_emit_seqnum seq);;
  modify (set_g_emitdesc (Some (sizeof_ether_header + sizeof_base_header + sizeof_emit_header))).

Definition reset_charge_timer : CM unit :=
  now ← now_plus TOPO_CHARGE_TIMEOUT; CANCEL T_charge;; arm T_charge now.

(** [pktlen] is an int; the additions are on uint32_t. *)
Definition charge_added (pktlen : Z) (c : charge) : charge :=
  let packets := u32 (g_ctc_packets c + 1) in
  let bytes := u32 (g_ctc_bytes c + pktlen) in
  Charge (if TOPO_CTC_PACKETS_MAX <? packets then TOPO_CTC_PACKETS_MAX else packets)
    (if TOPO_CTC_BYTES_MAX <? bytes then TOPO_CTC_BYTES_MAX else bytes)
    (g_totalPause c) (g_neededPackets c) (g_neededBytes c).
Definition ChargeAdd (pktlen : Z) : CM unit :=
  modify (fun g => set_ch (charge_added pktlen (ch g)) g);; reset_charge_timer.

Definition charge_consumed (pktlen : Z) (c : charge) : charge :=
  Charge (if g_ctc_packets c =? 0 then g_ctc_packets c else g_ctc_packets c - 1)
    (if g_ctc_bytes c =? 0 then g_ctc_bytes c else u32 (g_ctc_bytes c - pktlen))
    (g_totalPause c) (g_neededPackets c) (g_neededBytes c).
Definition ChargeConsume (pktlen : Z) : CM unit :=
  modify (fun g => set_ch (charge_consumed pktlen (ch g)) g);; reset_charge_timer.

(** [g_ctc_packets = g_ctc_bytes = 0] *)
Definition zero_ctc : CM unit :=
  modify (set_g_ctc_bytes 0);; modify (set_g_ctc_packets 0).

Definition known_opcode (op : Z) : bool := (0 <=? op) && (op <? Opcode_INVALID).

(** A handler's answer to a packet it ignores: only an unknown opcode aborts. *)
Definition ignore_packet (op : Z) : CM sm_Status :=
  mret (if known_opcode op then PROCESSING_COMPLETED else PROCESSING_ABORTED).

(** [evt->ssn == g_topo_session] *)
Definition evt_is_topo (g : G) : bool :=
  bool_decide (evt_ssn (g_this_event (co g)) = g_topo_session (co g)).

(** [gen != 0 && g_generation != gen], then save it for future Hellos. *)
Definition learn_generation : CM unit :=
  gen ← rx16 mh_gen;
  internal ← gets (fun g => isInternalEvt (g_this_event (co g)));
  old ← gets (fun g => g_generation (co g));
  when (negb internal && negb (gen =? 0) && negb (old =? gen)) (modify (set_g_generation gen)).

Definition smT_QuiescentHandler : CM sm_Status :=
  e ← gets (fun g => g_this_event (co g));
  match evtType e with
  | evtPacketRcvd => op ← gets (fun g => g_opcode (rx g)); ignore_packet op
  | evtDiscoverRcvd =>
      (if isAckingMe e then
         learn_generation;;
         modify (set_g_smT_state smT_Command)
       else mret tt);;
      mret PROCESSING_COMPLETED
  | evtInactivityTimeout | evtResetRcvd =>
      topo ← gets evt_is_topo;
      when topo
        (zero_ctc;; CANCEL T_charge;; modify (set_g_topo_session None));;
      mret PROCESSING_COMPLETED
  | _ => mret PROCESSING_COMPLETED
  end.

(** Opcode_QueryLargeTlv in smT_CommandHandler: answer with the first TLV
    that has the requested number, if there is one. *)
Definition command_qltlv : CM unit :=
  type ← rx8 qh_type;
  ts ← gets g_tlvs;
  match list_find (fun d => tlv_number d = 0 \/ tlv_number d = type) ts with
  | Some (k, d) =>
      if tlv_number d =? 0 then mret tt
      else
        off ← rx16 qh_offset;
        rsvd1 ← rx8 qh_rsvd1;
        seq ← gets (fun g => g_sequencenum (rx g));
        packetio_tx_qltlvResp seq k (off + Z.shiftl rsvd1 16)
  | None => mret tt
  end.

(** [ChargeConsume(g_tx_len)] *)
Definition consume_tx : CM unit :=
  len ← gets (fun g => g_tx_len (tx g)); ChargeConsume (s32 len).

(** evtPacketRcvd in smT_CommandHandler. *)
Definition command_packet : CM sm_Status :=
  op ← gets (fun g => g_opcode (rx g));
  if op =? Opcode_Charge then
    len ← gets (fun g => g_rcvd_pkt_len (rx g));
    ChargeAdd (s32 len);;
    seq ← gets (fun g => g_sequencenum (rx g));
    when (negb (seq =? 0)) (packetio_tx_flat;; consume_tx);;
    mret PROCESSING_COMPLETED
  else if op =? Opcode_Probe then
    src ← rx_mac tbh_realsrc; seeslist_enqueue false src;; mret PROCESSING_COMPLETED
  else if op =? Opcode_Query then packetio_tx_queryresp;; mret PROCESSING_COMPLETED
  else if op =? Opcode_QueryLargeTlv then command_qltlv;; mret PROCESSING_COMPLETED
  else ignore_packet op.

(** evtInactivityTimeout and evtResetRcvd in smT_CommandHandler. *)
Definition command_reset : CM unit :=
  topo ← gets evt_is_topo;
  when topo
    (zero_ctc;; CANCEL T_charge;; seeslist_clear;;
     modify (set_g_topo_session None);; modify (set_g_smT_state smT_Quiescent)).

(** evtEmitRcvd in smT_CommandHandler. *)
Definition command_emit : CM sm_Status :=
  emiteeCnt ← rx16 eh_numdescs;
  seq ← gets (fun g => g_sequencenum (rx g));
  (* an unsequenced Emit with more than one emitee is ignored *)
  if (1 <? emiteeCnt) && (seq =? 0) then mret PROCESSING_COMPLETED
  else
    len ← gets (fun g => g_rcvd_pkt_len (rx g));
    ChargeAdd (s32 len);;
    c ← gets ch;
    if SufficientChargeAvailable c then
      zero_ctc;; CANCEL T_charge;;
      ProcessEmits;;
      remaining ← gets (fun g => g_emit_remaining (em g));
      if 0 <? remaining then
        modify (set_g_smT_state smT_Emit);;
        pausing ← set_emit_timer;
        if pausing : bool then mret PROCESSING_COMPLETED
        else modify (evt_update (set_evtType evtEmitTimeout));; mret KEEP_GOING
      else
        (* an Emit with no descriptor: stay here, possibly acknowledging *)
        eseq ← gets (fun g => g_emit_seqnum (em g));
        when (negb (eseq =? 0)) (packetio_tx_ack eseq;; consume_tx);;
        mret PROCESSING_COMPLETED
    else
      packetio_tx_flat;; consume_tx;; mret PROCESSING_COMPLETED.

Definition smT_CommandHandler : CM sm_Status :=
  e ← gets (fun g => g_this_event (co g));
  match evtType e with
  | evtPacketRcvd => command_packet
  | evtInactivityTimeout | evtResetRcvd => command_reset;; mret PROCESSING_COMPLETED
  | evtChargeTimeout => zero_ctc;; CANCEL T_charge;; mret PROCESSING_COMPLETED
  | evtEmitRcvd => command_emit
  | evtDiscoverRcvd => learn_generation;; mret PROCESSING_COMPLETED
  | _ => mret PROCESSING_COMPLETED
  end.

(** evtEmitTimeout in smT_EmitHandler: send one descriptor. *)
Definition emit_next : CM sm_Status :=
  p ← gets (fun g => g_emitdesc (em g));
  ed ← deref p;
  packetio_tx_emitee ed;;
  remaining ← gets (fun g => g_emit_remaining (em g));
  modify (set_g_emit_remaining (u16 (remaining - 1)));;
  modify (set_g_emitdesc (Some (ed + sizeof_emitee_desc)));;
  if u16 (remaining - 1) =? 0 then
    modify (set_g_smT_state smT_Command);;
    CANCEL T_emit;;
    eseq ← gets (fun g => g_emit_seqnum (em g));
    when (negb (eseq =? 0)) (packetio_tx_ack eseq);;
    mret PROCESSING_COMPLETED
  else
    paused ← set_emit_timer;
    mret (if paused : bool then PROCESSING_COMPLETED else KEEP_GOING).

Definition smT_EmitHandler : CM sm_Status :=
  e ← gets (fun g => g_this_event (co g));
  match evtType e with
  | evtPacketRcvd =>
      op ← gets (fun g => g_opcode (rx g));
      if op =? Opcode_Probe then
        src ← rx_mac tbh_realsrc; seeslist_enqueue false src;; mret PROCESSING_COMPLETED
      else ignore_packet op
  | evtInactivityTimeout | evtResetRcvd =>
      topo ← gets evt_is_topo;
      when topo
        (modify (set_g_emit_remaining 0);; zero_ctc;;
         CANCEL T_charge;; CANCEL T_emit;; seeslist_clear;;
         modify (set_g_topo_session None);; modify (set_g_smT_state smT_Quiescent));;
      mret PROCESSING_COMPLETED
  | evtEmitTimeout => emit_next
  | _ => mret PROCESSING_COMPLETED
  end.

(** The body of the [do ... while] loop. *)
Definition smT_dispatch : CM sm_Status :=
  st ← gets (fun g => g_smT_state (co g));
  match st with
  | smT_Quiescent => smT_QuiescentHandler
  | smT_Command => smT_CommandHandler
  | smT_Emit => smT_EmitHandler
  end.

Fixpoint smT_loop (fuel : nat) : CM sm_Status :=
  match fuel with
  | O => fail Out_of_fuel
  | S fuel' =>
      ClockControl ← smT_dispatch;
      match ClockControl with
      | KEEP_GOING => smT_loop fuel'
      | _ => mret ClockControl
      end
  end.

(** Every turn of the loop after the first sends one descriptor. *)
Definition smT_fuel (g : G) : nat :=
  2 + Z.to_nat (u16 (numDescrs (g_this_event (co g)))) + Z.to_nat (g_emit_remaining (em g)).

Definition smT_process_event : CM sm_Status :=
  topo ← gets (fun g => g_topo_session (co g));
  ssn ← gets (fun g => evt_ssn (g_this_event (co g)));
  match topo with
  | None => mret PROCESSING_ABORTED
  | Some _ =>
      if bool_decide (ssn <> None /\ ssn <> topo) then mret PROCESSING_ABORTED
      else fuel ← gets smT_fuel; smT_loop fuel
  end.
End with_env.

(** ** The invariant of the machines' shared state *)

(** Buffers, tables and timers are well formed; this part holds between any
    two statements of the handlers. *)
Record base_ok `{E : Env} (g : G) : Prop := BaseOk {
  bo_io : io_ok g;
  bo_rx : rx_ok (rx g);
  bo_core : core_wf (co g);
  bo_sees : sees_ok (g_sees g);
  bo_timers : timers_ok g;
  bo_emitbuf : Z.of_nat (length (g_emitbuf (em g))) = RXBUFSZ
}.

(** Descriptors are left to send, and they are inside the emit buffer. *)
Definition emit_pending (e : emitst) : Prop :=
  0 < g_emit_remaining e < 65536
  /\ exists p, g_emitdesc e = Some p /\ 0 <= p
     /\ p + sizeof_emitee_desc * g_emit_remaining e <= RXBUFSZ.

Definition no_credit (c : charge) : Prop := g_ctc_packets c = 0 /\ g_ctc_bytes c = 0.

(** Transmit credit: at most TOPO_CTC_PACKETS_MAX frames, and credit exists
    only while the charge timer that takes it away is running. *)
Record charge_ok (g : G) : Prop := ChargeOk {
  co_packets : 0 <= g_ctc_packets (ch g) <= TOPO_CTC_PACKETS_MAX;
  co_bytes : 0 <= g_ctc_bytes (ch g) < 2 ^ 32;
  co_timer : timer_get T_charge g = None -> no_credit (ch g)
}.

(** The topology machine.  [firing] holds while the event being processed is
    the expiry of the emit timer. *)
Record smT_inv (firing : bool) (g : G) : Prop := SmTInv {
  ti_charge : charge_ok g;
  ti_state :
    match g_smT_state (co g) with
    | smT_Quiescent => timer_get T_emit g = None /\ g_emit_remaining (em g) = 0 /\ timer_get T_charge g = None
    | smT_Command => timer_get T_emit g = None /\ g_emit_remaining (em g) = 0 /\ g_topo_session (co g) <> None
    | smT_Emit => (timer_get T_emit g = None <-> firing = true) /\ emit_pending (em g)
                  /\ g_topo_session (co g) <> None /\ timer_get T_charge g = None
    end
}.

(** An Emit event describes descriptors that are inside the received frame. *)
Definition emit_event_ok (g : G) : Prop :=
  evtType (g_this_event (co g)) = evtEmitRcvd ->
  0 <= numDescrs (g_this_event (co g)) < 65536
  /\ sizeof_ether_header + sizeof_base_header + sizeof_emit_header
     + sizeof_emitee_desc * numDescrs (g_this_event (co g)) <= g_rcvd_pkt_len (rx g).

(** What the topology machine never changes. *)
Record smT_frame (g g' : G) : Prop := SmTFrame {
  tf_smE : g_smE_state (co g') = g_smE_state (co g);
  tf_sessions : g_sessions (co g') = g_sessions (co g);
  tf_hw : g_hwaddr (co g') = g_hwaddr (co g);
  tf_evt : exists t, g_this_event (co g') = set_evtType t (g_this_event (co g));
  tf_timers t : t <> T_charge -> t <> T_emit -> timer_get t g' = timer_get t g;
  tf_rx : rx g' = rx g;
  tf_qs : qs g' = qs g;
  tf_band : g_band g' = g_band g;
  tf_topo : g_topo_session (co g') = g_topo_session (co g)
            \/ (g_topo_session (co g') = None /\ g_smT_state (co g') = smT_Quiescent
                /\ (evtType (g_this_event (co g)) = evtInactivityTimeout
                    \/ evtType (g_this_event (co g)) = evtResetRcvd)
                /\ evt_ssn (g_this_event (co g)) = g_topo_session (co g))
}.

Lemma set_evtType_id e : set_evtType (evtType e) e = e.
Proof. by destruct e. Qed.

Lemma smT_frame_refl g : smT_frame g g.
Proof. split; try done; [|by left]. eexists. by rewrite set_evtType_id. Qed.

Section mapping_lemmas.
Context `{E : Env}.

(** The invariant reads these parts of the state only. *)
Lemma base_ok_ext g g' :
  tx g' = tx g -> g_tlvs g' = g_tlvs g -> os_out (os g') = os_out (os g) -> rx g' = rx g ->
  g_hwaddr (co g') = g_hwaddr (co g) -> g_sessions (co g') = g_sessions (co g) ->
  (g_topo_session (co g') = g_topo_session (co g) \/ g_topo_session (co g') = None) ->
  g_sees g' = g_sees g -> tm g' = tm g -> g_emitbuf (em g') = g_emitbuf (em g) ->
  base_ok g -> base_ok g'.
Proof.
  intros H1 H2 H3 H4 H5 H6 H7 H8 H9 H10 [Hio Hrx Hw Hs Ht He].
  split; rewrite ?H4, ?H8, ?H10; try done.
  - by eapply io_ok_ext.
  - destruct Hw as [W1 W2 W3 W4]. split; rewrite ?H5, ?H6; try done.
    intros i Hi. apply W4. destruct H7 as [H7|H7]; congruence.
  - apply (timers_ok_ext g); [done| |done]. intros [| | | |i]; simpl; rewrite ?H9, ?H6; done.
Qed.

Lemma base_ok_txs g x o ts : base_ok g -> io_ok (txs x o ts g) -> base_ok (txs x o ts g).
Proof.
  intros [Hio Hrx Hw Hs Ht He] H. split; try done.
  apply (timers_ok_ext g); [done| |done]. by intros [].
Qed.

Lemma base_ok_sees g sl : base_ok g -> sees_ok sl -> base_ok (set_g_sees sl g).
Proof.
  intros [Hio Hrx Hw Hs Ht He] H. split; try done.
  - by eapply io_ok_ext; [..|exact Hio].
  - apply (timers_ok_ext g); [done| |done]. by intros [].
Qed.

Definition global_timer (t : timer_ref) : Prop := match t with T_inactivity _ => False | _ => True end.

Lemma base_ok_arm t w g :
  base_ok g -> timer_valid t g -> timer_get t g = None -> base_ok (arm_g t w g).
Proof.
  intros [Hio Hrx Hw Hs Ht He] Hg Hn. destruct (arm_rest t w g).
  split; try congruence.
  - by eapply io_ok_ext; [..|exact Hio].
  - rewrite co_arm_g. destruct t as [| | | |i]; try done. destruct Hw as [W1 W2 W3 W4].
    split; simpl; rewrite ?length_alter; try done. apply Forall_alter; [done|]. by intros [].
  - by apply timers_ok_arm.
Qed.

Lemma base_ok_cancel t g : base_ok g -> timer_valid t g -> base_ok (cancel_g t g).
Proof.
  intros [Hio Hrx Hw Hs Ht He] Hg. destruct (cancel_rest t g).
  split; try congruence.
  - by eapply io_ok_ext; [..|exact Hio].
  - rewrite co_cancel_g. destruct t as [| | | |i]; try done. destruct Hw as [W1 W2 W3 W4].
    split; simpl; rewrite ?length_alter; try done. apply Forall_alter; [done|]. by intros [].
  - by apply timers_ok_cancel.
Qed.
End mapping_lemmas.

(** [base_ok] after assignments to variables it does not read. *)
Ltac base_same := eapply base_ok_ext; [..|eassumption]; first [reflexivity | by left | by right].

(** Only the timer variable [t] (not one of a session) changed. *)
Record tmr_frame (t : timer_ref) (g g' : G) : Prop := TmrFrame {
  mf_co : co g' = co g;
  mf_rest : same_rest g g';
  mf_timers t' : t' <> t -> timer_get t' g' = timer_get t' g
}.

Lemma tmr_frame_trans t g1 g2 g3 : tmr_frame t g1 g2 -> tmr_frame t g2 g3 -> tmr_frame t g1 g3.
Proof.
  intros [C1 [] T1] [C2 [] T2]. split; [congruence|split; congruence|].
  intros t' Ht. by rewrite T2, T1.
Qed.

Lemma tmr_frame_clk t n g : tmr_frame t g (set_os_clk n g).
Proof. split; [done|done|]. by intros []. Qed.

Lemma tmr_frame_arm t w g : global_timer t -> tmr_frame t g (arm_g t w g).
Proof.
  intros Ht. split; [rewrite co_arm_g; by destruct t|apply arm_rest|].
  intros t' Hne. by apply timer_get_arm_ne.
Qed.

Lemma tmr_frame_cancel t g : global_timer t -> tmr_frame t g (cancel_g t g).
Proof.
  intros Ht. split; [rewrite co_cancel_g; by destruct t|apply cancel_rest|].
  intros t' Hne. by apply timer_get_cancel_ne.
Qed.

Section charge_lemmas.
Context `{E : Env}.

Lemma base_ok_clk n g : base_ok g -> base_ok (set_os_clk n g).
Proof. intros H. base_same. Qed.

Lemma wp_arm_global t w (Q : unit -> G -> Prop) g :
  base_ok g -> global_timer t -> timer_get t g = None ->
  (forall g', base_ok g' -> tmr_frame t g g' -> is_Some (timer_get t g') -> Q tt g') ->
  wp (arm t w) Q g.
Proof.
  intros H Ht Hn HQ. assert (timer_valid t g) by by destruct t.
  apply wp_arm, HQ; [by apply base_ok_arm|by apply tmr_frame_arm|].
  by rewrite timer_get_arm_eq.
Qed.

Lemma wp_CANCEL_global t (Q : unit -> G -> Prop) g :
  base_ok g -> global_timer t ->
  (forall g', base_ok g' -> tmr_frame t g g' -> timer_get t g' = None -> Q tt g') ->
  wp (CANCEL t) Q g.
Proof.
  intros H Ht HQ. assert (timer_valid t g) by by destruct t.
  apply wp_CANCEL, HQ; [by apply base_ok_cancel|by apply tmr_frame_cancel|by apply timer_get_cancel_eq].
Qed.

Lemma wp_reset_charge_timer (Q : unit -> G -> Prop) g :
  base_ok g ->
  (forall g', base_ok g' -> tmr_frame T_charge g g' -> is_Some (timer_get T_charge g') -> Q tt g') ->
  wp reset_charge_timer Q g.
Proof.
  intros H HQ. unfold reset_charge_timer. apply wp_bind, wp_now_plus. apply wp_bind, wp_CANCEL_global;
    [by apply base_ok_clk|done|].
  intros g1 H1 F1 N1. apply wp_arm_global; [done..|]. intros g2 H2 F2 S2. apply HQ; [done| |done].
  eapply tmr_frame_trans; [apply tmr_frame_clk|]. by eapply tmr_frame_trans.
Qed.

Lemma wp_ChargeAdd len (Q : unit -> G -> Prop) g :
  base_ok g -> charge_ok g ->
  (forall g', base_ok g' -> charge_ok g' -> tmr_frame T_charge (set_ch (charge_added len (ch g)) g) g' ->
     is_Some (timer_get T_charge g') -> Q tt g') ->
  wp (ChargeAdd len) Q g.
Proof.
  intros H [C1 C2 C3] HQ. unfold ChargeAdd. do 2 wp_step. apply wp_reset_charge_timer; [base_same|].
  intros g1 H1 F1 S1. apply HQ; [done| |done|done].
  pose proof (sr_ch _ _ (mf_rest _ _ _ F1)) as Hch. simpl in Hch.
  pose proof (u32_range (g_ctc_packets (ch g) + 1)). pose proof (u32_range (g_ctc_bytes (ch g) + len)).
  split; rewrite ?Hch; simpl.
  - unfold TOPO_CTC_PACKETS_MAX in *. destruct (Z.ltb_spec 64 (u32 (g_ctc_packets (ch g) + 1))); lia.
  - unfold TOPO_CTC_BYTES_MAX. destruct (Z.ltb_spec 65536 (u32 (g_ctc_bytes (ch g) + len))); lia.
  - intros Hn. destruct (some_not_none _ S1 Hn).
Qed.

Lemma wp_ChargeConsume len (Q : unit -> G -> Prop) g :
  base_ok g -> charge_ok g ->
  (forall g', base_ok g' -> charge_ok g' -> tmr_frame T_charge (set_ch (charge_consumed len (ch g)) g) g' ->
     is_Some (timer_get T_charge g') -> Q tt g') ->
  wp (ChargeConsume len) Q g.
Proof.
  intros H [C1 C2 C3] HQ. unfold ChargeConsume. do 2 wp_step. apply wp_reset_charge_timer; [base_same|].
  intros g1 H1 F1 S1. apply HQ; [done| |done|done].
  pose proof (sr_ch _ _ (mf_rest _ _ _ F1)) as Hch. simpl in Hch.
  pose proof (u32_range (g_ctc_bytes (ch g) - len)).
  split; rewrite ?Hch; simpl.
  - destruct (Z.eqb_spec (g_ctc_packets (ch g)) 0); lia.
  - destruct (Z.eqb_spec (g_ctc_bytes (ch g)) 0); lia.
  - intros Hn. destruct (some_not_none _ S1 Hn).
Qed.

(** A pause arms the emit timer. *)
Lemma wp_set_emit_timer (Q : bool -> G -> Prop) g :
  base_ok g -> emit_pending (em g) -> timer_get T_emit g = None ->
  Q false g ->
  (forall g', base_ok g' -> tmr_frame T_emit g g' -> is_Some (timer_get T_emit g') -> Q true g') ->
  wp set_emit_timer Q g.
Proof.
  intros H ((Hr0 & Hr1) & p & Hp & Hp0 & Hp1) Hn Hf Ht. unfold sizeof_emitee_desc, RXBUFSZ in Hp1.
  unfold set_emit_timer.
  apply wp_bind, wp_gets, wp_bind, wp_assert; [by apply Z.ltb_lt|].
  apply wp_bind, wp_gets, wp_bind, wp_assert; [by rewrite bool_decide_eq_true|].
  apply wp_bind, wp_gets, wp_bind. eapply wp_deref; [exact Hp|].
  apply wp_bind, wp_fmap, wp_emitbuf_load; [apply H|unfold ed_pause; lia..|]. intros l Hl.
  apply wp_if; intros _; [|by wp_step]. apply wp_bind, wp_now_plus, wp_bind, wp_arm_global;
    [by apply base_ok_clk|done|done|].
  intros g1 H1 F1 S1. wp_step. apply Ht; [done| |done].
  eapply tmr_frame_trans; [apply tmr_frame_clk|done].
Qed.
End charge_lemmas.

(** A step of the machine that keeps the topology session. *)
Definition smT_keep (g g' : G) : Prop :=
  smT_frame g g' /\ g_topo_session (co g') = g_topo_session (co g).

Lemma smT_keep_trans g1 g2 g3 : smT_keep g1 g2 -> smT_keep g2 g3 -> smT_keep g1 g3.
Proof.
  intros [[A1 A2 A3 [t1 A4] A5 A6 A7 A8 _] T1] [[B1 B2 B3 [t2 B4] B5 B6 B7 B8 _] T2].
  split; [|congruence]. split; try congruence.
  - exists t2. rewrite B4, A4. by destruct (g_this_event (co g1)).
  - intros t H1 H2. rewrite B5, A5 by done. done.
  - left. congruence.
Qed.

Lemma smT_keep_refl g : smT_keep g g.
Proof. split; [apply smT_frame_refl|done]. Qed.

(** Assignments to variables outside the frame. *)
Ltac smT_same :=
  split; [|reflexivity];
  split; first [reflexivity | by left | by eexists; rewrite set_evtType_id | by intros [] | idtac].

Lemma smT_keep_tmr t g g' : (t = T_charge \/ t = T_emit) -> tmr_frame t g g' -> smT_keep g g'.
Proof.
  intros Ht [C [] T]. split; [|by rewrite C].
  split; rewrite ?C; try done.
  - eexists. by rewrite set_evtType_id.
  - intros t' H1 H2. apply T. destruct Ht; congruence.
  - by left.
Qed.

(** The machine between two descriptors of an Emit. *)
Record emitting `{E : Env} (g : G) : Prop := Emitting {
  et_base : base_ok g;
  et_state : g_smT_state (co g) = smT_Emit;
  et_evt : evtType (g_this_event (co g)) = evtEmitTimeout;
  et_timer : timer_get T_emit g = None;
  et_pending : emit_pending (em g);
  et_charge : charge_ok g;
  et_charge_timer : timer_get T_charge g = None;
  et_topo : exists i, g_topo_session (co g) = Some i
}.

Lemma charge_ok_ext g g' :
  ch g' = ch g -> timer_get T_charge g' = timer_get T_charge g -> charge_ok g -> charge_ok g'.
Proof. intros H1 H2 [C1 C2 C3]. split; rewrite ?H1, ?H2; done. Qed.

Section emit_lemmas.
Context `{E : Env}.

Lemma wp_emit_next (Q : sm_Status -> G -> Prop) g :
  emitting g ->
  (forall g', base_ok g' -> smT_inv false g' -> smT_keep g g' -> Q PROCESSING_COMPLETED g') ->
  (forall g', emitting g' -> g_emit_remaining (em g') = g_emit_remaining (em g) - 1 ->
     smT_keep g g' -> Q KEEP_GOING g') ->
  wp emit_next Q g.
Proof.
  intros [Hb Hst He Ht Hp Hc Hct [i Hi]] Hdone Hgo.
  destruct Hp as ((Hr0 & Hr1) & p & Hpd & Hp0 & Hp1). unfold sizeof_emitee_desc, RXBUFSZ in Hp1.
  unfold emit_next. apply wp_bind, wp_gets, wp_bind. eapply wp_deref; [exact Hpd|].
  apply wp_bind, wp_packetio_tx_emitee; [apply Hb..|done|unfold sizeof_emitee_desc; lia|].
  intros x o ts Hio. pose proof (base_ok_txs _ _ _ _ Hb Hio) as Hb1.
  set (g1 := txs x o ts g) in *. apply wp_bind, wp_gets. change (em g1) with (em g).
  rewrite (u16_small (g_emit_remaining (em g) - 1)) by lia. do 4 wp_step.
  set (r := g_emit_remaining (em g) - 1) in *.
  match goal with |- wp _ _ ?s => set (g2 := s) end.
  assert (Hb2 : base_ok g2) by (unfold g2; base_same).
  assert (K2 : smT_keep g g2) by smT_same.
  apply wp_if; intros Hr; bool_to_prop.
  - do 2 wp_step. set (g3 := set_g_smT_state smT_Command g2).
    assert (Hb3 : base_ok g3) by (unfold g3; base_same).
    assert (K3 : smT_keep g g3) by smT_same.
    apply wp_bind, wp_CANCEL_global; [done|done|]. intros g4 Hb4 F4 N4.
    assert (K4 : smT_keep g g4) by (eapply smT_keep_trans; [exact K3|eapply smT_keep_tmr; [|exact F4]; by right]).
    pose proof (mf_co _ _ _ F4) as C4. destruct (mf_rest _ _ _ F4) as [R1 R2 R3 R4 R5 R6 R7 R8 R9].
    assert (I4 : smT_inv false g4).
    { split; [eapply charge_ok_ext; [..|exact Hc]; [exact R3|exact (mf_timers _ _ _ F4 T_charge ltac:(done))]|].
      rewrite C4, R6. simpl. split; [exact N4|]. split; [done|]. congruence. }
    apply wp_bind, wp_gets, wp_bind, wp_when; intros Hs; [|wp_step; by apply Hdone].
    apply (wp_packetio_tx_ack _ i); [apply Hb4|apply Hb4|by rewrite C4|].
    intros x5 o5 ts5 _ Hio5. wp_step. apply Hdone.
    + by apply base_ok_txs.
    + destruct I4 as [Ic Is]. split; [by eapply charge_ok_ext; [..|exact Ic]|exact Is].
    + eapply smT_keep_trans; [exact K4|]. smT_same.
  - assert (P2 : emit_pending (em g2)).
    { split; simpl; [lia|]. exists (p + 14). split; [done|]. unfold sizeof_emitee_desc, RXBUFSZ. lia. }
    apply wp_bind, wp_set_emit_timer; [done|done|exact Ht| |].
    + wp_step. apply Hgo; [|done|done].
      split; [done|done|done|done|done|by eapply charge_ok_ext; [..|exact Hc]|done|by exists i].
    + intros g3 Hb3 F3 S3. wp_step.
      pose proof (mf_co _ _ _ F3) as C3. destruct (mf_rest _ _ _ F3) as [R1 R2 R3 R4 R5 R6 R7 R8 R9].
      apply Hdone; [done| |].
      * split; [eapply charge_ok_ext; [..|exact Hc]; [exact R3|exact (mf_timers _ _ _ F3 T_charge ltac:(done))]|].
        rewrite C3, R6. change (g_smT_state (co g2)) with (g_smT_state (co g)). rewrite Hst.
        split; [|split; [done|split]].
        -- split; [intros Hn; destruct (some_not_none _ S3 Hn)|done].
        -- change (g_topo_session (co g2)) with (g_topo_session (co g)). congruence.
        -- rewrite (mf_timers _ _ _ F3) by done. exact Hct.
      * eapply smT_keep_trans; [exact K2|]. eapply smT_keep_tmr; [|exact F3]. by right.
Qed.

(** Every turn of the loop sends one descriptor, so the fuel is enough. *)
Lemma wp_smT_loop_emitting fuel (Q : sm_Status -> G -> Prop) g :
  emitting g -> g_emit_remaining (em g) <= Z.of_nat fuel ->
  (forall g', base_ok g' -> smT_inv false g' -> smT_keep g g' -> Q PROCESSING_COMPLETED g') ->
  wp (smT_loop fuel) Q g.
Proof.
  revert g. induction fuel as [|fuel IH]; intros g He Hf HQ.
  { destruct He as [_ _ _ _ [? _] _ _ _]. lia. }
  simpl. unfold smT_dispatch, smT_EmitHandler. apply wp_bind, wp_bind, wp_gets. rewrite (et_state _ He).
  apply wp_bind, wp_gets. rewrite (et_evt _ He). apply wp_emit_next; [done| |].
  - intros g' Hb Hi Hk. wp_step. by apply HQ.
  - intros g' He' Hr Hk. apply IH; [done|lia|]. intros g'' Hb Hi Hk'. apply HQ; [done..|].
    by eapply smT_keep_trans.
Qed.
End emit_lemmas.

(** ** The handlers *)

Definition is_reset (e : protocol_event) : Prop :=
  evtType e = evtInactivityTimeout \/ evtType e = evtResetRcvd.

#[export] Instance is_reset_dec e : Decision (is_reset e).
Proof. unfold is_reset. apply _. Defined.

(** What processing an event establishes: the invariant again, and a reset of
    the topology session forgets that session. *)
Record smT_post `{E : Env} (g g' : G) : Prop := SmTPost {
  sp_base : base_ok g';
  sp_inv : smT_inv false g';
  sp_frame : smT_frame g g';
  sp_reset : is_reset (g_this_event (co g)) ->
             evt_ssn (g_this_event (co g)) = g_topo_session (co g) -> g_topo_session (co g') = None
}.

Lemma smT_inv_ext f g g' :
  ch g' = ch g -> em g' = em g -> g_smT_state (co g') = g_smT_state (co g) ->
  g_topo_session (co g') = g_topo_session (co g) ->
  timer_get T_charge g' = timer_get T_charge g -> timer_get T_emit g' = timer_get T_emit g ->
  smT_inv f g -> smT_inv f g'.
Proof.
  intros H1 H2 H3 H4 H5 H6 [Hc Hs]. split; [by eapply charge_ok_ext|]. by rewrite H2, H3, H4, H5, H6.
Qed.

Section handler_lemmas.
Context `{E : Env}.

Lemma post_keep g g' :
  base_ok g' -> smT_inv false g' -> smT_keep g g' -> ~ is_reset (g_this_event (co g)) -> smT_post g g'.
Proof. intros Hb Hi [Hf _] Hn. by split. Qed.

Lemma post_same g :
  base_ok g -> smT_inv false g ->
  (is_reset (g_this_event (co g)) -> evt_ssn (g_this_event (co g)) <> g_topo_session (co g)) ->
  smT_post g g.
Proof. intros Hb Hi Hn. split; [done|done|apply smT_frame_refl|]. intros H1 H2. by destruct Hn. Qed.

Lemma wp_ignore_packet op (Q : sm_Status -> G -> Prop) g :
  (forall st, Q st g) -> wp (ignore_packet op) Q g.
Proof. intros HQ. unfold ignore_packet. wp_step. apply HQ. Qed.

Lemma wp_learn_generation (Q : unit -> G -> Prop) g :
  rx_ok (rx g) -> (forall v, Q tt (set_g_generation v g)) -> wp learn_generation Q g.
Proof.
  intros Hrx HQ. unfold learn_generation. apply wp_bind, wp_rx16; [done|by unfold mh_gen|].
  intros v _. do 4 wp_step. apply wp_when; intros Hb; [wp_step; apply HQ|].
  replace g with (set_g_generation (g_generation (co g)) g)
    by (destruct g as [c]; by destruct c). apply HQ.
Qed.

Lemma wp_zero_ctc (Q : unit -> G -> Prop) g :
  Q tt (set_ch (Charge 0 0 (g_totalPause (ch g)) (g_neededPackets (ch g)) (g_neededBytes (ch g))) g) ->
  wp zero_ctc Q g.
Proof. intros HQ. unfold zero_ctc. by do 3 wp_step. Qed.

Lemma charge_ok_zero g c : no_credit c -> charge_ok (set_ch c g).
Proof. intros [H1 H2]. split; simpl; rewrite ?H1, ?H2; by unfold TOPO_CTC_PACKETS_MAX. Qed.

(** [g_ctc_packets = g_ctc_bytes = 0; CANCEL(g_charge_timer)] *)
Lemma wp_drop_credit {A} (k : CM A) (Q : A -> G -> Prop) g :
  base_ok g ->
  (forall g', base_ok g' -> charge_ok g' -> no_credit (ch g') -> timer_get T_charge g' = None ->
     tmr_frame T_charge (set_ch (ch g') g) g' -> wp k Q g') ->
  wp (zero_ctc;; CANCEL T_charge;; k) Q g.
Proof.
  intros Hb HQ. apply wp_bind, wp_zero_ctc, wp_bind, wp_CANCEL_global; [base_same|done|].
  intros g1 Hb1 F1 N1. pose proof (sr_ch _ _ (mf_rest _ _ _ F1)) as Hch. simpl in Hch.
  apply HQ; [done| |by rewrite Hch|done|by rewrite Hch].
  split; rewrite ?Hch; by unfold TOPO_CTC_PACKETS_MAX.
Qed.

Lemma evt_is_topo_true g : evt_is_topo g = true <-> evt_ssn (g_this_event (co g)) = g_topo_session (co g).
Proof. apply bool_decide_eq_true. Qed.
Lemma evt_is_topo_false g : evt_is_topo g = false <-> evt_ssn (g_this_event (co g)) <> g_topo_session (co g).
Proof. apply bool_decide_eq_false. Qed.

(** A reset of the session while the machine is Quiescent. *)
Lemma wp_quiescent_reset f (Q : sm_Status -> G -> Prop) g :
  base_ok g -> smT_inv f g -> g_smT_state (co g) = smT_Quiescent -> is_reset (g_this_event (co g)) ->
  (forall st g', st <> KEEP_GOING -> smT_post g g' -> Q st g') ->
  wp (topo ← gets evt_is_topo;
      when topo (zero_ctc;; CANCEL T_charge;; modify (set_g_topo_session None));;
      mret PROCESSING_COMPLETED) Q g.
Proof.
  intros Hb [Hc Hi] Hst Hre HQ. rewrite Hst in Hi. destruct Hi as (Ht & Hr & Hct).
  assert (Hi : smT_inv false g) by (split; [done|by rewrite Hst]).
  apply wp_bind, wp_gets, wp_bind, wp_when; intros Hb1.
  2:{ wp_step. apply HQ; [done|]. apply post_same; [done|done|]. intros _. by apply evt_is_topo_false. }
  apply evt_is_topo_true in Hb1. apply wp_drop_credit; [done|]. intros g1 B1 C1 N1 T1 F1.
  do 2 wp_step. apply HQ; [done|]. pose proof (mf_co _ _ _ F1) as Hco. destruct (mf_rest _ _ _ F1).
  pose proof (mf_timers _ _ _ F1 T_emit ltac:(done)) as He. simpl in *.
  split; [base_same|split; [by eapply charge_ok_ext; [..|exact C1]|]| |done].
  - simpl. rewrite Hco, sr_em, Hst. split; [congruence|done].
  - split; simpl; rewrite ?Hco; try done.
    + eexists. by rewrite set_evtType_id.
    + intros t Hn1 Hn2. change (timer_get t g1 = timer_get t g). rewrite (mf_timers _ _ _ F1) by done. by destruct t.
    + right. split; [done|]. split; [done|]. split; [destruct Hre; auto|done].
Qed.

Lemma wp_smT_QuiescentHandler f (Q : sm_Status -> G -> Prop) g :
  base_ok g -> smT_inv f g -> g_smT_state (co g) = smT_Quiescent -> g_topo_session (co g) <> None ->
  (forall st g', st <> KEEP_GOING -> smT_post g g' -> Q st g') -> wp smT_QuiescentHandler Q g.
Proof.
  intros Hb [Hc Hi] Hst Htopo HQ. rewrite Hst in Hi. destruct Hi as (Ht & Hr & Hct).
  assert (Hi : smT_inv false g) by (split; [done|by rewrite Hst]).
  unfold smT_QuiescentHandler. apply wp_bind, wp_gets.
  destruct (evtType (g_this_event (co g))) eqn:He;
    try (wp_step; apply HQ; [done|]; apply post_same; [done|done|];
         intros [Hx|Hx]; congruence).
  - apply wp_bind, wp_gets. unfold ignore_packet. wp_step. apply HQ; [by destruct known_opcode|].
    apply post_same; [done|done|]. intros [Hx|Hx]; congruence.
  - apply wp_bind, wp_if; intros Ha.
    + apply wp_bind, wp_learn_generation; [apply Hb|]. intros v. do 2 wp_step. apply HQ; [done|].
      apply post_keep; [base_same| |smT_same|intros [Hx|Hx]; congruence].
      split; [by eapply charge_ok_ext; [..|exact Hc]|]. simpl. done.
    + do 2 wp_step. apply HQ; [done|]. apply post_same; [done|done|]. intros [Hx|Hx]; congruence.
  - apply (wp_quiescent_reset f); [done|by split; rewrite ?Hst|done|by right|exact HQ].
  - apply (wp_quiescent_reset f); [done|by split; rewrite ?Hst|done|by left|exact HQ].
Qed.
End handler_lemmas.

Section command_lemmas.
Context `{E : Env}.

(** A state of the machine in Command, with a topology session. *)
Record commanding (g : G) : Prop := Commanding {
  cm_base : base_ok g;
  cm_charge : charge_ok g;
  cm_state : g_smT_state (co g) = smT_Command;
  cm_emit : timer_get T_emit g = None;
  cm_remaining : g_emit_remaining (em g) = 0;
  cm_topo : exists i, g_topo_session (co g) = Some i
}.

Lemma commanding_inv g : commanding g -> smT_inv false g.
Proof.
  intros [Hb Hc Hs He Hr [i Hi]]. split; [done|]. rewrite Hs. split; [done|]. split; [done|]. congruence.
Qed.

Lemma commanding_tmr g g' c :
  commanding g -> base_ok g' -> charge_ok g' -> tmr_frame T_charge (set_ch c g) g' -> commanding g'.
Proof.
  intros [Hb Hc Hs He Hr [i Hi]] Hb' Hc' F. pose proof (mf_co _ _ _ F) as Hco.
  destruct (mf_rest _ _ _ F). pose proof (mf_timers _ _ _ F T_emit ltac:(done)) as HeT. simpl in *.
  split; rewrite ?Hco, ?sr_em; try done; simpl; [congruence|by exists i].
Qed.

Lemma keep_ch c g : smT_keep g (set_ch c g).
Proof. smT_same. Qed.

Lemma keep_tmr_ch g g' c : tmr_frame T_charge (set_ch c g) g' -> smT_keep g g'.
Proof.
  intros F. eapply smT_keep_trans; [apply (keep_ch c)|]. eapply smT_keep_tmr; [|exact F]. by left.
Qed.

Lemma commanding_txs g x o ts :
  commanding g -> io_ok (txs x o ts g) -> commanding (txs x o ts g).
Proof.
  intros [Hb Hc Hs He Hr Hi] Hio. split; try done; [by apply base_ok_txs|by eapply charge_ok_ext; [..|exact Hc]].
Qed.

Lemma keep_txs g x o ts : smT_keep g (txs x o ts g).
Proof. smT_same. Qed.

Lemma commanding_sees g sl : commanding g -> sees_ok sl -> commanding (set_g_sees sl g).
Proof.
  intros [Hb Hc Hs He Hr Hi] Hsl. split; try done; [by apply base_ok_sees|by eapply charge_ok_ext; [..|exact Hc]].
Qed.

Lemma keep_sees g sl : smT_keep g (set_g_sees sl g).
Proof. smT_same. Qed.

(** Consuming the credit of the frame just sent. *)
Lemma wp_consume_tx (Q : unit -> G -> Prop) g :
  commanding g -> (forall g', commanding g' -> smT_keep g g' -> Q tt g') -> wp consume_tx Q g.
Proof.
  intros Hc HQ. unfold consume_tx. apply wp_bind, wp_gets, wp_ChargeConsume; [apply Hc..|].
  intros g1 B1 C1 F1 _. apply HQ; [by eapply commanding_tmr|by eapply keep_tmr_ch].
Qed.

Lemma wp_flat_consume (Q : unit -> G -> Prop) g :
  commanding g -> (forall g', commanding g' -> smT_keep g g' -> Q tt g') ->
  wp (packetio_tx_flat;; consume_tx) Q g.
Proof.
  intros Hc HQ. destruct (cm_topo _ Hc) as [i Hi].
  apply wp_bind, (wp_packetio_tx_flat i); [apply Hc..|done|]. intros x o ts _ Hio.
  apply wp_consume_tx; [by apply commanding_txs|]. intros g' Hc' Hk. apply HQ; [done|].
  eapply smT_keep_trans; [apply keep_txs|exact Hk].
Qed.

Lemma wp_enqueue_probe (Q : sm_Status -> G -> Prop) g :
  base_ok g ->
  (forall sl, sees_ok sl -> Q PROCESSING_COMPLETED (set_g_sees sl g)) ->
  wp (src ← rx_mac tbh_realsrc; seeslist_enqueue false src;; mret PROCESSING_COMPLETED) Q g.
Proof.
  intros Hb HQ. apply wp_bind, wp_rx_mac; [apply Hb|by unfold tbh_realsrc|]. intros src Hsrc.
  apply wp_bind, wp_seeslist_enqueue; [apply Hb|apply Hb|intros _|intros s d _ Hs Hd]; wp_step.
  - replace g with (set_g_sees (g_sees g) g) by (by destruct g). apply HQ, Hb.
  - apply HQ, sees_push_ok; [apply Hb|done].
Qed.

Lemma wp_command_qltlv (Q : unit -> G -> Prop) g :
  commanding g -> (forall g', commanding g' -> smT_keep g g' -> Q tt g') -> wp command_qltlv Q g.
Proof.
  intros Hc HQ. pose proof (cm_base _ Hc) as Hb.
  assert (H0 : Q tt g) by (apply HQ; [done|apply smT_keep_refl]).
  unfold command_qltlv. apply wp_bind, wp_rx8; [apply Hb|by unfold qh_type|]. intros ty _.
  apply wp_bind, wp_gets. destruct (list_find _ _) as [[k d]|] eqn:Hf; [|by wp_step].
  apply list_find_Some in Hf as (Hk & _ & _).
  apply wp_if; intros _; [by wp_step|].
  apply wp_bind, wp_rx16; [apply Hb|by unfold qh_offset|]. intros off _.
  apply wp_bind, wp_rx8; [apply Hb|by unfold qh_rsvd1|]. intros r1 _. apply wp_bind, wp_gets.
  apply wp_packetio_tx_qltlvResp; [apply Hb|apply Hb|by eapply lookup_lt_Some|].
  intros x o ts Hio. apply HQ; [by apply commanding_txs|apply keep_txs].
Qed.

Lemma wp_command_packet (Q : sm_Status -> G -> Prop) g :
  commanding g ->
  (forall st g', st <> KEEP_GOING -> commanding g' -> smT_keep g g' -> Q st g') ->
  wp command_packet Q g.
Proof.
  intros Hc HQ. pose proof (cm_base _ Hc) as Hb. unfold command_packet. apply wp_bind, wp_gets.
  apply wp_if; intros _.
  { apply wp_bind, wp_gets, wp_bind, wp_ChargeAdd; [done|apply Hc|]. intros g1 B1 C1 F1 _.
    assert (Hc1 : commanding g1) by by eapply commanding_tmr.
    apply wp_bind, wp_gets, wp_bind, wp_when; intros _.
    - apply wp_flat_consume; [done|]. intros g2 Hc2 K2. wp_step. apply HQ; [done|done|].
      eapply smT_keep_trans; [by eapply keep_tmr_ch|exact K2].
    - wp_step. apply HQ; [done|done|by eapply keep_tmr_ch]. }
  apply wp_if; intros _.
  { apply wp_enqueue_probe; [done|]. intros sl Hsl. apply HQ; [done|by apply commanding_sees|apply keep_sees]. }
  destruct (cm_topo _ Hc) as [i Hi]. apply wp_if; intros _.
  { apply wp_bind, (wp_packetio_tx_queryresp i); [apply Hb..|done|]. intros x o ts sl Hsl Hio. wp_step.
    apply HQ; [done| |].
    - apply commanding_txs; [by apply commanding_sees|done].
    - eapply smT_keep_trans; [apply (keep_sees _ sl)|apply keep_txs]. }
  apply wp_if; intros _.
  { apply wp_bind, wp_command_qltlv; [done|]. intros g' Hc' K'. wp_step. by apply HQ. }
  unfold ignore_packet. wp_step. apply HQ; [by destruct known_opcode|done|apply smT_keep_refl].
Qed.

Lemma wp_command_reset (Q : unit -> G -> Prop) g :
  commanding g -> is_reset (g_this_event (co g)) -> (forall g', smT_post g g' -> Q tt g') ->
  wp command_reset Q g.
Proof.
  intros Hc Hre HQ. unfold command_reset. apply wp_bind, wp_gets, wp_when; intros Ht.
  2:{ apply HQ, post_same; [apply Hc|by apply commanding_inv|]. intros _. by apply evt_is_topo_false. }
  apply evt_is_topo_true in Ht. destruct Hc as [Hb Hc Hs He Hr Hi].
  apply wp_drop_credit; [done|]. intros g1 B1 C1 N1 T1 F1.
  pose proof (mf_co _ _ _ F1) as Hco. destruct (mf_rest _ _ _ F1).
  pose proof (mf_timers _ _ _ F1 T_emit ltac:(done)) as HeT. simpl in *.
  unfold seeslist_clear. do 4 wp_step. apply HQ.
  assert (Hsl : sees_ok (Seeslist (sl_data (g_sees g1)) (sl_count (g_sees g1)) 0 0)).
  { destruct (bo_sees _ B1). split; simpl; try done; lia. }
  pose proof (base_ok_sees _ _ B1 Hsl) as B2.
  split; [base_same|split; [by eapply charge_ok_ext; [..|exact C1]|]| |done].
  - simpl. rewrite sr_em. split; [congruence|done].
  - split; simpl; rewrite ?Hco; try done.
    + eexists. by rewrite set_evtType_id.
    + intros t Hn1 Hn2. change (timer_get t g1 = timer_get t g). rewrite (mf_timers _ _ _ F1) by done. by destruct t.
    + right. split; [done|]. split; [done|]. split; [destruct Hre; auto|done].
Qed.
End command_lemmas.

Section emit_handler_lemmas.
Context `{E : Env}.

(** The descriptors of the received Emit, in a buffer of their own. *)
Lemma wp_ProcessEmits (Q : unit -> G -> Prop) g :
  base_ok g -> g_emit_remaining (em g) = 0 -> evtType (g_this_event (co g)) = evtEmitRcvd ->
  emit_event_ok g ->
  (forall e, Z.of_nat (length (g_emitbuf e)) = RXBUFSZ ->
     g_emit_remaining e = numDescrs (g_this_event (co g)) ->
     (0 < g_emit_remaining e -> emit_pending e) -> Q tt (set_em e g)) ->
  wp ProcessEmits Q g.
Proof.
  intros Hb Hr He Hok HQ. destruct (Hok He) as [Hn Hfit].
  unfold sizeof_ether_header, sizeof_base_header, sizeof_emit_header, sizeof_emitee_desc in Hfit.
  pose proof (ro_size _ (bo_rx _ Hb)) as Hs. pose proof (ro_len _ (bo_rx _ Hb)) as Hl.
  pose proof (bo_emitbuf _ Hb) as Heb. unfold RXBUFSZ in *.
  unfold ProcessEmits. apply wp_bind, wp_gets, wp_bind, wp_gets, wp_bind.
  eapply wp_in_bounds; [apply load_len_ok; lia|]. apply wp_bind, wp_gets, wp_bind.
  eapply wp_in_bounds; [apply store_ok; [lia|]; rewrite length_take, length_drop; lia|].
  do 4 wp_step. apply wp_bind, wp_assert; [by apply Z.eqb_eq|]. repeat wp_step.
  match goal with |- Q tt ?s => change s with (set_em (em s) g) end.
  apply HQ; simpl.
  - by rewrite length_inserts.
  - apply u16_small. lia.
  - unfold emit_pending, sizeof_ether_header, sizeof_base_header, sizeof_emit_header, sizeof_emitee_desc, RXBUFSZ.
    simpl. rewrite u16_small by lia. intros Hpos. split; [lia|]. eexists. split; [done|]. lia.
Qed.

Lemma base_ok_em e g :
  base_ok g -> Z.of_nat (length (g_emitbuf e)) = RXBUFSZ -> base_ok (set_em e g).
Proof.
  intros [Hio Hrx Hw Hs Ht He] Hl. split; try done.
  - by eapply io_ok_ext; [..|exact Hio].
  - apply (timers_ok_ext g); [done| |done]. by intros [].
Qed.

(** The Emit is granted: no credit is left, and its descriptors are sent. *)
Lemma wp_emit_granted (Q : sm_Status -> G -> Prop) g :
  commanding g -> timer_get T_charge g = None -> emit_event_ok g ->
  evtType (g_this_event (co g)) = evtEmitRcvd ->
  (forall st g', st <> KEEP_GOING -> base_ok g' -> smT_inv false g' -> smT_keep g g' -> Q st g') ->
  (forall g', emitting g' -> g_emit_remaining (em g') = numDescrs (g_this_event (co g)) ->
     smT_keep g g' -> Q KEEP_GOING g') ->
  wp (ProcessEmits;;
      remaining ← gets (fun g => g_emit_remaining (em g));
      if 0 <? remaining then
        modify (set_g_smT_state smT_Emit);;
        pausing ← set_emit_timer;
        if pausing : bool then mret PROCESSING_COMPLETED
        else modify (evt_update (set_evtType evtEmitTimeout));; mret KEEP_GOING
      else
        eseq ← gets (fun g => g_emit_seqnum (em g));
        when (negb (eseq =? 0)) (packetio_tx_ack eseq;; consume_tx);;
        mret PROCESSING_COMPLETED) Q g.
Proof.
  intros Hc Hct Hok He HQ Hgo. destruct (cm_topo _ Hc) as [i Hi].
  apply wp_bind, wp_ProcessEmits; [apply Hc|apply Hc|done|done|]. intros e Hl Hr Hp.
  pose proof (base_ok_em e g (cm_base _ Hc) Hl) as Hb1.
  assert (K1 : smT_keep g (set_em e g)) by smT_same.
  apply wp_bind, wp_gets. change (em (set_em e g)) with e. apply wp_if; intros H0; bool_to_prop.
  - specialize (Hp H0). do 2 wp_step. set (g2 := set_g_smT_state smT_Emit (set_em e g)).
    assert (Hb2 : base_ok g2) by (unfold g2; base_same).
    assert (K2 : smT_keep g g2) by smT_same.
    assert (C2 : charge_ok g2) by (by eapply charge_ok_ext; [..|exact (cm_charge _ Hc)]).
    apply wp_bind, wp_set_emit_timer; [done|exact Hp|exact (cm_emit _ Hc)| |].
    + do 3 wp_step. apply Hgo; [|done|].
      * split; [base_same|done|done|exact (cm_emit _ Hc)|exact Hp
          |by eapply charge_ok_ext; [..|exact C2]|exact Hct|by exists i].
      * split; [|done]. split; [done|done|done|by eexists|by intros []|done|done|done|by left].
    + intros g3 Hb3 F3 S3. wp_step. pose proof (mf_co _ _ _ F3) as C3. destruct (mf_rest _ _ _ F3).
      apply HQ; [done|done| |].
      * split; [eapply charge_ok_ext; [..|exact C2]; [done|exact (mf_timers _ _ _ F3 T_charge ltac:(done))]|].
        rewrite C3, sr_em. simpl. split; [|split; [done|split; [congruence|]]].
        -- split; [intros Hn; destruct (some_not_none _ S3 Hn)|done].
        -- etransitivity; [exact (mf_timers _ _ _ F3 T_charge ltac:(done))|exact Hct].
      * eapply smT_keep_trans; [exact K2|]. eapply smT_keep_tmr; [|exact F3]. by right.
  - assert (Hc1 : commanding (set_em e g)).
    { destruct (Hok He) as [Hn _]. destruct Hc as [B C S T R I].
      split; try done; [by eapply charge_ok_ext; [..|exact C]|]. simpl. lia. }
    apply wp_bind, wp_gets, wp_bind, wp_when; intros Hs.
    + apply wp_bind, (wp_packetio_tx_ack _ i); [apply Hc1|apply Hc1|done|]. intros x o ts _ Hio.
      apply wp_consume_tx; [by apply commanding_txs|]. intros g3 Hc3 K3. wp_step.
      apply HQ; [done|apply Hc3|by apply commanding_inv|].
      eapply smT_keep_trans; [exact K1|]. eapply smT_keep_trans; [apply keep_txs|exact K3].
    + wp_step. apply HQ; [done|done|by apply commanding_inv|done].
Qed.

Lemma wp_command_emit (Q : sm_Status -> G -> Prop) g :
  commanding g -> emit_event_ok g -> evtType (g_this_event (co g)) = evtEmitRcvd ->
  (forall st g', st <> KEEP_GOING -> base_ok g' -> smT_inv false g' -> smT_keep g g' -> Q st g') ->
  (forall g', emitting g' -> g_emit_remaining (em g') = numDescrs (g_this_event (co g)) ->
     smT_keep g g' -> Q KEEP_GOING g') ->
  wp command_emit Q g.
Proof.
  intros Hc Hok He HQ Hgo. pose proof (cm_base _ Hc) as Hb. unfold command_emit.
  apply wp_bind, wp_rx16; [apply Hb|by unfold eh_numdescs|]. intros cnt _. apply wp_bind, wp_gets.
  apply wp_if; intros _.
  { wp_step. apply HQ; [done|done|by apply commanding_inv|apply smT_keep_refl]. }
  apply wp_bind, wp_gets, wp_bind, wp_ChargeAdd; [done|apply Hc|]. intros g1 B1 C1 F1 _.
  assert (Hc1 : commanding g1) by by eapply commanding_tmr.
  assert (K1 : smT_keep g g1) by by eapply keep_tmr_ch.
  apply wp_bind, wp_gets, wp_if; intros _.
  - apply wp_drop_credit; [done|]. intros g2 B2 C2 N2 T2 F2.
    assert (Hc2 : commanding g2) by by eapply commanding_tmr.
    assert (K2 : smT_keep g1 g2) by by eapply keep_tmr_ch.
    pose proof (smT_keep_trans _ _ _ K1 K2) as K.
    assert (Hevt : g_this_event (co g2) = g_this_event (co g)).
    { rewrite (mf_co _ _ _ F2). simpl. by rewrite (mf_co _ _ _ F1). }
    apply wp_emit_granted; [done|done| |by rewrite Hevt| |].
    + unfold emit_event_ok. rewrite Hevt, (tf_rx _ _ (proj1 K)). exact Hok.
    + intros st g' Hst Hb' Hi' K'. apply HQ; [done..|]. by eapply smT_keep_trans.
    + intros g' He' Hr' K'. apply Hgo; [done|by rewrite Hr', Hevt|]. by eapply smT_keep_trans.
  - destruct (cm_topo _ Hc1) as [i Hi].
    apply wp_bind, (wp_packetio_tx_flat i); [apply Hc1..|done|]. intros x o ts _ Hio.
    apply wp_bind, wp_consume_tx; [by apply commanding_txs|]. intros g' Hc' K'. wp_step.
    apply HQ; [done|apply Hc'|by apply commanding_inv|].
    eapply smT_keep_trans; [exact K1|]. eapply smT_keep_trans; [apply keep_txs|exact K'].
Qed.

Lemma wp_smT_CommandHandler (Q : sm_Status -> G -> Prop) g :
  commanding g -> emit_event_ok g ->
  (forall st g', st <> KEEP_GOING -> smT_post g g' -> Q st g') ->
  (forall g', emitting g' -> g_emit_remaining (em g') = numDescrs (g_this_event (co g)) ->
     evtType (g_this_event (co g)) = evtEmitRcvd -> smT_keep g g' -> Q KEEP_GOING g') ->
  wp smT_CommandHandler Q g.
Proof.
  intros Hc Hok HQ Hgo. pose proof (commanding_inv _ Hc) as Hi. pose proof (cm_base _ Hc) as Hb.
  unfold smT_CommandHandler. apply wp_bind, wp_gets.
  destruct (evtType (g_this_event (co g))) eqn:He;
    try (wp_step; apply HQ; [done|]; apply post_same; [done|done|];
         intros [Hx|Hx]; congruence).
  - apply wp_command_packet; [done|]. intros st g' Hst Hc' K'. apply HQ; [done|].
    apply post_keep; [apply Hc'|by apply commanding_inv|done|]. intros [Hx|Hx]; congruence.
  - apply wp_bind, wp_learn_generation; [apply Hb|]. intros v. wp_step. apply HQ; [done|].
    apply post_keep; [base_same| |smT_same|intros [Hx|Hx]; congruence].
    by eapply smT_inv_ext; [..|exact Hi].
  - apply wp_command_emit; [done..| |].
    + intros st g' Hst Hb' Hi' K'. apply HQ; [done|]. apply post_keep; [done..|]. intros [Hx|Hx]; congruence.
    + intros g' He' Hr' K'. by apply Hgo.
  - apply wp_bind, wp_command_reset; [done|by right|]. intros g' Hp. wp_step. by apply HQ.
  - apply wp_drop_credit; [done|]. intros g2 B2 C2 N2 T2 F2. wp_step. apply HQ; [done|].
    assert (Hc2 : commanding g2) by by eapply commanding_tmr.
    apply post_keep; [done|by apply commanding_inv|by eapply keep_tmr_ch|]. intros [Hx|Hx]; congruence.
  - apply wp_bind, wp_command_reset; [done|by left|]. intros g' Hp. wp_step. by apply HQ.
Qed.
End emit_handler_lemmas.

(** The event being processed is the expiry of the emit timer. *)
Definition firing (g : G) : bool := bool_decide (evtType (g_this_event (co g)) = evtEmitTimeout).

Section process_lemmas.
Context `{E : Env}.

(** A reset of the session while descriptors are being sent. *)
Lemma wp_emit_reset f (Q : sm_Status -> G -> Prop) g :
  base_ok g -> smT_inv f g -> g_smT_state (co g) = smT_Emit -> f = false ->
  is_reset (g_this_event (co g)) ->
  (forall st g', st <> KEEP_GOING -> smT_post g g' -> Q st g') ->
  wp (topo ← gets evt_is_topo;
      when topo
        (modify (set_g_emit_remaining 0);; zero_ctc;;
         CANCEL T_charge;; CANCEL T_emit;; seeslist_clear;;
         modify (set_g_topo_session None);; modify (set_g_smT_state smT_Quiescent));;
      mret PROCESSING_COMPLETED) Q g.
Proof.
  intros Hb Hi Hst -> Hre HQ. apply wp_bind, wp_gets, wp_bind, wp_when; intros Ht.
  2:{ wp_step. apply HQ; [done|]. apply post_same; [done|done|]. intros _. by apply evt_is_topo_false. }
  apply evt_is_topo_true in Ht. do 2 wp_step.
  match goal with |- wp _ _ ?s => set (g0 := s) end.
  assert (B0 : base_ok g0) by (unfold g0; base_same).
  apply wp_drop_credit; [done|]. intros g1 B1 C1 N1 T1 F1.
  apply wp_bind, wp_CANCEL_global; [done|done|]. intros g2 B2 F2 N2.
  pose proof (mf_co _ _ _ F1) as Hco1. pose proof (mf_co _ _ _ F2) as Hco2.
  pose proof (mf_rest _ _ _ F1) as [? ? ? ? ? Hem1 ? ? ?].
  pose proof (mf_rest _ _ _ F2) as [? ? Hch2 ? ? Hem2 ? ? ?].
  assert (C2 : charge_ok g2).
  { eapply charge_ok_ext; [exact Hch2|exact (mf_timers _ _ _ F2 T_charge ltac:(done))|done]. }
  assert (T2 : timer_get T_charge g2 = None).
  { etransitivity; [exact (mf_timers _ _ _ F2 T_charge ltac:(done))|exact T1]. }
  pose proof (eq_trans Hco2 Hco1 : co g2 = co g0) as Hco.
  pose proof (eq_trans Hem2 Hem1 : em g2 = em g0) as Hem.
  assert (Htm : forall t, t <> T_charge -> t <> T_emit -> timer_get t g2 = timer_get t g).
  { intros t H1 H2. rewrite (mf_timers _ _ _ F2), (mf_timers _ _ _ F1) by done. by destruct t. }
  unfold seeslist_clear. repeat wp_step. apply HQ; [done|].
  assert (Hsl : sees_ok (Seeslist (sl_data (g_sees g2)) (sl_count (g_sees g2)) 0 0)).
  { destruct (bo_sees _ B2). split; simpl; try done; lia. }
  pose proof (base_ok_sees _ _ B2 Hsl) as B3. simpl in *.
  split; [base_same|split; [by eapply charge_ok_ext; [..|exact C2]|]| |done].
  - simpl. rewrite Hem. done.
  - split; simpl; rewrite ?Hco; try done; try congruence.
    + eexists. by rewrite set_evtType_id.
    + right. split; [done|]. split; [done|]. split; [destruct Hre; auto|done].
Qed.

Lemma wp_smT_EmitHandler (Q : sm_Status -> G -> Prop) g :
  base_ok g -> smT_inv (firing g) g -> g_smT_state (co g) = smT_Emit ->
  (forall st g', st <> KEEP_GOING -> smT_post g g' -> Q st g') ->
  (forall g', emitting g' -> g_emit_remaining (em g') = g_emit_remaining (em g) - 1 ->
     evtType (g_this_event (co g)) = evtEmitTimeout -> smT_keep g g' -> Q KEEP_GOING g') ->
  wp smT_EmitHandler Q g.
Proof.
  intros Hb Hi Hst HQ Hgo.
  unfold smT_EmitHandler. apply wp_bind, wp_gets.
  assert (Hf : firing g = bool_decide (evtType (g_this_event (co g)) = evtEmitTimeout)) by done.
  destruct (evtType (g_this_event (co g))) eqn:He; rewrite Hf in Hi;
    rewrite ?bool_decide_eq_false_2, ?bool_decide_eq_true_2 in Hi by done;
    try (wp_step; apply HQ; [done|]; apply post_same; [done|done|];
         intros [Hx|Hx]; congruence).
  - apply wp_bind, wp_gets, wp_if; intros _.
    + apply wp_enqueue_probe; [done|]. intros sl Hsl. apply HQ; [done|].
      apply post_keep; [by apply base_ok_sees|by eapply smT_inv_ext; [..|exact Hi]|apply keep_sees|].
      intros [Hx|Hx]; congruence.
    + unfold ignore_packet. wp_step. apply HQ; [by destruct known_opcode|].
      apply post_same; [done|done|]. intros [Hx|Hx]; congruence.
  - apply (wp_emit_reset false); [done|done|done|done|by right|done].
  - destruct Hi as [Hc Hs]. rewrite Hst in Hs. destruct Hs as (Ht & Hp & Htopo & Hct).
    assert (He' : emitting g).
    { split; try done; [by apply Ht|]. destruct (g_topo_session (co g)) as [i|]; [by exists i|done]. }
    apply wp_emit_next; [done| |].
    + intros g' Hb' Hi' K'. apply HQ; [done|]. apply post_keep; [done..|]. intros [Hx|Hx]; congruence.
    + intros g' He2 Hr K'. by apply Hgo.
  - apply (wp_emit_reset false); [done|done|done|done|by left|done].
Qed.

Lemma smT_post_emitting g g' g'' :
  ~ is_reset (g_this_event (co g)) -> smT_keep g g' -> base_ok g'' -> smT_inv false g'' -> smT_keep g' g'' ->
  smT_post g g''.
Proof. intros Hn K1 Hb Hi K2. apply post_keep; [done..| |done]. by eapply smT_keep_trans. Qed.

(** The topology machine on one event: it never faults nor runs out of fuel,
    and re-establishes the invariant. *)
Lemma wp_smT_process_event (Q : sm_Status -> G -> Prop) g :
  base_ok g -> smT_inv (firing g) g -> emit_event_ok g ->
  (firing g = true -> evt_ssn (g_this_event (co g)) = None
                      \/ evt_ssn (g_this_event (co g)) = g_topo_session (co g)) ->
  (g_topo_session (co g) = None -> g_smT_state (co g) = smT_Quiescent) ->
  (forall st g', smT_post g g' -> Q st g') ->
  wp smT_process_event Q g.
Proof.
  intros Hb Hi Hok Hfire Hnone HQ. unfold smT_process_event. apply wp_bind, wp_gets, wp_bind, wp_gets.
  destruct (g_topo_session (co g)) as [i|] eqn:Htopo.
  2:{ wp_step. apply HQ. specialize (Hnone eq_refl). destruct Hi as [Hc Hs]. rewrite Hnone in Hs.
      assert (Hi : smT_inv false g) by (split; [done|by rewrite Hnone]).
      split; [done|done|apply smT_frame_refl|done]. }
  apply wp_if; intros Habort.
  { apply bool_decide_eq_true in Habort as [H1 H2]. wp_step. apply HQ, post_same; [done| |congruence].
    destruct (firing g) eqn:Hf; [|done]. by destruct (Hfire eq_refl). }
  clear Habort Hfire. apply wp_bind, wp_gets. unfold smT_fuel.
  set (n := Z.to_nat (u16 (numDescrs (g_this_event (co g))))).
  set (r := Z.to_nat (g_emit_remaining (em g))). change (2 + n + r)%nat with (S (S (n + r))).
  cbn [smT_loop]. unfold smT_dispatch at 1. apply wp_bind, wp_bind, wp_gets.
  destruct (g_smT_state (co g)) eqn:Hst.
  - eapply wp_smT_QuiescentHandler; [done|done|done|congruence|]. intros st g' Hne Hp.
    destruct st; [|done|]; wp_step; by apply HQ.
  - assert (Hc : commanding g).
    { destruct Hi as [Hc Hs]. rewrite Hst in Hs. destruct Hs as (H1 & H2 & H3). split; try done. by exists i. }
    apply wp_smT_CommandHandler; [done|done| |].
    + intros st g' Hne Hp. destruct st; [|done|]; wp_step; by apply HQ.
    + intros g' He Hr Hevt K. change (wp (smT_loop (S (n + r))) Q g').
      destruct (Hok Hevt) as [Hn _]. apply wp_smT_loop_emitting; [done| |].
      * rewrite Hr. unfold n. rewrite u16_small by lia. lia.
      * intros g'' Hb'' Hi'' K''. apply HQ. eapply smT_post_emitting; [|exact K|done..].
        intros [Hx|Hx]; congruence.
  - apply wp_smT_EmitHandler; [done|done|done| |].
    + intros st g' Hne Hp. destruct st; [|done|]; wp_step; by apply HQ.
    + intros g' He Hr Hevt K. change (wp (smT_loop (S (n + r))) Q g').
      apply wp_smT_loop_emitting; [done| |].
      * rewrite Hr. unfold r. lia.
      * intros g'' Hb'' Hi'' K''. apply HQ. eapply smT_post_emitting; [|exact K|done..].
        intros [Hx|Hx]; congruence.
Qed.
End process_lemmas.

(** ** Credit arithmetic *)

(** A received frame adds one packet and its length to the credit, up to
    the two caps; a sent frame takes one packet and its length away.  The
    count of packets stops at zero, but the count of bytes does not: when
    there is less byte credit than the frame is long (and some), it wraps
    around to almost 2^32, far above its cap. *)
Theorem credit_arithmetic len c :
  0 <= g_ctc_packets c <= TOPO_CTC_PACKETS_MAX -> 0 <= g_ctc_bytes c -> 0 <= len <= RXBUFSZ ->
  g_ctc_bytes c + len < 2 ^ 32 ->
  g_ctc_packets (charge_added len c) = Z.min TOPO_CTC_PACKETS_MAX (g_ctc_packets c + 1)
  /\ g_ctc_bytes (charge_added len c) = Z.min TOPO_CTC_BYTES_MAX (g_ctc_bytes c + len)
  /\ g_ctc_packets (charge_consumed len c) = Z.max 0 (g_ctc_packets c - 1)
  /\ (g_ctc_bytes c = 0 \/ len <= g_ctc_bytes c ->
      g_ctc_bytes (charge_consumed len c) = Z.max 0 (g_ctc_bytes c - len))
  /\ (0 < g_ctc_bytes c < len ->
      g_ctc_bytes (charge_consumed len c) = g_ctc_bytes c - len + 2 ^ 32
      /\ TOPO_CTC_BYTES_MAX < g_ctc_bytes (charge_consumed len c)).
Proof.
  unfold TOPO_CTC_PACKETS_MAX, TOPO_CTC_BYTES_MAX, RXBUFSZ. intros Hp Hb Hl Hlt.
  unfold charge_added, charge_consumed, TOPO_CTC_PACKETS_MAX, TOPO_CTC_BYTES_MAX. cbn [g_ctc_packets g_ctc_bytes].
  rewrite !(u32_small (g_ctc_packets c + 1)), !(u32_small (g_ctc_bytes c + len)) by lia.
  split; [destruct (Z.ltb_spec 64 (g_ctc_packets c + 1)); lia|].
  split; [destruct (Z.ltb_spec 65536 (g_ctc_bytes c + len)); lia|].
  split; [destruct (Z.eqb_spec (g_ctc_packets c) 0); lia|]. split.
  - intros H. destruct (Z.eqb_spec (g_ctc_bytes c) 0) as [->|Hn]; [lia|]. rewrite u32_small by lia. lia.
  - intros H. rewrite (proj2 (Z.eqb_neq _ 0)) by lia.
    assert (Hw : u32 (g_ctc_bytes c - len) = g_ctc_bytes c - len + 2 ^ 32).
    { unfold u32. symmetry. apply (Z.mod_unique _ _ (-1)); lia. }
    rewrite Hw. lia.
Qed.
