(* ===== verification/Frames.v ===== *)
(** * Frames: what the daemon puts on the wire

    The exact bytes of the frames that packetio.c builds, and the exact
    sequence of frames that an Emit produces.  The lemmas of PacketTx and
    Mapping say that the functions are safe; these say what they send. *)

From S2P Require Import Prelude LltdTypes Event SeesList Tlv PacketTx Mapping.

(** ** The bytes of a frame *)

(** The Ethernet and base headers, with the reserved byte [rsvd]. *)
Definition header (dst src : list Z) (tos : Z) (rsvd : list Z) (opcode : Z)
    (realdst realsrc : list Z) (seq : Z) : list Z :=
  dst ++ src ++ be16 TOPO_ETHERTYPE ++ [TOPO_VERSION; u8 tos] ++ rsvd ++ [u8 opcode]
  ++ realdst ++ realsrc ++ be16 seq.

(** The byte of a buffer at the offset of [tbh_resrvd]. *)
Definition rsvd_byte (buf : list Z) : list Z := take 1 (drop 16 buf).

Lemma cons_of_length {A} n (l : list A) : (S n <= length l)%nat -> exists x l', l = x :: l' /\ (n <= length l')%nat.
Proof. destruct l as [|x l]; simpl; intros H; [lia|]. exists x, l. split; [done|lia]. Qed.

Lemma six_bytes {A} (l : list A) : length l = 6%nat -> exists a b c d e f, l = [a; b; c; d; e; f].
Proof. destruct l as [|a [|b [|c [|d [|e [|f [|]]]]]]]; try done. intros _. by exists a, b, c, d, e, f. Qed.

(** Split a list of at least 32 elements into its elements. *)
Ltac uncons H := let x := fresh "b" in
  match type of H with (S _ <= length ?l)%nat =>
    apply cons_of_length in H as (x & ? & -> & H) end.

(** The nine stores of fmt_base and of packetio_tx_emitee. *)
Definition header_stores (dst src realdst realsrc : list Z) (tos opcode seq : Z) (buf : list Z) : list Z :=
  list_inserts 30 (be16 seq) (list_inserts 18 realdst (list_inserts 24 realsrc
    (list_inserts 17 [u8 opcode] (list_inserts 15 [u8 tos] (list_inserts 14 [TOPO_VERSION]
      (list_inserts 12 (be16 TOPO_ETHERTYPE) (list_inserts 0 dst (list_inserts 6 src buf)))))))).

Lemma header_stores_eq dst src realdst realsrc tos opcode seq buf :
  length dst = 6%nat -> length src = 6%nat -> length realdst = 6%nat -> length realsrc = 6%nat ->
  (32 <= length buf)%nat ->
  header_stores dst src realdst realsrc tos opcode seq buf
  = header dst src tos (rsvd_byte buf) opcode realdst realsrc seq ++ drop 32 buf.
Proof.
  intros (?&?&?&?&?&?&->)%six_bytes (?&?&?&?&?&?&->)%six_bytes (?&?&?&?&?&?&->)%six_bytes
    (?&?&?&?&?&?&->)%six_bytes H.
  do 32 uncons H. reflexivity.
Qed.

Lemma header_length dst src tos rsvd opcode realdst realsrc seq :
  length dst = 6%nat -> length src = 6%nat -> length realdst = 6%nat -> length realsrc = 6%nat ->
  length rsvd = 1%nat -> length (header dst src tos rsvd opcode realdst realsrc seq) = 32%nat.
Proof. intros H1 H2 H3 H4 H5. unfold header. rewrite !length_app, H1, H2, H3, H4, H5. done. Qed.

Lemma rsvd_byte_length buf : (32 <= length buf)%nat -> length (rsvd_byte buf) = 1%nat.
Proof. intros H. unfold rsvd_byte. rewrite length_take, length_drop. lia. Qed.

Lemma rsvd_byte_header dst src tos rsvd opcode realdst realsrc seq rest :
  length dst = 6%nat -> length src = 6%nat -> length rsvd = 1%nat ->
  rsvd_byte (header dst src tos rsvd opcode realdst realsrc seq ++ rest) = rsvd.
Proof.
  intros (?&?&?&?&?&?&->)%six_bytes (?&?&?&?&?&?&->)%six_bytes H.
  destruct rsvd as [|r [|]]; done.
Qed.

(** ** Building and sending *)

Section frames.
Context `{E : Env}.

Lemma wp_tx_store_eq bytes off (Q : unit -> G -> Prop) g :
  Z.of_nat (length (g_txbuf (tx g))) = TXBUFSZ -> 0 <= off -> off + Z.of_nat (length bytes) <= TXBUFSZ ->
  Q tt (set_g_txbuf (list_inserts (Z.to_nat off) bytes (g_txbuf (tx g))) g) ->
  wp (tx_store bytes off) Q g.
Proof.
  intros Hs H1 H2 HQ. unfold tx_store, wp, mbind, M_bind, gets. simpl. rewrite store_ok by lia. exact HQ.
Qed.

Ltac store_eq :=
  apply wp_tx_store_eq; [cbn [g_txbuf tx set_g_txbuf set_tx]; rewrite ?length_inserts; assumption | done |
    unfold TXBUFSZ, eh_src, eh_dst, eh_ethertype, tbh_version, tbh_tos, tbh_opcode, tbh_realsrc,
      tbh_realdst, tbh_seqnum; simpl length; lia | ].

Lemma wp_fmt_base_eq srchw dsthw tos opcode seqnum (bc : bool) (Q : unit -> G -> Prop) g :
  Z.of_nat (length (g_txbuf (tx g))) = TXBUFSZ -> length srchw = 6%nat -> length dsthw = 6%nat ->
  Q tt (set_g_txbuf (header (if bc then Etheraddr_broadcast else dsthw) srchw tos
                       (rsvd_byte (g_txbuf (tx g))) opcode dsthw srchw seqnum
                     ++ drop 32 (g_txbuf (tx g))) g) ->
  wp (fmt_base srchw dsthw tos opcode seqnum bc) Q g.
Proof.
  intros Hs H1 H2 HQ. assert (H3 : length (if bc then Etheraddr_broadcast else dsthw) = 6%nat) by by destruct bc.
  rewrite <- header_stores_eq in HQ by (try done; unfold TXBUFSZ in Hs; lia).
  unfold fmt_base. do 8 (apply wp_bind; store_eq). store_eq. exact HQ.
Qed.

(** The retransmission buffer after a frame of [nbytes] bytes. *)
Definition rtx_kept (nbytes seq opcode : Z) (x x' : txctx) : Prop :=
  if seq =? 0 then
    g_re_txbuf x' = g_re_txbuf x /\ g_re_tx_len x' = g_re_tx_len x
    /\ g_rtxseqnum x' = g_rtxseqnum x /\ g_re_tx_opcode x' = g_re_tx_opcode x
  else
    take (Z.to_nat nbytes) (g_re_txbuf x') = take (Z.to_nat nbytes) (g_txbuf x)
    /\ g_re_tx_len x' = nbytes /\ g_rtxseqnum x' = seq /\ g_re_tx_opcode x' = u8 opcode.

Lemma take_inserts_0 {A} (f l : list A) : (length f <= length l)%nat -> take (length f) (list_inserts 0 f l) = f.
Proof.
  intros H. rewrite <- (take_drop (length f) l) at 1.
  rewrite list_inserts_0_r by (rewrite length_take; lia). by rewrite take_app_length.
Qed.

Lemma wp_tx_sendpacket_eq nbytes seq (Q : unit -> G -> Prop) g :
  io_ok g -> 32 <= nbytes <= TOPO_MAX_FRAMESZ ->
  (forall x o, os_out o = os_out (os g) ++ [Frame (take (Z.to_nat nbytes) (g_txbuf (tx g)))] ->
     g_txbuf x = g_txbuf (tx g) -> g_tx_len x = nbytes -> rtx_kept nbytes seq (g_opcode (rx g)) (tx g) x ->
     io_ok (txs x o (g_tlvs g) g) -> Q tt (txs x o (g_tlvs g) g)) ->
  wp (tx_sendpacket nbytes seq) Q g.
Proof.
  intros [[S1 S2 S3 S4 S5] Hv Ho] Hn HQ.
  unfold TOPO_MAX_FRAMESZ in Hn. unfold TXBUFSZ in S1, S2. unfold tx_sendpacket, tx_write, emit_output.
  apply wp_bind, wp_gets, wp_bind, wp_bind. eapply wp_in_bounds; [apply load_len_ok; lia|].
  set (frame := take _ _). assert (Hf : length frame = Z.to_nat nbytes)
    by (unfold frame; rewrite length_take, length_drop; lia).
  apply wp_bind, wp_sys. apply wp_if; intros H1; [apply wp_die|]. apply wp_if; intros H2; [apply wp_die|].
  do 3 wp_step. apply wp_when; intros H3.
  - apply wp_bind, wp_gets, wp_bind. eapply wp_in_bounds; [apply load_len_ok; lia|].
    fold frame. apply wp_bind. eapply wp_in_bounds; [apply store_ok; rewrite ?Hf; simpl; lia|].
    do 6 wp_step. apply wp_bind, wp_gets. wp_step.
    match goal with |- Q tt ?s => change s with (txs (tx s) (os s) (g_tlvs g) g) end.
    apply negb_true_iff in H3. apply HQ; [done|done|done| |].
    + unfold rtx_kept. rewrite H3. split; [|done]. simpl. rewrite <- Hf at 1.
      rewrite take_inserts_0 by lia. unfold frame. by rewrite drop_0.
    + split; [|done|apply Forall_app; split; [done|apply Forall_singleton; simpl; lia]].
      split; simpl; rewrite ?length_inserts; unfold TXBUFSZ, TOPO_MAX_FRAMESZ; lia.
  - match goal with |- Q tt ?s => change s with (txs (tx s) (os s) (g_tlvs g) g) end.
    apply negb_false_iff in H3. apply HQ; [done|done|done| |].
    + unfold rtx_kept. by rewrite H3.
    + split; [|done|apply Forall_app; split; [done|apply Forall_singleton; simpl; lia]].
      split; simpl; unfold TXBUFSZ, TOPO_MAX_FRAMESZ in *; try done; lia.
Qed.
End frames.

(** ** The frames of an Emit *)

Definition field (n : nat) (buf : list Z) (off : Z) : list Z := take n (drop (Z.to_nat off) buf).

(** The frame that the descriptor at offset [ed] of the emit buffer asks for. *)
Definition desc_frame (hw rsvd buf : list Z) (ed : Z) : list Z :=
  header (field 6 buf (ed + ed_dst)) (field 6 buf (ed + ed_src)) ToS_TopologyDiscovery rsvd
    (if of_be (field 1 buf (ed + ed_type)) =? 0 then Opcode_Train else Opcode_Probe)
    (field 6 buf (ed + ed_dst)) hw 0.

(** The acknowledgement of the frame with number [seq]. *)
Definition ack_frame (hw rsvd mapper : list Z) (seq : Z) : list Z :=
  header mapper hw ToS_TopologyDiscovery rsvd Opcode_ACK mapper hw seq.

(** [frames] were sent, and the reserved byte of the transmit buffer is as before. *)
Record sent (frames : list (list Z)) (g g' : G) : Prop := Sent {
  se_out : os_out (os g') = os_out (os g) ++ (Frame <$> frames);
  se_rsvd : rsvd_byte (g_txbuf (tx g')) = rsvd_byte (g_txbuf (tx g))
}.

Lemma sent_nil g g' : os_out (os g') = os_out (os g) -> tx g' = tx g -> sent [] g g'.
Proof. intros H1 H2. split; [by rewrite H1, app_nil_r|by rewrite H2]. Qed.

Lemma sent_app l1 l2 g1 g2 g3 : sent l1 g1 g2 -> sent l2 g2 g3 -> sent (l1 ++ l2) g1 g3.
Proof. intros [O1 R1] [O2 R2]. split; [by rewrite O2, O1, fmap_app, app_assoc|congruence]. Qed.

Section emit_frames.
Context `{E : Env}.

Lemma wp_emitbuf_load_eq n off (Q : list Z -> G -> Prop) g :
  Z.of_nat (length (g_emitbuf (em g))) = RXBUFSZ -> 0 <= off -> off + Z.of_nat n <= RXBUFSZ ->
  Q (field n (g_emitbuf (em g)) off) g -> wp (emitbuf_load n off) Q g.
Proof.
  intros Hl H0 H1 HQ. unfold emitbuf_load. apply wp_bind, wp_gets.
  eapply wp_in_bounds; [apply load_ok; lia|]. exact HQ.
Qed.

Lemma field_length n buf off :
  0 <= off -> off + Z.of_nat n <= Z.of_nat (length buf) -> length (field n buf off) = n.
Proof. intros. unfold field. rewrite length_take, length_drop. lia. Qed.

(** The end of every sender of a bare header: the frame is that header. *)
Lemma wp_send_header b seq dst src tos op rdst rsrc n (Q : unit -> G -> Prop) g :
  io_ok g -> length dst = 6%nat -> length src = 6%nat -> length rdst = 6%nat -> length rsrc = 6%nat ->
  b = header dst src tos (rsvd_byte (g_txbuf (tx g))) op rdst rsrc n ++ drop 32 (g_txbuf (tx g)) ->
  (forall x o ts, io_ok (txs x o ts g) ->
     sent [header dst src tos (rsvd_byte (g_txbuf (tx g))) op rdst rsrc n] g (txs x o ts g) ->
     rtx_kept 32 seq (g_opcode (rx g)) (tx (set_g_txbuf b g)) x -> Q tt (txs x o ts g)) ->
  wp (tx_sendpacket 32 seq) Q (set_g_txbuf b g).
Proof.
  intros [Ht Hv Ho] H1 H2 H3 H4 Hb HQ. pose proof (xo_size _ Ht) as Hs. unfold TXBUFSZ in Hs.
  assert (Hr : length (rsvd_byte (g_txbuf (tx g))) = 1%nat) by (apply rsvd_byte_length; lia).
  pose proof (header_length dst src tos _ op rdst rsrc n H1 H2 H3 H4 Hr) as Hh.
  apply wp_tx_sendpacket_eq; [|by unfold TOPO_MAX_FRAMESZ|].
  - split; [|done|done]. apply tx_ok_store; [done|]. rewrite Hb, length_app, length_drop, Hh. lia.
  - intros x o Hout Hx _ Hrtx Hio.
    change (txs x o (g_tlvs (set_g_txbuf b g)) (set_g_txbuf b g)) with (txs x o (g_tlvs g) g) in *.
    apply HQ; [done| |done]. simpl in Hout, Hx.
    change (Z.to_nat 32) with 32%nat in Hout. split.
    + simpl. rewrite Hout, Hb. rewrite <- Hh at 1. by rewrite take_app_length.
    + simpl. rewrite Hx, Hb. by apply rsvd_byte_header.
Qed.

Lemma wp_packetio_tx_emitee_eq ed (Q : unit -> G -> Prop) g :
  io_ok g -> core_wf (co g) -> Z.of_nat (length (g_emitbuf (em g))) = RXBUFSZ ->
  0 <= ed -> ed + sizeof_emitee_desc <= RXBUFSZ ->
  (forall x o ts, io_ok (txs x o ts g) ->
     sent [desc_frame (g_hwaddr (co g)) (rsvd_byte (g_txbuf (tx g))) (g_emitbuf (em g)) ed] g (txs x o ts g) ->
     Q tt (txs x o ts g)) ->
  wp (packetio_tx_emitee ed) Q g.
Proof.
  intros Hio Hw Hl H0 H1 HQ. unfold sizeof_emitee_desc in H1. unfold RXBUFSZ in *.
  pose proof (xo_size _ (io_tx _ Hio)) as Hs. unfold packetio_tx_emitee.
  apply wp_bind, wp_fmap, wp_emitbuf_load_eq; [done|unfold ed_type, RXBUFSZ; lia..|].
  do 2 (apply wp_bind, wp_emitbuf_load_eq; [done|unfold ed_src, ed_dst, RXBUFSZ; lia..|]).
  apply wp_bind, wp_gets. pose proof (cw_hw _ Hw) as Hhw.
  assert (L1 : length (field 6 (g_emitbuf (em g)) (ed + ed_src)) = 6%nat)
    by (apply field_length; unfold ed_src; lia).
  assert (L2 : length (field 6 (g_emitbuf (em g)) (ed + ed_dst)) = 6%nat)
    by (apply field_length; unfold ed_dst; lia).
  do 9 (apply wp_bind, wp_tx_store_eq; [cbn [g_txbuf tx set_g_txbuf set_tx]; rewrite ?length_inserts; assumption
    |done|unfold TXBUFSZ, eh_src, eh_dst, eh_ethertype, tbh_version, tbh_tos, tbh_opcode, tbh_realsrc,
       tbh_realdst, tbh_seqnum; simpl length; lia|]).
  match goal with |- wp (tx_sendpacket _ _) Q ?s => set (b := g_txbuf (tx s)); change s with (set_g_txbuf b g) end.
  eapply wp_send_header; [done|exact L2|exact L1|exact L2|exact Hhw| |intros x o ts Hx Hs' _; by apply HQ].
  apply header_stores_eq; try done. unfold TXBUFSZ in Hs. lia.
Qed.

Lemma wp_packetio_tx_ack_eq seq i s (Q : unit -> G -> Prop) g :
  io_ok g -> core_wf (co g) -> g_topo_session (co g) = Some i -> g_sessions (co g) !! i = Some s ->
  (forall x o ts, io_ok (txs x o ts g) ->
     sent [ack_frame (g_hwaddr (co g)) (rsvd_byte (g_txbuf (tx g))) (ssn_mapper_real s) seq] g (txs x o ts g) ->
     Q tt (txs x o ts g)) ->
  wp (packetio_tx_ack seq) Q g.
Proof.
  intros Hio Hw Hi Hsi HQ. pose proof (Forall_lookup_1 _ _ _ _ (cw_sessions _ Hw) Hsi) as [Hm _].
  unfold packetio_tx_ack, topo_mapper_real. apply wp_bind, wp_gets, wp_bind, wp_bind, wp_gets.
  rewrite Hi. apply wp_bind. eapply wp_ssn_get; [done|]. wp_step. apply wp_bind, wp_fmt_base_eq;
    [apply (xo_size _ (io_tx _ Hio))|apply Hw|done|].
  eapply wp_send_header; [done|exact Hm|apply Hw|exact Hm|apply Hw|reflexivity|].
  intros x o ts Hx Hs' _. by apply HQ.
Qed.
End emit_frames.

(** ** A burst: the descriptors sent in one run of the topology machine *)

Definition pause_at (buf : list Z) (ed : Z) : Z := of_be (field 1 buf (ed + ed_pause)).

(** Of the [n] descriptors at [p] (the pause of the first one is over), the
    number sent before one asks for a pause. *)
Fixpoint burst (n : nat) (buf : list Z) (p : Z) : nat :=
  match n with
  | O => O
  | S n' => S (if pause_at buf (p + sizeof_emitee_desc) =? 0
               then burst n' buf (p + sizeof_emitee_desc) else O)
  end.

Fixpoint desc_frames (m : nat) (hw rsvd buf : list Z) (p : Z) : list (list Z) :=
  match m with
  | O => []
  | S m' => desc_frame hw rsvd buf p :: desc_frames m' hw rsvd buf (p + sizeof_emitee_desc)
  end.

(** The mapper of the topology session. *)
Definition topo_mapper (r : core) : list Z :=
  match g_topo_session r with
  | Some i => match g_sessions r !! i with Some s => ssn_mapper_real s | None => [] end
  | None => []
  end.

(** The acknowledgement that ends an Emit that has a sequence number. *)
Definition emit_ack (g : G) : list (list Z) :=
  if g_emit_seqnum (em g) =? 0 then []
  else [ack_frame (g_hwaddr (co g)) (rsvd_byte (g_txbuf (tx g))) (topo_mapper (co g)) (g_emit_seqnum (em g))].

Definition frames_at (m : nat) (p : Z) (g : G) : list (list Z) :=
  desc_frames m (g_hwaddr (co g)) (rsvd_byte (g_txbuf (tx g))) (g_emitbuf (em g)) p.

(** The Emit is over. *)
Definition emit_done (p : Z) (g g' : G) : Prop :=
  sent (frames_at (Z.to_nat (g_emit_remaining (em g))) p g ++ emit_ack g) g g'
  /\ g_smT_state (co g') = smT_Command /\ g_emit_remaining (em g') = 0.

(** The Emit waits after [m] more descriptors. *)
Definition emit_waits (m : nat) (p : Z) (g g' : G) : Prop :=
  sent (frames_at m p g) g g' /\ g_smT_state (co g') = smT_Emit
  /\ g_emit_remaining (em g') = g_emit_remaining (em g) - Z.of_nat m
  /\ g_emitdesc (em g') = Some (p + sizeof_emitee_desc * Z.of_nat m)
  /\ is_Some (timer_get T_emit g').

Section burst.
Context `{E : Env}.

(** What one descriptor leaves for the next one. *)
Record emit_left (p : Z) (g g' : G) : Prop := EmitLeft {
  el_sent : sent [desc_frame (g_hwaddr (co g)) (rsvd_byte (g_txbuf (tx g))) (g_emitbuf (em g)) p] g g';
  el_co : co g' = co g;
  el_em : em g' = EmitSt (g_emitbuf (em g)) (g_emit_remaining (em g) - 1) (g_emit_seqnum (em g))
                    (Some (p + sizeof_emitee_desc))
}.

Lemma topo_mapper_session g : emitting g -> exists i s, g_topo_session (co g) = Some i
  /\ g_sessions (co g) !! i = Some s /\ topo_mapper (co g) = ssn_mapper_real s.
Proof.
  intros He. destruct (et_topo _ He) as [i Hi]. pose proof (bo_core _ (et_base _ He)) as Hw.
  destruct (lookup_lt_is_Some_2 (g_sessions (co g)) i) as [s Hs].
  { rewrite (cw_size _ Hw). by apply (cw_topo _ Hw). }
  exists i, s. split; [done|]. split; [done|]. unfold topo_mapper. by rewrite Hi, Hs.
Qed.

(** set_emit_timer decides by the pause of the descriptor. *)
Lemma wp_set_emit_timer_eq p (Q : bool -> G -> Prop) g :
  base_ok g -> emit_pending (em g) -> g_emitdesc (em g) = Some p -> timer_get T_emit g = None ->
  (pause_at (g_emitbuf (em g)) p = 0 -> Q false g) ->
  (pause_at (g_emitbuf (em g)) p <> 0 -> forall g', same_rest g g' -> co g' = co g ->
     is_Some (timer_get T_emit g') -> Q true g') ->
  wp set_emit_timer Q g.
Proof.
  intros H ((Hr0 & Hr1) & p' & Hp' & Hp0 & Hp1) Hp Hn Hf Ht. rewrite Hp in Hp'. injection Hp' as <-.
  unfold sizeof_emitee_desc, RXBUFSZ in Hp1. unfold set_emit_timer.
  apply wp_bind, wp_gets, wp_bind, wp_assert; [by apply Z.ltb_lt|].
  apply wp_bind, wp_gets, wp_bind, wp_assert; [by rewrite bool_decide_eq_true|].
  apply wp_bind, wp_gets, wp_bind. eapply wp_deref; [exact Hp|].
  apply wp_bind, wp_fmap, wp_emitbuf_load_eq; [apply H|unfold ed_pause, RXBUFSZ; lia..|].
  apply wp_if; intros Hz; bool_to_prop; [|wp_step; by apply Hf].
  apply wp_bind, wp_now_plus, wp_bind, wp_arm_global; [by apply base_ok_clk|done|done|].
  intros g1 _ F1 S1. pose proof (tmr_frame_trans _ _ _ _ (tmr_frame_clk _ _ _) F1) as [C1 R1 _].
  wp_step. by apply Ht.
Qed.

Lemma wp_emit_next_eq p (Q : sm_Status -> G -> Prop) g :
  emitting g -> g_emitdesc (em g) = Some p ->
  (g_emit_remaining (em g) = 1 -> forall g', emit_done p g g' -> Q PROCESSING_COMPLETED g') ->
  (1 < g_emit_remaining (em g) -> forall g', emit_left p g g' ->
     pause_at (g_emitbuf (em g)) (p + sizeof_emitee_desc) = 0 -> Q KEEP_GOING g') ->
  (1 < g_emit_remaining (em g) -> forall g', emit_left p g g' ->
     pause_at (g_emitbuf (em g)) (p + sizeof_emitee_desc) <> 0 ->
     is_Some (timer_get T_emit g') -> Q PROCESSING_COMPLETED g') ->
  wp emit_next Q g.
Proof.
  intros He Hpd Hdone Hgo Hwait. destruct (topo_mapper_session g He) as (i & s & Hi & Hs & Hm).
  destruct He as [Hb Hst Hev Ht ((Hr0 & Hr1) & p' & Hp' & Hp0 & Hp1) Hc Hct _].
  rewrite Hpd in Hp'. injection Hp' as <-. unfold emit_next. unfold sizeof_emitee_desc, RXBUFSZ in Hp1.
  apply wp_bind, wp_gets, wp_bind. eapply wp_deref; [exact Hpd|].
  apply wp_bind, wp_packetio_tx_emitee_eq; [apply Hb..|done|unfold sizeof_emitee_desc, RXBUFSZ; lia|].
  intros x o ts Hio [O1 R1]. pose proof (base_ok_txs _ _ _ _ Hb Hio) as Hb1.
  change (os_out (os (txs x o ts g))) with (os_out o) in O1.
  change (tx (txs x o ts g)) with x in R1.
  apply wp_bind, wp_gets. change (em (txs x o ts g)) with (em g).
  rewrite (u16_small (g_emit_remaining (em g) - 1)) by lia. do 4 wp_step.
  match goal with |- wp _ _ ?st => set (g2 := st) end.
  assert (Hb2 : base_ok g2) by (unfold g2; base_same). apply wp_if; intros Hr; bool_to_prop.
  - assert (H1 : g_emit_remaining (em g) = 1) by lia. do 2 wp_step. apply wp_bind, wp_CANCEL_global; [base_same|done|].
    intros g4 Hb4 [C4 [R41 R42 R43 R44 R45 R46 R47 R48 R49] _] _. apply wp_bind, wp_gets, wp_bind, wp_when; intros Hsq.
    + apply (wp_packetio_tx_ack_eq _ i s); [apply Hb4|apply Hb4|by rewrite C4|by rewrite C4|].
      intros x5 o5 ts5 _ [O5 R5]. wp_step. apply (Hdone H1). rewrite R46, C4 in O5. rewrite R45 in O5. rewrite R42 in O5, R5.
      split; [|split; [simpl; by rewrite C4|simpl; rewrite R46; simpl; lia]].
      unfold emit_ack, frames_at. rewrite H1. simpl Z.to_nat. change (Pos.to_nat 1) with 1%nat.
      rewrite R46 in Hsq. apply negb_true_iff in Hsq. simpl in Hsq. rewrite Hsq. split.
      * rewrite O5. simpl. rewrite O1, <- app_assoc. simpl. rewrite Hm, R1. done.
      * rewrite R5. exact R1.
    + wp_step. apply (Hdone H1). split; [|split; [by rewrite C4|rewrite R46; simpl; lia]].
      unfold emit_ack, frames_at. rewrite H1. rewrite R46 in Hsq. apply negb_false_iff in Hsq. simpl in Hsq.
      rewrite Hsq. split; [rewrite R45; exact O1|rewrite R42; exact R1].
  - assert (H1 : 1 < g_emit_remaining (em g)) by lia.
    apply wp_bind, (wp_set_emit_timer_eq (p + sizeof_emitee_desc)); [done| |done|exact Ht| |].
    + split; simpl; [lia|]. exists (p + 14). split; [done|]. unfold sizeof_emitee_desc, RXBUFSZ. lia.
    + intros Hz. wp_step. apply (Hgo H1); [|exact Hz]. by split.
    + intros Hz g3 [] C3 S3. wp_step. apply (Hwait H1); [|exact Hz|done].
      split; [|by rewrite C3|by rewrite sr_em]. split; [rewrite sr_out; exact O1|rewrite sr_tx; exact R1].
Qed.

(** One descriptor followed by a burst of the rest. *)
Lemma frames_at_cons m p g g' : emit_left p g g' ->
  frames_at (S m) p g
  = desc_frame (g_hwaddr (co g)) (rsvd_byte (g_txbuf (tx g))) (g_emitbuf (em g)) p
    :: frames_at m (p + sizeof_emitee_desc) g'.
Proof. intros [[_ R] C Em]. unfold frames_at. simpl. by rewrite C, Em, R. Qed.

Lemma emit_ack_left p g g' : emit_left p g g' -> emit_ack g' = emit_ack g.
Proof. intros [[_ R] C Em]. unfold emit_ack. by rewrite C, Em, R. Qed.

Lemma emit_done_cons p g g' g'' : emit_left p g g' -> 1 < g_emit_remaining (em g) ->
  emit_done (p + sizeof_emitee_desc) g' g'' -> emit_done p g g''.
Proof.
  intros L H (S1 & S2 & S3). split; [|done].
  replace (Z.to_nat (g_emit_remaining (em g))) with (S (Z.to_nat (g_emit_remaining (em g'))))
    by (rewrite (el_em _ _ _ L); simpl; lia).
  rewrite (frames_at_cons _ _ _ _ L), <- (emit_ack_left _ _ _ L).
  exact (sent_app [_] _ _ _ _ (el_sent _ _ _ L) S1).
Qed.

Lemma emit_waits_cons m p g g' g'' : emit_left p g g' ->
  emit_waits m (p + sizeof_emitee_desc) g' g'' -> emit_waits (S m) p g g''.
Proof.
  intros L (S1 & S2 & S3 & S4 & S5). split; [|split; [done|]].
  - rewrite (frames_at_cons _ _ _ _ L). exact (sent_app [_] _ _ _ _ (el_sent _ _ _ L) S1).
  - rewrite S3, S4, (el_em _ _ _ L). unfold sizeof_emitee_desc. simpl g_emit_remaining.
    split; [lia|]. split; [f_equal; lia|done].
Qed.

Definition burst_post (p : Z) (g g' : G) : Prop :=
  let n := Z.to_nat (g_emit_remaining (em g)) in
  let m := burst n (g_emitbuf (em g)) p in
  if decide (m = n) then emit_done p g g' else emit_waits m p g g'.

Lemma burst_post_cons p g g' g'' : emit_left p g g' -> 1 < g_emit_remaining (em g) ->
  pause_at (g_emitbuf (em g)) (p + sizeof_emitee_desc) = 0 ->
  burst_post (p + sizeof_emitee_desc) g' g'' -> burst_post p g g''.
Proof.
  intros L H Hz. unfold burst_post.
  set (k := Z.to_nat (g_emit_remaining (em g) - 1)).
  assert (Hk : Z.to_nat (g_emit_remaining (em g')) = k) by (by rewrite (el_em _ _ _ L)).
  assert (Hb : g_emitbuf (em g') = g_emitbuf (em g)) by (by rewrite (el_em _ _ _ L)).
  replace (Z.to_nat (g_emit_remaining (em g))) with (S k) by lia.
  cbn [burst]. rewrite Hz, Hb, Hk. change (0 =? 0) with true. cbv iota. set (m := burst _ _ _).
  repeat case_decide; try lia; [by apply emit_done_cons|by apply emit_waits_cons].
Qed.

Lemma wp_smT_loop_burst fuel p (Q : sm_Status -> G -> Prop) g :
  emitting g -> g_emitdesc (em g) = Some p -> g_emit_remaining (em g) <= Z.of_nat fuel ->
  (forall g', burst_post p g g' -> Q PROCESSING_COMPLETED g') -> wp (smT_loop fuel) Q g.
Proof.
  revert p g. induction fuel as [|fuel IH]; intros p g He Hp Hf HQ.
  { destruct He as [_ _ _ _ [? _] _ _ _]. lia. }
  simpl. unfold smT_dispatch, smT_EmitHandler. apply wp_bind, wp_bind, wp_gets. rewrite (et_state _ He).
  apply wp_bind, wp_gets. rewrite (et_evt _ He).
  pose proof (et_pending _ He) as [Hr _].
  eapply wp_mono; [apply wp_and; [apply (wp_emit_next (fun st g' => st = KEEP_GOING -> emitting g')); [done|done|intros g' H _ _ _; exact H]|]|].
  - apply (wp_emit_next_eq p (fun st g' => match st with
      | KEEP_GOING => 1 < g_emit_remaining (em g) /\ emit_left p g g'
                      /\ pause_at (g_emitbuf (em g)) (p + sizeof_emitee_desc) = 0
      | _ => st = PROCESSING_COMPLETED /\ burst_post p g g' end)); [done|done|..].
    + intros H1 g' Hd. split; [done|]. unfold burst_post. rewrite H1. change (Z.to_nat 1) with 1%nat.
      cbn [burst]. rewrite decide_True by (by destruct (_ =? 0)). exact Hd.
    + intros H1 g' L Hz. done.
    + intros H1 g' L Hz HS. split; [done|]. unfold burst_post.
      replace (Z.to_nat (g_emit_remaining (em g))) with (S (Z.to_nat (g_emit_remaining (em g) - 1))) by lia.
      cbn [burst]. rewrite (proj2 (Z.eqb_neq _ _) Hz). rewrite decide_False by lia.
      split; [apply (el_sent _ _ _ L)|]. rewrite (el_co _ _ _ L), (el_em _ _ _ L).
      split; [apply (et_state _ He)|]. split; [simpl; lia|]. by split.
  - intros st g' [H1 H2]. destruct st; [destruct H2 as [_ H2]; wp_step; by apply HQ| |by destruct H2].
    destruct H2 as (Hr1 & L & Hz). apply (IH (p + sizeof_emitee_desc)); [by apply H1|by rewrite (el_em _ _ _ L)
      |rewrite (el_em _ _ _ L); simpl; lia|]. intros g'' HB. apply HQ. by eapply burst_post_cons.
Qed.
End burst.

(** ** The answer to a Query *)

(** At most this many entries fit into a frame. *)
Definition QUERYRESP_MAX : nat := 74.

Definition entries_bytes (l : list recvee_desc) : list Z := concat (recvee_bytes <$> l).

(** The response with the entries [l], of which the first ones are sent. *)
Definition queryresp_frame (hw rsvd mapper : list Z) (seq : Z) (l : list recvee_desc) : list Z :=
  let sent := take QUERYRESP_MAX l in
  header mapper hw ToS_TopologyDiscovery rsvd Opcode_QueryResp mapper hw seq
  ++ be16 (Z.of_nat (length sent) + (if Nat.leb (length l) QUERYRESP_MAX then 0 else 0x8000))
  ++ entries_bytes sent.

Lemma entries_length l : Forall recvee_ok l -> length (entries_bytes l) = (20 * length l)%nat.
Proof.
  intros H. unfold entries_bytes. induction H as [|d l (H1 & H2 & H3) _ IH]; [done|].
  rewrite fmap_cons. cbn [concat length]. rewrite length_app, IH. unfold recvee_bytes.
  rewrite !length_app, H1, H2, H3. simpl. lia.
Qed.

Lemma contents_ok sl : sees_ok sl -> Forall recvee_ok (sees_contents sl).
Proof.
  intros Hok. unfold sees_contents. apply Forall_fmap, Forall_forall. intros i _. simpl.
  destruct Hok as [Hc Hd Hw Hr He].
  assert (Hs : (sees_slot sl i < length (sl_data sl))%nat).
  { unfold sees_slot. pose proof (Z.mod_pos_bound (sl_rd sl + Z.of_nat i) (sl_count sl) ltac:(lia)). lia. }
  destruct (lookup_lt_is_Some_2 _ _ Hs) as [d Hd']. rewrite (list_lookup_total_correct _ _ _ Hd').
  by eapply Forall_lookup_1.
Qed.

Section query.
Context `{E : Env}.

(** The state after [m] entries were taken out and written at [p]. *)
Record filled (m : nat) (p : Z) (g g' : G) : Prop := Filled {
  fi_buf : g_txbuf (tx g') = take (Z.to_nat p) (g_txbuf (tx g))
             ++ entries_bytes (take m (sees_contents (g_sees g)))
             ++ drop (Z.to_nat p + 20 * length (take m (sees_contents (g_sees g)))) (g_txbuf (tx g));
  fi_sees : sees_contents (g_sees g') = drop m (sees_contents (g_sees g));
  fi_ok : sees_ok (g_sees g');
  fi_rest : exists x, io_ok (txs x (os g) (g_tlvs g) (set_g_sees (g_sees g') g))
                      /\ g' = txs x (os g) (g_tlvs g) (set_g_sees (g_sees g') g)
}.

Lemma filled_0 m p g : io_ok g -> sees_ok (g_sees g) -> m = 0%nat \/ sees_contents (g_sees g) = [] ->
  filled m p g g.
Proof.
  intros Hio Hok Hm.
  assert (Ht : take m (sees_contents (g_sees g)) = []) by (destruct Hm as [->| ->]; [done|by rewrite take_nil]).
  assert (Hd : drop m (sees_contents (g_sees g)) = sees_contents (g_sees g))
    by (destruct Hm as [->| ->]; [done|by rewrite drop_nil]).
  split; rewrite ?Ht, ?Hd; try done.
  - simpl. by rewrite Nat.add_0_r, take_drop.
  - exists (tx g). by destruct g.
Qed.

Lemma filled_S d rest m p g b g' :
  sees_contents (g_sees g) = d :: rest -> recvee_ok d -> 0 <= p -> p + 20 <= Z.of_nat (length (g_txbuf (tx g))) ->
  sees_contents (sees_pop (g_sees g)) = rest ->
  b = list_inserts (Z.to_nat p) (recvee_bytes d) (g_txbuf (tx g)) ->
  filled m (p + 20) (set_g_txbuf b (set_g_sees (sees_pop (g_sees g)) g)) g' -> filled (S m) p g g'.
Proof.
  intros Hc (H1 & H2 & H3) Hp Hfit Hpop -> [Fb Fs Fo (x & Fr1 & Fr2)].
  assert (Hl : length (recvee_bytes d) = 20%nat) by (unfold recvee_bytes; rewrite !length_app, H1, H2, H3; done).
  cbn [g_sees set_g_txbuf set_tx set_g_sees] in Fb, Fs. rewrite Hpop in Fb, Fs.
  change (g_txbuf (tx (set_g_txbuf ?b ?s))) with b in Fb.
  split; rewrite ?Hc; [|exact Fs|exact Fo|by exists x].
  rewrite Fb, inserts_app by lia. rewrite Hl. unfold entries_bytes. cbn [take]. rewrite fmap_cons. cbn [concat length].
  replace (Z.to_nat (p + 20)) with (Z.to_nat p + 20)%nat by lia. set (n := length (take m rest)).
  set (b0 := g_txbuf (tx g)) in *. set (tl := drop (Z.to_nat p + 20) b0).
  assert (Hpre : length (take (Z.to_nat p) b0 ++ recvee_bytes d) = (Z.to_nat p + 20)%nat)
    by (rewrite length_app, length_take, Hl; lia).
  rewrite (app_assoc (take _ _) (recvee_bytes d) tl), take_app_le, take_ge, drop_app_ge, Hpre by lia.
  unfold tl. rewrite drop_drop, <- !app_assoc. do 4 f_equal. lia.
Qed.

Lemma wp_queryresp_fill_eq fuel p bytes_left n (Q : Z * Z -> G -> Prop) g :
  io_ok g -> sees_ok (g_sees g) -> 0 <= p -> 0 <= bytes_left -> p + bytes_left <= TOPO_MAX_FRAMESZ ->
  bytes_left / 20 < Z.of_nat fuel -> 0 <= n -> n + bytes_left / 20 < 65536 ->
  (let m := Z.to_nat (bytes_left / 20) in let k := Z.of_nat (length (take m (sees_contents (g_sees g)))) in
   forall g', filled m p g g' -> Q (p + 20 * k, n + k) g') ->
  wp (queryresp_fill fuel p bytes_left n) Q g.
Proof.
  revert p bytes_left n g. induction fuel as [|fuel IH]; intros p bl n g Hio Hok Hp Hb Hfit Hfuel Hn Hmax HQ.
  { assert (0 <= bl / 20) by (apply Z.div_pos; lia). lia. }
  pose proof (xo_size _ (io_tx _ Hio)) as Hs. unfold TXBUFSZ, TOPO_MAX_FRAMESZ in *.
  cbn [queryresp_fill]. unfold sizeof_recvee_desc. cbv zeta in HQ. apply wp_if; intros H1; bool_to_prop.
  2:{ rewrite Z.div_small in HQ by lia. wp_step. specialize (HQ g (filled_0 _ _ _ Hio Hok (or_introl eq_refl))).
      simpl in HQ. by rewrite !Z.add_0_r in HQ. }
  apply wp_bind, wp_seeslist_dequeue; [done|intros He; wp_step|].
  { assert (Hc : sees_contents (g_sees g) = []).
    { rewrite sees_empty_len in He by done. bool_to_prop.
      pose proof (sees_contents_length _ Hok). destruct (sees_contents (g_sees g)); [done|simpl in *; lia]. }
    specialize (HQ g (filled_0 _ _ _ Hio Hok (or_intror Hc))). rewrite Hc, take_nil in HQ. simpl in HQ.
    by rewrite !Z.add_0_r in HQ. }
  intros d He Hd Hdok. pose proof (sees_pop_contents _ Hok He) as Hc. rewrite <- Hd in Hc.
  assert (Hl : length (recvee_bytes d) = 20%nat)
    by (destruct Hdok as (L1 & L2 & L3); unfold recvee_bytes; by rewrite !length_app, L1, L2, L3).
  set (g1 := set_g_sees (sees_pop (g_sees g)) g).
  apply wp_bind, wp_tx_store_eq; [exact Hs|done|unfold TXBUFSZ; lia|].
  change (g_txbuf (tx g1)) with (g_txbuf (tx g)).
  replace bl with (1 * 20 + (bl - 20)) in HQ, Hfuel, Hmax by lia.
  rewrite Z.div_add_l in HQ, Hfuel, Hmax by lia.
  assert (0 <= (bl - 20) / 20) by (apply Z.div_pos; lia).
  rewrite u16_small by lia. apply IH; [|by apply sees_pop_ok|lia..|].
  - destruct Hio as [Ht Hv Ho]. split; [|done|done]. apply tx_ok_store; [done|]. by rewrite length_inserts.
  - cbn [g_sees set_g_txbuf set_tx set_g_sees g1]. intros g' Hfi.
    rewrite Z2Nat.inj_add in HQ by lia. change (Z.to_nat 1) with 1%nat in HQ. rewrite Hc in HQ. simpl in HQ.
    specialize (HQ g' (filled_S d _ _ _ _ _ _ Hc Hdok Hp ltac:(lia) eq_refl eq_refl Hfi)).
    set (k := length (take _ _)) in *. change (length (take _ _)) with k.
    by replace (p + 20 + 20 * Z.of_nat k, n + 1 + Z.of_nat k)
      with (p + 20 * Z.of_nat (S k), n + Z.of_nat (S k)) by (f_equal; lia).
Qed.

Lemma more_bit n : (n <= QUERYRESP_MAX)%nat -> Z.lor (Z.of_nat n) 0x8000 = Z.of_nat n + 0x8000.
Proof.
  unfold QUERYRESP_MAX. intros H.
  assert (Hall : forallb (fun n => Z.lor (Z.of_nat n) 0x8000 =? Z.of_nat n + 0x8000) (seq 0 75) = true) by done.
  rewrite forallb_forall in Hall. apply Z.eqb_eq, Hall, in_seq. lia.
Qed.

(** Nothing but the transmit buffer and the sees-list is used up. *)
Lemma wp_packetio_tx_queryresp_eq i s (Q : unit -> G -> Prop) g :
  base_ok g -> g_topo_session (co g) = Some i -> g_sessions (co g) !! i = Some s ->
  (forall g', os_out (os g') = os_out (os g)
       ++ [Frame (queryresp_frame (g_hwaddr (co g)) (rsvd_byte (g_txbuf (tx g))) (ssn_mapper_real s)
                    (g_sequencenum (rx g)) (sees_contents (g_sees g)))] ->
     sees_contents (g_sees g') = drop QUERYRESP_MAX (sees_contents (g_sees g)) -> sees_ok (g_sees g') ->
     (exists x o, g' = txs x o (g_tlvs g) (set_g_sees (g_sees g') g)) -> Q tt g') ->
  wp packetio_tx_queryresp Q g.
Proof.
  intros [Hio Hrx Hw Hok Ht He] Hi Hsi HQ.
  pose proof (Forall_lookup_1 _ _ _ _ (cw_sessions _ Hw) Hsi) as [Hm _]. pose proof (cw_hw _ Hw) as Hhw.
  pose proof (xo_size _ (io_tx _ Hio)) as Hs. unfold packetio_tx_queryresp, topo_mapper_real.
  apply wp_bind, wp_gets, wp_bind, wp_bind, wp_gets. rewrite Hi. apply wp_bind. eapply wp_ssn_get; [done|].
  wp_step. apply wp_bind, wp_gets, wp_bind, wp_fmt_base_eq; [done..|].
  set (rsvd := rsvd_byte (g_txbuf (tx g))). set (sq := g_sequencenum (rx g)).
  set (h := header _ _ _ _ _ _ _ _).
  assert (Hh : length h = 32%nat)
    by (apply header_length; try done; apply rsvd_byte_length; unfold TXBUFSZ in Hs; lia).
  set (b1 := h ++ drop 32 (g_txbuf (tx g))).
  assert (Hb1 : length b1 = length (g_txbuf (tx g))) by (unfold b1, TXBUFSZ in *; rewrite length_app, length_drop; lia).
  change (sizeof_ether_header + sizeof_base_header + sizeof_queryresp_header) with 34.
  change (TOPO_MAX_FRAMESZ - 34) with 1480. unfold sizeof_recvee_desc. change (1480 / 20) with 74.
  apply wp_bind, wp_queryresp_fill_eq; [|done|done|done|done|done|done|done|].
  { destruct Hio. split; [|done|done]. by apply tx_ok_store. }
  change (1480 / 20) with 74. change (Z.to_nat 74) with QUERYRESP_MAX.
  cbn [g_sees set_g_txbuf set_tx]. set (l := sees_contents (g_sees g)).
  set (k := Z.of_nat (length (take QUERYRESP_MAX l))). intros g1 [Fb Fs Fo (x & Fr1 & Fr2)].
  cbn [g_sees set_g_txbuf set_tx g_txbuf tx] in Fb, Fs. fold l in Fb, Fs.
  assert (Hk : k = Z.of_nat (length (take QUERYRESP_MAX l))) by done.
  assert (Hk74 : (length (take QUERYRESP_MAX l) <= QUERYRESP_MAX)%nat) by (rewrite length_take; lia).
  apply wp_bind, wp_gets, wp_bind.
  set (nd := if sees_empty _ then _ else _).
  assert (Hnd : nd = k + (if Nat.leb (length l) QUERYRESP_MAX then 0 else 0x8000)).
  { unfold nd. rewrite sees_empty_len by done. rewrite <- (sees_contents_length _ Fo), Fs, length_drop.
    destruct (Nat.leb_spec (length l) QUERYRESP_MAX) as [Hle|Hgt].
    - rewrite (proj2 (Z.eqb_eq _ 0)) by lia. lia.
    - rewrite (proj2 (Z.eqb_neq _ 0)) by lia. rewrite Hk. by apply more_bit. }
  clearbody nd. subst nd. clearbody k. subst k.
  set (es := entries_bytes (take QUERYRESP_MAX l)) in *.
  assert (Hes : length es = (20 * length (take QUERYRESP_MAX l))%nat)
    by (apply entries_length, Forall_take, contents_ok, Hok).
  set (sl1 := g_sees g1) in *. clearbody sl1. subst g1. change (g_txbuf (tx _)) with (g_txbuf x) in Fb.
  set (nd := be16 _). set (n := length (take QUERYRESP_MAX l)) in *. set (tl := drop _ b1) in Fb.
  assert (H34 : length (take (Z.to_nat 34) b1) = 34%nat) by (rewrite length_take; unfold TXBUFSZ in Hs; lia).
  unfold QUERYRESP_MAX in Hk74.
  apply wp_tx_store_eq; [apply (xo_size _ (io_tx _ Fr1))|done|done|].
  change (Z.to_nat qr_numdescs) with 32%nat. change (g_txbuf (tx _)) with (g_txbuf x).
  assert (Hx : (34 <= length (g_txbuf x))%nat)
    by (pose proof (xo_size _ (io_tx _ Fr1)) as Hx; unfold TXBUFSZ in Hx; simpl in Hx; lia).
  rewrite inserts_app by done. change (32 + length nd)%nat with 34%nat.
  assert (T32 : take 32 (g_txbuf x) = h).
  { rewrite Fb, take_app_le by lia. rewrite take_take. change (32 `min` Z.to_nat 34)%nat with 32%nat.
    unfold b1. rewrite <- Hh. apply take_app_length. }
  assert (D34 : drop 34 (g_txbuf x) = es ++ tl) by (rewrite Fb, drop_app_ge, H34 by lia; done).
  rewrite T32, D34. set (b2 := h ++ nd ++ es ++ tl).
  assert (Hb2 : length b2 = length (g_txbuf x)).
  { unfold b2. rewrite <- D34, !length_app, length_drop, Hh. change (length nd) with 2%nat. lia. }
  apply wp_tx_sendpacket_eq; [|unfold TOPO_MAX_FRAMESZ; lia|].
  { destruct Fr1. split; [|done|done]. by apply tx_ok_store. }
  intros x3 o3 Ho3 _ _ _ _. apply HQ; [|exact Fs|exact Fo|by exists x3, o3].
  change (os_out (os (txs x3 o3 _ _))) with (os_out o3). rewrite Ho3.
  change (g_txbuf (tx (set_g_txbuf b2 _))) with b2. change (os_out (os _)) with (os_out (os g)). do 3 f_equal.
  unfold b2, queryresp_frame. fold l rsvd h es. change (length (take QUERYRESP_MAX l)) with n. fold nd.
  rewrite !app_assoc. rewrite take_app_le, take_ge; [done|..];
    rewrite !length_app, Hh, Hes; change (length nd) with 2%nat; lia.
Qed.
End query.

(** ** The answers to Charge and to an Emit without credit *)

(** Bytes written right after those already in the buffer. *)
Lemma inserts_after {A} n (xs pre tl : list A) : length pre = n -> (length xs <= length tl)%nat ->
  list_inserts n xs (pre ++ tl) = pre ++ xs ++ drop (length xs) tl.
Proof.
  intros <- H. rewrite inserts_app by (rewrite length_app; lia). rewrite take_app_length.
  by rewrite drop_app_add.
Qed.

Definition flat_frame (hw rsvd mapper : list Z) (seq : Z) (c : charge) : list Z :=
  header mapper hw ToS_TopologyDiscovery rsvd Opcode_Flat mapper hw seq
  ++ be32 (g_ctc_bytes c) ++ be16 (u16 (g_ctc_packets c)).

Section credit.
Context `{E : Env}.

Lemma wp_packetio_tx_flat_eq i s (Q : unit -> G -> Prop) g :
  base_ok g -> g_topo_session (co g) = Some i -> g_sessions (co g) !! i = Some s ->
  (forall x o ts, io_ok (txs x o ts g) -> g_tx_len x = 38 ->
     sent [flat_frame (g_hwaddr (co g)) (rsvd_byte (g_txbuf (tx g))) (ssn_mapper_real s)
             (g_sequencenum (rx g)) (ch g)] g (txs x o ts g) -> Q tt (txs x o ts g)) ->
  wp packetio_tx_flat Q g.
Proof.
  intros [Hio Hrx Hw Hok Ht He] Hi Hsi HQ.
  pose proof (Forall_lookup_1 _ _ _ _ (cw_sessions _ Hw) Hsi) as [Hm _]. pose proof (cw_hw _ Hw) as Hhw.
  pose proof (xo_size _ (io_tx _ Hio)) as Hs. unfold packetio_tx_flat, topo_mapper_real.
  apply wp_bind, wp_gets, wp_bind, wp_bind, wp_gets. rewrite Hi. apply wp_bind. eapply wp_ssn_get; [done|].
  wp_step. apply wp_bind, wp_gets, wp_bind, wp_fmt_base_eq; [done..|].
  set (rsvd := rsvd_byte (g_txbuf (tx g))). set (h := header _ _ _ _ _ _ _ _).
  assert (Hr : length rsvd = 1%nat) by (apply rsvd_byte_length; unfold TXBUFSZ in Hs; lia).
  assert (Hh : length h = 32%nat) by (by apply header_length).
  unfold TXBUFSZ in Hs. set (tl := drop 32 (g_txbuf (tx g))).
  assert (Htl : length tl = 2016%nat) by (unfold tl; rewrite length_drop; lia).
  do 2 apply wp_bind, wp_gets. change (ch (set_g_txbuf _ g)) with (ch g).
  apply wp_bind, wp_tx_store_eq; [cbn [g_txbuf tx set_g_txbuf set_tx]; rewrite length_app, Hh, Htl; done|done|done|].
  change (g_txbuf (tx (set_g_txbuf ?b _))) with b. change (Z.to_nat fh_ctc_bytes) with 32%nat.
  rewrite (inserts_after 32) by (rewrite ?Htl; done || (simpl; lia)). change (length (be32 _)) with 4%nat.
  apply wp_bind, wp_tx_store_eq; [cbn [g_txbuf tx set_g_txbuf set_tx]; rewrite !length_app, length_drop, Hh, Htl; done|done|done|].
  change (g_txbuf (tx (set_g_txbuf ?b _))) with b. change (Z.to_nat fh_ctc_packets) with 36%nat.
  rewrite app_assoc, (inserts_after 36) by (rewrite ?length_app, ?length_drop, ?Hh, ?Htl; done || (simpl; lia)).
  change (length (be16 _)) with 2%nat. rewrite drop_drop, <- app_assoc. change (4 + 2)%nat with 6%nat.
  match goal with |- wp _ _ ?st => set (b := g_txbuf (tx st)); change st with (set_g_txbuf b g) end.
  change (sizeof_ether_header + sizeof_base_header + 4 + 2) with 38.
  apply wp_tx_sendpacket_eq; [|done|].
  { destruct Hio. split; [|done|done]. apply tx_ok_store; [done|].
    change b with (h ++ be32 (g_ctc_bytes (ch g)) ++ be16 (u16 (g_ctc_packets (ch g))) ++ drop 6 tl).
    rewrite !length_app, length_drop, Hh, Htl. simpl. lia. }
  intros x o Ho Hx Hlen _ Hio'.
  change (txs x o (g_tlvs (set_g_txbuf b g)) (set_g_txbuf b g)) with (txs x o (g_tlvs g) g) in *.
  apply HQ; [done|done|]. split.
  - change (os_out (os (txs x o (g_tlvs g) g))) with (os_out o). rewrite Ho.
    change (os_out (os (set_g_txbuf b g))) with (os_out (os g)). do 2 f_equal. simpl. do 2 f_equal.
    unfold flat_frame, b. fold rsvd h. cbn [g_txbuf tx set_g_txbuf set_tx]. rewrite !app_assoc.
    rewrite take_app_le, take_ge; [done|..]; rewrite !length_app, Hh; simpl; lia.
  - change (tx (txs x o (g_tlvs g) g)) with x. rewrite Hx. by apply rsvd_byte_header.
Qed.
End credit.
