(* ===== verification/Hello.v ===== *)
(** * Hello: the properties that a Hello announces

    A reference encoding of the property list of a Hello (type, length and
    value, closed by a zero type), a parser for it, the list of properties that a
    table of TLVs gives, and the proof that tlv.c and packetio_tx_hello send it. *)

From S2P Require Import Prelude LltdTypes Event SeesList Tlv PacketTx Mapping Frames.

(** ** Property lists *)

Definition property : Type := Z * list Z.

Definition enc (p : property) : list Z := p.1 :: Z.of_nat (length p.2) :: p.2.
Definition encs (ps : list property) : list Z := concat (enc <$> ps).

(** The reader of a property list. *)
Fixpoint parse (fuel : nat) (l : list Z) : option (list property) :=
  match fuel, l with
  | S fuel', t :: rest =>
      if t =? 0 then Some []
      else
        match rest with
        | n :: r =>
            if (0 <=? n) && (n <=? Z.of_nat (length r)) then
              cons (t, take (Z.to_nat n) r) <$> parse fuel' (drop (Z.to_nat n) r)
            else None
        | [] => None
        end
  | _, _ => None
  end.

Lemma encs_app ps qs : encs (ps ++ qs) = encs ps ++ encs qs.
Proof. unfold encs. by rewrite fmap_app, concat_app. Qed.

Lemma encs_one p : encs [p] = enc p.
Proof. unfold encs. simpl. by rewrite app_nil_r. Qed.

Lemma parse_encs ps fuel tl :
  Forall (fun p => p.1 <> 0) ps -> (length ps < fuel)%nat -> parse fuel (encs ps ++ 0 :: tl) = Some ps.
Proof.
  intros H. revert fuel. induction H as [|[t v] ps Ht _ IH]; intros fuel Hf; destruct fuel as [|fuel];
    simpl in Hf; try lia; [done|].
  change (encs ((t, v) :: ps)) with (enc (t, v) ++ encs ps). unfold enc. cbn [fst snd app parse].
  simpl in Ht. rewrite (proj2 (Z.eqb_neq t 0)) by done.
  rewrite <- app_assoc, (proj2 (Z.leb_le 0 _)), (proj2 (Z.leb_le _ _)) by (rewrite ?length_app; lia).
  cbn [andb]. rewrite Nat2Z.id, take_app_length, drop_app_length. by rewrite IH by lia.
Qed.

(** ** Storage that a Hello can announce *)

(** The type of the property is a byte other than zero; a string fits into the
    byte of its length, and an icon file is no longer than its recorded size. *)
Definition announceable (d : tlv_desc) (s : tlv_data) : Prop :=
  match tlv_write d, s with
  | C_ucs2char, D_mem data => tlv_inHello d = true -> Z.of_nat (length data) < 256
  | C_icon_file, D_icon sz (Some contents) => Z.of_nat (length contents) <= sz
  | _, _ => True
  end.

Record hello_desc `{E : Env} (d : tlv_desc) : Prop := HelloDesc {
  hd_number : 0 < tlv_number d < 256;
  hd_storage : announceable d (tlv_storage d);
  hd_get : forall n s, env_tlv_get n (tlv_number d) = Some s -> announceable d s
}.

(** ** The properties that a table gives

    A specification of the list without buffer and state: [free] bytes are left, and
    [n] numbers the next call to the system. *)

(** A value in memory: it is told when it has room, and as an empty property when it is
    one that a Hello only names. *)
Definition small_property (number : Z) (inHello : bool) (free : Z) (v : list Z) : list property :=
  if free <? 2 + Z.of_nat (length v) then [] else [(number, if inHello then v else [])].

(** The value of a C type in memory. *)
Definition stored_value (c : tlv_ctype) (data : list Z) : list Z :=
  match c with
  | C_etheraddr => take 6 data
  | C_uint8 => take 1 data
  | C_uint16 => take 2 data
  | C_uint32 | C_ipv4addr => take 4 data
  | C_uint64 => take 8 data
  | C_ipv6addr => take 16 data
  | C_ucs2char => take (Z.to_nat (default 0 (ucs2_bytes data))) data
  | _ => []
  end.

Section announcement.
Context `{E : Env}.

(** What is told of the storage [s] of a TLV: a value in memory, the contents of an icon
    file that is small enough and can be read, and an empty property for the large ones. *)
Definition hello_told (d : tlv_desc) (s : tlv_data) (free : Z) (n : nat) : list property * nat :=
  match tlv_write d, s with
  | C_icon_file, D_icon sz (Some contents) =>
      if (255 <? sz) || (free <? 2 + sz) || negb (tlv_inHello d) then ([(tlv_number d, [])], n)
      else if negb (env_lseek n) then ([], S n)
      else if negb (env_read (S n)) then ([], S (S n))
      else ([(tlv_number d, contents)], S (S n))
  | C_lg_icon, D_icon _ (Some _) | C_assns, _ | C_comptbl, _ => ([(tlv_number d, [])], n)
  | C_icon_file, _ | C_lg_icon, _ => ([], n)
  | c, D_mem data => (small_property (tlv_number d) (tlv_inHello d) free (stored_value c data), n)
  | _, _ => ([], n)
  end.

(** A TLV: the storage that it has, or the one that the system supplies. *)
Definition hello_block (d : tlv_desc) (free : Z) (n : nat) : list property * nat :=
  match tlv_access d with
  | Access_invalid => ([], n)
  | Access_static => hello_told d (tlv_storage d) free n
  | Access_unset | Access_dynamic =>
      if tlv_get d then
        match env_tlv_get n (tlv_number d) with
        | Some s => hello_told d s free (S n)
        | None => ([], S n)
        end
      else ([], n)
  end.

(** The table, as long as a type and a length have room. *)
Fixpoint hello_list (ds : list tlv_desc) (free : Z) (n : nat) : list property :=
  match ds with
  | [] => []
  | d :: ds' =>
      if 1 <? free then
        let '(block, n') := hello_block d free n in
        block ++ hello_list ds' (free - Z.of_nat (length (encs block))) n'
      else []
  end.

(** One property at most, of the type of the TLV. *)
Definition at_most_one (number : Z) (ps : list property) : Prop := ps = [] \/ exists v, ps = [(number, v)].

Lemma hello_told_one d s free n : at_most_one (tlv_number d) (hello_told d s free n).1.
Proof.
  unfold at_most_one, hello_told, small_property.
  destruct (tlv_write d), s as [data|sz [contents|]|table cnt|t]; repeat case_match; cbn; eauto.
Qed.
Lemma hello_block_one d free n : at_most_one (tlv_number d) (hello_block d free n).1.
Proof. unfold hello_block. repeat case_match; try apply hello_told_one; by left. Qed.

Lemma hello_list_types ds : forall free n, (fst <$> hello_list ds free n) `sublist_of` (tlv_number <$> ds).
Proof.
  induction ds as [|d ds IH]; intros free n; [done|]. cbn [hello_list]. case_match; [|apply sublist_nil_l].
  pose proof (hello_block_one d free n) as Hone. destruct (hello_block d free n) as [block n']. cbn [fst] in Hone.
  rewrite fmap_app, fmap_cons. apply (sublist_app _ [tlv_number d]); [|apply IH].
  destruct Hone as [->|[v ->]]; [apply sublist_nil_l|done].
Qed.
End announcement.

Lemma hello_hdr_enc number v : 0 < number < 256 -> Z.of_nat (length v) < 256 ->
  hello_hdr number (Z.of_nat (length v)) ++ v = enc (number, v).
Proof. intros H1 H2. unfold hello_hdr, enc. simpl. by rewrite !u8_small by lia. Qed.

Lemma hello_hdr_empty number : 0 < number < 256 -> hello_hdr number 0 = encs [(number, [])].
Proof. intros H. unfold hello_hdr, encs, enc. simpl. by rewrite u8_small by lia. Qed.

Section writers.
Context `{E : Env}.

(** The bytes, the calls and the storage after a writer, which is as announceable as before. *)
Definition told_post (d : tlv_desc) (told : list property * nat) (r : list Z * tlv_data) (g : G) : Prop :=
  r.1 = encs told.1 /\ os_clk (os g) = told.2 /\ announceable d r.2.

Lemma wp_write_fixed_hello size number data bytes_free (isLarge : bool) (Q : list Z -> G -> Prop) g :
  0 < number < 256 -> (size <= length data)%nat -> (size < 256)%nat ->
  Q (encs (small_property number (negb isLarge) bytes_free (take size data))) g ->
  wp (write_fixed (Z.of_nat size) number data bytes_free true isLarge) Q g.
Proof.
  intros Hn Hd Hs HQ. unfold write_fixed. unfold small_property in HQ. rewrite length_take_le in HQ by done.
  apply wp_if; intros H1; rewrite H1 in HQ; [exact HQ|].
  apply wp_if; intros H2; cbn [andb] in H2; rewrite H2 in HQ; cbn [negb] in HQ; [wp_step; by rewrite hello_hdr_empty|].
  apply wp_bind. eapply wp_in_bounds; [apply load_ok; rewrite ?Nat2Z.id; lia|].
  rewrite Nat2Z.id. change (Z.to_nat 0) with 0%nat. rewrite drop_0. wp_step. rewrite encs_one in HQ.
  rewrite <- hello_hdr_enc in HQ by (rewrite ?length_take; lia). by rewrite length_take_le in HQ.
Qed.

Lemma wp_write_ucs2_hello number data bytes_free (isLarge : bool) (Q : list Z -> G -> Prop) g :
  0 < number < 256 -> is_Some (ucs2_bytes data) -> (isLarge = false -> Z.of_nat (length data) < 256) ->
  Q (encs (small_property number (negb isLarge) bytes_free (stored_value C_ucs2char data))) g ->
  wp (write_ucs2char_t number data bytes_free true isLarge) Q g.
Proof.
  intros Hn [n Hd] Hl HQ. pose proof (ucs2_bytes_bound _ _ Hd). unfold write_ucs2char_t.
  unfold small_property, stored_value in HQ. rewrite Hd in HQ. cbn [default from_option id] in HQ.
  rewrite length_take_le, Z2Nat.id in HQ by lia.
  apply wp_bind. eapply wp_in_bounds; [exact Hd|]. apply wp_if; intros H1; rewrite H1 in HQ; [exact HQ|].
  apply wp_if; intros H2; cbn [andb] in H2; rewrite H2 in HQ; cbn [negb] in HQ; [wp_step; by rewrite hello_hdr_empty|].
  specialize (Hl H2). apply wp_bind. eapply wp_in_bounds; [apply load_ok; rewrite ?Z2Nat.id; lia|].
  change (Z.to_nat 0) with 0%nat. rewrite drop_0. wp_step. rewrite encs_one in HQ.
  rewrite <- hello_hdr_enc in HQ by (rewrite ?length_take; lia). by rewrite length_take_le, Z2Nat.id in HQ by lia.
Qed.

Lemma wp_write_icon_hello d sz fd bytes_free (isLarge : bool) offset g :
  hello_desc d -> tlv_write d = C_icon_file -> tlv_storage d = D_icon sz fd -> isLarge = negb (tlv_inHello d) -> offset = 0 ->
  wp (write_icon_file_t (tlv_number d) sz fd bytes_free true isLarge offset)
    (told_post d (hello_told d (tlv_storage d) bytes_free (os_clk (os g)))) g.
Proof.
  intros [Hn Hst _] Hw Hs -> ->. rewrite Hs in *. unfold told_post, announceable, hello_told in *. rewrite Hw in *.
  unfold write_icon_file_t. destruct fd as [contents|]; [|wp_step; by split].
  apply wp_bind, wp_if; intros H1; rewrite H1; [wp_step; wp_step; split; [by apply hello_hdr_empty|done]|].
  unfold seek_read. apply wp_bind, wp_bind, wp_sys, wp_if; intros H2; rewrite H2; [by do 3 wp_step|].
  apply wp_bind, wp_sys, wp_if; intros H3; cbn [os_clk os set_os_clk set_os] in H3; rewrite H3; [by do 3 wp_step|].
  do 3 wp_step. bool_to_prop. cbn [Z.to_nat]. rewrite drop_0, take_ge by lia.
  split; [|done]. cbn [fst]. rewrite encs_one. apply hello_hdr_enc; [done|]. lia.
Qed.

Lemma wp_tlv_write_fn_hello d bytes_free (isLarge : bool) offset g :
  hello_desc d -> storage_ok (tlv_write d) (tlv_storage d) -> isLarge = negb (tlv_inHello d) -> offset = 0 ->
  wp (tlv_write_fn d bytes_free true isLarge offset) (told_post d (hello_told d (tlv_storage d) bytes_free (os_clk (os g)))) g.
Proof.
  intros Hh Hok Hlg Hoff. pose proof Hh as [Hn Hst _]. assert (Hin : tlv_inHello d = negb isLarge) by (rewrite Hlg; by destruct (tlv_inHello d)).
  unfold tlv_write_fn. unfold announceable in Hst.
  destruct (tlv_write d) eqn:Hw, (tlv_storage d) as [data|sz fd|table cnt|t] eqn:Hs; try done;
    try (unfold told_post, announceable, hello_told; rewrite Hw; rewrite ?Hin; apply wp_bind; first
      [ apply (wp_write_fixed_hello 6) | apply (wp_write_fixed_hello 1) | apply (wp_write_fixed_hello 2)
      | apply (wp_write_fixed_hello 4) | apply (wp_write_fixed_hello 8) | apply (wp_write_fixed_hello 16) ];
      [done|exact Hok|lia|]; by wp_step).
  - unfold told_post, announceable, hello_told. rewrite Hw, Hin. apply wp_bind, wp_write_ucs2_hello; [done|done| |wp_step].
    + intros ->. by apply Hst.
    + split; [done|]. split; [done|]. intros Hb. apply Hst. by rewrite Hin.
  - rewrite <- Hs. by apply wp_write_icon_hello.
  - unfold told_post, announceable, hello_told, write_lg_icon_t. rewrite Hw.
    destruct fd as [contents|]; [|by wp_step]. apply wp_bind. do 2 wp_step. split; [by apply hello_hdr_empty|done].
  - unfold told_post, announceable, hello_told, write_assns_t. rewrite Hw. wp_step. split; [by apply hello_hdr_empty|done].
  - unfold told_post, announceable, hello_told, write_comptbl_t. rewrite Hw. wp_step. split; [by apply hello_hdr_empty|done].
Qed.
End writers.

(** ** Writing the list *)

Section announce.
Context `{E : Env}.

(** The properties [ps] were written at [p], up to the call [n] to the system; nothing
    was sent. *)
Record announced (p : Z) (ps : list property) (n : nat) (g g' : G) : Prop := Announced {
  an_buf : g_txbuf (tx g') = take (Z.to_nat p) (g_txbuf (tx g)) ++ encs ps
             ++ drop (Z.to_nat p + length (encs ps)) (g_txbuf (tx g));
  an_clk : os_clk (os g') = n;
  an_table : Forall hello_desc (g_tlvs g');
  an_numbers : tlv_number <$> g_tlvs g' = tlv_number <$> g_tlvs g;
  an_out : os_out (os g') = os_out (os g);
  an_rest : exists x o ts, io_ok (txs x o ts g) /\ g' = txs x o ts g
}.

Lemma announced_nil p g g' :
  tx g' = tx g -> Forall hello_desc (g_tlvs g') -> tlv_number <$> g_tlvs g' = tlv_number <$> g_tlvs g ->
  os_out (os g') = os_out (os g) -> (exists x o ts, io_ok (txs x o ts g) /\ g' = txs x o ts g) ->
  announced p [] (os_clk (os g')) g g'.
Proof.
  intros H1 H2 H3 H4 H5. split; try done.
  rewrite H1. simpl. by rewrite Nat.add_0_r, take_drop.
Qed.

Lemma announced_app p ps qs n1 n2 g1 g2 g3 :
  0 <= p -> (Z.to_nat p + length (encs ps) <= length (g_txbuf (tx g1)))%nat ->
  announced p ps n1 g1 g2 -> announced (p + Z.of_nat (length (encs ps))) qs n2 g2 g3 ->
  announced p (ps ++ qs) n2 g1 g3.
Proof.
  intros Hp Hl [B1 N1 T1 M1 O1 (x1 & o1 & t1 & I1 & R1)] [B2 N2 T2 M2 O2 (x2 & o2 & t2 & I2 & R2)].
  split; [|done|done|congruence|congruence|].
  - rewrite B2, B1, encs_app, length_app. set (b := g_txbuf (tx g1)) in *.
    replace (Z.to_nat (p + Z.of_nat (length (encs ps)))) with (Z.to_nat p + length (encs ps))%nat by lia.
    assert (Hpre : length (take (Z.to_nat p) b ++ encs ps) = (Z.to_nat p + length (encs ps))%nat)
      by (rewrite length_app, length_take; lia).
    set (tl := drop (Z.to_nat p + length (encs ps)) b).
    assert (T : take (Z.to_nat p + length (encs ps)) (take (Z.to_nat p) b ++ encs ps ++ tl) = take (Z.to_nat p) b ++ encs ps)
      by (rewrite app_assoc, <- Hpre; apply take_app_length).
    assert (D : forall n, drop (Z.to_nat p + length (encs ps) + n) (take (Z.to_nat p) b ++ encs ps ++ tl) = drop n tl)
      by (intros n; rewrite app_assoc, <- Hpre; apply drop_app_add).
    rewrite T, D.
    unfold tl. rewrite drop_drop, <- !app_assoc. do 4 f_equal. lia.
  - exists x2, o2, t2. rewrite R1 in I2. by rewrite R2, R1.
Qed.

Lemma hello_desc_storage d access storage :
  hello_desc d -> announceable d storage ->
  hello_desc (TlvDesc (tlv_number d) access (tlv_inHello d) (tlv_get d) (tlv_write d) storage).
Proof. intros [H1 H2 H3] H4. by split. Qed.

Lemma put_table ts k d access storage :
  Forall hello_desc ts -> ts !! k = Some d -> announceable d storage ->
  let ts' := alter (fun d => TlvDesc (tlv_number d) access (tlv_inHello d) (tlv_get d) (tlv_write d) storage) k ts in
  Forall hello_desc ts' /\ tlv_number <$> ts' = tlv_number <$> ts
  /\ ts' !! k = Some (TlvDesc (tlv_number d) access (tlv_inHello d) (tlv_get d) (tlv_write d) storage).
Proof.
  intros H Hk Ha ts'. split; [|split].
  - apply Forall_alter; [done|]. intros d' Hd' Hh. rewrite Hk in Hd'. injection Hd' as <-.
    by apply hello_desc_storage.
  - apply list_eq. intros j. unfold ts'. rewrite !list_lookup_fmap.
    destruct (decide (k = j)) as [<-|Hne]; [rewrite list_lookup_alter, decide_True by done; by destruct (ts !! k)|].
    by rewrite list_lookup_alter_ne.
  - unfold ts'. rewrite list_lookup_alter, decide_True by done. by rewrite Hk.
Qed.

(** The entry [k] of the table is the only one that changed. *)
Definition others_kept (k : nat) (g g' : G) : Prop := forall j, j <> k -> g_tlvs g' !! j = g_tlvs g !! j.
Lemma others_kept_drop k g g' : others_kept k g g' -> drop (S k) (g_tlvs g') = drop (S k) (g_tlvs g).
Proof. intros H. apply list_eq. intros i. rewrite !lookup_drop. apply H. lia. Qed.

Lemma wp_tlv_emit_hello k access storage d buf bytes_free off (Q : Z -> G -> Prop) g :
  io_ok g -> Forall hello_desc (g_tlvs g) -> g_tlvs g !! k = Some d -> storage_ok (tlv_write d) storage ->
  announceable d storage -> 2 <= bytes_free -> 0 <= buf -> buf + bytes_free <= 2048 -> off = 0 ->
  (let '(ps, n) := hello_told d storage bytes_free (os_clk (os g)) in
   forall g', Z.of_nat (length (encs ps)) <= bytes_free -> announced buf ps n g g' -> others_kept k g g' ->
     Q (Z.of_nat (length (encs ps))) g') ->
  wp (tlv_emit k access storage buf bytes_free true off) Q g.
Proof.
  intros Hio Ht Hd Hs Ha Hb Hbuf Hfit Hoff HQ. unfold tlv_emit, tlv_put, tlv_at. apply wp_bind. wp_step.
  destruct (put_table _ _ _ access _ Ht Hd Ha) as (Ht1 & Hn1 & Hd1).
  set (ts1 := alter _ k (g_tlvs g)) in *.
  apply wp_bind, wp_bind, wp_gets. eapply wp_in_bounds; [exact Hd1|].
  assert (Hh1 : hello_desc (TlvDesc (tlv_number d) access (tlv_inHello d) (tlv_get d) (tlv_write d) storage))
    by (by eapply Forall_lookup_1).
  apply wp_bind. eapply wp_mono; [apply wp_and; [apply (wp_tlv_write_fn_hello _ bytes_free _ off); done|
    apply wp_tlv_write_fn; [done|lia|done]]|].
  intros [bytes st] g1 ((Hone & Hclk & Han) & Hlen & Hst & clk & ->). cbn [fst snd tlv_write tlv_number tlv_storage] in *.
  change (os_clk (os (set_g_tlvs ts1 g))) with (os_clk (os g)) in *. change (hello_told (TlvDesc _ _ _ _ _ _)) with (hello_told d) in *.
  destruct (hello_told d storage bytes_free (os_clk (os g))) as [ps n]. cbn [fst snd] in Hone, Hclk. subst bytes.
  apply wp_bind. wp_step. cbn [g_tlvs set_os_clk set_os set_g_tlvs].
  destruct (put_table _ _ _ access _ Ht1 Hd1 Han) as (Ht2 & Hn2 & Hd2). cbn [tlv_number] in Hd2.
  set (ts2 := alter _ k ts1) in *.
  assert (Hio2 : forall x o, tx_ok x -> os_out o = os_out (os g) -> io_ok (txs x o ts2 g)).
  { destruct Hio as [Hx Hv Ho]. intros x o Hx' Ho'. split; [done| |by simpl; rewrite Ho'].
    simpl. apply tlvs_ok_put; [apply tlvs_ok_put; [done|]|].
    - intros d' Hd'. rewrite Hd in Hd'. by injection Hd' as <-.
    - intros d' Hd'. change (alter _ k (g_tlvs g) !! k) with (ts1 !! k) in Hd'. rewrite Hd1 in Hd'. by injection Hd' as <-. }
  pose proof (xo_size _ (io_tx _ Hio)) as Hsz. unfold TXBUFSZ in Hsz.
  apply wp_bind, wp_tx_store_eq; [exact Hsz|done|unfold TXBUFSZ; lia|]. wp_step.
  set (g2 := set_g_txbuf _ _).
  apply HQ; [done| |].
  - split; [|exact Hclk|done| |done|].
    + simpl. by apply inserts_app; lia.
    + simpl. congruence.
    + exists (tx g2), (os g2), ts2. split; [|by destruct g]. apply Hio2; [|done].
      apply tx_ok_store; [apply Hio|]. by rewrite length_inserts.
  - intros j Hj. change (g_tlvs g2) with ts2. unfold ts2, ts1. by rewrite !list_lookup_alter_ne.
Qed.

(** Only the clock of the system calls moved, and the table of one TLV. *)
Lemma announced_put p k access storage d n g :
  io_ok g -> Forall hello_desc (g_tlvs g) -> g_tlvs g !! k = Some d -> storage_ok (tlv_write d) storage ->
  announceable d storage ->
  let g' := set_g_tlvs (alter (fun d => TlvDesc (tlv_number d) access (tlv_inHello d) (tlv_get d)
    (tlv_write d) storage) k (g_tlvs g)) (set_os_clk n g) in
  announced p [] n g g' /\ others_kept k g g'.
Proof.
  intros Hio Ht Hd Hs Ha g'. destruct (put_table _ _ _ access _ Ht Hd Ha) as (H1 & H2 & _).
  split; [|by intros j Hj; apply list_lookup_alter_ne]. apply (announced_nil p g g'); [done|exact H1|exact H2|done|].
  exists (tx g), (OsSt n (os_out (os g))), (g_tlvs g').
  split; [|done]. destruct Hio as [Hx Hv Ho]. split; [done| |done].
  apply tlvs_ok_put; [done|]. intros d' Hd'. rewrite Hd in Hd'. by injection Hd' as <-.
Qed.

Lemma announced_clk p ps m n g g' : announced p ps n (set_os_clk m g) g' -> announced p ps n g g'.
Proof. intros []. by split. Qed.

Lemma announced_same p g : io_ok g -> Forall hello_desc (g_tlvs g) -> announced p [] (os_clk (os g)) g g.
Proof. intros Hio H. apply announced_nil; try done. exists (tx g), (os g), (g_tlvs g). by rewrite txs_id. Qed.

Lemma wp_tlv_write_tlv_hello k d buf bytes_free (Q : Z -> G -> Prop) g :
  io_ok g -> Forall hello_desc (g_tlvs g) -> g_tlvs g !! k = Some d ->
  2 <= bytes_free -> 0 <= buf -> buf + bytes_free <= 2048 ->
  (let '(ps, n) := hello_block d bytes_free (os_clk (os g)) in
   forall g', Z.of_nat (length (encs ps)) <= bytes_free -> announced buf ps n g g' -> others_kept k g g' ->
     Q (Z.of_nat (length (encs ps))) g') ->
  wp (tlv_write_tlv k buf bytes_free true 0) Q g.
Proof.
  intros Hio Ht Hd Hb Hbuf Hfit HQ.
  pose proof (Forall_lookup_1 _ _ _ _ (io_tlvs _ Hio) Hd) as [Hs Hget].
  pose proof (Forall_lookup_1 _ _ _ _ Ht Hd) as [_ Hst Hgs].
  assert (Hsame : others_kept k g g) by done.
  assert (Hemit : forall access s n, storage_ok (tlv_write d) s -> announceable d s ->
    (let '(ps, n') := hello_told d s bytes_free n in
     forall g', Z.of_nat (length (encs ps)) <= bytes_free -> announced buf ps n' g g' -> others_kept k g g' -> Q (Z.of_nat (length (encs ps))) g') ->
    wp (tlv_emit k access s buf bytes_free true 0) Q (set_os_clk n g)).
  { intros access s n Hs' Ha HQ'. apply (wp_tlv_emit_hello _ _ _ d); [by eapply io_ok_ext; [..|exact Hio]|done..|].
    change (os_clk (os (set_os_clk n g))) with n. destruct (hello_told d s bytes_free n) as [ps n'].
    intros g' Hl Han Hk. apply HQ'; [done| |done]. by eapply announced_clk. }
  assert (Hfill : forall access access', negb (tlv_get d) = false ->
    (let '(ps, n') := match env_tlv_get (os_clk (os g)) (tlv_number d) with
                      | Some s => hello_told d s bytes_free (S (os_clk (os g))) | None => ([], S (os_clk (os g))) end in
     forall g', Z.of_nat (length (encs ps)) <= bytes_free -> announced buf ps n' g g' -> others_kept k g g' -> Q (Z.of_nat (length (encs ps))) g') ->
    wp (got ← sys (fun n => env_tlv_get n (tlv_number d));
        match got with
        | Some storage => tlv_emit k access storage buf bytes_free true 0
        | None => tlv_put k access' (tlv_storage d);; mret 0
        end) Q g).
  { intros access access' _ HQ'. apply wp_bind, wp_sys.
    destruct (env_tlv_get (os_clk (os g)) (tlv_number d)) as [s|] eqn:He; [apply Hemit; eauto|].
    unfold tlv_put. apply wp_bind. do 2 wp_step.
    destruct (announced_put buf k access' (tlv_storage d) d (S (os_clk (os g))) g) as [H1 H2]; [done..|]. by apply (HQ' _ ltac:(simpl; lia) H1 H2). }
  unfold hello_block in HQ.
  unfold tlv_write_tlv, tlv_at. apply wp_bind, wp_bind, wp_gets. eapply wp_in_bounds; [exact Hd|].
  destruct (tlv_access d).
  - wp_step. apply (HQ g); [simpl; lia|by apply announced_same|done].
  - apply wp_if; intros Hg; [|by apply Hfill; [|destruct (tlv_get d)]]. apply negb_true_iff in Hg. rewrite Hg in HQ.
    wp_step. apply (HQ g); [simpl; lia|by apply announced_same|done].
  - rewrite <- (set_os_clk_id g). by apply Hemit.
  - apply wp_if; intros Hg; [|by apply Hfill; [|destruct (tlv_get d)]]. apply negb_true_iff in Hg. rewrite Hg in HQ.
    wp_step. apply (HQ g); [simpl; lia|by apply announced_same|done].
Qed.

Lemma wp_tlv_write_loop_hello n k buf bytes_free total (Q : Z -> G -> Prop) g :
  io_ok g -> Forall hello_desc (g_tlvs g) -> (k + n)%nat = length (g_tlvs g) ->
  0 <= bytes_free -> 0 <= buf -> buf + bytes_free <= 2048 ->
  (let ps := hello_list (drop k (g_tlvs g)) bytes_free (os_clk (os g)) in
   forall n' g', Z.of_nat (length (encs ps)) <= bytes_free -> announced buf ps n' g g' -> Q (total + Z.of_nat (length (encs ps))) g') ->
  wp (tlv_write_loop n k buf bytes_free total) Q g.
Proof.
  revert k buf bytes_free total g. induction n as [|n IH]; intros k buf bf total g Hio Ht Hk Hb Hbuf Hfit HQ; cbv zeta in HQ.
  { rewrite drop_ge in HQ by lia. apply wp_ret. rewrite <- (Z.add_0_r total). eapply (HQ _ g); [done|]. by apply announced_same. }
  destruct (lookup_lt_is_Some_2 (g_tlvs g) k) as [d Hd]; [lia|]. rewrite (drop_S _ d k) in HQ by done. cbn [hello_list] in HQ.
  cbn [tlv_write_loop]. apply wp_if; intros H1; rewrite H1 in HQ; bool_to_prop.
  2:{ wp_step. rewrite <- (Z.add_0_r total). eapply (HQ _ g); [done|]. by apply announced_same. }
  apply wp_bind, (wp_tlv_write_tlv_hello _ d); [done|done|done|lia..|].
  destruct (hello_block d bf (os_clk (os g))) as [ps n1]. intros g1 Hl An Hoth. pose proof An as [Hbf Hclk Htb Hns Hout (x & o & ts & Hio1 & Hg1)].
  assert (Hlen : length (g_tlvs g1) = length (g_tlvs g)) by (rewrite <- (length_fmap tlv_number (g_tlvs g)), <- Hns; by rewrite length_fmap).
  apply IH; [by rewrite Hg1|done|lia|lia|lia|lia|]. rewrite (others_kept_drop _ _ _ Hoth), Hclk. cbv zeta.
  set (qs := hello_list _ _ _) in *. intros n2 g2 Hl2 An2. rewrite <- Z.add_assoc, <- Nat2Z.inj_add, <- length_app, <- encs_app.
  apply (HQ n2); [rewrite encs_app, length_app; lia|].
  pose proof (xo_size _ (io_tx _ Hio)) as Hsz. unfold TXBUFSZ in Hsz. eapply announced_app; [done|lia|exact An|exact An2].
Qed.
End announce.

(** ** The Hello frame *)

(** The current and the apparent mapper that a Hello reports. *)
Definition hello_mappers (r : core) : list Z * list Z :=
  match g_topo_session r with
  | Some i =>
      match g_sessions r !! i with
      | Some s => if ssn_is_valid s then (ssn_mapper_real s, ssn_mapper_current s)
                  else (Etheraddr_null, Etheraddr_null)
      | None => (Etheraddr_null, Etheraddr_null)
      end
  | None => (Etheraddr_null, Etheraddr_null)
  end.

Definition hello_prefix (rsvd : list Z) (r : core) : list Z :=
  header Etheraddr_broadcast (g_hwaddr r) ToS_TopologyDiscovery rsvd Opcode_Hello Etheraddr_broadcast (g_hwaddr r) 0
  ++ be16 (g_generation r) ++ (hello_mappers r).1 ++ (hello_mappers r).2.

Definition hello_frame (rsvd : list Z) (r : core) (ps : list property) : list Z :=
  hello_prefix rsvd r ++ encs ps ++ [0].

Section hello.
Context `{E : Env}.

(** A store right behind the bytes written so far. *)
Lemma wp_tx_append pre xs tl off (Q : unit -> G -> Prop) g :
  Z.of_nat (length (pre ++ tl)) = TXBUFSZ -> Z.of_nat (length pre) = off -> (length xs <= length tl)%nat ->
  Q tt (set_g_txbuf (pre ++ xs ++ drop (length xs) tl) g) ->
  wp (tx_store xs off) Q (set_g_txbuf (pre ++ tl) g).
Proof.
  intros Hs <- Hl HQ. rewrite length_app in Hs. apply wp_tx_store_eq; [cbn [g_txbuf tx set_g_txbuf set_tx]; rewrite length_app; lia|lia|lia|].
  rewrite Nat2Z.id. change (g_txbuf (tx (set_g_txbuf ?b g))) with b. by rewrite (inserts_after (length pre)).
Qed.

Lemma hello_mappers_length r : core_wf r ->
  length (hello_mappers r).1 = 6%nat /\ length (hello_mappers r).2 = 6%nat.
Proof.
  intros Hw. unfold hello_mappers. destruct (g_topo_session r) as [i|]; [|done].
  destruct (g_sessions r !! i) as [s|] eqn:Hs; [|done].
  destruct (Forall_lookup_1 _ _ _ _ (cw_sessions _ Hw) Hs). by destruct (ssn_is_valid s).
Qed.

Lemma hello_prefix_length rsvd r : core_wf r -> length rsvd = 1%nat -> length (hello_prefix rsvd r) = 46%nat.
Proof.
  intros Hw Hr. destruct (hello_mappers_length r Hw) as [H1 H2]. unfold hello_prefix.
  rewrite !length_app, header_length, H1, H2 by (done || apply Hw). done.
Qed.

(** The fixed part of a Hello. *)
Lemma wp_hello_prefix (k : CM unit) (Q : unit -> G -> Prop) g :
  io_ok g -> core_wf (co g) ->
  wp k Q (set_g_txbuf (hello_prefix (rsvd_byte (g_txbuf (tx g))) (co g) ++ drop 46 (g_txbuf (tx g))) g) ->
  wp (hw ← gets (fun g => g_hwaddr (co g));
      fmt_base hw Etheraddr_broadcast ToS_TopologyDiscovery Opcode_Hello 0 true;;
      gen ← gets (fun g => g_generation (co g));
      tx_store (be16 gen) hh_gen;;
      valid ← topo_session_valid;
      (if valid : bool then
         topo ← gets (fun g => g_topo_session (co g));
         s ← ssn_get topo;
         tx_store (ssn_mapper_real s) hh_curmapraddr;;
         tx_store (ssn_mapper_current s) hh_aprmapraddr
       else
         tx_store Etheraddr_null hh_curmapraddr;;
         tx_store Etheraddr_null hh_aprmapraddr);; k) Q g.
Proof.
  intros Hio Hw HQ. pose proof (xo_size _ (io_tx _ Hio)) as Hs. unfold TXBUFSZ in Hs.
  destruct (hello_mappers_length _ Hw) as [M1 M2]. pose proof (cw_hw _ Hw) as Hhw.
  apply wp_bind, wp_gets, wp_bind, wp_fmt_base_eq; [done|done|done|].
  set (rsvd := rsvd_byte (g_txbuf (tx g))) in *. set (h := header _ _ _ _ _ _ _ _).
  assert (Hr : length rsvd = 1%nat) by (apply rsvd_byte_length; lia).
  assert (Hh : length h = 32%nat) by (by apply header_length).
  apply wp_bind, wp_gets, wp_bind, wp_tx_append;
    [rewrite length_app, length_drop, Hh; unfold TXBUFSZ; lia|by rewrite Hh|rewrite length_drop; simpl; lia|].
  rewrite drop_drop, app_assoc. change (co (set_g_txbuf _ g)) with (co g). change (32 + length (be16 _))%nat with 34%nat.
  set (p1 := h ++ be16 (g_generation (co g))).
  assert (L1 : length p1 = 34%nat) by (unfold p1; by rewrite length_app, Hh).
  apply wp_bind, wp_topo_session_valid; [done|]. change (co (set_g_txbuf _ g)) with (co g).
  assert (Hrest : forall (m1 m2 : list Z), length m1 = 6%nat -> length m2 = 6%nat -> hello_mappers (co g) = (m1, m2) ->
    wp (tx_store m1 hh_curmapraddr;; tx_store m2 hh_aprmapraddr) (fun _ => wp k Q) (set_g_txbuf (p1 ++ drop 34 (g_txbuf (tx g))) g)).
  { intros m1 m2 N1 N2 Hm. apply wp_bind, wp_tx_append;
      [rewrite length_app, length_drop, L1; unfold TXBUFSZ; lia|by rewrite L1|rewrite length_drop; lia|].
    rewrite drop_drop, app_assoc, N1. apply wp_tx_append;
      [rewrite !length_app, length_drop, L1, N1; unfold TXBUFSZ; lia|by rewrite length_app, L1, N1|rewrite length_drop; lia|].
    rewrite drop_drop, N2. change (34 + 6 + 6)%nat with 46%nat.
    unfold hello_prefix in HQ. rewrite Hm in HQ. cbn [fst snd] in HQ. fold h in HQ.
    unfold p1. rewrite <- !app_assoc in HQ. rewrite <- !app_assoc. exact HQ. }
  unfold topo_valid. unfold hello_mappers in Hrest, M1, M2. apply wp_bind.
  destruct (g_topo_session (co g)) as [i|] eqn:Htp; [|by apply Hrest].
  destruct (g_sessions (co g) !! i) as [s|] eqn:Hsi; [|by apply Hrest].
  destruct (ssn_is_valid s); [|by apply Hrest].
  apply wp_bind, wp_gets. change (co (set_g_txbuf _ g)) with (co g). rewrite Htp.
  apply wp_bind. eapply wp_ssn_get; [exact Hsi|]. by apply Hrest.
Qed.

(** C40. In a well formed state, whose TLVs have types between 1 and 255, names to be told
    of fewer than 256 bytes and icon files no longer than their recorded size, a Hello
    that goes out carries, after the broadcast header, the generation and the addresses of
    the mapper of the topology session (or zero), a well-formed list of properties. The
    list is the one that the table and the system give ([hello_list]): for each TLV in its
    order, the value that is stored or that the system supplies at that call (an empty one
    for what is too large for a Hello), unless the TLV is invalid, the system refuses it,
    its icon cannot be read or the room that is left is too small. Reading the list back
    from the frame gives exactly these properties; their types are among those of the
    table, in its order, and no property is there twice, since the table has no type twice
    (as that of tlvdef.h). *)
Theorem hello_properties_roundtrip g :
  io_ok g -> core_wf (co g) -> Forall hello_desc (g_tlvs g) -> NoDup (tlv_number <$> g_tlvs g) ->
  match packetio_tx_hello g with
  | Ok _ g' =>
      let ps := hello_list (g_tlvs g) (TOPO_MAX_FRAMESZ - 46 - 1) (os_clk (os g)) in
      let frame := hello_frame (rsvd_byte (g_txbuf (tx g))) (co g) ps in
      os_out (os g') = os_out (os g) ++ [Frame frame] /\ Z.of_nat (length frame) <= TOPO_MAX_FRAMESZ
      /\ parse (S (length ps)) (drop 46 frame) = Some ps
      /\ (fst <$> ps) `sublist_of` (tlv_number <$> g_tlvs g) /\ NoDup (fst <$> ps)
  | Err f => f = Died
  end.
Proof.
  intros Hio Hw Ht Hnd. change (TOPO_MAX_FRAMESZ - 46 - 1) with 1467. set (ps := hello_list (g_tlvs g) 1467 (os_clk (os g))).
  match goal with |- match _ with Ok _ g' => @?P g' | _ => _ end => change (wp packetio_tx_hello (fun _ => P) g) end.
  pose proof (xo_size _ (io_tx _ Hio)) as Hs. unfold TXBUFSZ in Hs.
  assert (Hr : length (rsvd_byte (g_txbuf (tx g))) = 1%nat) by (apply rsvd_byte_length; lia).
  unfold packetio_tx_hello. apply wp_hello_prefix; [done|done|].
  pose proof (hello_prefix_length _ _ Hw Hr) as Hp. unfold hello_frame. set (p := hello_prefix _ _) in *.
  set (b1 := p ++ drop 46 (g_txbuf (tx g))).
  assert (Hb1 : length b1 = 2048%nat) by (unfold b1; rewrite length_app, length_drop, Hp; lia).
  assert (Hio1 : io_ok (set_g_txbuf b1 g)).
  { destruct Hio. split; [|done|done]. apply tx_ok_store; [done|]. rewrite Hb1. lia. }
  unfold tlv_write_info. change (sizeof_ether_header + sizeof_base_header + sizeof_hello_header) with 46.
  change (TOPO_MAX_FRAMESZ - 46 - 1) with 1467.
  apply wp_bind, wp_bind, wp_gets, wp_tlv_write_loop_hello; [done|done|done|done|done|done|].
  rewrite drop_0. change (os_clk (os (set_g_txbuf b1 g))) with (os_clk (os g)).
  change (g_tlvs (set_g_txbuf b1 g)) with (g_tlvs g). fold ps. cbv zeta.
  intros n' g1 Hl [Hb _ _ _ Hout (x & o & ts & Hio2 & Hg1)]. subst g1.
  change (g_txbuf (tx (set_g_txbuf b1 g))) with b1 in Hb. change (Z.to_nat 46) with 46%nat in Hb.
  change (g_txbuf (tx (txs x o ts (set_g_txbuf b1 g)))) with (g_txbuf x) in Hb.
  rewrite <- Hp in Hb. unfold b1 in Hb at 1. rewrite take_app_length, Hp in Hb. rewrite Z.add_0_l.
  set (n := length (encs ps)) in *. set (tl := drop (46 + n) b1) in Hb.
  assert (Htl : length tl = (2002 - n)%nat) by (unfold tl; rewrite length_drop; lia).
  assert (Hpe : length (p ++ encs ps) = (46 + n)%nat) by (by rewrite length_app, Hp).
  replace (txs x o ts (set_g_txbuf b1 g)) with (set_g_txbuf ((p ++ encs ps) ++ tl) (txs x o ts g))
    by (rewrite <- app_assoc, <- Hb; by destruct x).
  apply wp_bind, wp_tx_append; [rewrite length_app, Hpe, Htl; unfold TXBUFSZ; lia|rewrite Hpe; lia|rewrite Htl; simpl; lia|].
  set (f := (p ++ encs ps) ++ [0]). assert (Hf : length f = (47 + n)%nat) by (unfold f; rewrite length_app, Hpe; simpl; lia).
  rewrite (app_assoc (p ++ encs ps)). fold f. change (length [0]) with 1%nat.
  assert (Hfr : f = p ++ encs ps ++ [0]) by (unfold f; by rewrite app_assoc).
  apply wp_tx_sendpacket_eq; [|unfold TOPO_MAX_FRAMESZ; lia|].
  { destruct Hio2 as [Hx Hv Ho]. split; [|done|done]. apply (tx_ok_store x); [done|].
    rewrite length_app, length_drop, Hf, Htl. pose proof (xo_size _ Hx) as Hx'. unfold TXBUFSZ in Hx'. simpl in Hx'. lia. }
  intros x3 o3 Ho3 _ _ _ _. rewrite <- Hfr. pose proof (hello_list_types (g_tlvs g) 1467 (os_clk (os g))) as Hnms. fold ps in Hnms.
  split; [|split; [rewrite Hf; unfold TOPO_MAX_FRAMESZ; lia|split; [|split; [done|by eapply sublist_NoDup]]]].
  - change (os_out (os (txs x3 o3 _ _))) with (os_out o3). rewrite Ho3.
    change (g_txbuf (tx (set_g_txbuf ?b _))) with b. replace (Z.to_nat (46 + Z.of_nat n + 1)) with (length f) by lia.
    rewrite take_app_length. change (os_out o = os_out (os g)) in Hout. change (os_out (os (set_g_txbuf _ _))) with (os_out o).
    by rewrite Hout.
  - rewrite Hfr, <- Hp, drop_app_length. apply parse_encs; [|apply Nat.lt_succ_diag_r].
    apply Forall_forall. intros q Hq. assert (Hnum : q.1 ∈ tlv_number <$> g_tlvs g).
    { eapply elem_of_sublist; [|exact Hnms]. apply list_elem_of_fmap_2. by apply list_elem_of_In. }
    apply list_elem_of_fmap in Hnum as (d & -> & Hd). pose proof (hd_number _ (Forall_elem _ _ _ Ht Hd)). lia.
Qed.
End hello.
