(* ===== verification/SessionMgr.v ===== *)
(** * SessionMgr: the session state machine smS (sessionmgr.c)

    One handler per state of the session the current event belongs to, and
    the helpers of state.c that they call. *)

From S2P Require Import Prelude LltdTypes Event SeesList Tlv PacketTx Mapping.

Section with_env.
Context `{E : Env}.

Definition this_event : CM protocol_event := gets (fun g => g_this_event (co g)).

(** The loop of is_acking_me over the station list: the stations are read
    from offset [p] while they end at or before [limit]. *)
Fixpoint scan_stations (n : nat) (p limit : Z) (acking : bool) : CM bool :=
  match n with
  | O => mret acking
  | S n' =>
      if p + sizeof_etheraddr <=? limit then
        st ← rx_mac p;
        hw ← gets (fun g => g_hwaddr (co g));
        scan_stations n' (p + sizeof_etheraddr) limit (acking || ETHERADDR_EQUALS st hw)
      else mret acking
  end.

Definition is_acking_me : CM bool :=
  e ← this_event;
  if isAckingMe e then mret true
  else
    numstations ← rx16 mh_numstations;
    (* a pointer: the length is added modulo the size of the address space *)
    limit ← gets (fun g => s32 (g_rcvd_pkt_len (rx g)));
    scan_stations (Z.to_nat numstations)
      (sizeof_ether_header + sizeof_base_header + sizeof_discover_header) limit false.

Definition is_conflicting_ssn (p : option nat) : CM bool :=
  valid ← topo_session_valid;
  if negb valid then mret false
  else
    topo ← gets (fun g => g_topo_session (co g));
    s ← ssn_get p;
    t ← ssn_get topo;
    mret (bool_decide (p <> topo) && (ssn_TypeOfSvc s =? ToS_TopologyDiscovery)
          && negb (ETHERADDR_EQUALS (ssn_mapper_real s) (ssn_mapper_real t))).

(** restart_inactivity_timer of state.c *)
Definition restart_inactivity_timer (timeout : Z) : CM unit :=
  e ← this_event;
  match evt_ssn e with
  | None => mret tt
  | Some i =>
      s ← ssn_get (Some i);
      when (ssn_is_valid s)
        (now ← now_plus timeout; CANCEL (T_inactivity i);; arm (T_inactivity i) now)
  end.

(** The timeout that applies to a session in the Complete state. *)
Definition complete_timeout (s : session) : Z :=
  if ssn_TypeOfSvc s =? ToS_TopologyDiscovery
  then TOPO_CMD_ACTIVITYTIMEOUT else TOPO_GENERAL_ACTIVITYTIMEOUT.
Definition restart_complete : CM unit :=
  e ← this_event; s ← ssn_get (evt_ssn e); restart_inactivity_timer (complete_timeout s).

(** [state = smS_Nascent; CANCEL(timer); is_valid = FALSE] *)
Definition ssn_invalidate (i : nat) : CM unit :=
  ssn_update (Some i) (set_ssn_state smS_Nascent);;
  CANCEL (T_inactivity i);;
  ssn_update (Some i) (set_ssn_valid false).

(** The loop that resets the Temporary sessions. *)
Definition reset_temporaries : CM unit :=
  for_n MAX_NUM_SESSIONS 0 (fun i =>
    s ← ssn_get (Some i);
    when (ssn_is_valid s && bool_decide (ssn_state s = smS_Temporary)) (ssn_invalidate i)).

(** The new-XID test of the Pending and Complete handlers. *)
Definition changed_XID : CM bool :=
  e ← this_event;
  seq ← gets (fun g => g_sequencenum (rx g));
  s ← ssn_get (evt_ssn e);
  topo ← gets (fun g => g_topo_session (co g));
  mret (negb (seq =? 0) && negb (ssn_XID s =? seq) && bool_decide (topo = evt_ssn e)).

(** Reset the topology machine through an internal Reset event, re-create
    the topology session pointer and accept the new XID. *)
Definition reset_for_new_XID : CM unit :=
  e ← this_event;
  modify (evt_update (set_evtType evtResetRcvd));;
  modify (evt_update (set_isInternalEvt true));;
  smT_process_event;;
  modify (evt_update (set_evtType evtDiscoverRcvd));;
  modify (evt_update (set_isInternalEvt (isInternalEvt e)));;
  modify (set_g_topo_session (evt_ssn e));;
  seq ← gets (fun g => g_sequencenum (rx g));
  ssn_update (evt_ssn e) (set_ssn_XID seq).

Definition smS_NascentHandler : CM sm_Status :=
  e ← this_event;
  match evtType e with
  | evtDiscoverRcvd =>
      (* the first Topo session is the definitive one *)
      s ← ssn_get (evt_ssn e);
      (if ssn_TypeOfSvc s =? ToS_TopologyDiscovery then
         valid ← topo_session_valid;
         when (negb valid) (modify (set_g_topo_session (evt_ssn e)))
       else mret tt);;
      conflict ← is_conflicting_ssn (evt_ssn e);
      (if conflict : bool then ssn_update (evt_ssn e) (set_ssn_state smS_Temporary)
       else
         acking ← is_acking_me;
         if acking : bool then
           modify (evt_update (set_isAckingMe true));;
           ssn_update (evt_ssn e) (set_ssn_state smS_Complete);;
           restart_complete
         else
           modify (evt_update (set_isAckingMe false));;
           ssn_update (evt_ssn e) (set_ssn_state smS_Pending);;
           restart_inactivity_timer TOPO_HELLO_ACTIVITYTIMEOUT);;
      mret PROCESSING_COMPLETED
  | _ => mret PROCESSING_COMPLETED
  end.

Definition smS_PendingHandler : CM sm_Status :=
  e ← this_event;
  match evtType e with
  | evtDiscoverRcvd =>
      acking ← is_acking_me;
      (if acking : bool then
         modify (evt_update (set_isAckingMe true));;
         changed ← changed_XID;
         when changed reset_for_new_XID;;
         ssn_update (evt_ssn e) (set_ssn_state smS_Complete);;
         restart_complete
       else
         changed ← changed_XID;
         when changed reset_for_new_XID;;
         restart_inactivity_timer TOPO_HELLO_ACTIVITYTIMEOUT);;
      mret PROCESSING_COMPLETED
  | evtInactivityTimeout | evtResetRcvd =>
      topo ← gets evt_is_topo;
      valid ← (if topo : bool then topo_session_valid else mret false);
      when valid reset_temporaries;;
      i ← deref (evt_ssn e);
      ssn_invalidate i;;
      packetio_invalidate_retxbuf;;
      mret PROCESSING_COMPLETED
  | evtHelloDelayTimeout =>
      ssn_update (evt_ssn e) (fun s => set_ssn_count (u32 (ssn_count s - 1)) s);;
      s ← ssn_get (evt_ssn e);
      when (ssn_count s =? 0) (ssn_update (evt_ssn e) (set_ssn_state smS_Complete));;
      mret PROCESSING_COMPLETED
  | _ => mret PROCESSING_COMPLETED
  end.

Definition smS_TemporaryHandler : CM sm_Status :=
  e ← this_event;
  match evtType e with
  | evtInactivityTimeout | evtResetRcvd | evtHelloDelayTimeout =>
      i ← deref (evt_ssn e); ssn_invalidate i;; mret PROCESSING_COMPLETED
  | _ => mret PROCESSING_COMPLETED
  end.

Definition smS_CompleteHandler : CM sm_Status :=
  e ← this_event;
  match evtType e with
  | evtInactivityTimeout | evtResetRcvd =>
      topo ← gets evt_is_topo;
      valid ← (if topo : bool then topo_session_valid else mret false);
      when valid (reset_temporaries;; osl_set_promisc false);;
      i ← deref (evt_ssn e);
      ssn_invalidate i;;
      packetio_invalidate_retxbuf;;
      mret PROCESSING_COMPLETED
  | evtDiscoverRcvd =>
      acking ← is_acking_me;
      (if acking : bool then
         modify (evt_update (set_isAckingMe true));;
         changed ← changed_XID;
         when changed reset_for_new_XID;;
         restart_complete
       else
         changed ← changed_XID;
         if changed : bool then
           reset_for_new_XID;;
           ssn_update (evt_ssn e) (set_ssn_state smS_Pending);;
           restart_inactivity_timer TOPO_HELLO_ACTIVITYTIMEOUT
         else restart_complete);;
      mret PROCESSING_COMPLETED
  | evtEmitRcvd | evtPacketRcvd => restart_complete;; mret PROCESSING_COMPLETED
  | _ => mret PROCESSING_COMPLETED
  end.

Definition smS_process_event : CM sm_Status :=
  e ← this_event;
  match evt_ssn e with
  | None => mret PROCESSING_COMPLETED
  | Some _ =>
      s ← ssn_get (evt_ssn e);
      match ssn_state s with
      | smS_Nascent => smS_NascentHandler
      | smS_Pending => smS_PendingHandler
      | smS_Temporary => smS_TemporaryHandler
      | smS_Complete => smS_CompleteHandler
      end
  end.
End with_env.

(** ** The invariant of the session table

    A free entry is Nascent and has no timer.  A valid one is Temporary without
    a timer, or Pending or Complete with a running inactivity timer.  No two
    valid sessions have the same mapper.  The topology session is valid, and
    Temporary sessions exist only beside it. *)

Definition session_state_ok (s : session) : Prop :=
  if ssn_is_valid s then
    match ssn_state s with
    | smS_Nascent => False
    | smS_Temporary => ssn_InactivityTimer s = None
    | smS_Pending | smS_Complete => is_Some (ssn_InactivityTimer s)
    end
  else ssn_state s = smS_Nascent /\ ssn_InactivityTimer s = None.

Definition topo_session_ok (s : session) : Prop :=
  ssn_is_valid s = true /\ (ssn_state s = smS_Pending \/ ssn_state s = smS_Complete)
  /\ ssn_TypeOfSvc s = ToS_TopologyDiscovery.

Definition no_temporaries (ss : list session) : Prop :=
  forall j s, ss !! j = Some s -> ssn_is_valid s = true -> ssn_state s <> smS_Temporary.

Definition mappers_unique (ss : list session) : Prop :=
  forall i j s t, ss !! i = Some s -> ss !! j = Some t ->
    ssn_is_valid s = true -> ssn_is_valid t = true -> ssn_mapper_real s = ssn_mapper_real t -> i = j.

(** [x] is a session that is being processed, whose state and timer are exempt. *)
Record sess_inv (x : option nat) (r : core) : Prop := SessInv {
  si_each j s : g_sessions r !! j = Some s -> Some j <> x -> session_state_ok s;
  si_unique : mappers_unique (g_sessions r);
  si_topo : match g_topo_session r with
            | None => no_temporaries (g_sessions r)
            | Some k => exists s, g_sessions r !! k = Some s /\ topo_session_ok s
            end
}.

(** The topology session has just been invalidated, and the topology machine
    will forget it. *)
Record sess_stale (i : nat) (r : core) : Prop := SessStale {
  ss_each j s : g_sessions r !! j = Some s -> session_state_ok s;
  ss_unique : mappers_unique (g_sessions r);
  ss_topo : g_topo_session r = Some i;
  ss_dead : exists s, g_sessions r !! i = Some s /\ ssn_is_valid s = false;
  ss_none : no_temporaries (g_sessions r)
}.

(** A session after [ssn_invalidate]. *)
Definition dead_session (s : session) : session :=
  set_ssn_valid false (set_ssn_timer None (set_ssn_state smS_Nascent s)).
Definition purge (s : session) : session :=
  if ssn_is_valid s && bool_decide (ssn_state s = smS_Temporary) then dead_session s else s.

(** Only the session table (which is now [ss]) and the timers of sessions changed. *)
Record ssn_moved (ss : list session) (g g' : G) : Prop := SsnMoved {
  sm_co : co g' = co (set_g_sessions ss g);
  sm_rest : same_rest g g';
  sm_timers t : global_timer t -> timer_get t g' = timer_get t g
}.

Lemma ssn_moved_trans ss1 ss2 g1 g2 g3 :
  ssn_moved ss1 g1 g2 -> ssn_moved ss2 g2 g3 -> ssn_moved ss2 g1 g3.
Proof.
  intros [C1 [] T1] [C2 [] T2]. split.
  - rewrite C2. simpl. by rewrite C1.
  - split; congruence.
  - intros t Ht. by rewrite T2, T1.
Qed.

Lemma ssn_moved_set ss g : ssn_moved ss g (set_g_sessions ss g).
Proof. split; [done|done|]. by intros []. Qed.

Lemma ssn_moved_id g : ssn_moved (g_sessions (co g)) g g.
Proof. split; [by destruct g as [c]; destruct c|done|done]. Qed.

Section session_lemmas.
Context `{E : Env}.

Lemma session_lookup i g : core_wf (co g) -> (i < MAX_NUM_SESSIONS)%nat ->
  exists s, g_sessions (co g) !! i = Some s /\ session_wf s.
Proof.
  intros Hw Hi. destruct (lookup_lt_is_Some_2 (g_sessions (co g)) i) as [s Hs]; [by rewrite (cw_size _ Hw)|].
  exists s. split; [done|]. by apply (Forall_lookup_1 _ _ _ _ (cw_sessions _ Hw) Hs).
Qed.

(** An assignment to a session that keeps its timer and address fields. *)
Lemma base_ok_ssn i s s' g :
  base_ok g -> g_sessions (co g) !! i = Some s -> session_wf s' ->
  ssn_InactivityTimer s' = ssn_InactivityTimer s ->
  base_ok (set_g_sessions (<[i := s']> (g_sessions (co g))) g).
Proof.
  intros [Hio Hrx [W1 W2 W3 W4] Hs Ht He] Hi Hw Htm. split; try done.
  - by eapply io_ok_ext; [..|exact Hio].
  - split; simpl; rewrite ?length_insert; try done. by apply Forall_insert.
  - apply (timers_ok_ext g); [done| |done]. intros [| | | |j]; try done. simpl.
    destruct (decide (i = j)) as [->|Hne].
    + rewrite list_lookup_insert_eq by (by eapply lookup_lt_Some). rewrite Hi. done.
    + by rewrite list_lookup_insert_ne.
Qed.

Lemma wp_ssn_set i s f (Q : unit -> G -> Prop) g :
  base_ok g -> g_sessions (co g) !! i = Some s -> session_wf (f s) ->
  ssn_InactivityTimer (f s) = ssn_InactivityTimer s ->
  (forall g', base_ok g' -> ssn_moved (<[i := f s]> (g_sessions (co g))) g g' -> Q tt g') ->
  wp (ssn_update (Some i) f) Q g.
Proof.
  intros Hb Hs Hw Ht HQ. eapply wp_ssn_update; [exact Hs|].
  apply HQ; [by eapply base_ok_ssn|apply ssn_moved_set].
Qed.

Lemma wp_ssn_CANCEL i s (Q : unit -> G -> Prop) g :
  base_ok g -> g_sessions (co g) !! i = Some s ->
  (forall g', base_ok g' -> ssn_moved (<[i := set_ssn_timer None s]> (g_sessions (co g))) g g' -> Q tt g') ->
  wp (CANCEL (T_inactivity i)) Q g.
Proof.
  intros Hb Hs HQ. assert (Hv : timer_valid (T_inactivity i) g) by (by eapply lookup_lt_Some).
  apply wp_CANCEL, HQ; [by apply base_ok_cancel|]. split.
  - rewrite co_cancel_g. simpl. f_equal. by apply list_alter_insert.
  - apply cancel_rest.
  - intros t Ht. apply timer_get_cancel_ne. by intros ->.
Qed.
End session_lemmas.

Section session_ops.
Context `{E : Env}.

Lemma insert_insert_same {A} (l : list A) i x y : <[i := x]> (<[i := y]> l) = <[i := x]> l.
Proof. apply list_insert_insert_eq. Qed.

Lemma lookup_insert_some {A} (l : list A) i x y : l !! i = Some y -> <[i := x]> l !! i = Some x.
Proof. intros H. apply list_lookup_insert_eq. by eapply lookup_lt_Some. Qed.

Lemma moved_sessions ss g g' : ssn_moved ss g g' -> g_sessions (co g') = ss.
Proof. intros [-> _ _]. done. Qed.

Lemma wp_ssn_arm i s w (Q : unit -> G -> Prop) g :
  base_ok g -> g_sessions (co g) !! i = Some s -> ssn_InactivityTimer s = None ->
  (forall g' n, base_ok g' -> ssn_moved (<[i := set_ssn_timer (Some n) s]> (g_sessions (co g))) g g' ->
     Q tt g') ->
  wp (arm (T_inactivity i) w) Q g.
Proof.
  intros Hb Hs Hn HQ. assert (Hv : timer_valid (T_inactivity i) g) by (by eapply lookup_lt_Some).
  assert (Hnone : timer_get (T_inactivity i) g = None) by (simpl; rewrite Hs; exact Hn).
  apply wp_arm, (HQ _ (next_event (tm g))); [by apply base_ok_arm|]. split.
  - rewrite co_arm_g. simpl. f_equal. by apply list_alter_insert.
  - apply arm_rest.
  - intros t Ht. apply timer_get_arm_ne. by intros ->.
Qed.

Lemma set_timer_twice v v' s : set_ssn_timer v (set_ssn_timer v' s) = set_ssn_timer v s.
Proof. done. Qed.

(** Restarting the inactivity timer of the session of the event. *)
Lemma wp_restart_inactivity_timer timeout i s (Q : unit -> G -> Prop) g :
  base_ok g -> evt_ssn (g_this_event (co g)) = Some i -> g_sessions (co g) !! i = Some s ->
  ssn_is_valid s = true ->
  (forall g' n, base_ok g' -> ssn_moved (<[i := set_ssn_timer (Some n) s]> (g_sessions (co g))) g g' ->
     Q tt g') ->
  wp (restart_inactivity_timer timeout) Q g.
Proof.
  intros Hb He Hs Hv HQ. unfold restart_inactivity_timer, this_event. apply wp_bind, wp_gets.
  rewrite He. apply wp_bind. eapply wp_ssn_get; [exact Hs|]. rewrite Hv. apply wp_when; [intros _|done].
  apply wp_bind, wp_now_plus, wp_bind. eapply wp_ssn_CANCEL; [by apply base_ok_clk|exact Hs|].
  intros g1 Hb1 M1. pose proof (moved_sessions _ _ _ M1) as S1.
  assert (Hs1 : g_sessions (co g1) !! i = Some (set_ssn_timer None s)).
  { rewrite S1. by eapply lookup_insert_some. }
  eapply wp_ssn_arm; [done|exact Hs1|done|]. intros g2 n Hb2 M2. apply (HQ _ n); [done|].
  rewrite S1, insert_insert_same, set_timer_twice in M2.
  destruct (ssn_moved_trans _ _ _ _ _ M1 M2) as [C R T].
  split; [exact C| |]; [destruct R; by split|]. intros t Ht. rewrite T by done. by destruct t.
Qed.

Lemma wp_restart_complete i s (Q : unit -> G -> Prop) g :
  base_ok g -> evt_ssn (g_this_event (co g)) = Some i -> g_sessions (co g) !! i = Some s ->
  ssn_is_valid s = true ->
  (forall g' n, base_ok g' -> ssn_moved (<[i := set_ssn_timer (Some n) s]> (g_sessions (co g))) g g' ->
     Q tt g') ->
  wp restart_complete Q g.
Proof.
  intros Hb He Hs Hv HQ. unfold restart_complete, this_event. apply wp_bind, wp_gets.
  rewrite He. apply wp_bind. eapply wp_ssn_get; [exact Hs|]. by eapply wp_restart_inactivity_timer.
Qed.

Lemma wp_ssn_invalidate i s (Q : unit -> G -> Prop) g :
  base_ok g -> g_sessions (co g) !! i = Some s ->
  (forall g', base_ok g' -> ssn_moved (<[i := dead_session s]> (g_sessions (co g))) g g' -> Q tt g') ->
  wp (ssn_invalidate i) Q g.
Proof.
  intros Hb Hs HQ. assert (Hw : session_wf s)
    by (by apply (Forall_lookup_1 _ _ _ _ (cw_sessions _ (bo_core _ Hb)) Hs)).
  unfold ssn_invalidate. apply wp_bind. eapply wp_ssn_set; [done|exact Hs|done|done|].
  intros g1 Hb1 M1. pose proof (moved_sessions _ _ _ M1) as S1.
  assert (Hs1 : g_sessions (co g1) !! i = Some (set_ssn_state smS_Nascent s))
    by (rewrite S1; by eapply lookup_insert_some).
  apply wp_bind. eapply wp_ssn_CANCEL; [done|exact Hs1|]. intros g2 Hb2 M2.
  rewrite S1, insert_insert_same in M2. pose proof (moved_sessions _ _ _ M2) as S2.
  eapply wp_ssn_set; [done|rewrite S2; by eapply lookup_insert_some|done|done|].
  intros g3 Hb3 M3. rewrite S2, insert_insert_same in M3. apply HQ; [done|].
  by eapply ssn_moved_trans; [|eapply ssn_moved_trans].
Qed.

Lemma purge_dead s : ssn_is_valid s = true -> ssn_state s = smS_Temporary -> purge s = dead_session s.
Proof. intros H1 H2. unfold purge. by rewrite H1, H2. Qed.

(** The loop invalidates exactly the Temporary sessions. *)
Lemma wp_reset_temporaries (Q : unit -> G -> Prop) g :
  base_ok g ->
  (forall g', base_ok g' -> ssn_moved (purge <$> g_sessions (co g)) g g' -> Q tt g') ->
  wp reset_temporaries Q g.
Proof.
  intros Hb HQ. unfold reset_temporaries.
  set (part n := (purge <$> take n (g_sessions (co g))) ++ drop n (g_sessions (co g))).
  pose proof (cw_size _ (bo_core _ Hb)) as Hlen.
  apply (wp_for_n (fun n g' => base_ok g' /\ ssn_moved (part n) g g')).
  - split; [done|]. apply ssn_moved_id.
  - intros j g1 Hj [Hb1 M1]. pose proof (moved_sessions _ _ _ M1) as S1.
    destruct (lookup_lt_is_Some_2 (g_sessions (co g)) j) as [s Hs]; [rewrite Hlen; lia|].
    assert (Htake : take (S j) (g_sessions (co g)) = take j (g_sessions (co g)) ++ [s])
      by by apply take_S_r.
    assert (Hdrop : drop j (g_sessions (co g)) = s :: drop (S j) (g_sessions (co g)))
      by by apply drop_S.
    assert (Hl : length (purge <$> take j (g_sessions (co g))) = j)
      by (rewrite length_fmap, length_take; lia).
    assert (Hs1 : part j !! j = Some s).
    { unfold part. rewrite lookup_app_r by lia. by rewrite Hl, Nat.sub_diag, Hdrop. }
    assert (Hp : part (S j) = <[j := purge s]> (part j)).
    { unfold part. rewrite Htake, Hdrop, fmap_app, <- app_assoc. simpl.
      rewrite insert_app_r_alt by lia. by rewrite Hl, Nat.sub_diag. }
    apply wp_bind. eapply wp_ssn_get; [rewrite S1; exact Hs1|]. apply wp_when; intros Hv.
    + eapply wp_ssn_invalidate; [done|rewrite S1; exact Hs1|]. intros g2 Hb2 M2. split; [done|].
      rewrite S1 in M2. rewrite Hp. unfold purge. rewrite Hv. by eapply ssn_moved_trans.
    + split; [done|]. rewrite Hp. unfold purge. rewrite Hv. by rewrite list_insert_id.
  - intros g1 [Hb1 M1]. apply HQ; [done|]. unfold part in M1. simpl in M1.
    rewrite take_ge, drop_ge, app_nil_r in M1 by (rewrite Hlen; simpl; lia). done.
Qed.
End session_ops.

(** ** Running a handler

    [handling f g0 ss tp e g]: a handler that started in [g0] has reached [g],
    where the session table, the topology session and the event are [ss], [tp]
    and [e]; what the session machine must not touch is as in [g0]. *)
Record handling `{E : Env} (f : bool) (g0 : G) (ss : list session) (tp : option nat)
    (e : protocol_event) (g : G) : Prop := Handling {
  hd_base : base_ok g;
  hd_smT : smT_inv f g;
  hd_sessions : g_sessions (co g) = ss;
  hd_topo : g_topo_session (co g) = tp;
  hd_evt : g_this_event (co g) = e;
  hd_smE : g_smE_state (co g) = g_smE_state (co g0);
  hd_rx : rx g = rx g0;
  hd_qs : qs g = qs g0;
  hd_band : g_band g = g_band g0;
  hd_block : timer_get T_block g = timer_get T_block g0;
  hd_hello : timer_get T_hello g = timer_get T_hello g0
}.

Section handling.
Context `{E : Env}.

Lemma handling_start f g :
  base_ok g -> smT_inv f g ->
  handling f g (g_sessions (co g)) (g_topo_session (co g)) (g_this_event (co g)) g.
Proof. intros H1 H2. by split. Qed.

Lemma handling_moved f g0 ss ss' tp e g g' :
  handling f g0 ss tp e g -> base_ok g' -> ssn_moved ss' g g' -> handling f g0 ss' tp e g'.
Proof.
  intros [] Hb' [C R T]. destruct R.
  pose proof (T T_block ltac:(done)). pose proof (T T_hello ltac:(done)).
  split; rewrite ?C; try done; try congruence.
  eapply smT_inv_ext; [..|done]; rewrite ?C; try done; by apply T.
Qed.

Lemma handling_evt f g0 ss tp e g h :
  handling f g0 ss tp e g -> handling f g0 ss tp (h e) (evt_update h g).
Proof.
  intros []. split; try done; [base_same|by eapply smT_inv_ext; [..|exact hd_smT0]|].
  simpl. by rewrite hd_evt0.
Qed.

Lemma handling_txs f g0 ss tp e g x o ts :
  handling f g0 ss tp e g -> io_ok (txs x o ts g) -> handling f g0 ss tp e (txs x o ts g).
Proof.
  intros [] Hio. split; try done; [by apply base_ok_txs|by eapply smT_inv_ext; [..|exact hd_smT0]].
Qed.

Lemma wp_hd_evt f g0 ss tp e h (Q : unit -> G -> Prop) g :
  handling f g0 ss tp e g -> (forall g', handling f g0 ss tp (h e) g' -> Q tt g') ->
  wp (modify (evt_update h)) Q g.
Proof. intros H HQ. wp_step. apply HQ. by apply handling_evt. Qed.

Lemma wp_hd_event f g0 ss tp e (Q : protocol_event -> G -> Prop) g :
  handling f g0 ss tp e g -> Q e g -> wp this_event Q g.
Proof. intros H HQ. unfold this_event. apply wp_gets. by rewrite (hd_evt _ _ _ _ _ _ H). Qed.

Lemma wp_hd_get f g0 ss tp e i s (Q : session -> G -> Prop) g :
  handling f g0 ss tp e g -> ss !! i = Some s -> Q s g -> wp (ssn_get (Some i)) Q g.
Proof. intros H Hs HQ. eapply wp_ssn_get; [|exact HQ]. by rewrite (hd_sessions _ _ _ _ _ _ H). Qed.

Lemma wp_hd_set f g0 ss tp e i s h (Q : unit -> G -> Prop) g :
  handling f g0 ss tp e g -> ss !! i = Some s -> (session_wf s -> session_wf (h s)) ->
  ssn_InactivityTimer (h s) = ssn_InactivityTimer s ->
  (forall g', handling f g0 (<[i := h s]> ss) tp e g' -> Q tt g') ->
  wp (ssn_update (Some i) h) Q g.
Proof.
  intros H Hs Hw Ht HQ. pose proof (hd_sessions _ _ _ _ _ _ H) as Hss.
  assert (Hwf : session_wf s).
  { eapply Forall_lookup_1; [apply (cw_sessions _ (bo_core _ (hd_base _ _ _ _ _ _ H)))|by rewrite Hss]. }
  eapply wp_ssn_set; [apply H|by rewrite Hss|by apply Hw|done|].
  intros g' Hb' M. apply HQ. rewrite Hss in M. by eapply handling_moved.
Qed.

Lemma wp_hd_restart f g0 ss tp e i s timeout (Q : unit -> G -> Prop) g :
  handling f g0 ss tp e g -> evt_ssn e = Some i -> ss !! i = Some s -> ssn_is_valid s = true ->
  (forall g' n, handling f g0 (<[i := set_ssn_timer (Some n) s]> ss) tp e g' -> Q tt g') ->
  wp (restart_inactivity_timer timeout) Q g.
Proof.
  intros H He Hs Hv HQ. pose proof (hd_sessions _ _ _ _ _ _ H) as Hss.
  eapply wp_restart_inactivity_timer; [apply H|by rewrite (hd_evt _ _ _ _ _ _ H)|by rewrite Hss|done|].
  intros g' n Hb' M. apply (HQ _ n). rewrite Hss in M. by eapply handling_moved.
Qed.

Lemma wp_hd_restart_complete f g0 ss tp e i s (Q : unit -> G -> Prop) g :
  handling f g0 ss tp e g -> evt_ssn e = Some i -> ss !! i = Some s -> ssn_is_valid s = true ->
  (forall g' n, handling f g0 (<[i := set_ssn_timer (Some n) s]> ss) tp e g' -> Q tt g') ->
  wp restart_complete Q g.
Proof.
  intros H He Hs Hv HQ. unfold restart_complete. apply wp_bind. eapply wp_hd_event; [exact H|].
  rewrite He. apply wp_bind. eapply wp_hd_get; [exact H|exact Hs|]. by eapply wp_hd_restart.
Qed.

Lemma wp_hd_invalidate f g0 ss tp e i s (Q : unit -> G -> Prop) g :
  handling f g0 ss tp e g -> ss !! i = Some s ->
  (forall g', handling f g0 (<[i := dead_session s]> ss) tp e g' -> Q tt g') ->
  wp (ssn_invalidate i) Q g.
Proof.
  intros H Hs HQ. pose proof (hd_sessions _ _ _ _ _ _ H) as Hss.
  eapply wp_ssn_invalidate; [apply H|by rewrite Hss|].
  intros g' Hb' M. apply HQ. rewrite Hss in M. by eapply handling_moved.
Qed.

Lemma wp_hd_purge f g0 ss tp e (Q : unit -> G -> Prop) g :
  handling f g0 ss tp e g -> (forall g', handling f g0 (purge <$> ss) tp e g' -> Q tt g') ->
  wp reset_temporaries Q g.
Proof.
  intros H HQ. pose proof (hd_sessions _ _ _ _ _ _ H) as Hss.
  apply wp_reset_temporaries; [apply H|]. intros g' Hb' M. apply HQ. rewrite Hss in M.
  by eapply handling_moved.
Qed.

Lemma wp_hd_retxbuf f g0 ss tp e (Q : unit -> G -> Prop) g :
  handling f g0 ss tp e g -> (forall g', handling f g0 ss tp e g' -> Q tt g') ->
  wp packetio_invalidate_retxbuf Q g.
Proof.
  intros H HQ. apply wp_invalidate_retxbuf; [apply H|]. intros x Hx. apply HQ. by apply handling_txs.
Qed.

Lemma wp_hd_promisc f g0 ss tp e b (Q : unit -> G -> Prop) g :
  handling f g0 ss tp e g -> (forall g', handling f g0 ss tp e g' -> Q tt g') ->
  wp (osl_set_promisc b) Q g.
Proof.
  intros H HQ. apply wp_osl_set_promisc; [apply H|]. intros o Ho. apply HQ. by apply handling_txs.
Qed.

(** The state of the topology session in a handler. *)
Definition topo_valid_in (ss : list session) (tp : option nat) : bool :=
  match tp with
  | Some i => match ss !! i with Some s => ssn_is_valid s | None => false end
  | None => false
  end.

Lemma wp_hd_topo_valid f g0 ss tp e (Q : bool -> G -> Prop) g :
  handling f g0 ss tp e g -> Q (topo_valid_in ss tp) g -> wp topo_session_valid Q g.
Proof.
  intros H HQ. apply wp_topo_session_valid; [apply H|]. unfold topo_valid.
  rewrite (hd_topo _ _ _ _ _ _ H), (hd_sessions _ _ _ _ _ _ H). done.
Qed.
End handling.

Section handling_more.
Context `{E : Env}.

Lemma wp_scan_stations n p limit acking (Q : bool -> G -> Prop) g :
  rx_ok (rx g) -> 0 <= p -> limit <= 2048 -> (forall b, Q b g) -> wp (scan_stations n p limit acking) Q g.
Proof.
  intros Hrx. revert p acking. induction n as [|n IH]; intros p acking Hp Hl HQ; simpl; [by wp_step|].
  unfold sizeof_etheraddr. apply wp_if; intros H1; bool_to_prop; [|by wp_step].
  apply wp_bind, wp_rx_mac; [done|lia|]. intros st _. apply wp_bind, wp_gets. apply IH; [lia|done|done].
Qed.

Lemma s32_len g : rx_ok (rx g) -> s32 (g_rcvd_pkt_len (rx g)) = g_rcvd_pkt_len (rx g).
Proof. intros [_ _ H]. unfold RXBUFSZ in H. apply s32_small. lia. Qed.

Lemma wp_hd_acking f g0 ss tp e (Q : bool -> G -> Prop) g :
  handling f g0 ss tp e g -> (forall b, Q b g) -> wp is_acking_me Q g.
Proof.
  intros H HQ. pose proof (bo_rx _ (hd_base _ _ _ _ _ _ H)) as Hrx. unfold is_acking_me.
  apply wp_bind. eapply wp_hd_event; [exact H|]. apply wp_if; intros _; [by wp_step|].
  apply wp_bind, wp_rx16; [done|by unfold mh_numstations|]. intros v _. apply wp_bind, wp_gets.
  rewrite s32_len by done. destruct (ro_len _ Hrx).
  apply wp_scan_stations; [done|by unfold sizeof_ether_header|unfold RXBUFSZ in *; lia|done].
Qed.

Lemma wp_hd_conflict f g0 ss tp e i s (Q : bool -> G -> Prop) g :
  handling f g0 ss tp e g -> ss !! i = Some s ->
  (forall k t, tp = Some k -> ss !! k = Some t -> ssn_is_valid t = true ->
     Q (bool_decide (i <> k) && (ssn_TypeOfSvc s =? ToS_TopologyDiscovery)
        && negb (ETHERADDR_EQUALS (ssn_mapper_real s) (ssn_mapper_real t))) g) ->
  (topo_valid_in ss tp = false -> Q false g) ->
  wp (is_conflicting_ssn (Some i)) Q g.
Proof.
  intros H Hs H1 H2. unfold is_conflicting_ssn. apply wp_bind. eapply wp_hd_topo_valid; [exact H|].
  apply wp_if; intros Hv; [wp_step; apply H2; by apply negb_true_iff|]. apply negb_false_iff in Hv.
  unfold topo_valid_in in Hv. destruct tp as [k|] eqn:Htp; [|done].
  destruct (ss !! k) as [t|] eqn:Ht; [|done].
  apply wp_bind, wp_gets, wp_bind. eapply wp_hd_get; [exact H|exact Hs|].
  apply wp_bind. rewrite (hd_topo _ _ _ _ _ _ H). eapply wp_hd_get; [exact H|exact Ht|]. wp_step.
  replace (bool_decide (Some i <> Some k)) with (bool_decide (i <> k)).
  - by apply H1.
  - apply bool_decide_ext. split; [intros Hn [= ->]; done|congruence].
Qed.

Lemma wp_hd_changed f g0 ss tp e i s (Q : bool -> G -> Prop) g :
  handling f g0 ss tp e g -> evt_ssn e = Some i -> ss !! i = Some s ->
  (tp = Some i -> Q true g) -> Q false g -> wp changed_XID Q g.
Proof.
  intros H He Hs Ht Hf. unfold changed_XID. apply wp_bind. eapply wp_hd_event; [exact H|].
  apply wp_bind, wp_gets, wp_bind. rewrite He. eapply wp_hd_get; [exact H|exact Hs|].
  apply wp_bind, wp_gets. wp_step. rewrite (hd_topo _ _ _ _ _ _ H).
  destruct (bool_decide (tp = Some i)) eqn:Hb.
  - apply bool_decide_eq_true in Hb. destruct (_ && _); [by apply Ht|done].
  - by rewrite andb_false_r.
Qed.

(** A new mapping pass: the topology machine is reset and the session, kept,
    gets the new identifier. *)
Lemma wp_hd_new_XID g0 ss e i s (Q : unit -> G -> Prop) g :
  handling false g0 ss (Some i) e g -> evt_ssn e = Some i -> ss !! i = Some s ->
  evtType e = evtDiscoverRcvd ->
  (forall g' x, handling false g0 (<[i := set_ssn_XID x s]> ss) (Some i) e g' -> Q tt g') ->
  wp reset_for_new_XID Q g.
Proof.
  intros H He Hs Hty HQ. unfold reset_for_new_XID. apply wp_bind. eapply wp_hd_event; [exact H|].
  apply wp_bind. eapply wp_hd_evt; [exact H|]. intros g1 H1. apply wp_bind.
  eapply wp_hd_evt; [exact H1|]. intros g2 H2. clear g1 H1. pose proof H2 as H2'.
  destruct H2 as [B T S P V sE rR qQ bB tB tH].
  assert (Hf : firing g2 = false) by (unfold firing; by rewrite V).
  apply wp_bind, wp_smT_process_event; [done|by rewrite Hf| |by rewrite Hf|by rewrite P|].
  { intros Hx. by rewrite V in Hx. }
  intros st g3 [B3 T3 [F1 F2 F3 [ty F4] F5 F6 F7 F8 F9] R3]. rewrite V in F4, R3, F9.
  assert (Htopo : g_topo_session (co g3) = None).
  { apply R3; [by right|]. by rewrite P. }
  assert (Hq : g_smT_state (co g3) = smT_Quiescent).
  { destruct F9 as [F9|(_ & F9 & _)]; [congruence|done]. }
  assert (Hi : (i < MAX_NUM_SESSIONS)%nat).
  { apply (cw_topo _ (bo_core _ (hd_base _ _ _ _ _ _ H))). by rewrite (hd_topo _ _ _ _ _ _ H). }
  do 6 wp_step. rewrite He. apply wp_bind, wp_gets.
  match goal with |- wp _ _ ?s => set (g4 := s) end.
  assert (B4 : base_ok g4).
  { unfold g4. assert (B3' : base_ok (evt_update (set_isInternalEvt (isInternalEvt e))
                    (evt_update (set_evtType evtDiscoverRcvd) g3))) by base_same.
    destruct B3' as [b1 b2 [w1 w2 w3 w4] b4 b5 b6]. split; try done.
    - by eapply io_ok_ext; [..|exact b1].
    - split; try done. by intros ? [= <-].
    - apply (timers_ok_ext (evt_update (set_isInternalEvt (isInternalEvt e))
                    (evt_update (set_evtType evtDiscoverRcvd) g3))); [done| |done]. by intros []. }
  assert (T4 : smT_inv false g4).
  { destruct T3 as [c3 s3]. split; [by eapply charge_ok_ext; [..|exact c3]|]. simpl. rewrite Hq in *. done. }
  assert (H4 : handling false g0 ss (Some i) e g4).
  { split; [done|done|simpl; congruence|done| |simpl; congruence|simpl; congruence|simpl; congruence
           |simpl; congruence| |].
    - simpl. rewrite F4. destruct e; simpl in *. by subst.
    - change (timer_get T_block g4) with (timer_get T_block g3). rewrite F5 by done. exact tB.
    - change (timer_get T_hello g4) with (timer_get T_hello g3). rewrite F5 by done. exact tH. }
  eapply wp_hd_set; [exact H4|exact Hs|done|done|]. intros g5 H5. by eapply HQ.
Qed.
End handling_more.

(** ** The session table as a value *)

(** The invariant of a table and a topology session; [sess_inv] of a core. *)
Definition table_inv (x : option nat) (ss : list session) (tp : option nat) : Prop :=
  (forall j s, ss !! j = Some s -> Some j <> x -> session_state_ok s)
  /\ mappers_unique ss
  /\ match tp with
     | None => no_temporaries ss
     | Some k => exists s, ss !! k = Some s /\ topo_session_ok s
     end.

Definition table_stale (i : nat) (ss : list session) (tp : option nat) : Prop :=
  tp = Some i /\ (forall j s, ss !! j = Some s -> session_state_ok s) /\ mappers_unique ss
  /\ (exists s, ss !! i = Some s /\ ssn_is_valid s = false) /\ no_temporaries ss.

Definition table_nonempty (ss : list session) : Prop :=
  exists j s, ss !! j = Some s /\ ssn_is_valid s = true.

Lemma lookup_insert_cases (ss : list session) i j x s :
  <[i := x]> ss !! j = Some s -> (i = j /\ s = x /\ (i < length ss)%nat) \/ (i <> j /\ ss !! j = Some s).
Proof.
  destruct (decide (i = j)) as [->|Hne].
  - intros H. assert (Hl : (j < length ss)%nat).
    { destruct (decide (j < length ss)%nat) as [?|Hn]; [done|].
      rewrite list_insert_ge in H by lia. apply lookup_lt_Some in H. lia. }
    rewrite list_lookup_insert_eq in H by done. injection H as <-. by left.
  - rewrite list_lookup_insert_ne by done. by right.
Qed.

(** Replacing a session by one with the same mapper that is not newly valid. *)
Lemma unique_insert ss i s s' :
  mappers_unique ss -> ss !! i = Some s -> ssn_mapper_real s' = ssn_mapper_real s ->
  (ssn_is_valid s' = true -> ssn_is_valid s = true) -> mappers_unique (<[i := s']> ss).
Proof.
  intros Hu Hs Hm Hv a b x y Ha Hb Hxv Hyv Hr.
  apply lookup_insert_cases in Ha as [(<- & -> & _)|[Hna Ha]];
    apply lookup_insert_cases in Hb as [(<- & -> & _)|[Hnb Hb]]; try done.
  - eapply Hu; [exact Hs|exact Hb|auto|done|congruence].
  - eapply Hu; [exact Ha|exact Hs|done|auto|congruence].
  - by eapply Hu.
Qed.

Lemma table_inv_set ss tp i s s' :
  table_inv (Some i) ss tp -> ss !! i = Some s -> ssn_mapper_real s' = ssn_mapper_real s ->
  (ssn_is_valid s' = true -> ssn_is_valid s = true) -> session_state_ok s' ->
  (tp = None -> ssn_is_valid s' = true -> ssn_state s' <> smS_Temporary) ->
  (tp = Some i -> topo_session_ok s') ->
  table_inv None (<[i := s']> ss) tp.
Proof.
  intros (He & Hu & Ht) Hs Hm Hv Hok Htemp Htopo. split; [|split; [by eapply unique_insert|]].
  - intros j t Hj _. apply lookup_insert_cases in Hj as [(<- & -> & _)|[Hne Hj]]; [done|].
    eapply He; [exact Hj|congruence].
  - destruct tp as [k|].
    + destruct (decide (k = i)) as [->|Hne].
      * exists s'. split; [by eapply lookup_insert_some|by apply Htopo].
      * destruct Ht as (t & Ht & Hto). exists t. by rewrite list_lookup_insert_ne.
    + intros j t Hj Hvt. apply lookup_insert_cases in Hj as [(<- & -> & _)|[Hne Hj]]; [by apply Htemp|].
      by eapply Ht.
Qed.

Lemma dead_ok s : session_state_ok (dead_session s).
Proof. done. Qed.

(** Invalidating a session that is not the topology session. *)
Lemma table_inv_kill ss tp i s :
  table_inv (Some i) ss tp -> ss !! i = Some s -> tp <> Some i ->
  table_inv None (<[i := dead_session s]> ss) tp.
Proof. intros H Hs Ht. eapply table_inv_set; [exact H|exact Hs|done|done|done|done|done]. Qed.

Lemma purge_cases s : (purge s = s /\ (ssn_is_valid s = true -> ssn_state s <> smS_Temporary))
  \/ (purge s = dead_session s /\ ssn_is_valid s = true /\ ssn_state s = smS_Temporary).
Proof.
  unfold purge. destruct (ssn_is_valid s) eqn:Hv; simpl; [|by left].
  destruct (bool_decide (ssn_state s = smS_Temporary)) eqn:Hb.
  - apply bool_decide_eq_true in Hb. by right.
  - apply bool_decide_eq_false in Hb. by left.
Qed.

(** Invalidating the topology session with the Temporary ones. *)
Lemma table_stale_kill ss i s :
  table_inv (Some i) ss (Some i) -> (purge <$> ss) !! i = Some s ->
  table_stale i (<[i := dead_session s]> (purge <$> ss)) (Some i).
Proof.
  intros (He & Hu & (t & Ht & Hto)) Hs.
  assert (Hup : mappers_unique (purge <$> ss)).
  { intros a b x y Ha Hb Hxv Hyv Hr.
    apply list_lookup_fmap_Some in Ha as (x0 & -> & Ha). apply list_lookup_fmap_Some in Hb as (y0 & -> & Hb).
    destruct (purge_cases x0) as [[Hx _]|(Hx & _)]; rewrite Hx in *; [|done].
    destruct (purge_cases y0) as [[Hy _]|(Hy & _)]; rewrite Hy in *; [|done]. by eapply Hu. }
  split; [done|]. split; [|split; [by eapply unique_insert|split]].
  - intros j x Hj. apply lookup_insert_cases in Hj as [(<- & -> & _)|[Hne Hj]]; [done|].
    apply list_lookup_fmap_Some in Hj as (x0 & -> & Hj).
    destruct (purge_cases x0) as [[-> _]|(-> & _)]; [|done]. eapply He; [exact Hj|congruence].
  - exists (dead_session s). split; [by eapply lookup_insert_some|done].
  - intros j x Hj Hv. apply lookup_insert_cases in Hj as [(<- & -> & _)|[Hne Hj]]; [done|].
    apply list_lookup_fmap_Some in Hj as (x0 & -> & Hj).
    destruct (purge_cases x0) as [[Hp Hn]|(Hp & _)]; rewrite Hp in *; [by apply Hn|done].
Qed.

Lemma sess_inv_table x r : sess_inv x r <-> table_inv x (g_sessions r) (g_topo_session r).
Proof.
  split; [intros [H1 H2 H3]; by split|intros (H1 & H2 & H3); by split].
Qed.

Lemma table_inv_weaken x ss tp : table_inv None ss tp -> table_inv x ss tp.
Proof. intros (H1 & H2 & H3). split; [|done]. intros j s Hj _. by eapply H1. Qed.

Lemma table_inv_nonempty x ss k : table_inv x ss (Some k) -> table_nonempty ss.
Proof. intros (_ & _ & s & Hs & Hv & _). by exists k, s. Qed.

(** The session an event may be given to. *)
Definition ssn_ready (e : protocol_event) (s : session) : Prop :=
  ssn_is_valid s = true /\
  match ssn_state s with
  | smS_Nascent => evtType e = evtDiscoverRcvd /\ ssn_InactivityTimer s = None
  | smS_Temporary => ssn_InactivityTimer s = None
  | smS_Pending | smS_Complete => evtType e = evtInactivityTimeout \/ is_Some (ssn_InactivityTimer s)
  end.

(** The event is the same but for the answer of [is_acking_me]. *)
Definition same_event (e e' : protocol_event) : Prop :=
  evtType e' = evtType e /\ evt_ssn e' = evt_ssn e /\ isNewSession e' = isNewSession e
  /\ numDescrs e' = numDescrs e.

(** The result of a handler of session [i]. *)
Record smS_result `{E : Env} (f : bool) (g0 : G) (e : protocol_event) (i : nat) (g : G) : Prop := SmSResult {
  sr_handling : exists ss tp e', handling f g0 ss tp e' g /\ same_event e e'
    /\ ((table_inv None ss tp /\ (is_reset e -> tp <> Some i)) \/ (is_reset e /\ table_stale i ss tp))
    /\ (~ is_reset e -> table_nonempty ss)
    /\ (evtType e = evtDiscoverRcvd -> exists s, ss !! i = Some s /\ ssn_is_valid s = true)
}.

Lemma same_event_refl e : same_event e e.
Proof. done. Qed.

(** An event whose type is known is not a reset. *)
Ltac not_reset := let H := fresh in intros [H|H]; congruence.

Ltac bind_hd H lem := apply wp_bind; eapply lem; [exact H|..].

Section handlers.
Context `{E : Env}.

Lemma smS_unchanged f g0 ss tp e i s g :
  handling f g0 ss tp e g -> table_inv (Some i) ss tp -> ss !! i = Some s -> ssn_ready e s ->
  ssn_state s <> smS_Nascent -> evtType e <> evtInactivityTimeout -> ~ is_reset e ->
  smS_result f g0 e i g.
Proof.
  intros H Ht Hs [Hv Hr] Hn Hi Hnr. split. exists ss, tp, e. split; [done|]. split; [done|].
  split; [|split; [intros _; by exists i, s|intros _; by exists s]].
  left. split; [|done]. destruct Ht as (He & Hu & Hto). split; [|done]. intros j x Hj _.
  destruct (decide (j = i)) as [->|Hne]; [|eapply He; [exact Hj|congruence]].
  rewrite Hs in Hj. injection Hj as <-. unfold session_state_ok. rewrite Hv.
  destruct (ssn_state s); try done; by destruct Hr.
Qed.

(** A session that stays valid, with its timer running. *)
Lemma smS_valid f g0 ss tp e e' i s s' g :
  handling f g0 (<[i := s']> ss) tp e' g -> same_event e e' -> table_inv (Some i) ss tp ->
  ss !! i = Some s -> ssn_is_valid s = true -> ssn_is_valid s' = true ->
  ssn_mapper_real s' = ssn_mapper_real s -> ssn_TypeOfSvc s' = ssn_TypeOfSvc s ->
  is_Some (ssn_InactivityTimer s') -> (ssn_state s' = smS_Pending \/ ssn_state s' = smS_Complete) ->
  ~ is_reset e -> smS_result f g0 e i g.
Proof.
  intros H He Ht Hs Hv Hv' Hm Htos Htm Hst Hnr. split. exists (<[i := s']> ss), tp, e'.
  assert (Hl : <[i := s']> ss !! i = Some s') by (by eapply lookup_insert_some).
  split; [done|]. split; [done|].
  split; [|split; [intros _; by exists i, s'|intros _; by exists s']].
  left. split; [|done]. eapply table_inv_set; [exact Ht|exact Hs|done|done| | |].
  - unfold session_state_ok. rewrite Hv'. by destruct Hst as [-> | ->].
  - intros _ _ Hx. rewrite Hx in Hst. by destruct Hst.
  - intros ->. split; [done|]. split; [done|]. rewrite Htos.
    destruct Ht as (_ & _ & t & Ht & _ & _ & Hto). congruence.
Qed.

(** Invalidating a session that is not the topology session, on any event. *)
Lemma smS_killed f g0 ss tp e i s g :
  handling f g0 (<[i := dead_session s]> ss) tp e g -> table_inv (Some i) ss tp ->
  ss !! i = Some s -> tp <> Some i -> (~ is_reset e -> exists k, tp = Some k) ->
  evtType e <> evtDiscoverRcvd -> smS_result f g0 e i g.
Proof.
  intros H Ht Hs Htp Hk Hd. split. exists (<[i := dead_session s]> ss), tp, e.
  pose proof (table_inv_kill _ _ _ _ Ht Hs Htp) as Hi.
  split; [done|]. split; [done|]. split; [by left|]. split; [|done].
  intros Hnr. destruct (Hk Hnr) as [k ->]. by eapply table_inv_nonempty.
Qed.

Lemma purge_lookup (ss : list session) (i : nat) s : ss !! i = Some s -> (purge <$> ss) !! i = Some (purge s).
Proof. intros H. by rewrite list_lookup_fmap, H. Qed.

(** The reset of the Pending and Complete states; [m] is what each of them
    does when the session is the topology session. *)
Lemma wp_ssn_reset f g0 ss tp e i s (m : CM unit) (Q : sm_Status -> G -> Prop) g :
  handling f g0 ss tp e g -> evt_ssn e = Some i -> ss !! i = Some s -> table_inv (Some i) ss tp ->
  is_reset e ->
  (forall P : unit -> G -> Prop,
     (forall g'', handling f g0 (purge <$> ss) tp e g'' -> P tt g'') -> wp m P g) ->
  (forall g', smS_result f g0 e i g' -> Q PROCESSING_COMPLETED g') ->
  wp (topo ← gets evt_is_topo;
      valid ← (if topo : bool then topo_session_valid else mret false);
      when valid m;;
      i ← deref (evt_ssn e);
      ssn_invalidate i;;
      packetio_invalidate_retxbuf;;
      mret PROCESSING_COMPLETED) Q g.
Proof.
  intros H He Hs Ht Hre Hm HQ. apply wp_bind, wp_gets.
  assert (Hd : evtType e <> evtDiscoverRcvd) by (destruct Hre; congruence).
  unfold evt_is_topo. rewrite (hd_evt _ _ _ _ _ _ H), (hd_topo _ _ _ _ _ _ H), He.
  destruct (decide (Some i = tp)) as [<-|Hne].
  - rewrite bool_decide_eq_true_2 by done. bind_hd H @wp_hd_topo_valid.
    destruct Ht as (Ht1 & Ht2 & t & Hit & Hto). rewrite Hs in Hit. injection Hit as <-.
    unfold topo_valid_in. rewrite Hs, (proj1 Hto). apply wp_bind, wp_when; [intros _|done].
    apply Hm. intros g2 H2.
    apply wp_bind, (wp_deref _ _ _ i); [done|].
    bind_hd H2 @wp_hd_invalidate; [by apply purge_lookup|]. intros g3 H3.
    bind_hd H3 @wp_hd_retxbuf. intros g4 H4. wp_step. apply HQ. split.
    eexists _, _, _. split; [exact H4|]. split; [done|]. split; [right; split; [done|]|split; [done|done]].
    apply table_stale_kill; [|by apply purge_lookup]. split; [done|]. split; [done|]. by exists s.
  - rewrite bool_decide_eq_false_2 by done. apply wp_bind. wp_step. apply wp_bind, wp_when; [done|intros _].
    apply wp_bind, (wp_deref _ _ _ i); [done|].
    bind_hd H @wp_hd_invalidate; [exact Hs|]. intros g3 H3.
    bind_hd H3 @wp_hd_retxbuf. intros g4 H4. wp_step. apply HQ.
    eapply smS_killed; [exact H4|done|done|congruence|done|done].
Qed.
End handlers.

Section nascent.
Context `{E : Env}.

(** The first topology Discover makes its session the topology session. *)
Lemma wp_hd_set_topo f g0 ss e i (Q : unit -> G -> Prop) g :
  handling f g0 ss None e g -> (i < MAX_NUM_SESSIONS)%nat ->
  (forall g', handling f g0 ss (Some i) e g' -> Q tt g') ->
  wp (modify (set_g_topo_session (Some i))) Q g.
Proof.
  intros H Hi HQ. wp_step. apply HQ. destruct H as [B T S P V sE rR qQ bB tB tH].
  split; try done.
  - destruct B as [b1 b2 [w1 w2 w3 w4] b4 b5 b6]. split; try done.
    + by eapply io_ok_ext; [..|exact b1].
    + split; try done. by intros ? [= <-].
    + apply (timers_ok_ext g); [done| |done]. by intros [].
  - destruct T as [c s]. split; [by eapply charge_ok_ext; [..|exact c]|]. simpl.
    destruct (g_smT_state (co g)); [done|tauto|tauto].
Qed.

Lemma topo_valid_table x ss tp : table_inv x ss tp -> topo_valid_in ss tp = bool_decide (tp <> None).
Proof.
  intros (_ & _ & Ht). destruct tp as [k|]; [|done].
  destruct Ht as (s & Hs & Hv & _). simpl. by rewrite Hs, Hv.
Qed.

(** The new session in its first state. *)
Lemma smS_first_state f g0 ss tp tp' e e' i s s' g :
  handling f g0 (<[i := s']> ss) tp' e' g -> same_event e e' -> table_inv (Some i) ss tp ->
  ss !! i = Some s -> ssn_is_valid s = true -> ssn_state s = smS_Nascent ->
  (tp' = tp \/ (tp = None /\ tp' = Some i /\ ssn_TypeOfSvc s = ToS_TopologyDiscovery)) ->
  ~ is_reset e -> ssn_is_valid s' = true -> ssn_mapper_real s' = ssn_mapper_real s ->
  ssn_TypeOfSvc s' = ssn_TypeOfSvc s -> ssn_state s' <> smS_Nascent ->
  session_state_ok s' -> (ssn_state s' = smS_Temporary -> tp <> None) ->
  smS_result f g0 e i g.
Proof.
  intros H He Ht Hs Hv Hn Htp Hnr Hv' Hm Htos Hn' Hok Htemp. split. exists (<[i := s']> ss), tp', e'.
  assert (Hl : <[i := s']> ss !! i = Some s') by (by eapply lookup_insert_some).
  split; [done|]. split; [done|].
  split; [left; split; [|done]|split; [intros _; by exists i, s'|intros _; by exists s']].
  assert (H0 : table_inv None (<[i := s']> ss) tp).
  { eapply table_inv_set; [exact Ht|exact Hs|done|done|done| |].
    - intros Htpn _ Hx. by apply Htemp.
    - intros ->. destruct Ht as (_ & _ & t & Hti & _ & [Hx|Hx] & _); congruence. }
  destruct Htp as [->|(-> & -> & Hto)]; [done|]. destruct H0 as (H1 & H2 & H3).
  split; [done|]. split; [done|]. exists s'. split; [done|]. split; [done|]. split; [|congruence].
  destruct (ssn_state s') eqn:Hst; tauto.
Qed.

Lemma wp_smS_NascentHandler f g0 ss tp e i s (Q : sm_Status -> G -> Prop) g :
  handling f g0 ss tp e g -> evt_ssn e = Some i -> ss !! i = Some s -> table_inv (Some i) ss tp ->
  ssn_ready e s -> ssn_state s = smS_Nascent ->
  (forall g', smS_result f g0 e i g' -> Q PROCESSING_COMPLETED g') -> wp smS_NascentHandler Q g.
Proof.
  intros H He Hs Ht [Hv Hr] Hn HQ. rewrite Hn in Hr. destruct Hr as [Hty Htm].
  assert (Hi : (i < MAX_NUM_SESSIONS)%nat).
  { rewrite <- (cw_size _ (bo_core _ (hd_base _ _ _ _ _ _ H))), (hd_sessions _ _ _ _ _ _ H).
    by eapply lookup_lt_Some. }
  unfold smS_NascentHandler. bind_hd H @wp_hd_event. rewrite Hty, He.
  bind_hd H @wp_hd_get; [exact Hs|].
  match goal with |- wp (_ ≫= ?k) ?Q _ => set (K := k) end.
  (* what follows the choice of the topology session *)
  assert (Hrest : forall tp' g1, handling f g0 ss tp' e g1 ->
    (tp' = tp /\ (tp = None -> ssn_TypeOfSvc s <> ToS_TopologyDiscovery)
     \/ (tp = None /\ tp' = Some i /\ ssn_TypeOfSvc s = ToS_TopologyDiscovery)) -> wp (K tt) Q g1).
  { intros tp' g1 H1 Htp. unfold K. cbv beta.
    (* without a conflict the session is Complete or Pending *)
    assert (Hok : forall g2, handling f g0 ss tp' e g2 ->
      wp ((acking ← is_acking_me;
           if acking : bool then
             modify (evt_update (set_isAckingMe true));;
             ssn_update (Some i) (set_ssn_state smS_Complete);; restart_complete
           else
             modify (evt_update (set_isAckingMe false));;
             ssn_update (Some i) (set_ssn_state smS_Pending);;
             restart_inactivity_timer TOPO_HELLO_ACTIVITYTIMEOUT);; mret PROCESSING_COMPLETED) Q g2).
    { intros g2 H2. apply wp_bind. bind_hd H2 @wp_hd_acking. intros [].
      - bind_hd H2 @wp_hd_evt. intros g3 H3. bind_hd H3 @wp_hd_set; [exact Hs|done|done|].
        intros g4 H4. eapply wp_hd_restart_complete; [exact H4|done|by eapply lookup_insert_some|done|].
        intros g5 n H5. wp_step. rewrite insert_insert_same in H5. apply HQ.
        eapply smS_first_state; [exact H5|done|exact Ht|exact Hs|done|done| |by not_reset|done|done|done|done| |done].
        + destruct Htp as [[-> _]|?]; [by left|by right].
        + unfold session_state_ok. simpl. rewrite Hv. by eexists.
      - bind_hd H2 @wp_hd_evt. intros g3 H3. bind_hd H3 @wp_hd_set; [exact Hs|done|done|].
        intros g4 H4. eapply wp_hd_restart; [exact H4|done|by eapply lookup_insert_some|done|].
        intros g5 n H5. wp_step. rewrite insert_insert_same in H5. apply HQ.
        eapply smS_first_state; [exact H5|done|exact Ht|exact Hs|done|done| |by not_reset|done|done|done|done| |done].
        + destruct Htp as [[-> _]|?]; [by left|by right].
        + unfold session_state_ok. simpl. rewrite Hv. by eexists. }
    bind_hd H1 @wp_hd_conflict; [exact Hs| |].
    - intros k t Hk Hkt Hkv. destruct (decide (i = k)) as [<-|Hne].
      + rewrite bool_decide_eq_false_2 by tauto. simpl. apply Hok, H1.
      + rewrite bool_decide_eq_true_2 by done. simpl.
        destruct (Z.eqb_spec (ssn_TypeOfSvc s) ToS_TopologyDiscovery) as [Hto|Hto]; simpl; [|apply Hok, H1].
        destruct (ETHERADDR_EQUALS (ssn_mapper_real s) (ssn_mapper_real t)) eqn:Heq; simpl; [apply Hok, H1|].
        destruct Htp as [[-> Hno]|(-> & -> & _)]; [|congruence].
        apply wp_bind. eapply wp_hd_set; [exact H1|exact Hs|done|done|]. intros g2 H2. wp_step. apply HQ.
        eapply smS_first_state; [exact H2|done|exact Ht|exact Hs|done|done|by left|by not_reset|done|done|done|done| |].
        * unfold session_state_ok. simpl. by rewrite Hv.
        * congruence.
    - intros _. apply Hok, H1. }
  apply wp_bind, wp_if; intros Hto; bool_to_prop.
  - bind_hd H @wp_hd_topo_valid. rewrite (topo_valid_table _ _ _ Ht). apply wp_when; intros Hx.
    + apply negb_true_iff, bool_decide_eq_false in Hx.
      assert (Htn : tp = None) by (destruct tp; [by destruct Hx|done]). subst tp.
      eapply wp_hd_set_topo; [exact H|done|]. intros g1 H1. apply (Hrest (Some i)); [done|by right].
    + apply negb_false_iff, bool_decide_eq_true in Hx. apply (Hrest tp); [done|]. by left.
  - wp_step. apply (Hrest tp); [done|]. left. split; [done|]. by intros _.
Qed.
End nascent.

Section other_handlers.
Context `{E : Env}.

(** The new-XID part of a Discover from a known mapper: the session may get
    a new identifier. *)
Lemma wp_maybe_new_XID {A} f g0 ss tp e i s (k : bool -> CM A) (Q : A -> G -> Prop) g :
  handling f g0 ss tp e g -> f = false -> evt_ssn e = Some i -> ss !! i = Some s ->
  evtType e = evtDiscoverRcvd ->
  (forall x g' c, handling f g0 (<[i := set_ssn_XID x s]> ss) tp e g' -> wp (k c) Q g') ->
  wp (changed ← changed_XID; when changed reset_for_new_XID;; k changed) Q g.
Proof.
  intros H -> He Hs Hty Hk. bind_hd H @wp_hd_changed; [done|exact Hs| |].
  - intros ->. apply wp_bind. simpl. eapply wp_hd_new_XID; [exact H|done|exact Hs|done|].
    intros g' x H'. by eapply Hk.
  - apply wp_bind. simpl. apply wp_ret. apply (Hk (ssn_XID s)).
    replace (set_ssn_XID (ssn_XID s) s) with s by (by destruct s). by rewrite list_insert_id.
Qed.

Lemma wp_smS_PendingHandler f g0 ss tp e i s (Q : sm_Status -> G -> Prop) g :
  handling f g0 ss tp e g -> evt_ssn e = Some i -> ss !! i = Some s -> table_inv (Some i) ss tp ->
  ssn_ready e s -> ssn_state s = smS_Pending -> (evtType e = evtDiscoverRcvd -> f = false) ->
  (forall g', smS_result f g0 e i g' -> Q PROCESSING_COMPLETED g') -> wp smS_PendingHandler Q g.
Proof.
  intros H He Hs Ht Hr Hn Hf HQ. pose proof Hr as [Hv Hr']. rewrite Hn in Hr'.
  unfold smS_PendingHandler. bind_hd H @wp_hd_event.
  destruct (evtType e) eqn:Hty;
    try (wp_step; apply HQ; eapply smS_unchanged; [exact H|exact Ht|exact Hs|exact Hr|congruence|congruence|];
         intros [Hx|Hx]; congruence).
  - bind_hd H @wp_hd_acking. intros [].
    + apply wp_bind. bind_hd H @wp_hd_evt. intros g1 H1.
      eapply (wp_maybe_new_XID _ _ _ _ _ _ _ (fun _ => ssn_update (evt_ssn e) (set_ssn_state smS_Complete);; restart_complete));
        [exact H1|by apply Hf|done|exact Hs|done|]. intros x g2 _ H2. rewrite He.
      assert (Hl : <[i := set_ssn_XID x s]> ss !! i = Some (set_ssn_XID x s)) by (by eapply lookup_insert_some).
      bind_hd H2 @wp_hd_set; [exact Hl|done|done|]. intros g3 H3. rewrite insert_insert_same in H3.
      eapply wp_hd_restart_complete; [exact H3|done|by eapply lookup_insert_some|done|].
      intros g4 n H4. wp_step. rewrite insert_insert_same in H4. apply HQ.
      eapply smS_valid; [exact H4|done|exact Ht|exact Hs|done|done|done|done|by eexists|by right|by not_reset].
    + apply wp_bind.
      eapply (wp_maybe_new_XID _ _ _ _ _ _ _ (fun _ => restart_inactivity_timer TOPO_HELLO_ACTIVITYTIMEOUT));
        [exact H|by apply Hf|done|exact Hs|done|]. intros x g2 _ H2.
      assert (Hl : <[i := set_ssn_XID x s]> ss !! i = Some (set_ssn_XID x s)) by (by eapply lookup_insert_some).
      eapply wp_hd_restart; [exact H2|done|exact Hl|done|].
      intros g4 n H4. wp_step. rewrite insert_insert_same in H4. apply HQ.
      eapply smS_valid; [exact H4|done|exact Ht|exact Hs|done|done|done|done|by eexists|by left|by not_reset].
  - eapply wp_ssn_reset; [exact H|done|exact Hs|done|by right| |exact HQ].
    intros P HP. by eapply wp_hd_purge.
  - rewrite He. bind_hd H @wp_hd_set; [exact Hs|done|done|]. intros g1 H1.
    set (s1 := set_ssn_count (u32 (ssn_count s - 1)) s) in *.
    assert (Hl : <[i := s1]> ss !! i = Some s1) by (by eapply lookup_insert_some).
    assert (Hsome : is_Some (ssn_InactivityTimer s)) by (destruct Hr'; congruence || done).
    bind_hd H1 @wp_hd_get; [exact Hl|]. apply wp_bind, wp_when; intros _.
    + eapply wp_hd_set; [exact H1|exact Hl|done|done|]. intros g2 H2. rewrite insert_insert_same in H2.
      wp_step. apply HQ.
      eapply smS_valid; [exact H2|done|exact Ht|exact Hs|done|done|done|done|done|by right|by not_reset].
    + wp_step. apply HQ.
      eapply smS_valid; [exact H1|done|exact Ht|exact Hs|done|done|done|done|done|by left|by not_reset].
  - eapply wp_ssn_reset; [exact H|done|exact Hs|done|by left| |exact HQ].
    intros P HP. by eapply wp_hd_purge.
Qed.

Lemma wp_smS_TemporaryHandler f g0 ss tp e i s (Q : sm_Status -> G -> Prop) g :
  handling f g0 ss tp e g -> evt_ssn e = Some i -> ss !! i = Some s -> table_inv (Some i) ss tp ->
  ssn_ready e s -> ssn_state s = smS_Temporary ->
  (forall g', smS_result f g0 e i g' -> Q PROCESSING_COMPLETED g') -> wp smS_TemporaryHandler Q g.
Proof.
  intros H He Hs Ht Hr Hn HQ. pose proof Hr as [Hv Hr']. rewrite Hn in Hr'.
  assert (Htp : tp <> Some i).
  { intros ->. destruct Ht as (_ & _ & t & Hti & _ & [Hx|Hx] & _); congruence. }
  assert (Hk : exists k, tp = Some k).
  { destruct tp as [k|]; [by exists k|]. destruct Ht as (_ & _ & Hno). by destruct (Hno i s Hs Hv). }
  unfold smS_TemporaryHandler. bind_hd H @wp_hd_event.
  destruct (evtType e) eqn:Hty;
    try (wp_step; apply HQ; eapply smS_unchanged; [exact H|exact Ht|exact Hs|exact Hr|congruence|congruence|];
         intros [Hx|Hx]; congruence);
    apply wp_bind, (wp_deref _ _ _ i); try done;
    bind_hd H @wp_hd_invalidate; try exact Hs; intros g1 H1; wp_step; apply HQ;
    (eapply smS_killed; [exact H1|done|done|done|done|congruence]).
Qed.

Lemma wp_smS_CompleteHandler f g0 ss tp e i s (Q : sm_Status -> G -> Prop) g :
  handling f g0 ss tp e g -> evt_ssn e = Some i -> ss !! i = Some s -> table_inv (Some i) ss tp ->
  ssn_ready e s -> ssn_state s = smS_Complete -> (evtType e = evtDiscoverRcvd -> f = false) ->
  (forall g', smS_result f g0 e i g' -> Q PROCESSING_COMPLETED g') -> wp smS_CompleteHandler Q g.
Proof.
  intros H He Hs Ht Hr Hn Hf HQ. pose proof Hr as [Hv Hr']. rewrite Hn in Hr'.
  (* restarting the timer of the session, in whatever state it is now *)
  assert (Hrestart : forall s1 e1 g1, handling f g0 (<[i := s1]> ss) tp e1 g1 -> same_event e e1 ->
    ssn_is_valid s1 = true -> ssn_mapper_real s1 = ssn_mapper_real s ->
    ssn_TypeOfSvc s1 = ssn_TypeOfSvc s -> ssn_state s1 = smS_Complete -> ~ is_reset e ->
    wp (restart_complete;; mret PROCESSING_COMPLETED) Q g1).
  { intros s1 e1 g1 H1 He1 Hv1 Hm1 Ht1 Hc1 Hnr. apply wp_bind. eapply wp_hd_restart_complete;
      [exact H1|by rewrite (proj1 (proj2 He1))|by eapply lookup_insert_some|done|].
    intros g2 n H2. wp_step. rewrite insert_insert_same in H2. apply HQ.
    eapply smS_valid; [exact H2|done|exact Ht|exact Hs|done|done|done|done|by eexists|by right|done]. }
  assert (H' : handling f g0 (<[i := s]> ss) tp e g) by (by rewrite list_insert_id).
  unfold smS_CompleteHandler. bind_hd H @wp_hd_event.
  destruct (evtType e) eqn:Hty;
    try (wp_step; apply HQ; eapply smS_unchanged; [exact H|exact Ht|exact Hs|exact Hr|congruence|congruence|];
         intros [Hx|Hx]; congruence);
    try (eapply Hrestart; [exact H'|done..|by not_reset]).
  - bind_hd H @wp_hd_acking. intros [].
    + apply wp_bind. bind_hd H @wp_hd_evt. intros g1 H1.
      eapply (wp_maybe_new_XID _ _ _ _ _ _ _ (fun _ => restart_complete));
        [exact H1|by apply Hf|done|exact Hs|done|]. intros x g2 _ H2.
      eapply wp_hd_restart_complete; [exact H2|done|by eapply lookup_insert_some|done|].
      intros g3 n H3. wp_step. rewrite insert_insert_same in H3. apply HQ.
      eapply smS_valid; [exact H3|done|exact Ht|exact Hs|done|done|done|done|by eexists|by right|by not_reset].
    + apply wp_bind, wp_bind. eapply wp_hd_changed; [exact H|done|exact Hs| |].
      * intros ->. apply wp_bind. rewrite Hf in * by done.
        eapply wp_hd_new_XID; [exact H|done|exact Hs|done|]. intros g1 x H1. rewrite He.
        bind_hd H1 @wp_hd_set; [by eapply lookup_insert_some|done|done|]. intros g2 H2.
        rewrite insert_insert_same in H2.
        eapply wp_hd_restart; [exact H2|done|by eapply lookup_insert_some|done|].
        intros g3 n H3. wp_step. rewrite insert_insert_same in H3. apply HQ.
        eapply smS_valid; [exact H3|done|exact Ht|exact Hs|done|done|done|done|by eexists|by left|by not_reset].
      * eapply wp_hd_restart_complete; [exact H|done|exact Hs|done|].
        intros g3 n H3. wp_step. apply HQ.
        eapply smS_valid; [exact H3|done|exact Ht|exact Hs|done|done|done|done|by eexists|by right|by not_reset].
  - eapply wp_ssn_reset; [exact H|done|exact Hs|done|by right| |exact HQ].
    intros P HP. bind_hd H @wp_hd_purge. intros g1 H1. by eapply wp_hd_promisc.
  - eapply wp_ssn_reset; [exact H|done|exact Hs|done|by left| |exact HQ].
    intros P HP. bind_hd H @wp_hd_purge. intros g1 H1. by eapply wp_hd_promisc.
Qed.

(** The session machine on an event of session [i]. *)
Lemma wp_smS_process_event f g0 ss tp e i s (Q : sm_Status -> G -> Prop) g :
  handling f g0 ss tp e g -> evt_ssn e = Some i -> ss !! i = Some s -> table_inv (Some i) ss tp ->
  ssn_ready e s -> (evtType e = evtDiscoverRcvd -> f = false) ->
  (forall g', smS_result f g0 e i g' -> Q PROCESSING_COMPLETED g') -> wp smS_process_event Q g.
Proof.
  intros H He Hs Ht Hr Hf HQ. unfold smS_process_event. bind_hd H @wp_hd_event. rewrite He.
  bind_hd H @wp_hd_get; [exact Hs|]. destruct (ssn_state s) eqn:Hn.
  - by eapply wp_smS_NascentHandler.
  - by eapply wp_smS_PendingHandler.
  - by eapply wp_smS_TemporaryHandler.
  - by eapply wp_smS_CompleteHandler.
Qed.
End other_handlers.
