(* ===== verification/Enumeration.v ===== *)
(** * Enumeration: the enumeration state machine smE (enumeration.c) *)

From S2P Require Import Prelude LltdTypes Event SeesList Band Tlv PacketTx Mapping SessionMgr.

(** The pseudo-events of state.c. *)
Definition only_complete (ss : list session) : bool :=
  forallb (fun s => negb (ssn_is_valid s) || bool_decide (ssn_state s = smS_Complete)) ss.
Definition table_empty (ss : list session) : bool :=
  forallb (fun s => negb (ssn_is_valid s)) ss.
Definition OnlyCompleteSessions : CM bool := gets (fun g => only_complete (g_sessions (co g))).
Definition SessionTableIsEmpty : CM bool := gets (fun g => table_empty (g_sessions (co g))).

Section with_env.
Context `{E : Env}.

Definition smE_QuiescentHandler : CM sm_Status :=
  e ← this_event;
  match evtType e with
  | evtDiscoverRcvd =>
      (if isNewSession e then
         s ← ssn_get (evt_ssn e);
         if bool_decide (ssn_state s = smS_Complete) then
           CANCEL T_block;; modify (set_g_smE_state smE_Wait)
         else
           band_InitStats;;
           band_ChooseHelloTime;;
           tos ← rx8 tbh_tos;
           when (tos =? ToS_TopologyDiscovery) (osl_set_promisc true);;
           modify (set_g_smE_state smE_Pausing)
       else mret tt (* warn: Discover from an existing session *));;
      mret PROCESSING_COMPLETED
  | evtBlockTimeout => CANCEL T_block;; mret PROCESSING_COMPLETED
  | _ => mret PROCESSING_COMPLETED
  end.

Definition smE_PausingHandler : CM sm_Status :=
  e ← this_event;
  match evtType e with
  | evtBlockTimeout => band_UpdateStats;; band_ChooseHelloTime;; mret PROCESSING_COMPLETED
  | evtHelloDelayTimeout =>
      packetio_tx_hello;;
      complete ← OnlyCompleteSessions;
      when complete (CANCEL T_block;; modify (set_g_smE_state smE_Wait));;
      mret PROCESSING_COMPLETED
  | evtDiscoverRcvd =>
      band_IncreaseLoad true;;
      when (isNewSession e) band_ResetNi;;
      complete ← OnlyCompleteSessions;
      when complete
        (CANCEL T_hello;; CANCEL T_block;; modify (set_g_smE_state smE_Wait));;
      mret PROCESSING_COMPLETED
  | evtPacketRcvd =>
      op ← gets (fun g => g_opcode (rx g));
      when (op =? Opcode_Hello) (band_IncreaseLoad false);;
      mret PROCESSING_COMPLETED
  | evtInactivityTimeout | evtResetRcvd =>
      empty ← SessionTableIsEmpty;
      when empty
        (CANCEL T_block;; CANCEL T_hello;; modify (set_g_smE_state smE_Quiescent));;
      mret PROCESSING_COMPLETED
  | _ => mret PROCESSING_COMPLETED
  end.

Definition smE_WaitHandler : CM sm_Status :=
  e ← this_event;
  match evtType e with
  | evtDiscoverRcvd =>
      (if isNewSession e then
         s ← ssn_get (evt_ssn e);
         when (negb (bool_decide (ssn_state s = smS_Complete)))
           (band_InitStats;; band_ChooseHelloTime;; modify (set_g_smE_state smE_Pausing))
       else mret tt);;
      mret PROCESSING_COMPLETED
  | evtInactivityTimeout | evtResetRcvd =>
      empty ← SessionTableIsEmpty;
      when empty (modify (set_g_smE_state smE_Quiescent));;
      mret PROCESSING_COMPLETED
  | _ => mret PROCESSING_COMPLETED
  end.

Definition smE_process_event : CM sm_Status :=
  st ← gets (fun g => g_smE_state (co g));
  match st with
  | smE_Quiescent => smE_QuiescentHandler
  | smE_Pausing => smE_PausingHandler
  | smE_Wait => smE_WaitHandler
  end.
End with_env.

(** ** The invariant of the enumeration machine

    Quiescent exactly while there is no session; while Pausing the block timer
    runs and Ni is in range; outside of Pausing neither the block timer nor the
    hello timer runs. *)

Lemma table_empty_false ss : table_empty ss = false <-> table_nonempty ss.
Proof.
  unfold table_empty, table_nonempty. split.
  - intros H. induction ss as [|s ss IH]; simpl in H; [done|].
    apply andb_false_iff in H as [H|H].
    + apply negb_false_iff in H. by exists 0%nat, s.
    + destruct (IH H) as (j & t & Hj & Hv). by exists (S j), t.
  - intros (j & s & Hj & Hv). apply not_true_iff_false. intros H.
    revert j Hj. induction ss as [|t ss IH]; intros [|j] Hj; try done; simpl in *.
    + injection Hj as ->. by rewrite Hv in H.
    + apply andb_true_iff in H as [_ H]. by eapply IH.
Qed.

Lemma table_empty_true ss : table_empty ss = true <-> ~ table_nonempty ss.
Proof. rewrite <- table_empty_false. destruct (table_empty ss); split; congruence. Qed.

Definition smE_inv (g : G) : Prop :=
  match g_smE_state (co g) with
  | smE_Quiescent => ~ table_nonempty (g_sessions (co g))
                     /\ timer_get T_block g = None /\ timer_get T_hello g = None
  | smE_Pausing => table_nonempty (g_sessions (co g)) /\ is_Some (timer_get T_block g) /\ band_ok (g_band g)
  | smE_Wait => table_nonempty (g_sessions (co g))
                /\ timer_get T_block g = None /\ timer_get T_hello g = None
  end.

(** What holds when the machine is given an event: the session machine may
    already have created or removed a session. *)
Definition smE_ready (e : protocol_event) (g : G) : Prop :=
  (isNewSession e = true -> evtType e = evtDiscoverRcvd ->
   exists i s, evt_ssn e = Some i /\ g_sessions (co g) !! i = Some s /\ ssn_is_valid s = true)
  /\ match g_smE_state (co g) with
     | smE_Quiescent =>
         timer_get T_block g = None /\ timer_get T_hello g = None
         /\ (table_nonempty (g_sessions (co g)) -> evtType e = evtDiscoverRcvd /\ isNewSession e = true)
     | smE_Pausing =>
         (is_reset e \/ table_nonempty (g_sessions (co g))) /\ band_ok (g_band g)
         /\ (if decide (evtType e = evtBlockTimeout) then timer_get T_block g = None
             else is_Some (timer_get T_block g))
         /\ (evtType e = evtHelloDelayTimeout -> timer_get T_hello g = None)
     | smE_Wait =>
         (is_reset e \/ table_nonempty (g_sessions (co g)))
         /\ timer_get T_block g = None /\ timer_get T_hello g = None
     end.

(** What the enumeration machine never changes. *)
Record smE_frame (g g' : G) : Prop := SmEFrame {
  ef_smT : g_smT_state (co g') = g_smT_state (co g);
  ef_sessions : g_sessions (co g') = g_sessions (co g);
  ef_topo : g_topo_session (co g') = g_topo_session (co g);
  ef_evt : g_this_event (co g') = g_this_event (co g);
  ef_rx : rx g' = rx g;
  ef_qs : qs g' = qs g;
  ef_ch : ch g' = ch g;
  ef_em : em g' = em g;
  ef_timers t : t <> T_block -> t <> T_hello -> timer_get t g' = timer_get t g
}.

Lemma smE_frame_refl g : smE_frame g g.
Proof. by split. Qed.

Lemma smE_frame_trans g1 g2 g3 : smE_frame g1 g2 -> smE_frame g2 g3 -> smE_frame g1 g3.
Proof.
  intros [] []. split; try congruence. intros t H1 H2. by rewrite ef_timers1, ef_timers0.
Qed.

Lemma smE_frame_tmr t g g' : (t = T_block \/ t = T_hello) -> tmr_frame t g g' -> smE_frame g g'.
Proof.
  intros Ht [C [] T]. split; rewrite ?C; try done. intros t' H1 H2. apply T. destruct Ht; congruence.
Qed.

Section smE_ops.
Context `{E : Env}.

Lemma base_ok_band b g : base_ok g -> base_ok (set_g_band b g).
Proof. intros H. base_same. Qed.

Lemma smE_frame_band b g : smE_frame g (set_g_band b g).
Proof. by split. Qed.

Lemma smE_frame_state v g : smE_frame g (set_g_smE_state v g).
Proof. by split. Qed.

Lemma smE_frame_txs x o ts g : smE_frame g (txs x o ts g).
Proof. by split. Qed.

Lemma smE_frame_clk n g : smE_frame g (set_os_clk n g).
Proof. by split. Qed.

(** CANCEL of one of the two timers. *)
Lemma wp_smE_cancel t (Q : unit -> G -> Prop) g :
  base_ok g -> (t = T_block \/ t = T_hello) ->
  (forall g', base_ok g' -> smE_frame g g' -> timer_get t g' = None ->
     (forall t', t' <> t -> timer_get t' g' = timer_get t' g) -> g_band g' = g_band g ->
     g_smE_state (co g') = g_smE_state (co g) -> Q tt g') ->
  wp (CANCEL t) Q g.
Proof.
  intros Hb Ht HQ. apply wp_CANCEL_global; [done|by destruct Ht as [-> | ->]|].
  intros g' Hb' F N. apply HQ; [done|by eapply smE_frame_tmr|done|by apply F|apply F|].
  by rewrite (mf_co _ _ _ F).
Qed.

(** The first block: statistics reset and the block timer armed. *)
Lemma wp_smE_init (Q : unit -> G -> Prop) g :
  base_ok g -> timer_get T_block g = None ->
  (forall g', base_ok g' -> smE_frame g g' -> is_Some (timer_get T_block g') -> band_ok (g_band g') ->
     g_smE_state (co g') = g_smE_state (co g) -> Q tt g') ->
  wp band_InitStats Q g.
Proof.
  intros Hb Hn HQ. apply wp_band_InitStats; [done|]. intros w n.
  set (g1 := set_os_clk n (set_g_band _ g)).
  assert (Hb1 : base_ok g1) by (apply base_ok_clk, base_ok_band, Hb).
  apply HQ.
  - by apply base_ok_arm.
  - eapply smE_frame_trans; [apply smE_frame_band|].
    eapply smE_frame_trans; [apply (smE_frame_clk n)|].
    eapply smE_frame_tmr; [by left|]. by apply tmr_frame_arm.
  - rewrite timer_get_arm_eq by done. by eexists.
  - rewrite (sr_band _ _ (arm_rest _ _ _)). simpl.
    split; simpl; unfold BAND_NMAX, BAND_BLOCK_TIME; lia.
  - by rewrite co_arm_g.
Qed.

Lemma wp_smE_update (Q : unit -> G -> Prop) g :
  base_ok g -> timer_get T_block g = None -> band_ok (g_band g) ->
  (forall g', base_ok g' -> smE_frame g g' -> is_Some (timer_get T_block g') -> band_ok (g_band g') ->
     g_smE_state (co g') = g_smE_state (co g) -> Q tt g') ->
  wp band_UpdateStats Q g.
Proof.
  intros Hb Hn Hbd HQ. apply wp_band_UpdateStats; [done|]. intros w n.
  set (g1 := set_os_clk n (set_g_band _ g)).
  assert (Hb1 : base_ok g1) by (apply base_ok_clk, base_ok_band, Hb).
  apply HQ.
  - by apply base_ok_arm.
  - eapply smE_frame_trans; [apply smE_frame_band|].
    eapply smE_frame_trans; [apply (smE_frame_clk n)|].
    eapply smE_frame_tmr; [by left|]. by apply tmr_frame_arm.
  - rewrite timer_get_arm_eq by done. by eexists.
  - rewrite (sr_band _ _ (arm_rest _ _ _)). by apply band_update_ok.
  - by rewrite co_arm_g.
Qed.

Lemma wp_smE_choose (Q : unit -> G -> Prop) g :
  base_ok g ->
  (forall g', base_ok g' -> smE_frame g g' -> timer_get T_block g' = timer_get T_block g ->
     g_band g' = g_band g -> g_smE_state (co g') = g_smE_state (co g) -> Q tt g') ->
  wp band_ChooseHelloTime Q g.
Proof.
  intros Hb HQ. apply wp_band_ChooseHelloTime.
  - intros n. apply HQ; [by apply base_ok_clk|apply smE_frame_clk|done..].
  - intros w n Hn. set (g1 := set_os_clk n g).
    assert (Hb1 : base_ok g1) by by apply base_ok_clk.
    apply HQ; [by apply base_ok_arm| | | |].
    + eapply smE_frame_trans; [apply (smE_frame_clk n)|].
      eapply smE_frame_tmr; [by right|]. by apply tmr_frame_arm.
    + by rewrite timer_get_arm_ne.
    + by rewrite (sr_band _ _ (arm_rest _ _ _)).
    + by rewrite co_arm_g.
Qed.
End smE_ops.

(** The result of the enumeration machine. *)
Record smE_post `{E : Env} (g g' : G) : Prop := SmEPost {
  ep_base : base_ok g';
  ep_inv : smE_inv g';
  ep_frame : smE_frame g g'
}.

Section smE_handlers.
Context `{E : Env}.

(** Ending in Wait or Quiescent, with both timers stopped. *)
Lemma smE_settle v g0 g :
  v <> smE_Pausing -> base_ok g -> smE_frame g0 g ->
  (v = smE_Wait -> table_nonempty (g_sessions (co g0))) ->
  (v = smE_Quiescent -> ~ table_nonempty (g_sessions (co g0))) ->
  timer_get T_block g = None -> timer_get T_hello g = None -> smE_post g0 (set_g_smE_state v g).
Proof.
  intros Hv Hb F Hw Hq Hblk Hhel. split; [base_same| |by eapply smE_frame_trans; [|apply smE_frame_state]].
  unfold smE_inv. simpl. rewrite (ef_sessions _ _ F). destruct v; [|done|]; by auto.
Qed.

(** Ending in Pausing, with the block timer running. *)
Lemma smE_pausing g0 g :
  base_ok g -> smE_frame g0 g -> g_smE_state (co g) = smE_Pausing ->
  table_nonempty (g_sessions (co g0)) -> is_Some (timer_get T_block g) -> band_ok (g_band g) ->
  smE_post g0 g.
Proof.
  intros Hb F Hs Ht Hblk Hbd. split; [done| |done]. unfold smE_inv. rewrite Hs, (ef_sessions _ _ F). done.
Qed.

Lemma smE_stay g :
  base_ok g -> smE_inv g -> smE_post g g.
Proof. intros Hb Hi. split; [done|done|apply smE_frame_refl]. Qed.

Lemma wp_smE_QuiescentHandler e (Q : sm_Status -> G -> Prop) g :
  base_ok g -> g_this_event (co g) = e -> smE_ready e g -> g_smE_state (co g) = smE_Quiescent ->
  (forall st g', st <> PROCESSING_ABORTED -> smE_post g g' -> Q st g') -> wp smE_QuiescentHandler Q g.
Proof.
  intros Hb He [Hnew Hr] Hs HQ. rewrite Hs in Hr. destruct Hr as (Hblk & Hhel & Hne).
  unfold smE_QuiescentHandler, this_event. apply wp_bind, wp_gets. rewrite He.
  assert (Hstay : ~ (evtType e = evtDiscoverRcvd /\ isNewSession e = true) -> smE_post g g).
  { intros Hn. apply smE_stay; [done|]. unfold smE_inv. rewrite Hs. tauto. }
  destruct (evtType e) eqn:Hty;
    try (wp_step; apply HQ; [done|]; apply Hstay; intros [? ?]; congruence).
  - apply wp_bind, wp_if; intros Hn.
    2:{ do 2 wp_step. apply HQ; [done|]. apply Hstay. intros [? ?]; congruence. }
    destruct (Hnew Hn eq_refl) as (i & s & Hi & Hsi & Hv). rewrite Hi.
    assert (Hnon : table_nonempty (g_sessions (co g))) by by exists i, s.
    apply wp_bind. eapply wp_ssn_get; [exact Hsi|]. apply wp_if; intros Hc.
    + apply wp_bind, wp_smE_cancel; [done|by left|]. intros g1 B1 F1 N1 T1 K1 E1.
      do 2 wp_step. apply HQ; [done|]. apply smE_settle; try done. by rewrite T1.
    + apply wp_bind, wp_smE_init; [done|done|]. intros g1 B1 F1 S1 K1 E1.
      apply wp_bind, wp_smE_choose; [done|]. intros g2 B2 F2 S2 K2 E2.
      apply wp_bind, wp_rx8; [apply B2|by unfold tbh_tos|]. intros tos _.
      assert (Hend : forall g3, base_ok g3 -> smE_frame g2 g3 -> timer_get T_block g3 = timer_get T_block g2 ->
                g_band g3 = g_band g2 -> smE_post g (set_g_smE_state smE_Pausing g3)).
      { intros g3 B3 F3 T3 K3. apply smE_pausing; [base_same| |done|done| |].
        - eapply smE_frame_trans; [exact F1|]. eapply smE_frame_trans; [exact F2|].
          eapply smE_frame_trans; [exact F3|]. apply smE_frame_state.
        - change (is_Some (timer_get T_block g3)). by rewrite T3, S2.
        - change (band_ok (g_band g3)). by rewrite K3, K2. }
      apply wp_bind, wp_when; intros Ht.
      * apply wp_osl_set_promisc; [apply B2|]. intros o Ho. do 2 wp_step. apply HQ; [done|].
        apply Hend; [by apply base_ok_txs|apply smE_frame_txs|done|done].
      * do 2 wp_step. apply HQ; [done|]. apply Hend; [done|apply smE_frame_refl|done|done].
  - apply wp_bind, wp_smE_cancel; [done|by left|]. intros g1 B1 F1 N1 T1 K1 E1. wp_step.
    apply HQ; [done|]. split; [done| |done]. unfold smE_inv. rewrite E1, Hs, (ef_sessions _ _ F1).
    split; [|split; [done|by rewrite T1]]. intros Hx. destruct (Hne Hx). congruence.
Qed.

Lemma wp_smE_PausingHandler e (Q : sm_Status -> G -> Prop) g :
  base_ok g -> g_this_event (co g) = e -> smE_ready e g -> g_smE_state (co g) = smE_Pausing ->
  (forall st g', st <> PROCESSING_ABORTED -> smE_post g g' -> Q st g') -> wp smE_PausingHandler Q g.
Proof.
  intros Hb He [Hnew Hr] Hs HQ. rewrite Hs in Hr. destruct Hr as (Hne & Hbd & Hblk & Hhel).
  unfold smE_PausingHandler, this_event. apply wp_bind, wp_gets. rewrite He.
  assert (Hstay : evtType e <> evtBlockTimeout -> ~ is_reset e -> smE_post g g).
  { intros Hn Hnr. apply smE_stay; [done|]. unfold smE_inv. rewrite Hs. rewrite decide_False in Hblk by done.
    split; [tauto|done]. }
  (* when the table is empty both timers stop *)
  assert (Hreset : is_reset e -> evtType e <> evtBlockTimeout ->
    wp (empty ← SessionTableIsEmpty;
        when empty (CANCEL T_block;; CANCEL T_hello;; modify (set_g_smE_state smE_Quiescent));;
        mret PROCESSING_COMPLETED) Q g).
  { intros Hre Hnb. apply wp_bind. unfold SessionTableIsEmpty. apply wp_gets, wp_bind, wp_when; intros Hem.
    - apply table_empty_true in Hem.
      apply wp_bind, wp_smE_cancel; [done|by left|]. intros g1 B1 F1 N1 T1 K1 E1.
      apply wp_bind, wp_smE_cancel; [done|by right|]. intros g2 B2 F2 N2 T2 K2 E2.
      do 2 wp_step. apply HQ; [done|].
      apply smE_settle; try done; [by eapply smE_frame_trans|]. by rewrite T2.
    - apply table_empty_false in Hem. wp_step. apply HQ; [done|]. apply smE_stay; [done|].
      unfold smE_inv. rewrite Hs. rewrite decide_False in Hblk by done. done. }
  destruct (evtType e) eqn:Hty;
    try (wp_step; apply HQ; [done|]; apply Hstay; [congruence|intros [?|?]; congruence]).
  - apply wp_bind, wp_gets, wp_bind, wp_when; intros Hop.
    + unfold band_IncreaseLoad. do 2 wp_step. apply HQ; [done|].
      rewrite decide_False in Hblk by congruence. destruct Hne as [[?|?]|Hne]; [congruence..|].
      apply smE_pausing; [by apply base_ok_band|apply smE_frame_band|done|done|done|].
      by apply (band_increase_ok _ false).
    + wp_step. apply HQ; [done|]. apply Hstay; [congruence|intros [?|?]; congruence].
  - rewrite decide_False in Hblk by congruence. destruct Hne as [[?|?]|Hne]; [congruence..|].
    unfold band_IncreaseLoad. do 2 wp_step. apply wp_bind.
    set (g1 := set_g_band _ g). assert (B1 : base_ok g1) by by apply base_ok_band.
    assert (K1 : band_ok (g_band g1)) by by apply (band_increase_ok _ true).
    assert (Hend : forall g2, base_ok g2 -> smE_frame g g2 -> g_smE_state (co g2) = smE_Pausing ->
      timer_get T_block g2 = timer_get T_block g -> band_ok (g_band g2) ->
      wp (complete ← OnlyCompleteSessions;
          when complete (CANCEL T_hello;; CANCEL T_block;; modify (set_g_smE_state smE_Wait));;
          mret PROCESSING_COMPLETED) Q g2).
    { intros g2 B2 F2 S2 T2 K2. apply wp_bind. unfold OnlyCompleteSessions.
      apply wp_gets, wp_bind, wp_when; intros Hoc.
      - apply wp_bind, wp_smE_cancel; [done|by right|]. intros g3 B3 F3 N3 T3 K3 E3.
        apply wp_bind, wp_smE_cancel; [done|by left|]. intros g4 B4 F4 N4 T4 K4 E4.
        do 2 wp_step. apply HQ; [done|]. apply smE_settle; try done.
        + eapply smE_frame_trans; [exact F2|]. by eapply smE_frame_trans.
        + by rewrite T4.
      - wp_step. apply HQ; [done|]. apply smE_pausing; try done. by rewrite T2. }
    apply wp_when; intros Hn.
    + unfold band_ResetNi. wp_step. apply Hend; [by apply base_ok_band| |done|done|].
      * eapply smE_frame_trans; apply smE_frame_band.
      * destruct K1 as [_ K1]. split; [unfold BAND_NMAX; simpl; unfold BAND_NMAX; lia|exact K1].
    + apply Hend; [done|apply smE_frame_band|done|done|done].
  - apply Hreset; [by right|congruence].
  - rewrite decide_True in Hblk by done. destruct Hne as [[?|?]|Hne]; [congruence..|].
    apply wp_bind, wp_smE_update; [done..|]. intros g1 B1 F1 S1 K1 E1.
    apply wp_bind, wp_smE_choose; [done|]. intros g2 B2 F2 S2 K2 E2. wp_step. apply HQ; [done|].
    apply smE_pausing; [done|by eapply smE_frame_trans|congruence|done|by rewrite S2|by rewrite K2].
  - rewrite decide_False in Hblk by congruence. destruct Hne as [[?|?]|Hne]; [congruence..|].
    apply wp_bind, wp_packetio_tx_hello; [apply Hb..|]. intros x o ts Hio.
    pose proof (base_ok_txs _ _ _ _ Hb Hio) as B1. set (g1 := txs x o ts g) in *.
    assert (F1 : smE_frame g g1) by apply smE_frame_txs.
    apply wp_bind. unfold OnlyCompleteSessions. apply wp_gets, wp_bind, wp_when; intros Hoc.
    + apply wp_bind, wp_smE_cancel; [done|by left|]. intros g3 B3 F3 N3 T3 K3 E3.
      do 2 wp_step. apply HQ; [done|]. apply smE_settle; try done; [by eapply smE_frame_trans|].
      rewrite T3 by done. by apply Hhel.
    + wp_step. apply HQ; [done|]. by apply smE_pausing.
  - apply Hreset; [by left|congruence].
Qed.

Lemma wp_smE_WaitHandler e (Q : sm_Status -> G -> Prop) g :
  base_ok g -> g_this_event (co g) = e -> smE_ready e g -> g_smE_state (co g) = smE_Wait ->
  (forall st g', st <> PROCESSING_ABORTED -> smE_post g g' -> Q st g') -> wp smE_WaitHandler Q g.
Proof.
  intros Hb He [Hnew Hr] Hs HQ. rewrite Hs in Hr. destruct Hr as (Hne & Hblk & Hhel).
  unfold smE_WaitHandler, this_event. apply wp_bind, wp_gets. rewrite He.
  assert (Hstay : ~ is_reset e -> smE_post g g).
  { intros Hnr. apply smE_stay; [done|]. unfold smE_inv. rewrite Hs. tauto. }
  assert (Hreset : wp (empty ← SessionTableIsEmpty;
        when empty (modify (set_g_smE_state smE_Quiescent));; mret PROCESSING_COMPLETED) Q g).
  { apply wp_bind. unfold SessionTableIsEmpty. apply wp_gets, wp_bind, wp_when; intros Hem.
    - apply table_empty_true in Hem. do 2 wp_step. apply HQ; [done|].
      apply smE_settle; try done.
    - apply table_empty_false in Hem. wp_step. apply HQ; [done|]. apply smE_stay; [done|].
      unfold smE_inv. by rewrite Hs. }
  destruct (evtType e) eqn:Hty;
    try (wp_step; apply HQ; [done|]; apply Hstay; intros [?|?]; congruence); try exact Hreset.
  apply wp_bind, wp_if; intros Hn.
  2:{ do 2 wp_step. apply HQ; [done|]. apply Hstay. intros [?|?]; congruence. }
  destruct (Hnew Hn eq_refl) as (i & s & Hi & Hsi & Hv). rewrite Hi.
  assert (Hnon : table_nonempty (g_sessions (co g))) by by exists i, s.
  apply wp_bind. eapply wp_ssn_get; [exact Hsi|]. apply wp_when; intros Hc.
  - apply wp_bind, wp_smE_init; [done|done|]. intros g1 B1 F1 S1 K1 E1.
    apply wp_bind, wp_smE_choose; [done|]. intros g2 B2 F2 S2 K2 E2. do 2 wp_step. apply HQ; [done|].
    apply smE_pausing; [base_same| |done|done| |].
    + eapply smE_frame_trans; [exact F1|]. eapply smE_frame_trans; [exact F2|]. apply smE_frame_state.
    + change (is_Some (timer_get T_block g2)). by rewrite S2.
    + change (band_ok (g_band g2)). by rewrite K2.
  - wp_step. apply HQ; [done|]. apply Hstay. intros [?|?]; congruence.
Qed.

(** The enumeration machine on one event: it completes, and re-establishes
    its invariant. *)
Lemma wp_smE_process_event e (Q : sm_Status -> G -> Prop) g :
  base_ok g -> g_this_event (co g) = e -> smE_ready e g ->
  (forall st g', st <> PROCESSING_ABORTED -> smE_post g g' -> Q st g') -> wp smE_process_event Q g.
Proof.
  intros Hb He Hr HQ. unfold smE_process_event. apply wp_bind, wp_gets.
  destruct (g_smE_state (co g)) eqn:Hs.
  - by eapply wp_smE_QuiescentHandler.
  - by eapply wp_smE_PausingHandler.
  - by eapply wp_smE_WaitHandler.
Qed.
End smE_handlers.
