(* ===== verification/StateProc.v ===== *)
(** * StateProc: dispatching packets and timeouts to the machines (state.c) *)

From S2P Require Import Prelude LltdTypes Event SeesList Band Tlv PacketTx Mapping SessionMgr Enumeration.

(** The first valid session whose mapper has the address, and the first free
    entry of the table. *)
Definition session_of_addr (addr : list Z) (s : session) : Prop :=
  ssn_is_valid s = true /\ ETHERADDR_EQUALS (ssn_mapper_real s) addr = true.
#[export] Instance session_of_addr_dec addr s : Decision (session_of_addr addr s).
Proof. unfold session_of_addr. apply _. Defined.

Definition find_session (addr : list Z) (ss : list session) : option nat :=
  fst <$> list_find (session_of_addr addr) ss.

Definition free_session (ss : list session) : option nat :=
  fst <$> list_find (fun s => ssn_is_valid s = false) ss.

(** The values that new_session writes; [ssn_state] keeps its value. *)
Definition fresh_session (s : session) : session :=
  Session true (ssn_state s) BAND_TXC 0 Etheraddr_null Etheraddr_null true ToS_Unknown None.

Definition new_session : CM (option nat) :=
  ss ← gets (fun g => g_sessions (co g));
  match free_session ss with
  | None => mret None
  | Some i => ssn_update (Some i) fresh_session;; mret (Some i)
  end.

Definition UINT_MAX : Z := 4294967295.

Section with_env.
Context `{E : Env}.

(** Opcode_Discover from an unknown mapper: create its session.  The answer
    is None when the table is full. *)
Definition create_session : CM (option nat) :=
  p ← new_session;
  match p with
  | None => mret None
  | Some i =>
      modify (evt_update (set_isNewSession true));;
      seq ← gets (fun g => g_sequencenum (rx g));
      real ← rx_mac tbh_realsrc;
      current ← rx_mac eh_src;
      tos ← rx8 tbh_tos;
      ssn_update (Some i) (fun s =>
        Session (ssn_is_valid s) (ssn_state s) (ssn_count s) seq real current
          (ssn_use_broadcast s) tos (ssn_InactivityTimer s));;
      modify (evt_update (set_evt_ssn (Some i)));;
      mret (Some i)
  end.

(** smS, then smE, then smT, until one aborts. *)
Definition run_machines : CM unit :=
  smStatus ← smS_process_event;
  if decide (smStatus = PROCESSING_ABORTED) then mret tt
  else
    smStatus ← smE_process_event;
    if decide (smStatus = PROCESSING_ABORTED) then mret tt
    else smT_process_event;; mret tt.

(** Give the packet to the machines, as an event of [this_session]. *)
Definition run_for (this_session : option nat) : CM Z :=
  modify (evt_update (set_evt_ssn this_session));;
  run_machines;;
  (* remove any "new-session" marking *)
  modify (evt_update (set_isNewSession false));;
  mret 0.

Definition state_process_packet : CM Z :=
  modify (evt_update (set_isInternalEvt false));;
  modify (evt_update (set_isNewSession false));;
  src ← rx_mac tbh_realsrc;
  op ← gets (fun g => g_opcode (rx g));
  ss ← gets (fun g => g_sessions (co g));
  match find_session src ss with
  | Some i => run_for (Some i)
  | None =>
      if op =? Opcode_Discover then
        p ← create_session;
        match p with
        | None => mret UINT_MAX (* no room: packet dropped *)
        | Some i => run_for (Some i)
        end
      else if op =? Opcode_Probe then
        (* probes are forced to associate with the mapping session *)
        valid ← topo_session_valid;
        topo ← gets (fun g => g_topo_session (co g));
        run_for (if valid : bool then topo else None)
      else run_for None
  end.

Definition state_process_timeout : CM Z :=
  modify (set_g_rcvd_pkt_len 0);;
  modify (evt_update (set_isNewSession false));;
  modify (evt_update (set_isAckingMe false));;
  modify (evt_update (set_isInternalEvt false));;
  modify (evt_update (set_numDescrs 0));;
  e ← this_event;
  (* Hello-Delay timeouts go to the smS of every valid session *)
  when (bool_decide (evtType e = evtHelloDelayTimeout))
    (for_n MAX_NUM_SESSIONS 0 (fun i =>
       s ← ssn_get (Some i);
       when (ssn_is_valid s)
         (modify (evt_update (set_evt_ssn (Some i)));; smS_process_event;; mret tt));;
     modify (evt_update (set_evt_ssn None)));;
  when (bool_decide (evtType e = evtInactivityTimeout)) (smS_process_event;; mret tt);;
  smStatus ← smE_process_event;
  (if decide (smStatus = PROCESSING_ABORTED) then mret tt else smT_process_event;; mret tt);;
  mret 0.

(** The functions that the event list calls. *)
Definition state_block_timeout : CM unit :=
  modify (set_g_block_timer None);;
  modify (evt_update (set_evtType evtBlockTimeout));;
  state_process_timeout;; mret tt.

Definition state_charge_timeout (cookie : option nat) : CM unit :=
  modify (set_g_charge_timer None);;
  modify (set_g_ctc_packets 0);;
  modify (set_g_ctc_bytes 0);;
  modify (evt_update (set_evtType evtChargeTimeout));;
  modify (evt_update (set_evt_ssn cookie));;
  state_process_timeout;; mret tt.

Definition state_emit_timeout : CM unit :=
  modify (set_g_emit_timer None);;
  modify (evt_update (set_evtType evtEmitTimeout));;
  valid ← topo_session_valid;
  (if valid : bool then
     topo ← gets (fun g => g_topo_session (co g)); modify (evt_update (set_evt_ssn topo))
   else mret tt);;
  state_process_timeout;; mret tt.

Definition state_hello_delay_timeout (cookie : option nat) : CM unit :=
  modify (set_g_hello_timer None);;
  modify (evt_update (set_evtType evtHelloDelayTimeout));;
  modify (evt_update (set_evt_ssn cookie));;
  state_process_timeout;; mret tt.

Definition state_inactivity_timeout (cookie : option nat) : CM unit :=
  modify (evt_update (set_evtType evtInactivityTimeout));;
  modify (evt_update (set_evt_ssn cookie));;
  ssn_update cookie (set_ssn_timer None);;
  state_process_timeout;; mret tt.
End with_env.

(** ** The invariant of the three machines *)

Record mach_inv `{E : Env} (q : qosst) (g : G) : Prop := MachInv {
  mi_base : base_ok g;
  mi_smT : smT_inv false g;
  mi_sess : table_inv None (g_sessions (co g)) (g_topo_session (co g));
  mi_smE : smE_inv g;
  mi_qs : qs g = q
}.

(** The session table when the session machine is done with event [e]. *)
Definition table_done (e : protocol_event) (ss : list session) (tp : option nat) : Prop :=
  (table_inv None ss tp /\ (is_reset e -> evt_ssn e <> None -> tp <> evt_ssn e))
  \/ (is_reset e /\ exists i, evt_ssn e = Some i /\ table_stale i ss tp).

(** What [smS] leaves for the two other machines. *)
Record machines_ready `{E : Env} (q : qosst) (e : protocol_event) (g : G) : Prop := MachinesReady {
  mr_base : base_ok g;
  mr_smT : smT_inv (firing g) g;
  mr_smE : smE_ready e g;
  mr_evt : g_this_event (co g) = e;
  mr_emit : emit_event_ok g;
  mr_table : table_done e (g_sessions (co g)) (g_topo_session (co g));
  mr_fire : firing g = true -> evt_ssn e = None \/ evt_ssn e = g_topo_session (co g);
  mr_qs : qs g = q
}.

Section state_lemmas.
Context `{E : Env} {q : qosst}.

Lemma smE_inv_ext g g' :
  g_smE_state (co g') = g_smE_state (co g) -> g_sessions (co g') = g_sessions (co g) ->
  timer_get T_block g' = timer_get T_block g -> timer_get T_hello g' = timer_get T_hello g ->
  g_band g' = g_band g -> smE_inv g -> smE_inv g'.
Proof. intros H1 H2 H3 H4 H5. unfold smE_inv. by rewrite H1, H2, H3, H4, H5. Qed.

(** The enumeration and the topology machine, after the session machine. *)
Lemma wp_smT_last (st : sm_Status) e (Q : unit -> G -> Prop) g :
  st <> PROCESSING_ABORTED -> base_ok g -> smE_inv g -> smT_inv (firing g) g ->
  g_this_event (co g) = e -> emit_event_ok g ->
  table_done e (g_sessions (co g)) (g_topo_session (co g)) ->
  (firing g = true -> evt_ssn e = None \/ evt_ssn e = g_topo_session (co g)) ->
  qs g = q -> (forall g', mach_inv q g' -> Q tt g') ->
  wp (if decide (st = PROCESSING_ABORTED) then mret tt else smT_process_event;; mret tt) Q g.
Proof.
  intros Hst Hb Hi Ht He Hok Htab Hfire Hqs HQ. destruct (decide _) as [?|_]; [done|].
  apply wp_bind, wp_smT_process_event; [done|done|done|by rewrite He| |].
  - intros Hn. destruct Ht as [_ Ht]. destruct (g_smT_state (co g)); [done|tauto|tauto].
  - intros st' g' [B T [F1 F2 F3 F4 F5 F6 F7 F8 F9] R]. wp_step. apply HQ. split; [done|done| | |congruence].
    + rewrite F2. rewrite He in R, F9. destruct Htab as [[Htab Hn]|(Hre & i & Hei & Hstale)].
      * destruct F9 as [->|(Htn & _ & Hre & Heq)]; [done|].
        destruct (evt_ssn e) as [k|] eqn:Hk.
        -- exfalso. apply Hn; [destruct Hre; [by left|by right]|done|congruence].
        -- rewrite Htn, Heq in *. done.
      * destruct Hstale as (Htp & H1 & H2 & H3 & H4). rewrite R; [|done|congruence].
        split; [|split; [done|done]]. intros j s Hj _. by eapply H1.
    + eapply smE_inv_ext; [..|exact Hi]; try done; by apply F5.
Qed.

Lemma wp_machines_core e (Q : unit -> G -> Prop) g :
  machines_ready q e g -> (forall g', mach_inv q g' -> Q tt g') ->
  wp smE_process_event (fun st g1 =>
    wp (if decide (st = PROCESSING_ABORTED) then mret tt else smT_process_event;; mret tt) Q g1) g.
Proof.
  intros [Hb Ht Hr He Hok Htab Hfire Hqs] Hk. apply (wp_smE_process_event e); [done..|].
  intros st g1 Hst [B1 I1 [F1 F2 F3 F4 F5 F6 F7 F8 F9]].
  assert (Hf : firing g1 = firing g) by (unfold firing; by rewrite F4).
  apply (wp_smT_last st e); try done; rewrite ?F2, ?F3, ?F6, ?Hf; try done.
  - eapply smT_inv_ext; [..|exact Ht]; try done; by apply F9.
  - by rewrite F4.
  - unfold emit_event_ok. by rewrite F4, F5.
Qed.

Lemma wp_smE_smT {A} e (k : unit -> CM A) (Q : A -> G -> Prop) g :
  machines_ready q e g -> (forall g', mach_inv q g' -> wp (k tt) Q g') ->
  wp (smStatus ← smE_process_event;
      (if decide (smStatus = PROCESSING_ABORTED) then mret tt else smT_process_event;; mret tt)
      ≫= k) Q g.
Proof.
  intros Hm Hk. apply wp_bind. eapply wp_mono; [apply (wp_machines_core e (fun a => wp (k a) Q)); done|].
  intros st g1 H. by apply wp_bind.
Qed.

Lemma wp_two_machines e (Q : unit -> G -> Prop) g :
  machines_ready q e g -> (forall g', mach_inv q g' -> Q tt g') ->
  wp (smStatus ← smE_process_event;
      if decide (smStatus = PROCESSING_ABORTED) then mret tt else smT_process_event;; mret tt) Q g.
Proof. intros Hm HQ. by apply wp_bind, (wp_machines_core e). Qed.

Lemma firing_type g g' :
  evtType (g_this_event (co g')) = evtType (g_this_event (co g)) -> firing g' = firing g.
Proof. intros H. unfold firing. by rewrite H. Qed.

Lemma is_reset_same e e' : same_event e e' -> is_reset e' <-> is_reset e.
Proof. intros (H & _). unfold is_reset. by rewrite H. Qed.

(** The state before the session machine runs on an event of session [i]. *)
Lemma smS_to_machines g e i g' :
  g_this_event (co g) = e -> evt_ssn e = Some i -> smE_ready e g -> emit_event_ok g -> firing g = false ->
  table_nonempty (g_sessions (co g)) -> qs g = q -> smS_result (firing g) g e i g' -> exists e', same_event e e' /\ machines_ready q e' g'.
Proof.
  intros He Hei [Hnew Hr] Hok Hf Hne0 Hqs [(ss & tp & e' & H & Hse & Htab & Hne & Hd)].
  pose proof Hse as (Hty & Hs & Hn & Hnum). exists e'. split; [done|].
  destruct H as [B T S P V sE rR qQ bB tB tH].
  assert (Hf' : firing g' = false) by (rewrite <- Hf; apply firing_type; by rewrite V, He).
  assert (Hne' : is_reset e \/ table_nonempty ss).
  { destruct (decide (is_reset e)) as [?|?]; [by left|right; by apply Hne]. }
  split; [done|by rewrite Hf', <- Hf| |done| | |by rewrite Hf'|congruence].
  - split.
    + rewrite Hn, Hty, Hs, S. intros _ Hx. destruct (Hd Hx) as (s & Hsi & Hv). by exists i, s.
    + rewrite sE, S, bB, tB, tH, Hty, Hn. clear Hf Hf'. revert Hr.
      destruct (g_smE_state (co g)); intros Hr.
      * destruct Hr as (Hr1 & Hr2 & Hr3). split; [done|]. split; [done|]. intros _.
        by apply Hr3.
      * destruct Hr as (Hr1 & Hr2 & Hr3 & Hr4). by rewrite (is_reset_same _ _ Hse).
      * destruct Hr as (Hr1 & Hr2 & Hr3). by rewrite (is_reset_same _ _ Hse).
  - unfold emit_event_ok in *. rewrite V, rR, Hty, Hnum. by rewrite He in Hok.
  - rewrite S, P. unfold table_done. rewrite (is_reset_same _ _ Hse), Hs, Hei.
    destruct Htab as [[Htab Hx]|[Hre Hst]]; [left|right].
    + split; [done|]. intros Hre _. by apply Hx.
    + split; [done|]. by exists i.
Qed.
End state_lemmas.

(** The state in which a packet event is given to the machines. *)
Record packet_ready `{E : Env} (q : qosst) (e : protocol_event) (g : G) : Prop := PacketReady {
  pr_base : base_ok g;
  pr_smT : smT_inv false g;
  pr_evt : g_this_event (co g) = e;
  pr_type : evtType e <> evtEmitTimeout;
  pr_emit : emit_event_ok g;
  pr_smE : smE_ready e g;
  pr_qs : qs g = q;
  pr_session :
    match evt_ssn e with
    | None => table_inv None (g_sessions (co g)) (g_topo_session (co g))
    | Some i => exists s, g_sessions (co g) !! i = Some s
                /\ table_inv (Some i) (g_sessions (co g)) (g_topo_session (co g)) /\ ssn_ready e s
    end
}.

(** The events that validating a frame produces. *)
Definition packet_event (e : smEvent) : Prop :=
  e = evtPacketRcvd \/ e = evtDiscoverRcvd \/ e = evtEmitRcvd \/ e = evtResetRcvd.

Section packet_lemmas.
Context `{E : Env} {q : qosst}.

Lemma wp_run_machines e (Q : unit -> G -> Prop) g :
  packet_ready q e g -> (forall g', mach_inv q g' -> Q tt g') -> wp run_machines Q g.
Proof.
  intros [Hb Ht He Hty Hok Hr Hqs Hs] HQ.
  assert (Hf : firing g = false) by (unfold firing; rewrite He; by apply bool_decide_eq_false).
  unfold run_machines. destruct (evt_ssn e) as [i|] eqn:Hei.
  - destruct Hs as (s & Hsi & Htab & Hsr). apply wp_bind.
    assert (Hne : table_nonempty (g_sessions (co g))) by (exists i, s; by destruct Hsr).
    eapply (wp_smS_process_event (firing g) g _ _ e i s);
      [|done|exact Hsi|exact Htab|done|by intros _|].
    { rewrite <- He. apply handling_start; [done|by rewrite Hf]. }
    intros g' Hres. destruct (decide (PROCESSING_COMPLETED = PROCESSING_ABORTED)); [done|].
    destruct (smS_to_machines (q := q) g e i g') as (e' & Hse & Hm); try done.
    by apply (wp_two_machines (q := q) e').
  - unfold smS_process_event, this_event. apply wp_bind, wp_bind, wp_gets. rewrite He, Hei. wp_step.
    destruct (decide (PROCESSING_COMPLETED = PROCESSING_ABORTED)); [done|].
    apply (wp_two_machines (q := q) e); [|done]. split; try done; [by rewrite Hf|by left|by rewrite Hf].
Qed.
End packet_lemmas.

Section process_packet.
Context `{E : Env} {q : qosst}.

Lemma smE_ready_inv e g :
  smE_inv g -> isNewSession e = false -> evtType e <> evtBlockTimeout ->
  evtType e <> evtHelloDelayTimeout -> smE_ready e g.
Proof.
  intros Hi Hn Hb Hh. split; [congruence|]. unfold smE_inv in Hi.
  destruct (g_smE_state (co g)); destruct Hi as (H1 & H2 & H3).
  - split; [done|]. split; [done|]. by intros ?.
  - split; [by right|]. split; [done|]. by rewrite decide_False.
  - split; [by right|done].
Qed.

Lemma handling_smE e f g0 ss tp g :
  handling f g0 ss tp e g -> smE_inv g0 -> ss = g_sessions (co g0) -> isNewSession e = false ->
  evtType e <> evtBlockTimeout -> evtType e <> evtHelloDelayTimeout -> smE_ready e g.
Proof.
  intros [B T S P V sE rR qQ bB tB tH] Hi -> Hn Hb Hh. apply smE_ready_inv; [|done..].
  eapply smE_inv_ext; [..|exact Hi]; done.
Qed.

(** A frame from a known mapper, or that belongs to no session. *)
Lemma packet_ready_known f g0 e p g :
  f = false -> mach_inv q g0 -> handling f g0 (g_sessions (co g0)) (g_topo_session (co g0)) e g ->
  evt_ssn e = p -> packet_event (evtType e) -> isNewSession e = false -> emit_event_ok g ->
  (forall i, p = Some i -> exists s, g_sessions (co g0) !! i = Some s /\ ssn_is_valid s = true) ->
  packet_ready q e g.
Proof.
  intros -> [Mb Mt Ms Me Mq] H Hp Hty Hn Hok Hv.
  assert (Hne : evtType e <> evtBlockTimeout /\ evtType e <> evtHelloDelayTimeout
                /\ evtType e <> evtEmitTimeout /\ evtType e <> evtInactivityTimeout)
    by (unfold packet_event in Hty; intuition congruence).
  destruct Hne as (N1 & N2 & N3 & N4).
  pose proof (handling_smE _ _ _ _ _ _ H Me eq_refl Hn N1 N2) as Hr.
  destruct H as [B T S P V sE rR qQ bB tB tH]. split; try done; [congruence|].
  rewrite S, P, Hp. destruct p as [i|]; [|done]. destruct (Hv i eq_refl) as (s & Hs & Hvs).
  exists s. split; [done|]. split; [by apply table_inv_weaken|]. split; [done|].
  destruct Ms as (Hi & _). specialize (Hi i s Hs ltac:(done)). unfold session_state_ok in Hi.
  rewrite Hvs in Hi. destruct (ssn_state s); try done; by right.
Qed.

Lemma find_session_None addr ss i s :
  find_session addr ss = None -> ss !! i = Some s -> ssn_is_valid s = true -> length addr = 6%nat ->
  ssn_mapper_real s <> addr.
Proof.
  unfold find_session. intros Hf Hs Hv Hl Heq. apply fmap_None, list_find_None in Hf.
  pose proof (Forall_lookup_1 _ _ _ _ Hf Hs) as Hn. apply Hn. split; [done|].
  apply ETHERADDR_EQUALS_true. by rewrite Heq.
Qed.

Lemma find_session_Some addr ss i :
  find_session addr ss = Some i ->
  exists s, ss !! i = Some s /\ ssn_is_valid s = true /\ ssn_mapper_real s = addr.
Proof.
  unfold find_session. intros Hf. apply fmap_Some in Hf as ((k & s) & Hf & ->).
  apply list_find_Some in Hf as (Hs & (Hv & Heq) & _). exists s. split; [done|]. split; [done|].
  by apply ETHERADDR_EQUALS_true in Heq as [-> _].
Qed.

Lemma free_session_Some ss i :
  free_session ss = Some i -> exists s, ss !! i = Some s /\ ssn_is_valid s = false.
Proof.
  unfold free_session. intros Hf. apply fmap_Some in Hf as ((k & s) & Hf & ->).
  apply list_find_Some in Hf as (Hs & Hv & _). by exists s.
Qed.

Lemma table_inv_new ss tp i s s' :
  table_inv None ss tp -> ss !! i = Some s -> ssn_is_valid s = false -> ssn_is_valid s' = true ->
  ssn_state s' = smS_Nascent ->
  (forall j t, ss !! j = Some t -> ssn_is_valid t = true -> ssn_mapper_real t <> ssn_mapper_real s') ->
  table_inv (Some i) (<[i := s']> ss) tp.
Proof.
  intros (H1 & H2 & H3) Hs Hv Hv' Hst Hnew. split; [|split].
  - intros j t Hj Hne. apply lookup_insert_cases in Hj as [(<- & _)|[_ Hj]]; [done|by eapply H1].
  - intros a b x y Ha Hb Hxv Hyv Hr.
    apply lookup_insert_cases in Ha as [(<- & -> & _)|[Hna Ha]];
      apply lookup_insert_cases in Hb as [(<- & -> & _)|[Hnb Hb]]; try done.
    + by destruct (Hnew _ _ Hb Hyv).
    + by destruct (Hnew _ _ Ha Hxv).
    + by eapply H2.
  - destruct tp as [k|].
    + destruct H3 as (t & Ht & Hto). exists t. split; [|done]. rewrite list_lookup_insert_ne; [done|].
      intros <-. rewrite Hs in Ht. injection Ht as <-. destruct Hto. congruence.
    + intros j t Hj Hvt. apply lookup_insert_cases in Hj as [(<- & -> & _)|[_ Hj]]; [congruence|by eapply H3].
Qed.

(** A Discover from an unknown mapper. *)
Lemma wp_create_session g0 e src (Q : option nat -> G -> Prop) g :
  mach_inv q g0 -> handling false g0 (g_sessions (co g0)) (g_topo_session (co g0)) e g ->
  evtType e = evtDiscoverRcvd -> load 6 (g_rxbuf (rx g0)) tbh_realsrc = Some src -> length src = 6%nat ->
  find_session src (g_sessions (co g0)) = None -> emit_event_ok g ->
  (forall g', mach_inv q g' -> Q None g') ->
  (forall i g', packet_ready q (set_evt_ssn (Some i) (set_isNewSession true e)) g' -> Q (Some i) g') ->
  wp create_session Q g.
Proof.
  intros M H Hty Hsrc Hl Hfind Hok HQn HQs. destruct M as [Mb Mt Ms Me Mq].
  unfold create_session, new_session. apply wp_bind, wp_bind, wp_gets.
  rewrite (hd_sessions _ _ _ _ _ _ H).
  destruct (free_session _) as [i|] eqn:Hfree.
  2:{ do 2 wp_step. apply HQn. destruct H as [B T S P V sE rR qQ bB tB tH]. split; try done.
      - by rewrite S, P.
      - eapply smE_inv_ext; [..|exact Me]; done.
      - congruence. }
  destruct (free_session_Some _ _ Hfree) as (s & Hs & Hv).
  pose proof (proj1 Ms i s Hs ltac:(done)) as Hso. unfold session_state_ok in Hso. rewrite Hv in Hso.
  destruct Hso as [Hst Htm].
  bind_hd H @wp_hd_set; [exact Hs|intros _; by split|done|]. intros g1 H1.
  apply wp_ret. bind_hd H1 @wp_hd_evt. intros g2 H2. apply wp_bind, wp_gets.
  pose proof (bo_rx _ (hd_base _ _ _ _ _ _ H2)) as Hrx.
  unfold rx_mac. apply wp_bind, wp_rx_load; [done|done|done|].
  intros real Hreal Hrl _. rewrite (hd_rx _ _ _ _ _ _ H2) in Hreal.
  assert (real = src) as -> by congruence.
  apply wp_bind, wp_rx_load; [done|done|done|]. intros cur _ Hcl _.
  apply wp_bind, wp_rx8; [done|done|]. intros tos _.
  bind_hd H2 @wp_hd_set; [by eapply lookup_insert_some|intros _; by split|done|].
  intros g3 H3. rewrite insert_insert_same in H3. bind_hd H3 @wp_hd_evt. intros g4 H4. wp_step. apply HQs.
  set (s' := Session _ _ _ _ _ _ _ _ _) in H4.
  assert (Hs' : <[i := s']> (g_sessions (co g0)) !! i = Some s') by (by eapply lookup_insert_some).
  destruct H as [B T S P V sE rR qQ bB tB tH]. destruct H4 as [B4 T4 S4 P4 V4 sE4 rR4 qQ4 bB4 tB4 tH4].
  split; try done.
  - simpl. congruence.
  - intros Hx. rewrite V4 in Hx. simpl in Hx. congruence.
  - split; [intros _ _; exists i, s'; by rewrite S4|]. rewrite sE4, S4, tB4, tH4, bB4. clear S. unfold smE_inv in Me.
    assert (Hne : table_nonempty (<[i := s']> (g_sessions (co g0)))) by by exists i, s'.
    destruct (g_smE_state (co g0)); destruct Me as (E1 & E2 & E3).
    + by split.
    + split; [by right|]. split; [done|]. rewrite decide_False; simpl; [split; [done|congruence]|congruence].
    + split; [by right|done].
  - congruence.
  - simpl. exists s'. rewrite S4, P4. split; [done|]. split.
    + apply (table_inv_new _ _ _ s); try done. intros j t Hj Hvt. by eapply find_session_None.
    + split; [done|]. by rewrite (Hst : ssn_state s' = smS_Nascent).
Qed.
End process_packet.

Section process.
Context `{E : Env} {q : qosst}.

Lemma mach_inv_evt h g : mach_inv q g -> mach_inv q (evt_update h g).
Proof.
  intros [B T S Me Mq]. split; [base_same|by eapply smT_inv_ext; [..|exact T]|done| |done].
  by eapply smE_inv_ext; [..|exact Me].
Qed.

Lemma packet_ready_evt e i g :
  packet_ready q e g -> evt_ssn e = Some i -> packet_ready q e (evt_update (set_evt_ssn (Some i)) g).
Proof.
  intros [b1 b2 b3 b4 b5 b6 b7 b8] He.
  assert (Heq : g_this_event (co (evt_update (set_evt_ssn (Some i)) g)) = e).
  { simpl. rewrite b3. destruct e; simpl in *. by subst. }
  split; try done.
  - base_same.
  - by eapply smT_inv_ext; [..|exact b2].
Qed.

(** Processing a validated packet keeps the invariant of the machines. *)
Lemma wp_state_process_packet (Q : Z -> G -> Prop) g :
  mach_inv q g -> packet_event (evtType (g_this_event (co g))) ->
  (g_opcode (rx g) = Opcode_Discover -> evtType (g_this_event (co g)) = evtDiscoverRcvd) ->
  emit_event_ok g -> (forall r g', mach_inv q g' -> Q r g') -> wp state_process_packet Q g.
Proof.
  intros M Hty Hop Hok HQ. unfold state_process_packet. set (e := g_this_event (co g)) in *.
  pose proof (handling_start false g (mi_base _ _ M) (mi_smT _ _ M)) as H0. fold e in H0.
  bind_hd H0 @wp_hd_evt. intros g1 H1. bind_hd H1 @wp_hd_evt. intros g2 H2. clear H0 H1 g1.
  set (e2 := set_isNewSession false (set_isInternalEvt false e)) in *.
  assert (Hok2 : forall e' g', handling false g (g_sessions (co g)) (g_topo_session (co g)) e' g' ->
            evtType e' = evtType e -> numDescrs e' = numDescrs e -> emit_event_ok g').
  { intros e' g' H Ht Hn. unfold emit_event_ok in *. rewrite (hd_evt _ _ _ _ _ _ H), (hd_rx _ _ _ _ _ _ H), Ht, Hn.
    exact Hok. }
  pose proof (bo_rx _ (hd_base _ _ _ _ _ _ H2)) as Hrx.
  unfold rx_mac at 1. apply wp_bind, wp_rx_load; [done|done|done|]. intros src Hsrc Hl _.
  rewrite (hd_rx _ _ _ _ _ _ H2) in Hsrc.
  apply wp_bind, wp_gets. rewrite (hd_rx _ _ _ _ _ _ H2). apply wp_bind, wp_gets.
  rewrite (hd_sessions _ _ _ _ _ _ H2).
  (* giving the packet to the machines *)
  assert (Hrun : forall p, (forall i, p = Some i -> exists s, g_sessions (co g) !! i = Some s /\ ssn_is_valid s = true) ->
    wp (run_for p) Q g2).
  { intros p Hp. unfold run_for. bind_hd H2 @wp_hd_evt. intros g3 H3.
    apply wp_bind, (wp_run_machines (q := q) (set_evt_ssn p e2)).
    - eapply packet_ready_known; [done|exact M|exact H3|done|done|done| |done]. by eapply Hok2.
    - intros g' M'. do 3 wp_step. apply HQ. by apply mach_inv_evt. }
  destruct (find_session src (g_sessions (co g))) as [i|] eqn:Hf.
  { destruct (find_session_Some _ _ _ Hf) as (s & Hs & Hv & _). apply Hrun. intros ? [= <-]. by exists s. }
  apply wp_if; intros Hd; bool_to_prop.
  { apply wp_bind. eapply wp_create_session; [exact M|exact H2|by apply Hop|exact Hsrc|done|done| | |].
    - by eapply Hok2.
    - intros g' M'. wp_step. by apply HQ.
    - intros i g' Hr. unfold run_for. do 2 wp_step.
      apply wp_bind, (wp_run_machines (q := q) (set_evt_ssn (Some i) (set_isNewSession true e2))).
      + by apply packet_ready_evt.
      + intros g'' M'. do 3 wp_step. apply HQ. by apply mach_inv_evt. }
  apply wp_if; intros Hp; [|by apply Hrun].
  apply wp_bind, wp_topo_session_valid; [apply H2|]. apply wp_bind, wp_gets. apply Hrun.
  unfold topo_valid. rewrite (hd_topo _ _ _ _ _ _ H2), (hd_sessions _ _ _ _ _ _ H2).
  intros i. destruct (g_topo_session (co g)) as [k|] eqn:Htp; [|done].
  destruct (g_sessions (co g) !! k) as [s|] eqn:Hs; [|done].
  destruct (ssn_is_valid s) eqn:Hv; [|done]. intros [= <-]. by exists s.
Qed.
End process.

(** The state in which a timeout is given to the machines: its timer variable
    is cleared and the event is described. *)
Record timeout_ready `{E : Env} (q : qosst) (e : protocol_event) (g : G) : Prop := TimeoutReady {
  tr_base : base_ok g;
  tr_smT : smT_inv (bool_decide (evtType e = evtEmitTimeout)) g;
  tr_evt : g_this_event (co g) = e;
  tr_type : evtType e = evtBlockTimeout \/ evtType e = evtChargeTimeout \/ evtType e = evtEmitTimeout
            \/ evtType e = evtHelloDelayTimeout \/ evtType e = evtInactivityTimeout;
  tr_smE : smE_ready (set_isNewSession false e) g;
  tr_qs : qs g = q;
  tr_session :
    if decide (evtType e = evtInactivityTimeout) then
      exists i s, evt_ssn e = Some i /\ g_sessions (co g) !! i = Some s /\ ssn_ready e s
        /\ table_inv (Some i) (g_sessions (co g)) (g_topo_session (co g))
    else table_inv None (g_sessions (co g)) (g_topo_session (co g));
  tr_hello : evtType e = evtHelloDelayTimeout -> table_nonempty (g_sessions (co g));
  tr_fire : evtType e = evtEmitTimeout -> evt_ssn e = g_topo_session (co g)
}.

Section timeout_lemmas.
Context `{E : Env} {q : qosst}.

Lemma base_ok_rx r g : base_ok g -> rx_ok r -> base_ok (set_rx r g).
Proof.
  intros [Hio Hrx Hw Hs Ht He] Hr. split; try done.
  - by eapply io_ok_ext; [..|exact Hio].
  - apply (timers_ok_ext g); [done| |done]. by intros [].
Qed.

(** The Hello-delay event for every valid session. *)
Lemma wp_hello_sessions e g0 ss tp (Q : unit -> G -> Prop) g :
  handling false g0 ss tp e g -> evtType e = evtHelloDelayTimeout -> table_inv None ss tp ->
  table_nonempty ss ->
  (forall g' ss' tp' e', handling false g0 ss' tp' e' g' -> evtType e' = evtHelloDelayTimeout ->
     isNewSession e' = isNewSession e -> numDescrs e' = numDescrs e -> table_inv None ss' tp' ->
     table_nonempty ss' -> Q tt g') ->
  wp (for_n MAX_NUM_SESSIONS 0 (fun i =>
       s ← ssn_get (Some i);
       when (ssn_is_valid s)
         (modify (evt_update (set_evt_ssn (Some i)));; smS_process_event;; mret tt))) Q g.
Proof.
  intros H Hty Htab Hne HQ.
  apply (wp_for_n (fun _ g' => exists ss' tp' e', handling false g0 ss' tp' e' g'
    /\ evtType e' = evtHelloDelayTimeout /\ isNewSession e' = isNewSession e
    /\ numDescrs e' = numDescrs e /\ table_inv None ss' tp' /\ table_nonempty ss')).
  - by exists ss, tp, e.
  - intros j g1 Hj (ss1 & tp1 & e1 & H1 & Hty1 & Hn1 & Hd1 & Htab1 & Hne1).
    destruct (lookup_lt_is_Some_2 ss1 j) as [s Hs].
    { rewrite <- (hd_sessions _ _ _ _ _ _ H1), (cw_size _ (bo_core _ (hd_base _ _ _ _ _ _ H1))). lia. }
    bind_hd H1 @wp_hd_get; [exact Hs|]. apply wp_when; intros Hv.
    2:{ by exists ss1, tp1, e1. }
    bind_hd H1 @wp_hd_evt. intros g2 H2. apply wp_bind.
    eapply (wp_smS_process_event false g0 _ _ _ j s); [exact H2|done|exact Hs|by apply table_inv_weaken| |done|].
    + split; [done|]. pose proof (proj1 Htab1 j s Hs ltac:(done)) as Hok. unfold session_state_ok in Hok.
      rewrite Hv in Hok. destruct (ssn_state s); try done; by right.
    + intros g3 [(ss3 & tp3 & e3 & H3 & (T1 & T2 & T3 & T4) & Htab3 & Hne3 & _)]. wp_step.
      assert (Hnr : ~ is_reset (set_evt_ssn (Some j) e1)) by (intros [Hx|Hx]; simpl in Hx; congruence).
      exists ss3, tp3, e3. split; [done|]. simpl in T1, T3, T4.
      split; [congruence|]. split; [congruence|]. split; [congruence|]. split; [|by apply Hne3].
      destruct Htab3 as [[? _]|[? _]]; done.
  - intros g1 (ss1 & tp1 & e1 & H1 & Hty1 & Hn1 & Hd1 & Htab1 & Hne1). by eapply HQ.
Qed.

Lemma wp_timeout_end e (Q : Z -> G -> Prop) g :
  machines_ready q e g -> (forall g', mach_inv q g' -> Q 0 g') ->
  wp (smStatus ← smE_process_event;
      (if decide (smStatus = PROCESSING_ABORTED) then mret tt else smT_process_event;; mret tt);;
      mret 0) Q g.
Proof.
  intros Hm HQ. apply (wp_smE_smT (q := q) e (fun _ => mret 0) Q g); [done|]. intros g' M. wp_step. by apply HQ.
Qed.

(** An event that is not processed by the session machine. *)
Lemma timeout_machines e g :
  base_ok g -> smT_inv (firing g) g -> smE_ready e g -> g_this_event (co g) = e ->
  emit_event_ok g -> table_inv None (g_sessions (co g)) (g_topo_session (co g)) -> ~ is_reset e ->
  (evtType e = evtEmitTimeout -> evt_ssn e = g_topo_session (co g)) -> qs g = q ->
  machines_ready q e g.
Proof.
  intros B T R He Hok Ht Hn Hf Hqs. split; try done.
  - by left.
  - intros Hfi. right. apply Hf. unfold firing in Hfi. rewrite He in Hfi. by bool_to_prop.
Qed.

(** The end of a Hello-delay timeout. *)
Lemma hello_machines e g0 ss tp e' g :
  handling false g0 ss tp e' g -> evtType e = evtHelloDelayTimeout ->
  evtType e' = evtHelloDelayTimeout -> isNewSession e' = false -> table_inv None ss tp ->
  table_nonempty ss -> table_nonempty (g_sessions (co g0)) -> smE_ready e g0 -> qs g0 = q ->
  machines_ready q e' g.
Proof.
  intros [B T S P V sE rR qQ bB tB tH] Hty Hty' Hn Htab Hne Hne0 [_ Hr] Hqs.
  assert (Hf : firing g = false) by (unfold firing; by rewrite V, Hty').
  split; try done.
  - by rewrite Hf.
  - split; [by rewrite Hn|]. rewrite sE, S, tB, tH, bB, Hty'. rewrite Hty in Hr.
    destruct (g_smE_state (co g0)).
    + destruct Hr as (H1 & H2 & H3). split; [done|]. split; [done|]. intros _.
      destruct (H3 Hne0). congruence.
    + destruct Hr as (H1 & H2 & H3 & H4). by split; [right|].
    + destruct Hr as (H1 & H2 & H3). by split; [right|].
  - intros Hx. rewrite V in Hx. congruence.
  - left. rewrite S, P. split; [done|]. intros [Hx|Hx]; congruence.
  - by rewrite Hf.
  - congruence.
Qed.

(** A timeout keeps the invariant of the machines. *)
Lemma wp_state_process_timeout e (Q : Z -> G -> Prop) g :
  timeout_ready q e g -> (forall g', mach_inv q g' -> Q 0 g') -> wp state_process_timeout Q g.
Proof.
  intros [Hb Ht He Hty Hr Hqs Hs Hh Hfi] HQ. unfold state_process_timeout, this_event.
  do 10 wp_step. match goal with |- wp _ _ ?s => set (g5 := s) end.
  set (e5 := set_numDescrs 0 (set_isInternalEvt false (set_isAckingMe false (set_isNewSession false e)))).
  assert (He5 : g_this_event (co g5) = e5) by (unfold g5; simpl; by rewrite He).
  assert (B5 : base_ok g5).
  { unfold g5. set (r := RxCtx (g_rxbuf (rx g)) 0 (g_sequencenum (rx g)) (g_opcode (rx g))).
    assert (base_ok (set_rx r g)).
    { apply base_ok_rx; [done|]. destruct (bo_rx _ Hb). split; simpl; try done. }
    base_same. }
  assert (T5 : smT_inv (firing g5) g5).
  { unfold firing. rewrite He5. by eapply smT_inv_ext; [..|exact Ht]. }
  assert (Hok5 : emit_event_ok g5).
  { intros Hx. rewrite He5 in Hx. simpl in Hx. destruct Hty as [?|[?|[?|[?|?]]]]; congruence. }
  assert (R5 : smE_ready e5 g5) by exact Hr.
  assert (S5 : g_sessions (co g5) = g_sessions (co g) /\ g_topo_session (co g5) = g_topo_session (co g)) by done.
  destruct S5 as [S5 P5]. assert (Q5 : qs g5 = q) by exact Hqs. rewrite <- S5, <- P5 in Hs. rewrite <- S5 in Hh. rewrite <- P5 in Hfi.
  apply wp_bind, wp_gets. rewrite He5. clearbody g5. change (evtType e5) with (evtType e).
  apply wp_bind, wp_when; intros Hhd; bool_to_prop.
  { (* Hello delay *)
    assert (Hni : evtType e <> evtInactivityTimeout) by congruence. rewrite decide_False in Hs by done.
    assert (H5 : handling false g5 (g_sessions (co g5)) (g_topo_session (co g5)) e5 g5).
    { rewrite <- He5. apply handling_start; [done|]. unfold firing in T5.
      by rewrite He5, bool_decide_false in T5 by (simpl; congruence). }
    apply wp_bind. eapply wp_hello_sessions; [exact H5|done|done|by apply Hh|].
    intros g6 ss6 tp6 e6 H6 Ht6 Hn6 _ Htab6 Hne6. eapply wp_hd_evt; [exact H6|]. intros g7 H7.
    apply wp_bind, wp_when; [intros; bool_to_prop; congruence|intros _].
    eapply wp_timeout_end; [eapply (hello_machines e5); [exact H7|done|done|done|done|done|by apply Hh|done|done]|done]. }
  apply wp_bind, wp_when; intros Hin; bool_to_prop.
  - (* inactivity *)
    rewrite decide_True in Hs by done. destruct Hs as (i & s & Hei & Hsi & Hsr & Htab).
    assert (Hf : firing g5 = false).
    { unfold firing. rewrite He5. apply bool_decide_eq_false. simpl. congruence. }
    assert (H5 : handling (firing g5) g5 (g_sessions (co g5)) (g_topo_session (co g5)) e5 g5).
    { rewrite <- He5. by apply handling_start. }
    apply wp_bind. eapply wp_smS_process_event; [exact H5|exact Hei|exact Hsi|done|done|done|].
    intros g6 H6. wp_step.
    destruct (smS_to_machines (q := q) g5 e5 i g6) as (e' & _ & Hm); try done.
    { exists i, s. by destruct Hsr. }
    by eapply wp_timeout_end.
  - rewrite decide_False in Hs by done. eapply (wp_timeout_end e5); [|done].
    apply timeout_machines; try done. intros [Hx|Hx]; simpl in Hx; [done|].
    destruct Hty as [?|[?|[?|[?|?]]]]; congruence.
Qed.
End timeout_lemmas.

(** ** The functions called by the event list

    [g] satisfies the invariant and its first event [e] belongs to the timer
    [t]; the function runs after the event was unlinked. *)

Section timeout_functions.
Context `{E : Env} {q : qosst}.

Lemma base_ok_unlink t e l g :
  base_ok g -> Events (tm g) = e :: l -> is_timer_event t e ->
  timer_valid t g /\ timer_get t g = Some (ev_addr e) /\ base_ok (timer_set t None (set_Events l g)).
Proof.
  intros [Hio Hrx Hw Hs Ht He] Hl Hte.
  assert (Hget : timer_get t g = Some (ev_addr e)).
  { apply (to_owned _ Ht). exists e. rewrite Hl. split; [apply list_elem_of_here|done]. }
  assert (Hv : timer_valid t g).
  { destruct t as [| | | |i]; try done. simpl in Hget |- *.
    destruct (g_sessions (co g) !! i) as [s|] eqn:Hi; [|done]. by eapply lookup_lt_Some. }
  split; [done|]. split; [done|]. pose proof (to_sorted _ Ht) as Hso. rewrite Hl in Hso.
  inversion_clear Hso.
  split; try by destruct t.
  - eapply io_ok_ext; [..|exact Hio]; by destruct t.
  - destruct t as [| | | |i]; try done. destruct Hw as [W1 W2 W3 W4].
    split; simpl; rewrite ?length_alter; try done. apply Forall_alter; [done|]. by intros [].
  - eapply (timers_ok_unlink t _ e); [exact Ht|exact Hv|exact Hget|done|by rewrite Hl|done].
Qed.

Lemma base_ok_evt h g : base_ok g -> base_ok (evt_update h g).
Proof. intros Hb. base_same. Qed.

Lemma wp_state_block_timeout e l (Q : unit -> G -> Prop) g :
  mach_inv q g -> Events (tm g) = e :: l -> is_timer_event T_block e ->
  (forall g', mach_inv q g' -> Q tt g') -> wp state_block_timeout Q (set_Events l g).
Proof.
  intros [Mb Mt Ms Me Mq] Hl Hte HQ. destruct (base_ok_unlink _ _ _ _ Mb Hl Hte) as (_ & Hget & B).
  unfold state_block_timeout. do 4 wp_step.
  set (ev := set_evtType evtBlockTimeout (g_this_event (co g))).
  apply wp_bind, (wp_state_process_timeout (q := q) ev); [|intros g' M; wp_step; by apply HQ].
  split; try done.
  - by apply base_ok_evt.
  - by eapply smT_inv_ext; [..|exact Mt].
  - by left.
  - split; [done|]. unfold smE_inv in Me. simpl in Hget, Me |- *.
    destruct (g_smE_state (co g)); destruct Me as (E1 & E2 & E3); try congruence.
    split; [by right|done].
Qed.

Lemma wp_state_charge_timeout e l c (Q : unit -> G -> Prop) g :
  mach_inv q g -> Events (tm g) = e :: l -> is_timer_event T_charge e ->
  (forall g', mach_inv q g' -> Q tt g') -> wp (state_charge_timeout c) Q (set_Events l g).
Proof.
  intros [Mb Mt Ms Me Mq] Hl Hte HQ. destruct (base_ok_unlink _ _ _ _ Mb Hl Hte) as (_ & Hget & B).
  unfold state_charge_timeout. do 10 wp_step.
  set (ev := set_evt_ssn c (set_evtType evtChargeTimeout (g_this_event (co g)))).
  apply wp_bind, (wp_state_process_timeout (q := q) ev); [|intros g' M; wp_step; by apply HQ].
  split; try done.
  - simpl timer_set in B. do 2 apply base_ok_evt. base_same.
  - destruct Mt as [[P1 P2 P3] Mt]. split; [split; simpl; [unfold TOPO_CTC_PACKETS_MAX; lia|lia|done]|].
    simpl in Hget, Mt |- *. destruct (g_smT_state (co g)); [|done|]; destruct Mt as (T1 & T2 & T3); [congruence|].
    destruct T3 as [_ T3]. congruence.
  - right. by left.
  - apply smE_ready_inv; [|done..]. by eapply smE_inv_ext; [..|exact Me].
Qed.

Lemma wp_state_emit_timeout e l (Q : unit -> G -> Prop) g :
  mach_inv q g -> Events (tm g) = e :: l -> is_timer_event T_emit e ->
  (forall g', mach_inv q g' -> Q tt g') -> wp state_emit_timeout Q (set_Events l g).
Proof.
  intros [Mb Mt Ms Me Mq] Hl Hte HQ. destruct (base_ok_unlink _ _ _ _ Mb Hl Hte) as (_ & Hget & B).
  simpl timer_set in B. unfold state_emit_timeout. do 4 wp_step.
  apply wp_bind, wp_topo_session_valid; [by apply base_ok_evt|].
  destruct Mt as [Mc Mt]. simpl in Hget, Mt.
  destruct (g_smT_state (co g)) eqn:Hst; [destruct Mt; congruence|destruct Mt; congruence|].
  destruct Mt as (T1 & T2 & T3 & T4). destruct (g_topo_session (co g)) as [k|] eqn:Htp; [|done].
  destruct Ms as (S1 & S2 & s & Hs & Hto).
  assert (Htv : topo_valid (co (evt_update (set_evtType evtEmitTimeout) (set_g_emit_timer None (set_Events l g)))) = true).
  { unfold topo_valid. simpl. rewrite Htp, Hs. by destruct Hto as (-> & _). }
  rewrite Htv. apply wp_bind. do 3 wp_step.
  set (ev := set_evt_ssn (Some k) (set_evtType evtEmitTimeout (g_this_event (co g)))).
  apply wp_bind, (wp_state_process_timeout (q := q) ev); [|intros g' M; wp_step; by apply HQ].
  split; try done.
  - by do 2 apply base_ok_evt.
  - split; [by eapply charge_ok_ext; [..|exact Mc]|]. simpl. rewrite Hst, Htp. by split.
  - simpl. by rewrite Htp.
  - right; right; by left.
  - apply smE_ready_inv; [|done..]. by eapply smE_inv_ext; [..|exact Me].
  - simpl. rewrite Htp. split; [done|]. split; [done|]. by exists s.
Qed.

Lemma wp_state_hello_delay_timeout e l c (Q : unit -> G -> Prop) g :
  mach_inv q g -> Events (tm g) = e :: l -> is_timer_event T_hello e ->
  (forall g', mach_inv q g' -> Q tt g') -> wp (state_hello_delay_timeout c) Q (set_Events l g).
Proof.
  intros [Mb Mt Ms Me Mq] Hl Hte HQ. destruct (base_ok_unlink _ _ _ _ Mb Hl Hte) as (_ & Hget & B).
  simpl timer_set in B. unfold state_hello_delay_timeout. do 6 wp_step.
  set (ev := set_evt_ssn c (set_evtType evtHelloDelayTimeout (g_this_event (co g)))).
  assert (Hp : g_smE_state (co g) = smE_Pausing /\ table_nonempty (g_sessions (co g))
               /\ is_Some (timer_get T_block g) /\ band_ok (g_band g)).
  { unfold smE_inv in Me. simpl in Hget, Me |- *.
    destruct (g_smE_state (co g)); destruct Me as (E1 & E2 & E3); try congruence. done. }
  destruct Hp as (Hp & Hne & Hblk & Hbd).
  apply wp_bind, (wp_state_process_timeout (q := q) ev); [|intros g' M; wp_step; by apply HQ].
  split; try done.
  - by do 2 apply base_ok_evt.
  - by eapply smT_inv_ext; [..|exact Mt].
  - by do 3 right; left.
  - split; [done|]. simpl. rewrite Hp. split; [by right|]. done.
Qed.

Lemma wp_state_inactivity_timeout e l i (Q : unit -> G -> Prop) g :
  mach_inv q g -> Events (tm g) = e :: l -> is_timer_event (T_inactivity i) e ->
  (forall g', mach_inv q g' -> Q tt g') -> wp (state_inactivity_timeout (Some i)) Q (set_Events l g).
Proof.
  intros [Mb Mt Ms Me Mq] Hl Hte HQ. destruct (base_ok_unlink _ _ _ _ Mb Hl Hte) as (Hv & Hget & B).
  unfold state_inactivity_timeout. do 4 wp_step. apply wp_bind.
  destruct (lookup_lt_is_Some_2 _ _ Hv) as [s Hs]. simpl in Hget. rewrite Hs in Hget. simpl in Hget.
  simpl timer_set in B. rewrite (list_alter_insert _ _ _ _ Hs) in B.
  eapply wp_ssn_update; [exact Hs|].
  set (ev := set_evt_ssn (Some i) (set_evtType evtInactivityTimeout (g_this_event (co g)))).
  set (s' := set_ssn_timer None s) in *.
  pose proof (proj1 Ms i s Hs ltac:(done)) as Hok. unfold session_state_ok in Hok.
  destruct (ssn_is_valid s) eqn:Hvs; [|destruct Hok as [_ Hok]; by rewrite Hok in Hget].
  assert (Hs' : <[i := s']> (g_sessions (co g)) !! i = Some s') by by eapply lookup_insert_some.
  assert (Hne : table_nonempty (<[i := s']> (g_sessions (co g)))) by by exists i, s'.
  apply wp_bind, (wp_state_process_timeout (q := q) ev); [|intros g' M; wp_step; by apply HQ].
  split; [|..|done|done]; [| |done|..].
  - change (base_ok (evt_update (set_evt_ssn (Some i)) (evt_update (set_evtType evtInactivityTimeout)
      (set_g_sessions (<[i := s']> (g_sessions (co g))) (set_Events l g))))).
    by do 2 apply base_ok_evt.
  - by eapply smT_inv_ext; [..|exact Mt].
  - by do 4 right.
  - split; [done|]. unfold smE_inv in Me. simpl in Me |- *.
    destruct (g_smE_state (co g)); destruct Me as (E1 & E2 & E3).
    + exfalso. apply E1. by exists i, s.
    + split; [by right|]. done.
    + split; [by right|done].
  - exact Mq.
  - rewrite decide_True by done. exists i, s'. split; [done|]. split; [exact Hs'|]. split.
    + split; [done|]. simpl. destruct (ssn_state s); try done; try (by left); congruence.
    + destruct Ms as (S1 & S2 & S3). split; [|split].
      * intros j t Hj Hne'. simpl in Hj. apply lookup_insert_cases in Hj as [(<- & _)|[_ Hj]]; [done|]. by eapply S1.
      * by eapply unique_insert.
      * simpl. destruct (g_topo_session (co g)) as [k|].
        -- destruct (decide (k = i)) as [->|Hki].
           ++ exists s'. split; [done|]. destruct S3 as (t & Ht & Hto). rewrite Hs in Ht. by injection Ht as <-.
           ++ destruct S3 as (t & Ht & Hto). exists t. by rewrite list_lookup_insert_ne.
        -- intros j t Hj Hvt. simpl in Hj. apply lookup_insert_cases in Hj as [(<- & -> & _)|[_ Hj]].
           ++ exact (S3 i s Hs Hvs).
           ++ exact (S3 j t Hj Hvt).
Qed.
End timeout_functions.
