(* ===== verification/Qos.v ===== *)
(** * Qos: the QoS-diagnostics sink (qospktio.c)

    Sessions with a controller, timed-probe event buckets, probe reflection
    and the interface counter samples.  The target is big-endian
    ([-D__BIG_ENDIAN] in the Makefile): a number stored without conversion is
    stored in network order. *)

From S2P Require Import Prelude LltdTypes Event Tlv PacketTx.

(** ** Constants of qosprotocol.h *)

Definition Qopcode_InitializeSink : Z := 0.
Definition Qopcode_Ready : Z := 1.
Definition Qopcode_Probe : Z := 2.
Definition Qopcode_Query : Z := 3.
Definition Qopcode_QueryResp : Z := 4.
Definition Qopcode_Reset : Z := 5.
Definition Qopcode_Error : Z := 6.
Definition Qopcode_ACK : Z := 7.
Definition Qopcode_CounterSnapshot : Z := 8.
Definition Qopcode_CounterResult : Z := 9.
Definition Qopcode_CounterLease : Z := 10.
Definition Qopcode_INVALID : Z := 11.
Definition Qoserror_Busy : Z := 1.
Definition Qoserror_ModerationNotAvailable : Z := 2.

(** qos_probe_header_t, after the Ethernet and base headers *)
Definition probe_txstamp : Z := 32 + 0.
Definition probe_rxstamp : Z := 32 + 8.
Definition probe_rtxstamp : Z := 32 + 16.
Definition probe_testtype : Z := 32 + 24.
Definition probe_pktID : Z := 32 + 25.
Definition probe_pqval : Z := 32 + 26.
Definition probe_payload : Z := 32 + 27.
Definition init_intmod_ctrl : Z := 32 + 0.
Definition cnt_rqstd : Z := 32 + 0.
(** the same fields in a frame with an 802.1q tag: four bytes further *)
Definition qeh_qtag : Z := 12.
Definition qeh_ptag : Z := 14.
Definition qeh_ethertype : Z := 16.
Definition tag_size : Z := 4.

Definition BYTE_SCALE_FACTOR : Z := 1024.
Definition PKT_SCALE_FACTOR : Z := 1.
Definition perf_sample_bytes (s : perf_sample) : list Z :=
  be16 (bytes_rcvd s) ++ be16 (pkts_rcvd s) ++ be16 (bytes_sent s) ++ be16 (pkts_sent s).

(** ** Access to the QoS sessions *)

Definition qos_update (i : nat) (f : qos_session -> qos_session) : CM unit :=
  ss ← gets (fun g => g_QosSessions (qs g));
  s ← in_bounds (ss !! i);
  modify (set_g_QosSessions (<[i := f s]> ss)).

Definition qos_get (i : nat) : CM qos_session :=
  ss ← gets (fun g => g_QosSessions (qs g)); in_bounds (ss !! i).

Definition qos_of_addr (addr : list Z) (s : qos_session) : Prop :=
  qssn_is_valid s = true /\ ETHERADDR_EQUALS addr (qssn_ctrlr_real s) = true.
#[export] Instance qos_of_addr_dec addr s : Decision (qos_of_addr addr s).
Proof. unfold qos_of_addr. apply _. Defined.

Definition qos_find_session : CM (option nat) :=
  src ← rx_mac tbh_realsrc;
  ss ← gets (fun g => g_QosSessions (qs g));
  mret (fst <$> list_find (qos_of_addr src) ss).

(** The bucket of the active ones, oldest first, that has the sequence number:
    its index. *)
Fixpoint find_bucket (n : nat) (i : Z) (seq : Z) (buckets : list qosEventBucket) : option nat :=
  match n with
  | O => None
  | S n' =>
      let k := Z.to_nat (Z.land i (MAX_QOS_BUCKETS - 1)) in
      match buckets !! k with
      | Some b => if evt_seqNum b =? seq then Some k else find_bucket n' (i + 1) seq buckets
      | None => None
      end
  end.
Definition qos_find_bucket (s : qos_session) : CM (option nat) :=
  seq ← gets (fun g => g_sequencenum (rx g));
  mret (find_bucket (Z.to_nat (qssn_num_active_buckets s)) (qssn_first_bucket s) seq
          (qssn_evt_buckets s)).

(** Writing a field of the received packet. *)
Definition rx_store (bytes : list Z) (off : Z) : CM unit :=
  b ← gets (fun g => g_rxbuf (rx g)); b' ← in_bounds (store bytes b off);
  modify (set_g_rxbuf b').

(** The tick of the inactivity timer on one session. *)
Definition qos_tick (s : qos_session) : qos_session :=
  if qssn_is_valid s then
    let ticks := if qssn_ticks_til_discard s =? 0 then 0 else qssn_ticks_til_discard s - 1 in
    if ticks =? 0
    then QosSession ticks (qssn_first_bucket s) 0 (qssn_evt_buckets s) (qssn_ctrlr_real s) false
    else QosSession ticks (qssn_first_bucket s) (qssn_num_active_buckets s)
           (qssn_evt_buckets s) (qssn_ctrlr_real s) true
  else s.

Definition qos_touch (s : qos_session) : qos_session :=
  QosSession 4 (qssn_first_bucket s) (qssn_num_active_buckets s) (qssn_evt_buckets s)
    (qssn_ctrlr_real s) (qssn_is_valid s).

(** The bucket a timed probe goes to when no active one has its sequence
    number: the oldest when all are active, otherwise the next one. *)
Definition qos_new_bucket (s : qos_session) : nat * qos_session :=
  if MAX_QOS_BUCKETS <=? qssn_num_active_buckets s then
    (Z.to_nat (qssn_first_bucket s),
     QosSession (qssn_ticks_til_discard s)
       (Z.land (qssn_first_bucket s + 1) (MAX_QOS_BUCKETS - 1)) (qssn_num_active_buckets s)
       (qssn_evt_buckets s) (qssn_ctrlr_real s) (qssn_is_valid s))
  else
    (Z.to_nat (Z.land (qssn_first_bucket s + qssn_num_active_buckets s) (MAX_QOS_BUCKETS - 1)),
     QosSession (qssn_ticks_til_discard s) (qssn_first_bucket s)
       (u8 (qssn_num_active_buckets s + 1))
       (qssn_evt_buckets s) (qssn_ctrlr_real s) (qssn_is_valid s)).

Section with_env.
Context `{E : Env}.

Definition stamp_time : CM Z :=
  now ← sys env_now; mret (u64 (tv_sec now * 1000000 + tv_usec now)).
Definition get_timestamp : CM Z :=
  now ← sys env_stamp; mret (u64 (tv_sec now * 1000000 + tv_usec now)).

Definition set_counters (rb rp tb tp : Z) : CM unit :=
  modify (set_g_rbytes rb);; modify (set_g_rpkts rp);;
  modify (set_g_tbytes tb);; modify (set_g_tpkts tp).

(** The test on [cntrs_parsedOK] is the code's: the counters are cleared
    when the line was parsed, and otherwise set to their initial -1. *)
Definition get_raw_samples : CM unit :=
  procdev ← sys env_netdev;
  match procdev with
  | Some line =>
      let cntrs_parsedOK := bool_decide (is_Some line) in
      let '(rbytes, rpkts, tbytes, tpkts) :=
        default (u32 (-1), u32 (-1), u32 (-1), u32 (-1)) line in
      if cntrs_parsedOK then set_counters 0 0 0 0
      else set_counters rbytes rpkts tbytes tpkts
  | None => set_counters 0 0 0 0
  end.

(** [now.tv_sec += sec] after gettimeofday. *)
Definition now_plus_sec (sec : Z) : CM timeval :=
  now ← sys env_now; mret (Timeval (tv_sec now + sec) (tv_usec now)).

Definition qos_inactivity_timeout : CM unit :=
  modify (fun g => set_g_QosSessions (qos_tick <$> g_QosSessions (qs g)) g);;
  now ← now_plus_sec 30;
  ne ← event_add now qos_inactivity_timeout_fn None;
  modify (set_g_qos_inactivity_timer (Some ne)).

Definition counter_delta (new old factor : Z) : Z := u16 (u32 (new - old) / factor).

(** The differences of the counters with their values before the reading. *)
Definition sample_now : CM perf_sample :=
  rbytes ← gets (fun g => g_rbytes (qs g));
  rpkts ← gets (fun g => g_rpkts (qs g));
  tbytes ← gets (fun g => g_tbytes (qs g));
  tpkts ← gets (fun g => g_tpkts (qs g));
  get_raw_samples;;
  q ← gets qs;
  mret (PerfSample (counter_delta (g_rbytes q) rbytes BYTE_SCALE_FACTOR)
          (counter_delta (g_rpkts q) rpkts PKT_SCALE_FACTOR)
          (counter_delta (g_tbytes q) tbytes BYTE_SCALE_FACTOR)
          (counter_delta (g_tpkts q) tpkts PKT_SCALE_FACTOR)).

Definition interface_counter_recorder : CM unit :=
  rem ← gets (fun g => g_samples_remaining (qs g));
  modify (set_g_samples_remaining (u32 (rem - 1)));;
  if negb (u32 (rem - 1) =? 0) then
    next ← gets (fun g => g_next_sample (qs g));
    sample ← sample_now;
    samples ← gets (fun g => g_perf_samples (qs g));
    _ ← in_bounds (samples !! Z.to_nat next);
    modify (set_g_perf_samples (<[Z.to_nat next := sample]> samples));;
    stamp ← stamp_time;
    modify (set_g_perf_timestamp stamp);;
    modify (set_g_next_sample (u32 (next + 1) mod 60));;
    count ← gets (fun g => g_sample_count (qs g));
    when (count <? 60) (modify (set_g_sample_count (count + 1)));;
    now ← now_plus_sec 1;
    ne ← event_add now interface_counter_recorder_fn None;
    modify (set_g_qos_CTA_timer (Some ne))
  else
    modify (set_g_next_sample 0);; modify (set_g_sample_count 0).

(** qos_init without START_WITH_COUNTER_LEASE. *)
Definition qos_init : CM unit :=
  modify (fun g => set_g_QosSessions
    ((fun s => QosSession 0 0 0 (qssn_evt_buckets s) Etheraddr_null false)
       <$> g_QosSessions (qs g)) g);;
  modify (set_g_LinkSpeed 1000000);;
  modify (set_g_TimeStampFreq 1000000);;
  modify (set_g_pktio_timestamp 0);;
  now ← now_plus_sec 30;
  ne ← event_add now qos_inactivity_timeout_fn None;
  modify (set_g_qos_inactivity_timer (Some ne)).

Definition hdrs : Z := sizeof_ether_header + sizeof_base_header.

(** fmt_base with the addresses of a QoS answer to [dst]. *)
Definition qos_fmt (dst : list Z) (opcode : Z) : CM unit :=
  hw ← gets (fun g => g_hwaddr (co g));
  seq ← gets (fun g => g_sequencenum (rx g));
  fmt_base hw dst ToS_QoSDiagnostics opcode seq false.
(** [tx_write(g_txbuf, nbytes)] *)
Definition tx_write_txbuf (nbytes : Z) : CM unit :=
  b ← gets (fun g => g_txbuf (tx g)); tx_write b nbytes.

Definition qos_tx_error (code : Z) : CM unit :=
  src ← rx_mac tbh_realsrc;
  qos_fmt src Qopcode_Error;;
  tx_store (be16 code) hdrs;;
  tx_write_txbuf (hdrs + 2).

Definition qos_initsink : CM unit :=
  len ← gets (fun g => g_rcvd_pkt_len (rx g));
  if len <? hdrs + 1 then mret tt (* warn: truncated InitializeSink header *)
  else
    intmod ← rx8 init_intmod_ctrl;
    if negb (intmod =? 0xFF) then qos_tx_error Qoserror_ModerationNotAvailable
    else
      found ← qos_find_session;
      ss ← gets (fun g => g_QosSessions (qs g));
      let slot := match found with
                  | Some i => Some i
                  | None => fst <$> list_find (fun s => qssn_is_valid s = false) ss
                  end in
      match slot with
      | None => qos_tx_error Qoserror_Busy
      | Some i =>
          src ← rx_mac tbh_realsrc;
          qos_update i (fun s =>
            QosSession 4 (qssn_first_bucket s) (qssn_num_active_buckets s)
              (qssn_evt_buckets s) src true);;
          qos_fmt src Qopcode_Ready;;
          speed ← gets (fun g => g_LinkSpeed (qs g));
          tx_store (be32 speed) hdrs;;
          freq ← gets (fun g => g_TimeStampFreq (qs g));
          tx_store (be64 freq) (hdrs + 4);;
          tx_write_txbuf (hdrs + 12)
      end.

Definition qos_reset : CM unit :=
  found ← qos_find_session;
  match found with
  | None => mret tt (* warn: no session active *)
  | Some i =>
      qos_update i (fun s => QosSession 0 (qssn_first_bucket s) 0 (qssn_evt_buckets s)
                              (qssn_ctrlr_real s) false);;
      s ← qos_get i;
      qos_fmt (qssn_ctrlr_real s) Qopcode_ACK;;
      tx_write_txbuf hdrs
  end.

(** A ProbeGap without 802.1p value: marked, stamped and reflected in place. *)
Definition probegap_reflect : CM unit :=
  rx_store [2] probe_testtype;;
  src ← rx_mac tbh_realsrc;
  dst ← rx_mac tbh_realdst;
  rx_store src eh_dst;;
  rx_store dst eh_src;;
  rx_store src tbh_realdst;;
  rx_store dst tbh_realsrc;;
  stamp ← gets (fun g => g_pktio_timestamp (qs g));
  rx_store (be64 stamp) probe_rxstamp;;
  stamp ← get_timestamp;
  modify (set_g_pktio_timestamp stamp);;
  rx_store (be64 stamp) probe_rtxstamp;;
  len ← gets (fun g => g_rcvd_pkt_len (rx g));
  b ← gets (fun g => g_rxbuf (rx g));
  tx_write b len.

(** [dst = src] between a field of the probe and of the tagged reflection. *)
Definition copy_field (n : nat) (from to : Z) : CM unit :=
  v ← rx_load n from; tx_store v to.

(** A ProbeGap with an 802.1p value: the reflection is built in [g_txbuf]
    with a tag.  The length of the payload copy subtracts [g_txbuf] from a
    pointer into [g_rxbuf]. *)
Definition probegap_reflect_tagged : CM unit :=
  copy_field 6 tbh_realsrc eh_dst;;
  copy_field 6 tbh_realdst eh_src;;
  copy_field 6 tbh_realsrc (tbh_realdst + tag_size);;
  copy_field 6 tbh_realdst (tbh_realsrc + tag_size);;
  tx_store (be16 0x0081) qeh_qtag;;
  pqval ← rx8 probe_pqval;
  tx_store (be16 (u16 (Z.shiftl pqval 9))) qeh_ptag;;
  copy_field 2 eh_ethertype qeh_ethertype;;
  copy_field 1 tbh_version (tbh_version + tag_size);;
  copy_field 1 tbh_tos (tbh_tos + tag_size);;
  copy_field 1 tbh_resrvd (tbh_resrvd + tag_size);;
  copy_field 1 tbh_opcode (tbh_opcode + tag_size);;
  copy_field 2 tbh_seqnum (tbh_seqnum + tag_size);;
  copy_field 8 probe_txstamp (probe_txstamp + tag_size);;
  tx_store [2] (probe_testtype + tag_size);;
  copy_field 1 probe_pktID (probe_pktID + tag_size);;
  copy_field 1 probe_pqval (probe_pqval + tag_size);;
  stamp ← gets (fun g => g_pktio_timestamp (qs g));
  tx_store (be64 stamp) (probe_rxstamp + tag_size);;
  len ← gets (fun g => g_rcvd_pkt_len (rx g));
  let n := u32 (len - (env_rx_minus_tx + probe_payload)) in
  rxb ← gets (fun g => g_rxbuf (rx g));
  (* memcpy: [n] bytes must be inside both buffers *)
  payload ← in_bounds (load_len n rxb probe_payload);
  tx_store payload (probe_payload + tag_size);;
  stamp ← get_timestamp;
  modify (set_g_pktio_timestamp stamp);;
  tx_store (be64 stamp) (probe_rtxstamp + tag_size);;
  tx_write_txbuf (len + 4).

(** Record a timed probe in bucket [k] of session [i]. *)
Definition qos_log_event (i k : nat) : CM unit :=
  s ← qos_get i;
  b ← in_bounds (qssn_evt_buckets s !! k);
  _ ← in_bounds (evt_descs b !! Z.to_nat (evt_numEvts b));
  txstamp ← rx_load 8 probe_txstamp;
  stamp ← gets (fun g => g_pktio_timestamp (qs g));
  pktID ← rx_load 1 probe_pktID;
  let descr := txstamp ++ be64 stamp ++ pktID ++ [0] in
  let b' := QosBucket (evt_seqNum b) (u16 (evt_numEvts b + 1))
              (<[Z.to_nat (evt_numEvts b) := descr]> (evt_descs b)) in
  qos_update i (fun s =>
    QosSession (qssn_ticks_til_discard s) (qssn_first_bucket s) (qssn_num_active_buckets s)
      (<[k := b']> (qssn_evt_buckets s)) (qssn_ctrlr_real s) (qssn_is_valid s)).

Definition qos_timed_probe (i : nat) : CM unit :=
  s ← qos_get i;
  found ← qos_find_bucket s;
  match found with
  | Some k =>
      b ← in_bounds (qssn_evt_buckets s !! k);
      if MAX_QOS_EVENTS_PER_BUCKET <=? evt_numEvts b then mret tt
      else qos_log_event i k
  | None =>
      let '(k, s') := qos_new_bucket s in
      b ← in_bounds (qssn_evt_buckets s' !! k);
      seq ← gets (fun g => g_sequencenum (rx g));
      qos_update i (fun _ =>
        QosSession (qssn_ticks_til_discard s') (qssn_first_bucket s')
          (qssn_num_active_buckets s')
          (<[k := QosBucket seq 0 (evt_descs b)]> (qssn_evt_buckets s'))
          (qssn_ctrlr_real s') (qssn_is_valid s'));;
      qos_log_event i k
  end.

Definition qos_probe : CM unit :=
  stamp ← get_timestamp;
  modify (set_g_pktio_timestamp stamp);;
  found ← qos_find_session;
  match found with
  | None => mret tt
  | Some i =>
      qos_update i qos_touch;;
      testtype ← rx8 probe_testtype;
      if testtype =? 1 then
        pqval ← rx8 probe_pqval;
        if Z.land pqval 0x80 =? 0 then probegap_reflect else probegap_reflect_tagged
      else if testtype =? 0 then qos_timed_probe i
      else mret tt
  end.

Definition qos_query : CM unit :=
  found ← qos_find_session;
  match found with
  | None => mret tt
  | Some i =>
      qos_update i qos_touch;;
      s ← qos_get i;
      qos_fmt (qssn_ctrlr_real s) Qopcode_QueryResp;;
      k ← qos_find_bucket s;
      let bucket := k ≫= fun k => qssn_evt_buckets s !! k in
      let numEvts := match bucket with Some b => evt_numEvts b | None => 0 end in
      tx_store (be16 numEvts) hdrs;;
      match bucket with
      | Some b =>
          evts ← in_bounds (sublist_lookup 0 (Z.to_nat numEvts) (evt_descs b));
          tx_store (concat evts) (hdrs + 2)
      | None => mret tt
      end;;
      tx_write_txbuf (hdrs + 2 + sizeof_qosEventDescr * numEvts)
  end.

Definition qos_counterlease : CM unit :=
  rem ← gets (fun g => g_samples_remaining (qs g));
  when (rem =? 0)
    (now ← now_plus_sec 1;
     ne ← event_add now interface_counter_recorder_fn None;
     modify (set_g_qos_CTA_timer (Some ne)));;
  modify (set_g_samples_remaining 300).

(** The loop that copies [n] samples from slot [next] on. *)
Fixpoint snapshot_copy (n : nat) (next off : Z) : CM Z :=
  match n with
  | O => mret off
  | S n' =>
      samples ← gets (fun g => g_perf_samples (qs g));
      s ← in_bounds (samples !! Z.to_nat next);
      tx_store (perf_sample_bytes s) off;;
      snapshot_copy n' ((next + 1) mod 60) (off + 8)
  end.

Definition qos_snapshot : CM unit :=
  src ← rx_mac tbh_realsrc;
  qos_fmt src Qopcode_CounterResult;;
  now ← stamp_time;
  last ← gets (fun g => g_perf_timestamp (qs g));
  tx_store [u8 (u64 (u64 (now - last) * 256) / 1000000)] hdrs;;
  tx_store [0] (hdrs + 1);;
  tx_store [0] (hdrs + 2);;
  rqstd ← rx16 cnt_rqstd;
  count ← gets (fun g => g_sample_count (qs g));
  let sample_cnt := if rqstd <=? u8 count then u8 rqstd else u8 count in
  tx_store [sample_cnt] (hdrs + 3);;
  next ← gets (fun g => g_next_sample (qs g));
  off ← snapshot_copy (Z.to_nat sample_cnt) (u32 (next + (60 - sample_cnt)) mod 60) (hdrs + 4);
  (* a sub-second sample; the counters are saved and restored *)
  q ← gets qs;
  s ← sample_now;
  tx_store (perf_sample_bytes s) off;;
  set_counters (g_rbytes q) (g_rpkts q) (g_tbytes q) (g_tpkts q);;
  tx_write_txbuf (off + 8).

(** The tests of qosrcvpkt before the dispatch: true when the frame passes. *)
Definition qos_acceptable (op seq : Z) (realdst realsrc dst src hw : list Z) : bool :=
  (op <? Qopcode_INVALID)
  && (if negb (op =? Qopcode_CounterLease)
      then negb (seq =? 0) && ETHERADDR_EQUALS realdst hw
      else (seq =? 0) && ETHERADDR_IS_BCAST realdst)
  && ETHERADDR_EQUALS src realsrc && ETHERADDR_EQUALS dst realdst.

Definition qosrcvpkt : CM unit :=
  op ← gets (fun g => g_opcode (rx g));
  thisSeqnum ← rx16 tbh_seqnum;
  realdst ← rx_mac tbh_realdst;
  realsrc ← rx_mac tbh_realsrc;
  dst ← rx_mac eh_dst;
  src ← rx_mac eh_src;
  hw ← gets (fun g => g_hwaddr (co g));
  if negb (qos_acceptable op thisSeqnum realdst realsrc dst src hw) then mret tt
  else
    modify (set_g_sequencenum thisSeqnum);;
    if op =? Qopcode_Probe then qos_probe
    else if op =? Qopcode_Query then qos_query
    else if op =? Qopcode_CounterSnapshot then qos_snapshot
    else if op =? Qopcode_CounterLease then qos_counterlease
    else if op =? Qopcode_InitializeSink then qos_initsink
    else if op =? Qopcode_Reset then qos_reset
    else mret tt.
End with_env.

(** ** The invariant of the sink *)

Definition bucket_ok (b : qosEventBucket) : Prop :=
  0 <= evt_numEvts b <= MAX_QOS_EVENTS_PER_BUCKET
  /\ Z.of_nat (length (evt_descs b)) = MAX_QOS_EVENTS_PER_BUCKET
  /\ Forall (fun d => Z.of_nat (length d) = sizeof_qosEventDescr) (evt_descs b).

Record qos_session_ok (s : qos_session) : Prop := QosSessionOk {
  qo_ticks : 0 <= qssn_ticks_til_discard s <= 4;
  qo_first : 0 <= qssn_first_bucket s < MAX_QOS_BUCKETS;
  qo_active : 0 <= qssn_num_active_buckets s <= MAX_QOS_BUCKETS;
  qo_size : Z.of_nat (length (qssn_evt_buckets s)) = MAX_QOS_BUCKETS;
  qo_buckets : Forall bucket_ok (qssn_evt_buckets s);
  qo_ctrlr : length (qssn_ctrlr_real s) = 6%nat
}.

(** The table, its buckets and the sample ring are inside their arrays. *)
Record qos_ok (q : qosst) : Prop := QosOk {
  qk_size : length (g_QosSessions q) = MAX_QOS_SESSIONS;
  qk_sessions : Forall qos_session_ok (g_QosSessions q);
  qk_samples : length (g_perf_samples q) = 60%nat;
  qk_next : 0 <= g_next_sample q < 60;
  qk_count : 0 <= g_sample_count q <= 60
}.

(** ** What the sink promises to the rest of the daemon

    An invariant of the other components that the sink cannot disturb: it only
    writes its own state, the receive buffer, the transmit buffer and the clock,
    and adds its own events.  The theorems on the sink hold for every such
    invariant. *)

Definition add_event_g (w : timeval) (fn : event_fn) (g : G) : G :=
  let n := next_event (tm g) in
  set_Events (event_insert (Event n w fn None) (Events (tm g))) (set_next_event (S n) g).

Class Bystander `{E : Env} (I : G -> Prop) : Prop := {
  by_io g : I g -> io_ok g;
  by_rx g : I g -> rx_ok (rx g);
  by_hw g : I g -> length (g_hwaddr (co g)) = 6%nat;
  by_set_rx r g : I g -> rx_ok r -> I (set_rx r g);
  by_set_qs q g : I g -> I (set_qs q g);
  by_txs x o ts g : I g -> io_ok (txs x o ts g) -> I (txs x o ts g);
  by_event w fn g : I g -> fn = qos_inactivity_timeout_fn \/ fn = interface_counter_recorder_fn ->
                    I (add_event_g w fn g);
  by_inactivity v g : I g -> I (set_g_qos_inactivity_timer v g);
  by_CTA v g : I g -> I (set_g_qos_CTA_timer v g)
}.

(** A byte of a buffer. *)
Definition byte_at (b : list Z) (off : Z) : Z := of_be (default [] (load 1 b off)).

(** The received frame is a ProbeGap with an 802.1p value, whose reflection
    goes through the tagged branch of [qos_probe]. *)
Definition tagged_probegap (b : list Z) : bool :=
  (byte_at b probe_testtype =? 1) && negb (Z.land (byte_at b probe_pqval) 0x80 =? 0).

Section qos_lemmas.
Context `{E : Env} (I : G -> Prop) `{B : !Bystander I}.

(** The invariant of the others and of the sink. *)
Definition both (g : G) : Prop := I g /\ qos_ok (qs g).

Lemma wp_rx_byte off (Q : Z -> G -> Prop) g :
  rx_ok (rx g) -> 0 <= off < 2048 -> Q (byte_at (g_rxbuf (rx g)) off) g -> wp (rx8 off) Q g.
Proof.
  intros H Ho HQ. unfold rx8. apply wp_fmap, wp_rx_load; [done|lia..|].
  intros l Hl _ _. unfold byte_at in HQ. by rewrite Hl in HQ.
Qed.

Lemma both_clk n g : both g -> both (set_os_clk n g).
Proof.
  intros [Hi Hq]. split; [|done].
  change (I (txs (tx g) (OsSt n (os_out (os g))) (g_tlvs g) g)).
  apply by_txs; [done|]. by eapply io_ok_ext; [..|by apply by_io].
Qed.

Lemma both_qs q g : both g -> qos_ok q -> both (set_qs q g).
Proof. intros [Hi Hq] H. split; [by apply by_set_qs|done]. Qed.

Lemma both_rx r g : both g -> rx_ok r -> both (set_rx r g).
Proof. intros [Hi Hq] H. split; [by apply by_set_rx|done]. Qed.

Lemma both_txs x o ts g : both g -> io_ok (txs x o ts g) -> both (txs x o ts g).
Proof. intros [Hi Hq] H. split; [by apply by_txs|done]. Qed.

Lemma wp_rx_store bytes off (Q : unit -> G -> Prop) g :
  both g -> 0 <= off -> off + Z.of_nat (length bytes) <= 2048 -> Forall is_byte bytes ->
  (forall b, both (set_g_rxbuf b g) -> Q tt (set_g_rxbuf b g)) -> wp (rx_store bytes off) Q g.
Proof.
  intros H H1 H2 Hb HQ. pose proof (by_rx _ (proj1 H)) as [R1 R2 R3]. unfold RXBUFSZ in *.
  unfold rx_store. apply wp_bind, wp_gets, wp_bind.
  destruct (store bytes (g_rxbuf (rx g)) off) as [b|] eqn:Hs; [|rewrite store_ok in Hs by lia; done].
  eapply wp_in_bounds; [done|]. wp_step. apply HQ, both_rx; [done|]. split; simpl; [|by eapply store_bytes|done].
  by rewrite (store_length _ _ _ _ Hs).
Qed.

Lemma wp_qos_tx bytes off (Q : unit -> G -> Prop) g :
  both g -> 0 <= off -> off + Z.of_nat (length bytes) <= 2048 ->
  (forall x, both (txs x (os g) (g_tlvs g) g) -> Q tt (txs x (os g) (g_tlvs g) g)) ->
  wp (tx_store bytes off) Q g.
Proof.
  intros H H1 H2 HQ. apply wp_io_store; [by apply by_io; destruct H|done|done|].
  intros x Hx. by apply HQ, both_txs.
Qed.

Lemma wp_qos_fmt dst opcode (Q : unit -> G -> Prop) g :
  both g -> length dst = 6%nat ->
  (forall x, both (txs x (os g) (g_tlvs g) g) -> Q tt (txs x (os g) (g_tlvs g) g)) ->
  wp (qos_fmt dst opcode) Q g.
Proof.
  intros H Hd HQ. unfold qos_fmt. do 4 wp_step.
  apply wp_fmt_base; [apply by_io, H|apply by_hw, H|done|]. intros x Hx. by apply HQ, both_txs.
Qed.

Lemma wp_qos_write b n (Q : unit -> G -> Prop) g :
  both g -> 32 <= n <= 2048 -> n <= Z.of_nat (length b) -> (forall g', both g' -> Q tt g') ->
  wp (tx_write b n) Q g.
Proof.
  intros H Hn Hl HQ. apply wp_tx_write; [apply by_io, H|done|done|].
  intros o Ho. by apply HQ, both_txs.
Qed.

Lemma wp_tx_write_txbuf n (Q : unit -> G -> Prop) g :
  both g -> 32 <= n <= 2048 -> (forall g', both g' -> Q tt g') -> wp (tx_write_txbuf n) Q g.
Proof.
  intros H Hn HQ. unfold tx_write_txbuf. do 2 wp_step. apply wp_qos_write; [done|done| |done].
  pose proof (xo_size _ (io_tx _ (by_io _ (proj1 H)))) as Hs. unfold TXBUFSZ in Hs. lia.
Qed.

(** The sessions. *)
Lemma qos_lookup i g : qos_ok (qs g) -> (i < MAX_QOS_SESSIONS)%nat ->
  exists s, g_QosSessions (qs g) !! i = Some s /\ qos_session_ok s.
Proof.
  intros [H1 H2 _ _ _] Hi. destruct (lookup_lt_is_Some_2 (g_QosSessions (qs g)) i) as [s Hs]; [lia|].
  exists s. split; [done|]. by eapply Forall_lookup_1.
Qed.

Lemma qos_ok_sessions ss q : qos_ok q -> length ss = MAX_QOS_SESSIONS -> Forall qos_session_ok ss ->
  qos_ok (QosSt ss (g_LinkSpeed q) (g_TimeStampFreq q) (g_pktio_timestamp q) (g_perf_timestamp q)
    (g_perf_samples q) (g_next_sample q) (g_sample_count q) (g_samples_remaining q) (g_rbytes q)
    (g_rpkts q) (g_tbytes q) (g_tpkts q)).
Proof. intros [] H1 H2. by split. Qed.

Lemma wp_qos_get i s (Q : qos_session -> G -> Prop) g :
  g_QosSessions (qs g) !! i = Some s -> Q s g -> wp (qos_get i) Q g.
Proof. intros Hs HQ. unfold qos_get. apply wp_bind, wp_gets. by eapply wp_in_bounds. Qed.

Lemma wp_qos_update i s f (Q : unit -> G -> Prop) g :
  both g -> g_QosSessions (qs g) !! i = Some s -> qos_session_ok (f s) ->
  (both (set_g_QosSessions (<[i := f s]> (g_QosSessions (qs g))) g) ->
   Q tt (set_g_QosSessions (<[i := f s]> (g_QosSessions (qs g))) g)) ->
  wp (qos_update i f) Q g.
Proof.
  intros H Hs Hf HQ. unfold qos_update. apply wp_bind, wp_gets, wp_bind.
  eapply wp_in_bounds; [done|]. wp_step. apply HQ, both_qs; [done|].
  apply qos_ok_sessions; [apply H|by rewrite length_insert; apply (qk_size _ (proj2 H))|].
  apply Forall_insert; [apply (qk_sessions _ (proj2 H))|done].
Qed.

Lemma wp_qos_find (Q : option nat -> G -> Prop) g :
  both g ->
  Q None g ->
  (forall i s, g_QosSessions (qs g) !! i = Some s -> qos_session_ok s -> Q (Some i) g) ->
  wp qos_find_session Q g.
Proof.
  intros H HN HS. unfold qos_find_session. apply wp_bind, wp_rx_mac; [apply by_rx, H|unfold tbh_realsrc; lia|].
  intros src Hl. do 3 wp_step. destruct (list_find _ _) as [[i s]|] eqn:Hf; [|done].
  apply list_find_Some in Hf as (Hs & _ & _). eapply HS; [done|].
  by apply (Forall_lookup_1 _ _ _ _ (qk_sessions _ (proj2 H)) Hs).
Qed.

Lemma touch_ok s : qos_session_ok s -> qos_session_ok (qos_touch s).
Proof. intros []. split; simpl; try done; lia. Qed.

Lemma tick_ok s : qos_session_ok s -> qos_session_ok (qos_tick s).
Proof.
  intros Hs. unfold qos_tick. destruct (qssn_is_valid s); [|done]. destruct Hs as [Ht Hf Ha Hz Hb Hc].
  destruct (Z.eqb_spec (qssn_ticks_til_discard s) 0); simpl.
  - split; simpl; try done; unfold MAX_QOS_BUCKETS; lia.
  - destruct (_ - 1 =? 0) eqn:Hz'; split; simpl; try done; unfold MAX_QOS_BUCKETS; lia.
Qed.
End qos_lemmas.

Lemma land_buckets z : Z.land z (MAX_QOS_BUCKETS - 1) = z mod MAX_QOS_BUCKETS.
Proof. change (MAX_QOS_BUCKETS - 1) with (Z.ones 3). rewrite Z.land_ones by lia. done. Qed.

Lemma bucket_index z : 0 <= Z.land z (MAX_QOS_BUCKETS - 1) < MAX_QOS_BUCKETS.
Proof. rewrite land_buckets. apply Z.mod_pos_bound. by unfold MAX_QOS_BUCKETS. Qed.

Lemma bucket_lookup s z : qos_session_ok s -> 0 <= z < MAX_QOS_BUCKETS ->
  exists b, qssn_evt_buckets s !! Z.to_nat z = Some b /\ bucket_ok b.
Proof.
  intros [_ _ _ Hz Hb _] Hr.
  destruct (lookup_lt_is_Some_2 (qssn_evt_buckets s) (Z.to_nat z)) as [b Hl]; [lia|].
  exists b. split; [done|]. by eapply Forall_lookup_1.
Qed.

(** A found bucket has the sequence number. *)
Lemma find_bucket_Some n i seq bs k :
  find_bucket n i seq bs = Some k -> exists b, bs !! k = Some b /\ evt_seqNum b = seq.
Proof.
  revert i. induction n as [|n IH]; intros i H; simpl in H; [done|].
  destruct (bs !! Z.to_nat (Z.land i (MAX_QOS_BUCKETS - 1))) as [b|] eqn:Hb; [|done].
  destruct (Z.eqb_spec (evt_seqNum b) seq) as [He|_]; [|by eapply IH].
  injection H as <-. by exists b.
Qed.

Lemma new_bucket_ok s k s' :
  qos_session_ok s -> qos_new_bucket s = (k, s') ->
  qos_session_ok s' /\ qssn_evt_buckets s' = qssn_evt_buckets s /\ (k < 8)%nat.
Proof.
  intros [Ht Hf Ha Hz Hb Hc] H. unfold qos_new_bucket in H. unfold MAX_QOS_BUCKETS in Hf, Ha, Hz.
  destruct (Z.leb_spec MAX_QOS_BUCKETS (qssn_num_active_buckets s)) as [Hl|Hl];
    unfold MAX_QOS_BUCKETS in Hl; injection H as <- <-.
  - pose proof (bucket_index (qssn_first_bucket s + 1)) as Hi. unfold MAX_QOS_BUCKETS in *.
    split; [|split; [done|lia]]. split; simpl; try done.
  - pose proof (bucket_index (qssn_first_bucket s + qssn_num_active_buckets s)) as Hi. unfold MAX_QOS_BUCKETS in *.
    split; [|split; [done|lia]]. split; simpl; try done.
    unfold MAX_QOS_BUCKETS. rewrite u8_small; lia.
Qed.

Lemma set_bucket_ok s k b :
  qos_session_ok s -> bucket_ok b ->
  qos_session_ok (QosSession (qssn_ticks_til_discard s) (qssn_first_bucket s) (qssn_num_active_buckets s)
    (<[k := b]> (qssn_evt_buckets s)) (qssn_ctrlr_real s) (qssn_is_valid s)).
Proof.
  intros [] Hb. split; simpl; try done; [by rewrite length_insert|]. by apply Forall_insert.
Qed.

Lemma insert_same_lookup {A} (l : list A) i x y : l !! i = Some y -> <[i := x]> l !! i = Some x.
Proof. intros H. apply list_lookup_insert_eq. by eapply lookup_lt_Some. Qed.

Section qos_handlers.
Context `{E : Env} (I : G -> Prop) `{B : !Bystander I}.

Lemma both_rxok g : both I g -> rx_ok (rx g).
Proof. intros [H _]. by apply by_rx. Qed.

Lemma wp_get_timestamp (Q : Z -> G -> Prop) g :
  both I g -> (forall v n, Q v (set_os_clk n g)) -> wp get_timestamp Q g.
Proof. intros H HQ. unfold get_timestamp. apply wp_bind, wp_sys. wp_step. apply HQ. Qed.

Lemma both_stamp v g : both I g -> both I (set_g_pktio_timestamp v g).
Proof.
  intros H. apply (both_qs I); [done|]. destruct H as [_ []]. by split.
Qed.

Lemma wp_qos_tx_error code (Q : unit -> G -> Prop) g :
  both I g -> (forall g', both I g' -> Q tt g') -> wp (qos_tx_error code) Q g.
Proof.
  intros H HQ. unfold qos_tx_error. apply wp_bind, wp_rx_mac; [by apply both_rxok|unfold tbh_realsrc; lia|].
  intros src Hl. apply wp_bind, (wp_qos_fmt I); [done|done|]. intros x1 H1.
  apply wp_bind, (wp_qos_tx I); [done|by unfold hdrs|by unfold hdrs|]. intros x2 H2.
  apply (wp_tx_write_txbuf I); [done|by vm_compute|done].
Qed.

Lemma wp_qos_initsink (Q : unit -> G -> Prop) g :
  both I g -> (forall g', both I g' -> Q tt g') -> wp qos_initsink Q g.
Proof.
  intros H HQ. unfold qos_initsink. do 2 wp_step. apply wp_if; intros Hlen; [wp_step; by apply HQ|].
  apply wp_bind, wp_rx8; [by apply both_rxok|unfold init_intmod_ctrl; lia|]. intros v _.
  apply wp_if; intros Hv; [by apply wp_qos_tx_error|].
  assert (Hslot : forall i s, g_QosSessions (qs g) !! i = Some s -> qos_session_ok s -> wp (
    src ← rx_mac tbh_realsrc;
    qos_update i (fun s => QosSession 4 (qssn_first_bucket s) (qssn_num_active_buckets s)
              (qssn_evt_buckets s) src true);;
    qos_fmt src Qopcode_Ready;;
    speed ← gets (fun g => g_LinkSpeed (qs g));
    tx_store (be32 speed) hdrs;;
    freq ← gets (fun g => g_TimeStampFreq (qs g));
    tx_store (be64 freq) (hdrs + 4);;
    tx_write_txbuf (hdrs + 12)) Q g).
  { intros i s Hs Hso. apply wp_bind, wp_rx_mac; [by apply both_rxok|unfold tbh_realsrc; lia|].
    intros src Hl. apply wp_bind. eapply (wp_qos_update I); [done|exact Hs|by destruct Hso; split; simpl; try done; lia|].
    intros H1. apply wp_bind, (wp_qos_fmt I); [done|done|]. intros x1 H2. apply wp_bind, wp_gets.
    apply wp_bind, (wp_qos_tx I); [done|by unfold hdrs|by unfold hdrs|]. intros x2 H3. apply wp_bind, wp_gets.
    apply wp_bind, (wp_qos_tx I); [done|by unfold hdrs|by unfold hdrs|]. intros x4 H4.
    apply (wp_tx_write_txbuf I); [done|by vm_compute|done]. }
  apply wp_bind, (wp_qos_find I); [done| |].
  - apply wp_bind, wp_gets. destruct (list_find _ _) as [[i s]|] eqn:Hf; simpl; [|by apply wp_qos_tx_error].
    apply list_find_Some in Hf as (Hs & _ & _). eapply Hslot; [exact Hs|].
    by apply (Forall_lookup_1 _ _ _ _ (qk_sessions _ (proj2 H)) Hs).
  - intros i s Hs Hso. apply wp_bind, wp_gets. by eapply Hslot.
Qed.

Lemma wp_qos_reset (Q : unit -> G -> Prop) g :
  both I g -> (forall g', both I g' -> Q tt g') -> wp qos_reset Q g.
Proof.
  intros H HQ. unfold qos_reset. apply wp_bind, (wp_qos_find I); [done|wp_step; by apply HQ|].
  intros i s Hs Hso. apply wp_bind. eapply (wp_qos_update I); [done|exact Hs| |].
  { destruct Hso. split; simpl; try done; unfold MAX_QOS_BUCKETS; lia. }
  intros H1. apply wp_bind. eapply wp_qos_get; [by eapply insert_same_lookup|].
  apply wp_bind, (wp_qos_fmt I); [done|by destruct Hso|]. intros x H2.
  apply (wp_tx_write_txbuf I); [done|by vm_compute|done].
Qed.

Lemma wp_probegap_reflect (Q : unit -> G -> Prop) g :
  both I g -> 32 <= g_rcvd_pkt_len (rx g) -> (forall g', both I g' -> Q tt g') -> wp probegap_reflect Q g.
Proof.
  intros H Hlen HQ. unfold probegap_reflect.
  assert (Hst : forall bytes off (k : unit -> CM unit) g1, both I g1 -> rx_ok (rx g1) ->
    32 <= g_rcvd_pkt_len (rx g1) -> 0 <= off ->
    off + Z.of_nat (length bytes) <= 2048 -> Forall is_byte bytes ->
    (forall g2, both I g2 -> 32 <= g_rcvd_pkt_len (rx g2) -> wp (k tt) Q g2) ->
    wp (rx_store bytes off ≫= k) Q g1).
  { intros bytes off k g1 H1 Hr Hl H2 H3 H4 Hk. apply wp_bind, (wp_rx_store I); [done..|].
    intros b Hb. by apply Hk. }
  assert (Hmac : forall off (k : list Z -> CM unit) g1, both I g1 -> 0 <= off <= 2042 ->
    (forall l, length l = 6%nat -> Forall is_byte l -> wp (k l) Q g1) -> wp (rx_mac off ≫= k) Q g1).
  { intros off k g1 H1 H2 Hk. apply wp_bind, wp_rx_load; [by apply both_rxok|lia|simpl; lia|].
    intros l _ Hl Hb. by apply Hk. }
  apply Hst; [done|by apply both_rxok|done|done|done|by repeat constructor|]. intros g1 H1 L1.
  apply Hmac; [done|by unfold tbh_realsrc|]. intros src Hs Hsb. apply Hmac; [done|by unfold tbh_realdst|].
  intros dst Hd Hdb.
  apply Hst; [done|by apply both_rxok|done|done|by rewrite Hs|done|]. intros g2 H2 L2.
  apply Hst; [done|by apply both_rxok|done|done|by rewrite Hd|done|]. intros g3 H3 L3.
  apply Hst; [done|by apply both_rxok|done|done|by rewrite Hs|done|]. intros g4 H4 L4.
  apply Hst; [done|by apply both_rxok|done|done|by rewrite Hd|done|]. intros g5 H5 L5.
  apply wp_bind, wp_gets.
  assert (H64 : forall v, Forall is_byte (be64 v)) by (intros; apply Forall_app; split; apply be32_bytes).
  apply Hst; [done|by apply both_rxok|done|done|done|done|]. intros g6 H6 L6.
  apply wp_bind, wp_get_timestamp; [done|]. intros v n. apply wp_bind, wp_modify.
  assert (H7 : both I (set_g_pktio_timestamp v (set_os_clk n g6))) by (by apply both_stamp, (both_clk I)).
  apply Hst; [done|by apply both_rxok|done|done|done|done|]. intros g7 H8 L8.
  do 4 wp_step. pose proof (both_rxok _ H8) as [R1 R2 R3]. unfold RXBUFSZ in *.
  apply (wp_qos_write I); [done|lia|lia|done].
Qed.

Lemma wp_qos_log_event i k s b (Q : unit -> G -> Prop) g :
  both I g -> g_QosSessions (qs g) !! i = Some s -> qos_session_ok s -> qssn_evt_buckets s !! k = Some b ->
  evt_numEvts b < MAX_QOS_EVENTS_PER_BUCKET ->
  (forall g', both I g' -> Q tt g') -> wp (qos_log_event i k) Q g.
Proof.
  intros H Hs Hso Hb Hn HQ. unfold qos_log_event. apply wp_bind. eapply wp_qos_get; [exact Hs|].
  apply wp_bind. eapply wp_in_bounds; [exact Hb|].
  pose proof (Forall_lookup_1 _ _ _ _ (qo_buckets _ Hso) Hb) as (B1 & B2 & B3).
  unfold MAX_QOS_EVENTS_PER_BUCKET in *.
  destruct (lookup_lt_is_Some_2 (evt_descs b) (Z.to_nat (evt_numEvts b))) as [d Hd]; [lia|].
  apply wp_bind. eapply wp_in_bounds; [exact Hd|].
  apply wp_bind, wp_rx_load; [by apply both_rxok|done|done|]. intros tx _ Hl _.
  apply wp_bind, wp_gets. apply wp_bind, wp_rx_load; [by apply both_rxok|done|done|]. intros id _ Hl2 _.
  eapply (wp_qos_update I); [done|exact Hs| |intros H1; by apply HQ].
  apply set_bucket_ok; [done|]. split; [|split]; simpl.
  - rewrite u16_small by lia. unfold MAX_QOS_EVENTS_PER_BUCKET. lia.
  - rewrite length_insert. unfold MAX_QOS_EVENTS_PER_BUCKET. lia.
  - apply Forall_insert; [done|]. rewrite length_app, Hl. simpl length. rewrite length_app, Hl2. done.
Qed.

Lemma wp_qos_find_bucket s (Q : option nat -> G -> Prop) g :
  Q (find_bucket (Z.to_nat (qssn_num_active_buckets s)) (qssn_first_bucket s) (g_sequencenum (rx g))
       (qssn_evt_buckets s)) g ->
  wp (qos_find_bucket s) Q g.
Proof. intros HQ. unfold qos_find_bucket. by do 3 wp_step. Qed.

Lemma wp_qos_timed_probe i s (Q : unit -> G -> Prop) g :
  both I g -> g_QosSessions (qs g) !! i = Some s -> qos_session_ok s ->
  (forall g', both I g' -> Q tt g') -> wp (qos_timed_probe i) Q g.
Proof.
  intros H Hs Hso HQ. unfold qos_timed_probe. apply wp_bind. eapply wp_qos_get; [exact Hs|].
  apply wp_bind, wp_qos_find_bucket. destruct (find_bucket _ _ _ _) as [k|] eqn:Hf.
  - destruct (find_bucket_Some _ _ _ _ _ Hf) as (b & Hb & _). apply wp_bind. eapply wp_in_bounds; [exact Hb|].
    apply wp_if; intros Hn; bool_to_prop; [wp_step; by apply HQ|]. by eapply wp_qos_log_event.
  - destruct (qos_new_bucket s) as [k s'] eqn:Hnew.
    destruct (new_bucket_ok _ _ _ Hso Hnew) as (Hso' & Hbs & Hk).
    destruct (bucket_lookup s' (Z.of_nat k) Hso') as (b & Hb & Hbo); [unfold MAX_QOS_BUCKETS; lia|].
    rewrite Nat2Z.id in Hb. apply wp_bind. eapply wp_in_bounds; [exact Hb|]. apply wp_bind, wp_gets.
    set (b0 := QosBucket (g_sequencenum (rx g)) 0 (evt_descs b)).
    assert (Hb0 : bucket_ok b0) by (destruct Hbo as (_ & ? & ?); by split).
    pose proof (set_bucket_ok s' k b0 Hso' Hb0) as Hso2.
    apply wp_bind. eapply (wp_qos_update I); [done|exact Hs|exact Hso2|]. intros H1.
    eapply wp_qos_log_event; [done|by eapply insert_same_lookup|exact Hso2|simpl; by eapply insert_same_lookup|done|done].
Qed.

Lemma wp_qos_probe (Q : unit -> G -> Prop) g :
  both I g -> 32 <= g_rcvd_pkt_len (rx g) -> tagged_probegap (g_rxbuf (rx g)) = false ->
  (forall g', both I g' -> Q tt g') -> wp qos_probe Q g.
Proof.
  intros H Hlen Htag HQ. unfold qos_probe. apply wp_bind, wp_get_timestamp; [done|]. intros v n.
  apply wp_bind, wp_modify. assert (H1 : both I (set_g_pktio_timestamp v (set_os_clk n g)))
    by (by apply both_stamp, (both_clk I)).
  apply wp_bind, (wp_qos_find I); [done|wp_step; by apply HQ|]. intros i s Hs Hso.
  apply wp_bind. eapply (wp_qos_update I); [done|exact Hs|by apply touch_ok|]. intros H2.
  apply wp_bind, wp_rx_byte; [by apply both_rxok|done|].
  apply wp_if; intros Ht; [|apply wp_if; intros Ht0].
  - apply wp_bind, wp_rx_byte; [by apply both_rxok|done|].
    unfold tagged_probegap in Htag. simpl in Ht |- *. rewrite Ht in Htag. simpl in Htag.
    apply negb_false_iff in Htag. rewrite Htag. by apply wp_probegap_reflect.
  - eapply wp_qos_timed_probe; [done|simpl; by eapply insert_same_lookup|by apply touch_ok|done].
  - wp_step. by apply HQ.
Qed.

Lemma concat_length_18 (l : list (list Z)) :
  Forall (fun d => Z.of_nat (length d) = sizeof_qosEventDescr) l ->
  Z.of_nat (length (concat l)) = 18 * Z.of_nat (length l).
Proof.
  induction 1 as [|d l Hd _ IH]; [done|]. simpl. rewrite length_app, Nat2Z.inj_add, IH, Hd.
  unfold sizeof_qosEventDescr. lia.
Qed.

Lemma wp_qos_query (Q : unit -> G -> Prop) g :
  both I g -> (forall g', both I g' -> Q tt g') -> wp qos_query Q g.
Proof.
  intros H HQ. unfold qos_query. apply wp_bind, (wp_qos_find I); [done|wp_step; by apply HQ|].
  intros i s Hs Hso. apply wp_bind. eapply (wp_qos_update I); [done|exact Hs|by apply touch_ok|]. intros H2.
  apply wp_bind. eapply wp_qos_get; [by eapply insert_same_lookup|].
  apply wp_bind, (wp_qos_fmt I); [done|by destruct Hso|]. intros x H3.
  apply wp_bind, wp_qos_find_bucket. unfold hdrs. destruct (find_bucket _ _ _ _) as [k|] eqn:Hf; simpl.
  - destruct (find_bucket_Some _ _ _ _ _ Hf) as (b & Hb & _). simpl in Hb. rewrite Hb.
    pose proof (Forall_lookup_1 _ _ _ _ (qo_buckets _ Hso) Hb) as (B1 & B2 & B3).
    unfold MAX_QOS_EVENTS_PER_BUCKET in *.
    apply wp_bind, (wp_qos_tx I); [done|done|done|]. intros x2 H4. apply wp_bind, wp_bind.
    assert (Hsub : sublist_lookup 0 (Z.to_nat (evt_numEvts b)) (evt_descs b)
                   = Some (take (Z.to_nat (evt_numEvts b)) (drop 0 (evt_descs b)))).
    { apply sublist_lookup_Some. lia. }
    eapply wp_in_bounds; [exact Hsub|].
    pose proof (concat_length_18 (take (Z.to_nat (evt_numEvts b)) (drop 0 (evt_descs b)))) as Hlen.
    rewrite drop_0 in *. specialize (Hlen ltac:(by apply Forall_take)). rewrite length_take in Hlen.
    apply (wp_qos_tx I); [done|done|unfold sizeof_ether_header, sizeof_base_header; lia|]. intros x3 H5.
    apply (wp_tx_write_txbuf I); [done|unfold sizeof_ether_header, sizeof_base_header, sizeof_qosEventDescr; lia|done].
  - apply wp_bind, (wp_qos_tx I); [done|done|done|]. intros x2 H4. apply wp_bind, wp_ret.
    apply (wp_tx_write_txbuf I); [done|unfold sizeof_ether_header, sizeof_base_header, sizeof_qosEventDescr; lia|done].
Qed.
End qos_handlers.

Section qos_counters.
Context `{E : Env} (I : G -> Prop) `{B : !Bystander I}.

(** Everything but the sample ring and the sessions may be assigned. *)
Definition qos_same (q q' : qosst) : Prop :=
  g_QosSessions q' = g_QosSessions q /\ g_perf_samples q' = g_perf_samples q
  /\ g_next_sample q' = g_next_sample q /\ g_sample_count q' = g_sample_count q.

Lemma both_same q g : both I g -> qos_same (qs g) q -> both I (set_qs q g).
Proof.
  intros H (H1 & H2 & H3 & H4). apply (both_qs I); [done|]. destruct H as [_ []].
  by split; rewrite ?H1, ?H2, ?H3, ?H4.
Qed.

Lemma wp_qos_set h (Q : unit -> G -> Prop) g :
  both I g -> (forall g, h g = set_qs (qs (h g)) g) -> qos_same (qs g) (qs (h g)) ->
  (both I (h g) -> Q tt (h g)) -> wp (modify h) Q g.
Proof.
  intros H Hh Hs HQ. apply wp_modify, HQ. rewrite Hh. by apply both_same.
Qed.

Lemma wp_set_counters a b c d (Q : unit -> G -> Prop) g :
  both I g -> (forall q, both I (set_qs q g) -> qos_same (qs g) q -> Q tt (set_qs q g)) ->
  wp (set_counters a b c d) Q g.
Proof.
  intros H HQ. unfold set_counters. repeat wp_step.
  match goal with |- Q tt ?s => change s with (set_qs (qs s) g) end.
  apply HQ; [by apply both_same|done].
Qed.

Lemma wp_get_raw_samples (Q : unit -> G -> Prop) g :
  both I g ->
  (forall q n, both I (set_qs q (set_os_clk n g)) -> qos_same (qs g) q -> Q tt (set_qs q (set_os_clk n g))) ->
  wp get_raw_samples Q g.
Proof.
  intros H HQ. unfold get_raw_samples. apply wp_bind, wp_sys.
  assert (H1 : both I (set_os_clk (S (os_clk (os g))) g)) by by apply (both_clk I).
  destruct (env_netdev _) as [line|]; [|apply wp_set_counters; [done|]; intros q; by apply HQ].
  destruct (default _ line) as [[[rb rp] tb] tp].
  apply wp_if; intros _; (apply wp_set_counters; [done|]; intros q; by apply HQ).
Qed.

Lemma wp_sample_now (Q : perf_sample -> G -> Prop) g :
  both I g ->
  (forall s q n, both I (set_qs q (set_os_clk n g)) -> qos_same (qs g) q -> Q s (set_qs q (set_os_clk n g))) ->
  wp sample_now Q g.
Proof.
  intros H HQ. unfold sample_now. do 4 (apply wp_bind, wp_gets).
  apply wp_bind, wp_get_raw_samples; [done|]. intros q n Hb Hs. do 3 wp_step. by apply HQ.
Qed.

Lemma wp_now_plus_sec sec (Q : timeval -> G -> Prop) g :
  (forall v n, Q v (set_os_clk n g)) -> wp (now_plus_sec sec) Q g.
Proof. intros HQ. unfold now_plus_sec. apply wp_bind, wp_sys. wp_step. apply HQ. Qed.

Lemma both_event w fn g :
  both I g -> fn = qos_inactivity_timeout_fn \/ fn = interface_counter_recorder_fn ->
  both I (add_event_g w fn g).
Proof. intros [Hi Hq] Hf. split; [by apply by_event|done]. Qed.

Lemma wp_qos_event w fn (Q : nat -> G -> Prop) g :
  both I g -> fn = qos_inactivity_timeout_fn \/ fn = interface_counter_recorder_fn ->
  (forall a n, both I (add_event_g w fn (set_os_clk n g)) -> Q a (add_event_g w fn (set_os_clk n g))) ->
  wp (event_add w fn None) Q g.
Proof.
  intros H Hf HQ. unfold event_add. apply wp_bind, wp_sys.
  destruct (env_malloc _); [|apply wp_die]. do 7 wp_step.
  apply (HQ _ (S (os_clk (os g)))). by apply both_event; [apply (both_clk I)|].
Qed.

Lemma both_inactivity v g : both I g -> both I (set_g_qos_inactivity_timer v g).
Proof. intros [Hi Hq]. split; [by apply by_inactivity|done]. Qed.
Lemma both_CTA v g : both I g -> both I (set_g_qos_CTA_timer v g).
Proof. intros [Hi Hq]. split; [by apply by_CTA|done]. Qed.

(** The inactivity tick, and the restart of its timer. *)
Lemma wp_qos_inactivity_timeout (Q : unit -> G -> Prop) g :
  both I g -> (forall g', both I g' -> Q tt g') -> wp qos_inactivity_timeout Q g.
Proof.
  intros H HQ. unfold qos_inactivity_timeout. apply wp_bind, wp_modify.
  set (g1 := set_g_QosSessions _ g).
  assert (H1 : both I g1).
  { apply (both_qs I); [done|]. apply qos_ok_sessions; [apply H|rewrite length_fmap; apply H|].
    apply Forall_fmap. eapply Forall_weaken; [apply (qk_sessions _ (proj2 H))|]. intros s. apply tick_ok. }
  apply wp_bind, wp_now_plus_sec. intros w n. apply wp_bind, wp_qos_event; [by apply (both_clk I)|by left|].
  intros a n2 H2. wp_step. apply HQ. by apply both_inactivity.
Qed.

Lemma wp_interface_counter_recorder (Q : unit -> G -> Prop) g :
  both I g -> (forall g', both I g' -> Q tt g') -> wp interface_counter_recorder Q g.
Proof.
  intros H HQ. unfold interface_counter_recorder. apply wp_bind, wp_gets, wp_bind.
  apply wp_qos_set; [done|done|done|]. intros H1. apply wp_if; intros _.
  - apply wp_bind, wp_gets. apply wp_bind, wp_sample_now; [done|]. intros s q n H2 Hs. apply wp_bind, wp_gets.
    pose proof (proj2 H2) as [K1 K2 K3 K4 K5]. simpl in K1, K2, K3, K4, K5. destruct Hs as (S1 & S2 & S3 & S4).
    simpl in S1, S2, S3, S4. set (q0 := qs g) in *. simpl.
    destruct (lookup_lt_is_Some_2 (g_perf_samples q) (Z.to_nat (g_next_sample q0))) as [s0 Hs0]; [lia|].
    apply wp_bind. eapply wp_in_bounds; [exact Hs0|]. apply wp_bind, wp_modify.
    set (g2 := set_g_perf_samples _ _).
    assert (H3 : both I g2).
    { apply (both_qs I _ _ H2). split; simpl; rewrite ?length_insert; try done. }
    apply wp_bind. unfold stamp_time. apply wp_bind, wp_sys. wp_step.
    apply wp_bind, wp_modify. set (g3 := set_g_perf_timestamp _ _).
    assert (H4 : both I g3) by (by apply both_same; [apply (both_clk I)|]).
    apply wp_bind, wp_modify. set (g4 := set_g_next_sample _ _).
    assert (H5 : both I g4).
    { apply (both_qs I _ _ H4). split; simpl; rewrite ?length_insert; try done.
      apply Z.mod_pos_bound. lia. }
    apply wp_bind, wp_gets. simpl.
    assert (Hrest : forall g5, both I g5 -> wp (now ← now_plus_sec 1;
      ne ← event_add now interface_counter_recorder_fn None; modify (set_g_qos_CTA_timer (Some ne))) Q g5).
    { intros g5 H6. apply wp_bind, wp_now_plus_sec. intros w m.
      apply wp_bind, wp_qos_event; [by apply (both_clk I)|by right|]. intros a m2 H7. wp_step.
      apply HQ. by apply both_CTA. }
    apply wp_bind, wp_when; intros Hc; [|by apply Hrest]. wp_step. apply Hrest.
    apply (both_qs I _ _ H5). bool_to_prop. split; simpl; rewrite ?length_insert; try done; [|lia].
    apply Z.mod_pos_bound. lia.
  - do 3 wp_step. apply HQ. match goal with |- both I ?s => change s with (set_qs (qs s) g) end.
    apply (both_qs I); [done|]. destruct H as [_ []]. by split.
Qed.

Lemma wp_qos_counterlease (Q : unit -> G -> Prop) g :
  both I g -> (forall g', both I g' -> Q tt g') -> wp qos_counterlease Q g.
Proof.
  intros H HQ. unfold qos_counterlease. apply wp_bind, wp_gets.
  assert (Hend : forall g', both I g' -> Q tt (set_g_samples_remaining 300 g')).
  { intros g' H'. apply HQ. by apply both_same. }
  apply wp_bind, wp_when; intros _; [|wp_step; by apply Hend].
  apply wp_bind, wp_now_plus_sec. intros w m. apply wp_bind, wp_qos_event; [by apply (both_clk I)|by right|].
  intros a m2 H7. do 2 wp_step. apply Hend. by apply both_CTA.
Qed.

Lemma wp_snapshot_copy n next off (Q : Z -> G -> Prop) g :
  both I g -> 0 <= next < 60 -> 0 <= off -> off + 8 * Z.of_nat n <= 2048 ->
  (forall g', both I g' -> rx g' = rx g -> Q (off + 8 * Z.of_nat n) g') -> wp (snapshot_copy n next off) Q g.
Proof.
  revert next off g. induction n as [|n IH]; intros next off g H Hn Ho Hl HQ; simpl.
  - wp_step. specialize (HQ g H eq_refl). by rewrite Z.add_0_r in HQ.
  - apply wp_bind, wp_gets. pose proof (qk_samples _ (proj2 H)) as Hs.
    destruct (lookup_lt_is_Some_2 (g_perf_samples (qs g)) (Z.to_nat next)) as [s Hs0]; [lia|].
    apply wp_bind. eapply wp_in_bounds; [exact Hs0|].
    apply wp_bind, (wp_qos_tx I); [done|done|simpl; lia|]. intros x H1.
    apply IH; [done|apply Z.mod_pos_bound; lia|lia|lia|]. intros g' H' Hr.
    replace (off + 8 + 8 * Z.of_nat n) with (off + 8 * Z.of_nat (S n)) by lia. by apply HQ.
Qed.

Lemma wp_qos_snapshot (Q : unit -> G -> Prop) g :
  both I g -> (forall g', both I g' -> Q tt g') -> wp qos_snapshot Q g.
Proof.
  intros H HQ. unfold qos_snapshot. apply wp_bind, wp_rx_mac; [by apply (both_rxok I)|by unfold tbh_realsrc|].
  intros src Hl. apply wp_bind, (wp_qos_fmt I); [done|done|]. intros x1 H1.
  apply wp_bind. unfold stamp_time. apply wp_bind, wp_sys. wp_step.
  assert (H2 := both_clk I (S (os_clk (os (txs x1 (os g) (g_tlvs g) g)))) _ H1).
  apply wp_bind, wp_gets.
  apply wp_bind, (wp_qos_tx I); [done|done|done|]. intros x2 H3.
  apply wp_bind, (wp_qos_tx I); [done|done|done|]. intros x3 H4.
  apply wp_bind, (wp_qos_tx I); [done|done|done|]. intros x4 H5.
  apply wp_bind, wp_rx16; [by apply (both_rxok I)|done|]. intros rq Hrq. apply wp_bind, wp_gets.
  match goal with |- wp _ _ ?s => set (g1 := s) in * end.
  pose proof (proj2 H5) as [K1 K2 K3 K4 K5].
  set (cnt := if rq <=? u8 (g_sample_count (qs g1)) then u8 rq else u8 (g_sample_count (qs g1))).
  assert (Hcnt : 0 <= cnt <= 60).
  { unfold cnt. rewrite (u8_small (g_sample_count (qs g1))) by lia.
    destruct (Z.leb_spec rq (g_sample_count (qs g1))); [rewrite u8_small by lia; lia|lia]. }
  change (if rq <=? u8 (g_sample_count (qs g1)) then u8 rq else u8 (g_sample_count (qs g1))) with cnt.
  apply wp_bind, (wp_qos_tx I); [done|done|done|]. intros x5 H6. apply wp_bind, wp_gets.
  apply wp_bind, wp_snapshot_copy; [done|apply Z.mod_pos_bound; lia|done|unfold hdrs, sizeof_ether_header, sizeof_base_header; lia|].
  intros g2 H7 _. rewrite Z2Nat.id by lia. apply wp_bind, wp_gets.
  apply wp_bind, wp_sample_now; [done|]. intros s q n H8 Hs.
  unfold hdrs, sizeof_ether_header, sizeof_base_header.
  apply wp_bind, (wp_qos_tx I); [done|lia|simpl; lia|]. intros x6 H9.
  apply wp_bind, wp_set_counters; [done|]. intros q2 H10 _.
  apply (wp_tx_write_txbuf I); [done|lia|done].
Qed.

(** A QoS frame keeps the invariants of the sink and of every bystander,
    unless it takes the tagged branch of the probe reflection. *)
Lemma wp_qosrcvpkt (Q : unit -> G -> Prop) g :
  both I g -> 32 <= g_rcvd_pkt_len (rx g) ->
  (g_opcode (rx g) = Qopcode_Probe -> tagged_probegap (g_rxbuf (rx g)) = false) ->
  (forall g', both I g' -> Q tt g') -> wp qosrcvpkt Q g.
Proof.
  intros H Hlen Htag HQ. pose proof (both_rxok I g H) as Hr. unfold qosrcvpkt. apply wp_bind, wp_gets.
  apply wp_bind, wp_rx16; [done|done|]. intros seq _.
  do 4 (apply wp_bind, wp_rx_mac; [done|done|]; intros ? _). apply wp_bind, wp_gets.
  apply wp_if; intros _; [wp_step; by apply HQ|]. apply wp_bind, wp_modify.
  set (g1 := set_g_sequencenum seq g).
  assert (H1 : both I g1) by (apply (both_rx I); [done|destruct Hr; by split]).
  apply wp_if; intros Hop; bool_to_prop; [by apply (wp_qos_probe I); [|done|apply Htag|]|clear Hop].
  apply wp_if; intros _; [by apply (wp_qos_query I)|].
  apply wp_if; intros _; [by apply wp_qos_snapshot|].
  apply wp_if; intros _; [by apply wp_qos_counterlease|].
  apply wp_if; intros _; [by apply (wp_qos_initsink I)|].
  apply wp_if; intros _; [by apply (wp_qos_reset I)|]. wp_step. by apply HQ.
Qed.

Lemma wp_qos_init (Q : unit -> G -> Prop) g :
  both I g -> (forall g', both I g' -> Q tt g') -> wp qos_init Q g.
Proof.
  intros H HQ. unfold qos_init. do 8 wp_step.
  match goal with |- wp _ _ ?s => set (g1 := s) end.
  assert (H1 : both I g1).
  { change g1 with (set_qs (qs g1) g). apply (both_qs I); [done|]. destruct H as [_ [K1 K2 K3 K4 K5]].
    split; simpl; try done; [by rewrite length_fmap|]. apply Forall_fmap.
    eapply Forall_weaken; [exact K2|]. intros s [S1 S2 S3 S4 S5 S6].
    split; simpl; try done; unfold MAX_QOS_BUCKETS; lia. }
  clearbody g1. apply wp_bind, wp_now_plus_sec. intros w n.
  apply wp_bind, wp_qos_event; [by apply (both_clk I)|by left|].
  intros a n2 H2. wp_step. apply HQ. by apply both_inactivity.
Qed.
End qos_counters.
