(* ===== verification/PacketRx.v ===== *)
(** * PacketRx: validating received frames (packetio.c, receiving half) *)

From S2P Require Import Prelude LltdTypes Event SeesList Tlv PacketTx Mapping SessionMgr Enumeration StateProc Qos.

(** What reading the packet socket gives: the bytes of a frame, or an error. *)
Inductive read_result : Type :=
  | Read_bytes (bytes : list Z)
  | Read_error.

Definition set_evt (e : smEvent) : CM unit := modify (evt_update (set_evtType e)).

(** The validators answer true for VALID_PACKET. *)
Definition validate_length (size : Z) (e : smEvent) : CM bool :=
  len ← gets (fun g => g_rcvd_pkt_len (rx g));
  if len <? size then set_evt evtInvalidPacket;; mret false
  else set_evt e;; mret true.

Definition validate_discover : CM bool :=
  validate_length (sizeof_ether_header + sizeof_base_header + sizeof_discover_header)
    evtDiscoverRcvd.
Definition validate_hello : CM bool :=
  validate_length (sizeof_ether_header + sizeof_base_header + sizeof_hello_header + 1)
    evtPacketRcvd.
Definition validate_queryltlv : CM bool :=
  validate_length (sizeof_ether_header + sizeof_base_header + sizeof_qltlv_header)
    evtPacketRcvd.

(** The cost of one frame in transmit credit. *)
Definition need_frame (c : charge) : charge :=
  Charge (g_ctc_packets c) (g_ctc_bytes c) (g_totalPause c) (u32 (g_neededPackets c + 1))
    (u32 (g_neededBytes c + (sizeof_ether_header + sizeof_base_header))).

(** An emitee descriptor that the responder agrees to transmit. *)
Definition emitee_acceptable (type : Z) (src dst hw : list Z) : bool :=
  ((type =? 0) || (type =? 1))
  && (ETHERADDR_EQUALS src hw || TOPO_ETHERADDR_OUI src)
  && negb (ETHERADDR_IS_MCAST dst).

(** The loop of validate_emit: None when a descriptor is refused, otherwise
    the number of descriptors inside the frame. *)
Fixpoint validate_emitees (n : nat) (i ed limit : Z) : CM (option Z) :=
  match n with
  | O => mret (Some i)
  | S n' =>
      if ed + sizeof_emitee_desc <=? limit then
        pause ← rx8 (ed + ed_pause);
        modify (fun g => set_g_totalPause (u32 (g_totalPause (ch g) + pause)) g);;
        type ← rx8 (ed + ed_type);
        src ← rx_mac (ed + ed_src);
        dst ← rx_mac (ed + ed_dst);
        hw ← gets (fun g => g_hwaddr (co g));
        if negb (emitee_acceptable type src dst hw) then
          set_evt evtInvalidPacket;; mret None
        else
          modify (fun g => set_ch (need_frame (ch g)) g);;
          validate_emitees n' (i + 1) (ed + sizeof_emitee_desc) limit
      else mret (Some i)
  end.

Definition validate_emit : CM bool :=
  modify (set_g_totalPause 0);;
  modify (set_g_neededPackets 0);;
  modify (set_g_neededBytes 0);;
  len ← gets (fun g => g_rcvd_pkt_len (rx g));
  let first := sizeof_ether_header + sizeof_base_header + sizeof_emit_header in
  if len <? first then set_evt evtInvalidPacket;; mret false
  else
    numdescs ← rx16 eh_numdescs;
    found ← validate_emitees (Z.to_nat numdescs) 0 first (s32 len);
    match found with
    | None => mret false
    | Some i =>
        pause ← gets (fun g => g_totalPause (ch g));
        if TOPO_TOTALPAUSE_MAX <? pause then set_evt evtInvalidPacket;; mret false
        else
          (* will an ACK or a Flat be needed too? *)
          seq ← gets (fun g => g_sequencenum (rx g));
          when (negb (seq =? 0)) (modify (fun g => set_ch (need_frame (ch g)) g));;
          (* numdescs is replaced by the number of descriptors in the frame *)
          modify (evt_update (set_numDescrs (u16 i)));;
          set_evt evtEmitRcvd;;
          mret true
    end.

Section with_env.
Context `{E : Env}.

(** The per-opcode validation of packetio_recv_handler. *)
Definition validate (op : Z) : CM bool :=
  if op =? Opcode_Discover then validate_discover
  else if op =? Opcode_Hello then validate_hello
  else if op =? Opcode_Emit then validate_emit
  else if op =? Opcode_QueryLargeTlv then validate_queryltlv
  else if op =? Opcode_Reset then set_evt evtResetRcvd;; mret true
  else if (op =? Opcode_Probe) || (op =? Opcode_ACK) || (op =? Opcode_Query)
          || (op =? Opcode_QueryResp) || (op =? Opcode_Charge) || (op =? Opcode_Flat)
          || (op =? Opcode_QueryLargeTlvResp) then mret true
  else mret false.

(** The last part: the frame is accepted as new; make it the current event. *)
Definition process_frame (op thisSeqnum : Z) : CM unit :=
  modify (set_g_sequencenum thisSeqnum);;
  modify (set_g_this_event (ProtocolEvent evtPacketRcvd None false false false 0));;
  valid ← validate op;
  if valid : bool then state_process_packet;; mret tt else mret tt.

(** The tests on a frame of the discovery services: is it for us, and does
    it have a sequence number exactly when its opcode may or must. *)
Definition frame_acceptable (op seq : Z) (realdst hw : list Z) : bool :=
  ((op =? Opcode_Probe) || (op =? Opcode_Hello) || ETHERADDR_EQUALS realdst hw
   || ETHERADDR_IS_BCAST realdst)
  && (negb (ETHERADDR_IS_MCAST realdst) || BCAST_VALID op)
  && ((seq =? 0) || SEQNUM_VALID op)
  && (negb (seq =? 0) || negb (SEQNUM_REQUIRED op)).

(** The tests on a sequenced frame against the last sequenced response. *)
Definition sequenced_frame (op thisSeqnum : Z) : CM unit :=
  rtx ← gets (fun g => g_rtxseqnum (tx g));
  rtx_op ← gets (fun g => g_re_tx_opcode (tx g));
  if negb (thisSeqnum =? 0) && negb (op =? Opcode_Discover) then
    if thisSeqnum =? rtx then
      if rtx_op =? op then tx_rtxpacket (* a retry: send that response again *)
      else mret tt (* warn: mis-matched opcode *)
    else if negb (rtx =? 0) && negb (thisSeqnum =? SEQNUM_NEXT rtx) then
      mret tt (* warn: mis-matched sequence number *)
    else process_frame op thisSeqnum
  else process_frame op thisSeqnum.

(** [osl_read(fd, g_rxbuf, RXBUFSZ)]; the result goes to a size_t. *)
Definition osl_read (rd : read_result) : CM unit :=
  match rd with
  | Read_bytes bytes =>
      b ← gets (fun g => g_rxbuf (rx g));
      b' ← in_bounds (store bytes b 0);
      modify (set_g_rxbuf b');;
      modify (set_g_rcvd_pkt_len (Z.of_nat (length bytes)))
  | Read_error => modify (set_g_rcvd_pkt_len (u32 (-1)))
  end.

Definition packetio_recv_handler (rd : read_result) : CM unit :=
  osl_read rd;;
  len ← gets (fun g => g_rcvd_pkt_len (rx g));
  (* the unsigned length is never below zero *)
  if len <=? 0 then fail Died
  else if len <? sizeof_ether_header then mret tt (* warn: runt frame *)
  else
    ethertype ← rx16 eh_ethertype;
    if negb (ethertype =? TOPO_ETHERTYPE) then mret tt
    else if len <? sizeof_ether_header + sizeof_base_header then mret tt
    else
      version ← rx8 tbh_version;
      if negb (version =? TOPO_VERSION) then mret tt
      else
        op ← rx8 tbh_opcode;
        modify (set_g_opcode op);;
        tos ← rx8 tbh_tos;
        if tos =? ToS_QoSDiagnostics then qosrcvpkt
        else if 1 <? tos then mret tt (* unsupported tos *)
        else if Opcode_INVALID <=? op then mret tt (* out of range *)
        else
          thisSeqnum ← rx16 tbh_seqnum;
          realdst ← rx_mac tbh_realdst;
          hw ← gets (fun g => g_hwaddr (co g));
          if frame_acceptable op thisSeqnum realdst hw then sequenced_frame op thisSeqnum
          else mret tt.
End with_env.

(** ** The invariant of the daemon

    The machines' invariant is a bystander of the QoS sink. *)

Section bystander.
Context `{E : Env}.

Definition mach (g : G) : Prop := mach_inv (qs g) g.

(** The daemon between two turns of its loop. *)
Definition lld2d_inv (g : G) : Prop := mach g /\ qos_ok (qs g).

#[export] Instance mach_bystander : Bystander mach.
Proof.
  split.
  - intros g M. apply M.
  - intros g M. apply M.
  - intros g M. apply M.
  - intros r g [B T S Me Mq] Hr. split; [by apply base_ok_rx| | | |done].
    + by eapply smT_inv_ext; [..|exact T].
    + done.
    + by eapply smE_inv_ext; [..|exact Me].
  - intros q g [B T S Me Mq]. split; [base_same| | | |done].
    + by eapply smT_inv_ext; [..|exact T].
    + done.
    + by eapply smE_inv_ext; [..|exact Me].
  - intros x o ts g [B T S Me Mq] Hio. split; [by apply base_ok_txs| | | |done].
    + by eapply smT_inv_ext; [..|exact T].
    + done.
    + by eapply smE_inv_ext; [..|exact Me].
  - intros w fn g [[Bi Br Bc Bs Bt Be] T S Me Mq] Hfn. split; [| | | |done].
    + split; try done; [by eapply io_ok_ext; [..|exact Bi]|]. by apply timers_ok_add.
    + by eapply smT_inv_ext; [..|exact T].
    + done.
    + by eapply smE_inv_ext; [..|exact Me].
  - intros v g [[Bi Br Bc Bs Bt Be] T S Me Mq]. split; [| | | |done].
    + split; try done; [by eapply io_ok_ext; [..|exact Bi]|]. destruct Bt. by split.
    + by eapply smT_inv_ext; [..|exact T].
    + done.
    + by eapply smE_inv_ext; [..|exact Me].
  - intros v g [[Bi Br Bc Bs Bt Be] T S Me Mq]. split; [| | | |done].
    + split; try done; [by eapply io_ok_ext; [..|exact Bi]|]. destruct Bt. by split.
    + by eapply smT_inv_ext; [..|exact T].
    + done.
    + by eapply smE_inv_ext; [..|exact Me].
Qed.
End bystander.

Section rx_lemmas.
Context `{E : Env} {q : qosst}.

Lemma mach_inv_ch c g :
  mach_inv q g -> g_ctc_packets c = g_ctc_packets (ch g) -> g_ctc_bytes c = g_ctc_bytes (ch g) ->
  mach_inv q (set_ch c g).
Proof.
  intros [B [[P1 P2 P3] T] S Me Mq] H1 H2. split; [base_same| |done| |done].
  - split; [|done]. split; simpl; rewrite ?H1, ?H2; [done|done|]. unfold no_credit. rewrite H1, H2. exact P3.
  - by eapply smE_inv_ext; [..|exact Me].
Qed.

Lemma mach_inv_rx r g : mach_inv q g -> rx_ok r -> mach_inv q (set_rx r g).
Proof.
  intros [B T S Me Mq] Hr. split; [by apply base_ok_rx| |done| |done].
  - by eapply smT_inv_ext; [..|exact T].
  - by eapply smE_inv_ext; [..|exact Me].
Qed.

(** A frame of the length of the fixed part of its opcode. *)
Lemma wp_validate_length size e (Q : bool -> G -> Prop) g :
  mach_inv q g ->
  (forall g', mach_inv q g' -> Q false g') ->
  (mach_inv q (evt_update (set_evtType e) g) -> size <= g_rcvd_pkt_len (rx g) ->
   Q true (evt_update (set_evtType e) g)) ->
  wp (validate_length size e) Q g.
Proof.
  intros M HF HT. unfold validate_length, set_evt. do 2 wp_step.
  apply wp_if; intros Hl; bool_to_prop; do 3 wp_step; [apply HF|apply HT; [|lia]]; by apply mach_inv_evt.
Qed.

(** The descriptors of an Emit: those counted are inside the frame. *)
Lemma wp_validate_emitees n i ed limit (Q : option Z -> G -> Prop) g :
  mach_inv q g -> 0 <= i -> ed = 34 + 14 * i -> ed <= limit <= 2048 ->
  (forall g', mach_inv q g' -> Q None g') ->
  (forall i' g', mach_inv q g' -> rx g' = rx g -> g_this_event (co g') = g_this_event (co g) ->
     i <= i' -> 34 + 14 * i' <= limit -> Q (Some i') g') ->
  wp (validate_emitees n i ed limit) Q g.
Proof.
  revert i ed g. induction n as [|n IH]; intros i ed g M Hi Hed Hl HN HS; simpl.
  { wp_step. apply HS; [done|done|done|lia|lia]. }
  unfold sizeof_emitee_desc, ed_pause, ed_type, ed_src, ed_dst.
  apply wp_if; intros Hin; bool_to_prop; [|wp_step; apply HS; [done|done|done|lia|lia]].
  pose proof (bo_rx _ (mi_base _ _ M)) as Hrx.
  apply wp_bind, wp_rx8; [done|lia|]. intros pause _. apply wp_bind, wp_modify.
  set (g1 := set_g_totalPause _ g). assert (M1 : mach_inv q g1) by (by apply mach_inv_ch).
  apply wp_bind, wp_rx8; [done|lia|]. intros type _.
  apply wp_bind, wp_rx_mac; [done|lia|]. intros src _. apply wp_bind, wp_rx_mac; [done|lia|]. intros dst _.
  apply wp_bind, wp_gets, wp_if; intros Hacc.
  - unfold set_evt. do 3 wp_step. apply HN. by apply mach_inv_evt.
  - apply wp_bind, wp_modify. apply IH; [by apply mach_inv_ch|lia|lia|lia|done|].
    intros i' g' M' Hr He Hi' Hlim. apply HS; [done|by rewrite Hr|by rewrite He|lia|done].
Qed.

Lemma wp_validate_emit (Q : bool -> G -> Prop) g :
  mach_inv q g -> (forall g', mach_inv q g' -> Q false g') ->
  (forall g', mach_inv q g' -> rx g' = rx g -> evtType (g_this_event (co g')) = evtEmitRcvd ->
     emit_event_ok g' -> Q true g') ->
  wp validate_emit Q g.
Proof.
  intros M HF HT. unfold validate_emit, set_evt. do 6 wp_step.
  match goal with |- wp _ _ ?s => set (g1 := s) end.
  assert (M1 : mach_inv q g1) by (change g1 with (set_ch (ch g1) g); by apply mach_inv_ch).
  assert (Hr1 : rx g1 = rx g) by done. clearbody g1.
  pose proof (bo_rx _ (mi_base _ _ M1)) as Hrx. pose proof (ro_len _ Hrx) as Hlen. unfold RXBUFSZ in Hlen.
  apply wp_bind, wp_gets. change (sizeof_ether_header + sizeof_base_header + sizeof_emit_header) with 34.
  apply wp_if; intros Hl; bool_to_prop; [do 3 wp_step; apply HF; by apply mach_inv_evt|].
  apply wp_bind, wp_rx16; [done|done|]. intros nd Hnd. rewrite s32_small by lia.
  apply wp_bind, wp_validate_emitees; [done|lia|done|lia|intros g2 M2; wp_step; by apply HF|].
  intros i g2 M2 Hr2 He2 Hi Hlim. do 2 wp_step.
  apply wp_if; intros Hp; [do 3 wp_step; apply HF; by apply mach_inv_evt|].
  apply wp_bind, wp_gets.
  assert (Hend : forall g3, mach_inv q g3 -> rx g3 = rx g -> wp (
    modify (evt_update (set_numDescrs (u16 i)));; modify (evt_update (set_evtType evtEmitRcvd));; mret true) Q g3).
  { intros g3 M3 Hr3. repeat wp_step. apply HT; [by do 2 apply mach_inv_evt|done|done|].
    intros _. simpl. rewrite Hr3, <- Hr1, u16_small by lia.
    unfold sizeof_ether_header, sizeof_base_header, sizeof_emit_header, sizeof_emitee_desc. lia. }
  apply wp_bind, wp_when; intros Hs; [wp_step|]; apply Hend; [by apply mach_inv_ch|exact (eq_trans Hr2 Hr1)|done|exact (eq_trans Hr2 Hr1)].
Qed.

(** A valid frame gives an event that the machines can process. *)
Lemma wp_validate op (Q : bool -> G -> Prop) g :
  mach_inv q g -> evtType (g_this_event (co g)) = evtPacketRcvd ->
  (forall g', mach_inv q g' -> Q false g') ->
  (forall g', mach_inv q g' -> rx g' = rx g -> packet_event (evtType (g_this_event (co g'))) ->
     (op = Opcode_Discover -> evtType (g_this_event (co g')) = evtDiscoverRcvd) ->
     emit_event_ok g' -> Q true g') ->
  wp (validate op) Q g.
Proof.
  intros M Hev HF HT. unfold validate, validate_discover, validate_hello, validate_queryltlv.
  assert (Hn : forall g' e, e <> evtEmitRcvd -> evtType (g_this_event (co g')) = e -> emit_event_ok g').
  { intros g' e Hne He Hx. congruence. }
  apply wp_if; intros H0; bool_to_prop.
  { apply wp_validate_length; [done|done|]. intros M' _. apply HT; [done|done|by right; left|done|by apply (Hn _ evtDiscoverRcvd)]. }
  apply wp_if; intros H1; bool_to_prop.
  { apply wp_validate_length; [done|done|]. intros M' _. apply HT; [done|done|by left|congruence|by apply (Hn _ evtPacketRcvd)]. }
  apply wp_if; intros H2; bool_to_prop.
  { apply wp_validate_emit; [done|done|]. intros g' M' Hr He Hok.
    apply HT; [done|done|by right; right; left|congruence|done]. }
  apply wp_if; intros H3; bool_to_prop.
  { apply wp_validate_length; [done|done|]. intros M' _. apply HT; [done|done|by left|congruence|by apply (Hn _ evtPacketRcvd)]. }
  apply wp_if; intros H4; bool_to_prop.
  { unfold set_evt. do 3 wp_step.
    apply HT; [by apply mach_inv_evt|done|by do 3 right|congruence|by apply (Hn _ evtResetRcvd)]. }
  apply wp_if; intros H5; wp_step; [|by apply HF].
  apply HT; [done|done|left; congruence|congruence|by apply (Hn _ evtPacketRcvd)].
Qed.
End rx_lemmas.

(** The receive buffer holds a ProbeGap that [qos_probe] reflects with a tag. *)
Definition tagged_frame (b : list Z) : bool :=
  (byte_at b tbh_tos =? ToS_QoSDiagnostics) && (byte_at b tbh_opcode =? Qopcode_Probe) && tagged_probegap b.

(** A successful read of a frame, other than such a probe.  The test is on the
    whole buffer: the code does not compare the length of a probe with the
    fields it reads.  A read that fails is left out: its result -1 becomes a length
    of 2^32 - 1, and the frame that the buffer still holds is handled again with
    it (Sample: [failed_read_faults]). *)
Definition good_read (rd : read_result) (g : G) : Prop :=
  match rd with
  | Read_bytes bytes =>
      Z.of_nat (length bytes) <= RXBUFSZ /\ Forall is_byte bytes
      /\ tagged_frame (list_inserts 0 bytes (g_rxbuf (rx g))) = false
  | Read_error => False
  end.

Section recv_lemmas.
Context `{E : Env}.

Lemma wp_process_frame op seq (Q : unit -> G -> Prop) g :
  lld2d_inv g -> g_opcode (rx g) = op -> (forall g', lld2d_inv g' -> Q tt g') ->
  wp (process_frame op seq) Q g.
Proof.
  intros [M Hq] Hop HQ. unfold process_frame. do 4 wp_step.
  match goal with |- wp _ _ ?s => set (g1 := s) end.
  pose proof (bo_rx _ (mi_base _ _ M)) as [R1 R2 R3].
  assert (M1 : mach_inv (qs g) g1).
  { set (r := RxCtx (g_rxbuf (rx g)) (g_rcvd_pkt_len (rx g)) seq (g_opcode (rx g))).
    set (ev := ProtocolEvent evtPacketRcvd None false false false 0).
    change g1 with (evt_update (fun _ => ev) (set_rx r g)). apply mach_inv_evt, mach_inv_rx; [done|by split]. }
  assert (Hend : forall g', mach_inv (qs g) g' -> Q tt g').
  { intros g' M'. apply HQ. pose proof (mi_qs _ _ M') as Hqs. split; [by red; rewrite Hqs|by rewrite Hqs]. }
  apply wp_bind, (wp_validate (q := qs g)); [done|done|intros g2 M2; wp_step; by apply Hend|].
  intros g2 M2 Hr2 Hpe Hd Hok. apply wp_bind, (wp_state_process_packet (q := qs g)); [done|done| |done|].
  - rewrite Hr2. simpl. rewrite Hop. exact Hd.
  - intros r g3 M3. wp_step. by apply Hend.
Qed.

Lemma wp_sequenced_frame op seq (Q : unit -> G -> Prop) g :
  lld2d_inv g -> g_opcode (rx g) = op -> (forall g', lld2d_inv g' -> Q tt g') ->
  wp (sequenced_frame op seq) Q g.
Proof.
  intros Hi Hop HQ. unfold sequenced_frame. do 4 wp_step.
  assert (Hret : wp (mret tt) Q g) by (wp_step; by apply HQ).
  apply wp_if; intros H1; [|by apply wp_process_frame]. apply wp_if; intros H2.
  - apply wp_if; intros _; [|done]. bool_to_prop.
    apply wp_tx_rtxpacket; [apply Hi|congruence|]. intros o Ho. apply HQ. by apply (both_txs mach).
  - apply wp_if; intros _; [done|by apply wp_process_frame].
Qed.

(** A received frame never makes the daemon fault. *)
Lemma wp_packetio_recv_handler rd (Q : unit -> G -> Prop) g :
  lld2d_inv g -> good_read rd g -> (forall g', lld2d_inv g' -> Q tt g') ->
  wp (packetio_recv_handler rd) Q g.
Proof.
  intros Hi Hrd HQ. destruct rd as [bytes|]; [|done]. destruct Hrd as (Hlen & Hb & Htag).
  pose proof (by_rx _ (proj1 Hi)) as [R1 R2 R3]. unfold RXBUFSZ in *.
  unfold packetio_recv_handler, osl_read. apply wp_bind, wp_bind, wp_gets, wp_bind.
  eapply wp_in_bounds; [apply store_ok; lia|]. do 3 wp_step.
  set (b := list_inserts (Z.to_nat 0) bytes (g_rxbuf (rx g))) in *.
  match goal with |- wp _ _ ?s => set (g1 := s) end.
  assert (Hr1 : rx_ok (rx g1)).
  { split; simpl; [by unfold b; rewrite length_inserts|by apply Forall_inserts|unfold RXBUFSZ; lia]. }
  assert (Hi1 : lld2d_inv g1) by (change g1 with (set_rx (rx g1) g); by apply (both_rx mach)).
  assert (Hret : forall g', lld2d_inv g' -> wp (mret tt) Q g') by (intros g' ?; wp_step; by apply HQ).
  apply wp_bind, wp_gets, wp_if; intros H0; [apply wp_die|].
  apply wp_if; intros H1; [by apply Hret|].
  apply wp_bind, wp_rx16; [done|done|]. intros et _. apply wp_if; intros H2; [by apply Hret|].
  apply wp_if; intros H3; [by apply Hret|]. bool_to_prop.
  apply wp_bind, wp_rx8; [done|done|]. intros ver _. apply wp_if; intros H4; [by apply Hret|].
  apply wp_bind, wp_rx_byte; [done|done|]. set (op := byte_at _ _). apply wp_bind, wp_modify.
  set (g2 := set_g_opcode op g1).
  assert (Hr2 : rx_ok (rx g2)) by (destruct Hr1; by split).
  assert (Hi2 : lld2d_inv g2) by (by apply (both_rx mach)).
  apply wp_bind, wp_rx_byte; [done|done|]. apply wp_if; intros H5.
  - apply (wp_qosrcvpkt mach); [done|exact H3| |done]. intros Hp. simpl in Hp, H5 |- *.
    change b with (list_inserts 0 bytes (g_rxbuf (rx g))) in *.
    unfold tagged_frame in Htag. rewrite H5 in Htag. simpl in Htag.
    change (byte_at _ tbh_opcode) with op in Htag. rewrite Hp in Htag. exact Htag.
  - apply wp_if; intros H6; [by apply Hret|]. apply wp_if; intros H7; [by apply Hret|].
    apply wp_bind, wp_rx16; [done|done|]. intros seq _.
    apply wp_bind, wp_rx_mac; [done|done|]. intros rdst _. apply wp_bind, wp_gets.
    apply wp_if; intros _; [|by apply Hret]. by apply wp_sequenced_frame.
Qed.
End recv_lemmas.
