(* ===== verification/Mainloop.v ===== *)
(** * Mainloop: the event loop and the start-up of the daemon (event.c, main.c)

    One turn of [event_mainloop] with the answer of [select], the step
    relation of the daemon and its initial states. *)

From S2P Require Import Prelude LltdTypes Event SeesList Band Tlv PacketTx Mapping SessionMgr Enumeration StateProc Qos PacketRx.

Section with_env.
Context `{E : Env}.

(** [e->ev_function(e->ev_state)] *)
Definition run_event (e : event) : CM unit :=
  match ev_function e with
  | state_block_timeout_fn => state_block_timeout
  | state_charge_timeout_fn => state_charge_timeout (ev_state e)
  | state_emit_timeout_fn => state_emit_timeout
  | state_hello_delay_timeout_fn => state_hello_delay_timeout (ev_state e)
  | state_inactivity_timeout_fn => state_inactivity_timeout (ev_state e)
  | qos_inactivity_timeout_fn => qos_inactivity_timeout
  | interface_counter_recorder_fn => interface_counter_recorder
  end.

(** Unlink the first event, run it and free it. *)
Definition fire_first : CM unit :=
  l ← gets (fun g => Events (tm g));
  e ← deref (head l);
  modify (set_Events (tail l));;
  run_event e.

(** [while (Events != NULL && timerle(&Events->ev_firetime, &now))], with
    the time read again after each event.  The number of events that a turn
    runs depends on the clock, so the fuel is an argument. *)
Fixpoint run_due (fuel : nat) (now : timeval) : CM unit :=
  l ← gets (fun g => Events (tm g));
  match l with
  | [] => mret tt
  | e :: _ =>
      if timerle (ev_firetime e) now then
        match fuel with
        | O => fail Out_of_fuel
        | S fuel' => fire_first;; now' ← sys env_now; run_due fuel' now'
        end
      else mret tt
  end.

(** The timeout given to [select]: None blocks for ever. *)
Definition select_timeout : CM (option timeval) :=
  l ← gets (fun g => Events (tm g));
  match l with
  | [] => mret None
  | e :: _ =>
      now ← sys env_now;
      mret (Some (if timerle (ev_firetime e) now then Timeval 0 0
                  else bsd_timersub (ev_firetime e) now))
  end.

(** The answers of [select]: interrupted, failed, timed out (at most [fuel]
    events are due), or the packet socket is readable and the read gives [rd]. *)
Inductive select_result : Type :=
  | Select_EINTR | Select_error | Select_timeout (fuel : nat) | Select_readable (rd : read_result).

Definition mainloop_turn (sel : select_result) : CM unit :=
  select_timeout;;
  match sel with
  | Select_EINTR => mret tt
  | Select_error => fail Died
  | Select_timeout fuel => now ← sys env_now; run_due fuel now
  | Select_readable rd => packetio_recv_handler rd
  end.

Fixpoint event_mainloop (sels : list select_result) : CM unit :=
  match sels with
  | [] => mret tt
  | sel :: sels' => mainloop_turn sel;; event_mainloop sels'
  end.
End with_env.

(** ** Start-up

    The globals that main() sets before the interface is opened; [garbage] is
    the content of the sees-list memory, [tlvs] the table of tlv.c. *)

Definition zero_session : session :=
  Session false smS_Nascent 0 0 Etheraddr_null Etheraddr_null false 0 None.
Definition zero_bucket : qosEventBucket :=
  QosBucket 0 0 (replicate (Z.to_nat MAX_QOS_EVENTS_PER_BUCKET) (replicate 18 0)).
Definition zero_qos_session : qos_session :=
  QosSession 0 0 0 (replicate (Z.to_nat MAX_QOS_BUCKETS) zero_bucket) Etheraddr_null false.
Definition zero_qos : qosst :=
  QosSt (replicate MAX_QOS_SESSIONS zero_qos_session) 0 0 0 0
    (replicate 60 (PerfSample 0 0 0 0)) 0 0 0 0 0 0 0.

Definition main_init (garbage : list recvee_desc) (tlvs : list tlv_desc) : G :=
  {| co := Core smE_Quiescent smT_Quiescent
             (ProtocolEvent evtPacketRcvd None false false false 0)
             (replicate MAX_NUM_SESSIONS zero_session) None 0 Etheraddr_null;
     tm := Timers [] 0 None None None None None None;
     rx := RxCtx (replicate (Z.to_nat RXBUFSZ) 0) 0 0 Opcode_INVALID;
     tx := TxCtx (replicate (Z.to_nat TXBUFSZ) 0) (replicate (Z.to_nat TXBUFSZ) 0) 0 0 0 0;
     ch := Charge 0 0 0 0 0;
     qs := zero_qos;
     os := OsSt 0 [];
     em := EmitSt (replicate (Z.to_nat RXBUFSZ) 0) 0 0 None;
     g_sees := seeslist_new garbage NUM_SEES;
     g_band := Band 0 0 false;
     g_tlvs := tlvs |}.

(** The rest of main() before its event loop: [hwaddr] is what
    osl_get_hwaddr answers. *)
Definition main_setup `{E : Env} (hwaddr : list Z) : CM unit :=
  qos_init;; modify (set_g_hwaddr hwaddr).

(** ** Every turn of the loop keeps the invariant *)

Section mainloop_lemmas.
Context `{E : Env}.

Lemma head_timer e l g :
  mach g -> Events (tm g) = e :: l -> is_qos_event e \/ exists t, is_timer_event t e.
Proof.
  intros M Hl. pose proof (to_typed _ (bo_timers _ (mi_base _ _ M))) as Ht. rewrite Hl in Ht.
  by inversion_clear Ht.
Qed.

Lemma inv_of_mach g g' : lld2d_inv g -> mach_inv (qs g) g' -> lld2d_inv g'.
Proof.
  intros [_ Hq] M'. pose proof (mi_qs _ _ M') as Hqs. split; [by red; rewrite Hqs|by rewrite Hqs].
Qed.

Lemma inv_qos_unlink e l g :
  lld2d_inv g -> Events (tm g) = e :: l -> is_qos_event e -> lld2d_inv (set_Events l g).
Proof.
  intros [[[Bi Br Bc Bs Bt Be] T S Me Mq] Hq] Hl He. split; [|done]. split; [| |done| |done].
  - split; try done; [by eapply io_ok_ext; [..|exact Bi]|]. by eapply timers_ok_qos_unlink.
  - by eapply smT_inv_ext; [..|exact T].
  - by eapply smE_inv_ext; [..|exact Me].
Qed.

(** The first event of the list is run without a fault. *)
Lemma wp_fire_first (Q : unit -> G -> Prop) g :
  lld2d_inv g -> Events (tm g) <> [] -> (forall g', lld2d_inv g' -> Q tt g') -> wp fire_first Q g.
Proof.
  intros Hi Hne HQ. unfold fire_first. do 2 wp_step. destruct (Events (tm g)) as [|e l] eqn:Hl; [done|].
  apply wp_bind, wp_ret. do 2 wp_step. cbn [tail]. pose proof Hi as [M Hq].
  assert (HQ' : forall g', mach_inv (qs g) g' -> Q tt g') by (intros g' M'; apply HQ; by eapply inv_of_mach).
  unfold run_event. destruct (head_timer _ _ _ M Hl) as [He|(t & Hte)].
  - pose proof (inv_qos_unlink _ _ _ Hi Hl He) as Hi'. destruct He as [-> | ->].
    + by apply (wp_qos_inactivity_timeout mach).
    + by apply (wp_interface_counter_recorder mach).
  - destruct Hte as [Hfn Hst]. rewrite Hfn, Hst.
    assert (Hte : is_timer_event t e) by done. destruct t; simpl.
    + by eapply wp_state_block_timeout.
    + by eapply wp_state_charge_timeout.
    + by eapply wp_state_emit_timeout.
    + by eapply wp_state_hello_delay_timeout.
    + by eapply wp_state_inactivity_timeout.
Qed.

Lemma inv_clk n g : lld2d_inv g -> lld2d_inv (set_os_clk n g).
Proof. apply (both_clk mach). Qed.
End mainloop_lemmas.

(** ** The daemon as a transition system *)

(** A start: an Ethernet address, uninitialised sees-list entries of the right
    size and a table of TLVs of the right types. *)
Record start_ok `{E : Env} (hwaddr : list Z) (garbage : list recvee_desc) (tlvs : list tlv_desc) : Prop := StartOk {
  st_hw : length hwaddr = 6%nat;
  st_size : Z.of_nat (length garbage) = NUM_SEES;
  st_sees : Forall recvee_ok garbage;
  st_tlvs : tlvs_ok tlvs
}.

Section system.
Context `{E : Env}.

(** The first event runs when the clock shows its time, a frame is read, or
    the clock is read. *)
Inductive lld2d_step : G -> G -> Prop :=
  | step_event e l n g g' :
      Events (tm g) = e :: l -> timerle (ev_firetime e) (env_now n) = true ->
      fire_first g = Ok tt g' -> lld2d_step g g'
  | step_frame rd g g' :
      good_read rd g -> packetio_recv_handler rd g = Ok tt g' -> lld2d_step g g'
  | step_clock g : lld2d_step g (set_os_clk (S (os_clk (os g))) g).

Inductive reachable (hwaddr : list Z) (garbage : list recvee_desc) (tlvs : list tlv_desc) : G -> Prop :=
  | reach_start g : main_setup hwaddr (main_init garbage tlvs) = Ok tt g -> reachable hwaddr garbage tlvs g
  | reach_step g g' :
      reachable hwaddr garbage tlvs g -> lld2d_step g g' -> reachable hwaddr garbage tlvs g'.

Definition good_select (sel : select_result) (g : G) : Prop :=
  match sel with Select_readable rd => good_read rd g | _ => True end.

Lemma zero_lookup_all {A} n (x y : A) i : replicate n x !! i = Some y -> y = x.
Proof. intros H. by apply lookup_replicate in H as [-> _]. Qed.

Lemma zero_qos_ok : qos_ok zero_qos.
Proof.
  assert (Hb : bucket_ok zero_bucket).
  { split; [by vm_compute|split; [done|]]. cbn [evt_descs zero_bucket]. by apply Forall_replicate. }
  assert (Hs : qos_session_ok zero_qos_session).
  { split; try done. by apply Forall_replicate. }
  split; try done. by apply Forall_replicate.
Qed.

Lemma main_init_inv garbage tlvs :
  Z.of_nat (length garbage) = NUM_SEES -> Forall recvee_ok garbage -> tlvs_ok tlvs ->
  lld2d_inv (main_init garbage tlvs).
Proof.
  intros Hsz Hg Ht. split; [|apply zero_qos_ok].
  assert (Hz : Forall is_byte (replicate (Z.to_nat RXBUFSZ) 0)) by (by apply Forall_replicate).
  split; [split| |split; [|split]|split; [|done]|done].
  - split; [|done|constructor]. split; simpl; rewrite ?length_replicate; try done.
  - split; [done|exact Hz|done].
  - split; [done|done|by apply Forall_replicate|done].
  - split; try done.
  - split; [constructor|constructor|constructor|constructor|].
    intros t a. split; [|intros (e & He & _); simpl in He; by apply elem_of_nil in He].
    destruct t as [| | | |i]; try done. intros H. exfalso.
    change ((s ← replicate MAX_NUM_SESSIONS zero_session !! i; ssn_InactivityTimer s) = Some a) in H.
    apply bind_Some in H as (s & Hs & H). by apply zero_lookup_all in Hs as ->.
  - done.
  - split; [split; [by vm_compute|done|done]|done].
  - intros j s Hj _. by apply zero_lookup_all in Hj as ->.
  - intros i j s t Hi Hj Hv. by apply zero_lookup_all in Hi as ->.
  - intros j s Hj Hv. by apply zero_lookup_all in Hj as ->.
  - intros (j & s & Hj & Hv). by apply zero_lookup_all in Hj as ->.
Qed.

Lemma wp_main_setup hwaddr (Q : unit -> G -> Prop) g :
  lld2d_inv g -> length hwaddr = 6%nat -> (forall g', lld2d_inv g' -> Q tt g') ->
  wp (main_setup hwaddr) Q g.
Proof.
  intros Hi Hh HQ. unfold main_setup. apply wp_bind, (wp_qos_init mach); [done|].
  intros g' [[B T S Me Mq] Hq]. wp_step. apply HQ. split; [|done]. split; [| |done| |done].
  - destruct B as [Bi Br [W1 W2 W3 W4] Bs Bt Be]. split; try done.
    + by eapply io_ok_ext; [..|exact Bi].
    + apply (timers_ok_ext g'); [done| |done]. by intros [].
  - by eapply smT_inv_ext; [..|exact T].
  - by eapply smE_inv_ext; [..|exact Me].
Qed.

Lemma step_inv g g' : lld2d_inv g -> lld2d_step g g' -> lld2d_inv g'.
Proof.
  intros Hi Hs. destruct Hs as [e l n g g' Hl _ Hf|rd g g' Hrd Hf|g].
  - eapply (wp_ok _ (fun _ => lld2d_inv)); [|exact Hf]. apply wp_fire_first; [done|by rewrite Hl|done].
  - eapply (wp_ok _ (fun _ => lld2d_inv)); [|exact Hf]. by eapply wp_packetio_recv_handler.
  - by apply inv_clk.
Qed.

Lemma reachable_inv hwaddr garbage tlvs g :
  start_ok hwaddr garbage tlvs -> reachable hwaddr garbage tlvs g -> lld2d_inv g.
Proof.
  intros [H1 H2 H3 H4]. induction 1 as [g Hg|g g' _ IH Hs]; [|by eapply step_inv].
  eapply (wp_ok _ (fun _ => lld2d_inv)); [|exact Hg]. apply wp_main_setup; [by apply main_init_inv|done|done].
Qed.

(** A turn that runs more events than the fuel is the only other outcome. *)
Lemma run_due_inv fuel now g :
  lld2d_inv g ->
  match run_due fuel now g with
  | Ok _ g' => lld2d_inv g'
  | Err f => f = Died \/ f = Out_of_fuel
  end.
Proof.
  revert now g. induction fuel as [|n IH]; intros now g Hi; cbn [run_due];
    unfold mbind at 1, M_bind at 1, gets at 1.
  all: destruct (Events (tm g)) as [|e l] eqn:Hl; [done|]; destruct (timerle _ now); [|done].
  - by right.
  - assert (Hw : wp fire_first (fun _ => lld2d_inv) g) by (apply wp_fire_first; [done|by rewrite Hl|done]).
    unfold wp in Hw. unfold mbind at 1, M_bind at 1. destruct (fire_first g) as [[] g1|f]; [|by left].
    apply IH. by apply inv_clk.
Qed.
End system.

(** ** Properties of every reachable state *)

Section properties.
Context `{E : Env} (hwaddr : list Z) (garbage : list recvee_desc) (tlvs : list tlv_desc).
Abbreviation reach := (reachable hwaddr garbage tlvs).

Lemma timer_event t a g :
  timers_ok g -> timer_get t g = Some a ->
  exists e, e ∈ Events (tm g) /\ ev_addr e = a /\ ev_function e = timer_fn t /\ ev_state e = timer_state t.
Proof.
  intros H Ha. apply (to_owned _ H) in Ha as (e & He & Hae & H1 & H2). by exists e.
Qed.

(** C1. The daemon is memory safe: in every state it can reach from a start,
    reading any frame (other than a tagged ProbeGap) and running the first
    event of the list end in another reachable state or in die(); no assert
    fails, no NULL pointer is used, no access leaves a buffer or a table,
    and the loop of the topology machine never runs out of fuel. *)
Theorem lld2d_never_faults g :
  start_ok hwaddr garbage tlvs -> reach g ->
  (forall rd, good_read rd g ->
     match packetio_recv_handler rd g with Ok _ g' => reach g' | Err f => f = Died end)
  /\ (forall e l n, Events (tm g) = e :: l -> timerle (ev_firetime e) (env_now n) = true ->
     match fire_first g with Ok _ g' => reach g' | Err f => f = Died end).
Proof.
  intros Hst Hr. pose proof (reachable_inv _ _ _ _ Hst Hr) as Hi. split.
  - intros rd Hrd.
    pose proof (wp_packetio_recv_handler rd (fun _ _ => True) g Hi Hrd ltac:(done)) as Hw. unfold wp in Hw.
    destruct (packetio_recv_handler rd g) as [[] g'|f] eqn:Hp; [|done].
    eapply reach_step; [exact Hr|]. by eapply step_frame.
  - intros e l n Hl Ht.
    assert (Hw : wp fire_first (fun _ _ => True) g) by (apply wp_fire_first; [done|by rewrite Hl|done]).
    unfold wp in Hw. destruct (fire_first g) as [[] g'|f] eqn:Hp; [|done].
    eapply reach_step; [exact Hr|]. by eapply step_event.
Qed.

(** The due events of a turn are steps of the system. *)
Lemma run_due_reach fuel n g g' :
  reach g -> run_due fuel (env_now n) g = Ok tt g' -> reach g'.
Proof.
  revert n g. induction fuel as [|fuel IH]; intros n g Hr; cbn [run_due];
    unfold mbind at 1, M_bind at 1, gets at 1.
  all: destruct (Events (tm g)) as [|e l] eqn:Hl; [by intros [= <-]|];
    destruct (timerle _ (env_now n)) eqn:Ht; [|by intros [= <-]].
  { done. }
  unfold mbind at 1, M_bind at 1. destruct (fire_first g) as [[] g1|f] eqn:Hf; [|done].
  intros H. eapply (IH (os_clk (os g1))); [|exact H].
  eapply reach_step; [|apply step_clock]. eapply reach_step; [exact Hr|]. by eapply step_event.
Qed.

(** C5. The event loop implements the transition system: whether select times
    out, is interrupted, fails, or reports a frame that is then read (other
    than a tagged ProbeGap; a read that fails is left out), a completed turn
    leads from a reachable state to a reachable state, and a turn that does not
    complete died or had more due events than the fuel it was given. *)
Theorem mainloop_turn_refines sel g :
  start_ok hwaddr garbage tlvs -> reach g -> good_select sel g ->
  match mainloop_turn sel g with
  | Ok _ g' => reach g'
  | Err f => f = Died \/ f = Out_of_fuel
  end.
Proof.
  intros Hst Hr Hsel.
  assert (Hto : exists v g1, select_timeout g = Ok v g1 /\ reach g1 /\ rx g1 = rx g).
  { unfold select_timeout, mbind, M_bind, gets. destruct (Events (tm g)) as [|e l].
    - by exists None, g.
    - eexists _, _. split; [reflexivity|]. split; [|done]. eapply reach_step; [exact Hr|apply step_clock]. }
  destruct Hto as (v & g1 & Hto & Hr1 & Hrx). unfold mainloop_turn, mbind at 1, M_bind at 1. rewrite Hto.
  pose proof (reachable_inv _ _ _ _ Hst Hr1) as Hi. destruct sel as [| |fuel|rd]; [exact Hr1|by left| |].
  - set (n := os_clk (os g1)). set (g2 := set_os_clk (S n) g1).
    change (match run_due fuel (env_now n) g2 with
            | Ok _ g' => reach g' | Err f => f = Died \/ f = Out_of_fuel end).
    pose proof (run_due_inv fuel (env_now n) g2 (inv_clk _ _ Hi)) as Hd.
    destruct (run_due fuel (env_now n) g2) as [[] g3|f] eqn:Hrd; [|done].
    eapply run_due_reach; [|exact Hrd]. eapply reach_step; [exact Hr1|apply step_clock].
  - assert (Hg : good_read rd g1) by (destruct rd; [simpl in *; by rewrite Hrx|done]).
    pose proof (wp_packetio_recv_handler rd (fun _ _ => True) g1 Hi Hg ltac:(done)) as Hw. unfold wp in Hw.
    destruct (packetio_recv_handler rd g1) as [[] g'|f] eqn:Hp; [|by left].
    eapply reach_step; [exact Hr1|]. by eapply step_frame.
Qed.

(** C2. Session lifetimes: in every reachable state a valid session is never
    Nascent; a Pending or Complete one has an inactivity timeout of its own
    in the event list, so it cannot outlive its mapper's silence; a
    Temporary one has none and exists only while there is a topology
    session; and no mapper has two sessions. *)
Theorem sessions_live_and_unique g :
  start_ok hwaddr garbage tlvs -> reach g ->
  (forall i s, g_sessions (co g) !! i = Some s -> ssn_is_valid s = true ->
     match ssn_state s with
     | smS_Nascent => False
     | smS_Temporary => ssn_InactivityTimer s = None /\ g_topo_session (co g) <> None
     | _ => exists e, e ∈ Events (tm g) /\ ev_function e = state_inactivity_timeout_fn
                      /\ ev_state e = Some i /\ ssn_InactivityTimer s = Some (ev_addr e)
     end)
  /\ mappers_unique (g_sessions (co g)).
Proof.
  intros Hst Hr. destruct (reachable_inv _ _ _ _ Hst Hr) as [[B T (S1 & S2 & S3) Me Mq] _]. split; [|done].
  intros i s Hs Hv. pose proof (S1 i s Hs ltac:(done)) as Hok. unfold session_state_ok in Hok. rewrite Hv in Hok.
  assert (Hlive : is_Some (ssn_InactivityTimer s) -> exists e, e ∈ Events (tm g)
    /\ ev_function e = state_inactivity_timeout_fn /\ ev_state e = Some i /\ ssn_InactivityTimer s = Some (ev_addr e)).
  { intros [a Ha]. destruct (timer_event (T_inactivity i) a g (bo_timers _ B)) as (e & He & <- & Hf & Hes).
    - simpl. by rewrite Hs.
    - exists e. by rewrite Ha. }
  destruct (ssn_state s) eqn:Hss; [done|by apply Hlive| |by apply Hlive].
  split; [done|]. intros Hn. rewrite Hn in S3. by apply (S3 i s).
Qed.

(** The topology session and the topology machine agree: the pointer is
    either NULL, and then the machine is Quiescent and no session is
    Temporary, or designates a valid session of the topology-discovery
    service that is Pending or Complete. *)
Theorem topology_session_valid g :
  start_ok hwaddr garbage tlvs -> reach g ->
  match g_topo_session (co g) with
  | None => g_smT_state (co g) = smT_Quiescent /\ no_temporaries (g_sessions (co g))
  | Some k => exists s, g_sessions (co g) !! k = Some s /\ ssn_is_valid s = true
              /\ (ssn_state s = smS_Pending \/ ssn_state s = smS_Complete)
              /\ ssn_TypeOfSvc s = ToS_TopologyDiscovery
  end.
Proof.
  intros Hst Hr. destruct (reachable_inv _ _ _ _ Hst Hr) as [[B [Tc T] (S1 & S2 & S3) Me Mq] _].
  destruct (g_topo_session (co g)) as [k|]; [done|]. split; [|done].
  destruct (g_smT_state (co g)); [done|tauto|tauto].
Qed.

(** The enumeration machine is Quiescent exactly when the session table
    is empty; while it is Pausing the end of the current block is scheduled
    in the event list and the load estimate is in its range; in the two
    other states neither a block nor a Hello is scheduled. *)
Theorem enumeration_scheduled g :
  start_ok hwaddr garbage tlvs -> reach g ->
  (g_smE_state (co g) = smE_Quiescent <-> forall s, s ∈ g_sessions (co g) -> ssn_is_valid s = false)
  /\ (g_smE_state (co g) = smE_Pausing -> band_ok (g_band g)
      /\ exists e, e ∈ Events (tm g) /\ ev_function e = state_block_timeout_fn)
  /\ (g_smE_state (co g) <> smE_Pausing -> forall e, e ∈ Events (tm g) ->
      ev_function e <> state_block_timeout_fn /\ ev_function e <> state_hello_delay_timeout_fn).
Proof.
  intros Hst Hr. destruct (reachable_inv _ _ _ _ Hst Hr) as [[B T Ms Me Mq] _].
  pose proof (bo_timers _ B) as Ht.
  assert (Hne : table_nonempty (g_sessions (co g)) <-> ~ forall s, s ∈ g_sessions (co g) -> ssn_is_valid s = false).
  { rewrite <- table_empty_false. split.
    - intros Hf Hall. assert (table_empty (g_sessions (co g)) = true); [|congruence].
      apply table_empty_true. intros (j & s & Hj & Hv). apply list_elem_of_lookup_2, Hall in Hj. congruence.
    - intros Hall. apply not_true_iff_false. intros Htr. apply table_empty_true in Htr. apply Hall.
      intros s Hs. apply list_elem_of_lookup_1 in Hs as [j Hj]. destruct (ssn_is_valid s) eqn:Hv; [|done].
      destruct Htr. by exists j, s. }
  assert (Hnone : forall t, timer_get t g = None -> forall e, e ∈ Events (tm g) -> ~ is_timer_event t e).
  { intros t Hn e He Hte. assert (Hs : timer_get t g = Some (ev_addr e)) by (apply (to_owned _ Ht); by exists e).
    congruence. }
  assert (Hfn : forall e t, e ∈ Events (tm g) -> (t = T_block \/ t = T_hello) -> timer_get t g = None ->
    ev_function e <> timer_fn t).
  { intros e t He Htt Hn Hf. pose proof (Forall_elem _ _ _ (to_typed _ Ht) He) as [Hq|(t' & Ht1 & Ht2)].
    - destruct Hq as [Hq|Hq], Htt as [->| ->]; simpl in Hf; congruence.
    - assert (t' = t) as ->; [|by apply (Hnone t Hn e He)].
      rewrite Hf in Ht1. destruct Htt as [->| ->], t'; simpl in Ht1; congruence. }
  unfold smE_inv in Me. destruct (g_smE_state (co g)) eqn:HE; destruct Me as (E1 & E2 & E3).
  - split; [|split; [done|intros _ e He; split; [apply (Hfn e T_block)|apply (Hfn e T_hello)]; auto]].
    split; [intros _ s Hs|done]. destruct (ssn_is_valid s) eqn:Hv; [|done]. destruct E1.
    apply list_elem_of_lookup_1 in Hs as [j Hj]. by exists j, s.
  - split; [split; [done|intros Hall; by apply Hne in E1]|]. split; [|done]. intros _. split; [done|].
    destruct E2 as [a Ha]. destruct (timer_event T_block a g Ht Ha) as (e & He & _ & Hf & _). by exists e.
  - split; [split; [done|intros Hall; by apply Hne in E1]|]. split; [done|].
    intros _ e He; split; [apply (Hfn e T_block)|apply (Hfn e T_hello)]; auto.
Qed.

(** C3. Transmit credit is bounded and always expires: a reachable state
    has at most TOPO_CTC_PACKETS_MAX frames of credit, has none outside of
    the Command state, and when it has any the timeout that takes it away
    is in the event list. *)
Theorem credit_expires g :
  start_ok hwaddr garbage tlvs -> reach g ->
  0 <= g_ctc_packets (ch g) <= TOPO_CTC_PACKETS_MAX
  /\ (g_ctc_packets (ch g) <> 0 \/ g_ctc_bytes (ch g) <> 0 ->
      g_smT_state (co g) = smT_Command
      /\ exists e, e ∈ Events (tm g) /\ ev_function e = state_charge_timeout_fn).
Proof.
  intros Hst Hr. destruct (reachable_inv _ _ _ _ Hst Hr) as [[B [[P1 P2 P3] T] Ms Me Mq] _].
  split; [done|]. intros Hc. destruct (timer_get T_charge g) as [a|] eqn:Ha.
  - split.
    + destruct (g_smT_state (co g)); [|done|]; [destruct T as (_ & _ & T); congruence|].
      destruct T as (_ & _ & _ & T). congruence.
    + destruct (timer_event T_charge a g (bo_timers _ B) Ha) as (e & He & _ & Hf & _). by exists e.
  - destruct (P3 eq_refl). lia.
Qed.

(** C4. Between two events the Emit state always has its next transmission
    scheduled: exactly then the emit timeout is in the event list, and the
    remaining descriptors are inside the emit buffer. *)
Theorem emit_scheduled g :
  start_ok hwaddr garbage tlvs -> reach g ->
  (g_smT_state (co g) = smT_Emit <-> exists e, e ∈ Events (tm g) /\ ev_function e = state_emit_timeout_fn)
  /\ (g_smT_state (co g) = smT_Emit -> exists p, g_emitdesc (em g) = Some p /\ 0 <= p
      /\ 0 < g_emit_remaining (em g)
      /\ p + sizeof_emitee_desc * g_emit_remaining (em g) <= Z.of_nat (length (g_emitbuf (em g)))).
Proof.
  intros Hst Hr. destruct (reachable_inv _ _ _ _ Hst Hr) as [[B [Tc T] Ms Me Mq] _].
  pose proof (bo_timers _ B) as Ht. pose proof (bo_emitbuf _ B) as Hb.
  assert (Hev : forall e, e ∈ Events (tm g) -> ev_function e = state_emit_timeout_fn -> timer_get T_emit g <> None).
  { intros e He Hf Hn. pose proof (Forall_elem _ _ _ (to_typed _ Ht) He) as [Hq|(t' & Ht1 & Ht2)].
    - destruct Hq as [Hq|Hq]; congruence.
    - destruct t'; simpl in Ht1; try congruence.
      assert (timer_get T_emit g = Some (ev_addr e)) by (apply (to_owned _ Ht); by exists e). congruence. }
  destruct (g_smT_state (co g)).
  - split; [|done]. split; [done|]. intros (e & He & Hf). destruct (Hev e He Hf). apply T.
  - split; [|done]. split; [done|]. intros (e & He & Hf). destruct (Hev e He Hf). apply T.
  - destruct T as (T1 & (T2 & p & T3 & T4 & T5) & _). split.
    + split; [|done]. intros _. destruct (timer_get T_emit g) as [a|] eqn:Ha; [|by discriminate (proj1 T1 eq_refl)].
      destruct (timer_event T_emit a g Ht Ha) as (e & He & _ & Hf & _). by exists e.
    + intros _. exists p. rewrite Hb. split; [done|]. lia.
Qed.

(** Every frame that a reachable state has sent holds the Ethernet and
    base headers and fits into a buffer of the daemon. *)
Theorem frames_sent_bounded g b :
  start_ok hwaddr garbage tlvs -> reach g -> Frame b ∈ os_out (os g) ->
  sizeof_ether_header + sizeof_base_header <= Z.of_nat (length b) <= TXBUFSZ.
Proof.
  intros Hst Hr Hb. destruct (reachable_inv _ _ _ _ Hst Hr) as [[B _ _ _ _] _].
  exact (Forall_elem _ _ _ (io_out _ (bo_io _ B)) Hb).
Qed.

(** The event list of a reachable state is sorted by time, holds no
    event twice, and every event in it is one of the QoS sink or is owned
    by exactly the timer variable it was armed for; no variable holds the
    address of an event that is not in the list. *)
Theorem timers_owned g :
  start_ok hwaddr garbage tlvs -> reach g ->
  events_sorted (Events (tm g)) /\ NoDup (ev_addr <$> Events (tm g))
  /\ (forall e, e ∈ Events (tm g) -> is_qos_event e \/
        exists t, is_timer_event t e /\ timer_get t g = Some (ev_addr e)
                  /\ forall t', timer_get t' g = Some (ev_addr e) -> t' = t)
  /\ (forall t a, timer_get t g = Some a -> exists e, e ∈ Events (tm g) /\ ev_addr e = a /\ is_timer_event t e).
Proof.
  intros Hst Hr. destruct (reachable_inv _ _ _ _ Hst Hr) as [[B _ _ _ _] _].
  destruct (bo_timers _ B) as [Hs Hf Hn Ht Ho]. split; [done|]. split; [done|]. split.
  - intros e He. destruct (Forall_elem _ _ _ Ht He) as [Hq|(t & Hte)]; [by left|right]. exists t.
    split; [done|]. split; [apply Ho; by exists e|]. intros t' Ht'.
    apply Ho in Ht' as (e' & He' & Ha & Hte').
    assert (e' = e) as ->; [|by apply (is_timer_event_inj t' t e)].
    apply list_elem_of_lookup_1 in He as [i Hi]. apply list_elem_of_lookup_1 in He' as [j Hj].
    assert (i = j) as ->; [|congruence].
    eapply NoDup_lookup; [exact Hn|by rewrite list_lookup_fmap, Hi|by rewrite list_lookup_fmap, Hj, <- Ha].
  - intros t a. by apply Ho.
Qed.
End properties.
