(* ===== verification/Behaviour.v ===== *)
(** * Behaviour: what the daemon answers, from event to wire

    Functional properties of reachable states that go through several
    components: the run of a timer or of a received frame is followed to the
    frames it sends and to the state it leaves. *)

From S2P Require Import Prelude LltdTypes Event SeesList Band Tlv PacketTx Mapping Frames SessionMgr Enumeration StateProc Qos PacketRx Mainloop.

(** ** The emit timer *)

(** The parts of the state that an Emit in progress reads. *)
Record same_emit (g g' : G) : Prop := SameEmit {
  sme_em : em g' = em g;
  sme_tx : tx g' = tx g;
  sme_out : os_out (os g') = os_out (os g);
  sme_hw : g_hwaddr (co g') = g_hwaddr (co g);
  sme_mapper : topo_mapper (co g') = topo_mapper (co g)
}.

Lemma burst_post_ext p g1 g2 g' : same_emit g1 g2 -> burst_post p g2 g' -> burst_post p g1 g'.
Proof.
  intros [Em Tx Out Hw Mp]. unfold burst_post, emit_done, emit_waits, frames_at, emit_ack.
  rewrite Em, Tx, Hw, Mp. case_decide as Hd; intros ([O R] & H); (split; [split; [by rewrite O, Out|by rewrite R, Tx]|exact H]).
Qed.

Section emit_timer.
Context `{E : Env}.

(** The enumeration machine ignores the emit timer. *)
Lemma wp_smE_emit (Q : sm_Status -> G -> Prop) g :
  evtType (g_this_event (co g)) = evtEmitTimeout -> Q PROCESSING_COMPLETED g -> wp smE_process_event Q g.
Proof.
  intros He HQ. unfold smE_process_event, smE_QuiescentHandler, smE_PausingHandler, smE_WaitHandler, this_event.
  apply wp_bind, wp_gets. destruct (g_smE_state (co g)); apply wp_bind, wp_gets; by rewrite He.
Qed.

Lemma wp_smT_burst p (Q : sm_Status -> G -> Prop) g :
  base_ok g -> smT_inv true g -> g_smT_state (co g) = smT_Emit -> g_emitdesc (em g) = Some p ->
  evtType (g_this_event (co g)) = evtEmitTimeout -> evt_ssn (g_this_event (co g)) = g_topo_session (co g) ->
  (forall st g', burst_post p g g' -> Q st g') -> wp smT_process_event Q g.
Proof.
  intros Hb [Hc Hi] Hst Hp Hev Hssn HQ. rewrite Hst in Hi. destruct Hi as (T1 & T2 & T3 & T4).
  destruct (g_topo_session (co g)) as [i|] eqn:Htopo; [|done].
  assert (He : emitting g) by (split; try done; [by apply T1|by exists i]).
  unfold smT_process_event. apply wp_bind, wp_gets, wp_bind, wp_gets. rewrite Htopo, Hssn.
  apply wp_if; intros Ha; [apply bool_decide_eq_true in Ha; tauto|].
  apply wp_bind, wp_gets, (wp_smT_loop_burst _ p); [done|done|unfold smT_fuel; lia|]. apply HQ.
Qed.

Lemma wp_state_emit_burst q e l p (Q : unit -> G -> Prop) g :
  mach_inv q g -> Events (tm g) = e :: l -> is_timer_event T_emit e -> g_emitdesc (em g) = Some p ->
  (forall g', burst_post p g g' -> Q tt g') -> wp state_emit_timeout Q (set_Events l g).
Proof.
  intros [Mb Mt Ms Me Mq] Hl Hte Hp HQ. destruct (base_ok_unlink _ _ _ _ Mb Hl Hte) as (_ & Hget & B).
  simpl timer_set in B. unfold state_emit_timeout. do 4 wp_step.
  apply wp_bind, wp_topo_session_valid; [by apply base_ok_evt|].
  destruct Mt as [Mc Mt]. simpl in Hget, Mt.
  destruct (g_smT_state (co g)) eqn:Hst; [destruct Mt; congruence|destruct Mt; congruence|].
  destruct Mt as (T1 & T2 & T3 & T4). destruct (g_topo_session (co g)) as [k|] eqn:Htp; [|done].
  destruct Ms as (S1 & S2 & s & Hs & Hto).
  match goal with |- wp _ _ ?st => assert (Htv : topo_valid (co st) = true) end.
  { unfold topo_valid. simpl. rewrite Htp, Hs. by destruct Hto as (-> & _). }
  rewrite Htv. apply wp_bind. do 3 wp_step. apply wp_bind. unfold state_process_timeout, this_event.
  do 10 wp_step. match goal with |- wp _ _ ?st => set (g5 := st) end.
  apply wp_bind, wp_gets.
  do 2 (apply wp_bind, wp_when; intros Hx; [by apply bool_decide_eq_true in Hx|clear Hx]).
  apply wp_bind, wp_smE_emit; [done|]. apply wp_bind. rewrite decide_False by done. apply wp_bind, (wp_smT_burst p).
  - set (r := RxCtx (g_rxbuf (rx g)) 0 (g_sequencenum (rx g)) (g_opcode (rx g))).
    assert (B' : base_ok (set_rx r (set_g_emit_timer None (set_Events l g)))).
    { apply base_ok_rx; [done|]. destruct (bo_rx _ Mb). split; simpl; try done. }
    base_same.
  - split; [by eapply charge_ok_ext; [..|exact Mc]|]. simpl. rewrite Hst, Htp. by split.
  - exact Hst.
  - exact Hp.
  - done.
  - done.
  - intros st g' HB. wp_step. apply HQ. eapply burst_post_ext; [|exact HB]. by split.
Qed.
End emit_timer.

(** ** Frames that are not for the daemon *)

(** The receive buffer after a read: the frame, then what was there before. *)
Lemma inserts_prefix {A} (bytes l : list A) : (length bytes <= length l)%nat ->
  list_inserts 0 bytes l = bytes ++ drop (length bytes) l.
Proof.
  intros H. rewrite <- (take_drop (length bytes) l) at 1.
  by rewrite list_inserts_0_r by (rewrite length_take; lia).
Qed.

Lemma load_prefix n bytes l off : 0 <= off -> off + Z.of_nat n <= Z.of_nat (length bytes) ->
  load n (bytes ++ l) off = Some (field n bytes off).
Proof.
  intros H1 H2. rewrite load_ok by (rewrite ?length_app; lia). unfold field. f_equal.
  rewrite drop_app_le by lia. rewrite take_app_le; [done|]. rewrite length_drop. lia.
Qed.

(** The number in a field of a frame. *)
Definition num (n : nat) (bytes : list Z) (off : Z) : Z := of_be (field n bytes off).

(** A frame that belongs to LLTD: long enough, of its type and version. *)
Definition lltd_frame (bytes : list Z) : bool :=
  (sizeof_ether_header + sizeof_base_header <=? Z.of_nat (length bytes))
  && (num 2 bytes eh_ethertype =? TOPO_ETHERTYPE) && (num 1 bytes tbh_version =? TOPO_VERSION).

(** A frame of the discovery services that the daemon listens to. *)
Definition discovery_frame (hw bytes : list Z) : bool :=
  (num 1 bytes tbh_tos <=? 1) && (num 1 bytes tbh_opcode <? Opcode_INVALID)
  && frame_acceptable (num 1 bytes tbh_opcode) (num 2 bytes tbh_seqnum) (field 6 bytes tbh_realdst) hw.

Definition qos_frame (bytes : list Z) : bool := num 1 bytes tbh_tos =? ToS_QoSDiagnostics.

Section receive.
Context `{E : Env}.

(** The receive context after the header of a frame has been read. *)
Definition rx_after (bytes : list Z) (r : rxctx) : rxctx :=
  RxCtx (bytes ++ drop (length bytes) (g_rxbuf r)) (Z.of_nat (length bytes)) (g_sequencenum r)
    (num 1 bytes tbh_opcode).

Lemma rx_load_run n off bytes rest g :
  g_rxbuf (rx g) = bytes ++ rest -> 0 <= off -> off + Z.of_nat n <= Z.of_nat (length bytes) ->
  rx_load n off g = Ok (field n bytes off) g.
Proof.
  intros Hb H0 H1. unfold rx_load, mbind, M_bind, gets. rewrite Hb. by rewrite load_prefix.
Qed.

Lemma rx_num_run n off bytes rest g :
  g_rxbuf (rx g) = bytes ++ rest -> 0 <= off -> off + Z.of_nat n <= Z.of_nat (length bytes) ->
  (of_be <$> rx_load n off) g = Ok (num n bytes off) g.
Proof. intros Hb H0 H1. unfold fmap, M_fmap, mbind, M_bind. by rewrite (rx_load_run n off _ _ _ Hb H0 H1). Qed.

(** The reception of a frame, by the three kinds of frames. *)
Lemma run_recv_cases bytes (P : res G unit -> Prop) g :
  Z.of_nat (length (g_rxbuf (rx g))) = RXBUFSZ -> bytes <> [] -> Z.of_nat (length bytes) <= RXBUFSZ ->
  (lltd_frame bytes && (qos_frame bytes || discovery_frame (g_hwaddr (co g)) bytes) = false ->
     forall r, P (Ok tt (set_rx r g))) ->
  (lltd_frame bytes = true -> qos_frame bytes = true -> P (qosrcvpkt (set_rx (rx_after bytes (rx g)) g))) ->
  (lltd_frame bytes = true -> discovery_frame (g_hwaddr (co g)) bytes = true ->
     P (sequenced_frame (num 1 bytes tbh_opcode) (num 2 bytes tbh_seqnum) (set_rx (rx_after bytes (rx g)) g))) ->
  P (packetio_recv_handler (Read_bytes bytes) g).
Proof.
  intros Hl Hne Hlen HI HQ HD. unfold RXBUFSZ in *.
  assert (Hpos : 0 < Z.of_nat (length bytes)) by (destruct bytes; simpl length; [done|lia]).
  set (g1 := set_g_rcvd_pkt_len (Z.of_nat (length bytes)) (set_g_rxbuf (bytes ++ drop (length bytes) (g_rxbuf (rx g))) g)).
  assert (H1 : osl_read (Read_bytes bytes) g = Ok tt g1).
  { unfold osl_read, mbind, M_bind, gets. rewrite store_ok by lia. simpl. by rewrite inserts_prefix by lia. }
  unfold packetio_recv_handler. eapply run_bind; [exact H1|]. eapply run_bind; [apply gets_run|].
  assert (Hb : g_rxbuf (rx g1) = bytes ++ drop (length bytes) (g_rxbuf (rx g))) by done.
  change (g_rcvd_pkt_len (rx _)) with (Z.of_nat (length bytes)).
  unfold lltd_frame, discovery_frame, qos_frame in *.
  change (sizeof_ether_header + sizeof_base_header) with 32 in *. change sizeof_ether_header with 14 in *.
  apply run_if; intros H0; bool_to_prop; [lia|clear H0].
  apply run_if; intros H2; bool_to_prop.
  { apply HI. by rewrite (proj2 (Z.leb_gt 32 _)) by lia. }
  eapply run_bind; [apply (rx_num_run 2 _ _ _ _ Hb); unfold eh_ethertype; lia|]. apply run_if; intros H3.
  { apply HI. apply negb_true_iff in H3. by rewrite H3, andb_false_r. }
  apply negb_false_iff in H3. apply run_if; intros H4; bool_to_prop.
  { apply HI. by rewrite (proj2 (Z.leb_gt 32 _)) by lia. }
  rewrite (proj2 (Z.leb_le 32 (Z.of_nat (length bytes)))) in HI, HQ, HD by lia.
  rewrite (proj2 (Z.eqb_eq (num 2 bytes eh_ethertype) TOPO_ETHERTYPE) H3) in HI, HQ, HD.
  eapply run_bind; [apply (rx_num_run 1 _ _ _ _ Hb); unfold tbh_version; lia|]. apply run_if; intros H5.
  { apply HI. apply negb_true_iff in H5. by rewrite H5. }
  apply negb_false_iff in H5. rewrite H5 in HI, HQ, HD.
  eapply run_bind; [apply (rx_num_run 1 _ _ _ _ Hb); unfold tbh_opcode; lia|].
  eapply run_bind; [reflexivity|].
  set (g2 := set_g_opcode _ g1).
  assert (Hb2 : g_rxbuf (rx g2) = bytes ++ drop (length bytes) (g_rxbuf (rx g))) by done.
  eapply run_bind; [apply (rx_num_run 1 _ _ _ _ Hb2); unfold tbh_tos; lia|].
  apply run_if; intros H6; [by apply HQ|]. rewrite H6 in HI. simpl in HI.
  apply run_if; intros H7; [apply HI; bool_to_prop; by rewrite (proj2 (Z.leb_gt _ 1))|].
  assert (Htos : (num 1 bytes tbh_tos <=? 1) = true) by (bool_to_prop; by apply Z.leb_le).
  rewrite Htos in HI, HD. simpl in HI, HD.
  apply run_if; intros H8; [apply HI; bool_to_prop; by rewrite (proj2 (Z.ltb_ge _ _))|].
  assert (Hop : (num 1 bytes tbh_opcode <? Opcode_INVALID) = true) by (bool_to_prop; by apply Z.ltb_lt).
  rewrite Hop in HI, HD. simpl in HI, HD.
  eapply run_bind; [apply (rx_num_run 2 _ _ _ _ Hb2); unfold tbh_seqnum; lia|].
  eapply run_bind; [apply (rx_load_run 6 _ _ _ _ Hb2); unfold tbh_realdst; lia|].
  eapply run_bind; [apply gets_run|].
  apply run_if; intros H9; [by apply HD|]. by apply HI.
Qed.
End receive.

(** ** Credit *)

Section credit.
Context `{E : Env}.

Lemma wp_rx16_num off (Q : Z -> G -> Prop) g :
  rx_ok (rx g) -> 0 <= off <= 2046 -> Q (num 2 (g_rxbuf (rx g)) off) g -> wp (rx16 off) Q g.
Proof.
  intros [Hs _ _] H HQ. unfold RXBUFSZ in Hs. unfold rx16, wp.
  rewrite (rx_num_run 2 off (g_rxbuf (rx g)) []) by (rewrite ?app_nil_r; done || lia). exact HQ.
Qed.

(** The Emit of the received frame, put aside with nothing sent yet. *)
Record emit_taken (g g' : G) : Prop := EmitTaken {
  ek_credit : no_credit (ch g');
  ek_buf : take (Z.to_nat (g_rcvd_pkt_len (rx g))) (g_emitbuf (em g'))
           = take (Z.to_nat (g_rcvd_pkt_len (rx g))) (g_rxbuf (rx g));
  ek_remaining : g_emit_remaining (em g') = numDescrs (g_this_event (co g));
  ek_desc : g_emitdesc (em g') = Some (sizeof_ether_header + sizeof_base_header + sizeof_emit_header);
  ek_seq : g_emit_seqnum (em g') = g_sequencenum (rx g);
  ek_out : os_out (os g') = os_out (os g)
}.

Lemma wp_ProcessEmits_eq (Q : unit -> G -> Prop) g :
  base_ok g -> g_emit_remaining (em g) = 0 -> evtType (g_this_event (co g)) = evtEmitRcvd ->
  emit_event_ok g ->
  (forall e, Z.of_nat (length (g_emitbuf e)) = RXBUFSZ ->
     take (Z.to_nat (g_rcvd_pkt_len (rx g))) (g_emitbuf e) = take (Z.to_nat (g_rcvd_pkt_len (rx g))) (g_rxbuf (rx g)) ->
     e = EmitSt (g_emitbuf e) (numDescrs (g_this_event (co g))) (g_sequencenum (rx g)) (Some 34) ->
     Q tt (set_em e g)) ->
  wp ProcessEmits Q g.
Proof.
  intros Hb Hr He Hok HQ. destruct (Hok He) as [Hn _].
  pose proof (ro_size _ (bo_rx _ Hb)) as Hs. pose proof (ro_len _ (bo_rx _ Hb)) as Hl.
  pose proof (bo_emitbuf _ Hb) as Heb. unfold RXBUFSZ in *.
  unfold ProcessEmits. apply wp_bind, wp_gets, wp_bind, wp_gets, wp_bind.
  eapply wp_in_bounds; [apply load_len_ok; lia|]. apply wp_bind, wp_gets, wp_bind.
  set (pkt := take _ _). assert (Hp : length pkt = Z.to_nat (g_rcvd_pkt_len (rx g)))
    by (unfold pkt; rewrite length_take, length_drop; lia).
  eapply wp_in_bounds; [apply store_ok; [lia|]; rewrite Hp; lia|].
  do 4 wp_step. apply wp_bind, wp_assert; [by apply Z.eqb_eq|]. repeat wp_step.
  match goal with |- Q tt ?s => change s with (set_em (em s) g) end. apply HQ.
  - cbn [em set_em g_emitbuf set_g_emitbuf set_g_emit_remaining set_g_emit_seqnum set_g_emitdesc].
    by rewrite length_inserts.
  - cbn [em set_em g_emitbuf set_g_emitbuf set_g_emit_remaining set_g_emit_seqnum set_g_emitdesc].
    rewrite <- Hp at 1. change (Z.to_nat 0) with 0%nat. by rewrite take_inserts_0 by lia.
  - cbn [em set_em g_emitbuf set_g_emitbuf set_g_emit_remaining set_g_emit_seqnum set_g_emitdesc g_this_event co
         numDescrs]. f_equal. apply u16_small. lia.
Qed.

(** An Emit runs only on credit.  When the credit, with that of the Emit
    frame itself, does not cover what the descriptors need, no descriptor is
    sent: the daemon answers with one Flat frame that tells the mapper the
    credit it has, pays for that frame and stays in Command. *)
Theorem emit_refused_without_credit g i s :
  commanding g -> g_topo_session (co g) = Some i -> g_sessions (co g) !! i = Some s ->
  let len := g_rcvd_pkt_len (rx g) in
  let c := charge_added (s32 len) (ch g) in
  (1 <? num 2 (g_rxbuf (rx g)) eh_numdescs) && (g_sequencenum (rx g) =? 0) = false ->
  SufficientChargeAvailable c = false ->
  match command_emit g with
  | Ok st g' =>
      st = PROCESSING_COMPLETED
      /\ sent [flat_frame (g_hwaddr (co g)) (rsvd_byte (g_txbuf (tx g))) (ssn_mapper_real s)
                 (g_sequencenum (rx g)) c] g g'
      /\ g_smT_state (co g') = smT_Command /\ em g' = em g /\ ch g' = charge_consumed 38 c
  | Err f => f = Died
  end.
Proof.
  intros Hc Hi Hsi len c Hseq Hcr. pose proof (cm_base _ Hc) as Hb.
  change (wp command_emit (fun st g' => st = PROCESSING_COMPLETED /\ sent [flat_frame (g_hwaddr (co g))
    (rsvd_byte (g_txbuf (tx g))) (ssn_mapper_real s) (g_sequencenum (rx g)) c] g g'
    /\ g_smT_state (co g') = smT_Command /\ em g' = em g /\ ch g' = charge_consumed 38 c) g).
  unfold command_emit. apply wp_bind, wp_rx16_num; [apply Hb|by unfold eh_numdescs|]. apply wp_bind, wp_gets.
  rewrite Hseq. apply wp_bind, wp_gets, wp_bind, wp_ChargeAdd; [done|apply Hc|]. intros g1 B1 C1 F1 _.
  fold len c in F1. pose proof (mf_co _ _ _ F1) as Co1. destruct (mf_rest _ _ _ F1) as [R1 R2 R3 R4 R5 R6 R7 R8 R9].
  cbn [rx tx ch em os co set_ch] in *. apply wp_bind, wp_gets. rewrite R3, Hcr.
  apply wp_bind, (wp_packetio_tx_flat_eq i s); [done|by rewrite Co1|by rewrite Co1|].
  rewrite R1, R2, R3, Co1. intros x o ts Hio Hlen [O2 S2].
  unfold consume_tx. apply wp_bind, wp_bind, wp_gets.
  change (g_tx_len (tx (txs x o ts g1))) with (g_tx_len x). rewrite Hlen. change (s32 38) with 38.
  apply wp_ChargeConsume; [by apply base_ok_txs|by eapply charge_ok_ext; [..|exact C1]|].
  intros g3 B3 C3 F3 _. wp_step.
  pose proof (mf_co _ _ _ F3) as Co3. destruct (mf_rest _ _ _ F3) as [X1 X2 X3 X4 X5 X6 X7 X8 X9].
  cbn [rx tx ch em os co set_ch txs set_tx set_os set_g_tlvs] in *.
  split; [done|]. split; [|split; [by rewrite Co3, Co1; apply Hc|split; [congruence|by rewrite X3, R3]]].
  split; [by rewrite X5, O2, R5|by rewrite X2, S2, R2].
Qed.

(** With enough credit an Emit of at least one descriptor uses up all of
    it and is put aside: its descriptors are those of the received frame,
    nothing has been sent yet, and the machine is in Emit, with the first
    pause running, or ready to send at once when there is none. *)
Theorem emit_accepted_with_credit g :
  commanding g -> emit_event_ok g -> evtType (g_this_event (co g)) = evtEmitRcvd ->
  (1 <? num 2 (g_rxbuf (rx g)) eh_numdescs) && (g_sequencenum (rx g) =? 0) = false ->
  SufficientChargeAvailable (charge_added (s32 (g_rcvd_pkt_len (rx g))) (ch g)) = true ->
  0 < numDescrs (g_this_event (co g)) ->
  match command_emit g with
  | Ok st g' =>
      emit_taken g g' /\ g_smT_state (co g') = smT_Emit
      /\ if pause_at (g_emitbuf (em g')) 34 =? 0
         then st = KEEP_GOING /\ evtType (g_this_event (co g')) = evtEmitTimeout /\ timer_get T_emit g' = None
         else st = PROCESSING_COMPLETED /\ is_Some (timer_get T_emit g')
  | Err f => f = Died
  end.
Proof.
  intros Hc Hok He Hseq Hcr Hpos. pose proof (cm_base _ Hc) as Hb. destruct (Hok He) as [Hn Hfit].
  match goal with |- match _ with Ok st g' => @?P st g' | _ => _ end => change (wp command_emit P g) end.
  unfold command_emit. apply wp_bind, wp_rx16_num; [apply Hb|by unfold eh_numdescs|]. apply wp_bind, wp_gets.
  rewrite Hseq. apply wp_bind, wp_gets, wp_bind, wp_ChargeAdd; [done|apply Hc|]. intros g1 B1 C1 F1 _.
  pose proof (mf_rest _ _ _ F1) as [R1 R2 R3 R4 R5 R6 R7 R8 R9]. apply wp_bind, wp_gets.
  rewrite R3. change (ch (set_ch ?c g)) with c. rewrite Hcr.
  assert (Hc1 : commanding g1) by by eapply commanding_tmr.
  apply wp_drop_credit; [done|]. intros g2 B2 C2 N2 T2 F2.
  assert (Hc2 : commanding g2) by by eapply commanding_tmr.
  pose proof (mf_rest _ _ _ F2) as [X1 X2 X3 X4 X5 X6 X7 X8 X9].
  assert (Hevt : g_this_event (co g2) = g_this_event (co g)).
  { rewrite (mf_co _ _ _ F2). simpl. by rewrite (mf_co _ _ _ F1). }
  assert (Hrx : rx g2 = rx g) by (rewrite X1; exact R1).
  assert (Hout : os_out (os g2) = os_out (os g)) by (rewrite X5; exact R5).
  apply wp_bind, wp_ProcessEmits_eq; [done|apply Hc2|by rewrite Hevt|by unfold emit_event_ok; rewrite Hevt, Hrx|].
  rewrite Hevt, Hrx. intros e Hl Htk ->. cbn [g_emitbuf] in Hl, Htk. apply wp_bind, wp_gets.
  change (em (set_em ?e g2)) with e. cbn [g_emit_remaining]. rewrite (proj2 (Z.ltb_lt _ _) Hpos).
  apply wp_bind, wp_modify. set (g3 := set_g_smT_state smT_Emit _).
  unfold sizeof_ether_header, sizeof_base_header, sizeof_emit_header, sizeof_emitee_desc in Hfit.
  pose proof (ro_len _ (bo_rx _ Hb)) as Hrl. unfold RXBUFSZ in Hrl.
  assert (B3 : base_ok g3) by (pose proof (base_ok_em _ _ B2 Hl); base_same).
  assert (P3 : emit_pending (em g3)).
  { split; simpl; [lia|]. exists 34. split; [done|]. unfold sizeof_emitee_desc, RXBUFSZ. lia. }
  assert (K : forall g', same_rest g3 g' -> emit_taken g g').
  { intros g' [Y1 Y2 Y3 Y4 Y5 Y6 Y7 Y8 Y9]. split; rewrite ?Y3, ?Y6; try done. by rewrite Y5. }
  apply wp_bind, (wp_set_emit_timer_eq 34); [done|done|done|exact (cm_emit _ Hc2)| |].
  - intros Hz. do 2 wp_step. split; [by apply K|]. split; [done|].
    match goal with |- if ?b then _ else _ => replace b with true by (symmetry; by apply Z.eqb_eq) end.
    split; [done|]. split; [done|]. exact (cm_emit _ Hc2).
  - intros Hz g' Hs Hco Htm. wp_step. split; [by apply K|]. split; [by rewrite Hco|].
    rewrite (sr_em _ _ Hs), (proj2 (Z.eqb_neq _ _) Hz). by split.
Qed.
End credit.

Section properties.
Context `{E : Env} (hwaddr : list Z) (garbage : list recvee_desc) (tlvs : list tlv_desc).
Abbreviation reach := (reachable hwaddr garbage tlvs).

(** When the emit timer fires in a reachable state, the daemon sends, in
    the order of the Emit, exactly the frames that the remaining descriptors
    ask for, up to the first one with a pause.  If there is none the Emit is
    over: the ACK follows (when the Emit had a sequence number) and the
    machine is back in Command; otherwise it waits in Emit, pointing at that
    descriptor, with the timer armed. *)
Theorem emit_burst_sent g e l p :
  start_ok hwaddr garbage tlvs -> reach g -> Events (tm g) = e :: l ->
  ev_function e = state_emit_timeout_fn -> g_emitdesc (em g) = Some p ->
  let n := Z.to_nat (g_emit_remaining (em g)) in
  let m := burst n (g_emitbuf (em g)) p in
  match fire_first g with
  | Ok _ g' => if decide (m = n) then emit_done p g g' else emit_waits m p g g'
  | Err f => f = Died
  end.
Proof.
  intros Hst Hr Hl Hf Hp n m. destruct (reachable_inv _ _ _ _ Hst Hr) as [M _].
  assert (Hte : is_timer_event T_emit e).
  { destruct (head_timer _ _ _ M Hl) as [[He|He]|(t & Ht1 & Ht2)]; [congruence..|].
    rewrite Hf in Ht1. by destruct t. }
  change (wp fire_first (fun _ g' => burst_post p g g') g).
  unfold fire_first. do 2 wp_step. rewrite Hl. apply wp_bind, wp_ret. do 2 wp_step. cbn [tail].
  unfold run_event. rewrite Hf. by eapply wp_state_emit_burst.
Qed.
(** C39. A frame that is not an LLTD frame of a known service, or is not
    addressed to this station, or is multicast, numbered or unnumbered
    against the rules of its opcode, changes nothing but the receive
    context: no state machine, timer or table is touched and nothing is
    sent. *)
Theorem unheard_frames_ignored g bytes :
  start_ok hwaddr garbage tlvs -> reach g -> bytes <> [] -> Z.of_nat (length bytes) <= RXBUFSZ ->
  lltd_frame bytes && (qos_frame bytes || discovery_frame (g_hwaddr (co g)) bytes) = false ->
  exists r, packetio_recv_handler (Read_bytes bytes) g = Ok tt (set_rx r g).
Proof.
  intros Hst Hr Hne Hlen Hf. destruct (reachable_inv _ _ _ _ Hst Hr) as [M _].
  apply (run_recv_cases bytes (fun r => exists x, r = Ok tt (set_rx x g))); [|done|done|by eexists|..].
  - apply (ro_size _ (bo_rx _ (mi_base _ _ M))).
  - intros H1 H2. by rewrite H1, H2 in Hf.
  - intros H1 H2. by rewrite H1, H2, orb_true_r in Hf.
Qed.

(** Numbered requests are processed once.  When the last numbered
    response had the number [rtx], a numbered frame (other than a Discover)
    that is not the next one is never given to the state machines: if it has
    the number and the opcode of the request that was answered, the stored
    response is sent again byte for byte, otherwise the frame is dropped.  In
    both cases only the receive context and the output change. *)
Theorem retries_only_resend g bytes :
  start_ok hwaddr garbage tlvs -> reach g -> Z.of_nat (length bytes) <= RXBUFSZ ->
  let op := num 1 bytes tbh_opcode in
  let seq := num 2 bytes tbh_seqnum in
  let rtx := g_rtxseqnum (tx g) in
  lltd_frame bytes = true -> discovery_frame (g_hwaddr (co g)) bytes = true ->
  op <> Opcode_Discover -> seq <> 0 -> rtx <> 0 -> seq <> SEQNUM_NEXT rtx ->
  match packetio_recv_handler (Read_bytes bytes) g with
  | Ok _ g' =>
      exists r o, g' = set_rx r (set_os o g)
        /\ os_out o = os_out (os g)
                      ++ if (seq =? rtx) && (g_re_tx_opcode (tx g) =? op)
                         then [Frame (take (Z.to_nat (g_re_tx_len (tx g))) (g_re_txbuf (tx g)))] else []
  | Err f => f = Died
  end.
Proof.
  intros Hst Hr Hlen op seq rtx Hf Hd Hop Hseq Hrtx Hnext.
  destruct (reachable_inv _ _ _ _ Hst Hr) as [M _]. pose proof (mi_base _ _ M) as B.
  apply (run_recv_cases bytes (fun r => match r with Ok _ g' => _ | Err f => f = Died end)).
  - apply (ro_size _ (bo_rx _ B)).
  - by intros ->.
  - done.
  - rewrite Hf, Hd, orb_true_r. done.
  - intros _ Hq. unfold discovery_frame, qos_frame, ToS_QoSDiagnostics in *. bool_to_prop. lia.
  - intros _ _. fold op seq. set (g1 := set_rx _ g).
    assert (Hsame : forall g', g' = g1 -> exists r o, g' = set_rx r (set_os o g) /\ os_out o = os_out (os g) ++ []).
    { intros g' ->. exists (rx g1), (os g). split; [by destruct g|by rewrite app_nil_r]. }
    unfold sequenced_frame. eapply run_bind; [apply gets_run|]. eapply run_bind; [apply gets_run|].
    change (g_rtxseqnum (tx g1)) with rtx. change (g_re_tx_opcode (tx g1)) with (g_re_tx_opcode (tx g)).
    rewrite (proj2 (Z.eqb_neq seq 0)), (proj2 (Z.eqb_neq op Opcode_Discover)) by done. cbn [negb andb].
    apply run_if; intros H1.
    + rewrite H1. apply run_if; intros H2; [rewrite H2|rewrite H2; by apply Hsame].
      change (wp tx_rtxpacket (fun _ g' => exists r o, g' = set_rx r (set_os o g)
        /\ os_out o = os_out (os g) ++ [Frame (take (Z.to_nat (g_re_tx_len (tx g))) (g_re_txbuf (tx g)))]) g1).
      pose proof (io_tx _ (bo_io _ B)) as [X1 X2 X3 X4 X5]. unfold TXBUFSZ, TOPO_MAX_FRAMESZ in *. specialize (X5 Hrtx).
      unfold tx_rtxpacket, tx_write, emit_output. apply wp_bind, wp_gets, wp_bind, wp_assert.
      { by apply negb_true_iff, Z.eqb_neq. }
      do 2 apply wp_bind, wp_gets. apply wp_bind. eapply wp_in_bounds.
      { rewrite load_len_ok by (simpl; lia). change (Z.to_nat 0) with 0%nat. rewrite drop_0. reflexivity. }
      apply wp_bind, wp_sys, wp_if; intros H3; [apply wp_die|]. apply wp_if; intros H4; [apply wp_die|].
      wp_step. match goal with |- exists r o, ?s = _ /\ _ => exists (rx s), (os s) end. by split.
    + rewrite H1. simpl.
      rewrite (proj2 (Z.eqb_neq rtx 0)), (proj2 (Z.eqb_neq seq (SEQNUM_NEXT rtx))) by done. by apply Hsame.
Qed.
(** A Query is answered with the oldest observations, at most 74 of them,
    in the order they were made, and these are taken out of the sees-list;
    the count has its top bit set exactly when observations are left. *)
Theorem query_answered_fifo g i s :
  start_ok hwaddr garbage tlvs -> reach g ->
  g_topo_session (co g) = Some i -> g_sessions (co g) !! i = Some s ->
  match packetio_tx_queryresp g with
  | Ok _ g' =>
      os_out (os g') = os_out (os g)
        ++ [Frame (queryresp_frame (g_hwaddr (co g)) (rsvd_byte (g_txbuf (tx g))) (ssn_mapper_real s)
                     (g_sequencenum (rx g)) (sees_contents (g_sees g)))]
      /\ sees_contents (g_sees g') = drop QUERYRESP_MAX (sees_contents (g_sees g))
      /\ exists x o, g' = txs x o (g_tlvs g) (set_g_sees (g_sees g') g)
  | Err f => f = Died
  end.
Proof.
  intros Hst Hr Hi Hs. destruct (reachable_inv _ _ _ _ Hst Hr) as [M _].
  match goal with |- match _ with Ok _ g' => @?P g' | _ => _ end => change (wp packetio_tx_queryresp (fun _ => P) g) end.
  apply (wp_packetio_tx_queryresp_eq i s); [apply M|done|done|]. intros g' H1 H2 _ H4. by split.
Qed.
End properties.
