(* ===== verification/Discovery.v ===== *)
(** * Discovery: what a Discover, a Reset or an expiry does to the sessions

    Functional properties of the session machine and of the session table, on
    the state of the handler. *)

From S2P Require Import Prelude LltdTypes Event SeesList Band Tlv PacketTx Mapping Frames SessionMgr Enumeration StateProc Qos PacketRx Mainloop Behaviour.

(** ** The station list of a Discover *)

(** The stations listed in a frame of [len] bytes: as many as it counts, but
    no more than it holds. *)
Definition stations (buf : list Z) (len : Z) : list (list Z) :=
  (fun i => field 6 buf (36 + 6 * Z.of_nat i))
    <$> seq 0 (Nat.min (Z.to_nat (num 2 buf mh_numstations)) (Z.to_nat ((len - 36) / 6))).

Section stations.
Context `{E : Env}.

Lemma scan_stations_run n i len acking g :
  rx_ok (rx g) -> 36 <= len <= RXBUFSZ ->
  scan_stations n (36 + 6 * Z.of_nat i) len acking g
  = Ok (acking || existsb (fun st => ETHERADDR_EQUALS st (g_hwaddr (co g)))
                    ((fun i => field 6 (g_rxbuf (rx g)) (36 + 6 * Z.of_nat i))
                       <$> seq i (Nat.min n (Z.to_nat ((len - 36) / 6) - i)))) g.
Proof.
  intros Hrx Hlen. destruct Hrx as [Hs _ _]. unfold RXBUFSZ in *. revert i acking.
  induction n as [|n IH]; intros i acking; [by rewrite orb_false_r|].
  cbn [scan_stations]. unfold sizeof_etheraddr.
  destruct (36 + 6 * Z.of_nat i + 6 <=? len) eqn:Hle; bool_to_prop.
  - assert (Hi : (i < Z.to_nat ((len - 36) / 6))%nat).
    { assert (Z.of_nat i + 1 <= (len - 36) / 6) by (apply Z.div_le_lower_bound; lia). lia. }
    unfold mbind at 1, M_bind at 1. unfold rx_mac.
    rewrite (rx_load_run 6 _ (g_rxbuf (rx g)) []) by (rewrite ?app_nil_r; done || lia).
    unfold mbind at 1, M_bind at 1, gets at 1.
    replace (36 + 6 * Z.of_nat i + 6) with (36 + 6 * Z.of_nat (S i)) by lia. rewrite IH.
    replace (Nat.min (S n) (Z.to_nat ((len - 36) / 6) - i))
      with (S (Nat.min n (Z.to_nat ((len - 36) / 6) - S i))) by lia.
    cbn [seq]. rewrite fmap_cons. cbn [existsb]. by rewrite orb_assoc.
  - assert (Hi : (Z.to_nat ((len - 36) / 6) <= i)%nat).
    { assert ((len - 36) / 6 < Z.of_nat i + 1) by (apply Z.div_lt_upper_bound; lia). lia. }
    replace (Nat.min (S n) (Z.to_nat ((len - 36) / 6) - i)) with 0%nat by lia. by rewrite orb_false_r.
Qed.

(** A Discover acknowledges this station exactly when its address is one
    of the stations the frame lists; entries that the count announces but
    the frame does not hold are not read. *)
Theorem is_acking_me_listed g :
  rx_ok (rx g) -> 36 <= g_rcvd_pkt_len (rx g) -> isAckingMe (g_this_event (co g)) = false ->
  exists b, is_acking_me g = Ok b g
    /\ (b = true <-> g_hwaddr (co g) ∈ stations (g_rxbuf (rx g)) (g_rcvd_pkt_len (rx g))
                     /\ length (g_hwaddr (co g)) = 6%nat).
Proof.
  intros Hrx Hlen He. pose proof (ro_size _ Hrx) as Hs. pose proof (ro_len _ Hrx) as Hl.
  unfold RXBUFSZ in *. eexists. split.
  - unfold is_acking_me, this_event, mbind, M_bind, gets. rewrite He. unfold rx16.
    rewrite (rx_num_run 2 _ (g_rxbuf (rx g)) []) by (rewrite ?app_nil_r; done || (unfold mh_numstations; lia)).
    rewrite s32_len by done. change (sizeof_ether_header + _ + _) with (36 + 6 * Z.of_nat 0).
    rewrite (scan_stations_run _ 0) by (done || (unfold RXBUFSZ; lia)). rewrite Nat.sub_0_r. reflexivity.
  - cbn [orb]. fold (stations (g_rxbuf (rx g)) (g_rcvd_pkt_len (rx g))). rewrite existsb_exists. split.
    + intros (st & Hin & Heq). apply ETHERADDR_EQUALS_true in Heq as [<- H6].
      split; [by apply list_elem_of_In|done].
    + intros [Hin H6]. exists (g_hwaddr (co g)). split; [by apply list_elem_of_In|].
      by apply ETHERADDR_EQUALS_true.
Qed.
End stations.

(** ** Mappers *)

Section mappers.
Context `{E : Env}.

Lemma ssn_get_run i s g : g_sessions (co g) !! i = Some s -> ssn_get (Some i) g = Ok s g.
Proof. intros H. unfold ssn_get, mbind, M_bind, gets. simpl. by rewrite H. Qed.

Lemma ssn_update_run i s f g : g_sessions (co g) !! i = Some s ->
  ssn_update (Some i) f g = Ok tt (set_g_sessions (<[i := f s]> (g_sessions (co g))) g).
Proof. intros H. unfold ssn_update, ssn_get, mbind, M_bind, gets. simpl. by rewrite H. Qed.

Lemma topo_session_valid_run k t g : g_topo_session (co g) = Some k -> g_sessions (co g) !! k = Some t ->
  topo_session_valid g = Ok (ssn_is_valid t) g.
Proof.
  intros Hk Ht. unfold topo_session_valid, mbind at 1, M_bind at 1, gets. rewrite Hk.
  unfold mbind, M_bind. by rewrite (ssn_get_run k t).
Qed.

(** There is one topology mapper: the first Discover of another mapper
    for the topology service, while the topology session is valid, makes
    its new session Temporary and changes nothing else; in particular the
    topology session stays, and the topology machine refuses the event. *)
Theorem second_mapper_is_temporary g i k s t :
  g_topo_session (co g) = Some k -> g_sessions (co g) !! k = Some t -> ssn_is_valid t = true ->
  evt_ssn (g_this_event (co g)) = Some i -> evtType (g_this_event (co g)) = evtDiscoverRcvd -> i <> k ->
  g_sessions (co g) !! i = Some s -> ssn_state s = smS_Nascent -> ssn_TypeOfSvc s = ToS_TopologyDiscovery ->
  ETHERADDR_EQUALS (ssn_mapper_real s) (ssn_mapper_real t) = false ->
  let g' := set_g_sessions (<[i := set_ssn_state smS_Temporary s]> (g_sessions (co g))) g in
  smS_process_event g = Ok PROCESSING_COMPLETED g' /\ smT_process_event g' = Ok PROCESSING_ABORTED g'.
Proof.
  intros Hk Ht Hv He Hty Hne Hs Hst Htos Heq g'. split.
  - unfold smS_process_event, this_event. eapply run_bind; [apply gets_run|]. rewrite He.
    eapply run_bind; [by apply ssn_get_run|]. rewrite Hst. unfold smS_NascentHandler, this_event.
    eapply run_bind; [apply gets_run|]. rewrite Hty, He. eapply run_bind; [by apply ssn_get_run|].
    rewrite Htos. change (ToS_TopologyDiscovery =? ToS_TopologyDiscovery) with true. cbv iota.
    eapply run_bind; [eapply run_bind; [by eapply topo_session_valid_run|]; by rewrite Hv|].
    unfold is_conflicting_ssn.
    eapply run_bind.
    { eapply run_bind; [by eapply topo_session_valid_run|]. rewrite Hv. cbn [negb].
      eapply run_bind; [apply gets_run|]. eapply run_bind; [by apply ssn_get_run|]. rewrite Hk.
      eapply run_bind; [by apply ssn_get_run|]. rewrite Htos, Heq.
      rewrite bool_decide_eq_true_2 by congruence. reflexivity. }
    cbn [andb negb]. eapply run_bind; [by apply ssn_update_run|]. reflexivity.
  - unfold smT_process_event. eapply run_bind; [apply gets_run|]. eapply run_bind; [apply gets_run|].
    change (g_topo_session (co g')) with (g_topo_session (co g)).
    change (g_this_event (co g')) with (g_this_event (co g)). rewrite Hk, He.
    by rewrite bool_decide_eq_true_2 by (split; congruence).
Qed.
End mappers.

(** ** The end of a session *)

Section ends.
Context `{E : Env}.

(** The output is not touched by the operations on sessions. *)
Lemma out_ssn_moved ss g g' : ssn_moved ss g g' -> os_out (os g') = os_out (os g).
Proof. intros [_ [] _]. done. Qed.

(** When the mapper of the Complete topology session resets it or falls
    silent, its session and every Temporary session are freed (and their
    timers cancelled), all other sessions are as before, promiscuous mode is
    switched off and the stored response can no longer be retransmitted. *)
Theorem topology_session_ends g i s :
  base_ok g -> g_topo_session (co g) = Some i -> evt_ssn (g_this_event (co g)) = Some i ->
  is_reset (g_this_event (co g)) ->
  g_sessions (co g) !! i = Some s -> ssn_is_valid s = true -> ssn_state s = smS_Complete ->
  match smS_process_event g with
  | Ok st g' =>
      st = PROCESSING_COMPLETED
      /\ g_sessions (co g') = <[i := dead_session s]> (purge <$> g_sessions (co g))
      /\ g_topo_session (co g') = Some i
      /\ os_out (os g') = os_out (os g) ++ [Promisc false]
      /\ g_rtxseqnum (tx g') = 0 /\ base_ok g'
  | Err f => f = Died
  end.
Proof.
  intros Hb Htp He Hre Hs Hv Hst.
  match goal with |- match _ with Ok st g' => @?P st g' | _ => _ end => change (wp smS_process_event P g) end.
  assert (Hp : purge s = s) by (unfold purge; rewrite Hv, Hst; done).
  unfold smS_process_event, this_event. apply wp_bind, wp_gets. rewrite He. apply wp_bind.
  eapply wp_ssn_get; [exact Hs|]. rewrite Hst. unfold smS_CompleteHandler, this_event. apply wp_bind, wp_gets.
  assert (Hend : wp (
    topo ← gets evt_is_topo;
    valid ← (if topo : bool then topo_session_valid else mret false);
    when valid (reset_temporaries;; osl_set_promisc false);;
    i ← deref (evt_ssn (g_this_event (co g)));
    ssn_invalidate i;;
    packetio_invalidate_retxbuf;;
    mret PROCESSING_COMPLETED) (fun st g' => st = PROCESSING_COMPLETED
      /\ g_sessions (co g') = <[i := dead_session s]> (purge <$> g_sessions (co g))
      /\ g_topo_session (co g') = Some i
      /\ os_out (os g') = os_out (os g) ++ [Promisc false]
      /\ g_rtxseqnum (tx g') = 0 /\ base_ok g') g).
  { apply wp_bind, wp_gets. rewrite (proj2 (evt_is_topo_true g)) by congruence. apply wp_bind.
    apply wp_topo_session_valid; [apply Hb|]. unfold topo_valid. rewrite Htp, Hs, Hv. rewrite He.
    apply wp_bind, wp_when; [intros _|done]. apply wp_bind, wp_reset_temporaries; [done|]. intros g1 B1 M1.
    pose proof (out_ssn_moved _ _ _ M1) as O1. pose proof (moved_sessions _ _ _ M1) as S1.
    pose proof (sm_co _ _ _ M1) as C1.
    unfold osl_set_promisc. apply wp_bind, wp_sys, wp_if; intros Hpr; [|apply wp_die].
    unfold emit_output. wp_step. set (g2 := set_os_out _ _).
    assert (B2 : base_ok g2).
    { change g2 with (txs (tx g1) (os g2) (g_tlvs g1) g1). apply base_ok_txs; [done|].
      destruct (bo_io _ B1). split; try done. apply Forall_app. split; [done|]. by apply Forall_singleton. }
    apply wp_bind. eapply wp_deref; [done|]. apply wp_bind.
    eapply (wp_ssn_invalidate i s); [done|simpl; rewrite S1, list_lookup_fmap, Hs; simpl; by rewrite Hp|].
    intros g3 B3 M3. pose proof (out_ssn_moved _ _ _ M3) as O3. pose proof (moved_sessions _ _ _ M3) as S3.
    pose proof (sm_co _ _ _ M3) as C3. simpl in S3, O3, C3. rewrite S1 in S3. rewrite O1 in O3.
    unfold packetio_invalidate_retxbuf. apply wp_bind. do 5 wp_step. wp_step. split; [done|]. simpl.
    split; [exact S3|]. split; [by rewrite C3, C1|]. split; [exact O3|]. split; [done|].
    assert (Hio : io_ok (txs (TxCtx (g_txbuf (tx g3)) (g_re_txbuf (tx g3)) 0 (g_tx_len (tx g3)) 0 (u8 Opcode_INVALID))
      (os g3) (g_tlvs g3) g3)).
    { destruct (bo_io _ B3) as [[X1 X2 X3 X4 X5] Hv' Ho']. split; [|done|done].
      split; simpl; unfold TOPO_MAX_FRAMESZ in *; try done; lia. }
    exact (base_ok_txs _ _ _ _ B3 Hio). }
  destruct Hre as [Hre|Hre]; rewrite Hre; exact Hend.
Qed.
End ends.

(** ** The session table *)

(** The negative answer, as an equivalence. *)
Lemma no_session_of addr ss : length addr = 6%nat ->
  find_session addr ss = None <-> forall s, s ∈ ss -> ssn_is_valid s = true -> ssn_mapper_real s <> addr.
Proof.
  intros Hl. unfold find_session. rewrite fmap_None, list_find_None, Forall_forall. split.
  - intros H s Hs Hv Hm. apply (H s); [by apply list_elem_of_In|]. split; [done|]. rewrite Hm.
    by apply ETHERADDR_EQUALS_true.
  - intros H s Hs [Hv Heq]. apply list_elem_of_In in Hs. apply ETHERADDR_EQUALS_true in Heq as [Heq _].
    by apply (H s).
Qed.

(** In a table without two sessions of one mapper, looking up an address
    finds the session of that mapper and nothing else. *)
Theorem find_session_exact addr ss i : length addr = 6%nat -> mappers_unique ss ->
  find_session addr ss = Some i
  <-> exists s, ss !! i = Some s /\ ssn_is_valid s = true /\ ssn_mapper_real s = addr.
Proof.
  intros Hl Hu. split.
  - intros H. destruct (find_session_Some _ _ _ H) as (s & H1 & H2 & H3). by exists s.
  - intros (s & Hs & Hv & Hm). destruct (find_session addr ss) as [j|] eqn:Hf.
    + destruct (find_session_Some _ _ _ Hf) as (t & H1 & H2 & H3). f_equal.
      eapply Hu; [exact H1|exact Hs|done|done|congruence].
    + destruct (proj1 (no_session_of _ _ Hl) Hf s); [by eapply list_elem_of_lookup_2|done|done].
Qed.

Section table.
Context `{E : Env}.

(** The event of a frame that has just been accepted. *)
Definition fresh_event (e : protocol_event) : protocol_event :=
  set_isNewSession false (set_isInternalEvt false e).

Lemma rx_mac_num off g : rx_ok (rx g) -> 0 <= off <= 2042 -> rx_mac off g = Ok (field 6 (g_rxbuf (rx g)) off) g.
Proof.
  intros [Hs _ _] H. unfold RXBUFSZ in Hs. unfold rx_mac.
  apply (rx_load_run 6 off _ []); [by rewrite app_nil_r|lia..].
Qed.

Lemma rx8_num off g : rx_ok (rx g) -> 0 <= off <= 2047 -> rx8 off g = Ok (num 1 (g_rxbuf (rx g)) off) g.
Proof.
  intros [Hs _ _] H. unfold RXBUFSZ in Hs. unfold rx8.
  apply (rx_num_run 1 off _ []); [by rewrite app_nil_r|lia..].
Qed.

(** When all sessions are in use, the Discover of an unknown mapper is
    dropped with an error result: apart from the marks of the current event
    the state does not change. *)
Theorem full_table_drops_discover g :
  rx_ok (rx g) -> g_opcode (rx g) = Opcode_Discover ->
  find_session (field 6 (g_rxbuf (rx g)) tbh_realsrc) (g_sessions (co g)) = None ->
  (forall s, s ∈ g_sessions (co g) -> ssn_is_valid s = true) ->
  state_process_packet g = Ok UINT_MAX (evt_update fresh_event g).
Proof.
  intros Hrx Hop Hf Hfull. unfold state_process_packet.
  eapply run_bind; [reflexivity|]. eapply run_bind; [reflexivity|].
  set (g2 := evt_update _ _). change g2 with (evt_update fresh_event g). clear g2. set (g2 := evt_update _ _).
  eapply run_bind; [by apply rx_mac_num|]. eapply run_bind; [apply gets_run|]. eapply run_bind; [apply gets_run|].
  change (rx g2) with (rx g). change (g_sessions (co g2)) with (g_sessions (co g)).
  rewrite Hf, Hop. change (Opcode_Discover =? Opcode_Discover) with true. cbv iota.
  assert (Hn : free_session (g_sessions (co g)) = None).
  { unfold free_session. rewrite fmap_None, list_find_None, Forall_forall. intros s Hs Hv.
    apply list_elem_of_In, Hfull in Hs. congruence. }
  assert (Hnew : new_session g2 = Ok None g2).
  { unfold new_session. eapply run_bind; [apply gets_run|]. change (g_sessions (co g2)) with (g_sessions (co g)).
    by rewrite Hn. }
  unfold create_session. eapply run_bind; [eapply run_bind; [exact Hnew|reflexivity]|reflexivity].
Qed.

(** The session that a Discover creates. *)
Definition discovered (g : G) (s : session) : session :=
  Session true (ssn_state s) BAND_TXC (g_sequencenum (rx g)) (field 6 (g_rxbuf (rx g)) tbh_realsrc)
    (field 6 (g_rxbuf (rx g)) eh_src) true (num 1 (g_rxbuf (rx g)) tbh_tos) None.

(** Otherwise the first free entry of the table becomes the session of
    the mapper: it holds the addresses, the identifier and the service of
    the Discover, the event is marked as that of a new session, and the
    session is the one that a lookup of the mapper finds. *)
Theorem create_session_enters g :
  rx_ok (rx g) -> mappers_unique (g_sessions (co g)) ->
  find_session (field 6 (g_rxbuf (rx g)) tbh_realsrc) (g_sessions (co g)) = None ->
  (exists s, s ∈ g_sessions (co g) /\ ssn_is_valid s = false) ->
  exists i s,
    g_sessions (co g) !! i = Some s /\ ssn_is_valid s = false
    /\ (forall j t, (j < i)%nat -> g_sessions (co g) !! j = Some t -> ssn_is_valid t = true)
    /\ let ss := <[i := discovered g s]> (g_sessions (co g)) in
       create_session g = Ok (Some i) (set_g_sessions ss
         (evt_update (fun e => set_evt_ssn (Some i) (set_isNewSession true e)) g))
       /\ find_session (field 6 (g_rxbuf (rx g)) tbh_realsrc) ss = Some i /\ mappers_unique ss.
Proof.
  intros Hrx Hu Hf (s0 & Hs0 & Hv0). set (addr := field 6 _ _) in *.
  assert (Hl : length addr = 6%nat).
  { apply field_length; [done|]. pose proof (ro_size _ Hrx) as Hs. unfold RXBUFSZ, tbh_realsrc in *. lia. }
  destruct (list_find_elem_of (fun s => ssn_is_valid s = false) _ _ Hs0 Hv0) as [[i s] Hfind].
  pose proof Hfind as Hmin. apply list_find_Some in Hmin as (Hs & Hv & Hmin). exists i, s.
  split; [done|]. split; [done|]. split.
  { intros j t Hj Ht. apply not_false_iff_true. by eapply Hmin. }
  intros ss. pose proof (proj1 (no_session_of _ _ Hl) Hf) as Hnone.
  assert (Hus : mappers_unique ss).
  { intros a b x y Ha Hb Hxv Hyv Hr.
    apply lookup_insert_cases in Ha as [(<- & -> & _)|[Hna Ha]];
      apply lookup_insert_cases in Hb as [(<- & -> & _)|[Hnb Hb]]; try done.
    - destruct (Hnone y); [by eapply list_elem_of_lookup_2|done|by rewrite <- Hr].
    - destruct (Hnone x); [by eapply list_elem_of_lookup_2|done|by rewrite Hr].
    - by eapply Hu. }
  split; [|split; [|exact Hus]].
  - assert (Hnew : new_session g = Ok (Some i) (set_g_sessions (<[i := fresh_session s]> (g_sessions (co g))) g)).
    { unfold new_session. eapply run_bind; [apply gets_run|]. unfold free_session. rewrite Hfind. cbn [fmap option_fmap fst option_map].
      eapply run_bind; [by apply ssn_update_run|reflexivity]. }
    unfold create_session. eapply run_bind; [exact Hnew|]. eapply run_bind; [reflexivity|].
    set (g2 := evt_update _ _). assert (Hrx2 : rx_ok (rx g2)) by exact Hrx. eapply run_bind; [apply gets_run|].
    eapply run_bind; [by apply rx_mac_num|]. eapply run_bind; [by apply rx_mac_num|].
    eapply run_bind; [by apply rx8_num|].
    assert (Hl2 : g_sessions (co g2) !! i = Some (fresh_session s)) by (by eapply lookup_insert_some).
    eapply run_bind; [by apply ssn_update_run|]. eapply run_bind; [reflexivity|].
    change (g_sessions (co g2)) with (<[i := fresh_session s]> (g_sessions (co g))).
    rewrite insert_insert_same. reflexivity.
  - destruct (find_session addr ss) as [j|] eqn:Hj.
    + destruct (find_session_Some _ _ _ Hj) as (t & H1 & H2 & H3). f_equal.
      eapply Hus; [exact H1|by eapply lookup_insert_some|done|done|by rewrite H3].
    + destruct (proj1 (no_session_of _ _ Hl) Hj (discovered g s)); [|done|done].
      eapply list_elem_of_lookup_2. by eapply lookup_insert_some.
Qed.
End table.
