(* ===== verification/QosEvents.v ===== *)
(** * QosEvents: the event log of a QoS session (qospktio.c)

    The eight buckets of a session are a ring: [qssn_first_bucket] is the
    oldest active one and [qssn_num_active_buckets] of them are active.  What
    the ring stands for is a list of at most eight sequence numbers, oldest
    first, each with the at most 32 events logged under it.  The theorems are
    that [qos_timed_probe] is one operation on that list, and that a session
    lives for exactly four ticks of the inactivity timer. *)

From S2P Require Import Prelude LltdTypes Event Tlv PacketTx Qos Frames Behaviour.

(** ** The specification: a bounded log *)

(** An event goes to the entry that has its sequence number, unless that entry
    is full; otherwise to a new entry, for which a full log drops its oldest. *)
Definition log_event (seq : Z) (ev : list Z) (v : list (Z * list (list Z))) : list (Z * list (list Z)) :=
  match list_find (fun p => fst p = seq) v with
  | Some (j, (_, evs)) =>
      if decide (32 <= length evs)%nat then v else <[j := (seq, evs ++ [ev])]> v
  | None => (if decide (8 <= length v)%nat then tail v else v) ++ [(seq, [ev])]
  end.

(** ** The abstraction *)

(** The indexes of [n] buckets of the ring from bucket [i] on. *)
Fixpoint slots (n : nat) (i : Z) : list nat :=
  match n with
  | O => []
  | S n' => Z.to_nat (Z.land i (MAX_QOS_BUCKETS - 1)) :: slots n' (i + 1)
  end.

Definition log_entry (b : qosEventBucket) : Z * list (list Z) :=
  (evt_seqNum b, take (Z.to_nat (evt_numEvts b)) (evt_descs b)).
Definition entries (bs : list qosEventBucket) (l : list nat) : list (Z * list (list Z)) :=
  (fun k => log_entry (default (QosBucket 0 0 []) (bs !! k))) <$> l.
Definition session_log (s : qos_session) : list (Z * list (list Z)) :=
  entries (qssn_evt_buckets s)
    (slots (Z.to_nat (qssn_num_active_buckets s)) (qssn_first_bucket s)).

(** ** The ring *)

Lemma slots_snoc n i :
  slots (S n) i = slots n i ++ [Z.to_nat (Z.land (i + Z.of_nat n) (MAX_QOS_BUCKETS - 1))].
Proof.
  revert i. induction n as [|n IH]; intros i; [by rewrite Z.add_0_r|].
  change (slots (S (S n)) i) with (Z.to_nat (Z.land i (MAX_QOS_BUCKETS - 1)) :: slots (S n) (i + 1)).
  rewrite IH. replace (i + Z.of_nat (S n)) with (i + 1 + Z.of_nat n) by lia. done.
Qed.

Lemma slots_elem n i k : k ∈ slots n i ->
  exists j, 0 <= j < Z.of_nat n /\ k = Z.to_nat ((i + j) mod MAX_QOS_BUCKETS).
Proof.
  revert i. induction n as [|n IH]; intros i; simpl; [by intros ?%elem_of_nil|].
  intros [->|Hk]%elem_of_cons.
  - exists 0. split; [lia|]. by rewrite land_buckets, Z.add_0_r.
  - apply IH in Hk as (j & Hj & ->). exists (j + 1). split; [lia|]. by replace (i + (j + 1)) with (i + 1 + j) by lia.
Qed.

Lemma slots_lt n i k : k ∈ slots n i -> (k < 8)%nat.
Proof.
  intros (j & _ & ->)%slots_elem. pose proof (Z.mod_pos_bound (i + j) MAX_QOS_BUCKETS).
  unfold MAX_QOS_BUCKETS in *. lia.
Qed.

(** Fewer than nine consecutive slots are distinct. *)
Lemma slots_fresh n i j : Z.of_nat n <= j -> j < MAX_QOS_BUCKETS ->
  Z.to_nat (Z.land (i + j) (MAX_QOS_BUCKETS - 1)) ∉ slots n i.
Proof.
  intros Hn Hj (j' & Hj' & He)%slots_elem. rewrite land_buckets in He. unfold MAX_QOS_BUCKETS in *.
  pose proof (Z.mod_pos_bound (i + j) 8). pose proof (Z.mod_pos_bound (i + j') 8).
  pose proof (Z.div_mod (i + j) 8 ltac:(lia)). pose proof (Z.div_mod (i + j') 8 ltac:(lia)). lia.
Qed.

Lemma slots_NoDup n i : (n <= 8)%nat -> NoDup (slots n i).
Proof.
  induction n as [|n IH]; intros H; [constructor|]. rewrite slots_snoc.
  apply list.NoDup_app. split; [apply IH; lia|]. split; [|by apply list.NoDup_singleton].
  intros k Hk ->%list_elem_of_singleton. revert Hk. apply slots_fresh; [lia|]. unfold MAX_QOS_BUCKETS. lia.
Qed.

Lemma entries_app bs l1 l2 : entries bs (l1 ++ l2) = entries bs l1 ++ entries bs l2.
Proof. apply fmap_app. Qed.

(** A bucket outside of the slots may change. *)
Lemma entries_insert_ne bs l k b : k ∉ l -> entries (<[k := b]> bs) l = entries bs l.
Proof.
  intros H. apply list_fmap_ext. intros i k' Hk. rewrite list_lookup_insert_ne; [done|].
  intros ->. apply H. by eapply list_elem_of_lookup_2.
Qed.

Lemma entries_insert bs l j k b : NoDup l -> l !! j = Some k -> (k < length bs)%nat ->
  entries (<[k := b]> bs) l = <[j := log_entry b]> (entries bs l).
Proof.
  intros Hd Hj Hk. apply list_eq. intros i. unfold entries. rewrite list_lookup_fmap.
  destruct (decide (i = j)) as [->|Hne].
  - rewrite Hj, list_lookup_insert_eq by (rewrite length_fmap; by eapply lookup_lt_Some). simpl.
    by rewrite list_lookup_insert_eq.
  - rewrite list_lookup_insert_ne, list_lookup_fmap by done. destruct (l !! i) as [k'|] eqn:Hi; [|done].
    simpl. rewrite list_lookup_insert_ne; [done|]. intros ->. apply Hne. by eapply list.NoDup_lookup.
Qed.

(** The search of the code is the search of the log. *)
Lemma find_bucket_spec n i seq bs : length bs = 8%nat ->
  find_bucket n i seq bs
  = list_find (fun p => fst p = seq) (entries bs (slots n i)) ≫= fun jp => slots n i !! fst jp.
Proof.
  intros Hl. revert i. induction n as [|n IH]; intros i; [done|].
  cbn [find_bucket slots entries fmap list_fmap]. fold (entries bs (slots n (i + 1))).
  pose proof (bucket_index i) as Hi. unfold MAX_QOS_BUCKETS in Hi |- *.
  destruct (lookup_lt_is_Some_2 bs (Z.to_nat (Z.land i (8 - 1)))) as [b Hb]; [lia|]. rewrite Hb. cbn [default list_find].
  destruct (Z.eqb_spec (evt_seqNum b) seq) as [He|He].
  - by rewrite decide_True.
  - rewrite decide_False by done. rewrite IH.
    unfold fmap. by destruct (list_find _ _) as [[j p]|].
Qed.

(** ** A timed probe *)

(** The event that a frame in the receive buffer adds. *)
Definition probe_event (g : G) : list Z :=
  field 8 (g_rxbuf (rx g)) probe_txstamp ++ be64 (g_pktio_timestamp (qs g))
  ++ field 1 (g_rxbuf (rx g)) probe_pktID ++ [0].

Lemma log_event_length seq ev v : (length v <= 8)%nat -> (length (log_event seq ev v) <= 8)%nat.
Proof.
  intros H. unfold log_event. destruct (list_find _ _) as [[j [q evs]]|].
  - case_decide; [done|]. by rewrite length_insert.
  - rewrite length_app. case_decide; destruct v; simpl in *; lia.
Qed.

(** No sequence number is in the log twice. *)
Lemma log_event_distinct seq ev v : NoDup (fst <$> v) -> NoDup (fst <$> log_event seq ev v).
Proof.
  intros H. unfold log_event. destruct (list_find _ _) as [[j [q evs]]|] eqn:Hf.
  - apply list_find_Some in Hf as (Hj & Hq & _). simpl in Hq. subst q. case_decide; [done|].
    rewrite list_fmap_insert, list_insert_id; [done|]. by rewrite list_lookup_fmap, Hj.
  - apply list_find_None in Hf. rewrite fmap_app. apply list.NoDup_app.
    assert (Hout : forall x, x ∈ fst <$> v -> x ∉ [seq]).
    { intros x (p & -> & Hp)%list_elem_of_fmap He%list_elem_of_singleton. by apply (Forall_elem _ _ _ Hf Hp). }
    case_decide; (split; [|split; [|by apply list.NoDup_singleton]]); try done.
    + destruct v as [|p v]; [done|]. simpl in *. by apply list.NoDup_cons in H as [_ H].
    + destruct v as [|p v]; [done|]. intros x Hx. apply Hout. by right.
Qed.

Section timed_probe.
Context `{E : Env}.

Lemma set_QosSessions_id g : set_g_QosSessions (g_QosSessions (qs g)) g = g.
Proof. destruct g. unfold set_g_QosSessions, set_qs. simpl. by destruct qs. Qed.

Lemma take_snoc {A} (n : nat) (l : list A) x : (n < length l)%nat -> take (S n) (<[n := x]> l) = take n l ++ [x].
Proof.
  intros H. erewrite take_S_r; [|by apply list_lookup_insert_eq]. by rewrite take_insert_ge by lia.
Qed.

(** The entry of a bucket that an event was added to. *)
Lemma log_entry_snoc q n ds ev : 0 <= n < MAX_QOS_EVENTS_PER_BUCKET -> Z.of_nat (length ds) = MAX_QOS_EVENTS_PER_BUCKET ->
  log_entry (QosBucket q (u16 (n + 1)) (<[Z.to_nat n := ev]> ds)) = (q, take (Z.to_nat n) ds ++ [ev]).
Proof.
  unfold MAX_QOS_EVENTS_PER_BUCKET. intros H Hl. unfold log_entry. simpl. rewrite u16_small by lia.
  replace (Z.to_nat (n + 1)) with (S (Z.to_nat n)) by lia. by rewrite take_snoc by lia.
Qed.

(** The session after an event in bucket [k]. *)
Definition with_bucket (k : nat) (b : qosEventBucket) (s : qos_session) : qos_session :=
  QosSession (qssn_ticks_til_discard s) (qssn_first_bucket s) (qssn_num_active_buckets s)
    (<[k := b]> (qssn_evt_buckets s)) (qssn_ctrlr_real s) (qssn_is_valid s).
Definition with_event (ev : list Z) (b : qosEventBucket) : qosEventBucket :=
  QosBucket (evt_seqNum b) (u16 (evt_numEvts b + 1)) (<[Z.to_nat (evt_numEvts b) := ev]> (evt_descs b)).

Lemma qos_log_event_run i k s b g :
  rx_ok (rx g) -> g_QosSessions (qs g) !! i = Some s -> qssn_evt_buckets s !! k = Some b -> bucket_ok b ->
  evt_numEvts b < MAX_QOS_EVENTS_PER_BUCKET ->
  qos_log_event i k g
  = Ok tt (set_g_QosSessions (<[i := with_bucket k (with_event (probe_event g) b) s]> (g_QosSessions (qs g))) g).
Proof.
  intros [Hr _ _] Hs Hb (B1 & B2 & _) Hn. unfold RXBUFSZ in Hr. unfold MAX_QOS_EVENTS_PER_BUCKET in *.
  assert (Hget : qos_get i g = Ok s g) by (unfold qos_get; eapply run_bind; [apply gets_run|]; by rewrite Hs).
  assert (Hup : forall f, qos_update i f g = Ok tt (set_g_QosSessions (<[i := f s]> (g_QosSessions (qs g))) g)).
  { intros f. unfold qos_update. eapply run_bind; [apply gets_run|]. by rewrite Hs. }
  destruct (lookup_lt_is_Some_2 (evt_descs b) (Z.to_nat (evt_numEvts b))) as [d Hd]; [lia|].
  unfold qos_log_event. eapply run_bind; [exact Hget|]. eapply run_bind; [by apply in_bounds_run|].
  eapply run_bind; [by apply in_bounds_run|].
  assert (Hf : forall n off, 0 <= off -> off + Z.of_nat n <= 2048 -> rx_load n off g = Ok (field n (g_rxbuf (rx g)) off) g).
  { intros n off H1 H2. apply (rx_load_run n off _ []); [by rewrite app_nil_r|lia..]. }
  eapply run_bind; [by apply Hf|]. eapply run_bind; [apply gets_run|].
  eapply run_bind; [by apply Hf|]. apply Hup.
Qed.

(** An event added to an active bucket. *)
Lemma session_log_found s j k b ev :
  qos_session_ok s ->
  slots (Z.to_nat (qssn_num_active_buckets s)) (qssn_first_bucket s) !! j = Some k ->
  qssn_evt_buckets s !! k = Some b -> evt_numEvts b < MAX_QOS_EVENTS_PER_BUCKET ->
  session_log (with_bucket k (with_event ev b) s)
  = <[j := (evt_seqNum b, snd (log_entry b) ++ [ev])]> (session_log s).
Proof.
  intros Hok Hj Hb Hn. destruct (Forall_lookup_1 _ _ _ _ (qo_buckets _ Hok) Hb) as (B1 & B2 & _).
  unfold session_log, with_bucket. simpl. erewrite entries_insert; [|apply slots_NoDup|exact Hj|by eapply lookup_lt_Some].
  - unfold with_event. by rewrite log_entry_snoc by lia.
  - pose proof (qo_active _ Hok). unfold MAX_QOS_BUCKETS in *. lia.
Qed.

Lemma session_log_length s : length (session_log s) = Z.to_nat (qssn_num_active_buckets s).
Proof.
  unfold session_log, entries. rewrite length_fmap. generalize (qssn_first_bucket s).
  induction (Z.to_nat (qssn_num_active_buckets s)) as [|n IH]; intros i; simpl; [done|]. by rewrite IH.
Qed.

Lemma slots_mod m i : slots m (i mod MAX_QOS_BUCKETS) = slots m i.
Proof.
  revert i. induction m as [|m IH]; intros i; [done|]. cbn [slots]. rewrite !land_buckets.
  unfold MAX_QOS_BUCKETS in *. rewrite Z.mod_mod by lia. f_equal.
  rewrite <- (IH (i mod 8 + 1)), <- (IH (i + 1)). by rewrite Z.add_mod_idemp_l.
Qed.

(** All buckets active: the ring turns by one slot, and the slot of the oldest
    bucket becomes the last one. *)
Lemma slots_turn f : 0 <= f < MAX_QOS_BUCKETS ->
  slots 8 f = Z.to_nat f :: slots 7 (f + 1) /\ slots 8 (f + 1) = slots 7 (f + 1) ++ [Z.to_nat f]
  /\ Z.to_nat f ∉ slots 7 (f + 1).
Proof.
  unfold MAX_QOS_BUCKETS. intros Hf. split; [|split].
  - change (slots 8 f) with (Z.to_nat (Z.land f (MAX_QOS_BUCKETS - 1)) :: slots 7 (f + 1)).
    rewrite land_buckets. unfold MAX_QOS_BUCKETS. by rewrite Z.mod_small.
  - rewrite (slots_snoc 7 (f + 1)), land_buckets. unfold MAX_QOS_BUCKETS. do 3 f_equal.
    replace (f + 1 + Z.of_nat 7) with (f + 1 * 8) by lia. rewrite Z.mod_add by lia. by apply Z.mod_small.
  - intros (j & Hj & He)%slots_elem. unfold MAX_QOS_BUCKETS in He.
    pose proof (Z.div_mod (f + 1 + j) 8 ltac:(lia)). pose proof (Z.mod_pos_bound (f + 1 + j) 8). lia.
Qed.

Lemma entries_new bs l k b : length bs = 8%nat -> (k < 8)%nat -> k ∉ l ->
  entries (<[k := b]> bs) (l ++ [k]) = entries bs l ++ [log_entry b].
Proof.
  intros Hl Hk Hn. rewrite entries_app, entries_insert_ne by done. f_equal.
  unfold entries. cbn [fmap list_fmap]. by rewrite list_lookup_insert_eq by lia.
Qed.

(** A new bucket: the log of the other active ones, and its own entry. *)
Lemma session_log_new s k s' b :
  qos_session_ok s -> qos_new_bucket s = (k, s') ->
  session_log (with_bucket k b s')
  = (if decide (8 <= length (session_log s))%nat then tail (session_log s) else session_log s) ++ [log_entry b].
Proof.
  intros Hok Hnew. destruct (new_bucket_ok _ _ _ Hok Hnew) as (_ & Hbs & Hk).
  rewrite session_log_length. destruct Hok as [_ Hf Ha Hz _ _].
  unfold session_log, with_bucket. simpl. rewrite Hbs. unfold qos_new_bucket in Hnew.
  destruct (Z.leb_spec MAX_QOS_BUCKETS (qssn_num_active_buckets s)) as [Hl|Hl]; injection Hnew as <- <-;
    cbn [qssn_num_active_buckets qssn_first_bucket] in *.
  - destruct (slots_turn _ Hf) as (H1 & H2 & H3). unfold MAX_QOS_BUCKETS in Hl, Ha, Hz.
    replace (qssn_num_active_buckets s) with 8 by lia. rewrite decide_True by lia.
    change (Z.to_nat 8) with 8%nat. rewrite land_buckets, slots_mod, H1, H2.
    apply entries_new; [lia|done|done].
  - unfold MAX_QOS_BUCKETS in Hl, Ha, Hz. rewrite decide_False by lia. rewrite u8_small by lia.
    replace (Z.to_nat (qssn_num_active_buckets s + 1)) with (S (Z.to_nat (qssn_num_active_buckets s))) by lia.
    rewrite slots_snoc, Z2Nat.id by lia.
    apply entries_new; [lia|done|]. apply slots_fresh; unfold MAX_QOS_BUCKETS; lia.
Qed.

Lemma qos_get_run i s g : g_QosSessions (qs g) !! i = Some s -> qos_get i g = Ok s g.
Proof. intros Hs. unfold qos_get. eapply run_bind; [apply gets_run|]. by rewrite Hs. Qed.
Lemma qos_update_run i s f g : g_QosSessions (qs g) !! i = Some s ->
  qos_update i f g = Ok tt (set_g_QosSessions (<[i := f s]> (g_QosSessions (qs g))) g).
Proof. intros Hs. unfold qos_update. eapply run_bind; [apply gets_run|]. by rewrite Hs. Qed.

(** The probe finds an active bucket with its sequence number. *)
Lemma timed_probe_found i s j q evs g :
  rx_ok (rx g) -> g_QosSessions (qs g) !! i = Some s -> qos_session_ok s ->
  list_find (fun p => fst p = g_sequencenum (rx g)) (session_log s) = Some (j, (q, evs)) ->
  exists s', qos_timed_probe i g = Ok tt (set_g_QosSessions (<[i := s']> (g_QosSessions (qs g))) g)
  /\ session_log s' = (if decide (32 <= length evs)%nat then session_log s
                       else <[j := (q, evs ++ [probe_event g])]> (session_log s))
  /\ qssn_ctrlr_real s' = qssn_ctrlr_real s /\ qssn_is_valid s' = qssn_is_valid s
  /\ qssn_ticks_til_discard s' = qssn_ticks_til_discard s.
Proof.
  intros Hr Hs Hok Hf. pose proof Hf as (Hj & _ & _)%list_find_Some.
  unfold session_log, entries in Hj. rewrite list_lookup_fmap in Hj.
  destruct (slots _ _ !! j) as [k|] eqn:Hk; [|done]. simpl in Hj.
  assert (Hz : length (qssn_evt_buckets s) = 8%nat) by (pose proof (qo_size _ Hok); unfold MAX_QOS_BUCKETS in *; lia).
  destruct (lookup_lt_is_Some_2 (qssn_evt_buckets s) k) as [b Hb].
  { rewrite Hz. eapply slots_lt, list_elem_of_lookup_2, Hk. }
  rewrite Hb in Hj. simpl in Hj. injection Hj as Hq He.
  destruct (Forall_lookup_1 _ _ _ _ (qo_buckets _ Hok) Hb) as (B1 & B2 & _). unfold MAX_QOS_EVENTS_PER_BUCKET in B1, B2.
  assert (Hlen : length evs = Z.to_nat (evt_numEvts b)) by (rewrite <- He, length_take; lia).
  assert (Hrun : forall P, P (Ok tt (set_g_QosSessions (<[i := if 32 <=? evt_numEvts b then s else with_bucket k (with_event (probe_event g) b) s]> (g_QosSessions (qs g))) g)) -> P (qos_timed_probe i g)).
  { intros P HP. unfold qos_timed_probe. eapply run_bind; [by apply qos_get_run|].
    eapply run_bind; [unfold qos_find_bucket; eapply run_bind; [apply gets_run|]; rewrite find_bucket_spec by done; reflexivity|].
    fold (session_log s). rewrite Hf. cbn [mbind option_bind fst]. rewrite Hk.
    eapply run_bind; [by apply in_bounds_run|]. apply run_if; unfold MAX_QOS_EVENTS_PER_BUCKET; intros Hn; rewrite Hn in HP.
    - rewrite list_insert_id, set_QosSessions_id in HP by done. exact HP.
    - apply Z.leb_gt in Hn. by erewrite qos_log_event_run by (done || by apply (Forall_lookup_1 _ _ _ _ (qo_buckets _ Hok) Hb)). }
  eexists. split; [apply Hrun; reflexivity|].
  destruct (Z.leb_spec 32 (evt_numEvts b)) as [Hn|Hn].
  - by rewrite decide_True by lia.
  - rewrite decide_False by lia. split; [|done]. erewrite session_log_found by done. by rewrite Hq, <- He.
Qed.

Lemma timed_probe_new i s g :
  rx_ok (rx g) -> g_QosSessions (qs g) !! i = Some s -> qos_session_ok s ->
  list_find (fun p => fst p = g_sequencenum (rx g)) (session_log s) = None ->
  exists s', qos_timed_probe i g = Ok tt (set_g_QosSessions (<[i := s']> (g_QosSessions (qs g))) g)
  /\ session_log s' = (if decide (8 <= length (session_log s))%nat then tail (session_log s) else session_log s)
                      ++ [(g_sequencenum (rx g), [probe_event g])]
  /\ qssn_ctrlr_real s' = qssn_ctrlr_real s /\ qssn_is_valid s' = qssn_is_valid s
  /\ qssn_ticks_til_discard s' = qssn_ticks_til_discard s.
Proof.
  intros Hr Hs Hok Hf.
  assert (Hz : length (qssn_evt_buckets s) = 8%nat) by (pose proof (qo_size _ Hok); unfold MAX_QOS_BUCKETS in *; lia).
  destruct (qos_new_bucket s) as [k s1] eqn:Hnew. destruct (new_bucket_ok _ _ _ Hok Hnew) as (Hok1 & Hbs & Hk).
  destruct (lookup_lt_is_Some_2 (qssn_evt_buckets s) k) as [b Hb]; [lia|].
  pose proof (Forall_lookup_1 _ _ _ _ (qo_buckets _ Hok) Hb) as (B1 & B2 & B3). unfold MAX_QOS_EVENTS_PER_BUCKET in B1, B2.
  set (b0 := QosBucket (g_sequencenum (rx g)) 0 (evt_descs b)). set (s2 := with_bucket k b0 s1).
  set (g2 := set_g_QosSessions (<[i := s2]> (g_QosSessions (qs g))) g).
  assert (Hi2 : g_QosSessions (qs g2) !! i = Some s2) by by eapply insert_same_lookup.
  assert (Hk2 : qssn_evt_buckets s2 !! k = Some b0).
  { unfold s2, with_bucket. simpl. rewrite Hbs. by eapply insert_same_lookup. }
  exists (with_bucket k (with_event (probe_event g) b0) s1). split; [|split].
  - unfold qos_timed_probe. eapply run_bind; [by apply qos_get_run|].
    eapply run_bind; [unfold qos_find_bucket; eapply run_bind; [apply gets_run|]; rewrite find_bucket_spec by done; reflexivity|].
    fold (session_log s). rewrite Hf. cbn [mbind option_bind]. rewrite Hnew.
    eapply run_bind; [apply in_bounds_run; rewrite Hbs; exact Hb|]. eapply run_bind; [apply gets_run|].
    eapply run_bind; [by apply qos_update_run|]. match goal with |- _ = ?r => change (qos_log_event i k g2 = r) end.
    rewrite (qos_log_event_run i k s2 b0 g2) by done. f_equal.
    unfold g2 at 2. simpl. unfold set_g_QosSessions. simpl. rewrite list_insert_insert_eq.
    unfold s2, with_bucket. simpl. by rewrite list_insert_insert_eq.
  - rewrite (session_log_new s k s1) by done. f_equal. unfold with_event, b0. simpl.
    by rewrite (log_entry_snoc _ 0) by (unfold MAX_QOS_EVENTS_PER_BUCKET; lia).
  - unfold qos_new_bucket in Hnew. by destruct (_ <=? _); injection Hnew as <- <-.
Qed.

(** A timed probe received in a session is one step of a bounded log: with
    the session's ring of buckets read as the list of its active sequence
    numbers, oldest first, the handler ends without a fault, changes only this
    session and sends nothing, and the new list is the old one with the event
    (transmit stamp, receive stamp, packet id) logged under the frame's sequence
    number: appended to its entry if there is one, dropped if that entry has 32
    events, and otherwise a new entry, for which a list of eight drops its
    oldest. The sequence numbers stay distinct, at most eight, and the session
    keeps its controller, its validity and its lifetime. *)
Theorem timed_probe_logged i s g :
  rx_ok (rx g) -> g_QosSessions (qs g) !! i = Some s -> qos_session_ok s ->
  exists s', qos_timed_probe i g = Ok tt (set_g_QosSessions (<[i := s']> (g_QosSessions (qs g))) g)
  /\ session_log s' = log_event (g_sequencenum (rx g)) (probe_event g) (session_log s)
  /\ (length (session_log s') <= 8)%nat
  /\ (NoDup (fst <$> session_log s) -> NoDup (fst <$> session_log s'))
  /\ qssn_ctrlr_real s' = qssn_ctrlr_real s /\ qssn_is_valid s' = qssn_is_valid s
  /\ qssn_ticks_til_discard s' = qssn_ticks_til_discard s.
Proof.
  intros Hr Hs Hok.
  assert (Hrun : exists s', qos_timed_probe i g = Ok tt (set_g_QosSessions (<[i := s']> (g_QosSessions (qs g))) g)
    /\ session_log s' = log_event (g_sequencenum (rx g)) (probe_event g) (session_log s)
    /\ qssn_ctrlr_real s' = qssn_ctrlr_real s /\ qssn_is_valid s' = qssn_is_valid s
    /\ qssn_ticks_til_discard s' = qssn_ticks_til_discard s).
  { unfold log_event. destruct (list_find _ _) as [[j [q evs]]|] eqn:Hf; [|by apply timed_probe_new].
    pose proof Hf as (_ & Hq & _)%list_find_Some. simpl in Hq. rewrite <- Hq. by apply timed_probe_found. }
  destruct Hrun as (s' & H1 & H2 & H3). exists s'. split; [done|]. rewrite H2. split; [done|].
  split; [|split; [apply log_event_distinct|done]]. apply log_event_length.
  rewrite session_log_length. pose proof (qo_active _ Hok). unfold MAX_QOS_BUCKETS in *. lia.
Qed.
End timed_probe.

(** ** The lifetime of a session *)

Section lifetime.
Context `{E : Env}.

Lemma inactivity_timeout_sessions (Q : unit -> G -> Prop) g :
  (forall g', g_QosSessions (qs g') = qos_tick <$> g_QosSessions (qs g) -> Q tt g') ->
  wp qos_inactivity_timeout Q g.
Proof.
  intros HQ. unfold qos_inactivity_timeout. apply wp_bind, wp_modify, wp_bind, wp_now_plus_sec. intros w n.
  apply wp_bind. unfold event_add. apply wp_bind, wp_sys. destruct (env_malloc _); [|apply wp_die].
  repeat wp_step. by apply HQ.
Qed.

Lemma tick_counts s : qssn_is_valid s = true -> 0 < qssn_ticks_til_discard s ->
  qssn_ticks_til_discard (qos_tick s) = qssn_ticks_til_discard s - 1
  /\ qssn_is_valid (qos_tick s) = negb (qssn_ticks_til_discard s =? 1)
  /\ qssn_ctrlr_real (qos_tick s) = qssn_ctrlr_real s
  /\ session_log (qos_tick s) = if qssn_ticks_til_discard s =? 1 then [] else session_log s.
Proof.
  intros Hv Ht. unfold qos_tick. rewrite Hv. destruct (Z.eqb_spec (qssn_ticks_til_discard s) 0); [lia|].
  destruct (Z.eqb_spec (qssn_ticks_til_discard s) 1) as [->|]; [done|].
  by destruct (Z.eqb_spec (qssn_ticks_til_discard s - 1) 0); [lia|].
Qed.

Lemma tick_invalid s : qssn_is_valid s = false -> qos_tick s = s.
Proof. unfold qos_tick. by intros ->. Qed.

(** A session that its controller leaves alone is discarded: starting from
    the four ticks that InitializeSink, Probe and Query give it, after [n]
    expiries of the inactivity timer and no frame in between it is still valid,
    with its controller and its event log as they were, when [n] is at most
    three, and it is invalid with an empty log from the fourth expiry on, for
    good. *)
Theorem session_discarded_after_four_ticks n i s g :
  g_QosSessions (qs g) !! i = Some s -> qssn_is_valid s = true -> qssn_ticks_til_discard s = 4 ->
  wp (for_n n 0 (fun _ => qos_inactivity_timeout))
     (fun _ g' => exists s', g_QosSessions (qs g') !! i = Some s'
        /\ (((n <= 3)%nat /\ qssn_is_valid s' = true /\ qssn_ctrlr_real s' = qssn_ctrlr_real s
             /\ session_log s' = session_log s)
            \/ ((4 <= n)%nat /\ qssn_is_valid s' = false /\ session_log s' = [])))
     g.
Proof.
  intros Hi Hv Ht.
  apply (wp_for_n (fun j g' => exists s', g_QosSessions (qs g') !! i = Some s'
    /\ (((j <= 3)%nat /\ qssn_is_valid s' = true /\ qssn_ticks_til_discard s' = 4 - Z.of_nat j
         /\ qssn_ctrlr_real s' = qssn_ctrlr_real s /\ session_log s' = session_log s)
        \/ ((4 <= j)%nat /\ qssn_is_valid s' = false /\ session_log s' = [])))).
  - exists s. split; [done|]. left. split; [lia|]. by rewrite Ht.
  - intros j g1 _ (s1 & H1 & Hcase). apply inactivity_timeout_sessions. intros g2 H2.
    exists (qos_tick s1). split; [by rewrite H2, list_lookup_fmap, H1|].
    destruct Hcase as [(Hj & Hv1 & Ht1 & Hc & Hl)|(Hj & Hv1 & Hl)].
    + destruct (tick_counts s1 Hv1 ltac:(lia)) as (T1 & T2 & T3 & T4). rewrite T1, T2, T3, T4, Ht1.
      destruct (Z.eqb_spec (4 - Z.of_nat j) 1); [right; split; [lia|done]|left].
      split; [lia|]. split; [done|]. split; [lia|done].
    + right. rewrite tick_invalid by done. split; [lia|done].
  - intros g' (s' & H1 & H2). exists s'. split; [done|]. simpl in H2. destruct H2 as [(? & ? & ? & ? & ?)|?]; [left|right]; done.
Qed.
End lifetime.
