(* ===== verification/Sample.v ===== *)
(** * Sample: concrete runs of the daemon

    An environment that satisfies the hypotheses on the operating system, a
    start of the daemon with the TLV table of tlv.c, and frames of a mapper that
    lead it through discovery, charging and an Emit.  The witnesses of the
    properties of reachable states are evaluated on these runs. *)

From S2P Require Import Prelude LltdTypes Event SeesList Band Tlv PacketTx Mapping SessionMgr Enumeration StateProc Qos PacketRx Mainloop Frames Hello Behaviour Discovery QosEvents.

(** One second passes at each system call; writes succeed; only the host id,
    the machine name and the icon can be read. *)
Definition sample_hw : list Z := [0; 1; 2; 3; 4; 5].
Definition sample_tlv (number : Z) : option tlv_data :=
  if number =? 1 then Some (D_mem sample_hw)
  else if number =? 0xF then Some (D_mem [0x58; 0; 0x57; 0; 0; 0])
  else if number =? 0xE then Some (D_icon 4 (Some [1; 2; 3; 4]))
  else None.

#[export] Instance sample_env : Env := {|
  env_now n := Timeval (Z.of_nat n) 0;
  env_random_uniform n upper := Z.of_nat n mod (upper + 1);
  env_malloc n := true;
  env_write n bytes := bytes;
  env_promisc n := true;
  env_tlv_get n number := sample_tlv number;
  env_lseek n := true;
  env_read n := true;
  env_netdev n := Some (Some (1000 * Z.of_nat n, Z.of_nat n, 2000 * Z.of_nat n, Z.of_nat n));
  env_stamp n := Timeval (Z.of_nat n) 500;
  env_rx_minus_tx := 4096
|}.

#[export] Instance sample_laws : EnvLaws sample_env.
Proof.
  split; [intros n; simpl; lia|]. intros n upper Hu. simpl.
  pose proof (Z.mod_pos_bound (Z.of_nat n) (upper + 1)). lia.
Qed.

Definition sample_garbage : list recvee_desc :=
  replicate (Z.to_nat NUM_SEES) (RecveeDesc 0 sample_hw sample_hw sample_hw).

Lemma fixed_zeros size n : (size <= n)%nat -> fixed_ok size (zeros n).
Proof. intros H. unfold fixed_ok, zeros. by rewrite length_replicate. Qed.

Lemma Tlvs_storage_ok : Forall (fun d => storage_ok (tlv_write d) (tlv_storage d)) Tlvs.
Proof.
  unfold Tlvs, TLVDEF.
  repeat (apply Forall_cons_2; [cbn [tlv_write tlv_storage storage_ok]|]); [..|constructor];
    first [ apply fixed_zeros; lia | exact I | reflexivity | exists 0; reflexivity | idtac ].
  - split; [done|]. split; [constructor|]. simpl. lia.
Qed.

Lemma sample_get_ok :
  Forall (fun d => forall s, sample_tlv (tlv_number d) = Some s -> storage_ok (tlv_write d) s) Tlvs.
Proof.
  unfold Tlvs, TLVDEF.
  repeat (apply Forall_cons_2; [intros s H; vm_compute in H; first [discriminate H|injection H as <-; vm_compute]|]);
    [lia|done|by eexists|constructor].
Qed.

Lemma sample_start_ok : start_ok sample_hw sample_garbage Tlvs.
Proof.
  split; [done|done|by apply Forall_replicate|].
  apply Forall_forall. intros d Hd%list_elem_of_In. split; [exact (Forall_elem _ _ _ Tlvs_storage_ok Hd)|].
  intros n s. exact (Forall_elem _ _ _ sample_get_ok Hd s).
Qed.

(** ** Frames *)

Definition sample_mapper : list Z := [0; 9; 9; 9; 9; 9].
Definition other_mapper : list Z := [0; 7; 7; 7; 7; 7].

Definition frame (tos op : Z) (dst src : list Z) (seq : Z) (rest : list Z) : list Z :=
  dst ++ src ++ be16 TOPO_ETHERTYPE ++ [TOPO_VERSION; tos; 0; op] ++ dst ++ src ++ be16 seq ++ rest.

(** A Discover that lists the daemon's address, and one that lists nobody. *)
Definition discover_acking (src : list Z) : list Z :=
  frame 0 Opcode_Discover Etheraddr_broadcast src 7 (be16 3 ++ be16 1 ++ sample_hw).
Definition discover_new (src : list Z) : list Z :=
  frame 0 Opcode_Discover Etheraddr_broadcast src 7 (be16 3 ++ be16 0).
Definition charge_frame : list Z := frame 0 Opcode_Charge sample_hw sample_mapper 0 [].
(** One Train descriptor, to be sent after [pause] milliseconds. *)
Definition emit_frame (pause : Z) : list Z :=
  frame 0 Opcode_Emit sample_hw sample_mapper 0 (be16 1 ++ [0; pause] ++ sample_hw ++ sample_mapper).
Definition reset_frame : list Z := frame 0 Opcode_Reset sample_hw sample_mapper 0 [].

(** ** Runs *)

Definition after (m : CM unit) (g : G) : G := match m g with Ok _ g' => g' | Err _ => g end.
Definition finishes (m : CM unit) (g : G) : bool := match m g with Ok _ _ => true | Err _ => false end.
Definition recv (bytes : list Z) : CM unit := packetio_recv_handler (Read_bytes bytes).

Lemma finishes_ok m g : finishes m g = true -> m g = Ok tt (after m g).
Proof. unfold finishes, after. by destruct (m g) as [[] g'|]. Qed.

Definition good_bytes (bytes : list Z) (g : G) : bool :=
  (Z.of_nat (length bytes) <=? RXBUFSZ) && forallb (fun b => (0 <=? b) && (b <? 256)) bytes
  && negb (tagged_frame (list_inserts 0 bytes (g_rxbuf (rx g)))).

Lemma good_bytes_read bytes g : good_bytes bytes g = true -> good_read (Read_bytes bytes) g.
Proof.
  unfold good_bytes. intros H. bool_to_prop. simpl. split; [done|]. split; [|done].
  apply List.Forall_forall. intros b Hb.
  assert (Hx : ((0 <=? b) && (b <? 256))%bool = true).
  { match goal with H : forallb _ _ = true |- _ => by apply (proj1 (forallb_forall _ _) H) end. }
  bool_to_prop. by split.
Qed.

Abbreviation reach := (reachable sample_hw sample_garbage Tlvs).

Lemma reach_recv bytes g :
  reach g -> good_bytes bytes g = true -> finishes (recv bytes) g = true -> reach (after (recv bytes) g).
Proof.
  intros Hr Hg Hf. eapply reach_step; [exact Hr|].
  apply (step_frame (Read_bytes bytes)); [by apply good_bytes_read|by apply finishes_ok].
Qed.

(** The start; a mapper that knows the daemon; its credit; an Emit that waits. *)
Definition g_start : G := after (main_setup sample_hw) (main_init sample_garbage Tlvs).
Definition g_complete : G := after (recv (discover_acking sample_mapper)) g_start.
Definition g_pending : G := after (recv (discover_new sample_mapper)) g_start.
Definition g_charged : G := after (recv charge_frame) g_complete.
Definition g_emitting : G := after (recv (emit_frame 200)) g_charged.

Lemma reach_g_start : reach g_start.
Proof. apply reach_start. apply finishes_ok. by vm_compute. Qed.
Lemma reach_g_complete : reach g_complete.
Proof. apply reach_recv; [apply reach_g_start|by vm_compute|by vm_compute]. Qed.
Lemma reach_g_pending : reach g_pending.
Proof. apply reach_recv; [apply reach_g_start|by vm_compute|by vm_compute]. Qed.
Lemma reach_g_charged : reach g_charged.
Proof. apply reach_recv; [apply reach_g_complete|by vm_compute|by vm_compute]. Qed.
Lemma reach_g_emitting : reach g_emitting.
Proof. apply reach_recv; [apply reach_g_charged|by vm_compute|by vm_compute]. Qed.

(** The first event is due after a thousand seconds. *)
Definition due (g : G) : bool :=
  match Events (tm g) with e :: _ => timerle (ev_firetime e) (env_now 1000) | [] => false end.
Lemma due_head g : due g = true ->
  exists e l, Events (tm g) = e :: l /\ timerle (ev_firetime e) (env_now 1000) = true.
Proof. unfold due. destruct (Events (tm g)) as [|e l]; [done|]. intros H. by exists e, l. Qed.

(** ** Witnesses of the properties of reachable states *)

Lemma lld2d_never_faults_witness :
  match packetio_recv_handler (Read_bytes reset_frame) g_emitting with
  | Ok _ g' => reach g' | Err f => f = Died end
  /\ match fire_first g_emitting with Ok _ g' => reach g' | Err f => f = Died end.
Proof.
  destruct (lld2d_never_faults sample_hw sample_garbage Tlvs g_emitting sample_start_ok reach_g_emitting) as [H1 H2].
  split.
  - apply H1. apply good_bytes_read. by vm_compute.
  - destruct (due_head g_emitting ltac:(vm_compute; reflexivity)) as (e & l & Hl & Ht).
    exact (H2 e l 1000%nat Hl Ht).
Defined.

Lemma mainloop_turn_refines_witness :
  match mainloop_turn (Select_readable (Read_bytes reset_frame)) g_emitting with
  | Ok _ g' => reach g'
  | Err f => f = Died \/ f = Out_of_fuel
  end.
Proof.
  apply (mainloop_turn_refines sample_hw sample_garbage Tlvs); [apply sample_start_ok|apply reach_g_emitting|].
  apply good_bytes_read. by vm_compute.
Defined.

Lemma complete_session :
  match g_sessions (co g_complete) with
  | s :: _ => ssn_is_valid s && bool_decide (ssn_state s = smS_Complete)
  | [] => false
  end = true.
Proof. vm_compute. reflexivity. Qed.

Lemma sessions_live_and_unique_witness :
  (exists e, e ∈ Events (tm g_complete) /\ ev_function e = state_inactivity_timeout_fn /\ ev_state e = Some 0%nat)
  /\ mappers_unique (g_sessions (co g_complete)).
Proof.
  destruct (sessions_live_and_unique sample_hw sample_garbage Tlvs g_complete sample_start_ok reach_g_complete)
    as [H1 H2].
  split; [|exact H2].
  pose proof complete_session as Hc. destruct (g_sessions (co g_complete)) as [|s ss]; [discriminate Hc|].
  apply andb_true_iff in Hc as [Hv Hc]. apply bool_decide_eq_true in Hc.
  specialize (H1 0%nat s eq_refl Hv). rewrite Hc in H1.
  destruct H1 as (e & He & Hf & Hes & _). exists e. split; [exact He|]. split; [exact Hf|exact Hes].
Defined.

Lemma topology_session_valid_witness :
  g_topo_session (co g_emitting) = Some 0%nat
  /\ match g_topo_session (co g_emitting) with
     | None => g_smT_state (co g_emitting) = smT_Quiescent /\ no_temporaries (g_sessions (co g_emitting))
     | Some k => exists s, g_sessions (co g_emitting) !! k = Some s /\ ssn_is_valid s = true
                 /\ (ssn_state s = smS_Pending \/ ssn_state s = smS_Complete)
                 /\ ssn_TypeOfSvc s = ToS_TopologyDiscovery
     end.
Proof.
  split; [by vm_compute|].
  apply (topology_session_valid sample_hw sample_garbage Tlvs); [apply sample_start_ok|apply reach_g_emitting].
Defined.

Lemma enumeration_scheduled_witness :
  exists e, e ∈ Events (tm g_pending) /\ ev_function e = state_block_timeout_fn.
Proof.
  destruct (enumeration_scheduled sample_hw sample_garbage Tlvs g_pending sample_start_ok reach_g_pending)
    as (_ & H & _). apply H. by vm_compute.
Defined.

Lemma credit_expires_witness :
  g_smT_state (co g_charged) = smT_Command
  /\ exists e, e ∈ Events (tm g_charged) /\ ev_function e = state_charge_timeout_fn.
Proof.
  destruct (credit_expires sample_hw sample_garbage Tlvs g_charged sample_start_ok reach_g_charged) as [_ H].
  apply H. left. by vm_compute.
Defined.

Lemma emit_scheduled_witness :
  exists e, e ∈ Events (tm g_emitting) /\ ev_function e = state_emit_timeout_fn.
Proof.
  destruct (emit_scheduled sample_hw sample_garbage Tlvs g_emitting sample_start_ok reach_g_emitting) as [H _].
  apply H. by vm_compute.
Defined.

(** A state that has sent a Hello. *)
Definition g_hello : G := after fire_first (after fire_first g_pending).
Lemma reach_fire g : reach g -> due g = true -> finishes fire_first g = true -> reach (after fire_first g).
Proof.
  intros Hr Hl Hf. destruct (due_head g Hl) as (e & l & He & Ht).
  eapply reach_step; [exact Hr|]. eapply step_event; [exact He|exact Ht|by apply finishes_ok].
Qed.
Lemma reach_g_hello : reach g_hello.
Proof.
  apply reach_fire; [apply reach_fire; [apply reach_g_pending|by vm_compute|by vm_compute]|by vm_compute|by vm_compute].
Qed.

Lemma frames_sent_bounded_witness :
  exists b, Frame b ∈ os_out (os g_hello)
    /\ sizeof_ether_header + sizeof_base_header <= Z.of_nat (length b) <= TXBUFSZ.
Proof.
  assert (H : exists b, Frame b ∈ os_out (os g_hello)).
  { eexists. apply list_elem_of_lookup_2 with 1%nat. vm_compute. reflexivity. }
  destruct H as [b Hb]. exists b. split; [exact Hb|].
  apply (frames_sent_bounded sample_hw sample_garbage Tlvs g_hello); [apply sample_start_ok|apply reach_g_hello|exact Hb].
Defined.

Lemma timers_owned_witness :
  events_sorted (Events (tm g_emitting)) /\ NoDup (ev_addr <$> Events (tm g_emitting)).
Proof.
  destruct (timers_owned sample_hw sample_garbage Tlvs g_emitting sample_start_ok reach_g_emitting) as (H1 & H2 & _).
  split; [exact H1|exact H2].
Defined.

(** ** Witnesses of the properties of the components *)

Lemma sample_inv g : reach g -> lld2d_inv g.
Proof. apply reachable_inv, sample_start_ok. Qed.
Lemma sample_base g : reach g -> base_ok g.
Proof. intros H. by destruct (sample_inv g H) as [[B _ _ _ _] _]. Qed.
Lemma sample_timers g : reach g -> timers_ok g.
Proof. intros H. apply bo_timers, sample_base, H. Qed.
Lemma sample_sees g : reach g -> sees_ok (g_sees g).
Proof. intros H. apply bo_sees, sample_base, H. Qed.

Lemma CANCEL_exact_witness :
  is_Some (timer_get T_emit g_emitting)
  /\ exists g', CANCEL T_emit g_emitting = Ok tt g' /\ timer_get T_emit g' = None.
Proof.
  split; [by vm_compute; eexists|].
  destruct (CANCEL_exact T_emit g_emitting (sample_timers _ reach_g_emitting) I) as (g' & H1 & _ & H2 & _).
  exists g'. split; [exact H1|exact H2].
Defined.

Lemma arm_exact_witness :
  exists g', arm T_charge (Timeval 99 0) g_start = Ok tt g' /\ is_Some (timer_get T_charge g').
Proof.
  destruct (arm_exact T_charge (Timeval 99 0) g_start (sample_timers _ reach_g_start) I ltac:(vm_compute; reflexivity))
    as [H|(g' & H1 & _ & H2 & _)].
  - exfalso. vm_compute in H. discriminate H.
  - exists g'. split; [exact H1|]. rewrite H2. by eexists.
Defined.

Lemma seeslist_enqueue_fifo_witness :
  exists g', seeslist_enqueue false sample_hw g_charged = Ok true g'
    /\ length (sees_contents (g_sees g')) = 1%nat.
Proof.
  destruct (seeslist_enqueue_fifo false sample_hw g_charged (bo_rx _ (sample_base _ reach_g_charged))
              (sample_sees _ reach_g_charged) eq_refl) as (ok & g' & H1 & _ & H2 & _ & H3).
  assert (ok = true) as ->.
  { apply H2. assert (Hc : sees_contents (g_sees g_charged) = []) by (vm_compute; reflexivity).
    rewrite Hc. vm_compute. reflexivity. }
  exists g'. split; [exact H1|]. destruct (H3 eq_refl) as (src & dst & _ & _ & H4). rewrite H4, length_app.
  assert (Hc : sees_contents (g_sees g_charged) = []) by (vm_compute; reflexivity). by rewrite Hc.
Defined.

(** The state after the Probe of another station has been recorded. *)
Definition probe_frame : list Z := frame 0 Opcode_Probe sample_hw other_mapper 0 [].
Definition g_seen : G := after (recv probe_frame) g_charged.
Lemma reach_g_seen : reach g_seen.
Proof. apply reach_recv; [apply reach_g_charged|by vm_compute|by vm_compute]. Qed.

Lemma seeslist_dequeue_fifo_witness :
  exists d g', seeslist_dequeue g_seen = Ok (Some d) g' /\ sees_contents (g_sees g') = [].
Proof.
  pose proof (sample_sees _ reach_g_seen) as Hok.
  pose proof (seeslist_dequeue_fifo g_seen Hok) as H.
  assert (Hc : match sees_contents (g_sees g_seen) with [d] => true | _ => false end = true) by (vm_compute; reflexivity).
  destruct (sees_contents (g_sees g_seen)) as [|d [|]]; [discriminate Hc| |discriminate Hc].
  destruct H as (g' & H1 & _ & H2 & _). exists d, g'. split; [exact H1|exact H2].
Defined.

Lemma hello_within_four_blocks_witness :
  let b := Band 45 0 false in
  let g := set_g_band (band_update (band_update (band_update b))) g_start in
  exists g', band_ChooseHelloTime g = Ok tt g' /\ is_Some (timer_get T_hello g').
Proof.
  intros b g.
  destruct (hello_within_four_blocks b g ltac:(by repeat split; vm_compute) eq_refl ltac:(by vm_compute) eq_refl
              ltac:(vm_compute; reflexivity)) as [H|(g' & e & H1 & H2 & _)].
  - exfalso. vm_compute in H. discriminate H.
  - exists g'. split; [exact H1|]. rewrite H2. by eexists.
Defined.

(** An Emit of three descriptors, with pauses before the first and the last. *)
Definition emitee (type pause : Z) : list Z := [type; pause] ++ sample_hw ++ sample_mapper.
Definition emit3_frame : list Z :=
  frame 0 Opcode_Emit sample_hw sample_mapper 5 (be16 3 ++ emitee 0 200 ++ emitee 1 0 ++ emitee 1 50).
Definition g_charged3 : G := after (recv charge_frame) (after (recv charge_frame) g_charged).
Definition g_emit3 : G := after (recv emit3_frame) g_charged3.
Lemma reach_g_emit3 : reach g_emit3.
Proof.
  do 3 (apply reach_recv; [|by vm_compute|by vm_compute]). apply reach_g_charged.
Qed.

Lemma emit_burst_sent_witness :
  exists g', fire_first g_emit3 = Ok tt g' /\ emit_waits 2 34 g_emit3 g'.
Proof.
  assert (Hl : match Events (tm g_emit3) with
               | e :: _ => bool_decide (ev_function e = state_emit_timeout_fn) | [] => false end = true)
    by (vm_compute; reflexivity).
  destruct (Events (tm g_emit3)) as [|e l] eqn:Hev; [discriminate Hl|]. apply bool_decide_eq_true in Hl.
  pose proof (emit_burst_sent sample_hw sample_garbage Tlvs g_emit3 e l 34 sample_start_ok reach_g_emit3 Hev Hl
    ltac:(vm_compute; reflexivity)) as H.
  assert (Hf : finishes fire_first g_emit3 = true) by (vm_compute; reflexivity).
  exists (after fire_first g_emit3). rewrite (finishes_ok _ _ Hf) in H. split; [exact (finishes_ok _ _ Hf)|].
  assert (Hn : Z.to_nat (g_emit_remaining (em g_emit3)) = 3%nat) by (vm_compute; reflexivity).
  assert (Hm : burst 3 (g_emitbuf (em g_emit3)) 34 = 2%nat) by (vm_compute; reflexivity).
  cbv zeta in H. rewrite Hn, Hm in H. exact H.
Defined.

(** An ARP request. *)
Definition arp_frame : list Z := Etheraddr_broadcast ++ sample_mapper ++ [8; 6] ++ replicate 28 0.
Lemma unheard_frames_ignored_witness :
  exists r, recv arp_frame g_emitting = Ok tt (set_rx r g_emitting).
Proof.
  apply (unheard_frames_ignored sample_hw sample_garbage Tlvs);
    [apply sample_start_ok|apply reach_g_emitting|by vm_compute|by vm_compute|by vm_compute].
Defined.

(** A numbered Charge is answered by a Flat; it is then received again. *)
Definition charge_seq : list Z := frame 0 Opcode_Charge sample_hw sample_mapper 9 [].
Definition g_flat : G := after (recv charge_seq) g_complete.
Lemma reach_g_flat : reach g_flat.
Proof. apply reach_recv; [apply reach_g_complete|by vm_compute|by vm_compute]. Qed.

Lemma retries_only_resend_witness :
  exists b, match recv charge_seq g_flat with
            | Ok _ g' => os_out (os g') = os_out (os g_flat) ++ [Frame b]
            | Err f => f = Died end.
Proof.
  exists (take (Z.to_nat (g_re_tx_len (tx g_flat))) (g_re_txbuf (tx g_flat))).
  pose proof (retries_only_resend sample_hw sample_garbage Tlvs g_flat charge_seq sample_start_ok reach_g_flat
    ltac:(by vm_compute) ltac:(by vm_compute) ltac:(by vm_compute) ltac:(by vm_compute) ltac:(by vm_compute)
    ltac:(by vm_compute) ltac:(by vm_compute)) as H.
  unfold recv. destruct (packetio_recv_handler (Read_bytes charge_seq) g_flat) as [[] g'|f]; [|exact H].
  destruct H as (r & o & -> & Ho). change (os_out (os (set_rx r (set_os o g_flat)))) with (os_out o).
  assert (Hc : ((num 2 charge_seq tbh_seqnum =? g_rtxseqnum (tx g_flat))
                && (g_re_tx_opcode (tx g_flat) =? num 1 charge_seq tbh_opcode))%bool = true) by (vm_compute; reflexivity).
  rewrite Hc in Ho. exact Ho.
Defined.

Lemma sample_commanding g :
  reach g -> g_smT_state (co g) = smT_Command -> commanding g.
Proof.
  intros Hr Hs. destruct (sample_inv g Hr) as [[B [Tc T] _ _ _] _]. rewrite Hs in T. destruct T as (T1 & T2 & T3).
  split; try done. destruct (g_topo_session (co g)) as [i|]; [by exists i|done].
Qed.

(** The same Emit without credit. *)
Definition g_refused : G := after (recv emit3_frame) g_complete.
Lemma reach_g_refused : reach g_refused.
Proof. apply reach_recv; [apply reach_g_complete|by vm_compute|by vm_compute]. Qed.
Lemma commanding_g_refused : commanding g_refused.
Proof. apply sample_commanding; [apply reach_g_refused|by vm_compute]. Qed.

Lemma topo_zero : match g_sessions (co g_refused) !! 0%nat with
  | Some s => bool_decide (ssn_mapper_real s = sample_mapper) | None => false end = true.
Proof. vm_compute. reflexivity. Qed.

Lemma emit_refused_without_credit_witness :
  exists s g', command_emit g_refused = Ok PROCESSING_COMPLETED g'
    /\ sent [flat_frame (g_hwaddr (co g_refused)) (rsvd_byte (g_txbuf (tx g_refused))) (ssn_mapper_real s) 5
               (Charge 1 114 250 4 128)] g_refused g'.
Proof.
  pose proof topo_zero as Hs. destruct (g_sessions (co g_refused) !! 0%nat) as [s|] eqn:Hs0; [|discriminate Hs].
  pose proof (emit_refused_without_credit g_refused 0%nat s commanding_g_refused
    ltac:(vm_compute; reflexivity) Hs0 ltac:(vm_compute; reflexivity) ltac:(vm_compute; reflexivity)) as H.
  cbv zeta in H. assert (Hf : match command_emit g_refused with Ok _ _ => true | Err _ => false end = true)
    by (vm_compute; reflexivity).
  destruct (command_emit g_refused) as [st g'|f]; [|discriminate Hf].
  destruct H as (-> & H & _). exists s, g'. split; [reflexivity|].
  assert (Hq : g_sequencenum (rx g_refused) = 5) by (vm_compute; reflexivity).
  assert (Hc : charge_added (s32 (g_rcvd_pkt_len (rx g_refused))) (ch g_refused) = Charge 1 114 250 4 128)
    by (vm_compute; reflexivity).
  rewrite Hq, Hc in H. exact H.
Defined.

Lemma commanding_ch c g : commanding g -> charge_ok (set_ch c g) -> commanding (set_ch c g).
Proof. intros [Hb Hc Hs He Hr Ht] H. split; try done. base_same. Qed.

(** The same Emit with credit. *)
Definition granted_charge : charge := Charge 10 1000 250 4 128.
Definition g_granted : G := set_ch granted_charge g_refused.
Lemma charge_timer_refused : match timer_get T_charge g_refused with Some _ => true | None => false end = true.
Proof. vm_compute. reflexivity. Qed.
Lemma charge_ok_granted g :
  match timer_get T_charge g with Some _ => true | None => false end = true -> charge_ok (set_ch granted_charge g).
Proof.
  intros H. split; [by vm_compute|by vm_compute|]. change (timer_get T_charge (set_ch _ g)) with (timer_get T_charge g).
  by destruct (timer_get T_charge g).
Qed.
Lemma commanding_g_granted : commanding g_granted.
Proof. apply commanding_ch; [apply commanding_g_refused|]. apply charge_ok_granted, charge_timer_refused. Qed.

Lemma emit_accepted_with_credit_witness :
  exists st g', command_emit g_granted = Ok st g' /\ emit_taken g_granted g' /\ g_smT_state (co g') = smT_Emit.
Proof.
  pose proof (emit_accepted_with_credit g_granted commanding_g_granted
    ltac:(intros _; vm_compute; repeat split; discriminate) ltac:(vm_compute; reflexivity) ltac:(vm_compute; reflexivity)
    ltac:(vm_compute; reflexivity) ltac:(vm_compute; reflexivity)) as H.
  assert (Hf : match command_emit g_granted with Ok _ _ => true | Err _ => false end = true)
    by (vm_compute; reflexivity).
  destruct (command_emit g_granted) as [st g'|f]; [|discriminate Hf].
  destruct H as (H1 & H2 & _). exists st, g'. split; [reflexivity|]. split; [exact H1|exact H2].
Defined.

Lemma query_answered_fifo_witness :
  exists b, match packetio_tx_queryresp g_seen with
            | Ok _ g' => os_out (os g') = os_out (os g_seen) ++ [Frame b]
            | Err f => f = Died end.
Proof.
  assert (Hs : match g_sessions (co g_seen) !! 0%nat with Some _ => true | None => false end = true) by (vm_compute; reflexivity).
  destruct (g_sessions (co g_seen) !! 0%nat) as [s|] eqn:Hs0; [|discriminate Hs].
  pose proof (query_answered_fifo sample_hw sample_garbage Tlvs g_seen 0%nat s sample_start_ok reach_g_seen
    ltac:(vm_compute; reflexivity) Hs0) as H.
  eexists. destruct (packetio_tx_queryresp g_seen) as [[] g'|f]; [|exact H]. destruct H as [H _]. exact H.
Defined.

(** ** Witnesses for discovery *)

Definition g_discover : G := evt_update (set_isAckingMe false) g_complete.
Lemma rx_g_complete : rx_ok (rx g_complete).
Proof. apply bo_rx, sample_base, reach_g_complete. Qed.

Lemma is_acking_me_listed_witness : is_acking_me g_discover = Ok true g_discover.
Proof.
  destruct (is_acking_me_listed g_discover rx_g_complete ltac:(vm_compute; discriminate) eq_refl) as (b & H1 & H2).
  assert (b = true) as ->; [|exact H1]. apply H2. split; [|vm_compute; reflexivity].
  apply (bool_decide_eq_true_1 (g_hwaddr (co g_discover) ∈ _)). vm_compute. reflexivity.
Defined.

(** A second mapper has just been entered into the table. *)
Definition second_session : session :=
  Session true smS_Nascent BAND_TXC 7 other_mapper other_mapper true ToS_TopologyDiscovery None.
Definition g_second : G :=
  set_g_sessions (<[1%nat := second_session]> (g_sessions (co g_complete)))
    (set_g_this_event (ProtocolEvent evtDiscoverRcvd (Some 1%nat) true false false 0) g_complete).

Lemma second_mapper_is_temporary_witness :
  exists g', smS_process_event g_second = Ok PROCESSING_COMPLETED g'
    /\ smT_process_event g' = Ok PROCESSING_ABORTED g'.
Proof.
  assert (Ht : match g_sessions (co g_second) !! 0%nat with
               | Some t => ssn_is_valid t && negb (ETHERADDR_EQUALS other_mapper (ssn_mapper_real t))
               | None => false end = true) by (vm_compute; reflexivity).
  destruct (g_sessions (co g_second) !! 0%nat) as [t|] eqn:Ht0; [|discriminate Ht].
  apply andb_true_iff in Ht as [Hv Hm]. apply negb_true_iff in Hm.
  pose proof (second_mapper_is_temporary g_second 1 0 second_session t ltac:(vm_compute; reflexivity) Ht0 Hv
    ltac:(vm_compute; reflexivity) ltac:(vm_compute; reflexivity) ltac:(discriminate)
    ltac:(vm_compute; reflexivity) eq_refl eq_refl Hm) as H.
  eexists. exact H.
Defined.

Definition ev_reset : protocol_event := ProtocolEvent evtResetRcvd (Some 0%nat) false false false 0.
Definition g_resetting : G := evt_update (fun _ => ev_reset) g_complete.
Lemma base_g_resetting : base_ok g_resetting.
Proof. unfold g_resetting. apply base_ok_evt, sample_base, reach_g_complete. Qed.

Lemma topology_session_ends_witness :
  match smS_process_event g_resetting with
  | Ok _ g' => os_out (os g') = os_out (os g_resetting) ++ [Promisc false]
  | Err f => f = Died
  end.
Proof.
  assert (Hs : match g_sessions (co g_resetting) !! 0%nat with
               | Some s => ssn_is_valid s && bool_decide (ssn_state s = smS_Complete)
               | None => false end = true) by (vm_compute; reflexivity).
  destruct (g_sessions (co g_resetting) !! 0%nat) as [s|] eqn:Hs0; [|discriminate Hs].
  apply andb_true_iff in Hs as [Hv Hc]. apply bool_decide_eq_true in Hc.
  pose proof (topology_session_ends g_resetting 0 s base_g_resetting ltac:(vm_compute; reflexivity)
    ltac:(vm_compute; reflexivity) ltac:(right; vm_compute; reflexivity) Hs0 Hv Hc) as H.
  destruct (smS_process_event g_resetting) as [st g'|f]; [|exact H].
  destruct H as (_ & _ & _ & H & _). exact H.
Defined.

Lemma sample_unique g : reach g -> mappers_unique (g_sessions (co g)).
Proof. intros Hr. by destruct (sample_inv g Hr) as [[_ _ (_ & H & _) _ _] _]. Qed.

Lemma find_session_exact_witness :
  find_session sample_mapper (g_sessions (co g_complete)) = Some 0%nat.
Proof.
  apply (find_session_exact sample_mapper _ 0 eq_refl (sample_unique _ reach_g_complete)).
  assert (Hs : match g_sessions (co g_complete) !! 0%nat with
               | Some s => ssn_is_valid s && bool_decide (ssn_mapper_real s = sample_mapper)
               | None => false end = true) by (vm_compute; reflexivity).
  destruct (g_sessions (co g_complete) !! 0%nat) as [s|]; [|discriminate Hs].
  apply andb_true_iff in Hs as [Hv Hm]. apply bool_decide_eq_true in Hm. exists s. split; [reflexivity|by split].
Defined.

(** All sessions in use; the last frame is a Discover of another mapper. *)
Definition g_full : G :=
  set_g_sessions (replicate MAX_NUM_SESSIONS second_session) g_complete.
Lemma full_table_drops_discover_witness :
  state_process_packet g_full = Ok UINT_MAX (evt_update fresh_event g_full).
Proof.
  apply full_table_drops_discover;
    [exact rx_g_complete|vm_compute; reflexivity|vm_compute; reflexivity|].
  intros s Hs. change (s ∈ replicate MAX_NUM_SESSIONS second_session) in Hs.
  apply elem_of_replicate in Hs as [-> _]. reflexivity.
Defined.

Definition g_arp : G := after (recv arp_frame) g_complete.
Lemma reach_g_arp : reach g_arp.
Proof. apply reach_recv; [apply reach_g_complete|by vm_compute|by vm_compute]. Qed.

Lemma create_session_enters_witness :
  exists i g', create_session g_arp = Ok (Some i) g'.
Proof.
  destruct (create_session_enters g_arp (bo_rx _ (sample_base _ reach_g_arp)) (sample_unique _ reach_g_arp)
    ltac:(vm_compute; reflexivity)) as (i & s & _ & _ & _ & H & _).
  - assert (Hs : match g_sessions (co g_arp) !! 1%nat with Some s => negb (ssn_is_valid s) | None => false end = true)
      by (vm_compute; reflexivity).
    destruct (g_sessions (co g_arp) !! 1%nat) as [s|] eqn:Hs1; [|discriminate Hs]. exists s.
    split; [by eapply list_elem_of_lookup_2|by apply negb_true_iff].
  - eexists _, _. exact H.
Defined.

(** ** Witnesses for credit and TLVs *)

Lemma credit_arithmetic_witness :
  g_ctc_bytes (charge_consumed 38 (Charge 1 32 0 0 0)) = 4294967290.
Proof.
  destruct (credit_arithmetic 38 (Charge 1 32 0 0 0) ltac:(by vm_compute) ltac:(by vm_compute) ltac:(by vm_compute)
    ltac:(by vm_compute)) as (_ & _ & _ & _ & H). destruct (H ltac:(by vm_compute)) as [H1 _]. exact H1.
Defined.

(** The cap on byte credit is not an invariant: a Charge of 32 bytes that
    asks for a receipt, the 38-byte Flat, leaves the daemon with 4294967290
    bytes of credit. *)
Theorem byte_credit_wraps :
  reachable sample_hw sample_garbage Tlvs g_flat /\ g_ctc_bytes (ch g_flat) = 4294967290
  /\ TOPO_CTC_BYTES_MAX < g_ctc_bytes (ch g_flat).
Proof. split; [apply reach_g_flat|]. vm_compute. by split. Qed.

Lemma icon_reassembled_witness :
  fetch_icon 4 [1; 2; 3; 4; 5; 6; 7; 8; 9; 10] 5 0 g_start = Some [1; 2; 3; 4; 5; 6; 7; 8; 9; 10].
Proof. apply icon_reassembled; [done|done|lia|simpl; lia]. Defined.

Lemma ltlv_string_length_field_witness :
  exists value, write_ucs2char_t 0x10 [65; 0; 66; 0; 67; 0; 0; 0] 100 false true g_start = Ok (be16 4 ++ value) g_start
    /\ Z.of_nat (length value) = 6.
Proof. apply (ltlv_string_length_field 0x10 _ 6); [reflexivity|lia]. Defined.

Definition sample_assns : list assn_table_entry := replicate 3 (AssnEntry sample_mapper [0; 54] 4).
Lemma assns_page_length_field_witness :
  exists value, write_assns_t 0x16 (Some sample_assns) 3 25 false 0 g_start
      = Ok (be16 (Z.lor (Z.of_nat (length value) + 2) 0x8000) ++ value, D_assns (Some sample_assns) 3) g_start
    /\ Z.of_nat (length value) = 20.
Proof.
  apply (assns_page_length_field 0x16 sample_assns 3 25 0 g_start); [|by vm_compute|by vm_compute].
  split; [by vm_compute|]. split; [done|]. unfold sample_assns. apply Forall_replicate. by split.
Defined.

Lemma sample_hello_desc : Forall hello_desc Tlvs.
Proof.
  apply List.Forall_forall. intros d Hd.
  assert (Hall : forallb (fun d =>
    ((0 <? tlv_number d) && (tlv_number d <? 256))%bool) Tlvs = true) by reflexivity.
  rewrite forallb_forall in Hall. specialize (Hall d Hd). bool_to_prop.
  assert (Hann : Forall (fun d => announceable d (tlv_storage d)
    /\ forall s, sample_tlv (tlv_number d) = Some s -> announceable d s) Tlvs).
  { unfold Tlvs, TLVDEF.
    repeat (apply Forall_cons_2;
      [split; [vm_compute; try done
              |intros s Hs; vm_compute in Hs; first [discriminate Hs|injection Hs as <-; vm_compute; try done]]|]).
    constructor. }
  destruct (Forall_elem _ _ d Hann ltac:(by apply list_elem_of_In)) as [H1 H2].
  split; [done|exact H1|]. intros n s. exact (H2 s).
Qed.

Lemma tlvs_g_start : g_tlvs g_start = Tlvs.
Proof. vm_compute. reflexivity. Qed.

(** No type is twice in the table of tlvdef.h. *)
Lemma distinct_types : NoDup (tlv_number <$> Tlvs).
Proof. apply (bool_decide_unpack _). vm_compute. exact I. Qed.

(** The properties of the first Hello, with their lengths: the address, the icon and the
    name of the machine that the sample system supplies. *)
Example first_hello_lengths :
  (fun p => (p.1, length p.2)) <$> hello_list (g_tlvs g_start) (TOPO_MAX_FRAMESZ - 46 - 1) (os_clk (os g_start)) = [(1, 6%nat); (14, 4%nat); (15, 4%nat)].
Proof. vm_compute. reflexivity. Qed.

Lemma hello_properties_roundtrip_witness :
  NoDup (tlv_number <$> g_tlvs g_start) /\
  let ps := hello_list (g_tlvs g_start) (TOPO_MAX_FRAMESZ - 46 - 1) (os_clk (os g_start)) in
  match packetio_tx_hello g_start with
  | Ok _ g' => os_out (os g') = os_out (os g_start) ++ [Frame (hello_frame (rsvd_byte (g_txbuf (tx g_start))) (co g_start) ps)]
  | Err f => f = Died end.
Proof.
  assert (Hnd : NoDup (tlv_number <$> g_tlvs g_start)) by (rewrite tlvs_g_start; exact distinct_types). split; [exact Hnd|].
  pose proof (sample_base _ reach_g_start) as B.
  pose proof (hello_properties_roundtrip g_start (bo_io _ B) (bo_core _ B)
    ltac:(rewrite tlvs_g_start; exact sample_hello_desc) Hnd) as H. cbv zeta in *.
  destruct (packetio_tx_hello g_start) as [[] g'|f]; [|exact H]. exact (proj1 H).
Defined.

(** The length -1 of a failed read is taken for one of 2^32 - 1: after an Emit has
    been served, the frame is handled again and copied with that length. *)
Example failed_read_faults :
  let g := after fire_first g_emitting in
  reach g /\ packetio_recv_handler Read_error g = Err Out_of_bounds.
Proof.
  split; [|vm_compute; reflexivity].
  apply reach_fire; [apply reach_g_emitting|by vm_compute|by vm_compute].
Qed.

(** ** The QoS sink *)

Definition qos_sample (op seq : Z) (rest : list Z) : list Z := frame 2 op sample_hw sample_mapper seq rest.
Definition qinit_frame : list Z := qos_sample Qopcode_InitializeSink 1 [0xFF].
Definition timed_probe_frame (seq : Z) : list Z :=
  qos_sample Qopcode_Probe seq ([1; 2; 3; 4; 5; 6; 7; 8] ++ replicate 16 0 ++ [0; 9; 0]).
Definition g_sink : G := after (recv qinit_frame) g_start.
Definition g_probed : G := after (recv (timed_probe_frame 5)) g_sink.
Lemma reach_g_probed : reach g_probed.
Proof.
  apply reach_recv; [apply reach_recv; [apply reach_g_start|vm_compute; reflexivity..]|vm_compute; reflexivity..].
Qed.
Definition sink_session (g : G) : qos_session :=
  default (QosSession 0 0 0 [] [] false) (g_QosSessions (qs g) !! 0%nat).
Lemma probed_lookup : g_QosSessions (qs g_probed) !! 0%nat = Some (sink_session g_probed).
Proof.
  unfold sink_session. destruct (g_QosSessions (qs g_probed) !! 0%nat) as [s|] eqn:H; [done|].
  apply (f_equal (fun o => match o with Some _ => true | None => false end)) in H. vm_compute in H. discriminate H.
Qed.
Lemma probed_session_ok : qos_session_ok (sink_session g_probed).
Proof.
  assert (H : qos_ok (qs g_probed)) by apply sample_inv, reach_g_probed.
  apply (Forall_lookup_1 _ _ _ _ (qk_sessions _ H) probed_lookup).
Qed.

(** A second probe with the same sequence number joins the first one's entry. *)
Lemma timed_probe_logged_witness :
  exists s', qos_timed_probe 0 g_probed
    = Ok tt (set_g_QosSessions (<[0%nat := s']> (g_QosSessions (qs g_probed))) g_probed)
  /\ length (session_log s') = 1%nat /\ (length <$> (snd <$> session_log s')) = [2%nat].
Proof.
  destruct (timed_probe_logged 0 (sink_session g_probed) g_probed
    (bo_rx _ (sample_base _ reach_g_probed)) probed_lookup probed_session_ok) as (s' & H1 & H2 & _).
  exists s'. split; [exact H1|]. rewrite H2. split; vm_compute; reflexivity.
Defined.

Lemma session_discarded_witness :
  wp (for_n 4 0 (fun _ => qos_inactivity_timeout))
     (fun _ g' => exists s', g_QosSessions (qs g') !! 0%nat = Some s' /\ qssn_is_valid s' = false) g_probed.
Proof.
  eapply wp_mono; [apply (session_discarded_after_four_ticks 4 0 (sink_session g_probed) g_probed probed_lookup);
    vm_compute; reflexivity|].
  intros [] g' (s' & H1 & [(H2 & _)|(_ & H2 & _)]); [lia|]. by exists s'.
Defined.
