(* ===== verification/DhcpTypes.v ===== *)
(** * DhcpTypes: the data of the DHCP server (udhcpd-0.9.8)

    Constants and structures of dhcpd.h, leases.h, packet.h and options.h, the
    process state of dhcpd.c, the library functions the server uses on strings,
    and the class [DhcpEnv] of what it asks the operating system.

    The target is a big-endian MIPS with 32-bit [unsigned long]: network order
    is host order, so [ntohl] and its kin are the identity on a word, and a
    word is stored with its most significant byte first. *)

From Stdlib Require Ascii.
From stdpp Require Export strings pretty.
From S2P Require Import Prelude.

#[global] Open Scope Z_scope.

(** ** Constants of dhcpd.h *)

Definition LEASE_TIME : Z := 60 * 60 * 24 * 1.
Definition SERVER_PORT : Z := 67.
Definition CLIENT_PORT : Z := 68.
Definition DHCP_MAGIC : Z := 0x63825363.
Definition DHCP_PADDING : Z := 0x00.
Definition DHCP_HOST_NAME : Z := 0x0c.
Definition DHCP_REQUESTED_IP : Z := 0x32.
Definition DHCP_LEASE_TIME : Z := 0x33.
Definition DHCP_OPTION_OVER : Z := 0x34.
Definition DHCP_MESSAGE_TYPE : Z := 0x35.
Definition DHCP_SERVER_ID : Z := 0x36.
Definition DHCP_VENDOR : Z := 0x3c.
Definition DHCP_END : Z := 0xFF.
Definition BOOTREQUEST : Z := 1.
Definition BOOTREPLY : Z := 2.
Definition ETH_10MB : Z := 1.
Definition ETH_10MB_LEN : Z := 6.
Definition DHCPDISCOVER : Z := 1.
Definition DHCPOFFER : Z := 2.
Definition DHCPREQUEST : Z := 3.
Definition DHCPDECLINE : Z := 4.
Definition DHCPACK : Z := 5.
Definition DHCPNAK : Z := 6.
Definition DHCPRELEASE : Z := 7.
Definition DHCPINFORM : Z := 8.
Definition BROADCAST_FLAG : Z := 0x8000.
Definition MAC_BCAST_ADDR : list Z := replicate 6 0xff.
Definition INADDR_BROADCAST : Z := 0xffffffff.
(** offsets in an option *)
Definition OPT_LEN : Z := 1.
Definition OPT_DATA : Z := 2.

(** The area an option is searched in: [OPTION_FIELD], [FILE_FIELD],
    [SNAME_FIELD]; the two last values are also the bits of the overload option. *)
Inductive opt_field : Type := In_options | In_file | In_sname.
Definition FILE_FIELD : Z := 1.
Definition SNAME_FIELD : Z := 2.

(** ** struct dhcpMessage of packet.h *)

Record dhcpMessage : Type := DhcpMessage {
  m_op : Z;
  m_htype : Z;
  m_hlen : Z;
  m_hops : Z;
  m_xid : Z;
  m_secs : Z;
  m_flags : Z;
  m_ciaddr : Z;
  m_yiaddr : Z;
  m_siaddr : Z;
  m_giaddr : Z;
  m_chaddr : list Z;      (* 16 bytes *)
  m_sname : list Z;       (* 64 bytes *)
  m_file : list Z;        (* 128 bytes *)
  m_cookie : Z;
  m_options : list Z      (* 308 bytes *)
}.
Definition sizeof_dhcpMessage : Z := 548.

Definition set_m_flags (v : Z) (p : dhcpMessage) : dhcpMessage :=
  DhcpMessage (m_op p) (m_htype p) (m_hlen p) (m_hops p) (m_xid p) (m_secs p) v (m_ciaddr p)
    (m_yiaddr p) (m_siaddr p) (m_giaddr p) (m_chaddr p) (m_sname p) (m_file p) (m_cookie p) (m_options p).
Definition set_m_yiaddr (v : Z) (p : dhcpMessage) : dhcpMessage :=
  DhcpMessage (m_op p) (m_htype p) (m_hlen p) (m_hops p) (m_xid p) (m_secs p) (m_flags p) (m_ciaddr p)
    v (m_siaddr p) (m_giaddr p) (m_chaddr p) (m_sname p) (m_file p) (m_cookie p) (m_options p).
Definition set_m_options (v : list Z) (p : dhcpMessage) : dhcpMessage :=
  DhcpMessage (m_op p) (m_htype p) (m_hlen p) (m_hops p) (m_xid p) (m_secs p) (m_flags p) (m_ciaddr p)
    (m_yiaddr p) (m_siaddr p) (m_giaddr p) (m_chaddr p) (m_sname p) (m_file p) (m_cookie p) v.

(** The structure as it lies in memory, and back. *)
Definition message_bytes (p : dhcpMessage) : list Z :=
  [m_op p; m_htype p; m_hlen p; m_hops p] ++ be32 (m_xid p) ++ be16 (m_secs p) ++ be16 (m_flags p)
  ++ be32 (m_ciaddr p) ++ be32 (m_yiaddr p) ++ be32 (m_siaddr p) ++ be32 (m_giaddr p)
  ++ m_chaddr p ++ m_sname p ++ m_file p ++ be32 (m_cookie p) ++ m_options p.

Definition span (n off : nat) (b : list Z) : list Z := take n (drop off b).
Definition message_of (b : list Z) : dhcpMessage :=
  DhcpMessage (of_be (span 1 0 b)) (of_be (span 1 1 b)) (of_be (span 1 2 b)) (of_be (span 1 3 b))
    (of_be (span 4 4 b)) (of_be (span 2 8 b)) (of_be (span 2 10 b)) (of_be (span 4 12 b))
    (of_be (span 4 16 b)) (of_be (span 4 20 b)) (of_be (span 4 24 b))
    (span 16 28 b) (span 64 44 b) (span 128 108 b) (of_be (span 4 236 b)) (span 308 240 b).

Lemma span_app n off a b : length a = off -> span n off (a ++ b) = take n b.
Proof. intros <-. unfold span. by rewrite drop_app_length. Qed.

(** ** struct dhcpOfferedAddr of leases.h *)

Record dhcpOfferedAddr : Type := OfferedAddr {
  chaddr : list Z;        (* 16 bytes *)
  yiaddr : Z;
  expires : Z;
  hostname : list Z       (* 64 bytes *)
}.
Definition blank_chaddr : list Z := replicate 16 0.
Definition zero_lease : dhcpOfferedAddr := OfferedAddr blank_chaddr 0 0 (replicate 64 0).

(** ** struct server_config_t of dhcpd.h

    An [option_set] is its [data]: code, length, payload. *)

Record server_config_t : Type := ServerConfig {
  server : Z;
  start : Z;
  end_ : Z;
  options_list : list (list Z);
  ifindex : Z;
  arp : list Z;
  lease : Z;
  max_leases : Z;
  remaining : Z;
  auto_time : Z;
  decline_time : Z;
  conflict_time : Z;
  offer_time : Z;
  min_lease : Z;
  siaddr : Z;
  sname : option (list Z);
  boot_file : option (list Z);
  notify_file : option string;
  lease_file : string;
  interface : string;
  pidfile : string
}.

(** ** The process *)

Inductive dhcp_output : Type :=
  | Raw_frame (ifindex : Z) (dest_arp : list Z) (bytes : list Z)     (* sendto on a packet socket *)
  | Udp_payload (src_ip src_port dst_ip dst_port : Z) (bytes : list Z) (* write on a UDP socket *)
  | System (command : string)                                         (* system() *)
  | Leases_written (bytes : list Z).                                  (* the new lease file *)

Record dhcpd : Type := Dhcpd {
  server_config : server_config_t;
  leases : list dhcpOfferedAddr;
  vizio_device : Z;
  timeout_end : Z;
  server_open : bool;           (* server_socket >= 0 *)
  config_path : option (list Z); (* the buffer of main, once it is written *)
  leases_size : Z;              (* the bytes that malloc gave for the table *)
  d_calls : nat;                (* calls of the operating system so far *)
  d_out : list dhcp_output      (* what was handed to it, oldest first *)
}.

Definition set_leases (v : list dhcpOfferedAddr) (d : dhcpd) : dhcpd :=
  Dhcpd (server_config d) v (vizio_device d) (timeout_end d) (server_open d) (config_path d) (leases_size d) (d_calls d) (d_out d).
Definition set_vizio_device (v : Z) (d : dhcpd) : dhcpd :=
  Dhcpd (server_config d) (leases d) v (timeout_end d) (server_open d) (config_path d) (leases_size d) (d_calls d) (d_out d).
Definition set_timeout_end (v : Z) (d : dhcpd) : dhcpd :=
  Dhcpd (server_config d) (leases d) (vizio_device d) v (server_open d) (config_path d) (leases_size d) (d_calls d) (d_out d).
Definition set_server_open (v : bool) (d : dhcpd) : dhcpd :=
  Dhcpd (server_config d) (leases d) (vizio_device d) (timeout_end d) v (config_path d) (leases_size d) (d_calls d) (d_out d).
Definition set_config_path (v : option (list Z)) (d : dhcpd) : dhcpd :=
  Dhcpd (server_config d) (leases d) (vizio_device d) (timeout_end d) (server_open d) v (leases_size d) (d_calls d) (d_out d).
Definition set_leases_size (v : Z) (d : dhcpd) : dhcpd :=
  Dhcpd (server_config d) (leases d) (vizio_device d) (timeout_end d) (server_open d) (config_path d) v (d_calls d) (d_out d).
Definition set_d_calls (v : nat) (d : dhcpd) : dhcpd :=
  Dhcpd (server_config d) (leases d) (vizio_device d) (timeout_end d) (server_open d) (config_path d) (leases_size d) v (d_out d).
Definition set_d_out (v : list dhcp_output) (d : dhcpd) : dhcpd :=
  Dhcpd (server_config d) (leases d) (vizio_device d) (timeout_end d) (server_open d) (config_path d) (leases_size d) (d_calls d) v.
Definition set_server_config (v : server_config_t) (d : dhcpd) : dhcpd :=
  Dhcpd v (leases d) (vizio_device d) (timeout_end d) (server_open d) (config_path d) (leases_size d) (d_calls d) (d_out d).

Abbreviation DM := (M dhcpd).

(** What the server asks the operating system; each call carries the number of
    calls made before it. *)
Class DhcpEnv : Type := {
  (** sysinfo().uptime *)
  env_uptime : nat -> Z;
  (** arpping(): 1 address free, 0 address used, -1 error (arpping.c) *)
  env_arpping : nat -> Z -> Z;
  (** nvram_safe_get("lan_ipaddr") *)
  env_lan_ipaddr : nat -> string;
  (** inet_aton of nvram_safe_get("lan_netmask") *)
  env_lan_netmask : nat -> Z;
  (** socket(), bind(), setsockopt(), connect() succeed *)
  env_sock_ok : nat -> bool;
  (** sendto() and write(): the result *)
  env_sent : nat -> list Z -> Z;
  (** fopen() of the lease file for writing succeeds *)
  env_lease_file_ok : nat -> bool;
  (** the lease file, when it can be opened for reading *)
  env_lease_file : nat -> option (list Z);
  (** /tmp/udhcpd.lease.no, when it can be opened for reading *)
  env_lease_no : nat -> option (list Z);
  (** read_interface(): the index, the address and the hardware address *)
  env_interface : nat -> option (Z * Z * list Z);
  (** the configuration file, when it can be opened *)
  env_config_file : nat -> option (list Z);
  (** inet_aton(): the address of a text *)
  env_inet_aton : list Z -> option Z;
  (** gethostbyname(): the first address of a host *)
  env_gethostbyname : nat -> list Z -> option Z;
  (** fopen() of the log file for appending succeeds *)
  env_log_ok : nat -> bool;
  (** malloc() of a number of bytes succeeds *)
  env_malloc : nat -> Z -> bool;
  (** nvram_safe_get("wan_domain") and ("wan_domain_default") *)
  env_wan_domain : nat -> string;
  env_wan_domain_default : nat -> string;
  (** daemon() succeeds *)
  env_daemon : nat -> bool;
  (** listen_socket() succeeds *)
  env_listen : nat -> bool
}.

Class DhcpLaws (E : DhcpEnv) : Prop := {
  env_uptime_range n : 0 <= env_uptime n < 4294967296;
  env_inet_aton_range s a : env_inet_aton s = Some a -> 0 <= a < 4294967296;
  env_gethostbyname_range n s a : env_gethostbyname n s = Some a -> 0 <= a < 4294967296;
  env_config_bytes n f : env_config_file n = Some f -> Forall is_byte f;
  env_lease_bytes n f : env_lease_file n = Some f -> Forall is_byte f
}.

(** ** C library *)

(** The dotted form of an address in network order. *)
Definition inet_ntoa (addr : Z) : string :=
  let byte k := pretty (Z.to_N (u8 (addr / k))) in
  byte 16777216 +:+ "." +:+ byte 65536 +:+ "." +:+ byte 256 +:+ "." +:+ byte 1.

Definition hex_digit (z : Z) : Ascii.ascii :=
  Ascii.ascii_of_N (Z.to_N (if z <? 10 then 48 + z else 55 + z)).
(** [%02X] of a byte *)
Definition hex2 (b : Z) : string :=
  String (hex_digit (b / 16)) (String (hex_digit (b mod 16)) EmptyString).

(** [strncpy(dst, src, n)]: the [n] bytes it writes. *)
Fixpoint strncpy (n : nat) (src : list Z) : list Z :=
  match n, src with
  | O, _ => []
  | S n', 0 :: _ | S n', [] => replicate (S n') 0
  | S n', c :: src' => c :: strncpy n' src'
  end.

Lemma strncpy_length n src : length (strncpy n src) = n.
Proof.
  revert src. induction n as [|n IH]; intros [|[|c|c] src]; simpl; try done; by rewrite ?length_replicate, ?IH.
Qed.

Definition bytes_of_string (s : string) : list Z :=
  (fun c => Z.of_N (Ascii.N_of_ascii c)) <$> String.list_ascii_of_string s.

(** The bytes before the first NUL. *)
Fixpoint cstring (b : list Z) : list Z :=
  match b with
  | [] => []
  | c :: b' => if c =? 0 then [] else c :: cstring b'
  end.

(** The characters a call of fgets takes, what it leaves, and whether it met
    the end of the file. *)
Fixpoint take_line (k : nat) (file : list Z) : list Z * list Z * bool :=
  match k with
  | O => ([], file, false)
  | S k' =>
      match file with
      | [] => ([], [], true)
      | c :: file' =>
          if c =? 10 then ([c], file', false)
          else let '(line, rest, eof) := take_line k' file' in (c :: line, rest, eof)
      end
  end.

Section with_env.
Context `{E : DhcpEnv}.

Definition dsys {A} (f : nat -> A) : DM A :=
  n ← gets d_calls; modify (set_d_calls (S n));; mret (f n).
Definition sys_time : DM Z := dsys env_uptime.
Definition emit_out (o : dhcp_output) : DM unit := modify (fun d => set_d_out (d_out d ++ [o]) d).

(** [sprintf(buf, ...); system(buf);] with a buffer of [cap] bytes. *)
Definition sprintf_system (cap : nat) (cmd : string) : DM unit :=
  if decide (String.length cmd < cap)%nat then emit_out (System cmd) else fail Out_of_bounds.

(** [leases[i]] *)
Definition lease_get (i : nat) : DM dhcpOfferedAddr := ls ← gets leases; in_bounds (ls !! i).
Definition lease_set (i : nat) (l : dhcpOfferedAddr) : DM unit :=
  ls ← gets leases; _ ← in_bounds (ls !! i); modify (set_leases (<[i := l]> ls)).
Definition num_leases : DM nat := Z.to_nat <$> gets (fun d => max_leases (server_config d)).

Lemma dsys_run {A} (f : nat -> A) a d : f (d_calls d) = a -> dsys f d = Ok a (set_d_calls (S (d_calls d)) d).
Proof. by intros <-. Qed.
End with_env.
