(* ===== verification/DhcpOptions.v ===== *)
(** * DhcpOptions: the option field of a DHCP message (options.c)

    The table of supported options, the search of an option in a received
    message with its overload into the [file] and [sname] fields, the addition
    of options to a message, and the sorted list of configured options. *)

From S2P Require Import Prelude DhcpTypes.

(** ** The table of supported options *)

Definition TYPE_MASK : Z := 0x0F.
Definition OPTION_IP : Z := 1.
Definition OPTION_IP_PAIR : Z := 2.
Definition OPTION_STRING : Z := 3.
Definition OPTION_BOOLEAN : Z := 4.
Definition OPTION_U8 : Z := 5.
Definition OPTION_U16 : Z := 6.
Definition OPTION_S16 : Z := 7.
Definition OPTION_U32 : Z := 8.
Definition OPTION_S32 : Z := 9.
Definition OPTION_REQ : Z := 0x10.
Definition OPTION_LIST : Z := 0x20.

Record dhcp_option : Type := DhcpOption { o_name : string; o_flags : Z; o_code : Z }.

Definition options : list dhcp_option := [
  DhcpOption "subnet" (Z.lor OPTION_IP OPTION_REQ) 0x01;
  DhcpOption "timezone" OPTION_S32 0x02;
  DhcpOption "router" (Z.lor (Z.lor OPTION_IP OPTION_LIST) OPTION_REQ) 0x03;
  DhcpOption "timesvr" (Z.lor OPTION_IP OPTION_LIST) 0x04;
  DhcpOption "namesvr" (Z.lor OPTION_IP OPTION_LIST) 0x05;
  DhcpOption "dns" (Z.lor (Z.lor OPTION_IP OPTION_LIST) OPTION_REQ) 0x06;
  DhcpOption "logsvr" (Z.lor OPTION_IP OPTION_LIST) 0x07;
  DhcpOption "cookiesvr" (Z.lor OPTION_IP OPTION_LIST) 0x08;
  DhcpOption "lprsvr" (Z.lor OPTION_IP OPTION_LIST) 0x09;
  DhcpOption "hostname" (Z.lor OPTION_STRING OPTION_REQ) 0x0c;
  DhcpOption "bootsize" OPTION_U16 0x0d;
  DhcpOption "domain" (Z.lor OPTION_STRING OPTION_REQ) 0x0f;
  DhcpOption "swapsvr" OPTION_IP 0x10;
  DhcpOption "rootpath" OPTION_STRING 0x11;
  DhcpOption "ipttl" OPTION_U8 0x17;
  DhcpOption "mtu" OPTION_U16 0x1a;
  DhcpOption "broadcast" (Z.lor OPTION_IP OPTION_REQ) 0x1c;
  DhcpOption "ntpsrv" (Z.lor OPTION_IP OPTION_LIST) 0x2a;
  DhcpOption "wins" (Z.lor (Z.lor OPTION_IP OPTION_LIST) OPTION_REQ) 0x2c;
  DhcpOption "requestip" OPTION_IP 0x32;
  DhcpOption "lease" OPTION_U32 0x33;
  DhcpOption "dhcptype" OPTION_U8 0x35;
  DhcpOption "serverid" OPTION_IP 0x36;
  DhcpOption "message" OPTION_STRING 0x38;
  DhcpOption "tftp" OPTION_STRING 0x42;
  DhcpOption "bootfile" OPTION_STRING 0x43
].

Definition option_lengths (type : Z) : Z :=
  if type =? OPTION_IP then 4
  else if type =? OPTION_IP_PAIR then 8
  else if (type =? OPTION_BOOLEAN) || (type =? OPTION_STRING) || (type =? OPTION_U8) then 1
  else if (type =? OPTION_U16) || (type =? OPTION_S16) then 2
  else if (type =? OPTION_U32) || (type =? OPTION_S32) then 4
  else 0.

(** ** Searching an option *)

Definition field_bytes (p : dhcpMessage) (f : opt_field) : list Z :=
  match f with In_options => m_options p | In_file => m_file p | In_sname => m_sname p end.
Definition field_length (f : opt_field) : Z :=
  match f with In_options => 308 | In_file => 128 | In_sname => 64 end.

(** A pointer into a message: a field and an offset in it. *)
Definition opt_ptr : Type := opt_field * Z.
(** [ptr[k]] *)
Definition opt_byte {T} (p : dhcpMessage) (f : opt_field) (k : Z) : M T Z :=
  if 0 <=? k then in_bounds (field_bytes p f !! Z.to_nat k) else fail Out_of_bounds.
(** [memcpy(&word, ptr, 4)] *)
Definition opt_word {T} (p : dhcpMessage) (ptr : opt_ptr) : M T Z :=
  of_be <$> in_bounds (load 4 (field_bytes p (fst ptr)) (snd ptr)).

(** [ptr[0] == 'V' && ptr[1] == 'I' && ...]: a byte is read only when the ones
    before it match. *)
Fixpoint starts_with (p : dhcpMessage) (f : opt_field) (k : Z) (text : list Z) : DM bool :=
  match text with
  | [] => mret true
  | c :: text' =>
      b ← opt_byte p f k;
      if b =? c then starts_with p f (k + 1) text' else mret false
  end.
Definition VIZIO : list Z := [0x56; 0x49; 0x5A; 0x49; 0x4F].

(** The loop of get_option.  In the case of the overload option the code takes
    [optionptr[OPT_LEN]], the second byte of the field, for the length to skip,
    and the byte at [i + 3] for its value. *)
Fixpoint get_option_loop (fuel : nat) (p : dhcpMessage) (code : Z) (curr : opt_field) (i over : Z)
    : DM (option opt_ptr) :=
  match fuel with
  | O => fail Out_of_fuel
  | S fuel' =>
      if field_length curr <=? i then mret None (* bogus packet, option fields too long *)
      else
        c ← opt_byte p curr i;
        if c =? code then
          len ← opt_byte p curr (i + OPT_LEN);
          if field_length curr <=? i + 1 + len then mret None else mret (Some (curr, i + 2))
        else if c =? DHCP_VENDOR then
          viz ← starts_with p curr (i + OPT_DATA) VIZIO;
          modify (set_vizio_device (if viz : bool then 1 else 0));;
          len ← opt_byte p curr (OPT_LEN + i);
          get_option_loop fuel' p code curr (i + (len + 2)) over
        else if c =? DHCP_PADDING then get_option_loop fuel' p code curr (i + 1) over
        else if c =? DHCP_OPTION_OVER then
          len ← opt_byte p curr (i + OPT_LEN);
          if field_length curr <=? i + 1 + len then mret None
          else
            over ← opt_byte p curr (i + 3);
            skip ← opt_byte p curr OPT_LEN;
            get_option_loop fuel' p code curr (i + (skip + 2)) over
        else if c =? DHCP_END then
          match curr with
          | In_options =>
              if negb (Z.land over FILE_FIELD =? 0) then get_option_loop fuel' p code In_file 0 over
              else mret None
          | In_file =>
              if negb (Z.land over SNAME_FIELD =? 0) then get_option_loop fuel' p code In_sname 0 over
              else mret None
          | In_sname => mret None
          end
        else
          len ← opt_byte p curr (OPT_LEN + i);
          get_option_loop fuel' p code curr (i + (len + 2)) over
  end.
Definition get_option (p : dhcpMessage) (code : Z) : DM (option opt_ptr) :=
  get_option_loop 512 p code In_options 0 0.

(** ** Adding options

    [optionptr] is the 308 bytes of the message under construction. *)

Definition opt_at {T} (b : list Z) (i : Z) : M T Z := in_bounds (b !! Z.to_nat i).

Fixpoint end_option_loop {T} (fuel : nat) (b : list Z) (i : Z) : M T Z :=
  match fuel with
  | O => fail Out_of_fuel
  | S fuel' =>
      c ← opt_at b i;
      if c =? DHCP_END then mret i
      else if c =? DHCP_PADDING then end_option_loop fuel' b (i + 1)
      else len ← opt_at b (i + OPT_LEN); end_option_loop fuel' b (i + (len + 2))
  end.
Definition end_option {T} (b : list Z) : M T Z := end_option_loop (S (length b)) b 0.

(** The new bytes, and the value returned. *)
Definition add_option_string {T} (b : list Z) (str : option (list Z)) : M T (list Z * Z) :=
  match str with
  | None => mret (b, 0)
  | Some s =>
      e ← end_option b;
      len ← opt_at s OPT_LEN;
      if 308 <=? e + len + 2 + 1 then mret (b, 0) (* did not fit into the packet *)
      else
        bytes ← in_bounds (load (Z.to_nat (len + 2)) s 0);
        b ← in_bounds (store bytes b e);
        b ← in_bounds (store [DHCP_END] b (e + len + 2));
        mret (b, len + 2)
  end.

(** The table is searched to its end: the last entry with the code counts. *)
Definition option_length (code : Z) : Z :=
  fold_left (fun len o => if o_code o =? code then option_lengths (Z.land (o_flags o) TYPE_MASK) else len)
    options 0.

Definition add_simple_option {T} (b : list Z) (code data : Z) : M T (list Z * Z) :=
  let length := option_length code in
  if length =? 0 then mret (b, 0) (* could not add option *)
  else
    let aligned := if length =? 1 then [u8 data]
                   else if length =? 2 then be16 data
                   else be32 data in
    add_option_string b (Some (code :: length :: aligned)).

(** ** The configured options

    A list sorted by code.  [find_option] takes its code as a [char], which is
    signed on the target, and compares it with [unsigned char] data. *)

Definition s8 (z : Z) : Z := (z + 128) mod 256 - 128.

Definition opt_code (o : list Z) : Z := default 0 (o !! 0%nat).
Fixpoint find_option (l : list (list Z)) (code : Z) : option (list Z) :=
  match l with
  | [] => None
  | o :: l' =>
      if opt_code o <? s8 code then find_option l' code
      else if opt_code o =? s8 code then Some o else None
  end.

(** The place of [existing]: the list with that node's data replaced. *)
Fixpoint replace_option (l : list (list Z)) (code : Z) (new : list Z) : list (list Z) :=
  match l with
  | [] => []
  | o :: l' => if opt_code o <? s8 code then o :: replace_option l' code new else new :: l'
  end.
Fixpoint insert_option (l : list (list Z)) (code : Z) (new : list Z) : list (list Z) :=
  match l with
  | [] => [new]
  | o :: l' => if opt_code o <? code then o :: insert_option l' code new else new :: o :: l'
  end.

Definition attach_option (l : list (list Z)) (option : dhcp_option) (buffer : list Z) : list (list Z) :=
  match find_option l (o_code option) with
  | Some existing =>
      if negb (Z.land (o_flags option) OPTION_LIST =? 0) then
        let old := default 0 (existing !! 1%nat) in
        if old + Z.of_nat (length buffer) <=? 255 then
          replace_option l (o_code option)
            (opt_code existing :: u8 (old + Z.of_nat (length buffer))
             :: take (Z.to_nat old) (drop 2 existing) ++ buffer)
        else l
      else l
  | None => insert_option l (o_code option) (o_code option :: u8 (Z.of_nat (length buffer)) :: buffer)
  end.

(** free_options stops after the lease option, which it frees too: what it
    frees, and what is left unreferenced. *)
Fixpoint free_options (l : list (list Z)) : list (list Z) * list (list Z) :=
  match l with
  | [] => ([], [])
  | o :: l' =>
      if opt_code o =? 0x33 then ([o], l')
      else let '(freed, leaked) := free_options l' in (o :: freed, leaked)
  end.

(** ** The search ends *)

(** A message as it lies in memory: its areas have their sizes and hold bytes. *)
Record message_ok (p : dhcpMessage) : Prop := MessageOk {
  mo_chaddr : length (m_chaddr p) = 16%nat;
  mo_sname : length (m_sname p) = 64%nat;
  mo_file : length (m_file p) = 128%nat;
  mo_options : length (m_options p) = 308%nat;
  mo_chaddr_bytes : Forall is_byte (m_chaddr p);
  mo_sname_bytes : Forall is_byte (m_sname p);
  mo_file_bytes : Forall is_byte (m_file p);
  mo_options_bytes : Forall is_byte (m_options p)
}.

Lemma field_bytes_ok p f : message_ok p ->
  Z.of_nat (length (field_bytes p f)) = field_length f /\ Forall is_byte (field_bytes p f).
Proof. intros []. destruct f; simpl; split; try done; lia. Qed.

(** What a search may end with: the option is inside its area, or it was not
    found, or the search read outside of the area. *)
Definition search_result (p : dhcpMessage) (code : Z) (d : dhcpd) (r : res dhcpd (option opt_ptr)) : Prop :=
  match r with
  | Ok None d' => d' = set_vizio_device (vizio_device d') d
  | Ok (Some (f, off)) d' =>
      d' = set_vizio_device (vizio_device d') d /\ 2 <= off
      /\ field_bytes p f !! Z.to_nat (off - 2) = Some code
      /\ exists len, field_bytes p f !! Z.to_nat (off - 1) = Some len /\ 0 <= len < 256
                     /\ off + len <= field_length f
  | Err e => e = Out_of_bounds
  end.

Lemma opt_byte_cases {T} p f k (P : res T Z -> Prop) d : message_ok p -> 0 <= k ->
  (forall b, field_bytes p f !! Z.to_nat k = Some b -> 0 <= b < 256 -> P (Ok b d)) ->
  P (Err Out_of_bounds) -> P (opt_byte p f k d).
Proof.
  intros Hp Hk HP HE. unfold opt_byte. rewrite (proj2 (Z.leb_le _ _) Hk).
  destruct (field_bytes p f !! Z.to_nat k) as [b|] eqn:Hb; [|exact HE]. apply (HP b); [done|].
  exact (Forall_lookup_1 _ _ _ _ (proj2 (field_bytes_ok p f Hp)) Hb).
Qed.

(** A computation followed by another, when the first may stop with
    [Out_of_bounds]. *)
Lemma bind_cases {T A B} (m : M T A) (k : A -> M T B) (P : res T B -> Prop) d :
  (forall a d', m d = Ok a d' -> P (k a d')) -> (forall e, m d = Err e -> P (Err e)) -> P ((m ≫= k) d).
Proof. intros H1 H2. unfold mbind, M_bind. destruct (m d) as [a d'|e] eqn:Hm; [by apply H1|by apply H2]. Qed.

Lemma opt_byte_bind {T B} p f i (k : Z -> M T B) (P : res T B -> Prop) d : message_ok p -> 0 <= i ->
  (forall b, field_bytes p f !! Z.to_nat i = Some b -> 0 <= b < 256 -> P (k b d)) ->
  P (Err Out_of_bounds) -> P ((opt_byte p f i ≫= k) d).
Proof.
  intros Hp Hi HP HE. unfold mbind, M_bind.
  apply (opt_byte_cases p f i (fun r => P (match r with Ok a s => k a s | Err e => Err e end))); done.
Qed.

Lemma starts_with_cases p f text k (P : res dhcpd bool -> Prop) d : message_ok p -> 0 <= k ->
  (forall b, P (Ok b d)) -> P (Err Out_of_bounds) -> P (starts_with p f k text d).
Proof.
  intros Hp Hk HP HE. revert k Hk. induction text as [|c text IH]; intros k Hk; cbn [starts_with]; [apply HP|].
  apply opt_byte_bind; [done|done| |done]. intros b _ _. destruct (b =? c); [apply IH; lia|apply HP].
Qed.

(** An upper bound of the iterations left. *)
Definition search_left (f : opt_field) (i : Z) : Z :=
  Z.max 0 (field_length f - i) + 1
  + match f with In_options => 128 + 64 + 2 | In_file => 64 + 1 | In_sname => 0 end.

Lemma search_ends fuel p code f i over d :
  message_ok p -> 0 <= i -> search_left f i <= Z.of_nat fuel ->
  search_result p code d (get_option_loop fuel p code f i over d).
Proof.
  intros Hp. revert f i over d. induction fuel as [|fuel IH]; intros f i over d Hi Hf.
  { exfalso. unfold search_left in Hf. destruct f; lia. }
  assert (Hnext : forall f i over v, 0 <= i -> search_left f i <= Z.of_nat fuel ->
    search_result p code d (get_option_loop fuel p code f i over (set_vizio_device v d))).
  { intros f' i' over' v H1 H2. pose proof (IH f' i' over' (set_vizio_device v d) H1 H2) as H. exact H. }
  assert (Hsame : forall f i over, 0 <= i -> search_left f i <= Z.of_nat fuel ->
    search_result p code d (get_option_loop fuel p code f i over d)) by (intros; by apply IH).
  assert (Hnone : search_result p code d (Ok None d)) by (by destruct d).
  cbn [get_option_loop]. apply run_if; intros Hlen; [exact Hnone|apply Z.leb_gt in Hlen].
  assert (Hstep : forall n, 1 <= n -> search_left f (i + n) <= Z.of_nat fuel) by (unfold search_left in *; lia).
  apply opt_byte_bind; [done|done| |done]. intros c Hc _. apply run_if; intros Hcode.
  { apply Z.eqb_eq in Hcode. subst c. unfold OPT_LEN. apply opt_byte_bind; [done|lia| |done]. intros len Hl Hr.
    apply run_if; intros Hl2; [exact Hnone|apply Z.leb_gt in Hl2]. split; [by destruct d|].
    split; [lia|]. split; [by replace (i + 2 - 2) with i by lia|].
    exists len. split; [by replace (i + 2 - 1) with (i + 1) by lia|lia]. }
  apply run_if; intros _.
  { apply bind_cases; [|intros e He; revert He].
    - intros viz d1 Hv.
      assert (d1 = d) as ->.
      { revert Hv. unfold OPT_DATA. apply (starts_with_cases p f VIZIO (i + 2) (fun r => r = Ok viz d1 -> d1 = d)); [done|lia| |done].
        by intros b [= _ <-]. }
      eapply run_bind; [reflexivity|]. unfold OPT_LEN.
      apply opt_byte_bind; [done|lia| |done]. intros len _ Hr. apply Hnext; [lia|]. apply Hstep. lia.
    - unfold OPT_DATA. apply (starts_with_cases p f VIZIO (i + 2) (fun r => r = Err e -> search_result p code d (Err e))); [done|lia|done|].
      by intros [= <-]. }
  apply run_if; intros _; [apply Hsame; [lia|apply Hstep; lia]|].
  apply run_if; intros _.
  { unfold OPT_LEN. apply opt_byte_bind; [done|lia| |done]. intros len _ Hr. apply run_if; intros _; [exact Hnone|].
    apply opt_byte_bind; [done|lia| |done]. intros ov _ _. apply opt_byte_bind; [done|lia| |done].
    intros skip _ Hs. apply Hsame; [lia|apply Hstep; lia]. }
  apply run_if; intros _.
  { destruct f; [apply run_if; intros _; [|exact Hnone]..|exact Hnone];
      (apply Hsame; [lia|unfold search_left, field_length in *; lia]). }
  unfold OPT_LEN. apply opt_byte_bind; [done|lia| |done]. intros len _ Hr. apply Hsame; [lia|apply Hstep; lia].
Qed.

(** The search of an option ends on every message, whatever its bytes, within
    the 512 rounds of the model: the position only grows in an area, and the
    areas are taken once each in the order options, file, sname. It finds the
    code, with its length byte before the data and the data inside of the area,
    or it finds nothing, or it has read outside of the area; and it changes
    nothing but the flag for the vendor option. *)
Theorem get_option_ends p code d :
  message_ok p -> search_result p code d (get_option p code d).
Proof. intros Hp. apply search_ends; [done|done|]. by vm_compute. Qed.

(** ** Option fields as lists of options *)

Definition enc_opt (o : Z * list Z) : list Z := fst o :: Z.of_nat (length (snd o)) :: snd o.
Definition enc_opts (l : list (Z * list Z)) : list Z := concat (enc_opt <$> l).

Definition option_wf (o : Z * list Z) : Prop :=
  0 < fst o < 255 /\ (length (snd o) < 256)%nat /\ Forall is_byte (snd o).

(** The field holds the options [l], the end mark and anything after it. *)
Record opts_layout (l : list (Z * list Z)) (b : list Z) : Prop := OptsLayout {
  ol_size : length b = 308%nat;
  ol_wf : Forall option_wf l;
  ol_bytes : exists rest, b = enc_opts l ++ DHCP_END :: rest
}.

Lemma enc_opts_cons o l : enc_opts (o :: l) = enc_opt o ++ enc_opts l.
Proof. done. Qed.
Lemma enc_opts_snoc l o : enc_opts (l ++ [o]) = enc_opts l ++ enc_opt o.
Proof. unfold enc_opts. rewrite fmap_app, concat_app. simpl. by rewrite app_nil_r. Qed.
Lemma enc_opt_length o : length (enc_opt o) = S (S (length (snd o))).
Proof. done. Qed.

Lemma opt_at_run {T} pre c rest i (d : T) : i = Z.of_nat (length pre) -> opt_at (pre ++ c :: rest) i d = Ok c d.
Proof.
  intros ->. unfold opt_at. rewrite Nat2Z.id, list_lookup_middle by done. done.
Qed.

(** The scan for the end mark goes over the options one by one. *)
Lemma end_option_scan {T} pre l rest fuel i (d : T) :
  Forall option_wf l -> i = Z.of_nat (length pre) -> (length l < fuel)%nat ->
  end_option_loop fuel (pre ++ enc_opts l ++ DHCP_END :: rest) i d
  = Ok (i + Z.of_nat (length (enc_opts l))) d.
Proof.
  revert pre fuel i. induction l as [|o l IH]; intros pre fuel i Hwf Hi Hf; (destruct fuel as [|fuel]; [simpl in Hf; lia|]).
  - cbn [end_option_loop]. eapply run_bind; [by apply opt_at_run|]. simpl. by rewrite Z.add_0_r.
  - apply Forall_cons in Hwf as [Ho Hwf]. destruct Ho as (Hc & Hlen & _). simpl in Hf.
    rewrite enc_opts_cons. destruct o as [c dd]. simpl in Hc, Hlen. unfold enc_opt. cbn [fst snd end_option_loop].
    rewrite <- !app_assoc, <- !app_comm_cons.
    eapply run_bind; [by apply opt_at_run|].
    unfold DHCP_END at 1, DHCP_PADDING.
    destruct (Z.eqb_spec c 0xFF); [lia|]. destruct (Z.eqb_spec c 0); [lia|].
    eapply run_bind.
    { rewrite (cons_middle c), app_assoc. apply opt_at_run. rewrite length_app. unfold OPT_LEN. simpl. lia. }
    replace (pre ++ c :: Z.of_nat (length dd) :: dd ++ enc_opts l ++ DHCP_END :: rest)
      with ((pre ++ enc_opt (c, dd)) ++ enc_opts l ++ DHCP_END :: rest)
      by (unfold enc_opt; cbn [fst snd]; rewrite <- !app_assoc, <- !app_comm_cons; done).
    rewrite IH; [|done|rewrite length_app, enc_opt_length; simpl; lia|lia].
    cbn [length]. rewrite length_app. f_equal; lia.
Qed.

Lemma enc_opts_count l : Forall option_wf l -> (length l <= length (enc_opts l))%nat.
Proof.
  induction 1 as [|o l _ _ IH]; [done|]. rewrite enc_opts_cons, length_app, enc_opt_length. simpl. lia.
Qed.

Lemma end_option_run {T} l b (d : T) : opts_layout l b ->
  end_option b d = Ok (Z.of_nat (length (enc_opts l))) d.
Proof.
  intros [Hs Hwf [rest ->]]. unfold end_option.
  rewrite (end_option_scan [] l rest) by (done || (rewrite length_app; pose proof (enc_opts_count l Hwf); lia)). done.
Qed.

(** The abstract field: options are appended while they fit. *)
Definition opt_fits (l : list (Z * list Z)) (o : Z * list Z) : bool :=
  (Z.of_nat (length (enc_opts l)) + Z.of_nat (length (snd o)) + 3 <? 308).
Definition push_opt (l : list (Z * list Z)) (o : Z * list Z) : list (Z * list Z) :=
  if opt_fits l o then l ++ [o] else l.

Lemma store_middle pre bytes old rest b :
  b = pre ++ old ++ rest -> length old = length bytes ->
  store bytes b (Z.of_nat (length pre)) = Some (pre ++ bytes ++ rest).
Proof.
  intros -> Hl. rewrite store_ok by (rewrite ?length_app; lia). f_equal. rewrite Nat2Z.id.
  rewrite <- (Nat.add_0_r (length pre)), list_inserts_app_r. f_equal. by apply list_inserts_0_r.
Qed.

(** One addition: the option at the end if it fits, and nothing otherwise. *)
Lemma add_option_run {T} l b o (d : T) : opts_layout l b -> option_wf o ->
  exists b', add_option_string b (Some (enc_opt o)) d
    = Ok (b', if opt_fits l o then Z.of_nat (length (snd o)) + 2 else 0) d
  /\ opts_layout (push_opt l o) b'.
Proof.
  intros Hl Ho. pose proof Hl as [Hs Hwf [rest Hb]]. pose proof Ho as (Hc & Hlen & Hbytes).
  set (e := Z.of_nat (length (enc_opts l))). set (n := Z.of_nat (length (snd o))).
  assert (Hhead : forall P, P ((if 308 <=? e + n + 2 + 1 then mret (b, 0) else
      bytes ← in_bounds (load (Z.to_nat (n + 2)) (enc_opt o) 0);
      b ← in_bounds (store bytes b e);
      b ← in_bounds (store [DHCP_END] b (e + n + 2)); mret (b, n + 2)) d) ->
    P (add_option_string b (Some (enc_opt o)) d)).
  { intros P HP. unfold add_option_string. eapply run_bind; [by apply (end_option_run l)|].
    eapply run_bind; [apply (opt_at_run [fst o]); done|]. exact HP. }
  unfold push_opt, opt_fits. fold e n. destruct (Z.ltb_spec (e + n + 3) 308) as [Hfit|Hfit].
  2: { exists b. split; [|done]. apply Hhead. by destruct (Z.leb_spec 308 (e + n + 2 + 1)); [|lia]. }
  assert (Hrest : (length (enc_opts l) + S (length rest) = 308)%nat) by (rewrite <- Hs, Hb, length_app; done).
  assert (Htail : exists t1 x t2, DHCP_END :: rest = t1 ++ x :: t2 /\ length t1 = length (enc_opt o)).
  { rewrite enc_opt_length. destruct (lookup_lt_is_Some_2 (DHCP_END :: rest) (S (S (length (snd o))))) as [x Hx]; [simpl; lia|].
    exists (take (S (S (length (snd o)))) (DHCP_END :: rest)), x, (drop (S (S (S (length (snd o))))) (DHCP_END :: rest)).
    split; [by rewrite take_drop_middle|]. rewrite length_take. cbn [length]. lia. }
  destruct Htail as (t1 & x & t2 & Ht & Ht1). rewrite Ht in Hb.
  exists (enc_opts (l ++ [o]) ++ DHCP_END :: t2). split.
  - apply Hhead. destruct (Z.leb_spec 308 (e + n + 2 + 1)); [lia|]. unfold n.
    eapply run_bind.
    { apply in_bounds_run. apply load_ok; [lia|rewrite enc_opt_length; lia]. }
    rewrite drop_0, take_ge by (rewrite enc_opt_length; lia).
    eapply run_bind; [apply in_bounds_run; apply (store_middle _ _ t1 (x :: t2)); done|].
    eapply run_bind.
    { apply in_bounds_run. replace (e + Z.of_nat (length (snd o)) + 2) with (Z.of_nat (length (enc_opts l ++ enc_opt o)))
        by (rewrite length_app, enc_opt_length; lia).
      apply (store_middle _ _ [x] t2); [by rewrite <- app_assoc|done]. }
    by rewrite enc_opts_snoc.
  - split.
    + rewrite Hb, length_app in Hs. cbn [length] in Hs. rewrite length_app in Hs. cbn [length] in Hs.
      rewrite enc_opts_snoc, !length_app. cbn [length]. lia.
    + apply Forall_app. split; [done|by apply Forall_singleton].
    + by exists t2.
Qed.

Lemma opts_layout_empty : opts_layout [] (DHCP_END :: replicate 307 0).
Proof. split; [done|constructor|]. by exists (replicate 307 0). Qed.

(** The options that [add_simple_option] builds. *)
Definition simple_opt (code data : Z) : Z * list Z :=
  let length := option_length code in
  (code, if length =? 1 then [u8 data] else if length =? 2 then be16 data else be32 data).

Lemma add_simple_option_string {T} b code data (d : T) :
  option_length code <> 0 -> option_length code < 8 -> 
  Z.of_nat (length (snd (simple_opt code data))) = option_length code ->
  add_simple_option b code data d = add_option_string b (Some (enc_opt (simple_opt code data))) d.
Proof.
  intros H1 H2 H3. unfold add_simple_option. rewrite (proj2 (Z.eqb_neq _ _) H1). unfold enc_opt. rewrite H3. done.
Qed.

Lemma add_simple_run {T} l b code data (d : T) : opts_layout l b ->
  option_length code <> 0 -> option_length code < 8 ->
  Z.of_nat (length (snd (simple_opt code data))) = option_length code -> option_wf (simple_opt code data) ->
  exists b' r, add_simple_option b code data d = Ok (b', r) d /\ opts_layout (push_opt l (simple_opt code data)) b'.
Proof.
  intros Hl H1 H2 H3 Hw. rewrite add_simple_option_string by done.
  destruct (add_option_run l b _ d Hl Hw) as (b' & Hr & Hb). by exists b', (if opt_fits l (simple_opt code data) then Z.of_nat (length (snd (simple_opt code data))) + 2 else 0).
Qed.

(** *** Bytes stay bytes *)

Lemma in_bounds_inv {T A} (o : option A) (d : T) a d' : in_bounds o d = Ok a d' -> o = Some a /\ d' = d.
Proof. destruct o; [|done]. by intros [= <- <-]. Qed.

Lemma enc_opt_bytes o : option_wf o -> Forall is_byte (enc_opt o).
Proof.
  intros (H1 & H2 & H3). unfold enc_opt. repeat (constructor; [unfold is_byte; lia|]). done.
Qed.

Lemma add_option_bytes {T} b o (d : T) r b' d' : Forall is_byte b -> option_wf o ->
  add_option_string b (Some (enc_opt o)) d = Ok (b', r) d' -> Forall is_byte b'.
Proof.
  intros Hb Ho. unfold add_option_string, mbind, M_bind. destruct (end_option b d) as [e d1|]; [|done].
  destruct (opt_at (enc_opt o) OPT_LEN d1) as [n d2|]; [|done].
  destruct (308 <=? e + n + 2 + 1); [by intros [= <- _ _]|].
  destruct (in_bounds (load _ _ 0) d2) as [w d3|] eqn:E1; [|done].
  destruct (in_bounds (store w b e) d3) as [b1 d4|] eqn:E2; [|done].
  destruct (in_bounds (store [DHCP_END] b1 _) d4) as [b2 d5|] eqn:E3; [|done]. intros [= <- _ _].
  apply in_bounds_inv in E1 as [E1 _]. apply in_bounds_inv in E2 as [E2 _]. apply in_bounds_inv in E3 as [E3 _].
  eapply store_bytes; [exact E3| |repeat constructor; done].
  eapply store_bytes; [exact E2|done|]. eapply load_bytes; [exact E1|by apply enc_opt_bytes].
Qed.

(** A field with its options, all bytes, and an option that fits. *)
Record field_ok (l : list (Z * list Z)) (b : list Z) : Prop := FieldOk {
  fo_layout : opts_layout l b;
  fo_bytes : Forall is_byte b
}.

Lemma add_field_run {T} l b o (d : T) : field_ok l b -> option_wf o ->
  exists b', add_option_string b (Some (enc_opt o)) d
    = Ok (b', if opt_fits l o then Z.of_nat (length (snd o)) + 2 else 0) d
  /\ field_ok (push_opt l o) b'.
Proof.
  intros [Hl Hb] Ho. destruct (add_option_run l b o d Hl Ho) as (b' & Hr & Lb). exists b'. split; [exact Hr|].
  split; [done|]. by eapply add_option_bytes.
Qed.

Lemma add_simple_field {T} l b code data (d : T) : field_ok l b ->
  option_length code <> 0 -> option_length code < 8 ->
  Z.of_nat (length (snd (simple_opt code data))) = option_length code -> option_wf (simple_opt code data) ->
  exists b' r, add_simple_option b code data d = Ok (b', r) d /\ field_ok (push_opt l (simple_opt code data)) b'.
Proof.
  intros Hl H1 H2 H3 Hw. rewrite add_simple_option_string by done.
  destruct (add_field_run l b _ d Hl Hw) as (b' & Hr & Hb). by eexists b', _.
Qed.

Lemma field_ok_empty : field_ok [] (DHCP_END :: replicate 307 0).
Proof. split; [apply opts_layout_empty|]. constructor; [done|]. by apply Forall_replicate. Qed.

(** ** Finding an option that was added *)

Definition is_vizio (data : list Z) : bool := bool_decide (take 5 data = VIZIO).
(** The vendor flag after the options before the one searched for. *)
Fixpoint vizio_walk (code : Z) (l : list (Z * list Z)) (v : Z) : Z :=
  match l with
  | [] => v
  | o :: l' =>
      if fst o =? code then v
      else vizio_walk code l' (if fst o =? DHCP_VENDOR then if is_vizio (snd o) then 1 else 0 else v)
  end.

(** What the search expects of the options it goes over: no overload, and
    vendor options with at least five bytes. *)
Definition plain_option (o : Z * list Z) : Prop :=
  fst o <> DHCP_OPTION_OVER /\ (fst o = DHCP_VENDOR -> (5 <= length (snd o))%nat).

Lemma opt_byte_run {T} p f k b (d : T) : 0 <= k -> field_bytes p f !! Z.to_nat k = Some b -> opt_byte p f k d = Ok b d.
Proof. intros Hk Hb. unfold opt_byte. rewrite (proj2 (Z.leb_le _ _) Hk). by apply in_bounds_run. Qed.

Lemma starts_with_run p f text k d : 0 <= k ->
  k + Z.of_nat (length text) <= Z.of_nat (length (field_bytes p f)) ->
  starts_with p f k text d
  = Ok (bool_decide (take (length text) (drop (Z.to_nat k) (field_bytes p f)) = text)) d.
Proof.
  revert k. induction text as [|c text IH]; intros k Hk Hl; cbn [starts_with]; [done|]. cbn [length] in Hl.
  destruct (lookup_lt_is_Some_2 (field_bytes p f) (Z.to_nat k)) as [b Hb]; [lia|].
  eapply run_bind; [by apply opt_byte_run|]. rewrite (drop_S _ b) by done.
  replace (S (Z.to_nat k)) with (Z.to_nat (k + 1)) by lia. cbn [length]. rewrite firstn_cons.
  destruct (Z.eqb_spec b c) as [->|Hne].
  - rewrite IH by lia. f_equal. apply bool_decide_ext. split; [by intros ->|by intros [= ->]].
  - symmetry. unfold mret, M_ret. f_equal. apply bool_decide_eq_false_2. by intros [= ].
Qed.

(** One round of the search over an option, found or not. *)
Lemma get_option_step fuel p code i over v d c dd tail :
  length (m_options p) = 308%nat -> 0 <= i -> i + Z.of_nat (length dd) + 2 <= 307 ->
  m_options p !! Z.to_nat i = Some c -> m_options p !! Z.to_nat (i + 1) = Some (Z.of_nat (length dd)) ->
  drop (Z.to_nat (i + 2)) (m_options p) = dd ++ tail -> 0 < c < 255 -> plain_option (c, dd) ->
  get_option_loop (S fuel) p code In_options i over (set_vizio_device v d)
  = if c =? code then Ok (Some (In_options, i + 2)) (set_vizio_device v d)
    else get_option_loop fuel p code In_options (i + (Z.of_nat (length dd) + 2)) over
           (set_vizio_device (if c =? DHCP_VENDOR then if is_vizio dd then 1 else 0 else v) d).
Proof.
  intros Hs Hi Hend Hat Hat1 Hdata Hc [Hno Hven]. cbn [fst snd] in *. cbn [get_option_loop field_length].
  destruct (Z.leb_spec 308 i) as [Hb|_]; [lia|].
  eapply run_bind; [apply opt_byte_run; [lia|exact Hat]|]. unfold OPT_LEN, OPT_DATA.
  destruct (Z.eqb_spec c code) as [->|Hne].
  { eapply run_bind; [apply opt_byte_run; [lia|exact Hat1]|].
    by destruct (Z.leb_spec 308 (i + 1 + Z.of_nat (length dd))) as [Hb|_]; [lia|]. }
  assert (Hlen : @opt_byte dhcpd p In_options (1 + i) = opt_byte p In_options (i + 1)) by (f_equal; lia). rewrite Hlen.
  destruct (Z.eqb_spec c DHCP_VENDOR) as [->|Hnv].
  - specialize (Hven eq_refl).
    eapply run_bind; [apply starts_with_run; [lia|simpl field_bytes; rewrite Hs; simpl; lia]|].
    cbn [field_bytes]. rewrite Hdata, take_app_le by (simpl; lia).
    eapply run_bind; [reflexivity|]. by eapply run_bind; [apply opt_byte_run; [lia|exact Hat1]|].
  - unfold DHCP_PADDING, DHCP_END. destruct (Z.eqb_spec c 0); [lia|]. destruct (Z.eqb_spec c DHCP_OPTION_OVER); [done|].
    destruct (Z.eqb_spec c 0xFF); [lia|]. by eapply run_bind; [apply opt_byte_run; [lia|exact Hat1]|].
Qed.

(** The round at the end mark, without overload. *)
Lemma get_option_stop fuel p code i over d :
  m_options p !! Z.to_nat i = Some DHCP_END -> length (m_options p) = 308%nat -> 0 <= i -> 0 < code < 255 ->
  Z.land over FILE_FIELD = 0 -> get_option_loop (S fuel) p code In_options i over d = Ok None d.
Proof.
  intros Hat Hs Hi Hcode Hover. cbn [get_option_loop field_length].
  destruct (Z.leb_spec 308 i) as [Hb|_]; [done|]. eapply run_bind; [apply opt_byte_run; [lia|exact Hat]|].
  unfold DHCP_END, DHCP_VENDOR, DHCP_PADDING, DHCP_OPTION_OVER. destruct (Z.eqb_spec 255 code); [lia|].
  cbn. by rewrite Hover.
Qed.

(** The result of the search in a field that holds [l]. *)
Definition found_in (p : dhcpMessage) (code : Z) (l : list (Z * list Z)) (r : option opt_ptr) : Prop :=
  match list_find (fun o => fst o = code) l with
  | None => r = None
  | Some (_, (_, dd)) => exists off, r = Some (In_options, off)
      /\ load (length dd) (m_options p) off = Some dd
      /\ m_options p !! Z.to_nat (off - 1) = Some (Z.of_nat (length dd))
      /\ 2 <= off /\ off + Z.of_nat (length dd) <= 307
  end.

Lemma found_in_cons p code o l r : fst o <> code -> found_in p code l r -> found_in p code (o :: l) r.
Proof.
  unfold found_in. intros Hne. simpl. rewrite decide_False by done. by destruct (list_find _ l) as [[j [c dd]]|].
Qed.

Lemma find_scan p code pre l rest fuel i over v d :
  m_options p = pre ++ enc_opts l ++ DHCP_END :: rest -> length (m_options p) = 308%nat ->
  Forall option_wf l -> Forall plain_option l -> 0 < code < 255 -> i = Z.of_nat (length pre) ->
  (length l < fuel)%nat -> Z.land over FILE_FIELD = 0 ->
  exists r, get_option_loop fuel p code In_options i over (set_vizio_device v d)
    = Ok r (set_vizio_device (vizio_walk code l v) d) /\ found_in p code l r.
Proof.
  intros Hp Hs Hwf Hpl Hcode. revert pre fuel i v Hp Hwf Hpl.
  induction l as [|[c dd] l IH]; intros pre fuel i v Hp Hwf Hpl Hi Hf Hover; (destruct fuel as [|fuel]; [simpl in Hf; lia|]).
  { exists None. split; [|done]. apply get_option_stop; [|done|lia|done|done]. rewrite Hp, Hi, Nat2Z.id. by apply list_lookup_middle. }
  apply Forall_cons in Hwf as [(Hc & _ & _) Hwf]. apply Forall_cons in Hpl as [Hpl1 Hpl].
  rewrite enc_opts_cons, <- app_assoc in Hp. cbn [fst] in Hc.
  assert (Htot : (length pre + S (S (length dd + (length (enc_opts l) + S (length rest)))) = 308)%nat).
  { rewrite <- Hs, Hp, !length_app, enc_opt_length. simpl. lia. }
  assert (Hat : m_options p !! Z.to_nat i = Some c) by (rewrite Hp, Hi, Nat2Z.id; by apply list_lookup_middle).
  assert (Hat1 : m_options p !! Z.to_nat (i + 1) = Some (Z.of_nat (length dd))).
  { rewrite Hp. unfold enc_opt. cbn [fst snd app]. rewrite (cons_middle c), app_assoc.
    apply list_lookup_middle. rewrite length_app. simpl. lia. }
  assert (Hdata : drop (Z.to_nat (i + 2)) (m_options p) = dd ++ enc_opts l ++ DHCP_END :: rest).
  { rewrite Hp. replace (Z.to_nat (i + 2)) with (length pre + 2)%nat by lia. by rewrite <- drop_drop, drop_app_length. }
  rewrite (get_option_step fuel p code i over v d c dd _ Hs ltac:(lia) ltac:(lia) Hat Hat1 Hdata Hc Hpl1).
  cbn [vizio_walk fst snd]. destruct (Z.eqb_spec c code) as [->|Hne].
  - eexists. split; [reflexivity|]. unfold found_in. simpl. rewrite decide_True by done.
    exists (i + 2). split; [done|]. split; [|split; [by replace (i + 2 - 1) with (i + 1) by lia|lia]].
    rewrite load_ok by (rewrite ?Hs; lia). by rewrite Hdata, take_app_length.
  - destruct (IH (pre ++ enc_opt (c, dd)) fuel (i + (Z.of_nat (length dd) + 2))
      (if c =? DHCP_VENDOR then if is_vizio dd then 1 else 0 else v)) as (r & Hr & Hm); try done.
    + by rewrite <- app_assoc.
    + rewrite length_app, enc_opt_length. cbn [snd]. lia.
    + simpl in Hf. lia.
    + exists r. split; [exact Hr|]. by apply found_in_cons.
Qed.

Lemma get_option_found l p code d :
  opts_layout l (m_options p) -> Forall plain_option l -> 0 < code < 255 ->
  exists r, get_option p code d = Ok r (set_vizio_device (vizio_walk code l (vizio_device d)) d)
  /\ found_in p code l r.
Proof.
  intros [Hs Hwf [rest Hb]] Hpl Hcode.
  pose proof (find_scan p code [] l rest 512 0 0 (vizio_device d) d Hb Hs Hwf Hpl Hcode eq_refl) as H.
  replace (set_vizio_device (vizio_device d) d) with d in H by by destruct d.
  apply H; [|done]. pose proof (enc_opts_count l Hwf). rewrite Hb, length_app in Hs. lia.
Qed.

(** What was added is found: in a field that holds a list of options (as
    add_option_string builds it, [add_option_run]), the search for a code
    returns a pointer to the data of the first option with that code, with its
    length in the byte before it, and nothing when no option has the code; the
    vendor flag is the one of the last vendor option before it. *)
Theorem get_option_finds l p code d :
  opts_layout l (m_options p) -> Forall plain_option l -> 0 < code < 255 ->
  exists r, get_option p code d = Ok r (set_vizio_device (vizio_walk code l (vizio_device d)) d)
  /\ found_in p code l r.
Proof. apply get_option_found. Qed.
