(* ===== verification/DhcpConfig.v ===== *)
(** * DhcpConfig: the configuration file of the DHCP server (files.c)

    The keywords with their handlers, the parser of an option line, and
    read_config.  A C string is the list of its bytes before the NUL; [strtok],
    [strspn], [strtoul] and the like are modelled as the source uses them.
    inet_aton and gethostbyname are answers of the environment. *)

From Stdlib Require Import Sorted.
From stdpp Require Import sets.
From S2P Require Import Prelude DhcpTypes DhcpOptions.

(** ** Characters and strings *)

Definition isspace (c : Z) : bool := (c =? 32) || ((9 <=? c) && (c <=? 13)).
Definition tolower (c : Z) : Z := if (65 <=? c) && (c <=? 90) then c + 32 else c.
Definition strcasecmp_eq (a b : list Z) : bool := bool_decide ((tolower <$> a) = (tolower <$> b)).
Definition text (s : string) : list Z := bytes_of_string s.
Definition string_of_bytes (b : list Z) : string :=
  String.string_of_list_ascii ((fun c => Ascii.ascii_of_N (Z.to_N c)) <$> b).

Definition in_set (set : list Z) (c : Z) : bool := existsb (Z.eqb c) set.
(** [s + strspn(s, set)] *)
Fixpoint skip (set s : list Z) : list Z :=
  match s with
  | c :: s' => if in_set set c then skip set s' else s
  | [] => []
  end.
(** The string before the first character of [set], and from it on. *)
Fixpoint cut (set s : list Z) : list Z * list Z :=
  match s with
  | c :: s' => if in_set set c then ([], s) else let '(a, b) := cut set s' in (c :: a, b)
  | [] => ([], [])
  end.
(** [strtok(s, set)]: the token and where the next call goes on. *)
Definition strtok (set s : list Z) : option (list Z * list Z) :=
  match skip set s with
  | [] => None
  | s' => let '(tok, rest) := cut set s' in Some (tok, drop 1 rest)
  end.
(** The loop that drops trailing white space. *)
Fixpoint rtrim (s : list Z) : list Z :=
  match s with
  | [] => []
  | c :: s' => match rtrim s' with [] => if isspace c then [] else [c] | t => c :: t end
  end.

(** The value of a digit in any base up to 36, or 36. *)
Definition digit (c : Z) : Z :=
  if (48 <=? c) && (c <=? 57) then c - 48
  else if (97 <=? tolower c) && (tolower c <=? 122) then tolower c - 87 else 36.
Fixpoint digits (base acc : Z) (s : list Z) : Z * list Z :=
  match s with
  | c :: s' => if digit c <? base then digits base (acc * base + digit c) s' else (acc, s)
  | [] => (acc, [])
  end.
(** The magnitude that strtol and strtoul read with base 0, and the rest;
    [None] when there is no digit. *)
Definition magnitude (s : list Z) : option (Z * list Z) :=
  match s with
  | 48 :: x :: h :: s' =>
      if (tolower x =? 120) && (digit h <? 16) then Some (digits 16 0 (h :: s')) else Some (digits 8 0 s)
  | 48 :: _ => Some (digits 8 0 s)
  | c :: _ => if digit c <? 10 then Some (digits 10 0 s) else None
  | [] => None
  end.
Definition signed_number (s : list Z) : option (bool * Z * list Z) :=
  let s := (fix blanks s := match s with c :: s' => if isspace c then blanks s' else s | [] => [] end) s in
  let '(neg, s) := match s with 45 :: s' => (true, s') | 43 :: s' => (false, s') | _ => (false, s) end in
  match magnitude s with Some (v, rest) => Some (neg, v, rest) | None => None end.
(** The value and [*endptr == '\0']; longs have 32 bits.  Without a number the
    end pointer is the start of the string. *)
Definition strtoul (s : list Z) : Z * bool :=
  match signed_number s with
  | Some (neg, v, rest) => (if 4294967295 <? v then 4294967295 else if neg then u32 (- v) else v, bool_decide (rest = []))
  | None => (0, bool_decide (s = []))
  end.
Definition strtol (s : list Z) : Z * bool :=
  match signed_number s with
  | Some (neg, v, rest) =>
      (if neg then Z.max (- 2147483648) (- v) else Z.min 2147483647 v, bool_decide (rest = []))
  | None => (0, bool_decide (s = []))
  end.

(** ** The variables *)

Definition zero_config : server_config_t :=
  ServerConfig 0 0 0 [] 0 [0; 0; 0; 0; 0; 0] 0 0 0 0 0 0 0 0 0 None None None "" "" "".

Definition cfg_start (v : Z) (c : server_config_t) : server_config_t :=
  ServerConfig (server c) v (end_ c) (options_list c) (ifindex c) (arp c) (lease c) (max_leases c)
    (remaining c) (auto_time c) (decline_time c) (conflict_time c) (offer_time c) (min_lease c)
    (siaddr c) (sname c) (boot_file c) (notify_file c) (lease_file c) (interface c) (pidfile c).
Definition cfg_end (v : Z) (c : server_config_t) : server_config_t :=
  ServerConfig (server c) (start c) v (options_list c) (ifindex c) (arp c) (lease c) (max_leases c)
    (remaining c) (auto_time c) (decline_time c) (conflict_time c) (offer_time c) (min_lease c)
    (siaddr c) (sname c) (boot_file c) (notify_file c) (lease_file c) (interface c) (pidfile c).
Definition cfg_interface (v : string) (c : server_config_t) : server_config_t :=
  ServerConfig (server c) (start c) (end_ c) (options_list c) (ifindex c) (arp c) (lease c) (max_leases c)
    (remaining c) (auto_time c) (decline_time c) (conflict_time c) (offer_time c) (min_lease c)
    (siaddr c) (sname c) (boot_file c) (notify_file c) (lease_file c) v (pidfile c).
Definition cfg_options (v : list (list Z)) (c : server_config_t) : server_config_t :=
  ServerConfig (server c) (start c) (end_ c) v (ifindex c) (arp c) (lease c) (max_leases c) (remaining c)
    (auto_time c) (decline_time c) (conflict_time c) (offer_time c) (min_lease c) (siaddr c)
    (sname c) (boot_file c) (notify_file c) (lease_file c) (interface c) (pidfile c).
Definition cfg_max_leases (v : Z) (c : server_config_t) : server_config_t :=
  ServerConfig (server c) (start c) (end_ c) (options_list c) (ifindex c) (arp c) (lease c) v (remaining c)
    (auto_time c) (decline_time c) (conflict_time c) (offer_time c) (min_lease c) (siaddr c)
    (sname c) (boot_file c) (notify_file c) (lease_file c) (interface c) (pidfile c).
Definition cfg_remaining (v : Z) (c : server_config_t) : server_config_t :=
  ServerConfig (server c) (start c) (end_ c) (options_list c) (ifindex c) (arp c) (lease c) (max_leases c) v
    (auto_time c) (decline_time c) (conflict_time c) (offer_time c) (min_lease c) (siaddr c)
    (sname c) (boot_file c) (notify_file c) (lease_file c) (interface c) (pidfile c).
Definition cfg_auto_time (v : Z) (c : server_config_t) : server_config_t :=
  ServerConfig (server c) (start c) (end_ c) (options_list c) (ifindex c) (arp c) (lease c) (max_leases c)
    (remaining c) v (decline_time c) (conflict_time c) (offer_time c) (min_lease c) (siaddr c)
    (sname c) (boot_file c) (notify_file c) (lease_file c) (interface c) (pidfile c).
Definition cfg_decline_time (v : Z) (c : server_config_t) : server_config_t :=
  ServerConfig (server c) (start c) (end_ c) (options_list c) (ifindex c) (arp c) (lease c) (max_leases c)
    (remaining c) (auto_time c) v (conflict_time c) (offer_time c) (min_lease c) (siaddr c)
    (sname c) (boot_file c) (notify_file c) (lease_file c) (interface c) (pidfile c).
Definition cfg_conflict_time (v : Z) (c : server_config_t) : server_config_t :=
  ServerConfig (server c) (start c) (end_ c) (options_list c) (ifindex c) (arp c) (lease c) (max_leases c)
    (remaining c) (auto_time c) (decline_time c) v (offer_time c) (min_lease c) (siaddr c)
    (sname c) (boot_file c) (notify_file c) (lease_file c) (interface c) (pidfile c).
Definition cfg_offer_time (v : Z) (c : server_config_t) : server_config_t :=
  ServerConfig (server c) (start c) (end_ c) (options_list c) (ifindex c) (arp c) (lease c) (max_leases c)
    (remaining c) (auto_time c) (decline_time c) (conflict_time c) v (min_lease c) (siaddr c)
    (sname c) (boot_file c) (notify_file c) (lease_file c) (interface c) (pidfile c).
Definition cfg_min_lease (v : Z) (c : server_config_t) : server_config_t :=
  ServerConfig (server c) (start c) (end_ c) (options_list c) (ifindex c) (arp c) (lease c) (max_leases c)
    (remaining c) (auto_time c) (decline_time c) (conflict_time c) (offer_time c) v (siaddr c)
    (sname c) (boot_file c) (notify_file c) (lease_file c) (interface c) (pidfile c).
Definition cfg_lease_file (v : string) (c : server_config_t) : server_config_t :=
  ServerConfig (server c) (start c) (end_ c) (options_list c) (ifindex c) (arp c) (lease c) (max_leases c)
    (remaining c) (auto_time c) (decline_time c) (conflict_time c) (offer_time c) (min_lease c)
    (siaddr c) (sname c) (boot_file c) (notify_file c) v (interface c) (pidfile c).
Definition cfg_pidfile (v : string) (c : server_config_t) : server_config_t :=
  ServerConfig (server c) (start c) (end_ c) (options_list c) (ifindex c) (arp c) (lease c) (max_leases c)
    (remaining c) (auto_time c) (decline_time c) (conflict_time c) (offer_time c) (min_lease c)
    (siaddr c) (sname c) (boot_file c) (notify_file c) (lease_file c) (interface c) v.
Definition cfg_notify_file (v : option string) (c : server_config_t) : server_config_t :=
  ServerConfig (server c) (start c) (end_ c) (options_list c) (ifindex c) (arp c) (lease c) (max_leases c)
    (remaining c) (auto_time c) (decline_time c) (conflict_time c) (offer_time c) (min_lease c)
    (siaddr c) (sname c) (boot_file c) v (lease_file c) (interface c) (pidfile c).
Definition cfg_siaddr (v : Z) (c : server_config_t) : server_config_t :=
  ServerConfig (server c) (start c) (end_ c) (options_list c) (ifindex c) (arp c) (lease c) (max_leases c)
    (remaining c) (auto_time c) (decline_time c) (conflict_time c) (offer_time c) (min_lease c) v
    (sname c) (boot_file c) (notify_file c) (lease_file c) (interface c) (pidfile c).
Definition cfg_sname (v : option (list Z)) (c : server_config_t) : server_config_t :=
  ServerConfig (server c) (start c) (end_ c) (options_list c) (ifindex c) (arp c) (lease c) (max_leases c)
    (remaining c) (auto_time c) (decline_time c) (conflict_time c) (offer_time c) (min_lease c)
    (siaddr c) v (boot_file c) (notify_file c) (lease_file c) (interface c) (pidfile c).
Definition cfg_boot_file (v : option (list Z)) (c : server_config_t) : server_config_t :=
  ServerConfig (server c) (start c) (end_ c) (options_list c) (ifindex c) (arp c) (lease c) (max_leases c)
    (remaining c) (auto_time c) (decline_time c) (conflict_time c) (offer_time c) (min_lease c)
    (siaddr c) (sname c) v (notify_file c) (lease_file c) (interface c) (pidfile c).

(** ** The handlers *)

Section with_env.
Context `{E : DhcpEnv}.

Definition update (f : server_config_t -> server_config_t) : DM unit :=
  modify (fun d => set_server_config (f (server_config d)) d).

(** The address of a text; a host name is looked up when it is not an address. *)
Definition ip_of (line : list Z) : DM (option Z) :=
  match env_inet_aton line with
  | Some a => mret (Some a)
  | None => dsys (fun n => env_gethostbyname n line)
  end.
Definition read_ip (dest : Z -> server_config_t -> server_config_t) (line : list Z) : DM bool :=
  a ← ip_of line;
  match a with Some a => update (dest a);; mret true | None => mret false end.
Definition read_str (dest : list Z -> server_config_t -> server_config_t) (line : list Z) : DM bool :=
  update (dest line);; mret true.
(** The variable is assigned even when the line is not a number. *)
Definition read_u32 (dest : Z -> server_config_t -> server_config_t) (line : list Z) : DM bool :=
  update (dest (fst (strtoul line)));; mret (snd (strtoul line)).
Definition yn_of (line : list Z) : option Z :=
  if strcasecmp_eq (text "yes") line then Some 1 else if strcasecmp_eq (text "no") line then Some 0 else None.
Definition read_yn (dest : Z -> server_config_t -> server_config_t) (line : list Z) : DM bool :=
  match yn_of line with Some v => update (dest v);; mret true | None => mret false end.

(** The data of one value of an option, when the value can be read, and the
    rest of the line. *)
Definition number_data (width : Z -> list Z) (n : Z * bool) : option (list Z) :=
  if snd n then Some (width (fst n)) else None.
Definition option_value (opt : dhcp_option) (val rest : list Z) : DM (option (list Z) * list Z) :=
  let type := Z.land (o_flags opt) TYPE_MASK in
  if type =? OPTION_IP then a ← ip_of val; mret (be32 <$> a, rest)
  else if type =? OPTION_IP_PAIR then
    a ← ip_of val;
    match strtok (text ", " ++ [9] ++ text "/-") rest with
    | None => mret (None, [])
    | Some (val, rest) =>
        match a with
        | None => mret (None, rest)
        | Some a => b ← ip_of val; mret ((fun b => be32 a ++ be32 b) <$> b, rest)
        end
    end
  else if type =? OPTION_STRING then mret (Some (take 254 val), rest)
  else if type =? OPTION_BOOLEAN then mret ((fun v => [v]) <$> yn_of val, rest)
  else if type =? OPTION_U8 then mret (number_data (fun v => [u8 v]) (strtoul val), rest)
  else if type =? OPTION_U16 then mret (number_data be16 (strtoul val), rest)
  else if type =? OPTION_S16 then mret (number_data be16 (strtol val), rest)
  else if type =? OPTION_U32 then mret (number_data be32 (strtoul val), rest)
  else if type =? OPTION_S32 then mret (number_data be32 (strtol val), rest)
  else mret (None, rest).

(** The do-while loop over the values of the line. *)
Fixpoint option_values (fuel : nat) (opt : dhcp_option) (rest : list Z) (retval : bool) : DM bool :=
  match fuel with
  | O => fail Out_of_fuel
  | S fuel' =>
      match strtok (text ", " ++ [9]) rest with
      | None => mret retval
      | Some (val, rest) =>
          '(data, rest) ← option_value opt val rest;
          match data with
          | None => mret false
          | Some data =>
              update (fun c => cfg_options (attach_option (options_list c) opt data) c);;
              if negb (Z.land (o_flags opt) OPTION_LIST =? 0) then option_values fuel' opt rest true
              else mret true
          end
      end
  end.

(** The last entry of the table with the name. *)
Definition option_named (name : list Z) : option dhcp_option :=
  fold_left (fun found o => if bool_decide (text (o_name o) = name) then Some o else found) options None.

Definition read_opt (line : list Z) : DM bool :=
  match strtok ([32; 9; 61]) line with
  | None => mret false
  | Some (name, rest) =>
      match option_named name with
      | None => mret false
      | Some opt => option_values (S (length rest)) opt rest false
      end
  end.

(** ** read_config *)

Record config_keyword : Type := Keyword { keyword : string; handler : list Z -> DM bool; def : string }.
Definition str_var (f : string -> server_config_t -> server_config_t) (v : list Z) : server_config_t -> server_config_t :=
  f (string_of_bytes v).

Definition keywords : list config_keyword := [
  Keyword "start" (read_ip cfg_start) "192.168.0.20";
  Keyword "end" (read_ip cfg_end) "192.168.0.254";
  Keyword "interface" (read_str (str_var cfg_interface)) "eth0";
  Keyword "option" read_opt "";
  Keyword "opt" read_opt "";
  Keyword "max_leases" (read_u32 cfg_max_leases) "254";
  Keyword "remaining" (read_yn cfg_remaining) "yes";
  Keyword "auto_time" (read_u32 cfg_auto_time) "7200";
  Keyword "decline_time" (read_u32 cfg_decline_time) "3600";
  Keyword "conflict_time" (read_u32 cfg_conflict_time) "3600";
  Keyword "offer_time" (read_u32 cfg_offer_time) "60";
  Keyword "min_lease" (read_u32 cfg_min_lease) "60";
  Keyword "lease_file" (read_str (str_var cfg_lease_file)) "/var/lib/misc/udhcpd.leases";
  Keyword "pidfile" (read_str (str_var cfg_pidfile)) "/var/run/udhcpd.pid";
  Keyword "notify_file" (read_str (fun v => cfg_notify_file (Some (string_of_bytes v)))) "";
  Keyword "siaddr" (read_ip cfg_siaddr) "0.0.0.0";
  Keyword "sname" (read_str (fun v => cfg_sname (Some v))) "";
  Keyword "boot_file" (read_str (fun v => cfg_boot_file (Some v))) ""
].

(** The defaults, the empty ones left out. *)
Fixpoint load_defaults (l : list config_keyword) : DM unit :=
  match l with
  | [] => mret tt
  | k :: l' => (if bool_decide (def k = "") then mret tt else handler k (text (def k));; mret tt);; load_defaults l'
  end.

(** The keyword and the value of a line, after comments and white space. *)
Definition split_line (buffer : list Z) : option (list Z * list Z) :=
  let b := fst (cut [35] (fst (cut [10] (cstring buffer)))) in
  match skip [32; 9] b with
  | [] => None
  | token =>
      let '(token, line) := cut [32; 9; 61] token in
      match line with
      | [] => None
      | _ :: line => Some (token, rtrim (skip [32; 9; 61] line))
      end
  end.

(** Every keyword that matches is handled; a value that cannot be read is
    replaced with the default. *)
Fixpoint apply_line (l : list config_keyword) (token line : list Z) : DM unit :=
  match l with
  | [] => mret tt
  | k :: l' =>
      when (strcasecmp_eq token (text (keyword k)))
        (ok ← handler k line; if ok : bool then mret tt else handler k (text (def k));; mret tt);;
      apply_line l' token line
  end.

(** [while (fgets(buffer, 80, in))] *)
Fixpoint config_loop (fuel : nat) (file : list Z) : DM unit :=
  match fuel with
  | O => fail Out_of_fuel
  | S fuel' =>
      let '(buffer, rest, _) := take_line 79 file in
      match buffer with
      | [] => mret tt
      | _ =>
          match split_line buffer with
          | Some (token, line) => apply_line keywords token line
          | None => mret tt
          end;;
          config_loop fuel' rest
      end
  end.

Definition read_config : DM Z :=
  load_defaults keywords;;
  file ← dsys env_config_file;
  match file with
  | None => mret 0
  | Some file => config_loop (S (length file)) file;; mret 1
  end.
End with_env.

(** ** The list of configured options *)

(** The data that values of the option's type can have: one value, or several
    when the option takes a list. *)
Definition option_data_ok (opt : dhcp_option) (dd : list Z) : Prop :=
  (1 <= length dd)%nat /\ (length dd < 256)%nat /\ Forall is_byte dd
  /\ (Z.land (o_flags opt) TYPE_MASK <> OPTION_STRING ->
      exists n, Z.of_nat (length dd) = n * option_lengths (Z.land (o_flags opt) TYPE_MASK)
      /\ (Z.land (o_flags opt) OPTION_LIST = 0 -> n = 1)).
Definition option_entry (o : list Z) : Prop :=
  exists opt dd, opt ∈ options /\ o = enc_opt (o_code opt, dd) /\ option_data_ok opt dd.
Definition by_code (a b : list Z) : Prop := opt_code a < opt_code b.
(** Sorted by code, each code once, each entry of an option of the table. *)
Definition options_ok (l : list (list Z)) : Prop := StronglySorted by_code l /\ Forall option_entry l.

Lemma table_codes opt : opt ∈ options -> 0 < o_code opt < 128.
Proof. revert opt. apply Forall_forall. repeat (apply Forall_cons_2; [by vm_compute|]). apply Forall_nil_2. Qed.

Definition code_injective (o o' : dhcp_option) : Prop := o_code o = o_code o' -> o = o'.
Lemma table_injective opt opt' : opt ∈ options -> opt' ∈ options -> o_code opt = o_code opt' -> opt = opt'.
Proof.
  assert (H : Forall (fun o => Forall (code_injective o) options) options).
  { repeat (apply Forall_cons_2; [repeat (apply Forall_cons_2; [intros H; vm_compute in H; first [reflexivity|discriminate]|]); apply Forall_nil_2|]).
    apply Forall_nil_2. }
  intros H1 H2. rewrite Forall_forall in H. specialize (H opt H1). rewrite Forall_forall in H. exact (H opt' H2).
Qed.

Lemma s8_small z : 0 <= z < 128 -> s8 z = z.
Proof. intros H. unfold s8. Z.to_euclidean_division_equations; lia. Qed.

Lemma enc_opt_code o : opt_code (enc_opt o) = fst o.
Proof. done. Qed.

(** What find_option says of a sorted list. *)
Lemma find_option_spec l code : 0 < code < 128 -> StronglySorted by_code l ->
  match find_option l code with
  | Some o => exists l1 l2, l = l1 ++ o :: l2 /\ opt_code o = code /\ Forall (fun a => opt_code a < code) l1
  | None => Forall (fun a => opt_code a <> code) l
  end.
Proof.
  intros Hc. induction 1 as [|o l Hs IH Ho]; cbn [find_option]; [constructor|]. rewrite s8_small by lia.
  destruct (Z.ltb_spec (opt_code o) code) as [Hlt|Hge].
  - destruct (find_option l code) as [e|].
    + destruct IH as (l1 & l2 & -> & He & Hl). exists (o :: l1), l2. by split; [|split; [|constructor]].
    + constructor; [lia|done].
  - destruct (Z.eqb_spec (opt_code o) code) as [He|Hne]; [by exists [], l|].
    constructor; [done|]. eapply Forall_impl; [exact Ho|]. intros a Ha. unfold by_code in Ha. lia.
Qed.

Lemma replace_option_run l1 o l2 code new : 0 < code < 128 -> Forall (fun a => opt_code a < code) l1 -> opt_code o = code ->
  replace_option (l1 ++ o :: l2) code new = l1 ++ new :: l2.
Proof.
  intros Hc Hl Ho. induction Hl as [|a l1 Ha _ IH]; cbn [replace_option app]; rewrite s8_small by lia.
  - destruct (Z.ltb_spec (opt_code o) code); [lia|done].
  - destruct (Z.ltb_spec (opt_code a) code); [by f_equal|lia].
Qed.

Lemma insert_option_perm l code new : exists l1 l2, l = l1 ++ l2 /\ insert_option l code new = l1 ++ new :: l2
  /\ Forall (fun a => opt_code a < code) l1 /\ (forall a l3, l2 = a :: l3 -> code <= opt_code a).
Proof.
  induction l as [|a l (l1 & l2 & -> & H2 & H3 & H4)]; cbn [insert_option].
  - by exists [], [].
  - destruct (Z.ltb_spec (opt_code a) code) as [Hlt|Hge].
    + exists (a :: l1), l2. rewrite H2. by split; [|split; [|split; [constructor|]]].
    + exists [], (a :: l1 ++ l2). split; [done|]. split; [done|]. split; [done|]. by intros ? ? [= <- _].
Qed.

Lemma sorted_replace l1 o new l2 : StronglySorted by_code (l1 ++ o :: l2) -> opt_code new = opt_code o ->
  StronglySorted by_code (l1 ++ new :: l2).
Proof.
  intros Hs He. induction l1 as [|a l1 IH]; cbn [app] in *; apply StronglySorted_inv in Hs as [Hs Ha]; constructor.
  - done.
  - eapply Forall_impl; [exact Ha|]. intros b. unfold by_code. by rewrite He.
  - by apply IH.
  - apply Forall_app in Ha as [H1 H2]. apply Forall_cons in H2 as [H2 H3]. apply Forall_app. split; [done|].
    constructor; [|done]. unfold by_code in *. by rewrite He.
Qed.

Lemma sorted_insert l1 new l2 : StronglySorted by_code (l1 ++ l2) -> Forall (fun a => by_code a new) l1 ->
  Forall (fun a => by_code new a) l2 -> StronglySorted by_code (l1 ++ new :: l2).
Proof.
  intros Hs H1 H2. induction H1 as [|a l1 Ha _ IH]; cbn [app] in *; [by constructor|].
  apply StronglySorted_inv in Hs as [Hs Hb]. constructor; [by apply IH|]. apply Forall_app in Hb as [Hb1 Hb2].
  apply Forall_app. split; [done|]. by constructor.
Qed.

Lemma enc_opt_u8 code dd : (length dd < 256)%nat -> code :: u8 (Z.of_nat (length dd)) :: dd = enc_opt (code, dd).
Proof. intros H. unfold enc_opt. cbn [fst snd]. by rewrite u8_small by lia. Qed.

(** Adding values to an option that is there. *)
Lemma list_data_ok opt dd buffer : option_data_ok opt dd -> option_data_ok opt buffer -> Z.land (o_flags opt) OPTION_LIST <> 0 ->
  Z.of_nat (length dd) + Z.of_nat (length buffer) <= 255 -> option_data_ok opt (dd ++ buffer).
Proof.
  intros (A1 & A2 & A3 & A4) (B1 & B2 & B3 & B4) Hlist Hfit. split; [rewrite length_app; lia|]. split; [rewrite length_app; lia|].
  split; [by apply Forall_app|]. intros Hs. destruct (A4 Hs) as (n & Hn & _), (B4 Hs) as (m & Hm & _).
  exists (n + m). split; [rewrite length_app; lia|done].
Qed.

Lemma attach_option_ok l opt buffer : opt ∈ options -> options_ok l -> option_data_ok opt buffer ->
  options_ok (attach_option l opt buffer).
Proof.
  intros Hopt Hkeep Hb. pose proof Hkeep as [Hs Hl]. pose proof (table_codes opt Hopt) as Hc. pose proof Hb as (B1 & B2 & _).
  unfold attach_option. pose proof (find_option_spec l (o_code opt) Hc Hs) as Hf.
  destruct (find_option l (o_code opt)) as [e|].
  - destruct Hf as (l1 & l2 & -> & He & Hl1). destruct (Z.eqb_spec (Z.land (o_flags opt) OPTION_LIST) 0) as [|Hlist]; cbn [negb]; [done|].
    apply Forall_app in Hl as [Hf1 Hf2]. apply Forall_cons in Hf2 as [(opt' & dd & Ho' & -> & Hd) Hf2].
    rewrite enc_opt_code in He. cbn [fst] in He. apply (table_injective _ _ Ho' Hopt) in He as ->.
    change (default 0 (enc_opt (o_code opt, dd) !! 1%nat)) with (Z.of_nat (length dd)). rewrite enc_opt_code. cbn [fst].
    destruct (Z.leb_spec (Z.of_nat (length dd) + Z.of_nat (length buffer)) 255) as [Hfit|]; [|done].
    rewrite Nat2Z.id. change (drop 2 (enc_opt (o_code opt, dd))) with dd. rewrite firstn_all.
    rewrite <- Nat2Z.inj_add, <- length_app, enc_opt_u8 by (rewrite length_app; lia).
    rewrite replace_option_run by done. split; [by eapply sorted_replace|].
    apply Forall_app. split; [done|]. constructor; [|done]. exists opt, (dd ++ buffer). split; [done|]. split; [done|]. by apply list_data_ok.
  - rewrite enc_opt_u8 by lia. destruct (insert_option_perm l (o_code opt) (enc_opt (o_code opt, buffer))) as (l1 & l2 & -> & -> & H1 & H2).
    apply Forall_app in Hf as [_ Hf2]. apply Forall_app in Hl as [Hl1 Hl2]. split.
    + apply sorted_insert; [done|done|]. destruct l2 as [|a l2]; [done|].
      apply Forall_cons in Hf2 as [Hne _]. pose proof (H2 a l2 eq_refl) as Ha.
      assert (Hss : StronglySorted by_code (a :: l2)).
      { clear -Hs. induction l1 as [|b l1 IH]; [done|]. apply StronglySorted_inv in Hs as [Hs _]. by apply IH. }
      apply StronglySorted_inv in Hss as [_ Hall]. unfold by_code in *. cbn. constructor; [lia|].
      eapply Forall_impl; [exact Hall|]. cbn. intros b Hb2. lia.
    + apply Forall_app. split; [done|]. constructor; [|done]. by exists opt, buffer.
Qed.

(** ** Parts of strings *)

Lemma skip_parts set s : skip set s ⊆ s /\ (length (skip set s) <= length s)%nat
  /\ match skip set s with c :: _ => in_set set c = false | [] => True end.
Proof.
  induction s as [|c s (IH1 & IH2 & IH3)]; cbn [skip]; [done|]. destruct (in_set set c) eqn:Hc.
  - split; [set_solver|]. split; [simpl; lia|done].
  - by split; [|split; [simpl; lia|]].
Qed.
Lemma cut_parts set s : fst (cut set s) ++ snd (cut set s) = s.
Proof.
  induction s as [|c s IH]; [done|]. cbn [cut]. destruct (in_set set c); [done|]. destruct (cut set s) as [a b]. simpl in *. by f_equal.
Qed.
Lemma strtok_parts set s tok rest : strtok set s = Some (tok, rest) ->
  (1 <= length tok)%nat /\ (length rest < length s)%nat /\ tok ⊆ s /\ rest ⊆ s.
Proof.
  unfold strtok. destruct (skip_parts set s) as (H1 & H2 & H3). destruct (skip set s) as [|c s'] eqn:Hs; [done|].
  cbn [cut]. rewrite H3. pose proof (cut_parts set s') as Hc. destruct (cut set s') as [a b]. cbn [fst snd] in Hc.
  intros [= <- <-]. simpl in H2. split; [simpl; lia|]. split.
  - rewrite length_drop. rewrite <- Hc, length_app in H2. lia.
  - assert (Hb : drop 1 b ⊆ b) by (intros x Hx; rewrite <- (take_drop 1 b); apply elem_of_app; by right).
    split; set_solver.
Qed.
Lemma rtrim_parts s : rtrim s ⊆ s.
Proof.
  induction s as [|c s IH]; cbn [rtrim]; [done|]. destruct (rtrim s) as [|x l]; [destruct (isspace c); set_solver|set_solver].
Qed.
Lemma cstring_parts s : cstring s ⊆ s.
Proof. induction s as [|c s IH]; cbn [cstring]; [done|]. destruct (c =? 0); set_solver. Qed.
Lemma take_line_parts k file : let '(line, rest, _) := take_line k file in
  line ++ rest = file /\ (k <> 0%nat -> file <> [] -> line <> []).
Proof.
  revert file. induction k as [|k IH]; intros file; cbn [take_line]; [done|]. destruct file as [|c file]; [done|].
  destruct (c =? 10); [done|]. specialize (IH file). destruct (take_line k file) as [[line rest] eof].
  split; [simpl; f_equal; apply IH|done].
Qed.
Lemma bytes_sub a b : a ⊆ b -> Forall is_byte b -> Forall is_byte a.
Proof. rewrite !Forall_forall. auto. Qed.
Lemma prefix_sub (a b : list Z) : a ⊆ a ++ b.
Proof. intros x Hx. apply elem_of_app. by left. Qed.
Lemma suffix_sub (a b : list Z) : b ⊆ a ++ b.
Proof. intros x Hx. apply elem_of_app. by right. Qed.
Lemma cut_sub set s : fst (cut set s) ⊆ s /\ (forall c b, snd (cut set s) = c :: b -> b ⊆ s).
Proof.
  pose proof (cut_parts set s) as H. split; [rewrite <- H at 2; apply prefix_sub|]. intros c b Hb. rewrite Hb in H. rewrite <- H.
  rewrite cons_middle, app_assoc. apply suffix_sub.
Qed.

Lemma split_line_parts buffer token line : split_line buffer = Some (token, line) -> line ⊆ buffer.
Proof.
  unfold split_line. set (s1 := fst (cut [10] (cstring buffer))). set (s2 := fst (cut [35] s1)).
  assert (Hb : s2 ⊆ buffer).
  { transitivity s1; [apply cut_sub|]. transitivity (cstring buffer); [apply cut_sub|apply cstring_parts]. }
  clearbody s1 s2. pose proof (proj1 (skip_parts [32; 9] s2)) as H3. destruct (skip [32; 9] s2) as [|c s3]; [done|].
  pose proof (proj2 (cut_sub [32; 9; 61] (c :: s3))) as H4. destruct (cut [32; 9; 61] (c :: s3)) as [s4 [|x s5]]; [done|].
  intros [= <- <-]. specialize (H4 x s5 eq_refl). transitivity (skip [32; 9; 61] s5); [apply rtrim_parts|].
  transitivity s5; [apply skip_parts|]. transitivity (c :: s3); [exact H4|]. by transitivity s2.
Qed.

(** ** Reading the file keeps the list of options *)

Section config.
Context `{E : DhcpEnv}.

(** Everything but the configuration. *)
Record same_process (d d' : dhcpd) : Prop := SameProcess {
  sp_leases : leases d' = leases d;
  sp_vizio : vizio_device d' = vizio_device d;
  sp_timeout : timeout_end d' = timeout_end d;
  sp_out : d_out d' = d_out d
}.
#[export] Instance same_process_preorder : PreOrder same_process.
Proof. split; [done|]. intros d1 d2 d3 [A1 A2 A3 A4] [B1 B2 B3 B4]. split; congruence. Qed.

Record configuring (d0 d : dhcpd) : Prop := Configuring {
  cf_options : options_ok (options_list (server_config d));
  cf_same : same_process d0 d
}.

(** A handler that sets a variable other than the option list. *)
Definition plain_setter (f : server_config_t -> server_config_t) : Prop := forall c, options_list (f c) = options_list c.

Lemma twp_update d0 f (Q : unit -> dhcpd -> Prop) d : configuring d0 d ->
  (options_ok (options_list (server_config d)) -> options_ok (options_list (f (server_config d)))) ->
  (forall d', configuring d0 d' -> Q tt d') -> twp (update f) Q d.
Proof. intros [H1 [A1 A2 A3 A4]] Hf HQ. apply twp_modify, HQ. split; [by apply Hf|by split]. Qed.

Lemma twp_ip_of d0 line (Q : option Z -> dhcpd -> Prop) d : configuring d0 d ->
  (forall a d', configuring d0 d' -> Q a d') -> twp (ip_of line) Q d.
Proof.
  intros Hc HQ. unfold ip_of. destruct (env_inet_aton line); [by apply twp_ret, HQ|].
  eapply twp_run; [reflexivity|]. apply HQ. by destruct Hc as [? []].
Qed.

Lemma twp_option_value d0 opt val rest (Q : option (list Z) * list Z -> dhcpd -> Prop) d :
  configuring d0 d -> (1 <= length val)%nat -> Forall is_byte val ->
  (forall data rest' d', configuring d0 d' -> (length rest' <= length rest)%nat -> rest' ⊆ rest ->
     match data with Some dd => option_data_ok opt dd | None => True end -> Q (data, rest') d') ->
  twp (option_value opt val rest) Q d.
Proof.
  intros Hc Hlen Hval HQ. unfold option_value. set (type := Z.land (o_flags opt) TYPE_MASK).
  assert (Hdata : forall dd, Z.of_nat (length dd) = option_lengths type -> (1 <= length dd)%nat -> (length dd < 256)%nat -> Forall is_byte dd -> option_data_ok opt dd).
  { intros dd H1 H2 H3 H4. split; [done|]. split; [done|]. split; [done|]. intros _. exists 1. split; [fold type; lia|done]. }
  assert (Hnum : forall width n, (forall v, Z.of_nat (length (width v)) = option_lengths type /\ (1 <= length (width v) < 256)%nat /\ Forall is_byte (width v)) ->
    Q (number_data width n, rest) d).
  { intros width n Hw. apply HQ; [done|done|done|]. unfold number_data. destruct (snd n); [|done].
    destruct (Hw (fst n)) as (W1 & W2 & W3). by apply Hdata; [|lia|lia|]. }
  apply twp_if; intros T1; [apply Z.eqb_eq in T1|].
  { apply twp_bind. eapply twp_ip_of; [exact Hc|]. intros a d' Hc'. apply twp_ret, HQ; [done|done|done|].
    destruct a; [|done]. apply Hdata; [by rewrite T1|simpl; lia|simpl; lia|apply be32_bytes]. }
  apply twp_if; intros T2; [apply Z.eqb_eq in T2|].
  { apply twp_bind. eapply twp_ip_of; [exact Hc|]. intros a d' Hc'.
    destruct (strtok _ rest) as [[val2 rest2]|] eqn:Hs; [|by apply twp_ret, HQ; [done|simpl; lia|apply list_subseteq_nil|]].
    apply strtok_parts in Hs as (_ & S1 & _ & S2). destruct a as [a|]; [|by apply twp_ret, HQ; [done|lia|done|]].
    apply twp_bind. eapply twp_ip_of; [exact Hc'|]. intros b d2 Hc2. apply twp_ret, HQ; [done|lia|done|].
    destruct b; [|done]. apply Hdata; [by rewrite T2|simpl; lia|simpl; lia|apply Forall_app; split; apply be32_bytes]. }
  apply twp_if; intros T3; [apply Z.eqb_eq in T3|].
  { apply twp_ret, HQ; [done|done|done|]. split; [rewrite length_take; lia|]. split; [rewrite length_take; lia|].
    split; [by apply Forall_take|]. intros Hs. by destruct Hs. }
  apply twp_if; intros T4; [apply Z.eqb_eq in T4|].
  { apply twp_ret, HQ; [done|done|done|]. unfold yn_of. destruct (strcasecmp_eq _ _); [|destruct (strcasecmp_eq _ _); [|done]];
      (apply Hdata; [by rewrite T4|simpl; lia|simpl; lia|by repeat constructor]). }
  apply twp_if; intros T5; [apply Z.eqb_eq in T5; apply twp_ret, Hnum; intros v; rewrite T5|].
  { split; [done|]. split; [simpl; lia|]. repeat constructor. all: apply u8_range. }
  apply twp_if; intros T6; [apply Z.eqb_eq in T6; apply twp_ret, Hnum; intros v; rewrite T6|].
  { split; [done|]. split; [simpl; lia|apply be16_bytes]. }
  apply twp_if; intros T7; [apply Z.eqb_eq in T7; apply twp_ret, Hnum; intros v; rewrite T7|].
  { split; [done|]. split; [simpl; lia|apply be16_bytes]. }
  apply twp_if; intros T8; [apply Z.eqb_eq in T8; apply twp_ret, Hnum; intros v; rewrite T8|].
  { split; [done|]. split; [simpl; lia|apply be32_bytes]. }
  apply twp_if; intros T9; [apply Z.eqb_eq in T9; apply twp_ret, Hnum; intros v; rewrite T9|].
  { split; [done|]. split; [simpl; lia|apply be32_bytes]. }
  by apply twp_ret, HQ.
Qed.

Lemma twp_option_values d0 opt fuel rest r (Q : bool -> dhcpd -> Prop) d : opt ∈ options -> configuring d0 d ->
  (length rest < fuel)%nat -> Forall is_byte rest -> (forall b d', configuring d0 d' -> Q b d') ->
  twp (option_values fuel opt rest r) Q d.
Proof.
  intros Hopt. revert rest r d. induction fuel as [|fuel IH]; intros rest r d Hc Hf Hb HQ; [lia|]. cbn [option_values].
  destruct (strtok _ rest) as [[val rest']|] eqn:Hs; [|by apply twp_ret, HQ].
  apply strtok_parts in Hs as (S1 & S2 & S3 & S4). apply twp_bind.
  apply (twp_option_value d0); [done|done|by eapply bytes_sub|]. intros data rest2 d1 Hc1 Hl Hsub Hd.
  destruct data as [data|]; [|by apply twp_ret, HQ]. apply twp_bind. eapply twp_update; [exact Hc1| |].
  - intros Ho. by apply attach_option_ok.
  - intros d2 Hc2. apply twp_if; intros _; [|by apply twp_ret, HQ].
    apply IH; [done|lia| |done]. eapply bytes_sub; [|exact Hb]. by transitivity rest'.
Qed.

Lemma option_named_elem name opt : option_named name = Some opt -> opt ∈ options.
Proof.
  unfold option_named. assert (H : forall l found, (forall o, found = Some o -> o ∈ options) -> l ⊆ options ->
    forall o, fold_left (fun found o => if bool_decide (text (o_name o) = name) then Some o else found) l found = Some o -> o ∈ options).
  { induction l as [|x l IH]; intros found Hf Hl o; cbn [fold_left]; [apply Hf|]. apply IH.
    - intros o'. destruct (bool_decide _); [intros [= <-]; apply Hl; by left|apply Hf].
    - intros y Hy. apply Hl. by right. }
  by apply H.
Qed.

Definition good_handler (h : list Z -> DM bool) : Prop := forall d0 line (Q : bool -> dhcpd -> Prop) d,
  configuring d0 d -> Forall is_byte line -> (forall b d', configuring d0 d' -> Q b d') -> twp (h line) Q d.

Lemma read_ip_good dest : (forall a, plain_setter (dest a)) -> good_handler (read_ip dest).
Proof.
  intros Hp d0 line Q d Hc _ HQ. unfold read_ip. apply twp_bind. eapply twp_ip_of; [exact Hc|]. intros [a|] d1 Hc1; [|by apply twp_ret, HQ].
  apply twp_bind. eapply twp_update; [exact Hc1|by rewrite Hp|]. intros d2 Hc2. by apply twp_ret, HQ.
Qed.
Lemma read_str_good dest : (forall v, plain_setter (dest v)) -> good_handler (read_str dest).
Proof.
  intros Hp d0 line Q d Hc _ HQ. unfold read_str. apply twp_bind. eapply twp_update; [exact Hc|by rewrite Hp|].
  intros d2 Hc2. by apply twp_ret, HQ.
Qed.
Lemma read_u32_good dest : (forall v, plain_setter (dest v)) -> good_handler (read_u32 dest).
Proof.
  intros Hp d0 line Q d Hc _ HQ. unfold read_u32. apply twp_bind. eapply twp_update; [exact Hc|by rewrite Hp|].
  intros d2 Hc2. by apply twp_ret, HQ.
Qed.
Lemma read_yn_good dest : (forall v, plain_setter (dest v)) -> good_handler (read_yn dest).
Proof.
  intros Hp d0 line Q d Hc _ HQ. unfold read_yn. destruct (yn_of line); [|by apply twp_ret, HQ].
  apply twp_bind. eapply twp_update; [exact Hc|by rewrite Hp|]. intros d2 Hc2. by apply twp_ret, HQ.
Qed.
Lemma read_opt_good : good_handler read_opt.
Proof.
  intros d0 line Q d Hc Hb HQ. unfold read_opt. destruct (strtok _ line) as [[name rest]|] eqn:Hs; [|by apply twp_ret, HQ].
  apply strtok_parts in Hs as (_ & _ & _ & Hsub). destruct (option_named name) as [opt|] eqn:Hn; [|by apply twp_ret, HQ].
  apply (twp_option_values d0); [by eapply option_named_elem|done|lia|by eapply bytes_sub|done].
Qed.

Definition good_keyword (k : config_keyword) : Prop := good_handler (handler k) /\ Forall is_byte (text (def k)).
Lemma keywords_good : Forall good_keyword keywords.
Proof.
  repeat (apply Forall_cons_2; [split; cbn [handler]|]); try apply Forall_nil_2;
    first [apply read_opt_good|apply read_ip_good; by intros ? ?|apply read_str_good; by intros ? ?
          |apply read_u32_good; by intros ? ?|apply read_yn_good; by intros ? ?|by repeat constructor].
Qed.

Lemma twp_load_defaults d0 l (Q : unit -> dhcpd -> Prop) d : Forall good_keyword l -> configuring d0 d ->
  (forall d', configuring d0 d' -> Q tt d') -> twp (load_defaults l) Q d.
Proof.
  intros Hl. revert d. induction Hl as [|k l [Hk Hd] _ IH]; intros d Hc HQ; cbn [load_defaults]; [by apply twp_ret, HQ|].
  apply twp_bind, twp_if; intros _; [by apply twp_ret, IH|]. apply twp_bind. apply (Hk d0); [done|done|].
  intros _ d1 Hc1. by apply twp_ret, IH.
Qed.

Lemma twp_apply_line d0 l token line (Q : unit -> dhcpd -> Prop) d : Forall good_keyword l -> configuring d0 d -> Forall is_byte line ->
  (forall d', configuring d0 d' -> Q tt d') -> twp (apply_line l token line) Q d.
Proof.
  intros Hl Hc Hb. revert d Hc. induction Hl as [|k l [Hk Hd] _ IH]; intros d Hc HQ; cbn [apply_line]; [by apply twp_ret, HQ|].
  apply twp_bind. unfold when. apply twp_if; intros _; [|by apply twp_ret, IH]. apply twp_bind. apply (Hk d0); [done|done|].
  intros ok d1 Hc1. apply twp_if; intros _; [by apply twp_ret, IH|]. apply twp_bind. apply (Hk d0); [done|done|].
  intros _ d2 Hc2. by apply twp_ret, IH.
Qed.

Lemma twp_config_loop d0 fuel file (Q : unit -> dhcpd -> Prop) d : configuring d0 d -> Forall is_byte file -> (length file < fuel)%nat ->
  (forall d', configuring d0 d' -> Q tt d') -> twp (config_loop fuel file) Q d.
Proof.
  revert file d. induction fuel as [|fuel IH]; intros file d Hc Hb Hf HQ; [lia|]. cbn [config_loop].
  pose proof (take_line_parts 79 file) as Ht. destruct (take_line 79 file) as [[buffer rest] eof]. destruct Ht as [Ht1 Ht2].
  destruct buffer as [|c buffer]; [by apply twp_ret, HQ|]. assert (Hsub : c :: buffer ⊆ file) by (rewrite <- Ht1; apply prefix_sub).
  assert (Hrest : forall d', configuring d0 d' -> twp (config_loop fuel rest) Q d').
  { intros d' Hc'. apply IH; [done| |rewrite <- Ht1, length_app in Hf; simpl in Hf; lia|done].
    eapply bytes_sub; [|exact Hb]. rewrite <- Ht1. apply suffix_sub. }
  apply twp_bind. destruct (split_line (c :: buffer)) as [[token line]|] eqn:Hs; [|by apply twp_ret, Hrest].
  apply (twp_apply_line d0); [apply keywords_good|done| |done].
  eapply bytes_sub; [|exact Hb]. transitivity (c :: buffer); [by eapply split_line_parts|done].
Qed.

Lemma read_config_run d : DhcpLaws E -> options_ok (options_list (server_config d)) ->
  exists r d', read_config d = Ok r d' /\ (r = 0 \/ r = 1) /\ configuring d d'.
Proof.
  intros HL Ho. apply (twp_elim read_config (fun r d' => (r = 0 \/ r = 1) /\ configuring d d')). unfold read_config.
  assert (Hc : configuring d d) by by split. apply twp_bind. apply (twp_load_defaults d); [apply keywords_good|done|]. intros d1 Hc1.
  apply twp_bind. eapply twp_run; [reflexivity|].
  assert (Hc2 : configuring d (set_d_calls (S (d_calls d1)) d1)) by (destruct Hc1 as [? []]; by split).
  destruct (env_config_file (d_calls d1)) as [file|] eqn:Hfile; [|apply twp_ret; split; [by left|done]].
  apply twp_bind. apply (twp_config_loop d); [done|by eapply env_config_bytes|lia|]. intros d3 Hc3. apply twp_ret. split; [by right|done].
Qed.

(** C37. Whatever the configuration file holds, reading it ends, with 0 or 1, and
    leaves a list of options that is sorted by code without repetitions; each
    option is one of the table, its length byte is that of its data, and the data
    has the size of its type (a multiple of it for the options that take a list).
    So the lease option has the four bytes that main copies, and every option can be
    added to a message and found in it. Nothing else of the process changes. *)
Theorem read_config_options d :
  DhcpLaws E -> options_ok (options_list (server_config d)) ->
  exists r d', read_config d = Ok r d' /\ (r = 0 \/ r = 1) /\ options_ok (options_list (server_config d')) /\ same_process d d'.
Proof. intros HL Ho. destruct (read_config_run d HL Ho) as (r & d' & H1 & H2 & [H3 H4]). by exists r, d'. Qed.
End config.
