(* ===== verification/DhcpLeases.v ===== *)
(** * DhcpLeases: the table of leases (leases.c)

    Clearing, adding, searching and choosing leases.  A [struct dhcpOfferedAddr *]
    into the table is the index of its entry; [NULL] is [None]. *)

From S2P Require Import Prelude DhcpTypes DhcpOptions.

Section with_env.
Context `{E : DhcpEnv}.

(** ** Operations *)

Definition nonblank (chaddr : list Z) : bool := existsb (fun b => negb (b =? 0)) (take 16 chaddr).
Definition clears (chaddr0 : list Z) (yiaddr0 : Z) (l : dhcpOfferedAddr) : bool :=
  (nonblank chaddr0 && bool_decide (chaddr l = take 16 chaddr0))
  || (negb (yiaddr0 =? 0) && (yiaddr l =? yiaddr0)).

(** The commands in order, each through the 128 bytes of [buf]. *)
Fixpoint run_cmds (cmds : list string) : DM unit :=
  match cmds with
  | [] => mret tt
  | cmd :: cmds' => sprintf_system 128 cmd;; run_cmds cmds'
  end.

Definition flood_d_udp (ip : string) : string :=
  "/bin/iptables -t filter -D LAN_FLOOD -i br0 -o vlan2 -s " +:+ ip +:+ " -p udp -j ExecutingAllUDPFlood".
Definition flood_d_syn (ip : string) : string :=
  "/bin/iptables -t filter -D LAN_FLOOD -i br0 -o vlan2 -s " +:+ ip
  +:+ " -p tcp --tcp-flags SYN SYN -j ExecutingAllUDPFlood".

Definition clear_lease (chaddr0 : list Z) (yiaddr0 : Z) : DM unit :=
  n ← num_leases;
  for_n n 0 (fun i => l ← lease_get i; when (clears chaddr0 yiaddr0 l) (lease_set i zero_lease));;
  run_cmds [flood_d_udp (inet_ntoa yiaddr0); flood_d_syn (inet_ntoa yiaddr0)].

(** The loop of oldest_expired_lease. *)
Fixpoint oldest_loop (n i : nat) (oldest_lease : Z) (oldest : option nat) : DM (option nat) :=
  match n with
  | O => mret oldest
  | S n' =>
      l ← lease_get i;
      if expires l <? oldest_lease then oldest_loop n' (S i) (expires l) (Some i)
      else oldest_loop n' (S i) oldest_lease oldest
  end.
Definition oldest_expired_lease : DM (option nat) :=
  now ← sys_time; n ← num_leases; oldest_loop n 0 now None.

Definition flood_cmd (op : string) (ip : string) : list string :=
  ["/bin/iptables -t filter -" +:+ op +:+ " LAN_FLOOD -i br0 -s " +:+ ip +:+ " -p udp -j ExecutingAllUDPFlood";
   "/bin/iptables -t filter -" +:+ op +:+ " LAN_FLOOD -i br0 -s " +:+ ip
     +:+ " -p tcp --dport ! 80 --tcp-flags SYN SYN -j ExecutingAllUDPFlood"].
Definition mac_text (chaddr0 : list Z) : string :=
  match take 6 chaddr0 with
  | [a; b; c; d; e; f] =>
      hex2 a +:+ ":" +:+ hex2 b +:+ ":" +:+ hex2 c +:+ ":" +:+ hex2 d +:+ ":" +:+ hex2 e +:+ ":" +:+ hex2 f
  | _ => ""
  end.
Definition newline : string := String (Ascii.ascii_of_N 10) EmptyString.
Definition qos_device_cmd (ip : string) : string :=
  "/bin/vizio_qos add_device vizio_device " +:+ ip +:+ " &" +:+ newline.
Definition qos_mac_cmd (mac ip : string) : string :=
  "/bin/vizio_qos add_device " +:+ mac +:+ " " +:+ ip +:+ " &" +:+ newline.

(** [strncmp(inet_ntoa(addr), "0.0.0.0", strlen("0.0.0.0")) == 0] *)
Definition is_empty_ip (addr : Z) : bool := String.prefix "0.0.0.0" (inet_ntoa addr).

Definition add_lease (chaddr0 : list Z) (yiaddr0 lease0 : Z) : DM (option nat) :=
  if is_empty_ip yiaddr0 then mret None
  else
    clear_lease chaddr0 yiaddr0;;
    oldest ← oldest_expired_lease;
    match oldest with
    | Some k =>
        l ← lease_get k;
        now ← sys_time;
        lease_set k (OfferedAddr (take 16 chaddr0) yiaddr0 (u32 (now + lease0)) (hostname l))
    | None => mret tt
    end;;
    let ip := inet_ntoa yiaddr0 in
    run_cmds (flood_cmd "D" ip ++ flood_cmd "A" ip);;
    vizio ← gets vizio_device;
    if vizio =? 1 then
      sprintf_system 128 (qos_device_cmd ip);; modify (set_vizio_device 0);; mret oldest
    else
      sprintf_system 128 (qos_mac_cmd (mac_text chaddr0) ip);; mret oldest.

Definition lease_expired (l : dhcpOfferedAddr) : DM bool :=
  now ← sys_time; mret (expires l <? now).

Fixpoint find_yiaddr (n i : nat) (yiaddr0 : Z) : DM (option nat) :=
  match n with
  | O => mret None
  | S n' => l ← lease_get i; if yiaddr l =? yiaddr0 then mret (Some i) else find_yiaddr n' (S i) yiaddr0
  end.
Definition find_lease_by_yiaddr (yiaddr0 : Z) : DM (option nat) :=
  n ← num_leases; find_yiaddr n 0 yiaddr0.

(** Gemtek_Jimmy_Added_004_Extra_SRC_003: the router's own address is entered
    into the table for an unknown client. *)
Definition IsLanIPAddr (addr : Z) : DM bool :=
  lan ← dsys env_lan_ipaddr;
  if bool_decide (lan = inet_ntoa addr) then
    conflict ← gets (fun d => conflict_time (server_config d));
    add_lease blank_chaddr addr conflict;; mret true
  else mret false.

Definition check_ip (addr : Z) : DM bool :=
  lan ← IsLanIPAddr addr;
  conflict ← gets (fun d => conflict_time (server_config d));
  if lan : bool then add_lease blank_chaddr addr conflict;; mret true
  else
    used ← dsys (fun n => env_arpping n addr);
    if used =? 0 then add_lease blank_chaddr addr conflict;; mret true
    else mret false.

(** [!(lease = find_lease_by_yiaddr(ret)) || (check_expired && lease_expired(lease))] *)
Definition assignable (check_expired : bool) (addr : Z) : DM bool :=
  found ← find_lease_by_yiaddr addr;
  match found with
  | None => mret true
  | Some k => if check_expired then l ← lease_get k; lease_expired l else mret false
  end.

(** The loop of find_address; [addr] wraps around. *)
Fixpoint find_address_loop (fuel : nat) (check_expired : bool) (addr : Z) : DM Z :=
  match fuel with
  | O => fail Out_of_fuel
  | S fuel' =>
      last ← gets (fun d => end_ (server_config d));
      if negb (addr <=? last) then mret 0
      else if Z.land addr 0xFF =? 0 then find_address_loop fuel' check_expired (u32 (addr + 1))
      else if Z.land addr 0xFF =? 0xFF then find_address_loop fuel' check_expired (u32 (addr + 1))
      else
        lan ← IsLanIPAddr addr;
        if lan : bool then find_address_loop fuel' check_expired (u32 (addr + 1))
        else
          free ← assignable check_expired addr;
          if free : bool then
            taken ← check_ip addr;
            if taken : bool then find_address_loop fuel' check_expired (u32 (addr + 1))
            else mret addr
          else find_address_loop fuel' check_expired (u32 (addr + 1))
  end.
Definition find_address (check_expired : bool) : DM Z :=
  c ← gets server_config;
  find_address_loop (S (Z.to_nat (end_ c - start c + 1))) check_expired (start c).

Fixpoint find_chaddr (n i : nat) (chaddr0 : list Z) : DM (option nat) :=
  match n with
  | O => mret None
  | S n' =>
      l ← lease_get i;
      if bool_decide (take 6 (chaddr l) = take 6 chaddr0) then
        lan ← IsLanIPAddr (yiaddr l);
        mret (if lan : bool then None else Some i)
      else find_chaddr n' (S i) chaddr0
  end.
Definition find_lease_by_chaddr (chaddr0 : list Z) : DM (option nat) :=
  n ← num_leases; find_chaddr n 0 chaddr0.

(** The leases move to the network of the server's new address. *)
Definition update_lease_by_new_ip : DM unit :=
  c ← gets server_config;
  svr_mask ← dsys env_lan_netmask;
  let svr_ip := Z.land (server c) svr_mask in
  n ← num_leases;
  for_n n 0 (fun i =>
    l ← lease_get i;
    when (negb (yiaddr l =? 0))
      (lease_set i (OfferedAddr (chaddr l) (Z.lor svr_ip (Z.land (yiaddr l) (u32 (Z.lnot svr_mask))))
                      (expires l) (hostname l)))).
End with_env.

(** ** The text of addresses and commands *)

Lemma byte_check (P : N -> bool) : forallb (fun n => P (N.of_nat n)) (seq 0 256) = true ->
  forall z, 0 <= z < 256 -> P (Z.to_N z) = true.
Proof.
  intros H z Hz. rewrite forallb_forall in H. replace (Z.to_N z) with (N.of_nat (Z.to_nat z)) by lia.
  apply H, in_seq. lia.
Qed.

Definition short_digits (n : N) : bool :=
  let k := String.length (pretty n) in (1 <=? k)%nat && (k <=? 3)%nat.
Definition digits_head (n : N) : bool :=
  match pretty n with
  | String c _ => N.eqb n 0 || negb (Ascii.eqb c (Ascii.ascii_of_N 48))
  | EmptyString => false
  end.

Lemma pretty_byte_length z : 0 <= z < 256 -> (1 <= String.length (pretty (Z.to_N z)) <= 3)%nat.
Proof.
  intros Hz. assert (Hall : forallb (fun n => short_digits (N.of_nat n)) (seq 0 256) = true) by (vm_compute; reflexivity).
  pose proof (byte_check short_digits Hall z Hz) as H. unfold short_digits in H.
  apply andb_true_iff in H as [H1 H2]. apply Nat.leb_le in H1, H2. lia.
Qed.

(** The first digit of a number above zero is not zero. *)
Lemma pretty_byte_head z : 0 < z < 256 ->
  exists c s, pretty (Z.to_N z) = String c s /\ c <> Ascii.ascii_of_N 48.
Proof.
  intros Hz. assert (Hall : forallb (fun n => digits_head (N.of_nat n)) (seq 0 256) = true) by (vm_compute; reflexivity).
  pose proof (byte_check digits_head Hall z ltac:(lia)) as H. unfold digits_head in H.
  destruct (pretty (Z.to_N z)) as [|c s]; [done|]. exists c, s. split; [done|].
  apply orb_true_iff in H as [H|H]; [apply N.eqb_eq in H; lia|].
  intros ->. by rewrite Ascii.eqb_refl in H.
Qed.

Lemma string_length_app s1 s2 : String.length (s1 +:+ s2) = (String.length s1 + String.length s2)%nat.
Proof. induction s1 as [|c s1 IH]; simpl; [done|]. by rewrite IH. Qed.

Lemma inet_ntoa_length addr : (7 <= String.length (inet_ntoa addr) <= 15)%nat.
Proof.
  unfold inet_ntoa. rewrite !string_length_app.
  pose proof (pretty_byte_length _ (u8_range (addr / 16777216))).
  pose proof (pretty_byte_length _ (u8_range (addr / 65536))).
  pose proof (pretty_byte_length _ (u8_range (addr / 256))).
  pose proof (pretty_byte_length _ (u8_range (addr / 1))). simpl. lia.
Qed.

Lemma string_app_empty s : s +:+ "" = s.
Proof. induction s as [|c s IH]; [done|]. exact (f_equal (String c) IH). Qed.

(** The guard of add_lease is the test for the address zero. *)
Lemma prefix_step z rest s : 0 <= z < 256 ->
  String.prefix (String (Ascii.ascii_of_N 48) rest) (pretty (Z.to_N z) +:+ s)
  = if z =? 0 then String.prefix rest s else false.
Proof.
  intros Hz. destruct (Z.eqb_spec z 0) as [->|Hne].
  - change (pretty (Z.to_N 0)) with (String (Ascii.ascii_of_N 48) EmptyString). reflexivity.
  - destruct (pretty_byte_head z ltac:(lia)) as (c & s' & -> & Hc).
    change (String c s' +:+ s) with (String c (s' +:+ s)). cbn [String.prefix].
    by destruct (Ascii.ascii_dec (Ascii.ascii_of_N 48) c) as [He|_]; [|].
Qed.

Lemma bytes_zero addr : 0 <= addr < 4294967296 ->
  u8 (addr / 16777216) = 0 -> u8 (addr / 65536) = 0 -> u8 (addr / 256) = 0 -> u8 (addr / 1) = 0 -> addr = 0.
Proof.
  intros H. pose proof (of_be32 addr) as Hb. rewrite u32_small in Hb by done. unfold be32 in Hb.
  replace (addr / 1) with addr by (symmetry; apply Z.div_1_r). intros E1 E2 E3 E4. rewrite E1, E2, E3, E4 in Hb. done.
Qed.

Lemma is_empty_ip_zero addr : 0 <= addr < 4294967296 -> is_empty_ip addr = (addr =? 0).
Proof.
  intros H. unfold is_empty_ip, inet_ntoa.
  pose proof (u8_range (addr / 16777216)). pose proof (u8_range (addr / 65536)).
  pose proof (u8_range (addr / 256)). pose proof (u8_range (addr / 1)).
  pose proof (bytes_zero addr H) as Hz.
  change "0.0.0.0"%string with (String (Ascii.ascii_of_N 48) ("." +:+ String (Ascii.ascii_of_N 48) ("." +:+ String (Ascii.ascii_of_N 48) ("." +:+ String (Ascii.ascii_of_N 48) EmptyString)))).
  assert (Hdot : forall a b, String.prefix ("." +:+ a) ("." +:+ b) = String.prefix a b).
  { reflexivity. }
  rewrite prefix_step by done. destruct (Z.eqb_spec (u8 (addr / 16777216)) 0) as [E1|E1].
  2: { destruct (Z.eqb_spec addr 0) as [->|]; [done|done]. }
  rewrite Hdot, prefix_step by done. destruct (Z.eqb_spec (u8 (addr / 65536)) 0) as [E2|E2].
  2: { destruct (Z.eqb_spec addr 0) as [->|]; [done|done]. }
  rewrite Hdot, prefix_step by done. destruct (Z.eqb_spec (u8 (addr / 256)) 0) as [E3|E3].
  2: { destruct (Z.eqb_spec addr 0) as [->|]; [done|done]. }
  rewrite Hdot. rewrite <- (string_app_empty (pretty _)), prefix_step by done.
  destruct (Z.eqb_spec (u8 (addr / 1)) 0) as [E4|E4].
  - by rewrite Hz.
  - destruct (Z.eqb_spec addr 0) as [->|]; done.
Qed.

(** ** The table *)

Record lease_ok (l : dhcpOfferedAddr) : Prop := LeaseOk {
  le_chaddr : length (chaddr l) = 16%nat;
  le_yiaddr : 0 <= yiaddr l < 4294967296;
  le_expires : 0 <= expires l < 4294967296;
  le_hostname : length (hostname l) = 64%nat
}.

(** The configuration's words, and a table as long as the configuration says. *)
Record table_ok (d : dhcpd) : Prop := TableOk {
  tb_size : length (leases d) = Z.to_nat (max_leases (server_config d));
  tb_leases : Forall lease_ok (leases d)
}.

(** What the lease operations do to the rest of the process: they run commands
    and ask for the time, and nothing else. *)
Record quiet (d d' : dhcpd) : Prop := Quiet {
  qu_config : server_config d' = server_config d;
  qu_timeout : timeout_end d' = timeout_end d;
  qu_calls : (d_calls d <= d_calls d')%nat;
  qu_out : exists cmds, d_out d' = d_out d ++ (System <$> cmds)
}.

#[export] Instance quiet_preorder : PreOrder quiet.
Proof.
  split.
  - intros d. split; try done. exists []. by rewrite app_nil_r.
  - intros d1 d2 d3 [A1 A2 A3 [c1 A4]] [B1 B2 B3 [c2 B4]].
    split; [congruence|congruence|lia|]. exists (c1 ++ c2). by rewrite B4, A4, fmap_app, app_assoc.
Qed.

(** What every operation of the server keeps. *)
Record calm (d d' : dhcpd) : Prop := Calm {
  ca_config : server_config d' = server_config d;
  ca_timeout : timeout_end d' = timeout_end d;
  ca_calls : (d_calls d <= d_calls d')%nat
}.
#[export] Instance calm_preorder : PreOrder calm.
Proof.
  split; [done|]. intros d1 d2 d3 [A1 A2 A3] [B1 B2 B3]. split; [congruence|congruence|lia].
Qed.
Lemma quiet_calm d d' : quiet d d' -> calm d d'.
Proof. by intros []. Qed.

Lemma quiet_leases ls d : quiet d (set_leases ls d).
Proof. split; try done. exists []. by rewrite app_nil_r. Qed.
Lemma quiet_calls n d : (d_calls d <= n)%nat -> quiet d (set_d_calls n d).
Proof. intros H. split; try done. exists []. by rewrite app_nil_r. Qed.
Lemma quiet_vizio v d : quiet d (set_vizio_device v d).
Proof. split; try done. exists []. by rewrite app_nil_r. Qed.

(** Commands that fit their buffer run. *)
Lemma run_cmds_run cmds d : Forall (fun c => (String.length c < 128)%nat) cmds ->
  run_cmds cmds d = Ok tt (set_d_out (d_out d ++ (System <$> cmds)) d).
Proof.
  intros H. revert d. induction H as [|c cmds Hc _ IH]; intros d; cbn [run_cmds].
  - unfold mret, M_ret. f_equal. destruct d. simpl. by rewrite app_nil_r.
  - unfold sprintf_system. rewrite decide_True by done. eapply run_bind; [reflexivity|].
    rewrite IH. unfold set_d_out. simpl. by rewrite <- app_assoc.
Qed.

Lemma flood_cmds_fit ip : (String.length ip <= 15)%nat ->
  Forall (fun c => (String.length c < 128)%nat) [flood_d_udp ip; flood_d_syn ip]
  /\ Forall (fun c => (String.length c < 128)%nat) (flood_cmd "D" ip ++ flood_cmd "A" ip).
Proof.
  intros H. unfold flood_cmd, flood_d_udp, flood_d_syn. cbn [app].
  split; repeat apply Forall_cons_2; try constructor; rewrite !string_length_app; cbn [String.length]; lia.
Qed.

Lemma qos_cmds_fit ch ip : (String.length ip <= 15)%nat ->
  (String.length (qos_device_cmd ip) < 128)%nat /\ (String.length (qos_mac_cmd (mac_text ch) ip) < 128)%nat.
Proof.
  intros H. unfold qos_device_cmd, qos_mac_cmd. rewrite !string_length_app. cbn [String.length newline].
  assert (Hm : (String.length (mac_text ch) <= 17)%nat).
  { unfold mac_text. destruct (take 6 ch) as [|a [|b [|c [|d [|e [|f [|]]]]]]]; try (cbn [String.length]; lia).
    rewrite !string_length_app. cbn [String.length hex2]. lia. }
  split; lia.
Qed.

(** ** The operations as functions of the table *)

Definition cleared (chaddr0 : list Z) (yiaddr0 : Z) (ls : list dhcpOfferedAddr) : list dhcpOfferedAddr :=
  (fun l => if clears chaddr0 yiaddr0 l then zero_lease else l) <$> ls.

(** The first entry with the smallest expiry below [best]. *)
Fixpoint oldest_of (i : nat) (best : Z) (k : option nat) (ls : list dhcpOfferedAddr) : option nat :=
  match ls with
  | [] => k
  | l :: ls' => if expires l <? best then oldest_of (S i) (expires l) (Some i) ls' else oldest_of (S i) best k ls'
  end.

(** The table after a lease was added at time [now], when entry [k] was chosen
    for it at an earlier time. *)
Definition enter (k : option nat) (chaddr0 : list Z) (yiaddr0 expires0 : Z) (ls : list dhcpOfferedAddr) : list dhcpOfferedAddr :=
  match k with
  | Some i => match ls !! i with
              | Some l => <[i := OfferedAddr (take 16 chaddr0) yiaddr0 expires0 (hostname l)]> ls
              | None => ls
              end
  | None => ls
  end.

Section table.
Context `{E : DhcpEnv}.

Lemma num_leases_run d : table_ok d -> num_leases d = Ok (length (leases d)) d.
Proof. intros [-> _]. done. Qed.

Lemma lease_get_run i l d : leases d !! i = Some l -> lease_get i d = Ok l d.
Proof. intros H. unfold lease_get. eapply run_bind; [apply gets_run|]. by apply in_bounds_run. Qed.
Lemma lease_set_run i l0 l d : leases d !! i = Some l0 -> lease_set i l d = Ok tt (set_leases (<[i := l]> (leases d)) d).
Proof.
  intros H. unfold lease_set. eapply run_bind; [apply gets_run|]. by eapply run_bind; [by apply in_bounds_run|].
Qed.

Lemma set_leases_same d : set_leases (leases d) d = d.
Proof. by destruct d. Qed.

(** A loop over the table that rewrites its entries one by one. *)
Lemma table_loop (f : dhcpOfferedAddr -> dhcpOfferedAddr) (body : nat -> DM unit) n i d :
  (forall i l d, leases d !! i = Some l -> body i d = Ok tt (set_leases (<[i := f l]> (leases d)) d)) ->
  (i + n = length (leases d))%nat ->
  for_n n i body d = Ok tt (set_leases (take i (leases d) ++ (f <$> drop i (leases d))) d).
Proof.
  intros Hbody. revert i d. induction n as [|n IH]; intros i d Hn; cbn [for_n].
  - rewrite take_ge, drop_ge by lia. simpl. rewrite app_nil_r. by rewrite set_leases_same.
  - destruct (lookup_lt_is_Some_2 (leases d) i) as [l Hl]; [lia|].
    eapply run_bind; [exact (Hbody i l d Hl)|]. rewrite IH by (simpl; rewrite length_insert; lia).
    unfold set_leases. simpl. do 2 f_equal.
    rewrite (drop_S _ l i Hl), fmap_cons, (take_S_r _ _ (f l)) by (apply list_lookup_insert_eq; by eapply lookup_lt_Some).
    rewrite take_insert_ge, drop_insert_lt by lia. by rewrite <- app_assoc.
Qed.

Lemma clear_lease_run ch y d : table_ok d ->
  clear_lease ch y d
  = Ok tt (set_d_out (d_out d ++ (System <$> [flood_d_udp (inet_ntoa y); flood_d_syn (inet_ntoa y)]))
             (set_leases (cleared ch y (leases d)) d)).
Proof.
  intros H. unfold clear_lease. eapply run_bind; [by apply num_leases_run|].
  eapply run_bind.
  { apply (table_loop (fun l => if clears ch y l then zero_lease else l)); [|done]. intros i l d' Hl.
    eapply run_bind; [by apply lease_get_run|]. unfold when. destruct (clears ch y l); [by eapply lease_set_run|].
    rewrite list_insert_id by done. by rewrite set_leases_same. }
  rewrite take_0, drop_0. simpl app. fold (cleared ch y (leases d)).
  rewrite run_cmds_run; [done|]. apply flood_cmds_fit. pose proof (inet_ntoa_length y). lia.
Qed.

Lemma oldest_loop_run n i best k d : (i + n = length (leases d))%nat ->
  oldest_loop n i best k d = Ok (oldest_of i best k (drop i (leases d))) d.
Proof.
  revert i best k. induction n as [|n IH]; intros i best k Hn; cbn [oldest_loop].
  - by rewrite drop_ge by lia.
  - destruct (lookup_lt_is_Some_2 (leases d) i) as [l Hl]; [lia|].
    eapply run_bind; [by apply lease_get_run|]. rewrite (drop_S _ l i Hl). cbn [oldest_of].
    destruct (_ <? _); by rewrite IH by lia.
Qed.

Lemma oldest_expired_lease_run d : table_ok d ->
  oldest_expired_lease d
  = Ok (oldest_of 0 (env_uptime (d_calls d)) None (leases d)) (set_d_calls (S (d_calls d)) d).
Proof.
  intros H. unfold oldest_expired_lease. eapply run_bind; [reflexivity|].
  eapply run_bind; [apply num_leases_run; destruct H; by split|]. by rewrite oldest_loop_run.
Qed.

(** The choice: nothing when every entry is at least as late as [best]; else
    an entry before [best], the earliest of all and the first of these. *)
Lemma oldest_of_spec i best k ls :
  match oldest_of i best k ls with
  | Some j => (k = Some j /\ Forall (fun l => best <= expires l) ls)
              \/ exists l, (i <= j)%nat /\ ls !! (j - i)%nat = Some l /\ expires l < best
                           /\ Forall (fun l' => expires l <= expires l') ls
                           /\ (forall j' l', (j' < j - i)%nat -> ls !! j' = Some l' -> expires l < expires l')
  | None => k = None /\ Forall (fun l => best <= expires l) ls
  end.
Proof.
  revert i best k. induction ls as [|l ls IH]; intros i best k; cbn [oldest_of].
  - destruct k; [by left|done].
  - destruct (Z.ltb_spec (expires l) best) as [Hlt|Hge].
    + specialize (IH (S i) (expires l) (Some i)). destruct (oldest_of _ _ _ ls) as [j|]; [|by destruct IH].
      right. destruct IH as [[[= <-] Hall]|(l' & Hj & Hl' & He & Hall & Hfirst)].
      * exists l. rewrite Nat.sub_diag. split; [lia|]. split; [done|]. split; [done|].
        split; [constructor; [lia|done]|]. intros j' l' Hj'. lia.
      * exists l'. split; [lia|]. replace (j - i)%nat with (S (j - S i)) by lia. split; [done|]. split; [lia|].
        split; [constructor; [lia|done]|]. intros [|j'] l'' Hj' Hl''; [by injection Hl'' as ->|].
        apply (Hfirst j' l''); [lia|done].
    + specialize (IH (S i) best k). destruct (oldest_of _ _ _ ls) as [j|].
      * destruct IH as [[-> Hall]|(l' & Hj & Hl' & He & Hall & Hfirst)]; [left; by split; [|constructor]|].
        right. exists l'. split; [lia|]. replace (j - i)%nat with (S (j - S i)) by lia. split; [done|]. split; [lia|].
        split; [constructor; [lia|done]|]. intros [|j'] l'' Hj' Hl''; [injection Hl'' as ->; lia|].
        apply (Hfirst j' l''); [lia|done].
      * destruct IH as [-> Hall]. split; [done|]. by constructor.
Qed.

(** ** Adding a lease *)

Definition added (d : dhcpd) (ch : list Z) (y lease0 : Z) : option nat * list dhcpOfferedAddr :=
  let ls := cleared ch y (leases d) in
  let k := oldest_of 0 (env_uptime (d_calls d)) None ls in
  (k, enter k ch y (u32 (env_uptime (S (d_calls d)) + lease0)) ls).

Lemma cleared_length ch y ls : length (cleared ch y ls) = length ls.
Proof. apply length_fmap. Qed.

Lemma oldest_of_lookup best ls k : oldest_of 0 best None ls = Some k -> exists l, ls !! k = Some l.
Proof.
  intros H. pose proof (oldest_of_spec 0 best None ls) as Hs. rewrite H in Hs.
  destruct Hs as [[? _]|(l & _ & Hl & _)]; [done|]. rewrite Nat.sub_0_r in Hl. by exists l.
Qed.

(** add_lease on an address other than zero: the pointer it returns, the new
    table, and nothing else but commands and calls for the time. *)
Lemma add_lease_run ch y lease0 d : table_ok d -> 0 < y < 4294967296 ->
  exists d', add_lease ch y lease0 d = Ok (fst (added d ch y lease0)) d'
  /\ leases d' = snd (added d ch y lease0) /\ quiet d d' /\ (d_calls d < d_calls d')%nat.
Proof.
  intros Hok Hy. unfold add_lease. rewrite is_empty_ip_zero by lia. destruct (Z.eqb_spec y 0); [lia|].
  set (d1 := set_d_out (d_out d ++ (System <$> [flood_d_udp (inet_ntoa y); flood_d_syn (inet_ntoa y)]))
             (set_leases (cleared ch y (leases d)) d)).
  assert (Hok1 : table_ok d1).
  { split; simpl; [rewrite cleared_length; apply Hok|]. apply Forall_fmap. eapply Forall_weaken; [apply Hok|].
    intros l Hl. simpl. by destruct (clears ch y l). }
  assert (Hq1 : quiet d d1) by (split; try done; by exists [flood_d_udp (inet_ntoa y); flood_d_syn (inet_ntoa y)]).
  assert (H1 : clear_lease ch y d = Ok tt d1) by by apply clear_lease_run.
  assert (H2 : oldest_expired_lease d1 = Ok (fst (added d ch y lease0)) (set_d_calls (S (d_calls d)) d1))
    by exact (oldest_expired_lease_run d1 Hok1).
  assert (H3 : exists d3, (match fst (added d ch y lease0) with
    | Some k => l ← lease_get k; now ← sys_time;
        lease_set k (OfferedAddr (take 16 ch) y (u32 (now + lease0)) (hostname l))
    | None => mret tt end) (set_d_calls (S (d_calls d)) d1) = Ok tt d3
    /\ leases d3 = snd (added d ch y lease0) /\ quiet d d3 /\ (d_calls d < d_calls d3)%nat).
  { unfold added. destruct (oldest_of _ _ _ _) as [k|] eqn:Hk; cbn [fst snd].
    - destruct (oldest_of_lookup _ _ _ Hk) as [l Hl]. unfold enter. rewrite Hl. eexists. split; [|split].
      + eapply run_bind; [by apply lease_get_run|]. eapply run_bind; [reflexivity|]. by apply (lease_set_run _ l).
      + done.
      + split; [|simpl; lia].
        etransitivity; [exact Hq1|]. etransitivity; [apply (quiet_calls (S (S (d_calls d)))); simpl; lia|apply quiet_leases].
    - eexists. split; [reflexivity|]. split; [done|]. split; [|simpl; lia].
      etransitivity; [exact Hq1|]. apply quiet_calls. simpl. lia. }
  destruct H3 as (d3 & H3 & Hl3 & Hq3 & Hc3).
  pose proof (inet_ntoa_length y) as Hip. destruct (qos_cmds_fit ch (inet_ntoa y)) as [F1 F2]; [lia|].
  assert (Hcmd : forall c d, (String.length c < 128)%nat -> sprintf_system 128 c d = Ok tt (set_d_out (d_out d ++ [System c]) d)).
  { intros c d0 Hc. unfold sprintf_system. by rewrite decide_True. }
  set (d4 := set_d_out (d_out d3 ++ (System <$> (flood_cmd "D" (inet_ntoa y) ++ flood_cmd "A" (inet_ntoa y)))) d3).
  assert (Hq4 : quiet d d4) by (etransitivity; [exact Hq3|]; split; try done; by eexists).
  assert (Hq5 : forall c, quiet d (set_d_out (d_out d4 ++ [System c]) d4)).
  { intros c. etransitivity; [exact Hq4|]. split; try done. by exists [c]. }
  assert (Hend : exists d', (vizio ← gets vizio_device;
      if vizio =? 1 then
        sprintf_system 128 (qos_device_cmd (inet_ntoa y));; modify (set_vizio_device 0);; mret (fst (added d ch y lease0))
      else
        sprintf_system 128 (qos_mac_cmd (mac_text ch) (inet_ntoa y));; mret (fst (added d ch y lease0))) d4
    = Ok (fst (added d ch y lease0)) d' /\ leases d' = snd (added d ch y lease0) /\ quiet d d' /\ (d_calls d < d_calls d')%nat).
  { unfold mbind at 1, M_bind at 1, gets at 1. destruct (vizio_device d4 =? 1); eexists; (split; [eapply run_bind; [by apply Hcmd|reflexivity]|]); simpl.
    - split; [done|]. split; [|done]. etransitivity; [apply (Hq5 (qos_device_cmd (inet_ntoa y)))|]. apply quiet_vizio.
    - split; [done|]. split; [apply Hq5|done]. }
  destruct Hend as (d' & He & Hl & Hq). exists d'. split; [|done].
  eapply run_bind; [exact H1|]. eapply run_bind; [exact H2|]. eapply run_bind; [exact H3|].
  eapply run_bind; [apply run_cmds_run, flood_cmds_fit; lia|]. exact He.
Qed.

(** An address of zero is not entered. *)
Lemma add_lease_zero ch lease0 d : add_lease ch 0 lease0 d = Ok None d.
Proof. unfold add_lease. by rewrite is_empty_ip_zero by lia. Qed.

(** ** The invariant of the table

    No two entries have the same address, nor the same hardware address, the
    addresses of empty and reserved entries apart. *)

Definition unique_leases (ls : list dhcpOfferedAddr) : Prop :=
  forall i j l l', ls !! i = Some l -> ls !! j = Some l' -> i <> j ->
    (yiaddr l <> 0 -> yiaddr l <> yiaddr l') /\ (nonblank (chaddr l) = true -> chaddr l <> chaddr l').

Lemma cleared_lookup ch y ls i l : cleared ch y ls !! i = Some l ->
  l = zero_lease \/ (ls !! i = Some l /\ clears ch y l = false).
Proof.
  unfold cleared. rewrite list_lookup_fmap. destruct (ls !! i) as [l0|]; [|done]. simpl. intros [= <-].
  destruct (clears ch y l0) eqn:Hc; [by left|by right].
Qed.

Lemma cleared_unique ch y ls : unique_leases ls -> unique_leases (cleared ch y ls).
Proof.
  intros H i j l l' Hi Hj Hne.
  destruct (cleared_lookup _ _ _ _ _ Hi) as [->|[Hi' _]]; [done|].
  destruct (cleared_lookup _ _ _ _ _ Hj) as [->|[Hj' _]].
  - simpl. split; [done|]. intros Hn He. rewrite He in Hn. done.
  - by apply (H i j).
Qed.

Lemma clears_false ch y l : length ch = 16%nat -> clears ch y l = false ->
  (nonblank ch = true -> chaddr l <> ch) /\ (y <> 0 -> yiaddr l <> y).
Proof.
  unfold clears. intros Hl H. rewrite take_ge in H by lia. apply orb_false_iff in H as [H1 H2]. split.
  - intros Hn He. rewrite Hn in H1. simpl in H1. by apply bool_decide_eq_false in H1.
  - intros Hy He. apply andb_false_iff in H2 as [H2|H2]; bool_to_prop; done.
Qed.

Lemma insert_unique ls i l : unique_leases ls ->
  (forall j l', ls !! j = Some l' -> j <> i ->
     (yiaddr l <> 0 -> yiaddr l' <> yiaddr l) /\ (nonblank (chaddr l) = true -> chaddr l' <> chaddr l)) ->
  unique_leases (<[i := l]> ls).
Proof.
  intros H Hl a b x x' Ha Hb Hne. rewrite list_lookup_insert_Some in Ha. rewrite list_lookup_insert_Some in Hb.
  destruct Ha as [(<- & <- & _)|[Ha1 Ha]], Hb as [(<- & <- & _)|[Hb1 Hb]]; try done.
  - destruct (Hl b x' Hb ltac:(done)) as [L1 L2]. split; [intros Hy He; by apply L1|intros Hn He; by apply L2].
  - destruct (Hl a x Ha ltac:(done)) as [L1 L2]. split.
    + intros Hy He. rewrite He in Hy. by apply L1.
    + intros Hn He. rewrite He in Hn. by apply L2.
  - by apply (H a b).
Qed.

Lemma added_unique d ch y lease0 : length ch = 16%nat -> unique_leases (leases d) ->
  unique_leases (snd (added d ch y lease0)).
Proof.
  intros Hl H. unfold added. destruct (oldest_of _ _ _ _) as [k|] eqn:Hk; cbn [snd enter]; [|by apply cleared_unique].
  destruct (cleared ch y (leases d) !! k) as [l0|]; [|by apply cleared_unique].
  apply insert_unique; [by apply cleared_unique|]. intros j l' Hj _. simpl. rewrite take_ge by lia.
  destruct (cleared_lookup _ _ _ _ _ Hj) as [->|[_ Hc]].
  - split; [done|]. intros Hn He. by rewrite <- He in Hn.
  - destruct (clears_false _ _ _ Hl Hc). done.
Qed.

Lemma enter_ok k ch y e ls : length ch = 16%nat -> 0 <= y < 4294967296 -> 0 <= e < 4294967296 ->
  Forall lease_ok ls -> Forall lease_ok (enter k ch y e ls).
Proof.
  intros Hl Hy He H. unfold enter. destruct k as [k|]; [|done]. destruct (ls !! k) as [l|] eqn:Hk; [|done].
  apply Forall_insert; [done|]. pose proof (Forall_lookup_1 _ _ _ _ H Hk) as Hlk.
  split; simpl; [rewrite take_ge by lia; done|done|done|apply Hlk].
Qed.

Lemma enter_length k ch y e ls : length (enter k ch y e ls) = length ls.
Proof. unfold enter. destruct k as [k|]; [|done]. destruct (ls !! k); [|done]. apply length_insert. Qed.

Lemma added_table_ok d ch y lease0 d' : table_ok d -> length ch = 16%nat -> 0 <= y < 4294967296 ->
  leases d' = snd (added d ch y lease0) -> server_config d' = server_config d -> table_ok d'.
Proof.
  intros [H1 H2] Hl Hy Hls Hc. unfold added in Hls. cbn [snd] in Hls. split.
  - by rewrite Hls, Hc, enter_length, cleared_length.
  - rewrite Hls. apply enter_ok; [done|done|apply u32_range|]. apply Forall_fmap.
    eapply Forall_weaken; [exact H2|]. intros l Hlk. simpl. by destruct (clears ch y l).
Qed.

(** ** Leases that stay

    A lease that has not expired at any time the server looked at its clock
    between [d] and [d'] is still there, when [safe] holds of it. *)

Definition unexpired_over (a b : nat) (l : dhcpOfferedAddr) : Prop :=
  forall n, (a <= n < b)%nat -> env_uptime n <= expires l.
Definition keeps (safe : dhcpOfferedAddr -> Prop) (d d' : dhcpd) : Prop :=
  forall l, l ∈ leases d -> safe l -> unexpired_over (d_calls d) (d_calls d') l -> l ∈ leases d'.

Lemma keeps_refl safe d d' : leases d' = leases d -> keeps safe d d'.
Proof. intros H l Hl _ _. by rewrite H. Qed.

Lemma keeps_trans safe d1 d2 d3 : calm d1 d2 -> calm d2 d3 -> keeps safe d1 d2 -> keeps safe d2 d3 -> keeps safe d1 d3.
Proof.
  intros [_ _ C1] [_ _ C2] H1 H2 l Hl Hs Hu. apply H2; [apply H1; [done|done|]|done|].
  - intros n Hn. apply Hu. lia.
  - intros n Hn. apply Hu. lia.
Qed.

Lemma added_keeps d ch y lease0 l : l ∈ leases d -> clears ch y l = false ->
  env_uptime (d_calls d) <= expires l -> l ∈ snd (added d ch y lease0).
Proof.
  intros [i Hi]%list_elem_of_lookup Hc Ht.
  assert (Hi' : cleared ch y (leases d) !! i = Some l) by (unfold cleared; rewrite list_lookup_fmap, Hi; simpl; by rewrite Hc).
  unfold added. cbn [snd]. unfold enter. pose proof (oldest_of_spec 0 (env_uptime (d_calls d)) None (cleared ch y (leases d))) as Hs.
  destruct (oldest_of _ _ _ _) as [k|]; [|by eapply list_elem_of_lookup_2].
  destruct Hs as [[? _]|(l0 & _ & Hl0 & He & _)]; [done|]. rewrite Nat.sub_0_r in Hl0. rewrite Hl0.
  apply list_elem_of_lookup_2 with i. rewrite list_lookup_insert_ne; [done|]. intros ->.
  rewrite Hl0 in Hi'. injection Hi' as ->. lia.
Qed.

(** What holds of a state that the server has come to from [d0]: the invariant
    of the table, the same configuration, and the safe leases are there. *)
Record from (safe : dhcpOfferedAddr -> Prop) (d0 d : dhcpd) : Prop := From {
  fr_ok : table_ok d;
  fr_unique : unique_leases (leases d);
  fr_calm : calm d0 d;
  fr_keeps : keeps safe d0 d
}.

Lemma from_refl safe d : table_ok d -> unique_leases (leases d) -> from safe d d.
Proof. intros H1 H2. split; [done|done|done|by apply keeps_refl]. Qed.

(** Nothing of the table changes. *)
Lemma from_same safe d0 d d' : from safe d0 d -> calm d d' -> leases d' = leases d -> from safe d0 d'.
Proof.
  intros [[H1 H2] H3 H4 H5] Hq Hl. split.
  - split; rewrite Hl; [|done]. by rewrite (ca_config _ _ Hq).
  - by rewrite Hl.
  - by etransitivity.
  - eapply keeps_trans; [exact H4|exact Hq|exact H5|by apply keeps_refl].
Qed.

Lemma from_calls safe d0 d n : from safe d0 d -> (d_calls d <= n)%nat -> from safe d0 (set_d_calls n d).
Proof. intros H Hn. eapply from_same; [exact H|by apply quiet_calm, quiet_calls|done]. Qed.

Lemma keeps_added safe d0 d d' ch y lease0 :
  calm d0 d -> calm d d' -> (d_calls d < d_calls d')%nat -> keeps safe d0 d ->
  leases d' = snd (added d ch y lease0) ->
  (forall l, l ∈ leases d -> safe l -> unexpired_over (d_calls d0) (d_calls d) l -> clears ch y l = false) ->
  keeps safe d0 d'.
Proof.
  intros [_ _ C1] [_ _ C2] C3 Hk Hl Hc l Hin Hs Hu.
  assert (Hu1 : unexpired_over (d_calls d0) (d_calls d) l) by (intros n Hn; apply Hu; lia).
  rewrite Hl. apply added_keeps; [by apply Hk|by apply Hc, Hu1; [apply Hk|]|]. apply Hu. lia.
Qed.


Lemma twp_add_lease safe d0 ch y lease0 (Q : option nat -> dhcpd -> Prop) d :
  from safe d0 d -> length ch = 16%nat -> 0 <= y < 4294967296 ->
  (forall l, l ∈ leases d -> safe l -> unexpired_over (d_calls d0) (d_calls d) l -> y <> 0 -> clears ch y l = false) ->
  (y = 0 -> Q None d) ->
  (forall d', y <> 0 -> from safe d0 d' -> leases d' = snd (added d ch y lease0) -> quiet d d' ->
     Q (fst (added d ch y lease0)) d') ->
  twp (add_lease ch y lease0) Q d.
Proof.
  intros [Hok Hun Hq Hk] Hl Hy Hc Hz HQ. destruct (decide (y = 0)) as [->|Hne].
  - unfold twp. rewrite add_lease_zero. by apply Hz.
  - destruct (add_lease_run ch y lease0 d Hok) as (d' & Hr & Hls & Hq' & Hcalls); [lia|].
    unfold twp. rewrite Hr. apply HQ; [done| |done|done]. split.
    + eapply added_table_ok; [exact Hok|done|done|exact Hls|apply Hq'].
    + rewrite Hls. by apply added_unique.
    + etransitivity; [exact Hq|by apply quiet_calm].
    + eapply keeps_added; [exact Hq|by apply quiet_calm|done|exact Hk|exact Hls|]. intros l H1 H2 H3. by apply Hc.
Qed.

(** The LAN address is not the one of a safe lease. *)
Definition off_lan (safe : dhcpOfferedAddr -> Prop) : Prop :=
  forall l n, safe l -> env_lan_ipaddr n <> inet_ntoa (yiaddr l).

Lemma blank_length : length blank_chaddr = 16%nat.
Proof. done. Qed.
Lemma clears_blank y l : y <> 0 -> clears blank_chaddr y l = (yiaddr l =? y).
Proof. intros Hy. unfold clears. simpl. by destruct (Z.eqb_spec y 0). Qed.

Lemma twp_IsLanIPAddr safe d0 addr (Q : bool -> dhcpd -> Prop) d :
  from safe d0 d -> off_lan safe -> 0 <= addr < 4294967296 ->
  (env_lan_ipaddr (d_calls d) <> inet_ntoa addr -> Q false (set_d_calls (S (d_calls d)) d)) ->
  (forall d', env_lan_ipaddr (d_calls d) = inet_ntoa addr -> from safe d0 d' -> quiet d d' -> Q true d') ->
  twp (IsLanIPAddr addr) Q d.
Proof.
  intros Hf Ho Ha HF HT. unfold IsLanIPAddr. apply twp_bind. unfold twp at 1. simpl.
  set (d1 := set_d_calls (S (d_calls d)) d).
  assert (Hf1 : from safe d0 d1) by (apply from_calls; [done|lia]).
  assert (Hq1 : quiet d d1) by (apply quiet_calls; lia).
  apply twp_if; intros He; [apply bool_decide_eq_true in He|apply bool_decide_eq_false in He; by apply HF].
  apply twp_bind, twp_gets, twp_bind. eapply twp_add_lease; [exact Hf1|done|done| | |].
  - intros l _ Hs _ Hne. rewrite clears_blank by done. apply Z.eqb_neq. intros Hy. apply (Ho l (d_calls d) Hs). by rewrite Hy.
  - intros _. apply twp_ret. by apply HT.
  - intros d' _ Hf' _ Hq'. apply twp_ret. apply HT; [done|done|]. by etransitivity.
Qed.

(** The searches by address and by hardware address. *)
Lemma find_yiaddr_run n i y d : (i + n = length (leases d))%nat ->
  find_yiaddr n i y d = Ok ((fun jl => (i + fst jl)%nat) <$> list_find (fun l => yiaddr l = y) (drop i (leases d))) d.
Proof.
  revert i. induction n as [|n IH]; intros i Hn; cbn [find_yiaddr].
  - by rewrite drop_ge by lia.
  - destruct (lookup_lt_is_Some_2 (leases d) i) as [l Hl]; [lia|].
    eapply run_bind; [exact (lease_get_run _ _ _ Hl)|]. rewrite (drop_S _ l i Hl). cbn [list_find].
    destruct (Z.eqb_spec (yiaddr l) y) as [He|He].
    + rewrite decide_True by done. simpl. by rewrite Nat.add_0_r.
    + rewrite decide_False by done. rewrite IH by lia. f_equal. destruct (list_find _ _) as [[j l']|]; simpl; [|done].
      f_equal. lia.
Qed.

Lemma find_lease_by_yiaddr_run y d : table_ok d ->
  find_lease_by_yiaddr y d = Ok (fst <$> list_find (fun l => yiaddr l = y) (leases d)) d.
Proof.
  intros H. unfold find_lease_by_yiaddr. eapply run_bind; [by apply num_leases_run|].
  rewrite find_yiaddr_run by done. rewrite drop_0. f_equal.
Qed.

(** The entry for a hardware address: the first with its first six bytes. *)
Definition same_mac (ch : list Z) (l : dhcpOfferedAddr) : Prop := take 6 (chaddr l) = take 6 ch.
#[export] Instance same_mac_dec ch l : Decision (same_mac ch l).
Proof. unfold same_mac. apply _. Defined.

Lemma twp_find_chaddr safe d0 n i ch (Q : option nat -> dhcpd -> Prop) d :
  from safe d0 d -> off_lan safe -> (i + n = length (leases d))%nat ->
  (Forall (fun l => ~ same_mac ch l) (drop i (leases d)) -> Q None d) ->
  (forall j l, leases d !! j = Some l -> same_mac ch l -> env_lan_ipaddr (d_calls d) <> inet_ntoa (yiaddr l) ->
     Q (Some j) (set_d_calls (S (d_calls d)) d)) ->
  (forall d' l, l ∈ leases d -> same_mac ch l -> env_lan_ipaddr (d_calls d) = inet_ntoa (yiaddr l) ->
     from safe d0 d' -> quiet d d' -> Q None d') ->
  twp (find_chaddr n i ch) Q d.
Proof.
  intros Hf Ho. revert i. induction n as [|n IH]; intros i Hn HN HS HL; cbn [find_chaddr].
  - apply twp_ret, HN. by rewrite drop_ge by lia.
  - destruct (lookup_lt_is_Some_2 (leases d) i) as [l Hl]; [lia|].
    apply twp_bind. unfold twp at 1. rewrite (lease_get_run _ _ _ Hl).
    apply twp_if; intros He; [apply bool_decide_eq_true in He|apply bool_decide_eq_false in He].
    + apply twp_bind. pose proof (Forall_lookup_1 _ _ _ _ (tb_leases _ (fr_ok _ _ _ Hf)) Hl) as Hlk.
      eapply twp_IsLanIPAddr; [exact Hf|done|apply Hlk| |].
      * intros Hlan. apply twp_ret. by apply (HS i l).
      * intros d' Hlan Hf' Hq. apply twp_ret. apply (HL d' l); try done. by eapply list_elem_of_lookup_2.
    + apply IH; [lia| |done|done]. intros Hall. apply HN. rewrite (drop_S _ l i Hl). by constructor.
Qed.

Lemma twp_find_lease_by_chaddr safe d0 ch (Q : option nat -> dhcpd -> Prop) d :
  from safe d0 d -> off_lan safe ->
  (Forall (fun l => ~ same_mac ch l) (leases d) -> Q None d) ->
  (forall j l, leases d !! j = Some l -> same_mac ch l -> env_lan_ipaddr (d_calls d) <> inet_ntoa (yiaddr l) ->
     Q (Some j) (set_d_calls (S (d_calls d)) d)) ->
  (forall d' l, l ∈ leases d -> same_mac ch l -> env_lan_ipaddr (d_calls d) = inet_ntoa (yiaddr l) ->
     from safe d0 d' -> quiet d d' -> Q None d') ->
  twp (find_lease_by_chaddr ch) Q d.
Proof.
  intros Hf Ho HN HS HL. unfold find_lease_by_chaddr. apply twp_bind. unfold twp at 1.
  rewrite (num_leases_run _ (fr_ok _ _ _ Hf)). eapply twp_find_chaddr; [exact Hf|done|done|by rewrite drop_0|done|done].
Qed.

(** ** Choosing an address *)

(** An address no unexpired lease has: every entry with it was seen expired
    since [d0]. *)
Definition available (d0 d : dhcpd) (y : Z) : Prop :=
  forall l, l ∈ leases d -> yiaddr l = y ->
  exists n, (d_calls d0 <= n < d_calls d)%nat /\ expires l < env_uptime n.

Lemma available_not_safe d0 d y l : available d0 d y -> l ∈ leases d ->
  unexpired_over (d_calls d0) (d_calls d) l -> yiaddr l <> y.
Proof. intros Ha Hl Hu He. destruct (Ha l Hl He) as (n & Hn & Hx). specialize (Hu n Hn). lia. Qed.

Lemma available_calls d0 d n y : available d0 d y -> (d_calls d <= n)%nat -> available d0 (set_d_calls n d) y.
Proof. intros Ha Hn l Hl Hy. destruct (Ha l Hl Hy) as (m & Hm & Hx). exists m. simpl. split; [lia|done]. Qed.

Lemma unique_address ls i l l' : unique_leases ls -> ls !! i = Some l -> l' ∈ ls -> yiaddr l <> 0 ->
  yiaddr l' = yiaddr l -> l' = l.
Proof.
  intros H Hi [j Hj]%list_elem_of_lookup Hy He. destruct (decide (i = j)) as [->|Hne]; [congruence|].
  by destruct (proj1 (H i j l l' Hi Hj Hne) Hy).
Qed.

(** A free address of the range: the decision of find_address. *)
Lemma twp_assignable safe d0 ce y (Q : bool -> dhcpd -> Prop) d :
  from safe d0 d -> y <> 0 ->
  (forall d', from safe d0 d' -> quiet d d' -> leases d' = leases d ->
     available d0 d' y -> (ce = false -> forall l, l ∈ leases d' -> yiaddr l <> y) -> Q true d') ->
  (forall d', from safe d0 d' -> quiet d d' -> Q false d') ->
  twp (assignable ce y) Q d.
Proof.
  intros Hf Hy HT HF. unfold assignable. apply twp_bind. unfold twp at 1.
  rewrite (find_lease_by_yiaddr_run y d (fr_ok _ _ _ Hf)).
  destruct (list_find _ _) as [[k l]|] eqn:Hfind; simpl.
  - apply list_find_Some in Hfind as (Hk & Hyl & _).
    destruct ce; [|apply twp_ret, HF; [done|reflexivity]].
    apply twp_bind. unfold twp at 1. rewrite (lease_get_run _ _ _ Hk). unfold lease_expired. apply twp_bind.
    unfold twp at 1. simpl. apply twp_ret.
    assert (Hf' : from safe d0 (set_d_calls (S (d_calls d)) d)) by (apply from_calls; [done|lia]).
    assert (Hq' : quiet d (set_d_calls (S (d_calls d)) d)) by (apply quiet_calls; lia).
    destruct (Z.ltb_spec (expires l) (env_uptime (d_calls d))) as [Hlt|]; [|by apply HF].
    apply HT; [done|done|done| |done]. intros l' Hl' Hy'. simpl in Hl'.
    rewrite (unique_address _ _ _ _ (fr_unique _ _ _ Hf) Hk Hl') by congruence.
    exists (d_calls d). simpl. pose proof (ca_calls _ _ (fr_calm _ _ _ Hf)). split; [lia|done].
  - apply twp_ret. apply list_find_None in Hfind.
    assert (Hno : forall l, l ∈ leases d -> yiaddr l <> y) by (intros l Hl; by apply (Forall_elem _ _ _ Hfind Hl)).
    apply HT; [done|reflexivity|done| |done]. intros l Hl He. by destruct (Hno l Hl).
Qed.

Lemma twp_check_ip safe d0 addr (Q : bool -> dhcpd -> Prop) d :
  from safe d0 d -> off_lan safe -> 0 < addr < 4294967296 -> available d0 d addr ->
  (env_lan_ipaddr (d_calls d) <> inet_ntoa addr -> env_arpping (S (d_calls d)) addr <> 0 ->
     Q false (set_d_calls (S (S (d_calls d))) d)) ->
  (forall d', from safe d0 d' -> quiet d d' -> Q true d') ->
  twp (check_ip addr) Q d.
Proof.
  intros Hf Ho Ha Hav HF HT. unfold check_ip. apply twp_bind.
  assert (Hadd : forall e d', from safe d0 d' -> quiet d d' ->
    (forall l, l ∈ leases d' -> safe l -> unexpired_over (d_calls d0) (d_calls d') l -> yiaddr l <> addr) ->
    twp (add_lease blank_chaddr addr e;; mret true) Q d').
  { intros e d' Hf' Hq' Hno. apply twp_bind. eapply twp_add_lease; [exact Hf'|done|lia| |lia|].
    - intros l Hl Hs Hu Hne. rewrite clears_blank by done. by apply Z.eqb_neq, Hno.
    - intros d2 _ Hf2 _ Hq2. apply twp_ret, HT; [done|by etransitivity]. }
  eapply twp_IsLanIPAddr; [exact Hf|done|lia| |].
  - intros Hlan. apply twp_bind, twp_gets, twp_bind. unfold twp at 1. simpl.
    match goal with |- twp _ _ ?s => change s with (set_d_calls (S (S (d_calls d))) d) end.
    apply twp_if; intros Hu.
    + apply Hadd; [apply from_calls; [done|lia]|apply quiet_calls; lia|].
      intros l Hl Hs Hun. eapply available_not_safe; [apply (available_calls d0 d (S (S (d_calls d)))); [exact Hav|lia]|exact Hl|exact Hun].
    + bool_to_prop. by apply twp_ret, HF.
  - intros d' Hlan Hf' Hq'. apply twp_bind, twp_gets. apply Hadd; [done|done|].
    intros l Hl Hs _ He. apply (Ho l (d_calls d) Hs). by rewrite He.
Qed.

(** What find_address promises of the address it returns. *)
Definition offered (ce : bool) (c : server_config_t) (d0 d : dhcpd) (r : Z) : Prop :=
  start c <= r <= end_ c /\ Z.land r 0xFF <> 0 /\ Z.land r 0xFF <> 0xFF
  /\ available d0 d r
  /\ (ce = false -> forall l, l ∈ leases d -> yiaddr l <> r)
  /\ (exists n, (n < d_calls d)%nat /\ env_lan_ipaddr n <> inet_ntoa r)
  /\ (exists n, (n < d_calls d)%nat /\ env_arpping n r <> 0).

Lemma twp_find_address_loop safe d0 ce fuel addr (Q : Z -> dhcpd -> Prop) d :
  from safe d0 d -> off_lan safe -> 0 <= start (server_config d) <= addr -> 0 < addr ->
  end_ (server_config d) < 4294967295 -> Z.max 0 (end_ (server_config d) - addr + 1) < Z.of_nat fuel ->
  (forall r d', from safe d0 d' -> quiet d d' -> r = 0 \/ offered ce (server_config d) d0 d' r -> Q r d') ->
  twp (find_address_loop fuel ce addr) Q d.
Proof.
  intros Hf Ho. revert addr d Hf.
  induction fuel as [|fuel IH]; intros addr d Hf Hs Hpos He Hn HQ; [lia|]. cbn [find_address_loop].
  assert (Hnext : forall d', from safe d0 d' -> quiet d d' -> addr <= end_ (server_config d) ->
    twp (find_address_loop fuel ce (u32 (addr + 1))) Q d').
  { intros d' Hf' Hq' Hle. rewrite u32_small by lia. pose proof (qu_config _ _ Hq') as Hcfg.
    apply IH; rewrite ?Hcfg; [done|lia|lia|lia|lia|]. intros r d2 H2 Hq2 Hr. apply HQ; [done|by etransitivity|done]. }
  apply twp_bind, twp_gets. apply twp_if; intros Hlast; bool_to_prop.
  { apply twp_ret, HQ; [done|reflexivity|by left]. }
  apply twp_if; intros H0; bool_to_prop; [apply Hnext; [done|reflexivity|lia]|].
  apply twp_if; intros H255; bool_to_prop; [apply Hnext; [done|reflexivity|lia]|].
  apply twp_bind. eapply twp_IsLanIPAddr; [exact Hf|done|lia| |intros d' _ Hf' Hq'; apply Hnext; [done|done|lia]].
  intros Hlan. set (d1 := set_d_calls _ d).
  assert (Hf1 : from safe d0 d1) by (apply from_calls; [done|lia]).
  assert (Hq1 : quiet d d1) by (apply quiet_calls; lia).
  apply twp_bind. eapply twp_assignable; [exact Hf1|lia| |].
  2: { intros d' Hf' Hq'. apply Hnext; [done|by etransitivity|lia]. }
  intros d2 Hf2 Hq2 Hls Hav Hno. apply twp_bind. eapply twp_check_ip; [exact Hf2|done|lia|done| |].
  2: { intros d' Hf' Hq'. apply Hnext; [done|etransitivity; [exact Hq1|by etransitivity]|lia]. }
  intros Hlan2 Harp. apply twp_ret. set (d3 := set_d_calls _ d2).
  assert (Hq3 : quiet d2 d3) by (apply quiet_calls; lia).
  apply HQ; [apply from_calls; [done|lia]|etransitivity; [exact Hq1|by etransitivity]|].
  right. split; [lia|]. split; [done|]. split; [done|]. split; [apply available_calls; [done|lia]|].
  split; [done|]. split; [exists (d_calls d2); split; [simpl; lia|done]|exists (S (d_calls d2)); split; [simpl; lia|done]].
Qed.

Lemma twp_find_address safe d0 ce (Q : Z -> dhcpd -> Prop) d :
  from safe d0 d -> off_lan safe -> 0 < start (server_config d) -> end_ (server_config d) < 4294967295 ->
  (forall r d', from safe d0 d' -> quiet d d' -> r = 0 \/ offered ce (server_config d) d0 d' r -> Q r d') ->
  twp (find_address ce) Q d.
Proof.
  intros Hf Ho Hs He HQ. unfold find_address. apply twp_bind, twp_gets.
  eapply twp_find_address_loop; [exact Hf|done|lia|lia|done|lia|done].
Qed.

(** find_address ends and gives an address the server may offer: it returns
    zero, or an address of the configured range that does not end in .0 or
    .255, was not the router's own address and did not answer an ARP request
    when it was tried, and that no entry of the table holds, or, when expired
    leases are allowed, no entry that was not seen expired. The configuration,
    the sizes of the table and the uniqueness of its addresses are kept, and
    only commands are run. The range must end below 255.255.255.255. *)
Theorem find_address_spec ce d :
  table_ok d -> unique_leases (leases d) -> 0 < start (server_config d) -> end_ (server_config d) < 4294967295 ->
  exists r d', find_address ce d = Ok r d' /\ quiet d d' /\ table_ok d' /\ unique_leases (leases d')
  /\ (r = 0 \/ offered ce (server_config d) d d' r).
Proof.
  intros H1 H2 H3 H4. apply twp_elim. eapply (twp_find_address (fun _ => False)); [by apply from_refl|by intros ? ?|done|done|].
  intros r d' [F1 F2 _ _] Hq Hr. done.
Qed.

(** add_lease enters a client: on an address other than zero it ends, and
    clears every entry with that address or that (nonzero) hardware address. Of
    the table so cleared it takes the entry that expired first (the lowest of
    equals), and that entry then holds the client, the address and the time now
    plus the lease; every other entry is as it was, or cleared. It returns NULL
    exactly when no entry of the cleared table has expired, and then nothing is
    entered. No two entries of the new table share an address or a hardware
    address if none did before. Address zero changes nothing. *)
Theorem add_lease_spec ch y lease0 d :
  table_ok d -> unique_leases (leases d) -> length ch = 16%nat -> 0 <= y < 4294967296 ->
  exists r d', add_lease ch y lease0 d = Ok r d' /\ quiet d d' /\ table_ok d' /\ unique_leases (leases d')
  /\ if decide (y = 0) then r = None /\ d' = d
     else match r with
          | None => leases d' = cleared ch y (leases d)
                    /\ Forall (fun l => env_uptime (d_calls d) <= expires l) (leases d')
          | Some k => exists old, cleared ch y (leases d) !! k = Some old
              /\ expires old < env_uptime (d_calls d)
              /\ Forall (fun l => expires old <= expires l) (cleared ch y (leases d))
              /\ (forall j l, (j < k)%nat -> cleared ch y (leases d) !! j = Some l -> expires old < expires l)
              /\ leases d' = <[k := OfferedAddr ch y (u32 (env_uptime (S (d_calls d)) + lease0)) (hostname old)]>
                               (cleared ch y (leases d))
          end.
Proof.
  intros Hok Hun Hl Hy. destruct (decide (y = 0)) as [->|Hne].
  { exists None, d. split; [apply add_lease_zero|]. done. }
  destruct (add_lease_run ch y lease0 d Hok) as (d' & Hr & Hls & Hq & _); [lia|].
  exists (fst (added d ch y lease0)), d'. split; [done|]. split; [done|].
  split; [eapply added_table_ok; [exact Hok|done|done|exact Hls|apply Hq]|].
  split; [rewrite Hls; by apply added_unique|]. revert Hls. unfold added. cbn [fst snd].
  pose proof (oldest_of_spec 0 (env_uptime (d_calls d)) None (cleared ch y (leases d))) as Hs.
  destruct (oldest_of _ _ _ _) as [k|]; intros Hls.
  - destruct Hs as [[? _]|(old & _ & Hold & He & Hmin & Hfirst)]; [done|]. rewrite Nat.sub_0_r in Hold, Hfirst.
    exists old. split; [done|]. split; [done|]. split; [done|]. split; [done|].
    rewrite Hls. unfold enter. rewrite Hold. by rewrite take_ge by lia.
  - destruct Hs as [_ Hall]. by rewrite Hls.
Qed.
End table.
