(* ===== verification/DhcpConfigText.v ===== *)
(** * DhcpConfigText: a configuration file and what is read from it (files.c)

    A printer for the scalar settings of a configuration, and the proof that
    read_config gets them back, number by number and line by line. *)

From stdpp Require Import sets.
From S2P Require Import Prelude DhcpTypes DhcpOptions DhcpConfig DhcpLeases.

(** ** The file that spells out a configuration *)

Definition config_line (kw value : string) : list Z := text kw ++ 32 :: text value ++ [10].
Definition number (n : Z) : string := pretty (Z.to_N n).
Definition yes_no (b : Z) : string := if b =? 0 then "no" else "yes".
Definition config_text (c : server_config_t) : list Z := concat [
  config_line "start" (inet_ntoa (start c)); config_line "end" (inet_ntoa (end_ c));
  config_line "interface" (interface c); config_line "max_leases" (number (max_leases c));
  config_line "remaining" (yes_no (remaining c)); config_line "auto_time" (number (auto_time c));
  config_line "decline_time" (number (decline_time c)); config_line "conflict_time" (number (conflict_time c));
  config_line "offer_time" (number (offer_time c)); config_line "min_lease" (number (min_lease c));
  config_line "lease_file" (lease_file c); config_line "pidfile" (pidfile c); config_line "siaddr" (inet_ntoa (siaddr c))].

(** A word of a line: no control character, blank, hash or equals sign. *)
Definition plain_char (c : Z) : Prop := 33 <= c <= 126 /\ c <> 35 /\ c <> 61.
Definition plain_word (w : list Z) : Prop := w <> [] /\ Forall plain_char w /\ (length w <= 60)%nat.

(** *** Numbers *)

Lemma text_cons c s : text (String c s) = Z.of_N (Ascii.N_of_ascii c) :: text s.
Proof. done. Qed.
Lemma text_app a b : text (a +:+ b) = text a ++ text b.
Proof. induction a as [|c a IH]; [done|]. change (String c a +:+ b) with (String c (a +:+ b)). by rewrite !text_cons, IH. Qed.

Lemma digit_char k : (k < 10)%N -> Z.of_N (Ascii.N_of_ascii (pretty_N_char k)) = 48 + Z.of_N k.
Proof.
  intros H. destruct (decide (k = 0 \/ k = 1 \/ k = 2 \/ k = 3 \/ k = 4 \/ k = 5 \/ k = 6 \/ k = 7 \/ k = 8 \/ k = 9)%N) as [Hk|]; [|lia].
  by repeat (destruct Hk as [->|Hk]); [..|subst k].
Qed.
Lemma digit_value k : 0 <= k < 10 -> digit (48 + k) = k.
Proof.
  intros H. unfold digit. rewrite (proj2 (Z.leb_le _ _)), (proj2 (Z.leb_le _ _)) by lia. cbn. lia.
Qed.

Lemma digits_pretty x s : digits 10 0 (text (pretty_N_go x s)) = digits 10 (Z.of_N x) (text s).
Proof.
  revert s. induction (N.lt_wf_0 x) as [x _ IH]; intros s. destruct (decide (x = 0)%N) as [->|Hx]; [by rewrite pretty_N_go_0|].
  rewrite pretty_N_go_step by lia. rewrite IH by (apply N.div_lt; lia). rewrite text_cons, digit_char by (apply N.mod_lt; lia).
  cbn [digits]. pose proof (N.mod_lt x 10 ltac:(lia)) as Hm. pose proof (N2Z.is_nonneg (x mod 10)).
  rewrite (digit_value (Z.of_N (x mod 10))) by lia.
  rewrite (proj2 (Z.ltb_lt _ _)) by lia. f_equal.
  rewrite (N.div_mod x 10) at 3 by lia. rewrite N2Z.inj_add, N2Z.inj_mul. lia.
Qed.

(** The digits of a positive number start with a digit above zero. *)
Lemma pretty_head x s : (0 < x)%N -> exists k t, text (pretty_N_go x s) = (48 + k) :: t /\ 0 < k < 10.
Proof.
  revert s. induction (N.lt_wf_0 x) as [x _ IH]; intros s Hx. rewrite pretty_N_go_step by lia.
  destruct (decide (x / 10 = 0)%N) as [H0|H0].
  - rewrite H0, pretty_N_go_0, text_cons, digit_char by (apply N.mod_lt; lia).
    exists (Z.of_N (x mod 10)), (text s). split; [done|]. pose proof (N.mod_lt x 10 ltac:(lia)) as Hm.
    pose proof (N.div_mod x 10 ltac:(lia)) as Hd. rewrite H0, N.mul_0_r, N.add_0_l in Hd. rewrite <- Hd in *. lia.
  - apply IH; [apply N.div_lt; lia|]. by apply N.neq_0_lt_0.
Qed.

Lemma number_strtoul n : 0 <= n < 4294967296 -> strtoul (text (number n)) = (n, true).
Proof.
  intros Hn. unfold number. destruct (decide (n = 0)) as [->|Hpos]; [reflexivity|].
  pose proof (digits_pretty (Z.to_N n) "") as Hd. destruct (pretty_head (Z.to_N n) "" ltac:(lia)) as (k & t & Ht & Hk).
  unfold pretty, pretty_N. rewrite decide_False by lia. rewrite Ht in *. unfold strtoul, signed_number.
  assert (Hsp : isspace (48 + k) = false) by (unfold isspace; rewrite (proj2 (Z.eqb_neq _ _)) by lia; rewrite (proj2 (Z.leb_gt (48 + k) 13)) by lia; by rewrite andb_false_r).
  rewrite Hsp. assert (Hm : magnitude ((48 + k) :: t) = Some (digits 10 0 ((48 + k) :: t))).
  { unfold magnitude. replace (digit (48 + k) <? 10) with true by (rewrite digit_value by lia; symmetry; apply Z.ltb_lt; lia).
    assert (Hc : k = 1 \/ k = 2 \/ k = 3 \/ k = 4 \/ k = 5 \/ k = 6 \/ k = 7 \/ k = 8 \/ k = 9) by lia.
    by repeat (destruct Hc as [->|Hc]); [..|subst k]. }
  assert (Hs : (match (48 + k) :: t with 45 :: s' => (true, s') | 43 :: s' => (false, s') | _ => (false, (48 + k) :: t) end) = (false, (48 + k) :: t)).
  { assert (Hc : k = 1 \/ k = 2 \/ k = 3 \/ k = 4 \/ k = 5 \/ k = 6 \/ k = 7 \/ k = 8 \/ k = 9) by lia.
    by repeat (destruct Hc as [->|Hc]); [..|subst k]. }
  rewrite Hs, Hm, Hd. cbn [text bytes_of_string digits]. rewrite Z2N.id by lia. change (digits 10 n (text "")) with (n, @nil Z).
  cbv beta iota zeta. by destruct (Z.ltb_spec 4294967295 n); [lia|].
Qed.

(** The digits of a number below 10^k: plain characters, at most k of them. *)
Lemma pretty_digits k x s : (x < 10 ^ N.of_nat k)%N -> Forall plain_char (text s) ->
  Forall plain_char (text (pretty_N_go x s)) /\ (length (text (pretty_N_go x s)) <= k + length (text s))%nat.
Proof.
  revert x s. induction k as [|k IH]; intros x s Hx Hs; [simpl in Hx; replace x with 0%N by lia; by rewrite pretty_N_go_0|].
  destruct (decide (x = 0)%N) as [->|Hx0]; [rewrite pretty_N_go_0; split; [done|lia]|]. rewrite pretty_N_go_step by lia.
  pose proof (N.mod_lt x 10 ltac:(lia)) as Hm. pose proof (digit_char _ Hm) as Hd. pose proof (N2Z.is_nonneg (x mod 10)).
  assert (Hz : Z.of_N (x mod 10) < 10) by lia.
  destruct (IH (x / 10)%N (String (pretty_N_char (x mod 10)) s)) as [H1 H2].
  - apply N.Div0.div_lt_upper_bound. rewrite <- N.pow_succ_r'. by rewrite <- Nat2N.inj_succ.
  - rewrite text_cons. constructor; [|done]. rewrite Hd. unfold plain_char. lia.
  - split; [done|]. rewrite text_cons in H2. simpl in H2. lia.
Qed.

Lemma number_digits k n : (0 < k)%nat -> 0 <= n < 10 ^ Z.of_nat k ->
  Forall plain_char (text (number n)) /\ (length (text (number n)) <= k)%nat.
Proof.
  intros Hk Hn. unfold number, pretty, pretty_N. destruct (decide (Z.to_N n = 0)%N); [split; [by repeat constructor|simpl; lia]|].
  destruct (pretty_digits k (Z.to_N n) "") as [H1 H2]; [|constructor|split; [done|simpl in H2; lia]].
  apply N2Z.inj_lt. rewrite N2Z.inj_pow, Z2N.id, nat_N_Z by lia. change (Z.of_N 10) with 10. lia.
Qed.

Lemma number_plain n : 0 <= n < 4294967296 -> plain_word (text (number n)).
Proof.
  intros Hn. destruct (number_digits 10 n) as [H1 H2]; [lia|change (10 ^ Z.of_nat 10) with 10000000000; lia|].
  split; [|split; [done|lia]]. intros H0. unfold number, pretty, pretty_N in H0.
  destruct (decide (Z.to_N n = 0)%N); [done|]. destruct (pretty_head (Z.to_N n) "" ltac:(lia)) as (k & t & Ht & _). by rewrite H0 in Ht.
Qed.

Lemma address_plain a : plain_word (text (inet_ntoa a)).
Proof.
  assert (Hb : forall k, Forall plain_char (text (pretty (Z.to_N (u8 (a / k)))))).
  { intros k. apply (number_plain (u8 (a / k))). pose proof (u8_range (a / k)). lia. }
  assert (Hdot : Forall plain_char (text ".")) by by repeat constructor.
  assert (Hlen : forall s, length (text s) = String.length s).
  { intros s. unfold text, bytes_of_string. rewrite length_fmap. induction s as [|c s IH]; [done|]. simpl. by rewrite IH. }
  split; [|split].
  - intros H. apply (f_equal length) in H. rewrite Hlen in H. pose proof (inet_ntoa_length a). simpl in H. lia.
  - unfold inet_ntoa. rewrite !text_app. repeat (apply Forall_app; split); done.
  - rewrite Hlen. pose proof (inet_ntoa_length a). lia.
Qed.

(** *** Lines *)

Lemma plain_not_in set w : Forall plain_char w -> forallb (fun c => negb ((33 <=? c) && (c <=? 126)) || (c =? 35) || (c =? 61)) set = true ->
  Forall (fun c => in_set set c = false) w.
Proof.
  intros Hw Hs. eapply Forall_impl; [exact Hw|]. intros c (H1 & H2 & H3). unfold in_set.
  destruct (existsb (Z.eqb c) set) eqn:He; [|done]. apply existsb_exists in He as (x & Hx & E). apply Z.eqb_eq in E as <-.
  rewrite forallb_forall in Hs. specialize (Hs c Hx). rewrite (proj2 (Z.leb_le 33 c)), (proj2 (Z.leb_le c 126)), (proj2 (Z.eqb_neq c 35)), (proj2 (Z.eqb_neq c 61)) in Hs by lia.
  done.
Qed.

Lemma cut_app set w s : Forall (fun c => in_set set c = false) w -> cut set (w ++ s) = (w ++ fst (cut set s), snd (cut set s)).
Proof.
  induction 1 as [|c w Hc _ IH]; cbn [app cut]; [by destruct (cut set s)|]. by rewrite Hc, IH.
Qed.
Lemma cut_stop set c s : in_set set c = true -> cut set (c :: s) = ([], c :: s).
Proof. intros H. cbn [cut]. by rewrite H. Qed.
Lemma skip_plain set w s : w <> [] -> Forall (fun c => in_set set c = false) w -> skip set (w ++ s) = w ++ s.
Proof. destruct w as [|c w]; [done|]. intros _ H. apply Forall_cons in H as [H _]. cbn [app skip]. by rewrite H. Qed.
Lemma rtrim_plain w : Forall plain_char w -> rtrim w = w.
Proof.
  induction 1 as [|c w (H1 & H2 & H3) _ IH]; [done|]. cbn [rtrim]. rewrite IH. destruct w; [|done].
  unfold isspace. rewrite (proj2 (Z.eqb_neq c 32)) by lia. rewrite (proj2 (Z.leb_gt c 13)) by lia. by rewrite andb_false_r.
Qed.
Lemma cstring_app w s : Forall (fun c => c <> 0) w -> cstring (w ++ s) = w ++ cstring s.
Proof. induction 1 as [|c w Hc _ IH]; [done|]. cbn [app cstring]. rewrite (proj2 (Z.eqb_neq c 0)) by done. by f_equal. Qed.
Lemma take_line_run k w rest : Forall (fun c => c <> 10) w -> (length w < k)%nat ->
  take_line k (w ++ 10 :: rest) = (w ++ [10], rest, false).
Proof.
  intros H. revert k. induction H as [|c w Hc _ IH]; intros [|k] Hk; simpl in Hk; try lia; cbn [app take_line]; [done|].
  rewrite (proj2 (Z.eqb_neq c 10)) by done. by rewrite IH by lia.
Qed.

Lemma cut_word set w c s : Forall (fun c => in_set set c = false) w -> in_set set c = true -> cut set (w ++ c :: s) = (w, c :: s).
Proof. intros Hw Hc. rewrite cut_app, cut_stop by done. cbn [fst snd]. by rewrite app_nil_r. Qed.
Lemma cut_all set w : Forall (fun c => in_set set c = false) w -> cut set w = (w, []).
Proof. intros Hw. rewrite <- (app_nil_r w) at 1. rewrite cut_app by done. cbn. by rewrite app_nil_r. Qed.
Lemma skip_word set w : w <> [] -> Forall (fun c => in_set set c = false) w -> skip set w = w.
Proof. intros H1 H2. rewrite <- (app_nil_r w) at 1. rewrite skip_plain by done. apply app_nil_r. Qed.

Lemma split_line_run kw v : plain_word kw -> plain_word v -> split_line (kw ++ 32 :: v ++ [10]) = Some (kw, v).
Proof.
  intros (K1 & K2 & _) (V1 & V2 & _). unfold split_line.
  assert (Hboth : forall P : Z -> Prop, (forall c, plain_char c -> P c) -> P 32 -> Forall P (kw ++ 32 :: v)).
  { intros P HP H32. apply Forall_app. split; [|constructor; [done|]]; (eapply Forall_impl; [eassumption|exact HP]). }
  assert (Hin : forall set c, forallb (fun c => negb ((33 <=? c) && (c <=? 126)) || (c =? 35) || (c =? 61)) set = true ->
    plain_char c -> in_set set c = false).
  { intros set c Hs Hc. pose proof (plain_not_in set [c] (Forall_cons_2 _ _ _ Hc (Forall_nil_2 _)) Hs) as H. by apply Forall_cons in H as [H _]. }
  replace (kw ++ 32 :: v ++ [10]) with ((kw ++ 32 :: v) ++ [10]) by (by rewrite <- app_assoc).
  rewrite cstring_app by (apply Hboth; [intros c [? _]; lia|done]). change (cstring [10]) with [10].
  rewrite cut_word by first [done|apply Hboth; [intros c; by apply Hin|done]]. cbn [fst].
  rewrite cut_all by (apply Hboth; [intros c; by apply Hin|done]). cbn [fst].
  rewrite skip_plain by (done || (eapply Forall_impl; [exact K2|intros c; by apply Hin])).
  destruct kw as [|c kw]; [done|]. cbn [app]. rewrite (app_comm_cons kw).
  rewrite cut_word by (done || (eapply Forall_impl; [exact K2|intros x; by apply Hin])). do 2 f_equal.
  rewrite skip_word by (done || (eapply Forall_impl; [exact V2|intros x; by apply Hin])). by apply rtrim_plain.
Qed.

(** *** Reading the lines *)

Lemma string_of_text s : string_of_bytes (text s) = s.
Proof.
  unfold string_of_bytes, text, bytes_of_string. induction s as [|c s IH]; [done|]. cbn.
  rewrite N2Z.id, Ascii.ascii_N_embedding. f_equal. exact IH.
Qed.

Section text.
Context `{E : DhcpEnv}.

Lemma config_line_step fuel kw value rest d d' : plain_word (text kw) -> plain_word (text value) -> (length (text kw) <= 17)%nat ->
  apply_line keywords (text kw) (text value) d = Ok tt d' ->
  config_loop (S fuel) (config_line kw value ++ rest) d = config_loop fuel rest d'.
Proof.
  intros Hk Hv Hl Hrun. cbn [config_loop]. unfold config_line.
  pose proof Hk as (_ & K2 & _). pose proof Hv as (_ & V2 & V3).
  assert (H10 : Forall (fun c => c <> 10) (text kw ++ 32 :: text value)).
  { apply Forall_app. split; [|constructor; [done|]]; (eapply Forall_impl; [eassumption|]); intros c [? _]; lia. }
  replace ((text kw ++ 32 :: text value ++ [10]) ++ rest) with ((text kw ++ 32 :: text value) ++ 10 :: rest)
    by (rewrite <- !app_assoc; cbn [app]; by rewrite <- app_assoc).
  rewrite take_line_run by (done || (rewrite length_app; simpl; lia)).
  replace ((text kw ++ 32 :: text value) ++ [10]) with (text kw ++ 32 :: text value ++ [10]) by (by rewrite <- app_assoc).
  pose proof (split_line_run _ _ Hk Hv) as Hsp. destruct (text kw ++ 32 :: text value ++ [10]) as [|c b] eqn:Hb.
  - by destruct (text kw).
  - rewrite Hsp. unfold mbind, M_bind. by rewrite Hrun.
Qed.

Lemma apply_skip k l token line d : strcasecmp_eq token (text (keyword k)) = false -> apply_line (k :: l) token line d = apply_line l token line d.
Proof. intros H. cbn [apply_line]. by rewrite H. Qed.
Lemma apply_hit k l token line d d' : strcasecmp_eq token (text (keyword k)) = true -> handler k line d = Ok true d' ->
  apply_line (k :: l) token line d = apply_line l token line d'.
Proof. intros H Hh. cbn [apply_line]. rewrite H. unfold when, mbind, M_bind. by rewrite Hh. Qed.

Definition changed (f : server_config_t -> server_config_t) (d : dhcpd) : dhcpd := set_server_config (f (server_config d)) d.

Lemma read_u32_run dest n d : 0 <= n < 4294967296 -> read_u32 dest (text (number n)) d = Ok true (changed (dest n) d).
Proof. intros Hn. unfold read_u32. by rewrite (number_strtoul n Hn). Qed.
Lemma read_ip_run dest a d : env_inet_aton (text (inet_ntoa a)) = Some a -> read_ip dest (text (inet_ntoa a)) d = Ok true (changed (dest a) d).
Proof. intros Ha. unfold read_ip, ip_of. by rewrite Ha. Qed.
Lemma read_str_run f s d : read_str (str_var f) (text s) d = Ok true (changed (f s) d).
Proof. unfold read_str, str_var. by rewrite string_of_text. Qed.
Lemma read_yn_run dest b d : b = 0 \/ b = 1 -> read_yn dest (text (yes_no b)) d = Ok true (changed (dest b) d).
Proof. by intros [->| ->]. Qed.

(** A line of the printed file: the keyword is found and its handler reads
    the value. *)
Ltac read_line := eapply eq_trans;
  [eapply config_line_step;
    [split; [done|split; [by repeat constructor|vm_compute; lia]]
    |first [apply number_plain; done|apply address_plain|done|unfold yes_no; destruct (_ =? 0); (split; [done|split; [by repeat constructor|vm_compute; lia]])]
    |vm_compute; lia
    |unfold keywords; repeat (rewrite apply_skip by (vm_compute; reflexivity)); eapply eq_trans;
      [eapply apply_hit; [vm_compute; reflexivity|cbn [handler];
        first [apply read_u32_run; done|apply read_ip_run; done|apply read_str_run|apply read_yn_run; done]]
      |repeat (rewrite apply_skip by (vm_compute; reflexivity)); reflexivity]]|].

Definition word (z : Z) : Prop := 0 <= z < 4294967296.
(** The settings that the file spells out can be written and read. *)
Record printable (c : server_config_t) : Prop := Printable {
  pr_words : Forall word [max_leases c; auto_time c; decline_time c; conflict_time c; offer_time c; min_lease c];
  pr_addresses : Forall (fun a => env_inet_aton (text (inet_ntoa a)) = Some a) [start c; end_ c; siaddr c];
  pr_remaining : remaining c = 0 \/ remaining c = 1;
  pr_strings : Forall (fun s => plain_word (text s)) [interface c; lease_file c; pidfile c]
}.
(** Two configurations agree on them. *)
Definition same_settings (c c' : server_config_t) : Prop :=
  start c' = start c /\ end_ c' = end_ c /\ interface c' = interface c /\ max_leases c' = max_leases c
  /\ remaining c' = remaining c /\ auto_time c' = auto_time c /\ decline_time c' = decline_time c
  /\ conflict_time c' = conflict_time c /\ offer_time c' = offer_time c /\ min_lease c' = min_lease c
  /\ lease_file c' = lease_file c /\ pidfile c' = pidfile c /\ siaddr c' = siaddr c.

Lemma config_text_run c fuel d : printable c -> (14 <= fuel)%nat ->
  exists d', config_loop fuel (config_text c) d = Ok tt d' /\ same_settings c (server_config d').
Proof.
  intros [Hw Ha Hr Hs] Hf. repeat (apply Forall_cons in Hw as [? Hw]). repeat (apply Forall_cons in Ha as [? Ha]).
  repeat (apply Forall_cons in Hs as [? Hs]). clear Hw Ha Hs. unfold word in *.
  replace fuel with (13 + S (fuel - 14))%nat by lia. unfold config_text. cbn [concat Nat.add].
  eexists. split; [|shelve]. do 13 read_line. reflexivity.
  Unshelve. by repeat split.
Qed.

(** C38. The settings of a configuration that is written as a file are read back
    from it: read_config on the lines that spell out the addresses, numbers,
    names and the remaining flag returns 1 and leaves exactly these settings, the
    numbers through pretty-printing in base ten and strtoul in base 0. inet_aton
    must be the inverse of inet_ntoa on the addresses, and the names must be
    words of at most 60 characters without hash and equals signs. *)
Theorem config_roundtrip c d :
  DhcpLaws E -> printable c -> (forall n, env_config_file n = Some (config_text c)) ->
  options_ok (options_list (server_config d)) ->
  exists d', read_config d = Ok 1 d' /\ same_settings c (server_config d').
Proof.
  intros HL Hp Hfile Ho. assert (Hc : configuring d d) by by split.
  destruct (twp_elim (load_defaults keywords) (fun _ _ => True) d) as ([] & d1 & Hd & _).
  { apply (twp_load_defaults d); [apply keywords_good|done|done]. }
  destruct (config_text_run c (S (length (config_text c))) (set_d_calls (S (d_calls d1)) d1) Hp) as (d' & Hr & Hs).
  { unfold config_text. cbn [concat]. unfold config_line. rewrite !length_app. cbn. lia. }
  exists d'. split; [|done]. unfold read_config. eapply run_bind; [exact Hd|]. eapply run_bind; [reflexivity|].
  rewrite (Hfile (d_calls d1)). by eapply run_bind; [exact Hr|].
Qed.
End text.
