(* ===== verification/DhcpPacket.v ===== *)
(** * DhcpPacket: building, checking and sending messages (packet.c) *)

From S2P Require Import Prelude DhcpTypes DhcpOptions.

(** ** The header *)

Definition init_op (type : Z) : Z :=
  if (type =? DHCPDISCOVER) || (type =? DHCPREQUEST) || (type =? DHCPRELEASE) || (type =? DHCPINFORM)
  then BOOTREQUEST
  else if (type =? DHCPOFFER) || (type =? DHCPACK) || (type =? DHCPNAK) then BOOTREPLY
  else 0.

Definition init_header {T} (type : Z) : M T dhcpMessage :=
  let opts := DHCP_END :: replicate 307 0 in
  '(opts, _) ← add_simple_option opts DHCP_MESSAGE_TYPE type;
  mret (DhcpMessage (init_op type) ETH_10MB ETH_10MB_LEN 0 0 0 0 0 0 0 0 (replicate 16 0) (replicate 64 0)
          (replicate 128 0) DHCP_MAGIC opts).

(** ** Reception *)

(** The bytes a read delivers, in a structure that was cleared before. *)
Definition received (bytes : list Z) : dhcpMessage :=
  message_of (take 548 bytes ++ replicate (548 - length bytes) 0).

(** ["MSFT 98"] *)
Definition broken_vendor : list Z := [0x4D; 0x53; 0x46; 0x54; 0x20; 0x39; 0x38].

(** [strncmp(ptr, text, n) == 0]: bytes are read while they match. *)
Fixpoint strncmp_eq {T} (n : nat) (p : dhcpMessage) (f : opt_field) (k : Z) (text : list Z) : M T bool :=
  match n, text with
  | O, _ => mret true
  | S n', [] => b ← opt_byte p f k; mret (b =? 0)
  | S n', c :: text' =>
      b ← opt_byte p f k;
      if b =? c then strncmp_eq n' p f (k + 1) text' else mret false
  end.

(** get_packet: the message and the value returned. *)
Definition get_packet (input : option (list Z)) : DM (dhcpMessage * Z) :=
  match input with
  | None => mret (received [], -1)
  | Some bytes =>
      let p := received bytes in
      if negb (m_cookie p =? DHCP_MAGIC) then mret (p, -2)
      else
        vendor ← (if m_op p =? BOOTREQUEST then get_option p DHCP_VENDOR else mret None);
        p ← match vendor with
            | Some (f, off) =>
                len ← opt_byte p f (off + (OPT_LEN - 2));
                if len =? Z.of_nat (length broken_vendor) then
                  broken ← strncmp_eq (Z.to_nat len) p f off broken_vendor;
                  mret (if broken : bool then set_m_flags (Z.lor (m_flags p) BROADCAST_FLAG) p else p)
                else mret p
            | None => mret p
            end;
        mret (p, Z.of_nat (length (take 548 bytes)))
  end.

(** ** The Internet checksum *)

(** The sum of the 16-bit words, a left-over byte being the upper half of one. *)
Fixpoint sum16 (bytes : list Z) : Z :=
  match bytes with
  | a :: b :: rest => a * 256 + b + sum16 rest
  | [a] => a * 256
  | [] => 0
  end.
(** [while (sum >> 16) sum = (sum & 0xffff) + (sum >> 16);] *)
Fixpoint fold_sum (fuel : nat) (sum : Z) : Z :=
  match fuel with
  | O => sum
  | S fuel' =>
      if Z.shiftr sum 16 =? 0 then sum
      else fold_sum fuel' (Z.land sum 0xffff + Z.shiftr sum 16)
  end.
(** The accumulator is an [int32_t]; the sums here are below 2^31. *)
Definition checksum (bytes : list Z) : Z := u16 (Z.lnot (fold_sum 3 (sum16 bytes))).

(** ** Sending *)

Definition IPPROTO_UDP : Z := 17.
Definition IPVERSION : Z := 4.
Definition IPDEFTTL : Z := 64.

(** struct udp_dhcp_packet: the IP header, the UDP header, the message. *)
Definition ip_header (version_ihl tot_len ttl check saddr daddr : Z) : list Z :=
  [version_ihl; 0] ++ be16 tot_len ++ [0; 0; 0; 0; ttl; IPPROTO_UDP] ++ be16 check ++ be32 saddr ++ be32 daddr.
Definition udp_header (sport dport len check : Z) : list Z := be16 sport ++ be16 dport ++ be16 len ++ be16 check.

Definition udp_length : Z := 8 + sizeof_dhcpMessage.
Definition packet_length : Z := 20 + udp_length.

(** The two checksums are computed one after the other: the first over the
    packet with the UDP length in place of the total length ("cheat on the
    psuedo-header"), before the rest of the IP header is filled in. *)
Definition raw_bytes (payload : dhcpMessage) (source_ip source_port dest_ip dest_port : Z) : list Z :=
  let data := message_bytes payload in
  let udp_check := checksum (ip_header 0 udp_length 0 0 source_ip dest_ip
                             ++ udp_header source_port dest_port udp_length 0 ++ data) in
  let ip_check := checksum (ip_header (IPVERSION * 16 + 5) packet_length IPDEFTTL 0 source_ip dest_ip) in
  ip_header (IPVERSION * 16 + 5) packet_length IPDEFTTL ip_check source_ip dest_ip
  ++ udp_header source_port dest_port udp_length udp_check ++ data.

Section with_env.
Context `{E : DhcpEnv}.

Definition raw_packet (payload : dhcpMessage) (source_ip source_port dest_ip dest_port : Z)
    (dest_arp : list Z) (ifindex : Z) : DM Z :=
  sock ← dsys env_sock_ok;
  if negb sock then mret (-1)
  else
    bound ← dsys env_sock_ok;
    if negb bound then mret (-1)
    else
      let bytes := raw_bytes payload source_ip source_port dest_ip dest_port in
      emit_out (Raw_frame ifindex (take 6 dest_arp) bytes);;
      dsys (fun n => env_sent n bytes).

Definition kernel_packet (payload : dhcpMessage) (source_ip source_port dest_ip dest_port : Z) : DM Z :=
  sock ← dsys env_sock_ok;
  if negb sock then mret (-1)
  else
    reuse ← dsys env_sock_ok;
    if negb reuse then mret (-1)
    else
      bound ← dsys env_sock_ok;
      if negb bound then mret (-1)
      else
        connected ← dsys env_sock_ok;
        if negb connected then mret (-1)
        else
          let bytes := message_bytes payload in
          emit_out (Udp_payload source_ip source_port dest_ip dest_port bytes);;
          dsys (fun n => env_sent n bytes).
End with_env.

(** ** The checksum is the Internet checksum *)

Lemma fold_step s : 0 <= s -> Z.land s 0xffff + Z.shiftr s 16 = s - 65535 * (s / 65536).
Proof.
  intros H. change (Z.land s 0xffff) with (Z.land s (Z.ones 16)). rewrite Z.land_ones, Z.shiftr_div_pow2 by lia.
  change (2 ^ 16) with 65536. pose proof (Z.div_mod s 65536 ltac:(lia)). lia.
Qed.

(** The folded sum fits 16 bits: the loop has ended, and it has only taken
    multiples of 65535 away. *)
Lemma fold_sum_spec s : 0 <= s < 2147483648 ->
  exists k, fold_sum 3 s = s - 65535 * k /\ 0 <= fold_sum 3 s < 65536 /\ (0 < s -> 0 < fold_sum 3 s).
Proof.
  intros H. cbn [fold_sum]. rewrite !Z.shiftr_div_pow2 by lia. change (2 ^ 16) with 65536.
  destruct (Z.eqb_spec (s / 65536) 0) as [E1|E1]; [exists 0; Z.to_euclidean_division_equations; lia|].
  set (s1 := Z.land s 0xffff + s / 65536).
  assert (H1 : s1 = s - 65535 * (s / 65536)) by (unfold s1; rewrite <- fold_step by lia; by rewrite Z.shiftr_div_pow2 by lia).
  assert (B1 : 0 < s1 < 131070) by (Z.to_euclidean_division_equations; lia). clearbody s1.
  destruct (Z.eqb_spec (s1 / 65536) 0) as [E2|E2]; [exists (s / 65536); Z.to_euclidean_division_equations; lia|].
  set (s2 := Z.land s1 0xffff + s1 / 65536).
  assert (H2 : s2 = s1 - 65535 * (s1 / 65536)) by (unfold s2; rewrite <- fold_step by lia; by rewrite Z.shiftr_div_pow2 by lia).
  assert (B2 : 0 < s2 < 65536) by (Z.to_euclidean_division_equations; lia). clearbody s2.
  rewrite (Z.div_small s2) by lia. simpl. exists (s / 65536 + s1 / 65536). lia.
Qed.

Lemma checksum_value bytes : 0 <= sum16 bytes < 2147483648 ->
  exists k, checksum bytes = 65535 - (sum16 bytes - 65535 * k) /\ 0 <= checksum bytes < 65536
  /\ 0 <= sum16 bytes - 65535 * k < 65536 /\ (0 < sum16 bytes -> 0 < sum16 bytes - 65535 * k).
Proof.
  intros H. destruct (fold_sum_spec _ H) as (k & Hk & Hr & Hp). exists k. unfold checksum. rewrite <- Hk.
  unfold Z.lnot, u16. change (2 ^ 16) with 65536.
  replace (Z.pred (- fold_sum 3 (sum16 bytes)) mod 65536) with (65535 - fold_sum 3 (sum16 bytes))
    by (Z.to_euclidean_division_equations; lia). lia.
Qed.

(** A block whose sum is that of another plus its checksum verifies. *)
Lemma checksum_verifies b b' : 0 < sum16 b -> sum16 b < 2147000000 -> sum16 b' = sum16 b + checksum b -> checksum b' = 0.
Proof.
  intros H1 H2 H. destruct (checksum_value b) as (k & Hc & Hr & Hs & Hp); [lia|]. specialize (Hp H1).
  destruct (checksum_value b') as (k' & Hc' & Hr' & Hs' & Hp'); [lia|]. specialize (Hp' ltac:(lia)). lia.
Qed.

Ltac even_length := first [by exists 1%nat|by exists 2%nat|by exists 3%nat|by exists 4%nat|by exists 5%nat|by exists 6%nat|by exists 10%nat].

Lemma sum16_app a b : Nat.Even (length a) -> sum16 (a ++ b) = sum16 a + sum16 b.
Proof.
  intros [n Hn]. revert a Hn. induction n as [|n IH]; intros [|x [|y a]] Hn; simpl in Hn; try lia; [done|].
  simpl. rewrite IH by lia. lia.
Qed.

Lemma sum16_bound n l : (length l <= 2 * n)%nat -> Forall is_byte l -> 0 <= sum16 l <= 65535 * Z.of_nat n.
Proof.
  revert l. induction n as [|n IH]; intros [|x [|y l]] Hn Hb; simpl in Hn |- *; try lia.
  - apply Forall_cons in Hb as [Hx _]. unfold is_byte in Hx. lia.
  - apply Forall_cons in Hb as [Hx Hb]. apply Forall_cons in Hb as [Hy Hb]. unfold is_byte in Hx, Hy.
    specialize (IH l ltac:(lia) Hb). lia.
Qed.

Lemma sum16_be16 v : 0 <= v < 65536 -> sum16 (be16 v) = v.
Proof. intros H. pose proof (of_be16 v) as E. rewrite u16_small in E by done. unfold of_be, be16 in E. simpl in E. simpl. lia. Qed.

(** The bytes of a message. *)
Definition header_bytes_ok (p : dhcpMessage) : Prop :=
  is_byte (m_op p) /\ is_byte (m_htype p) /\ is_byte (m_hlen p) /\ is_byte (m_hops p).
Lemma message_bytes_ok p : message_ok p -> header_bytes_ok p ->
  length (message_bytes p) = 548%nat /\ Forall is_byte (message_bytes p).
Proof.
  intros [] (H1 & H2 & H3 & H4). unfold message_bytes. split.
  - rewrite !length_app, mo_chaddr, mo_sname, mo_file, mo_options. done.
  - repeat (apply Forall_app; split); auto using be32_bytes, be16_bytes.
Qed.

Lemma ip_header_sum vi tl ttl ck s d : 0 <= tl < 65536 -> 0 <= ck < 65536 ->
  sum16 (ip_header vi tl ttl ck s d) = vi * 256 + tl + (ttl * 256 + 17) + ck + sum16 (be32 s) + sum16 (be32 d).
Proof.
  intros H1 H2. unfold ip_header. rewrite !sum16_app by even_length.
  rewrite (sum16_be16 tl), (sum16_be16 ck) by done. simpl. unfold IPPROTO_UDP. lia.
Qed.

Lemma udp_header_sum sp dp len ck : 0 <= ck < 65536 ->
  sum16 (udp_header sp dp len ck) = sum16 (udp_header sp dp len 0) + ck.
Proof.
  intros H. unfold udp_header. rewrite !sum16_app by even_length. rewrite (sum16_be16 ck) by done.
  change (sum16 (be16 0)) with 0. lia.
Qed.

(** The pseudo-header of RFC 768. *)
Definition pseudo_header (saddr daddr len : Z) : list Z := be32 saddr ++ be32 daddr ++ [0; IPPROTO_UDP] ++ be16 len.

(** The packet built by hand is a valid IP and UDP packet: it has 576 bytes,
    its version, lengths, protocol and addresses are in their places, the one's
    complement sum over its IP header verifies, and the one over the UDP header and
    data with the pseudo-header of RFC 768 does, although the code computes the
    latter over a half-filled IP header; and the message can be read back from its
    data. *)
Theorem raw_packet_verifies p sip sp dip dp :
  message_ok p -> header_bytes_ok p ->
  let b := raw_bytes p sip sp dip dp in
  length b = 576%nat /\ checksum (take 20 b) = 0
  /\ checksum (pseudo_header sip dip udp_length ++ drop 20 b) = 0
  /\ take 12 (drop 20 b) = be16 sp ++ be16 dp ++ be16 udp_length ++ take 6 (drop 26 b)
  /\ span 4 12 b = be32 sip /\ span 4 16 b = be32 dip /\ drop 28 b = message_bytes p.
Proof.
  intros Hm Hh b. destruct (message_bytes_ok p Hm Hh) as [Hl Hb].
  pose proof (sum16_bound 274 (message_bytes p) ltac:(lia) Hb) as Hdata.
  assert (Hw : forall v, 0 <= sum16 (be32 v) <= 65535 * Z.of_nat 2) by (intros v; apply sum16_bound; [simpl; lia|apply be32_bytes]).
  assert (Hu : 0 <= sum16 (udp_header sp dp udp_length 0) <= 65535 * Z.of_nat 4).
  { apply sum16_bound; [simpl; lia|]. unfold udp_header. repeat (apply Forall_app; split); apply be16_bytes. }
  pose proof (Hw sip) as Hsip. pose proof (Hw dip) as Hdip.
  set (pre := ip_header 0 udp_length 0 0 sip dip ++ udp_header sp dp udp_length 0 ++ message_bytes p).
  set (hdr := ip_header (IPVERSION * 16 + 5) packet_length IPDEFTTL 0 sip dip).
  assert (Hpre : sum16 pre = udp_length + 17 + sum16 (be32 sip) + sum16 (be32 dip)
                             + sum16 (udp_header sp dp udp_length 0) + sum16 (message_bytes p)).
  { unfold pre. rewrite !sum16_app by even_length. rewrite ip_header_sum by done. lia. }
  assert (Hhdr : sum16 hdr = (IPVERSION * 16 + 5) * 256 + packet_length + (IPDEFTTL * 256 + 17) + sum16 (be32 sip) + sum16 (be32 dip)).
  { unfold hdr. rewrite ip_header_sum by done. lia. }
  change packet_length with 576 in Hhdr. change udp_length with 556 in Hpre at 1.
  unfold IPVERSION, IPDEFTTL in Hhdr.
  destruct (checksum_value pre) as (kp & _ & Cp & _); [lia|]. destruct (checksum_value hdr) as (kh & _ & Ch & _); [lia|].
  assert (Hb2 : b = ip_header (IPVERSION * 16 + 5) packet_length IPDEFTTL (checksum hdr) sip dip
                ++ udp_header sp dp udp_length (checksum pre) ++ message_bytes p) by done.
  clearbody pre hdr b. subst b.
  split; [rewrite !length_app, Hl; done|]. split; [|split; [|by split; [|split; [|split; [|]]]]].
  - rewrite take_app_length' by done. apply (checksum_verifies hdr); [lia|lia|]. rewrite ip_header_sum by done.
    change packet_length with 576. unfold IPVERSION, IPDEFTTL. lia.
  - rewrite drop_app_length' by done. apply (checksum_verifies pre); [lia|lia|].
    rewrite !sum16_app by even_length.
    rewrite udp_header_sum by done. unfold pseudo_header. rewrite !sum16_app by even_length.
    rewrite sum16_be16 by done. simpl (sum16 [_; _]). unfold IPPROTO_UDP. change udp_length with 556 at 1. lia.
Qed.
