(* ===== verification/DhcpServer.v ===== *)
(** * DhcpServer: the answers of the server and its main loop (serverpacket.c, dhcpd.c) *)

From S2P Require Import Prelude DhcpTypes DhcpOptions DhcpLeases DhcpPacket.

Section with_env.
Context `{E : DhcpEnv}.

(** ** Sending an answer *)

Definition send_packet_to_relay (payload : dhcpMessage) : DM Z :=
  c ← gets server_config;
  kernel_packet payload (server c) SERVER_PORT (m_giaddr payload) SERVER_PORT.

Definition send_packet_to_client (payload : dhcpMessage) (force_broadcast : bool) : DM Z :=
  c ← gets server_config;
  let '(ciaddr, chaddr0) :=
    if force_broadcast then (INADDR_BROADCAST, MAC_BCAST_ADDR)
    else if negb (m_ciaddr payload =? 0) then (m_ciaddr payload, m_chaddr payload)
    else if negb (Z.land (m_flags payload) BROADCAST_FLAG =? 0) then (INADDR_BROADCAST, MAC_BCAST_ADDR)
    else (m_yiaddr payload, m_chaddr payload) in
  raw_packet payload (server c) SERVER_PORT ciaddr CLIENT_PORT chaddr0 (ifindex c).

Definition send_packet (payload : dhcpMessage) (force_broadcast : bool) : DM Z :=
  if negb (m_giaddr payload =? 0) then send_packet_to_relay payload
  else send_packet_to_client payload force_broadcast.

Definition init_packet (oldpacket : dhcpMessage) (type : Z) : DM dhcpMessage :=
  p ← init_header type;
  c ← gets server_config;
  let p := DhcpMessage (m_op p) (m_htype p) (m_hlen p) (m_hops p) (m_xid oldpacket) (m_secs p) (m_flags oldpacket)
             (m_ciaddr oldpacket) (m_yiaddr p) (m_siaddr p) (m_giaddr oldpacket) (m_chaddr oldpacket)
             (m_sname p) (m_file p) (m_cookie p) (m_options p) in
  '(opts, _) ← add_simple_option (m_options p) DHCP_SERVER_ID (server c);
  mret (set_m_options opts p).

(** [strncpy(field, text, size - 1)] into a field of the message. *)
Definition bootp_text (text : option (list Z)) (size : nat) (field : list Z) : list Z :=
  match text with
  | Some s => strncpy (size - 1) s ++ drop (size - 1) field
  | None => field
  end.
Definition add_bootp_options (p : dhcpMessage) : DM dhcpMessage :=
  c ← gets server_config;
  mret (DhcpMessage (m_op p) (m_htype p) (m_hlen p) (m_hops p) (m_xid p) (m_secs p) (m_flags p) (m_ciaddr p)
    (m_yiaddr p) (siaddr c) (m_giaddr p) (m_chaddr p) (bootp_text (sname c) 64 (m_sname p))
    (bootp_text (boot_file c) 128 (m_file p)) (m_cookie p) (m_options p)).

(** The loop over the configured options, the lease time left out. *)
Fixpoint add_config_options (l : list (list Z)) (b : list Z) : DM (list Z) :=
  match l with
  | [] => mret b
  | o :: l' =>
      if opt_code o =? DHCP_LEASE_TIME then add_config_options l' b
      else '(b, _) ← add_option_string b (Some o); add_config_options l' b
  end.
Definition with_config_options (p : dhcpMessage) : DM dhcpMessage :=
  c ← gets server_config;
  opts ← add_config_options (options_list c) (m_options p);
  mret (set_m_options opts p).

Definition in_range (c : server_config_t) (addr : Z) : bool := (start c <=? addr) && (addr <=? end_ c).

(** The lease time that a message asks for, [None] when it does not. *)
Definition asked_lease_time (p : dhcpMessage) : DM (option Z) :=
  o ← get_option p DHCP_LEASE_TIME;
  match o with Some ptr => Some <$> opt_word p ptr | None => mret None end.

(** ** DHCPOFFER *)

(** The requested address, when it is in the range and not taken or expired. *)
Definition requested_free (c : server_config_t) (oldpacket : dhcpMessage) : DM (option Z) :=
  o ← get_option oldpacket DHCP_REQUESTED_IP;
  match o with
  | None => mret None
  | Some ptr =>
      req ← opt_word oldpacket ptr;
      if in_range c req then
        found ← find_lease_by_yiaddr req;
        match found with
        | None => mret (Some req)
        | Some k => l ← lease_get k; gone ← lease_expired l; mret (if gone : bool then Some req else None)
        end
      else mret None
  end.

(** The choice of the address and of the time it starts from.  The comparison
    with the address of the lease's owner is the code's: [memcmp] is zero when
    they are equal. *)
Definition offer_address (oldpacket : dhcpMessage) : DM (Z * Z) :=
  c ← gets server_config;
  found ← find_lease_by_chaddr (m_chaddr oldpacket);
  match found with
  | Some k =>
      l ← lease_get k;
      gone ← lease_expired l;
      time ← (if gone : bool then mret (lease c) else now ← sys_time; mret (u32 (expires l - now)));
      mret (yiaddr l, time)
  | None =>
      req ← requested_free c oldpacket;
      match req with
      | Some req =>
          found ← find_lease_by_yiaddr req;
          match found with
          | Some k =>
              l ← lease_get k;
              if negb (bool_decide (chaddr l = take 16 (m_chaddr oldpacket))) then mret (req, lease c)
              else addr ← find_address false; mret (addr, lease c)
          | None => mret (req, lease c)
          end
      | None =>
          addr ← find_address false;
          if addr =? 0 then addr ← find_address true; mret (addr, lease c)
          else mret (addr, lease c)
      end
  end.

Definition offer_time_of (c : server_config_t) (asked : option Z) (time : Z) : Z :=
  let time := match asked with Some t => if lease c <? t then lease c else t | None => time end in
  if time <? min_lease c then lease c else time.

Definition sendOffer (oldpacket : dhcpMessage) : DM Z :=
  c ← gets server_config;
  packet ← init_packet oldpacket DHCPOFFER;
  '(addr, time) ← offer_address oldpacket;
  if addr =? 0 then mret (-1) (* no IP addresses to give *)
  else
    entry ← add_lease (m_chaddr packet) addr (offer_time c);
    match entry with
    | None => mret (-1) (* lease pool is full *)
    | Some _ =>
        asked ← asked_lease_time oldpacket;
        '(opts, _) ← add_simple_option (m_options packet) DHCP_LEASE_TIME (offer_time_of c asked time);
        packet ← with_config_options (set_m_options opts (set_m_yiaddr addr packet));
        packet ← add_bootp_options packet;
        log ← dsys env_log_ok;
        if log : bool then send_packet packet false else fail Null_deref (* fprintf to NULL *)
    end.

(** ** DHCPNAK, DHCPACK, and the answer to DHCPINFORM *)

Definition sendNAK (oldpacket : dhcpMessage) : DM Z :=
  packet ← init_packet oldpacket DHCPNAK; send_packet packet true.

Definition ack_time_of (c : server_config_t) (asked : option Z) : Z :=
  match asked with
  | Some t => if lease c <? t then lease c else if t <? min_lease c then lease c else t
  | None => lease c
  end.

Definition sendACK (oldpacket : dhcpMessage) (yiaddr0 : Z) : DM Z :=
  c ← gets server_config;
  packet ← init_packet oldpacket DHCPACK;
  asked ← asked_lease_time oldpacket;
  let time := ack_time_of c asked in
  '(opts, _) ← add_simple_option (m_options packet) DHCP_LEASE_TIME time;
  packet ← with_config_options (set_m_options opts (set_m_yiaddr yiaddr0 packet));
  packet ← add_bootp_options packet;
  sent ← send_packet packet false;
  if sent <? 0 then mret (-1)
  else add_lease (m_chaddr packet) (m_yiaddr packet) time;; mret 0.

Definition send_inform (oldpacket : dhcpMessage) : DM Z :=
  packet ← init_packet oldpacket DHCPACK;
  packet ← with_config_options packet;
  packet ← add_bootp_options packet;
  send_packet packet false.

(** ** DHCPREQUEST *)

(** The hostname option is stored through the pointer [lease]; it may be the
    pointer found before sendACK entered the client again. *)
Definition store_hostname (p : dhcpMessage) (k : nat) (hostname0 : option opt_ptr) : DM unit :=
  l ← lease_get k;
  match hostname0 with
  | Some (f, off) =>
      bytes ← opt_byte p f (off - 1);
      let n := if 64 <=? bytes then 63 else bytes in
      src ← in_bounds (load (Z.to_nat n) (field_bytes p f) off);
      lease_set k (OfferedAddr (chaddr l) (yiaddr l) (expires l)
        (strncpy (Z.to_nat n) src ++ [0] ++ drop (Z.to_nat n + 1) (hostname l)))
  | None => lease_set k (OfferedAddr (chaddr l) (yiaddr l) (expires l) (0 :: drop 1 (hostname l)))
  end.

(** The macros SomeExtraCodes_007, _009 and _011 for a client that has no
    lease: the address [addr] is entered for it if it is in the range, and
    acknowledged; [ack k] is the address of the acknowledgement. *)
Definition adopt_client (p : dhcpMessage) (addr : Z) (ack : dhcpOfferedAddr -> Z) (hostname0 : option opt_ptr) : DM unit :=
  c ← gets server_config;
  if negb (in_range c addr) then sendNAK p;; mret tt
  else
    entry ← add_lease (m_chaddr p) addr (offer_time c);
    match entry with
    | None => sendNAK p;; mret tt
    | Some _ =>
        found ← find_lease_by_chaddr (m_chaddr p);
        match found with
        | Some k =>
            l ← lease_get k;
            sendACK p (ack l);;
            store_hostname p k hostname0
        | None => sendNAK p;; mret tt
        end
    end.

Definition word_of (p : dhcpMessage) (o : option opt_ptr) : DM (option Z) :=
  match o with Some ptr => Some <$> opt_word p ptr | None => mret None end.

(** A client that has lease [k]. *)
Definition request_known (p : dhcpMessage) (k : nat) (server_id requested : option Z) : DM unit :=
  c ← gets server_config;
  l ← lease_get k;
  match server_id with
  | Some sid =>
      if (sid =? server c) && bool_decide (requested = Some (yiaddr l)) then sendACK p (yiaddr l);; mret tt
      else if negb (sid =? server c) then mret tt
      else sendNAK p;; mret tt
  | None =>
      match requested with
      | Some req => if yiaddr l =? req then sendACK p (yiaddr l);; mret tt else sendNAK p;; mret tt
      | None => if yiaddr l =? m_ciaddr p then sendACK p (yiaddr l);; mret tt else sendNAK p;; mret tt
      end
  end.

(** A client without a lease.  In the SELECTING state without a requested
    address the code tests a variable that holds what an earlier packet left,
    and sends a NAK in both cases. *)
Definition request_unknown (p : dhcpMessage) (server_id requested : option Z) (hostname0 : option opt_ptr) : DM unit :=
  c ← gets server_config;
  match server_id, requested with
  | Some sid, _ =>
      if negb (sid =? server c) then mret tt
      else match requested with
           | Some req => adopt_client p req yiaddr hostname0
           | None => sendNAK p;; mret tt
           end
  | None, Some req => adopt_client p req (fun _ => req) hostname0
  | None, None =>
      if negb (m_ciaddr p =? 0) then adopt_client p (m_ciaddr p) (fun _ => m_ciaddr p) hostname0 else mret tt
  end.

Definition handle_request (p : dhcpMessage) (lease0 : option nat) : DM unit :=
  requested ← get_option p DHCP_REQUESTED_IP;
  server_id ← get_option p DHCP_SERVER_ID;
  hostname0 ← get_option p DHCP_HOST_NAME;
  requested ← word_of p requested;
  server_id ← word_of p server_id;
  match lease0 with
  | Some k => request_known p k server_id requested;; store_hostname p k hostname0
  | None => request_unknown p server_id requested hostname0
  end.

(** ** One message *)

Definition set_expires (v : Z) (l : dhcpOfferedAddr) : dhcpOfferedAddr := OfferedAddr (chaddr l) (yiaddr l) v (hostname l).

Definition handle_message (p : dhcpMessage) : DM unit :=
  state ← get_option p DHCP_MESSAGE_TYPE;
  match state with
  | None => mret tt
  | Some (f, off) =>
      lease0 ← find_lease_by_chaddr (m_chaddr p);
      type ← opt_byte p f off;
      if type =? DHCPDISCOVER then
        sent ← sendOffer p;
        when (sent <? 0) (sendOffer p;; mret tt)
      else if type =? DHCPREQUEST then handle_request p lease0
      else if type =? DHCPDECLINE then
        match lease0 with
        | Some k =>
            l ← lease_get k;
            decline ← gets (fun d => decline_time (server_config d));
            now ← sys_time;
            lease_set k (OfferedAddr blank_chaddr (yiaddr l) (u32 (now + decline)) (hostname l))
        | None => mret tt
        end
      else if type =? DHCPRELEASE then
        match lease0 with
        | Some k => l ← lease_get k; now ← sys_time; lease_set k (set_expires now l)
        | None => mret tt
        end
      else if type =? DHCPINFORM then send_inform p;; mret tt
      else mret tt (* unsupported DHCP message *)
  end.
End with_env.
