(* ===== verification/DhcpFiles.v ===== *)
(** * DhcpFiles: the lease file (files.c)

    Writing the table to the lease file and reading it back.  The parser of the
    configuration file is in DhcpConfig. *)

From S2P Require Import Prelude DhcpTypes DhcpOptions DhcpLeases.

(** ** Strings and lines *)

(** [strstr(b, sub) != NULL] *)
Fixpoint strstr (b sub : list Z) : bool :=
  bool_decide (take (length sub) b = sub)
  || match b with [] => false | _ :: b' => strstr b' sub end.

(** [fgets(buf, 20, fp)]: at the end of the file the buffer is kept. *)
Definition fgets20 (buf file : list Z) : list Z * list Z * bool :=
  let '(line, rest, eof) := take_line 19 file in
  (if bool_decide (line = []) then buf else line, rest, eof).

(** The loop over /tmp/udhcpd.lease.no: the buffer and [no_write] after it. *)
Fixpoint scan_lease_no (fuel : nat) (mac : list Z) (buf file : list Z) (no_write : bool) : list Z * bool :=
  match fuel with
  | O => (buf, no_write)
  | S fuel' =>
      let '(buf, rest, eof) := fgets20 buf file in
      if strstr (cstring buf) mac then (buf, true)
      else if eof then (buf, false) else scan_lease_no fuel' mac buf rest false
  end.

Definition lease_bytes (l : dhcpOfferedAddr) (lease_time : Z) : list Z :=
  chaddr l ++ be32 (yiaddr l) ++ be32 lease_time ++ hostname l.
Definition sizeof_lease : nat := 88.

Section with_env.
Context `{E : DhcpEnv}.

(** ** write_leases *)

Definition file_lease_time (c : server_config_t) (curr : Z) (l : dhcpOfferedAddr) : Z :=
  if negb (remaining c =? 0) then if expires l <? curr then 0 else u32 (expires l - curr)
  else expires l.

(** The loop; [continue] on an unknown client leaves [fp_no] open. *)
Fixpoint write_loop (n i : nat) (curr : Z) (buf_no : list Z) (no_write : bool) (out : list Z) : DM (list Z) :=
  match n with
  | O => mret out
  | S n' =>
      l ← lease_get i;
      if yiaddr l =? 0 then write_loop n' (S i) curr buf_no no_write out
      else
        fp_no ← dsys env_lease_no;
        if bool_decide (chaddr l = blank_chaddr) then write_loop n' (S i) curr buf_no no_write out
        else
          c ← gets server_config;
          let lease_time := file_lease_time c curr l in
          let '(buf_no, no_write) :=
            match fp_no with
            | Some file => scan_lease_no (S (length file)) (bytes_of_string (mac_text (chaddr l))) buf_no file no_write
            | None => (buf_no, no_write)
            end in
          write_loop n' (S i) curr buf_no no_write
            (if no_write then out else out ++ lease_bytes l lease_time)
  end.

Definition write_leases : DM unit :=
  curr ← sys_time;
  opened ← dsys env_lease_file_ok;
  if negb opened then mret tt
  else
    n ← num_leases;
    out ← write_loop n 0 curr [] false [];
    emit_out (Leases_written out);;
    c ← gets server_config;
    match notify_file c with
    | Some notify => sprintf_system 255 (notify +:+ " " +:+ lease_file c)
    | None => mret tt
    end.

(** ** read_leases *)

(** [strncpy(oldest->hostname, lease.hostname, 63); oldest->hostname[63] = 0;] *)
Definition terminated (h : list Z) : list Z := strncpy 63 h ++ [0].

Fixpoint read_loop (fuel : nat) (file : list Z) : DM unit :=
  match fuel with
  | O => mret tt
  | S fuel' =>
      if decide (sizeof_lease <= length file)%nat then
        c ← gets server_config;
        let expires0 := of_be (span 4 20 file) in
        expires0 ← (if remaining c =? 0 then now ← sys_time; mret (u32 (expires0 - now)) else mret expires0);
        oldest ← add_lease (span 16 0 file) (of_be (span 4 16 file)) expires0;
        match oldest with
        | None => mret tt (* too many leases *)
        | Some k =>
            l ← lease_get k;
            lease_set k (OfferedAddr (chaddr l) (yiaddr l) (expires l) (terminated (span 64 24 file)));;
            read_loop fuel' (drop sizeof_lease file)
        end
      else mret tt
  end.
Definition read_leases : DM unit :=
  file ← dsys env_lease_file;
  match file with
  | None => mret tt
  | Some file => n ← num_leases; read_loop n file
  end.
End with_env.

(** ** What is written *)

(** The entries of the table that are written: those of a client, not the ones
    reserved for addresses of unknown owners. *)
Definition saved (l : dhcpOfferedAddr) : bool :=
  negb (yiaddr l =? 0) && negb (bool_decide (chaddr l = blank_chaddr)).
Definition saved_leases (ls : list dhcpOfferedAddr) : list dhcpOfferedAddr := filter (fun l => saved l = true) ls.
Definition file_of (c : server_config_t) (curr : Z) (ls : list dhcpOfferedAddr) : list Z :=
  concat ((fun l => lease_bytes l (file_lease_time c curr l)) <$> saved_leases ls).

Lemma file_of_cons c curr l ls :
  file_of c curr (l :: ls) = (if saved l then lease_bytes l (file_lease_time c curr l) else []) ++ file_of c curr ls.
Proof. unfold file_of, saved_leases. rewrite filter_cons. by destruct (saved l) eqn:H; [rewrite decide_True|rewrite decide_False]. Qed.

Lemma set_calls_same d : set_d_calls (d_calls d) d = d.
Proof. by destruct d. Qed.

Section files.
Context `{E : DhcpEnv}.

Lemma write_loop_run n i curr buf out d : (forall m, env_lease_no m = None) -> (i + n = length (leases d))%nat ->
  exists k, (d_calls d <= k)%nat
  /\ write_loop n i curr buf false out d = Ok (out ++ file_of (server_config d) curr (drop i (leases d))) (set_d_calls k d).
Proof.
  intros Hno. revert i out d. induction n as [|n IH]; intros i out d Hn; cbn [write_loop].
  - exists (d_calls d). split; [done|]. rewrite drop_ge by lia. by rewrite app_nil_r, set_calls_same.
  - destruct (lookup_lt_is_Some_2 (leases d) i) as [l Hl]; [lia|]. rewrite (drop_S _ l i Hl), file_of_cons.
    assert (Hskip : forall out d', leases d' = leases d -> server_config d' = server_config d ->
      (d_calls d <= d_calls d')%nat -> (forall k, set_d_calls k d' = set_d_calls k d) ->
      exists k, (d_calls d <= k)%nat /\ write_loop n (S i) curr buf false out d'
        = Ok (out ++ file_of (server_config d) curr (drop (S i) (leases d))) (set_d_calls k d)).
    { intros out' d' H1 H2 H3 H4. destruct (IH (S i) out' d') as (k & Hk & Hr); [rewrite H1; lia|].
      exists k. split; [lia|]. by rewrite Hr, H1, H2, H4. }
    unfold mbind at 1, M_bind at 1. rewrite (lease_get_run _ _ _ Hl). unfold saved.
    destruct (Z.eqb_spec (yiaddr l) 0) as [Hy|Hy]; [by apply Hskip|].
    set (d1 := set_d_calls (S (d_calls d)) d).
    assert (Hsys : dsys env_lease_no d = Ok None d1) by (apply dsys_run, Hno).
    unfold mbind at 1, M_bind at 1. rewrite Hsys.
    destruct (bool_decide (chaddr l = blank_chaddr)); cbn [andb negb].
    + apply (Hskip out d1); try done. simpl. lia.
    + unfold mbind at 1, M_bind at 1, gets at 1. cbn [server_config]. rewrite app_assoc. apply (Hskip _ d1); try done. simpl. lia.
Qed.

Definition notify_fits (c : server_config_t) : Prop :=
  match notify_file c with
  | Some notify => (String.length (notify +:+ " " +:+ lease_file c) < 255)%nat
  | None => True
  end.

Lemma write_leases_run d : table_ok d -> (forall m, env_lease_no m = None) ->
  env_lease_file_ok (S (d_calls d)) = true -> notify_fits (server_config d) ->
  exists d' cmds, write_leases d = Ok tt d' /\ leases d' = leases d
  /\ d_out d' = d_out d ++ Leases_written (file_of (server_config d) (env_uptime (d_calls d)) (leases d)) :: (System <$> cmds).
Proof.
  intros Hok Hno Hopen Hfit. set (d1 := set_d_calls (S (S (d_calls d))) d).
  destruct (write_loop_run (length (leases d)) 0 (env_uptime (d_calls d)) [] [] d1 Hno eq_refl) as (k & _ & Hr).
  rewrite drop_0 in Hr. cbn [app] in Hr.
  set (d2 := set_d_out (d_out d ++ [Leases_written (file_of (server_config d) (env_uptime (d_calls d)) (leases d))]) (set_d_calls k d1)).
  assert (Hrun : forall P, P ((match notify_file (server_config d) with
    | Some notify => sprintf_system 255 (notify +:+ " " +:+ lease_file (server_config d)) | None => mret tt end) d2) -> P (write_leases d)).
  { intros P HP. unfold write_leases. eapply run_bind; [reflexivity|]. eapply run_bind; [by apply dsys_run|].
    cbn [negb]. eapply run_bind; [apply (num_leases_run d1); by destruct Hok|]. eapply run_bind; [exact Hr|].
    eapply run_bind; [reflexivity|]. exact HP. }
  unfold notify_fits in Hfit. destruct (notify_file (server_config d)) as [nf|].
  - eexists _, [_]. split; [apply Hrun; unfold sprintf_system; by rewrite decide_True|]. split; [done|].
    simpl. by rewrite <- app_assoc.
  - exists d2, []. split; [by apply Hrun|]. done.
Qed.

(** ** What is read back *)

(** An entry of the table made from a record of the file. *)
Definition restored (e : dhcpOfferedAddr) (t : Z) (l : dhcpOfferedAddr) : Prop :=
  chaddr l = chaddr e /\ yiaddr l = yiaddr e /\ hostname l = terminated (hostname e)
  /\ exists n, expires l = env_uptime n + t.
Record record_ok (e : dhcpOfferedAddr) (t : Z) : Prop := RecordOk {
  rc_lease : lease_ok e;
  rc_saved : saved e = true;
  rc_time : 0 <= t < 2147483648
}.


(** The parts of one record. *)
Lemma record_spans e t rest : record_ok e t ->
  let file := lease_bytes e t ++ rest in
  (sizeof_lease <= length file)%nat /\ span 16 0 file = chaddr e /\ of_be (span 4 16 file) = yiaddr e
  /\ of_be (span 4 20 file) = t /\ span 64 24 file = hostname e /\ drop sizeof_lease file = rest.
Proof.
  intros [[H1 H2 H3 H4] _ Ht] file.
  assert (Hf : file = chaddr e ++ be32 (yiaddr e) ++ be32 t ++ hostname e ++ rest)
    by (unfold file, lease_bytes; by rewrite <- !app_assoc).
  clearbody file. subst file.
  split; [rewrite !length_app, H1, H4; unfold sizeof_lease; cbn [be32 length]; lia|].
  split; [unfold span; rewrite drop_0; by rewrite <- H1, take_app_length|].
  split; [rewrite span_app by done; rewrite take_app_length' by done; rewrite of_be32; by apply u32_small|].
  split; [rewrite app_assoc, span_app by (by rewrite length_app, H1)|].
  { rewrite take_app_length' by done. rewrite of_be32. apply u32_small. lia. }
  rewrite (app_assoc (chaddr e)), (app_assoc (chaddr e ++ _)).
  split; [rewrite span_app by (by rewrite !length_app, H1); by rewrite <- H4, take_app_length|].
  rewrite app_assoc, drop_app_length'; [done|]. by rewrite !length_app, H1, H4.
Qed.

(** The records differ pairwise. *)
Definition differ (e e' : dhcpOfferedAddr) : Prop := yiaddr e <> yiaddr e' /\ chaddr e <> chaddr e'.

Lemma nonblank_saved l : length (chaddr l) = 16%nat -> saved l = true -> nonblank (chaddr l) = true /\ yiaddr l <> 0.
Proof.
  unfold saved. intros Hl H. apply andb_true_iff in H as [H1 H2]. bool_to_prop. split; [|done].
  destruct (nonblank (chaddr l)) eqn:Hn; [done|]. destruct H2.
  unfold nonblank in Hn. rewrite take_ge in Hn by lia. unfold blank_chaddr. rewrite <- Hl. clear H1 Hl.
  induction (chaddr l) as [|b bs IH]; [done|]. cbn [existsb] in Hn. apply orb_false_iff in Hn as [Hb Hn].
  cbn [length replicate]. rewrite <- IH by done. f_equal. bool_to_prop. done.
Qed.

(** Entering a record into a table that holds other records, and free entries. *)
Lemma enter_record ls k e t d : table_ok d -> record_ok e t -> leases d = ls ++ replicate (S k) zero_lease ->
  Forall (fun l => differ l e) ls -> Forall (fun l => 0 < expires l) ls -> 0 < env_uptime (d_calls d) ->
  added d (chaddr e) (yiaddr e) t
  = (Some (length ls), ls ++ OfferedAddr (chaddr e) (yiaddr e) (u32 (env_uptime (S (d_calls d)) + t)) (replicate 64 0)
                          :: replicate k zero_lease).
Proof.
  intros Hok [[H16 _ _ _] Hs _] Hls Hdiff Hexp Hup. destruct (nonblank_saved e H16 Hs) as [Hnb Hy].
  assert (Hclear : cleared (chaddr e) (yiaddr e) (leases d) = leases d).
  { unfold cleared. rewrite <- (list_fmap_id (leases d)) at 2. apply list_fmap_ext. intros i l Hl. simpl.
    replace (clears (chaddr e) (yiaddr e) l) with false; [done|]. symmetry. unfold clears. rewrite take_ge by lia.
    apply (list_elem_of_lookup_2 _ i) in Hl. rewrite Hls in Hl. apply elem_of_app in Hl as [Hl|Hl].
    - destruct (Forall_elem _ _ _ Hdiff Hl) as [D1 D2]. rewrite bool_decide_eq_false_2 by done.
      rewrite (proj2 (Z.eqb_neq (yiaddr l) _)) by done. by rewrite !andb_false_r.
    - apply elem_of_replicate in Hl as [-> _]. rewrite bool_decide_eq_false_2.
      + change (yiaddr zero_lease) with 0. rewrite (proj2 (Z.eqb_neq 0 (yiaddr e))) by done. by rewrite !andb_false_r.
      + intros He. rewrite <- He in Hnb. by vm_compute in Hnb. }
  unfold added. rewrite Hclear.
  pose proof (oldest_of_spec 0 (env_uptime (d_calls d)) None (leases d)) as Ho.
  assert (Hz : leases d !! length ls = Some zero_lease) by (rewrite Hls; by apply list_lookup_middle).
  destruct (oldest_of _ _ _ (leases d)) as [j|].
  2: { destruct Ho as [_ Hall]. pose proof (Forall_lookup_1 _ _ _ _ Hall Hz) as Hb. simpl in Hb. lia. }
  destruct Ho as [[? _]|(l & _ & Hl & _ & Hmin & Hfirst)]; [done|]. rewrite Nat.sub_0_r in Hl, Hfirst.
  pose proof (Forall_lookup_1 _ _ _ _ Hmin Hz) as Hz0. simpl in Hz0.
  assert (Hj : j = length ls).
  { destruct (lt_eq_lt_dec j (length ls)) as [[Hlt|]|Hgt]; [|done|].
    - rewrite Hls, lookup_app_l in Hl by done. pose proof (Forall_lookup_1 _ _ _ _ Hexp Hl). simpl in *. lia.
    - specialize (Hfirst _ _ Hgt Hz). simpl in Hfirst. rewrite Hls, lookup_app_r in Hl by lia.
      apply (list_elem_of_lookup_2 _ _) in Hl. apply elem_of_replicate in Hl as [-> _]. simpl in Hfirst. lia. }
  subst j. f_equal. unfold enter. rewrite Hz. rewrite take_ge by lia. rewrite Hls.
  rewrite insert_app_r_alt by lia. by rewrite Nat.sub_diag.
Qed.

Definition records (es : list (dhcpOfferedAddr * Z)) : list Z := concat ((fun et => lease_bytes (fst et) (snd et)) <$> es).
Definition restored_all (es : list (dhcpOfferedAddr * Z)) (ls : list dhcpOfferedAddr) : Prop :=
  Forall2 (fun et l => restored (fst et) (snd et) l) es ls.
Definition pairwise_differ (es : list (dhcpOfferedAddr * Z)) : Prop :=
  ForallOrdPairs (fun e e' => differ (fst e) (fst e')) es.

Lemma restored_differ es ls e : restored_all es ls -> Forall (fun et => differ (fst et) e) es -> Forall (fun l => differ l e) ls.
Proof.
  unfold restored_all. induction 1 as [|et l es ls (H1 & H2 & _) _ IH]; [done|]. intros Hd. apply Forall_cons in Hd as [[D1 D2] Hd].
  constructor; [|by apply IH]. unfold differ. by rewrite H1, H2.
Qed.

Lemma restored_live es ls : (forall n, 0 < env_uptime n) -> restored_all es ls -> Forall (fun et => 0 <= snd et) es ->
  Forall (fun l => 0 < expires l) ls.
Proof.
  intros Hup. induction 1 as [|et l es ls (_ & _ & _ & n & Hn) _ IH]; [done|]. intros Ht. apply Forall_cons in Ht as [Ht1 Ht].
  constructor; [|by apply IH]. rewrite Hn. specialize (Hup n). lia.
Qed.

(** The records in the file, after the ones in [dn] were entered as [ls]. *)
Lemma read_loop_run dn es ls k fuel d : (forall n, 0 < env_uptime n < 2147483648) ->
  table_ok d -> remaining (server_config d) <> 0 -> Forall (fun et => record_ok (fst et) (snd et)) (dn ++ es) ->
  pairwise_differ (dn ++ es) -> restored_all dn ls ->
  leases d = ls ++ replicate (length es + k) zero_lease -> (length es <= fuel)%nat ->
  exists d' ls', read_loop fuel (records es) d = Ok tt d' /\ leases d' = ls' ++ replicate k zero_lease
  /\ restored_all (dn ++ es) ls'.
Proof.
  intros Hup. revert dn ls fuel d. induction es as [|[e t] es IH]; intros dn ls fuel d Hok Hrem Hrec Hpw Hdone Hls Hfuel.
  { exists d, ls. rewrite app_nil_r. split; [|by split]. by destruct fuel. }
  destruct fuel as [|fuel]; [simpl in Hfuel; lia|]. cbn [read_loop].
  assert (Het : record_ok e t) by (apply Forall_app in Hrec as [_ Hrec]; by apply Forall_cons in Hrec as [? _]).
  change (records ((e, t) :: es)) with (lease_bytes e t ++ records es).
  destruct (record_spans e t (records es) Het) as (R1 & R2 & R3 & R4 & R5 & R6). cbv zeta in *.
  rewrite decide_True by done. rewrite R2, R3, R4, R5, R6.
  assert (Hd : Forall (fun l => differ l e) ls).
  { eapply restored_differ; [exact Hdone|]. unfold pairwise_differ in Hpw. clear -Hpw. induction dn as [|x dn IH]; [done|].
    simpl in Hpw. inversion Hpw as [|? ? Hx Hr]; subst. constructor; [|by apply IH].
    apply Forall_app in Hx as [_ Hx]. by apply Forall_cons in Hx as [? _]. }
  assert (Hlive : Forall (fun l => 0 < expires l) ls).
  { eapply restored_live; [intros n; apply Hup|exact Hdone|]. apply Forall_app in Hrec as [Hrec _].
    eapply Forall_weaken; [exact Hrec|]. intros et [_ _ ?]. lia. }
  pose proof (enter_record ls (length es + k) e t d Hok Het Hls Hd Hlive (proj1 (Hup _))) as Hadd.
  pose proof Het as [[E1 E2 E3 E4] Es Et]. destruct (nonblank_saved e E1 Es) as [_ Hy].
  destruct (add_lease_run (chaddr e) (yiaddr e) t d Hok ltac:(lia)) as (d1 & Hr1 & Hl1 & Hq1 & _).
  rewrite Hadd in Hr1, Hl1. cbn [fst snd] in Hr1, Hl1.
  eapply run_bind; [reflexivity|]. rewrite (proj2 (Z.eqb_neq _ _) Hrem). eapply run_bind; [reflexivity|].
  eapply run_bind; [exact Hr1|]. cbv beta iota.
  assert (Hat : leases d1 !! length ls = Some (OfferedAddr (chaddr e) (yiaddr e) (u32 (env_uptime (S (d_calls d)) + t)) (replicate 64 0)))
    by (rewrite Hl1; by apply list_lookup_middle).
  eapply run_bind; [by apply lease_get_run|]. cbn [chaddr yiaddr expires].
  eapply run_bind; [by eapply lease_set_run|].
  rewrite Hl1, insert_app_r_alt, Nat.sub_diag by lia.
  match goal with |- context [ <[0%nat := ?x]> (?y :: ?l) ] => change (<[0%nat := x]> (y :: l)) with (x :: l) end.
  pose proof (Hup (S (d_calls d))) as Hu. rewrite u32_small by lia.
  match goal with |- context [ set_leases ?x d1 ] => set (ls2 := x) end.
  destruct (IH (dn ++ [(e, t)])
    (ls ++ [OfferedAddr (chaddr e) (yiaddr e) (env_uptime (S (d_calls d)) + t) (terminated (hostname e))]) fuel (set_leases ls2 d1))
    as (d' & ls' & Hr & Hl & Hres).
  - pose proof (qu_config _ _ Hq1) as Hc1. destruct Hok as [Hsz Hall]. split; cbn [leases set_leases server_config]; rewrite ?Hc1.
    + rewrite <- Hsz, Hls. unfold ls2. rewrite !length_app. cbn [length]. rewrite !length_replicate. cbn [length]. lia.
    + unfold ls2. rewrite Hls in Hall. apply Forall_app in Hall as [Ha1 Ha2]. apply Forall_app. split; [done|].
      cbn [length plus replicate] in Ha2. apply Forall_cons in Ha2 as [_ Ha2]. constructor; [|exact Ha2].
      split; cbn [chaddr yiaddr expires hostname]; [done|done|lia|]. unfold terminated. rewrite length_app, strncpy_length. done.
  - simpl. by rewrite (qu_config _ _ Hq1).
  - by rewrite <- app_assoc.
  - by rewrite <- app_assoc.
  - apply Forall2_app; [done|]. constructor; [|constructor]. split; [done|]. split; [done|]. split; [done|]. by eexists.
  - simpl. unfold ls2. by rewrite <- app_assoc.
  - simpl in Hfuel. lia.
  - exists d', ls'. split; [exact Hr|]. split; [done|]. by rewrite <- app_assoc in Hres.
Qed.

(** The saved entries of a table without duplicates differ pairwise. *)
Lemma saved_differ (f : dhcpOfferedAddr -> Z) ls : unique_leases ls -> Forall lease_ok ls ->
  pairwise_differ ((fun l => (l, f l)) <$> saved_leases ls).
Proof.
  unfold saved_leases, pairwise_differ. induction ls as [|l ls IH]; intros Hu Hok; [constructor|].
  apply Forall_cons in Hok as [Hl Hok].
  assert (IH' : pairwise_differ ((fun l => (l, f l)) <$> saved_leases ls)).
  { apply IH; [|done]. intros i j x y Hi Hj Hne. apply (Hu (S i) (S j) x y Hi Hj). lia. }
  rewrite filter_cons. destruct (decide (saved l = true)) as [Hs|_]; [|exact IH'].
  rewrite fmap_cons. constructor; [|exact IH']. apply Forall_fmap, Forall_forall. intros l' Hl'. cbn.
  apply list_elem_of_filter in Hl' as [_ Hl']. apply list_elem_of_lookup in Hl' as [i Hi].
  destruct (Hu 0%nat (S i) l l' eq_refl Hi ltac:(lia)) as [H1 H2]. destruct (nonblank_saved l (le_chaddr _ Hl) Hs) as [Hn Hy].
  split; [by apply H1|by apply H2].
Qed.

(** The table after a restart: the saved entries, in their order, with the
    remaining time counted from a new clock reading, and free entries after. *)
Definition reloaded (c : server_config_t) (curr : Z) (ls ls' : list dhcpOfferedAddr) : Prop :=
  exists k new, ls' = new ++ replicate k zero_lease
  /\ Forall2 (fun e l => restored e (file_lease_time c curr e) l) (saved_leases ls) new.

Lemma filter_length_le ls : (length (saved_leases ls) <= length ls)%nat.
Proof. unfold saved_leases. apply length_filter. Qed.

(** C36. The leases survive a restart. When lease times are stored as remaining
    times and no file of unlisted clients exists, write_leases leaves the table as
    it is and writes every entry of a known client; and read_leases on that file
    and an empty table of the same size makes a table that holds these entries in
    their order, with the same addresses, hardware addresses and (terminated) host
    names, each to expire its remaining time after a new clock reading, and free
    entries after them. The clock and the times must be below 2^31. *)
Theorem lease_file_roundtrip d :
  (forall n, 0 < env_uptime n < 2147483648) -> (forall n, env_lease_no n = None) ->
  env_lease_file_ok (S (d_calls d)) = true -> notify_fits (server_config d) -> remaining (server_config d) <> 0 ->
  table_ok d -> unique_leases (leases d) -> Forall (fun l => expires l < 2147483648) (leases d) ->
  exists d1 file cmds, write_leases d = Ok tt d1 /\ leases d1 = leases d
  /\ d_out d1 = d_out d ++ Leases_written file :: (System <$> cmds)
  /\ forall d2, server_config d2 = server_config d -> leases d2 = replicate (length (leases d)) zero_lease ->
       env_lease_file (d_calls d2) = Some file ->
       exists d3, read_leases d2 = Ok tt d3
       /\ reloaded (server_config d) (env_uptime (d_calls d)) (leases d) (leases d3).
Proof.
  intros Hup Hno Hopen Hfit Hrem Hok Hun Hexp. set (c := server_config d). set (now := env_uptime (d_calls d)).
  destruct (write_leases_run d Hok Hno Hopen Hfit) as (d1 & cmds & Hw & Hl1 & Hout).
  exists d1, (file_of c now (leases d)), cmds. split; [exact Hw|]. split; [exact Hl1|]. split; [exact Hout|].
  intros d2 Hc2 Hl2 Hfile. set (es := (fun l => (l, file_lease_time c now l)) <$> saved_leases (leases d)).
  pose proof (filter_length_le (leases d)) as Hlen.
  assert (Hes : length es = length (saved_leases (leases d))) by apply length_fmap.
  assert (Hsize : length (leases d2) = length (leases d)) by (rewrite Hl2; apply length_replicate).
  set (d2' := set_d_calls (S (d_calls d2)) d2).
  assert (Hok2 : table_ok d2').
  { split; simpl; [rewrite Hc2, Hsize; apply Hok|]. rewrite Hl2. apply Forall_replicate. by split. }
  destruct (read_loop_run [] es [] (length (leases d) - length es) (length (leases d)) d2' Hup Hok2) as (d3 & new & Hr & Hl3 & Hres).
  - simpl. by rewrite Hc2.
  - apply Forall_fmap, Forall_forall. intros l Hl. cbn. apply list_elem_of_filter in Hl as [Hs Hl].
    pose proof (Forall_elem _ _ _ (tb_leases _ Hok) Hl) as Hlo. pose proof (Forall_elem _ _ _ Hexp Hl) as He. cbv beta in He.
    split; [done|done|]. unfold file_lease_time. rewrite (proj2 (Z.eqb_neq (remaining c) 0) Hrem). cbn [negb].
    pose proof (Hup (d_calls d)). pose proof (le_expires _ Hlo). fold now in H |- *.
    destruct (Z.ltb_spec (expires l) now); [lia|]. rewrite u32_small by lia. lia.
  - apply saved_differ; [done|apply Hok].
  - constructor.
  - simpl. rewrite Hl2. f_equal. lia.
  - lia.
  - exists d3. split.
    + unfold read_leases. eapply run_bind; [by apply dsys_run|]. cbv beta iota.
      eapply run_bind; [by apply num_leases_run|]. change (leases (set_d_calls (S (d_calls d2)) d2)) with (leases d2). rewrite Hsize.
      unfold records, es in Hr. rewrite <- list_fmap_compose in Hr. exact Hr.
    + eexists _, new. split; [exact Hl3|]. unfold restored_all, es in Hres. simpl in Hres. by apply Forall2_fmap_l in Hres.
Qed.
End files.
