(* ===== verification/DhcpMain.v ===== *)
(** * DhcpMain: start and main loop of the server (dhcpd.c)

    The process id file and the reading of signals from their pipe are I/O: a turn of
    the loop gets what [select] and the read deliver as an argument.  malloc(), daemon()
    and listen_socket() answer as the environment says. *)

From S2P Require Import Prelude DhcpTypes DhcpOptions DhcpConfig DhcpLeases DhcpPacket DhcpServer DhcpFiles.

Section with_env.
Context `{E : DhcpEnv}.

(** The lease option of the configuration gives the longest lease time. *)
Definition set_lease (v : Z) (c : server_config_t) : server_config_t :=
  ServerConfig (server c) (start c) (end_ c) (options_list c) (ifindex c) (arp c) v (max_leases c)
    (remaining c) (auto_time c) (decline_time c) (conflict_time c) (offer_time c) (min_lease c)
    (siaddr c) (sname c) (boot_file c) (notify_file c) (lease_file c) (interface c) (pidfile c).
Definition set_interface (i s : Z) (a : list Z) (c : server_config_t) : server_config_t :=
  ServerConfig s (start c) (end_ c) (options_list c) i a (lease c) (max_leases c) (remaining c) (auto_time c) (decline_time c)
    (conflict_time c) (offer_time c) (min_lease c) (siaddr c) (sname c) (boot_file c) (notify_file c) (lease_file c) (interface c) (pidfile c).

Definition load_lease_option : DM unit :=
  c ← gets server_config;
  match find_option (options_list c) DHCP_LEASE_TIME with
  | Some o => t ← of_be <$> in_bounds (load 4 o 2); modify (set_server_config (set_lease t c))
  | None => modify (set_server_config (set_lease LEASE_TIME c))
  end.

(** read_interface: [false] when the interface cannot be read. *)
Definition read_interface : DM bool :=
  i ← dsys env_interface;
  match i with
  | Some (index, addr, mac) =>
      c ← gets server_config; modify (set_server_config (set_interface index addr mac c));; mret true
  | None => mret false
  end.

Definition restart_timeout : DM unit :=
  now ← sys_time;
  c ← gets server_config;
  modify (set_timeout_end (u32 (now + auto_time c))).

(** [strcpy] of a text into an array of [cap] bytes that is not read again. *)
Definition strcpy_fits (cap : nat) (text : list Z) : DM unit :=
  if decide (length text < cap)%nat then mret tt else fail Out_of_bounds.

(** The bytes of the table: [sizeof(struct dhcpOfferedAddr) * max_leases] in 32 bits. *)
Definition table_bytes (c : server_config_t) : Z := u32 (Z.of_nat sizeof_lease * max_leases c).

(** [leases = malloc(size); memset(leases, 0, size);]: the entries that lie
    inside the block. *)
Definition alloc_leases : DM unit :=
  c ← gets server_config;
  let size := table_bytes c in
  ok ← dsys (fun n => env_malloc n size);
  if (ok : bool) || (size =? 0) then
    modify (set_leases_size size);;
    modify (set_leases (replicate (Z.to_nat (size / Z.of_nat sizeof_lease)) zero_lease))
  else fail Null_deref.

(** SomeExtraCodes_001: the domain name, copied to a local array. *)
Definition domain_name : DM unit :=
  domain ← dsys env_wan_domain;
  strcpy_fits 255 (bytes_of_string domain);;
  if (String.length domain =? 0)%nat then
    default ← dsys env_wan_domain_default;
    if (String.length default =? 0)%nat then mret tt
    else again ← dsys env_wan_domain_default; strcpy_fits 255 (bytes_of_string again)
  else mret tt.

(** main, up to the loop; [arg] is argv[1], when it is there. *)
Definition server_start (arg : option (list Z)) : DM unit :=
  modify (set_server_open false);;
  modify (set_config_path None);;
  modify (set_server_config zero_config);;
  match arg with
  | Some path => strcpy_fits 256 path;; modify (set_config_path (Some path))
  | None => mret tt
  end;;
  read_config;;
  load_lease_option;;
  alloc_leases;;
  read_leases;;
  ok ← read_interface;
  if negb ok then fail Died
  else
    daemon ← dsys env_daemon;
    if negb daemon then fail Died
    else restart_timeout;; domain_name.

Inductive turn_input : Type :=
  | Select_timeout
  | Select_error
  | Signal_USR1
  | Signal_USR2
  | Signal_TERM
  | Input (bytes : list Z)             (* the read from the socket *)
  | Input_failed (interrupted : bool). (* it failed; errno is EINTR *)

(** [memset(leases, 0, size)] on the table that is there. *)
Definition memset_leases (size : Z) : DM unit :=
  have ← gets leases_size;
  if have <? size then fail Out_of_bounds
  else
    let full := Z.to_nat (size / Z.of_nat sizeof_lease) in
    let part := Z.to_nat (size mod Z.of_nat sizeof_lease) in
    for_n full 0 (fun i => lease_set i zero_lease);;
    ls ← gets leases;
    match ls !! full with
    | Some l =>
        let b := replicate part 0 ++ drop part (lease_bytes l (expires l)) in
        lease_set full (OfferedAddr (span 16 0 b) (of_be (span 4 16 b)) (of_be (span 4 20 b)) (span 64 24 b))
    | None => mret tt
    end.

(** SIGUSR2: the configuration is read again; the table keeps the size that
    malloc gave it.  Without an argument the name of the file was never set. *)
Definition reread : DM unit :=
  modify (fun d => set_server_config (cfg_options [] (server_config d)) d);; (* free_options *)
  path ← gets config_path;
  match path with
  | None => fail Uninitialised
  | Some _ =>
      read_config;;
      restart_timeout;;
      load_lease_option;;
      c ← gets server_config;
      memset_leases (table_bytes c);;
      read_leases;;
      ok ← read_interface;
      if ok : bool then update_lease_by_new_ip else fail Died
  end.

(** A read that fails for another reason than a signal closes the socket. *)
Definition serve_packet (input : option (list Z)) (interrupted : bool) : DM unit :=
  '(p, bytes) ← get_packet input;
  if bytes <? 0 then when ((bytes =? -1) && negb interrupted) (modify (set_server_open false))
  else handle_message p.

(** The socket is opened in the first turn and after it was closed. *)
Definition open_socket : DM unit :=
  opened ← gets server_open;
  if opened : bool then mret tt
  else
    ok ← dsys env_listen;
    if ok : bool then modify (set_server_open true) else fail Died.

(** The time to write the lease file has come: [select] is skipped. *)
Definition save_due : DM bool :=
  c ← gets server_config;
  if negb (auto_time c =? 0) then
    now ← sys_time; e ← gets timeout_end; mret (s32 (e - now) <=? 0)
  else mret false.

(** What a turn does with what select and the read deliver. *)
Definition serve_turn (i : turn_input) : DM unit :=
  match i with
  | Select_timeout => write_leases;; restart_timeout
  | Select_error => mret tt
  | Signal_USR1 => write_leases;; restart_timeout
  | Signal_USR2 => reread
  | Signal_TERM => write_leases;; fail Died
  | Input bytes => serve_packet (Some bytes) false
  | Input_failed interrupted => serve_packet None interrupted
  end.

(** One turn of the loop. *)
Definition server_turn (i : turn_input) : DM unit :=
  open_socket;;
  due ← save_due;
  serve_turn (if due : bool then Select_timeout else i).

(** The loop, for the turns that are given. *)
Fixpoint server_loop (inputs : list turn_input) : DM unit :=
  match inputs with
  | [] => mret tt
  | i :: inputs' => server_turn i;; server_loop inputs'
  end.
End with_env.
