(* ===== verification/DhcpBehaviour.v ===== *)
(** * DhcpBehaviour: what the DHCP server promises (serverpacket.c, dhcpd.c)

    The options of an answer, the reading of a well-formed request, the choice
    and the reservation of an address, and the handling of one message. *)

From S2P Require Import Prelude DhcpTypes DhcpOptions DhcpLeases DhcpPacket DhcpServer.

(** ** The options of an answer *)

(** The configured options as pairs; each is a code, a length and that many bytes. *)
Definition decode_opt (o : list Z) : Z * list Z := (opt_code o, drop 2 o).
Definition config_opt_ok (o : list Z) : Prop := o = enc_opt (decode_opt o) /\ option_wf (decode_opt o).

(** The type, the server, the lease time if there is one, and the configured
    options but the lease time, each as long as it fits. *)
Definition push_opts (l os : list (Z * list Z)) : list (Z * list Z) := fold_left push_opt os l.
Definition configured (c : server_config_t) : list (Z * list Z) :=
  filter (fun o => fst o <> DHCP_LEASE_TIME) (decode_opt <$> options_list c).
Definition head_options (c : server_config_t) (type : Z) (time : option Z) : list (Z * list Z) :=
  [(DHCP_MESSAGE_TYPE, [u8 type]); (DHCP_SERVER_ID, be32 (server c))]
  ++ match time with Some t => [(DHCP_LEASE_TIME, be32 t)] | None => [] end.
Definition answer_options (c : server_config_t) (type : Z) (time : option Z) : list (Z * list Z) :=
  push_opts (head_options c type time) (configured c).

Section answers.
Context `{E : DhcpEnv}.

Lemma word_option_wf code data : 0 < code < 255 -> option_wf (code, be32 data).
Proof. intros H. split; [done|]. split; [simpl; lia|apply be32_bytes]. Qed.

(** The header of an answer to [old], its options so far [l]; the boot fields are
    empty unless they are configured. *)
Record answer_to (c : server_config_t) (old : dhcpMessage) (type yi : Z) (l : list (Z * list Z)) (p : dhcpMessage) : Prop := AnswerTo {
  an_op : m_op p = init_op type;
  an_xid : m_xid p = m_xid old;
  an_flags : m_flags p = m_flags old;
  an_ciaddr : m_ciaddr p = m_ciaddr old;
  an_giaddr : m_giaddr p = m_giaddr old;
  an_chaddr : m_chaddr p = m_chaddr old;
  an_yiaddr : m_yiaddr p = yi;
  an_cookie : m_cookie p = DHCP_MAGIC;
  an_head : header_bytes_ok p /\ m_secs p = 0;
  an_siaddr : m_siaddr p = 0 \/ m_siaddr p = siaddr c;
  an_boot : (sname c = None -> m_sname p = replicate 64 0) /\ (boot_file c = None -> m_file p = replicate 128 0);
  an_options : field_ok l (m_options p)
}.

Lemma init_packet_run old type d : 0 < type < 256 ->
  exists p, init_packet old type d = Ok p d
  /\ answer_to (server_config d) old type 0 (head_options (server_config d) type None) p.
Proof.
  intros Ht. unfold init_packet, init_header.
  destruct (add_simple_field [] (DHCP_END :: replicate 307 0) DHCP_MESSAGE_TYPE type d field_ok_empty)
    as (b1 & r1 & H1 & L1); [done|done|done| |].
  { split; [done|]. split; [simpl; lia|]. constructor; [apply u8_range|constructor]. }
  destruct (add_simple_field _ b1 DHCP_SERVER_ID (server (server_config d)) d L1) as (b2 & r2 & H2 & L2);
    [done|done|done|by apply word_option_wf|].
  eexists. split.
  - eapply run_bind; [eapply run_bind; [exact H1|reflexivity]|]. eapply run_bind; [apply gets_run|].
    eapply run_bind; [exact H2|]. reflexivity.
  - split; try done; [|by left]. split; [|done]. split; [|done]. cbn. unfold init_op. by repeat case_match.
Qed.

Lemma with_time_run l b t (d : dhcpd) : field_ok l b ->
  exists b' r, add_simple_option b DHCP_LEASE_TIME t d = Ok (b', r) d /\ field_ok (push_opt l (DHCP_LEASE_TIME, be32 t)) b'.
Proof. intros Hl. apply (add_simple_field l b DHCP_LEASE_TIME t d Hl); [done|done|done|by apply word_option_wf]. Qed.

Lemma add_config_run os l b d : field_ok l b -> Forall config_opt_ok os ->
  exists b', add_config_options os b d = Ok b' d
  /\ field_ok (push_opts l (filter (fun o => fst o <> DHCP_LEASE_TIME) (decode_opt <$> os))) b'.
Proof.
  intros Hl Hos. revert l b Hl. induction Hos as [|o os [Ho Hw] _ IH]; intros l b Hl; cbn [add_config_options].
  { by exists b. }
  rewrite fmap_cons, filter_cons. cbn [decode_opt fst]. destruct (Z.eqb_spec (opt_code o) DHCP_LEASE_TIME) as [He|He].
  - rewrite decide_False by naive_solver. by apply IH.
  - rewrite decide_True by done. destruct (add_field_run l b (decode_opt o) d Hl Hw) as (b1 & H1 & L1). rewrite <- Ho in H1.
    destruct (IH _ b1 L1) as (b2 & H2 & L2). exists b2. split; [|exact L2]. by eapply run_bind; [exact H1|].
Qed.

(** The configured options and the bootp fields, and what follows. *)
Lemma finish_run old type yi l p d : answer_to (server_config d) old type yi l p -> Forall config_opt_ok (options_list (server_config d)) ->
  exists p', answer_to (server_config d) old type yi (push_opts l (configured (server_config d))) p'
  /\ forall B (k : dhcpMessage -> DM B), (q ← with_config_options p; q' ← add_bootp_options q; k q') d = k p' d.
Proof.
  intros [] Hc. destruct (add_config_run _ l (m_options p) d an_options0 Hc) as (b & Hb & Lb).
  eexists. split; [|intros B k; eapply run_bind; [|eapply run_bind; [|reflexivity]]].
  3: { unfold add_bootp_options. eapply run_bind; [apply gets_run|]. reflexivity. }
  2: { unfold with_config_options. eapply run_bind; [apply gets_run|]. eapply run_bind; [exact Hb|]. reflexivity. }
  split; try done; [by right|]. destruct an_boot0 as [H1 H2].
  split; intros Hn; cbn; rewrite Hn; [by apply H1|by apply H2].
Qed.

(** The lease time and then the rest: the whole list of options. *)
Lemma finish_time_run old type yi p t d : answer_to (server_config d) old type 0 (head_options (server_config d) type None) p ->
  Forall config_opt_ok (options_list (server_config d)) ->
  exists p', answer_to (server_config d) old type yi (answer_options (server_config d) type (Some t)) p'
  /\ forall B (k : dhcpMessage -> DM B),
       ('(opts, _) ← add_simple_option (m_options p) DHCP_LEASE_TIME t;
        q ← with_config_options (set_m_options opts (set_m_yiaddr yi p)); q' ← add_bootp_options q; k q') d = k p' d.
Proof.
  intros Ha Hc. destruct (with_time_run _ (m_options p) t d (an_options _ _ _ _ _ _ Ha)) as (b & r & Hb & Lb).
  assert (Ha' : answer_to (server_config d) old type yi (head_options (server_config d) type (Some t)) (set_m_options b (set_m_yiaddr yi p))).
  { destruct Ha. by split. }
  destruct (finish_run _ _ _ _ _ d Ha' Hc) as (p' & Hp & Hrun). exists p'. split; [exact Hp|].
  intros B k. eapply run_bind; [exact Hb|]. apply Hrun.
Qed.

(** ** Sending an answer *)

(** What is handed to the operating system for an answer. *)
Definition answer_output (c : server_config_t) (p : dhcpMessage) (force : bool) : dhcp_output :=
  if negb (m_giaddr p =? 0) then Udp_payload (server c) SERVER_PORT (m_giaddr p) SERVER_PORT (message_bytes p)
  else
    let dest ip mac := Raw_frame (ifindex c) (take 6 mac) (raw_bytes p (server c) SERVER_PORT ip CLIENT_PORT) in
    if force || (m_ciaddr p =? 0) && negb (Z.land (m_flags p) BROADCAST_FLAG =? 0)
    then dest INADDR_BROADCAST MAC_BCAST_ADDR
    else dest (if m_ciaddr p =? 0 then m_yiaddr p else m_ciaddr p) (m_chaddr p).

Record sends (c : server_config_t) (p : dhcpMessage) (force : bool) (r : Z) (d d' : dhcpd) : Prop := Sends {
  se_leases : leases d' = leases d;
  se_vizio : vizio_device d' = vizio_device d;
  se_calm : calm d d';
  se_out : (r = -1 /\ d_out d' = d_out d) \/ d_out d' = d_out d ++ [answer_output c p force]
}.

(** A packet of any kind is sent once, or not at all and then -1 is returned. *)
Lemma raw_packet_run p s sp dst dp mac i d :
  exists r d', raw_packet p s sp dst dp mac i d = Ok r d' /\ leases d' = leases d /\ vizio_device d' = vizio_device d /\ calm d d'
  /\ ((r = -1 /\ d_out d' = d_out d) \/ d_out d' = d_out d ++ [Raw_frame i (take 6 mac) (raw_bytes p s sp dst dp)]).
Proof.
  unfold raw_packet, dsys, emit_out, mbind, M_bind, gets, modify, mret, M_ret. cbn -[raw_bytes].
  destruct (env_sock_ok (d_calls d)); cbn -[raw_bytes].
  - destruct (env_sock_ok (S (d_calls d))); cbn -[raw_bytes]; eexists _, _; (split; [reflexivity|]); repeat split; cbn; try lia; [by right|by left].
  - eexists _, _. split; [reflexivity|]. repeat split; cbn; try lia. by left.
Qed.

Lemma kernel_packet_run p s sp dst dp d :
  exists r d', kernel_packet p s sp dst dp d = Ok r d' /\ leases d' = leases d /\ vizio_device d' = vizio_device d /\ calm d d'
  /\ ((r = -1 /\ d_out d' = d_out d) \/ d_out d' = d_out d ++ [Udp_payload s sp dst dp (message_bytes p)]).
Proof.
  unfold kernel_packet, dsys, emit_out, mbind, M_bind, gets, modify, mret, M_ret. cbn -[message_bytes].
  repeat (match goal with |- context [env_sock_ok ?n] => destruct (env_sock_ok n); cbn -[message_bytes] end);
    eexists _, _; (split; [reflexivity|]);
    repeat split; cbn; try lia; first [by right|by left].
Qed.

Lemma send_packet_run p force d :
  exists r d', send_packet p force d = Ok r d' /\ sends (server_config d) p force r d d'.
Proof.
  unfold send_packet, send_packet_to_relay, send_packet_to_client, answer_output.
  destruct (negb (m_giaddr p =? 0)) eqn:Hg.
  - destruct (kernel_packet_run p (server (server_config d)) SERVER_PORT (m_giaddr p) SERVER_PORT d) as (r & d' & H1 & H2 & H3 & H4 & H5).
    exists r, d'. split; [eapply run_bind; [apply gets_run|exact H1]|]. split; [done..|]. unfold answer_output. by rewrite Hg.
  - assert (Hraw : forall ip mac, answer_output (server_config d) p force = Raw_frame (ifindex (server_config d)) (take 6 mac)
        (raw_bytes p (server (server_config d)) SERVER_PORT ip CLIENT_PORT) ->
      exists r d', raw_packet p (server (server_config d)) SERVER_PORT ip CLIENT_PORT mac (ifindex (server_config d)) d = Ok r d'
      /\ sends (server_config d) p force r d d').
    { intros ip mac He. destruct (raw_packet_run p (server (server_config d)) SERVER_PORT ip CLIENT_PORT mac (ifindex (server_config d)) d)
        as (r & d' & H1 & H2 & H3 & H4 & H5). exists r, d'. split; [exact H1|]. split; [done..|]. by rewrite He. }
    unfold answer_output in Hraw. rewrite Hg in Hraw. unfold mbind, M_bind, gets.
    destruct force; [by apply Hraw|]. cbn [orb] in Hraw. destruct (Z.eqb_spec (m_ciaddr p) 0) as [Hc|Hc]; cbn [negb andb] in *; [|by apply Hraw].
    destruct (negb (Z.land (m_flags p) BROADCAST_FLAG =? 0)); by apply Hraw.
Qed.
End answers.

(** ** Reading a request *)

Definition wide_enough (o : Z * list Z) : Prop :=
  (fst o = DHCP_REQUESTED_IP \/ fst o = DHCP_LEASE_TIME \/ fst o = DHCP_SERVER_ID -> (4 <= length (snd o))%nat)
  /\ (fst o = DHCP_MESSAGE_TYPE -> (1 <= length (snd o))%nat).

(** A message whose options are the list [l]: without overload, addresses and
    times of four bytes. *)
Record good_request (p : dhcpMessage) (l : list (Z * list Z)) : Prop := GoodRequest {
  gr_message : message_ok p;
  gr_layout : opts_layout l (m_options p);
  gr_plain : Forall plain_option l;
  gr_wide : Forall wide_enough l;
  gr_ciaddr : 0 <= m_ciaddr p < 4294967296
}.

(** The data of the first option with a code, and the word in it. *)
Definition option_data (code : Z) (l : list (Z * list Z)) : option (list Z) :=
  (fun jo => snd (snd jo)) <$> list_find (fun o => fst o = code) l.
Definition option_word (code : Z) (l : list (Z * list Z)) : option Z :=
  (fun dd => of_be (take 4 dd)) <$> option_data code l.

Lemma option_data_elem code l dd : option_data code l = Some dd -> (code, dd) ∈ l.
Proof.
  unfold option_data. destruct (list_find _ l) as [[j [c d]]|] eqn:Hf; [|done]. simpl. intros [= <-].
  apply list_find_Some in Hf as (Hj & Hc & _). simpl in Hc. subst c. by eapply list_elem_of_lookup_2.
Qed.

Lemma option_word_range code l w : Forall option_wf l -> option_word code l = Some w -> 0 <= w < 4294967296.
Proof.
  unfold option_word. destruct (option_data code l) as [dd|] eqn:Hd; [|done]. simpl. intros Hwf [= <-].
  apply option_data_elem in Hd. destruct (Forall_elem _ _ _ Hwf Hd) as (_ & _ & Hb). simpl in Hb.
  pose proof (of_be_range (take 4 dd) (Forall_take _ _ _ Hb)) as Hr. rewrite length_take in Hr.
  assert (256 ^ Z.of_nat (4 `min` length dd) <= 256 ^ 4) by (apply Z.pow_le_mono_r; lia). lia.
Qed.

Section requests.
Context `{E : DhcpEnv}.

Lemma from_vizio safe d0 d v : from safe d0 d -> from safe d0 (set_vizio_device v d).
Proof. intros H. eapply from_same; [exact H|by apply quiet_calm, quiet_vizio|done]. Qed.

(** A search changes the vendor flag only, and finds the option's data. *)
Lemma twp_get_option p l code (Q : option opt_ptr -> dhcpd -> Prop) d :
  good_request p l -> 0 < code < 255 ->
  (forall r v, found_in p code l r -> Q r (set_vizio_device v d)) -> twp (get_option p code) Q d.
Proof.
  intros [_ Hl Hp _ _] Hc HQ. destruct (get_option_found l p code d Hl Hp Hc) as (r & Hr & Hf).
  eapply twp_run; [exact Hr|]. by apply HQ.
Qed.

Lemma opt_word_run {T} p l code ptr (d : T) : good_request p l -> found_in p code l (Some ptr) ->
  code = DHCP_REQUESTED_IP \/ code = DHCP_LEASE_TIME \/ code = DHCP_SERVER_ID ->
  exists w, option_word code l = Some w /\ opt_word p ptr d = Ok w d.
Proof.
  intros [[_ _ _ Hs _ _ _ _] Hl _ Hw _] Hf Hcode. unfold found_in, option_word, option_data in *.
  destruct (list_find _ l) as [[j [c dd]]|] eqn:Hfind; [|done]. destruct Hf as (off & [= ->] & Hload & _ & H2 & Hend).
  apply list_find_Some in Hfind as (Hj & Hc & _). simpl in Hc. subst c. simpl.
  destruct (Forall_lookup_1 _ _ _ _ Hw Hj) as [Hlen _]. specialize (Hlen Hcode). simpl in Hlen.
  exists (of_be (take 4 dd)). split; [done|]. unfold opt_word, fmap, M_fmap. cbn [fst snd field_bytes].
  rewrite load_ok in Hload by lia. injection Hload as Hdd.
  eapply run_bind; [apply in_bounds_run, load_ok; lia|]. unfold mret, M_ret. do 2 f_equal.
  rewrite <- Hdd, take_take. f_equal. lia.
Qed.

(** An optional word of the message. *)
Lemma twp_word_of p l code r (Q : option Z -> dhcpd -> Prop) d : good_request p l -> found_in p code l r ->
  code = DHCP_REQUESTED_IP \/ code = DHCP_LEASE_TIME \/ code = DHCP_SERVER_ID ->
  Q (option_word code l) d -> twp (word_of p r) Q d.
Proof.
  intros Hg Hf Hcode HQ. unfold word_of. destruct r as [ptr|].
  - destruct (opt_word_run p l code ptr d Hg Hf Hcode) as (w & Hw & Hrun). unfold fmap, M_fmap. apply twp_bind.
    eapply twp_run; [exact Hrun|]. rewrite Hw in HQ. by apply twp_ret.
  - apply twp_ret. unfold found_in in Hf. revert HQ. unfold option_word, option_data.
    destruct (list_find _ l) as [[j [c dd]]|]; [|done]. by destruct Hf as (off & ? & _).
Qed.

Lemma twp_asked_lease_time p l (Q : option Z -> dhcpd -> Prop) d : good_request p l ->
  (forall v, Q (option_word DHCP_LEASE_TIME l) (set_vizio_device v d)) -> twp (asked_lease_time p) Q d.
Proof.
  intros Hg HQ. unfold asked_lease_time. apply twp_bind, (twp_get_option p l); [done|done|]. intros r v Hf.
  apply (twp_word_of p l DHCP_LEASE_TIME r); [done|done|by right; left|by apply HQ].
Qed.

(** ** The choice of an address *)

(** The leases that a client cannot lose to another one: of another hardware
    address, and not at the router's own address. *)
Definition others (ch : list Z) (l : dhcpOfferedAddr) : Prop :=
  ~ same_mac ch l /\ yiaddr l <> 0 /\ forall n, env_lan_ipaddr n <> inet_ntoa (yiaddr l).
Lemma others_off_lan ch : off_lan (others ch).
Proof. intros l n (_ & _ & H). apply H. Qed.

(** No unexpired lease of another client has the address. *)
Definition grantable (ch : list Z) (d0 d : dhcpd) (y : Z) : Prop :=
  forall l, l ∈ leases d -> others ch l -> unexpired_over (d_calls d0) (d_calls d) l -> yiaddr l <> y.

Lemma grantable_same ch d0 d d' y : grantable ch d0 d y -> leases d' = leases d -> (d_calls d <= d_calls d')%nat ->
  grantable ch d0 d' y.
Proof.
  intros H Hl Hc l Hin Ho Hu. apply H; [by rewrite <- Hl|done|]. intros n Hn. apply Hu. lia.
Qed.

Lemma available_grantable ch d0 d y : available d0 d y -> grantable ch d0 d y.
Proof. intros H l Hl _ Hu. by apply (available_not_safe d0 d). Qed.

Lemma own_grantable ch d0 d k l : unique_leases (leases d) -> leases d !! k = Some l -> same_mac ch l ->
  grantable ch d0 d (yiaddr l).
Proof.
  intros Hu Hk Hm l' Hin (Hnm & Hy & _) _ He. apply Hnm.
  by rewrite (unique_address _ _ _ _ Hu Hk Hin ltac:(congruence) He).
Qed.

(** A range the choice works on. *)
Definition range_ok (c : server_config_t) : Prop := 0 < start c /\ end_ c < 4294967295.

(** The address chosen: none, or one that can be granted and is in the range,
    or the address the client has. *)
Definition chosen (ch : list Z) (c : server_config_t) (ls : list dhcpOfferedAddr) (d0 d : dhcpd) (y : Z) : Prop :=
  y = 0 \/ (0 <= y < 4294967296 /\ grantable ch d0 d y
            /\ (start c <= y <= end_ c \/ exists l, l ∈ ls /\ same_mac ch l /\ yiaddr l = y)).

Lemma offered_chosen ch ce c ls d0 d r : range_ok c -> r = 0 \/ offered ce c d0 d r -> chosen ch c ls d0 d r.
Proof.
  intros [Hs He] [->|(Hr & _ & _ & Ha & _)]; [by left|right]. split; [lia|]. split; [by apply available_grantable|by left].
Qed.

(** The requested address, when the request names one that is in the range and
    that no unexpired lease has. *)
Lemma twp_requested_free ch p l d0 (Q : option Z -> dhcpd -> Prop) d :
  from (others ch) d0 d -> good_request p l -> range_ok (server_config d) ->
  (forall d', from (others ch) d0 d' -> leases d' = leases d -> quiet d d' -> Q None d') ->
  (forall y d', from (others ch) d0 d' -> leases d' = leases d -> quiet d d' ->
     option_word DHCP_REQUESTED_IP l = Some y -> start (server_config d) <= y <= end_ (server_config d) ->
     available d0 d' y -> Q (Some y) d') ->
  twp (requested_free (server_config d) p) Q d.
Proof.
  intros Hf Hg [Hs He] HN HS. unfold requested_free. apply twp_bind, (twp_get_option p l); [done|done|]. intros r v Hfound.
  set (d1 := set_vizio_device v d). assert (Hf1 : from (others ch) d0 d1) by by apply from_vizio.
  assert (Hc1 : quiet d d1) by by apply quiet_vizio.
  destruct r as [ptr|]; [|by apply twp_ret, HN].
  destruct (opt_word_run p l _ ptr d1 Hg Hfound ltac:(by left)) as (w & Hw & Hrun).
  apply twp_bind. eapply twp_run; [exact Hrun|].
  apply twp_if; intros Hin; [|by apply twp_ret, HN]. unfold in_range in Hin. apply andb_true_iff in Hin as [I1 I2].
  bool_to_prop. apply twp_bind. eapply twp_run; [apply find_lease_by_yiaddr_run, Hf1|].
  destruct (list_find _ _) as [[k l0]|] eqn:Hfind; simpl.
  - apply list_find_Some in Hfind as (Hk & Hy & _). apply twp_bind. eapply twp_run; [exact (lease_get_run _ _ _ Hk)|].
    unfold lease_expired. apply twp_bind, twp_bind. eapply twp_run; [reflexivity|]. apply twp_ret.
    set (d2 := set_d_calls (S (d_calls d1)) d1).
    assert (Hf2 : from (others ch) d0 d2) by (apply from_calls; [done|lia]).
    assert (Hc2 : quiet d d2) by (etransitivity; [exact Hc1|apply quiet_calls; lia]).
    apply twp_ret. destruct (Z.ltb_spec (expires l0) (env_uptime (d_calls d1))) as [Hlt|_]; [|by apply HN].
    apply HS; [done|done|done|done|lia|]. intros l' Hl' Hy'.
    rewrite (unique_address _ _ _ _ (fr_unique _ _ _ Hf1) Hk Hl' ltac:(lia) ltac:(congruence)).
    exists (d_calls d1). pose proof (ca_calls _ _ (fr_calm _ _ _ Hf1)). simpl in *. split; [lia|done].
  - apply list_find_None in Hfind. apply twp_ret, HS; [done|done|done|done|lia|].
    intros l' Hl' Hy'. by destruct (Forall_elem _ _ _ Hfind Hl').
Qed.

Lemma twp_find_chosen ch ce ls d0 (Q : Z -> dhcpd -> Prop) d :
  from (others ch) d0 d -> range_ok (server_config d) ->
  (forall y d', from (others ch) d0 d' -> quiet d d' -> chosen ch (server_config d) ls d0 d' y -> Q y d') ->
  twp (find_address ce) Q d.
Proof.
  intros Hf Hr HQ. eapply twp_find_address; [exact Hf|apply others_off_lan|apply Hr|apply Hr|].
  intros r d' Hf' Hq Hoff. apply HQ; [done|done|]. by eapply offered_chosen.
Qed.

(** The client is in the table: its own address. *)
Lemma twp_offer_own ch c k l d0 (Q : Z * Z -> dhcpd -> Prop) d :
  from (others ch) d0 d -> leases d !! k = Some l -> same_mac ch l ->
  (forall y t d', from (others ch) d0 d' -> quiet d d' -> chosen ch c (leases d) d0 d' y -> Q (y, t) d') ->
  twp (l ← lease_get k; gone ← lease_expired l;
       time ← (if gone : bool then mret (lease c) else now ← sys_time; mret (u32 (expires l - now)));
       mret (yiaddr l, time)) Q d.
Proof.
  intros Hf Hk Hm HQ. apply twp_bind. eapply twp_run; [exact (lease_get_run _ _ _ Hk)|].
  assert (Hch : forall d', from (others ch) d0 d' -> leases d' = leases d -> chosen ch c (leases d) d0 d' (yiaddr l)).
  { intros d' Hf' Hl. right. split; [apply (Forall_lookup_1 _ _ _ _ (tb_leases _ (fr_ok _ _ _ Hf)) Hk)|].
    split; [apply (own_grantable ch d0 d' k l (fr_unique _ _ _ Hf')); by rewrite ?Hl|].
    right. exists l. split; [by eapply list_elem_of_lookup_2|done]. }
  unfold lease_expired. apply twp_bind, twp_bind. eapply twp_run; [reflexivity|]. apply twp_ret.
  set (d1 := set_d_calls (S (d_calls d)) d). assert (Hf1 : from (others ch) d0 d1) by (apply from_calls; [done|lia]).
  assert (Hc1 : quiet d d1) by (apply quiet_calls; lia).
  apply twp_bind, twp_if; intros _.
  - apply twp_ret, twp_ret, HQ; [done|done|by apply Hch].
  - apply twp_bind. eapply twp_run; [reflexivity|]. apply twp_ret, twp_ret.
    assert (Hf2 : from (others ch) d0 (set_d_calls (S (d_calls d1)) d1)) by (apply from_calls; [done|lia]).
    apply HQ; [done|etransitivity; [exact Hc1|apply quiet_calls; lia]|by apply Hch].
Qed.

(** The client is not in the table. *)
Lemma twp_offer_new p l ls d0 (Q : Z * Z -> dhcpd -> Prop) d :
  from (others (m_chaddr p)) d0 d -> good_request p l -> range_ok (server_config d) ->
  (forall y t d', from (others (m_chaddr p)) d0 d' -> quiet d d' ->
     chosen (m_chaddr p) (server_config d) ls d0 d' y -> Q (y, t) d') ->
  twp (req ← requested_free (server_config d) p;
      match req with
      | Some req =>
          found ← find_lease_by_yiaddr req;
          match found with
          | Some k =>
              l ← lease_get k;
              if negb (bool_decide (chaddr l = take 16 (m_chaddr p))) then mret (req, lease (server_config d))
              else addr ← find_address false; mret (addr, lease (server_config d))
          | None => mret (req, lease (server_config d))
          end
      | None =>
          addr ← find_address false;
          if addr =? 0 then addr ← find_address true; mret (addr, lease (server_config d))
          else mret (addr, lease (server_config d))
      end) Q d.
Proof.
  intros Hf Hg Hr HQ. apply twp_bind. eapply twp_requested_free; [exact Hf|exact Hg|done| |].
  - intros d' Hf' Hl Hc. pose proof (qu_config _ _ Hc) as Hcfg. apply twp_bind.
    eapply (twp_find_chosen _ _ ls); [exact Hf'|by rewrite Hcfg|]. rewrite Hcfg. intros y d2 Hf2 Hc2 Hy.
    apply twp_if; intros _.
    + apply twp_bind. pose proof (qu_config _ _ Hc2) as Hcfg2. eapply (twp_find_chosen _ _ ls); [exact Hf2|by rewrite Hcfg2, Hcfg|].
      rewrite Hcfg2, Hcfg. intros y2 d3 Hf3 Hc3 Hy3. apply twp_ret, HQ; [done|etransitivity; [exact Hc|by etransitivity]|done].
    + apply twp_ret, HQ; [done|by etransitivity|done].
  - intros y d' Hf' Hl Hc _ Hin Hav. pose proof (qu_config _ _ Hc) as Hcfg.
    assert (Hch : chosen (m_chaddr p) (server_config d) ls d0 d' y).
    { right. destruct Hr. split; [lia|]. split; [by apply available_grantable|by left]. }
    apply twp_bind. eapply twp_run; [apply find_lease_by_yiaddr_run, Hf'|].
    destruct (list_find _ _) as [[k l0]|] eqn:Hfind; simpl; [|by apply twp_ret, HQ].
    apply list_find_Some in Hfind as (Hk & _ & _). apply twp_bind. eapply twp_run; [exact (lease_get_run _ _ _ Hk)|].
    apply twp_if; intros _; [by apply twp_ret, HQ|].
    apply twp_bind. eapply (twp_find_chosen _ _ ls); [exact Hf'|by rewrite Hcfg|]. rewrite Hcfg. intros y2 d2 Hf2 Hc2 Hy.
    apply twp_ret, HQ; [done|by etransitivity|done].
Qed.

Lemma twp_offer_address p l d0 (Q : Z * Z -> dhcpd -> Prop) d :
  from (others (m_chaddr p)) d0 d -> good_request p l -> range_ok (server_config d) ->
  (forall y t d', from (others (m_chaddr p)) d0 d' -> quiet d d' ->
     chosen (m_chaddr p) (server_config d) (leases d) d0 d' y -> Q (y, t) d') ->
  twp (offer_address p) Q d.
Proof.
  intros Hf Hg Hr HQ. unfold offer_address. apply twp_bind, twp_gets, twp_bind.
  assert (Hnew : forall d', from (others (m_chaddr p)) d0 d' -> quiet d d' -> forall Q', 
    (forall y t d2, from (others (m_chaddr p)) d0 d2 -> quiet d d2 -> chosen (m_chaddr p) (server_config d) (leases d) d0 d2 y -> Q' (y, t) d2) -> _)
    by (intros d' Hf' Hc Q' HQ'; pose proof (qu_config _ _ Hc) as Hcfg;
        apply (twp_offer_new p l (leases d) d0 Q' d' Hf' Hg); rewrite Hcfg; [exact Hr|];
        intros y t d2 H2 Hc2 Hy; apply HQ'; [exact H2|etransitivity; [exact Hc|exact Hc2]|exact Hy]).
  eapply twp_find_lease_by_chaddr; [exact Hf|apply others_off_lan| | |].
  - intros _. exact (Hnew d Hf ltac:(reflexivity) Q HQ).
  - intros j l0 Hj Hm _. apply (twp_offer_own (m_chaddr p) (server_config d) j l0 d0); [apply from_calls; [done|lia]|done|done|].
    intros y t d' Hf' Hc Hy. apply HQ; [done|etransitivity; [|exact Hc]; apply quiet_calls; lia|done].
  - intros d' l0 _ _ _ Hf' Hq. pose proof (Hnew d' Hf' Hq Q HQ) as H.
    rewrite (qu_config _ _ Hq) in H. exact H.
Qed.

(** ** The offer *)

(** What is handed to the operating system between two states: commands, and
    then the packets [outs]. *)
Definition hands_out (outs : list dhcp_output) (d d' : dhcpd) : Prop :=
  exists cmds, d_out d' = d_out d ++ (System <$> cmds) ++ outs.

Lemma hands_out_quiet d1 d2 d3 outs : quiet d1 d2 -> d_out d3 = d_out d2 ++ outs -> hands_out outs d1 d3.
Proof. intros [_ _ _ [cmds H]] H2. exists cmds. by rewrite H2, H, <- app_assoc. Qed.

(** The server as it is configured, with a table that satisfies its invariant. *)
Record server_ok (d : dhcpd) : Prop := ServerOk {
  so_table : table_ok d;
  so_unique : unique_leases (leases d);
  so_range : range_ok (server_config d);
  so_options : Forall config_opt_ok (options_list (server_config d))
}.

(** An entry of the client with the address. *)
Definition holds (ch : list Z) (y : Z) (d : dhcpd) : Prop :=
  exists l, l ∈ leases d /\ chaddr l = ch /\ yiaddr l = y.

Lemma added_holds d ch y lease0 k d' : length ch = 16%nat -> fst (added d ch y lease0) = Some k ->
  leases d' = snd (added d ch y lease0) -> holds ch y d'.
Proof.
  unfold added. intros Hl Hk Hls. cbn [fst snd] in *. rewrite Hk in Hls. destruct (oldest_of_lookup _ _ _ Hk) as [l Hlk].
  unfold enter in Hls. rewrite Hlk in Hls. eexists. split; [rewrite Hls; apply list_elem_of_lookup_2 with k|].
  - apply list_lookup_insert_eq. by eapply lookup_lt_Some.
  - split; [simpl; by rewrite take_ge by lia|done].
Qed.

Lemma grantable_clears ch d0 d y l : length ch = 16%nat -> grantable ch d0 d y -> l ∈ leases d -> others ch l ->
  unexpired_over (d_calls d0) (d_calls d) l -> clears ch y l = false.
Proof.
  intros Hlen Hg Hl Ho Hu. unfold clears. apply orb_false_iff. split.
  - apply andb_false_iff. right. apply bool_decide_eq_false. intros He. destruct Ho as [Hm _]. apply Hm. unfold same_mac.
    by rewrite He, take_take.
  - apply andb_false_iff. right. apply Z.eqb_neq. by apply Hg.
Qed.

(** The end of a handler: a state that still satisfies the invariants, where
    every lease of the others that had not expired is still there. *)
Record serves (ch : list Z) (d0 d : dhcpd) : Prop := Serves {
  sv_ok : server_ok d;
  sv_calm : calm d0 d;
  sv_keeps : keeps (others ch) d0 d
}.
Lemma from_serves ch d0 d : server_ok d0 -> from (others ch) d0 d -> serves ch d0 d.
Proof.
  intros [_ _ H3 H4] [F1 F2 F3 F4]. pose proof (ca_config _ _ F3) as Hc.
  split; [|done|done]. split; [done|done|by rewrite Hc|by rewrite Hc].
Qed.

(** The outcome of an offer: nothing sent and -1 returned, or one OFFER whose
    address the client now holds, from the range or from an entry it had. *)
Definition offer_result (p : dhcpMessage) (d : dhcpd) (r : Z) (d' : dhcpd) (outs : list dhcp_output) : Prop :=
  (outs = [] /\ r = -1)
  \/ exists q y t, outs = [answer_output (server_config d) q false]
     /\ answer_to (server_config d) p DHCPOFFER y (answer_options (server_config d) DHCPOFFER (Some t)) q
     /\ holds (m_chaddr p) y d'
     /\ (start (server_config d) <= y <= end_ (server_config d)
         \/ exists le, le ∈ leases d /\ same_mac (m_chaddr p) le /\ yiaddr le = y).

(** The log file cannot be opened, and the code writes to it all the same. *)
Definition no_log (f : fault) : Prop := f = Null_deref /\ exists n, env_log_ok n = false.

Lemma wpf_offer p l d : server_ok d -> good_request p l ->
  wpf no_log (sendOffer p) (fun r d' => exists outs, serves (m_chaddr p) d d' /\ hands_out outs d d' /\ offer_result p d r d' outs) d.
Proof.
  intros Hok Hg. pose proof Hok as [Ht Hu Hr Hc]. pose proof (mo_chaddr _ (gr_message _ _ Hg)) as Hch.
  destruct (init_packet_run p DHCPOFFER d ltac:(by unfold DHCPOFFER)) as (p0 & Hp0 & Ha0).
  pose proof (an_chaddr _ _ _ _ _ _ Ha0) as Hch0.
  unfold sendOffer. apply wpf_bind, wpf_gets, wpf_bind. eapply wpf_run; [exact Hp0|]. apply wpf_bind, wpf_of_twp.
  eapply (twp_offer_address p l d); [by apply from_refl|exact Hg|exact Hr|]. intros y t d1 Hf1 Hq1 Hy.
  assert (Hnone : forall d2, from (others (m_chaddr p)) d d2 -> quiet d d2 -> exists outs, serves (m_chaddr p) d d2 /\ hands_out outs d d2
    /\ offer_result p d (-1) d2 outs).
  { intros d2 Hf2 Hq2. exists []. split; [by apply from_serves|]. split; [|by left]. eapply hands_out_quiet; [exact Hq2|by rewrite app_nil_r]. }
  apply wpf_if; intros Hz; bool_to_prop; [by apply wpf_ret, Hnone|].
  destruct Hy as [?|(Hyr & Hgr & Hfrom)]; [done|]. apply wpf_bind, wpf_of_twp.
  eapply (twp_add_lease _ d); [exact Hf1|by rewrite Hch0|done| |done|].
  { intros l' Hl' Ho Hun _. rewrite Hch0. by apply (grantable_clears _ d d1). }
  intros d2 _ Hf2 Hls2 Hq2. assert (Hq12 : quiet d d2) by by etransitivity.
  destruct (fst (added d1 (m_chaddr p0) y (offer_time (server_config d)))) as [k|] eqn:Hk; [|by apply wpf_ret, Hnone].
  assert (Hholds : holds (m_chaddr p) y d2) by (rewrite Hch0 in Hk, Hls2; by eapply added_holds).
  apply wpf_bind, wpf_of_twp, (twp_asked_lease_time p l); [done|]. intros v. set (d3 := set_vizio_device v d2).
  assert (Hcfg : server_config d3 = server_config d) by apply Hq12.
  destruct (finish_time_run p DHCPOFFER y p0 (offer_time_of (server_config d) (option_word DHCP_LEASE_TIME l) t) d3) as (q & Hq & Hrun);
    [by rewrite Hcfg|by rewrite Hcfg|].
  unfold wpf. rewrite Hrun. unfold mbind, M_bind. rewrite (dsys_run env_log_ok _ d3 eq_refl).
  destruct (env_log_ok (d_calls d3)) eqn:Hlog; [|by split; [|eexists]]. set (d3' := set_d_calls _ d3).
  assert (Hq3 : quiet d d3') by (etransitivity; [exact Hq12|]; transitivity d3; [by apply quiet_vizio|apply quiet_calls; simpl; lia]).
  assert (Hf3 : from (others (m_chaddr p)) d d3') by (apply from_calls; [by apply from_vizio, Hf2|simpl; lia]).
  destruct (send_packet_run q false d3') as (r & d4 & Hs & [S1 S2 S3 S4]). rewrite Hs.
  assert (Hf4 : from (others (m_chaddr p)) d d4) by (eapply from_same; [exact Hf3|exact S3|exact S1]).
  change (server_config d3') with (server_config d3) in S4. rewrite Hcfg in *.
  destruct S4 as [[-> Hout]|Hout].
  - exists []. split; [by apply from_serves|]. split; [|by left]. eapply hands_out_quiet; [exact Hq3|]. by rewrite Hout, app_nil_r.
  - eexists. split; [by apply from_serves|]. split; [eapply hands_out_quiet; [exact Hq3|exact Hout]|].
    right. exists q, y, (offer_time_of (server_config d) (option_word DHCP_LEASE_TIME l) t). split; [done|]. split; [done|].
    split; [|done]. destruct Hholds as (le & H1 & H2). exists le. by rewrite S1.
Qed.

(** A DISCOVER is answered with an address that is the client's to have. On
    a well-formed message, when the log file can be opened, the handler ends
    without a fault; the table keeps its
    invariants, and every lease of another client that did not expire while the
    handler ran, the router's own address apart, is still in it, unchanged. Besides
    commands it sends nothing, and then returns -1, or it sends exactly one packet:
    an OFFER with the client's transaction and hardware address, whose options are
    the type, the server and a lease time followed by the configured ones, and whose
    address is entered in the table for this client and is in the configured range
    or is the one it already had. *)
Theorem offer_spec p l d :
  server_ok d -> good_request p l -> (forall n, env_log_ok n = true) ->
  exists r d' outs, sendOffer p d = Ok r d' /\ serves (m_chaddr p) d d' /\ hands_out outs d d'
  /\ offer_result p d r d' outs.
Proof.
  intros Hok Hg Hlog. pose proof (wpf_offer p l d Hok Hg) as H. unfold wpf in H.
  destruct (sendOffer p d) as [r d'|f]; [|destruct H as (_ & n & Hn); by rewrite Hlog in Hn].
  destruct H as (outs & H). by exists r, d', outs.
Qed.

(** ** Acknowledgements *)

Lemma ack_time_bounds c asked : min_lease c <= lease c -> min_lease c <= ack_time_of c asked <= lease c.
Proof.
  intros H. unfold ack_time_of. destruct asked as [t|]; [|lia]. destruct (Z.ltb_spec (lease c) t); [lia|].
  destruct (Z.ltb_spec t (min_lease c)); lia.
Qed.

(** The answer, before the table is changed. *)
Lemma ack_packet_run p l y d : server_ok d -> good_request p l ->
  exists q v, answer_to (server_config d) p DHCPACK y (answer_options (server_config d) DHCPACK (Some (ack_time_of (server_config d) (option_word DHCP_LEASE_TIME l)))) q
  /\ sendACK p y d = (sent ← send_packet q false;
       if sent <? 0 then mret (-1)
       else add_lease (m_chaddr q) y (ack_time_of (server_config d) (option_word DHCP_LEASE_TIME l));; mret 0) (set_vizio_device v d).
Proof.
  intros [_ _ _ Hc] Hg. destruct (init_packet_run p DHCPACK d ltac:(by unfold DHCPACK)) as (p0 & Hp0 & Ha0).
  assert (Hasked : exists v, asked_lease_time p d = Ok (option_word DHCP_LEASE_TIME l) (set_vizio_device v d)).
  { pose proof (twp_asked_lease_time p l (fun r d' => r = option_word DHCP_LEASE_TIME l /\ exists v, d' = set_vizio_device v d) d Hg) as H.
    destruct (twp_elim _ _ _ (H ltac:(intros v; split; [done|by exists v]))) as (r & d' & Hr & -> & v & ->). by exists v. }
  destruct Hasked as [v Hasked].
  destruct (finish_time_run p DHCPACK y p0 (ack_time_of (server_config d) (option_word DHCP_LEASE_TIME l)) (set_vizio_device v d) Ha0 Hc) as (q & Hq & Hrun).
  exists q, v. split; [exact Hq|]. unfold sendACK. eapply run_bind; [apply gets_run|]. eapply run_bind; [exact Hp0|].
  eapply run_bind; [exact Hasked|]. rewrite Hrun. by rewrite (an_yiaddr _ _ _ _ _ _ Hq).
Qed.

(** What an acknowledgement hands out: nothing, or the ACK, and then commands. *)
Definition acks (c : server_config_t) (p : dhcpMessage) (l : list (Z * list Z)) (y : Z) (d d' : dhcpd) : Prop :=
  exists q, answer_to c p DHCPACK y (answer_options c DHCPACK (Some (ack_time_of c (option_word DHCP_LEASE_TIME l)))) q
  /\ (d_out d' = d_out d \/ exists cmds, d_out d' = d_out d ++ answer_output c q false :: (System <$> cmds)).

Lemma twp_sendACK_out safe d0 p l y (Q : Z -> dhcpd -> Prop) d :
  from safe d0 d -> server_ok d -> good_request p l -> 0 <= y < 4294967296 ->
  (forall l', safe l' -> others (m_chaddr p) l') ->
  (forall l', l' ∈ leases d -> safe l' -> unexpired_over (d_calls d0) (d_calls d) l' -> yiaddr l' <> y) ->
  (forall r d', from safe d0 d' -> (leases d' = leases d \/ exists d1 t, leases d1 = leases d /\ leases d' = snd (added d1 (m_chaddr p) y t)) ->
     acks (server_config d) p l y d d' -> Q r d') ->
  twp (sendACK p y) Q d.
Proof.
  intros Hf Hok Hg Hy Hs Hgr HQ. destruct (ack_packet_run p l y d Hok Hg) as (q & v & Hq & Hrun).
  unfold twp. rewrite Hrun. pose proof (from_vizio safe d0 d v Hf) as Hf1.
  destruct (send_packet_run q false (set_vizio_device v d)) as (r & d2 & Hr & [S1 S2 S3 S4]). cbn in S4.
  assert (Hf2 : from safe d0 d2) by (eapply from_same; [exact Hf1|exact S3|exact S1]).
  assert (Hacks : acks (server_config d) p l y d d2).
  { exists q. split; [done|]. destruct S4 as [[_ H]|H]; [by left|right; by exists []]. }
  match goal with |- match ?m ?s with _ => _ end => change (twp m Q s) end. apply twp_bind. eapply twp_run; [exact Hr|].
  apply twp_if; intros Hneg; [apply twp_ret, HQ; [done|by left|done]|]. apply twp_bind. rewrite (an_chaddr _ _ _ _ _ _ Hq).
  pose proof (mo_chaddr _ (gr_message _ _ Hg)) as Hch.
  eapply (twp_add_lease safe d0); [exact Hf2|done|done| | |].
  - intros l' Hl' Hsl Hu _. rewrite S1 in Hl'. unfold clears. apply orb_false_iff. split.
    + apply andb_false_iff. right. apply bool_decide_eq_false. intros He. destruct (Hs l' Hsl) as [Hm _].
      apply Hm. unfold same_mac. by rewrite He, take_take.
    + apply andb_false_iff. right. apply Z.eqb_neq, Hgr; [done|done|]. intros n Hn. apply Hu. pose proof (ca_calls _ _ S3). simpl in *. lia.
  - intros _. apply twp_ret, HQ; [done|by left|done].
  - intros d3 _ Hf3 Hls Hq3. apply twp_ret, HQ; [done| |].
    + right. by exists d2, (ack_time_of (server_config d) (option_word DHCP_LEASE_TIME l)).
    + exists q. split; [done|]. right. destruct S4 as [[-> _]|H]; [done|]. destruct (qu_out _ _ Hq3) as [cmds H3].
      exists cmds. by rewrite H3, H, <- app_assoc.
Qed.

Lemma twp_sendACK safe d0 p l y (Q : Z -> dhcpd -> Prop) d :
  from safe d0 d -> server_ok d -> good_request p l -> 0 <= y < 4294967296 ->
  (forall l', safe l' -> others (m_chaddr p) l') ->
  (forall l', l' ∈ leases d -> safe l' -> unexpired_over (d_calls d0) (d_calls d) l' -> yiaddr l' <> y) ->
  (forall r d', from safe d0 d' -> (leases d' = leases d \/ exists d1 t, leases d1 = leases d /\ leases d' = snd (added d1 (m_chaddr p) y t)) -> Q r d') ->
  twp (sendACK p y) Q d.
Proof. intros Hf Hok Hg Hy Hs Hgr HQ. eapply twp_sendACK_out; try done. intros r d' H1 H2 _. by apply HQ. Qed.

(** An ACK says what the table says. On a well-formed message from a client
    whose address is in the table the handler ends without a fault and keeps the
    invariants. It sends an ACK of that address with the client's transaction and
    hardware address, whose options are the type, the server, a lease time between
    the shortest and the longest configured one, and the configured options. When
    the packet could be sent it returns 0 and the client then holds the address
    until that lease time after a clock reading; otherwise it returns -1 and the
    table is as it was. *)
Theorem ack_spec p l le d :
  server_ok d -> good_request p l -> le ∈ leases d -> yiaddr le <> 0 -> (forall n, 0 < env_uptime n) ->
  let c := server_config d in
  let t := ack_time_of c (option_word DHCP_LEASE_TIME l) in
  exists r d' q, sendACK p (yiaddr le) d = Ok r d' /\ server_ok d' /\ calm d d'
  /\ answer_to c p DHCPACK (yiaddr le) (answer_options c DHCPACK (Some t)) q
  /\ (min_lease c <= lease c -> min_lease c <= t <= lease c)
  /\ ((r = -1 /\ leases d' = leases d /\ (d_out d' = d_out d \/ d_out d' = d_out d ++ [answer_output c q false]))
      \/ (r = 0 /\ (exists cmds, d_out d' = d_out d ++ [answer_output c q false] ++ (System <$> cmds))
          /\ exists e n, e ∈ leases d' /\ chaddr e = m_chaddr p /\ yiaddr e = yiaddr le /\ expires e = u32 (env_uptime n + t))).
Proof.
  intros Hok Hg Hle Hy Hup c t. destruct (ack_packet_run p l (yiaddr le) d Hok Hg) as (q & v & Hq & Hrun).
  pose proof Hok as [Ht Hu Hr Hc]. pose proof (mo_chaddr _ (gr_message _ _ Hg)) as Hch.
  pose proof (le_yiaddr _ (Forall_elem _ _ _ (tb_leases _ Ht) Hle)) as Hyr.
  destruct (send_packet_run q false (set_vizio_device v d)) as (r & d2 & Hs & [S1 S2 S3 S4]). simpl in S1, S4.
  pose proof (ca_config _ _ S3) as Hcfg. simpl in Hcfg.
  assert (Hd2 : server_ok d2).
  { destruct Ht. split; [by split; rewrite S1; [rewrite Hcfg|]|by rewrite S1|by rewrite Hcfg|by rewrite Hcfg]. }
  rewrite Hrun. unfold mbind at 1, M_bind at 1. rewrite Hs. destruct (Z.ltb_spec r 0) as [Hneg|Hpos].
  { exists (-1), d2, q. split; [done|]. split; [done|]. split; [by destruct S3|]. split; [done|]. split; [apply ack_time_bounds|].
    left. split; [done|]. split; [done|]. destruct S4 as [[_ ?]|?]; [by left|by right]. }
  destruct S4 as [[-> _]|Hout]; [lia|]. rewrite (an_chaddr _ _ _ _ _ _ Hq).
  destruct (add_lease_run (m_chaddr p) (yiaddr le) t d2 (so_table _ Hd2)) as (d3 & Ha & Hls & Hqt & _); [lia|].
  exists 0, d3, q. split; [by eapply run_bind; [exact Ha|]|]. pose proof (qu_config _ _ Hqt) as Hcfg3.
  split.
  { split; [eapply added_table_ok; [apply Hd2|exact Hch|exact Hyr|exact Hls|exact Hcfg3]|rewrite Hls; apply added_unique; [done|apply Hd2]|..];
      by rewrite Hcfg3, Hcfg. }
  split; [etransitivity; [destruct S3 as [C1 C2 C3]; by apply (Calm d d2)|by apply quiet_calm]|].
  split; [done|]. split; [apply ack_time_bounds|]. right. split; [done|]. split.
  { destruct Hqt as [_ _ _ [cmds Hc3]]. exists cmds. by rewrite Hc3, Hout, <- app_assoc. }
  unfold added in Hls. cbn [snd] in Hls.
  pose proof (oldest_of_spec 0 (env_uptime (d_calls d2)) None (cleared (m_chaddr p) (yiaddr le) (leases d2))) as Hold.
  assert (Hzero : zero_lease ∈ cleared (m_chaddr p) (yiaddr le) (leases d2)).
  { unfold cleared. apply list_elem_of_fmap. exists le. rewrite S1. split; [|done].
    assert (clears (m_chaddr p) (yiaddr le) le = true) as ->; [|done]. unfold clears.
    rewrite (proj2 (Z.eqb_neq _ _) Hy), Z.eqb_refl. apply orb_true_r. }
  destruct (oldest_of _ _ _ _) as [k|].
  - destruct Hold as [[? _]|(l0 & _ & Hl0 & _)]; [done|]. rewrite Nat.sub_0_r in Hl0. unfold enter in Hls. rewrite Hl0 in Hls.
    eexists _, (S (d_calls d2)). split; [rewrite Hls; apply list_elem_of_lookup_2 with k, list_lookup_insert_eq; by eapply lookup_lt_Some|].
    split; [simpl; by rewrite take_ge by lia|done].
  - destruct Hold as [_ Hall]. pose proof (Forall_elem _ _ _ Hall Hzero) as Hz. simpl in Hz. specialize (Hup (d_calls d2)). lia.
Qed.

(** ** One message *)

Lemma from_server safe d0 d : server_ok d0 -> from safe d0 d -> server_ok d.
Proof.
  intros [_ _ H3 H4] [F1 F2 F3 _]. pose proof (ca_config _ _ F3) as Hc. split; [done|done|by rewrite Hc|by rewrite Hc].
Qed.

(** A change of an entry that is not safe, its address kept and its hardware
    address kept or blanked. *)
Lemma from_set_entry safe d0 d k l l' : from safe d0 d -> leases d !! k = Some l -> ~ safe l -> lease_ok l' ->
  yiaddr l' = yiaddr l -> chaddr l' = chaddr l \/ nonblank (chaddr l') = false ->
  from safe d0 (set_leases (<[k := l']> (leases d)) d).
Proof.
  intros [[H1 H2] H3 H4 H5] Hk Hns Hl' Hy Hch. split.
  - split; simpl; [by rewrite length_insert|by apply Forall_insert].
  - simpl. apply insert_unique; [done|]. intros j x Hj Hne. destruct (H3 k j l x Hk Hj ltac:(done)) as [U1 U2].
    rewrite Hy. split; [intros Hn He; by apply U1|]. intros Hn He. destruct Hch as [Hch|Hch]; [|by rewrite Hch in Hn].
    rewrite Hch in *. by apply U2.
  - destruct H4 as [C1 C2 C3]. by split.
  - intros x Hx Hs Hu. assert (Hin : x ∈ leases d) by (apply H5; [done|done|exact Hu]).
    apply list_elem_of_lookup in Hin as [i Hi]. simpl. apply list_elem_of_lookup_2 with i.
    rewrite list_lookup_insert_ne; [done|]. intros ->. rewrite Hk in Hi. injection Hi as ->. done.
Qed.

Lemma twp_store_hostname safe d0 p l k le r (Q : unit -> dhcpd -> Prop) d :
  from safe d0 d -> good_request p l -> found_in p DHCP_HOST_NAME l r -> leases d !! k = Some le -> ~ safe le ->
  (forall d', from safe d0 d' -> Q tt d') -> twp (store_hostname p k r) Q d.
Proof.
  intros Hf Hg Hfound Hk Hns HQ. pose proof (Forall_lookup_1 _ _ _ _ (tb_leases _ (fr_ok _ _ _ Hf)) Hk) as [L1 L2 L3 L4].
  unfold store_hostname. apply twp_bind. eapply twp_run; [exact (lease_get_run _ _ _ Hk)|]. destruct r as [[f off]|].
  - unfold found_in in Hfound. destruct (list_find _ l) as [[j [c dd]]|]; [|done].
    destruct Hfound as (off' & [= -> ->] & Hload & Hlen & H2 & Hend).
    pose proof (mo_options _ (gr_message _ _ Hg)) as Hs.
    apply twp_bind. eapply twp_run; [apply opt_byte_run; [lia|exact Hlen]|].
    assert (Hn : 0 <= (if 64 <=? Z.of_nat (length dd) then 63 else Z.of_nat (length dd)) <= Z.of_nat (length dd)
                 /\ (if 64 <=? Z.of_nat (length dd) then 63 else Z.of_nat (length dd)) <= 63).
    { destruct (Z.leb_spec 64 (Z.of_nat (length dd))); lia. }
    cbn zeta. set (n := if 64 <=? Z.of_nat (length dd) then 63 else Z.of_nat (length dd)) in *. apply twp_bind. eapply twp_run; [apply in_bounds_run, load_ok; simpl; lia|].
    eapply twp_run; [by apply (lease_set_run _ le)|]. apply HQ. eapply from_set_entry; [exact Hf|exact Hk|done| |done|by left].
    split; cbn [chaddr yiaddr expires hostname]; try done. rewrite !length_app, strncpy_length, length_drop. cbn [length]. lia.
  - eapply twp_run; [by apply (lease_set_run _ le)|]. apply HQ. eapply from_set_entry; [exact Hf|exact Hk|done| |done|by left].
    split; cbn [chaddr yiaddr expires hostname]; try done. cbn [length]. rewrite length_drop. lia.
Qed.

Lemma twp_sendNAK safe d0 p (Q : Z -> dhcpd -> Prop) d : from safe d0 d -> server_ok d ->
  (forall r d', from safe d0 d' -> leases d' = leases d -> Q r d') -> twp (sendNAK p) Q d.
Proof.
  intros Hf Hok HQ. unfold sendNAK. destruct (init_packet_run p DHCPNAK d ltac:(by unfold DHCPNAK)) as (p0 & Hp0 & _).
  apply twp_bind. eapply twp_run; [exact Hp0|]. destruct (send_packet_run p0 true d) as (r & d' & Hr & [S1 S2 S3 S4]).
  eapply twp_run; [exact Hr|]. apply HQ; [by eapply from_same|done].
Qed.

Lemma twp_send_inform safe d0 p (Q : Z -> dhcpd -> Prop) d : from safe d0 d -> server_ok d ->
  (forall r d', from safe d0 d' -> Q r d') -> twp (send_inform p) Q d.
Proof.
  intros Hf Hok HQ. unfold send_inform. destruct (init_packet_run p DHCPACK d ltac:(by unfold DHCPACK)) as (p0 & Hp0 & Ha).
  apply twp_bind. eapply twp_run; [exact Hp0|]. destruct (finish_run _ _ _ _ _ d Ha (so_options _ Hok)) as (q & _ & Hrun).
  unfold twp. rewrite Hrun. destruct (send_packet_run q false d) as (r & d' & Hr & [S1 S2 S3 S4]). rewrite Hr.
  apply HQ. by eapply from_same.
Qed.

(** The entry of a client stays its own, or becomes empty, when an address is
    entered for it. *)
Definition own_entry (ch : list Z) (k : nat) (d : dhcpd) : Prop :=
  exists l, leases d !! k = Some l /\ (same_mac ch l \/ yiaddr l = 0).

Lemma own_entry_added ch k d d1 y t d' : length ch = 16%nat -> own_entry ch k d -> leases d1 = leases d ->
  leases d' = snd (added d1 ch y t) -> own_entry ch k d'.
Proof.
  intros Hch (l & Hk & Hl) Hd1 Hls. unfold own_entry. rewrite Hls. unfold added. cbn [snd]. rewrite Hd1.
  assert (Hc : exists l', cleared ch y (leases d) !! k = Some l' /\ (same_mac ch l' \/ yiaddr l' = 0)).
  { unfold cleared. rewrite list_lookup_fmap, Hk. simpl. destruct (clears ch y l); [|by exists l]. exists zero_lease. split; [done|by right]. }
  destruct Hc as (l' & Hl' & Hown). unfold enter. destruct (oldest_of _ _ _ _) as [i|]; [|by exists l'].
  destruct (cleared ch y (leases d) !! i) as [l0|] eqn:Hi; [|by exists l'].
  destruct (decide (i = k)) as [->|Hne].
  - eexists. split; [apply list_lookup_insert_eq; by eapply lookup_lt_Some|]. left. unfold same_mac. simpl. by rewrite take_take.
  - exists l'. by rewrite list_lookup_insert_ne.
Qed.

Lemma own_not_safe safe ch k d : (forall l, safe l -> others ch l) -> own_entry ch k d ->
  exists l, leases d !! k = Some l /\ ~ safe l.
Proof.
  intros Hs (l & Hk & Hl). exists l. split; [done|]. intros Hsl. destruct (Hs l Hsl) as (Hm & Hy & _). by destruct Hl.
Qed.

Lemma twp_request_known safe d0 p l k sid req (Q : unit -> dhcpd -> Prop) d :
  from safe d0 d -> server_ok d -> good_request p l -> (forall l', safe l' -> others (m_chaddr p) l') ->
  (exists le, leases d !! k = Some le /\ same_mac (m_chaddr p) le) ->
  (forall d', from safe d0 d' -> own_entry (m_chaddr p) k d' -> Q tt d') ->
  twp (request_known p k sid req) Q d.
Proof.
  intros Hf Hok Hg Hs (le & Hk & Hm) HQ. pose proof (mo_chaddr _ (gr_message _ _ Hg)) as Hch.
  assert (Hown : own_entry (m_chaddr p) k d) by (exists le; split; [done|by left]).
  pose proof (le_yiaddr _ (Forall_lookup_1 _ _ _ _ (tb_leases _ (fr_ok _ _ _ Hf)) Hk)) as Hyr.
  assert (Hack : twp (sendACK p (yiaddr le);; mret tt) Q d).
  { apply twp_bind. eapply (twp_sendACK safe d0 p l); [exact Hf|done|done|done|done| |].
    - intros l' Hl' Hsl _ He. destruct (Hs l' Hsl) as (Hnm & Hy & _). apply Hnm.
      by rewrite (unique_address _ _ _ _ (fr_unique _ _ _ Hf) Hk Hl' ltac:(congruence) He).
    - intros _ d' Hf' [Hl|(d1 & t & Hd1 & Hl)]; apply twp_ret, HQ; try done.
      + exists le. rewrite Hl. split; [done|by left].
      + by eapply own_entry_added. }
  assert (Hnak : twp (sendNAK p;; mret tt) Q d).
  { apply twp_bind. eapply twp_sendNAK; [exact Hf|done|]. intros _ d' Hf' Hl. apply twp_ret, HQ; [done|].
    exists le. rewrite Hl. split; [done|by left]. }
  unfold request_known. apply twp_bind, twp_gets, twp_bind. eapply twp_run; [exact (lease_get_run _ _ _ Hk)|].
  destruct sid as [sid|].
  - apply twp_if; intros _; [done|]. apply twp_if; intros _; [by apply twp_ret, HQ|done].
  - destruct req as [req|]; by apply twp_if; intros _.
Qed.

(** A client without a lease: the invariants. *)
Lemma twp_adopt_client d0 p l addr ack r (Q : unit -> dhcpd -> Prop) d :
  from (fun _ => False) d0 d -> server_ok d -> good_request p l -> found_in p DHCP_HOST_NAME l r ->
  0 <= addr < 4294967296 -> (forall le, lease_ok le -> 0 <= ack le < 4294967296) ->
  (forall d', from (fun _ => False) d0 d' -> Q tt d') -> twp (adopt_client p addr ack r) Q d.
Proof.
  intros Hf Hok Hg Hfound Ha Hack HQ. pose proof (mo_chaddr _ (gr_message _ _ Hg)) as Hch.
  assert (Hnak : forall d', from (fun _ => False) d0 d' -> server_ok d' -> twp (sendNAK p;; mret tt) Q d').
  { intros d' Hf' Hok'. apply twp_bind. eapply twp_sendNAK; [exact Hf'|done|]. intros _ d2 Hf2 _. by apply twp_ret, HQ. }
  assert (Hserver : forall d', from (fun _ => False) d0 d' -> calm d d' -> server_ok d').
  { intros d' [F1 F2 _ _] Hc. pose proof (ca_config _ _ Hc) as Hcfg. destruct Hok as [_ _ H3 H4].
    split; [done|done|by rewrite Hcfg|by rewrite Hcfg]. }
  unfold adopt_client. apply twp_bind, twp_gets, twp_if; intros _; [by apply Hnak|]. apply twp_bind.
  eapply (twp_add_lease (fun _ => False) d0); [exact Hf|done|done|done|intros _; by apply Hnak|].
  intros d1 _ Hf1 _ Hq1. pose proof (Hserver d1 Hf1 (quiet_calm _ _ Hq1)) as Hok1.
  destruct (fst _); [|by apply Hnak]. apply twp_bind.
  eapply (twp_find_lease_by_chaddr (fun _ => False) d0); [exact Hf1|by intros ? ?| | |].
  - intros _. by apply Hnak.
  - intros j le Hj Hm _. set (d2 := set_d_calls (S (d_calls d1)) d1).
    assert (Hf2 : from (fun _ => False) d0 d2) by (apply from_calls; [done|lia]).
    assert (Hc2 : calm d d2) by (apply quiet_calm; etransitivity; [exact Hq1|apply quiet_calls; lia]).
    pose proof (Hserver d2 Hf2 Hc2) as Hok2. apply twp_bind. eapply twp_run; [exact (lease_get_run j le d2 Hj)|].
    apply twp_bind. eapply (twp_sendACK (fun _ => False) d0 p l); [exact Hf2|done|done| |done|done|].
    { apply Hack. apply (Forall_lookup_1 _ _ _ _ (tb_leases _ (fr_ok _ _ _ Hf1)) Hj). }
    intros _ d3 Hf3 Hl3.
    assert (Hown : own_entry (m_chaddr p) j d3).
    { assert (H2 : own_entry (m_chaddr p) j d2) by (exists le; split; [done|by left]).
      destruct Hl3 as [Hl|(d4 & t & Hd4 & Hl)]; [by unfold own_entry; rewrite Hl|by eapply own_entry_added]. }
    destruct Hown as (lk & Hk & _). eapply (twp_store_hostname (fun _ => False) d0 p l); [exact Hf3|done|done|exact Hk|by intros ?|done].
  - intros d2 le _ _ _ Hf2 Hq2. apply Hnak; [done|]. apply Hserver; [done|]. apply quiet_calm. by etransitivity.
Qed.

Lemma twp_request_unknown d0 p l r (Q : unit -> dhcpd -> Prop) d :
  from (fun _ => False) d0 d -> server_ok d -> good_request p l -> found_in p DHCP_HOST_NAME l r ->
  (forall d', from (fun _ => False) d0 d' -> Q tt d') ->
  twp (request_unknown p (option_word DHCP_SERVER_ID l) (option_word DHCP_REQUESTED_IP l) r) Q d.
Proof.
  intros Hf Hok Hg Hfound HQ. unfold request_unknown. apply twp_bind, twp_gets.
  assert (Hrange : forall w, option_word DHCP_REQUESTED_IP l = Some w -> 0 <= w < 4294967296).
  { intros w. apply option_word_range, (gr_layout _ _ Hg). }
  destruct (option_word DHCP_SERVER_ID l) as [sid|], (option_word DHCP_REQUESTED_IP l) as [req|].
  - apply twp_if; intros _; [by apply twp_ret, HQ|].
    eapply twp_adopt_client; [exact Hf|done|exact Hg|done|by apply Hrange|by intros le []|done].
  - apply twp_if; intros _; [by apply twp_ret, HQ|]. apply twp_bind. eapply twp_sendNAK; [exact Hf|done|].
    intros _ d' Hf' _. by apply twp_ret, HQ.
  - eapply twp_adopt_client; [exact Hf|done|exact Hg|done|by apply Hrange|by intros le _; apply Hrange|done].
  - apply twp_if; intros _; [|by apply twp_ret, HQ].
    eapply twp_adopt_client; [exact Hf|done|exact Hg|done|apply Hg|by intros le _; apply Hg|done].
Qed.

Lemma from_weaken (safe safe' : dhcpOfferedAddr -> Prop) d0 d :
  (forall l, safe' l -> safe l) -> from safe d0 d -> from safe' d0 d.
Proof. intros H [F1 F2 F3 F4]. split; try done. intros l Hl Hs. by apply F4, H. Qed.

Lemma from_after safe ch d0 d d' : (forall l, safe l -> others ch l) -> from safe d0 d -> serves ch d d' -> from safe d0 d'.
Proof.
  intros Hs [F1 F2 F3 F4] [[S1 S2 _ _] C K]. split; [done|done|by etransitivity|].
  eapply keeps_trans; [exact F3|exact C|exact F4|]. intros l Hl Hsl. by apply K, Hs.
Qed.

Lemma wpf_sendOffer safe d0 p l (Q : Z -> dhcpd -> Prop) d : from safe d0 d -> server_ok d -> good_request p l ->
  (forall l', safe l' -> others (m_chaddr p) l') ->
  (forall r d', from safe d0 d' -> server_ok d' -> Q r d') -> wpf no_log (sendOffer p) Q d.
Proof.
  intros Hf Hok Hg Hs HQ. eapply wpf_mono; [by eapply wpf_offer|].
  intros r d' (outs & Hsv & _). apply HQ; [by eapply from_after|apply Hsv].
Qed.

(** The type of a message: the first byte of its type option. *)
Definition message_type (l : list (Z * list Z)) : option Z := option_data DHCP_MESSAGE_TYPE l ≫= fun dd => dd !! 0%nat.
(** The client has an entry, and none at the router's own address. *)
Definition known (ch : list Z) (d : dhcpd) : Prop :=
  (exists le, le ∈ leases d /\ same_mac ch le)
  /\ forall le n, le ∈ leases d -> same_mac ch le -> env_lan_ipaddr n <> inet_ntoa (yiaddr le).

Lemma type_byte_run {T} p l ptr (d : T) : good_request p l -> found_in p DHCP_MESSAGE_TYPE l (Some ptr) ->
  exists t, message_type l = Some t /\ opt_byte p (fst ptr) (snd ptr) d = Ok t d.
Proof.
  intros Hg Hf. pose proof (gr_wide _ _ Hg) as Hw. unfold found_in, message_type, option_data in *.
  destruct (list_find _ l) as [[j [c dd]]|] eqn:Hfind; [|done]. destruct Hf as (off & [= ->] & Hload & _ & H2 & Hend).
  apply list_find_Some in Hfind as (Hj & Hc & _). simpl in Hc. subst c. simpl.
  destruct (Forall_lookup_1 _ _ _ _ Hw Hj) as [_ Hlen]. specialize (Hlen eq_refl). simpl in Hlen.
  destruct dd as [|b dd]; [simpl in Hlen; lia|]. exists b. split; [done|]. apply opt_byte_run; [simpl; lia|].
  pose proof (mo_options _ (gr_message _ _ Hg)) as Hs. rewrite load_ok in Hload by (rewrite ?Hs; simpl in *; lia).
  injection Hload as Hload. pose proof (f_equal (fun x => x !! 0%nat) Hload) as Hb. cbv beta in Hb.
  change ((b :: dd) !! 0%nat) with (Some b) in Hb. rewrite lookup_take_lt, lookup_drop, Nat.add_0_r in Hb by (simpl; lia). exact Hb.
Qed.

(** A REQUEST, once the client was looked for. *)
Lemma twp_handle_request safe d0 p l lease0 (Q : unit -> dhcpd -> Prop) d :
  from safe d0 d -> server_ok d -> good_request p l -> (forall l', safe l' -> others (m_chaddr p) l') ->
  match lease0 with
  | Some k => exists le, leases d !! k = Some le /\ same_mac (m_chaddr p) le
  | None => forall l', ~ safe l'
  end ->
  (forall d', from safe d0 d' -> Q tt d') -> twp (handle_request p lease0) Q d.
Proof.
  intros Hf Hok Hg Hs H0 HQ. unfold handle_request.
  apply twp_bind, (twp_get_option p l); [done|done|]. intros r1 v1 F1.
  apply twp_bind, (twp_get_option p l); [done|done|]. intros r2 v2 F2.
  apply twp_bind, (twp_get_option p l); [done|done|]. intros r3 v3 F3.
  match goal with |- twp _ _ ?s => set (d1 := s) end.
  assert (Hf1 : from safe d0 d1) by (by repeat apply from_vizio). assert (Hok1 : server_ok d1) by (destruct Hok as [[] ? ? ?]; by split).
  apply twp_bind, (twp_word_of p l _ r1 _ _ Hg F1); [by left|].
  apply twp_bind, (twp_word_of p l _ r2 _ _ Hg F2); [by right; right|]. destruct lease0 as [k|].
  - apply twp_bind. eapply (twp_request_known safe d0 p l); [exact Hf1|done|done|done|exact H0|].
    intros d2 Hf2 Hown. destruct (own_not_safe safe _ _ _ Hs Hown) as (le & Hk & Hns).
    by eapply (twp_store_hostname safe d0 p l).
  - eapply (twp_request_unknown d0 p l); [by eapply from_weaken; [|exact Hf1]|done|done|done|].
    intros d2 Hf2. apply HQ. eapply from_weaken; [|exact Hf2]. intros l' Hl'. by apply (H0 l').
Qed.

(** DECLINE and RELEASE change the client's own entry. *)
Lemma twp_own_update safe d0 ch k le f (Q : unit -> dhcpd -> Prop) d :
  from safe d0 d -> (forall l', safe l' -> others ch l') -> leases d !! k = Some le -> same_mac ch le ->
  (forall now, 0 <= now < 4294967296 -> lease_ok (f now) /\ yiaddr (f now) = yiaddr le
     /\ (chaddr (f now) = chaddr le \/ nonblank (chaddr (f now)) = false)) ->
  DhcpLaws E -> (forall d', from safe d0 d' -> Q tt d') ->
  twp (now ← sys_time; lease_set k (f now)) Q d.
Proof.
  intros Hf Hs Hk Hm Hfn HL HQ. apply twp_bind. eapply twp_run; [reflexivity|]. set (d1 := set_d_calls _ d).
  eapply twp_run; [by apply (lease_set_run k le _ d1)|].
  destruct (Hfn (env_uptime (d_calls d)) (env_uptime_range _)) as (F1 & F2 & F3).
  apply HQ. eapply from_set_entry; [apply from_calls; [exact Hf|lia]|exact Hk| |done|done|done].
  intros Hsl. by destruct (Hs le Hsl).
Qed.

(** What a message may stop the server with: a DISCOVER whose offer cannot be logged. *)
Definition unlogged (l : list (Z * list Z)) (f : fault) : Prop := message_type l = Some DHCPDISCOVER /\ no_log f.

Lemma wpf_handle_message safe d0 p l (Q : unit -> dhcpd -> Prop) d : DhcpLaws E ->
  from safe d0 d -> server_ok d -> good_request p l -> (forall l', safe l' -> others (m_chaddr p) l') ->
  (message_type l = Some DHCPREQUEST -> known (m_chaddr p) d \/ forall l', ~ safe l') ->
  (forall d', from safe d0 d' -> Q tt d') -> wpf (unlogged l) (handle_message p) Q d.
Proof.
  intros HL Hf Hok Hg Hs Hreq HQ. unfold handle_message. apply wpf_bind, wpf_of_twp, (twp_get_option p l); [done|done|]. intros r v Fr.
  set (d1 := set_vizio_device v d). assert (Hf1 : from safe d0 d1) by by apply from_vizio.
  destruct r as [[f off]|]; [|by apply wpf_ret, HQ]. apply wpf_bind.
  assert (Hrest : forall lease0 d2, from safe d0 d2 -> calm d d2 ->
    match lease0 with Some k => exists le, leases d2 !! k = Some le /\ same_mac (m_chaddr p) le
                    | None => message_type l = Some DHCPREQUEST -> forall l', ~ safe l' end ->
    wpf (unlogged l) (type ← opt_byte p f off;
      if type =? DHCPDISCOVER then sent ← sendOffer p; when (sent <? 0) (sendOffer p;; mret tt)
      else if type =? DHCPREQUEST then handle_request p lease0
      else if type =? DHCPDECLINE then
        match lease0 with
        | Some k => l ← lease_get k; decline ← gets (fun d => decline_time (server_config d)); now ← sys_time;
            lease_set k (OfferedAddr blank_chaddr (yiaddr l) (u32 (now + decline)) (hostname l))
        | None => mret tt
        end
      else if type =? DHCPRELEASE then
        match lease0 with Some k => l ← lease_get k; now ← sys_time; lease_set k (set_expires now l) | None => mret tt end
      else if type =? DHCPINFORM then send_inform p;; mret tt else mret tt) Q d2).
  { intros lease0 d2 Hf2 Hc2 H0. destruct (type_byte_run p l (f, off) d2 Hg Fr) as (ty & Hty & Hrun).
    assert (Hok2 : server_ok d2).
    { destruct Hok as [_ _ H3 H4], Hf2 as [G1 G2 _ _]. pose proof (ca_config _ _ Hc2) as Hcfg. split; [done|done|by rewrite Hcfg|by rewrite Hcfg]. }
    apply wpf_bind. eapply wpf_run; [exact Hrun|]. apply wpf_if; intros Hd.
    { apply Z.eqb_eq in Hd. rewrite Hd in Hty. apply wpf_weaken with no_log; [by split|].
      apply wpf_bind. eapply (wpf_sendOffer safe d0 p l); [exact Hf2|done|done|done|]. intros s d3 Hf3 Hok3. unfold when.
      apply wpf_if; intros _; [|by apply wpf_ret, HQ]. apply wpf_bind. eapply (wpf_sendOffer safe d0 p l); [exact Hf3|done|done|done|].
      intros _ d4 Hf4 _. by apply wpf_ret, HQ. }
    apply wpf_of_twp.
    apply twp_if; intros Hr.
    { apply Z.eqb_eq in Hr. rewrite Hr in Hty. eapply (twp_handle_request safe d0 p l); [exact Hf2|done|done|done| |done].
      destruct lease0; [exact H0|by apply H0]. }
    apply twp_if; intros _.
    { destruct lease0 as [k|]; [|by apply twp_ret, HQ]. destruct H0 as (le & Hk & Hm).
      destruct (Forall_lookup_1 _ _ _ _ (tb_leases _ (so_table _ Hok2)) Hk).
      apply twp_bind. eapply twp_run; [exact (lease_get_run _ _ _ Hk)|]. apply twp_bind, twp_gets.
      eapply (twp_own_update safe d0 (m_chaddr p) k le); [done|done|done|done| |done|done].
      intros now _. split; [split; simpl; try done; apply u32_range|]. split; [done|by right]. }
    apply twp_if; intros _.
    { destruct lease0 as [k|]; [|by apply twp_ret, HQ]. destruct H0 as (le & Hk & Hm).
      destruct (Forall_lookup_1 _ _ _ _ (tb_leases _ (so_table _ Hok2)) Hk).
      apply twp_bind. eapply twp_run; [exact (lease_get_run _ _ _ Hk)|].
      eapply (twp_own_update safe d0 (m_chaddr p) k le (fun now => set_expires now le)); [done|done|done|done| |done|done].
      intros now Hn. split; [by split|]. split; [done|by left]. }
    apply twp_if; intros _; [|by apply twp_ret, HQ]. apply twp_bind. eapply (twp_send_inform safe d0); [exact Hf2|done|].
    intros _ d3 Hf3. by apply twp_ret, HQ. }
  assert (Hc1 : calm d d1) by by apply quiet_calm, quiet_vizio.
  apply wpf_of_twp. eapply (twp_find_lease_by_chaddr safe d0); [exact Hf1|intros l' n Hl'; by apply (Hs l' Hl')| | |].
  - intros Hno. apply Hrest; [done|done|]. intros Hm. destruct (Hreq Hm) as [[(le & H1 & H2) _]|H]; [|done].
    by destruct (Forall_elem _ _ _ Hno H1).
  - intros j le Hj Hm _. apply (Hrest (Some j)); [apply from_calls; [done|lia]|etransitivity; [exact Hc1|apply quiet_calm, quiet_calls; lia]|].
    by exists le.
  - intros d2 le H1 H2 Hlan Hf2 Hq2. apply Hrest; [done|etransitivity; [exact Hc1|by apply quiet_calm]|].
    intros Hm. destruct (Hreq Hm) as [[_ H]|H]; [|done]. by destruct (H le (d_calls d1) H1 H2).
Qed.

(** C8. One message is handled without a fault: on every well-formed message (a
    list of options without overload, whose addresses and times have four bytes, whose
    type has one and whose vendor options have five), from any client, the handler
    ends, reads and writes only inside its arrays and buffers, and leaves a table of
    the same size in which no two entries share an address or a hardware address;
    the configuration is kept. When the message is not a REQUEST, or its sender has
    an entry, every lease of another client that did not expire while the handler ran
    is still in the table, unchanged, the router's own address apart. The one way to
    stop is a DISCOVER that is offered an address while the log file cannot be opened:
    the code writes the line through the NULL that fopen gave. *)
Theorem handle_message_spec p l d :
  DhcpLaws E -> server_ok d -> good_request p l ->
  match handle_message p d with
  | Ok _ d' => server_ok d' /\ calm d d'
      /\ (message_type l <> Some DHCPREQUEST \/ known (m_chaddr p) d -> keeps (others (m_chaddr p)) d d')
  | Err f => f = Null_deref /\ message_type l = Some DHCPDISCOVER /\ exists n, env_log_ok n = false
  end.
Proof.
  intros HL Hok Hg.
  assert (Hany : forall safe, (forall l', safe l' -> others (m_chaddr p) l') ->
    (message_type l = Some DHCPREQUEST -> known (m_chaddr p) d \/ forall l', ~ safe l') ->
    wpf (unlogged l) (handle_message p) (fun _ d' => from safe d d') d).
  { intros safe Hs Hr. eapply (wpf_handle_message safe d p l); [done|apply from_refl; apply Hok|done|done|done|done|done]. }
  destruct (wpf_elim _ _ _ _ (Hany (fun _ => False) ltac:(done) ltac:(by intros _; right; intros ? ?)))
    as [([] & d' & Hrun & Hf)|(f & Hrun & H1 & H2 & H3)]; rewrite Hrun; [|done].
  split; [by eapply from_server|]. split; [apply Hf|]. intros Hk.
  destruct (wpf_elim _ _ _ _ (Hany (others (m_chaddr p)) ltac:(done) ltac:(intros Hm; left; by destruct Hk)))
    as [([] & d2 & Hrun2 & Hf2)|(f & Hrun2 & _)]; rewrite Hrun in Hrun2; [|done].
  injection Hrun2 as <-. apply Hf2.
Qed.
End requests.
