(* ===== verification/DhcpLoop.v ===== *)
(** * DhcpLoop: the start and the main loop of the DHCP server keep its invariants

    Reading and writing the lease file under every answer of the environment,
    reading a packet, the start of the server, and the turns of the loop of
    dhcpd.c. *)

From S2P Require Import Prelude DhcpTypes DhcpOptions DhcpConfig DhcpLeases DhcpPacket DhcpServer DhcpFiles DhcpMain DhcpBehaviour.

Section loop.
Context `{E : DhcpEnv}.

Lemma server_ok_same d d' : leases d' = leases d -> server_config d' = server_config d -> server_ok d -> server_ok d'.
Proof. intros Hl Hc [[S1 S2] U R O]. split; [split|..]; by rewrite ?Hl, ?Hc. Qed.

(** ** Writing the lease file *)

Lemma write_loop_ends n i curr buf nw out d : (i + n = length (leases d))%nat ->
  exists out' k, write_loop n i curr buf nw out d = Ok out' (set_d_calls k d).
Proof.
  revert i buf nw out d. induction n as [|n IH]; intros i buf nw out d Hn; cbn [write_loop].
  - exists out, (d_calls d). by rewrite set_calls_same.
  - destruct (lookup_lt_is_Some_2 (leases d) i) as [l Hl]; [lia|].
    unfold mbind at 1, M_bind at 1. rewrite (lease_get_run _ _ _ Hl).
    destruct (yiaddr l =? 0); [by apply IH; lia|]. unfold mbind at 1, M_bind at 1. rewrite (dsys_run env_lease_no _ _ eq_refl).
    assert (Hnext : forall buf nw out, exists out' k,
      write_loop n (S i) curr buf nw out (set_d_calls (S (d_calls d)) d) = Ok out' (set_d_calls k d)).
    { intros b w o. destruct (IH (S i) b w o (set_d_calls (S (d_calls d)) d)) as (o' & k & H); [simpl; lia|]. by exists o', k. }
    destruct (bool_decide _); [by apply Hnext|]. unfold mbind at 1, M_bind at 1, gets at 1. cbv zeta.
    destruct (env_lease_no (d_calls d)) as [file|]; [|apply Hnext].
    destruct (scan_lease_no _ _ _ _ _) as [b w]. apply Hnext.
Qed.

Lemma twp_write_leases (Q : unit -> dhcpd -> Prop) d : table_ok d -> notify_fits (server_config d) ->
  (forall d', leases d' = leases d -> server_config d' = server_config d -> Q tt d') -> twp write_leases Q d.
Proof.
  intros Hok Hfit HQ. unfold write_leases. apply twp_bind. eapply twp_run; [reflexivity|].
  apply twp_bind. eapply twp_run; [by apply dsys_run|]. apply twp_if; intros _; [by apply twp_ret, HQ|].
  apply twp_bind. eapply twp_run; [apply num_leases_run; by destruct Hok|].
  match goal with |- twp _ _ ?s => destruct (write_loop_ends (length (leases d)) 0 (env_uptime (d_calls d)) [] false [] s eq_refl) as (out & k & Hr) end.
  apply twp_bind. eapply twp_run; [exact Hr|]. apply twp_bind. eapply twp_run; [reflexivity|]. apply twp_bind, twp_gets. cbn [server_config].
  unfold notify_fits in Hfit. cbn. destruct (notify_file (server_config d)) as [nf|]; [|by apply twp_ret, HQ].
  unfold sprintf_system. rewrite decide_True by done. eapply twp_run; [reflexivity|]. by apply HQ.
Qed.

Lemma twp_restart_timeout (Q : unit -> dhcpd -> Prop) d :
  (forall d', leases d' = leases d -> server_config d' = server_config d -> Q tt d') -> twp restart_timeout Q d.
Proof. intros HQ. unfold restart_timeout. eapply twp_run; [reflexivity|]. by apply HQ. Qed.

(** ** Reading a packet *)

Lemma strncmp_eq_ends {T} n p f k text (d : T) : 0 <= k -> k + Z.of_nat n <= Z.of_nat (length (field_bytes p f)) ->
  exists b, strncmp_eq n p f k text d = Ok b d.
Proof.
  revert k text. induction n as [|n IH]; intros k text Hk Hn; [by exists true|]. cbn [strncmp_eq].
  destruct (lookup_lt_is_Some_2 (field_bytes p f) (Z.to_nat k)) as [b Hb]; [lia|].
  destruct text as [|c text]; unfold mbind, M_bind; rewrite (opt_byte_run p f k b) by done; [by eexists|].
  destruct (b =? c); [apply IH; lia|by eexists].
Qed.

(** What a packet must be: not for the server, or a well-formed message. *)
Definition packet_ok (bytes : list Z) : Prop :=
  m_cookie (received bytes) <> DHCP_MAGIC \/ exists l, good_request (received bytes) l.

Lemma good_request_flags p l v : good_request p l -> good_request (set_m_flags v p) l.
Proof. intros [[] H2 H3 H4 H5]. by split. Qed.

Lemma twp_get_packet bytes (Q : dhcpMessage * Z -> dhcpd -> Prop) d : packet_ok bytes ->
  (forall p, Q (p, -2) d) ->
  (forall p n v l, good_request p l -> 0 <= n -> Q (p, n) (set_vizio_device v d)) ->
  twp (get_packet (Some bytes)) Q d.
Proof.
  intros Hp Hbad HQ. unfold get_packet. cbv zeta. apply twp_if; intros Hc; bool_to_prop.
  { by apply twp_ret. }
  destruct Hp as [?|[l Hg]]; [done|]. set (p := received bytes) in *. clearbody p. set (n := Z.of_nat _).
  assert (Hfin : forall q v, q = p \/ (exists w, q = set_m_flags w p) -> Q (q, n) (set_vizio_device v d)).
  { intros q v [->|[w ->]]; (eapply HQ; [|lia]); [exact Hg|by apply good_request_flags]. }
  assert (Hsame : forall q, q = p \/ (exists w, q = set_m_flags w p) -> Q (q, n) d).
  { intros q Hq. replace d with (set_vizio_device (vizio_device d) d) by by destruct d. by apply Hfin. }
  apply twp_bind, twp_if; intros _; [|by apply twp_ret, twp_bind, twp_ret, twp_ret, Hsame; left].
  apply (twp_get_option p l); [done|done|]. intros r v Hf. apply twp_bind.
  destruct r as [[f off]|]; [|by apply twp_ret, twp_ret, Hfin; left].
  unfold found_in in Hf. destruct (list_find _ l) as [[j [c dd]]|]; [|done].
  destruct Hf as (off' & [= -> ->] & _ & Hlen & H2 & Hend).
  apply twp_bind. eapply twp_run; [apply opt_byte_run; [unfold OPT_LEN; lia|]|].
  { simpl field_bytes. replace (off' + (OPT_LEN - 2)) with (off' - 1) by (unfold OPT_LEN; lia). exact Hlen. }
  apply twp_if; intros H7; [|by apply twp_ret, twp_ret, Hfin; left]. apply twp_bind.
  destruct (strncmp_eq_ends (Z.to_nat (Z.of_nat (length dd))) p In_options off' broken_vendor (set_vizio_device v d)) as [b Hb];
    [lia|simpl; rewrite (mo_options _ (gr_message _ _ Hg)); lia|].
  eapply twp_run; [exact Hb|]. apply twp_ret, twp_ret, Hfin. destruct b; [right; by eexists|by left].
Qed.

(** ** The start *)

Lemma entry_config_ok o : option_entry o -> config_opt_ok o.
Proof.
  intros (opt & dd & Ho & -> & (H1 & H2 & H3 & _)). pose proof (table_codes opt Ho). split; [done|].
  split; [change (fst (decode_opt (enc_opt (o_code opt, dd)))) with (o_code opt); lia|done].
Qed.

(** The lease option has the four bytes that are copied. *)
Lemma twp_load_lease_option (Q : unit -> dhcpd -> Prop) d : options_ok (options_list (server_config d)) ->
  (forall t, Q tt (set_server_config (set_lease t (server_config d)) d)) -> twp load_lease_option Q d.
Proof.
  intros [Hs Hall] HQ. unfold load_lease_option. apply twp_bind, twp_gets.
  pose proof (find_option_spec _ DHCP_LEASE_TIME ltac:(by vm_compute) Hs) as Hf.
  destruct (find_option _ _) as [o|]; [|apply twp_modify, HQ]. destruct Hf as (l1 & l2 & Hl & Hcode & _).
  assert (Ho : option_entry o) by (apply (Forall_elem _ _ _ Hall); rewrite Hl; apply elem_of_app; right; by left).
  destruct Ho as (opt & dd & Hopt & -> & (_ & _ & _ & Hlen)). rewrite enc_opt_code in Hcode. cbn [fst] in Hcode.
  assert (Hx : exists lo, lo ∈ options /\ o_code lo = DHCP_LEASE_TIME /\ o_flags lo = OPTION_U32).
  { exists (DhcpOption "lease" OPTION_U32 0x33). split; [|done]. unfold options. do 20 right. by left. }
  destruct Hx as (lo & Hlo & Hlc & Hlf). assert (opt = lo) as -> by (apply table_injective; [done|done|congruence]).
  rewrite Hlf in Hlen. destruct (Hlen ltac:(by vm_compute)) as (n & Hn & Hn1). specialize (Hn1 eq_refl). subst n.
  change (1 * option_lengths (Z.land OPTION_U32 TYPE_MASK)) with 4 in Hn.
  apply twp_bind. unfold fmap, M_fmap. apply twp_bind. eapply twp_run; [apply in_bounds_run, load_ok; [lia|]|].
  { unfold enc_opt. cbn [fst snd length]. lia. }
  apply twp_ret, twp_modify, HQ.
Qed.

Definition any (_ : dhcpOfferedAddr) : Prop := False.

Lemma twp_read_loop d0 fuel file (Q : unit -> dhcpd -> Prop) d : from any d0 d -> Forall is_byte file ->
  (forall d', from any d0 d' -> Q tt d') -> twp (read_loop fuel file) Q d.
Proof.
  revert file d. induction fuel as [|fuel IH]; intros file d Hf Hb HQ; cbn [read_loop]; [by apply twp_ret, HQ|].
  destruct (decide (sizeof_lease <= length file)%nat) as [Hlen|]; [|by apply twp_ret, HQ]. unfold sizeof_lease in Hlen.
  apply twp_bind, twp_gets, twp_bind.
  assert (Hrest : forall t d1, from any d0 d1 -> twp (oldest ← add_lease (span 16 0 file) (of_be (span 4 16 file)) t;
        match oldest with
        | None => mret tt
        | Some k => l ← lease_get k;
            lease_set k (OfferedAddr (chaddr l) (yiaddr l) (expires l) (terminated (span 64 24 file)));;
            read_loop fuel (drop sizeof_lease file)
        end) Q d1).
  { intros t d1 Hf1. assert (H16 : length (span 16 0 file) = 16%nat) by (unfold span; rewrite length_take, length_drop; lia).
    apply twp_bind. eapply twp_add_lease; [exact Hf1|exact H16| |by intros l _ Hl|intros _; by apply twp_ret, HQ|].
    - pose proof (of_be_range (span 4 16 file)) as Hr. unfold span in *. rewrite length_take, length_drop in Hr.
      replace (4 `min` (length file - 16))%nat with 4%nat in Hr by lia. apply Hr. by apply Forall_take, Forall_drop.
    - intros d2 Hy Hf2 Hl2 Hq2. destruct (fst _) as [k|] eqn:Hk; [|by apply twp_ret, HQ].
      assert (Hat : exists l, leases d2 !! k = Some l).
      { apply lookup_lt_is_Some_2. rewrite Hl2. unfold added in *. cbn [fst snd] in *. rewrite enter_length.
        destruct (oldest_of_lookup _ _ _ Hk) as [l Hl]. by eapply lookup_lt_Some. }
      destruct Hat as [l Hl]. apply twp_bind. eapply twp_run; [by apply lease_get_run|]. apply twp_bind.
      eapply twp_run; [by eapply lease_set_run|]. pose proof (Forall_lookup_1 _ _ _ _ (tb_leases _ (fr_ok _ _ _ Hf2)) Hl) as [L1 L2 L3 L4].
      apply IH; [|by apply Forall_drop|done]. eapply from_set_entry; [exact Hf2|exact Hl|by intros ?| |done|by left].
      split; cbn [chaddr yiaddr expires hostname]; [done|done|done|]. unfold terminated. rewrite length_app, strncpy_length. done. }
  apply twp_if; intros _; [|apply twp_ret, (Hrest _ _ Hf)]. apply twp_bind. eapply twp_run; [reflexivity|]. apply twp_ret.
  apply Hrest, from_calls; [done|lia].
Qed.

Lemma twp_read_leases d0 (Q : unit -> dhcpd -> Prop) d : DhcpLaws E -> from any d0 d ->
  (forall d', from any d0 d' -> Q tt d') -> twp read_leases Q d.
Proof.
  intros HL Hf HQ. unfold read_leases. apply twp_bind. eapply twp_run; [by apply dsys_run|].
  assert (Hf1 : from any d0 (set_d_calls (S (d_calls d)) d)) by (apply from_calls; [done|lia]).
  destruct (env_lease_file (d_calls d)) as [file|] eqn:Hfile; [|by apply twp_ret, HQ].
  apply twp_bind. eapply twp_run; [apply num_leases_run, Hf1|]. apply (twp_read_loop d0); [done|by eapply env_lease_bytes|done].
Qed.

(** ** What may stop the start *)

(** The configuration file asks for a table whose size in bytes wraps in 32 bits. *)
Definition asks_too_much (arg : option (list Z)) (d : dhcpd) : Prop :=
  exists r d1, read_config (set_server_config zero_config (set_config_path arg (set_server_open false d))) = Ok r d1
  /\ table_bytes (server_config d1) <> 88 * max_leases (server_config d1).

Definition text_too_long (arg : option (list Z)) : Prop :=
  (exists path, arg = Some path /\ (256 <= length path)%nat)
  \/ (exists n, (255 <= String.length (env_wan_domain n))%nat)
  \/ (exists n, (255 <= String.length (env_wan_domain_default n))%nat).

Definition start_stops (arg : option (list Z)) (f : fault) : Prop :=
  (f = Died /\ ((exists n, env_interface n = None) \/ exists n, env_daemon n = false))
  \/ (f = Null_deref /\ exists n size, env_malloc n size = false)
  \/ (f = Out_of_bounds /\ text_too_long arg).

Lemma wpf_dsys {A} F (f : nat -> A) (Q : A -> dhcpd -> Prop) d :
  Q (f (d_calls d)) (set_d_calls (S (d_calls d)) d) -> wpf F (dsys f) Q d.
Proof. intros H. eapply wpf_run; [by apply dsys_run|done]. Qed.

Lemma wpf_strcpy_fits F cap b (Q : unit -> dhcpd -> Prop) d : ((cap <= length b)%nat -> F Out_of_bounds) -> Q tt d ->
  wpf F (strcpy_fits cap b) Q d.
Proof. intros HF HQ. unfold strcpy_fits. destruct (decide _); [done|]. apply wpf_fail, HF. lia. Qed.

Lemma bytes_of_string_length s : length (bytes_of_string s) = String.length s.
Proof. unfold bytes_of_string. rewrite length_fmap. induction s; simpl; congruence. Qed.

(** The domain name is read and nothing is kept of it. *)
Lemma wpf_domain_name arg (Q : unit -> dhcpd -> Prop) d : (forall k, Q tt (set_d_calls k d)) ->
  wpf (start_stops arg) domain_name Q d.
Proof.
  intros HQ. unfold domain_name. apply wpf_bind, wpf_dsys, wpf_bind, wpf_strcpy_fits.
  { rewrite bytes_of_string_length. intros H. right. right. split; [done|]. right. left. by eexists. }
  apply wpf_if; intros _; [|by apply wpf_ret, HQ]. apply wpf_bind, wpf_dsys, wpf_if; intros _; [by apply wpf_ret, HQ|].
  apply wpf_bind, wpf_dsys, wpf_strcpy_fits; [|by apply HQ].
  rewrite bytes_of_string_length. intros H. right. right. split; [done|]. right. right. by eexists.
Qed.

(** The table has the size that the configuration asks for. *)
Lemma wpf_alloc_leases arg (Q : unit -> dhcpd -> Prop) d : table_bytes (server_config d) = 88 * max_leases (server_config d) ->
  (forall k size, Q tt (set_leases (replicate (Z.to_nat (max_leases (server_config d))) zero_lease) (set_leases_size size (set_d_calls k d)))) ->
  wpf (start_stops arg) alloc_leases Q d.
Proof.
  intros Hfit HQ. unfold alloc_leases. apply wpf_bind, wpf_gets, wpf_bind, wpf_dsys. rewrite Hfit.
  change (Z.of_nat sizeof_lease) with 88. rewrite (Z.mul_comm 88), Z.div_mul by lia. apply wpf_if; intros H.
  - apply wpf_bind, wpf_modify, wpf_modify, HQ.
  - apply orb_false_iff in H as [H _]. right. left. split; [done|]. by eexists _, _.
Qed.

(** The interface, the background, the timeout and the domain name. *)
Lemma wpf_finish_start arg d : table_ok d -> unique_leases (leases d) -> options_ok (options_list (server_config d)) ->
  wpf (start_stops arg) (ok ← read_interface;
      if negb ok then fail Died
      else daemon ← dsys env_daemon; if negb daemon then fail Died else restart_timeout;; domain_name)
    (fun _ d' => table_ok d' /\ unique_leases (leases d') /\ (range_ok (server_config d') -> server_ok d')) d.
Proof.
  intros Ht Hu Hopt. unfold read_interface.
  assert (Hfin : forall d', leases d' = leases d -> max_leases (server_config d') = max_leases (server_config d) ->
    options_list (server_config d') = options_list (server_config d) ->
    table_ok d' /\ unique_leases (leases d') /\ (range_ok (server_config d') -> server_ok d')).
  { intros d' H1 H2 H3. assert (table_ok d') by (destruct Ht; split; by rewrite H1, ?H2). rewrite H1.
    split; [done|]. split; [done|]. intros Hrg. split; [done|by rewrite H1|done|]. rewrite H3.
    eapply Forall_impl; [apply Hopt|apply entry_config_ok]. }
  apply wpf_bind, wpf_bind, wpf_dsys. destruct (env_interface (d_calls d)) as [[[i a] m]|] eqn:Hi.
  2: { apply wpf_ret, wpf_fail. left. split; [done|]. left. by eexists. }
  apply wpf_bind, wpf_gets, wpf_bind, wpf_modify, wpf_ret, wpf_bind, wpf_dsys, wpf_if; intros Hd.
  { apply wpf_fail. left. split; [done|]. right. eexists. by apply negb_true_iff in Hd. }
  apply wpf_bind. unfold restart_timeout, sys_time. apply wpf_bind, wpf_dsys, wpf_bind, wpf_gets, wpf_modify, wpf_domain_name.
  intros k. by apply Hfin.
Qed.

(** C6. The server starts in its invariant. For every configuration file and every
    lease file, and any argument, the start ends in a state whose table has the size
    that the file asks for, whose entries share no address and no hardware
    address, and whose configured options are well formed; so, when the addresses
    from start to end are above 0.0.0.0 and below 255.255.255.255, in a state of
    the invariant of the main loop. It exits only when the interface cannot be
    read or the process cannot go to the background, and stops with a fault only when
    malloc gives no table, which is not tested, or when the file name of the command
    line or the domain name in the nvram does not fit its buffer. A file whose
    max_leases asks for a table of 2^32 bytes or more is left out: the size wraps.
    The memory for the entries of the option list is there. *)
Theorem server_start_ok arg d :
  DhcpLaws E ->
  asks_too_much arg d \/
  match server_start arg d with
  | Ok _ d' => table_ok d' /\ unique_leases (leases d') /\ (range_ok (server_config d') -> server_ok d')
  | Err f => start_stops arg f
  end.
Proof.
  intros HL. set (d0 := set_server_config zero_config (set_config_path arg (set_server_open false d))).
  destruct (read_config_run d0 HL) as (r & d1 & Hr & _ & [Ho1 _]); [by split; constructor|].
  destruct (decide (table_bytes (server_config d1) = 88 * max_leases (server_config d1))) as [Hfit|?]; [right|by left; exists r, d1].
  set (Q := fun (_ : unit) d' => table_ok d' /\ unique_leases (leases d') /\ (range_ok (server_config d') -> server_ok d')).
  change (wpf (start_stops arg) (server_start arg) Q d). unfold server_start. do 3 apply wpf_bind, wpf_modify. apply wpf_bind.
  assert (Hrest : wpf (start_stops arg) (read_config;; load_lease_option;; alloc_leases;; read_leases;; ok ← read_interface;
      if negb ok then fail Died
      else daemon ← dsys env_daemon; if negb daemon then fail Died else restart_timeout;; domain_name) Q d0).
  { apply wpf_bind. eapply wpf_run; [exact Hr|]. apply wpf_bind, wpf_of_twp, twp_load_lease_option; [done|]. intros t.
    apply wpf_bind, wpf_alloc_leases; [exact Hfit|]. intros k size.
    match goal with |- wpf _ _ _ ?s => set (s2 := s) end. apply wpf_bind, wpf_of_twp.
    assert (Hf : from any s2 s2).
    { apply from_refl; [split; [apply length_replicate|apply Forall_replicate; by split]|].
      intros i j l l' Hi Hj _. apply lookup_replicate in Hi as [-> _]. apply lookup_replicate in Hj as [-> _]. done. }
    apply (twp_read_leases s2); [done|exact Hf|]. intros d3 [F1 F2 F3 _].
    assert (Hopt : options_ok (options_list (server_config d3))) by by rewrite (ca_config _ _ F3).
    by apply wpf_finish_start. }
  destruct arg as [path|]; [|by apply wpf_ret].
  apply wpf_bind, wpf_strcpy_fits; [|by apply wpf_modify].
  intros H. right. right. split; [done|]. left. by exists path.
Qed.

(** ** The turns *)

(** The signal that makes the server read its configuration again is not
    covered: the table may be too small for the new configuration. *)
Definition input_ok (i : turn_input) : Prop :=
  match i with
  | Input bytes => packet_ok bytes
  | Signal_USR2 => False
  | _ => True
  end.

(** What stops the server: the signal to terminate, a socket that cannot be
    opened, and the line for a log file that cannot be opened. *)
Definition turn_stops (i : turn_input) (f : fault) : Prop :=
  (f = Died /\ (i = Signal_TERM \/ exists n, env_listen n = false)) \/ no_log f.

(** The state between two turns. *)
Definition serving (c : server_config_t) (d : dhcpd) : Prop := server_ok d /\ server_config d = c.

Lemma serving_same c d d' : leases d' = leases d -> server_config d' = server_config d -> serving c d -> serving c d'.
Proof. intros Hl Hc [Hok <-]. split; [by apply (server_ok_same d)|done]. Qed.

Lemma twp_save c (Q : unit -> dhcpd -> Prop) d : notify_fits c -> serving c d ->
  (forall d', serving c d' -> Q tt d') -> twp (write_leases;; restart_timeout) Q d.
Proof.
  intros Hfit Hs HQ. apply twp_bind, twp_write_leases; [apply Hs|by destruct Hs as [_ ->]|]. intros d1 L1 C1.
  apply twp_restart_timeout. intros d2 L2 C2. apply HQ. by apply (serving_same c d); [rewrite L2|rewrite C2|].
Qed.

Lemma wpf_handle_packet c i p l d : DhcpLaws E -> serving c d -> good_request p l ->
  wpf (turn_stops i) (handle_message p) (fun _ d' => serving c d') d.
Proof.
  intros HL [Hok Hc] Hg. apply wpf_weaken with (unlogged l); [by right; apply H|].
  eapply (wpf_handle_message (fun _ => False) d p l); [done|apply from_refl; apply Hok|done|exact Hg|done|by intros _; right; intros ? ?|].
  intros d' Hf. split; [by eapply from_server|]. rewrite (ca_config _ _ (fr_calm _ _ _ Hf)). exact Hc.
Qed.

Lemma wpf_serve_packet c i bytes d : DhcpLaws E -> serving c d -> packet_ok bytes ->
  wpf (turn_stops i) (serve_packet (Some bytes) false) (fun _ d' => serving c d') d.
Proof.
  intros HL Hs Hi. unfold serve_packet. apply wpf_bind, wpf_of_twp, twp_get_packet; [done| |].
  - intros p. by apply wpf_ret.
  - intros p n v l Hg Hn. destruct (Z.ltb_spec n 0); [lia|]. eapply wpf_handle_packet; [done| |exact Hg].
    by apply (serving_same c d).
Qed.

Lemma wpf_serve_turn c i (due : bool) d : DhcpLaws E -> notify_fits c -> serving c d -> input_ok i ->
  wpf (turn_stops i) (serve_turn (if due then Select_timeout else i)) (fun _ d' => serving c d') d.
Proof.
  intros HL Hfit Hs Hi.
  assert (Hsave : wpf (turn_stops i) (write_leases;; restart_timeout) (fun _ d' => serving c d') d) by by apply wpf_of_twp, (twp_save c).
  destruct due; [exact Hsave|]. destruct i as [| | | | |bytes|interrupted]; try done; cbn [serve_turn].
  - apply wpf_bind, wpf_of_twp, twp_write_leases; [apply Hs|by destruct Hs as [_ ->]|].
    intros. apply wpf_fail. left. split; [done|by left].
  - by apply wpf_serve_packet.
  - unfold serve_packet, get_packet. apply wpf_bind, wpf_ret, wpf_if; intros _; [|done].
    apply wpf_when; intros _; [|done]. apply wpf_modify. by apply (serving_same c d).
Qed.

Lemma wpf_server_turn c i d : DhcpLaws E -> notify_fits c -> serving c d -> input_ok i ->
  wpf (turn_stops i) (server_turn i) (fun _ d' => serving c d') d.
Proof.
  intros HL Hfit Hs Hi. unfold server_turn, open_socket. apply wpf_bind.
  assert (Hturn : forall d1, serving c d1 ->
    wpf (turn_stops i) (due ← save_due; serve_turn (if due : bool then Select_timeout else i)) (fun _ d' => serving c d') d1).
  { clear d Hs. intros d Hs. unfold save_due, sys_time.
    apply wpf_bind, wpf_bind, wpf_gets, wpf_if; intros _; [|by apply wpf_ret, (wpf_serve_turn c i false)].
    apply wpf_bind, wpf_dsys, wpf_bind, wpf_gets, wpf_ret, wpf_serve_turn; [done..| |done]. by apply (serving_same c d). }
  apply wpf_bind, wpf_gets, wpf_if; intros _; [by apply wpf_ret, Hturn|].
  apply wpf_bind, wpf_dsys, wpf_if; intros Hl; [by apply wpf_modify, Hturn, (serving_same c d)|].
  apply wpf_fail. left. split; [done|]. right. by eexists.
Qed.

(** C7. The server runs for ever. From a state that satisfies its invariant, after any
    sequence of turns - timeouts, errors of select, reads that fail, after which the
    socket is opened again, requests to save the leases, and packets that are foreign or
    well-formed messages - it is in such a state again, with the same configuration: the
    table has its size and no two of its entries share an address or a hardware address.
    It exits only when a turn delivers the signal to terminate or the socket cannot be
    opened, and the one fault is NULL that is followed when the log file cannot be opened,
    for an offer. The signal to read the configuration again is left out, and the command
    that the configuration asks for after a save fits its buffer of 255 bytes. *)
Theorem server_loop_safe inputs d :
  DhcpLaws E -> notify_fits (server_config d) -> server_ok d -> Forall input_ok inputs ->
  match server_loop inputs d with
  | Ok _ d' => server_ok d' /\ server_config d' = server_config d
  | Err f => (f = Died /\ (Signal_TERM ∈ inputs \/ exists n, env_listen n = false))
             \/ (f = Null_deref /\ exists n, env_log_ok n = false)
  end.
Proof.
  intros HL Hfit Hok. set (c := server_config d) in *. assert (Hs : serving c d) by done. clearbody c. clear Hok.
  revert d Hs. induction inputs as [|i inputs IH]; intros d Hs Hi; [exact Hs|].
  apply Forall_cons in Hi as [Hi1 Hi]. cbn [server_loop]. unfold mbind, M_bind.
  destruct (wpf_elim _ _ _ _ (wpf_server_turn c i d HL Hfit Hs Hi1)) as [([] & d1 & Hr & Ht)|(f & Hr & Ht)]; rewrite Hr.
  - specialize (IH d1 Ht Hi). destruct (server_loop inputs d1) as [[] d2|f]; [exact IH|].
    destruct IH as [[-> [Hin|Hl]]|H]; [left; split; [done|left; by right]|left; split; [done|by right]|by right].
  - destruct Ht as [[-> [->|Hl]]|H]; [left; split; [done|left; by left]|left; split; [done|by right]|by right].
Qed.
End loop.
