(* ===== verification/ClientTypes.v ===== *)
(** * ClientTypes: the data of the DHCP client (udhcpc-0.9.8)

    The states and the configuration of dhcpc.h, the variables of dhcpc.c, and
    the class [ClientEnv] of what the client asks the operating system.  Messages
    and their options are those of DhcpTypes and DhcpOptions: packet.h, options.h
    and the table and the additions of options.c are the same in the two
    programs. *)

From S2P Require Import Prelude DhcpTypes.

(** ** dhcpc.h *)

Inductive client_state : Type :=
  | INIT_SELECTING | REQUESTING | BOUND | RENEWING | REBINDING | INIT_REBOOT | RENEW_REQUESTED | RELEASED.
#[export] Instance client_state_eq_dec : EqDecision client_state.
Proof. solve_decision. Defined.

Record client_config_t : Type := ClientConfig {
  foreground : bool;
  quit_after_lease : bool;
  abort_if_no_lease : bool;
  background_if_no_lease : bool;
  client_interface : string;
  client_pidfile : option string;
  script : option string;
  clientid : option (list Z);        (* code, length, data *)
  client_hostname : option (list Z);
  client_ifindex : Z;
  client_arp : list Z
}.
Definition set_foreground (v : bool) (c : client_config_t) : client_config_t :=
  ClientConfig v (quit_after_lease c) (abort_if_no_lease c) (background_if_no_lease c)
    (client_interface c) (client_pidfile c) (script c) (clientid c) (client_hostname c) (client_ifindex c) (client_arp c).
Definition set_quit_after_lease (v : bool) (c : client_config_t) : client_config_t :=
  ClientConfig (foreground c) v (abort_if_no_lease c) (background_if_no_lease c) (client_interface c)
    (client_pidfile c) (script c) (clientid c) (client_hostname c) (client_ifindex c) (client_arp c).
Definition set_abort_if_no_lease (v : bool) (c : client_config_t) : client_config_t :=
  ClientConfig (foreground c) (quit_after_lease c) v (background_if_no_lease c) (client_interface c)
    (client_pidfile c) (script c) (clientid c) (client_hostname c) (client_ifindex c) (client_arp c).
Definition set_background_if_no_lease (v : bool) (c : client_config_t) : client_config_t :=
  ClientConfig (foreground c) (quit_after_lease c) (abort_if_no_lease c) v (client_interface c)
    (client_pidfile c) (script c) (clientid c) (client_hostname c) (client_ifindex c) (client_arp c).
Definition set_client_interface (v : string) (c : client_config_t) : client_config_t :=
  ClientConfig (foreground c) (quit_after_lease c) (abort_if_no_lease c) (background_if_no_lease c) v
    (client_pidfile c) (script c) (clientid c) (client_hostname c) (client_ifindex c) (client_arp c).
Definition set_client_pidfile (v : option string) (c : client_config_t) : client_config_t :=
  ClientConfig (foreground c) (quit_after_lease c) (abort_if_no_lease c) (background_if_no_lease c)
    (client_interface c) v (script c) (clientid c) (client_hostname c) (client_ifindex c) (client_arp c).
Definition set_script (v : option string) (c : client_config_t) : client_config_t :=
  ClientConfig (foreground c) (quit_after_lease c) (abort_if_no_lease c) (background_if_no_lease c)
    (client_interface c) (client_pidfile c) v (clientid c) (client_hostname c) (client_ifindex c) (client_arp c).
Definition set_clientid (v : option (list Z)) (c : client_config_t) : client_config_t :=
  ClientConfig (foreground c) (quit_after_lease c) (abort_if_no_lease c) (background_if_no_lease c)
    (client_interface c) (client_pidfile c) (script c) v (client_hostname c) (client_ifindex c) (client_arp c).
Definition set_client_hostname (v : option (list Z)) (c : client_config_t) : client_config_t :=
  ClientConfig (foreground c) (quit_after_lease c) (abort_if_no_lease c) (background_if_no_lease c)
    (client_interface c) (client_pidfile c) (script c) (clientid c) v (client_ifindex c) (client_arp c).
Definition set_client_arp (i : Z) (a : list Z) (c : client_config_t) : client_config_t :=
  ClientConfig (foreground c) (quit_after_lease c) (abort_if_no_lease c) (background_if_no_lease c)
    (client_interface c) (client_pidfile c) (script c) (clientid c) (client_hostname c) i a.

(** ** dhcpc.c *)

Inductive listening : Type := LISTEN_NONE | LISTEN_KERNEL | LISTEN_RAW.
#[export] Instance listening_eq_dec : EqDecision listening.
Proof. solve_decision. Defined.

Inductive client_output : Type :=
  | Sent (o : dhcp_output)
  | Script (name : string) (packet : option dhcpMessage)   (* the child that runs the user script *)
  | Daemonised
  | Slept (seconds : Z).

Record dhcpc : Type := Dhcpc {
  c_state : client_state;   (* state *)
  requested_ip : Z;
  server_addr : Z;
  c_timeout : Z;   (* timeout *)
  packet_num : Z;
  c_fd : bool;   (* fd >= 0 *)
  bootp_cnt_offer : Z;
  listen_mode : listening;
  t1 : Z;
  t2 : Z;
  xid : Z;
  c_start : Z;   (* start *)
  c_lease : option Z;   (* lease, once it was assigned *)
  c_packet : list Z;   (* packet, 548 bytes; kept from one turn to the next *)
  client_config : client_config_t;
  c_calls : nat;   (* calls of the operating system so far *)
  c_out : list client_output   (* what was done to the outside, oldest first *)
}.

Definition set_c_state (v : client_state) (s : dhcpc) : dhcpc :=
  Dhcpc v (requested_ip s) (server_addr s) (c_timeout s) (packet_num s) (c_fd s)
    (bootp_cnt_offer s) (listen_mode s) (t1 s) (t2 s) (xid s) (c_start s)
    (c_lease s) (c_packet s) (client_config s) (c_calls s) (c_out s).
Definition set_requested_ip (v : Z) (s : dhcpc) : dhcpc :=
  Dhcpc (c_state s) v (server_addr s) (c_timeout s) (packet_num s) (c_fd s)
    (bootp_cnt_offer s) (listen_mode s) (t1 s) (t2 s) (xid s) (c_start s)
    (c_lease s) (c_packet s) (client_config s) (c_calls s) (c_out s).
Definition set_server_addr (v : Z) (s : dhcpc) : dhcpc :=
  Dhcpc (c_state s) (requested_ip s) v (c_timeout s) (packet_num s) (c_fd s)
    (bootp_cnt_offer s) (listen_mode s) (t1 s) (t2 s) (xid s) (c_start s)
    (c_lease s) (c_packet s) (client_config s) (c_calls s) (c_out s).
Definition set_c_timeout (v : Z) (s : dhcpc) : dhcpc :=
  Dhcpc (c_state s) (requested_ip s) (server_addr s) v (packet_num s) (c_fd s)
    (bootp_cnt_offer s) (listen_mode s) (t1 s) (t2 s) (xid s) (c_start s)
    (c_lease s) (c_packet s) (client_config s) (c_calls s) (c_out s).
Definition set_packet_num (v : Z) (s : dhcpc) : dhcpc :=
  Dhcpc (c_state s) (requested_ip s) (server_addr s) (c_timeout s) v (c_fd s)
    (bootp_cnt_offer s) (listen_mode s) (t1 s) (t2 s) (xid s) (c_start s)
    (c_lease s) (c_packet s) (client_config s) (c_calls s) (c_out s).
Definition set_c_fd (v : bool) (s : dhcpc) : dhcpc :=
  Dhcpc (c_state s) (requested_ip s) (server_addr s) (c_timeout s) (packet_num s) v
    (bootp_cnt_offer s) (listen_mode s) (t1 s) (t2 s) (xid s) (c_start s)
    (c_lease s) (c_packet s) (client_config s) (c_calls s) (c_out s).
Definition set_bootp_cnt_offer (v : Z) (s : dhcpc) : dhcpc :=
  Dhcpc (c_state s) (requested_ip s) (server_addr s) (c_timeout s) (packet_num s) (c_fd s)
    v (listen_mode s) (t1 s) (t2 s) (xid s) (c_start s)
    (c_lease s) (c_packet s) (client_config s) (c_calls s) (c_out s).
Definition set_listen_mode (v : listening) (s : dhcpc) : dhcpc :=
  Dhcpc (c_state s) (requested_ip s) (server_addr s) (c_timeout s) (packet_num s) (c_fd s)
    (bootp_cnt_offer s) v (t1 s) (t2 s) (xid s) (c_start s)
    (c_lease s) (c_packet s) (client_config s) (c_calls s) (c_out s).
Definition set_t1 (v : Z) (s : dhcpc) : dhcpc :=
  Dhcpc (c_state s) (requested_ip s) (server_addr s) (c_timeout s) (packet_num s) (c_fd s)
    (bootp_cnt_offer s) (listen_mode s) v (t2 s) (xid s) (c_start s)
    (c_lease s) (c_packet s) (client_config s) (c_calls s) (c_out s).
Definition set_t2 (v : Z) (s : dhcpc) : dhcpc :=
  Dhcpc (c_state s) (requested_ip s) (server_addr s) (c_timeout s) (packet_num s) (c_fd s)
    (bootp_cnt_offer s) (listen_mode s) (t1 s) v (xid s) (c_start s)
    (c_lease s) (c_packet s) (client_config s) (c_calls s) (c_out s).
Definition set_xid (v : Z) (s : dhcpc) : dhcpc :=
  Dhcpc (c_state s) (requested_ip s) (server_addr s) (c_timeout s) (packet_num s) (c_fd s)
    (bootp_cnt_offer s) (listen_mode s) (t1 s) (t2 s) v (c_start s)
    (c_lease s) (c_packet s) (client_config s) (c_calls s) (c_out s).
Definition set_c_start (v : Z) (s : dhcpc) : dhcpc :=
  Dhcpc (c_state s) (requested_ip s) (server_addr s) (c_timeout s) (packet_num s) (c_fd s)
    (bootp_cnt_offer s) (listen_mode s) (t1 s) (t2 s) (xid s) v
    (c_lease s) (c_packet s) (client_config s) (c_calls s) (c_out s).
Definition set_c_lease (v : option Z) (s : dhcpc) : dhcpc :=
  Dhcpc (c_state s) (requested_ip s) (server_addr s) (c_timeout s) (packet_num s) (c_fd s)
    (bootp_cnt_offer s) (listen_mode s) (t1 s) (t2 s) (xid s) (c_start s)
    v (c_packet s) (client_config s) (c_calls s) (c_out s).
Definition set_c_packet (v : list Z) (s : dhcpc) : dhcpc :=
  Dhcpc (c_state s) (requested_ip s) (server_addr s) (c_timeout s) (packet_num s) (c_fd s)
    (bootp_cnt_offer s) (listen_mode s) (t1 s) (t2 s) (xid s) (c_start s)
    (c_lease s) v (client_config s) (c_calls s) (c_out s).
Definition set_client_config (v : client_config_t) (s : dhcpc) : dhcpc :=
  Dhcpc (c_state s) (requested_ip s) (server_addr s) (c_timeout s) (packet_num s) (c_fd s)
    (bootp_cnt_offer s) (listen_mode s) (t1 s) (t2 s) (xid s) (c_start s)
    (c_lease s) (c_packet s) v (c_calls s) (c_out s).
Definition set_c_calls (v : nat) (s : dhcpc) : dhcpc :=
  Dhcpc (c_state s) (requested_ip s) (server_addr s) (c_timeout s) (packet_num s) (c_fd s)
    (bootp_cnt_offer s) (listen_mode s) (t1 s) (t2 s) (xid s) (c_start s)
    (c_lease s) (c_packet s) (client_config s) v (c_out s).
Definition set_c_out (v : list client_output) (s : dhcpc) : dhcpc :=
  Dhcpc (c_state s) (requested_ip s) (server_addr s) (c_timeout s) (packet_num s) (c_fd s)
    (bootp_cnt_offer s) (listen_mode s) (t1 s) (t2 s) (xid s) (c_start s)
    (c_lease s) (c_packet s) (client_config s) (c_calls s) v.

Abbreviation HM := (M dhcpc).

Class ClientEnv : Type := {
  (** sysinfo().uptime *)
  cenv_uptime : nat -> Z;
  (** rand() *)
  cenv_rand : nat -> Z;
  (** socket(), bind(), setsockopt(), connect() succeed *)
  cenv_sock_ok : nat -> bool;
  (** sendto() and write(): the result *)
  cenv_sent : nat -> list Z -> Z;
  (** listen_socket() and raw_socket() succeed *)
  cenv_listen : nat -> bool;
  (** errno is EINTR after a failed read *)
  cenv_eintr : nat -> bool;
  (** daemon() succeeds *)
  cenv_daemon : nat -> bool;
  (** fork() succeeds *)
  cenv_fork : nat -> bool;
  (** /tmp/log/dhcpc.log can be opened *)
  cenv_log : nat -> bool;
  (** atoi(nvram_get("bootp_cnt_offer")), when it is set *)
  cenv_bootp : nat -> option Z;
  (** read_interface(): the index and the hardware address *)
  cenv_interface : nat -> option (Z * list Z);
  (** inet_addr() *)
  cenv_inet_addr : list Z -> Z
}.
Class ClientLaws (E : ClientEnv) : Prop := {
  cenv_uptime_range n : 0 <= cenv_uptime n < 2147483648;
  cenv_rand_range n : 0 <= cenv_rand n < 2147483648;
  cenv_interface_range n i a : cenv_interface n = Some (i, a) -> length a = 6%nat /\ Forall is_byte a;
  cenv_inet_addr_range s : 0 <= cenv_inet_addr s < 4294967296
}.

Section with_env.
Context `{E : ClientEnv}.
Definition csys {A} (f : nat -> A) : HM A :=
  n ← gets c_calls; modify (set_c_calls (S n));; mret (f n).
Definition client_out (o : client_output) : HM unit := modify (fun s => set_c_out (c_out s ++ [o]) s).

Lemma csys_run {A} (f : nat -> A) a s : f (c_calls s) = a -> csys f s = Ok a (set_c_calls (S (c_calls s)) s).
Proof. by intros <-. Qed.
End with_env.

(** What a call of the operating system may change: the count of calls and the
    outputs. *)
Definition after (outs : list client_output) (s s' : dhcpc) : Prop :=
  s' = set_c_calls (c_calls s') (set_c_out (c_out s ++ outs) s).

Lemma after_refl s : after [] s s.
Proof. unfold after. rewrite app_nil_r. by destruct s. Qed.
Lemma after_trans o1 o2 s1 s2 s3 : after o1 s1 s2 -> after o2 s2 s3 -> after (o1 ++ o2) s1 s3.
Proof.
  unfold after. intros H1 H2. rewrite H2. rewrite H1 at 1 2 3. cbn. by rewrite app_assoc.
Qed.
Lemma after_calls n s : after [] s (set_c_calls n s).
Proof. unfold after. cbn. rewrite app_nil_r. by destruct s. Qed.
Lemma after_out o s : after [o] s (set_c_out (c_out s ++ [o]) s).
Proof. unfold after. by destruct s. Qed.

(** Every other variable is as it was. *)
Lemma after_same {A} (f : dhcpc -> A) outs s s' : after outs s s' ->
  (forall n o s, f (set_c_calls n (set_c_out o s)) = f s) -> f s' = f s.
Proof. intros -> Hf. apply Hf. Qed.

Lemma csys_after `{E : ClientEnv} {A} (f : nat -> A) s : exists a s', csys f s = Ok a s' /\ after [] s s' /\ exists n, a = f n.
Proof. eexists _, _. split; [reflexivity|]. split; [apply after_calls|]. by eexists. Qed.
