(* ===== verification/ClientPacket.v ===== *)
(** * ClientPacket: the messages of the DHCP client (clientpacket.c, packet.c, options.c)

    The search of options (this program's copy knows no vendor option), the
    construction of the client's messages, and the reception of a packet from
    the kernel and from a raw socket. *)

From S2P Require Import Prelude DhcpTypes DhcpOptions DhcpPacket ClientTypes.

(** ** options.c *)

Fixpoint client_option_loop (fuel : nat) (p : dhcpMessage) (code : Z) (curr : opt_field) (i over : Z)
    : HM (option opt_ptr) :=
  match fuel with
  | O => fail Out_of_fuel
  | S fuel' =>
      if field_length curr <=? i then mret None (* bogus packet, option fields too long *)
      else
        c ← opt_byte p curr i;
        if c =? code then
          len ← opt_byte p curr (i + OPT_LEN);
          if field_length curr <=? i + 1 + len then mret None else mret (Some (curr, i + 2))
        else if c =? DHCP_PADDING then client_option_loop fuel' p code curr (i + 1) over
        else if c =? DHCP_OPTION_OVER then
          len ← opt_byte p curr (i + OPT_LEN);
          if field_length curr <=? i + 1 + len then mret None
          else
            over ← opt_byte p curr (i + 3);
            skip ← opt_byte p curr OPT_LEN;
            client_option_loop fuel' p code curr (i + (skip + 2)) over
        else if c =? DHCP_END then
          match curr with
          | In_options =>
              if negb (Z.land over FILE_FIELD =? 0) then client_option_loop fuel' p code In_file 0 over
              else mret None
          | In_file =>
              if negb (Z.land over SNAME_FIELD =? 0) then client_option_loop fuel' p code In_sname 0 over
              else mret None
          | In_sname => mret None
          end
        else
          len ← opt_byte p curr (OPT_LEN + i);
          client_option_loop fuel' p code curr (i + (len + 2)) over
  end.
Definition client_get_option (p : dhcpMessage) (code : Z) : HM (option opt_ptr) :=
  client_option_loop 512 p code In_options 0 0.

(** ** clientpacket.c: sending *)

Definition DHCP_PARAM_REQ : Z := 0x37.
Definition INADDR_ANY : Z := 0.
(** DHCP_VENDOR, the length, and the text udhcp with the version *)
Definition vendor_id : list Z :=
  [DHCP_VENDOR; 11; 0x75; 0x64; 0x68; 0x63; 0x70; 0x20; 0x30; 0x2E; 0x39; 0x2E; 0x38].

(** The codes that are asked for: those with [OPTION_REQ], in the order of the table. *)
Definition request_codes : list Z :=
  o_code <$> filter (fun o => Z.land (o_flags o) OPTION_REQ <> 0) options.

(** No bounds are tested: the bytes are written one by one after the last
    option. *)
Definition add_requests {T} (b : list Z) : M T (list Z) :=
  e ← end_option b;
  b ← in_bounds (store [DHCP_PARAM_REQ] b e);
  b ← in_bounds (store request_codes b (e + OPT_DATA));
  b ← in_bounds (store [u8 (Z.of_nat (length request_codes))] b (e + OPT_LEN));
  in_bounds (store [DHCP_END] b (e + OPT_DATA + Z.of_nat (length request_codes))).

Definition with_ids (xid0 ciaddr0 : Z) (chaddr0 : list Z) (opts : list Z) (p : dhcpMessage) : dhcpMessage :=
  DhcpMessage (m_op p) (m_htype p) (m_hlen p) (m_hops p) xid0 (m_secs p) (m_flags p) ciaddr0
    (m_yiaddr p) (m_siaddr p) (m_giaddr p) chaddr0 (m_sname p) (m_file p) (m_cookie p) opts.

Section with_env.
Context `{E : ClientEnv}.

Definition random_xid : HM Z := csys cenv_rand.

(** init_packet, and the fields its callers set afterwards. *)
Definition client_init_packet (type xid0 ciaddr0 : Z) : HM dhcpMessage :=
  p ← init_header type;
  c ← gets client_config;
  id ← deref (clientid c);
  '(b, _) ← add_option_string (m_options p) (Some id);
  '(b, _) ← (match client_hostname c with Some h => add_option_string b (Some h) | None => mret (b, 0) end);
  '(b, _) ← add_option_string b (Some vendor_id);
  mret (with_ids xid0 ciaddr0 (take 6 (client_arp c) ++ drop 6 (m_chaddr p)) b p).

(** packet.c *)
Definition client_raw_packet (payload : dhcpMessage) (source_ip source_port dest_ip dest_port : Z)
    (dest_arp : list Z) (ifindex0 : Z) : HM Z :=
  sock ← csys cenv_sock_ok;
  if negb sock then mret (-1)
  else
    bound ← csys cenv_sock_ok;
    if negb bound then mret (-1)
    else
      let bytes := raw_bytes payload source_ip source_port dest_ip dest_port in
      client_out (Sent (Raw_frame ifindex0 (take 6 dest_arp) bytes));;
      csys (fun n => cenv_sent n bytes).
Definition client_kernel_packet (payload : dhcpMessage) (source_ip source_port dest_ip dest_port : Z) : HM Z :=
  sock ← csys cenv_sock_ok;
  if negb sock then mret (-1)
  else
    reuse ← csys cenv_sock_ok;
    if negb reuse then mret (-1)
    else
      bound ← csys cenv_sock_ok;
      if negb bound then mret (-1)
      else
        connected ← csys cenv_sock_ok;
        if negb connected then mret (-1)
        else
          let bytes := message_bytes payload in
          client_out (Sent (Udp_payload source_ip source_port dest_ip dest_port bytes));;
          csys (fun n => cenv_sent n bytes).

Definition broadcast_packet (p : dhcpMessage) : HM Z :=
  c ← gets client_config;
  client_raw_packet p INADDR_ANY CLIENT_PORT INADDR_BROADCAST SERVER_PORT MAC_BCAST_ADDR (client_ifindex c).

Definition send_discover (xid0 requested : Z) : HM Z :=
  p ← client_init_packet DHCPDISCOVER xid0 0;
  '(b, _) ← (if requested =? 0 then mret (m_options p, 0) else add_simple_option (m_options p) DHCP_REQUESTED_IP requested);
  b ← add_requests b;
  broadcast_packet (set_m_options b p).

Definition send_selecting (xid0 server0 requested : Z) : HM Z :=
  p ← client_init_packet DHCPREQUEST xid0 0;
  '(b, _) ← add_simple_option (m_options p) DHCP_REQUESTED_IP requested;
  '(b, _) ← add_simple_option b DHCP_SERVER_ID server0;
  b ← add_requests b;
  broadcast_packet (set_m_options b p).

Definition send_renew (xid0 server0 ciaddr0 : Z) : HM Z :=
  p ← client_init_packet DHCPREQUEST xid0 ciaddr0;
  b ← add_requests (m_options p);
  if negb (server0 =? 0) then client_kernel_packet (set_m_options b p) ciaddr0 CLIENT_PORT server0 SERVER_PORT
  else broadcast_packet (set_m_options b p).

Definition send_release (server0 ciaddr0 : Z) : HM Z :=
  x ← random_xid;
  p ← client_init_packet DHCPRELEASE x ciaddr0;
  '(b, _) ← add_simple_option (m_options p) DHCP_REQUESTED_IP ciaddr0;
  '(b, _) ← add_simple_option b DHCP_SERVER_ID server0;
  client_kernel_packet (set_m_options b p) ciaddr0 CLIENT_PORT server0 SERVER_PORT.

(** ** Reception *)

(** get_raw_packet: the value returned; the message goes to [c_packet].  A
    message that is shorter than the structure leaves the rest of it as it
    was.  The number of bytes to copy is a [size_t]: below zero it is beyond
    any buffer. *)
Definition udp_packet_size : Z := 576.
Definition get_raw_packet (input : option (list Z)) : HM Z :=
  match input with
  | None => mret (-1)
  | Some frame =>
      let packet := take 576 frame ++ replicate (576 - length frame) 0 in
      let got := Z.of_nat (length (take 576 frame)) in
      if got <? 28 then mret (-2)
      else
        let bytes := of_be (span 2 2 packet) in
        if got <? bytes then mret (-2)
        else
          let version_ihl := of_be (span 1 0 packet) in
          let udp_len := of_be (span 2 24 packet) in
          if negb (of_be (span 1 9 packet) =? IPPROTO_UDP) || negb (version_ihl / 16 =? IPVERSION)
             || negb (version_ihl mod 16 =? 5) || negb (of_be (span 2 22 packet) =? CLIENT_PORT)
             || (udp_packet_size <? bytes) || negb (udp_len =? bytes - 20)
          then mret (-2)
          else
            let check := of_be (span 2 10 packet) in
            if negb (check =? checksum (take 10 packet ++ [0; 0] ++ span 8 12 packet)) then mret (-1)
            else
              let source := of_be (span 4 12 packet) in
              let dest := of_be (span 4 16 packet) in
              let check := of_be (span 2 26 packet) in
              let pseudo := ip_header 0 udp_len 0 0 source dest ++ span 6 20 packet ++ [0; 0] ++ drop 28 packet in
              if negb (check =? 0) && negb (check =? checksum (take (Z.to_nat bytes) pseudo)) then mret (-2)
              else if bytes <? 28 then fail Out_of_bounds
              else
                modify (fun s => set_c_packet (span (Z.to_nat (bytes - 28)) 28 packet
                                                ++ drop (Z.to_nat (bytes - 28)) (c_packet s)) s);;
                p ← gets (fun s => message_of (c_packet s));
                if negb (m_cookie p =? DHCP_MAGIC) then mret (-2) else mret (bytes - 28)
  end.

(** get_packet of packet.c. *)
Definition client_get_packet (input : option (list Z)) : HM Z :=
  match input with
  | None => modify (set_c_packet (replicate 548 0));; mret (-1)
  | Some bytes =>
      modify (set_c_packet (take 548 bytes ++ replicate (548 - length bytes) 0));;
      let p := received bytes in
      if negb (m_cookie p =? DHCP_MAGIC) then mret (-2)
      else
        vendor ← (if m_op p =? BOOTREQUEST then client_get_option p DHCP_VENDOR else mret None);
        match vendor with
        | Some (f, off) =>
            len ← opt_byte p f (off + (OPT_LEN - 2));
            if len =? Z.of_nat (length broken_vendor) then
              broken ← strncmp_eq (Z.to_nat len) p f off broken_vendor;
              when (broken : bool) (modify (set_c_packet (message_bytes (set_m_flags (Z.lor (m_flags p) BROADCAST_FLAG) p))))
            else mret tt
        | None => mret tt
        end;;
        mret (Z.of_nat (length (take 548 bytes)))
  end.
End with_env.

(** ** The search of options *)

Lemma opt_byte_value {T} p f k (d : T) :
  opt_byte p f k d = match (if 0 <=? k then field_bytes p f !! Z.to_nat k else None) with
                     | Some b => Ok b d | None => Err Out_of_bounds end.
Proof. unfold opt_byte. destruct (0 <=? k); [|done]. by destruct (field_bytes p f !! Z.to_nat k). Qed.

(** Split on a byte that both programs read. *)
Ltac read_both H b :=
  unfold mbind at 1, M_bind at 1 in H; unfold mbind at 1, M_bind at 1; rewrite opt_byte_value in H; rewrite opt_byte_value;
  lazymatch goal with
  | |- context [if 0 <=? ?k then ?x else None] =>
      destruct (if 0 <=? k then x else None) as [b|]; cbn match in H; cbn match; [|discriminate H]
  end.

(** When the server's search ends without a fault, so does the client's, with the same result. *)
Lemma search_agrees fuel p code f i over (s : dhcpc) d r d' :
  get_option_loop fuel p code f i over d = Ok r d' -> client_option_loop fuel p code f i over s = Ok r s.
Proof.
  revert f i over d. induction fuel as [|fuel IH]; intros f i over d H; [done|].
  cbn [get_option_loop client_option_loop] in H |- *.
  destruct (field_length f <=? i); [by injection H as <- <-|]. read_both H b.
  destruct (b =? code).
  { read_both H b0. by destruct (field_length f <=? i + 1 + b0); injection H as <- <-. }
  destruct (Z.eqb_spec b DHCP_VENDOR) as [Hv|_].
  { rewrite Hv. unfold mbind at 1, M_bind at 1 in H. destruct (starts_with p f (i + OPT_DATA) VIZIO d) as [v d1|]; [|done].
    unfold mbind at 1, M_bind at 1, modify in H. change (DHCP_VENDOR =? DHCP_PADDING) with false.
    change (DHCP_VENDOR =? DHCP_OPTION_OVER) with false. change (DHCP_VENDOR =? DHCP_END) with false. cbn match.
    read_both H c0. by eapply IH. }
  destruct (b =? DHCP_PADDING); [by eapply IH|]. destruct (b =? DHCP_OPTION_OVER).
  { read_both H b0. destruct (field_length f <=? i + 1 + b0); [by injection H as <- <-|].
    read_both H b1. read_both H b2. by eapply IH. }
  destruct (b =? DHCP_END); [|read_both H b0; by eapply IH].
  destruct f; [destruct (negb (Z.land over FILE_FIELD =? 0))|destruct (negb (Z.land over SNAME_FIELD =? 0))|];
    first [by eapply IH|by injection H as <- <-].
Qed.

(** The two programs read a message alike: what the server's search of an option
    finds, the client's finds, although only the server's copy of get_option knows the
    vendor option. *)
Theorem client_finds_the_same p code (s : dhcpc) d r d' :
  get_option p code d = Ok r d' -> client_get_option p code s = Ok r s.
Proof. apply search_agrees. Qed.

(** What the client's search may end with on any message. *)
Definition client_search_result (p : dhcpMessage) (code : Z) (s : dhcpc) (r : res dhcpc (option opt_ptr)) : Prop :=
  match r with
  | Ok None s' => s' = s
  | Ok (Some (f, off)) s' => s' = s /\ 2 <= off /\ exists len, field_bytes p f !! Z.to_nat (off - 1) = Some len
                            /\ 0 <= len < 256 /\ off + len <= field_length f
  | Err e => e = Out_of_bounds
  end.

Lemma client_search_ends fuel p code f i over s :
  message_ok p -> 0 <= i -> search_left f i <= Z.of_nat fuel ->
  client_search_result p code s (client_option_loop fuel p code f i over s).
Proof.
  intros Hp. revert f i over. induction fuel as [|fuel IH]; intros f i over Hi Hf.
  { exfalso. unfold search_left in Hf. destruct f; lia. }
  cbn [client_option_loop]. apply run_if; intros Hlen; [done|apply Z.leb_gt in Hlen].
  assert (Hstep : forall n, 1 <= n -> search_left f (i + n) <= Z.of_nat fuel) by (unfold search_left in *; lia).
  apply opt_byte_bind; [done|done| |done]. intros c Hc _. apply run_if; intros Hcode.
  { unfold OPT_LEN. apply opt_byte_bind; [done|lia| |done]. intros len Hl Hr.
    apply run_if; intros Hl2; [done|apply Z.leb_gt in Hl2]. split; [done|]. split; [lia|].
    exists len. split; [by replace (i + 2 - 1) with (i + 1) by lia|lia]. }
  apply run_if; intros _; [apply IH; [lia|apply Hstep; lia]|].
  apply run_if; intros _.
  { unfold OPT_LEN. apply opt_byte_bind; [done|lia| |done]. intros len _ Hr. apply run_if; intros _; [done|].
    apply opt_byte_bind; [done|lia| |done]. intros ov _ _. apply opt_byte_bind; [done|lia| |done].
    intros skip _ Hs. apply IH; [lia|apply Hstep; lia]. }
  apply run_if; intros _.
  { destruct f; [apply run_if; intros _; [|done]..|done];
      (apply IH; [lia|unfold search_left, field_length in *; lia]). }
  unfold OPT_LEN. apply opt_byte_bind; [done|lia| |done]. intros len _ Hr. apply IH; [lia|apply Hstep; lia].
Qed.

Lemma client_get_option_ends p code s : message_ok p -> client_search_result p code s (client_get_option p code s).
Proof. intros Hp. apply client_search_ends; [done|done|]. by vm_compute. Qed.

(** ** A message in memory *)

Definition word (v : Z) : Prop := 0 <= v < 4294967296.
Record message_range (p : dhcpMessage) : Prop := MessageRange {
  mr_ok : message_ok p;
  mr_head : header_bytes_ok p;
  mr_secs : 0 <= m_secs p < 65536;
  mr_flags : 0 <= m_flags p < 65536;
  mr_xid : word (m_xid p);
  mr_ciaddr : word (m_ciaddr p);
  mr_yiaddr : word (m_yiaddr p);
  mr_siaddr : word (m_siaddr p);
  mr_giaddr : word (m_giaddr p);
  mr_cookie : word (m_cookie p)
}.

(** A field after a prefix of known length. *)
Lemma span_at n off a f rest : length a = off -> length f = n -> span n off (a ++ f ++ rest) = f.
Proof. intros Ha Hf. rewrite span_app by done. by rewrite take_app_length'. Qed.

Lemma message_of_bytes p : message_range p -> message_of (message_bytes p) = p.
Proof.
  intros [[H1 H2 H3 H4 _ _ _ _] _ R1 R2 R3 R4 R5 R6 R7 R8]. unfold word in *.
  assert (Htail : span 16 28 (message_bytes p) = m_chaddr p /\ span 64 44 (message_bytes p) = m_sname p
    /\ span 128 108 (message_bytes p) = m_file p /\ span 4 236 (message_bytes p) = be32 (m_cookie p)
    /\ span 308 240 (message_bytes p) = m_options p).
  { set (h := [m_op p; m_htype p; m_hlen p; m_hops p] ++ be32 (m_xid p) ++ be16 (m_secs p) ++ be16 (m_flags p)
      ++ be32 (m_ciaddr p) ++ be32 (m_yiaddr p) ++ be32 (m_siaddr p) ++ be32 (m_giaddr p)).
    assert (Hh : length h = 28%nat) by done.
    assert (E0 : message_bytes p = h ++ m_chaddr p ++ m_sname p ++ m_file p ++ be32 (m_cookie p) ++ m_options p) by done.
    rewrite E0. clearbody h. split; [by apply span_at|].
    rewrite (app_assoc h). split; [apply span_at; [rewrite length_app; lia|done]|].
    rewrite (app_assoc _ (m_sname p)). split; [apply span_at; [rewrite !length_app; lia|done]|].
    rewrite (app_assoc _ (m_file p)). split; [apply span_at; [rewrite !length_app; lia|done]|].
    rewrite (app_assoc _ (be32 (m_cookie p))), span_app by (rewrite !length_app, H1, H2, H3, Hh; done).
    apply take_ge. lia. }
  destruct Htail as (T1 & T2 & T3 & T4 & T5). unfold message_of. rewrite T1, T2, T3, T4, T5.
  assert (Hw : forall v, 0 <= v < 4294967296 -> of_be (be32 v) = v) by (intros; rewrite of_be32; by apply u32_small).
  assert (Hh : forall v, 0 <= v < 65536 -> of_be (be16 v) = v) by (intros; rewrite of_be16; by apply u16_small).
  change (span 4 4 (message_bytes p)) with (be32 (m_xid p)). change (span 2 8 (message_bytes p)) with (be16 (m_secs p)).
  change (span 2 10 (message_bytes p)) with (be16 (m_flags p)). change (span 4 12 (message_bytes p)) with (be32 (m_ciaddr p)).
  change (span 4 16 (message_bytes p)) with (be32 (m_yiaddr p)). change (span 4 20 (message_bytes p)) with (be32 (m_siaddr p)).
  change (span 4 24 (message_bytes p)) with (be32 (m_giaddr p)). rewrite !Hw, !Hh by done. by destruct p.
Qed.

(** ** The reception of a packet built by hand *)

Lemma checksum_range l : 0 <= checksum l < 65536.
Proof. apply u16_range. Qed.

(** The 28 bytes of headers, read as get_raw_packet reads them. *)
Lemma raw_headers ck sip dip sp dp uck data :
  0 <= ck < 65536 -> 0 <= uck < 65536 -> word sip -> word dip -> 0 <= dp < 65536 ->
  let b := ip_header (IPVERSION * 16 + 5) packet_length IPDEFTTL ck sip dip ++ udp_header sp dp udp_length uck ++ data in
  of_be (span 2 2 b) = 576 /\ of_be (span 1 0 b) = 69 /\ of_be (span 2 24 b) = 556 /\ of_be (span 1 9 b) = IPPROTO_UDP
  /\ of_be (span 2 22 b) = dp /\ of_be (span 2 10 b) = ck /\ of_be (span 4 12 b) = sip /\ of_be (span 4 16 b) = dip
  /\ of_be (span 2 26 b) = uck
  /\ take 10 b ++ [0; 0] ++ span 8 12 b = ip_header (IPVERSION * 16 + 5) packet_length IPDEFTTL 0 sip dip
  /\ span 6 20 b ++ [0; 0] ++ drop 28 b = udp_header sp dp udp_length 0 ++ data.
Proof.
  intros Hck Huck Hs Hd Hp b.
  assert (Hw : forall v, word v -> of_be (be32 v) = v) by (intros; rewrite of_be32; by apply u32_small).
  assert (Hh : forall v, 0 <= v < 65536 -> of_be (be16 v) = v) by (intros; rewrite of_be16; by apply u16_small).
  split_and!; try done.
  - change (span 2 22 b) with (be16 dp). by apply Hh.
  - change (span 2 10 b) with (be16 ck). by apply Hh.
  - change (span 4 12 b) with (be32 sip). by apply Hw.
  - change (span 4 16 b) with (be32 dip). by apply Hw.
  - change (span 2 26 b) with (be16 uck). by apply Hh.
Qed.

Lemma raw_packet_received_run p sip sp dip garbage s :
  message_range p -> m_cookie p = DHCP_MAGIC -> word sip -> word dip -> length (c_packet s) = 548%nat ->
  get_raw_packet (Some (raw_bytes p sip sp dip CLIENT_PORT ++ garbage)) s = Ok 548 (set_c_packet (message_bytes p) s).
Proof.
  intros Hp Hck Hs Hd Hl. destruct (message_bytes_ok p (mr_ok _ Hp) (mr_head _ Hp)) as [Hm _].
  pose proof (message_of_bytes p Hp) as Hof.
  unfold raw_bytes.
  set (uck := checksum (ip_header 0 udp_length 0 0 sip dip ++ udp_header sp CLIENT_PORT udp_length 0 ++ message_bytes p)).
  set (ck := checksum (ip_header (IPVERSION * 16 + 5) packet_length IPDEFTTL 0 sip dip)).
  set (data := message_bytes p) in *. set (hdr := ip_header _ _ _ ck sip dip). 
  set (b := hdr ++ udp_header sp CLIENT_PORT udp_length uck ++ data).
  assert (Hb : length b = 576%nat) by (unfold b; rewrite !length_app, Hm; done).
  unfold get_raw_packet. rewrite take_app_length' by done. rewrite length_app.
  replace (576 - (length b + length garbage))%nat with 0%nat by lia. change (replicate 0 0) with (@nil Z). rewrite app_nil_r, Hb.
  destruct (raw_headers ck sip dip sp CLIENT_PORT uck data) as (E1 & E2 & E3 & E4 & E5 & E6 & E7 & E8 & E9 & E10 & E11);
    [apply checksum_range|apply checksum_range|done|done|done|].
  fold hdr in E1, E2, E3, E4, E5, E6, E7, E8, E9, E10, E11. fold b in E1, E2, E3, E4, E5, E6, E7, E8, E9, E10, E11.
  cbv zeta. rewrite E1, E2, E3, E4, E5, E6, E7, E8, E9, E10, E11. fold ck. rewrite (Z.eqb_refl ck).
  change (576 - 20) with udp_length.
  assert (Hpre : checksum (take (Z.to_nat 576) (ip_header 0 556 0 0 sip dip ++ udp_header sp CLIENT_PORT udp_length 0 ++ data)) = uck).
  { unfold uck. f_equal. rewrite take_ge; [done|]. rewrite !length_app, Hm. done. }
  rewrite Hpre, (Z.eqb_refl uck). change (556 =? udp_length) with true. cbn [negb orb andb].
  rewrite andb_false_r. change (69 mod 16 =? 5) with true. change (CLIENT_PORT =? CLIENT_PORT) with true.
  change (udp_packet_size <? 576) with false. change (Z.of_nat 576 <? 28) with false. change (Z.of_nat 576 <? 576) with false.
  change (576 <? 28) with false. cbn [negb orb].
  assert (Hspan : span (Z.to_nat (576 - 28)) 28 b = data).
  { unfold b. rewrite app_assoc, span_app by done. apply take_ge. rewrite Hm. done. }
  rewrite Hspan. unfold mbind, M_bind, gets, modify. cbn [c_packet set_c_packet].
  change (negb (IPPROTO_UDP =? IPPROTO_UDP) || negb (69 / 16 =? IPVERSION) || false || false || false || false) with false.
  cbn match beta. rewrite (drop_ge (c_packet s)), app_nil_r by (rewrite Hl; done). rewrite Hof, Hck. done.
Qed.

(** C14. A message survives its trip from the server to the client's raw socket: the
    packet that raw_packet builds for port 68, with any bytes the link adds after it,
    passes every check of get_raw_packet, both checksums included, and the message
    that is stored is the message that was sent. *)
Theorem raw_packet_received p sip sp dip garbage s :
  message_range p -> m_cookie p = DHCP_MAGIC -> word sip -> word dip -> length (c_packet s) = 548%nat ->
  exists s', get_raw_packet (Some (raw_bytes p sip sp dip CLIENT_PORT ++ garbage)) s = Ok 548 s'
  /\ s' = set_c_packet (message_bytes p) s /\ message_of (c_packet s') = p.
Proof.
  intros Hp Hc Hs Hd Hl. eexists. split; [by apply raw_packet_received_run|]. split; [done|]. by apply message_of_bytes.
Qed.

(** ** What was added is found *)

Lemma client_found p code l (s : dhcpc) :
  opts_layout l (m_options p) -> Forall plain_option l -> 0 < code < 255 ->
  exists r, client_get_option p code s = Ok r s /\ found_in p code l r.
Proof.
  intros [Hs Hwf [rest Hb]] Hpl Hcode.
  set (d := Dhcpd (ServerConfig 0 0 0 [] 0 [] 0 0 0 0 0 0 0 0 0 None None None "" "" "") [] 0 0 true None 0 0 []).
  destruct (find_scan p code [] l rest 512 0 0 0 d Hb Hs Hwf Hpl Hcode eq_refl) as (r & Hr & Hf); [|done|].
  { pose proof (enc_opts_count l Hwf). rewrite Hb, length_app in Hs. lia. }
  exists r. split; [|exact Hf]. by eapply search_agrees.
Qed.
