(* ===== verification/ClientMachine.v ===== *)
(** * ClientMachine: the states of the DHCP client (dhcpc.c)

    The handlers of a timeout, of a packet and of a signal, one turn of the main
    loop, the command line and the start of the program.  [exit_client] ends in
    the fault [Died], after it printed the counter of BOOTP offers to a buffer of 10
    bytes. *)

From S2P Require Import Prelude DhcpTypes DhcpOptions ClientTypes ClientPacket.

Section with_env.
Context `{E : ClientEnv}.

(** ** Helpers *)

Definition change_mode (new_mode : listening) : HM unit :=
  modify (set_c_fd false);; modify (set_listen_mode new_mode).

(** run_script of script.c, in the parent: the child gets the name of the event
    and the packet, and is waited for. *)
Definition run_script (packet : option dhcpMessage) (name : string) : HM unit :=
  c ← gets client_config;
  match script c with
  | None => mret tt
  | Some _ => forked ← csys cenv_fork; when forked (client_out (Script name packet))
  end.

(** The counter of BOOTP offers is printed into a buffer of ten bytes. *)
Definition counter_fits (n : Z) : bool := (-99999999 <=? n) && (n <=? 999999999).
Definition exit_client {A} : HM A :=
  n ← gets bootp_cnt_offer;
  if counter_fits n then fail Died else fail Out_of_bounds.

Definition background : HM unit :=
  ok ← csys cenv_daemon;
  if ok : bool then client_out Daemonised;; modify (fun s => set_client_config (set_foreground true (client_config s)) s)
  else exit_client.

(** The line in /tmp/log/dhcpc.log: the result of fopen is not tested. *)
Definition log_line : HM unit :=
  ok ← csys cenv_log; if ok : bool then mret tt else fail Null_deref.

Definition hurry : HM unit := modify (set_packet_num 0);; modify (set_c_timeout 0).

Definition perform_renew : HM unit :=
  log_line;;
  state ← gets c_state;
  match state with
  | BOUND => change_mode LISTEN_KERNEL;; modify (set_c_state RENEW_REQUESTED)
  | RENEWING | REBINDING => modify (set_c_state RENEW_REQUESTED)
  | RENEW_REQUESTED => run_script None "deconfig";; change_mode LISTEN_RAW;; modify (set_c_state INIT_SELECTING)
  | REQUESTING | RELEASED => change_mode LISTEN_RAW;; modify (set_c_state INIT_SELECTING)
  | INIT_SELECTING | INIT_REBOOT => mret tt
  end;;
  hurry.

Definition perform_release : HM unit :=
  log_line;;
  state ← gets c_state;
  (match state with
   | BOUND | RENEWING | REBINDING =>
       server ← gets server_addr; ip ← gets requested_ip;
       send_release server ip;; run_script None "deconfig"
   | _ => mret tt
   end);;
  change_mode LISTEN_NONE;; modify (set_c_state RELEASED);; modify (set_c_timeout 0x7fffffff).

(** ** A timeout *)

Definition selecting_timeout (now : Z) : HM unit :=
  n ← gets packet_num;
  if n <? 3 then
    (if n =? 0 then x ← random_xid; modify (set_xid x) else mret tt);;
    x ← gets xid; ip ← gets requested_ip;
    send_discover x ip;;
    modify (set_c_timeout (u32 (now + (if n =? 2 then 4 else 2))));;
    modify (set_packet_num (n + 1))
  else
    c ← gets client_config;
    (if background_if_no_lease c then background
     else if abort_if_no_lease c then exit_client else mret tt);;
    modify (set_packet_num 0);; modify (set_c_timeout (u32 (now + 60))).

Definition to_init (now : Z) : HM unit :=
  modify (set_c_state INIT_SELECTING);; modify (set_c_timeout (u32 now));; modify (set_packet_num 0);;
  change_mode LISTEN_RAW.

Definition requesting_timeout (now : Z) : HM unit :=
  n ← gets packet_num; state ← gets c_state;
  let renew := bool_decide (state = RENEW_REQUESTED) in
  if n <? 3 then
    x ← gets xid; server ← gets server_addr; ip ← gets requested_ip;
    (if renew then send_renew x server ip else send_selecting x server ip);;
    modify (set_c_timeout (u32 (now + (if n =? 2 then 10 else 2))));;
    modify (set_packet_num (n + 1))
  else
    when renew (run_script None "deconfig");; to_init now.

(** [lease], which has no value before the first ACK. *)
Definition the_lease : HM Z :=
  l ← gets c_lease; match l with Some l => mret l | None => fail Uninitialised end.
Definition last_step (lease : Z) : Z := u32 (lease / 14400 + 1).

Definition renewing_timeout (now : Z) : HM unit :=
  a ← gets t1; b ← gets t2; lease ← the_lease;
  if u32 (b - a) <=? last_step lease then
    modify (set_c_state REBINDING);; modify (set_c_timeout (u32 (now + u32 (b - a))))
  else
    x ← gets xid; server ← gets server_addr; ip ← gets requested_ip;
    send_renew x server ip;;
    modify (set_t1 (u32 (u32 (b - a) / 2 + a)));;
    modify (fun s => set_c_timeout (u32 (t1 s + c_start s)) s).

Definition rebinding_timeout (now : Z) : HM unit :=
  b ← gets t2; lease ← the_lease;
  if u32 (lease - b) <=? last_step lease then
    modify (set_c_state INIT_SELECTING);; run_script None "deconfig";;
    modify (set_c_timeout (u32 now));; modify (set_packet_num 0);; change_mode LISTEN_RAW
  else
    x ← gets xid; ip ← gets requested_ip;
    send_renew x 0 ip;;
    modify (set_t2 (u32 (u32 (lease - b) / 2 + b)));;
    modify (fun s => set_c_timeout (u32 (t2 s + c_start s)) s).

Definition on_timeout (now : Z) : HM unit :=
  state ← gets c_state;
  match state with
  | INIT_SELECTING => selecting_timeout now
  | RENEW_REQUESTED | REQUESTING => requesting_timeout now
  | BOUND => modify (set_c_state RENEWING);; change_mode LISTEN_KERNEL;; renewing_timeout now
  | RENEWING => renewing_timeout now
  | REBINDING => rebinding_timeout now
  | RELEASED => modify (set_c_timeout 0x7fffffff)
  | INIT_REBOOT => mret tt
  end.

(** ** A packet *)

(** [!memcmp(packet.chaddr, client_config.arp, 6)] *)
Definition for_us (p : dhcpMessage) : HM bool :=
  c ← gets client_config; mret (bool_decide (take 6 (m_chaddr p) = take 6 (client_arp c))).

(** [strlen(text) != 0] for the text at an offset of [packet]: the bytes are
    read up to the first that is zero. *)
Definition has_text (off : nat) : HM bool :=
  b ← gets (fun s => drop off (c_packet s));
  _ ← in_bounds (list_find (fun c => c = 0) b);
  mret (negb (default 0 (b !! 0%nat) =? 0)).

(** An offer with BOOTP data passes only when it is the second one. *)
Definition bootp_pass : HM bool :=
  in_sname ← has_text 44;
  text ← (if in_sname : bool then mret true else has_text 108);
  if text : bool then
    n ← gets bootp_cnt_offer;
    modify (set_bootp_cnt_offer (s32 (n + 1)));;
    if 2 <=? s32 (n + 1) then mret true
    else modify (fun s => set_c_timeout (u32 (c_timeout s + 2)) s);; mret false
  else mret true.

Definition on_offer (p : dhcpMessage) (message : opt_ptr) (now : Z) : HM unit :=
  type ← opt_byte p (fst message) (snd message);
  if negb (type =? DHCPOFFER) then mret tt
  else
    us ← for_us p;
    if negb us then mret tt
    else
      pass ← bootp_pass;
      if negb pass then mret tt
      else
        modify (set_bootp_cnt_offer 0);;
        temp ← client_get_option p DHCP_SERVER_ID;
        match temp with
        | None => mret tt
        | Some ptr =>
            w ← opt_word p ptr;
            modify (set_server_addr w);; modify (set_xid (m_xid p));; modify (set_requested_ip (m_yiaddr p));;
            modify (set_c_state REQUESTING);; modify (set_c_timeout (u32 now));; modify (set_packet_num 0)
        end.

Definition on_ack (p : dhcpMessage) (now : Z) : HM unit :=
  us ← for_us p;
  if negb us then mret tt
  else
    temp ← client_get_option p DHCP_LEASE_TIME;
    lease ← match temp with None => mret (60 * 60) | Some ptr => opt_word p ptr end;
    modify (set_c_lease (Some lease));;
    modify (set_t1 (lease / 2));;
    modify (set_t2 (Z.shiftr (u32 (lease * 0x7)) 3));;
    modify (set_c_start (u32 now));;
    modify (fun s => set_c_timeout (u32 (t1 s + c_start s)) s);;
    modify (set_requested_ip (m_yiaddr p));;
    state ← gets c_state;
    run_script (Some p) (if bool_decide (state = RENEWING \/ state = REBINDING) then "renew" else "bound");;
    modify (set_c_state BOUND);;
    change_mode LISTEN_NONE;;
    c ← gets client_config;
    if quit_after_lease c then exit_client
    else if negb (foreground c) then background else mret tt.

Definition on_nak (p : dhcpMessage) (now : Z) : HM unit :=
  run_script (Some p) "nak";;
  state ← gets c_state;
  when (negb (bool_decide (state = REQUESTING))) (run_script None "deconfig");;
  modify (set_c_state INIT_SELECTING);; modify (set_c_timeout (u32 now));;
  modify (set_requested_ip 0);; modify (set_packet_num 0);;
  change_mode LISTEN_RAW;; client_out (Slept 3).

Definition on_reply (p : dhcpMessage) (message : opt_ptr) (now : Z) : HM unit :=
  type ← opt_byte p (fst message) (snd message);
  if type =? DHCPACK then on_ack p now
  else if type =? DHCPNAK then on_nak p now
  else mret tt.

(** A message of the transaction that is under way. *)
Definition on_message (p : dhcpMessage) (now : Z) : HM unit :=
  message ← client_get_option p DHCP_MESSAGE_TYPE;
  match message with
  | None => mret tt
  | Some ptr =>
      state ← gets c_state;
      match state with
      | INIT_SELECTING => on_offer p ptr now
      | RENEW_REQUESTED | REQUESTING | RENEWING | REBINDING => on_reply p ptr now
      | BOUND | RELEASED | INIT_REBOOT => mret tt
      end
  end.

Definition on_packet (input : option (list Z)) (now : Z) : HM unit :=
  mode ← gets listen_mode;
  len ← (if bool_decide (mode = LISTEN_KERNEL) then client_get_packet input else get_raw_packet input);
  (if len =? -1 then eintr ← csys cenv_eintr; when (negb eintr) (change_mode mode) else mret tt);;
  if len <? 0 then mret tt
  else
    p ← gets (fun s => message_of (c_packet s)); x ← gets xid;
    if negb (m_xid p =? x) then mret tt else on_message p now.

(** ** A turn of the main loop *)

Inductive client_signal : Type := SIGUSR1 | SIGUSR2 | SIGTERM.

(** What select reports: the descriptors that are ready, with what a read from
    the socket and from the pipe delivers; none in time; or an error. *)
Inductive client_select : Type :=
  | Selected (packet : option (option (list Z))) (signal : option (option client_signal))
  | Select_timeout
  | Select_failed.

Definition on_signal (sig : client_signal) : HM unit :=
  match sig with SIGUSR1 => perform_renew | SIGUSR2 => perform_release | SIGTERM => exit_client end.

Definition open_fd : HM unit :=
  mode ← gets listen_mode; is_open ← gets c_fd;
  if negb (bool_decide (mode = LISTEN_NONE)) && negb is_open then
    ok ← csys cenv_listen;
    if ok : bool then modify (set_c_fd true) else exit_client
  else mret tt.

Definition client_turn (i : client_select) : HM unit :=
  up ← csys cenv_uptime; t ← gets c_timeout;
  open_fd;;
  let retval := if 0 <? s32 (t - up) then i else Select_timeout in
  now ← csys cenv_uptime;
  match retval with
  | Select_timeout => on_timeout now
  | Selected packet signal =>
      mode ← gets listen_mode;
      match packet with
      | Some input =>
          if negb (bool_decide (mode = LISTEN_NONE)) then on_packet input now
          else match signal with Some (Some sig) => on_signal sig | _ => mret tt end
      | None => match signal with Some (Some sig) => on_signal sig | _ => mret tt end
      end
  | Select_failed => mret tt
  end.

Fixpoint client_loop (inputs : list client_select) : HM unit :=
  match inputs with
  | [] => mret tt
  | i :: rest => client_turn i;; client_loop rest
  end.

(** ** The command line and the start *)

Inductive client_arg : Type :=
  | Arg_c (text : list Z) | Arg_f | Arg_b | Arg_h (text : list Z) | Arg_i (name : string) | Arg_n
  | Arg_p (name : string) | Arg_q | Arg_r (text : list Z) | Arg_s (name : string) | Arg_v.

(** An option with the text of an argument, cut at 255 bytes. *)
Definition text_option (code : Z) (text : list Z) : list Z :=
  let len := Nat.min 255 (length text) in code :: Z.of_nat len :: take len text.
Definition DHCP_CLIENT_ID : Z := 0x3d.

Definition client_arg_step (a : client_arg) : HM unit :=
  let on f := modify (fun s => set_client_config (f (client_config s)) s) in
  match a with
  | Arg_c text =>
      (* a zero is stored after code and length first, in a block of length + 2 bytes *)
      if (Nat.min 255 (length text) =? 0)%nat then fail Out_of_bounds
      else on (set_clientid (Some (text_option DHCP_CLIENT_ID text)))
  | Arg_f => on (set_foreground true)
  | Arg_b => on (set_background_if_no_lease true)
  | Arg_h text => on (set_client_hostname (Some (text_option DHCP_HOST_NAME text)))
  | Arg_i name => on (set_client_interface name)
  | Arg_n => on (set_abort_if_no_lease true)
  | Arg_p name => on (set_client_pidfile (Some name))
  | Arg_q => on (set_quit_after_lease true)
  | Arg_r text => modify (set_requested_ip (cenv_inet_addr text))
  | Arg_s name => on (set_script (Some name))
  | Arg_v => exit_client
  end.
Fixpoint client_args (l : list client_arg) : HM unit :=
  match l with
  | [] => mret tt
  | a :: rest => client_arg_step a;; client_args rest
  end.

Definition default_clientid (arp0 : list Z) : list Z := DHCP_CLIENT_ID :: 7 :: 1 :: take 6 arp0.

Definition client_start (args : list client_arg) : HM unit :=
  client_args args;;
  n ← csys cenv_bootp;
  modify (set_bootp_cnt_offer (default 0 n));;
  c ← gets client_config;
  ifc ← csys cenv_interface;
  match ifc with
  | None => exit_client
  | Some (index, arp0) =>
      let id := match clientid c with Some id => id | None => default_clientid arp0 end in
      modify (set_client_config (set_client_arp index arp0 (set_clientid (Some id) c)));;
      modify (set_c_state INIT_SELECTING);;
      run_script None "deconfig";;
      change_mode LISTEN_RAW
  end.
End with_env.

(** The variables when the program starts; [garbage] is what [packet] holds. *)
Definition default_client_config : client_config_t :=
  ClientConfig false false false false "eth0" None (Some "/usr/share/udhcpc/default.script") None None 0 (replicate 6 0).
Definition client_begin (garbage : list Z) : dhcpc :=
  Dhcpc INIT_SELECTING 0 0 0 0 false 0 LISTEN_NONE 0 0 0 0 None garbage default_client_config 0 [].
