(* ===== verification/ClientSend.v ===== *)
(** * ClientSend: the messages the DHCP client sends (clientpacket.c)

    The options of each kind of message, and that a message is sent once or not
    at all. *)

From S2P Require Import Prelude DhcpTypes DhcpOptions DhcpPacket DhcpServer DhcpBehaviour ClientTypes ClientPacket.

(** ** The options of a message *)

Definition base_options (c : client_config_t) (type : Z) : list (Z * list Z) :=
  (DHCP_MESSAGE_TYPE, [type])
  :: (decode_opt <$> (option_list (clientid c) ++ option_list (client_hostname c) ++ [vendor_id])).
Definition asking (l : list (Z * list Z)) : list (Z * list Z) := l ++ [(DHCP_PARAM_REQ, request_codes)].

(** An option that the server does not take for one of its own. *)
Definition neutral (o : Z * list Z) : Prop :=
  plain_option o /\ fst o <> DHCP_MESSAGE_TYPE /\ fst o <> DHCP_REQUESTED_IP /\ fst o <> DHCP_SERVER_ID
  /\ fst o <> DHCP_LEASE_TIME.

(** The configuration of a client that can send: its identifier is set, what
    comes from the command line are options, and there is room for two addresses
    and the list of requests after them. *)
Record client_ok (c : client_config_t) : Prop := ClientOk {
  co_id : is_Some (clientid c);
  co_options : Forall (fun o => config_opt_ok o /\ neutral (decode_opt o))
                 (option_list (clientid c) ++ option_list (client_hostname c));
  co_arp : length (client_arp c) = 6%nat /\ Forall is_byte (client_arp c);
  co_room : (length (enc_opts (base_options c 0)) + 12 + 10 <= 308)%nat
}.

Lemma add_fits {T} l b o (d : T) : field_ok l b -> option_wf o ->
  Z.of_nat (length (enc_opts l) + length (snd o)) + 3 < 308 ->
  exists b' r, add_option_string b (Some (enc_opt o)) d = Ok (b', r) d /\ field_ok (l ++ [o]) b'.
Proof.
  intros [Hl Hb] Ho Hf. destruct (add_option_run l b o d Hl Ho) as (b' & Hr & Lb).
  assert (Hfit : opt_fits l o = true) by (unfold opt_fits; apply Z.ltb_lt; lia).
  eexists b', _. split; [exact Hr|]. split; [by unfold push_opt in Lb; rewrite Hfit in Lb|].
  by eapply add_option_bytes; [exact Hb|exact Ho|exact Hr].
Qed.

Lemma add_word_fits {T} l b code v (d : T) : field_ok l b -> 0 < code < 255 -> option_length code = 4 ->
  (length (enc_opts l) + 7 < 308)%nat ->
  exists b' r, add_simple_option b code v d = Ok (b', r) d /\ field_ok (l ++ [(code, be32 v)]) b'.
Proof.
  intros Hf Hc H4 Hl.
  assert (Hs : simple_opt code v = (code, be32 v)) by (unfold simple_opt; by rewrite H4).
  rewrite add_simple_option_string by (rewrite ?Hs, H4; done). rewrite Hs.
  apply add_fits; [done|by apply word_option_wf|simpl; lia].
Qed.

Lemma field_ok_end l b : field_ok l b -> exists x rest, b = enc_opts l ++ x :: rest
  /\ length b = 308%nat /\ Forall is_byte b.
Proof. intros [[Hs _ [rest Hb]] Hby]. by exists DHCP_END, rest. Qed.

(** The list of requests: seven codes and an end mark, where they have room. *)
Lemma add_requests_run {T} l b (d : T) : field_ok l b -> (length (enc_opts l) + 10 <= 308)%nat ->
  exists b', add_requests b d = Ok b' d /\ field_ok (asking l) b'.
Proof.
  intros [Hl Hb] Hroom. pose proof Hl as [Hs Hwf [rest Hr]].
  assert (Hrest : (9 <= length rest)%nat) by (rewrite Hr, length_app in Hs; simpl in Hs; lia).
  destruct rest as [|x0 [|x1 [|x2 [|x3 [|x4 [|x5 [|x6 [|x7 [|x8 rest]]]]]]]]]; simpl in Hrest; try lia.
  set (e := length (enc_opts l)).
  assert (Hrun : add_requests b d = Ok (enc_opts l ++ enc_opt (DHCP_PARAM_REQ, request_codes) ++ DHCP_END :: rest) d).
  { unfold add_requests. eapply run_bind; [by apply (end_option_run l)|].
    eapply run_bind; [apply in_bounds_run; exact (store_middle _ [DHCP_PARAM_REQ] [DHCP_END] _ b Hr eq_refl)|].
    eapply run_bind.
    { apply in_bounds_run. replace (Z.of_nat (length (enc_opts l)) + OPT_DATA)
        with (Z.of_nat (length (enc_opts l ++ [DHCP_PARAM_REQ; x0]))) by (rewrite length_app; unfold OPT_DATA; simpl; lia).
      apply (store_middle _ request_codes [x1; x2; x3; x4; x5; x6; x7] (x8 :: rest)); [by rewrite <- app_assoc|done]. }
    eapply run_bind.
    { apply in_bounds_run. replace (Z.of_nat (length (enc_opts l)) + OPT_LEN)
        with (Z.of_nat (length (enc_opts l ++ [DHCP_PARAM_REQ]))) by (rewrite length_app; unfold OPT_LEN; simpl; lia).
      apply (store_middle _ _ [x0] (request_codes ++ x8 :: rest)); [by rewrite <- !app_assoc|done]. }
    apply in_bounds_run.
    replace (Z.of_nat (length (enc_opts l)) + OPT_DATA + Z.of_nat (length request_codes))
      with (Z.of_nat (length (enc_opts l ++ enc_opt (DHCP_PARAM_REQ, request_codes))))
      by (rewrite length_app, enc_opt_length; unfold OPT_DATA; cbn [snd]; lia).
    rewrite (app_assoc _ (enc_opt _)). apply (store_middle _ [DHCP_END] [x8] rest); [by rewrite <- !app_assoc|done]. }
  eexists. split; [exact Hrun|]. split.
  - split.
    + rewrite Hr, !length_app in Hs. rewrite !length_app. cbn [length] in *. rewrite enc_opt_length.
      change (length (snd (DHCP_PARAM_REQ, request_codes))) with 7%nat. lia.
    + apply Forall_app. split; [done|]. apply Forall_singleton. split; [done|]. split; [vm_compute; lia|].
      repeat constructor; done.
    + exists rest. unfold asking. by rewrite enc_opts_snoc, <- app_assoc.
  - rewrite Hr in Hb. apply Forall_app in Hb as [Hb1 Hb2]. apply Forall_app. split; [done|]. apply Forall_app. split.
    + repeat constructor; done.
    + constructor; [done|]. do 10 apply Forall_cons in Hb2 as [_ Hb2]. done.
Qed.

(** ** The construction of a message *)

(** A message of the client [c]: its header, and the options [l]. *)
Record client_message (c : client_config_t) (type x ci : Z) (l : list (Z * list Z)) (p : dhcpMessage) : Prop :=
  ClientMessage {
  cm_op : m_op p = init_op type;
  cm_head : header_bytes_ok p;
  cm_zero : m_secs p = 0 /\ m_flags p = 0 /\ m_yiaddr p = 0 /\ m_siaddr p = 0 /\ m_giaddr p = 0;
  cm_xid : m_xid p = x;
  cm_ciaddr : m_ciaddr p = ci;
  cm_chaddr : m_chaddr p = client_arp c ++ replicate 10 0;
  cm_text : m_sname p = replicate 64 0 /\ m_file p = replicate 128 0;
  cm_cookie : m_cookie p = DHCP_MAGIC;
  cm_options : field_ok l (m_options p)
}.

Lemma client_message_options c type x ci l p l' b : client_message c type x ci l p -> field_ok l' b ->
  client_message c type x ci l' (set_m_options b p).
Proof. intros [] Hb. by split. Qed.

Lemma zeros_bytes n : Forall is_byte (replicate n 0).
Proof. apply Forall_replicate. done. Qed.

Lemma client_message_range c type x ci l p : client_ok c -> word x -> word ci ->
  client_message c type x ci l p -> message_range p.
Proof.
  intros Hc Hx Hci [H1 H2 (Z1 & Z2 & Z3 & Z4 & Z5) H3 H4 H5 [T1 T2] H6 [[] Hb]]. destruct (co_arp c Hc) as [Ha Hab].
  split; try done; rewrite ?Z1, ?Z2, ?Z3, ?Z4, ?Z5, ?H3, ?H4, ?H6; unfold word; try lia; try done.
  split; rewrite ?H5, ?T1, ?T2, ?length_app, ?length_replicate; auto using zeros_bytes; [lia|].
  apply Forall_app. split; [done|apply zeros_bytes].
Qed.

Lemma base_options_length c t t' : length (enc_opts (base_options c t)) = length (enc_opts (base_options c t')).
Proof. done. Qed.

Section sending.
Context `{E : ClientEnv}.

Lemma init_header_run {T} type (d : T) : 0 <= type < 256 -> exists p, init_header type d = Ok p d
  /\ m_op p = init_op type /\ field_ok [(DHCP_MESSAGE_TYPE, [type])] (m_options p)
  /\ p = DhcpMessage (init_op type) ETH_10MB ETH_10MB_LEN 0 0 0 0 0 0 0 0 (replicate 16 0) (replicate 64 0)
          (replicate 128 0) DHCP_MAGIC (m_options p).
Proof.
  intros Ht. unfold init_header.
  assert (Hs : simple_opt DHCP_MESSAGE_TYPE type = (DHCP_MESSAGE_TYPE, [type])).
  { change (simple_opt DHCP_MESSAGE_TYPE type) with (DHCP_MESSAGE_TYPE, [u8 type]). by rewrite u8_small. }
  assert (Hw : option_wf (DHCP_MESSAGE_TYPE, [type])) by (split; [done|split; [simpl; lia|by constructor]]).
  destruct (add_fits [] _ (DHCP_MESSAGE_TYPE, [type]) d field_ok_empty Hw ltac:(simpl; lia)) as (b & r & Hr & Hf).
  eexists. split; [|split; [|split]].
  - eapply run_bind; [rewrite add_simple_option_string by (rewrite ?Hs; done); rewrite Hs; exact Hr|reflexivity].
  - done.
  - exact Hf.
  - done.
Qed.

Lemma vendor_ok : config_opt_ok vendor_id /\ neutral (decode_opt vendor_id).
Proof.
  split.
  - split; [done|]. split; [done|]. split; [vm_compute; lia|]. repeat constructor; done.
  - split; [split; [done|intros _; vm_compute; lia]|]. done.
Qed.

Lemma client_init_run type x ci s : client_ok (client_config s) -> 0 <= type < 256 ->
  exists p, client_init_packet type x ci s = Ok p s
  /\ client_message (client_config s) type x ci (base_options (client_config s) type) p.
Proof.
  intros Hc Ht. set (c := client_config s) in *. destruct (init_header_run type s Ht) as (p & Hp & _ & Hf & Ep).
  destruct Hc as [[id Hid] Ho [Ha _] Hroom]. unfold base_options in *. rewrite Hid in Ho, Hroom |- *.
  cbn [option_list option_rect app] in Ho, Hroom |- *. apply Forall_cons in Ho as [[[Ei Wi] _] Ho].
  destruct vendor_ok as [[Ev Wv] _]. unfold client_init_packet.
  rewrite fmap_cons in Hroom |- *. rewrite !enc_opts_cons, !length_app in Hroom. rewrite enc_opt_length in Hroom.
  assert (Lv : length (snd (decode_opt vendor_id)) = 11%nat) by done. cbn [snd length] in Hroom.
  destruct (add_fits _ _ (decode_opt id) s Hf Wi) as (b1 & r1 & H1 & F1).
  { rewrite enc_opt_length in Hroom. cbn [enc_opts fmap list_fmap concat length enc_opt fst snd app]. lia. }
  cbn [app] in F1. rewrite <- Ei in H1.
  assert (Hhost : exists b2 r2, (match client_hostname c with Some h => add_option_string b1 (Some h) | None => mret (b1, 0) end) s
    = Ok (b2, r2) s /\ field_ok ((DHCP_MESSAGE_TYPE, [type]) :: decode_opt id :: (decode_opt <$> option_list (client_hostname c))) b2).
  { destruct (client_hostname c) as [h|]; [|by exists b1, 0].
    cbn [option_list option_rect app fmap list_fmap] in Ho, Hroom |- *. apply Forall_cons in Ho as [[[Eh Wh] _] _].
    rewrite !enc_opts_cons, !length_app in Hroom.
    destruct (add_fits _ _ (decode_opt h) s F1 Wh) as (b2 & r2 & H2 & F2).
    { rewrite !enc_opts_cons, !length_app, !enc_opt_length in *. cbn [snd length enc_opts fmap list_fmap concat] in *. lia. }
    rewrite <- Eh in H2. by exists b2, r2. }
  destruct Hhost as (b2 & r2 & H2 & F2).
  destruct (add_fits _ _ (decode_opt vendor_id) s F2 Wv) as (b3 & r3 & H3 & F3).
  { rewrite !enc_opts_cons, !length_app, !enc_opt_length in *. cbn [snd length] in *.
    rewrite fmap_app in Hroom. unfold enc_opts in *. rewrite fmap_app, concat_app, length_app in Hroom. lia. }
  rewrite <- Ev in H3. exists (with_ids x ci (take 6 (client_arp c) ++ drop 6 (m_chaddr p)) b3 p). split.
  - eapply run_bind; [exact Hp|]. eapply run_bind; [apply gets_run|]. fold c. rewrite Hid.
    eapply run_bind; [reflexivity|]. eapply run_bind; [exact H1|]. eapply run_bind; [exact H2|].
    eapply run_bind; [exact H3|]. reflexivity.
  - rewrite Ep. split; try done.
    + split; [|done]. cbn. unfold init_op. by repeat case_match.
    + cbn. by rewrite take_ge by lia.
    + cbn. by rewrite fmap_app.
Qed.

(** A packet is handed over once, or not at all and then -1 is returned. *)
Definition handed (o : dhcp_output) (r : Z) (s s' : dhcpc) : Prop :=
  exists outs, after outs s s' /\ ((outs = [] /\ r = -1) \/ outs = [Sent o]).

Ltac hand_over s :=
  unfold csys, client_out, mbind, M_bind, gets, modify, mret, M_ret; cbn -[raw_bytes message_bytes];
  repeat (match goal with |- context [cenv_sock_ok ?n] => destruct (cenv_sock_ok n); cbn -[raw_bytes message_bytes] end);
  eexists _, _; (split; [reflexivity|]);
  first [exists []; split; [unfold after; cbn; rewrite app_nil_r; by destruct s|by left]
        |eexists; split; [unfold after; cbn; reflexivity|by right]].

Lemma client_raw_run p sip sp dip dp mac i s : exists r s', client_raw_packet p sip sp dip dp mac i s = Ok r s'
  /\ handed (Raw_frame i (take 6 mac) (raw_bytes p sip sp dip dp)) r s s'.
Proof. unfold client_raw_packet. hand_over s. Qed.

Lemma client_kernel_run p sip sp dip dp s : exists r s', client_kernel_packet p sip sp dip dp s = Ok r s'
  /\ handed (Udp_payload sip sp dip dp (message_bytes p)) r s s'.
Proof. unfold client_kernel_packet. hand_over s. Qed.

Definition broadcast_output (c : client_config_t) (p : dhcpMessage) : dhcp_output :=
  Raw_frame (client_ifindex c) MAC_BCAST_ADDR (raw_bytes p INADDR_ANY CLIENT_PORT INADDR_BROADCAST SERVER_PORT).

Lemma broadcast_run p s : exists r s', broadcast_packet p s = Ok r s'
  /\ handed (broadcast_output (client_config s) p) r s s'.
Proof. apply client_raw_run. Qed.

(** ** The four messages *)

Definition discover_options (c : client_config_t) (requested : Z) : list (Z * list Z) :=
  asking (base_options c DHCPDISCOVER ++ if requested =? 0 then [] else [(DHCP_REQUESTED_IP, be32 requested)]).
Definition select_options (c : client_config_t) (server requested : Z) : list (Z * list Z) :=
  asking (base_options c DHCPREQUEST ++ [(DHCP_REQUESTED_IP, be32 requested); (DHCP_SERVER_ID, be32 server)]).
Definition renew_options (c : client_config_t) : list (Z * list Z) := asking (base_options c DHCPREQUEST).
Definition release_options (c : client_config_t) (server ip : Z) : list (Z * list Z) :=
  base_options c DHCPRELEASE ++ [(DHCP_REQUESTED_IP, be32 ip); (DHCP_SERVER_ID, be32 server)].

Lemma send_discover_run x ip s : client_ok (client_config s) ->
  exists r s' p, send_discover x ip s = Ok r s' /\ handed (broadcast_output (client_config s) p) r s s'
  /\ client_message (client_config s) DHCPDISCOVER x 0 (discover_options (client_config s) ip) p.
Proof.
  intros Hc. set (c := client_config s) in *. pose proof (co_room c Hc) as Hroom.
  destruct (client_init_run DHCPDISCOVER x 0 s Hc) as (p & Hp & Mp); [done|].
  fold c in Mp. rewrite (base_options_length c 0 DHCPDISCOVER) in Hroom.
  assert (Hreq : exists b r, (if ip =? 0 then mret (m_options p, 0) else add_simple_option (m_options p) DHCP_REQUESTED_IP ip) s
      = Ok (b, r) s /\ field_ok (base_options c DHCPDISCOVER ++ if ip =? 0 then [] else [(DHCP_REQUESTED_IP, be32 ip)]) b).
  { destruct (ip =? 0); [rewrite app_nil_r; eexists _, _; split; [done|apply Mp]|].
    apply add_word_fits; [apply Mp|done|done|lia]. }
  destruct Hreq as (b & r1 & H1 & F1). destruct (add_requests_run _ b s F1) as (b2 & H2 & F2).
  { destruct (ip =? 0); [rewrite app_nil_r|rewrite enc_opts_snoc, length_app, enc_opt_length; cbn [snd length be32]]; lia. }
  destruct (broadcast_run (set_m_options b2 p) s) as (r & s' & H3 & Hh). exists r, s', (set_m_options b2 p).
  split; [|split; [exact Hh|by eapply client_message_options]].
  unfold send_discover. eapply run_bind; [exact Hp|]. eapply run_bind; [exact H1|]. eapply run_bind; [exact H2|]. exact H3.
Qed.

(** Two addresses after the base. *)
Lemma two_words_run c type x ci p a b s : client_ok c -> client_message c type x ci (base_options c type) p ->
  exists opts, (forall B (k : list Z -> HM B), ('(o1, _) ← add_simple_option (m_options p) DHCP_REQUESTED_IP a;
      '(o2, _) ← add_simple_option o1 DHCP_SERVER_ID b; k o2) s = k opts s)
  /\ field_ok (base_options c type ++ [(DHCP_REQUESTED_IP, be32 a); (DHCP_SERVER_ID, be32 b)]) opts.
Proof.
  intros Hc Mp. pose proof (co_room c Hc) as Hroom. rewrite (base_options_length c 0 type) in Hroom.
  destruct (add_word_fits _ _ DHCP_REQUESTED_IP a s (cm_options _ _ _ _ _ _ Mp)) as (b1 & r1 & H1 & F1); [done|done|lia|].
  destruct (add_word_fits _ _ DHCP_SERVER_ID b s F1) as (b2 & r2 & H2 & F2); [done|done| |].
  { rewrite enc_opts_snoc, length_app, enc_opt_length. cbn [snd length be32]. lia. }
  exists b2. split; [|by rewrite <- app_assoc in F2]. intros B k. eapply run_bind; [exact H1|]. by eapply run_bind; [exact H2|].
Qed.

Lemma two_words_length c type a b : client_ok c ->
  (length (enc_opts (base_options c type ++ [(DHCP_REQUESTED_IP, be32 a); (DHCP_SERVER_ID, be32 b)])) + 10 <= 308)%nat.
Proof.
  intros Hc. pose proof (co_room c Hc) as Hroom. rewrite (base_options_length c 0 type) in Hroom.
  change [(DHCP_REQUESTED_IP, be32 a); (DHCP_SERVER_ID, be32 b)] with ([(DHCP_REQUESTED_IP, be32 a)] ++ [(DHCP_SERVER_ID, be32 b)]).
  rewrite app_assoc, !enc_opts_snoc, !length_app, !enc_opt_length. cbn [snd length be32]. lia.
Qed.

Lemma send_selecting_run x server ip s : client_ok (client_config s) ->
  exists r s' p, send_selecting x server ip s = Ok r s' /\ handed (broadcast_output (client_config s) p) r s s'
  /\ client_message (client_config s) DHCPREQUEST x 0 (select_options (client_config s) server ip) p.
Proof.
  intros Hc. destruct (client_init_run DHCPREQUEST x 0 s Hc) as (p & Hp & Mp); [done|].
  destruct (two_words_run _ _ _ _ p ip server s Hc Mp) as (b & H1 & F1).
  destruct (add_requests_run _ b s F1) as (b2 & H2 & F2); [by apply two_words_length|].
  destruct (broadcast_run (set_m_options b2 p) s) as (r & s' & H3 & Hh). exists r, s', (set_m_options b2 p).
  split; [|split; [exact Hh|by eapply client_message_options]].
  unfold send_selecting. eapply run_bind; [exact Hp|]. rewrite H1. eapply run_bind; [exact H2|]. exact H3.
Qed.

(** To the server, or to everyone when none is given. *)
Definition renew_output (c : client_config_t) (server ip : Z) (p : dhcpMessage) : dhcp_output :=
  if server =? 0 then broadcast_output c p
  else Udp_payload ip CLIENT_PORT server SERVER_PORT (message_bytes p).

Lemma send_renew_run x server ip s : client_ok (client_config s) ->
  exists r s' p, send_renew x server ip s = Ok r s' /\ handed (renew_output (client_config s) server ip p) r s s'
  /\ client_message (client_config s) DHCPREQUEST x ip (renew_options (client_config s)) p.
Proof.
  intros Hc. pose proof (co_room _ Hc) as Hroom. rewrite (base_options_length _ 0 DHCPREQUEST) in Hroom.
  destruct (client_init_run DHCPREQUEST x ip s Hc) as (p & Hp & Mp); [done|].
  destruct (add_requests_run _ _ s (cm_options _ _ _ _ _ _ Mp)) as (b2 & H2 & F2); [lia|].
  assert (Hsend : exists r s', (if negb (server =? 0) then client_kernel_packet (set_m_options b2 p) ip CLIENT_PORT server SERVER_PORT
      else broadcast_packet (set_m_options b2 p)) s = Ok r s' /\ handed (renew_output (client_config s) server ip (set_m_options b2 p)) r s s').
  { unfold renew_output. destruct (server =? 0); [apply broadcast_run|apply client_kernel_run]. }
  destruct Hsend as (r & s' & H3 & Hh). exists r, s', (set_m_options b2 p).
  split; [|split; [exact Hh|by eapply client_message_options]].
  unfold send_renew. eapply run_bind; [exact Hp|]. eapply run_bind; [exact H2|]. exact H3.
Qed.

Lemma send_release_run server ip s : client_ok (client_config s) -> ClientLaws E ->
  exists r s0 s' p x, send_release server ip s = Ok r s' /\ after [] s s0 /\ word x
  /\ handed (Udp_payload ip CLIENT_PORT server SERVER_PORT (message_bytes p)) r s0 s'
  /\ client_message (client_config s) DHCPRELEASE x ip (release_options (client_config s) server ip) p.
Proof.
  intros Hc HL. destruct (csys_after cenv_rand s) as (x & s0 & Hx & A0 & n & ->).
  assert (Hc0 : client_config s0 = client_config s) by (by rewrite A0). rewrite <- Hc0 in Hc.
  destruct (client_init_run DHCPRELEASE (cenv_rand n) ip s0 Hc) as (p & Hp & Mp); [done|].
  destruct (two_words_run _ _ _ _ p ip server s0 Hc Mp) as (b & H1 & F1).
  destruct (client_kernel_run (set_m_options b p) ip CLIENT_PORT server SERVER_PORT s0) as (r & s' & H3 & Hh).
  exists r, s0, s', (set_m_options b p), (cenv_rand n). rewrite <- Hc0. split.
  { unfold send_release, random_xid. eapply run_bind; [exact Hx|]. eapply run_bind; [exact Hp|]. by rewrite H1. }
  split; [done|]. split; [pose proof (cenv_rand_range n); unfold word; lia|]. split; [exact Hh|by eapply client_message_options].
Qed.
End sending.
