(* ===== verification/ClientLoop.v ===== *)
(** * ClientLoop: the DHCP client as a state machine (dhcpc.c)

    The states of the program and their steps as an inductive relation, the
    invariant of its variables, and that each turn of the main loop is a step
    that keeps the invariant. *)

From S2P Require Import Prelude DhcpTypes DhcpOptions DhcpPacket DhcpBehaviour ClientTypes ClientPacket ClientMachine ClientSend.

(** ** The abstract machine *)

Inductive client_cause : Type :=
  | By_timeout
  | By_offer (p : dhcpMessage)
  | By_ack (p : dhcpMessage)
  | By_nak (p : dhcpMessage)
  | By_renew      (* SIGUSR1 *)
  | By_release.   (* SIGUSR2 *)

(** The states in which an answer to a request is awaited, and those in which
    the address is in use. *)
Definition awaits_answer (st : client_state) : Prop :=
  st = REQUESTING \/ st = RENEW_REQUESTED \/ st = RENEWING \/ st = REBINDING.
Definition has_address (st : client_state) : Prop := st = BOUND \/ st = RENEWING \/ st = REBINDING.

Inductive client_step : client_state -> client_cause -> client_state -> Prop :=
  | step_offer p : client_step INIT_SELECTING (By_offer p) REQUESTING
  | step_ack st p : awaits_answer st -> client_step st (By_ack p) BOUND
  | step_nak st p : awaits_answer st -> client_step st (By_nak p) INIT_SELECTING
  | step_give_up st : st = REQUESTING \/ st = RENEW_REQUESTED -> client_step st By_timeout INIT_SELECTING
  | step_renew_time : client_step BOUND By_timeout RENEWING
  | step_rebind_time st : st = BOUND \/ st = RENEWING -> client_step st By_timeout REBINDING
  | step_lease_lost : client_step REBINDING By_timeout INIT_SELECTING
  | step_renew_now st : has_address st -> client_step st By_renew RENEW_REQUESTED
  | step_start_over st : st = RENEW_REQUESTED \/ st = REQUESTING \/ st = RELEASED -> client_step st By_renew INIT_SELECTING
  | step_release st : client_step st By_release RELEASED.

(** The socket that each state listens on. *)
Definition mode_of (st : client_state) : listening :=
  match st with
  | INIT_SELECTING | REQUESTING | INIT_REBOOT => LISTEN_RAW
  | RENEWING | REBINDING | RENEW_REQUESTED => LISTEN_KERNEL
  | BOUND | RELEASED => LISTEN_NONE
  end.

Lemma wpf_opt_byte {T} F p f k (Q : Z -> T -> Prop) s : F Out_of_bounds -> (forall b, Q b s) -> wpf F (opt_byte p f k) Q s.
Proof. intros HF HQ. unfold opt_byte. apply wpf_if; intros _; [by apply wpf_in_bounds|by apply wpf_fail]. Qed.

(** ** The invariant *)

Record client_inv (s : dhcpc) : Prop := ClientInv {
  ci_config : client_ok (client_config s);
  ci_mode : listen_mode s = mode_of (c_state s);
  ci_state : c_state s <> INIT_REBOOT;
  ci_lease : has_address (c_state s) -> is_Some (c_lease s);
  ci_lease_word : forall l, c_lease s = Some l -> word l;
  ci_packet : length (c_packet s) = 548%nat /\ Forall is_byte (c_packet s);
  ci_num : 0 <= packet_num s <= 3;
  ci_ip : word (requested_ip s);
  ci_server : word (server_addr s);
  ci_xid : word (xid s);
  ci_timeout : word (c_timeout s);
  ci_counter : counter_fits (bootp_cnt_offer s) = true
}.

Lemma inv_after outs s s' : after outs s s' -> client_inv s -> client_inv s'.
Proof. intros -> []. by split. Qed.

Lemma u32_word v : word (u32 v).
Proof. apply u32_range. Qed.

(** Assignments that leave the invariant alone, by its fields. *)
Ltac inv_fields := cbn [c_state requested_ip server_addr c_timeout packet_num c_fd bootp_cnt_offer listen_mode t1 t2 xid
    c_start c_lease c_packet client_config c_calls c_out
    set_c_state set_requested_ip set_server_addr set_c_timeout set_packet_num set_c_fd set_bootp_cnt_offer set_listen_mode
    set_t1 set_t2 set_xid set_c_start set_c_lease set_c_packet set_client_config set_c_calls set_c_out mode_of].
Ltac solve_inv := split; inv_fields; first [assumption|done|apply u32_word|by intros [?|[?|?]]|idtac].

Section with_env.
Context `{E : ClientEnv} {HL : ClientLaws E}.

(** The faults of a timeout, of a packet and of a signal. *)
Definition exits (f : fault) : Prop := f = Died.
Definition exits_or_bounds (f : fault) : Prop := f = Died \/ f = Out_of_bounds.
Definition no_dhcpc_log (f : fault) : Prop := f = Null_deref /\ exists n, cenv_log n = false.
Definition exits_or_log (f : fault) : Prop := f = Died \/ no_dhcpc_log f.

Lemma wpf_exit {A} F (Q : A -> dhcpc -> Prop) s : F Died -> counter_fits (bootp_cnt_offer s) = true -> wpf F exit_client Q s.
Proof. intros HF Hc. unfold exit_client. apply wpf_bind, wpf_gets. rewrite Hc. by apply wpf_fail. Qed.

Lemma wpf_csys {A} F (f : nat -> A) (Q : A -> dhcpc -> Prop) s :
  (forall k n, Q (f k) (set_c_calls n s)) -> wpf F (csys f) Q s.
Proof. intros H. by eapply wpf_run; [reflexivity|]. Qed.

Lemma wpf_client_out F o (Q : unit -> dhcpc -> Prop) s : Q tt (set_c_out (c_out s ++ [o]) s) -> wpf F (client_out o) Q s.
Proof. done. Qed.

(** A computation that changes nothing but the outputs. *)
Lemma wpf_run_script F packet name (Q : unit -> dhcpc -> Prop) s :
  (forall n o, Q tt (set_c_calls n (set_c_out o s))) -> wpf F (run_script packet name) Q s.
Proof.
  intros H. unfold run_script. wpf_steps. destruct (script (client_config s)).
  - wpf_steps. apply wpf_csys. intros k n. wpf_steps; [apply wpf_client_out; exact (H n _)|].
    specialize (H n (c_out s)). by destruct s.
  - wpf_steps. specialize (H (c_calls s) (c_out s)). by destruct s.
Qed.

Lemma wpf_log (Q : unit -> dhcpc -> Prop) s : (forall n, Q tt (set_c_calls n s)) -> wpf exits_or_log log_line Q s.
Proof.
  intros H. unfold log_line. apply wpf_bind. eapply wpf_run; [reflexivity|].
  destruct (cenv_log (c_calls s)) eqn:Hlog; [by apply wpf_ret, H|]. apply wpf_fail. right. split; [done|]. by eexists.
Qed.

Lemma wpf_background F (Q : unit -> dhcpc -> Prop) s : F Died -> counter_fits (bootp_cnt_offer s) = true ->
  (forall n o, Q tt (set_client_config (set_foreground true (client_config s)) (set_c_calls n (set_c_out o s)))) ->
  wpf F background Q s.
Proof.
  intros HF Hc H. unfold background. wpf_steps. apply wpf_csys. intros k n. wpf_steps; [|by apply wpf_exit].
  apply wpf_client_out. wpf_steps. exact (H n _).
Qed.

Lemma client_ok_foreground c v : client_ok c -> client_ok (set_foreground v c).
Proof. intros []. by split. Qed.

Lemma inv_foreground s : client_inv s -> client_inv (set_client_config (set_foreground true (client_config s)) s).
Proof. intros []. split; try done. by apply client_ok_foreground. Qed.

(** Sending keeps the invariant, and everything but the outputs. *)
Definition sent_quietly {A} (m : HM A) : Prop :=
  forall s, client_ok (client_config s) -> exists r s' outs, m s = Ok r s' /\ after outs s s'.

Lemma handed_after o r s s' : handed o r s s' -> exists outs, after outs s s'.
Proof. intros (outs & Ha & _). by exists outs. Qed.

Lemma discover_quiet x ip : sent_quietly (send_discover x ip).
Proof.
  intros s Hc. destruct (send_discover_run x ip s Hc) as (r & s' & p & Hr & [outs Ha]%handed_after & _). by exists r, s', outs.
Qed.
Lemma selecting_quiet x sv ip : sent_quietly (send_selecting x sv ip).
Proof.
  intros s Hc. destruct (send_selecting_run x sv ip s Hc) as (r & s' & p & Hr & [outs Ha]%handed_after & _). by exists r, s', outs.
Qed.
Lemma renew_quiet x sv ip : sent_quietly (send_renew x sv ip).
Proof.
  intros s Hc. destruct (send_renew_run x sv ip s Hc) as (r & s' & p & Hr & [outs Ha]%handed_after & _). by exists r, s', outs.
Qed.
Lemma release_quiet sv ip : sent_quietly (send_release sv ip).
Proof.
  intros s Hc. destruct (send_release_run sv ip s Hc HL) as (r & s0 & s' & p & x & Hr & A0 & _ & [outs Ha]%handed_after & _).
  exists r, s', outs. split; [exact Hr|]. by apply (after_trans [] outs s s0 s').
Qed.

Lemma after_elim outs s s' : after outs s s' -> exists n o, s' = set_c_calls n (set_c_out o s).
Proof. intros ->. by eexists _, _. Qed.

Lemma wpf_quiet {A} F (m : HM A) (Q : A -> dhcpc -> Prop) s : sent_quietly m -> client_ok (client_config s) ->
  (forall r n o, Q r (set_c_calls n (set_c_out o s))) -> wpf F m Q s.
Proof.
  intros Hm Hi HQ. destruct (Hm s Hi) as (r & s' & outs & Hr & (n & o & ->)%after_elim). by eapply wpf_run; [exact Hr|].
Qed.

(** ** A timeout *)

Definition timeout_post (s : dhcpc) (_ : unit) (s' : dhcpc) : Prop :=
  client_inv s' /\ (c_state s' = c_state s \/ client_step (c_state s) By_timeout (c_state s')).

Lemma wpf_selecting now s : c_state s = INIT_SELECTING -> client_inv s -> wpf exits (selecting_timeout now) (timeout_post s) s.
Proof.
  intros Hs [C1 C2 C3 C4 C5 C6 C7 C8 C9 C10 C11 C12]. unfold selecting_timeout, random_xid. wpf_steps.
  - wpf_steps. apply wpf_csys. intros k n. pose proof (cenv_rand_range k) as Hk. wpf_steps.
    apply wpf_quiet; [apply discover_quiet|done|]. intros r n1 o1. wpf_steps. bool_to_prop.
    split; [|by left]. solve_inv; inv_fields; unfold word; lia.
  - apply wpf_quiet; [apply discover_quiet|done|]. intros r n1 o1. wpf_steps. bool_to_prop.
    split; [|by left]. solve_inv; inv_fields; lia.
  - apply wpf_background; [done|done|]. intros n o. wpf_steps. split; [|by left]. solve_inv. by apply client_ok_foreground.
  - by apply wpf_exit.
  - wpf_steps. split; [|by left]. solve_inv.
Qed.

Lemma wpf_requesting now s : c_state s = REQUESTING \/ c_state s = RENEW_REQUESTED -> client_inv s ->
  wpf exits (requesting_timeout now) (timeout_post s) s.
Proof.
  intros Hs [C1 C2 C3 C4 C5 C6 C7 C8 C9 C10 C11 C12].
  assert (Hinit : forall n o, wpf exits (to_init now) (timeout_post s) (set_c_calls n (set_c_out o s))).
  { intros n o. unfold to_init, change_mode. wpf_steps. split; [|right; inv_fields; by apply step_give_up]. solve_inv. }
  unfold requesting_timeout. wpf_steps.
  - apply wpf_quiet; [apply renew_quiet|done|]. intros r n1 o1. wpf_steps. bool_to_prop.
    split; [|by left]. solve_inv; inv_fields; lia.
  - apply wpf_quiet; [apply selecting_quiet|done|]. intros r n1 o1. wpf_steps. bool_to_prop.
    split; [|by left]. solve_inv; inv_fields; lia.
  - apply wpf_run_script. intros n o. apply Hinit.
  - specialize (Hinit (c_calls s) (c_out s)). by destruct s.
Qed.

Lemma wpf_the_lease F (Q : Z -> dhcpc -> Prop) s l : c_lease s = Some l -> Q l s -> wpf F the_lease Q s.
Proof. intros Hl HQ. unfold the_lease. wpf_steps. rewrite Hl. by wpf_steps. Qed.

(** From [s0], BOUND or RENEWING, with the socket of the kernel open. *)
Lemma wpf_renewing now s0 s : client_inv s -> c_state s = RENEWING -> c_state s0 = BOUND \/ c_state s0 = RENEWING ->
  wpf exits (renewing_timeout now) (timeout_post s0) s.
Proof.
  intros [C1 C2 C3 C4 C5 C6 C7 C8 C9 C10 C11 C12] Hs Hs0. unfold renewing_timeout. wpf_steps.
  destruct C4 as [l Hl]; [rewrite Hs; by right; left|]. eapply wpf_the_lease; [exact Hl|]. wpf_steps.
  - split; [|right; inv_fields; by apply step_rebind_time]. rewrite Hs in C2. solve_inv.
  - apply wpf_quiet; [apply renew_quiet|done|]. intros r n1 o1. wpf_steps.
    split; [solve_inv|]. inv_fields. rewrite Hs. destruct Hs0 as [->| ->]; [right; apply step_renew_time|by left].
Qed.

Lemma wpf_rebinding now s : c_state s = REBINDING -> client_inv s -> wpf exits (rebinding_timeout now) (timeout_post s) s.
Proof.
  intros Hs [C1 C2 C3 C4 C5 C6 C7 C8 C9 C10 C11 C12]. unfold rebinding_timeout, change_mode. wpf_steps.
  destruct C4 as [l Hl]; [rewrite Hs; by right; right|]. eapply wpf_the_lease; [exact Hl|]. wpf_steps.
  - apply wpf_run_script. intros n o. wpf_steps. split; [solve_inv|]. right. inv_fields. rewrite Hs. apply step_lease_lost.
  - apply wpf_quiet; [apply renew_quiet|done|]. intros r n1 o1. wpf_steps. split; [solve_inv|by left].
Qed.

Lemma wpf_on_timeout now s : client_inv s -> wpf exits (on_timeout now) (timeout_post s) s.
Proof.
  intros Hi. unfold on_timeout, change_mode. wpf_steps. destruct (c_state s) eqn:Hs.
  - by apply wpf_selecting.
  - apply wpf_requesting; auto.
  - wpf_steps. apply wpf_renewing; [|done|by left]. destruct Hi as [C1 C2 C3 C4 C5 C6 C7 C8 C9 C10 C11 C12]. rewrite Hs in *. solve_inv. intros _. apply C4. by left.
  - apply wpf_renewing; [done|done|by right].
  - by apply wpf_rebinding.
  - by destruct (ci_state s Hi).
  - apply wpf_requesting; auto.
  - wpf_steps. split; [|by left]. destruct Hi. solve_inv.
Qed.

(** ** A packet *)

Definition packet_bytes (b : list Z) : Prop := length b = 548%nat /\ Forall is_byte b.

Lemma span_ok n off b : (n + off <= length b)%nat -> Forall is_byte b -> length (span n off b) = n /\ Forall is_byte (span n off b).
Proof.
  intros Hl Hb. unfold span. split; [rewrite length_take, length_drop; lia|]. by apply Forall_take, Forall_drop.
Qed.

Lemma span_word b off : (4 + off <= length b)%nat -> Forall is_byte b -> word (of_be (span 4 off b)).
Proof.
  intros Hl Hb. destruct (span_ok 4 off b Hl Hb) as [H1 H2]. pose proof (of_be_range _ H2) as Hr. by rewrite H1 in Hr.
Qed.

Lemma message_of_ok b : packet_bytes b ->
  message_ok (message_of b) /\ header_bytes_ok (message_of b) /\ word (m_yiaddr (message_of b)) /\ word (m_xid (message_of b)).
Proof.
  intros [Hl Hb].
  assert (Hspan : forall n off, (n + off <= 548)%nat -> length (span n off b) = n /\ Forall is_byte (span n off b))
    by (intros; apply span_ok; [lia|done]).
  assert (Hbyte : forall off, (1 + off <= 548)%nat -> is_byte (of_be (span 1 off b))).
  { intros off Ho. destruct (Hspan 1%nat off Ho) as [H1 H2]. pose proof (of_be_range _ H2) as Hr. by rewrite H1 in Hr. }
  split_and!; [|split_and!; apply Hbyte; lia|apply span_word; [lia|done]..].
  split; cbn [message_of m_chaddr m_sname m_file m_options]; apply Hspan; lia.
Qed.

Lemma wpf_opt_word {T} F p ptr (Q : Z -> T -> Prop) s : F Out_of_bounds -> message_ok p -> (forall w, word w -> Q w s) ->
  wpf F (opt_word p ptr) Q s.
Proof.
  intros HF Hp HQ. unfold opt_word. apply wpf_bind, wpf_in_bounds; [done|]. intros a Ha. apply wpf_ret, HQ.
  pose proof (of_be_range _ (load_bytes _ _ _ _ Ha (proj2 (field_bytes_ok p (fst ptr) Hp)))) as Hr.
  by rewrite (load_length _ _ _ _ Ha) in Hr.
Qed.

Lemma wpf_get_option F p code (Q : option opt_ptr -> dhcpc -> Prop) s : F Out_of_bounds -> message_ok p ->
  (forall r, client_get_option p code s = Ok r s -> Q r s) -> wpf F (client_get_option p code) Q s.
Proof.
  intros HF Hp HQ. pose proof (client_get_option_ends p code s Hp) as H. unfold wpf.
  destruct (client_get_option p code s) as [[[f off]|] s'|e]; cbn in H; [| |by subst e].
  - destruct H as [-> _]. by apply HQ.
  - subst s'. by apply HQ.
Qed.

(** A received packet only replaces [packet]. *)
Definition received_post (s : dhcpc) (_ : Z) (s' : dhcpc) : Prop := exists b, packet_bytes b /\ s' = set_c_packet b s.

Lemma received_same s r : packet_bytes (c_packet s) -> received_post s r s.
Proof. intros H. exists (c_packet s). split; [done|]. by destruct s. Qed.

Definition input_bytes (input : option (list Z)) : Prop := forall b, input = Some b -> Forall is_byte b.

Lemma padded n b : Forall is_byte b -> length (take n b ++ replicate (n - length b) 0) = n
  /\ Forall is_byte (take n b ++ replicate (n - length b) 0).
Proof.
  intros Hb. split; [rewrite length_app, length_take, length_replicate; lia|].
  apply Forall_app. split; [by apply Forall_take|apply zeros_bytes].
Qed.

Lemma wpf_raw input s : input_bytes input -> packet_bytes (c_packet s) ->
  wpf exits_or_bounds (get_raw_packet input) (received_post s) s.
Proof.
  intros Hin Hs. unfold get_raw_packet. destruct input as [frame|]; [|by apply wpf_ret, received_same].
  destruct (padded 576 frame (Hin _ eq_refl)) as [Hl Hb]. cbv zeta.
  set (b := take 576 frame ++ replicate (576 - length frame) 0) in *. clearbody b. clear Hin.
  repeat (apply wpf_if; intros ?; [first [by apply wpf_ret, received_same|apply wpf_fail; by right]|]).
  wpf_steps; bool_to_prop; unfold udp_packet_size in *;
  (exists (span (Z.to_nat (of_be (span 2 2 b) - 28)) 28 b ++ drop (Z.to_nat (of_be (span 2 2 b) - 28)) (c_packet s));
   split; [|done]; destruct Hs as [Hs1 Hs2];
   destruct (span_ok (Z.to_nat (of_be (span 2 2 b) - 28)) 28 b) as [L1 B1]; [lia|done|]; split;
   [rewrite length_app, length_drop, L1; lia|apply Forall_app; split; [done|by apply Forall_drop]]).
Qed.

Lemma wpf_kernel input s : input_bytes input -> packet_bytes (c_packet s) ->
  wpf exits_or_bounds (client_get_packet input) (received_post s) s.
Proof.
  intros Hin Hs. unfold client_get_packet. destruct input as [bytes|].
  2: { wpf_steps. eexists. split; [|done]. split; [by rewrite length_replicate|apply zeros_bytes]. }
  pose proof (padded 548 bytes (Hin _ eq_refl)) as Hb. destruct (message_of_ok _ Hb) as (Hok & Hh & _).
  fold (received bytes) in Hok, Hh. cbv zeta.
  assert (Hdone : forall v, received_post s v (set_c_packet (take 548 bytes ++ replicate (548 - length bytes) 0) s))
    by (intros v; eexists; by split).
  wpf_steps; [by apply Hdone| |].
  2: { wpf_steps. apply Hdone. }
  apply wpf_get_option; [by right|done|]. intros [[f off]|] _; wpf_steps; [|apply Hdone].
  apply wpf_opt_byte; [by right|]. intros len. wpf_steps; [|apply Hdone].
  set (n := Z.to_nat len). clearbody n. generalize broken_vendor as text. intros text.
  assert (Hcmp : forall (Q : bool -> dhcpc -> Prop) s' k, (forall v, Q v s') ->
    wpf exits_or_bounds (strncmp_eq n (received bytes) f k text) Q s').
  { intros Q s' k HQ. revert k text. induction n as [|n IH]; intros k text; [apply HQ|].
    destruct text as [|c text]; cbn [strncmp_eq]; (apply wpf_bind, wpf_opt_byte; [by right|]; intros b; wpf_steps; auto). }
  apply Hcmp. intros v. wpf_steps; [|apply Hdone].
  eexists. split; [|reflexivity]. apply message_bytes_ok; [by destruct Hok; split|done].
Qed.

(** ** A message of the transaction *)

(** The type of a message is in its message type option. *)
Definition message_is (p : dhcpMessage) (type : Z) : Prop := exists ptr s,
  client_get_option p DHCP_MESSAGE_TYPE s = Ok (Some ptr) s /\ opt_byte p (fst ptr) (snd ptr) s = Ok type s.
(** The message is for this client and for the transaction under way. *)
Definition addressed (p : dhcpMessage) (s : dhcpc) : Prop :=
  m_xid p = xid s /\ take 6 (m_chaddr p) = take 6 (client_arp (client_config s)).

(** What a message must be to cause a step, and what the step takes from it. *)
Definition packet_cause (s s' : dhcpc) (cause : client_cause) : Prop :=
  match cause with
  | By_offer p => p = message_of (c_packet s') /\ addressed p s /\ message_is p DHCPOFFER
                  /\ requested_ip s' = m_yiaddr p /\ xid s' = xid s
  | By_ack p => p = message_of (c_packet s') /\ addressed p s /\ message_is p DHCPACK /\ requested_ip s' = m_yiaddr p
                /\ exists l, c_lease s' = Some l /\ t1 s' = l / 2 /\ c_timeout s' = u32 (t1 s' + c_start s')
  | By_nak p => p = message_of (c_packet s') /\ m_xid p = xid s /\ message_is p DHCPNAK /\ requested_ip s' = 0
  | _ => False
  end.

Definition packet_post (s : dhcpc) (_ : unit) (s' : dhcpc) : Prop :=
  client_inv s' /\ (c_state s' = c_state s
                    \/ exists cause, client_step (c_state s) cause (c_state s') /\ packet_cause s s' cause).

Lemma wpf_has_text F off (Q : bool -> dhcpc -> Prop) s : F Out_of_bounds -> (forall b, Q b s) -> wpf F (has_text off) Q s.
Proof. intros HF HQ. unfold has_text. wpf_steps. apply wpf_in_bounds; [done|]. intros ? _. by wpf_steps. Qed.

Lemma wpf_bootp (Q : bool -> dhcpc -> Prop) s : counter_fits (bootp_cnt_offer s) = true ->
  (forall n v, counter_fits n = true -> Q false (set_c_timeout (u32 v) (set_bootp_cnt_offer n s))) ->
  (forall n, Q true (set_bootp_cnt_offer n s)) ->
  wpf exits_or_bounds bootp_pass Q s.
Proof.
  intros Hc HF HT. assert (HT' : Q true s) by (specialize (HT (bootp_cnt_offer s)); by destruct s).
  assert (Hcount : wpf exits_or_bounds (n ← gets bootp_cnt_offer;
    modify (set_bootp_cnt_offer (s32 (n + 1)));;
    if 2 <=? s32 (n + 1) then mret true
    else modify (fun s => set_c_timeout (u32 (c_timeout s + 2)) s);; mret false) Q s).
  { unfold counter_fits in Hc. bool_to_prop. assert (s32 (bootp_cnt_offer s + 1) = bootp_cnt_offer s + 1) by (apply s32_small; lia).
    wpf_steps; [apply HT|]. apply (HF _ (c_timeout s + 2)). unfold counter_fits. bool_to_prop. lia. }
  unfold bootp_pass. apply wpf_bind, wpf_has_text; [by right|]. intros [|]; apply wpf_bind; [apply wpf_ret; exact Hcount|].
  apply wpf_has_text; [by right|]. intros [|]; [exact Hcount|by wpf_steps].
Qed.

Lemma wpf_for_us F p (Q : bool -> dhcpc -> Prop) s :
  (forall b, (b = true -> take 6 (m_chaddr p) = take 6 (client_arp (client_config s))) -> Q b s) -> wpf F (for_us p) Q s.
Proof. intros HQ. unfold for_us. wpf_steps. apply HQ. by intros H%bool_decide_eq_true. Qed.

Lemma opt_byte_run_state {T U} p f k (s : T) (s' : U) b : opt_byte p f k s = Ok b s -> opt_byte p f k s' = Ok b s'.
Proof. rewrite !opt_byte_value. destruct (if 0 <=? k then _ else None); [|done]. by intros [= ->]. Qed.

Lemma wpf_type_byte p ptr s0 (Q : Z -> dhcpc -> Prop) s : client_get_option p DHCP_MESSAGE_TYPE s0 = Ok (Some ptr) s0 ->
  (forall type, message_is p type -> Q type s) -> wpf exits_or_bounds (opt_byte p (fst ptr) (snd ptr)) Q s.
Proof.
  intros Hp HQ. unfold wpf. destruct (opt_byte p (fst ptr) (snd ptr) s) as [type s'|e] eqn:Hb.
  - assert (s' = s) as -> by (rewrite opt_byte_value in Hb; destruct (if 0 <=? snd ptr then _ else None); [by injection Hb|done]).
    apply HQ. exists ptr, s0. split; [done|]. by eapply opt_byte_run_state.
  - rewrite opt_byte_value in Hb. destruct (if 0 <=? snd ptr then _ else None); [done|]. injection Hb as <-. by right.
Qed.

(** The words of the message in [packet]. *)
Lemma packet_words s : client_inv s -> let p := message_of (c_packet s) in
  message_ok p /\ word (m_yiaddr p) /\ word (m_xid p).
Proof. intros Hi. destruct (message_of_ok (c_packet s) (ci_packet s Hi)) as (H1 & _ & H2 & H3). done. Qed.

Lemma wpf_on_offer ptr now s : client_inv s -> c_state s = INIT_SELECTING -> let p := message_of (c_packet s) in
  m_xid p = xid s -> client_get_option p DHCP_MESSAGE_TYPE s = Ok (Some ptr) s ->
  wpf exits_or_bounds (on_offer p ptr now) (packet_post s) s.
Proof.
  intros Hi Hs p Hx Hptr. destruct (packet_words s Hi) as (Hok & Hy & Hxw). fold p in Hok, Hy, Hxw.
  assert (Hkeep : forall n v, counter_fits n = true -> packet_post s tt (set_c_timeout (u32 v) (set_bootp_cnt_offer n s))).
  { intros n v Hn. split; [|by left]. destruct Hi. solve_inv. }
  assert (Hsame : packet_post s tt s) by (split; [done|by left]).
  unfold on_offer. apply wpf_bind. apply (wpf_type_byte p ptr s); [done|]. intros type Htype.
  wpf_steps; [done|]. apply wpf_for_us. intros us Hus. wpf_steps; [done|]. bool_to_prop. subst type us.
  apply wpf_bootp; [apply Hi|intros n v Hn; wpf_steps; [by apply Hkeep|done]|]. intros n. wpf_steps; [done|].
  apply wpf_get_option; [by right|done|]. intros [sid|] _; wpf_steps.
  2: { split; [|by left]. destruct Hi. solve_inv. }
  apply wpf_opt_word; [by right|done|]. intros w Hw. wpf_steps. split.
  - destruct Hi. rewrite Hs in *. solve_inv; inv_fields; lia.
  - right. exists (By_offer p). inv_fields. rewrite Hs. split; [apply step_offer|]. cbn. split_and!; auto. split; [done|by apply Hus].
Qed.

(** A step with a cause, whatever else changes in the outputs. *)
Lemma wpf_on_ack now s : client_inv s -> awaits_answer (c_state s) -> let p := message_of (c_packet s) in
  m_xid p = xid s -> message_is p DHCPACK -> wpf exits_or_bounds (on_ack p now) (packet_post s) s.
Proof.
  intros Hi Hs p Hx Htype. destruct (packet_words s Hi) as (Hok & Hy & _). fold p in Hok, Hy.
  unfold on_ack, change_mode. apply wpf_bind, wpf_for_us. intros us Hus. wpf_steps; [split; [done|by left]|].
  bool_to_prop. subst us. apply wpf_get_option; [by right|done|]. intros temp _.
  assert (Hlease : forall lease, word lease -> wpf exits_or_bounds
    (modify (set_c_lease (Some lease));; modify (set_t1 (lease / 2));;
     modify (set_t2 (Z.shiftr (u32 (lease * 7)) 3));; modify (set_c_start (u32 now));;
     modify (fun s => set_c_timeout (u32 (t1 s + c_start s)) s);; modify (set_requested_ip (m_yiaddr p));;
     state ← gets c_state;
     run_script (Some p) (if bool_decide (state = RENEWING \/ state = REBINDING) then "renew" else "bound");;
     modify (set_c_state BOUND);; (modify (set_c_fd false);; modify (set_listen_mode LISTEN_NONE));;
     c ← gets client_config;
     if quit_after_lease c then exit_client else if negb (foreground c) then background else mret tt) (packet_post s) s).
  { intros lease Hl. wpf_steps. apply wpf_run_script. intros n o. wpf_steps; [by apply wpf_exit; [left|destruct Hi]| |].
    - apply wpf_background; [by left|by destruct Hi|]. intros n1 o1. split.
      + destruct Hi. solve_inv; [by apply client_ok_foreground|by intros ? [= <-]].
      + right. exists (By_ack p). split; [by apply step_ack|]. cbn. split_and!; auto; [split; [done|by apply Hus]|by eexists].
    - split.
      + destruct Hi. solve_inv. by intros ? [= <-].
      + right. exists (By_ack p). split; [by apply step_ack|]. cbn. split_and!; auto; [split; [done|by apply Hus]|by eexists]. }
  destruct temp as [ptr|]; apply wpf_bind.
  - apply wpf_opt_word; [by right|done|]. exact Hlease.
  - apply wpf_ret, Hlease. done.
Qed.

Lemma wpf_on_nak now s : client_inv s -> awaits_answer (c_state s) -> let p := message_of (c_packet s) in
  m_xid p = xid s -> message_is p DHCPNAK -> wpf exits_or_bounds (on_nak p now) (packet_post s) s.
Proof.
  intros Hi Hs p Hx Htype.
  assert (Hend : forall n o, wpf exits_or_bounds
    (modify (set_c_state INIT_SELECTING);; modify (set_c_timeout (u32 now));; modify (set_requested_ip 0);;
     modify (set_packet_num 0);; change_mode LISTEN_RAW;; client_out (Slept 3)) (packet_post s) (set_c_calls n (set_c_out o s))).
  { intros n o. unfold change_mode. wpf_steps. apply wpf_client_out. split; [destruct Hi; solve_inv|].
    right. exists (By_nak p). split; [by apply step_nak|]. cbn. by split_and!. }
  unfold on_nak. apply wpf_bind, wpf_run_script. intros n o. apply wpf_bind, wpf_gets, wpf_bind, wpf_when; intros _.
  - apply wpf_run_script. intros n1 o1. exact (Hend n1 o1).
  - apply Hend.
Qed.

Lemma wpf_on_reply ptr now s : client_inv s -> awaits_answer (c_state s) -> let p := message_of (c_packet s) in
  m_xid p = xid s -> client_get_option p DHCP_MESSAGE_TYPE s = Ok (Some ptr) s ->
  wpf exits_or_bounds (on_reply p ptr now) (packet_post s) s.
Proof.
  intros Hi Hs p Hx Hptr. unfold on_reply. apply wpf_bind, (wpf_type_byte p ptr s); [done|]. intros type Htype.
  wpf_steps; bool_to_prop; [subst type; by apply wpf_on_ack|subst type; by apply wpf_on_nak|split; [done|by left]].
Qed.

Lemma wpf_on_message now s : client_inv s -> let p := message_of (c_packet s) in m_xid p = xid s ->
  wpf exits_or_bounds (on_message p now) (packet_post s) s.
Proof.
  intros Hi p Hx. destruct (packet_words s Hi) as (Hok & _).
  assert (Hsame : packet_post s tt s) by (split; [done|by left]).
  unfold on_message. apply wpf_bind, wpf_get_option; [by right|done|]. intros [ptr|] Hptr; [|by wpf_steps].
  wpf_steps. destruct (c_state s) eqn:Hs; try exact Hsame; [by apply wpf_on_offer|..];
    (apply wpf_on_reply; [done| |done|done]); rewrite Hs; unfold awaits_answer; auto.
Qed.

Lemma packet_post_received b s u s' : packet_post (set_c_packet b s) u s' -> packet_post s u s'.
Proof. done. Qed.

Lemma wpf_on_packet input now s : input_bytes input -> client_inv s ->
  wpf exits_or_bounds (on_packet input now) (packet_post s) s.
Proof.
  intros Hin Hi. unfold on_packet. apply wpf_bind, wpf_gets, wpf_bind.
  eapply (wpf_mono _ _ (received_post s)).
  { apply wpf_if; intros _; [apply wpf_kernel|apply wpf_raw]; try done; apply Hi. }
  intros len s1 (b & Hb & ->). assert (Hi1 : client_inv (set_c_packet b s)) by (destruct Hi; by split).
  assert (Hrest : forall s2, client_inv s2 -> c_state s2 = c_state s -> xid s2 = xid s -> client_config s2 = client_config s ->
    wpf exits_or_bounds (if len <? 0 then mret tt else p ← gets (fun s => message_of (c_packet s)); x ← gets xid;
      if negb (m_xid p =? x) then mret tt else on_message p now) (packet_post s) s2).
  { intros s2 Hi2 E1 E2 E3. wpf_steps; [split; [done|by left]..|]. bool_to_prop.
    eapply wpf_mono; [by apply wpf_on_message|]. intros u s' [H1 H2]. split; [done|]. rewrite <- E1.
    destruct H2 as [H2|(cause & H2 & H3)]; [by left|right]. exists cause. split; [done|].
    unfold packet_cause, addressed in *. by rewrite <- E2, <- E3. }
  apply wpf_bind. apply wpf_if; intros _; [|by apply wpf_ret, Hrest].
  apply wpf_bind, wpf_csys. intros k n. apply wpf_when; intros _; [|apply Hrest; try done; destruct Hi1; solve_inv].
  unfold change_mode. wpf_step. wpf_step. cbv beta. wpf_step. apply Hrest; try done. destruct Hi1. solve_inv.
Qed.

(** ** A signal *)

Definition signal_cause (sig : client_signal) : option client_cause :=
  match sig with SIGUSR1 => Some By_renew | SIGUSR2 => Some By_release | SIGTERM => None end.
Definition signal_post (sig : client_signal) (s : dhcpc) (_ : unit) (s' : dhcpc) : Prop :=
  client_inv s' /\ (c_state s' = c_state s
                    \/ exists cause, signal_cause sig = Some cause /\ client_step (c_state s) cause (c_state s')).

Lemma wpf_renew s : client_inv s -> wpf exits_or_log perform_renew (signal_post SIGUSR1 s) s.
Proof.
  intros Hi. unfold perform_renew, change_mode, hurry. apply wpf_bind, wpf_log. intros n. wpf_steps.
  assert (Hstep : forall st, client_step (c_state s) By_renew st ->
    (exists cause, signal_cause SIGUSR1 = Some cause /\ client_step (c_state s) cause st)) by (intros st Hst; by exists By_renew).
  pose proof (ci_state s Hi) as Hnr.
  inv_fields. destruct (c_state s) eqn:Hs; wpf_steps; try done;
    try (apply wpf_run_script; intros n1 o1; wpf_steps);
    (split; [destruct Hi; rewrite Hs in *; solve_inv; rewrite ?Hs; unfold word; try done; try lia
           |inv_fields; rewrite Hs; first [by left|right; apply Hstep; constructor; unfold has_address; by auto]]).
Qed.

Lemma wpf_release s : client_inv s -> wpf exits_or_log perform_release (signal_post SIGUSR2 s) s.
Proof.
  intros Hi. unfold perform_release, change_mode. apply wpf_bind, wpf_log. intros n.
  assert (Hend : forall n o, wpf exits_or_log
    ((modify (set_c_fd false);; modify (set_listen_mode LISTEN_NONE));; modify (set_c_state RELEASED);; modify (set_c_timeout 0x7fffffff))
    (signal_post SIGUSR2 s) (set_c_calls n (set_c_out o s))).
  { intros n0 o. wpf_steps. split; [destruct Hi; solve_inv; inv_fields; unfold word; lia|].
    right. exists By_release. split; [done|apply step_release]. }
  assert (Hsend : forall n, wpf exits_or_log (server ← gets server_addr; ip ← gets requested_ip; send_release server ip;; run_script None "deconfig")
    (fun _ s' => exists n o, s' = set_c_calls n (set_c_out o s)) (set_c_calls n s)).
  { intros n0. wpf_steps. apply wpf_quiet; [apply release_quiet|by destruct Hi|]. intros r n1 o1. apply wpf_run_script.
    intros n2 o2. by exists n2, o2. }
  assert (Hnone : exists n1 o1, set_c_calls n s = set_c_calls n1 (set_c_out o1 s)) by (exists n, (c_out s); by destruct s).
  apply wpf_bind, wpf_gets, wpf_bind. eapply (wpf_mono _ _ (fun _ s' => exists n o, s' = set_c_calls n (set_c_out o s))).
  { change (c_state (set_c_calls n s)) with (c_state s). destruct (c_state s); lazymatch goal with |- wpf _ (mret _) _ _ => exact Hnone | _ => exact (Hsend n) end. }
  intros _ s' (n1 & o1 & ->). apply Hend.
Qed.

Lemma wpf_on_signal sig s : client_inv s -> wpf exits_or_log (on_signal sig) (signal_post sig s) s.
Proof. intros Hi. destruct sig; [by apply wpf_renew|by apply wpf_release|apply wpf_exit; [by left|by apply Hi]]. Qed.

(** ** A turn *)

Definition has_packet (i : client_select) : bool := match i with Selected (Some _) _ => true | _ => false end.
Definition select_ok (i : client_select) : Prop :=
  match i with Selected (Some input) _ => input_bytes input | _ => True end.

(** What select has to report, or the clock to say, for a step. *)
Definition turn_cause (i : client_select) (s s' : dhcpc) (cause : client_cause) : Prop :=
  match cause with
  | By_timeout => i = Select_timeout \/ s32 (c_timeout s - cenv_uptime (c_calls s)) <= 0
  | By_renew => exists packet, i = Selected packet (Some (Some SIGUSR1))
  | By_release => exists packet, i = Selected packet (Some (Some SIGUSR2))
  | _ => has_packet i = true /\ packet_cause s s' cause
  end.

Definition turn_post (i : client_select) (s : dhcpc) (_ : unit) (s' : dhcpc) : Prop :=
  client_inv s' /\ (c_state s' = c_state s
                    \/ exists cause, client_step (c_state s) cause (c_state s') /\ turn_cause i s s' cause).
Definition has_signal (i : client_select) : bool := match i with Selected _ (Some (Some _)) => true | _ => false end.
Definition turn_faults (i : client_select) (f : fault) : Prop :=
  f = Died \/ (f = Out_of_bounds /\ has_packet i = true) \/ (f = Null_deref /\ has_signal i = true /\ exists n, cenv_log n = false).

(** The same variables but the socket and the count of calls. *)
Definition reopened (s s' : dhcpc) : Prop := exists n v, s' = set_c_calls n (set_c_fd v s).
Lemma inv_reopened s s' : reopened s s' -> client_inv s -> client_inv s'.
Proof. intros (n & v & ->) []. by split. Qed.

Lemma wpf_open F (Q : unit -> dhcpc -> Prop) s : F Died -> counter_fits (bootp_cnt_offer s) = true -> (forall s', reopened s s' -> Q tt s') -> wpf F open_fd Q s.
Proof.
  intros HF Hc HQ. assert (Hs : reopened s s) by (exists (c_calls s), (c_fd s); by destruct s).
  unfold open_fd. wpf_steps; [|auto]. apply wpf_csys. intros k n. wpf_steps; [|by apply wpf_exit].
  apply HQ. by exists n, true.
Qed.

Lemma wpf_turn_signal i sig packet s s1 : reopened s s1 -> client_inv s -> i = Selected packet sig ->
  wpf (turn_faults i) (match sig with Some (Some sig) => on_signal sig | _ => mret tt end) (turn_post i s) s1.
Proof.
  intros Hr Hi ->. assert (Hi1 : client_inv s1) by by eapply inv_reopened. destruct Hr as (n & v & ->).
  assert (Hsame : turn_post (Selected packet sig) s tt (set_c_calls n (set_c_fd v s))) by (split; [done|by left]).
  destruct sig as [[sig|]|]; try by apply wpf_ret. eapply wpf_weaken; [|eapply wpf_mono; [by apply wpf_on_signal|]].
  - intros f [-> |[-> H]]; [by left|by right; right].
  - intros u s' [H1 H2]. split; [done|]. destruct H2 as [H2|(cause & H2 & H3)]; [by left|right]. exists cause. split; [done|].
    destruct sig; cbn in H2; simplify_eq; by exists packet.
Qed.

Lemma client_turn_run i s : client_inv s -> select_ok i -> wpf (turn_faults i) (client_turn i) (turn_post i s) s.
Proof.
  intros Hi Hin. unfold client_turn. apply wpf_bind. apply (wpf_run _ _ (cenv_uptime (c_calls s)) (set_c_calls (S (c_calls s)) s)); [done|].
  apply wpf_bind, wpf_gets, wpf_bind, wpf_open; [by left|by destruct Hi|]. intros s1 Hr1.
  apply wpf_bind, wpf_csys. intros k n.
  assert (Hr : reopened s (set_c_calls n s1)) by (destruct Hr1 as (n1 & v1 & ->); by exists n, v1). clear Hr1.
  set (s2 := set_c_calls n s1) in *. clearbody s2. assert (Hi2 : client_inv s2) by by eapply inv_reopened.
  assert (Hsame : turn_post i s tt s2) by (split; [done|left; by destruct Hr as (? & ? & ->)]).
  assert (Htime : i = Select_timeout \/ s32 (c_timeout s - cenv_uptime (c_calls s)) <= 0 ->
    wpf (turn_faults i) (on_timeout (cenv_uptime k)) (turn_post i s) s2).
  { intros Hwhy. eapply wpf_weaken; [|eapply wpf_mono; [by apply wpf_on_timeout|]].
    - intros f ->. by left.
    - intros u s' [H1 H2]. split; [done|]. destruct Hr as (? & ? & ->). destruct H2 as [H2|H2]; [by left|right].
      by exists By_timeout. }
  cbn [c_timeout set_c_calls]. destruct (Z.ltb_spec 0 (s32 (c_timeout s - cenv_uptime (c_calls s)))) as [Hlt|Hge]; [|auto].
  destruct i as [packet sig| |]; [|auto|by apply wpf_ret]. apply wpf_bind, wpf_gets.
  destruct packet as [input|]; [|by eapply wpf_turn_signal].
  apply wpf_if; intros _; [|by eapply wpf_turn_signal].
  eapply wpf_weaken; [|eapply wpf_mono; [by apply wpf_on_packet|]].
  - intros f [-> | ->]; [by left|by right; left].
  - intros u s' [H1 H2]. split; [done|]. destruct Hr as (? & ? & ->).
    destruct H2 as [H2|(cause & H2 & H3)]; [by left|right]. exists cause. split; [done|].
    unfold turn_cause. destruct cause; done.
Qed.

(** ** The start *)

(** Texts of the command line: bytes of a C string, the identifier not empty,
    neither longer than 128. *)
Definition arg_ok (a : client_arg) : Prop :=
  match a with
  | Arg_c text => (0 < length text <= 128)%nat /\ Forall is_byte text
  | Arg_h text => (length text <= 128)%nat /\ Forall is_byte text
  | _ => True
  end.

(** The configuration while the command line is read. *)
Record args_inv (s : dhcpc) : Prop := ArgsInv {
  ai_id : forall o, clientid (client_config s) = Some o ->
    exists text, o = text_option DHCP_CLIENT_ID text /\ (length text <= 128)%nat /\ Forall is_byte text;
  ai_host : forall o, client_hostname (client_config s) = Some o ->
    exists text, o = text_option DHCP_HOST_NAME text /\ (length text <= 128)%nat /\ Forall is_byte text;
  ai_packet : packet_bytes (c_packet s);
  ai_ip : word (requested_ip s);
  ai_rest : packet_num s = 0 /\ c_lease s = None /\ server_addr s = 0 /\ xid s = 0 /\ c_timeout s = 0 /\ bootp_cnt_offer s = 0
}.

Lemma wpf_arg a s : arg_ok a -> args_inv s -> wpf exits (client_arg_step a) (fun _ => args_inv) s.
Proof.
  intros Ha [A1 A2 A3 A4 A5].
  destruct a; unfold client_arg_step; cbv zeta; try apply wpf_modify; try by split.
  - destruct Ha as [Hl Hb]. destruct (Nat.eqb_spec (Nat.min 255 (length text)) 0); [lia|]. apply wpf_modify.
    split; try done. intros o [= <-]. exists text. split_and!; [done|lia|done].
  - destruct Ha as [Hl Hb]. split; try done. intros o [= <-]. by exists text.
  - split; try done. apply cenv_inet_addr_range.
  - apply wpf_exit; [done|]. by destruct A5 as (_ & _ & _ & _ & _ & ->).
Qed.

Lemma wpf_args l s : Forall arg_ok l -> args_inv s -> wpf exits (client_args l) (fun _ => args_inv) s.
Proof.
  intros Hl. revert s. induction Hl as [|a l Ha _ IH]; intros s Hs; [by apply wpf_ret|].
  apply wpf_bind. eapply wpf_mono; [by apply wpf_arg|]. intros u s' Hs'. by apply IH.
Qed.

(** An option of the command line is an option, and short. *)
Lemma text_option_ok code text : (length text <= 128)%nat -> Forall is_byte text -> 0 < code < 255 ->
  config_opt_ok (text_option code text) /\ decode_opt (text_option code text) = (code, text).
Proof.
  intros Hl Hb Hc. unfold text_option. rewrite Nat.min_r, take_ge by lia.
  assert (Hdec : decode_opt (code :: Z.of_nat (length text) :: text) = (code, text)) by done.
  split; [|done]. unfold config_opt_ok. rewrite Hdec. split; [done|]. split; [done|]. split; [cbn [snd]; lia|done].
Qed.

Lemma client_ok_start c c' o arp0 index : args_inv c -> c' = set_client_arp index arp0 (set_clientid (Some o) (client_config c)) ->
  (clientid (client_config c) = Some o \/ o = default_clientid arp0) -> length arp0 = 6%nat -> Forall is_byte arp0 -> client_ok c'.
Proof.
  intros [A1 A2 _ _ _] -> Ho Ha Hab.
  assert (Hid : exists text, config_opt_ok o /\ decode_opt o = (DHCP_CLIENT_ID, text) /\ (length text <= 128)%nat).
  { destruct Ho as [Ho| ->].
    - destruct (A1 o Ho) as (text & -> & H1 & H2). exists text. by destruct (text_option_ok DHCP_CLIENT_ID text H1 H2).
    - destruct arp0 as [|a [|b [|c1 [|d [|e [|f [|? ?]]]]]]]; try done. exists [1; a; b; c1; d; e; f].
      split; [|split; [done|simpl; lia]]. split; [done|]. split; [done|]. split; [simpl; lia|]. constructor; [done|exact Hab]. }
  destruct Hid as (idt & Hok & Hdec & Hlen).
  assert (Hhost : Forall (fun h => (config_opt_ok h /\ neutral (decode_opt h)) /\ (length (snd (decode_opt h)) <= 128)%nat)
                    (option_list (client_hostname (client_config c)))).
  { destruct (client_hostname (client_config c)) as [h|]; [|constructor]. apply Forall_singleton.
    destruct (A2 h eq_refl) as (text & -> & H1 & H2). destruct (text_option_ok DHCP_HOST_NAME text H1 H2) as [H3 H4]; [done|].
    rewrite H4. split; [|done]. split; [done|]. by split; [split|]. }
  split.
  - by eexists.
  - cbn. constructor; [split; [done|]; rewrite Hdec; by split; [split|]|].
    eapply Forall_weaken; [exact Hhost|]. by intros h [Hh _].
  - done.
  - unfold base_options. cbn [clientid client_hostname set_client_arp set_clientid option_list option_rect app].
    rewrite enc_opts_cons, fmap_cons, enc_opts_cons, !length_app, Hdec, !enc_opt_length. cbn [snd length].
    destruct (client_hostname (client_config c)) as [h|]; cbn [option_list option_rect app fmap list_fmap] in Hhost |- *.
    + apply Forall_singleton in Hhost as [_ Hh]. rewrite !enc_opts_cons, !length_app, !enc_opt_length.
      change (length (snd (decode_opt vendor_id))) with 11%nat. cbn [enc_opts fmap list_fmap concat length]. lia.
    + rewrite enc_opts_cons, length_app, enc_opt_length.
      change (length (snd (decode_opt vendor_id))) with 11%nat. cbn [enc_opts fmap list_fmap concat length]. lia.
Qed.

Lemma client_start_run args garbage : Forall arg_ok args -> packet_bytes garbage ->
  (forall n v, cenv_bootp n = Some v -> counter_fits v = true) ->
  wpf exits (client_start args) (fun _ => client_inv) (client_begin garbage).
Proof.
  intros Ha Hg Hboot. unfold client_start, change_mode. apply wpf_bind.
  eapply wpf_mono; [apply wpf_args; [done|]|].
  { split; try done. }
  intros u s Hs. wpf_steps. apply wpf_csys. intros k n. wpf_steps. apply wpf_csys. intros k1 n1.
  assert (Hcount : counter_fits (default 0 (cenv_bootp k)) = true) by (destruct (cenv_bootp k) eqn:Hk; [by eapply Hboot|done]).
  destruct (cenv_interface k1) as [[index arp0]|] eqn:Hi; [|by apply wpf_exit].
  destruct (cenv_interface_range _ _ _ Hi) as [Hl Hb]. wpf_steps. apply wpf_run_script. intros n2 o2. wpf_steps.
  pose proof Hs as [A1 A2 A3 A4 (R1 & R2 & R3 & R4 & R5 & R6)].
  solve_inv; inv_fields; rewrite ?R1, ?R2, ?R3, ?R4, ?R5; unfold word; try lia; try done.
  eapply (client_ok_start s); [done|reflexivity| |done|done].
  change (client_config (set_bootp_cnt_offer (default 0 (cenv_bootp k)) (set_c_calls n s))) with (client_config s).
  destruct (clientid (client_config s)); [by left|by right].
Qed.

(** C11. The client is its state machine: from a state that satisfies the invariant,
    a turn of the main loop, whatever select reports and whatever bytes a packet has,
    keeps the invariant (the socket that is listened on is that of the state, a lease
    is known in the states that use it, at most three messages were sent in a row) and
    leaves the state as it was or takes a step of the abstract machine for a cause that
    was there: a timeout, a signal, or a message whose type, transaction and hardware
    address are the right ones, from which the address is taken. It may exit; on a
    packet only it may read outside of the message; on a signal only, when
    /tmp/log/dhcpc.log cannot be opened, it writes through the NULL of fopen; it never
    reads a lease that was not assigned, and each loop ends. *)
Theorem client_turn_refines i s : client_inv s -> select_ok i ->
  match client_turn i s with
  | Ok _ s' => turn_post i s tt s'
  | Err f => f = Died \/ (f = Out_of_bounds /\ has_packet i = true)
             \/ (f = Null_deref /\ has_signal i = true /\ exists n, cenv_log n = false)
  end.
Proof. intros Hi Hin. pose proof (client_turn_run i s Hi Hin) as H. unfold wpf in H. by destruct (client_turn i s) as [[] s'|f]. Qed.

(** The turn in which the loop stops. *)
Definition stops_in (m : HM unit) (inputs : list client_select) (s0 : dhcpc) (f : fault) : Prop :=
  exists before i rest s, inputs = before ++ i :: rest /\ (m;; client_loop before) s0 = Ok tt s /\ client_inv s
  /\ client_turn i s = Err f
  /\ (f = Died \/ (f = Out_of_bounds /\ has_packet i = true)
      \/ (f = Null_deref /\ has_signal i = true /\ exists n, cenv_log n = false)).

Lemma client_loop_run inputs s : Forall select_ok inputs -> client_inv s ->
  wpf (stops_in (mret tt) inputs s) (client_loop inputs) (fun _ => client_inv) s.
Proof.
  intros Hin. revert s. induction Hin as [|i rest Hi _ IH]; intros s Hs; [by apply wpf_ret|].
  apply wpf_bind. destruct (wpf_elim _ _ _ _ (client_turn_run i s Hs Hi)) as [([] & s1 & Hr & Hs1 & _)|(f & Hr & Hf)].
  - eapply wpf_run; [exact Hr|]. eapply wpf_weaken; [|by apply IH].
    intros f (before & j & after0 & s2 & -> & Hb & H). exists (i :: before), j, after0, s2. split; [done|]. split; [|exact H].
    cbn [client_loop]. eapply run_bind; [reflexivity|]. eapply run_bind; [exact Hr|]. exact Hb.
  - unfold wpf. rewrite Hr. exists [], i, rest, s. by split_and!.
Qed.

(** C12. From its start on: with any command line whose texts have at most 128 bytes
    and an identifier that is not empty, with a saved counter of BOOTP offers of at
    most nine characters, and any sequence of timeouts, packets and signals, the
    client is in a state of the invariant after each turn. It stops only by its exit,
    in a turn with a packet that makes it read outside of the message, or in a turn
    with a signal for which the log file cannot be opened; all the turns before kept
    the invariant. *)
Theorem client_always_ok args garbage inputs : Forall arg_ok args -> packet_bytes garbage -> Forall select_ok inputs ->
  (forall n v, cenv_bootp n = Some v -> counter_fits v = true) ->
  match (client_start args;; client_loop inputs) (client_begin garbage) with
  | Ok _ s => client_inv s
  | Err f => client_start args (client_begin garbage) = Err Died /\ f = Died
             \/ stops_in (client_start args) inputs (client_begin garbage) f
  end.
Proof.
  intros Ha Hg Hin Hboot.
  destruct (wpf_elim _ _ _ _ (client_start_run args garbage Ha Hg Hboot)) as [([] & s & Hr & Hs)|(f & Hr & ->)].
  - assert (Hb : forall m : HM unit, (client_start args;; m) (client_begin garbage) = m s) by (intros m; by eapply run_bind; [exact Hr|]). rewrite Hb. clear Hb.
    destruct (wpf_elim _ _ _ _ (client_loop_run inputs s Hin Hs)) as [([] & s' & Hr' & Hs')|(f & Hr' & Hf)]; rewrite Hr'; [done|right].
    destruct Hf as (before & i & rest & s1 & -> & Hb & H). exists before, i, rest, s1. split; [done|]. split; [|exact H].
    eapply run_bind; [exact Hr|]. exact Hb.
  - unfold mbind, M_bind. rewrite Hr. by left.
Qed.
End with_env.
