(* ===== verification/ClientLease.v ===== *)
(** * ClientLease: the life of a lease in the DHCP client (dhcpc.c)

    A client that hears nothing after an ACK sends renewals and then gives the
    address up, at the end of the lease and not before its last steps. *)

From S2P Require Import Prelude DhcpTypes DhcpOptions DhcpPacket DhcpBehaviour ClientTypes ClientPacket ClientMachine ClientSend ClientLoop.

Section with_env.
Context `{E : ClientEnv}.

Definition using_address (st : client_state) : bool :=
  match st with BOUND | RENEWING | REBINDING => true | _ => false end.

(** The timeouts of a client that hears nothing, as long as it uses its address;
    the [k]-th is handled [delay k] seconds after it is due. *)
Fixpoint unheard (fuel k : nat) (delay : nat -> Z) : HM unit :=
  match fuel with
  | O => fail Out_of_fuel
  | S fuel' =>
      st ← gets c_state;
      if using_address st then t ← gets c_timeout; on_timeout (t + delay k);; unheard fuel' (S k) delay
      else mret tt
  end.

(** A renewal: a REQUEST for the address in use, to the server or to everyone. *)
Definition renewal (c : client_config_t) (ip : Z) (o : client_output) : Prop :=
  exists server x p, o = Sent (renew_output c server ip p) /\ client_message c DHCPREQUEST x ip (renew_options c) p.

(** The variables of a lease of [L] seconds taken at [start0]; what was sent
    since [out0] are renewals. *)
Record holding (c : client_config_t) (ip L start0 : Z) (out0 : list client_output) (s : dhcpc) : Prop := Holding {
  ho_config : client_config s = c;
  ho_ip : requested_ip s = ip;
  ho_lease : c_lease s = Some L;
  ho_start : c_start s = start0;
  ho_times : 0 <= t1 s <= t2 s /\ t2 s <= L;
  ho_out : exists outs, c_out s = out0 ++ outs /\ Forall (renewal c ip) outs
}.

(** What the script is told: that the address is to go, once; nothing when no
    script is configured or no child can be made. *)
Definition told_down (c : client_config_t) (told : list client_output) : Prop :=
  told = [Script "deconfig" None] \/ (told = [] /\ (script c = None \/ exists n, cenv_fork n = false)).

(** The lease was lost at [now]: the script has run once. *)
Definition lost (c : client_config_t) (ip : Z) (out0 : list client_output) (now : Z) (s : dhcpc) : Prop :=
  c_state s = INIT_SELECTING /\ listen_mode s = LISTEN_RAW /\ packet_num s = 0 /\ c_timeout s = u32 now
  /\ exists outs told, c_out s = out0 ++ outs ++ told /\ Forall (renewal c ip) outs /\ told_down c told.

Context (c : client_config_t) (ip L start0 : Z) (out0 : list client_output).
Hypothesis Hc : client_ok c.
Hypothesis HL : 0 <= L < 613566757.
Hypothesis Hstart : 0 <= start0.

Lemma renew_handed x server s : holding c ip L start0 out0 s ->
  exists r s', send_renew x server ip s = Ok r s' /\ holding c ip L start0 out0 s'
  /\ c_state s' = c_state s /\ t1 s' = t1 s /\ t2 s' = t2 s /\ c_timeout s' = c_timeout s.
Proof.
  intros [H1 H2 H3 H4 H5 (outs & H6 & H7)]. destruct (send_renew_run x server ip s) as (r & s' & p & Hr & (o & Ha & Ho) & Hm); [by rewrite H1|].
  exists r, s'. split; [exact Hr|].
  assert (Hout : c_out s' = c_out s ++ o) by (by rewrite Ha).
  assert (Hsame : exists n l, s' = set_c_calls n (set_c_out l s)) by (by eapply after_elim).
  destruct Hsame as (n & l & ->). split; [|done]. split; try done. cbn in Hout. exists (outs ++ o). cbn. split.
  - by rewrite Hout, H6, app_assoc.
  - apply Forall_app. split; [done|]. destruct Ho as [[-> _]| ->]; [constructor|]. apply Forall_singleton.
    rewrite H1 in *. by exists server, x, p.
Qed.

(** The script at the end of a lease. *)
Lemma run_script_told s : exists s', run_script None "deconfig" s = Ok tt s'
  /\ exists told n, s' = set_c_calls n (set_c_out (c_out s ++ told) s) /\ told_down (client_config s) told.
Proof.
  assert (Hsame : s = set_c_calls (c_calls s) (set_c_out (c_out s ++ []) s)) by (rewrite app_nil_r; by destruct s).
  unfold run_script, told_down. destruct (script (client_config s)) eqn:Hs.
  - destruct (cenv_fork (c_calls s)) eqn:Hf.
    + eexists. split; [eapply run_bind; [apply gets_run|]; rewrite Hs; eapply run_bind; [by apply csys_run|reflexivity]|].
      exists [Script "deconfig" None], (S (c_calls s)). split; [done|by left].
    + eexists. split; [eapply run_bind; [apply gets_run|]; rewrite Hs; eapply run_bind; [by apply csys_run|reflexivity]|].
      exists [], (S (c_calls s)). split; [rewrite app_nil_r; by destruct s|right]. split; [done|right; by eexists].
  - exists s. split; [eapply run_bind; [apply gets_run|]; by rewrite Hs|]. exists [], (c_calls s). split; [exact Hsame|right; by split; [|left]].
Qed.

Definition slack : Z := L / 14400 + 1.
Lemma slack_small : last_step L = slack /\ 1 <= slack.
Proof. unfold last_step, slack. split; [apply u32_small|]; Z.to_euclidean_division_equations; lia. Qed.

Lemma rebinding_step now s : holding c ip L start0 out0 s -> c_state s = REBINDING ->
  (L - t2 s <= slack /\ exists s', rebinding_timeout now s = Ok tt s' /\ lost c ip out0 now s')
  \/ (slack < L - t2 s /\ exists s', rebinding_timeout now s = Ok tt s' /\ holding c ip L start0 out0 s' /\ c_state s' = REBINDING
      /\ t2 s' = (L - t2 s) / 2 + t2 s /\ c_timeout s' = u32 (t2 s' + start0)).
Proof.
  intros Hh Hs. pose proof Hh as [H1 H2 H3 H4 [H5 H5'] (outs & H6 & H7)]. destruct slack_small as [Es Hs1].
  unfold rebinding_timeout, the_lease. rewrite <- Es.
  assert (Egap : u32 (L - t2 s) = L - t2 s) by (apply u32_small; lia).
  destruct (Z.leb_spec (L - t2 s) (last_step L)) as [Hle|Hgt]; [left|right]; (split; [lia|]).
  - set (s0 := set_c_state INIT_SELECTING s).
    destruct (run_script_told s0) as (s1 & Hr1 & told & n & -> & Htold).
    eexists. split.
    + eapply run_bind; [apply gets_run|]. eapply run_bind; [eapply run_bind; [apply gets_run|]; by rewrite H3|].
      rewrite Egap. rewrite (proj2 (Z.leb_le _ _) Hle). eapply run_bind; [reflexivity|]. eapply run_bind; [exact Hr1|reflexivity].
    + split_and!; try done. exists outs, told. rewrite <- H1. split; [cbn; by rewrite H6, app_assoc|]. split; [by rewrite H1|exact Htold].
  - assert (Hh1 : exists r s', send_renew (xid s) 0 (requested_ip s) s = Ok r s' /\ holding c ip L start0 out0 s'
      /\ c_state s' = c_state s /\ t1 s' = t1 s /\ t2 s' = t2 s /\ c_timeout s' = c_timeout s) by (rewrite H2; by apply renew_handed).
    destruct Hh1 as (r & s' & Hr & [G1 G2 G3 G4 G5 G6] & E1 & E2 & E3 & _).
    eexists. split.
    + eapply run_bind; [apply gets_run|]. eapply run_bind; [eapply run_bind; [apply gets_run|]; by rewrite H3|].
      rewrite Egap, (proj2 (Z.leb_gt _ _) Hgt). eapply run_bind; [apply gets_run|]. eapply run_bind; [apply gets_run|].
      eapply run_bind; [exact Hr|]. eapply run_bind; [reflexivity|]. reflexivity.
    + assert (Hnew : u32 ((L - t2 s) / 2 + t2 s) = (L - t2 s) / 2 + t2 s)
        by (apply u32_small; Z.to_euclidean_division_equations; lia).
      cbn. rewrite Hnew, G4, E1. split; [|done]. split; try done. cbn. rewrite E2. Z.to_euclidean_division_equations; lia.
Qed.

Lemma renewing_step now s : holding c ip L start0 out0 s -> c_state s = RENEWING ->
  exists s', renewing_timeout now s = Ok tt s' /\ holding c ip L start0 out0 s' /\ t2 s' = t2 s
  /\ ((t2 s - t1 s <= slack /\ c_state s' = REBINDING /\ c_timeout s' = u32 (now + (t2 s - t1 s)))
      \/ (slack < t2 s - t1 s /\ c_state s' = RENEWING /\ t1 s' = (t2 s - t1 s) / 2 + t1 s /\ c_timeout s' = u32 (t1 s' + start0))).
Proof.
  intros Hh Hs. pose proof Hh as [H1 H2 H3 H4 [H5 H5'] (outs & H6 & H7)]. destruct slack_small as [Es Hs1].
  unfold renewing_timeout, the_lease. rewrite <- Es.
  assert (Egap : u32 (t2 s - t1 s) = t2 s - t1 s) by (apply u32_small; lia).
  destruct (Z.leb_spec (t2 s - t1 s) (last_step L)) as [Hle|Hgt].
  - eexists. split.
    + eapply run_bind; [apply gets_run|]. eapply run_bind; [apply gets_run|].
      eapply run_bind; [eapply run_bind; [apply gets_run|]; by rewrite H3|].
      rewrite Egap, (proj2 (Z.leb_le _ _) Hle). eapply run_bind; [reflexivity|]. reflexivity.
    + split; [|split; [done|by left]]. split; try done. by exists outs.
  - assert (Hh1 : exists r s', send_renew (xid s) (server_addr s) (requested_ip s) s = Ok r s' /\ holding c ip L start0 out0 s'
      /\ c_state s' = c_state s /\ t1 s' = t1 s /\ t2 s' = t2 s /\ c_timeout s' = c_timeout s) by (rewrite H2; by apply renew_handed).
    destruct Hh1 as (r & s' & Hr & [G1 G2 G3 G4 G5 G6] & E1 & E2 & E3 & _).
    eexists. split.
    + eapply run_bind; [apply gets_run|]. eapply run_bind; [apply gets_run|].
      eapply run_bind; [eapply run_bind; [apply gets_run|]; by rewrite H3|].
      rewrite Egap, (proj2 (Z.leb_gt _ _) Hgt). eapply run_bind; [apply gets_run|]. eapply run_bind; [apply gets_run|].
      eapply run_bind; [apply gets_run|]. eapply run_bind; [exact Hr|]. eapply run_bind; [reflexivity|]. reflexivity.
    + assert (Hnew : u32 ((t2 s - t1 s) / 2 + t1 s) = (t2 s - t1 s) / 2 + t1 s)
        by (apply u32_small; Z.to_euclidean_division_equations; lia).
      cbn. rewrite Hnew, G4, E1. split; [|split; [done|by right]].
      split; try done. cbn. rewrite E3. Z.to_euclidean_division_equations; lia.
Qed.

Context (delay : nat -> Z) (late : Z).
Hypothesis Hdelay : forall k, 0 <= delay k <= late.
Hypothesis Htime : start0 + L + 2 * late < 4294967296.

(** The lease is lost between its last steps and its end. *)
Definition lost_in_time (s : dhcpc) : Prop :=
  exists now, lost c ip out0 now s /\ start0 + L - slack <= now <= start0 + L + 2 * late.

Lemma unheard_stop fuel k s : lost_in_time s -> unheard (S fuel) k delay s = Ok tt s.
Proof. intros (now & (Hs & _) & _). cbn [unheard]. eapply run_bind; [apply gets_run|]. by rewrite Hs. Qed.

(** A turn in a state that uses the address. *)
Lemma unheard_turn fuel k s s' : using_address (c_state s) = true -> on_timeout (c_timeout s + delay k) s = Ok tt s' ->
  unheard (S fuel) k delay s = unheard fuel (S k) delay s'.
Proof.
  intros Hs Hr. cbn [unheard]. eapply run_bind; [apply gets_run|]. rewrite Hs. eapply run_bind; [apply gets_run|].
  by eapply run_bind; [exact Hr|].
Qed.

(** Half of a gap, rounded up. *)
Lemma halved g j : 0 <= g <= 2 ^ Z.of_nat (S j) -> 0 <= g - g / 2 <= 2 ^ Z.of_nat j.
Proof. rewrite Nat2Z.inj_succ, Z.pow_succ_r by lia. Z.to_euclidean_division_equations; lia. Qed.

Lemma rebinding_unheard j fuel k s : holding c ip L start0 out0 s -> c_state s = REBINDING ->
  start0 + t2 s <= c_timeout s <= start0 + t2 s + late -> L - t2 s <= 2 ^ Z.of_nat j -> (j + 2 <= fuel)%nat ->
  exists s', unheard fuel k delay s = Ok tt s' /\ lost_in_time s'.
Proof.
  revert fuel k s. induction j as [|j IH]; intros fuel k s Hh Hs Ht Hg Hf;
    destruct fuel as [|fuel]; try lia; pose proof (Hdelay k) as Hd; pose proof (ho_times _ _ _ _ _ _ Hh) as [Ha Hb];
    destruct slack_small as [_ Hs1];
    destruct (rebinding_step (c_timeout s + delay k) s Hh Hs) as [(Hle & s' & Hr & Hlost)|(Hgt & s' & Hr & Hh' & Hs' & E2 & Et)].
  1, 3: (assert (Hin : lost_in_time s') by (exists (c_timeout s + delay k); split; [done|lia]);
    exists s'; split; [|done]; erewrite unheard_turn; [|by rewrite Hs|]; [destruct fuel as [|fuel]; [lia|by apply unheard_stop]|];
    unfold on_timeout; eapply run_bind; [apply gets_run|]; by rewrite Hs).
  - exfalso. change (2 ^ Z.of_nat 0) with 1 in Hg. lia.
  - destruct (IH fuel (S k) s' Hh' Hs') as (s2 & Hr2 & Hl2).
    + pose proof (ho_times _ _ _ _ _ _ Hh') as [Ha' Hb']. rewrite Et, u32_small by lia. lia.
    + pose proof (halved (L - t2 s) j ltac:(lia)) as Hh2. rewrite E2. lia.
    + lia.
    + exists s2. split; [|done]. erewrite unheard_turn; [exact Hr2|by rewrite Hs|].
      unfold on_timeout. eapply run_bind; [apply gets_run|]. by rewrite Hs.
Qed.

Lemma gap_pow : L <= 2 ^ Z.of_nat 30.
Proof. change (2 ^ Z.of_nat 30) with 1073741824. lia. Qed.

Lemma renewing_unheard j fuel k s : holding c ip L start0 out0 s -> c_state s = RENEWING \/ c_state s = BOUND ->
  c_timeout s = start0 + t1 s -> t2 s - t1 s <= 2 ^ Z.of_nat j -> (j + 34 <= fuel)%nat ->
  exists s', unheard fuel k delay s = Ok tt s' /\ lost_in_time s'.
Proof.
  revert fuel k s. induction j as [|j IH]; intros fuel k s Hh Hs Ht Hg Hf;
    destruct fuel as [|fuel]; try lia; pose proof (Hdelay k) as Hd; pose proof (ho_times _ _ _ _ _ _ Hh) as [Ha Hb];
    destruct slack_small as [_ Hs1];
    (assert (Hrun : exists s0, holding c ip L start0 out0 s0 /\ c_state s0 = RENEWING /\ t1 s0 = t1 s /\ t2 s0 = t2 s
       /\ forall now s', renewing_timeout now s0 = Ok tt s' -> on_timeout now s = Ok tt s');
     [destruct Hs as [Hs|Hs];
      [exists s; split_and!; try done; intros now s' Hr; unfold on_timeout; (eapply run_bind; [apply gets_run|]); by rewrite Hs
      |exists (set_listen_mode LISTEN_KERNEL (set_c_fd false (set_c_state RENEWING s))); split_and!; try done;
       [by destruct Hh; split|intros now s' Hr; unfold on_timeout; (eapply run_bind; [apply gets_run|]); rewrite Hs;
        (eapply run_bind; [reflexivity|]); by (eapply run_bind; [reflexivity|])]]|]);
    destruct Hrun as (s0 & Hh0 & Hs0 & E1 & E2 & Hon);
    destruct (renewing_step (c_timeout s + delay k) s0 Hh0 Hs0) as (s' & Hr & Hh' & E2' & Hcase); rewrite E1, E2 in *;
    (assert (Husing : using_address (c_state s) = true) by (by destruct Hs as [-> | ->]));
    destruct Hcase as [(Hle & Hs' & Et)|(Hgt & Hs' & E1' & Et)].
  1, 3: (destruct (rebinding_unheard 30 fuel (S k) s' Hh' Hs') as (s2 & Hr2 & Hl2);
    [rewrite Et, Ht, E2'; rewrite u32_small by lia; lia|rewrite E2'; pose proof gap_pow; lia|lia|];
    exists s2; split; [|done]; erewrite unheard_turn; [exact Hr2|done|by apply Hon]).
  - exfalso. change (2 ^ Z.of_nat 0) with 1 in Hg. lia.
  - destruct (IH fuel (S k) s' Hh') as (s2 & Hr2 & Hl2).
    + by left.
    + pose proof (ho_times _ _ _ _ _ _ Hh') as [Ha' Hb']. rewrite Et. rewrite u32_small by lia. lia.
    + pose proof (halved (t2 s - t1 s) j ltac:(lia)) as Hh2. rewrite E2', E1'. lia.
    + lia.
    + exists s2. split; [|done]. erewrite unheard_turn; [exact Hr2|done|by apply Hon].
Qed.
End with_env.

(** What an ACK for a lease of [L] seconds leaves (on_ack): the state BOUND, the
    three times, and the first timeout. *)
Record just_bound (L : Z) (s : dhcpc) : Prop := JustBound {
  jb_state : c_state s = BOUND;
  jb_lease : c_lease s = Some L;
  jb_t1 : t1 s = L / 2;
  jb_t2 : t2 s = Z.shiftr (u32 (L * 7)) 3;
  jb_timeout : c_timeout s = u32 (t1 s + c_start s)
}.

(** C13. A lease is not outlived, and not given up early. A client that was bound with
    a lease of L seconds (below 2^32 / 7, where the product lease * 7 wraps around),
    and hears nothing, handles at most 64 timeouts, each at most [late] seconds
    after it was due, before it is back in its initial state; in that time it only
    sends renewals for its address, and at the end the script, if one is configured and
    fork succeeds, is told to take the address down, once, not later than 2 * late
    seconds after the end of the lease and not more than L / 14400 + 1 seconds before
    it. The options of the command line leave room for those of a renewal
    ([client_ok], which the start establishes), and the end of the lease is before the
    clock of 32 bits wraps. *)
Theorem lease_not_outlived `{E : ClientEnv} L s delay late :
  client_ok (client_config s) ->
  0 <= L < 613566757 -> 0 <= c_start s -> just_bound L s ->
  (forall k, 0 <= delay k <= late) -> c_start s + L + 2 * late < 4294967296 ->
  exists s' now, unheard 65 0 delay s = Ok tt s'
  /\ lost (client_config s) (requested_ip s) (c_out s) now s'
  /\ c_start s + L - (L / 14400 + 1) <= now <= c_start s + L + 2 * late.
Proof.
  intros Hc HL Hst [B1 B2 B3 B4 B5] Hd Ht. pose proof (Hd 0%nat).
  assert (E7 : t2 s = L * 7 / 8).
  { rewrite B4, u32_small, Z.shiftr_div_pow2 by lia. done. }
  assert (Hh : holding (client_config s) (requested_ip s) L (c_start s) (c_out s) s).
  { split; try done; [rewrite E7, B3; Z.to_euclidean_division_equations; lia|]. exists []. by rewrite app_nil_r. }
  assert (Hgap : 0 <= t1 s /\ t1 s <= L) by (rewrite B3; Z.to_euclidean_division_equations; lia).
  destruct (renewing_unheard (client_config s) (requested_ip s) L (c_start s) (c_out s) Hc HL Hst delay late Hd Ht 30 65 0 s Hh)
    as (s' & Hr & now & Hl & Hn).
  - by right.
  - rewrite B5. rewrite u32_small by lia. lia.
  - change (2 ^ Z.of_nat 30) with 1073741824. rewrite E7, B3. Z.to_euclidean_division_equations; lia.
  - lia.
  - by exists s', now.
Qed.
