(* ===== verification/ClientScript.v ===== *)
(** * ClientScript: the environment of the user script (script.c)

    The child that run_script forks builds the environment of the script: the
    text of each option of the packet in a block of a computed size, and a list
    of pointers of a computed length. *)

From S2P Require Import Prelude DhcpTypes DhcpOptions DhcpConfig DhcpConfigText DhcpPacket DhcpServer DhcpBehaviour ClientTypes ClientPacket.

(** ** Definitions *)

(** The sizes of the texts, with their terminating zero. *)
Definition max_option_length (type : Z) : Z :=
  if type =? OPTION_IP then 17
  else if type =? OPTION_IP_PAIR then 17 * 2
  else if type =? OPTION_STRING then 1
  else if type =? OPTION_BOOLEAN then 5
  else if type =? OPTION_U8 then 5
  else if type =? OPTION_U16 then 7
  else if type =? OPTION_S16 then 8
  else if type =? OPTION_U32 then 12
  else if type =? OPTION_S32 then 13
  else 0.

Definition upper_length (length : Z) (option : dhcp_option) : Z :=
  max_option_length (Z.land (o_flags option) TYPE_MASK) * (length / option_lengths (Z.land (o_flags option) TYPE_MASK)).

(** [sprintf] of [more] after the bytes [done] of a block of [cap] bytes. *)
Definition sprintf_at {T} (cap : Z) (sofar more : list Z) : M T (list Z) :=
  if Z.of_nat (length sofar + length more) + 1 <=? cap then mret (sofar ++ more) else fail Out_of_bounds.

(** "%d.%d.%d.%d " *)
Definition ip_text (ip : list Z) : list Z :=
  let byte i := text (number (default 0 (ip !! i))) in
  byte 0%nat ++ [46] ++ byte 1%nat ++ [46] ++ byte 2%nat ++ [46] ++ byte 3%nat ++ [32].
Definition sprintip {T} (cap : Z) (sofar pre ip : list Z) : M T (list Z) := sprintf_at cap sofar (pre ++ ip_text ip).

Definition signed_text (z : Z) : list Z := if z <? 0 then 45 :: text (number (- z)) else text (number z).

(** The bytes at a pointer into a message. *)
Definition opt_bytes {T} (n : nat) (p : dhcpMessage) (f : opt_field) (off : Z) : M T (list Z) :=
  in_bounds (load n (field_bytes p f) off).

Section with_state.
Context {T : Type}.

(** The loop of fill_options: one element, and the next while [len] is left.  A
    pair of addresses leaves [optlen] at 4. *)
Fixpoint fill_loop (fuel : nat) (cap : Z) (p : dhcpMessage) (type optlen : Z) (dest : list Z) (f : opt_field) (off len : Z)
    : M T (list Z) :=
  match fuel with
  | O => fail Out_of_fuel
  | S fuel' =>
      let next dest optlen off :=
        if len - optlen <=? 0 then mret dest else fill_loop fuel' cap p type optlen dest f (off + optlen) (len - optlen) in
      if type =? OPTION_IP_PAIR then
        ip ← opt_bytes 4 p f off;
        dest ← sprintip cap dest [] ip;
        dest ← (if Z.of_nat (length dest) + 1 <=? cap then mret (dest ++ [47]) else fail Out_of_bounds);
        ip ← opt_bytes 4 p f (off + 4);
        dest ← sprintip cap dest [] ip;
        next dest 4 (off + 4)
      else if type =? OPTION_IP then
        ip ← opt_bytes 4 p f off; dest ← sprintip cap dest [] ip; next dest optlen off
      else if type =? OPTION_BOOLEAN then
        b ← opt_byte p f off;
        dest ← sprintf_at cap dest (text (if negb (b =? 0) then "yes " else "no ")); next dest optlen off
      else if type =? OPTION_U8 then
        b ← opt_byte p f off; dest ← sprintf_at cap dest (text (number b) ++ [32]); next dest optlen off
      else if (type =? OPTION_U16) || (type =? OPTION_S16) then
        b ← opt_bytes 2 p f off; dest ← sprintf_at cap dest (text (number (of_be b)) ++ [32]); next dest optlen off
      else if type =? OPTION_U32 then
        b ← opt_bytes 4 p f off; dest ← sprintf_at cap dest (text (number (of_be b)) ++ [32]); next dest optlen off
      else if type =? OPTION_S32 then
        b ← opt_bytes 4 p f off; dest ← sprintf_at cap dest (signed_text (s32 (of_be b)) ++ [32]); next dest optlen off
      else if type =? OPTION_STRING then
        b ← opt_bytes (Z.to_nat len) p f off; sprintf_at cap dest b
      else next dest optlen off
  end.

Definition fill_options (cap : Z) (p : dhcpMessage) (option : opt_ptr) (type_p : dhcp_option) : M T (list Z) :=
  let '(f, off) := option in
  len ← opt_byte p f (off + (OPT_LEN - 2));
  dest ← sprintf_at cap [] (text (o_name type_p) ++ [61]);
  let type := Z.land (o_flags type_p) TYPE_MASK in
  fill_loop 256 cap p type (option_lengths type) dest f off len.
End with_state.

(** The first string of the environment with a prefix. *)
Definition find_env (environ : list (list Z)) (prefix defaultstr : list Z) : list Z :=
  match list_find (fun e => take (length prefix) e = prefix) environ with Some (_, e) => e | None => defaultstr end.

(** [envp[j++] = ...] *)
Definition push_env {T} (cap : nat) (envp : list (list Z)) (e : list Z) : M T (list (list Z)) :=
  if decide (length envp < cap)%nat then mret (envp ++ [e]) else fail Out_of_bounds.

Fixpoint count_options (os : list dhcp_option) (p : dhcpMessage) : HM nat :=
  match os with
  | [] => mret 0%nat
  | o :: os' =>
      temp ← client_get_option p (o_code o);
      n ← count_options os' p;
      mret (match temp with Some _ => S n | None => n end)
  end.

Fixpoint option_envs (os : list dhcp_option) (p : dhcpMessage) (cap : nat) (envp : list (list Z)) : HM (list (list Z)) :=
  match os with
  | [] => mret envp
  | o :: os' =>
      temp ← client_get_option p (o_code o);
      match temp with
      | None => option_envs os' p cap envp
      | Some (f, off) =>
          len ← opt_byte p f (off + (OPT_LEN - 2));
          e ← fill_options (upper_length len o + Z.of_nat (String.length (o_name o)) + 2) p (f, off) o;
          envp ← push_env cap envp e;
          option_envs os' p cap envp
      end
  end.

(** The variables of the script; the end mark takes one more place. *)
Definition fill_envp (environ : list (list Z)) (interface0 : string) (packet : option dhcpMessage) : HM (list (list Z)) :=
  let base := [text "interface=" ++ text interface0;
               find_env environ (text "PATH") (text "PATH=/bin:/usr/bin:/sbin:/usr/sbin");
               find_env environ (text "HOME") (text "HOME=/")] in
  match packet with
  | None => mret base
  | Some p =>
      n ← count_options options p;
      let n := (n + if negb (m_siaddr p =? 0)%Z then 1 else 0)%nat in
      temp ← client_get_option p DHCP_OPTION_OVER;
      over ← match temp with Some (f, off) => opt_byte p f off | None => mret 0 end;
      let first b := default 0 (b !! 0%nat) in
      let has_file := (Z.land over FILE_FIELD =? 0) && negb (first (m_file p) =? 0) in
      let has_sname := (Z.land over SNAME_FIELD =? 0) && negb (first (m_sname p) =? 0) in
      let cap := (n + (if has_file then 1 else 0) + (if has_sname then 1 else 0) + 5)%nat in
      ip ← sprintip 19 [] (text "ip=") (be32 (m_yiaddr p));   (* sizeof("ip=255.255.255.255") *)
      envp ← push_env cap base ip;
      envp ← option_envs options p cap envp;
      envp ← (if negb (m_siaddr p =? 0) then
                ip ← sprintip 23 [] (text "siaddr=") (be32 (m_siaddr p)); push_env cap envp ip
              else mret envp);
      envp ← (if has_file then push_env cap envp (text "boot_file=" ++ cstring (take 127 (m_file p))) else mret envp);
      envp ← (if has_sname then push_env cap envp (text "sname=" ++ cstring (take 63 (m_sname p))) else mret envp);
      if decide (length envp < cap)%nat then mret envp else fail Out_of_bounds
  end.

(** ** The text of an option *)

(** The text of one element, and of the elements of an option. *)
Definition element_text (type : Z) (b : list Z) : list Z :=
  if type =? OPTION_IP then ip_text b
  else if type =? OPTION_BOOLEAN then text (if negb (of_be b =? 0) then "yes " else "no ")
  else if type =? OPTION_S32 then signed_text (s32 (of_be b)) ++ [32]
  else text (number (of_be b)) ++ [32].
Fixpoint elements_text (n : nat) (type : Z) (b : list Z) : list Z :=
  match n with
  | O => []
  | S n' =>
      let w := Z.to_nat (option_lengths type) in
      element_text type (take w b) ++ elements_text n' type (drop w b)
  end.
Definition value_text (type : Z) (b : list Z) : list Z :=
  if type =? OPTION_STRING then b else elements_text (length b / Z.to_nat (option_lengths type)) type b.

(** The types of the table whose values have elements. *)
Definition element_type (type : Z) : Prop :=
  type = OPTION_IP \/ type = OPTION_BOOLEAN \/ type = OPTION_U8 \/ type = OPTION_U16 \/ type = OPTION_S16
  \/ type = OPTION_U32 \/ type = OPTION_S32.

Lemma number_length k n : (0 < k)%nat -> 0 <= n < 10 ^ Z.of_nat k -> (length (text (number n)) <= k)%nat.
Proof. intros Hk Hn. by apply number_digits. Qed.

Lemma ip_text_length b : Forall is_byte b -> (length (ip_text b) <= 16)%nat.
Proof.
  intros Hb. assert (Hd : forall i, (length (text (number (default 0%Z (b !! i)))) <= 3)%nat).
  { intros i. apply number_length; [lia|]. change (10 ^ Z.of_nat 3) with 1000. destruct (b !! i) as [x|] eqn:Hx; [|done].
    pose proof (Forall_lookup_1 _ _ _ _ Hb Hx) as Hr. unfold is_byte in Hr. simpl. lia. }
  unfold ip_text. rewrite !length_app. pose proof (Hd 0%nat). pose proof (Hd 1%nat). pose proof (Hd 2%nat). pose proof (Hd 3%nat).
  cbn [length]. lia.
Qed.

Lemma number_length_10 z : 0 <= z < 4294967296 -> (length (text (number z)) <= 10)%nat.
Proof. intros Hz. apply number_length; [lia|]. change (10 ^ Z.of_nat 10) with 10000000000. lia. Qed.

Lemma signed_text_length z : - 2147483648 <= z < 2147483648 -> (length (signed_text z) <= 11)%nat.
Proof.
  intros Hz. unfold signed_text. destruct (Z.ltb_spec z 0).
  - cbn [length]. pose proof (number_length_10 (- z) ltac:(lia)). lia.
  - pose proof (number_length_10 z ltac:(lia)). lia.
Qed.

Lemma element_length type b : element_type type -> Forall is_byte b -> Z.of_nat (length b) = option_lengths type ->
  Z.of_nat (length (element_text type b)) < max_option_length type.
Proof.
  intros Ht Hb Hl. pose proof (of_be_range b Hb) as Hr. rewrite Hl in Hr.
  assert (Hnum : forall k, (0 < k)%nat -> of_be b < 10 ^ Z.of_nat k -> (length (text (number (of_be b)) ++ [32%Z]) <= k + 1)%nat).
  { intros k Hk Hlt. rewrite length_app. pose proof (number_length k (of_be b) Hk ltac:(lia)). simpl. lia. }
  destruct Ht as [->|[->|[->|[->|[->|[->| ->]]]]]]; cbn -[ip_text number signed_text s32 of_be Z.of_nat].
  - pose proof (ip_text_length b Hb). lia.
  - destruct (negb (of_be b =? 0)); simpl; lia.
  - assert (of_be b < 256) by exact (proj2 Hr). specialize (Hnum 3%nat ltac:(lia) ltac:(change (10 ^ Z.of_nat 3) with 1000; lia)). lia.
  - assert (of_be b < 65536) by exact (proj2 Hr). specialize (Hnum 5%nat ltac:(lia) ltac:(change (10 ^ Z.of_nat 5) with 100000; lia)). lia.
  - assert (of_be b < 65536) by exact (proj2 Hr). specialize (Hnum 5%nat ltac:(lia) ltac:(change (10 ^ Z.of_nat 5) with 100000; lia)). lia.
  - assert (of_be b < 4294967296) by exact (proj2 Hr). specialize (Hnum 10%nat ltac:(lia) ltac:(change (10 ^ Z.of_nat 10) with 10000000000; lia)). lia.
  - rewrite length_app. assert (Hs : - 2147483648 <= s32 (of_be b) < 2147483648).
    { unfold s32. change (2 ^ 31) with 2147483648. change (2 ^ 32) with 4294967296.
      pose proof (Z.mod_pos_bound (of_be b + 2147483648) 4294967296 ltac:(lia)). lia. }
    pose proof (signed_text_length _ Hs). simpl. lia.
Qed.

Section filling.
Context {T : Type}.

Lemma sprintf_run cap sofar more (s : T) : Z.of_nat (length sofar + length more) + 1 <= cap ->
  sprintf_at cap sofar more s = Ok (sofar ++ more) s.
Proof. intros H. unfold sprintf_at. by rewrite (proj2 (Z.leb_le _ _) H). Qed.

Lemma opt_bytes_run n p f pre b post off (s : T) : field_bytes p f = pre ++ b ++ post -> off = Z.of_nat (length pre) ->
  length b = n -> opt_bytes n p f off s = Ok b s.
Proof.
  intros Hf -> Hn. unfold opt_bytes. apply in_bounds_run. rewrite load_ok; [|lia|rewrite Hf, !length_app; lia].
  rewrite Hf, Nat2Z.id, drop_app_length. by rewrite take_app_length'.
Qed.

Lemma opt_byte_at p f pre c post off (s : T) : field_bytes p f = pre ++ c :: post -> off = Z.of_nat (length pre) ->
  opt_byte p f off s = Ok c s.
Proof. intros Hf ->. apply opt_byte_run; [lia|]. rewrite Hf, Nat2Z.id. by apply list_lookup_middle. Qed.

(** One round over an element that fits. *)
Lemma fill_round fuel cap p type dest f pre b post off len (s : T) :
  element_type type -> field_bytes p f = pre ++ b ++ post -> off = Z.of_nat (length pre) -> Forall is_byte b ->
  Z.of_nat (length b) = option_lengths type -> Z.of_nat (length dest + length (element_text type b)) + 1 <= cap ->
  fill_loop (S fuel) cap p type (option_lengths type) dest f off len s
  = (if len - option_lengths type <=? 0 then mret (dest ++ element_text type b)
     else fill_loop fuel cap p type (option_lengths type) (dest ++ element_text type b) f (off + option_lengths type)
            (len - option_lengths type)) s.
Proof.
  intros Ht Hf Ho Hb Hl Hcap. cbn [fill_loop].
  destruct Ht as [->|[->|[->|[->|[->|[->| ->]]]]]]; cbn in Hl;
    repeat match goal with |- context [?x =? ?y] => is_const x; is_const y; let v := eval vm_compute in (x =? y) in change (x =? y) with v end;
    cbv match; cbn [orb].
  1, 4, 5, 6, 7: (eapply run_bind; [apply (opt_bytes_run _ p f pre b post); [done|done|lia]|];
    eapply run_bind; [by apply sprintf_run|]; done).
  all: (destruct b as [|c [|? ?]]; cbn in Hl; try lia; eapply run_bind; [apply (opt_byte_at p f pre c post); done|];
    eapply run_bind; [by apply sprintf_run|]; done).
Qed.

Lemma fill_elements n fuel cap p type dest f pre b post off len (s : T) :
  element_type type -> field_bytes p f = pre ++ b ++ post -> off = Z.of_nat (length pre) -> Forall is_byte b ->
  (0 < n)%nat -> Z.of_nat (length b) = Z.of_nat n * option_lengths type -> len = Z.of_nat (length b) -> (n <= fuel)%nat ->
  Z.of_nat (length dest) + Z.of_nat n * (max_option_length type - 1) + 1 <= cap ->
  fill_loop fuel cap p type (option_lengths type) dest f off len s = Ok (dest ++ elements_text n type b) s.
Proof.
  intros Ht. assert (Hw : 0 < option_lengths type /\ 1 < max_option_length type) by (by destruct Ht as [->|[->|[->|[->|[->|[->| ->]]]]]]).
  revert fuel dest pre b off len. induction n as [|n IH]; intros fuel dest pre b off len Hf Ho Hb Hn Hl Hlen Hfuel Hcap; [lia|].
  destruct fuel as [|fuel]; [lia|]. set (w := Z.to_nat (option_lengths type)) in *. cbn [elements_text]. fold w.
  assert (Hwl : (w <= length b)%nat) by (unfold w; nia).
  assert (Hchunk : Z.of_nat (length (take w b)) = option_lengths type) by (rewrite length_take; unfold w in *; lia).
  pose proof (element_length type (take w b) Ht (Forall_take _ _ _ Hb) Hchunk) as He.
  assert (Hf' : field_bytes p f = (pre ++ take w b) ++ drop w b ++ post) by (by rewrite <- app_assoc, (app_assoc (take w b)), take_drop).
  rewrite (fill_round fuel cap p type dest f pre (take w b) (drop w b ++ post) off len s Ht);
    [|by rewrite Hf', <- app_assoc|done|by apply Forall_take|done|nia].
  destruct (Z.leb_spec (len - option_lengths type) 0) as [Hend|Hmore].
  - assert (n = 0)%nat as -> by nia. cbn [elements_text]. by rewrite app_nil_r.
  - rewrite (IH fuel _ (pre ++ take w b) (drop w b)); [by rewrite <- app_assoc|done| | |nia| | |lia| ].
    + rewrite length_app, Ho. lia.
    + by apply Forall_drop.
    + rewrite length_drop. unfold w in *. nia.
    + rewrite length_drop, Hlen. unfold w in *. lia.
    + rewrite length_app. nia.
Qed.
End filling.

(** ** The environment of a packet *)

Definition option_type (o : dhcp_option) : Z := Z.land (o_flags o) TYPE_MASK.

(** A value has whole elements, and at least one; a string has any length. *)
Definition shaped (l : list (Z * list Z)) (o : dhcp_option) : Prop :=
  forall b, option_data (o_code o) l = Some b -> option_type o = OPTION_STRING
    \/ exists n, (0 < n)%nat /\ Z.of_nat (length b) = Z.of_nat n * option_lengths (option_type o).

(** name=value for the options of the table that the packet has. *)
Definition option_env (l : list (Z * list Z)) (o : dhcp_option) : list (list Z) :=
  match option_data (o_code o) l with
  | Some b => [text (o_name o) ++ 61 :: value_text (option_type o) b]
  | None => []
  end.

Definition table_entry (o : dhcp_option) : Prop :=
  0 < o_code o < 255 /\ (option_type o = OPTION_STRING \/ element_type (option_type o)).
Lemma table_entries : Forall table_entry options.
Proof. unfold table_entry, element_type. repeat (constructor; [split; [done|]; vm_compute; tauto|]). constructor. Qed.

Lemma text_length s : length (text s) = String.length s.
Proof. unfold text, bytes_of_string. rewrite length_fmap. induction s as [|c s IH]; [done|]. simpl. by rewrite IH. Qed.

(** What was found, as the bytes around the value. *)
Lemma found_split p code l r : length (m_options p) = 308%nat -> found_in p code l r ->
  match option_data code l with
  | None => r = None
  | Some b => exists pre post, m_options p = pre ++ Z.of_nat (length b) :: b ++ post
      /\ r = Some (In_options, Z.of_nat (length pre) + 1)
  end.
Proof.
  unfold found_in, option_data. intros Hs. destruct (list_find _ l) as [[j [c b]]|]; [|done]. cbn.
  intros (off & -> & Hl & Hlen & Ho & Hend).
  rewrite load_ok in Hl by lia. injection Hl as Hl.
  exists (take (Z.to_nat (off - 1)) (m_options p)), (drop (length b) (drop (Z.to_nat off) (m_options p))).
  split; [|rewrite length_take; repeat f_equal; lia].
  assert (Htail : drop (Z.to_nat off) (m_options p) = b ++ drop (length b) (drop (Z.to_nat off) (m_options p)))
    by (rewrite <- (take_drop (length b) (drop (Z.to_nat off) (m_options p))) at 1; by rewrite Hl).
  rewrite <- Htail. replace (Z.to_nat off) with (S (Z.to_nat (off - 1))) by lia. by rewrite take_drop_middle.
Qed.

Section environment.
Context (p : dhcpMessage) (l : list (Z * list Z)).
Hypothesis Hlayout : opts_layout l (m_options p).
Hypothesis Hplain : Forall plain_option l.

(** The text of an option fits the block that is computed for it. *)
Lemma fill_option_run {T} o b pre post (s : T) : table_entry o -> option_data (o_code o) l = Some b -> shaped l o ->
  m_options p = pre ++ Z.of_nat (length b) :: b ++ post ->
  fill_options (upper_length (Z.of_nat (length b)) o + Z.of_nat (String.length (o_name o)) + 2) p
    (In_options, Z.of_nat (length pre) + 1) o s
  = Ok (text (o_name o) ++ 61 :: value_text (option_type o) b) s.
Proof.
  intros [_ Ht] Hd Hs Hp.
  assert (Hb : Forall is_byte b /\ (length b < 256)%nat).
  { apply option_data_elem in Hd. by destruct (Forall_elem _ _ _ (ol_wf _ _ Hlayout) Hd) as (_ & H1 & H2). }
  destruct Hb as [Hb Hb256]. unfold fill_options, OPT_LEN.
  eapply run_bind.
  { apply (opt_byte_at p In_options pre (Z.of_nat (length b)) (b ++ post)); [exact Hp|lia]. }
  unfold upper_length. fold (option_type o) in *.
  assert (Hfield : field_bytes p In_options = (pre ++ [Z.of_nat (length b)]) ++ b ++ post) by (cbn; by rewrite Hp, <- app_assoc).
  assert (Hoff : Z.of_nat (length pre) + 1 = Z.of_nat (length (pre ++ [Z.of_nat (length b)]))) by (rewrite length_app; simpl; lia).
  destruct (decide (option_type o = OPTION_STRING)) as [->|Hns].
  - change (max_option_length OPTION_STRING) with 1. change (option_lengths OPTION_STRING) with 1. rewrite Z.div_1_r, Z.mul_1_l.
    eapply run_bind; [apply sprintf_run; rewrite length_app, text_length; simpl; lia|].
    change (value_text OPTION_STRING b) with b. change (fill_loop 256 ?c p OPTION_STRING 1 ?d In_options ?o ?n)
      with (b0 ← opt_bytes (Z.to_nat n) p In_options o; sprintf_at c d b0 : M T (list Z)).
    eapply run_bind; [apply (opt_bytes_run _ p In_options (pre ++ [Z.of_nat (length b)]) b post); [exact Hfield|exact Hoff|lia]|].
    rewrite sprintf_run by (rewrite !length_app, text_length; simpl; lia). by rewrite app_nil_l, <- app_assoc.
  - destruct Ht as [Ht|Ht]; [done|]. destruct (Hs b Hd) as [?|(n & Hn & Hbn)]; [done|].
    assert (Hw : 0 < option_lengths (option_type o) /\ 1 < max_option_length (option_type o))
      by (by destruct Ht as [->|[->|[->|[->|[->|[->| ->]]]]]]).
    assert (Hdiv : Z.of_nat (length b) / option_lengths (option_type o) = Z.of_nat n) by (rewrite Hbn; apply Z.div_mul; lia).
    rewrite Hdiv.
    eapply run_bind; [apply sprintf_run; rewrite length_app, text_length; simpl; nia|].
    rewrite (fill_elements n 256 _ p _ _ In_options (pre ++ [Z.of_nat (length b)]) b post _ _ s Ht Hfield Hoff Hb Hn Hbn eq_refl); [|nia|].
    + rewrite app_nil_l, <- app_assoc. unfold value_text. rewrite (proj2 (Z.eqb_neq _ _) Hns).
      replace (length b / Z.to_nat (option_lengths (option_type o)))%nat with n; [done|].
      apply Nat.div_unique_exact; [lia|]. apply Nat2Z.inj. rewrite Nat2Z.inj_mul, Z2Nat.id by lia. lia.
    + rewrite app_nil_l, length_app, text_length. cbn [length].
      pose proof (Z.mul_sub_distr_l (Z.of_nat n) (max_option_length (option_type o)) 1). lia.
Qed.

Context `{E : ClientEnv}.

Lemma count_run os s : Forall table_entry os ->
  count_options os p s = Ok (length (concat (option_env l <$> os))) s.
Proof.
  induction 1 as [|o os [Hc _] _ IH]; [done|]. cbn [count_options].
  destruct (client_found p (o_code o) l s Hlayout Hplain Hc) as (r & Hr & Hf). eapply run_bind; [exact Hr|].
  eapply run_bind; [exact IH|]. apply found_split in Hf; [|by destruct Hlayout]. rewrite fmap_cons. cbn [concat].
  rewrite length_app. unfold option_env. destruct (option_data (o_code o) l); [by destruct Hf as (? & ? & _ & ->)|by subst r].
Qed.

Lemma option_envs_run os cap envp s : Forall table_entry os -> Forall (shaped l) os ->
  (length envp + length (concat (option_env l <$> os)) <= cap)%nat ->
  option_envs os p cap envp s = Ok (envp ++ concat (option_env l <$> os)) s.
Proof.
  intros Ho. revert envp. induction Ho as [|o os He _ IH]; intros envp Hs Hcap; [by rewrite app_nil_r|].
  apply Forall_cons in Hs as [Hs1 Hs]. cbn [option_envs]. pose proof He as [Hc _].
  destruct (client_found p (o_code o) l s Hlayout Hplain Hc) as (r & Hr & Hf). eapply run_bind; [exact Hr|].
  apply found_split in Hf; [|by destruct Hlayout]. rewrite fmap_cons in *. cbn [concat] in *. rewrite length_app in Hcap.
  unfold option_env at 1. unfold option_env at 1 in Hcap. destruct (option_data (o_code o) l) as [b|] eqn:Hd.
  - destruct Hf as (pre & post & Hp & ->). cbn [length] in Hcap.
    eapply run_bind; [apply (opt_byte_at p In_options pre (Z.of_nat (length b)) (b ++ post)); [exact Hp|unfold OPT_LEN; lia]|].
    eapply run_bind; [by apply (fill_option_run o b pre post)|].
    eapply run_bind; [unfold push_env; rewrite decide_True by lia; reflexivity|].
    rewrite IH; [by rewrite <- app_assoc|done|rewrite length_app; simpl; lia].
  - subst r. by apply IH.
Qed.
End environment.

(** The variables of a packet with the options [l]. *)
Definition named_env (name : string) (set : bool) (value : list Z) : list (list Z) := if set then [text name ++ value] else [].
Definition first_set (b : list Z) : bool := negb (default 0 (b !! 0%nat) =? 0).
Definition packet_env (environ : list (list Z)) (interface0 : string) (p : dhcpMessage) (l : list (Z * list Z)) : list (list Z) :=
  [text "interface=" ++ text interface0;
   find_env environ (text "PATH") (text "PATH=/bin:/usr/bin:/sbin:/usr/sbin");
   find_env environ (text "HOME") (text "HOME=/");
   text "ip=" ++ ip_text (be32 (m_yiaddr p))]
  ++ concat (option_env l <$> options)
  ++ named_env "siaddr=" (negb (m_siaddr p =? 0)) (ip_text (be32 (m_siaddr p)))
  ++ named_env "boot_file=" (first_set (m_file p)) (cstring (take 127 (m_file p)))
  ++ named_env "sname=" (first_set (m_sname p)) (cstring (take 63 (m_sname p))).

(** The dotted address with its blank has at most 15 characters. *)
Definition short_address (a : Z) : Prop := (length (ip_text (be32 a)) <= 15)%nat.

Lemma push_env_run {T} cap envp e (s : T) : (length envp < cap)%nat -> push_env cap envp e s = Ok (envp ++ [e]) s.
Proof. intros H. unfold push_env. by rewrite decide_True. Qed.

Lemma named_env_run {T} cap name set value envp (s : T) : (length envp + length (named_env name set value) <= cap)%nat ->
  (if set then push_env cap envp (text name ++ value) else mret envp) s = Ok (envp ++ named_env name set value) s.
Proof. destruct set; cbn [named_env length]; intros H; [apply push_env_run; lia|by rewrite app_nil_r]. Qed.

Lemma siaddr_env_run {T} cap a envp (s : T) : (a <> 0 -> short_address a) ->
  (length envp + length (named_env "siaddr=" (negb (a =? 0)%Z) (ip_text (be32 a))) <= cap)%nat ->
  (if negb (a =? 0) then ip ← sprintip 23 [] (text "siaddr=") (be32 a); push_env cap envp ip else mret envp) s
  = Ok (envp ++ named_env "siaddr=" (negb (a =? 0)) (ip_text (be32 a))) s.
Proof.
  unfold short_address. intros Ha Hcap. destruct (Z.eqb_spec a 0) as [_|Hne]; cbn [negb named_env length] in *; [by rewrite app_nil_r|].
  eapply run_bind; [apply sprintf_run; rewrite length_app, text_length; specialize (Ha Hne); simpl; lia|].
  apply push_env_run. lia.
Qed.

(** C15. The script is given the packet: for a packet whose options are a list without
    overload, whose values have whole elements (strings of any length), the child
    builds the variables of the interface, the address, and each option of the table
    that the packet has, in the order of the table, with its value as text, and the
    boot fields; every text fits the block that is allocated for it, although its size is
    computed from the length of the option alone, and the list fits the block of
    pointers. The addresses of the packet must not have four numbers of three digits:
    the blank after the address is not counted in that block. *)
Theorem fill_envp_spec `{E : ClientEnv} environ interface0 p l s :
  opts_layout l (m_options p) -> Forall plain_option l -> Forall (shaped l) options ->
  short_address (m_yiaddr p) -> (m_siaddr p <> 0 -> short_address (m_siaddr p)) ->
  fill_envp environ interface0 (Some p) s = Ok (packet_env environ interface0 p l) s.
Proof.
  intros Hl Hpl Hsh Hy Hsi. unfold fill_envp.
  eapply run_bind; [apply (count_run p l Hl Hpl), table_entries|].
  destruct (client_found p DHCP_OPTION_OVER l s Hl Hpl) as (r & Hr & Hf); [done|]. eapply run_bind; [exact Hr|].
  apply found_split in Hf; [|by destruct Hl].
  assert (Hno : option_data DHCP_OPTION_OVER l = None).
  { destruct (option_data DHCP_OPTION_OVER l) as [b|] eqn:Hd; [|done]. apply option_data_elem in Hd.
    by destruct (Forall_elem _ _ _ Hpl Hd) as [[] _]. }
  rewrite Hno in Hf. subst r. eapply run_bind; [reflexivity|].
  change (Z.land 0 FILE_FIELD =? 0) with true. change (Z.land 0 SNAME_FIELD =? 0) with true. cbn [andb].
  fold (first_set (m_file p)) (first_set (m_sname p)). set (cap := (_ + 5)%nat).
  set (envs := concat (option_env l <$> options)) in *.
  assert (Hcap : (length envs + length (named_env "siaddr=" (negb (m_siaddr p =? 0)%Z) (ip_text (be32 (m_siaddr p))))
    + length (named_env "boot_file=" (first_set (m_file p)) (cstring (take 127 (m_file p))))
    + length (named_env "sname=" (first_set (m_sname p)) (cstring (take 63 (m_sname p)))) + 5 = cap)%nat).
  { unfold cap, envs. destruct (negb (m_siaddr p =? 0)), (first_set (m_file p)), (first_set (m_sname p)); cbn [named_env length]; lia. }
  clearbody cap. unfold short_address in *.
  eapply run_bind; [apply sprintf_run; rewrite length_app, text_length; simpl; lia|].
  eapply run_bind; [apply push_env_run; simpl; lia|].
  eapply run_bind; [apply (option_envs_run p l Hl Hpl); [apply table_entries|done|fold envs; simpl; lia]|]. fold envs.
  eapply run_bind; [apply siaddr_env_run; [done|rewrite !length_app; cbn [length]; lia]|].
  eapply run_bind; [apply named_env_run; rewrite !length_app; cbn [length]; lia|].
  eapply run_bind; [apply named_env_run; rewrite !length_app; cbn [length]; lia|].
  rewrite decide_True by (rewrite !length_app; cbn [length]; lia). unfold packet_env. fold envs. cbn [app].
  by rewrite <- !app_assoc.
Qed.
