(* ===== verification/ClientServer.v ===== *)
(** * ClientServer: the DHCP client and the DHCP server together

    What the client sends is a well-formed message for the server, what the
    server answers is received and understood by the client, and the two agree
    on the address and on its time. *)

From S2P Require Import Prelude DhcpTypes DhcpOptions DhcpLeases DhcpPacket DhcpServer DhcpBehaviour ClientTypes ClientPacket ClientMachine ClientSend ClientLoop ClientLease.

(** ** The client's messages are requests *)

Lemma neutral_wide o : neutral o -> wide_enough o.
Proof. intros (_ & H1 & H2 & H3 & H4). split; intros H; [by destruct H as [?|[?|?]]|done]. Qed.

Definition plain_wide (o : Z * list Z) : Prop := plain_option o /\ wide_enough o.
Lemma neutral_plain_wide o : neutral o -> plain_wide o.
Proof. intros Ho. split; [apply Ho|by apply neutral_wide]. Qed.
Lemma word_plain_wide code v : code <> DHCP_OPTION_OVER -> code <> DHCP_VENDOR -> code <> DHCP_MESSAGE_TYPE -> plain_wide (code, be32 v).
Proof. intros H1 H2 H3. split; split; cbn [fst snd]; try done; intros _; simpl; lia. Qed.

Lemma base_neutral c : client_ok c ->
  Forall neutral (decode_opt <$> (option_list (clientid c) ++ option_list (client_hostname c) ++ [vendor_id])).
Proof.
  intros [_ Ho _ _]. rewrite app_assoc, fmap_app. apply Forall_app. split.
  - apply Forall_fmap. eapply Forall_weaken; [exact Ho|]. by intros o [_ Hn].
  - apply Forall_singleton. apply vendor_ok.
Qed.

Lemma base_plain_wide c type : client_ok c -> Forall plain_wide (base_options c type).
Proof.
  intros Hc. unfold base_options. constructor.
  - split; split; cbn [fst snd]; try done; by intros [?|[?|?]].
  - eapply Forall_weaken; [by apply base_neutral|]. apply neutral_plain_wide.
Qed.

Lemma asking_plain_wide l : Forall plain_wide l -> Forall plain_wide (asking l).
Proof.
  intros Hl. apply Forall_app. split; [done|]. apply Forall_singleton. split; split; cbn [fst snd]; try done. by intros [?|[?|?]].
Qed.

Lemma client_request c type x ci l p : client_ok c -> word x -> word ci -> client_message c type x ci l p ->
  Forall plain_wide l -> good_request p l.
Proof.
  intros Hc Hx Hci Hm Hl. pose proof (client_message_range _ _ _ _ _ _ Hc Hx Hci Hm) as [].
  split; [done|apply (cm_options _ _ _ _ _ _ Hm)| | |done].
  - eapply Forall_weaken; [exact Hl|]. by intros o [H _].
  - eapply Forall_weaken; [exact Hl|]. by intros o [_ H].
Qed.

(** The data of an option in a list that is built from parts. *)
Lemma option_data_app code l1 l2 : option_data code (l1 ++ l2)
  = match option_data code l1 with Some b => Some b | None => option_data code l2 end.
Proof.
  unfold option_data. induction l1 as [|o l1 IH]; [by rewrite app_nil_l|]. cbn [app list_find].
  destruct (decide (fst o = code)); [done|].
  destruct (list_find _ (l1 ++ l2)) as [[j o']|], (list_find _ l1) as [[j1 o1]|]; cbn in *; try done; by rewrite IH.
Qed.
Lemma option_data_cons code o l : option_data code (o :: l) = if decide (fst o = code) then Some (snd o) else option_data code l.
Proof. unfold option_data. cbn [list_find]. destruct (decide (fst o = code)); [done|]. by destruct (list_find _ l) as [[]|]. Qed.
Lemma option_data_none code l : Forall (fun o => fst o <> code) l -> option_data code l = None.
Proof. induction 1 as [|o l H _ IH]; [done|]. rewrite option_data_cons. by rewrite decide_False. Qed.

Lemma option_data_base c code type : client_ok c ->
  code = DHCP_REQUESTED_IP \/ code = DHCP_SERVER_ID \/ code = DHCP_LEASE_TIME -> option_data code (base_options c type) = None.
Proof.
  intros Hc Hcode. apply option_data_none. unfold base_options. constructor; [by destruct Hcode as [->|[->| ->]]|].
  eapply Forall_weaken; [by apply base_neutral|]. intros o (_ & _ & H2 & H3 & H4). by destruct Hcode as [->|[->| ->]].
Qed.

(** ** The server's answers *)

(** Options that are pushed come after the ones that are there. *)
Lemma option_data_push code l os b : option_data code l = Some b -> option_data code (push_opts l os) = Some b.
Proof.
  revert l. induction os as [|o os IH]; intros l Hl; [done|]. cbn. apply IH. unfold push_opt. destruct (opt_fits l o); [|done].
  by rewrite option_data_app, Hl.
Qed.
Lemma push_opts_Forall (P : Z * list Z -> Prop) l os : Forall P l -> Forall P os -> Forall P (push_opts l os).
Proof.
  intros Hl Hos. revert l Hl. induction Hos as [|o os Ho _ IH]; intros l Hl; [done|]. cbn. apply IH. unfold push_opt.
  destruct (opt_fits l o); [|done]. apply Forall_app. split; [done|by apply Forall_singleton].
Qed.

(** A server whose options say nothing about the protocol, and that sets no boot
    fields. *)
Record plain_server (c : server_config_t) : Prop := PlainServer {
  ps_neutral : Forall neutral (configured c);
  ps_boot : sname c = None /\ boot_file c = None;
  ps_words : word (siaddr c) /\ word (server c)
}.

Lemma answer_plain_wide c type t : plain_server c -> Forall plain_wide (answer_options c type (Some t)).
Proof.
  intros [Hn _ _]. apply push_opts_Forall.
  - constructor; [|constructor; [by apply word_plain_wide|constructor; [by apply word_plain_wide|constructor]]].
    split; split; cbn [fst snd]; try done; by intros [?|[?|?]].
  - eapply Forall_weaken; [exact Hn|]. apply neutral_plain_wide.
Qed.

Lemma answer_data c type t : let l := answer_options c type (Some t) in
  option_data DHCP_MESSAGE_TYPE l = Some [u8 type] /\ option_data DHCP_SERVER_ID l = Some (be32 (server c))
  /\ option_data DHCP_LEASE_TIME l = Some (be32 t).
Proof. by split_and!; apply option_data_push. Qed.

Lemma answer_range c old type yi t p : plain_server c -> message_range old -> word yi ->
  answer_to c old type yi (answer_options c type (Some t)) p -> message_range p /\ good_request p (answer_options c type (Some t)).
Proof.
  intros Hs [[Ho1 _ _ _ Ho2 _ _ _] _ _ F X CI _ _ GI _] Hy [A1 A2 A3 A4 A5 A6 A7 A8 [A9 A10] A11 [A12 A13] [A14 A15]].
  destruct (ps_boot c Hs) as [Hb1 Hb2]. specialize (A12 Hb1). specialize (A13 Hb2).
  assert (Hok : message_ok p).
  { destruct A14. split; rewrite ?A6, ?A12, ?A13, ?length_replicate; auto using zeros_bytes. }
  pose proof (answer_plain_wide c type t Hs) as Hpw. split.
  - split; try done; rewrite ?A10, ?A2, ?A3, ?A4, ?A5, ?A7, ?A8; try done; try lia; [by destruct A11 as [-> | ->]; [|apply Hs]].
  - split; [done|done| | |by rewrite A4].
    + eapply Forall_weaken; [exact Hpw|]. by intros o [H _].
    + eapply Forall_weaken; [exact Hpw|]. by intros o [_ H].
Qed.

(** ** The client reads an answer *)

Lemma received_message p : message_range p -> received (message_bytes p) = p.
Proof.
  intros Hp. destruct (message_bytes_ok p (mr_ok _ Hp) (mr_head _ Hp)) as [Hl _]. unfold received.
  rewrite take_ge by (rewrite Hl; done). rewrite Hl, app_nil_r. by apply message_of_bytes.
Qed.

Section reading.
Context `{E : ClientEnv}.

(** A frame of the transaction is a message that is handled. *)
Lemma on_packet_frame q sip dip garbage now s : listen_mode s = LISTEN_RAW -> length (c_packet s) = 548%nat ->
  message_range q -> m_cookie q = DHCP_MAGIC -> word sip -> word dip -> m_xid q = xid s ->
  on_packet (Some (raw_bytes q sip SERVER_PORT dip CLIENT_PORT ++ garbage)) now s
  = on_message q now (set_c_packet (message_bytes q) s).
Proof.
  intros Hm Hl Hq Hc Hs Hd Hx. unfold on_packet. eapply run_bind; [apply gets_run|]. rewrite Hm.
  eapply run_bind; [by apply raw_packet_received_run|]. eapply run_bind; [reflexivity|]. change (548 <? 0) with false. cbn match.
  eapply run_bind; [apply gets_run|]. eapply run_bind; [apply gets_run|].
  change (c_packet (set_c_packet (message_bytes q) s)) with (message_bytes q). rewrite message_of_bytes by done.
  change (xid (set_c_packet (message_bytes q) s)) with (xid s). by rewrite Hx, Z.eqb_refl.
Qed.

(** An option of a message, as it is read. *)
Lemma found_pointer p code l dd r : found_in p code l r -> option_data code l = Some dd -> exists ptr, r = Some ptr.
Proof.
  unfold found_in, option_data. destruct (list_find _ l) as [[j [c b]]|]; [|done]. intros (off & -> & _) _. by eexists.
Qed.

Lemma client_type_run q l type s : good_request q l -> message_type l = Some type ->
  exists ptr, client_get_option q DHCP_MESSAGE_TYPE s = Ok (Some ptr) s
  /\ forall T (d : T), opt_byte q (fst ptr) (snd ptr) d = Ok type d.
Proof.
  intros Hg Ht. destruct (client_found q DHCP_MESSAGE_TYPE l s (gr_layout _ _ Hg) (gr_plain _ _ Hg)) as (r & Hr & Hf); [done|].
  assert (Hd : exists dd, option_data DHCP_MESSAGE_TYPE l = Some dd).
  { unfold message_type in Ht. destruct (option_data DHCP_MESSAGE_TYPE l) as [dd|]; [by exists dd|done]. }
  destruct Hd as [dd Hd]. destruct (found_pointer _ _ _ _ _ Hf Hd) as [ptr ->]. exists ptr. split; [done|].
  intros T d. destruct (type_byte_run q l ptr d Hg Hf) as (t & Ht' & Hrun). congruence.
Qed.

Lemma client_word_run q l code v s : good_request q l -> option_data code l = Some (be32 v) -> word v ->
  code = DHCP_LEASE_TIME \/ code = DHCP_SERVER_ID ->
  exists ptr, client_get_option q code s = Ok (Some ptr) s /\ forall T (d : T), opt_word q ptr d = Ok v d.
Proof.
  intros Hg Hd Hv Hcode.
  destruct (client_found q code l s (gr_layout _ _ Hg) (gr_plain _ _ Hg)) as (r & Hr & Hf); [by destruct Hcode as [-> | ->]|].
  destruct (found_pointer _ _ _ _ _ Hf Hd) as [ptr ->]. exists ptr. split; [done|]. intros T d.
  destruct (opt_word_run q l code ptr d Hg Hf) as (w & Hw & Hrun); [by right; destruct Hcode; [left|right]|].
  unfold option_word in Hw. rewrite Hd in Hw. cbn [fmap option_fmap option_map] in Hw.
  assert (E0 : of_be (take 4 (be32 v)) = v) by (rewrite take_ge by done; rewrite of_be32; by apply u32_small).
  rewrite E0 in Hw. congruence.
Qed.

(** Without boot fields the text tests see two zero bytes. *)
Lemma no_boot_text q s : message_range q -> m_sname q = replicate 64 0 -> m_file q = replicate 128 0 ->
  c_packet s = message_bytes q -> bootp_pass s = Ok true s.
Proof.
  intros Hq H1 H2 Hc.
  assert (Htext : forall off rest, drop off (c_packet s) = 0 :: rest -> has_text off s = Ok false s).
  { intros off rest Hd. unfold has_text. eapply run_bind; [apply gets_run|]. rewrite Hd. reflexivity. }
  destruct Hq as [[M1 M2 M3 M4 _ _ _ _] _ _ _ _ _ _ _ _ _].
  assert (Hbytes : exists h r, length h = 44%nat /\ message_bytes q = h ++ replicate 64 0 ++ replicate 128 0 ++ r).
  { exists (([m_op q; m_htype q; m_hlen q; m_hops q] ++ be32 (m_xid q) ++ be16 (m_secs q) ++ be16 (m_flags q)
      ++ be32 (m_ciaddr q) ++ be32 (m_yiaddr q) ++ be32 (m_siaddr q) ++ be32 (m_giaddr q)) ++ m_chaddr q), (be32 (m_cookie q) ++ m_options q).
    split; [by rewrite length_app, M1|]. unfold message_bytes. by rewrite H1, H2, <- !app_assoc. }
  destruct Hbytes as (h & r & Hh & Hb). unfold bootp_pass.
  eapply run_bind; [apply (Htext 44%nat (replicate 63 0 ++ replicate 128 0 ++ r)); rewrite Hc, Hb; by apply drop_app_length'|].
  eapply run_bind; [apply (Htext 108%nat (replicate 127 0 ++ r))|reflexivity].
  rewrite Hc, Hb, app_assoc. apply drop_app_length'. by rewrite length_app, Hh.
Qed.

(** The message is for this client. *)
Lemma for_us_run q s : m_chaddr q = client_arp (client_config s) ++ replicate 10 0 -> length (client_arp (client_config s)) = 6%nat ->
  for_us q s = Ok true s.
Proof.
  intros Hch Hl. unfold for_us. eapply run_bind; [apply gets_run|]. unfold mret, M_ret. do 2 f_equal.
  apply bool_decide_eq_true. rewrite Hch, take_app_le by lia. by rewrite !take_ge by lia.
Qed.

(** An OFFER of a plain server is taken. *)
Lemma offer_taken q l sv now s : message_range q -> good_request q l -> c_packet s = message_bytes q ->
  m_sname q = replicate 64 0 -> m_file q = replicate 128 0 ->
  m_chaddr q = client_arp (client_config s) ++ replicate 10 0 -> length (client_arp (client_config s)) = 6%nat ->
  message_type l = Some DHCPOFFER -> option_data DHCP_SERVER_ID l = Some (be32 sv) -> word sv -> c_state s = INIT_SELECTING ->
  on_message q now s = Ok tt (set_packet_num 0 (set_c_timeout (u32 now) (set_c_state REQUESTING
    (set_requested_ip (m_yiaddr q) (set_xid (m_xid q) (set_server_addr sv (set_bootp_cnt_offer 0 s))))))).
Proof.
  intros Hq Hg Hc H1 H2 Hch Hl Ht Hd Hsv Hst. destruct (client_type_run q l DHCPOFFER s Hg Ht) as (ptr & Hr & Htype).
  destruct (client_word_run q l DHCP_SERVER_ID sv (set_bootp_cnt_offer 0 s) Hg Hd Hsv) as (ptr2 & Hr2 & Hw); [by right|].
  unfold on_message. eapply run_bind; [exact Hr|]. cbn match. eapply run_bind; [apply gets_run|]. rewrite Hst.
  unfold on_offer. eapply run_bind; [apply Htype|]. change (negb (DHCPOFFER =? DHCPOFFER)) with false. cbn match.
  eapply run_bind; [by apply for_us_run|]. cbn [negb]. eapply run_bind; [by apply (no_boot_text q)|]. cbn [negb].
  eapply run_bind; [reflexivity|]. eapply run_bind; [exact Hr2|]. cbn match. eapply run_bind; [apply Hw|].
  repeat (eapply run_bind; [reflexivity|]). reflexivity.
Qed.

(** An ACK is taken. *)
Lemma ack_taken q l lease0 now s : good_request q l ->
  m_chaddr q = client_arp (client_config s) ++ replicate 10 0 -> length (client_arp (client_config s)) = 6%nat ->
  message_type l = Some DHCPACK -> option_data DHCP_LEASE_TIME l = Some (be32 lease0) -> word lease0 -> c_state s = REQUESTING ->
  foreground (client_config s) = true -> quit_after_lease (client_config s) = false ->
  exists s', on_message q now s = Ok tt s' /\ just_bound lease0 s' /\ c_start s' = u32 now /\ requested_ip s' = m_yiaddr q
  /\ server_addr s' = server_addr s /\ client_config s' = client_config s
  /\ (c_out s' = c_out s \/ c_out s' = c_out s ++ [Script "bound" (Some q)]).
Proof.
  intros Hg Hch Hl Ht Hd Hw Hst Hfg Hquit. destruct (client_type_run q l DHCPACK s Hg Ht) as (ptr & Hr & Htype).
  destruct (client_word_run q l DHCP_LEASE_TIME lease0 s Hg Hd Hw) as (ptr2 & Hr2 & Hv); [by left|].
  set (s1 := set_requested_ip (m_yiaddr q) (set_c_timeout (u32 (lease0 / 2 + u32 now)) (set_c_start (u32 now)
    (set_t2 (Z.shiftr (u32 (lease0 * 0x7)) 3) (set_t1 (lease0 / 2) (set_c_lease (Some lease0) s)))))).
  assert (Hscript : exists s2, run_script (Some q) "bound" s1 = Ok tt s2
    /\ exists o, after o s1 s2 /\ (o = [] \/ o = [Script "bound" (Some q)])).
  { unfold run_script, mbind, M_bind, gets. destruct (script (client_config s1)).
    - unfold csys, mbind, M_bind, gets, modify, mret, M_ret. destruct (cenv_fork (c_calls s1)); cbn [when].
      + eexists. split; [reflexivity|]. eexists. split; [|by right]. reflexivity.
      + eexists. split; [reflexivity|]. exists []. split; [apply after_calls|by left].
    - exists s1. split; [done|]. exists []. split; [apply after_refl|by left]. }
  destruct Hscript as (s2 & Hs2 & o & Ha & Ho).
  assert (Hcfg : client_config s2 = client_config s) by (by rewrite Ha).
  exists (set_listen_mode LISTEN_NONE (set_c_fd false (set_c_state BOUND s2))). split.
  - unfold on_message. eapply run_bind; [exact Hr|]. cbn match. eapply run_bind; [apply gets_run|]. rewrite Hst.
    unfold on_reply. eapply run_bind; [apply Htype|]. rewrite Z.eqb_refl.
    unfold on_ack. eapply run_bind; [by apply for_us_run|]. cbn [negb]. eapply run_bind; [exact Hr2|]. cbn match.
    eapply run_bind; [apply Hv|]. do 6 (eapply run_bind; [reflexivity|]). eapply run_bind; [apply gets_run|].
    rewrite bool_decide_false by (change (~ (c_state s = RENEWING \/ c_state s = REBINDING)); rewrite Hst; by intros [?|?]).
    eapply run_bind; [exact Hs2|]. eapply run_bind; [reflexivity|]. eapply run_bind; [reflexivity|].
    eapply run_bind; [apply gets_run|]. change (client_config (set_listen_mode LISTEN_NONE (set_c_fd false (set_c_state BOUND s2)))) with (client_config s2).
    by rewrite Hcfg, Hfg, Hquit.
  - rewrite Ha. split; [by split|]. split; [done|]. split; [done|]. split; [done|]. split; [done|].
    destruct Ho as [-> | ->]; [left|right]; [by apply app_nil_r|done].
Qed.
End reading.

(** ** The server answers a request *)

(** A computation of the server that hands out nothing. *)
Definition silent {A} (m : M dhcpd A) : Prop := forall d a d', m d = Ok a d' -> d_out d' = d_out d.

Lemma silent_bind {A B} (m : M dhcpd A) (f : A -> M dhcpd B) : silent m -> (forall a, silent (f a)) -> silent (m ≫= f).
Proof.
  intros Hm Hf d b d' H. unfold mbind, M_bind in H. destruct (m d) as [a d1|] eqn:Hr; [|done].
  rewrite (Hf a _ _ _ H). by apply (Hm _ _ _ Hr).
Qed.
Lemma silent_in_bounds {A} (o : option A) : silent (in_bounds o).
Proof. intros d a d'. destruct o; [by intros [= _ <-]|done]. Qed.
Lemma silent_opt_byte p f k : silent (opt_byte p f k).
Proof. unfold opt_byte. destruct (0 <=? k); [apply silent_in_bounds|done]. Qed.

(** Its outputs, in a triple. *)
Lemma twp_silent {A} (m : M dhcpd A) (Q : A -> dhcpd -> Prop) d : silent m ->
  twp m (fun a d' => d_out d' = d_out d -> Q a d') d -> twp m Q d.
Proof. unfold twp. intros Hs H. destruct (m d) as [a d'|] eqn:Hr; [|done]. by apply H, (Hs _ _ _ Hr). Qed.

Section serving.
Context `{D : DhcpEnv}.

Lemma silent_store_hostname p k r : silent (store_hostname p k r).
Proof.
  assert (Hget : silent (lease_get k)).
  { apply silent_bind; [by intros d a d' [= _ <-]|]. intros a. apply silent_in_bounds. }
  assert (Hset : forall l, silent (lease_set k l)).
  { intros l. apply silent_bind; [by intros d a d' [= _ <-]|]. intros a. apply silent_bind; [apply silent_in_bounds|].
    intros _. by intros d u d' [= _ <-]. }
  unfold store_hostname. apply silent_bind; [done|]. intros l. destruct r as [[f off]|]; [|apply Hset].
  apply silent_bind; [apply silent_opt_byte|]. intros n. apply silent_bind; [apply silent_in_bounds|]. intros src. apply Hset.
Qed.

Lemma acks_out c p l y d1 d2 d1' d2' : d_out d1 = d_out d1' -> d_out d2 = d_out d2' -> acks c p l y d1 d2 -> acks c p l y d1' d2'.
Proof. intros E1 E2 (q & Hq & Ho). exists q. split; [done|]. by rewrite <- E1, <- E2. Qed.

(** The entry is the client's and has the address: a REQUEST of the selecting state
    is acknowledged. *)
Lemma known_acked d0 p l k le (Q : unit -> dhcpd -> Prop) d : from (others (m_chaddr p)) d0 d -> server_ok d -> good_request p l ->
  leases d !! k = Some le -> same_mac (m_chaddr p) le ->
  (forall d', from (others (m_chaddr p)) d0 d' -> own_entry (m_chaddr p) k d' -> acks (server_config d) p l (yiaddr le) d d' -> Q tt d') ->
  twp (request_known p k (Some (server (server_config d))) (Some (yiaddr le))) Q d.
Proof.
  intros Hf Hok Hg Hk Hm HQ. unfold request_known. apply twp_bind, twp_gets, twp_bind. eapply twp_run; [exact (lease_get_run _ _ _ Hk)|].
  rewrite Z.eqb_refl, bool_decide_true by done. cbn [andb]. apply twp_bind.
  pose proof (le_yiaddr _ (Forall_lookup_1 _ _ _ _ (tb_leases _ (fr_ok _ _ _ Hf)) Hk)) as Hyr.
  eapply twp_sendACK_out; [exact Hf|done|exact Hg|done|done| |].
  - intros l' Hl' (Hnm & Hy & _) _ He. apply Hnm.
    by rewrite (unique_address _ _ _ _ (fr_unique _ _ _ Hf) Hk Hl' ltac:(congruence) He).
  - intros _ d' Hf' Hls Ha. apply twp_ret, HQ; [done| |done]. destruct Hls as [Hl|(d1 & t & Hd1 & Hl)].
    + exists le. rewrite Hl. split; [done|by left].
    + eapply own_entry_added; [apply (mo_chaddr _ (gr_message _ _ Hg))|exists le; split; [exact Hk|by left]|done|done].
Qed.

Lemma select_answered p l y d : server_ok d -> good_request p l -> message_type l = Some DHCPREQUEST ->
  option_word DHCP_REQUESTED_IP l = Some y -> option_word DHCP_SERVER_ID l = Some (server (server_config d)) ->
  (exists le, le ∈ leases d /\ same_mac (m_chaddr p) le) ->
  (forall le, le ∈ leases d -> same_mac (m_chaddr p) le -> yiaddr le = y) -> (forall n, env_lan_ipaddr n <> inet_ntoa y) ->
  exists d', handle_message p d = Ok tt d' /\ server_ok d' /\ acks (server_config d) p l y d d'.
Proof.
  intros Hok Hg Ht Hreq Hsid (le0 & Hin0 & Hm0) Hown Hlan.
  cut (twp (handle_message p) (fun _ d' => server_ok d' /\ acks (server_config d) p l y d d') d).
  { intros H. apply twp_elim in H as ([] & d' & H1 & H2). by exists d'. }
  assert (Hf0 : from (others (m_chaddr p)) d d) by (apply from_refl; apply Hok).
  unfold handle_message. apply twp_bind, (twp_get_option p l); [done|done|]. intros r v F.
  assert (Hd : exists dd, option_data DHCP_MESSAGE_TYPE l = Some dd).
  { unfold message_type in Ht. destruct (option_data DHCP_MESSAGE_TYPE l) as [dd|]; [by exists dd|done]. }
  destruct Hd as [dd Hd]. destruct (found_pointer _ _ _ _ _ F Hd) as [[f off] ->]. cbn match.
  apply twp_bind. eapply twp_find_lease_by_chaddr; [by apply from_vizio, Hf0|apply others_off_lan| | |].
  { intros Hall. exfalso. exact (Forall_elem _ _ _ Hall Hin0 Hm0). }
  2: { intros d' le Hin Hm He _ _. exfalso. by apply (Hlan (d_calls (set_vizio_device v d))); rewrite He, (Hown le Hin Hm). }
  intros k le Hk Hm _. pose proof (Hown le (list_elem_of_lookup_2 _ _ _ Hk) Hm) as Hy. apply twp_bind.
  match goal with |- twp _ _ ?s => set (d1 := s) end.
  destruct (type_byte_run p l (f, off) d1 Hg F) as (t & Ht' & Hrun). eapply twp_run; [exact Hrun|].
  assert (t = DHCPREQUEST) as -> by congruence. change (DHCPREQUEST =? DHCPDISCOVER) with false.
  change (DHCPREQUEST =? DHCPREQUEST) with true. cbn match. unfold handle_request.
  apply twp_bind, (twp_get_option p l); [done|done|]. intros r1 v1 F1.
  apply twp_bind, (twp_get_option p l); [done|done|]. intros r2 v2 F2.
  apply twp_bind, (twp_get_option p l); [done|done|]. intros r3 v3 F3.
  match goal with |- twp _ _ ?s => set (d2 := s) end.
  assert (Hf2 : from (others (m_chaddr p)) d d2).
  { repeat apply from_vizio. apply from_calls; [by apply from_vizio|cbn; lia]. }
  pose proof (from_server _ _ _ Hok Hf2) as Hok2.
  apply twp_bind, (twp_word_of p l _ r1 _ _ Hg F1); [by left|].
  apply twp_bind, (twp_word_of p l _ r2 _ _ Hg F2); [by right; right|]. rewrite Hreq, Hsid.
  change (server (server_config d)) with (server (server_config d2)). rewrite <- Hy.
  apply twp_bind. eapply known_acked; [exact Hf2|exact Hok2|exact Hg|exact Hk|exact Hm|].
  intros d3 Hf3 Hown3 Hacks. destruct (own_not_safe _ _ _ _ (fun l' H => H) Hown3) as (le3 & Hk3 & Hns).
  eapply twp_silent; [apply silent_store_hostname|]. eapply (twp_store_hostname (others (m_chaddr p)) d p l); [exact Hf3|exact Hg|exact F3|exact Hk3|exact Hns|].
  intros d4 Hf4 Hout. split; [exact (from_server _ _ _ Hok Hf4)|]. eapply acks_out; [reflexivity|by symmetry|exact Hacks].
Qed.
End serving.

(** ** The handshake *)

(** The answer to a message of a client without an address goes to the client. *)
Lemma answer_frame cc t x lp p c type y l q : client_ok cc -> client_message cc t x 0 lp p -> answer_to c p type y l q ->
  answer_output c q false = Raw_frame (ifindex c) (client_arp cc) (raw_bytes q (server c) SERVER_PORT y CLIENT_PORT).
Proof.
  intros Hc Hm Ha. destruct (cm_zero _ _ _ _ _ _ Hm) as (_ & Hf & _ & _ & Hg). pose proof (cm_ciaddr _ _ _ _ _ _ Hm) as Hci.
  unfold answer_output. rewrite (an_giaddr _ _ _ _ _ _ Ha), (an_ciaddr _ _ _ _ _ _ Ha), (an_flags _ _ _ _ _ _ Ha),
    (an_yiaddr _ _ _ _ _ _ Ha), (an_chaddr _ _ _ _ _ _ Ha), (cm_chaddr _ _ _ _ _ _ Hm), Hf, Hg, Hci.
  change (negb (0 =? 0)) with false. cbn [orb andb negb]. change (Z.land 0 BROADCAST_FLAG =? 0) with true. cbn [negb andb].
  change (0 =? 0) with true. cbn match. f_equal. destruct (co_arp _ Hc) as [Hl _]. by apply take_app_length'.
Qed.

Lemma holds_word ch y d : table_ok d -> holds ch y d -> word y.
Proof. intros Ht (le & Hin & _ & <-). apply (le_yiaddr _ (Forall_elem _ _ _ (tb_leases _ Ht) Hin)). Qed.

Lemma word_zero : word 0.
Proof. done. Qed.

Section handshake.
Context `{E : ClientEnv} `{D : DhcpEnv}.

Definition hardware (s : dhcpc) : list Z := client_arp (client_config s) ++ replicate 10 0.

Lemma inv_sent o r s s' : handed o r s s' -> client_inv s -> client_inv s' /\ c_state s' = c_state s /\ client_config s' = client_config s
  /\ xid s' = xid s /\ requested_ip s' = requested_ip s /\ server_addr s' = server_addr s.
Proof. intros (outs & Ha & _) Hi. split; [by eapply inv_after|]. by rewrite Ha. Qed.

(** C10. A DISCOVER leads to an OFFER that the client takes. When a client in the state
    INIT_SELECTING sends a DISCOVER and the server gets the packet, the server sends
    nothing, or it enters an address for the client in its table and sends one packet to
    the client's hardware address; the client, on that packet with any bytes the link adds
    to it, passes to REQUESTING and keeps exactly that address and the address of that
    server. The server is configured without a boot file and a server name, and without an
    option of the protocol itself (type, server, requested address, overload; the lease
    time may be there), its vendor options have five bytes at least, and its log file can
    be opened. *)
Theorem discover_is_offered s d garbage now : client_inv s -> c_state s = INIT_SELECTING ->
  server_ok d -> plain_server (server_config d) -> (forall n, env_log_ok n = true) ->
  exists r s1 p, send_discover (xid s) (requested_ip s) s = Ok r s1
  /\ handed (broadcast_output (client_config s) p) r s s1
  /\ exists r' d' outs, sendOffer (received (message_bytes p)) d = Ok r' d' /\ server_ok d' /\ hands_out outs d d'
  /\ (outs = [] \/ exists y bytes, outs = [Raw_frame (ifindex (server_config d)) (client_arp (client_config s)) bytes]
       /\ holds (hardware s) y d'
       /\ exists s2, on_packet (Some (bytes ++ garbage)) now s1 = Ok tt s2 /\ c_state s2 = REQUESTING
          /\ requested_ip s2 = y /\ server_addr s2 = server (server_config d) /\ xid s2 = xid s).
Proof.
  intros Hi Hst Hok Hplain Hlog. pose proof (ci_config _ Hi) as Hc. set (cc := client_config s) in *.
  destruct (send_discover_run (xid s) (requested_ip s) s Hc) as (r & s1 & p & Hr & Hh & Hm).
  exists r, s1, p. split; [done|]. split; [done|].
  pose proof (client_message_range _ _ _ _ _ _ Hc (ci_xid _ Hi) word_zero Hm) as Hrange.
  assert (Hgood : good_request p (discover_options cc (requested_ip s))).
  { apply (client_request _ _ _ _ _ _ Hc (ci_xid _ Hi) word_zero Hm). apply asking_plain_wide, Forall_app. split; [by apply base_plain_wide|].
    destruct (requested_ip s =? 0); [constructor|]. apply Forall_singleton. by apply word_plain_wide. }
  rewrite (received_message p Hrange). destruct (offer_spec p _ d Hok Hgood Hlog) as (r' & d' & outs & Ho & Hsv & Hout & Hres).
  exists r', d', outs. split; [done|]. split; [apply Hsv|]. split; [done|].
  destruct Hres as [[-> _]|(q & y & t & -> & Ha & Hholds & _)]; [by left|right].
  assert (Hy : word y) by (eapply holds_word; [apply Hsv|exact Hholds]).
  destruct (answer_range _ _ _ _ _ _ Hplain Hrange Hy Ha) as [Hq Hgq].
  destruct (answer_data (server_config d) DHCPOFFER t) as (Ht & Hsid & _).
  destruct (inv_sent _ _ _ _ Hh Hi) as (Hi1 & E1 & E2 & E3 & _). destruct (co_arp _ Hc) as [Harp _].
  assert (Hch : m_chaddr q = client_arp (client_config s1) ++ replicate 10 0)
    by (rewrite E2, (an_chaddr _ _ _ _ _ _ Ha); apply (cm_chaddr _ _ _ _ _ _ Hm)).
  exists y, (raw_bytes q (server (server_config d)) SERVER_PORT y CLIENT_PORT).
  split; [by rewrite (answer_frame _ _ _ _ _ _ _ _ _ _ Hc Hm Ha)|].
  split; [unfold hardware; by rewrite <- (cm_chaddr _ _ _ _ _ _ Hm)|].
  destruct (ps_words _ Hplain) as [_ Hsw]. destruct (ps_boot _ Hplain) as [B1 B2], (an_boot _ _ _ _ _ _ Ha) as [B3 B4].
  eexists. split.
  - rewrite on_packet_frame; try done.
    + eapply (offer_taken q _ (server (server_config d))); try done; [by apply B3|by apply B4| |by unfold message_type; rewrite Ht|change (c_state s1 = INIT_SELECTING); by rewrite E1].
      change (length (client_arp (client_config s1)) = 6%nat). by rewrite E2.
    + rewrite (ci_mode _ Hi1), E1, Hst. done.
    + apply Hi1.
    + apply (an_cookie _ _ _ _ _ _ Ha).
    + rewrite E3, (an_xid _ _ _ _ _ _ Ha). apply (cm_xid _ _ _ _ _ _ Hm).
  - split; [done|]. split; [apply (an_yiaddr _ _ _ _ _ _ Ha)|]. split; [done|].
    change (m_xid q = xid s). rewrite (an_xid _ _ _ _ _ _ Ha). apply (cm_xid _ _ _ _ _ _ Hm).
Qed.

(** What the server reads in the REQUEST of the selecting state. *)
Lemma select_data c sv ip : client_ok c -> word sv -> word ip -> let l := select_options c sv ip in
  message_type l = Some DHCPREQUEST /\ option_word DHCP_REQUESTED_IP l = Some ip /\ option_word DHCP_SERVER_ID l = Some sv
  /\ option_word DHCP_LEASE_TIME l = None /\ Forall plain_wide l.
Proof.
  intros Hc Hs Hi l.
  assert (Hdata : forall code, code = DHCP_REQUESTED_IP \/ code = DHCP_SERVER_ID \/ code = DHCP_LEASE_TIME ->
    option_data code l = option_data code [(DHCP_REQUESTED_IP, be32 ip); (DHCP_SERVER_ID, be32 sv); (DHCP_PARAM_REQ, request_codes)]).
  { intros code Hcode. unfold l, select_options, asking. rewrite <- app_assoc, option_data_app, option_data_base by done. done. }
  assert (Hword : forall v, word v -> of_be (take 4 (be32 v)) = v).
  { intros v Hv. rewrite take_ge by done. rewrite of_be32. by apply u32_small. }
  split; [done|]. unfold option_word. rewrite !Hdata by auto.
  change (option_data DHCP_REQUESTED_IP [(DHCP_REQUESTED_IP, be32 ip); (DHCP_SERVER_ID, be32 sv); (DHCP_PARAM_REQ, request_codes)]) with (Some (be32 ip)).
  change (option_data DHCP_SERVER_ID [(DHCP_REQUESTED_IP, be32 ip); (DHCP_SERVER_ID, be32 sv); (DHCP_PARAM_REQ, request_codes)]) with (Some (be32 sv)).
  unfold fmap, option_fmap, option_map. rewrite !Hword by done. split; [done|]. split; [done|]. split; [done|].
  apply asking_plain_wide, Forall_app. split; [by apply base_plain_wide|]. repeat constructor; try done; cbn [fst snd]; by intros.
Qed.

(** C9. The REQUEST for an offered address leads to an ACK that the client takes. When a
    client in the state REQUESTING, which runs in the foreground and does not quit after a
    lease, sends its REQUEST to the server whose offer it took, which has the address in
    its table for this client, and no other entry for it, the server sends no NAK: it
    sends nothing, or one ACK and then only commands; the client, on that packet with any
    bytes the link adds to it, is bound to exactly that address, for the lease time the
    server is configured with, from the moment the packet came, and has told its script so
    at most once. The server is configured without a boot file and a server name, and
    without an option of the protocol itself (type, server, requested address, overload;
    the lease time may be there), its vendor options have five bytes at least, and the
    address is not the router's own. *)
Theorem request_is_acknowledged s d garbage now : client_inv s -> c_state s = REQUESTING ->
  foreground (client_config s) = true -> quit_after_lease (client_config s) = false ->
  server_ok d -> plain_server (server_config d) -> word (lease (server_config d)) ->
  server_addr s = server (server_config d) -> holds (hardware s) (requested_ip s) d ->
  (forall le, le ∈ leases d -> same_mac (hardware s) le -> yiaddr le = requested_ip s) ->
  (forall n, env_lan_ipaddr n <> inet_ntoa (requested_ip s)) ->
  exists r s1 p, send_selecting (xid s) (server_addr s) (requested_ip s) s = Ok r s1
  /\ handed (broadcast_output (client_config s) p) r s s1
  /\ exists d' outs cmds, handle_message (received (message_bytes p)) d = Ok tt d' /\ server_ok d'
  /\ d_out d' = d_out d ++ outs ++ (System <$> cmds)
  /\ (outs = [] \/ exists q bytes, outs = [Raw_frame (ifindex (server_config d)) (client_arp (client_config s)) bytes]
       /\ exists s2, on_packet (Some (bytes ++ garbage)) now s1 = Ok tt s2 /\ just_bound (lease (server_config d)) s2
          /\ c_start s2 = u32 now /\ requested_ip s2 = requested_ip s
          /\ (c_out s2 = c_out s1 \/ c_out s2 = c_out s1 ++ [Script "bound" (Some q)])).
Proof.
  intros Hi Hst Hfg Hquit Hok Hplain Hlease Hsv (le & Hin & Hmac & Hy) Hown Hlan. pose proof (ci_config _ Hi) as Hc.
  destruct (send_selecting_run (xid s) (server_addr s) (requested_ip s) s Hc) as (r & s1 & p & Hr & Hh & Hm).
  exists r, s1, p. split; [done|]. split; [done|].
  pose proof (client_message_range _ _ _ _ _ _ Hc (ci_xid _ Hi) word_zero Hm) as Hrange.
  destruct (select_data (client_config s) (server_addr s) (requested_ip s) Hc (ci_server _ Hi) (ci_ip _ Hi)) as (Ht & Hreq & Hsid & Hno & Hpw).
  pose proof (client_request _ _ _ _ _ _ Hc (ci_xid _ Hi) word_zero Hm Hpw) as Hgood.
  set (l := select_options (client_config s) (server_addr s) (requested_ip s)) in *.
  rewrite (received_message p Hrange). pose proof (cm_chaddr _ _ _ _ _ _ Hm) as Hch. fold (hardware s) in Hch.
  destruct (select_answered p l (requested_ip s) d Hok Hgood Ht Hreq) as (d' & Hd' & Hok' & q & Ha & Hout);
    [by rewrite <- Hsv|exists le; split; [done|by unfold same_mac; rewrite Hmac, Hch]|by rewrite Hch|done|].
  rewrite Hno in Ha. cbn [ack_time_of] in Ha. destruct Hout as [Hout|[cmds Hout]].
  { exists d', [], []. split; [done|]. split; [done|]. split; [by rewrite Hout, app_nil_r|by left]. }
  exists d', [answer_output (server_config d) q false], cmds. split; [done|]. split; [done|]. split; [exact Hout|right].
  destruct (answer_range _ _ _ _ _ _ Hplain Hrange (ci_ip _ Hi) Ha) as [Hq Hgq].
  destruct (answer_data (server_config d) DHCPACK (lease (server_config d))) as (Htq & _ & Htime).
  destruct (inv_sent _ _ _ _ Hh Hi) as (Hi1 & E1 & E2 & E3 & _ & _). destruct (ps_words _ Hplain) as [_ Hsw].
  exists q, (raw_bytes q (server (server_config d)) SERVER_PORT (requested_ip s) CLIENT_PORT).
  split; [by rewrite (answer_frame _ _ _ _ _ _ _ _ _ _ Hc Hm Ha)|].
  destruct (ack_taken q _ (lease (server_config d)) now (set_c_packet (message_bytes q) s1) Hgq)
    as (s2 & Hs2 & Hbound & Hstart & Hip & _ & _ & Hscript).
  - change (m_chaddr q = client_arp (client_config s1) ++ replicate 10 0). by rewrite E2, (an_chaddr _ _ _ _ _ _ Ha).
  - change (length (client_arp (client_config s1)) = 6%nat). rewrite E2. apply Hc.
  - unfold message_type. by rewrite Htq.
  - exact Htime.
  - exact Hlease.
  - change (c_state s1 = REQUESTING). by rewrite E1.
  - change (foreground (client_config s1) = true). by rewrite E2.
  - change (quit_after_lease (client_config s1) = false). by rewrite E2.
  - exists s2. split; [|split; [done|split; [done|split; [by rewrite Hip; apply (an_yiaddr _ _ _ _ _ _ Ha)|exact Hscript]]]].
    rewrite on_packet_frame; [exact Hs2|by rewrite (ci_mode _ Hi1), E1, Hst|apply Hi1|done|apply (an_cookie _ _ _ _ _ _ Ha)|done|apply (ci_ip _ Hi)|].
    rewrite E3, (an_xid _ _ _ _ _ _ Ha). apply (cm_xid _ _ _ _ _ _ Hm).
Qed.
End handshake.
