(* ===== verification/DhcpSample.v ===== *)
(** * DhcpSample: the theorems on the DHCP server at concrete inputs

    A router with three leases, one of them held by a client; a DISCOVER and a
    REQUEST of a second client; and what the modelling found. *)

From S2P Require Import Prelude DhcpTypes DhcpOptions DhcpConfig DhcpLeases DhcpConfigText DhcpPacket DhcpServer DhcpFiles DhcpMain DhcpBehaviour DhcpLoop.

(** ** The router *)

Definition router_config : server_config_t :=
  ServerConfig 0xC0A80101 0xC0A80164 0xC0A80166
    [enc_opt (0x01, [255; 255; 255; 0]); enc_opt (0x03, [192; 168; 1; 1]); enc_opt (0x33, [0; 1; 0x51; 0x80])]
    2 [0x02; 0; 0; 0; 0; 0xFF] 86400 3 1 7200 3600 3600 60 60 0 None None None "/tmp/udhcpd.leases"
    "br0" "/var/run/udhcpd.pid".

Definition mac_a : list Z := [0x02; 0; 0; 0; 0; 0x0A] ++ replicate 10 0.
Definition mac_b : list Z := [0x02; 0; 0; 0; 0; 0x0B] ++ replicate 10 0.
Definition lease_a : dhcpOfferedAddr := OfferedAddr mac_a 0xC0A80164 5000 (0x61 :: replicate 63 0).
Definition router_leases : list dhcpOfferedAddr := [lease_a; zero_lease; zero_lease].

Definition router_now : Z := 1000.
(** inet_aton on four decimal bytes. *)
Definition byte_of (s : list Z) : option Z :=
  let '(v, ok) := strtoul s in if ok && (v <? 256) then Some (u8 v) else None.
Definition dotted (s : list Z) : option Z :=
  let '(a, s1) := cut [46] s in
  let '(b, s2) := cut [46] (drop 1 s1) in
  let '(c, s3) := cut [46] (drop 1 s2) in
  match byte_of a, byte_of b, byte_of c, byte_of (drop 1 s3) with
  | Some a, Some b, Some c, Some e => Some (u32 (of_be [a; b; c; e]))
  | _, _, _, _ => None
  end.
#[export] Instance router : DhcpEnv := {|
  env_uptime _ := router_now;
  env_arpping _ _ := 1;
  env_lan_ipaddr _ := "192.168.1.1";
  env_lan_netmask _ := 0xFFFFFF00;
  env_sock_ok _ := true;
  env_sent _ bytes := Z.of_nat (length bytes);
  env_lease_file_ok _ := true;
  env_lease_file _ := Some (file_of router_config router_now router_leases);
  env_lease_no _ := None;
  env_interface _ := Some (2, 0xC0A80101, [0x02; 0; 0; 0; 0; 0xFF]);
  env_config_file _ := Some (config_text router_config);
  env_inet_aton := dotted;
  env_gethostbyname _ _ := None;
  env_log_ok _ := true;
  env_malloc _ _ := true;
  env_wan_domain _ := "lan";
  env_wan_domain_default _ := "";
  env_daemon _ := true;
  env_listen _ := true
|}.

Definition byteb (z : Z) : bool := (0 <=? z) && (z <? 256).
Lemma bytes_check l : forallb byteb l = true -> Forall is_byte l.
Proof.
  intros H. rewrite forallb_forall in H. apply Forall_forall. intros x Hx. apply list_elem_of_In, H in Hx.
  unfold byteb in Hx. bool_to_prop. split; lia.
Qed.

#[export] Instance router_laws : DhcpLaws router.
Proof.
  split; [done| |done| |].
  - intros s a. cbn. unfold dotted. destruct (cut [46] s) as [p s1], (cut [46] (drop 1 s1)) as [q s2], (cut [46] (drop 1 s2)) as [r s3].
    destruct (byte_of p), (byte_of q), (byte_of r), (byte_of (drop 1 s3)); try done. intros [= <-]. apply u32_range.
  - intros n f [= <-]. apply bytes_check. vm_compute. reflexivity.
  - intros n f [= <-]. apply bytes_check. vm_compute. reflexivity.
Qed.

Definition router_state : dhcpd := Dhcpd router_config router_leases 0 8000 true (Some (text "/etc/udhcpd.conf")) 264 0 [].

(** A message of a client, with a list of options. *)
Definition sample_message (mac : list Z) (ciaddr : Z) (l : list (Z * list Z)) : dhcpMessage :=
  DhcpMessage BOOTREQUEST 1 6 0 0x1234 0 0 ciaddr 0 0 0 mac (replicate 64 0) (replicate 128 0) DHCP_MAGIC
    (enc_opts l ++ DHCP_END :: replicate (307 - length (enc_opts l)) 0).
Definition sample_discover_options : list (Z * list Z) :=
  [(DHCP_MESSAGE_TYPE, [DHCPDISCOVER]); (DHCP_VENDOR, [0x4D; 0x53; 0x46; 0x54; 0x20]); (DHCP_HOST_NAME, [0x70; 0x63])].
Definition discover : dhcpMessage := sample_message mac_b 0 sample_discover_options.
Definition request_options : list (Z * list Z) :=
  [(DHCP_MESSAGE_TYPE, [DHCPREQUEST]); (DHCP_REQUESTED_IP, [192; 168; 1; 100]); (DHCP_HOST_NAME, [0x70; 0x63])].
(** The second client asks for the address of the first. *)
Definition grab : dhcpMessage := sample_message mac_b 0 request_options.
(** The first client renews its lease. *)
Definition sample_renew_options : list (Z * list Z) := [(DHCP_MESSAGE_TYPE, [DHCPREQUEST]); (DHCP_LEASE_TIME, [0; 0; 0x0E; 0x10])].
Definition renew : dhcpMessage := sample_message mac_a 0xC0A80164 sample_renew_options.

(** ** The samples are well formed *)

Ltac check_bytes := apply bytes_check; vm_compute; reflexivity.
Ltac check_wf := repeat apply Forall_cons_2; try apply Forall_nil_2; (split; [by vm_compute|]; split; [simpl; lia|check_bytes]).
Ltac check_plain := repeat apply Forall_cons_2; try apply Forall_nil_2; (split; [by vm_compute|]; intros H; vm_compute in H; solve [discriminate|simpl; lia]).
Ltac check_wide := repeat apply Forall_cons_2; try apply Forall_nil_2;
  (split; [intros [H|[H|H]]; vm_compute in H; solve [discriminate|simpl; lia]|intros H; vm_compute in H; solve [discriminate|simpl; lia]]).
Ltac check_message := split; first [reflexivity|check_bytes].
(** A sample message is well formed. *)
Ltac check_request := split; [check_message|split; [reflexivity|check_wf|by eexists]|check_plain|check_wide|by vm_compute].

Lemma discover_good : good_request discover sample_discover_options.
Proof. check_request. Qed.
Lemma grab_good : good_request grab request_options.
Proof. check_request. Qed.
Lemma renew_good : good_request renew sample_renew_options.
Proof. check_request. Qed.
Lemma discover_bytes : header_bytes_ok discover.
Proof. by vm_compute. Qed.

Lemma lease_a_ok : lease_ok lease_a.
Proof. by split. Qed.
Lemma router_table : table_ok router_state.
Proof. split; [reflexivity|]. repeat apply Forall_cons_2; try apply Forall_nil_2; by split. Qed.
Lemma router_unique : unique_leases (leases router_state).
Proof.
  intros i j l l' Hi Hj Hne.
  destruct i as [|[|[|i]]]; simpl in Hi; try done; destruct j as [|[|[|j]]]; simpl in Hj; try done;
    injection Hi as <-; injection Hj as <-; by vm_compute.
Qed.
Lemma router_ok : server_ok router_state.
Proof.
  split; [apply router_table|apply router_unique|by vm_compute|].
  repeat apply Forall_cons_2; try apply Forall_nil_2; (split; [reflexivity|]; split; [by vm_compute|]; split; [simpl; lia|check_bytes]).
Qed.

(** ** The theorems at the samples *)

Lemma get_option_ends_witness :
  message_ok discover /\ search_result discover DHCP_HOST_NAME router_state (get_option discover DHCP_HOST_NAME router_state).
Proof.
  assert (H : message_ok discover) by exact (gr_message _ _ discover_good). split; [exact H|].
  exact (get_option_ends discover DHCP_HOST_NAME router_state H).
Defined.

Lemma get_option_finds_witness : exists r,
  get_option discover DHCP_HOST_NAME router_state = Ok r (set_vizio_device 0 router_state)
  /\ found_in discover DHCP_HOST_NAME sample_discover_options r.
Proof.
  exact (get_option_finds sample_discover_options discover DHCP_HOST_NAME router_state
    (gr_layout _ _ discover_good) (gr_plain _ _ discover_good) (conj eq_refl eq_refl)).
Defined.

Lemma find_address_spec_witness : exists r d', find_address false router_state = Ok r d' /\ quiet router_state d'
  /\ table_ok d' /\ unique_leases (leases d') /\ (r = 0 \/ offered false router_config router_state d' r).
Proof. exact (find_address_spec false router_state router_table router_unique eq_refl eq_refl). Defined.

Lemma add_lease_spec_witness : exists r d', add_lease mac_b 0xC0A80165 60 router_state = Ok r d'
  /\ quiet router_state d' /\ table_ok d' /\ unique_leases (leases d')
  /\ if decide (0xC0A80165 = 0) then r = None /\ d' = router_state
     else match r with
          | None => leases d' = cleared mac_b 0xC0A80165 (leases router_state)
                    /\ Forall (fun l => env_uptime (d_calls router_state) <= expires l) (leases d')
          | Some k => exists old, cleared mac_b 0xC0A80165 (leases router_state) !! k = Some old
              /\ expires old < env_uptime (d_calls router_state)
              /\ Forall (fun l => expires old <= expires l) (cleared mac_b 0xC0A80165 (leases router_state))
              /\ (forall j l, (j < k)%nat -> cleared mac_b 0xC0A80165 (leases router_state) !! j = Some l -> expires old < expires l)
              /\ leases d' = <[k := OfferedAddr mac_b 0xC0A80165 (u32 (env_uptime (S (d_calls router_state)) + 60)) (hostname old)]>
                               (cleared mac_b 0xC0A80165 (leases router_state))
          end.
Proof.
  apply (add_lease_spec mac_b 0xC0A80165 60 router_state router_table router_unique); [reflexivity|split; [discriminate|reflexivity]].
Defined.

Lemma raw_packet_verifies_witness :
  let b := raw_bytes discover 0xC0A80101 SERVER_PORT INADDR_BROADCAST CLIENT_PORT in
  length b = 576%nat /\ checksum (take 20 b) = 0
  /\ checksum (pseudo_header 0xC0A80101 INADDR_BROADCAST udp_length ++ drop 20 b) = 0
  /\ take 12 (drop 20 b) = be16 SERVER_PORT ++ be16 CLIENT_PORT ++ be16 udp_length ++ take 6 (drop 26 b)
  /\ span 4 12 b = be32 0xC0A80101 /\ span 4 16 b = be32 INADDR_BROADCAST /\ drop 28 b = message_bytes discover.
Proof.
  exact (raw_packet_verifies discover 0xC0A80101 SERVER_PORT INADDR_BROADCAST CLIENT_PORT
    (gr_message _ _ discover_good) discover_bytes).
Defined.

Lemma offer_spec_witness : exists r d' outs, sendOffer discover router_state = Ok r d'
  /\ serves mac_b router_state d' /\ hands_out outs router_state d' /\ offer_result discover router_state r d' outs.
Proof. exact (offer_spec discover sample_discover_options router_state router_ok discover_good (fun _ => eq_refl)). Defined.

Lemma ack_spec_witness :
  let t := ack_time_of router_config (option_word DHCP_LEASE_TIME sample_renew_options) in
  exists r d' q, sendACK renew (yiaddr lease_a) router_state = Ok r d' /\ server_ok d' /\ calm router_state d'
  /\ answer_to router_config renew DHCPACK (yiaddr lease_a) (answer_options router_config DHCPACK (Some t)) q
  /\ (min_lease router_config <= lease router_config -> min_lease router_config <= t <= lease router_config)
  /\ ((r = -1 /\ leases d' = leases router_state
       /\ (d_out d' = d_out router_state \/ d_out d' = d_out router_state ++ [answer_output router_config q false]))
      \/ (r = 0 /\ (exists cmds, d_out d' = d_out router_state ++ [answer_output router_config q false] ++ (System <$> cmds))
          /\ exists e n, e ∈ leases d' /\ chaddr e = m_chaddr renew /\ yiaddr e = yiaddr lease_a /\ expires e = u32 (env_uptime n + t))).
Proof.
  apply (ack_spec renew sample_renew_options lease_a router_state router_ok renew_good); [by left|done|done].
Defined.

Lemma handle_message_spec_witness :
  match handle_message renew router_state with
  | Ok _ d' => server_ok d' /\ calm router_state d'
      /\ (message_type sample_renew_options <> Some DHCPREQUEST \/ known mac_a router_state -> keeps (others mac_a) router_state d')
  | Err f => f = Null_deref /\ message_type sample_renew_options = Some DHCPDISCOVER /\ exists n, env_log_ok n = false
  end.
Proof. exact (handle_message_spec renew sample_renew_options router_state router_laws router_ok renew_good). Defined.

Lemma lease_file_roundtrip_witness : exists d1 d3, write_leases router_state = Ok tt d1
  /\ d_out d1 = [Leases_written (file_of router_config router_now router_leases)]
  /\ read_leases (set_leases (replicate 3 zero_lease) router_state) = Ok tt d3
  /\ reloaded router_config router_now router_leases (leases d3).
Proof.
  destruct (lease_file_roundtrip router_state) as (d1 & file & cmds & Hw & _ & Hout & Hread);
    [done|done|reflexivity|exact I|done|exact router_table|exact router_unique|
     repeat apply Forall_cons_2; try apply Forall_nil_2; reflexivity|].
  assert (Hd1 : write_leases router_state = Ok tt d1) by exact Hw.
  vm_compute in Hw. injection Hw as Hw. rewrite <- Hw in Hout. simpl in Hout. injection Hout as Hfile _.
  destruct (Hread (set_leases (replicate 3 zero_lease) router_state)) as (d3 & Hr & Hre); [reflexivity|reflexivity|rewrite <- Hfile; reflexivity|].
  exists d1, d3. split; [exact Hd1|]. split; [rewrite <- Hw; reflexivity|]. split; [exact Hr|exact Hre].
Defined.

(** The turns of a morning: a foreign datagram, a renewal, a failed read, a
    timeout, the request of another client. *)
Definition morning : list turn_input :=
  [Input [1; 2; 3]; Input (message_bytes renew); Input_failed false; Select_timeout; Input (message_bytes grab); Signal_TERM].

Lemma server_loop_safe_witness :
  match server_loop morning router_state with
  | Ok _ d' => server_ok d' /\ server_config d' = router_config
  | Err f => (f = Died /\ (Signal_TERM ∈ morning \/ exists n, env_listen n = false))
             \/ (f = Null_deref /\ exists n, env_log_ok n = false)
  end.
Proof.
  apply (server_loop_safe morning router_state router_laws I router_ok).
  repeat apply Forall_cons_2; try apply Forall_nil_2; try exact I.
  - left. by vm_compute.
  - right. exists sample_renew_options. replace (received (message_bytes renew)) with renew by (vm_compute; reflexivity). exact renew_good.
  - right. exists request_options. replace (received (message_bytes grab)) with grab by (vm_compute; reflexivity). exact grab_good.
Defined.

(** The morning ends with the signal, and not before; the read that failed closes
    the socket, and the next turn opens it. *)
Example morning_ends :
  server_loop morning router_state = Err Died
  /\ match server_loop (take 3 morning) router_state with Ok _ d => server_open d = false | Err _ => False end
  /\ match server_loop (take 5 morning) router_state with Ok _ d => server_open d = true | Err _ => False end.
Proof. by vm_compute. Qed.

Lemma empty_options_ok d : options_ok (options_list (server_config (set_server_config zero_config d))).
Proof. split; constructor. Qed.

Lemma read_config_options_witness : exists r d', read_config (set_server_config zero_config router_state) = Ok r d' /\ (r = 0 \/ r = 1)
  /\ options_ok (options_list (server_config d')) /\ same_process (set_server_config zero_config router_state) d'.
Proof. exact (read_config_options (set_server_config zero_config router_state) router_laws (empty_options_ok router_state)). Defined.

Lemma router_printable : printable router_config.
Proof.
  split; [|repeat apply Forall_cons_2; try apply Forall_nil_2; by vm_compute|by right|].
  - repeat apply Forall_cons_2; try apply Forall_nil_2; by vm_compute.
  - repeat apply Forall_cons_2; try apply Forall_nil_2; (split; [done|split; [by repeat constructor|vm_compute; lia]]).
Qed.
Lemma config_roundtrip_witness : exists d', read_config (set_server_config zero_config router_state) = Ok 1 d'
  /\ same_settings router_config (server_config d').
Proof.
  exact (config_roundtrip router_config (set_server_config zero_config router_state) router_laws router_printable
    (fun _ => eq_refl) (empty_options_ok router_state)).
Defined.

Lemma server_start_ok_witness :
  let arg := Some (text "/etc/udhcpd.conf") in
  asks_too_much arg router_state \/
  match server_start arg router_state with
  | Ok _ d' => table_ok d' /\ unique_leases (leases d') /\ (range_ok (server_config d') -> server_ok d')
  | Err f => start_stops arg f
  end.
Proof. exact (server_start_ok (Some (text "/etc/udhcpd.conf")) router_state router_laws). Defined.
(** The sample starts, and its table is the one of the file. *)
Example sample_starts :
  match server_start (Some (text "/etc/udhcpd.conf")) router_state with
  | Ok _ d => length (leases d) = 3%nat /\ leases_size d = 264 /\ server_open d = false
  | Err _ => False
  end.
Proof. by vm_compute. Qed.

(** ** What the modelling found *)

(** A client without a lease takes over the address of another client, whose
    lease has not expired, by asking for it. *)
Example lease_is_stolen :
  expires lease_a = 5000 /\ router_now = 1000
  /\ match handle_message grab router_state with
     | Ok _ d' => forallb (fun l => negb (bool_decide (chaddr l = mac_a))) (leases d') = true
                  /\ existsb (fun l => bool_decide (chaddr l = mac_b) && (yiaddr l =? yiaddr lease_a)) (leases d') = true
     | Err _ => False
     end.
Proof. by vm_compute. Qed.

(** An option code in the last byte of the field makes the search read the
    byte after the field. *)
Example option_at_end_overreads :
  let p := DhcpMessage 1 1 6 0 0 0 0 0 0 0 0 mac_b (replicate 64 0) (replicate 128 0) DHCP_MAGIC
             (replicate 307 0 ++ [DHCP_MESSAGE_TYPE]) in
  get_option p DHCP_MESSAGE_TYPE router_state = Err Out_of_bounds.
Proof. reflexivity. Qed.

(** The overload option says that the file field holds options (value 1), and
    they are not searched: the value is taken from the byte after it. *)
Example overload_is_misread :
  let p := DhcpMessage 1 1 6 0 0 0 0 0 0 0 0 mac_b (replicate 64 0) (enc_opt (DHCP_HOST_NAME, [0x70]) ++ DHCP_END :: replicate 124 0)
             DHCP_MAGIC (enc_opt (DHCP_OPTION_OVER, [FILE_FIELD]) ++ DHCP_PADDING :: DHCP_END :: replicate 303 0) in
  get_option p DHCP_HOST_NAME router_state = Ok None router_state.
Proof. reflexivity. Qed.

(** The host name of a REQUEST is stored through the pointer that was found before
    the acknowledgement entered the client again: the client, whose lease moves to
    the free entry before its own, gets none, and the entry it had, now free,
    gets it. *)
Definition renew_named : dhcpMessage := sample_message mac_a 0xC0A80164 (sample_renew_options ++ [(DHCP_HOST_NAME, [0x70; 0x63])]).
Example hostname_is_lost :
  match handle_message renew_named (set_leases [zero_lease; lease_a; zero_lease] router_state) with
  | Ok _ d' => leases d' = [OfferedAddr mac_a (yiaddr lease_a) 4600 (replicate 64 0);
                            OfferedAddr blank_chaddr 0 0 (0x70 :: 0x63 :: replicate 62 0); zero_lease]
  | Err _ => False
  end.
Proof. by vm_compute. Qed.

(** The options after the lease time are not freed when the configuration is
    read again. *)
Example free_options_leaks :
  free_options [enc_opt (0x01, [255; 255; 255; 0]); enc_opt (0x33, [0; 1; 0x51; 0x80]); enc_opt (0x42, [0x61])]
  = ([enc_opt (0x01, [255; 255; 255; 0]); enc_opt (0x33, [0; 1; 0x51; 0x80])], [enc_opt (0x42, [0x61])]).
Proof. reflexivity. Qed.

(** An empty value of a number is accepted, as zero: a line that ends after the
    equals sign leaves the server without a table. *)
Example empty_number_is_zero :
  split_line (text "max_leases =" ++ [10]) = Some (text "max_leases", [])
  /\ match apply_line keywords (text "max_leases") [] router_state with
     | Ok _ d' => max_leases (server_config d') = 0
     | Err _ => False
     end.
Proof. by vm_compute. Qed.

(** A max_leases of 48806447 asks for 40 bytes more than 2^32: malloc gives less
    than an entry, and the first search of the table reads after it. *)
Definition huge_config : server_config_t := cfg_max_leases 48806447 router_config.
Example table_size_wraps :
  table_bytes huge_config = 40
  /\ match alloc_leases (set_server_config huge_config router_state) with
     | Ok _ d => leases d = [] /\ max_leases (server_config d) = 48806447 /\ lease_get 0 d = Err Out_of_bounds
     | Err _ => False
     end.
Proof. by vm_compute. Qed.

(** Started without an argument, the server reads its configuration from the
    default file; the signal to read it again uses a file name that was never set. *)
Example reread_without_argument :
  match server_start None router_state with
  | Ok _ d => server_turn Signal_USR2 d = Err Uninitialised
  | Err _ => False
  end.
Proof. by vm_compute. Qed.

(** A log file that cannot be opened: the OFFER that was found ends in a write through
    NULL. *)
Definition router_unlogged : DhcpEnv :=
  {| env_uptime := env_uptime; env_arpping := env_arpping; env_lan_ipaddr := env_lan_ipaddr; env_lan_netmask := env_lan_netmask;
     env_sock_ok := env_sock_ok; env_sent := env_sent; env_lease_file_ok := env_lease_file_ok; env_lease_file := env_lease_file;
     env_lease_no := env_lease_no; env_interface := env_interface; env_config_file := env_config_file; env_inet_aton := env_inet_aton;
     env_gethostbyname := env_gethostbyname; env_log_ok _ := false; env_malloc := env_malloc; env_wan_domain := env_wan_domain;
     env_wan_domain_default := env_wan_domain_default; env_daemon := env_daemon; env_listen := env_listen |}.
Example unlogged_offer_faults : sendOffer (E := router_unlogged) discover router_state = Err Null_deref.
Proof. by vm_compute. Qed.
