(* ===== verification/ClientSample.v ===== *)
(** * ClientSample: the theorems on the DHCP client at concrete inputs

    A client in its first transaction, a client with a lease, and what the
    modelling found. *)

From S2P Require Import Prelude DhcpTypes DhcpOptions DhcpConfig DhcpLeases DhcpPacket DhcpServer DhcpBehaviour DhcpSample ClientTypes ClientPacket ClientMachine ClientSend ClientLoop ClientLease ClientScript ClientServer.

(** ** The client *)

Definition laptop_config : client_config_t :=
  ClientConfig true false false false "eth0" None (Some "/usr/share/udhcpc/default.script")
    (Some (default_clientid (take 6 mac_b))) (Some (text_option DHCP_HOST_NAME [0x70; 0x63])) 2 (take 6 mac_b).

#[export] Instance laptop : ClientEnv := {|
  cenv_uptime _ := 1000;
  cenv_rand _ := 0x1234;
  cenv_sock_ok _ := true;
  cenv_sent _ bytes := Z.of_nat (length bytes);
  cenv_listen _ := true;
  cenv_eintr _ := false;
  cenv_daemon _ := true;
  cenv_fork _ := true;
  cenv_log _ := true;
  cenv_bootp _ := None;
  cenv_interface _ := Some (2, take 6 mac_b);
  cenv_inet_addr _ := 0
|}.
#[export] Instance laptop_laws : ClientLaws laptop.
Proof.
  split; try done. intros n i a [= <- <-]. split; [reflexivity|check_bytes].
Qed.

(** The client is about to send its first message; it waits for an answer; it has
    a lease. *)
Definition laptop_state (st : client_state) (mode : listening) (lease : option Z) : dhcpc :=
  Dhcpc st 0xC0A80164 0xC0A80101 1500 0 false 0 mode 500 875 0x1234 1000 lease (replicate 548 0) laptop_config 0 [].
Definition laptop_idle : dhcpc := laptop_state INIT_SELECTING LISTEN_RAW None.
Definition laptop_waits : dhcpc := laptop_state REQUESTING LISTEN_RAW None.
Definition laptop_bound : dhcpc := laptop_state BOUND LISTEN_NONE (Some 1000).

Lemma laptop_config_ok : client_ok laptop_config.
Proof.
  split; [by eexists| |split; [reflexivity|check_bytes]|by vm_compute; lia].
  repeat apply Forall_cons_2; try apply Forall_nil_2;
    (split; [split; [reflexivity|split; [by vm_compute|split; [vm_compute; lia|check_bytes]]]
            |split; [split; [by vm_compute|intros H; vm_compute in H; discriminate]|by vm_compute]]).
Qed.

Ltac check_inv :=
  split; [exact laptop_config_ok|reflexivity|discriminate|first [by intros [H|[H|H]]|intros _; by eexists]
         |first [intros l [= <-]; by vm_compute|by intros l H]|split; [reflexivity|check_bytes]
         |by vm_compute|by vm_compute|by vm_compute|by vm_compute|by vm_compute|reflexivity].
Lemma laptop_idle_inv : client_inv laptop_idle.
Proof. check_inv. Qed.
Lemma laptop_waits_inv : client_inv laptop_waits.
Proof. check_inv. Qed.
Lemma laptop_bound_inv : client_inv laptop_bound.
Proof. check_inv. Qed.

(** ** A packet of the server *)

(** An ACK for the second client: an address, a mask, and a lease of an hour. *)
Definition ack_options : list (Z * list Z) :=
  [(DHCP_MESSAGE_TYPE, [DHCPACK]); (DHCP_SERVER_ID, [192; 168; 1; 1]); (DHCP_LEASE_TIME, [0; 0; 0x0E; 0x10]);
   (0x01, [255; 255; 255; 0]); (0x06, [192; 168; 1; 1; 192; 168; 1; 2])].
Definition sample_ack : dhcpMessage :=
  DhcpMessage BOOTREPLY 1 6 0 0x1234 0 0 0 0xC0A80165 0xC0A80101 0 mac_b (replicate 64 0) (replicate 128 0) DHCP_MAGIC
    (enc_opts ack_options ++ DHCP_END :: replicate (307 - length (enc_opts ack_options)) 0).
Definition ack_frame : list Z := raw_bytes sample_ack 0xC0A80101 SERVER_PORT INADDR_BROADCAST CLIENT_PORT.

Lemma sample_ack_range : message_range sample_ack.
Proof. split; [check_message|by vm_compute|by vm_compute..]. Qed.
Lemma sample_ack_layout : opts_layout ack_options (m_options sample_ack).
Proof. split; [reflexivity|check_wf|by eexists]. Qed.
Lemma sample_ack_plain : Forall plain_option ack_options.
Proof. check_plain. Qed.

(** ** The theorems at the samples *)

Lemma client_finds_the_same_witness :
  client_get_option sample_ack DHCP_LEASE_TIME laptop_waits = Ok (Some (In_options, 11)) laptop_waits.
Proof.
  refine (client_finds_the_same sample_ack DHCP_LEASE_TIME laptop_waits router_state (Some (In_options, 11)) router_state _).
  vm_compute. reflexivity.
Defined.

Lemma raw_packet_received_witness : exists s', get_raw_packet (Some (ack_frame ++ [0; 0; 0; 0])) laptop_waits = Ok 548 s'
  /\ s' = set_c_packet (message_bytes sample_ack) laptop_waits /\ message_of (c_packet s') = sample_ack.
Proof.
  apply (raw_packet_received sample_ack 0xC0A80101 SERVER_PORT INADDR_BROADCAST [0; 0; 0; 0] laptop_waits sample_ack_range);
    by vm_compute.
Defined.

Lemma client_turn_refines_witness :
  match client_turn (Selected (Some (Some ack_frame)) None) laptop_waits with
  | Ok _ s' => turn_post (Selected (Some (Some ack_frame)) None) laptop_waits tt s'
  | Err f => f = Died \/ (f = Out_of_bounds /\ has_packet (Selected (Some (Some ack_frame)) None) = true)
             \/ (f = Null_deref /\ has_signal (Selected (Some (Some ack_frame)) None) = true /\ exists n, cenv_log n = false)
  end.
Proof.
  apply (client_turn_refines (Selected (Some (Some ack_frame)) None) laptop_waits laptop_waits_inv).
  intros b [= <-]. check_bytes.
Defined.
(** The turn that the theorem is about takes the lease. *)
Example ack_is_taken :
  match client_turn (Selected (Some (Some ack_frame)) None) laptop_waits with
  | Ok _ s' => c_state s' = BOUND /\ c_lease s' = Some 3600 /\ requested_ip s' = 0xC0A80165 /\ c_timeout s' = 2800
  | Err _ => False
  end.
Proof. by vm_compute. Qed.

(** A day: two timeouts, an answer that does not fit, a signal to renew, one to release. *)
Definition client_day : list client_select :=
  [Select_timeout; Select_timeout; Selected (Some (Some ack_frame)) None; Select_failed;
   Selected None (Some (Some SIGUSR1)); Selected None (Some (Some SIGUSR2))].
Lemma client_always_ok_witness :
  match (client_start [Arg_f; Arg_h [0x70; 0x63]];; client_loop client_day) (client_begin (replicate 548 0)) with
  | Ok _ s => client_inv s
  | Err f => client_start [Arg_f; Arg_h [0x70; 0x63]] (client_begin (replicate 548 0)) = Err Died /\ f = Died
             \/ stops_in (client_start [Arg_f; Arg_h [0x70; 0x63]]) client_day (client_begin (replicate 548 0)) f
  end.
Proof.
  apply (client_always_ok [Arg_f; Arg_h [0x70; 0x63]] (replicate 548 0) client_day).
  - repeat apply Forall_cons_2; try apply Forall_nil_2; [exact I|]. split; [simpl; lia|check_bytes].
  - split; [reflexivity|check_bytes].
  - repeat apply Forall_cons_2; try apply Forall_nil_2; try exact I. intros b [= <-]. check_bytes.
  - intros n v [=].
Defined.

Definition half_minute (k : nat) : Z := 30.
Lemma lease_not_outlived_witness : exists s' now, unheard 65 0 half_minute laptop_bound = Ok tt s'
  /\ lost laptop_config 0xC0A80164 [] now s' /\ 1000 + 1000 - (1000 / 14400 + 1) <= now <= 1000 + 1000 + 2 * 30.
Proof.
  apply (lease_not_outlived 1000 laptop_bound half_minute 30 laptop_config_ok); try done; by split.
Defined.

Lemma fill_envp_spec_witness :
  fill_envp [text "PATH=/sbin"] "eth0" (Some sample_ack) laptop_waits
  = Ok (packet_env [text "PATH=/sbin"] "eth0" sample_ack ack_options) laptop_waits.
Proof.
  apply (fill_envp_spec [text "PATH=/sbin"] "eth0" sample_ack ack_options laptop_waits sample_ack_layout sample_ack_plain).
  - repeat apply Forall_cons_2; try apply Forall_nil_2; intros b Hb; vm_compute in Hb; first [discriminate Hb|injection Hb as <-];
      right; first [exists 1%nat; split; [lia|vm_compute; reflexivity]|exists 2%nat; split; [lia|vm_compute; reflexivity]].
  - by vm_compute; lia.
  - intros _. by vm_compute; lia.
Defined.
(** The environment it speaks of. *)
Example sample_environment : packet_env [text "PATH=/sbin"] "eth0" sample_ack ack_options
  = text <$> ["interface=eth0"; "PATH=/sbin"; "HOME=/"; "ip=192.168.1.101 "; "subnet=255.255.255.0 ";
              "dns=192.168.1.1 192.168.1.2 "; "lease=3600 "; "dhcptype=5 "; "serverid=192.168.1.1 "; "siaddr=192.168.1.1 "]%string.
Proof. by vm_compute. Qed.

(** ** The client and the router *)

Lemma router_plain : plain_server router_config.
Proof.
  split; [|done|by vm_compute].
  repeat apply Forall_cons_2; try apply Forall_nil_2; (split; [split; [by vm_compute|intros H; vm_compute in H; discriminate]|by vm_compute]).
Qed.
Lemma discover_is_offered_witness : exists r s1 p, send_discover 0x1234 0xC0A80164 laptop_idle = Ok r s1
  /\ handed (broadcast_output laptop_config p) r laptop_idle s1
  /\ exists r' d' outs, sendOffer (received (message_bytes p)) router_state = Ok r' d' /\ server_ok d' /\ hands_out outs router_state d'
  /\ (outs = [] \/ exists y bytes, outs = [Raw_frame (ifindex router_config) (take 6 mac_b) bytes] /\ holds (hardware laptop_idle) y d'
       /\ exists s2, on_packet (Some (bytes ++ [0; 0])) 1000 s1 = Ok tt s2 /\ c_state s2 = REQUESTING
          /\ requested_ip s2 = y /\ server_addr s2 = 0xC0A80101 /\ xid s2 = 0x1234).
Proof. exact (discover_is_offered laptop_idle router_state [0; 0] 1000 laptop_idle_inv eq_refl router_ok router_plain (fun _ => eq_refl)). Defined.

(** The router after the offer. *)
Definition lease_b : dhcpOfferedAddr := OfferedAddr mac_b 0xC0A80164 5000 (replicate 64 0).
Definition router_offered : dhcpd := set_leases [zero_lease; lease_b; zero_lease] router_state.
Lemma router_offered_ok : server_ok router_offered.
Proof.
  split; [split; [reflexivity|repeat apply Forall_cons_2; try apply Forall_nil_2; by split]| |by vm_compute|apply router_ok].
  intros i j l l' Hi Hj Hne.
  destruct i as [|[|[|i]]]; simpl in Hi; try done; destruct j as [|[|[|j]]]; simpl in Hj; try done;
    injection Hi as <-; injection Hj as <-; by vm_compute.
Qed.
Lemma request_is_acknowledged_witness : exists r s1 p, send_selecting 0x1234 0xC0A80101 0xC0A80164 laptop_waits = Ok r s1
  /\ handed (broadcast_output laptop_config p) r laptop_waits s1
  /\ exists d' outs cmds, handle_message (received (message_bytes p)) router_offered = Ok tt d' /\ server_ok d'
  /\ d_out d' = d_out router_offered ++ outs ++ (System <$> cmds)
  /\ (outs = [] \/ exists q bytes, outs = [Raw_frame (ifindex router_config) (take 6 mac_b) bytes]
       /\ exists s2, on_packet (Some (bytes ++ [])) 1000 s1 = Ok tt s2 /\ just_bound 86400 s2
          /\ c_start s2 = u32 1000 /\ requested_ip s2 = 0xC0A80164
          /\ (c_out s2 = c_out s1 \/ c_out s2 = c_out s1 ++ [Script "bound" (Some q)])).
Proof.
  apply (request_is_acknowledged laptop_waits router_offered [] 1000 laptop_waits_inv eq_refl eq_refl eq_refl router_offered_ok router_plain);
    [by vm_compute|reflexivity| | |].
  - exists lease_b. split; [apply list_elem_of_lookup_2 with 1%nat; reflexivity|]. by vm_compute.
  - intros le Hin Hm. change (le ∈ [zero_lease; lease_b; zero_lease]) in Hin.
    apply elem_of_cons in Hin as [->|Hin]; [vm_compute in Hm; discriminate Hm|].
    apply elem_of_cons in Hin as [->|Hin]; [reflexivity|].
    apply elem_of_cons in Hin as [->|Hin]; [vm_compute in Hm; discriminate Hm|]. by apply elem_of_nil in Hin.
  - intros n. by vm_compute.
Defined.

(** The whole handshake, from frame to frame. *)
Definition last_frame (l : list client_output) : list Z :=
  match last l with Some (Sent (Raw_frame _ _ b)) => b | _ => [] end.
Fixpoint frames (l : list dhcp_output) : list (list Z) :=
  match l with [] => [] | Raw_frame _ _ b :: l' => b :: frames l' | _ :: l' => frames l' end.
Definition served (s : dhcpc) (d : dhcpd) : option (list Z * dhcpd) :=
  match handle_message (received (drop 28 (last_frame (c_out s)))) (set_d_out [] d) with
  | Ok _ d' => (fun b => (b, d')) <$> last (frames (d_out d'))
  | Err _ => None
  end.
Definition handshake : option (dhcpc * dhcpd) :=
  match selecting_timeout 1000 laptop_idle with
  | Ok _ s1 =>
      '(offer, d1) ← served s1 router_state;
      match (client_turn (Selected (Some (Some offer)) None);; requesting_timeout 1001) s1 with
      | Ok _ s2 =>
          '(ack, d2) ← served s2 d1;
          match client_turn (Selected (Some (Some ack)) None) s2 with Ok _ s3 => Some (s3, d2) | Err _ => None end
      | Err _ => None
      end
  | Err _ => None
  end.
Example handshake_completes :
  match handshake with
  | Some (s, d) => c_state s = BOUND /\ requested_ip s = 0xC0A80165 /\ c_lease s = Some 86400
      /\ c_timeout s = 1000 + 43200 /\ t2 s = 75600
      /\ (fun l => (take 6 (chaddr l), yiaddr l, expires l)) <$> leases d
         = [(take 6 mac_a, 0xC0A80164, 5000); (take 6 mac_b, 0xC0A80165, 1000 + 86400); (replicate 6 0, 0, 0)]
  | None => False
  end.
Proof. by vm_compute. Qed.

(** ** What the modelling found *)

(** A lease without end: the product of [lease] and 7 wraps around, and the time of
    rebinding comes before the time of renewal. *)
Example infinite_lease_rebinds_first :
  let p := sample_message mac_b 0 [(DHCP_MESSAGE_TYPE, [DHCPACK]); (DHCP_LEASE_TIME, [255; 255; 255; 255])] in
  match on_ack p 1000 laptop_waits with
  | Ok _ s' => t1 s' = 2147483647 /\ t2 s' = 536870911
  | Err _ => False
  end.
Proof. by vm_compute. Qed.

(** The list of requests is written without a test of its room: with an
    identifier of 30 bytes and a host name of 255 it goes beyond the field. *)
Definition long_config : client_config_t :=
  set_clientid (Some (text_option DHCP_CLIENT_ID (replicate 30 0x61)))
    (set_client_hostname (Some (text_option DHCP_HOST_NAME (replicate 255 0x62))) laptop_config).
Example requests_overflow :
  send_discover 0x1234 0 (set_client_config long_config laptop_idle) = Err Out_of_bounds.
Proof. by vm_compute. Qed.

(** The block for the address has no room for the blank after it. *)
Definition ack_from (y : Z) (l : list (Z * list Z)) : dhcpMessage :=
  DhcpMessage BOOTREPLY 1 6 0 0x1234 0 0 0 y 0 0 mac_b (replicate 64 0) (replicate 128 0) DHCP_MAGIC
    (enc_opts l ++ DHCP_END :: replicate (307 - length (enc_opts l)) 0).
Example long_address_overflows :
  fill_envp [] "eth0" (Some (ack_from 0xC0A864C8 ack_options)) laptop_waits = Err Out_of_bounds.
Proof. by vm_compute. Qed.

(** The block for an option is computed from the whole elements it has; the loop
    writes an element for the rest too. *)
Example odd_option_overflows :
  fill_envp [] "eth0" (Some (ack_from 0xC0A80165 [(0x06, [192; 168])])) laptop_waits = Err Out_of_bounds.
Proof. by vm_compute. Qed.

(** A datagram whose length field is smaller than the headers, with no UDP
    checksum, passes every test, and the number of bytes to copy is negative. *)
Definition short_frame : list Z :=
  let header ck := ip_header (IPVERSION * 16 + 5) 20 IPDEFTTL ck 0xC0A80101 INADDR_BROADCAST in
  header (checksum (header 0)) ++ udp_header SERVER_PORT CLIENT_PORT 0 0.
Example short_frame_copies_too_much :
  Forall is_byte short_frame /\ get_raw_packet (Some short_frame) laptop_waits = Err Out_of_bounds.
Proof. split; [check_bytes|by vm_compute]. Qed.

(** A message that is shorter than the structure is read with the end of the one
    before it: here the lease time of the old message. *)
Definition cut_frame : list Z :=
  let n := 243 in   (* up to the message type *)
  let data := take 243 (message_bytes (ack_from 0xC0A80165 [(DHCP_MESSAGE_TYPE, [DHCPACK])])) in
  let header ck := ip_header (IPVERSION * 16 + 5) (28 + n) IPDEFTTL ck 0xC0A80101 INADDR_BROADCAST in
  header (checksum (header 0)) ++ udp_header SERVER_PORT CLIENT_PORT (8 + n) 0 ++ data.
Example stale_options_are_read :
  match client_turn (Selected (Some (Some cut_frame)) None)
          (set_c_packet (message_bytes (ack_from 0 [(DHCP_MESSAGE_TYPE, [DHCPNAK]); (DHCP_LEASE_TIME, [0; 0; 0x1C; 0x20])])) laptop_waits) with
  | Ok _ s' => c_state s' = BOUND /\ c_lease s' = Some 7200
  | Err _ => False
  end.
Proof. by vm_compute. Qed.

(** A saved counter of BOOTP offers with ten digits does not fit the buffer that it
    is printed to when the client exits. *)
Example counter_overflows :
  client_turn (Selected None (Some (Some SIGTERM))) (set_bootp_cnt_offer 1000000000 laptop_idle) = Err Out_of_bounds.
Proof. by vm_compute. Qed.

(** The signals write to the log file without a test that it was opened. *)
Definition laptop_unlogged : ClientEnv :=
  {| cenv_uptime := cenv_uptime; cenv_rand := cenv_rand; cenv_sock_ok := cenv_sock_ok; cenv_sent := cenv_sent;
     cenv_listen := cenv_listen; cenv_eintr := cenv_eintr; cenv_daemon := cenv_daemon; cenv_fork := cenv_fork;
     cenv_log _ := false; cenv_bootp := cenv_bootp; cenv_interface := cenv_interface; cenv_inet_addr := cenv_inet_addr |}.
Example unlogged_signal_faults :
  client_turn (E := laptop_unlogged) (Selected None (Some (Some SIGUSR1))) laptop_bound = Err Null_deref.
Proof. by vm_compute. Qed.
