(* ===== verification/IgmpTypes.v ===== *)
(** * IgmpTypes: the data of the IGMP proxy (src/GTK/user/apps/igmp)

    The constants and records of igmp.h and igmprt.h, the variables of igmprt.c,
    and the class [IgmpEnv] of what the proxy asks the operating system.  A linked list
    is a list, and a pointer to a group is its position in the list of its
    interface; what a read of a node gives after the node was freed is an answer
    of the allocator. *)

From S2P Require Import Prelude DhcpTypes.

(** ** igmp.h and the headers of the system *)

Definition IGMP_FMODE_INCLUDE : Z := 1.
Definition IGMP_FMODE_EXCLUDE : Z := 0.
Definition IGMP_TIMER_SCALE : Z := 10.
Definition IGMP_DEF_QI : Z := 125.
Definition IGMP_DEF_QRI : Z := 10.
Definition IGMP_DEF_RV : Z := 2.
Definition IGMP_OQPI : Z := IGMP_DEF_RV * IGMP_DEF_QI + IGMP_DEF_QRI / 2.
Definition IGMP_GMI : Z := IGMP_DEF_RV * IGMP_DEF_QI + IGMP_DEF_QRI.

Definition IGMP_V2_MEMBERSHIP_LEAVE : Z := 0x17.
Definition IGMP_MEMBERSHIP_QUERY : Z := 0x11.
Definition IGMP_V1_MEMBERSHIP_REPORT : Z := 0x12.
Definition IGMP_V2_MEMBERSHIP_REPORT : Z := 0x16.
Definition IGMP_V3_MEMBERSHIP_REPORT : Z := 0x22.
Definition IGMP_VERSION_1 : Z := 0x12.
Definition IGMP_VERSION_2 : Z := 0x16.
Definition IGMP_VERSION_3 : Z := 0x22.
Definition IGMP_MINLEN : Z := 8.
(** inet_addr of 224.0.0.2 *)
Definition IGMP_ALL_ROUTERS : Z := 0xE0000002.

Definition INADDR_ALLHOSTS_GROUP : Z := 0xE0000001.
Definition INADDR_ALLRTRS_GROUP : Z := 0xE0000002.
Definition INADDR_ALLRTRS_IGMPV3_GROUP : Z := 0xE0000016.
Definition INADDR_DVMPR : Z := 0xE0000004.
Definition INADDR_PIM : Z := 0xE0000009.
Definition VALID_ADDR (x : Z) : bool :=
  negb (x =? INADDR_ALLRTRS_GROUP) && negb (x =? INADDR_ALLHOSTS_GROUP) && negb (x =? INADDR_ALLRTRS_IGMPV3_GROUP)
  && negb (x =? INADDR_DVMPR) && negb (x =? INADDR_PIM).
Definition IN_MULTICAST (a : Z) : bool := Z.land a 0xF0000000 =? 0xE0000000.

Definition MAXVIFS : nat := 32.
Definition MAX_ADDRS : nat := 500.
Definition MAX_MSGBUFSIZE : Z := 9180.
Definition CLI_MAX_BUF_SZ : nat := 128.
Definition sizeof_ip : Z := 20.
Definition IFF_ALLMULTI : Z := 0x200.
Definition IFF_PROMISC : Z := 0x100.

(** ** The records *)

Inductive igmp_if_type : Type := UPSTREAM | DOWNSTREAM.
#[export] Instance igmp_if_type_eq_dec : EqDecision igmp_if_type.
Proof. solve_decision. Defined.

Record igmp_src_t : Type := IgmpSrc {
  igmps_source : Z;
  igmps_timer : Z;
  igmps_fstate : bool
}.

Record igmp_group_t : Type := IgmpGroup {
  igmpg_addr : Z;   (* in_addr *)
  igmpg_timer : Z;   (* int *)
  igmpg_fmode : Z;   (* int *)
  igmpg_version : Z;   (* int *)
  igmpg_members : list Z;   (* igmp_rep_t: the addresses, in the order of the list *)
  igmpg_sources : list igmp_src_t
}.

Definition set_igmpg_timer (x : Z) (g : igmp_group_t) : igmp_group_t :=
  IgmpGroup (igmpg_addr g) x (igmpg_fmode g) (igmpg_version g) (igmpg_members g) (igmpg_sources g).
Definition set_igmpg_fmode (x : Z) (g : igmp_group_t) : igmp_group_t :=
  IgmpGroup (igmpg_addr g) (igmpg_timer g) x (igmpg_version g) (igmpg_members g) (igmpg_sources g).
Definition set_igmpg_members (x : list Z) (g : igmp_group_t) : igmp_group_t :=
  IgmpGroup (igmpg_addr g) (igmpg_timer g) (igmpg_fmode g) (igmpg_version g) x (igmpg_sources g).
Definition set_igmpg_sources (x : list igmp_src_t) (g : igmp_group_t) : igmp_group_t :=
  IgmpGroup (igmpg_addr g) (igmpg_timer g) (igmpg_fmode g) (igmpg_version g) (igmpg_members g) x.

Record igmp_interface_t : Type := IgmpInterface {
  igmpi_addr : Z;
  igmpi_name : string;
  igmpi_index : Z;
  igmpi_type : igmp_if_type;
  igmpi_groups : list igmp_group_t;   (* the list; a pointer to a group is its position *)
  igmpi_version : Z;
  igmpi_isquerier : bool;
  igmpi_qi : Z;   (* query interval *)
  igmpi_qri : Z;   (* query response interval *)
  igmpi_gmi : Z;   (* group membership interval *)
  igmpi_oqp : option Z;   (* other querier present timer; None: not assigned yet *)
  igmpi_rv : Z;   (* robustness variable *)
  igmpi_ti_qi : Z;   (* timer: query interval *)
  igmpi_save_flags : Z;
  igmpi_bufsize : Z
}.

Definition set_igmpi_groups (x : list igmp_group_t) (i : igmp_interface_t) : igmp_interface_t :=
  IgmpInterface (igmpi_addr i) (igmpi_name i) (igmpi_index i) (igmpi_type i) x (igmpi_version i) (igmpi_isquerier i) (igmpi_qi i) (igmpi_qri i) (igmpi_gmi i) (igmpi_oqp i) (igmpi_rv i) (igmpi_ti_qi i) (igmpi_save_flags i) (igmpi_bufsize i).
Definition set_igmpi_isquerier (x : bool) (i : igmp_interface_t) : igmp_interface_t :=
  IgmpInterface (igmpi_addr i) (igmpi_name i) (igmpi_index i) (igmpi_type i) (igmpi_groups i) (igmpi_version i) x (igmpi_qi i) (igmpi_qri i) (igmpi_gmi i) (igmpi_oqp i) (igmpi_rv i) (igmpi_ti_qi i) (igmpi_save_flags i) (igmpi_bufsize i).
Definition set_igmpi_oqp (x : option Z) (i : igmp_interface_t) : igmp_interface_t :=
  IgmpInterface (igmpi_addr i) (igmpi_name i) (igmpi_index i) (igmpi_type i) (igmpi_groups i) (igmpi_version i) (igmpi_isquerier i) (igmpi_qi i) (igmpi_qri i) (igmpi_gmi i) x (igmpi_rv i) (igmpi_ti_qi i) (igmpi_save_flags i) (igmpi_bufsize i).
Definition set_igmpi_ti_qi (x : Z) (i : igmp_interface_t) : igmp_interface_t :=
  IgmpInterface (igmpi_addr i) (igmpi_name i) (igmpi_index i) (igmpi_type i) (igmpi_groups i) (igmpi_version i) (igmpi_isquerier i) (igmpi_qi i) (igmpi_qri i) (igmpi_gmi i) (igmpi_oqp i) (igmpi_rv i) x (igmpi_save_flags i) (igmpi_bufsize i).

(** An entry of the proxy's database: an array of MAX_ADDRS sources, of which the
    first [md_numsources] are used; [None] was not assigned. *)
Record membership_db : Type := MembershipDb {
  md_group : Z;
  md_fmode : Z;
  md_numsources : Z;
  md_sources : list (option Z)
}.

(** interface_list_t of util.h *)
Record interface_list_t : Type := InterfaceList {
  ifl_name : string;
  ifl_addr : Z;
  ifl_index : Z
}.

(** What is asked of the kernel. *)
Inductive igmp_output : Type :=
  | Join (group interface0 : Z)                       (* IP_ADD_MEMBERSHIP on igmprt_up_socket *)
  | Drop (group interface0 : Z)                       (* IP_DROP_MEMBERSHIP on it *)
  | Mfc_add (source group parent : Z) (ttls : list Z) (* MRT_ADD_MFC *)
  | Mfc_del (source group : Z)                        (* MRT_DEL_MFC *)
  | Vif_add (addr index : Z)                          (* MRT_ADD_VIF *)
  | Vif_del (addr index : Z)                          (* MRT_DEL_VIF *)
  | Forward (insert : bool) (name : string) (group : Z)   (* iptables -I or -D FORWARD *)
  | Query_sent (interface0 dest : Z) (bytes : list Z)
  | Router_on (interface0 : Z)                        (* IP_ADD_MEMBERSHIP of all routers, MRT_INIT *)
  | Set_flags (name : string) (flags : Z).

(** igmp_router_t, and the variables of igmprt.c. *)
Record igmp_router : Type := IgmpRouter {
  igmprt_interfaces : list igmp_interface_t;
  igmprt_membership_db : list membership_db;
  igmprt_flag_timer : bool;
  igmprt_flag_input : bool;
  igmprt_running : bool;
  upstream_interface : list string;   (* 10 names of 8 bytes *)
  downstream : option nat;   (* NULL or a pointer into the interfaces *)
  ctrl_blocks : Z;   (* control buffers allocated and not freed *)
  i_calls : nat;   (* calls of the operating system so far *)
  i_out : list igmp_output   (* what was asked of the kernel, oldest first *)
}.

Definition set_igmprt_interfaces (x : list igmp_interface_t) (s : igmp_router) : igmp_router :=
  IgmpRouter x (igmprt_membership_db s) (igmprt_flag_timer s) (igmprt_flag_input s) (igmprt_running s) (upstream_interface s) (downstream s) (ctrl_blocks s) (i_calls s) (i_out s).
Definition set_igmprt_membership_db (x : list membership_db) (s : igmp_router) : igmp_router :=
  IgmpRouter (igmprt_interfaces s) x (igmprt_flag_timer s) (igmprt_flag_input s) (igmprt_running s) (upstream_interface s) (downstream s) (ctrl_blocks s) (i_calls s) (i_out s).
Definition set_igmprt_flag_timer (x : bool) (s : igmp_router) : igmp_router :=
  IgmpRouter (igmprt_interfaces s) (igmprt_membership_db s) x (igmprt_flag_input s) (igmprt_running s) (upstream_interface s) (downstream s) (ctrl_blocks s) (i_calls s) (i_out s).
Definition set_igmprt_flag_input (x : bool) (s : igmp_router) : igmp_router :=
  IgmpRouter (igmprt_interfaces s) (igmprt_membership_db s) (igmprt_flag_timer s) x (igmprt_running s) (upstream_interface s) (downstream s) (ctrl_blocks s) (i_calls s) (i_out s).
Definition set_igmprt_running (x : bool) (s : igmp_router) : igmp_router :=
  IgmpRouter (igmprt_interfaces s) (igmprt_membership_db s) (igmprt_flag_timer s) (igmprt_flag_input s) x (upstream_interface s) (downstream s) (ctrl_blocks s) (i_calls s) (i_out s).
Definition set_upstream_interface (x : list string) (s : igmp_router) : igmp_router :=
  IgmpRouter (igmprt_interfaces s) (igmprt_membership_db s) (igmprt_flag_timer s) (igmprt_flag_input s) (igmprt_running s) x (downstream s) (ctrl_blocks s) (i_calls s) (i_out s).
Definition set_downstream (x : option nat) (s : igmp_router) : igmp_router :=
  IgmpRouter (igmprt_interfaces s) (igmprt_membership_db s) (igmprt_flag_timer s) (igmprt_flag_input s) (igmprt_running s) (upstream_interface s) x (ctrl_blocks s) (i_calls s) (i_out s).
Definition set_ctrl_blocks (x : Z) (s : igmp_router) : igmp_router :=
  IgmpRouter (igmprt_interfaces s) (igmprt_membership_db s) (igmprt_flag_timer s) (igmprt_flag_input s) (igmprt_running s) (upstream_interface s) (downstream s) x (i_calls s) (i_out s).
Definition set_i_calls (x : nat) (s : igmp_router) : igmp_router :=
  IgmpRouter (igmprt_interfaces s) (igmprt_membership_db s) (igmprt_flag_timer s) (igmprt_flag_input s) (igmprt_running s) (upstream_interface s) (downstream s) (ctrl_blocks s) x (i_out s).
Definition set_i_out (x : list igmp_output) (s : igmp_router) : igmp_router :=
  IgmpRouter (igmprt_interfaces s) (igmprt_membership_db s) (igmprt_flag_timer s) (igmprt_flag_input s) (igmprt_running s) (upstream_interface s) (downstream s) (ctrl_blocks s) (i_calls s) x.

Abbreviation IM := (M igmp_router).

(** ** The environment *)

Class IgmpEnv : Type := {
  (** malloc() gives memory *)
  ienv_malloc : nat -> bool;
  (** a block that was just freed still holds what it held *)
  ienv_freed : nat -> bool;
  (** setsockopt() and socket() succeed *)
  ienv_sockopt : nat -> bool;
  ienv_socket : nat -> bool;
  (** get_interface_mtu() and get_interface_flags(), -1 when they fail *)
  ienv_mtu : nat -> string -> Z;
  ienv_flags : nat -> string -> Z;
  (** the name of the interface with an index, and its address (SIOCGIFADDR) *)
  ienv_ifname : nat -> Z -> option string;
  ienv_ifaddr : nat -> string -> Z
}.
Class IgmpLaws (E : IgmpEnv) : Prop := {
  ienv_ifaddr_range n s : 0 <= ienv_ifaddr n s < 4294967296;
  ienv_ifname_length n i s : ienv_ifname n i = Some s -> (String.length s < 16)%nat
}.

Section with_env.
Context `{E : IgmpEnv}.
Definition isys {A} (f : nat -> A) : IM A :=
  n ← gets i_calls; modify (set_i_calls (S n));; mret (f n).
Definition igmp_out (o : igmp_output) : IM unit := modify (fun s => set_i_out (i_out s ++ [o]) s).

(** A pointer to an interface, and a pointer to a group of it. *)
Definition get_if (j : nat) : IM igmp_interface_t := ifs ← gets igmprt_interfaces; in_bounds (ifs !! j).
Definition put_if (j : nat) (f : igmp_interface_t -> igmp_interface_t) : IM unit :=
  modify (fun s => set_igmprt_interfaces (alter f j (igmprt_interfaces s)) s).
Definition get_group (j k : nat) : IM igmp_group_t := ifp ← get_if j; in_bounds (igmpi_groups ifp !! k).
Definition put_group (j k : nat) (f : igmp_group_t -> igmp_group_t) : IM unit :=
  put_if j (fun ifp => set_igmpi_groups (alter f k (igmpi_groups ifp)) ifp).
(** The loop over the interfaces; no function adds or removes one during it. *)
Definition for_interfaces (body : nat -> igmp_interface_t -> IM unit) : IM unit :=
  n ← gets (fun s => length (igmprt_interfaces s));
  for_n n 0 (fun j => ifp ← get_if j; body j ifp).
End with_env.
