(* ===== verification/IgmpProxy.v ===== *)
(** * IgmpProxy: the kernel tables, the database and the interfaces (proxy.c, util.c)

    The multicast forwarding entries that are asked for, the merge of a report
    into the membership database, the checksum, and the list of the interfaces that
    take part. *)

From S2P Require Import Prelude DhcpTypes IgmpTypes.

Section with_env.
Context `{E : IgmpEnv}.

(** ** proxy.c: the kernel *)

Definition k_proxy_add_vif (vifaddr vifi : Z) : IM bool := igmp_out (Vif_add vifaddr vifi);; isys ienv_sockopt.
Definition k_proxy_del_vif (vifaddr vifi : Z) : IM bool := igmp_out (Vif_del vifaddr vifi);; isys ienv_sockopt.
Definition k_proxy_del_mfc (source group : Z) : IM bool := igmp_out (Mfc_del source group);; isys ienv_sockopt.

(** One entry for each upstream interface, from the [n] interfaces at [j] on. *)
Fixpoint chg_mfc_loop (n j : nat) (ttls : list Z) (source group outvif fstate : Z) : IM bool :=
  match n with
  | O => mret true
  | S n' =>
      ifp ← get_if j;
      if bool_decide (igmpi_type ifp = UPSTREAM) then
        ttls ← in_bounds (store [u8 fstate] ttls outvif);
        igmp_out (Mfc_add source group (igmpi_index ifp) ttls);;
        ok ← isys ienv_sockopt;
        if ok : bool then chg_mfc_loop n' (S j) ttls source group outvif fstate else mret false
      else chg_mfc_loop n' (S j) ttls source group outvif fstate
  end.
Definition k_proxy_chg_mfc (source group outvif fstate : Z) : IM bool :=
  n ← gets (fun s => length (igmprt_interfaces s));
  chg_mfc_loop n 0 (replicate MAXVIFS 0) source group outvif fstate.

(** ** proxy.c: the membership database *)

(** [sources[i]] of an entry. *)
Definition md_source (m : membership_db) (i : nat) : IM Z :=
  v ← in_bounds (md_sources m !! i);
  match v with Some a => mret a | None => fail Uninitialised end.

Definition find_source (sr : Z) (sources : list Z) : bool := existsb (fun a => a =? sr) sources.

(** [find_source] on the sources of an entry: they are read up to the first match. *)
Fixpoint find_stored (n i : nat) (sr : Z) (m : membership_db) : IM bool :=
  match n with
  | O => mret false
  | S n' => a ← md_source m i; if a =? sr then mret true else find_stored n' (S i) sr m
  end.

Definition set_source (i : nat) (a : Z) (m : membership_db) : IM membership_db :=
  if decide (i < length (md_sources m))%nat then mret (MembershipDb (md_group m) (md_fmode m) (md_numsources m) (<[i := Some a]> (md_sources m)))
  else fail Out_of_bounds.
Definition set_numsources (n : Z) (m : membership_db) : membership_db :=
  MembershipDb (md_group m) (md_fmode m) n (md_sources m).
Fixpoint set_sources (i : nat) (l : list Z) (m : membership_db) : IM membership_db :=
  match l with
  | [] => mret m
  | a :: l' => m ← set_source i a m; set_sources (S i) l' m
  end.

Definition create_membership (group fmode : Z) (sources : list Z) : IM (option membership_db) :=
  ok ← isys ienv_malloc;
  if ok : bool then
    m ← set_sources 0 sources (MembershipDb group fmode (Z.of_nat (length sources)) (replicate MAX_ADDRS None));
    mret (Some m)
  else mret None.

Definition find_membership (group : Z) (db : list membership_db) : option nat :=
  fst <$> list_find (fun m => md_group m = group) db.

(** INCLUDE into INCLUDE: the number is increased first, so each new source goes one
    place too far. *)
Fixpoint merge_new (l : list Z) (m : membership_db) : IM membership_db :=
  match l with
  | [] => mret m
  | a :: l' =>
      found ← find_stored (Z.to_nat (md_numsources m)) 0 a m;
      if found : bool then merge_new l' m
      else
        m ← set_source (Z.to_nat (md_numsources m + 1)) a (set_numsources (md_numsources m + 1) m);
        merge_new l' m
  end.

(** The sources of the report that the entry does not have. *)
Fixpoint missing (l : list Z) (m : membership_db) : IM (list Z) :=
  match l with
  | [] => mret []
  | a :: l' =>
      found ← find_stored (Z.to_nat (md_numsources m)) 0 a m;
      rest ← missing l' m;
      mret (if found : bool then rest else a :: rest)
  end.

(** The sources of the entry that the report has, or has not. *)
Fixpoint stored_where (n i : nat) (keep : Z -> bool) (m : membership_db) : IM (list Z) :=
  match n with
  | O => mret []
  | S n' => a ← md_source m i; rest ← stored_where n' (S i) keep m; mret (if keep a then a :: rest else rest)
  end.

Definition replace_sources (l : list Z) (m : membership_db) : IM membership_db :=
  set_sources 0 l (set_numsources (Z.of_nat (length l)) m).

Definition merge_membership (fmode : Z) (sources : list Z) (m : membership_db) : IM membership_db :=
  let both := if negb (md_fmode m =? 0) && negb (fmode =? 0) then 1 else 0 in
  let m := MembershipDb (md_group m) both (md_numsources m) (md_sources m) in
  if both =? IGMP_FMODE_INCLUDE then
    if fmode =? IGMP_FMODE_INCLUDE then merge_new sources m
    else l ← missing sources m; replace_sources l m
  else
    l ← stored_where (Z.to_nat (md_numsources m)) 0
          (fun a => if fmode =? IGMP_FMODE_INCLUDE then negb (find_source a sources) else find_source a sources) m;
    replace_sources l m.

(** The result of [create_membership] is not tested. *)
Definition update_multi (group fmode : Z) (sources : list Z) : IM unit :=
  db ← gets igmprt_membership_db;
  match find_membership group db with
  | Some k =>
      m ← in_bounds (db !! k);
      m ← merge_membership fmode sources m;
      modify (set_igmprt_membership_db (<[k := m]> db))
  | None =>
      m ← create_membership group fmode sources;
      m ← deref m;
      modify (fun s => set_igmprt_membership_db (m :: igmprt_membership_db s) s)
  end.

(** ** util.c *)

(** The words of the message are added, and the carries once. *)
Fixpoint word_sum (l : list Z) : Z :=
  match l with
  | a :: b :: l' => of_be [a; b] + word_sum l'
  | [a] => of_be [a; 0]
  | [] => 0
  end.
Definition in_cksum (bytes : list Z) : Z :=
  let sum := word_sum bytes in
  u16 (Z.lnot (Z.shiftr sum 16 + Z.land sum 0xffff)).

Definition upstream_interface_lookup (s : string) : IM bool :=
  names ← gets upstream_interface; mret (existsb (fun u => bool_decide (u = s)) names).

Definition prefixed (p s : string) : bool := String.prefix p s.

(** The interfaces with the indices from [i] on: those that were enabled, and the
    bridges; not the wireless ones nor the USB ones. *)
Fixpoint interface_loop (n : nat) (i : Z) : IM (list interface_list_t) :=
  match n with
  | O => mret []
  | S n' =>
      p ← isys (fun k => ienv_ifname k i);
      match p with
      | None => interface_loop n' (i + 1)
      | Some p =>
          if prefixed "eth2" p || prefixed "usb" p then interface_loop n' (i + 1)
          else
            enabled ← upstream_interface_lookup p;
            if negb enabled && negb (prefixed "br" p) then interface_loop n' (i + 1)
            else
              addr ← isys (fun k => ienv_ifaddr k p);
              ok ← isys ienv_malloc;
              rest ← interface_loop n' (i + 1);
              mret (if ok : bool then InterfaceList p addr i :: rest else rest)
      end
  end.
Definition get_interface_list : IM (list interface_list_t) :=
  ok ← isys ienv_socket;
  if ok : bool then interface_loop 31 2 else mret [].
End with_env.
