(* ===== verification/IgmpRouter.v ===== *)
(** * IgmpRouter: groups, interfaces and the router (igmprt.c, igmpv2.c)

    The lists of members and sources, the groups of an interface, reports and
    leaves, the timers, the queries, the reception of a message, and the loop. *)

From S2P Require Import Prelude DhcpTypes IgmpTypes IgmpProxy.

Section with_env.
Context `{E : IgmpEnv}.

(** ** Members and sources *)

Definition igmp_rep_create (srcaddr : Z) : IM (option Z) :=
  ok ← isys ienv_malloc; mret (if ok : bool then Some srcaddr else None).
Definition igmp_rep_count (gp : igmp_group_t) : nat := length (igmpg_members gp).
Definition igmp_group_rep_lookup (gp : igmp_group_t) (srcaddr : Z) : option nat :=
  fst <$> list_find (fun a => a = srcaddr) (igmpg_members gp).
Definition igmp_rep_cleanup (j k : nat) (rep : nat) : IM unit :=
  put_group j k (fun gp => set_igmpg_members (delete rep (igmpg_members gp)) gp).
Definition igmp_group_rep_add (j k : nat) (srcaddr : Z) : IM unit :=
  gp ← get_group j k;
  match igmp_group_rep_lookup gp srcaddr with
  | Some _ => mret tt
  | None =>
      rep ← igmp_rep_create srcaddr;
      match rep with
      | Some a => put_group j k (fun gp => set_igmpg_members (a :: igmpg_members gp) gp)
      | None => mret tt
      end
  end.

Definition igmp_group_src_lookup (gp : igmp_group_t) (srcaddr : Z) : option nat :=
  fst <$> list_find (fun s => igmps_source s = srcaddr) (igmpg_sources gp).
Definition put_src (j k i : nat) (f : igmp_src_t -> igmp_src_t) : IM unit :=
  put_group j k (fun gp => set_igmpg_sources (alter f i (igmpg_sources gp)) gp).
(** The result is the position of the source; a new one is the head. *)
Definition igmp_group_src_add (j k : nat) (srcaddr : Z) : IM (option nat) :=
  gp ← get_group j k;
  match igmp_group_src_lookup gp srcaddr with
  | Some i => mret (Some i)
  | None =>
      ok ← isys ienv_malloc;
      if ok : bool then
        put_group j k (fun gp => set_igmpg_sources (IgmpSrc srcaddr 0 true :: igmpg_sources gp) gp);; mret (Some 0%nat)
      else mret None
  end.
Definition igmp_src_cleanup (j k i : nat) : IM unit :=
  put_group j k (fun gp => set_igmpg_sources (delete i (igmpg_sources gp)) gp).
Definition check_src_set (src : Z) (set : list igmp_src_t) : bool := existsb (fun s => igmps_source s =? src) set.
Definition check_src (src : Z) (sources : list Z) : bool := existsb (fun a => src =? a) sources.

(** ** Groups *)

Definition igmp_group_create (groupaddr : Z) : IM (option igmp_group_t) :=
  ok ← isys ienv_malloc;
  mret (if ok : bool then Some (IgmpGroup groupaddr 0 IGMP_FMODE_EXCLUDE IGMP_VERSION_2 [] []) else None).

(** The command for iptables, in a buffer of 128 bytes. *)
Definition forward_cmd (insert : bool) (name : string) (group : Z) : string :=
  "/bin/iptables -t filter " ++ (if insert then "-I FORWARD 1" else "-D FORWARD") ++ " -i " ++ name ++ " -d "
  ++ inet_ntoa group ++ " -j ACCEPT 2>/dev/null".
Definition run_forward (insert : bool) (name : string) (group : Z) : IM unit :=
  if decide (String.length (forward_cmd insert name group) < CLI_MAX_BUF_SZ)%nat then igmp_out (Forward insert name group)
  else fail Out_of_bounds.

Definition igmp_group_cleanup (j k : nat) : IM unit :=
  gp ← get_group j k;
  name ← gets (fun s => default EmptyString (upstream_interface s !! 0%nat));
  run_forward false name (igmpg_addr gp);;
  put_if j (fun ifp => set_igmpi_groups (delete k (igmpi_groups ifp)) ifp).

(** [gp->igmpg_next] of a group that was just freed. *)
Definition freed_next : IM unit :=
  still ← isys ienv_freed; if still : bool then mret tt else fail Use_after_free.

(** ** Interfaces *)

Definition igmp_interface_group_lookup (ifp : igmp_interface_t) (groupaddr : Z) : option nat :=
  fst <$> list_find (fun gp => igmpg_addr gp = groupaddr) (igmpi_groups ifp).
Definition igmprt_interface_lookup (ifaddr : Z) : IM (option nat) :=
  ifs ← gets igmprt_interfaces; mret (fst <$> list_find (fun i => igmpi_addr i = ifaddr) ifs).
Definition igmprt_interface_lookup_index (index : Z) : IM (option nat) :=
  ifs ← gets igmprt_interfaces; mret (fst <$> list_find (fun i => igmpi_index i = index) ifs).

(** The group is joined on an upstream interface. *)
Definition join_upstream (groupaddr : Z) (ifp : igmp_interface_t) : IM unit :=
  when (VALID_ADDR groupaddr)
    (up ← igmprt_interface_lookup (igmpi_addr ifp);
     (* assert(ifp != NULL) of igmp_interface_group_lookup *)
     match up with
     | None => fail Assert_failed
     | Some u =>
         upi ← get_if u;
         match igmp_interface_group_lookup upi groupaddr with
         | Some _ => mret tt
         | None =>
             igmp_out (Join groupaddr (igmpi_addr ifp));; isys ienv_sockopt;;
             run_forward true (igmpi_name ifp) groupaddr
         end
     end).
Definition igmp_interface_group_add (j : nat) (groupaddr : Z) : IM (option nat) :=
  ifp ← get_if j;
  match igmp_interface_group_lookup ifp groupaddr with
  | Some k => mret (Some k)
  | None =>
      gp ← igmp_group_create groupaddr;
      match gp with
      | None => mret None
      | Some gp =>
          put_if j (fun ifp => set_igmpi_groups (gp :: igmpi_groups ifp) ifp);;
          for_interfaces (fun _ ifp => when (bool_decide (igmpi_type ifp = UPSTREAM)) (join_upstream groupaddr ifp));;
          mret (Some 0%nat)
      end
  end.

(** igmp_interface_create: the flags are saved, and changed so that all multicast
    packets are received. *)
Definition igmp_interface_create (ifaddr : Z) (ifname : string) (index : Z) : IM (option igmp_interface_t) :=
  ok ← isys ienv_malloc;
  if negb ok then mret None
  else
    mtu ← isys (fun n => ienv_mtu n ifname);
    let bufsize := if mtu =? -1 then MAX_MSGBUFSIZE else mtu in
    ok ← isys ienv_malloc;
    if negb ok then mret None
    else
      let type := if prefixed "br" ifname then DOWNSTREAM else UPSTREAM in
      ok ← isys ienv_socket;
      if negb ok then mret None
      else
        when (bool_decide (type = DOWNSTREAM)) (igmp_out (Router_on ifaddr));;
        flags ← isys (fun n => ienv_flags n ifname);
        when (negb (flags =? -1))
          (igmp_out (Set_flags ifname (Z.lor flags IFF_ALLMULTI));;
           new ← isys (fun n => ienv_flags n ifname);
           when (negb (Z.land new IFF_ALLMULTI =? IFF_ALLMULTI)) (igmp_out (Set_flags ifname (Z.lor flags IFF_PROMISC))));;
        mret (Some (IgmpInterface ifaddr ifname index type [] IGMP_VERSION_2 true IGMP_DEF_QI IGMP_DEF_QRI
                      (IGMP_DEF_RV * IGMP_DEF_QI + IGMP_DEF_QRI) None IGMP_DEF_RV 0 flags bufsize)).

Definition igmprt_interface_add (ifaddr : Z) (ifname : string) (index : Z) : IM unit :=
  found ← igmprt_interface_lookup ifaddr;
  match found with
  | Some _ => mret tt
  | None =>
      ifp ← igmp_interface_create ifaddr ifname index;
      match ifp with
      | Some ifp => modify (fun s => set_igmprt_interfaces (ifp :: igmprt_interfaces s) s)
      | None => mret tt
      end
  end.

(** ** Reports and leaves *)

(** The loops over the sources of an IS_EX report, in the two modes of the group.
    [old] is the set of sources before. *)
Fixpoint isex_exclude (j k : nat) (old : list igmp_src_t) (all sources : list Z) : IM unit :=
  match sources with
  | [] => mret tt
  | a :: sources' =>
      i ← igmp_group_src_add j k a;
      i ← deref i;
      when (negb (check_src_set a old) && check_src a all)
        (put_src j k i (fun s => IgmpSrc (igmps_source s) IGMP_GMI false));;
      isex_exclude j k old all sources'
  end.
Fixpoint isex_include (j k : nat) (old : list igmp_src_t) (all sources : list Z) : IM unit :=
  match sources with
  | [] => mret tt
  | a :: sources' =>
      i ← igmp_group_src_add j k a;
      i ← deref i;
      (if negb (check_src_set a old) && check_src a all then
         put_src j k i (fun s => IgmpSrc (igmps_source s) 0 (igmps_fstate s))
       else when (negb (check_src a all) && check_src_set a old)
         (gp ← get_group j k; igmp_src_cleanup j k i;; freed_next;; k_proxy_del_mfc a (igmpg_addr gp);; mret tt));;
      isex_include j k old all sources'
  end.

Definition igmp_group_handle_isex (j k : nat) (sources : list Z) : IM unit :=
  put_group j k (set_igmpg_timer IGMP_GMI);;
  gp ← get_group j k;
  (if igmpg_fmode gp =? IGMP_FMODE_EXCLUDE then isex_exclude j k (igmpg_sources gp) sources sources
   else isex_include j k (igmpg_sources gp) sources sources);;
  put_group j k (set_igmpg_fmode IGMP_FMODE_EXCLUDE);;
  ifp ← get_if j;
  when (negb (bool_decide (igmpi_type ifp = UPSTREAM)))
    (update_multi (igmpg_addr gp) IGMP_FMODE_EXCLUDE sources;;
     when (VALID_ADDR (igmpg_addr gp)) (k_proxy_chg_mfc 0 (igmpg_addr gp) (igmpi_index ifp) 1;; mret tt)).

Definition igmp_interface_membership_report_v12 (j : nat) (src group : Z) : IM unit :=
  if negb (IN_MULTICAST group) then mret tt
  else
    gp ← igmp_interface_group_add j group;
    match gp with
    | None => mret tt
    | Some k => igmp_group_rep_add j k src;; igmp_group_handle_isex j k []
    end.

(** The upstream interfaces leave a group. *)
Definition drop_upstream (group : Z) : IM unit :=
  for_interfaces (fun _ ifp => when (bool_decide (igmpi_type ifp = UPSTREAM) && VALID_ADDR group)
    (igmp_out (Drop group (igmpi_addr ifp));; isys ienv_sockopt;; mret tt)).

(** The groups of an interface from position [k] on; the result says whether one
    lost its last member. *)
Fixpoint leave_groups (fuel j k : nat) (src group : Z) (needdrop : bool) : IM bool :=
  match fuel with
  | O => fail Out_of_fuel
  | S fuel' =>
      ifp ← get_if j;
      match igmpi_groups ifp !! k with
      | None => mret needdrop
      | Some gp =>
          if igmpg_addr gp =? group then
            match igmp_group_rep_lookup gp src with Some rep => igmp_rep_cleanup j k rep | None => mret tt end;;
            gp ← get_group j k;
            if (igmp_rep_count gp =? 0)%nat then igmp_group_cleanup j k;; freed_next;; leave_groups fuel' j k src group true
            else leave_groups fuel' j (S k) src group needdrop
          else leave_groups fuel' j (S k) src group needdrop
      end
  end.
Fixpoint leave_interfaces (n j : nat) (src group : Z) (needdrop : bool) : IM bool :=
  match n with
  | O => mret needdrop
  | S n' =>
      ifp ← get_if j;
      if bool_decide (igmpi_type ifp = DOWNSTREAM) then
        drop ← leave_groups (S (length (igmpi_groups ifp))) j 0 src group needdrop;
        leave_interfaces n' (S j) src group drop
      else leave_interfaces n' (S j) src group needdrop
  end.
Definition igmp_interface_membership_leave_v2 (src group : Z) : IM unit :=
  if negb (IN_MULTICAST group) then mret tt
  else
    n ← gets (fun s => length (igmprt_interfaces s));
    needdrop ← leave_interfaces n 0 src group false;
    when needdrop (drop_upstream group).

(** ** Timers *)

Definition igmprt_timer_querier (j : nat) : IM unit :=
  ifp ← get_if j;
  match igmpi_oqp ifp with
  | None => fail Uninitialised
  | Some oqp =>
      let oqp := if 0 <? oqp then oqp - 1 else oqp in
      put_if j (set_igmpi_oqp (Some oqp));;
      when (oqp =? 0) (put_if j (set_igmpi_isquerier true))
  end.

(** The groups of an interface from position [k] on. *)
Fixpoint timer_groups (fuel j k : nat) : IM unit :=
  match fuel with
  | O => fail Out_of_fuel
  | S fuel' =>
      ifp ← get_if j;
      match igmpi_groups ifp !! k with
      | None => mret tt
      | Some gp =>
          if igmpg_addr gp =? IGMP_ALL_ROUTERS then timer_groups fuel' j (S k)
          else
            let t := if 0 <? igmpg_timer gp then igmpg_timer gp - 1 else igmpg_timer gp in
            put_group j k (set_igmpg_timer t);;
            if t =? 0 then
              igmp_group_cleanup j k;; drop_upstream (igmpg_addr gp);; freed_next;; timer_groups fuel' j k
            else timer_groups fuel' j (S k)
      end
  end.
Definition igmprt_timer_group (j : nat) : IM unit :=
  ifp ← get_if j; timer_groups (S (length (igmpi_groups ifp))) j 0.

(** ** Queries *)

Definition query_bytes (code cksum group : Z) : list Z := [IGMP_MEMBERSHIP_QUERY; u8 code] ++ be16 cksum ++ be32 group.
Definition igmprt_membership_query (ifp : igmp_interface_t) (group : Z) : IM unit :=
  let send code :=
    let cksum := in_cksum (query_bytes code 0 group) in
    igmp_out (Query_sent (igmpi_addr ifp) (if group =? 0 then INADDR_ALLHOSTS_GROUP else group) (query_bytes code cksum group)) in
  if igmpi_version ifp =? IGMP_VERSION_1 then send 0
  else if igmpi_version ifp =? IGMP_VERSION_2 then send (igmpi_qri ifp)
  else if igmpi_version ifp =? IGMP_VERSION_3 then fail Uninitialised (* the code was not set *)
  else mret tt.

Definition receive_membership_query (j : nat) (group : Z) (sources : list Z) (src_query : Z) (srsp : bool) : IM unit :=
  ifp ← get_if j;
  when (src_query <? igmpi_addr ifp) (put_if j (set_igmpi_oqp (Some IGMP_OQPI));; put_if j (set_igmpi_isquerier false));;
  when (negb srsp)
    (match igmp_interface_group_lookup ifp group with
     | None => mret tt
     | Some k =>
         match sources with
         | [] => put_group j k (set_igmpg_timer IGMP_TIMER_SCALE)
         | _ =>
             put_group j k (fun gp => set_igmpg_sources
               ((fun s => if existsb (fun a => igmps_source s =? a) sources
                          then IgmpSrc (igmps_source s) IGMP_TIMER_SCALE (igmps_fstate s) else s) <$> igmpg_sources gp) gp)
         end
     end).

(** A turn of the timers, each second. *)
Definition timer_interface (j : nat) (ifp : igmp_interface_t) : IM unit :=
  when (bool_decide (igmpi_type ifp = DOWNSTREAM))
    ((if igmpi_isquerier ifp then
        put_if j (set_igmpi_ti_qi (igmpi_ti_qi ifp - 1));;
        when (igmpi_ti_qi ifp - 1 <=? 0) (put_if j (set_igmpi_ti_qi (igmpi_qi ifp));; igmprt_membership_query ifp 0)
      else igmprt_timer_querier j);;
     igmprt_timer_group j).
Definition igmprt_timer : IM unit := for_interfaces timer_interface.
Definition igmprt_timer_thread : IM unit :=
  flag ← gets igmprt_flag_timer; when flag igmprt_timer.

(** ** Reception *)

(** What recvmsg delivers: the bytes, and the control messages, the index of the
    interface for IP_PKTINFO and nothing for another one. *)
Record datagram : Type := Datagram {
  dg_bytes : list Z;
  dg_cmsgs : list (option Z)
}.

(** The control messages: [None] when the packet came from another interface. *)
Fixpoint read_cmsgs (l : list (option Z)) (index if_index : Z) (badmsg : bool) : option (Z * bool) :=
  match l with
  | [] => Some (if_index, badmsg)
  | Some i :: l' => if negb (i =? index) then None else read_cmsgs l' index i badmsg
  | None :: l' => read_cmsgs l' index if_index true
  end.

Definition byte_at (b : list Z) (off : Z) : IM Z := in_bounds (b !! Z.to_nat off).
Definition addr_at (b : list Z) (off : Z) : IM Z := of_be <$> in_bounds (load 4 b off).

(** The message at [off], from [src], to interface [i]. *)
Definition handle_igmp (i : nat) (b : list Z) (off igmplen src : Z) : IM unit :=
  type ← byte_at b off;
  ifpi ← get_if i;
  if type =? IGMP_MEMBERSHIP_QUERY then
    code ← byte_at b (off + 1);
    group ← addr_at b (off + 4);
    if code =? 0 then receive_membership_query i group [] src true
    else if igmplen =? 8 then receive_membership_query i group [] src true
    else mret tt
  else if (type =? IGMP_V1_MEMBERSHIP_REPORT) || (type =? IGMP_V2_MEMBERSHIP_REPORT) then
    if bool_decide (igmpi_type ifpi = UPSTREAM) then mret tt
    else group ← addr_at b (off + 4); igmp_interface_membership_report_v12 i src group
  else if type =? IGMP_V2_MEMBERSHIP_LEAVE then
    if negb (bool_decide (igmpi_type ifpi = UPSTREAM)) then group ← addr_at b (off + 4); igmp_interface_membership_leave_v2 src group
    else mret tt
  else mret tt.

(** The result of recvmsg is compared with an unsigned size, so the -1 of a failure
    passes, and the control messages are read from memory that nobody wrote. *)
Definition igmprt_input (j : nat) (recv : option datagram) : IM unit :=
  modify (fun s => set_ctrl_blocks (ctrl_blocks s + 1) s);;
  match recv with
  | None => fail Uninitialised
  | Some dg =>
      ifp ← get_if j;
      let b := dg_bytes dg in
      let n := Z.of_nat (length b) in
      if n <=? sizeof_ip then mret tt
      else
        match read_cmsgs (dg_cmsgs dg) (igmpi_index ifp) 0 false with
        | None => mret tt
        | Some (if_index, badmsg) =>
            modify (fun s => set_ctrl_blocks (ctrl_blocks s - 1) s);;
            if badmsg : bool then
              d ← gets downstream; d ← deref d;
              put_if d (set_igmpi_ti_qi 10);; put_if d (set_igmpi_isquerier true)
            else
              v ← byte_at b 0;
              let off := 4 * (v mod 16) in
              if n - off <? IGMP_MINLEN then mret tt
              else
                src ← addr_at b 12;
                ifpi ← igmprt_interface_lookup_index if_index;
                match ifpi with
                | None => mret tt
                | Some i => handle_igmp i b off (n - off) src
                end
        end
  end.

(** What select reports: its result, and for each downstream interface in order
    what recvmsg delivers when its socket is in the set. *)
Record selected : Type := Selected_sockets {
  sel_n : Z;
  sel_ready : list (option (option datagram))
}.
Fixpoint input_loop (m j : nat) (n : Z) (ready : list (option (option datagram))) : IM unit :=
  match m with
  | O => mret tt
  | S m' =>
      ifp ← get_if j;
      if bool_decide (igmpi_type ifp = DOWNSTREAM) then
        match head ready with Some (Some recv) => igmprt_input j recv | _ => mret tt end;;
        if n - 1 =? 0 then mret tt else input_loop m' (S j) (n - 1) (tail ready)
      else input_loop m' (S j) n ready
  end.
Definition igmprt_input_thread (sel : selected) : IM unit :=
  ifs ← gets igmprt_interfaces;
  if existsb (fun i => bool_decide (igmpi_type i = DOWNSTREAM)) ifs then input_loop (length ifs) 0 (sel_n sel) (sel_ready sel)
  else mret tt.

(** ** The program *)

Definition router_turn (sel : selected) : IM unit := igmprt_timer_thread;; igmprt_input_thread sel.
Fixpoint router_loop (sels : list selected) : IM unit :=
  match sels with
  | [] => mret tt
  | sel :: sels' => router_turn sel;; router_loop sels'
  end.

Definition igmprt_init : IM unit :=
  modify (fun s => set_igmprt_flag_input false (set_igmprt_flag_timer false (set_igmprt_interfaces [] s)));;
  up ← isys ienv_socket;
  if negb up then fail Died
  else raw ← isys ienv_socket; if negb raw then fail Died else mret tt.
Definition igmprt_start : IM unit :=
  running ← gets igmprt_running;
  if running : bool then mret tt
  else modify (fun s => set_igmprt_running true (set_igmprt_flag_input true (set_igmprt_flag_timer true s))).
Definition igmprt_stop : IM unit :=
  running ← gets igmprt_running;
  if negb running then mret tt
  else modify (fun s => set_igmprt_running false (set_igmprt_flag_input false (set_igmprt_flag_timer false s))).

(** [strcpy(upstream_interface[i], argv[i])] *)
Fixpoint copy_names (i : nat) (args : list string) : IM unit :=
  match args with
  | [] => mret tt
  | a :: args' =>
      (if decide (i < 10 /\ String.length a < 8)%nat then modify (fun s => set_upstream_interface (<[i := a]> (upstream_interface s)) s)
       else fail Out_of_bounds);;
      copy_names (S i) args'
  end.
Fixpoint add_interfaces (l : list interface_list_t) : IM unit :=
  match l with
  | [] => mret tt
  | i :: l' =>
      igmprt_interface_add (ifl_addr i) (ifl_name i) (ifl_index i);;
      k_proxy_add_vif (ifl_addr i) (ifl_index i);;
      add_interfaces l'
  end.
Definition router_main (args : list string) : IM unit :=
  copy_names 0 args;;
  igmprt_init;;
  ifl ← get_interface_list;
  add_interfaces ifl;;
  igmprt_start;;
  modify (fun s => set_downstream (fst <$> list_find (fun i => igmpi_type i = DOWNSTREAM) (igmprt_interfaces s)) s).

(** The handler of the signals that end the program.  The records are freed and
    nothing reads the pointer to them any more. *)
Definition igmp_interface_cleanup (ifp : igmp_interface_t) : IM unit :=
  when (negb (igmpi_save_flags ifp =? -1)) (igmp_out (Set_flags (igmpi_name ifp) (igmpi_save_flags ifp))).
Definition igmprt_destroy : IM unit :=
  for_interfaces (fun _ ifp => k_proxy_del_vif (igmpi_addr ifp) (igmpi_index ifp);; igmp_interface_cleanup ifp);;
  modify (set_igmprt_interfaces []);;
  igmprt_stop.
End with_env.

(** The variables when the program starts. *)
Definition router_begin : igmp_router :=
  IgmpRouter [] [] false false false (replicate 10 EmptyString) None 0 0 [].
