(* ===== verification/IgmpSpec.v ===== *)
(** * IgmpSpec: what a turn of the IGMP proxy does, as functions on its tables

    The abstract machine that igmprt.c and igmpv2.c implement: an interface has a
    table of groups, a second passes ([tick_if]), and a message is one of the
    [heard] events.  No store, no positions, no loops; the next file shows that
    the code computes these functions. *)

From S2P Require Import Prelude DhcpTypes IgmpTypes IgmpProxy.

(** ** The upstream interfaces *)

Definition ups (ifs : list igmp_interface_t) : list igmp_interface_t := filter (fun i => igmpi_type i = UPSTREAM) ifs.
Definition drops (us : list igmp_interface_t) (g : Z) : list igmp_output :=
  if VALID_ADDR g then (fun i => Drop g (igmpi_addr i)) <$> us else [].
Definition joins (us : list igmp_interface_t) (g : Z) : list igmp_output :=
  if VALID_ADDR g then concat ((fun i => [Join g (igmpi_addr i); Forward true (igmpi_name i) g]) <$> us) else [].

(** ** A second passes *)

(** A group that nobody reported again is gone when its time is over. *)
Definition tick_group (g : igmp_group_t) : option igmp_group_t :=
  if igmpg_addr g =? IGMP_ALL_ROUTERS then Some g
  else let t := if 0 <? igmpg_timer g then igmpg_timer g - 1 else igmpg_timer g in
       if t =? 0 then None else Some (set_igmpg_timer t g).
Definition expired (g : igmp_group_t) : bool := match tick_group g with None => true | Some _ => false end.
Definition tick_group_out (name : string) (us : list igmp_interface_t) (g : igmp_group_t) : list igmp_output :=
  if expired g then Forward false name (igmpg_addr g) :: drops us (igmpg_addr g) else [].

(** The general query of an interface, with its checksum. *)
Definition general_query (i : igmp_interface_t) : igmp_output :=
  let bytes c := [IGMP_MEMBERSHIP_QUERY; u8 (igmpi_qri i)] ++ be16 c ++ be32 0 in
  Query_sent (igmpi_addr i) INADDR_ALLHOSTS_GROUP (bytes (in_cksum (bytes 0))).
Definition query_due (i : igmp_interface_t) : bool := igmpi_isquerier i && (igmpi_ti_qi i - 1 <=? 0).

(** The querier counts to its next query; the others count until the querier is
    taken for gone. *)
Definition tick_querier (i : igmp_interface_t) : igmp_interface_t :=
  if igmpi_isquerier i then set_igmpi_ti_qi (if igmpi_ti_qi i - 1 <=? 0 then igmpi_qi i else igmpi_ti_qi i - 1) i
  else match igmpi_oqp i with
       | None => i
       | Some o => let o := if 0 <? o then o - 1 else o in
                   set_igmpi_isquerier (o =? 0) (set_igmpi_oqp (Some o) i)
       end.
Definition tick_if (i : igmp_interface_t) : igmp_interface_t :=
  if decide (igmpi_type i = DOWNSTREAM) then set_igmpi_groups (omap tick_group (igmpi_groups i)) (tick_querier i) else i.
Definition tick_if_out (name : string) (us : list igmp_interface_t) (i : igmp_interface_t) : list igmp_output :=
  if decide (igmpi_type i = DOWNSTREAM) then
    (if query_due i then [general_query i] else []) ++ concat (tick_group_out name us <$> igmpi_groups i)
  else [].

(** ** A host speaks *)

(** The report of a member renews the time of the group. *)
Definition report_group (src : Z) (g : igmp_group_t) : igmp_group_t :=
  let members := if decide (src ∈ igmpg_members g) then igmpg_members g else src :: igmpg_members g in
  IgmpGroup (igmpg_addr g) IGMP_GMI IGMP_FMODE_EXCLUDE (igmpg_version g) members (igmpg_sources g).
Definition new_group (group : Z) : igmp_group_t := IgmpGroup group 0 IGMP_FMODE_EXCLUDE IGMP_VERSION_2 [] [].
Definition holds (group : Z) (i : igmp_interface_t) : Prop := group ∈ (igmpg_addr <$> igmpi_groups i).
#[export] Instance holds_dec group i : Decision (holds group i).
Proof. unfold holds. apply _. Defined.
Definition report_if (src group : Z) (i : igmp_interface_t) : igmp_interface_t :=
  set_igmpi_groups
    (if decide (holds group i) then
       (fun g => if igmpg_addr g =? group then report_group src g else g) <$> igmpi_groups i
     else report_group src (new_group group) :: igmpi_groups i) i.
Definition report_db (group : Z) (db : list membership_db) : list membership_db :=
  if decide (group ∈ (md_group <$> db)) then db else MembershipDb group IGMP_FMODE_EXCLUDE 0 (replicate MAX_ADDRS None) :: db.

(** The member that leaves is struck off, and a group without members is gone. *)
Definition leave_group (src group : Z) (g : igmp_group_t) : option igmp_group_t :=
  if igmpg_addr g =? group then
    match filter (.≠ src) (igmpg_members g) with
    | [] => None
    | members => Some (set_igmpg_members members g)
    end
  else Some g.
Definition leave_if (src group : Z) (i : igmp_interface_t) : igmp_interface_t :=
  if decide (igmpi_type i = DOWNSTREAM) then set_igmpi_groups (omap (leave_group src group) (igmpi_groups i)) i else i.
(** The groups that are gone. *)
Definition emptied (src group : Z) (i : igmp_interface_t) : list igmp_group_t :=
  if decide (igmpi_type i = DOWNSTREAM) then filter (fun g => leave_group src group g = None) (igmpi_groups i) else [].

(** ** Events *)

Inductive heard : Type :=
  | Nothing
  | Reported (i : nat) (src group : Z)   (* a membership report to interface [i] *)
  | Left (src group : Z)
  | Queried (i : nat) (src : Z)          (* a query to interface [i] *)
  | Misread.                             (* a control message that is not understood *)

(** What a message means, by the interface it came to. *)
Definition message_meaning (ifs : list igmp_interface_t) (i : nat) (b : list Z) (off src : Z) : heard :=
  match ifs !! i, b !! Z.to_nat off, b !! Z.to_nat (off + 1), load 4 b (off + 4) with
  | Some ifp, Some type, Some code, Some group =>
      let group := of_be group in
      if type =? IGMP_MEMBERSHIP_QUERY then
        if (code =? 0) || (Z.of_nat (length b) - off =? 8) then Queried i src else Nothing
      else if decide (igmpi_type ifp = UPSTREAM \/ IN_MULTICAST group = false) then Nothing
      else if (type =? IGMP_V1_MEMBERSHIP_REPORT) || (type =? IGMP_V2_MEMBERSHIP_REPORT) then Reported i src group
      else if type =? IGMP_V2_MEMBERSHIP_LEAVE then Left src group
      else Nothing
  | _, _, _, _ => Nothing
  end.

Definition apply_heard (d : option nat) (e : heard) (ifs : list igmp_interface_t) : list igmp_interface_t :=
  match e with
  | Nothing => ifs
  | Reported i src group => alter (report_if src group) i ifs
  | Left src group => leave_if src group <$> ifs
  | Queried i src =>
      alter (fun ifp => if src <? igmpi_addr ifp then set_igmpi_isquerier false (set_igmpi_oqp (Some IGMP_OQPI) ifp) else ifp) i ifs
  | Misread => match d with Some d => alter (fun ifp => set_igmpi_isquerier true (set_igmpi_ti_qi 10 ifp)) d ifs | None => ifs end
  end.
Definition heard_db (e : heard) (db : list membership_db) : list membership_db :=
  match e with Reported _ _ group => report_db group db | _ => db end.

(** The forwarding entries that a report asks for: one for each upstream interface,
    as far as the kernel takes them. *)
Definition forwarding (us : list igmp_interface_t) (group : Z) (index : Z) : list igmp_output :=
  if VALID_ADDR group then (fun u => Mfc_add 0 group (igmpi_index u) (<[Z.to_nat index := 1]> (replicate MAXVIFS 0))) <$> us else [].

Definition heard_emits (name : string) (ifs : list igmp_interface_t) (e : heard) (outs : list igmp_output) : Prop :=
  match e with
  | Reported i src group =>
      exists ifp n, ifs !! i = Some ifp
        /\ outs = (if decide (holds group ifp) then [] else joins (ups ifs) group)
                  ++ take n (forwarding (ups ifs) group (igmpi_index ifp))
  | Left src group =>
      let gone := concat (emptied src group <$> ifs) in
      outs = ((fun _ => Forward false name group) <$> gone) ++ (match gone with [] => [] | _ => drops (ups ifs) group end)
  | _ => outs = []
  end.

(** ** What the router keeps true *)

Record group_ok (g : igmp_group_t) : Prop := {
  go_timer : 0 < igmpg_timer g <= IGMP_GMI;
  go_addr : IN_MULTICAST (igmpg_addr g) = true;
  go_fmode : igmpg_fmode g = IGMP_FMODE_EXCLUDE;
  go_version : igmpg_version g = IGMP_VERSION_2;
  go_members : igmpg_members g <> [];
  go_unique : NoDup (igmpg_members g);
  go_sources : igmpg_sources g = []
}.

Record interface_ok (i : igmp_interface_t) : Prop := {
  io_groups : Forall group_ok (igmpi_groups i);
  io_unique : NoDup (igmpg_addr <$> igmpi_groups i);
  io_upstream : igmpi_type i = UPSTREAM -> igmpi_groups i = [];
  io_name : (String.length (igmpi_name i) < 16)%nat;
  io_index : 0 <= igmpi_index i < 32;
  io_version : igmpi_version i = IGMP_VERSION_2;
  io_qi : igmpi_qi i = IGMP_DEF_QI;
  io_qri : igmpi_qri i = IGMP_DEF_QRI;
  io_ti_qi : 0 <= igmpi_ti_qi i <= IGMP_DEF_QI;
  io_other : igmpi_isquerier i = false -> exists o, igmpi_oqp i = Some o /\ 0 < o <= IGMP_OQPI
}.

(** The entries of the database never have a source. *)
Definition entry_ok (m : membership_db) : Prop := md_fmode m = IGMP_FMODE_EXCLUDE /\ md_numsources m = 0.

Record router_ok (s : igmp_router) : Prop := {
  ro_interfaces : Forall interface_ok (igmprt_interfaces s);
  ro_addresses : NoDup (igmpi_addr <$> igmprt_interfaces s);
  ro_db : Forall entry_ok (igmprt_membership_db s);
  ro_names : Forall (fun n => (String.length n < 8)%nat) (upstream_interface s);
  ro_downstream : downstream s = fst <$> list_find (fun i => igmpi_type i = DOWNSTREAM) (igmprt_interfaces s);
  ro_timer : igmprt_flag_timer s = true
}.
Definition first_name (s : igmp_router) : string := default EmptyString (upstream_interface s !! 0%nat).

(** The interfaces that say the same of themselves, groups and timers apart. *)
Definition same_kind (i i' : igmp_interface_t) : Prop :=
  igmpi_addr i' = igmpi_addr i /\ igmpi_name i' = igmpi_name i /\ igmpi_index i' = igmpi_index i /\ igmpi_type i' = igmpi_type i.
#[export] Instance same_kind_preorder : PreOrder same_kind.
Proof. split; [done|]. intros i1 i2 i3 (A1 & A2 & A3 & A4) (B1 & B2 & B3 & B4). unfold same_kind. by rewrite B1, B2, B3, B4. Qed.

(** The tables and the outputs of the state after; the rest stays. *)
Definition same_setup (s s' : igmp_router) : Prop :=
  upstream_interface s' = upstream_interface s /\ downstream s' = downstream s /\ igmprt_flag_timer s' = igmprt_flag_timer s.
#[export] Instance same_setup_preorder : PreOrder same_setup.
Proof. split; [done|]. intros s1 s2 s3 (A1 & A2 & A3) (B1 & B2 & B3). unfold same_setup. by rewrite B1, B2, B3. Qed.

Record becomes (ifs : list igmp_interface_t) (db : list membership_db) (outs : list igmp_output) (s s' : igmp_router) : Prop := {
  bc_interfaces : igmprt_interfaces s' = ifs;
  bc_db : igmprt_membership_db s' = db;
  bc_out : i_out s' = i_out s ++ outs;
  bc_setup : same_setup s s'
}.
(** Nothing but outputs. *)
Abbreviation extends outs s s' := (becomes (igmprt_interfaces s) (igmprt_membership_db s) outs s s').

Lemma becomes_refl s : extends [] s s.
Proof. split; [done|done|by rewrite app_nil_r|done]. Qed.
Lemma becomes_trans ifs1 ifs2 db1 db2 o1 o2 s1 s2 s3 :
  becomes ifs1 db1 o1 s1 s2 -> becomes ifs2 db2 o2 s2 s3 -> becomes ifs2 db2 (o1 ++ o2) s1 s3.
Proof. intros [A1 A2 A3 A4] [B1 B2 B3 B4]. split; [done|done|by rewrite B3, A3, app_assoc|by etransitivity]. Qed.
Lemma becomes_same ifs ifs' db db' o o' s s' : ifs = ifs' -> db = db' -> o = o' -> becomes ifs db o s s' -> becomes ifs' db' o' s s'.
Proof. by intros -> -> ->. Qed.
Lemma extends_trans o1 o2 s1 s2 s3 : extends o1 s1 s2 -> extends o2 s2 s3 -> extends (o1 ++ o2) s1 s3.
Proof. intros H1 H2. rewrite (bc_interfaces _ _ _ _ _ H1), (bc_db _ _ _ _ _ H1) in H2. exact (becomes_trans _ _ _ _ _ _ _ _ _ H1 H2). Qed.
(** Outputs before and after a change of the tables. *)
Lemma extends_becomes ifs db o1 o2 s1 s2 s3 : extends o1 s1 s2 -> becomes ifs db o2 s2 s3 -> becomes ifs db (o1 ++ o2) s1 s3.
Proof. apply becomes_trans. Qed.
Lemma becomes_extends ifs db o1 o2 s1 s2 s3 : becomes ifs db o1 s1 s2 -> extends o2 s2 s3 -> becomes ifs db (o1 ++ o2) s1 s3.
Proof. intros H1 H2. rewrite (bc_interfaces _ _ _ _ _ H1), (bc_db _ _ _ _ _ H1) in H2. exact (becomes_trans _ _ _ _ _ _ _ _ _ H1 H2). Qed.
