(* ===== verification/IgmpLemmas.v ===== *)
(** * IgmpLemmas: runs of the loops of the IGMP router (igmprt.c, igmpv2.c, proxy.c)

    Each loop of the router computes the function of IgmpSpec, when the
    memory of a freed node can still be read and malloc() gives memory. *)

From S2P Require Import Prelude DhcpTypes DhcpLeases IgmpTypes IgmpProxy IgmpRouter IgmpSpec.

(** ** Lists of interfaces *)

Lemma drops_same us us' g : Forall2 same_kind us us' -> drops us' g = drops us g.
Proof.
  intros H. unfold drops. destruct (VALID_ADDR g); [|done]. induction H as [|i i' us us' (H1 & _) _ IH]; [done|].
  cbn. by rewrite H1, IH.
Qed.
Lemma joins_same us us' g : Forall2 same_kind us us' -> joins us' g = joins us g.
Proof.
  intros H. unfold joins. destruct (VALID_ADDR g); [|done]. induction H as [|i i' us us' (H1 & H2 & _) _ IH]; [done|].
  rewrite !fmap_cons. cbn. by rewrite H1, H2, IH.
Qed.
Lemma forwarding_same us us' g index : Forall2 same_kind us us' -> forwarding us' g index = forwarding us g index.
Proof.
  intros H. unfold forwarding. destruct (VALID_ADDR g); [|done]. induction H as [|i i' us us' (_ & _ & H3 & _) _ IH]; [done|].
  rewrite !fmap_cons, H3. f_equal. exact IH.
Qed.
Lemma ups_same ifs ifs' : Forall2 same_kind ifs ifs' -> Forall2 same_kind (ups ifs) (ups ifs').
Proof.
  intros H. unfold ups. induction H as [|i i' ifs ifs' (H1 & H2 & H3 & H4) _ IH]; [constructor|]. rewrite !filter_cons, H4.
  destruct (decide (igmpi_type i = UPSTREAM)); [|done]. constructor; [by split|done].
Qed.
Lemma same_kind_fmap (f : igmp_interface_t -> igmp_interface_t) ifs : (forall i, same_kind i (f i)) -> Forall2 same_kind ifs (f <$> ifs).
Proof. intros H. induction ifs; constructor; auto. Qed.
Lemma same_kind_alter (f : igmp_interface_t -> igmp_interface_t) j ifs : (forall i, same_kind i (f i)) -> Forall2 same_kind ifs (alter f j ifs).
Proof.
  intros H. revert j. induction ifs as [|i ifs IH]; intros [|j]; cbn; constructor; auto; done.
Qed.

Lemma concat_nil {A B} (l : list A) : concat ((fun _ => @nil B) <$> l) = [].
Proof. by induction l. Qed.
Lemma concat_single {A B} (f : A -> B) l : concat ((fun i => [f i]) <$> l) = f <$> l.
Proof. induction l as [|i l IH]; [done|]. cbn. by rewrite <- IH. Qed.
Lemma concat_ups {A} (f : igmp_interface_t -> list A) ifs :
  concat ((fun i => if decide (igmpi_type i = UPSTREAM) then f i else []) <$> ifs) = concat (f <$> ups ifs).
Proof.
  unfold ups. induction ifs as [|i ifs IH]; [done|]. rewrite fmap_cons, filter_cons. cbn [concat].
  destruct (decide (igmpi_type i = UPSTREAM)); cbn; by rewrite IH.
Qed.

Lemma filter_all {A} (P : A -> Prop) `{!forall x, Decision (P x)} l : Forall P l -> filter P l = l.
Proof. induction 1 as [|x l Hx _ IH]; [done|]. rewrite filter_cons, decide_True by done. by f_equal. Qed.
Lemma filter_none {A} (P : A -> Prop) `{!forall x, Decision (P x)} l : Forall (fun x => ~ P x) l -> filter P l = [].
Proof. induction 1 as [|x l Hx _ IH]; [done|]. by rewrite filter_cons, decide_False by done. Qed.

Section with_env.
Context `{E : IgmpEnv}.

Lemma get_if_run j s ifp : igmprt_interfaces s !! j = Some ifp -> get_if j s = Ok ifp s.
Proof. intros H. unfold get_if. eapply run_bind; [apply gets_run|]. by apply in_bounds_run. Qed.
Lemma get_group_run j k s ifp gp : igmprt_interfaces s !! j = Some ifp -> igmpi_groups ifp !! k = Some gp -> get_group j k s = Ok gp s.
Proof. intros Hj Hk. unfold get_group. eapply run_bind; [by apply get_if_run|]. by apply in_bounds_run. Qed.
Lemma put_if_run j f s ifp : igmprt_interfaces s !! j = Some ifp ->
  exists s', put_if j f s = Ok tt s' /\ becomes (<[j := f ifp]> (igmprt_interfaces s)) (igmprt_membership_db s) [] s s'.
Proof.
  intros Hj. eexists. split; [reflexivity|]. split; [|done|by rewrite app_nil_r|done]. cbn. by rewrite (list_alter_insert _ _ _ ifp).
Qed.
Lemma put_group_run j k f s ifp gp : igmprt_interfaces s !! j = Some ifp -> igmpi_groups ifp !! k = Some gp ->
  exists s', put_group j k f s = Ok tt s'
    /\ becomes (<[j := set_igmpi_groups (<[k := f gp]> (igmpi_groups ifp)) ifp]> (igmprt_interfaces s)) (igmprt_membership_db s) [] s s'.
Proof.
  intros Hj Hk. unfold put_group. destruct (put_if_run j (fun ifp => set_igmpi_groups (alter f k (igmpi_groups ifp)) ifp) s ifp Hj) as (s' & Hr & He).
  exists s'. split; [done|]. by rewrite (list_alter_insert _ _ _ gp) in He.
Qed.
Lemma igmp_out_run o s : exists s', igmp_out o s = Ok tt s' /\ extends [o] s s'.
Proof. eexists. split; [reflexivity|]. by split. Qed.
Lemma isys_run {A} (f : nat -> A) s : exists s', isys f s = Ok (f (i_calls s)) s' /\ extends [] s s'.
Proof. eexists. split; [reflexivity|]. split; [done|done|by rewrite app_nil_r|done]. Qed.

(** ** The loop over the interfaces *)

Lemma for_each (f : igmp_interface_t -> igmp_interface_t) (o : igmp_interface_t -> list igmp_output)
    (body : nat -> igmp_interface_t -> IM unit) s :
  (forall j ifp s1, igmprt_interfaces s !! j = Some ifp -> igmprt_interfaces s1 = (f <$> take j (igmprt_interfaces s)) ++ drop j (igmprt_interfaces s) ->
     same_setup s s1 ->
     exists s2, body j ifp s1 = Ok tt s2 /\ becomes (<[j := f ifp]> (igmprt_interfaces s1)) (igmprt_membership_db s1) (o ifp) s1 s2) ->
  exists s', for_interfaces body s = Ok tt s' /\ becomes (f <$> igmprt_interfaces s) (igmprt_membership_db s) (concat (o <$> igmprt_interfaces s)) s s'.
Proof.
  intros Hbody. unfold for_interfaces. set (ifs := igmprt_interfaces s) in *.
  cut (forall n j s1, igmprt_interfaces s1 = (f <$> take j ifs) ++ drop j ifs -> same_setup s s1 -> (j + n = length ifs)%nat ->
    exists s', for_n n j (fun j => ifp ← get_if j; body j ifp) s1 = Ok tt s'
      /\ becomes (f <$> ifs) (igmprt_membership_db s1) (concat (o <$> drop j ifs)) s1 s').
  { intros H. destruct (H (length ifs) 0%nat s eq_refl (reflexivity s) eq_refl) as (s' & Hr & He). exists s'. split; [|by rewrite drop_0 in He].
    eapply run_bind; [apply gets_run|exact Hr]. }
  induction n as [|n IH]; intros j s1 Hs Hset Hj; cbn [for_n].
  { exists s1. split; [done|]. rewrite drop_ge by lia. eapply becomes_same; [..|apply becomes_refl]; [|done|done].
    rewrite Hs, drop_ge, take_ge by lia. by rewrite app_nil_r. }
  destruct (lookup_lt_is_Some_2 ifs j) as [ifp Hifp]; [lia|].
  destruct (Hbody j ifp s1 Hifp Hs Hset) as (s2 & Hr & He).
  assert (Hlen : length (f <$> take j ifs) = j) by (rewrite length_fmap, length_take; apply lookup_lt_Some in Hifp; lia).
  assert (Hs2 : igmprt_interfaces s2 = (f <$> take (S j) ifs) ++ drop (S j) ifs).
  { rewrite (bc_interfaces _ _ _ _ _ He), Hs, insert_app_r_alt by lia. rewrite Hlen, Nat.sub_diag, (drop_S _ _ _ Hifp). cbn.
    by rewrite (take_S_r _ _ _ Hifp), fmap_app, <- app_assoc. }
  destruct (IH (S j) s2 Hs2 ltac:(etransitivity; [exact Hset|apply He]) ltac:(lia)) as (s3 & Hr3 & He3). exists s3. split.
  - eapply run_bind; [|exact Hr3]. eapply run_bind; [|exact Hr]. apply get_if_run. rewrite Hs, lookup_app_r by lia.
    rewrite Hlen, Nat.sub_diag, (drop_S _ _ _ Hifp). done.
  - rewrite (drop_S _ _ _ Hifp). cbn. rewrite (bc_db _ _ _ _ _ He) in He3. by eapply becomes_trans.
Qed.

(** A loop that leaves the interfaces alone. *)
Lemma for_quiet (o : igmp_interface_t -> list igmp_output) (body : nat -> igmp_interface_t -> IM unit) s :
  (forall j ifp s1, igmprt_interfaces s !! j = Some ifp -> igmprt_interfaces s1 = igmprt_interfaces s -> same_setup s s1 ->
     exists s2, body j ifp s1 = Ok tt s2 /\ extends (o ifp) s1 s2) ->
  exists s', for_interfaces body s = Ok tt s' /\ extends (concat (o <$> igmprt_interfaces s)) s s'.
Proof.
  intros Hbody. destruct (for_each id o body s) as (s' & Hr & He).
  - intros j ifp s1 Hj Hs Hset. rewrite list_fmap_id, take_drop in Hs. destruct (Hbody j ifp s1 Hj Hs Hset) as (s2 & Hr & He). exists s2. split; [done|].
    eapply becomes_same; [..|exact He]; [|done|done]. symmetry. apply list_insert_id. by rewrite Hs.
  - exists s'. split; [done|]. by rewrite list_fmap_id in He.
Qed.

(** ** The groups *)

Section allocator.
Hypothesis Hmalloc : forall n, ienv_malloc n = true.
Hypothesis Hfreed : forall n, ienv_freed n = true.

Lemma drop_upstream_run g s :
  exists s', drop_upstream g s = Ok tt s' /\ extends (drops (ups (igmprt_interfaces s)) g) s s'.
Proof.
  destruct (for_quiet (fun i => if decide (igmpi_type i = UPSTREAM) then (if VALID_ADDR g then [Drop g (igmpi_addr i)] else []) else [])
    (fun _ ifp => when (bool_decide (igmpi_type ifp = UPSTREAM) && VALID_ADDR g) (igmp_out (Drop g (igmpi_addr ifp));; isys ienv_sockopt;; mret tt)) s)
    as (s' & Hr & He).
  { intros j ifp s1 _ _ _. destruct (decide (igmpi_type ifp = UPSTREAM)) as [Hu|Hu].
    - rewrite bool_decide_true by done. cbn [andb]. destruct (VALID_ADDR g); cbn [when].
      + eexists. split; [reflexivity|]. by split.
      + exists s1. split; [done|apply becomes_refl].
    - rewrite bool_decide_false by done. exists s1. split; [done|apply becomes_refl]. }
  exists s'. split; [exact Hr|]. rewrite concat_ups in He. unfold drops. destruct (VALID_ADDR g); [by rewrite concat_single in He|].
  by rewrite concat_nil in He.
Qed.

Lemma run_forward_run insert name group s :
  (String.length name < 16)%nat -> exists s', run_forward insert name group s = Ok tt s' /\ extends [Forward insert name group] s s'.
Proof.
  intros Hn. unfold run_forward. rewrite decide_True; [apply igmp_out_run|].
  unfold forward_cmd. rewrite !string_length_app. pose proof (inet_ntoa_length group). destruct insert; cbn; unfold CLI_MAX_BUF_SZ; lia.
Qed.

Definition short_names (s : igmp_router) : Prop := (String.length (first_name s) < 16)%nat.

Lemma igmp_group_cleanup_run j k s ifp gp :
  igmprt_interfaces s !! j = Some ifp -> igmpi_groups ifp !! k = Some gp -> short_names s ->
  exists s', igmp_group_cleanup j k s = Ok tt s'
    /\ becomes (<[j := set_igmpi_groups (delete k (igmpi_groups ifp)) ifp]> (igmprt_interfaces s)) (igmprt_membership_db s)
         [Forward false (first_name s) (igmpg_addr gp)] s s'.
Proof.
  intros Hj Hk Hn. destruct (run_forward_run false (first_name s) (igmpg_addr gp) s Hn) as (s1 & Hr & He).
  destruct (put_if_run j (fun ifp => set_igmpi_groups (delete k (igmpi_groups ifp)) ifp) s1 ifp) as (s2 & Hr2 & He2).
  { by rewrite (bc_interfaces _ _ _ _ _ He). }
  exists s2. split.
  - unfold igmp_group_cleanup. eapply run_bind; [by eapply get_group_run|]. eapply run_bind; [apply gets_run|].
    eapply run_bind; [exact Hr|exact Hr2].
  - rewrite (bc_interfaces _ _ _ _ _ He), (bc_db _ _ _ _ _ He) in He2. exact (becomes_trans _ _ _ _ _ _ _ _ _ He He2).
Qed.

Lemma freed_next_run s : exists s', freed_next s = Ok tt s' /\ extends [] s s'.
Proof.
  destruct (isys_run ienv_freed s) as (s' & Hr & He). exists s'. split; [|done]. unfold freed_next.
  eapply run_bind; [exact Hr|]. by rewrite Hfreed.
Qed.

(** ** The timers of the groups *)

Lemma first_name_same s s' : same_setup s s' -> first_name s' = first_name s.
Proof. intros (H & _). unfold first_name. by rewrite H. Qed.
Lemma short_names_same s s' : same_setup s s' -> short_names s -> short_names s'.
Proof. intros H. unfold short_names. by rewrite (first_name_same _ _ H). Qed.
Lemma same_kind_insert ifs j ifp ifp' : ifs !! j = Some ifp -> same_kind ifp ifp' -> Forall2 same_kind ifs (<[j := ifp']> ifs).
Proof.
  intros Hj Hk. rewrite <- (list_insert_id ifs j ifp Hj) at 1. apply Forall2_insert; [|done]. by apply Forall_Forall2_diag, Forall_true.
Qed.
Lemma tick_outs_same name us us' l : Forall2 same_kind us us' ->
  concat (tick_group_out name us' <$> l) = concat (tick_group_out name us <$> l).
Proof.
  intros H. f_equal. apply list_fmap_ext. intros _ g _. unfold tick_group_out. by rewrite (drops_same us us').
Qed.

(** The group at the head of the rest is removed. *)
Definition expire_group (j k : nat) (group : Z) : IM unit := igmp_group_cleanup j k;; drop_upstream group;; freed_next.
Lemma expire_bind j k group (m : IM unit) (P : res igmp_router unit -> Prop) s s' :
  expire_group j k group s = Ok tt s' -> P (m s') -> P ((igmp_group_cleanup j k;; drop_upstream group;; freed_next;; m) s).
Proof.
  unfold expire_group, mbind, M_bind. destruct (igmp_group_cleanup j k s) as [[] s1|]; [|done].
  destruct (drop_upstream group s1) as [[] s2|]; [|done]. by intros ->.
Qed.
Lemma expire_group_run j s ifp before g rest :
  igmprt_interfaces s !! j = Some ifp -> igmpi_groups ifp = before ++ g :: rest -> short_names s ->
  exists s', expire_group j (length before) (igmpg_addr g) s = Ok tt s'
    /\ becomes (<[j := set_igmpi_groups (before ++ rest) ifp]> (igmprt_interfaces s)) (igmprt_membership_db s)
         (Forward false (first_name s) (igmpg_addr g) :: drops (ups (igmprt_interfaces s)) (igmpg_addr g)) s s'.
Proof.
  intros Hj Hg Hn. destruct (igmp_group_cleanup_run j (length before) s ifp g Hj) as (s1 & Hr1 & He1); [by rewrite Hg, list_lookup_middle|done|].
  rewrite Hg, delete_middle in He1. destruct (drop_upstream_run (igmpg_addr g) s1) as (s2 & Hr2 & He2).
  destruct (freed_next_run s2) as (s3 & Hr3 & He3). exists s3. split.
  - unfold expire_group. eapply run_bind; [exact Hr1|]. eapply run_bind; [exact Hr2|exact Hr3].
  - pose proof (becomes_trans _ _ _ _ _ _ _ _ _ (becomes_trans _ _ _ _ _ _ _ _ _ He1 He2) He3) as He.
    eapply becomes_same; [..|exact He].
    + by rewrite (bc_interfaces _ _ _ _ _ He2), (bc_interfaces _ _ _ _ _ He1).
    + by rewrite (bc_db _ _ _ _ _ He2), (bc_db _ _ _ _ _ He1).
    + rewrite app_nil_r. cbn. f_equal. rewrite (bc_interfaces _ _ _ _ _ He1). apply drops_same, ups_same.
      eapply same_kind_insert; [exact Hj|done].
Qed.

Lemma tick_group_out_eq name us g :
  tick_group_out name us g = match tick_group g with Some _ => [] | None => Forward false name (igmpg_addr g) :: drops us (igmpg_addr g) end.
Proof. unfold tick_group_out, expired. by destruct (tick_group g). Qed.

Lemma timer_groups_run j rest : forall fuel before s ifp,
  igmprt_interfaces s !! j = Some ifp -> igmpi_groups ifp = before ++ rest -> (length rest < fuel)%nat -> short_names s ->
  exists s', timer_groups fuel j (length before) s = Ok tt s'
    /\ becomes (<[j := set_igmpi_groups (before ++ omap tick_group rest) ifp]> (igmprt_interfaces s)) (igmprt_membership_db s)
         (concat (tick_group_out (first_name s) (ups (igmprt_interfaces s)) <$> rest)) s s'.
Proof.
  induction rest as [|g rest IH]; intros fuel before s ifp Hj Hg Hf Hn; (destruct fuel as [|fuel]; [cbn in Hf; lia|]); cbn [timer_groups].
  { exists s. split.
    - eapply run_bind; [by apply get_if_run|]. cbn. rewrite Hg, app_nil_r, lookup_ge_None_2 by lia. done.
    - eapply becomes_same; [..|apply becomes_refl]; [|done|done]. cbn. rewrite <- Hg. symmetry. apply list_insert_id. rewrite Hj. by destruct ifp. }
  cbn in Hf. assert (Hk : igmpi_groups ifp !! length before = Some g) by (by rewrite Hg, list_lookup_middle).
  assert (Hstep : forall t s1, igmprt_interfaces s1 = <[j := set_igmpi_groups (before ++ t ++ rest) ifp]> (igmprt_interfaces s) -> same_setup s s1 ->
    exists s', timer_groups fuel j (length (before ++ t)) s1 = Ok tt s'
      /\ becomes (<[j := set_igmpi_groups ((before ++ t) ++ omap tick_group rest) ifp]> (igmprt_interfaces s)) (igmprt_membership_db s1)
           (concat (tick_group_out (first_name s) (ups (igmprt_interfaces s)) <$> rest)) s1 s').
  { intros t s1 H1 Hset. destruct (IH fuel (before ++ t) s1 (set_igmpi_groups (before ++ t ++ rest) ifp)) as (s' & Hr & He).
    - rewrite H1. apply list_lookup_insert_eq. by eapply lookup_lt_Some.
    - cbn. by rewrite app_assoc.
    - lia.
    - by eapply short_names_same.
    - exists s'. split; [done|]. rewrite H1, list_insert_insert_eq, (first_name_same _ _ Hset) in He.
      erewrite tick_outs_same in He; [exact He|]. apply ups_same. eapply same_kind_insert; [exact Hj|done]. }
  cbn [omap list_omap]. rewrite fmap_cons. cbn [concat].
  destruct (igmpg_addr g =? IGMP_ALL_ROUTERS) eqn:Hall.
  - assert (Htick : tick_group g = Some g) by (unfold tick_group; by rewrite Hall). rewrite Htick.
    destruct (Hstep [g] s) as (s' & Hr & He); [|done|].
    { symmetry. apply list_insert_id. rewrite Hj. cbn. rewrite <- Hg. by destruct ifp. }
    exists s'. split.
    + eapply run_bind; [by apply get_if_run|]. rewrite Hk, Hall. rewrite length_app, Nat.add_1_r in Hr. exact Hr.
    + rewrite <- app_assoc in He. rewrite (tick_group_out_eq _ _ g), Htick. exact He.
  - set (t := if 0 <? igmpg_timer g then igmpg_timer g - 1 else igmpg_timer g).
    destruct (put_group_run j (length before) (set_igmpg_timer t) s ifp g Hj Hk) as (s1 & Hr1 & He1).
    rewrite Hg, insert_app_r_alt, Nat.sub_diag in He1 by lia. cbn [list_insert insert] in He1.
    assert (Htick : tick_group g = if t =? 0 then None else Some (set_igmpg_timer t g)) by (unfold tick_group; by rewrite Hall).
    rewrite (tick_group_out_eq _ _ g), Htick. destruct (t =? 0) eqn:Ht.
    + destruct (expire_group_run j s1 (set_igmpi_groups (before ++ set_igmpg_timer t g :: rest) ifp) before (set_igmpg_timer t g) rest)
        as (s2 & Hr2 & He2); [|done|by eapply short_names_same; [apply He1|]|].
      { rewrite (bc_interfaces _ _ _ _ _ He1). apply list_lookup_insert_eq. by eapply lookup_lt_Some. }
      rewrite (bc_interfaces _ _ _ _ _ He1), list_insert_insert_eq, (bc_db _ _ _ _ _ He1) in He2.
      pose proof (becomes_trans _ _ _ _ _ _ _ _ _ He1 He2) as He.
      destruct (Hstep [] s2) as (s' & Hr & He'); [apply He2|apply He|].
      rewrite (bc_db _ _ _ _ _ He), !app_nil_r in He'. exists s'. split.
      * eapply run_bind; [by apply get_if_run|]. rewrite Hk, Hall. fold t. eapply run_bind; [exact Hr1|]. rewrite Ht.
        eapply expire_bind; [exact Hr2|]. by rewrite app_nil_r in Hr.
      * eapply becomes_same; [..|exact (becomes_trans _ _ _ _ _ _ _ _ _ He He')]; [done|done|]. cbn.
        rewrite (first_name_same _ _ (bc_setup _ _ _ _ _ He1)). do 2 f_equal. apply drops_same, ups_same.
        eapply same_kind_insert; [exact Hj|done].
    + destruct (Hstep [set_igmpg_timer t g] s1) as (s' & Hr & He); [apply He1|apply He1|]. exists s'. split.
      * eapply run_bind; [by apply get_if_run|]. rewrite Hk, Hall. fold t. eapply run_bind; [exact Hr1|]. rewrite Ht.
        rewrite length_app, Nat.add_1_r in Hr. exact Hr.
      * rewrite <- app_assoc, (bc_db _ _ _ _ _ He1) in He. exact (becomes_trans _ _ _ _ _ _ _ _ _ He1 He).
Qed.

(** ** The timers of an interface *)

Lemma query_run ifp s : igmpi_version ifp = IGMP_VERSION_2 ->
  exists s', igmprt_membership_query ifp 0 s = Ok tt s' /\ extends [general_query ifp] s s'.
Proof.
  intros Hv. unfold igmprt_membership_query. rewrite Hv. change (IGMP_VERSION_2 =? IGMP_VERSION_1) with false.
  change (IGMP_VERSION_2 =? IGMP_VERSION_2) with true. cbv beta iota zeta. apply igmp_out_run.
Qed.

Lemma tick_querier_run j s ifp :
  igmprt_interfaces s !! j = Some ifp -> interface_ok ifp ->
  exists s', (if igmpi_isquerier ifp then
                put_if j (set_igmpi_ti_qi (igmpi_ti_qi ifp - 1));;
                when (igmpi_ti_qi ifp - 1 <=? 0) (put_if j (set_igmpi_ti_qi (igmpi_qi ifp));; igmprt_membership_query ifp 0)
              else igmprt_timer_querier j) s = Ok tt s'
    /\ becomes (<[j := tick_querier ifp]> (igmprt_interfaces s)) (igmprt_membership_db s)
         (if query_due ifp then [general_query ifp] else []) s s'.
Proof.
  intros Hj Hok. pose proof (lookup_lt_Some _ _ _ Hj) as Hlt. unfold tick_querier, query_due. destruct (igmpi_isquerier ifp) eqn:Hq; cbn [andb].
  - destruct (put_if_run j (set_igmpi_ti_qi (igmpi_ti_qi ifp - 1)) s ifp Hj) as (s1 & Hr1 & He1).
    destruct (igmpi_ti_qi ifp - 1 <=? 0).
    + destruct (put_if_run j (set_igmpi_ti_qi (igmpi_qi ifp)) s1 (set_igmpi_ti_qi (igmpi_ti_qi ifp - 1) ifp)) as (s2 & Hr2 & He2).
      { rewrite (bc_interfaces _ _ _ _ _ He1). by apply list_lookup_insert_eq. }
      rewrite (bc_interfaces _ _ _ _ _ He1), list_insert_insert_eq, (bc_db _ _ _ _ _ He1) in He2.
      destruct (query_run ifp s2) as (s3 & Hr3 & He3); [apply Hok|].
      rewrite (bc_interfaces _ _ _ _ _ He2), (bc_db _ _ _ _ _ He2) in He3. exists s3. split.
      * eapply run_bind; [exact Hr1|]. cbn [when]. eapply run_bind; [exact Hr2|exact Hr3].
      * exact (becomes_trans _ _ _ _ _ _ _ _ _ (becomes_trans _ _ _ _ _ _ _ _ _ He1 He2) He3).
    + exists s1. split; [|exact He1]. eapply run_bind; [exact Hr1|done].
  - destruct (io_other _ Hok Hq) as (o & Ho & Hpos). rewrite Ho. assert (Hlt0 : (0 <? o) = true) by lia. rewrite Hlt0.
    destruct (put_if_run j (set_igmpi_oqp (Some (o - 1))) s ifp Hj) as (s1 & Hr1 & He1).
    assert (Hrun : igmprt_timer_querier j s = when (o - 1 =? 0) (put_if j (set_igmpi_isquerier true)) s1).
    { unfold igmprt_timer_querier. eapply run_bind; [by apply get_if_run|]. rewrite Ho, Hlt0. eapply run_bind; [exact Hr1|done]. }
    rewrite Hrun. destruct (o - 1 =? 0); cbn [when].
    + destruct (put_if_run j (set_igmpi_isquerier true) s1 (set_igmpi_oqp (Some (o - 1)) ifp)) as (s2 & Hr2 & He2).
      { rewrite (bc_interfaces _ _ _ _ _ He1). by apply list_lookup_insert_eq. }
      rewrite (bc_interfaces _ _ _ _ _ He1), list_insert_insert_eq, (bc_db _ _ _ _ _ He1) in He2.
      exists s2. split; [done|]. exact (becomes_trans _ _ _ _ _ _ _ _ _ He1 He2).
    + exists s1. split; [done|]. eapply becomes_same; [..|exact He1]; [|done|done]. f_equal. unfold set_igmpi_isquerier, set_igmpi_oqp. cbn. by rewrite Hq.
Qed.

Lemma tick_querier_kind i : same_kind i (tick_querier i).
Proof. unfold tick_querier. destruct (igmpi_isquerier i); [done|]. by destruct (igmpi_oqp i). Qed.
Lemma tick_if_kind i : same_kind i (tick_if i).
Proof. unfold tick_if. case_decide; [|done]. etransitivity; [apply tick_querier_kind|done]. Qed.
Lemma tick_querier_groups i : igmpi_groups (tick_querier i) = igmpi_groups i.
Proof. unfold tick_querier. destruct (igmpi_isquerier i); [done|]. by destruct (igmpi_oqp i). Qed.

Lemma timer_interface_run j s ifp :
  igmprt_interfaces s !! j = Some ifp -> interface_ok ifp -> short_names s ->
  exists s', timer_interface j ifp s = Ok tt s'
    /\ becomes (<[j := tick_if ifp]> (igmprt_interfaces s)) (igmprt_membership_db s)
         (tick_if_out (first_name s) (ups (igmprt_interfaces s)) ifp) s s'.
Proof.
  intros Hj Hok Hn. unfold timer_interface, tick_if, tick_if_out. case_decide as Hd.
  2: { rewrite bool_decide_false by done. exists s. split; [done|]. eapply becomes_same; [..|apply becomes_refl]; [|done|done].
       symmetry. by apply list_insert_id. }
  rewrite bool_decide_true by done. cbn [when].
  destruct (tick_querier_run j s ifp Hj Hok) as (s1 & Hr1 & He1).
  assert (Hj1 : igmprt_interfaces s1 !! j = Some (tick_querier ifp)).
  { rewrite (bc_interfaces _ _ _ _ _ He1). apply list_lookup_insert_eq. by eapply lookup_lt_Some. }
  destruct (timer_groups_run j (igmpi_groups ifp) (S (length (igmpi_groups ifp))) [] s1 (tick_querier ifp)) as (s2 & Hr2 & He2);
    [done|by rewrite tick_querier_groups|lia|eapply short_names_same; [apply He1|done]|].
  exists s2. split.
  - eapply run_bind; [exact Hr1|]. unfold igmprt_timer_group. eapply run_bind; [by apply get_if_run|]. rewrite tick_querier_groups. exact Hr2.
  - rewrite (bc_interfaces _ _ _ _ _ He1), list_insert_insert_eq, (bc_db _ _ _ _ _ He1) in He2.
    eapply becomes_same; [..|exact (becomes_trans _ _ _ _ _ _ _ _ _ He1 He2)]; [done|done|]. f_equal.
    rewrite (first_name_same _ _ (bc_setup _ _ _ _ _ He1)). apply tick_outs_same, ups_same. eapply same_kind_insert; [exact Hj|apply tick_querier_kind].
Qed.

Lemma tick_if_out_same name us us' i : Forall2 same_kind us us' -> tick_if_out name us' i = tick_if_out name us i.
Proof. intros H. unfold tick_if_out. case_decide; [|done]. f_equal. by apply tick_outs_same. Qed.

Lemma router_short s : router_ok s -> short_names s.
Proof.
  intros Hok. unfold short_names, first_name. destruct (upstream_interface s !! 0%nat) as [n|] eqn:E0; [|cbn; lia].
  pose proof (Forall_lookup_1 _ _ _ _ (ro_names _ Hok) E0) as H. cbn in *. lia.
Qed.

Lemma igmprt_timer_run s : router_ok s ->
  exists s', igmprt_timer s = Ok tt s'
    /\ becomes (tick_if <$> igmprt_interfaces s) (igmprt_membership_db s)
         (concat (tick_if_out (first_name s) (ups (igmprt_interfaces s)) <$> igmprt_interfaces s)) s s'.
Proof.
  intros Hok. apply for_each. intros j ifp s1 Hj Hs Hset.
  assert (Hkind : Forall2 same_kind (igmprt_interfaces s) (igmprt_interfaces s1)).
  { rewrite Hs. rewrite <- (take_drop j (igmprt_interfaces s)) at 1. apply Forall2_app; [apply same_kind_fmap, tick_if_kind|].
    by apply Forall_Forall2_diag, Forall_true. }
  assert (Hj1 : igmprt_interfaces s1 !! j = Some ifp).
  { pose proof (lookup_lt_Some _ _ _ Hj). rewrite Hs, lookup_app_r by (rewrite length_fmap, length_take; lia).
    rewrite length_fmap, length_take, Nat.min_l, Nat.sub_diag, (drop_S _ _ _ Hj) by lia. done. }
  destruct (timer_interface_run j s1 ifp Hj1) as (s2 & Hr & He).
  - exact (Forall_lookup_1 _ _ _ _ (ro_interfaces _ Hok) Hj).
  - eapply short_names_same; [exact Hset|by apply router_short].
  - exists s2. split; [done|]. eapply becomes_same; [..|exact He]; [done|done|]. rewrite (first_name_same _ _ Hset). by apply tick_if_out_same, ups_same.
Qed.
End allocator.
End with_env.
