(* ===== verification/IgmpInvariant.v ===== *)
(** * IgmpInvariant: the tables of the IGMP proxy stay well formed

    Each abstract step of IgmpSpec keeps [interface_ok]: the groups of an
    interface are distinct multicast addresses with members and a running timer. *)

From S2P Require Import Prelude DhcpTypes IgmpTypes IgmpProxy IgmpSpec IgmpLemmas.

(** ** Lists *)

Lemma Forall_omap {A B} (P : A -> Prop) (Q : B -> Prop) (f : A -> option B) l :
  Forall P l -> (forall x y, P x -> f x = Some y -> Q y) -> Forall Q (omap f l).
Proof. intros H Hf. induction H as [|x l Hx _ IH]; cbn; [done|]. destruct (f x) eqn:E0; eauto. Qed.
Lemma NoDup_omap {A B} (key : A -> Z) (key' : B -> Z) (f : A -> option B) l :
  (forall x y, f x = Some y -> key' y = key x) -> NoDup (key <$> l) -> NoDup (key' <$> omap f l).
Proof.
  intros Hf. induction l as [|x l IH]; intros Hn; [done|]. apply NoDup_cons in Hn as [Hx Hn]. cbn.
  destruct (f x) as [y|] eqn:E0; [|by apply IH]. cbn. apply NoDup_cons. split; [|by apply IH].
  rewrite (Hf _ _ E0). intros Hin. apply Hx. apply list_elem_of_fmap in Hin as (z & Hz & Hin).
  apply list_elem_of_omap in Hin as (w & Hw & Hfw). rewrite Hz, (Hf _ _ Hfw). by apply list_elem_of_fmap_2.
Qed.
Lemma Forall_alter_lookup {A} (P : A -> Prop) (f : A -> A) l i : Forall P l -> (forall x, l !! i = Some x -> P x -> P (f x)) -> Forall P (alter f i l).
Proof.
  intros H Hf. apply Forall_lookup_2. intros k x Hk. rewrite Forall_lookup in H. destruct (decide (i = k)) as [<-|Hne].
  - rewrite list_lookup_alter_eq in Hk. destruct (l !! i) as [y|] eqn:E0; [|done]. injection Hk as <-. eauto.
  - rewrite list_lookup_alter_ne in Hk by done. by eapply H.
Qed.

(** ** The steps *)

Lemma tick_group_addr g g' : tick_group g = Some g' -> igmpg_addr g' = igmpg_addr g.
Proof. unfold tick_group. destruct (_ =? _); [by intros [= <-]|]. destruct (_ =? 0); [done|by intros [= <-]]. Qed.
Lemma tick_group_ok g g' : group_ok g -> tick_group g = Some g' -> group_ok g'.
Proof.
  intros [H1 H2 H3 H4 H5 H6 H7]. unfold tick_group. destruct (_ =? IGMP_ALL_ROUTERS); [by intros [= <-]|].
  destruct (0 <? igmpg_timer g) eqn:Hp; [|lia]. destruct (igmpg_timer g - 1 =? 0) eqn:Hz; [done|]. intros [= <-].
  apply Z.eqb_neq in Hz. split; try done. cbn. lia.
Qed.

Lemma with_groups_ok i gs : interface_ok i -> (igmpi_type i = UPSTREAM -> gs = []) -> Forall group_ok gs -> NoDup (igmpg_addr <$> gs) ->
  interface_ok (set_igmpi_groups gs i).
Proof. intros [] Hu Hg Hn. by split. Qed.

Lemma tick_querier_ok i : interface_ok i -> interface_ok (tick_querier i).
Proof.
  intros Hi. pose proof (io_ti_qi _ Hi) as Ht. pose proof (io_qi _ Hi) as Hqi. pose proof (io_other _ Hi) as Ho. unfold IGMP_DEF_QI in *.
  unfold tick_querier. destruct (igmpi_isquerier i) eqn:Hq.
  - destruct Hi. split; try done. cbn. destruct (_ <=? 0) eqn:Hz; unfold IGMP_DEF_QI; [lia|]. apply Z.leb_gt in Hz. lia.
  - destruct (Ho eq_refl) as (o & Hoq & Hr). rewrite Hoq. destruct (0 <? o) eqn:Hp; [|lia]. destruct Hi. split; try done. cbn.
    intros Hz. apply Z.eqb_neq in Hz. exists (o - 1). split; [done|lia].
Qed.
Lemma tick_if_ok i : interface_ok i -> interface_ok (tick_if i).
Proof.
  intros Hi. unfold tick_if. case_decide as Hd; [|done]. apply with_groups_ok.
  - by apply tick_querier_ok.
  - intros Hu. pose proof (tick_querier_kind i) as (_ & _ & _ & Hk). congruence.
  - eapply Forall_omap; [apply Hi|]. intros g g' Hg. by apply tick_group_ok.
  - eapply NoDup_omap; [|apply Hi]. apply tick_group_addr.
Qed.

Lemma report_group_ok src g : IN_MULTICAST (igmpg_addr g) = true -> igmpg_version g = IGMP_VERSION_2 -> igmpg_sources g = [] ->
  NoDup (igmpg_members g) -> group_ok (report_group src g).
Proof.
  intros Ha Hv Hs Hn. split; try done; cbn.
  - case_decide as Hin; [|done]. intros Hnil. rewrite Hnil in Hin. by apply elem_of_nil in Hin.
  - case_decide; [done|]. by apply NoDup_cons.
Qed.
Lemma report_if_ok src group i : interface_ok i -> igmpi_type i = DOWNSTREAM -> IN_MULTICAST group = true -> interface_ok (report_if src group i).
Proof.
  intros Hi Hd Hm. unfold report_if. apply with_groups_ok; [done|by rewrite Hd| |].
  - case_decide.
    + apply Forall_fmap, (Forall_weaken group_ok); [apply Hi|]. intros g Hg. cbn. destruct (_ =? group); [|done].
      apply report_group_ok; apply Hg.
    + constructor; [|apply Hi]. apply report_group_ok; try done. constructor.
  - case_decide as Hh.
    + rewrite <- list_fmap_compose. erewrite (list_fmap_ext _ igmpg_addr); [apply Hi|]. intros k g _. cbn. by destruct (_ =? group).
    + cbn. apply NoDup_cons. split; [exact Hh|apply Hi].
Qed.

Lemma leave_group_addr src group g g' : leave_group src group g = Some g' -> igmpg_addr g' = igmpg_addr g.
Proof. unfold leave_group. destruct (_ =? _); [|by intros [= <-]]. destruct (filter _ _); [done|by intros [= <-]]. Qed.
Lemma leave_group_ok src group g g' : group_ok g -> leave_group src group g = Some g' -> group_ok g'.
Proof.
  intros [H1 H2 H3 H4 H5 H6 H7]. unfold leave_group. destruct (_ =? _); [|by intros [= <-]].
  destruct (filter (.≠ src) (igmpg_members g)) as [|m l] eqn:Hf; [done|]. intros [= <-]. split; try done. cbn. rewrite <- Hf. by apply NoDup_filter.
Qed.
Lemma leave_if_ok src group i : interface_ok i -> interface_ok (leave_if src group i).
Proof.
  intros Hi. unfold leave_if. case_decide as Hd; [|done]. apply with_groups_ok; [done|by rewrite Hd| |].
  - eapply Forall_omap; [apply Hi|]. intros g g' Hg. by apply leave_group_ok.
  - eapply NoDup_omap; [|apply Hi]. apply leave_group_addr.
Qed.

(** The events that the code can hear. *)
Definition heard_ok (ifs : list igmp_interface_t) (e : heard) : Prop :=
  match e with
  | Reported i src group => IN_MULTICAST group = true /\ exists ifp, ifs !! i = Some ifp /\ igmpi_type ifp = DOWNSTREAM
  | Left src group => IN_MULTICAST group = true
  | _ => True
  end.

Lemma apply_heard_ok d e ifs : heard_ok ifs e -> Forall interface_ok ifs -> Forall interface_ok (apply_heard d e ifs).
Proof.
  intros He Hok. destruct e as [|i src group|src group|i src|]; cbn in *.
  - done.
  - destruct He as (Hm & ifp & Hi & Hd). apply Forall_alter_lookup; [done|]. intros i' Hi' H'. rewrite Hi in Hi'. injection Hi' as <-. by apply report_if_ok.
  - apply Forall_fmap. apply (Forall_weaken interface_ok); [done|]. intros i Hi. by apply leave_if_ok.
  - apply Forall_alter_lookup; [done|]. intros ifp _ Hi. destruct (src <? igmpi_addr ifp); [|done]. destruct Hi. split; try done.
    intros _. exists IGMP_OQPI. split; [done|]. done.
  - destruct d as [d|]; [|done]. apply Forall_alter_lookup; [done|]. intros ifp _ Hi. destruct Hi. split; try done.
Qed.
Lemma heard_db_ok e db : Forall entry_ok db -> Forall entry_ok (heard_db e db).
Proof.
  intros Hdb. destruct e as [|i src group|src group|i src|]; cbn; try done. unfold report_db. case_decide; [done|]. constructor; [|done]. done.
Qed.

(** The router after a step. *)
Lemma same_kind_addrs ifs ifs' : Forall2 same_kind ifs ifs' -> igmpi_addr <$> ifs' = igmpi_addr <$> ifs.
Proof. induction 1 as [|i i' ifs ifs' (H1 & _) _ IH]; [done|]. cbn. by rewrite H1, IH. Qed.
Lemma find_type_same ifs ifs' t : Forall2 same_kind ifs ifs' ->
  fst <$> list_find (fun i => igmpi_type i = t) ifs' = fst <$> list_find (fun i => igmpi_type i = t) ifs.
Proof.
  induction 1 as [|i i' ifs ifs' (_ & _ & _ & H4) _ IH]; [done|]. cbn [list_find]. rewrite H4. destruct (decide (igmpi_type i = t)); [done|].
  destruct (list_find _ ifs) as [[]|], (list_find _ ifs') as [[]|]; cbn in *; congruence.
Qed.
Lemma router_ok_becomes ifs db outs s s' :
  router_ok s -> becomes ifs db outs s s' -> Forall2 same_kind (igmprt_interfaces s) ifs -> Forall interface_ok ifs -> Forall entry_ok db -> router_ok s'.
Proof.
  intros [H1 H2 H3 H4 H5 H6] [B1 B2 B3 (B4 & B5 & B6)] Hk Hi Hd. split.
  - by rewrite B1.
  - by rewrite B1, (same_kind_addrs _ _ Hk).
  - by rewrite B2.
  - by rewrite B4.
  - rewrite B5, H5, B1. symmetry. by apply find_type_same.
  - by rewrite B6.
Qed.
