(* ===== verification/IgmpHosts.v ===== *)
(** * IgmpHosts: runs of the messages of the hosts (igmprt.c, proxy.c)

    A report and a leave compute the functions of IgmpSpec on the tables, and ask
    of the kernel what it lists. *)

From S2P Require Import Prelude DhcpTypes DhcpLeases IgmpTypes IgmpProxy IgmpRouter IgmpSpec IgmpLemmas.

(** ** Lists *)

(** The element found is the only one of its kind. *)
Lemma unique_key_insert {A} (key : A -> Z) (l : list A) k x (f : A -> A) :
  NoDup (key <$> l) -> l !! k = Some x -> <[k := f x]> l = (fun y => if key y =? key x then f y else y) <$> l.
Proof.
  revert k. induction l as [|y l IH]; intros [|k] Hn Hk; try done; cbn in *; apply NoDup_cons in Hn as [Hy Hn].
  - injection Hk as ->. rewrite Z.eqb_refl. f_equal. symmetry. rewrite <- (list_fmap_id l) at 2. apply list_fmap_ext.
    intros i z Hz. destruct (key z =? key x) eqn:E0; [|done]. apply Z.eqb_eq in E0. exfalso. apply Hy. rewrite <- E0.
    by apply list_elem_of_fmap_2, (list_elem_of_lookup_2 _ i).
  - f_equal; [|by apply IH]. destruct (key y =? key x) eqn:E0; [|done]. apply Z.eqb_eq in E0. exfalso. apply Hy. rewrite E0.
    by apply list_elem_of_fmap_2, (list_elem_of_lookup_2 _ k).
Qed.
Lemma delete_found (l : list Z) x :
  NoDup l -> match list_find (fun a => a = x) l with Some (i, _) => delete i l | None => l end = filter (.≠ x) l.
Proof.
  induction l as [|y l IH]; intros Hn; [done|]. apply NoDup_cons in Hn as [Hy Hn]. rewrite filter_cons. cbn [list_find].
  destruct (decide (y = x)) as [->|Hne]; cbn -[filter].
  - rewrite decide_False by naive_solver. symmetry. apply filter_all, Forall_forall. intros z Hz ->. done.
  - rewrite decide_True by done. rewrite <- (IH Hn). clear IH. by destruct (list_find _ l) as [[i z]|].
Qed.
Lemma find_key {A} (key : A -> Z) (l : list A) x :
  match list_find (fun a => key a = x) l with
  | Some (k, a) => l !! k = Some a /\ key a = x
  | None => x ∉ (key <$> l)
  end.
Proof.
  destruct (list_find _ l) as [[k a]|] eqn:E0; [by apply list_find_Some in E0 as (?&?&_)|].
  apply list_find_None in E0. rewrite list_elem_of_fmap. intros (y & -> & Hy). rewrite Forall_forall in E0. by apply (E0 y).
Qed.

Section with_env.
Context `{E : IgmpEnv}.
Hypothesis Hmalloc : forall n, ienv_malloc n = true.
Hypothesis Hfreed : forall n, ienv_freed n = true.

(** ** The database and the forwarding entries *)

Lemma merge_nothing m s : entry_ok m -> merge_membership IGMP_FMODE_EXCLUDE [] m s = Ok m s.
Proof.
  intros [Hf Hn]. unfold merge_membership. rewrite Hf, Hn. destruct m as [g f n l]. cbn in *. by subst.
Qed.
Lemma update_multi_run group s : Forall entry_ok (igmprt_membership_db s) ->
  exists s', update_multi group IGMP_FMODE_EXCLUDE [] s = Ok tt s'
    /\ becomes (igmprt_interfaces s) (report_db group (igmprt_membership_db s)) [] s s'.
Proof.
  intros Hdb. unfold update_multi, find_membership, report_db. pose proof (find_key md_group (igmprt_membership_db s) group) as Hfind.
  destruct (list_find _ _) as [[k m]|] eqn:E0.
  - destruct Hfind as [Hk <-]. rewrite decide_True by (by apply list_elem_of_fmap_2, (list_elem_of_lookup_2 _ k)).
    exists (set_igmprt_membership_db (<[k := m]> (igmprt_membership_db s)) s). split.
    + eapply run_bind; [apply gets_run|]. rewrite E0. cbn. eapply run_bind; [by apply in_bounds_run|].
      eapply run_bind; [apply merge_nothing, (Forall_lookup_1 _ _ _ _ Hdb Hk)|done].
    + split; [done| |by rewrite app_nil_r|done]. cbn. by apply list_insert_id.
  - rewrite decide_False by done. destruct (isys_run ienv_malloc s) as (s1 & Hr1 & He1).
    set (m := MembershipDb group IGMP_FMODE_EXCLUDE 0 (replicate MAX_ADDRS None)).
    exists (set_igmprt_membership_db (m :: igmprt_membership_db s1) s1). split.
    + assert (Hnew : create_membership group IGMP_FMODE_EXCLUDE [] s = Ok (Some m) s1).
      { unfold create_membership. eapply run_bind; [exact Hr1|]. by rewrite Hmalloc. }
      eapply run_bind; [apply gets_run|]. rewrite E0. cbn [fmap option_fmap option_map]. eapply run_bind; [exact Hnew|done].
    + destruct He1 as [H1 H2 H3 H4]. split; [done|cbn; by rewrite H2|done|done].
Qed.

Definition mfc_of (group : Z) (ttls : list Z) (u : igmp_interface_t) : igmp_output := Mfc_add 0 group (igmpi_index u) ttls.
Lemma chg_mfc_loop_run group outvif T n : forall j ttls s,
  store [u8 1] ttls outvif = Some T -> store [u8 1] T outvif = Some T -> (j + n = length (igmprt_interfaces s))%nat ->
  exists b k s', chg_mfc_loop n j ttls 0 group outvif 1 s = Ok b s'
    /\ extends (take k (mfc_of group T <$> ups (drop j (igmprt_interfaces s)))) s s'.
Proof.
  induction n as [|n IH]; intros j ttls s Ht HT Hn; cbn [chg_mfc_loop].
  { exists true, 0%nat, s. split; [done|apply becomes_refl]. }
  destruct (lookup_lt_is_Some_2 (igmprt_interfaces s) j) as [ifp Hifp]; [lia|].
  rewrite (drop_S _ _ _ Hifp). unfold ups. rewrite filter_cons. fold (ups (drop (S j) (igmprt_interfaces s))).
  destruct (decide (igmpi_type ifp = UPSTREAM)) as [Hu|Hu].
  - destruct (igmp_out_run (Mfc_add 0 group (igmpi_index ifp) T) s) as (s1 & Hr1 & He1).
    destruct (isys_run ienv_sockopt s1) as (s2 & Hr2 & He2). pose proof (extends_trans _ _ _ _ _ He1 He2) as He.
    assert (Hrun : chg_mfc_loop (S n) j ttls 0 group outvif 1 s
                   = (if ienv_sockopt (i_calls s1) then chg_mfc_loop n (S j) T 0 group outvif 1 else mret false) s2).
    { cbn [chg_mfc_loop]. eapply run_bind; [by apply get_if_run|]. rewrite bool_decide_true by done. eapply run_bind; [by apply in_bounds_run|].
      eapply run_bind; [exact Hr1|]. eapply run_bind; [exact Hr2|done]. }
    cbn [chg_mfc_loop] in Hrun. rewrite Hrun. destruct (ienv_sockopt (i_calls s1)).
    + destruct (IH (S j) T s2 HT HT) as (b & k & s3 & Hr3 & He3); [rewrite (bc_interfaces _ _ _ _ _ He); lia|].
      rewrite (bc_interfaces _ _ _ _ _ He) in He3 at 2. exists b, (S k), s3. split; [exact Hr3|]. exact (extends_trans _ _ _ _ _ He He3).
    + exists false, 1%nat, s2. split; [done|]. cbn. rewrite take_0. exact He.
  - destruct (IH (S j) ttls s Ht HT) as (b & k & s' & Hr & He); [lia|]. exists b, k, s'. split; [|exact He].
    eapply run_bind; [by apply get_if_run|]. by rewrite bool_decide_false.
Qed.

Lemma forwarding_run group index s : 0 <= index < 32 -> VALID_ADDR group = true ->
  exists b k s', k_proxy_chg_mfc 0 group index 1 s = Ok b s' /\ extends (take k (forwarding (ups (igmprt_interfaces s)) group index)) s s'.
Proof.
  intros Hi Hv. unfold k_proxy_chg_mfc, forwarding. rewrite Hv. set (T := <[Z.to_nat index := 1]> (replicate MAXVIFS 0)).
  assert (Hst : forall l, length l = 32%nat -> store [u8 1] l index = Some (<[Z.to_nat index := 1]> l)).
  { intros l Hl. rewrite store_ok by (cbn; lia). done. }
  destruct (chg_mfc_loop_run group index T (length (igmprt_interfaces s)) 0 (replicate MAXVIFS 0) s) as (b & k & s' & Hr & He).
  - by apply Hst.
  - unfold T. rewrite Hst by (by rewrite length_insert). by rewrite list_insert_insert_eq.
  - done.
  - exists b, k, s'. rewrite drop_0 in He. split; [|exact He]. eapply run_bind; [apply gets_run|exact Hr].
Qed.

(** ** A report *)

Lemma lookup_self ifs u ifp : NoDup (igmpi_addr <$> ifs) -> ifs !! u = Some ifp ->
  exists v, list_find (fun i => igmpi_addr i = igmpi_addr ifp) ifs = Some (v, ifp) /\ ifs !! v = Some ifp.
Proof.
  intros Hn Hu. pose proof (find_key igmpi_addr ifs (igmpi_addr ifp)) as H.
  destruct (list_find _ ifs) as [[v i]|] eqn:E0.
  - destruct H as [Hv Ha]. exists v. assert (v = u) as ->; [|by rewrite Hu in Hv; injection Hv as <-].
    apply (NoDup_lookup _ v u (igmpi_addr ifp) Hn); by rewrite list_lookup_fmap, ?Hv, ?Hu; cbn; rewrite ?Ha.
  - exfalso. apply H. by apply list_elem_of_fmap_2, (list_elem_of_lookup_2 _ u).
Qed.

Lemma join_upstream_run group s u ifp :
  NoDup (igmpi_addr <$> igmprt_interfaces s) -> igmprt_interfaces s !! u = Some ifp -> igmpi_groups ifp = [] ->
  (String.length (igmpi_name ifp) < 16)%nat ->
  exists s', join_upstream group ifp s = Ok tt s'
    /\ extends (if VALID_ADDR group then [Join group (igmpi_addr ifp); Forward true (igmpi_name ifp) group] else []) s s'.
Proof.
  intros Hn Hu Hg Hname. unfold join_upstream. destruct (VALID_ADDR group); cbn [when]; [|exists s; split; [done|apply becomes_refl]].
  destruct (lookup_self _ u ifp Hn Hu) as (v & Hv & Hlook).
  destruct (igmp_out_run (Join group (igmpi_addr ifp)) s) as (s1 & Hr1 & He1).
  destruct (isys_run ienv_sockopt s1) as (s2 & Hr2 & He2).
  destruct (run_forward_run true (igmpi_name ifp) group s2 Hname) as (s3 & Hr3 & He3). exists s3. split.
  - assert (Hfound : igmprt_interface_lookup (igmpi_addr ifp) s = Ok (Some v) s).
    { unfold igmprt_interface_lookup. eapply run_bind; [apply gets_run|by rewrite Hv]. }
    eapply run_bind; [exact Hfound|]. eapply run_bind; [by apply get_if_run|]. unfold igmp_interface_group_lookup. rewrite Hg. cbn.
    eapply run_bind; [exact Hr1|]. eapply run_bind; [exact Hr2|exact Hr3].
  - exact (extends_trans _ _ _ _ _ (extends_trans _ _ _ _ _ He1 He2) He3).
Qed.

(** The upstream interfaces have no groups, so each of them joins. *)
Lemma join_all_run group s :
  NoDup (igmpi_addr <$> igmprt_interfaces s) ->
  Forall (fun i => igmpi_type i = UPSTREAM -> igmpi_groups i = [] /\ (String.length (igmpi_name i) < 16)%nat) (igmprt_interfaces s) ->
  exists s', for_interfaces (fun _ ifp => when (bool_decide (igmpi_type ifp = UPSTREAM)) (join_upstream group ifp)) s = Ok tt s'
    /\ extends (joins (ups (igmprt_interfaces s)) group) s s'.
Proof.
  intros Hn Hups.
  destruct (for_quiet (fun i => if decide (igmpi_type i = UPSTREAM)
      then (if VALID_ADDR group then [Join group (igmpi_addr i); Forward true (igmpi_name i) group] else []) else [])
    (fun _ ifp => when (bool_decide (igmpi_type ifp = UPSTREAM)) (join_upstream group ifp)) s) as (s' & Hr & He).
  - intros j ifp s1 Hj Hs Hset. destruct (decide (igmpi_type ifp = UPSTREAM)) as [Hu|Hu].
    + rewrite bool_decide_true by done. cbn [when]. destruct (Forall_lookup_1 _ _ _ _ Hups Hj Hu) as [Hg Hname].
      apply (join_upstream_run group s1 j); by rewrite ?Hs.
    + rewrite bool_decide_false by done. exists s1. split; [done|apply becomes_refl].
  - exists s'. split; [exact Hr|]. rewrite concat_ups in He. unfold joins. destruct (VALID_ADDR group); [done|]. by rewrite concat_nil in He.
Qed.
Lemma report_found src group ifp k g :
  NoDup (igmpg_addr <$> igmpi_groups ifp) -> igmpi_groups ifp !! k = Some g -> igmpg_addr g = group ->
  set_igmpi_groups (<[k := report_group src g]> (igmpi_groups ifp)) ifp = report_if src group ifp.
Proof.
  intros Hn Hk Hg. unfold report_if. rewrite decide_True.
  - rewrite (unique_key_insert igmpg_addr _ k g (report_group src)) by done. by rewrite Hg.
  - unfold holds. rewrite <- Hg. by apply list_elem_of_fmap_2, (list_elem_of_lookup_2 _ k).
Qed.

Definition added_if (group : Z) (ifp : igmp_interface_t) : igmp_interface_t :=
  if decide (holds group ifp) then ifp else set_igmpi_groups (new_group group :: igmpi_groups ifp) ifp.
Lemma group_add_run j group s ifp :
  igmprt_interfaces s !! j = Some ifp -> igmpi_type ifp = DOWNSTREAM ->
  Forall interface_ok (igmprt_interfaces s) -> NoDup (igmpi_addr <$> igmprt_interfaces s) ->
  exists k g s', igmp_interface_group_add j group s = Ok (Some k) s'
    /\ igmpi_groups (added_if group ifp) !! k = Some g /\ igmpg_addr g = group
    /\ becomes (<[j := added_if group ifp]> (igmprt_interfaces s)) (igmprt_membership_db s)
         (if decide (holds group ifp) then [] else joins (ups (igmprt_interfaces s)) group) s s'.
Proof.
  intros Hj Hd Hok Hn. unfold added_if. pose proof (find_key igmpg_addr (igmpi_groups ifp) group) as Hfind.
  destruct (list_find _ (igmpi_groups ifp)) as [[k g]|] eqn:E0.
  - destruct Hfind as [Hk Hg]. assert (Hh : holds group ifp) by (unfold holds; rewrite <- Hg; by apply list_elem_of_fmap_2, (list_elem_of_lookup_2 _ k)).
    rewrite !decide_True by done. exists k, g, s. split; [|split; [done|split; [done|]]].
    + unfold igmp_interface_group_add. eapply run_bind; [by apply get_if_run|]. unfold igmp_interface_group_lookup. by rewrite E0.
    + rewrite list_insert_id by done. apply becomes_refl.
  - rewrite !decide_False by done. destruct (isys_run ienv_malloc s) as (s1 & Hr1 & He1).
    set (ifp' := set_igmpi_groups (new_group group :: igmpi_groups ifp) ifp).
    destruct (put_if_run j (fun ifp => set_igmpi_groups (new_group group :: igmpi_groups ifp) ifp) s1 ifp) as (s2 & Hr2 & He2);
      [by rewrite (bc_interfaces _ _ _ _ _ He1)|]. fold ifp' in He2.
    rewrite (bc_interfaces _ _ _ _ _ He1), (bc_db _ _ _ _ _ He1) in He2.
    assert (Hkind : Forall2 same_kind (igmprt_interfaces s) (<[j := ifp']> (igmprt_interfaces s))) by (eapply same_kind_insert; [exact Hj|done]).
    destruct (join_all_run group s2) as (s3 & Hr3 & He3).
    { rewrite (bc_interfaces _ _ _ _ _ He2), list_fmap_insert. rewrite list_insert_id; [done|]. by rewrite list_lookup_fmap, Hj. }
    { rewrite (bc_interfaces _ _ _ _ _ He2). apply Forall_insert; [|intros Hu; cbn in Hu; congruence].
      apply (Forall_weaken interface_ok); [done|]. intros i Hi Hu. split; [by apply io_upstream|apply Hi]. }
    exists 0%nat, (new_group group), s3. split; [|split; [done|split; [done|]]].
    + unfold igmp_interface_group_add. eapply run_bind; [by apply get_if_run|]. unfold igmp_interface_group_lookup. rewrite E0. cbn [fmap option_fmap option_map].
      assert (Hnew : igmp_group_create group s = Ok (Some (new_group group)) s1).
      { unfold igmp_group_create. eapply run_bind; [exact Hr1|]. by rewrite Hmalloc. }
      eapply run_bind; [exact Hnew|]. eapply run_bind; [exact Hr2|]. eapply run_bind; [exact Hr3|done].
    + pose proof (becomes_extends _ _ _ _ _ _ _ (extends_becomes _ _ _ _ _ _ _ He1 He2) He3) as He.
      eapply becomes_same; [..|exact He]; [done|done|]. cbn. rewrite (bc_interfaces _ _ _ _ _ He2). by apply joins_same, ups_same.
Qed.

(** The member is added to the group, if it is not one of it. *)
Definition with_member (src : Z) (g : igmp_group_t) : igmp_group_t :=
  if decide (src ∈ igmpg_members g) then g else set_igmpg_members (src :: igmpg_members g) g.
Lemma rep_add_run j k src s ifp g :
  igmprt_interfaces s !! j = Some ifp -> igmpi_groups ifp !! k = Some g ->
  exists s', igmp_group_rep_add j k src s = Ok tt s'
    /\ becomes (<[j := set_igmpi_groups (<[k := with_member src g]> (igmpi_groups ifp)) ifp]> (igmprt_interfaces s)) (igmprt_membership_db s) [] s s'.
Proof.
  intros Hj Hk. unfold with_member. destruct (list_find (fun a => a = src) (igmpg_members g)) as [[r a]|] eqn:E0.
  - pose proof E0 as Hf. apply list_find_Some in Hf as (Hr & -> & _). rewrite decide_True by (by eapply (list_elem_of_lookup_2 _ r)).
    exists s. split.
    + unfold igmp_group_rep_add. eapply run_bind; [by eapply get_group_run|]. unfold igmp_group_rep_lookup. by rewrite E0.
    + eapply becomes_same; [..|apply becomes_refl]; [|done|done]. rewrite (list_insert_id _ k) by done. symmetry. apply list_insert_id. rewrite Hj. by destruct ifp.
  - rewrite decide_False.
    2: { intros Hin. apply list_find_None in E0. rewrite Forall_forall in E0. by apply (E0 src). }
    destruct (isys_run ienv_malloc s) as (s1 & Hr1 & He1).
    destruct (put_group_run j k (fun g => set_igmpg_members (src :: igmpg_members g) g) s1 ifp g) as (s2 & Hr2 & He2);
      [by rewrite (bc_interfaces _ _ _ _ _ He1)|done|].
    exists s2. split.
    + unfold igmp_group_rep_add. eapply run_bind; [by eapply get_group_run|]. unfold igmp_group_rep_lookup. rewrite E0. cbn [fmap option_fmap option_map].
      assert (Hnew : igmp_rep_create src s = Ok (Some src) s1).
      { unfold igmp_rep_create. eapply run_bind; [exact Hr1|]. by rewrite Hmalloc. }
      eapply run_bind; [exact Hnew|exact Hr2].
    + rewrite (bc_interfaces _ _ _ _ _ He1), (bc_db _ _ _ _ _ He1) in He2. exact (extends_becomes _ _ _ _ _ _ _ He1 He2).
Qed.

(** A report without sources. *)
Lemma handle_isex_run j k s ifp g :
  igmprt_interfaces s !! j = Some ifp -> igmpi_groups ifp !! k = Some g -> igmpi_type ifp = DOWNSTREAM -> 0 <= igmpi_index ifp < 32 ->
  Forall entry_ok (igmprt_membership_db s) ->
  exists n s', igmp_group_handle_isex j k [] s = Ok tt s'
    /\ becomes (<[j := set_igmpi_groups (<[k := set_igmpg_fmode IGMP_FMODE_EXCLUDE (set_igmpg_timer IGMP_GMI g)]> (igmpi_groups ifp)) ifp]> (igmprt_interfaces s))
         (report_db (igmpg_addr g) (igmprt_membership_db s))
         (take n (forwarding (ups (igmprt_interfaces s)) (igmpg_addr g) (igmpi_index ifp))) s s'.
Proof.
  intros Hj Hk Hd Hi Hdb. pose proof (lookup_lt_Some _ _ _ Hj) as Hlj. pose proof (lookup_lt_Some _ _ _ Hk) as Hlk.
  set (g1 := set_igmpg_timer IGMP_GMI g). set (g2 := set_igmpg_fmode IGMP_FMODE_EXCLUDE g1).
  set (ifp1 := set_igmpi_groups (<[k := g1]> (igmpi_groups ifp)) ifp). set (ifp2 := set_igmpi_groups (<[k := g2]> (igmpi_groups ifp)) ifp).
  destruct (put_group_run j k (set_igmpg_timer IGMP_GMI) s ifp g Hj Hk) as (s1 & Hr1 & He1). fold g1 ifp1 in He1.
  assert (Hj1 : igmprt_interfaces s1 !! j = Some ifp1) by (rewrite (bc_interfaces _ _ _ _ _ He1); by apply list_lookup_insert_eq).
  assert (Hk1 : igmpi_groups ifp1 !! k = Some g1) by (by apply list_lookup_insert_eq).
  destruct (put_group_run j k (set_igmpg_fmode IGMP_FMODE_EXCLUDE) s1 ifp1 g1 Hj1 Hk1) as (s2 & Hr2 & He2).
  cbn [igmpi_groups set_igmpi_groups ifp1] in He2.
  rewrite (bc_interfaces _ _ _ _ _ He1), !list_insert_insert_eq, (bc_db _ _ _ _ _ He1) in He2.
  change (set_igmpi_groups _ ifp1) with ifp2 in He2.
  assert (Hj2 : igmprt_interfaces s2 !! j = Some ifp2) by (rewrite (bc_interfaces _ _ _ _ _ He2); by apply list_lookup_insert_eq).
  destruct (update_multi_run (igmpg_addr g) s2) as (s3 & Hr3 & He3); [by rewrite (bc_db _ _ _ _ _ He2)|].
  rewrite (bc_interfaces _ _ _ _ _ He2), (bc_db _ _ _ _ _ He2) in He3.
  pose proof (becomes_trans _ _ _ _ _ _ _ _ _ (becomes_trans _ _ _ _ _ _ _ _ _ He1 He2) He3) as He. rewrite !app_nil_r in He.
  assert (Hrun : forall P, P (when (VALID_ADDR (igmpg_addr g)) (k_proxy_chg_mfc 0 (igmpg_addr g) (igmpi_index ifp) 1;; mret tt) s3) ->
    P (igmp_group_handle_isex j k [] s)).
  { intros P HP. unfold igmp_group_handle_isex. eapply run_bind; [exact Hr1|]. eapply run_bind; [by eapply get_group_run|].
    eapply (run_bind _ _ _ _ tt s1); [by destruct (igmpg_fmode g1 =? IGMP_FMODE_EXCLUDE)|]. eapply run_bind; [exact Hr2|].
    eapply run_bind; [by apply get_if_run|]. rewrite bool_decide_false by (cbn; congruence). cbn [negb when].
    eapply run_bind; [exact Hr3|exact HP]. }
  destruct (VALID_ADDR (igmpg_addr g)) eqn:Hv.
  - destruct (forwarding_run (igmpg_addr g) (igmpi_index ifp) s3 Hi Hv) as (b & n & s4 & Hr4 & He4). exists n, s4. split.
    + apply (Hrun (fun r => r = Ok tt s4)). cbn [when]. by eapply run_bind; [exact Hr4|].
    + eapply becomes_same; [..|exact (becomes_extends _ _ _ _ _ _ _ He He4)]; [done|done|]. cbn. f_equal.
      rewrite (bc_interfaces _ _ _ _ _ He3). eapply forwarding_same, ups_same, same_kind_insert; [exact Hj|done].
  - exists 0%nat, s3. split; [by apply (Hrun (fun r => r = Ok tt s3))|]. rewrite take_0. exact He.
Qed.

Lemma report_added src group ifp : report_if src group (added_if group ifp) = report_if src group ifp.
Proof.
  unfold added_if. destruct (decide (holds group ifp)) as [Hh|Hh]; [done|]. unfold report_if.
  rewrite decide_True by (unfold holds; cbn; apply elem_of_cons; by left). rewrite decide_False by done. cbn. rewrite Z.eqb_refl.
  unfold set_igmpi_groups. cbn. do 2 f_equal.
  rewrite <- (list_fmap_id (igmpi_groups ifp)) at 2. apply list_fmap_ext. intros k g Hk. destruct (igmpg_addr g =? group) eqn:E0; [|done].
  apply Z.eqb_eq in E0. exfalso. apply Hh. unfold holds. rewrite <- E0. by apply list_elem_of_fmap_2, (list_elem_of_lookup_2 _ k).
Qed.

Lemma report_run j src group s ifp :
  igmprt_interfaces s !! j = Some ifp -> igmpi_type ifp = DOWNSTREAM -> IN_MULTICAST group = true -> router_ok s ->
  exists s' outs, igmp_interface_membership_report_v12 j src group s = Ok tt s'
    /\ heard_emits (first_name s) (igmprt_interfaces s) (Reported j src group) outs
    /\ becomes (alter (report_if src group) j (igmprt_interfaces s)) (report_db group (igmprt_membership_db s)) outs s s'.
Proof.
  intros Hj Hd Hm Hok. pose proof (lookup_lt_Some _ _ _ Hj) as Hlj.
  pose proof (Forall_lookup_1 _ _ _ _ (ro_interfaces _ Hok) Hj) as Hi.
  destruct (group_add_run j group s ifp Hj Hd (ro_interfaces _ Hok) (ro_addresses _ Hok)) as (k & g & s1 & Hr1 & Hk & Hg & He1).
  set (ifp1 := added_if group ifp) in *.
  assert (Hj1 : igmprt_interfaces s1 !! j = Some ifp1) by (rewrite (bc_interfaces _ _ _ _ _ He1); by apply list_lookup_insert_eq).
  destruct (rep_add_run j k src s1 ifp1 g Hj1 Hk) as (s2 & Hr2 & He2).
  rewrite (bc_interfaces _ _ _ _ _ He1), list_insert_insert_eq, (bc_db _ _ _ _ _ He1) in He2.
  set (ifp2 := set_igmpi_groups (<[k := with_member src g]> (igmpi_groups ifp1)) ifp1) in *.
  assert (Hj2 : igmprt_interfaces s2 !! j = Some ifp2) by (rewrite (bc_interfaces _ _ _ _ _ He2); by apply list_lookup_insert_eq).
  assert (Hk2 : igmpi_groups ifp2 !! k = Some (with_member src g)) by (apply list_lookup_insert_eq; by eapply lookup_lt_Some).
  assert (Hg2 : igmpg_addr (with_member src g) = group) by (unfold with_member; destruct (decide (src ∈ igmpg_members g)); exact Hg).
  assert (Hsame : same_kind ifp ifp2) by (unfold ifp2, ifp1, added_if; by destruct (decide (holds group ifp))).
  pose proof Hsame as (Ha & Hna & Hix & Hty).
  destruct (handle_isex_run j k s2 ifp2 (with_member src g) Hj2 Hk2) as (n & s3 & Hr3 & He3).
  { by rewrite Hty. }
  { rewrite Hix. apply Hi. }
  { rewrite (bc_db _ _ _ _ _ He2). apply Hok. }
  rewrite (bc_interfaces _ _ _ _ _ He2), list_insert_insert_eq, (bc_db _ _ _ _ _ He2), Hg2 in He3.
  eexists s3, _. split; [|split].
  - unfold igmp_interface_membership_report_v12. rewrite Hm. cbn [negb]. eapply run_bind; [exact Hr1|]. eapply run_bind; [exact Hr2|exact Hr3].
  - exists ifp, n. split; [done|reflexivity].
  - pose proof (becomes_trans _ _ _ _ _ _ _ _ _ (becomes_trans _ _ _ _ _ _ _ _ _ He1 He2) He3) as He. rewrite app_nil_r in He.
    eapply becomes_same; [..|exact He]; [|done|].
    + rewrite (list_alter_insert _ _ _ ifp) by done. f_equal. rewrite <- report_added. fold ifp1.
      assert (Hu : NoDup (igmpg_addr <$> igmpi_groups ifp1)).
      { unfold ifp1, added_if. destruct (decide (holds group ifp)) as [Hh|Hh]; [apply Hi|]. cbn. apply NoDup_cons. split; [exact Hh|apply Hi]. }
      rewrite <- (report_found src group ifp1 k g Hu Hk Hg).
      unfold ifp2, set_igmpi_groups. cbn. rewrite list_insert_insert_eq. do 2 f_equal. unfold with_member, report_group. by destruct (decide (src ∈ igmpg_members g)).
    + f_equal. rewrite Hix. f_equal. eapply forwarding_same, ups_same, same_kind_insert; [exact Hj|exact Hsame].
Qed.

(** ** A leave *)

Definition gone (src group : Z) (l : list igmp_group_t) : list igmp_group_t := filter (fun g => leave_group src group g = None) l.
Definition removals (name : string) (group : Z) (l : list igmp_group_t) : list igmp_output := (fun _ => Forward false name group) <$> l.
Definition nonempty {A} (l : list A) : bool := match l with [] => false | _ => true end.
Lemma nonempty_app {A} (l l' : list A) : nonempty (l ++ l') = nonempty l || nonempty l'.
Proof. by destruct l. Qed.

(** The member is struck off the group. *)
Lemma strike_run j k src s ifp g :
  igmprt_interfaces s !! j = Some ifp -> igmpi_groups ifp !! k = Some g -> NoDup (igmpg_members g) ->
  exists s', match igmp_group_rep_lookup g src with Some rep => igmp_rep_cleanup j k rep | None => mret tt end s = Ok tt s'
    /\ becomes (<[j := set_igmpi_groups (<[k := set_igmpg_members (filter (.≠ src) (igmpg_members g)) g]> (igmpi_groups ifp)) ifp]> (igmprt_interfaces s))
         (igmprt_membership_db s) [] s s'.
Proof.
  intros Hj Hk Hn. rewrite <- (delete_found _ _ Hn). unfold igmp_group_rep_lookup.
  destruct (list_find (fun a => a = src) (igmpg_members g)) as [[r a]|] eqn:E0; cbn [fmap option_fmap option_map fst].
  - destruct (put_group_run j k (fun gp => set_igmpg_members (delete r (igmpg_members gp)) gp) s ifp g Hj Hk) as (s' & Hr & He).
    by exists s'.
  - exists s. split; [done|]. eapply becomes_same; [..|apply becomes_refl]; [|done|done].
    assert (Hg : set_igmpg_members (igmpg_members g) g = g) by (by destruct g). rewrite Hg, (list_insert_id _ k) by done.
    symmetry. apply list_insert_id. rewrite Hj. by destruct ifp.
Qed.

(** The group of the leave, at the head of the rest. *)
Lemma leave_head_run j src group s ifp before g rest :
  igmprt_interfaces s !! j = Some ifp -> igmpi_groups ifp = before ++ g :: rest -> igmpg_addr g = group ->
  NoDup (igmpg_members g) -> short_names s ->
  exists s1, becomes (<[j := set_igmpi_groups (before ++ option_list (leave_group src group g) ++ rest) ifp]> (igmprt_interfaces s))
      (igmprt_membership_db s) (removals (first_name s) group (gone src group [g])) s s1
    /\ forall A (m1 m2 : IM A) (P : res igmp_router A -> Prop), P ((if leave_group src group g is Some _ then m2 else m1) s1) ->
         P ((match igmp_group_rep_lookup g src with Some rep => igmp_rep_cleanup j (length before) rep | None => mret tt end;;
             gp ← get_group j (length before);
             if (igmp_rep_count gp =? 0)%nat then igmp_group_cleanup j (length before);; freed_next;; m1 else m2) s).
Proof.
  intros Hj Hg Ha Hm Hn. assert (Hk : igmpi_groups ifp !! length before = Some g) by (by rewrite Hg, list_lookup_middle).
  destruct (strike_run j (length before) src s ifp g Hj Hk Hm) as (s1 & Hr1 & He1).
  set (g1 := set_igmpg_members (filter (.≠ src) (igmpg_members g)) g) in *. rewrite Hg, insert_app_r_alt, Nat.sub_diag in He1 by lia.
  cbn [list_insert insert] in He1. set (ifp1 := set_igmpi_groups (before ++ g1 :: rest) ifp) in *.
  assert (Hj1 : igmprt_interfaces s1 !! j = Some ifp1) by (rewrite (bc_interfaces _ _ _ _ _ He1); apply list_lookup_insert_eq; by eapply lookup_lt_Some).
  assert (Hk1 : igmpi_groups ifp1 !! length before = Some g1) by (cbn; by rewrite list_lookup_middle).
  assert (Hl : leave_group src group g = if (igmp_rep_count g1 =? 0)%nat then None else Some g1).
  { unfold leave_group, igmp_rep_count, g1. rewrite Ha, Z.eqb_refl. cbn. by destruct (filter (.≠ src) (igmpg_members g)). }
  unfold gone. rewrite filter_cons, Hl. destruct (igmp_rep_count g1 =? 0)%nat eqn:Hc.
  - rewrite decide_True by done. destruct (igmp_group_cleanup_run j (length before) s1 ifp1 g1 Hj1 Hk1) as (s2 & Hr2 & He2); [eapply short_names_same; [apply He1|done]|].
    destruct (freed_next_run Hfreed s2) as (s3 & Hr3 & He3). pose proof (becomes_extends _ _ _ _ _ _ _ He2 He3) as He23.
    cbn [ifp1 set_igmpi_groups igmpi_groups] in He23. rewrite delete_middle, (bc_interfaces _ _ _ _ _ He1), list_insert_insert_eq, (bc_db _ _ _ _ _ He1) in He23.
    exists s3. split.
    + eapply becomes_same; [..|exact (becomes_trans _ _ _ _ _ _ _ _ _ He1 He23)]; [done|done|]. cbn.
      by rewrite (first_name_same _ _ (bc_setup _ _ _ _ _ He1)), Ha.
    + intros A m1 m2 P HP. eapply run_bind; [exact Hr1|]. eapply run_bind; [by eapply get_group_run|]. rewrite Hc.
      eapply run_bind; [exact Hr2|]. eapply run_bind; [exact Hr3|exact HP].
  - rewrite decide_False by done. exists s1. split; [exact He1|]. intros A m1 m2 P HP. eapply run_bind; [exact Hr1|].
    eapply run_bind; [by eapply get_group_run|]. by rewrite Hc.
Qed.

Lemma leave_groups_run j src group rest : forall fuel before s ifp nd,
  igmprt_interfaces s !! j = Some ifp -> igmpi_groups ifp = before ++ rest -> (length rest < fuel)%nat -> short_names s ->
  Forall (fun g => NoDup (igmpg_members g)) rest ->
  exists s', leave_groups fuel j (length before) src group nd s = Ok (nd || nonempty (gone src group rest)) s'
    /\ becomes (<[j := set_igmpi_groups (before ++ omap (leave_group src group) rest) ifp]> (igmprt_interfaces s)) (igmprt_membership_db s)
         (removals (first_name s) group (gone src group rest)) s s'.
Proof.
  induction rest as [|g rest IH]; intros fuel before s ifp nd Hj Hg Hf Hn Hm; (destruct fuel as [|fuel]; [cbn in Hf; lia|]); cbn [leave_groups].
  { exists s. split.
    - eapply run_bind; [by apply get_if_run|]. cbn. rewrite Hg, app_nil_r, lookup_ge_None_2 by lia. by rewrite orb_false_r.
    - eapply becomes_same; [..|apply becomes_refl]; [|done|done]. cbn. rewrite <- Hg. symmetry. apply list_insert_id. rewrite Hj. by destruct ifp. }
  cbn in Hf. apply Forall_cons in Hm as [Hmg Hm]. assert (Hk : igmpi_groups ifp !! length before = Some g) by (by rewrite Hg, list_lookup_middle).
  assert (Hstep : forall t s1 nd1, igmprt_interfaces s1 = <[j := set_igmpi_groups (before ++ t ++ rest) ifp]> (igmprt_interfaces s) -> same_setup s s1 ->
    exists s', leave_groups fuel j (length (before ++ t)) src group nd1 s1 = Ok (nd1 || nonempty (gone src group rest)) s'
      /\ becomes (<[j := set_igmpi_groups ((before ++ t) ++ omap (leave_group src group) rest) ifp]> (igmprt_interfaces s)) (igmprt_membership_db s1)
           (removals (first_name s) group (gone src group rest)) s1 s').
  { intros t s1 nd1 H1 Hset. destruct (IH fuel (before ++ t) s1 (set_igmpi_groups (before ++ t ++ rest) ifp) nd1) as (s' & Hr & He).
    - rewrite H1. apply list_lookup_insert_eq. by eapply lookup_lt_Some.
    - cbn. by rewrite app_assoc.
    - lia.
    - by eapply short_names_same.
    - done.
    - exists s'. split; [done|]. by rewrite H1, list_insert_insert_eq, (first_name_same _ _ Hset) in He. }
  cbn [omap list_omap]. unfold gone. rewrite filter_cons. fold (gone src group rest).
  destruct (igmpg_addr g =? group) eqn:Ha.
  2: { assert (Hl : leave_group src group g = Some g) by (unfold leave_group; by rewrite Ha). rewrite Hl, decide_False by done.
    destruct (Hstep [g] s nd) as (s' & Hr & He); [|done|].
    { symmetry. apply list_insert_id. rewrite Hj. cbn. rewrite <- Hg. by destruct ifp. }
    exists s'. split; [|by rewrite <- app_assoc in He]. eapply run_bind; [by apply get_if_run|]. rewrite Hk, Ha.
    by rewrite length_app, Nat.add_1_r in Hr. }
  destruct (leave_head_run j src group s ifp before g rest Hj Hg) as (s1 & He1 & Hrun); [by apply Z.eqb_eq in Ha|done|done|].
  destruct (Hstep (option_list (leave_group src group g)) s1 (if leave_group src group g is Some _ then nd else true)) as (s' & Hr & He); [apply He1|apply He1|].
  rewrite (bc_db _ _ _ _ _ He1) in He. exists s'. split.
  - eapply run_bind; [by apply get_if_run|]. rewrite Hk, Ha. apply (Hrun _ _ _ (fun r => r = Ok _ s')). rewrite length_app in Hr.
    destruct (leave_group src group g) eqn:Hl; cbn [option_list length] in Hr.
    + rewrite Nat.add_1_r in Hr. rewrite decide_False by done. exact Hr.
    + rewrite Nat.add_0_r in Hr. rewrite decide_True by done. rewrite Hr. cbn. by rewrite orb_true_r.
  - eapply becomes_same; [..|exact (becomes_trans _ _ _ _ _ _ _ _ _ He1 He)]; [|done|].
    + rewrite <- app_assoc. by destruct (leave_group src group g).
    + unfold removals. rewrite <- fmap_app. f_equal. cbn. by destruct (decide (leave_group src group g = None)).
Qed.

Lemma leave_if_kind src group i : same_kind i (leave_if src group i).
Proof. unfold leave_if. by case_decide. Qed.

(** The loop over the interfaces that hands its result on. *)
Lemma leave_interfaces_run src group ifs n : forall j s nd,
  igmprt_interfaces s = (leave_if src group <$> take j ifs) ++ drop j ifs -> (j + n = length ifs)%nat -> short_names s ->
  Forall interface_ok ifs ->
  exists s', leave_interfaces n j src group nd s = Ok (nd || nonempty (concat (emptied src group <$> drop j ifs))) s'
    /\ becomes (leave_if src group <$> ifs) (igmprt_membership_db s)
         (removals (first_name s) group (concat (emptied src group <$> drop j ifs))) s s'.
Proof.
  induction n as [|n IH]; intros j s nd Hs Hj Hn Hok; cbn [leave_interfaces].
  { exists s. rewrite drop_ge by lia. cbn. rewrite orb_false_r. split; [done|]. eapply becomes_same; [..|apply becomes_refl]; [|done|done].
    rewrite Hs, drop_ge, take_ge by lia. by rewrite app_nil_r. }
  destruct (lookup_lt_is_Some_2 ifs j) as [ifp Hifp]; [lia|]. pose proof (lookup_lt_Some _ _ _ Hifp) as Hlt.
  assert (Hlen : length (leave_if src group <$> take j ifs) = j) by (rewrite length_fmap, length_take; lia).
  assert (Hcur : igmprt_interfaces s !! j = Some ifp).
  { rewrite Hs, lookup_app_r, Hlen, Nat.sub_diag, (drop_S _ _ _ Hifp) by lia. done. }
  assert (Hnext : <[j := leave_if src group ifp]> (igmprt_interfaces s) = (leave_if src group <$> take (S j) ifs) ++ drop (S j) ifs).
  { rewrite Hs, insert_app_r_alt, Hlen, Nat.sub_diag, (drop_S _ _ _ Hifp) by lia. cbn.
    by rewrite (take_S_r _ _ _ Hifp), fmap_app, <- app_assoc. }
  pose proof (Forall_lookup_1 _ _ _ _ Hok Hifp) as Hi. rewrite (drop_S _ _ _ Hifp), fmap_cons. cbn [concat]. rewrite nonempty_app.
  destruct (decide (igmpi_type ifp = DOWNSTREAM)) as [Hd|Hd].
  - assert (Hl : leave_if src group ifp = set_igmpi_groups (omap (leave_group src group) (igmpi_groups ifp)) ifp) by (unfold leave_if; by rewrite decide_True).
    assert (He : emptied src group ifp = gone src group (igmpi_groups ifp)) by (unfold emptied; by rewrite decide_True).
    rewrite Hl in Hnext. rewrite He.
    destruct (leave_groups_run j src group (igmpi_groups ifp) (S (length (igmpi_groups ifp))) [] s ifp nd Hcur) as (s1 & Hr1 & He1); [done|lia|done| |].
    { apply (Forall_weaken group_ok); [apply Hi|]. intros g Hg. apply Hg. }
    destruct (IH (S j) s1 (nd || nonempty (gone src group (igmpi_groups ifp)))) as (s2 & Hr2 & He2);
      [by rewrite (bc_interfaces _ _ _ _ _ He1)|lia|eapply short_names_same; [apply He1|done]|done|].
    rewrite (bc_db _ _ _ _ _ He1), (first_name_same _ _ (bc_setup _ _ _ _ _ He1)) in He2. exists s2. split.
    + eapply run_bind; [by apply get_if_run|]. rewrite bool_decide_true by done. eapply run_bind; [exact Hr1|].
      rewrite Hr2. by rewrite orb_assoc.
    + eapply becomes_same; [..|exact (becomes_trans _ _ _ _ _ _ _ _ _ He1 He2)]; [done|done|]. unfold removals. by rewrite <- fmap_app.
  - assert (Hl : leave_if src group ifp = ifp) by (unfold leave_if; by rewrite decide_False).
    assert (He : emptied src group ifp = []) by (unfold emptied; by rewrite decide_False). rewrite Hl in Hnext. rewrite He.
    destruct (IH (S j) s nd) as (s1 & Hr1 & He1); [|lia|done|done|].
    { rewrite <- Hnext. symmetry. by apply list_insert_id. }
    exists s1. split; [|done]. eapply run_bind; [by apply get_if_run|]. by rewrite bool_decide_false.
Qed.

Lemma leave_run src group s : IN_MULTICAST group = true -> router_ok s ->
  exists s' outs, igmp_interface_membership_leave_v2 src group s = Ok tt s'
    /\ heard_emits (first_name s) (igmprt_interfaces s) (Left src group) outs
    /\ becomes (leave_if src group <$> igmprt_interfaces s) (igmprt_membership_db s) outs s s'.
Proof.
  intros Hm Hok. unfold igmp_interface_membership_leave_v2. rewrite Hm. cbn [negb].
  destruct (leave_interfaces_run src group (igmprt_interfaces s) (length (igmprt_interfaces s)) 0 s false) as (s1 & Hr1 & He1);
    [done|done|by apply router_short|apply Hok|]. rewrite drop_0 in *. cbn [heard_emits].
  destruct (concat (emptied src group <$> igmprt_interfaces s)) as [|g l]; cbn [nonempty orb] in Hr1.
  - exists s1. eexists. split; [|split; [reflexivity|exact He1]]. eapply run_bind; [apply gets_run|]. eapply run_bind; [exact Hr1|done].
  - destruct (drop_upstream_run group s1) as (s2 & Hr2 & He2). exists s2. eexists. split; [|split; [reflexivity|]].
    + eapply run_bind; [apply gets_run|]. eapply run_bind; [exact Hr1|exact Hr2].
    + eapply becomes_same; [..|exact (becomes_extends _ _ _ _ _ _ _ He1 He2)]; [done|done|]. f_equal.
      rewrite (bc_interfaces _ _ _ _ _ He1). by apply drops_same, ups_same, same_kind_fmap, leave_if_kind.
Qed.
End with_env.
