(* ===== verification/IgmpInput.v ===== *)
(** * IgmpInput: what the proxy hears (igmprt.c: igmprt_input, igmprt_input_thread)

    The meaning of what recvmsg() and select() give, as [heard] events, and the
    refinement: the input of a turn applies the events to the tables, in order. *)

From S2P Require Import Prelude DhcpTypes DhcpLeases IgmpTypes IgmpProxy IgmpRouter IgmpSpec IgmpLemmas IgmpInvariant IgmpHosts.

(** ** The meaning of a datagram *)

Definition datagram_meaning (ifs : list igmp_interface_t) (j : nat) (dg : datagram) : heard :=
  let b := dg_bytes dg in
  let n := Z.of_nat (length b) in
  match ifs !! j with
  | None => Nothing
  | Some ifp =>
      if n <=? sizeof_ip then Nothing
      else
        match read_cmsgs (dg_cmsgs dg) (igmpi_index ifp) 0 false with
        | None => Nothing
        | Some (_, true) => Misread
        | Some (index, false) =>
            let off := 4 * (default 0 (b !! 0%nat) mod 16) in
            if n - off <? IGMP_MINLEN then Nothing
            else
              match list_find (fun i => igmpi_index i = index) ifs with
              | None => Nothing
              | Some (i, _) => message_meaning ifs i b off (of_be (take 4 (drop 12 b)))
              end
        end
  end.

(** What a socket gives: nothing when it is not ready. *)
Definition socket_meaning (ifs : list igmp_interface_t) (j : nat) (r : option (option (option datagram))) : list heard :=
  match r with Some (Some (Some dg)) => [datagram_meaning ifs j dg] | _ => [] end.
(** The events of a turn: the sockets that are read, until the count that select()
    gave is used up. *)
Fixpoint selected_meaning (ifs rest : list igmp_interface_t) (j : nat) (n : Z) (ready : list (option (option datagram))) : list heard :=
  match rest with
  | [] => []
  | ifp :: rest' =>
      if decide (igmpi_type ifp = DOWNSTREAM) then
        socket_meaning ifs j (head ready) ++ (if n - 1 =? 0 then [] else selected_meaning ifs rest' (S j) (n - 1) (tail ready))
      else selected_meaning ifs rest' (S j) n ready
  end.
Definition turn_meaning (ifs : list igmp_interface_t) (sel : selected) : list heard :=
  selected_meaning ifs ifs 0 (sel_n sel) (sel_ready sel).

(** Every socket that is read gives a datagram. *)
Definition delivered (sel : selected) : Prop := Forall (fun r => r <> Some None) (sel_ready sel).

Definition hear (d : option nat) (es : list heard) (ifs : list igmp_interface_t) : list igmp_interface_t :=
  fold_left (fun ifs e => apply_heard d e ifs) es ifs.
Definition hear_db (es : list heard) (db : list membership_db) : list membership_db := fold_left (fun db e => heard_db e db) es db.
Fixpoint hear_emits (name : string) (d : option nat) (ifs : list igmp_interface_t) (es : list heard) (outs : list igmp_output) : Prop :=
  match es with
  | [] => outs = []
  | e :: es' => exists o o', outs = o ++ o' /\ heard_emits name ifs e o /\ hear_emits name d (apply_heard d e ifs) es' o'
  end.

(** ** The meaning depends on the names and the kinds only *)

Lemma find_index_same ifs ifs' index : Forall2 same_kind ifs ifs' ->
  fst <$> list_find (fun i => igmpi_index i = index) ifs' = fst <$> list_find (fun i => igmpi_index i = index) ifs.
Proof.
  induction 1 as [|i i' ifs ifs' (_ & _ & H3 & _) _ IH]; [done|]. cbn [list_find]. rewrite H3. destruct (decide (igmpi_index i = index)); [done|].
  destruct (list_find _ ifs) as [[]|], (list_find _ ifs') as [[]|]; cbn in *; congruence.
Qed.
Lemma same_lookup ifs ifs' i : Forall2 same_kind ifs ifs' ->
  match ifs !! i, ifs' !! i with Some a, Some b => same_kind a b | None, None => True | _, _ => False end.
Proof.
  intros H. destruct (ifs !! i) as [a|] eqn:Ha.
  - destruct (Forall2_lookup_l _ _ _ _ _ H Ha) as (b & -> & Hab). done.
  - destruct (ifs' !! i) as [b|] eqn:Hb; [|done]. destruct (Forall2_lookup_r _ _ _ _ _ H Hb) as (a & Ha' & _). congruence.
Qed.
Lemma message_meaning_same ifs ifs' i b off src : Forall2 same_kind ifs ifs' -> message_meaning ifs' i b off src = message_meaning ifs i b off src.
Proof.
  intros H. unfold message_meaning. pose proof (same_lookup _ _ i H) as Hi.
  destruct (ifs !! i) as [a|], (ifs' !! i) as [a'|]; try done. destruct Hi as (_ & _ & _ & H4). by rewrite H4.
Qed.
Lemma datagram_meaning_same ifs ifs' j dg : Forall2 same_kind ifs ifs' -> datagram_meaning ifs' j dg = datagram_meaning ifs j dg.
Proof.
  intros H. unfold datagram_meaning. pose proof (same_lookup _ _ j H) as Hj.
  destruct (ifs !! j) as [a|], (ifs' !! j) as [a'|]; try done. destruct Hj as (_ & _ & H3 & _). rewrite H3.
  destruct (_ <=? sizeof_ip); [done|]. destruct (read_cmsgs _ _ _ _) as [[index []]|]; try done. destruct (_ <? IGMP_MINLEN); [done|].
  pose proof (find_index_same _ _ index H) as Hf.
  destruct (list_find _ ifs) as [[i k]|], (list_find _ ifs') as [[i' k']|]; try done. cbn in Hf. injection Hf as ->. by apply message_meaning_same.
Qed.

Lemma report_if_kind src group i : same_kind i (report_if src group i).
Proof. done. Qed.
Lemma apply_heard_kind d e ifs : Forall2 same_kind ifs (apply_heard d e ifs).
Proof.
  destruct e as [|i src group|src group|i src|]; cbn.
  - by apply Forall_Forall2_diag, Forall_true.
  - by apply same_kind_alter.
  - apply same_kind_fmap, leave_if_kind.
  - apply same_kind_alter. intros ifp. by destruct (src <? igmpi_addr ifp).
  - destruct d as [d|]; [by apply same_kind_alter|by apply Forall_Forall2_diag, Forall_true].
Qed.

Lemma datagram_meaning_ok ifs j dg : heard_ok ifs (datagram_meaning ifs j dg).
Proof.
  unfold datagram_meaning. destruct (ifs !! j) as [ifp|]; [|done]. destruct (_ <=? sizeof_ip); [done|].
  destruct (read_cmsgs _ _ _ _) as [[index []]|]; try done. destruct (_ <? IGMP_MINLEN); [done|].
  destruct (list_find _ ifs) as [[i k]|]; [|done]. unfold message_meaning.
  destruct (ifs !! i) as [ifp'|] eqn:Hi; [|done]. set (off := 4 * _). destruct (dg_bytes dg !! Z.to_nat off); [|done].
  destruct (dg_bytes dg !! Z.to_nat (off + 1)); [|done]. destruct (load 4 (dg_bytes dg) (off + 4)); [|done].
  destruct (_ =? IGMP_MEMBERSHIP_QUERY); [by destruct (_ || _)|]. destruct (decide (_ \/ _)) as [|Hno]; [done|].
  assert (Hm : IN_MULTICAST (of_be l) = true) by (destruct (IN_MULTICAST (of_be l)); [done|exfalso; auto]).
  destruct (_ || _); [|by destruct (_ =? _)]. split; [done|]. exists ifp'. split; [done|]. destruct (igmpi_type ifp') eqn:Ht; [exfalso; auto|reflexivity].
Qed.

Section with_env.
Context `{E : IgmpEnv}.
Hypothesis Hmalloc : forall n, ienv_malloc n = true.
Hypothesis Hfreed : forall n, ienv_freed n = true.

(** ** The message *)

Lemma query_heard_run i group src s ifp : igmprt_interfaces s !! i = Some ifp ->
  exists s', receive_membership_query i group [] src true s = Ok tt s'
    /\ becomes (apply_heard (downstream s) (Queried i src) (igmprt_interfaces s)) (igmprt_membership_db s) [] s s'.
Proof.
  intros Hi. cbn [apply_heard]. rewrite (list_alter_insert _ _ _ ifp) by done. destruct (src <? igmpi_addr ifp) eqn:Hlow.
  - destruct (put_if_run i (set_igmpi_oqp (Some IGMP_OQPI)) s ifp Hi) as (s1 & Hr1 & He1).
    destruct (put_if_run i (set_igmpi_isquerier false) s1 (set_igmpi_oqp (Some IGMP_OQPI) ifp)) as (s2 & Hr2 & He2).
    { rewrite (bc_interfaces _ _ _ _ _ He1). apply list_lookup_insert_eq. by eapply lookup_lt_Some. }
    rewrite (bc_interfaces _ _ _ _ _ He1), list_insert_insert_eq, (bc_db _ _ _ _ _ He1) in He2.
    assert (Hr : (put_if i (set_igmpi_oqp (Some IGMP_OQPI));; put_if i (set_igmpi_isquerier false)) s = Ok tt s2)
      by (eapply run_bind; [exact Hr1|exact Hr2]).
    exists s2. split; [|exact (becomes_trans _ _ _ _ _ _ _ _ _ He1 He2)].
    unfold receive_membership_query. eapply run_bind; [by apply get_if_run|]. rewrite Hlow. cbn [when negb].
    eapply run_bind; [exact Hr|done].
  - exists s. split; [|by rewrite list_insert_id by done; apply becomes_refl].
    unfold receive_membership_query. eapply run_bind; [by apply get_if_run|]. rewrite Hlow. done.
Qed.

Lemma misread_run s ifp d : downstream s = Some d -> igmprt_interfaces s !! d = Some ifp ->
  exists s', (put_if d (set_igmpi_ti_qi 10);; put_if d (set_igmpi_isquerier true)) s = Ok tt s'
    /\ becomes (apply_heard (downstream s) Misread (igmprt_interfaces s)) (igmprt_membership_db s) [] s s'.
Proof.
  intros Hd Hi. cbn [apply_heard]. rewrite Hd, (list_alter_insert _ _ _ ifp) by done.
  destruct (put_if_run d (set_igmpi_ti_qi 10) s ifp Hi) as (s1 & Hr1 & He1).
  destruct (put_if_run d (set_igmpi_isquerier true) s1 (set_igmpi_ti_qi 10 ifp)) as (s2 & Hr2 & He2).
  { rewrite (bc_interfaces _ _ _ _ _ He1). apply list_lookup_insert_eq. by eapply lookup_lt_Some. }
  rewrite (bc_interfaces _ _ _ _ _ He1), list_insert_insert_eq, (bc_db _ _ _ _ _ He1) in He2.
  exists s2. split; [eapply run_bind; [exact Hr1|exact Hr2]|exact (becomes_trans _ _ _ _ _ _ _ _ _ He1 He2)].
Qed.

(** The message is in the buffer, with its address. *)
Lemma handle_igmp_run i b off src s ifp :
  igmprt_interfaces s !! i = Some ifp -> 0 <= off -> off + IGMP_MINLEN <= Z.of_nat (length b) -> router_ok s ->
  let e := message_meaning (igmprt_interfaces s) i b off src in
  exists s' outs, handle_igmp i b off (Z.of_nat (length b) - off) src s = Ok tt s'
    /\ heard_emits (first_name s) (igmprt_interfaces s) e outs
    /\ becomes (apply_heard (downstream s) e (igmprt_interfaces s)) (heard_db e (igmprt_membership_db s)) outs s s'.
Proof.
  intros Hi Hoff Hlen Hok e. unfold IGMP_MINLEN in Hlen.
  destruct (lookup_lt_is_Some_2 b (Z.to_nat off)) as [type Htype]; [lia|].
  destruct (lookup_lt_is_Some_2 b (Z.to_nat (off + 1))) as [code Hcode]; [lia|].
  assert (Hload : load 4 b (off + 4) = Some (take 4 (drop (Z.to_nat (off + 4)) b))) by (apply load_ok; lia).
  set (group := of_be (take 4 (drop (Z.to_nat (off + 4)) b))).
  assert (Haddr : addr_at b (off + 4) s = Ok group s) by (unfold addr_at; rewrite Hload; done).
  assert (Hmean : e = if type =? IGMP_MEMBERSHIP_QUERY then if (code =? 0) || (Z.of_nat (length b) - off =? 8) then Queried i src else Nothing
    else if decide (igmpi_type ifp = UPSTREAM \/ IN_MULTICAST group = false) then Nothing
    else if (type =? IGMP_V1_MEMBERSHIP_REPORT) || (type =? IGMP_V2_MEMBERSHIP_REPORT) then Reported i src group
    else if type =? IGMP_V2_MEMBERSHIP_LEAVE then Left src group else Nothing).
  { unfold e, message_meaning. by rewrite Hi, Htype, Hcode, Hload. }
  clearbody e.
  set (R := fun r : res igmp_router unit => exists s' outs, r = Ok tt s' /\ heard_emits (first_name s) (igmprt_interfaces s) e outs
    /\ becomes (apply_heard (downstream s) e (igmprt_interfaces s)) (heard_db e (igmprt_membership_db s)) outs s s').
  change (R (handle_igmp i b off (Z.of_nat (length b) - off) src s)).
  assert (Hnothing : e = Nothing -> R (Ok tt s)).
  { intros He. exists s, []. rewrite He. split; [done|]. split; [done|]. apply becomes_refl. }
  assert (Hskip : forall m : Z -> IM unit, R (m group s) -> R ((g ← addr_at b (off + 4); m g) s)) by (intros m H; eapply run_bind; [exact Haddr|exact H]).
  unfold handle_igmp. eapply run_bind; [by apply in_bounds_run|]. eapply run_bind; [by apply get_if_run|].
  destruct (type =? IGMP_MEMBERSHIP_QUERY).
  { eapply run_bind; [by apply in_bounds_run|]. apply Hskip. destruct (query_heard_run i group src s ifp Hi) as (s' & Hr & He).
    destruct (code =? 0); cbn [orb] in Hmean; [subst e; by exists s', []|].
    destruct (_ =? 8); [subst e; by exists s', []|by apply Hnothing]. }
  destruct (decide (igmpi_type ifp = UPSTREAM)) as [Hu|Hu].
  { rewrite bool_decide_true by done. rewrite decide_True in Hmean by auto.
    destruct (_ || _); [by apply Hnothing|]. destruct (_ =? _); by apply Hnothing. }
  rewrite bool_decide_false by done. cbn [negb].
  assert (Hd : igmpi_type ifp = DOWNSTREAM) by (by destruct (igmpi_type ifp)).
  destruct (IN_MULTICAST group) eqn:Hm.
  - rewrite decide_False in Hmean by (intros [?|?]; done).
    destruct (_ || _); [apply Hskip; subst e; apply (report_run Hmalloc i src group s ifp Hi Hd Hm Hok)|].
    destruct (_ =? _); [|by apply Hnothing]. apply Hskip. subst e. apply (leave_run Hfreed src group s Hm Hok).
  - rewrite decide_True in Hmean by auto.
    destruct (_ || _); [apply Hskip; unfold igmp_interface_membership_report_v12; rewrite Hm; by apply Hnothing|].
    destruct (_ =? _); [|by apply Hnothing]. apply Hskip. unfold igmp_interface_membership_leave_v2. rewrite Hm. by apply Hnothing.
Qed.

(** ** The socket of an interface *)

(** What hearing an event does to the state. *)
Definition heard_step (s : igmp_router) (e : heard) (s' : igmp_router) (outs : list igmp_output) : Prop :=
  heard_emits (first_name s) (igmprt_interfaces s) e outs
  /\ becomes (apply_heard (downstream s) e (igmprt_interfaces s)) (heard_db e (igmprt_membership_db s)) outs s s'.

Lemma ctrl_run f s : exists s', modify (fun s => set_ctrl_blocks (f (ctrl_blocks s)) s) s = Ok tt s' /\ extends [] s s'.
Proof. eexists. split; [reflexivity|]. split; [done|done|by rewrite app_nil_r|done]. Qed.

Lemma input_run j dg s ifp : igmprt_interfaces s !! j = Some ifp -> igmpi_type ifp = DOWNSTREAM -> router_ok s ->
  exists s' outs, igmprt_input j (Some dg) s = Ok tt s' /\ heard_step s (datagram_meaning (igmprt_interfaces s) j dg) s' outs.
Proof.
  intros Hj Hd Hok. destruct (ctrl_run (fun n => n + 1) s) as (s1 & Hr1 & He1).
  remember (datagram_meaning (igmprt_interfaces s) j dg) as e eqn:Hmean.
  set (R := fun r : res igmp_router unit => exists s' outs, r = Ok tt s' /\ heard_step s e s' outs).
  change (R (igmprt_input j (Some dg) s)). unfold igmprt_input. eapply run_bind; [exact Hr1|].
  assert (Hnothing : forall s2, extends [] s s2 -> e = Nothing -> R (Ok tt s2)).
  { intros s2 He2 ->. exists s2, []. split; [done|]. by split. }
  eapply run_bind; [apply get_if_run; by rewrite (bc_interfaces _ _ _ _ _ He1)|].
  unfold datagram_meaning in Hmean. rewrite Hj in Hmean. destruct (_ <=? sizeof_ip) eqn:Hlen; [by apply Hnothing|]. apply Z.leb_gt in Hlen. unfold sizeof_ip in Hlen.
  destruct (read_cmsgs _ _ _ _) as [[index bad]|]; [|by apply Hnothing].
  destruct (ctrl_run (fun n => n - 1) s1) as (s2 & Hr2 & He2). eapply run_bind; [exact Hr2|].
  pose proof (extends_trans _ _ _ _ _ He1 He2) as He. clear s1 He1 Hr1 Hr2 He2.
  assert (Hok2 : router_ok s2).
  { eapply router_ok_becomes; [exact Hok|exact He|by apply Forall_Forall2_diag, Forall_true|apply Hok|apply Hok]. }
  assert (Hdown : downstream s2 = downstream s) by apply He.
  assert (Hthen : forall r,
    (exists s' outs, r = Ok tt s' /\ heard_emits (first_name s2) (igmprt_interfaces s2) e outs
      /\ becomes (apply_heard (downstream s2) e (igmprt_interfaces s2)) (heard_db e (igmprt_membership_db s2)) outs s2 s') -> R r).
  { intros r (s' & outs & Hr & Ho & Hb). exists s', outs. split; [done|].
    rewrite (first_name_same _ _ (bc_setup _ _ _ _ _ He)), (bc_interfaces _ _ _ _ _ He) in Ho. split; [done|].
    rewrite Hdown, (bc_interfaces _ _ _ _ _ He), (bc_db _ _ _ _ _ He) in Hb. exact (extends_becomes _ _ _ _ _ _ _ He Hb). }
  destruct bad.
  { assert (Hdn : exists d ifd, downstream s2 = Some d /\ igmprt_interfaces s2 !! d = Some ifd).
    { rewrite (ro_downstream _ Hok2), (bc_interfaces _ _ _ _ _ He).
      destruct (list_find_elem_of (fun i => igmpi_type i = DOWNSTREAM) (igmprt_interfaces s) ifp) as [[d ifd] Hf]; [by apply (list_elem_of_lookup_2 _ j)|done|].
      rewrite Hf. exists d, ifd. split; [done|]. by apply list_find_Some in Hf as (? & _). }
    destruct Hdn as (d & ifd & Hdn & Hlook). destruct (misread_run s2 ifd d Hdn Hlook) as (s3 & Hr3 & He3).
    apply Hthen. rewrite Hmean. exists s3, []. split; [|by split]. eapply run_bind; [apply gets_run|]. rewrite Hdn. exact Hr3. }
  destruct (lookup_lt_is_Some_2 (dg_bytes dg) 0) as [v Hv]; [lia|]. eapply run_bind; [by apply in_bounds_run|]. rewrite Hv in Hmean. change (default 0 (Some v)) with v in Hmean.
  set (off := 4 * (v mod 16)) in *. assert (Hoff : 0 <= off) by (unfold off; pose proof (Z.mod_pos_bound v 16); lia).
  destruct (_ <? IGMP_MINLEN) eqn:Hmin; [by apply Hnothing|]. apply Z.ltb_ge in Hmin.
  set (src := of_be (take 4 (drop 12 (dg_bytes dg)))) in *.
  assert (Hsrc : addr_at (dg_bytes dg) 12 s2 = Ok src s2) by (unfold addr_at; rewrite load_ok by (cbn; lia); done).
  eapply run_bind; [exact Hsrc|]. unfold igmprt_interface_lookup_index. eapply run_bind; [by eapply run_bind; [apply gets_run|]|].
  rewrite (bc_interfaces _ _ _ _ _ He). destruct (list_find _ (igmprt_interfaces s)) as [[i ifpi]|] eqn:Hf; cbn [fmap option_fmap option_map fst]; [|by apply Hnothing].
  apply Hthen. rewrite Hmean, <- (bc_interfaces _ _ _ _ _ He).
  clearbody off. apply (handle_igmp_run i (dg_bytes dg) off src s2 ifpi); [|done|lia|done].
  rewrite (bc_interfaces _ _ _ _ _ He). by apply list_find_Some in Hf as (? & _).
Qed.

(** ** The sockets in order *)

Lemma hear_kind d es : forall ifs, Forall2 same_kind ifs (hear d es ifs).
Proof.
  induction es as [|e es IH]; intros ifs; [by apply Forall_Forall2_diag, Forall_true|]. etransitivity; [apply (apply_heard_kind d e)|apply IH].
Qed.
Lemma heard_ok_same ifs ifs' e : Forall2 same_kind ifs ifs' -> heard_ok ifs e -> heard_ok ifs' e.
Proof.
  intros H. destruct e; cbn; try done. intros (Hm & ifp & Hi & Hd). split; [done|].
  destruct (Forall2_lookup_l _ _ _ _ _ H Hi) as (ifp' & Hi' & (_ & _ & _ & H4)). exists ifp'. by rewrite H4.
Qed.
Lemma socket_meaning_ok ifs j r : Forall (heard_ok ifs) (socket_meaning ifs j r).
Proof. destruct r as [[[dg|]|]|]; try done. constructor; [apply datagram_meaning_ok|done]. Qed.
Lemma selected_meaning_ok ifs rest : forall j n ready, Forall (heard_ok ifs) (selected_meaning ifs rest j n ready).
Proof.
  induction rest as [|ifp rest IH]; intros j n ready; cbn [selected_meaning]; [done|]. case_decide; [|apply IH].
  apply Forall_app. split; [apply socket_meaning_ok|by destruct (_ =? 0)].
Qed.
Lemma hear_ok d es : forall ifs, Forall (heard_ok ifs) es -> Forall interface_ok ifs -> Forall interface_ok (hear d es ifs).
Proof.
  induction es as [|e es IH]; intros ifs He Hok; [done|]. apply Forall_cons in He as [He Hes]. apply IH; [|by apply apply_heard_ok].
  apply (Forall_weaken (heard_ok ifs)); [done|]. intros e'. apply heard_ok_same, apply_heard_kind.
Qed.
Lemma hear_db_ok es : forall db, Forall entry_ok db -> Forall entry_ok (hear_db es db).
Proof. induction es as [|e es IH]; intros db Hdb; [done|]. by apply IH, heard_db_ok. Qed.

Lemma hear_emits_app name d es es' : forall ifs o o',
  hear_emits name d ifs es o -> hear_emits name d (hear d es ifs) es' o' -> hear_emits name d ifs (es ++ es') (o ++ o').
Proof.
  induction es as [|e es IH]; intros ifs o o' H H'; cbn in *; [by subst|]. destruct H as (o1 & o2 & -> & H1 & H2).
  exists o1, (o2 ++ o'). rewrite <- app_assoc. split; [done|]. split; [done|]. by apply IH.
Qed.

Lemma socket_run ifs j r s ifp :
  Forall2 same_kind ifs (igmprt_interfaces s) -> igmprt_interfaces s !! j = Some ifp -> igmpi_type ifp = DOWNSTREAM -> router_ok s ->
  r <> Some (Some None) ->
  exists s1 o1, (match r with Some (Some recv) => igmprt_input j recv | _ => mret tt end) s = Ok tt s1
    /\ hear_emits (first_name s) (downstream s) (igmprt_interfaces s) (socket_meaning ifs j r) o1
    /\ becomes (hear (downstream s) (socket_meaning ifs j r) (igmprt_interfaces s)) (hear_db (socket_meaning ifs j r) (igmprt_membership_db s)) o1 s s1.
Proof.
  intros Hk Hi Ht Hok Hr. assert (Hidle : socket_meaning ifs j r = [] -> exists s1 o1, Ok tt s = Ok tt s1
    /\ hear_emits (first_name s) (downstream s) (igmprt_interfaces s) (socket_meaning ifs j r) o1
    /\ becomes (hear (downstream s) (socket_meaning ifs j r) (igmprt_interfaces s)) (hear_db (socket_meaning ifs j r) (igmprt_membership_db s)) o1 s s1).
  { intros ->. exists s, []. split; [done|]. split; [done|]. apply becomes_refl. }
  destruct r as [[[dg|]|]|]; [|done|by apply Hidle|by apply Hidle].
  destruct (input_run j dg s ifp Hi Ht Hok) as (s1 & o1 & Hrun & Ho & Hb). rewrite (datagram_meaning_same ifs _ j dg Hk) in Ho, Hb.
  exists s1, o1. split; [done|]. split; [|done]. exists o1, []. by rewrite app_nil_r.
Qed.

Lemma input_loop_run ifs m : forall j n ready s,
  Forall2 same_kind ifs (igmprt_interfaces s) -> (j + m = length ifs)%nat -> Forall (fun r => r <> Some None) ready -> router_ok s ->
  let es := selected_meaning ifs (drop j ifs) j n ready in
  exists s' outs, input_loop m j n ready s = Ok tt s'
    /\ hear_emits (first_name s) (downstream s) (igmprt_interfaces s) es outs
    /\ becomes (hear (downstream s) es (igmprt_interfaces s)) (hear_db es (igmprt_membership_db s)) outs s s'.
Proof.
  induction m as [|m IH]; intros j n ready s Hk Hj Hready Hok es; cbn [input_loop].
  { exists s, []. unfold es. rewrite drop_ge by lia. split; [done|]. split; [done|]. apply becomes_refl. }
  destruct (lookup_lt_is_Some_2 ifs j) as [ifp0 Hifp0]; [lia|].
  destruct (Forall2_lookup_l _ _ _ _ _ Hk Hifp0) as (ifp & Hifp & Hsame).
  assert (Hready' : Forall (fun r => r <> Some None) (tail ready)) by (destruct Hready; [done|done]).
  unfold es. rewrite (drop_S _ _ _ Hifp0). cbn [selected_meaning]. pose proof Hsame as (_ & _ & _ & Ht).
  destruct (decide (igmpi_type ifp0 = DOWNSTREAM)) as [Hd|Hd].
  2: { destruct (IH (S j) n ready s Hk ltac:(lia) Hready Hok) as (s' & outs & Hr & H). exists s', outs. split; [|exact H].
    eapply run_bind; [by apply get_if_run|]. by rewrite bool_decide_false by congruence. }
  rewrite Hd in Ht.
  destruct (socket_run ifs j (head ready) s ifp Hk Hifp Ht Hok) as (s1 & o1 & Hr1 & Ho1 & Hb1); [destruct Hready as [|r l Hr _]; [done|cbn; congruence]|].
  set (e1 := socket_meaning ifs j (head ready)) in *.
  assert (He1 : Forall (heard_ok (igmprt_interfaces s)) e1).
  { apply (Forall_weaken (heard_ok ifs)); [apply socket_meaning_ok|]. intros e. by apply heard_ok_same. }
  destruct (n - 1 =? 0) eqn:Hn.
  { exists s1, o1. rewrite app_nil_r. split; [|done]. eapply run_bind; [by apply get_if_run|]. rewrite bool_decide_true by done.
    eapply run_bind; [exact Hr1|done]. }
  destruct (IH (S j) (n - 1) (tail ready) s1) as (s2 & o2 & Hr2 & Ho2 & Hb2).
  - rewrite (bc_interfaces _ _ _ _ _ Hb1). etransitivity; [exact Hk|apply hear_kind].
  - lia.
  - done.
  - eapply router_ok_becomes; [exact Hok|exact Hb1|apply hear_kind| |apply hear_db_ok, Hok]. apply hear_ok; [done|apply Hok].
  - set (e2 := selected_meaning ifs (drop (S j) ifs) (S j) (n - 1) (tail ready)) in *.
    exists s2, (o1 ++ o2). split; [|split].
    + eapply run_bind; [by apply get_if_run|]. rewrite bool_decide_true by done. eapply run_bind; [exact Hr1|exact Hr2].
    + rewrite (first_name_same _ _ (bc_setup _ _ _ _ _ Hb1)), (bc_interfaces _ _ _ _ _ Hb1) in Ho2.
      assert (Hdn : downstream s1 = downstream s) by apply Hb1. rewrite Hdn in Ho2. clear -Ho1 Ho2. by eapply hear_emits_app.
    + unfold hear, hear_db. rewrite !fold_left_app.
      assert (Hdn : downstream s1 = downstream s) by apply Hb1. rewrite Hdn, (bc_interfaces _ _ _ _ _ Hb1), (bc_db _ _ _ _ _ Hb1) in Hb2.
      exact (becomes_trans _ _ _ _ _ _ _ _ _ Hb1 Hb2).
Qed.
End with_env.
