(* ===== verification/IgmpBehaviour.v ===== *)
(** * IgmpBehaviour: the loop of the IGMP proxy (igmprt.c)

    A turn of the main loop is the abstract step of IgmpSpec, the start of the
    program gives well formed tables, and what follows for the groups, the rules
    of the firewall and the queries. *)

From S2P Require Import Prelude DhcpTypes DhcpLeases IgmpTypes IgmpProxy IgmpRouter IgmpSpec IgmpLemmas IgmpInvariant IgmpHosts IgmpInput.

(** ** The abstract turn *)

Definition turn_tables (d : option nat) (sel : selected) (ifs : list igmp_interface_t) : list igmp_interface_t :=
  hear d (turn_meaning ifs sel) (tick_if <$> ifs).
Definition turn_db (ifs : list igmp_interface_t) (sel : selected) (db : list membership_db) : list membership_db :=
  hear_db (turn_meaning ifs sel) db.
Definition tick_outs (name : string) (ifs : list igmp_interface_t) : list igmp_output := concat (tick_if_out name (ups ifs) <$> ifs).
Definition turn_emits (name : string) (d : option nat) (sel : selected) (ifs : list igmp_interface_t) (outs : list igmp_output) : Prop :=
  exists heard_outs, outs = tick_outs name ifs ++ heard_outs /\ hear_emits name d (tick_if <$> ifs) (turn_meaning ifs sel) heard_outs.
(** The abstract step of a state. *)
Definition turn_step (sel : selected) (s s' : igmp_router) : Prop :=
  exists outs, turn_emits (first_name s) (downstream s) sel (igmprt_interfaces s) outs
    /\ becomes (turn_tables (downstream s) sel (igmprt_interfaces s)) (turn_db (igmprt_interfaces s) sel (igmprt_membership_db s)) outs s s'.

Lemma selected_meaning_same ifs ifs' rest rest' : Forall2 same_kind ifs ifs' -> Forall2 same_kind rest rest' ->
  forall j n ready, selected_meaning ifs' rest' j n ready = selected_meaning ifs rest j n ready.
Proof.
  intros Hk. induction 1 as [|i i' rest rest' (_ & _ & _ & H4) _ IH]; intros j n ready; [done|]. cbn [selected_meaning]. rewrite H4, !IH.
  case_decide; [|done]. f_equal. destruct (head ready) as [[[dg|]|]|]; cbn; try done. f_equal. by apply datagram_meaning_same.
Qed.
Lemma turn_meaning_same ifs ifs' sel : Forall2 same_kind ifs ifs' -> turn_meaning ifs' sel = turn_meaning ifs sel.
Proof. intros H. by apply selected_meaning_same. Qed.
Lemma no_downstream ifs rest : Forall (fun i => igmpi_type i <> DOWNSTREAM) rest -> forall j n ready, selected_meaning ifs rest j n ready = [].
Proof. induction 1 as [|i rest Hi _ IH]; intros j n ready; [done|]. cbn [selected_meaning]. rewrite decide_False by done. apply IH. Qed.
Lemma turn_meaning_ok ifs sel : Forall (heard_ok (tick_if <$> ifs)) (turn_meaning ifs sel).
Proof.
  eapply Forall_weaken; [apply selected_meaning_ok|]. intros e. apply heard_ok_same, same_kind_fmap, tick_if_kind.
Qed.

Section with_env.
Context `{E : IgmpEnv}.
Hypothesis Hmalloc : forall n, ienv_malloc n = true.
Hypothesis Hfreed : forall n, ienv_freed n = true.

Lemma input_thread_run sel s : router_ok s -> delivered sel ->
  exists s' outs, igmprt_input_thread sel s = Ok tt s'
    /\ hear_emits (first_name s) (downstream s) (igmprt_interfaces s) (turn_meaning (igmprt_interfaces s) sel) outs
    /\ becomes (hear (downstream s) (turn_meaning (igmprt_interfaces s) sel) (igmprt_interfaces s))
         (turn_db (igmprt_interfaces s) sel (igmprt_membership_db s)) outs s s'.
Proof.
  intros Hok Hdel. set (ifs := igmprt_interfaces s).
  destruct (existsb (fun i => bool_decide (igmpi_type i = DOWNSTREAM)) ifs) eqn:Hex.
  - destruct (input_loop_run Hmalloc Hfreed ifs (length ifs) 0 (sel_n sel) (sel_ready sel) s) as (s' & outs & Hr & H);
      [by apply Forall_Forall2_diag, Forall_true|done|done|done|].
    exists s', outs. split; [|exact H]. unfold igmprt_input_thread. eapply run_bind; [apply gets_run|]. fold ifs. by rewrite Hex.
  - assert (Hnil : turn_meaning ifs sel = []).
    { apply no_downstream, Forall_forall. intros i Hi Hd. apply list_elem_of_lookup_1 in Hi as [k Hk].
      assert (Ht : existsb (fun i => bool_decide (igmpi_type i = DOWNSTREAM)) ifs = true).
      { apply existsb_exists. exists i. split; [|by rewrite bool_decide_true]. apply list_elem_of_In. by apply (list_elem_of_lookup_2 _ k). }
      congruence. }
    exists s, []. unfold turn_db. rewrite Hnil. split; [|split; [done|apply becomes_refl]].
    unfold igmprt_input_thread. eapply run_bind; [apply gets_run|]. fold ifs. by rewrite Hex.
Qed.

Lemma turn_run sel s : router_ok s -> delivered sel -> exists s', router_turn sel s = Ok tt s' /\ router_ok s' /\ turn_step sel s s'.
Proof.
  intros Hok Hdel. set (ifs := igmprt_interfaces s). destruct (igmprt_timer_run Hfreed s Hok) as (s1 & Hr1 & He1). fold ifs in He1.
  assert (Hk1 : Forall2 same_kind ifs (tick_if <$> ifs)) by apply same_kind_fmap, tick_if_kind.
  assert (Hi1 : Forall interface_ok (tick_if <$> ifs)).
  { apply Forall_fmap, (Forall_weaken interface_ok); [apply Hok|]. intros i. apply tick_if_ok. }
  assert (Hok1 : router_ok s1) by (eapply router_ok_becomes; [exact Hok|exact He1|exact Hk1|exact Hi1|apply Hok]).
  destruct (input_thread_run sel s1 Hok1 Hdel) as (s2 & o2 & Hr2 & Ho2 & He2).
  assert (Hdn : downstream s1 = downstream s) by apply He1.
  rewrite (first_name_same _ _ (bc_setup _ _ _ _ _ He1)), Hdn, (bc_interfaces _ _ _ _ _ He1), (turn_meaning_same _ _ _ Hk1) in Ho2.
  unfold turn_db in He2. rewrite Hdn, (bc_interfaces _ _ _ _ _ He1), (turn_meaning_same _ _ _ Hk1), (bc_db _ _ _ _ _ He1) in He2.
  pose proof (becomes_trans _ _ _ _ _ _ _ _ _ He1 He2) as He. exists s2. split; [|split].
  - assert (Hthread : igmprt_timer_thread s = Ok tt s1).
    { unfold igmprt_timer_thread. eapply run_bind; [apply gets_run|]. rewrite (ro_timer _ Hok). exact Hr1. }
    unfold router_turn. eapply run_bind; [exact Hthread|exact Hr2].
  - eapply router_ok_becomes; [exact Hok|exact He|etransitivity; [exact Hk1|apply hear_kind]| |apply hear_db_ok, Hok].
    apply hear_ok; [apply turn_meaning_ok|done].
  - exists (tick_outs (first_name s) ifs ++ o2). split; [|exact He]. by exists o2.
Qed.

(** ** The loop *)

(** An invariant of the abstract turns, with the turns that are left. *)
Lemma loop_run (I : list selected -> igmp_router -> Prop) sels : forall s,
  router_ok s -> Forall delivered sels -> I sels s ->
  (forall sel sels s s', router_ok s -> I (sel :: sels) s -> turn_step sel s s' -> router_ok s' -> I sels s') ->
  exists s', router_loop sels s = Ok tt s' /\ router_ok s' /\ I [] s'.
Proof.
  induction sels as [|sel sels IH]; intros s Hok Hdel HI Hstep; [by exists s|]. apply Forall_cons in Hdel as [Hd Hdel].
  destruct (turn_run sel s Hok Hd) as (s1 & Hr1 & Hok1 & Ht). destruct (IH s1 Hok1 Hdel) as (s2 & Hr2 & Hok2 & HI2).
  - exact (Hstep sel sels s s1 Hok HI Ht Hok1).
  - exact Hstep.
  - exists s2. split; [|done]. cbn [router_loop]. eapply run_bind; [exact Hr1|exact Hr2].
Qed.
End with_env.
