(* ===== verification/IgmpMain.v ===== *)
(** * IgmpMain: the start and the whole run of the IGMP proxy (igmprt.c: main)

    The interfaces that are found give well formed, empty tables, and the loop
    keeps them well formed for ever, unless it reads a group that was freed and whose
    block the allocator has reused: the run is compared with the run of the same program
    whose freed blocks keep their contents ([cut]). *)

From S2P Require Import Prelude DhcpTypes IgmpTypes IgmpProxy IgmpRouter IgmpSpec IgmpLemmas IgmpInput IgmpBehaviour.

(** ** Memory that is read after it was freed *)

(** What a computation asks of the kernel is added at the end. *)
Definition grows {A} (m : IM A) : Prop := forall s a s', m s = Ok a s' -> exists outs, i_out s' = i_out s ++ outs.
Lemma grows_bind {A B} (m : IM A) (f : A -> IM B) : grows m -> (forall a, grows (f a)) -> grows (m ≫= f).
Proof.
  intros Hm Hf s b s' H. unfold mbind, M_bind in H. destruct (m s) as [a s1|] eqn:Ha; [|done].
  destruct (Hm _ _ _ Ha) as [o Ho]. destruct (Hf a _ _ _ H) as [o' Ho']. exists (o ++ o'). by rewrite Ho', Ho, app_assoc.
Qed.
Lemma grows_same {A} (m : IM A) : (forall s a s', m s = Ok a s' -> i_out s' = i_out s) -> grows m.
Proof. intros H s a s' Hm. exists []. rewrite app_nil_r. by eapply H. Qed.
Lemma grows_ret {A} (a : A) : grows (mret a).
Proof. apply grows_same. intros s b s' H. cbn in H. by injection H as <- <-. Qed.
Lemma grows_fail {A} f : grows (fail f : IM A).
Proof. by intros s a s' H. Qed.
Lemma grows_gets {A} (f : igmp_router -> A) : grows (gets f).
Proof. apply grows_same. intros s b s' H. cbn in H. by injection H as <- <-. Qed.
Lemma grows_modify f : (forall s, i_out (f s) = i_out s) -> grows (modify f).
Proof. intros Hf. apply grows_same. intros s b s' H. cbn in H. injection H as _ <-. apply Hf. Qed.
Lemma grows_deref {A} (o : option A) : grows (deref o : IM A).
Proof. destruct o; [apply grows_ret|apply grows_fail]. Qed.
Lemma grows_bounds {A} (o : option A) : grows (in_bounds o : IM A).
Proof. destruct o; [apply grows_ret|apply grows_fail]. Qed.
Lemma grows_out o : grows (igmp_out o).
Proof. intros s a s' H. cbn in H. injection H as <- <-. by exists [o]. Qed.
Lemma grows_isys {A} (f : nat -> A) : grows (isys f).
Proof. apply grows_same. intros s b s' H. cbn in H. by injection H as <- <-. Qed.
Lemma grows_fmap {A B} (f : A -> B) (m : IM A) : grows m -> grows (f <$> m).
Proof. intros Hm. apply (grows_bind m (fun a => mret (f a))); [done|]. intros. apply grows_ret. Qed.
Lemma grows_for_n n body : (forall j, grows (body j)) -> forall i, grows (for_n n i body).
Proof. intros Hb. induction n as [|n IH]; intros i; cbn [for_n]; [apply grows_ret|]. apply grows_bind; [apply Hb|]. intros. apply IH. Qed.
Create HintDb grows.
#[export] Hint Resolve grows_ret grows_fail grows_gets grows_deref grows_bounds grows_out grows_isys : grows.
(** Go through a computation: its steps, its tests and its matches. *)
Ltac grows_steps :=
  repeat first [ solve [auto with grows]
               | apply grows_for_n; intros ?
               | apply grows_bind; [|intros ?]
               | apply grows_fmap
               | apply grows_modify; intros ?; reflexivity
               | match goal with
                 | |- grows (when ?b _) => destruct b; cbn [when]
                 | |- grows (if ?b then _ else _) => destruct b
                 | |- grows (match ?x with _ => _ end) => destruct x
                 | |- grows (let _ := _ in _) => cbv zeta
                 end ].
Section operations.
Context `{E : IgmpEnv}.
Lemma grows_get_if j : grows (get_if j).
Proof. unfold get_if. grows_steps. Qed.
Lemma grows_put_if j f : grows (put_if j f).
Proof. unfold put_if. grows_steps. Qed.
#[local] Hint Resolve grows_get_if grows_put_if : grows.
Lemma grows_get_group j k : grows (get_group j k).
Proof. unfold get_group. grows_steps. Qed.
Lemma grows_put_group j k f : grows (put_group j k f).
Proof. unfold put_group. grows_steps. Qed.
#[local] Hint Resolve grows_get_group grows_put_group : grows.
Lemma grows_forward b n g : grows (run_forward b n g).
Proof. unfold run_forward. grows_steps. Qed.
#[local] Hint Resolve grows_forward : grows.
Lemma grows_cleanup j k : grows (igmp_group_cleanup j k).
Proof. unfold igmp_group_cleanup. grows_steps. Qed.
Lemma grows_freed_next : grows freed_next.
Proof. unfold freed_next. grows_steps. Qed.
Lemma grows_drop_upstream g : grows (drop_upstream g).
Proof. unfold drop_upstream. grows_steps. Qed.
#[local] Hint Resolve grows_cleanup grows_freed_next grows_drop_upstream : grows.
Lemma grows_timer_groups fuel : forall j k, grows (timer_groups fuel j k).
Proof. induction fuel as [|fuel IH]; intros j k; cbn [timer_groups]; grows_steps. Qed.
#[local] Hint Resolve grows_timer_groups : grows.
Lemma grows_rep_cleanup j k r : grows (igmp_rep_cleanup j k r).
Proof. unfold igmp_rep_cleanup. grows_steps. Qed.
#[local] Hint Resolve grows_rep_cleanup : grows.
Lemma grows_leave_groups fuel : forall j k src group d, grows (leave_groups fuel j k src group d).
Proof. induction fuel as [|fuel IH]; intros; cbn [leave_groups]; grows_steps. Qed.
#[local] Hint Resolve grows_leave_groups : grows.
Lemma grows_leave_interfaces n : forall j src group d, grows (leave_interfaces n j src group d).
Proof. induction n as [|n IH]; intros; cbn [leave_interfaces]; grows_steps. Qed.
#[local] Hint Resolve grows_leave_interfaces : grows.
Lemma grows_leave src group : grows (igmp_interface_membership_leave_v2 src group).
Proof. unfold igmp_interface_membership_leave_v2. grows_steps. Qed.
#[local] Hint Resolve grows_leave : grows.
Lemma grows_interface_lookup a : grows (igmprt_interface_lookup a).
Proof. unfold igmprt_interface_lookup. grows_steps. Qed.
Lemma grows_interface_lookup_index a : grows (igmprt_interface_lookup_index a).
Proof. unfold igmprt_interface_lookup_index. grows_steps. Qed.
#[local] Hint Resolve grows_interface_lookup grows_interface_lookup_index : grows.
Lemma grows_join g i : grows (join_upstream g i).
Proof. unfold join_upstream. grows_steps. Qed.
#[local] Hint Resolve grows_join : grows.
Lemma grows_group_create g : grows (igmp_group_create g).
Proof. unfold igmp_group_create. grows_steps. Qed.
#[local] Hint Resolve grows_group_create : grows.
Lemma grows_group_add j g : grows (igmp_interface_group_add j g).
Proof. unfold igmp_interface_group_add. grows_steps. Qed.
Lemma grows_rep_create a : grows (igmp_rep_create a).
Proof. unfold igmp_rep_create. grows_steps. Qed.
#[local] Hint Resolve grows_group_add grows_rep_create : grows.
Lemma grows_rep_add j k a : grows (igmp_group_rep_add j k a).
Proof. unfold igmp_group_rep_add. grows_steps. Qed.
Lemma grows_chg_loop n : forall j t s g o f, grows (chg_mfc_loop n j t s g o f).
Proof. induction n as [|n IH]; intros; cbn [chg_mfc_loop]; grows_steps. Qed.
#[local] Hint Resolve grows_rep_add grows_chg_loop : grows.
Lemma grows_chg s g o f : grows (k_proxy_chg_mfc s g o f).
Proof. unfold k_proxy_chg_mfc. grows_steps. Qed.
Lemma grows_set_sources l : forall i m, grows (set_sources i l m).
Proof. induction l as [|a l IH]; intros; cbn [set_sources]; [grows_steps|]. apply grows_bind; [unfold set_source; grows_steps|]. intros. apply IH. Qed.
#[local] Hint Resolve grows_chg grows_set_sources : grows.
Lemma grows_membership g f l : grows (create_membership g f l).
Proof. unfold create_membership. grows_steps. Qed.
Lemma grows_md_source m i : grows (md_source m i).
Proof. unfold md_source. grows_steps. Qed.
#[local] Hint Resolve grows_membership grows_md_source : grows.
Lemma grows_find_stored n : forall i a m, grows (find_stored n i a m).
Proof. induction n as [|n IH]; intros; cbn [find_stored]; grows_steps. Qed.
Lemma grows_stored_where n k : forall i m, grows (stored_where n i k m).
Proof. induction n as [|n IH]; intros; cbn [stored_where]; grows_steps. Qed.
#[local] Hint Resolve grows_find_stored grows_stored_where : grows.
Lemma grows_missing l m : grows (missing l m).
Proof. induction l as [|a l IH]; cbn [missing]; grows_steps. Qed.
Lemma grows_merge_new l : forall m, grows (merge_new l m).
Proof. induction l as [|a l IH]; intros; cbn [merge_new]; grows_steps. unfold set_source. grows_steps. Qed.
#[local] Hint Resolve grows_missing grows_merge_new : grows.
Lemma grows_merge f l m : grows (merge_membership f l m).
Proof. unfold merge_membership, replace_sources. grows_steps. Qed.
#[local] Hint Resolve grows_merge : grows.
Lemma grows_update g f l : grows (update_multi g f l).
Proof. unfold update_multi. grows_steps. Qed.
#[local] Hint Resolve grows_update : grows.
Lemma grows_isex j k : grows (igmp_group_handle_isex j k []).
Proof. unfold igmp_group_handle_isex. cbn [isex_exclude isex_include]. grows_steps. Qed.
#[local] Hint Resolve grows_isex : grows.
Lemma grows_report j src g : grows (igmp_interface_membership_report_v12 j src g).
Proof. unfold igmp_interface_membership_report_v12. grows_steps. Qed.
Lemma grows_query j g l src r : grows (receive_membership_query j g l src r).
Proof. unfold receive_membership_query. grows_steps. Qed.
Lemma grows_byte b o : grows (byte_at b o).
Proof. unfold byte_at. grows_steps. Qed.
Lemma grows_addr b o : grows (addr_at b o).
Proof. unfold addr_at. grows_steps. Qed.
#[local] Hint Resolve grows_report grows_query grows_byte grows_addr : grows.
Lemma grows_handle i b o n src : grows (handle_igmp i b o n src).
Proof. unfold handle_igmp. grows_steps. Qed.
#[local] Hint Resolve grows_handle : grows.
Lemma grows_input j r : grows (igmprt_input j r).
Proof. unfold igmprt_input. grows_steps. Qed.
#[local] Hint Resolve grows_input : grows.
Lemma grows_input_loop m : forall j n r, grows (input_loop m j n r).
Proof. induction m as [|m IH]; intros; cbn [input_loop]; grows_steps. Qed.
#[local] Hint Resolve grows_input_loop : grows.
Lemma grows_input_thread sel : grows (igmprt_input_thread sel).
Proof. unfold igmprt_input_thread. grows_steps. Qed.
Lemma grows_general_query i g : grows (igmprt_membership_query i g).
Proof. unfold igmprt_membership_query. grows_steps. Qed.
#[local] Hint Resolve grows_input_thread grows_general_query : grows.
Lemma grows_timer_interface j i : grows (timer_interface j i).
Proof. unfold timer_interface, igmprt_timer_querier, igmprt_timer_group. grows_steps. Qed.
#[local] Hint Resolve grows_timer_interface : grows.
Lemma grows_timer_thread : grows igmprt_timer_thread.
Proof. unfold igmprt_timer_thread, igmprt_timer. grows_steps. Qed.
#[local] Hint Resolve grows_timer_thread : grows.
Lemma grows_turn sel : grows (router_turn sel).
Proof. unfold router_turn. grows_steps. Qed.
#[local] Hint Resolve grows_turn : grows.
Lemma grows_loop sels : grows (router_loop sels).
Proof. induction sels as [|sel sels IH]; cbn [router_loop]; grows_steps. Qed.
End operations.

(** The same allocator, were a freed block to keep its contents. *)
Definition kept_memory (E : IgmpEnv) : IgmpEnv := {|
  ienv_malloc := ienv_malloc;
  ienv_freed _ := true;
  ienv_sockopt := ienv_sockopt;
  ienv_socket := ienv_socket;
  ienv_mtu := ienv_mtu;
  ienv_flags := ienv_flags;
  ienv_ifname := ienv_ifname;
  ienv_ifaddr := ienv_ifaddr
|}.
(** A group is removed on the way. *)
Definition removed (s s' : igmp_router) : Prop := exists outs name group, i_out s' = i_out s ++ outs /\ Forward false name group ∈ outs.
Definition removing {A} (m : IM A) : Prop := forall s a s', m s = Ok a s' -> removed s s'.
Create HintDb cut discriminated.
#[export] Hint Constants Opaque : cut.
Section freed.
Context (E : IgmpEnv).
(** The allocator did reuse a freed block. *)
Definition reused : Prop := exists n, ienv_freed n = false.
(** [m] is [m'], or it stops at the read of a freed block; [strict]: after it has removed a group. *)
Definition cut (strict : bool) {A} (m m' : IM A) : Prop := forall s, m s = m' s \/
  (m s = Err Use_after_free /\ reused /\ (strict = true -> match m' s with Ok _ s' => removed s s' | Err _ => True end)).
Lemma cut_refl b {A} (m : IM A) : cut b m m.
Proof. intros s. by left. Qed.
Lemma removed_grows s s1 s2 o : removed s s1 -> i_out s2 = i_out s1 ++ o -> removed s s2.
Proof. intros (outs & n & g & Ho & Hin) Ho2. exists (outs ++ o), n, g. rewrite Ho2, Ho, app_assoc. split; [done|]. apply elem_of_app. by left. Qed.
Lemma grows_removed s s1 s2 o : i_out s1 = i_out s ++ o -> removed s1 s2 -> removed s s2.
Proof. intros Ho (outs & n & g & Ho2 & Hin). exists (o ++ outs), n, g. rewrite Ho2, Ho, app_assoc. split; [done|]. apply elem_of_app. by right. Qed.
Lemma cut_bind b {A B} (m m' : IM A) (f f' : A -> IM B) : cut b m m' -> (forall a, cut b (f a) (f' a)) -> grows m' -> (forall a, grows (f' a)) -> cut b (m ≫= f) (m' ≫= f').
Proof.
  intros Hm Hf Hg Hgf s. unfold mbind, M_bind. destruct (Hm s) as [Heq|(Herr & Hr & Hrem)].
  - rewrite Heq. destruct (m' s) as [a s1|] eqn:Ha; [|by left]. destruct (Hf a s1) as [Heq'|(Herr & Hr & Hrem)]; [by left|right].
    split; [done|]. split; [done|]. intros Hb. specialize (Hrem Hb). destruct (f' a s1) as [c s2|]; [|done].
    destruct (Hg _ _ _ Ha) as [o Ho]. by eapply grows_removed.
  - right. rewrite Herr. split; [done|]. split; [done|]. intros Hb. specialize (Hrem Hb). destruct (m' s) as [a s1|]; [|done].
    destruct (f' a s1) as [c s2|] eqn:Hc; [|done]. destruct (Hgf a _ _ _ Hc) as [o Ho]. by eapply removed_grows.
Qed.
(** After a removal the rest needs none. *)
Lemma cut_after b {A B} (m : IM A) (f f' : A -> IM B) : removing m -> (forall a, cut false (f a) (f' a)) -> (forall a, grows (f' a)) -> cut b (m ≫= f) (m ≫= f').
Proof.
  intros Hm Hf Hg s. unfold mbind, M_bind. destruct (m s) as [a s1|] eqn:Ha; [|by left]. destruct (Hf a s1) as [Heq|(Herr & Hr & _)]; [by left|right].
  split; [done|]. split; [done|]. intros _. destruct (f' a s1) as [c s2|] eqn:Hc; [|done]. destruct (Hg a _ _ _ Hc) as [o Ho]. eapply removed_grows; [by eapply Hm|done].
Qed.
Lemma cut_weaken {A} (m m' : IM A) : cut true m m' -> cut false m m'.
Proof. intros H s. destruct (H s) as [|(H1 & H2 & _)]; [by left|right]. by split. Qed.
Lemma cut_for_n b n body body' : (forall j, cut b (body j) (body' j)) -> (forall j, grows (body' j)) -> forall i, cut b (for_n n i body) (for_n n i body').
Proof.
  intros Hb Hg. induction n as [|n IH]; intros i; cbn [for_n]; [apply cut_refl|]. apply cut_bind; [apply Hb|intros; apply IH|apply Hg|].
  intros. by apply grows_for_n.
Qed.
Lemma cut_freed_next : cut false (@freed_next E) (@freed_next (kept_memory E)).
Proof.
  intros s. unfold freed_next, isys, gets, modify, mbind, M_bind, mret, M_ret. cbn. destruct (ienv_freed (i_calls s)) eqn:Hf; [by left|right].
  split; [done|]. split; [by exists (i_calls s)|done].
Qed.
Lemma cleanup_removing j k : removing (igmp_group_cleanup j k).
Proof.
  intros s a s' H. unfold igmp_group_cleanup in H. unfold mbind, M_bind in H. destruct (get_group j k s) as [gp s1|] eqn:Hg; [|done].
  assert (Hs1 : s1 = s).
  { unfold get_group, get_if, mbind, M_bind, gets in Hg. destruct (igmprt_interfaces s !! j) as [ifp|]; [|done]. cbn in Hg. destruct (igmpi_groups ifp !! k); [|done]. by injection Hg. }
  subst s1. cbn in H. unfold run_forward in H. case_decide; [|done]. cbn in H. injection H as _ <-. eexists [_], _, _. split; [reflexivity|]. by left.
Qed.

(** Go through two computations that differ in the allocator. *)
Ltac cut_steps :=
  repeat first [ solve [eauto 2 with cut]
               | match goal with |- cut _ ?m ?m => apply cut_refl | |- cut _ (isys _) (isys _) => apply cut_refl end
               | match goal with |- cut _ (for_n _ _ _) _ => apply cut_for_n; [intros ?|intros ?; solve [grows_steps]] end
               | match goal with |- cut _ (mbind _ (igmp_group_cleanup _ _)) _ => apply cut_after end; [apply cleanup_removing|intros ?|intros ?; solve [grows_steps]]
               | match goal with |- cut _ (mbind _ _) _ => apply cut_bind; [|intros ?|solve [grows_steps]|intros ?; solve [grows_steps]] end
               | match goal with
                 | |- cut _ (when ?b _) _ => destruct b; cbn [when]
                 | |- cut _ (if ?b then _ else _) _ => destruct b
                 | |- cut _ (match ?x with _ => _ end) _ => destruct x
                 | |- cut _ (let _ := _ in _) _ => cbv zeta
                 end ].
#[local] Hint Resolve cut_freed_next : cut.
#[local] Hint Resolve grows_get_if grows_put_if grows_get_group grows_put_group grows_forward grows_cleanup grows_freed_next grows_drop_upstream grows_timer_groups grows_rep_cleanup
  grows_leave_groups grows_leave_interfaces grows_leave grows_report grows_query grows_byte grows_addr grows_handle grows_input grows_input_loop grows_input_thread
  grows_general_query grows_timer_interface grows_timer_thread grows_turn grows_loop grows_interface_lookup_index
  grows_join grows_group_create grows_group_add grows_rep_create grows_rep_add grows_chg_loop grows_chg grows_set_sources grows_membership grows_md_source grows_merge grows_update grows_isex grows_interface_lookup : grows.
Abbreviation E' := (kept_memory E).
Lemma cut_drop_upstream b g : cut b (@drop_upstream E g) (@drop_upstream E' g).
Proof. unfold drop_upstream, for_interfaces. cut_steps. Qed.
#[local] Hint Resolve cut_drop_upstream : cut.
Lemma cut_join b g i : cut b (@join_upstream E g i) (@join_upstream E' g i).
Proof. unfold join_upstream. cut_steps. Qed.
#[local] Hint Resolve cut_join : cut.
Lemma cut_group_add b j g : cut b (@igmp_interface_group_add E j g) (@igmp_interface_group_add E' j g).
Proof. unfold igmp_interface_group_add, igmp_group_create, for_interfaces. cut_steps. Qed.
Lemma cut_rep_add b j k a : cut b (@igmp_group_rep_add E j k a) (@igmp_group_rep_add E' j k a).
Proof. unfold igmp_group_rep_add, igmp_rep_create. cut_steps. Qed.
Lemma cut_chg_loop n : forall b j t s g o f, cut b (@chg_mfc_loop E n j t s g o f) (@chg_mfc_loop E' n j t s g o f).
Proof. induction n as [|n IH]; intros; cbn [chg_mfc_loop]; cut_steps. Qed.
#[local] Hint Resolve cut_group_add cut_rep_add cut_chg_loop : cut.
Lemma cut_chg b s g o f : cut b (@k_proxy_chg_mfc E s g o f) (@k_proxy_chg_mfc E' s g o f).
Proof. unfold k_proxy_chg_mfc. cut_steps. Qed.
Lemma cut_update b g f l : cut b (@update_multi E g f l) (@update_multi E' g f l).
Proof. unfold update_multi, create_membership. cut_steps. Qed.
#[local] Hint Resolve cut_chg cut_update : cut.
Lemma cut_isex b j k : cut b (@igmp_group_handle_isex E j k []) (@igmp_group_handle_isex E' j k []).
Proof. unfold igmp_group_handle_isex. cbn [isex_exclude isex_include]. cut_steps. Qed.
#[local] Hint Resolve cut_isex : cut.
Lemma cut_report b j src g : cut b (@igmp_interface_membership_report_v12 E j src g) (@igmp_interface_membership_report_v12 E' j src g).
Proof. unfold igmp_interface_membership_report_v12. cut_steps. Qed.
#[local] Hint Resolve cut_report : cut.
Lemma cut_timer_groups fuel : forall b j k, cut b (@timer_groups E fuel j k) (@timer_groups E' fuel j k).
Proof. induction fuel as [|fuel IH]; intros b j k; cbn [timer_groups]; cut_steps. Qed.
Lemma cut_leave_groups fuel : forall b j k src group d, cut b (@leave_groups E fuel j k src group d) (@leave_groups E' fuel j k src group d).
Proof. induction fuel as [|fuel IH]; intros; cbn [leave_groups]; cut_steps. Qed.
#[local] Hint Resolve cut_timer_groups cut_leave_groups : cut.
Lemma cut_leave_interfaces n : forall b j src group d, cut b (@leave_interfaces E n j src group d) (@leave_interfaces E' n j src group d).
Proof. induction n as [|n IH]; intros; cbn [leave_interfaces]; cut_steps. Qed.
#[local] Hint Resolve cut_leave_interfaces : cut.
Lemma cut_leave b src group : cut b (@igmp_interface_membership_leave_v2 E src group) (@igmp_interface_membership_leave_v2 E' src group).
Proof. unfold igmp_interface_membership_leave_v2. cut_steps. Qed.
#[local] Hint Resolve cut_leave : cut.
Lemma cut_handle b i bs o n src : cut b (@handle_igmp E i bs o n src) (@handle_igmp E' i bs o n src).
Proof. unfold handle_igmp. cut_steps. Qed.
#[local] Hint Resolve cut_handle : cut.
Lemma cut_input b j r : cut b (@igmprt_input E j r) (@igmprt_input E' j r).
Proof. unfold igmprt_input. cut_steps. Qed.
#[local] Hint Resolve cut_input : cut.
Lemma cut_input_loop m : forall b j n r, cut b (@input_loop E m j n r) (@input_loop E' m j n r).
Proof. induction m as [|m IH]; intros; cbn [input_loop]; cut_steps. Qed.
#[local] Hint Resolve cut_input_loop : cut.
Lemma cut_input_thread b sel : cut b (@igmprt_input_thread E sel) (@igmprt_input_thread E' sel).
Proof. unfold igmprt_input_thread. cut_steps. Qed.
Lemma cut_timer_interface b j i : cut b (@timer_interface E j i) (@timer_interface E' j i).
Proof. unfold timer_interface, igmprt_timer_group. cut_steps. Qed.
#[local] Hint Resolve cut_input_thread cut_timer_interface : cut.
Lemma cut_timer_thread b : cut b (@igmprt_timer_thread E) (@igmprt_timer_thread E').
Proof.
  unfold igmprt_timer_thread, igmprt_timer, for_interfaces. cut_steps.
Qed.
#[local] Hint Resolve cut_timer_thread : cut.
Lemma cut_turn b sel : cut b (@router_turn E sel) (@router_turn E' sel).
Proof. unfold router_turn. cut_steps. Qed.
#[local] Hint Resolve cut_turn : cut.
Lemma cut_loop b sels : cut b (@router_loop E sels) (@router_loop E' sels).
Proof. induction sels as [|sel sels IH]; cbn [router_loop]; cut_steps. Qed.
End freed.

(** ** The state while the program starts *)

Definition not_forward (o : igmp_output) : Prop := match o with Forward _ _ _ => False | _ => True end.
Record begun (s : igmp_router) : Prop := {
  bg_interfaces : Forall (fun i => interface_ok i /\ igmpi_groups i = []) (igmprt_interfaces s);
  bg_addresses : NoDup (igmpi_addr <$> igmprt_interfaces s);
  bg_db : igmprt_membership_db s = [];
  bg_names : Forall (fun n => (String.length n < 8)%nat) (upstream_interface s);
  bg_out : Forall not_forward (i_out s);
  bg_running : igmprt_running s = false
}.

Lemma begun_begin : begun router_begin.
Proof. split; try done; [constructor|by apply Forall_replicate; cbn; lia]. Qed.

Section with_env.
Context `{E : IgmpEnv, L : !IgmpLaws E}.
Hypothesis Hindex : forall n, ienv_ifname n 32 = None.

Lemma begun_calls n s : begun s -> begun (set_i_calls n s).
Proof. intros []. by split. Qed.
Lemma begun_out o s : begun s -> not_forward o -> begun (set_i_out (i_out s ++ [o]) s).
Proof. intros [] Ho. split; try done. apply Forall_app. by repeat constructor. Qed.
Lemma wp_isys {A} (f : nat -> A) (Q : A -> igmp_router -> Prop) s : begun s -> (forall s', begun s' -> Q (f (i_calls s)) s') -> wp (isys f) Q s.
Proof. intros Hg HQ. unfold isys. wp_steps. by apply HQ, begun_calls. Qed.
Lemma wp_out o (Q : unit -> igmp_router -> Prop) s : not_forward o -> begun s -> (forall s', begun s' -> Q tt s') -> wp (igmp_out o) Q s.
Proof. intros Ho Hg HQ. unfold igmp_out. wp_steps. by apply HQ, begun_out. Qed.

Lemma copy_names_begun args : forall i s, (i + length args <= 10)%nat -> Forall (fun a => (String.length a < 8)%nat) args -> begun s ->
  wp (copy_names i args) (fun _ => begun) s.
Proof.
  induction args as [|a args IH]; intros i s Hi Ha Hg; cbn [copy_names]; [by apply wp_ret|]. apply Forall_cons in Ha as [Ha Has]. cbn in Hi.
  apply wp_bind. rewrite decide_True by lia. apply wp_modify. apply IH; [lia|done|]. destruct Hg. split; try done. by apply Forall_insert.
Qed.

Lemma init_begun s : begun s -> wp igmprt_init (fun _ => begun) s.
Proof.
  intros Hg. unfold igmprt_init. apply wp_bind, wp_modify. apply wp_bind, wp_isys.
  { destruct Hg. split; try done; by constructor. }
  intros s' Hg'. wp_step; [apply wp_die|]. apply wp_bind, wp_isys; [done|]. intros s2 Hg2. wp_step; [apply wp_die|by apply wp_ret].
Qed.

Definition listed_ok (l : interface_list_t) : Prop := (String.length (ifl_name l) < 16)%nat /\ 0 <= ifl_index l < 32.
Lemma interface_loop_begun n : forall i s, 0 <= i -> i + Z.of_nat n <= 33 -> begun s ->
  wp (interface_loop n i) (fun l s' => Forall listed_ok l /\ begun s') s.
Proof.
  induction n as [|n IH]; intros i s Hi Hn Hg; cbn [interface_loop]; [by apply wp_ret|]. apply wp_bind, wp_isys; [done|]. intros s1 Hg1.
  destruct (ienv_ifname (i_calls s) i) as [p|] eqn:Hp; [|apply IH; [lia|lia|done]].
  wp_step; [apply IH; [lia|lia|done]|]. unfold upstream_interface_lookup. apply wp_bind, wp_bind, wp_gets, wp_ret.
  wp_step; [apply IH; [lia|lia|done]|]. apply wp_bind, wp_isys; [done|]. intros s2 Hg2. apply wp_bind, wp_isys; [done|]. intros s3 Hg3.
  apply wp_bind. eapply wp_mono; [apply IH; [lia|lia|done]|]. intros l s4 [Hl Hg4]. apply wp_ret. split; [|done].
  destruct (ienv_malloc _); [|done]. constructor; [|done]. split; [by eapply ienv_ifname_length|]. cbn.
  assert (i <> 32) by (intros ->; by rewrite Hindex in Hp). lia.
Qed.

Lemma interface_create_begun addr name index s : (String.length name < 16)%nat -> 0 <= index < 32 -> begun s ->
  wp (igmp_interface_create addr name index) (fun r s' => begun s' /\ igmprt_interfaces s' = igmprt_interfaces s
    /\ match r with Some i => interface_ok i /\ igmpi_groups i = [] /\ igmpi_addr i = addr | None => True end) s.
Proof.
  intros Hn Hi Hg. set (Q := fun s' => begun s' /\ igmprt_interfaces s' = igmprt_interfaces s). assert (HQ : Q s) by done.
  assert (Hisys : forall A (f : nat -> A) s1 (P : A -> igmp_router -> Prop), Q s1 -> (forall s2, Q s2 -> P (f (i_calls s1)) s2) -> wp (isys f) P s1).
  { intros A f s1 P [HB Hs] HP. unfold isys. wp_steps. apply HP. split; [by apply begun_calls|done]. }
  assert (Hout : forall o s1 (P : unit -> igmp_router -> Prop), not_forward o -> Q s1 -> (forall s2, Q s2 -> P tt s2) -> wp (igmp_out o) P s1).
  { intros o s1 P Ho [HB Hs] HP. unfold igmp_out. wp_steps. apply HP. split; [by apply begun_out|done]. }
  unfold igmp_interface_create. apply wp_bind, Hisys; [done|]. intros s1 H1. wp_step; [apply wp_ret; by destruct H1|].
  apply wp_bind, Hisys; [done|]. intros s2 H2. apply wp_bind, Hisys; [done|]. intros s3 H3. wp_step; [apply wp_ret; by destruct H3|].
  apply wp_bind, Hisys; [done|]. intros s4 H4. wp_step; [apply wp_ret; by destruct H4|].
  apply wp_bind. apply (wp_mono _ (fun _ => Q)).
  { apply wp_when; [|done]. intros _. by apply Hout. }
  intros _ s5 H5. apply wp_bind, Hisys; [done|]. intros s6 H6. apply wp_bind. apply (wp_mono _ (fun _ => Q)).
  { apply wp_when; [|done]. intros _. apply wp_bind, Hout; [done|done|]. intros s7 H7. apply wp_bind, Hisys; [done|]. intros s8 H8.
    apply wp_when; [|done]. intros _. by apply Hout. }
  intros _ s9 [H9 H9']. apply wp_ret. split; [done|]. split; [done|]. split; [|done]. split; try done; cbn; try (constructor || lia).
Qed.

Lemma add_interfaces_begun l : forall s, Forall listed_ok l -> begun s -> wp (add_interfaces l) (fun _ => begun) s.
Proof.
  induction l as [|i l IH]; intros s Hl Hg; cbn [add_interfaces]; [by apply wp_ret|]. apply Forall_cons in Hl as [[Hn Hi] Hl].
  apply wp_bind. apply (wp_mono _ (fun _ => begun)).
  - unfold igmprt_interface_add, igmprt_interface_lookup. apply wp_bind, wp_bind, wp_gets, wp_ret.
    destruct (list_find _ (igmprt_interfaces s)) as [[k x]|] eqn:Hf; cbn [fmap option_fmap option_map]; [by apply wp_ret|].
    apply wp_bind. eapply wp_mono; [by apply interface_create_begun|]. intros [ifp|] s1 (Hg1 & Hs & Hr); [|by apply wp_ret].
    destruct Hr as (Hok & Hgr & Ha). apply wp_modify. destruct Hg1. split; try done; cbn.
    + by constructor.
    + apply NoDup_cons. split; [|done]. rewrite Hs, Ha. intros Hin. apply list_elem_of_fmap in Hin as (y & Hy & Hin).
      apply list_find_None in Hf. rewrite Forall_forall in Hf. by apply (Hf y Hin).
  - intros _ s1 Hg1. apply wp_bind. unfold k_proxy_add_vif. apply wp_bind, wp_out; [done|done|]. intros s2 Hg2. apply wp_isys; [done|].
    intros s3 Hg3. by apply IH.
Qed.

(** The program has started: well formed tables without a group. *)
Record started (s : igmp_router) : Prop := {
  st_ok : router_ok s;
  st_empty : Forall (fun i => igmpi_groups i = []) (igmprt_interfaces s);
  st_out : Forall not_forward (i_out s)
}.

Lemma main_started args : (length args <= 10)%nat -> Forall (fun a => (String.length a < 8)%nat) args ->
  wp (router_main args) (fun _ => started) router_begin.
Proof.
  intros Hlen Hargs. unfold router_main.
  apply wp_bind. eapply wp_mono; [by apply copy_names_begun, begun_begin|]. intros [] s1 Hg1.
  apply wp_bind. eapply wp_mono; [by apply init_begun|]. intros [] s2 Hg2.
  apply wp_bind. apply (wp_mono _ (fun l s' => Forall listed_ok l /\ begun s')).
  { unfold get_interface_list. apply wp_bind, wp_isys; [done|]. intros s3 Hg3. wp_step; [by apply interface_loop_begun|by apply wp_ret]. }
  intros l s4 [Hl Hg4]. apply wp_bind. eapply wp_mono; [by apply add_interfaces_begun|]. intros [] s5 [H1 H2 H3 H4 H5 H6].
  apply wp_bind. unfold igmprt_start. apply wp_bind, wp_gets. rewrite H6. apply wp_modify, wp_modify. split; [|cbn|done].
  - split; try done; cbn; [|by rewrite H3]. by apply (Forall_weaken _ _ _ H1); intros i [? _].
  - by apply (Forall_weaken _ _ _ H1); intros i [_ ?].
Qed.

(** ** The whole run *)

(** What holds unless the program has read a block after its release, which the allocator
    has reused. *)
Definition unless_reused {A} (r : res igmp_router A) (Q : A -> igmp_router -> Prop) : Prop :=
  match r with Ok a s' => Q a s' | Err f => f = Use_after_free /\ reused E end.
Lemma cut_run b {A} (m m' : IM A) (Q : A -> igmp_router -> Prop) s a s' : cut E b m m' -> m' s = Ok a s' -> Q a s' -> unless_reused (m s) Q.
Proof. intros Hc Hr HQ. unfold unless_reused. destruct (Hc s) as [->|(-> & H & _)]; [by rewrite Hr|done]. Qed.
(** The same for the whole program, which may exit at its start. *)
Definition exits_or_reused {A} (r : res igmp_router A) (Q : A -> igmp_router -> Prop) : Prop :=
  match r with Ok a s' => Q a s' | Err f => f = Died \/ (f = Use_after_free /\ reused E) end.

Lemma unless_reused_mono {A} (r : res igmp_router A) (P Q : A -> igmp_router -> Prop) : unless_reused r P -> (forall a s, P a s -> Q a s) -> unless_reused r Q.
Proof. destruct r; cbn; auto. Qed.
Lemma exits_or_reused_mono {A} (r : res igmp_router A) (P Q : A -> igmp_router -> Prop) : exits_or_reused r P -> (forall a s, P a s -> Q a s) -> exits_or_reused r Q.
Proof. destruct r; cbn; auto. Qed.

Section allocator.
Hypothesis Hmalloc : forall n, ienv_malloc n = true.

(** The loop, with an invariant of the abstract turns. *)
Lemma loop_unless_reused (I : list selected -> igmp_router -> Prop) sels s : router_ok s -> Forall delivered sels -> I sels s ->
  (forall sel sels s s', router_ok s -> I (sel :: sels) s -> turn_step sel s s' -> router_ok s' -> I sels s') ->
  unless_reused (router_loop sels s) (fun _ s' => router_ok s' /\ I [] s').
Proof.
  intros Hok Hdel HI Hstep. destruct (loop_run (E := kept_memory E) Hmalloc (fun _ => eq_refl) I sels s Hok Hdel HI Hstep) as (s' & Hr & HQ).
  eapply (cut_run false); [apply cut_loop|exact Hr|exact HQ].
Qed.
Lemma whole_run args sels (I : list selected -> igmp_router -> Prop) :
  (length args <= 10)%nat -> Forall (fun a => (String.length a < 8)%nat) args -> Forall delivered sels ->
  (forall s, started s -> I sels s) ->
  (forall sel sels s s', router_ok s -> I (sel :: sels) s -> turn_step sel s s' -> router_ok s' -> I sels s') ->
  exits_or_reused ((router_main args;; router_loop sels) router_begin) (fun _ s => router_ok s /\ I [] s).
Proof.
  intros Hlen Hargs Hdel HI Hstep. pose proof (main_started args Hlen Hargs) as Hm. unfold wp in Hm. unfold exits_or_reused, mbind, M_bind.
  destruct (router_main args router_begin) as [[] s|f]; [|by left]. pose proof (loop_unless_reused I sels s (st_ok _ Hm) Hdel (HI s Hm) Hstep) as Hl.
  unfold unless_reused in Hl. destruct (router_loop sels s); [done|by right].
Qed.
End allocator.
End with_env.
