(* ===== verification/IgmpResults.v ===== *)
(** * IgmpResults: what the IGMP proxy promises (igmprt.c, igmpv2.c)

    The refinement of the turns, the invariant of the whole run, and three
    consequences: groups that nobody reports expire, the rules of the firewall
    follow the groups, and the general queries go on. *)

From S2P Require Import Prelude DhcpTypes IgmpTypes IgmpProxy IgmpRouter IgmpSpec IgmpLemmas IgmpInvariant IgmpHosts IgmpInput IgmpBehaviour IgmpMain.

(** ** Groups that nobody reports *)

Definition timer_bound (group k : Z) (ifs : list igmp_interface_t) : Prop :=
  Forall (fun i => Forall (fun g => igmpg_addr g = group -> igmpg_timer g <= k) (igmpi_groups i)) ifs.
(** Nobody reports the group in the turn. *)
Definition not_reported (group : Z) (e : heard) : Prop := match e with Reported _ _ g => g <> group | _ => True end.

Lemma tick_bound group k ifs : group <> IGMP_ALL_ROUTERS -> Forall interface_ok ifs -> timer_bound group (k + 1) ifs -> timer_bound group k (tick_if <$> ifs).
Proof.
  intros Hg Hok Hb. apply Forall_fmap, Forall_forall. intros i Hi. unfold timer_bound in Hb. rewrite Forall_forall in Hok, Hb.
  specialize (Hok i Hi). specialize (Hb i Hi). cbn. unfold tick_if. case_decide as Hd; cbn.
  - eapply Forall_omap; [apply Forall_and; split; [exact (io_groups _ Hok)|exact Hb]|]. intros g g' [Hgok Hgb] Ht Ha.
    rewrite (tick_group_addr _ _ Ht) in Ha. specialize (Hgb Ha). unfold tick_group in Ht. pose proof (go_timer _ Hgok).
    destruct (_ =? IGMP_ALL_ROUTERS) eqn:Hall; [apply Z.eqb_eq in Hall; congruence|]. destruct (0 <? _) eqn:Hp; [|lia].
    destruct (_ - 1 =? 0); [done|]. injection Ht as <-. cbn. lia.
  - rewrite (io_upstream _ Hok) by (by destruct (igmpi_type i)). constructor.
Qed.

Lemma heard_bound group k d e ifs : not_reported group e -> timer_bound group k ifs -> timer_bound group k (apply_heard d e ifs).
Proof.
  intros He Hb. unfold timer_bound in *. destruct e as [|i src g0|src g0|i src|]; cbn in *.
  - done.
  - apply Forall_alter_lookup; [done|]. intros ifp _ Hi. unfold report_if. case_decide; cbn.
    + apply Forall_fmap, (Forall_weaken _ _ _ Hi). intros g Hg. cbn. destruct (igmpg_addr g =? g0) eqn:Ha; [|done]. apply Z.eqb_eq in Ha. cbn. congruence.
    + constructor; [cbn; congruence|done].
  - apply Forall_fmap, (Forall_weaken _ _ _ Hb). intros i Hi. cbn. unfold leave_if. case_decide; [|done]. cbn.
    eapply Forall_omap; [exact Hi|]. intros g g' Hg Hl Ha. rewrite (leave_group_addr _ _ _ _ Hl) in Ha. specialize (Hg Ha).
    unfold leave_group in Hl. destruct (_ =? g0); [|by injection Hl as <-]. destruct (filter _ _); [done|]. by injection Hl as <-.
  - apply Forall_alter_lookup; [done|]. intros ifp _ Hi. by destruct (src <? igmpi_addr ifp).
  - destruct d as [d|]; [|done]. by apply Forall_alter_lookup.
Qed.
Lemma hear_bound group k d es : forall ifs, Forall (not_reported group) es -> timer_bound group k ifs -> timer_bound group k (hear d es ifs).
Proof. induction es as [|e es IH]; intros ifs He Hb; [done|]. apply Forall_cons in He as [He Hes]. by apply IH, heard_bound. Qed.

(** ** The rules of the firewall *)

(** The rules that accept a group from an interface: inserted less deleted. *)
Definition rule_weight (name : string) (group : Z) (o : igmp_output) : Z :=
  match o with
  | Forward insert n g => if decide (n = name /\ g = group) then (if insert : bool then 1 else -1) else 0
  | _ => 0
  end.
Fixpoint rules (name : string) (group : Z) (outs : list igmp_output) : Z :=
  match outs with [] => 0 | o :: outs' => rule_weight name group o + rules name group outs' end.
Fixpoint zsum (l : list Z) : Z := match l with [] => 0 | x :: l' => x + zsum l' end.
Definition held_groups (group : Z) (gs : list igmp_group_t) : Z := Z.of_nat (length (filter (fun g => igmpg_addr g = group) gs)).
Definition held (group : Z) (ifs : list igmp_interface_t) : Z := zsum ((fun i => held_groups group (igmpi_groups i)) <$> ifs).

Lemma rules_app name group o o' : rules name group (o ++ o') = rules name group o + rules name group o'.
Proof. induction o as [|x o IH]; cbn; [done|]. rewrite IH. lia. Qed.
Lemma rules_none name group o : Forall not_forward o -> rules name group o = 0.
Proof. induction 1 as [|x o Hx _ IH]; [done|]. cbn. rewrite IH. by destruct x. Qed.
Lemma rules_concat {A} name group (f : A -> list igmp_output) l : rules name group (concat (f <$> l)) = zsum ((fun x => rules name group (f x)) <$> l).
Proof. induction l as [|x l IH]; [done|]. cbn. by rewrite rules_app, IH. Qed.
Lemma zsum_ext {A} (f g h : A -> Z) l : Forall (fun x => f x = g x + h x) l -> zsum (f <$> l) = zsum (g <$> l) + zsum (h <$> l).
Proof. induction 1 as [|x l Hx _ IH]; [done|]. cbn. rewrite Hx, IH. lia. Qed.
Lemma held_cons group g gs : held_groups group (g :: gs) = (if decide (igmpg_addr g = group) then 1 else 0) + held_groups group gs.
Proof. unfold held_groups. rewrite filter_cons. case_decide; cbn [length]; lia. Qed.

Lemma drops_quiet us g : Forall not_forward (drops us g).
Proof. unfold drops. destruct (VALID_ADDR g); [|done]. apply Forall_fmap, Forall_true. done. Qed.

(** A second: each group that expires loses its rule. *)
Lemma tick_groups_rules name us group gs :
  held_groups group (omap tick_group gs) = held_groups group gs + rules name group (concat (tick_group_out name us <$> gs)).
Proof.
  induction gs as [|g gs IH]; [done|]. rewrite fmap_cons. cbn [omap list_omap concat]. rewrite rules_app, held_cons, (tick_group_out_eq _ _ g).
  destruct (tick_group g) as [g'|] eqn:Ht.
  - rewrite held_cons, (tick_group_addr _ _ Ht), IH. cbn [rules]. lia.
  - cbn [rules rule_weight]. rewrite (rules_none _ _ _ (drops_quiet us (igmpg_addr g))), IH. repeat case_decide; try lia; naive_solver.
Qed.
Lemma tick_rules name group ifs : held group (tick_if <$> ifs) = held group ifs + rules name group (tick_outs name ifs).
Proof.
  unfold held, tick_outs. rewrite rules_concat, <- list_fmap_compose. apply zsum_ext, Forall_true. intros i. unfold compose, tick_if, tick_if_out.
  case_decide; cbn [igmpi_groups set_igmpi_groups]; [|cbn; lia]. rewrite rules_app, (tick_groups_rules name (ups ifs)).
  assert (Hq : rules name group (if query_due i then [general_query i] else []) = 0) by (by destruct (query_due i)). rewrite Hq. lia.
Qed.

(** A leave: each group without members loses its rule. *)
Lemma leave_groups_rules name src g0 group gs :
  held_groups group (omap (leave_group src g0) gs) = held_groups group gs + rules name group (removals name g0 (gone src g0 gs)).
Proof.
  induction gs as [|g gs IH]; [done|]. cbn [omap list_omap]. unfold gone. rewrite filter_cons. fold (gone src g0 gs). rewrite held_cons.
  destruct (leave_group src g0 g) as [g'|] eqn:Hl.
  - destruct (decide (Some g' = None)) as [?|_]; [done|]. rewrite held_cons, (leave_group_addr _ _ _ _ Hl), IH. lia.
  - assert (Ha : igmpg_addr g = g0) by (unfold leave_group in Hl; destruct (_ =? g0) eqn:E0; [by apply Z.eqb_eq in E0|done]).
    destruct (decide (@None igmp_group_t = None)) as [_|?]; [|done]. cbn [removals fmap list_fmap rules rule_weight]. fold (removals name g0 (gone src g0 gs)). rewrite IH.
    repeat case_decide; try lia; naive_solver.
Qed.
Lemma removals_concat name g0 (ls : list (list igmp_group_t)) : removals name g0 (concat ls) = concat (removals name g0 <$> ls).
Proof. induction ls as [|l ls IH]; [done|]. unfold removals in *. cbn. by rewrite fmap_app, IH. Qed.
Lemma leave_rules name src g0 group ifs :
  held group (leave_if src g0 <$> ifs) = held group ifs + rules name group (removals name g0 (concat (emptied src g0 <$> ifs))).
Proof.
  rewrite removals_concat, <- list_fmap_compose, rules_concat. unfold held. rewrite <- list_fmap_compose. apply zsum_ext, Forall_true.
  intros i. unfold compose, leave_if, emptied. case_decide; [apply leave_groups_rules|]. cbn. lia.
Qed.

Lemma zsum_alter {A} (f : A -> Z) (h : A -> A) (l : list A) (i : nat) x : l !! i = Some x -> zsum (f <$> alter h i l) = zsum (f <$> l) + (f (h x) - f x).
Proof.
  revert i. induction l as [|y l IH]; intros [|i] Hi; try done; cbn in *; [injection Hi as ->; lia|]. rewrite (IH i Hi). lia.
Qed.
Lemma alter_none {A} (h : A -> A) (l : list A) (i : nat) : l !! i = None -> alter h i l = l.
Proof. revert i. induction l as [|y l IH]; intros [|i] Hi; try done; cbn in *. f_equal. by apply IH. Qed.
Lemma held_alter group h i ifs : (forall ifp, igmpi_groups (h ifp) = igmpi_groups ifp) -> held group (alter h i ifs) = held group ifs.
Proof.
  intros Hh. unfold held. destruct (ifs !! i) as [x|] eqn:Hi; [rewrite (zsum_alter _ _ _ _ x) by done; rewrite Hh; lia|].
  by rewrite alter_none.
Qed.

(** A report: a group that is new to the interface gets its rule. *)
Lemma report_held src g0 group ifp :
  held_groups group (igmpi_groups (report_if src g0 ifp))
  = held_groups group (igmpi_groups ifp) + (if decide (holds g0 ifp) then 0 else if decide (g0 = group) then 1 else 0).
Proof.
  unfold report_if. destruct (decide (holds g0 ifp)); cbn.
  - rewrite Z.add_0_r. unfold held_groups. f_equal. induction (igmpi_groups ifp) as [|g gs IH]; [done|]. rewrite fmap_cons, !filter_cons.
    assert (Ha : igmpg_addr (if igmpg_addr g =? g0 then report_group src g else g) = igmpg_addr g) by (by destruct (_ =? g0)).
    rewrite Ha. case_decide; cbn [length]; by rewrite IH.
  - rewrite held_cons. cbn. lia.
Qed.
Lemma report_rules name u i src g0 group ifs outs ifp :
  ups ifs = [u] -> igmpi_name u = name -> VALID_ADDR group = true -> ifs !! i = Some ifp ->
  heard_emits name ifs (Reported i src g0) outs -> held group (alter (report_if src g0) i ifs) = held group ifs + rules name group outs.
Proof.
  intros Hu Hname Hv Hi (ifp' & n & Hi' & ->). rewrite Hi in Hi'. injection Hi' as <-. unfold held. rewrite (zsum_alter _ _ _ _ ifp) by done.
  rewrite report_held, rules_app. rewrite (rules_none _ _ (take n _)).
  - rewrite Hu. destruct (decide (holds g0 ifp)); [cbn; lia|]. unfold joins. cbn. rewrite Hname.
    destruct (decide (g0 = group)) as [->|Hne]; [rewrite Hv; cbn; rewrite decide_True by done; lia|].
    destruct (VALID_ADDR g0); cbn; [rewrite decide_False by (intros [_ ?]; congruence); lia|lia].
  - apply Forall_take. unfold forwarding. destruct (VALID_ADDR g0); [|done]. by apply Forall_fmap, Forall_true.
Qed.

Lemma heard_rules name u d e group ifs outs :
  ups ifs = [u] -> igmpi_name u = name -> VALID_ADDR group = true -> heard_ok ifs e ->
  heard_emits name ifs e outs -> held group (apply_heard d e ifs) = held group ifs + rules name group outs.
Proof.
  intros Hu Hname Hv He Ho. destruct e as [|i src g0|src g0|i src|]; cbn [apply_heard].
  - rewrite Ho. cbn. lia.
  - destruct He as (_ & ifp & Hi & _). by eapply report_rules.
  - cbn in Ho. rewrite Ho, rules_app, (leave_rules name). rewrite (rules_none _ _ (match _ with [] => _ | _ => _ end)); [unfold removals; lia|].
    destruct (concat _); [done|apply drops_quiet].
  - rewrite Ho, held_alter; [cbn; lia|]. intros ifp. by destruct (src <? igmpi_addr ifp).
  - rewrite Ho. destruct d as [d|]; [rewrite held_alter; [cbn; lia|done]|cbn; lia].
Qed.
Lemma hear_rules name d group es : forall u ifs outs,
  ups ifs = [u] -> igmpi_name u = name -> VALID_ADDR group = true -> Forall (heard_ok ifs) es ->
  hear_emits name d ifs es outs -> held group (hear d es ifs) = held group ifs + rules name group outs.
Proof.
  induction es as [|e es IH]; intros u ifs outs Hu Hname Hv He Ho; cbn in Ho; [rewrite Ho; change (hear d [] ifs) with ifs; cbn; lia|].
  destruct Ho as (o & o' & -> & Ho & Ho'). apply Forall_cons in He as [He Hes].
  pose proof (apply_heard_kind d e ifs) as Hk. pose proof (ups_same _ _ Hk) as Hus. rewrite Hu in Hus.
  inversion Hus as [|? u' ? us' Hsame Hnil Ha Hb]; subst. inversion Hnil; subst.
  cbn [hear fold_left]. fold (hear d es (apply_heard d e ifs)). rewrite (IH u' (apply_heard d e ifs) o'), rules_app, (heard_rules (igmpi_name u) u d e group ifs o); try done.
  - lia.
  - apply Hsame.
  - apply (Forall_weaken _ _ _ Hes). intros e'. by apply heard_ok_same.
Qed.

(** ** The general queries *)

(** Nothing stops interface [j], with address [a], from asking: no query from a lower
    address, and no control message that is not understood. *)
Definition calm (j : nat) (a : Z) (e : heard) : Prop :=
  match e with Queried i src => i <> j \/ a <= src | Misread => False | _ => True end.
(** Turns until the interface asks, at most. *)
Definition turns_left (i : igmp_interface_t) : Z :=
  if igmpi_isquerier i then Z.max 1 (igmpi_ti_qi i) else default 0 (igmpi_oqp i) + IGMP_DEF_QI.
Definition same_querier (i i' : igmp_interface_t) : Prop :=
  igmpi_isquerier i' = igmpi_isquerier i /\ igmpi_ti_qi i' = igmpi_ti_qi i /\ igmpi_oqp i' = igmpi_oqp i.

Lemma turns_left_same i i' : same_querier i i' -> turns_left i' = turns_left i.
Proof. intros (H1 & H2 & H3). unfold turns_left. by rewrite H1, H2, H3. Qed.
Lemma turns_left_range i : interface_ok i -> 1 <= turns_left i <= IGMP_OQPI + IGMP_DEF_QI.
Proof.
  intros Hi. unfold turns_left. pose proof (io_ti_qi _ Hi) as Ht. pose proof (io_other _ Hi) as Ho.
  change IGMP_DEF_QI with 125 in *. change IGMP_OQPI with 255 in *.
  destruct (igmpi_isquerier i); [lia|]. destruct (Ho eq_refl) as (o & -> & Hr). change (default 0 (Some o)) with o. lia.
Qed.
Lemma tick_left i : interface_ok i -> igmpi_type i = DOWNSTREAM -> query_due i = true \/ turns_left (tick_if i) <= turns_left i - 1.
Proof.
  intros Hi Hd. unfold tick_if. rewrite decide_True by done. unfold turns_left, tick_querier, query_due. cbn [igmpi_isquerier igmpi_ti_qi igmpi_oqp set_igmpi_groups].
  pose proof (io_ti_qi _ Hi) as Ht. pose proof (io_other _ Hi) as Ho. change IGMP_DEF_QI with 125 in *. destruct (igmpi_isquerier i) eqn:Hq; cbn [andb].
  - destruct (igmpi_ti_qi i - 1 <=? 0) eqn:Hz; [by left|right]. apply Z.leb_gt in Hz. cbn. rewrite Hq. lia.
  - right. destruct (Ho eq_refl) as (o & Hoq & Hr). rewrite Hoq. destruct (0 <? o) eqn:Hp; [|lia]. cbn.
    destruct (o - 1 =? 0) eqn:Hz; [apply Z.eqb_eq in Hz|apply Z.eqb_neq in Hz]; lia.
Qed.

Lemma alter_lookup (h : igmp_interface_t -> igmp_interface_t) (ifs : list igmp_interface_t) (k j : nat) i :
  ifs !! j = Some i -> (j = k -> same_querier i (h i)) -> exists i', alter h k ifs !! j = Some i' /\ same_querier i i'.
Proof.
  intros Hj Hh. destruct (decide (j = k)) as [->|Hne].
  - rewrite list_lookup_alter_eq, Hj. eauto.
  - rewrite list_lookup_alter_ne by done. exists i. by split.
Qed.
Lemma calm_querier d j e ifs i : ifs !! j = Some i -> calm j (igmpi_addr i) e ->
  exists i', apply_heard d e ifs !! j = Some i' /\ same_querier i i'.
Proof.
  intros Hj Hc. destruct e as [|k src g|src g|k src|]; cbn in *; [by exists i| | | |done].
  - by apply alter_lookup.
  - rewrite list_lookup_fmap, Hj. eexists. split; [reflexivity|]. unfold leave_if. by case_decide.
  - apply alter_lookup; [done|]. intros <-. destruct Hc as [Hc|Hc]; [done|]. destruct (src <? igmpi_addr i) eqn:Hlt; [|done]. apply Z.ltb_lt in Hlt. lia.
Qed.
Lemma hear_querier d j es : forall ifs i, ifs !! j = Some i -> Forall (calm j (igmpi_addr i)) es ->
  exists i', hear d es ifs !! j = Some i' /\ same_querier i i'.
Proof.
  induction es as [|e es IH]; intros ifs i Hj Hc; [by exists i|]. apply Forall_cons in Hc as [Hc Hcs].
  destruct (calm_querier d j e ifs i Hj Hc) as (i1 & Hj1 & H1).
  pose proof (same_lookup _ _ j (apply_heard_kind d e ifs)) as Hk. rewrite Hj, Hj1 in Hk. destruct Hk as (Ha & _).
  rewrite <- Ha in Hcs. destruct (IH _ i1 Hj1 Hcs) as (i2 & Hj2 & H2). exists i2. split; [exact Hj2|].
  destruct H1 as (A1 & A2 & A3), H2 as (B1 & B2 & B3). unfold same_querier. by rewrite B1, B2, B3.
Qed.

Lemma tick_query name ifs j i : ifs !! j = Some i -> igmpi_type i = DOWNSTREAM -> query_due i = true -> general_query i ∈ tick_outs name ifs.
Proof.
  intros Hj Hd Hq. unfold tick_outs. apply list_elem_of_In, in_concat. exists (tick_if_out name (ups ifs) i). split.
  - apply list_elem_of_In, list_elem_of_fmap_2. by apply (list_elem_of_lookup_2 _ j).
  - unfold tick_if_out. rewrite decide_True, Hq by done. by left.
Qed.
Lemma general_query_same i i' : interface_ok i -> interface_ok i' -> igmpi_addr i' = igmpi_addr i -> general_query i' = general_query i.
Proof. intros H H' Ha. unfold general_query. by rewrite Ha, (io_qri _ H), (io_qri _ H'). Qed.

Lemma held_unique group gs : NoDup (igmpg_addr <$> gs) ->
  (group ∈ (igmpg_addr <$> gs) -> held_groups group gs = 1) /\ (group ∉ (igmpg_addr <$> gs) -> held_groups group gs = 0).
Proof.
  induction gs as [|g gs IH]; intros Hn; [split; [intros H; by apply elem_of_nil in H|done]|].
  cbn in Hn. apply NoDup_cons in Hn as [Hg Hn]. destruct (IH Hn) as [IH1 IH2]. rewrite held_cons, fmap_cons, elem_of_cons.
  destruct (decide (igmpg_addr g = group)) as [<-|Hne]; split; intros H.
  - by rewrite (IH2 Hg).
  - exfalso. apply H. by left.
  - destruct H as [H|H]; [congruence|]. by rewrite (IH1 H).
  - rewrite IH2; [done|]. intros Hin. apply H. by right.
Qed.
Lemma held_holders group ifs : Forall interface_ok ifs -> held group ifs = Z.of_nat (length (filter (holds group) ifs)).
Proof.
  induction 1 as [|i ifs Hi _ IH]; [done|]. unfold held in *. rewrite fmap_cons, filter_cons. cbn [zsum]. rewrite IH.
  destruct (held_unique group _ (io_unique _ Hi)) as [H1 H2]. destruct (decide (holds group i)) as [Hh|Hh]; [rewrite (H1 Hh)|rewrite (H2 Hh)]; cbn [length]; lia.
Qed.

(** The rules of a group with one upstream interface follow the tables through a turn. *)
Definition rules_follow (s : igmp_router) : Prop :=
  forall u group, ups (igmprt_interfaces s) = [u] -> igmpi_name u = first_name s -> VALID_ADDR group = true ->
    rules (igmpi_name u) group (i_out s) = held group (igmprt_interfaces s).
Lemma turn_kind sel s s' : turn_step sel s s' -> Forall2 same_kind (igmprt_interfaces s) (igmprt_interfaces s').
Proof.
  intros (outs & _ & He). rewrite (bc_interfaces _ _ _ _ _ He). etransitivity; [apply same_kind_fmap, tick_if_kind|apply hear_kind].
Qed.
Lemma rules_follow_turn sel s s' : rules_follow s -> turn_step sel s s' -> rules_follow s'.
Proof.
  intros HI Hstep u' group Hu' Hname Hv. pose proof (ups_same _ _ (turn_kind _ _ _ Hstep)) as Hus. rewrite Hu' in Hus.
  inversion Hus as [|u ? us ? Hsame Hnil Ha Hb]; subst. inversion Hnil; subst. symmetry in Ha.
  destruct Hstep as (outs & (ho & -> & Hho) & [B1 B2 B3 B4]). destruct Hsame as (_ & Hn & _). rewrite Hn in *.
  rewrite (first_name_same _ _ B4) in Hname. specialize (HI u group Ha Hname Hv). rewrite B3, B1, !rules_app, HI. unfold turn_tables.
  set (ifs := igmprt_interfaces s) in *. pose proof (ups_same _ _ (same_kind_fmap tick_if ifs tick_if_kind)) as Ht. rewrite Ha in Ht.
  inversion Ht as [|? v ? ? Hsv Hnv Hc Hd]; subst. inversion Hnv; subst. symmetry in Hd. rewrite <- Hname in Hho |- *.
  rewrite (hear_rules (igmpi_name u) (downstream s) group (turn_meaning ifs sel) v (tick_if <$> ifs) ho Hd); [|apply Hsv|done|apply turn_meaning_ok|done].
  rewrite (tick_rules (igmpi_name u)). lia.
Qed.

Section with_env.
Context `{E : IgmpEnv, L : !IgmpLaws E}.
Hypothesis Hmalloc : forall n, ienv_malloc n = true.
(** get_interface_list looks for interfaces up to index 32, which the array of the
    forwarding entry cannot hold. *)
Hypothesis Hindex : forall n, ienv_ifname n 32 = None.

(** C16. A turn of the main loop of the proxy: with well formed tables, sockets that deliver
    and a malloc() that succeeds, the code ends without a fault, its tables and its requests
    to the kernel are those of the abstract turn (each timer counts, groups without time
    expire and the querier asks, then each message that select() announced is applied as the
    event it means, in the order of the interfaces), and the tables are well formed again.
    There is one exception, which free() allows: in a turn that removes a group, the program
    may stop at the read of the next pointer of that group, when the allocator has reused its
    block (igmprt.c:649, igmpv2.c:218). *)
Theorem router_turn_refines sel s : router_ok s -> delivered sel ->
  (exists s', router_turn sel s = Ok tt s' /\ router_ok s' /\ turn_step sel s s')
  \/ (router_turn sel s = Err Use_after_free /\ reused E /\ exists s', turn_step sel s s' /\ removed s s').
Proof.
  intros Hok Hdel. destruct (turn_run (E := kept_memory E) Hmalloc (fun _ => eq_refl) sel s Hok Hdel) as (s' & Hr & Hok' & Ht).
  destruct (cut_turn E true sel s) as [->|(-> & Hre & Hrem)]; [left; by exists s'|right]. split; [done|]. split; [done|].
  exists s'. split; [done|]. specialize (Hrem eq_refl). by rewrite Hr in Hrem.
Qed.


(** C19. A group that nobody reports any more is gone from every interface after 260 turns
    of a second (the group membership interval), whatever else the hosts say meanwhile, with
    sockets that deliver and a malloc() that succeeds; the group is not 224.0.0.2, whose timer
    never runs. Only the read of a group that was just freed, when the allocator has reused
    its block, can stop the program before. *)
Theorem silent_group_expires group sels s :
  router_ok s -> group <> IGMP_ALL_ROUTERS -> Forall delivered sels -> IGMP_GMI <= Z.of_nat (length sels) ->
  Forall (fun sel => Forall (not_reported group) (turn_meaning (igmprt_interfaces s) sel)) sels ->
  unless_reused (router_loop sels s) (fun _ s' => Forall (fun i => ~ holds group i) (igmprt_interfaces s')).
Proof.
  intros Hok Hg Hdel Hlen Hq.
  eapply unless_reused_mono; [apply (loop_unless_reused Hmalloc (fun l s1 => Forall2 same_kind (igmprt_interfaces s) (igmprt_interfaces s1)
      /\ Forall (fun sel => Forall (not_reported group) (turn_meaning (igmprt_interfaces s) sel)) l
      /\ timer_bound group (Z.of_nat (length l)) (igmprt_interfaces s1)) sels s Hok Hdel)|intros _ s' (Hok' & _ & _ & Hb)].
  - split; [by apply Forall_Forall2_diag, Forall_true|]. split; [done|]. apply (Forall_weaken _ _ _ (ro_interfaces _ Hok)). intros i Hi.
    apply (Forall_weaken _ _ _ (io_groups _ Hi)). intros g Hgok _. pose proof (go_timer _ Hgok). lia.
  - intros sel l s1 s2 Hok1 (Hk & Hql & Hb) Hstep _. apply Forall_cons in Hql as [Hqs Hql].
    split; [etransitivity; [exact Hk|by eapply turn_kind]|]. split; [done|].
    destruct Hstep as (outs & _ & He). rewrite (bc_interfaces _ _ _ _ _ He). apply hear_bound; [by rewrite (turn_meaning_same _ _ sel Hk)|].
    apply tick_bound; [done|apply Hok1|]. cbn [length] in Hb. by replace (Z.of_nat (length l) + 1) with (Z.of_nat (S (length l))) by lia.
  - cbn in Hb. apply Forall_forall. intros i Hi Hh. apply list_elem_of_fmap in Hh as (g & Ha & Hin).
    pose proof (Forall_elem _ _ _ (ro_interfaces _ Hok') Hi) as Hiok. pose proof (go_timer _ (Forall_elem _ _ _ (io_groups _ Hiok) Hin)).
    pose proof (Forall_elem _ _ _ (Forall_elem _ _ _ Hb Hi) Hin (eq_sym Ha)). lia.
Qed.

(** C18. With one upstream interface, the first that was named, the rules of the firewall
    follow the tables: after any run from the start (with at most ten short names, no
    interface with the index 32, sockets that deliver and a malloc() that succeeds), for each
    group that is forwarded, the rules that were inserted less those that were deleted are as
    many as the interfaces that hold the group, so a group without members has no rule left.
    The run may also have ended by exiting at the start, or at the read of a group that was
    just freed, when the allocator has reused its block. *)
Theorem firewall_tracks_table args sels :
  (length args <= 10)%nat -> Forall (fun a => (String.length a < 8)%nat) args -> Forall delivered sels ->
  exits_or_reused ((router_main args;; router_loop sels) router_begin)
    (fun _ s => forall u group, ups (igmprt_interfaces s) = [u] -> igmpi_name u = first_name s -> VALID_ADDR group = true ->
       rules (igmpi_name u) group (i_out s) = Z.of_nat (length (filter (holds group) (igmprt_interfaces s)))).
Proof.
  intros Hlen Hargs Hdel. eapply exits_or_reused_mono; [apply (whole_run Hindex Hmalloc args sels (fun _ => rules_follow)); try done|].
  - intros s Hs u group Hu Hname Hv. rewrite (rules_none _ _ _ (st_out _ Hs)). pose proof (st_empty _ Hs) as He. clear -He.
    induction He as [|i ifs Hi _ IH]; [done|]. unfold held in *. cbn. by rewrite Hi, <- IH.
  - intros sel l s s' _ HI Hstep _. by eapply rules_follow_turn.
  - intros [] s [Hok HI] u group Hu Hname Hv. rewrite <- held_holders by apply Hok. by apply HI.
Qed.

(** C20. The general queries go on: a downstream interface that hears no query from a lower
    address sends a general query within 380 turns of a second, the time of the other querier
    (255) and one query interval (125), whatever else the hosts say meanwhile, with sockets
    that deliver, a malloc() that succeeds, and no control message that the program does not
    understand, which would set the timer of the query anew. Only the read of a group that
    was just freed, when the allocator has reused its block, can stop the program before. *)
Theorem queries_go_on j i sels s :
  router_ok s -> igmprt_interfaces s !! j = Some i -> igmpi_type i = DOWNSTREAM -> Forall delivered sels ->
  IGMP_OQPI + IGMP_DEF_QI <= Z.of_nat (length sels) ->
  Forall (fun sel => Forall (calm j (igmpi_addr i)) (turn_meaning (igmprt_interfaces s) sel)) sels ->
  unless_reused (router_loop sels s) (fun _ s' => exists outs, i_out s' = i_out s ++ outs /\ general_query i ∈ outs).
Proof.
  intros Hok Hj Hd Hdel Hlen Hq.
  set (asked := fun s1 => exists outs, i_out s1 = i_out s ++ outs /\ general_query i ∈ outs).
  eapply unless_reused_mono; [apply (loop_unless_reused Hmalloc (fun l s1 => Forall2 same_kind (igmprt_interfaces s) (igmprt_interfaces s1)
      /\ (exists outs, i_out s1 = i_out s ++ outs)
      /\ Forall (fun sel => Forall (calm j (igmpi_addr i)) (turn_meaning (igmprt_interfaces s) sel)) l
      /\ (asked s1 \/ exists i1, igmprt_interfaces s1 !! j = Some i1 /\ turns_left i1 <= Z.of_nat (length l))) sels s Hok Hdel)|intros _ s' (Hok' & _ & _ & _ & Hend)].
  - split; [by apply Forall_Forall2_diag, Forall_true|]. split; [exists []; by rewrite app_nil_r|]. split; [done|]. right. exists i. split; [done|].
    pose proof (turns_left_range i (Forall_lookup_1 _ _ _ _ (ro_interfaces _ Hok) Hj)). lia.
  - intros sel l s1 s2 Hok1 (Hk & (o1 & Ho1) & Hql & Hleft) Hstep _. apply Forall_cons in Hql as [Hqs Hql].
    pose proof (turn_kind _ _ _ Hstep) as Hk2. destruct Hstep as (outs & (ho & -> & _) & [B1 B2 B3 B4]).
    split; [by etransitivity|]. split; [eexists; by rewrite B3, Ho1, <- app_assoc|]. split; [done|].
    destruct Hleft as [(o & Ho & Hin)|(i1 & Hj1 & Hl)].
    { left. eexists. rewrite B3, Ho, <- app_assoc. split; [reflexivity|]. apply elem_of_app. by left. }
    pose proof (same_lookup _ _ j Hk) as Hs1. rewrite Hj, Hj1 in Hs1. destruct Hs1 as (Ha & _ & _ & Ht).
    pose proof (Forall_lookup_1 _ _ _ _ (ro_interfaces _ Hok1) Hj1) as Hi1. rewrite Hd in Ht.
    destruct (tick_left i1 Hi1 Ht) as [Hdue|Hless].
    + left. eexists. rewrite B3, Ho1, <- app_assoc. split; [reflexivity|]. apply elem_of_app. right. apply elem_of_app. left.
      rewrite <- (general_query_same i i1); [by eapply tick_query|by apply (Forall_lookup_1 _ _ _ _ (ro_interfaces _ Hok) Hj)|done|done].
    + right. destruct (hear_querier (downstream s1) j (turn_meaning (igmprt_interfaces s1) sel) (tick_if <$> igmprt_interfaces s1) (tick_if i1)) as (i2 & Hj2 & Hq2).
      * by rewrite list_lookup_fmap, Hj1.
      * destruct (tick_if_kind i1) as (Ha' & _). rewrite Ha', Ha, (turn_meaning_same _ _ sel Hk). exact Hqs.
      * exists i2. rewrite B1. split; [exact Hj2|]. rewrite (turns_left_same _ _ Hq2). cbn [length] in Hl. lia.
  - destruct Hend as [(outs & Ho & Hin)|(i1 & Hj1 & Hl)]; [by exists outs|].
    pose proof (turns_left_range i1 (Forall_lookup_1 _ _ _ _ (ro_interfaces _ Hok') Hj1)). cbn in Hl. lia.
Qed.
End with_env.
