(* ===== verification/IgmpSample.v ===== *)
(** * IgmpSample: the theorems on the IGMP proxy at concrete inputs

    A proxy between one bridge and one upstream interface, a host that joins and
    leaves a group, and what the modelling found. *)

From S2P Require Import Prelude DhcpTypes IgmpTypes IgmpProxy IgmpRouter IgmpSpec IgmpLemmas IgmpInput IgmpBehaviour IgmpMain IgmpResults.

(** ** The proxy *)

Definition gateway (freed sockopt : bool) (malloc : nat -> bool) : IgmpEnv := {|
  ienv_malloc := malloc;
  ienv_freed _ := freed;
  ienv_sockopt _ := sockopt;
  ienv_socket _ := true;
  ienv_mtu _ _ := 1500;
  ienv_flags _ _ := 0x1003;
  ienv_ifname _ i := if i =? 4 then Some "br0" else if i =? 5 then Some "vlan2" else if i =? 6 then Some "eth2" else None;
  ienv_ifaddr _ s := if bool_decide (s = "br0") then 0xC0A80101 else 0x0A000002
|}.
#[export] Instance home : IgmpEnv := gateway true true (fun _ => true).
#[export] Instance home_laws : IgmpLaws home.
Proof.
  split.
  - intros n s. cbn. case_bool_decide; lia.
  - intros n i s. cbn. repeat (destruct (_ =? _); [intros [= <-]; cbn; lia|]). done.
Qed.

Lemma home_malloc n : ienv_malloc (IgmpEnv := home) n = true.
Proof. done. Qed.
Lemma home_keeps : ~ reused home.
Proof. by intros [n H]. Qed.
Lemma home_index n : ienv_ifname (IgmpEnv := home) n 32 = None.
Proof. done. Qed.

Definition group_a : Z := 0xEF010203.
Definition host_a : Z := 0xC0A80164.
Definition host_b : Z := 0xC0A80165.
(** A message of a host, in an IP packet with a header of 20 bytes. *)
Definition igmp_message (type src group : Z) (index : Z) : datagram :=
  Datagram ([0x46; 0; 0; 32; 0; 0; 0; 0; 1; 2; 0; 0] ++ be32 src ++ be32 group ++ [0x94; 4; 0; 0; type; 0; 0; 0] ++ be32 group) [Some index].
Definition bridge_if (index : Z) (addr : Z) (gs : list igmp_group_t) : igmp_interface_t :=
  IgmpInterface addr "br0" index DOWNSTREAM gs IGMP_VERSION_2 true 125 10 260 None 2 100 0x1003 1500.
Definition wan_if : igmp_interface_t :=
  IgmpInterface 0x0A000002 "vlan2" 5 UPSTREAM [] IGMP_VERSION_2 true 125 10 260 None 2 0 0x1003 1500.
Definition member_group (timer : Z) (members : list Z) : igmp_group_t := IgmpGroup group_a timer IGMP_FMODE_EXCLUDE IGMP_VERSION_2 members [].
Definition router_with (ifs : list igmp_interface_t) : igmp_router :=
  IgmpRouter ifs [] true true true ("vlan2" :: replicate 9 EmptyString) (fst <$> list_find (fun i => igmpi_type i = DOWNSTREAM) ifs) 0 0 [].
Definition home_router : igmp_router := router_with [wan_if; bridge_if 4 0xC0A80101 [member_group 200 [host_a]]].
Definition idle : selected := Selected_sockets 0 [].
Definition says (dg : datagram) : selected := Selected_sockets 1 [Some (Some dg)].

Ltac by_decision := apply (bool_decide_unpack _); vm_compute; exact I.
Lemma wan_ok : interface_ok wan_if.
Proof. split; try done; cbn; try (lia || constructor). Qed.
Lemma member_group_ok t l : 0 < t <= 260 -> l <> [] -> NoDup l -> group_ok (member_group t l).
Proof. intros. by split. Qed.
Lemma bridge_ok t l : 0 < t <= 260 -> l <> [] -> NoDup l -> interface_ok (bridge_if 4 0xC0A80101 [member_group t l]).
Proof.
  intros Ht Hl Hn. split; try done; cbn; try lia; [|by_decision]. constructor; [by apply member_group_ok|constructor].
Qed.
Lemma router_with_ok ifs : Forall interface_ok ifs -> NoDup (igmpi_addr <$> ifs) -> router_ok (router_with ifs).
Proof. intros Hi Hn. split; try done. by_decision. Qed.
Lemma home_ok : router_ok home_router.
Proof.
  apply router_with_ok; [|by_decision]. constructor; [exact wan_ok|]. constructor; [|constructor].
  apply bridge_ok; [lia|done|by_decision].
Qed.

(** ** The theorems *)

(** A second host joins the group that the first one holds. *)
Definition second_joins : selected := says (igmp_message IGMP_V2_MEMBERSHIP_REPORT host_b group_a 4).
Lemma second_joins_delivered : delivered second_joins.
Proof. constructor; [done|constructor]. Qed.
Lemma router_turn_refines_witness :
  exists s', router_turn second_joins home_router = Ok tt s' /\ router_ok s' /\ turn_step second_joins home_router s'.
Proof.
  destruct (router_turn_refines home_malloc second_joins home_router home_ok second_joins_delivered) as [H|(_ & H & _)]; [exact H|destruct (home_keeps H)].
Defined.

Definition joins_then_waits : list selected := says (igmp_message IGMP_V2_MEMBERSHIP_REPORT host_a group_a 4) :: replicate 300 idle.
Lemma joins_then_waits_delivered : Forall delivered joins_then_waits.
Proof. constructor; [constructor; [done|constructor]|]. apply Forall_replicate. constructor. Qed.
Lemma wan_name : Forall (fun a => (String.length a < 8)%nat) ["vlan2"].
Proof. constructor; [cbn; lia|constructor]. Qed.

Lemma silent_group_expires_witness :
  unless_reused (router_loop (replicate 260 idle) home_router) (fun _ s' => Forall (fun i => ~ holds group_a i) (igmprt_interfaces s')).
Proof.
  apply (silent_group_expires home_malloc group_a (replicate 260 idle) home_router home_ok).
  - done.
  - apply Forall_replicate. constructor.
  - by vm_compute.
  - apply Forall_replicate. apply Forall_nil_2.
Defined.

Lemma firewall_tracks_table_witness :
  exits_or_reused ((router_main ["vlan2"];; router_loop joins_then_waits) router_begin)
    (fun _ s => forall u group, ups (igmprt_interfaces s) = [u] -> igmpi_name u = first_name s -> VALID_ADDR group = true ->
       rules (igmpi_name u) group (i_out s) = Z.of_nat (length (filter (holds group) (igmprt_interfaces s)))).
Proof.
  apply (firewall_tracks_table home_malloc home_index ["vlan2"] joins_then_waits);
    [cbn; lia|exact wan_name|exact joins_then_waits_delivered].
Defined.

Lemma queries_go_on_witness :
  unless_reused (router_loop (replicate 380 idle) home_router)
    (fun _ s' => exists outs, i_out s' = i_out home_router ++ outs /\ general_query (bridge_if 4 0xC0A80101 [member_group 200 [host_a]]) ∈ outs).
Proof.
  apply (queries_go_on home_malloc 1 _ (replicate 380 idle) home_router home_ok); [reflexivity|reflexivity| |by vm_compute|].
  - apply Forall_replicate. constructor.
  - apply Forall_replicate. apply Forall_nil_2.
Defined.

(** ** A run *)

(** A host joins, nobody reports for 260 seconds, and the group is gone again. *)
Definition run_outputs {A} (r : res igmp_router A) : option (list igmp_output) := match r with Ok _ s => Some (i_out s) | Err _ => None end.
Definition is_query (o : igmp_output) : bool := match o with Query_sent _ _ _ => true | _ => false end.
Example join_and_expire :
  match router_loop joins_then_waits (router_with [wan_if; bridge_if 4 0xC0A80101 []]) with
  | Ok _ s => (filter (fun o => is_query o = false) (i_out s), length (filter (fun o => is_query o = true) (i_out s)))
  | Err _ => ([], 0%nat)
  end
  = ([Join group_a 0x0A000002; Forward true "vlan2" group_a; Mfc_add 0 group_a 5 (<[4%nat := 1]> (replicate 32 0));
      Forward false "vlan2" group_a; Drop group_a 0x0A000002], 2%nat).
Proof. by vm_compute. Qed.

(** ** What the modelling found *)

(** The loops over the groups read the next pointer of the group they have freed. *)
Definition reuses_memory : IgmpEnv := gateway false true (fun _ => true).
Lemma leave_reads_freed_group :
  router_turn (E := reuses_memory) (says (igmp_message IGMP_V2_MEMBERSHIP_LEAVE host_a group_a 4)) home_router = Err Use_after_free.
Proof. by vm_compute. Qed.
Lemma expiry_reads_freed_group : router_loop (E := reuses_memory) (replicate 200 idle) home_router = Err Use_after_free.
Proof. by vm_compute. Qed.

(** A failed recvmsg() passes the test on the length. *)
Lemma failed_recv_is_read : router_turn (Selected_sockets 1 [Some None]) home_router = Err Uninitialised.
Proof. by vm_compute. Qed.

(** The second bridge is not read when only its socket is ready. *)
Definition guest_if (gs : list igmp_group_t) : igmp_interface_t :=
  IgmpInterface 0xC0A80201 "br1" 7 DOWNSTREAM gs IGMP_VERSION_2 true 125 10 260 None 2 100 0x1003 1500.
Lemma second_bridge_starves dg :
  turn_meaning [bridge_if 4 0xC0A80101 []; guest_if []; wan_if] (Selected_sockets 1 [None; Some (Some dg)]) = [].
Proof. reflexivity. Qed.

(** The last leave on one bridge ends the membership that the other still needs. *)
Lemma shared_group_is_dropped :
  match router_turn (says (igmp_message IGMP_V2_MEMBERSHIP_LEAVE host_a group_a 4))
          (router_with [bridge_if 4 0xC0A80101 [member_group 200 [host_a]]; guest_if [IgmpGroup group_a 200 0 IGMP_VERSION_2 [host_a; host_b] []]; wan_if]) with
  | Ok _ s => i_out s = [Forward false "vlan2" group_a; Drop group_a 0x0A000002] /\ existsb (fun i => bool_decide (holds group_a i)) (igmprt_interfaces s) = true
  | Err _ => False
  end.
Proof. by vm_compute. Qed.

(** The buffer of the control messages is lost with each packet of another interface. *)
Lemma control_buffer_leaks :
  match router_loop (replicate 3 (says (igmp_message IGMP_V2_MEMBERSHIP_REPORT host_a group_a 5))) home_router with
  | Ok _ s => ctrl_blocks s = 3
  | Err _ => False
  end.
Proof. by vm_compute. Qed.

(** An interface with index 32 is looked for, and its report writes outside of the array. *)
Lemma index_32_overflows :
  router_turn (says (igmp_message IGMP_V2_MEMBERSHIP_REPORT host_b group_a 32)) (router_with [bridge_if 32 0xC0A80101 []; wan_if]) = Err Out_of_bounds.
Proof. by vm_compute. Qed.

(** The entry of the database is used without a test. *)
Lemma no_memory_for_entry :
  router_turn (E := gateway true true (fun n => negb (n =? 0)%nat)) (says (igmp_message IGMP_V2_MEMBERSHIP_REPORT host_a group_a 4)) home_router = Err Null_deref.
Proof. by vm_compute. Qed.

(** The rule of the second upstream interface stays when the group expires, and all
    the rules stay when the program ends. *)
Definition wan2_if : igmp_interface_t := IgmpInterface 0x0A000102 "ppp0" 6 UPSTREAM [] IGMP_VERSION_2 true 125 10 260 None 2 0 0x1003 1500.
Lemma second_rule_stays :
  match router_loop joins_then_waits (router_with [wan_if; wan2_if; bridge_if 4 0xC0A80101 []]) with
  | Ok _ s => (rules "vlan2" group_a (i_out s), rules "ppp0" group_a (i_out s)) = (0, 1)
  | Err _ => False
  end.
Proof. by vm_compute. Qed.
Lemma rules_stay_at_the_end :
  match (router_turn (says (igmp_message IGMP_V2_MEMBERSHIP_REPORT host_a group_a 4));; igmprt_destroy) (router_with [wan_if; bridge_if 4 0xC0A80101 []]) with
  | Ok _ s => rules "vlan2" group_a (i_out s) = 1 /\ igmprt_interfaces s = []
  | Err _ => False
  end.
Proof. by vm_compute. Qed.

(** A name of an upstream interface that does not fit. *)
Lemma long_name_overflows : router_main ["eth1.1000"] router_begin = Err Out_of_bounds.
Proof. by vm_compute. Qed.

(** A source that is merged goes one place too far. *)
Lemma merge_leaves_a_hole s :
  merge_membership IGMP_FMODE_INCLUDE [7] (MembershipDb group_a IGMP_FMODE_INCLUDE 1 [Some 5; None; None]) s
  = Ok (MembershipDb group_a IGMP_FMODE_INCLUDE 2 [Some 5; None; Some 7]) s.
Proof. reflexivity. Qed.

(** A query for a group never lowers its timer, since the callers say that it must not. *)
Lemma group_query_ignored :
  match router_turn (says (igmp_message IGMP_MEMBERSHIP_QUERY 0xC0A80102 group_a 4)) home_router with
  | Ok _ s => (igmpg_timer <$> concat (igmpi_groups <$> igmprt_interfaces s)) = [199]
  | Err _ => False
  end.
Proof. by vm_compute. Qed.
