(* ===== verification/Md5.v ===== *)
(** * Md5: the MD5 digest of a file (src/GTK/user/apps/md5)

    md5.c: the state of the digest, a block of 64 bytes, appending bytes and the
    end of the message; md5main.c: the digest of a file in text, and the name of the
    file it is written to. *)

From stdpp Require Import strings.
From Stdlib Require Import Ascii String.
From S2P Require Import Prelude.

#[local] Open Scope Z_scope.

(** ** The words *)

Definition T_MASK : Z := 0xFFFFFFFF.
(** T1 to T64 *)
Definition T_table : list Z :=
  [Z.lxor T_MASK 0x28955b87; Z.lxor T_MASK 0x173848a9; 0x242070db; Z.lxor T_MASK 0x3e423111;
   Z.lxor T_MASK 0x0a83f050; 0x4787c62a; Z.lxor T_MASK 0x57cfb9ec; Z.lxor T_MASK 0x02b96afe;
   0x698098d8; Z.lxor T_MASK 0x74bb0850; Z.lxor T_MASK 0x0000a44e; Z.lxor T_MASK 0x76a32841;
   0x6b901122; Z.lxor T_MASK 0x02678e6c; Z.lxor T_MASK 0x5986bc71; 0x49b40821;
   Z.lxor T_MASK 0x09e1da9d; Z.lxor T_MASK 0x3fbf4cbf; 0x265e5a51; Z.lxor T_MASK 0x16493855;
   Z.lxor T_MASK 0x29d0efa2; 0x02441453; Z.lxor T_MASK 0x275e197e; Z.lxor T_MASK 0x182c0437;
   0x21e1cde6; Z.lxor T_MASK 0x3cc8f829; Z.lxor T_MASK 0x0b2af278; 0x455a14ed;
   Z.lxor T_MASK 0x561c16fa; Z.lxor T_MASK 0x03105c07; 0x676f02d9; Z.lxor T_MASK 0x72d5b375;
   Z.lxor T_MASK 0x0005c6bd; Z.lxor T_MASK 0x788e097e; 0x6d9d6122; Z.lxor T_MASK 0x021ac7f3;
   Z.lxor T_MASK 0x5b4115bb; 0x4bdecfa9; Z.lxor T_MASK 0x0944b49f; Z.lxor T_MASK 0x4140438f;
   0x289b7ec6; Z.lxor T_MASK 0x155ed805; Z.lxor T_MASK 0x2b10cf7a; 0x04881d05;
   Z.lxor T_MASK 0x262b2fc6; Z.lxor T_MASK 0x1924661a; 0x1fa27cf8; Z.lxor T_MASK 0x3b53a99a;
   Z.lxor T_MASK 0x0bd6ddbb; 0x432aff97; Z.lxor T_MASK 0x546bdc58; Z.lxor T_MASK 0x036c5fc6;
   0x655b59c3; Z.lxor T_MASK 0x70f3336d; Z.lxor T_MASK 0x00100b82; Z.lxor T_MASK 0x7a7ba22e;
   0x6fa87e4f; Z.lxor T_MASK 0x01d3191f; Z.lxor T_MASK 0x5cfebceb; 0x4e0811a1;
   Z.lxor T_MASK 0x08ac817d; Z.lxor T_MASK 0x42c50dca; 0x2ad7d2bb; Z.lxor T_MASK 0x14792c6e].
Definition T (i : nat) : Z := nth (i - 1) T_table 0.

Definition not32 (x : Z) : Z := Z.lxor T_MASK x.
(** (x << n) | (x >> (32 - n)) on a word of 32 bits *)
Definition ROTATE_LEFT (x n : Z) : Z := Z.lor (u32 (Z.shiftl x n)) (Z.shiftr x (32 - n)).
Definition F (x y z : Z) : Z := Z.lor (Z.land x y) (Z.land (not32 x) z).
Definition G (x y z : Z) : Z := Z.lor (Z.land x z) (Z.land y (not32 z)).
Definition H (x y z : Z) : Z := Z.lxor (Z.lxor x y) z.
Definition I (x y z : Z) : Z := Z.lxor y (Z.lor x (not32 z)).

(** ** A block *)

(** The four registers, in the order a, b, c, d. *)
Definition regs : Type := Z * Z * Z * Z.
(** The register that an operation assigns. *)
Inductive reg : Type := RA | RB | RC | RD.
#[export] Instance reg_eq_dec : EqDecision reg.
Proof. solve_decision. Defined.

(** SET(a, b, c, d, k, s, Ti), with the registers that the name of the first one
    tells. *)
Definition mix (f : Z -> Z -> Z -> Z) (X : list Z) (k : nat) (s : Z) (i : nat) (a b c d : Z) : Z :=
  let t := u32 (a + f b c d + nth k X 0 + T i) in u32 (ROTATE_LEFT t s + b).
Definition SET (f : Z -> Z -> Z -> Z) (X : list Z) (op : reg * nat * Z * nat) (st : regs) : regs :=
  let '(a, b, c, d) := st in
  let '(r, k, s, i) := op in
  match r with
  | RA => (mix f X k s i a b c d, b, c, d)
  | RD => (a, b, c, mix f X k s i d a b c)
  | RC => (a, b, mix f X k s i c d a b, d)
  | RB => (a, mix f X k s i b c d a, c, d)
  end.
Definition round1 : list (reg * nat * Z * nat) :=
  [(RA, 0%nat, 7, 1%nat); (RD, 1%nat, 12, 2%nat); (RC, 2%nat, 17, 3%nat); (RB, 3%nat, 22, 4%nat);
   (RA, 4%nat, 7, 5%nat); (RD, 5%nat, 12, 6%nat); (RC, 6%nat, 17, 7%nat); (RB, 7%nat, 22, 8%nat);
   (RA, 8%nat, 7, 9%nat); (RD, 9%nat, 12, 10%nat); (RC, 10%nat, 17, 11%nat); (RB, 11%nat, 22, 12%nat);
   (RA, 12%nat, 7, 13%nat); (RD, 13%nat, 12, 14%nat); (RC, 14%nat, 17, 15%nat);
   (RB, 15%nat, 22, 16%nat)].
Definition round2 : list (reg * nat * Z * nat) :=
  [(RA, 1%nat, 5, 17%nat); (RD, 6%nat, 9, 18%nat); (RC, 11%nat, 14, 19%nat); (RB, 0%nat, 20, 20%nat);
   (RA, 5%nat, 5, 21%nat); (RD, 10%nat, 9, 22%nat); (RC, 15%nat, 14, 23%nat); (RB, 4%nat, 20, 24%nat);
   (RA, 9%nat, 5, 25%nat); (RD, 14%nat, 9, 26%nat); (RC, 3%nat, 14, 27%nat); (RB, 8%nat, 20, 28%nat);
   (RA, 13%nat, 5, 29%nat); (RD, 2%nat, 9, 30%nat); (RC, 7%nat, 14, 31%nat); (RB, 12%nat, 20, 32%nat)].
Definition round3 : list (reg * nat * Z * nat) :=
  [(RA, 5%nat, 4, 33%nat); (RD, 8%nat, 11, 34%nat); (RC, 11%nat, 16, 35%nat); (RB, 14%nat, 23, 36%nat);
   (RA, 1%nat, 4, 37%nat); (RD, 4%nat, 11, 38%nat); (RC, 7%nat, 16, 39%nat); (RB, 10%nat, 23, 40%nat);
   (RA, 13%nat, 4, 41%nat); (RD, 0%nat, 11, 42%nat); (RC, 3%nat, 16, 43%nat); (RB, 6%nat, 23, 44%nat);
   (RA, 9%nat, 4, 45%nat); (RD, 12%nat, 11, 46%nat); (RC, 15%nat, 16, 47%nat); (RB, 2%nat, 23, 48%nat)].
Definition round4 : list (reg * nat * Z * nat) :=
  [(RA, 0%nat, 6, 49%nat); (RD, 7%nat, 10, 50%nat); (RC, 14%nat, 15, 51%nat); (RB, 5%nat, 21, 52%nat);
   (RA, 12%nat, 6, 53%nat); (RD, 3%nat, 10, 54%nat); (RC, 10%nat, 15, 55%nat); (RB, 1%nat, 21, 56%nat);
   (RA, 8%nat, 6, 57%nat); (RD, 15%nat, 10, 58%nat); (RC, 6%nat, 15, 59%nat); (RB, 13%nat, 21, 60%nat);
   (RA, 4%nat, 6, 61%nat); (RD, 11%nat, 10, 62%nat); (RC, 2%nat, 15, 63%nat); (RB, 9%nat, 21, 64%nat)].
Definition do_round (f : Z -> Z -> Z -> Z) (X : list Z) (ops : list (reg * nat * Z * nat)) (st : regs) : regs :=
  fold_left (fun st op => SET f X op st) ops st.

(** The words of a block, the least significant byte first. *)
Fixpoint words (data : list Z) : list Z :=
  match data with
  | b0 :: b1 :: b2 :: b3 :: rest => u32 (b0 + Z.shiftl b1 8 + Z.shiftl b2 16 + Z.shiftl b3 24) :: words rest
  | _ => []
  end.
Definition process_block (st : regs) (data : list Z) : regs :=
  let X := words data in
  let '(a, b, c, d) := do_round I X round4 (do_round H X round3 (do_round G X round2 (do_round F X round1 st))) in
  let '(a0, b0, c0, d0) := st in
  (u32 (a0 + a), u32 (b0 + b), u32 (c0 + c), u32 (d0 + d)).

(** ** The state *)

Record md5_state_t : Type := Md5State {
  count0 : Z;   (* message length in bits, lsw first *)
  count1 : Z;
  abcd : regs;
  buf : list Z   (* 64 bytes *)
}.
Definition set_count (c0 c1 : Z) (s : md5_state_t) : md5_state_t := Md5State c0 c1 (abcd s) (buf s).
Definition set_abcd (x : regs) (s : md5_state_t) : md5_state_t := Md5State (count0 s) (count1 s) x (buf s).
Definition set_buf (x : list Z) (s : md5_state_t) : md5_state_t := Md5State (count0 s) (count1 s) (abcd s) x.
Abbreviation MM := (M md5_state_t).

Definition md5_process (data : list Z) (p : Z) : MM unit :=
  block ← in_bounds (load 64 data p);
  modify (fun s => set_abcd (process_block (abcd s) block) s).
Definition md5_init : MM unit :=
  modify (fun s => Md5State 0 0 (0x67452301, Z.lxor T_MASK 0x10325476, Z.lxor T_MASK 0x67452301, 0x10325476) (buf s)).

(** [memcpy(pms->buf + offset, p, copy)] *)
Definition copy_to_buf (offset : Z) (data : list Z) (p copy : Z) : MM unit :=
  bytes ← in_bounds (load_len copy data p);
  b ← gets buf;
  b ← in_bounds (store bytes b offset);
  modify (set_buf b).

(** The full blocks from [p] on; the result is where they end and what is left. *)
Fixpoint full_blocks (fuel : nat) (data : list Z) (p n : Z) : MM (Z * Z) :=
  match fuel with
  | O => fail Out_of_fuel
  | S fuel' =>
      if 64 <=? n then md5_process data p;; full_blocks fuel' data (p + 64) (n - 64)
      else mret (p, n)
  end.

(** [nbytes] is an int; its shift to the left and the sum with [offset] wrap around. *)
Definition md5_append (data : list Z) (nbytes : Z) : MM unit :=
  s ← gets id;
  let offset := Z.land (Z.shiftr (count0 s) 3) 63 in
  let nbits := u32 (Z.shiftl nbytes 3) in
  if nbytes <=? 0 then mret tt
  else
    let c1 := u32 (count1 s + Z.shiftr nbytes 29) in
    let c0 := u32 (count0 s + nbits) in
    modify (set_count c0 (if c0 <? nbits then u32 (c1 + 1) else c1));;
    copy ← (if negb (offset =? 0) then
              let copy := if 64 <? s32 (offset + nbytes) then 64 - offset else nbytes in
              copy_to_buf offset data 0 copy;;
              if offset + copy <? 64 then mret None
              else s ← gets id; md5_process (buf s) 0;; mret (Some copy)
            else mret (Some 0));
    match copy with
    | None => mret tt
    | Some copy =>
        '(p, n) ← full_blocks (S (Z.to_nat nbytes)) data copy (nbytes - copy);
        when (negb (n =? 0)) (copy_to_buf 0 data p n)
    end.

Definition pad : list Z := 0x80 :: replicate 63 0.
(** The bytes of a word, the least significant first. *)
Definition word_bytes (w : Z) : list Z := [u8 w; u8 (Z.shiftr w 8); u8 (Z.shiftr w 16); u8 (Z.shiftr w 24)].
Definition md5_finish : MM (list Z) :=
  s ← gets id;
  let data := word_bytes (count0 s) ++ word_bytes (count1 s) in
  md5_append pad (Z.land (u32 (55 - Z.shiftr (count0 s) 3)) 63 + 1);;
  md5_append data 8;;
  s ← gets id;
  let '(a, b, c, d) := abcd s in
  mret (word_bytes a ++ word_bytes b ++ word_bytes c ++ word_bytes d).

(** ** md5main.c *)

Definition hex_digit (n : Z) : ascii := ascii_of_nat (Z.to_nat (if n <? 10 then 48 + n else 87 + n)).
(** [sprintf(hex_output + di * 2, "%02x", digest[di])] *)
Definition hex_output (digest : list Z) : list ascii := concat ((fun b => [hex_digit (b / 16); hex_digit (b mod 16)]) <$> digest).
Definition digest_text (file : list Z) : MM (list ascii) :=
  md5_init;; md5_append file (Z.of_nat (length file));; d ← md5_finish; mret (hex_output d).

(** do_test: the strings and their digests; the result is the exit status. *)
Definition test_vectors : list (string * string) :=
  [("", "d41d8cd98f00b204e9800998ecf8427e"); ("a", "0cc175b9c0f1b6a831c399e269772661");
   ("abc", "900150983cd24fb0d6963f7d28e17f72"); ("message digest", "f96b697d7cb7938d525a2f31aaf161d0");
   ("abcdefghijklmnopqrstuvwxyz", "c3fcd3d76192e4007dfb496cca67e13b");
   ("ABCDEFGHIJKLMNOPQRSTUVWXYZabcdefghijklmnopqrstuvwxyz0123456789", "d174ab98d277d9f5a5611c2c9f419d9f");
   ("12345678901234567890123456789012345678901234567890123456789012345678901234567890",
    "57edf4a22be3c955ac49da2e2107b67a")]%string.
Definition text_bytes (s : string) : list Z := (fun c => Z.of_nat (nat_of_ascii c)) <$> list_ascii_of_string s.
Fixpoint do_test (tests : list (string * string)) (status : Z) : MM Z :=
  match tests with
  | [] => mret status
  | (text, digest) :: tests' =>
      h ← digest_text (text_bytes text);
      do_test tests' (if decide (h = list_ascii_of_string digest) then status else 1)
  end.

(** do_verify: the text for a file that was opened and mapped into memory, and the
    word error when one of the two failed. *)
Definition do_verify (opened : bool) (mapped : option (list Z)) : MM (list ascii) :=
  match opened, mapped with
  | true, Some file => digest_text file
  | _, _ => mret (list_ascii_of_string "error")
  end.

(** The part after the last slash. *)
Fixpoint strrchr (c : ascii) (s : list ascii) : option (list ascii) :=
  match s with
  | [] => None
  | x :: s' => match strrchr c s' with Some r => Some r | None => if decide (x = c) then Some s else None end
  end.
(** The name of the file for the result, in a buffer of [strlen(argv[1]) + 4] bytes. *)
Definition result_name (arg : list ascii) : option (list ascii) :=
  let base := match strrchr "/"%char arg with Some r => tail r | None => arg end in
  let text := list_ascii_of_string "/tmp/MD5_" ++ base in
  if decide (length text + 1 <= length arg + 4)%nat then Some text else None.

(** ** The digest of RFC 1321

    The standard: it uses no operation of the code. *)

Definition K_table : list Z :=
  [0xd76aa478; 0xe8c7b756; 0x242070db; 0xc1bdceee; 0xf57c0faf; 0x4787c62a; 0xa8304613; 0xfd469501;
   0x698098d8; 0x8b44f7af; 0xffff5bb1; 0x895cd7be; 0x6b901122; 0xfd987193; 0xa679438e; 0x49b40821;
   0xf61e2562; 0xc040b340; 0x265e5a51; 0xe9b6c7aa; 0xd62f105d; 0x02441453; 0xd8a1e681; 0xe7d3fbc8;
   0x21e1cde6; 0xc33707d6; 0xf4d50d87; 0x455a14ed; 0xa9e3e905; 0xfcefa3f8; 0x676f02d9; 0x8d2a4c8a;
   0xfffa3942; 0x8771f681; 0x6d9d6122; 0xfde5380c; 0xa4beea44; 0x4bdecfa9; 0xf6bb4b60; 0xbebfbc70;
   0x289b7ec6; 0xeaa127fa; 0xd4ef3085; 0x04881d05; 0xd9d4d039; 0xe6db99e5; 0x1fa27cf8; 0xc4ac5665;
   0xf4292244; 0x432aff97; 0xab9423a7; 0xfc93a039; 0x655b59c3; 0x8f0ccc92; 0xffeff47d; 0x85845dd1;
   0x6fa87e4f; 0xfe2ce6e0; 0xa3014314; 0x4e0811a1; 0xf7537e82; 0xbd3af235; 0x2ad7d2bb; 0xeb86d391].
Definition shifts : list Z := [7; 12; 17; 22; 5; 9; 14; 20; 4; 11; 16; 23; 6; 10; 15; 21].
Definition step_word (i : nat) : nat :=
  match (i / 16)%nat with O => i | 1%nat => (5 * i + 1) mod 16 | 2%nat => (3 * i + 5) mod 16 | _ => (7 * i) mod 16 end%nat.
Definition step_shift (i : nat) : Z := nth (4 * (i / 16) + i mod 4) shifts 0.

(** The word whose bit [k] is [g k]. *)
Definition word_of_bits (g : Z -> bool) : Z :=
  fold_right (fun k w => if g (Z.of_nat k) then Z.setbit w (Z.of_nat k) else w) 0 (seq 0 32).
(** The functions of the four rounds, bit by bit: "if X then Y else Z", "if Z then X
    else Y", the parity, and Y against "X or not Z". *)
Definition bit_fun (i : nat) (x y z : bool) : bool :=
  match (i / 16)%nat with
  | O => if x then y else z
  | 1%nat => if z then x else y
  | 2%nat => xorb (xorb x y) z
  | _ => xorb y (x || negb z)
  end.
Definition ref_fun (i : nat) (x y z : Z) : Z :=
  word_of_bits (fun k => bit_fun i (Z.testbit x k) (Z.testbit y k) (Z.testbit z k)).
(** The bits that leave a word of 32 bits on the left come back on the right. *)
Definition ref_rotate (x n : Z) : Z := (x * 2 ^ n) mod 2 ^ 32 + x / 2 ^ (32 - n).
(** Four bytes, the low-order byte first; and back. *)
Definition ref_word (block : list Z) (k : nat) : Z :=
  let byte j := nth (4 * k + j) block 0 in
  byte 0%nat + 256 * byte 1%nat + 65536 * byte 2%nat + 16777216 * byte 3%nat.
Fixpoint le_bytes (n : nat) (v : Z) : list Z :=
  match n with O => [] | S n' => v mod 256 :: le_bytes n' (v / 256) end.
(** [a = b + ((a + f(b, c, d) + X[k] + T[i]) <<< s)]; the registers move one place. *)
Definition ref_step (block : list Z) (st : regs) (i : nat) : regs :=
  let '(a, b, c, d) := st in
  (d, (b + ref_rotate ((a + ref_fun i b c d + ref_word block (step_word i) + nth i K_table 0) mod 2 ^ 32) (step_shift i)) mod 2 ^ 32, b, c).
Definition ref_block (st : regs) (block : list Z) : regs :=
  let '(a, b, c, d) := fold_left (ref_step block) (seq 0 64) st in
  let '(a0, b0, c0, d0) := st in
  ((a0 + a) mod 2 ^ 32, (b0 + b) mod 2 ^ 32, (c0 + c) mod 2 ^ 32, (d0 + d) mod 2 ^ 32).

(** The first [n] blocks of the message. *)
Fixpoint ref_blocks (block : regs -> list Z -> regs) (n : nat) (st : regs) (m : list Z) : regs :=
  match n with
  | O => st
  | S n' => ref_blocks block n' (block st (take 64 m)) (drop 64 m)
  end.
Definition ref_init : regs := (0x67452301, 0xefcdab89, 0x98badcfe, 0x10325476).
(** The message, a bit, zeros up to 56 bytes modulo 64, and the length in bits as a
    64-bit number, low-order byte first. *)
Definition ref_padded (m : list Z) : list Z :=
  let n := Z.of_nat (length m) in
  m ++ 0x80 :: replicate (Z.to_nat ((55 - n) mod 64)) 0 ++ le_bytes 8 (8 * n).
Definition ref_digest (m : list Z) : list Z :=
  let p := ref_padded m in
  let '(a, b, c, d) := ref_blocks ref_block (length p / 64) ref_init p in
  le_bytes 4 a ++ le_bytes 4 b ++ le_bytes 4 c ++ le_bytes 4 d.
