(* ===== verification/Md5Proofs.v ===== *)
(** * Md5Proofs: the digest is that of RFC 1321, however the message is cut

    The 64 operations of md5_process against the loop of the standard, what the
    state holds of the message that was appended ([holds_message]), and the digest of
    a message that is appended in any pieces. *)

From S2P Require Import Prelude Md5.

(** ** A block, as a loop over 64 steps *)

(** Step [i] mixes with [step_fun i] the word [step_word i], shifted by [step_shift i]. *)
Definition step_fun (i : nat) : Z -> Z -> Z -> Z :=
  match (i / 16)%nat with O => F | 1%nat => G | 2%nat => H | _ => I end.
Definition loop_step (X : list Z) (st : regs) (i : nat) : regs :=
  let '(a, b, c, d) := st in
  (d, u32 (b + ROTATE_LEFT (u32 (a + step_fun i b c d + nth (step_word i) X 0 + nth i K_table 0)) (step_shift i)), b, c).
Definition loop_block (st : regs) (data : list Z) : regs :=
  let '(a, b, c, d) := fold_left (loop_step (words data)) (seq 0 64) st in
  let '(a0, b0, c0, d0) := st in
  (u32 (a0 + a), u32 (b0 + b), u32 (c0 + c), u32 (d0 + d)).


Definition next_reg (r : reg) : reg := match r with RA => RD | RD => RC | RC => RB | RB => RA end.
Definition reg_at (i : nat) : reg := Nat.iter i next_reg RA.
(** The registers in the order in which the loop has them, when [r] is next. *)
Definition view (r : reg) (st : regs) : regs :=
  let '(a, b, c, d) := st in
  match r with RA => (a, b, c, d) | RD => (d, a, b, c) | RC => (c, d, a, b) | RB => (b, c, d, a) end.
Definition op_at (i : nat) : reg * nat * Z * nat := (reg_at i, step_word i, step_shift i, S i).

Lemma rounds_listed :
  round1 = op_at <$> seq 0 16 /\ round2 = op_at <$> seq 16 16 /\ round3 = op_at <$> seq 32 16 /\ round4 = op_at <$> seq 48 16.
Proof. by vm_compute. Qed.
Lemma constants_listed : Forall (fun i => T (S i) = nth i K_table 0) (seq 0 64).
Proof. repeat (constructor; [reflexivity|]). constructor. Qed.

Lemma step_view X i st :
  (i < 64)%nat -> loop_step X (view (reg_at i) st) i = view (reg_at (S i)) (SET (step_fun i) X (op_at i) st).
Proof.
  intros Hi. assert (HT : T (S i) = nth i K_table 0).
  { apply (Forall_elem _ _ i constants_listed), elem_of_seq. lia. }
  destruct st as [[[a b] c] d]. unfold op_at. change (reg_at (S i)) with (next_reg (reg_at i)). unfold SET, mix. rewrite HT.
  destruct (reg_at i); cbn [view next_reg]; unfold loop_step; by rewrite (Z.add_comm (ROTATE_LEFT _ _)).
Qed.

Lemma round_view X f n : forall lo st,
  (lo + n <= 64)%nat -> (forall i, (lo <= i < lo + n)%nat -> step_fun i = f) ->
  fold_left (loop_step X) (seq lo n) (view (reg_at lo) st) = view (reg_at (lo + n)) (do_round f X (op_at <$> seq lo n) st).
Proof.
  induction n as [|n IH]; intros lo st Hn Hf; [by rewrite Nat.add_0_r|].
  cbn [seq fold_left fmap list_fmap do_round]. fold (do_round f X). rewrite step_view by lia. rewrite (Hf lo) by lia.
  rewrite IH; [|lia|intros i Hi; apply Hf; lia]. by replace (S lo + n)%nat with (lo + S n)%nat by lia.
Qed.

Lemma step_fun_range i k f :
  (16 * k <= i < 16 * k + 16)%nat -> (match k with O => F | 1%nat => G | 2%nat => H | _ => I end) = f -> step_fun i = f.
Proof. intros Hi <-. unfold step_fun. by replace (i / 16)%nat with k by (apply (Nat.div_unique i 16 k (i - 16 * k)); lia). Qed.

Lemma block_is_loop st data : process_block st data = loop_block st data.
Proof.
  destruct rounds_listed as (E1 & E2 & E3 & E4). unfold process_block, loop_block. set (X := words data).
  assert (Hall : fold_left (loop_step X) (seq 0 64) st
    = do_round I X round4 (do_round H X round3 (do_round G X round2 (do_round F X round1 st)))).
  { change (seq 0 64) with (seq 0 16 ++ seq 16 16 ++ seq 32 16 ++ seq 48 16). rewrite !fold_left_app, E1, E2, E3, E4.
    assert (Hst : st = view (reg_at 0) st) by (by destruct st as [[[a b] c] d]). rewrite Hst at 1.
    rewrite (round_view X F 16 0) by (lia || (intros i Hi; apply (step_fun_range i 0); [lia|done])).
    rewrite (round_view X G 16 16) by (lia || (intros i Hi; apply (step_fun_range i 1); [lia|done])).
    rewrite (round_view X H 16 32) by (lia || (intros i Hi; apply (step_fun_range i 2); [lia|done])).
    rewrite (round_view X I 16 48) by (lia || (intros i Hi; apply (step_fun_range i 3); [lia|done])).
    change (reg_at (48 + 16)) with RA. by destruct (do_round I X _ _) as [[[a b] c] d]. }
  by rewrite Hall.
Qed.

(** ** The loop is the one of the standard *)

Lemma word_of_bits_spec g i : 0 <= i -> Z.testbit (word_of_bits g) i = (i <? 32) && g i.
Proof.
  intros Hi. unfold word_of_bits.
  assert (Hall : forall n lo, Z.testbit (fold_right (fun k w => if g (Z.of_nat k) then Z.setbit w (Z.of_nat k) else w) 0 (seq lo n)) i
    = (Z.of_nat lo <=? i) && (i <? Z.of_nat (lo + n)) && g i).
  { induction n as [|n IH]; intros lo; cbn [seq fold_right].
    - rewrite Z.bits_0. destruct (Z.leb_spec (Z.of_nat lo) i), (Z.ltb_spec i (Z.of_nat (lo + 0))); try done; lia.
    - assert (Hb : forall w, Z.testbit (Z.setbit w (Z.of_nat lo)) i = (Z.of_nat lo =? i) || Z.testbit w i)
        by (intros w; apply Z.setbit_eqb; lia).
      destruct (Z.eqb_spec (Z.of_nat lo) i) as [Heq|Hne].
      + subst i. rewrite (proj2 (Z.leb_le _ _)), (proj2 (Z.ltb_lt _ _)) by lia. cbn [andb].
        destruct (g (Z.of_nat lo)); [by rewrite Hb, ?Z.eqb_refl|]. rewrite IH. by rewrite andb_false_r.
      + assert (Hs : Z.testbit (if g (Z.of_nat lo) then Z.setbit (fold_right (fun k w => if g (Z.of_nat k) then Z.setbit w (Z.of_nat k) else w) 0 (seq (S lo) n)) (Z.of_nat lo)
            else fold_right (fun k w => if g (Z.of_nat k) then Z.setbit w (Z.of_nat k) else w) 0 (seq (S lo) n)) i
          = Z.testbit (fold_right (fun k w => if g (Z.of_nat k) then Z.setbit w (Z.of_nat k) else w) 0 (seq (S lo) n)) i).
        { destruct (g (Z.of_nat lo)); [|done]. by rewrite Hb. }
        rewrite Hs, IH. replace (S lo + n)%nat with (lo + S n)%nat by lia. f_equal. f_equal.
        destruct (Z.leb_spec (Z.of_nat (S lo)) i), (Z.leb_spec (Z.of_nat lo) i); try done; lia. }
  rewrite Hall. change (Z.of_nat 0) with 0. change (Z.of_nat (0 + 32)) with 32. by rewrite (proj2 (Z.leb_le _ _) Hi).
Qed.

Lemma u32_testbit x i : 0 <= i -> Z.testbit (u32 x) i = (i <? 32) && Z.testbit x i.
Proof.
  intros Hi. unfold u32. destruct (Z.ltb_spec i 32).
  - by rewrite Z.mod_pow2_bits_low by lia.
  - by rewrite Z.mod_pow2_bits_high by lia.
Qed.
Lemma mask_testbit i : 0 <= i < 32 -> Z.testbit T_MASK i = true.
Proof. intros Hi. change T_MASK with (Z.ones 32). by apply Z.ones_spec_low. Qed.

(** The expressions of the code are the functions, in the low 32 bits. *)
Lemma step_fun_bits i x y z : u32 (step_fun i x y z) = ref_fun i x y z.
Proof.
  apply Z.bits_inj'. intros k Hk. unfold ref_fun. rewrite u32_testbit, word_of_bits_spec by done.
  destruct (Z.ltb_spec k 32) as [Hlow|]; [cbn [andb]|done]. unfold step_fun, bit_fun, F, G, H, I, not32.
  destruct (i / 16)%nat as [|[|[|]]]; repeat first [rewrite Z.lor_spec|rewrite Z.land_spec|rewrite Z.lxor_spec]; rewrite ?mask_testbit by lia;
    by destruct (Z.testbit x k), (Z.testbit y k), (Z.testbit z k).
Qed.

Lemma rotate_is_sum x n : 0 <= x < 2 ^ 32 -> 0 < n < 32 -> ROTATE_LEFT x n = ref_rotate x n.
Proof.
  intros Hx Hn. unfold ROTATE_LEFT, ref_rotate. rewrite Z.shiftr_div_pow2, Z.shiftl_mul_pow2 by lia.
  change ((x * 2 ^ n) mod 2 ^ 32) with (u32 (x * 2 ^ n)).
  assert (Hland : Z.land (u32 (x * 2 ^ n)) (x / 2 ^ (32 - n)) = 0).
  { apply Z.bits_inj'. intros k Hk. rewrite Z.land_spec, Z.bits_0, u32_testbit by done.
    destruct (Z.lt_ge_cases k n) as [Hlt|Hge].
    - rewrite <- Z.shiftl_mul_pow2, Z.shiftl_spec_low by lia. by rewrite andb_false_r.
    - assert (Hh : Z.testbit (x / 2 ^ (32 - n)) k = false); [|by rewrite Hh, andb_false_r].
      rewrite <- Z.shiftr_div_pow2, Z.shiftr_spec by lia. rewrite <- (Z.mod_small x (2 ^ 32)) by lia. apply Z.mod_pow2_bits_high. lia. }
  by rewrite <- Z.lxor_lor, Z.add_nocarry_lxor.
Qed.

Lemma words_nth data k : (4 * k + 4 <= length data)%nat -> nth k (words data) 0 = u32 (ref_word data k).
Proof.
  revert data. induction k as [|k IH]; intros data Hl;
    destruct data as [|b0 [|b1 [|b2 [|b3 data]]]]; cbn [length] in Hl; try lia; cbn [words nth].
  - unfold ref_word. cbn. rewrite !Z.shiftl_mul_pow2 by lia. f_equal. lia.
  - rewrite IH by lia. unfold ref_word. by replace (4 * S k)%nat with (S (S (S (S (4 * k))))) by lia.
Qed.

Lemma step_ranges i : (i < 64)%nat -> (step_word i < 16)%nat /\ 0 < step_shift i < 32.
Proof.
  intros Hi.
  assert (Hall : forallb (fun i => ((step_word i <? 16)%nat && (0 <? step_shift i) && (step_shift i <? 32))) (seq 0 64) = true) by (vm_compute; reflexivity).
  rewrite forallb_forall in Hall. specialize (Hall i ltac:(apply in_seq; lia)).
  apply andb_prop in Hall as [Hj H3]. apply andb_prop in Hj as [H1 H2].
  apply Nat.ltb_lt in H1. apply Z.ltb_lt in H2. apply Z.ltb_lt in H3. lia.
Qed.

Lemma add_mod_mid p q r n : (p + q mod n + r) mod n = (p + q + r) mod n.
Proof. by rewrite <- Zplus_mod_idemp_l, Zplus_mod_idemp_r, Zplus_mod_idemp_l. Qed.

Lemma step_is_standard data st i : length data = 64%nat -> (i < 64)%nat -> loop_step (words data) st i = ref_step data st i.
Proof.
  intros Hl Hi. destruct st as [[[a b] c] d]. destruct (step_ranges i Hi) as [Hw Hs]. unfold loop_step, ref_step.
  rewrite <- step_fun_bits, words_nth by lia.
  assert (Hsum : u32 (a + step_fun i b c d + u32 (ref_word data (step_word i)) + nth i K_table 0)
    = (a + u32 (step_fun i b c d) + ref_word data (step_word i) + nth i K_table 0) mod 2 ^ 32).
  { unfold u32. rewrite add_mod_mid, <- !(Z.add_assoc _ (ref_word data (step_word i))). by rewrite add_mod_mid. }
  rewrite Hsum, rotate_is_sum; [done|apply Z.mod_pos_bound; lia|done].
Qed.

Lemma fold_ext {A B} (f g : A -> B -> A) l a : Forall (fun b => forall a, f a b = g a b) l -> fold_left f l a = fold_left g l a.
Proof. intros Hl. revert a. induction Hl as [|b l Hb _ IH]; intros a; [done|]. cbn. by rewrite Hb. Qed.

Lemma block_is_reference st data : length data = 64%nat -> process_block st data = ref_block st data.
Proof.
  intros Hl. rewrite block_is_loop. unfold loop_block, ref_block.
  rewrite (fold_ext _ (ref_step data)); [done|]. apply Forall_forall. intros i Hi x. apply in_seq in Hi.
  apply step_is_standard; [done|lia].
Qed.

(** The bytes of a word, and of the length. *)
Lemma le_bytes_word w : word_bytes w = le_bytes 4 w.
Proof.
  unfold word_bytes, u8. rewrite !Z.shiftr_div_pow2 by lia. cbn [le_bytes]. rewrite !Z.div_div by lia. done.
Qed.
Lemma le_bytes_mod k n v : 0 <= v -> le_bytes n (v mod 256 ^ Z.of_nat (n + k)) = le_bytes n v.
Proof.
  revert v. induction n as [|n IH]; intros v Hv; [done|]. cbn [le_bytes Nat.add].
  rewrite Nat2Z.inj_succ, Z.pow_succ_r by lia. set (p := 256 ^ Z.of_nat (n + k)).
  assert (Hp : 0 < p) by (apply Z.pow_pos_nonneg; lia). rewrite Z.rem_mul_r by lia. f_equal.
  - rewrite (Z.mul_comm 256), Z.mod_add by lia. by rewrite Z.mod_mod by lia.
  - rewrite (Z.mul_comm 256), Z.div_add by lia. rewrite (Z.div_small (v mod 256)) by (apply Z.mod_pos_bound; lia).
    rewrite Z.add_0_l. apply IH, Z.div_pos; lia.
Qed.
Lemma le_bytes_split v : 0 <= v -> le_bytes 4 (u32 v) ++ le_bytes 4 (u32 (v / 2 ^ 32)) = le_bytes 8 v.
Proof.
  intros Hv. unfold u32. change (2 ^ 32) with (256 ^ Z.of_nat (4 + 0)). rewrite !le_bytes_mod by (try apply Z.div_pos; lia).
  change (256 ^ Z.of_nat (4 + 0)) with (256 * 256 * 256 * 256). cbn [le_bytes app]. rewrite !Z.div_div by lia. done.
Qed.

(** ** The blocks of a message *)

Lemma blocks_app block n m st x : (64 * n <= length m)%nat -> ref_blocks block n st (m ++ x) = ref_blocks block n st m.
Proof.
  revert st m. induction n as [|n IH]; intros st m Hn; [done|]. cbn [ref_blocks]. rewrite take_app_le, drop_app_le by lia.
  apply IH. rewrite length_drop. lia.
Qed.
Lemma blocks_add block n n' m : forall st, ref_blocks block (n + n') st m = ref_blocks block n' (ref_blocks block n st m) (drop (64 * n) m).
Proof.
  revert m. induction n as [|n IH]; intros m st; [by rewrite drop_0|]. cbn [Nat.add ref_blocks]. rewrite IH, drop_drop.
  by replace (64 + 64 * n)%nat with (64 * S n)%nat by lia.
Qed.
Lemma blocks_ext block block' n m st : (forall st d, length d = 64%nat -> block st d = block' st d) -> (64 * n <= length m)%nat ->
  ref_blocks block n st m = ref_blocks block' n st m.
Proof.
  intros H. revert st m. induction n as [|n IH]; intros st m Hn; [done|]. cbn.
  rewrite H by (rewrite length_take; lia). apply IH. rewrite length_drop. lia.
Qed.

(** ** The length of the message *)

Definition bits_of (m : list Z) : Z := 8 * Z.of_nat (length m).
Lemma add_with_carry x y :
  0 <= x -> 0 <= y < 2 ^ 34 ->
  let c0 := u32 (u32 x + u32 y) in
  let c1 := u32 (u32 (x / 2 ^ 32) + y / 2 ^ 32) in
  c0 = u32 (x + y) /\ (if c0 <? u32 y then u32 (c1 + 1) else c1) = u32 ((x + y) / 2 ^ 32).
Proof.
  intros Hx Hy c0 c1. assert (Hc0 : c0 = u32 (x + y)) by (unfold c0, u32; by rewrite <- Zplus_mod). split; [done|]. rewrite Hc0.
  assert (Hc1 : c1 = u32 (x / 2 ^ 32 + y / 2 ^ 32)) by (unfold c1, u32; by rewrite Zplus_mod_idemp_l).
  assert (Hsum : (x + y) / 2 ^ 32 = x / 2 ^ 32 + y / 2 ^ 32 + (if u32 (x + y) <? u32 y then 1 else 0)).
  { unfold u32. pose proof (Z_div_mod_eq_full x (2 ^ 32)). pose proof (Z_div_mod_eq_full y (2 ^ 32)). pose proof (Z_div_mod_eq_full (x + y) (2 ^ 32)).
    pose proof (Z.mod_pos_bound x (2 ^ 32) ltac:(lia)). pose proof (Z.mod_pos_bound y (2 ^ 32) ltac:(lia)). pose proof (Z.mod_pos_bound (x + y) (2 ^ 32) ltac:(lia)).
    destruct ((x + y) mod 2 ^ 32 <? y mod 2 ^ 32) eqn:Hc; [apply Z.ltb_lt in Hc|apply Z.ltb_ge in Hc]; lia. }
  rewrite Hsum, Hc1. destruct (_ <? _); unfold u32; [by rewrite Zplus_mod_idemp_l|by rewrite Z.add_0_r].
Qed.
Lemma offset_of m : Z.land (Z.shiftr (u32 (bits_of m)) 3) 63 = Z.of_nat (length m mod 64).
Proof.
  unfold bits_of, u32. change 63 with (Z.ones 6). rewrite Z.land_ones, Z.shiftr_div_pow2 by lia.
  rewrite Nat2Z.inj_mod. set (L := Z.of_nat (length m)).
  pose proof (Z_div_mod_eq_full (8 * L) (2 ^ 32)). pose proof (Z.mod_pos_bound (8 * L) (2 ^ 32) ltac:(lia)).
  set (q := (8 * L) / 2 ^ 32) in *. assert (Hr : (8 * L) mod 2 ^ 32 = 8 * (L - 2 ^ 29 * q)) by lia. rewrite Hr.
  rewrite (Z.mul_comm 8), Z.div_mul by lia. replace (L - 2 ^ 29 * q) with (L + (- (2 ^ 23) * q) * 2 ^ 6) by lia.
  rewrite Z.mod_add by lia. done.
Qed.

(** ** What the state holds *)

Record holds_message (m : list Z) (s : md5_state_t) : Prop := {
  hm_count0 : count0 s = u32 (bits_of m);
  hm_count1 : count1 s = u32 (bits_of m / 2 ^ 32);
  hm_abcd : abcd s = ref_blocks process_block (length m / 64) ref_init m;
  hm_length : length (buf s) = 64%nat;
  hm_buf : take (length m mod 64) (buf s) = drop (64 * (length m / 64)) m
}.

Lemma init_holds s : length (buf s) = 64%nat -> exists s', md5_init s = Ok tt s' /\ holds_message [] s'.
Proof. intros Hb. eexists. split; [reflexivity|]. by split. Qed.

Lemma process_run data p s : 0 <= p -> (Z.to_nat p + 64 <= length data)%nat ->
  md5_process data p s = Ok tt (set_abcd (process_block (abcd s) (take 64 (drop (Z.to_nat p) data))) s).
Proof. intros Hp Hl. unfold md5_process. eapply run_bind; [apply in_bounds_run, load_ok; lia|done]. Qed.
Lemma copy_run offset data p copy s : 0 <= offset -> 0 <= p -> 0 <= copy -> offset + copy <= Z.of_nat (length (buf s)) ->
  p + copy <= Z.of_nat (length data) ->
  copy_to_buf offset data p copy s
  = Ok tt (set_buf (list_inserts (Z.to_nat offset) (take (Z.to_nat copy) (drop (Z.to_nat p) data)) (buf s)) s).
Proof.
  intros. unfold copy_to_buf. eapply run_bind; [apply in_bounds_run, load_len_ok; lia|]. eapply run_bind; [apply gets_run|].
  eapply run_bind; [apply in_bounds_run, store_ok; [lia|rewrite length_take, length_drop; lia]|done].
Qed.

Lemma full_blocks_run fuel : forall data p n s, 0 <= p -> 0 <= n -> p + n <= Z.of_nat (length data) -> (Z.to_nat n < fuel)%nat ->
  full_blocks fuel data p n s
  = Ok (p + 64 * (n / 64), n mod 64) (set_abcd (ref_blocks process_block (Z.to_nat (n / 64)) (abcd s) (drop (Z.to_nat p) data)) s).
Proof.
  induction fuel as [|fuel IH]; intros data p n s Hp Hn Hl Hf; [lia|]. cbn [full_blocks]. destruct (64 <=? n) eqn:H64.
  - apply Z.leb_le in H64. eapply run_bind; [apply process_run; lia|]. rewrite IH by lia. cbn [abcd set_abcd].
    replace ((n - 64) / 64) with (n / 64 - 1) by (replace (n - 64) with (n + (-1) * 64) by lia; rewrite Z.div_add by lia; lia).
    replace ((n - 64) mod 64) with (n mod 64) by (replace (n - 64) with (n + (-1) * 64) by lia; by rewrite Z.mod_add by lia).
    assert (Hq : 1 <= n / 64) by (apply Z.div_le_lower_bound; lia).
    replace (Z.to_nat (n / 64)) with (S (Z.to_nat (n / 64 - 1))) by lia. cbn [ref_blocks].
    rewrite drop_drop. replace (Z.to_nat p + 64)%nat with (Z.to_nat (p + 64)) by lia.
    f_equal. f_equal. lia.
  - apply Z.leb_gt in H64. rewrite Z.div_small, Z.mod_small by lia. cbn. rewrite Z.add_0_r. by destruct s.
Qed.

(** ** Appending *)

(** The bytes that an append adds. *)
Definition counted (m : list Z) (s : md5_state_t) : Prop := count0 s = u32 (bits_of m) /\ count1 s = u32 (bits_of m / 2 ^ 32).

Lemma count_append m n data : (n <= length data)%nat -> Z.of_nat n < 2 ^ 31 ->
  let nbits := u32 (Z.shiftl (Z.of_nat n) 3) in
  let c1 := u32 (u32 (bits_of m / 2 ^ 32) + Z.shiftr (Z.of_nat n) 29) in
  let c0 := u32 (u32 (bits_of m) + nbits) in
  c0 = u32 (bits_of (m ++ take n data)) /\ (if c0 <? nbits then u32 (c1 + 1) else c1) = u32 (bits_of (m ++ take n data) / 2 ^ 32).
Proof.
  intros Hn Hb. cbv zeta. rewrite Z.shiftl_mul_pow2, Z.shiftr_div_pow2 by lia.
  assert (Hy : bits_of (m ++ take n data) = bits_of m + Z.of_nat n * 2 ^ 3).
  { unfold bits_of. rewrite length_app, length_take. lia. }
  assert (Hd : Z.of_nat n / 2 ^ 29 = Z.of_nat n * 2 ^ 3 / 2 ^ 32).
  { change (2 ^ 32) with (2 ^ 29 * 2 ^ 3). by rewrite Z.div_mul_cancel_r by lia. }
  rewrite Hy, Hd. apply add_with_carry; unfold bits_of; lia.
Qed.

(** The run went well, and the state holds [m]. *)
Definition appended (m : list Z) (r : res md5_state_t unit) : Prop := exists s', r = Ok tt s' /\ holds_message m s'.

(** The full blocks from [c] on and the rest, when [c] ends a block of the message. *)
Lemma rest_run m data n c s :
  (c <= n)%nat -> (n <= length data)%nat -> ((length m + c) mod 64 = 0)%nat -> length (buf s) = 64%nat ->
  counted (m ++ take n data) s ->
  abcd s = ref_blocks process_block ((length m + c) / 64) ref_init (m ++ take n data) ->
  appended (m ++ take n data) (('(p, k) ← full_blocks (S n) data (Z.of_nat c) (Z.of_nat n - Z.of_nat c);
                               when (negb (k =? 0)) (copy_to_buf 0 data p k)) s).
Proof.
  intros Hc Hn H0 Hbuf [Hc0 Hc1] Habcd. set (m' := m ++ take n data) in *.
  assert (Hm' : length m' = (length m + n)%nat) by (unfold m'; rewrite length_app, length_take; lia).
  set (q := ((n - c) / 64)%nat). set (r := ((n - c) mod 64)%nat). set (k := ((length m + c) / 64)%nat) in *.
  assert (Hk : (length m + c = 64 * k)%nat) by (pose proof (Nat.div_mod_eq (length m + c) 64); lia).
  assert (Hqr : (n - c = 64 * q + r)%nat) by apply Nat.div_mod_eq.
  assert (Hr : (r < 64)%nat) by (apply Nat.mod_upper_bound; lia).
  assert (Hq' : (length m' / 64 = k + q)%nat) by (symmetry; apply (Nat.div_unique _ 64 _ r); lia).
  assert (Hr' : (length m' mod 64 = r)%nat) by (symmetry; apply (Nat.mod_unique _ 64 (k + q)); lia).
  assert (HqZ : (Z.of_nat n - Z.of_nat c) / 64 = Z.of_nat q) by (unfold q; rewrite Nat2Z.inj_div, Nat2Z.inj_sub by lia; done).
  assert (HrZ : (Z.of_nat n - Z.of_nat c) mod 64 = Z.of_nat r) by (unfold r; rewrite Nat2Z.inj_mod, Nat2Z.inj_sub by lia; done).
  assert (Hdrop : drop (64 * k) m' = drop c (take n data)).
  { unfold m'. rewrite drop_app_ge by lia. f_equal. lia. }
  assert (Hfull := full_blocks_run (S n) data (Z.of_nat c) (Z.of_nat n - Z.of_nat c) s).
  do 4 (specialize (Hfull ltac:(lia))).
  rewrite HqZ, HrZ, !Nat2Z.id in Hfull. set (s1 := set_abcd _ s) in Hfull.
  assert (Hb1 : length (buf s1) = 64%nat) by done.
  assert (Hab : abcd s1 = ref_blocks process_block (length m' / 64) ref_init m').
  { cbn [s1 abcd set_abcd]. rewrite Hq', blocks_add, Hdrop, Habcd.
    assert (Hsplit : drop c data = drop c (take n data) ++ drop n data).
    { rewrite <- (take_drop n data) at 1. rewrite drop_app_le; [done|rewrite length_take; lia]. }
    rewrite Hsplit. apply blocks_app. rewrite length_drop, length_take. lia. }
  assert (Htail : drop (64 * (length m' / 64)) m' = take r (drop (c + 64 * q) data)).
  { rewrite Hq', Nat.mul_add_distr_l, <- drop_drop, Hdrop, drop_drop, skipn_firstn_comm. f_equal. lia. }
  destruct (decide (r = 0%nat)) as [Hr0|Hr0].
  - exists s1. split; [eapply run_bind; [exact Hfull|]; by rewrite Hr0|].
    constructor; [done|done|done|done|]. by rewrite Hr', Htail, Hr0.
  - eexists. split.
    { eapply run_bind; [exact Hfull|]. cbn beta iota. rewrite (proj2 (Z.eqb_neq _ _)) by lia. apply copy_run; lia. }
    constructor; [done|done|done|cbn [buf set_buf]; by rewrite length_inserts|]. cbn [buf set_buf s1 set_abcd]. rewrite Hr', Htail, Nat2Z.id.
    replace (Z.to_nat (Z.of_nat c + 64 * Z.of_nat q)) with (c + 64 * q)%nat by lia.
    assert (Hlen : length (take r (drop (c + 64 * q) data)) = r) by (rewrite length_take, length_drop; lia).
    rewrite inserts_app by lia. change (take (Z.to_nat 0) (buf s)) with (@nil Z). cbn [app]. by rewrite take_app_length'.
Qed.

(** The block that was begun takes [c] bytes and is full, or the message ends in it. *)
Lemma fill_run m data n c s :
  let o := (length m mod 64)%nat in let k := (length m / 64)%nat in
  (0 < o)%nat -> (c <= n <= length data)%nat -> (o + c <= 64)%nat -> ((o + c < 64)%nat -> c = n) ->
  counted (m ++ take n data) s -> abcd s = ref_blocks process_block k ref_init m ->
  length (buf s) = 64%nat -> take o (buf s) = drop (64 * k) m ->
  appended (m ++ take n data) ((copy ← (copy_to_buf (Z.of_nat o) data 0 (Z.of_nat c);;
              if Z.of_nat o + Z.of_nat c <? 64 then mret None
              else s ← gets id; md5_process (buf s) 0;; mret (Some (Z.of_nat c)));
    match copy with
    | None => mret tt
    | Some copy =>
        '(p, r) ← full_blocks (S n) data copy (Z.of_nat n - copy);
        when (negb (r =? 0)) (copy_to_buf 0 data p r)
    end) s).
Proof.
  intros o k Ho Hc Hoc Hend Hcounted Habcd Hlen Hbuf. set (m' := m ++ take n data) in *.
  assert (Hko : length m = (64 * k + o)%nat) by apply Nat.div_mod_eq.
  assert (Hm' : length m' = (length m + n)%nat) by (unfold m'; rewrite length_app, length_take; lia).
  assert (Habcd' : abcd s = ref_blocks process_block k ref_init m') by (unfold m'; rewrite blocks_app by lia; done).
  assert (Htc : length (take c data) = c) by (rewrite length_take; lia).
  set (b := take o (buf s) ++ take c data ++ drop (o + c) (buf s)).
  assert (Hb : length b = 64%nat) by (unfold b; rewrite !length_app, length_take, length_drop; lia).
  assert (Hbm : take (o + c) b = drop (64 * k) (m ++ take c data)).
  { unfold b. rewrite drop_app_le by lia. rewrite Hbuf, app_assoc. apply take_app_length'.
    rewrite length_app, length_drop. lia. }
  assert (Hcopy : copy_to_buf (Z.of_nat o) data 0 (Z.of_nat c) s = Ok tt (set_buf b s)).
  { rewrite copy_run by lia. rewrite !Nat2Z.id. change (drop (Z.to_nat 0) data) with data.
    rewrite inserts_app by lia. unfold b. by rewrite Htc. }
  clearbody b. destruct (decide (o + c < 64)%nat) as [Hlt|Hge].
  - eexists. split.
    { eapply run_bind; [eapply run_bind; [exact Hcopy|]; by rewrite (proj2 (Z.ltb_lt _ _)) by lia|]. reflexivity. }
    specialize (Hend Hlt). subst c. destruct Hcounted.
    assert (Hk' : (length m' / 64 = k)%nat) by (symmetry; apply (Nat.div_unique _ 64 _ (o + n)); lia).
    assert (Ho' : (length m' mod 64 = o + n)%nat) by (symmetry; apply (Nat.mod_unique _ 64 k); lia).
    constructor; cbn [count0 count1 abcd buf set_buf]; rewrite ?Hk', ?Ho'; done.
  - eapply run_bind.
    { eapply run_bind; [exact Hcopy|]. rewrite (proj2 (Z.ltb_ge _ _)) by lia. eapply run_bind; [apply gets_run|].
      eapply run_bind; [apply process_run; [lia|cbn; lia]|]. reflexivity. }
    assert (Hk' : ((length m + c) / 64 = S k)%nat) by (symmetry; apply (Nat.div_unique _ 64 _ 0); lia).
    assert (Ho' : ((length m + c) mod 64 = 0)%nat) by (symmetry; apply (Nat.mod_unique _ 64 (S k)); lia).
    apply rest_run; [lia|lia|done|done|done|]. cbn [abcd set_abcd set_buf buf id]. change (drop (Z.to_nat 0) b) with b.
    rewrite Hk', <- (Nat.add_1_r k), blocks_add. fold m'. rewrite <- Habcd'. cbn [ref_blocks]. f_equal.
    replace (o + c)%nat with 64%nat in Hbm by lia. rewrite Hbm.
    assert (Hsplit : m' = (m ++ take c data) ++ drop c (take n data)).
    { unfold m'. rewrite <- app_assoc. f_equal. rewrite <- (take_drop c (take n data)) at 1. by rewrite take_take, Nat.min_l by lia. }
    rewrite Hsplit, (drop_app_le (m ++ take c data)) by (rewrite length_app; lia). by rewrite take_app_length' by (rewrite length_drop, length_app; lia).
Qed.

Lemma append_run m data n s : (n <= length data)%nat -> Z.of_nat n < 2 ^ 31 ->
  (length m mod 64 = 0)%nat \/ Z.of_nat (length m mod 64 + n) < 2 ^ 31 -> holds_message m s ->
  appended (m ++ take n data) (md5_append data (Z.of_nat n) s).
Proof.
  intros Hn Hb Hsum [H0 H1 Habcd Hlen Hbuf]. set (o := (length m mod 64)%nat) in *. set (k := (length m / 64)%nat) in *.
  assert (Ho : (o < 64)%nat) by (apply Nat.mod_upper_bound; lia).
  destruct (count_append m n data Hn Hb) as [Hc0 Hc1].
  unfold md5_append. eapply run_bind; [apply gets_run|]. cbv zeta. cbn [id]. rewrite H0, H1, offset_of. fold o.
  destruct (Z.leb_spec (Z.of_nat n) 0) as [Hz|Hz].
  { assert (n = 0%nat) as -> by lia. exists s. split; [done|]. rewrite take_0, app_nil_r. by constructor. }
  rewrite Hc1, Hc0. eapply run_bind; [reflexivity|]. rewrite Nat2Z.id. set (s1 := set_count _ _ s).
  destruct (decide (o = 0%nat)) as [Hoz|Hoz].
  - rewrite Hoz. eapply run_bind; [reflexivity|].
    assert (Hk : ((length m + 0) / 64 = k)%nat) by by rewrite Nat.add_0_r.
    apply (rest_run m data n 0); [lia|lia|by rewrite Nat.add_0_r|done|done|]. rewrite Hk, blocks_app; [done|].
    pose proof (Nat.div_mod_eq (length m) 64). lia.
  - destruct Hsum as [Hsum|Hsum]; [lia|]. rewrite (proj2 (Z.eqb_neq _ _)), s32_small by lia. cbn [negb].
    assert (Hc : exists c, (if 64 <? Z.of_nat o + Z.of_nat n then 64 - Z.of_nat o else Z.of_nat n) = Z.of_nat c
      /\ (c <= n /\ o + c <= 64 /\ (o + c < 64 -> c = n))%nat).
    { destruct (Z.ltb_spec 64 (Z.of_nat o + Z.of_nat n)); [exists (64 - o)%nat|exists n]; lia. }
    destruct Hc as (c & -> & Hcn). by apply fill_run; [lia|lia|lia|lia| | | |].
Qed.

(** ** The end of the message *)

Lemma pad_of_count m : Z.land (u32 (55 - Z.shiftr (u32 (bits_of m)) 3)) 63 + 1 = Z.of_nat (S ((119 - length m mod 64) mod 64)).
Proof.
  pose proof (offset_of m) as Hoff. set (x := Z.shiftr _ 3) in *. change 63 with (Z.ones 6) in *. rewrite Z.land_ones in * by lia.
  change (2 ^ 6) with 64 in *. set (o := (length m mod 64)%nat) in *.
  assert (Ho : (o < 64)%nat) by (apply Nat.mod_upper_bound; lia).
  assert (H : u32 (55 - x) mod 64 = (55 - x) mod 64).
  { unfold u32. pose proof (Z_div_mod_eq_full (55 - x) (2 ^ 32)). set (q := (55 - x) / 2 ^ 32) in *.
    replace (55 - x) with ((55 - x) mod 2 ^ 32 + (2 ^ 26 * q) * 64) at 2 by lia. by rewrite Z.mod_add by lia. }
  rewrite H, Nat2Z.inj_succ, Nat2Z.inj_mod, Nat2Z.inj_sub, <- Hoff by lia. rewrite <- Zminus_mod_idemp_r.
  change (Z.of_nat 119) with 119. change (Z.of_nat 64) with 64.
  replace (119 - x mod 64) with (55 - x mod 64 + 1 * 64) by lia. rewrite Z.mod_add by lia. lia.
Qed.

(** The padding and the length are those of the standard. *)
Lemma padded_is_standard m :
  let n := S ((119 - length m mod 64) mod 64) in
  (m ++ take n pad) ++ take 8 (word_bytes (u32 (bits_of m)) ++ word_bytes (u32 (bits_of m / 2 ^ 32))) = ref_padded m.
Proof.
  intros n. rewrite !le_bytes_word, le_bytes_split by (unfold bits_of; lia). unfold ref_padded, pad. rewrite <- app_assoc. f_equal.
  change (take 8 (le_bytes 8 (bits_of m))) with (le_bytes 8 (bits_of m)). fold (bits_of m). subst n. cbn [take firstn app]. f_equal. f_equal.
  assert (Hk : Z.to_nat ((55 - Z.of_nat (length m)) mod 64) = ((119 - length m mod 64) mod 64)%nat).
  { pose proof (pad_of_count m) as Hp. apply Nat2Z.inj. rewrite Z2Nat.id by (apply Z.mod_pos_bound; lia).
    rewrite Nat2Z.inj_mod, Nat2Z.inj_sub, Nat2Z.inj_mod by (pose proof (Nat.mod_upper_bound (length m) 64); lia).
    change (Z.of_nat 119) with 119. change (Z.of_nat 64) with 64. rewrite Zminus_mod_idemp_r.
    replace (119 - Z.of_nat (length m)) with (55 - Z.of_nat (length m) + 1 * 64) by lia. by rewrite Z.mod_add by lia. }
  rewrite Hk. change (firstn ?n ?l) with (take n l). rewrite take_replicate, Nat.min_l; [done|].
  pose proof (Nat.mod_upper_bound (119 - length m mod 64) 64). lia.
Qed.

Lemma digest_finish_run m s : holds_message m s -> exists s', md5_finish s = Ok (ref_digest m) s'.
Proof.
  intros Hs. set (n := S ((119 - length m mod 64) mod 64)).
  assert (Hn : (n <= 64)%nat) by (pose proof (Nat.mod_upper_bound (119 - length m mod 64) 64); lia).
  set (len := word_bytes (u32 (bits_of m)) ++ word_bytes (u32 (bits_of m / 2 ^ 32))).
  destruct (append_run m pad n s) as (s1 & Hrun1 & Hs1);
    [done|lia|right; pose proof (Nat.mod_upper_bound (length m) 64); lia|done|].
  destruct (append_run (m ++ take n pad) len 8 s1) as (s2 & Hrun2 & Hs2);
    [done|lia|right; pose proof (Nat.mod_upper_bound (length (m ++ take n pad)) 64); lia|exact Hs1|]. exists s2.
  unfold md5_finish. eapply run_bind; [apply gets_run|]. cbn [id]. cbv zeta.
  rewrite (hm_count0 _ _ Hs), (hm_count1 _ _ Hs), pad_of_count. eapply run_bind; [exact Hrun1|].
  eapply run_bind; [exact Hrun2|]. eapply run_bind; [apply gets_run|]. cbn [id].
  pose proof (padded_is_standard m) as Hp. cbv zeta in Hp. fold n len in Hp. rewrite Hp in Hs2.
  rewrite (hm_abcd _ _ Hs2), (blocks_ext _ ref_block) by first [exact block_is_reference|apply Nat.Div0.mul_div_le].
  unfold ref_digest. destruct (ref_blocks _ _ _ _) as [[[a b] c] d]. by rewrite !le_bytes_word.
Qed.

(** Appending the pieces of a message, one after the other. *)
Fixpoint append_all (pieces : list (list Z)) : MM unit :=
  match pieces with
  | [] => mret tt
  | data :: pieces' => md5_append data (Z.of_nat (length data));; append_all pieces'
  end.
Lemma append_all_run pieces : forall m s, Forall (fun data => Z.of_nat (length data) <= 2 ^ 31 - 64) pieces -> holds_message m s ->
  appended (m ++ concat pieces) (append_all pieces s).
Proof.
  induction pieces as [|data pieces IH]; intros m s Hp Hs; cbn [append_all concat].
  { exists s. by rewrite app_nil_r. }
  inversion Hp as [|? ? Hd Hp']; subst. destruct (append_run m data (length data) s) as (s1 & Hrun & Hs1);
    [done|lia|right; pose proof (Nat.mod_upper_bound (length m) 64); lia|done|].
  eapply run_bind; [exact Hrun|]. rewrite firstn_all in Hs1. rewrite app_assoc. by apply IH.
Qed.

(** C26. The digest is the one of RFC 1321, whatever pieces the message is appended in:
    md5_init, an md5_append for each piece and md5_finish give the digest of the
    concatenation, and no access leaves the buffer of 64 bytes. The digest is that of
    the standard: the padded message, the functions of the four rounds given bit by
    bit, rotations as arithmetic, words and length from their bytes, and a loop of 64
    steps for a block. A piece has at most [2 ^ 31 - 64] bytes, so that the sum of its
    length and the bytes that wait in the buffer is an int; the bits of the message
    are counted modulo [2 ^ 64]. *)
Theorem md5_digest_correct pieces s :
  length (buf s) = 64%nat -> Forall (fun data => Z.of_nat (length data) <= 2 ^ 31 - 64) pieces ->
  exists s', (md5_init;; append_all pieces;; md5_finish) s = Ok (ref_digest (concat pieces)) s'.
Proof.
  intros Hb Hp. destruct (init_holds s Hb) as (s0 & Hinit & Hs0).
  destruct (append_all_run pieces [] s0 Hp Hs0) as (s1 & Hrun & Hs1). destruct (digest_finish_run _ _ Hs1) as (s2 & Hend).
  exists s2. eapply run_bind; [exact Hinit|]. eapply run_bind; [exact Hrun|]. exact Hend.
Qed.

(** The text that do_verify gives for a file. *)
Lemma verify_run file s : length (buf s) = 64%nat -> Z.of_nat (length file) < 2 ^ 31 ->
  exists s', do_verify true (Some file) s = Ok (hex_output (ref_digest file)) s'.
Proof.
  intros Hb Hf. destruct (init_holds s Hb) as (s0 & Hinit & Hs0).
  destruct (append_run [] file (length file) s0) as (s1 & Hrun & Hs1); [done|done|by left|done|]. rewrite firstn_all in Hs1.
  destruct (digest_finish_run _ _ Hs1) as (s2 & Hend). exists s2. cbn [do_verify]. unfold digest_text.
  eapply run_bind; [exact Hinit|]. eapply run_bind; [exact Hrun|]. eapply run_bind; [exact Hend|]. done.
Qed.
