(* ===== verification/Md5Sample.v ===== *)
(** * Md5Sample: concrete runs of the digest

    The self-test of md5main, an empty file, the name of the result file, and the witness of
    the theorem on the digest. *)

From stdpp Require Import strings.
From Stdlib Require Import Ascii String.
From S2P Require Import Prelude Md5 Md5Proofs.

#[local] Open Scope Z_scope.

(** A state on the stack, before md5_init. *)
Definition stack_state : md5_state_t := Md5State 7 9 (1, 2, 3, 4) (replicate 64 0xa5).
Definition answer {A} (r : res md5_state_t A) : option A := match r with Ok a _ => Some a | _ => None end.

(** The seven digests of the self-test are as expected. *)
Example self_test_passes : answer (do_test test_vectors 0 stack_state) = Some 0.
Proof. vm_compute. reflexivity. Qed.

(** Another digest in the table is noticed. *)
Example self_test_notices :
  answer (do_test [("abc", "d41d8cd98f00b204e9800998ecf8427e")]%string 0 stack_state) = Some 1.
Proof. vm_compute. reflexivity. Qed.

(** The digest does not depend on what was on the stack. *)
Example pieces_of_a_message :
  answer ((md5_init;; append_all [text_bytes "mess"; []; text_bytes "age digest"];; md5_finish) stack_state)
  = Some (ref_digest (text_bytes "message digest")).
Proof. vm_compute. reflexivity. Qed.

(** No error tells a file that cannot be opened from one with this content. *)
Example verify_without_file : answer (do_verify false None stack_state) = Some (list_ascii_of_string "error").
Proof. reflexivity. Qed.

(** A name with a long directory has room in the buffer. *)
Example name_fits :
  result_name (list_ascii_of_string "/var/lib/disk.img") = Some (list_ascii_of_string "/tmp/MD5_disk.img").
Proof. vm_compute. reflexivity. Qed.

(** The name of a file without a directory never has. *)
Lemma plain_name_overflows arg : strrchr "/"%char arg = None -> result_name arg = None.
Proof.
  intros H. unfold result_name. rewrite H. cbv zeta. apply decide_False. rewrite length_app. cbn. lia.
Qed.

Lemma md5_digest_correct_witness :
  length (buf stack_state) = 64%nat /\
  exists s', (md5_init;; append_all [text_bytes "ab"; text_bytes "c"];; md5_finish) stack_state
    = Ok (ref_digest (text_bytes "abc")) s'.
Proof.
  split; [reflexivity|]. apply (md5_digest_correct [text_bytes "ab"; text_bytes "c"]); [reflexivity|].
  repeat (apply Forall_cons_2; [vm_compute; discriminate|]). apply Forall_nil_2.
Defined.
