(* ===== verification/NtpFloat.v ===== *)
(** * NtpFloat: float and double of C, for the NTP client

    The operations of IEEE 754 on binary64 (double) and binary32 (float) of
    the Standard Library, which round to nearest, the conversions, and the order of the
    comparisons. *)

From Stdlib Require Export SpecFloat.
From S2P Require Import Prelude.

#[local] Open Scope Z_scope.

Definition double : Type := spec_float.
Definition float32 : Type := spec_float.

Definition dadd : double -> double -> double := SFadd 53 1024.
Definition dsub : double -> double -> double := SFsub 53 1024.
Definition dmul : double -> double -> double := SFmul 53 1024.
Definition ddiv : double -> double -> double := SFdiv 53 1024.
Definition dneg : double -> double := SFopp.
Definition d_lt (x y : double) : bool := SFltb x y.
Definition d_eq (x y : double) : bool := SFeqb x y.
Definition fadd : float32 -> float32 -> float32 := SFadd 24 128.
Definition fmul : float32 -> float32 -> float32 := SFmul 24 128.

(** The conversion of an integer, and between the two widths. *)
Definition d_of_Z (z : Z) : double := binary_normalize 53 1024 z 0 false.
Definition f_of_Z (z : Z) : float32 := binary_normalize 24 128 z 0 false.
Definition convert (prec emax : Z) (x : spec_float) : spec_float :=
  match x with
  | S754_finite s m e => binary_normalize prec emax (cond_Zopp s (Zpos m)) e s
  | _ => x
  end.
Definition f_of_d : double -> float32 := convert 24 128.
Definition d_of_f : float32 -> double := convert 53 1024.

(** The integer part, towards zero; infinities and NaN have none. *)
Definition trunc (x : spec_float) : option Z :=
  match x with
  | S754_zero _ => Some 0
  | S754_finite s m e => Some (cond_Zopp s (if 0 <=? e then Zpos m * 2 ^ e else Zpos m / 2 ^ (- e)))
  | _ => None
  end.
(** The conversion to int; beyond its range C says nothing. *)
Definition int_of (x : spec_float) : option Z :=
  z ← trunc x; if (-2147483648 <=? z) && (z <=? 2147483647) then Some z else None.

(** ** The order *)

Definition is_nan (x : spec_float) : bool := match x with S754_nan => true | _ => false end.

Lemma pos_compare_spec a b : Pos.compare_cont Eq a b = Pos.compare a b.
Proof. done. Qed.

(** A key that is compared lexicographically: sign and class, exponent, mantissa. *)
Definition sf_key (x : spec_float) : Z * Z * Z :=
  match x with
  | S754_infinity true => (-2, 0, 0)
  | S754_finite true m e => (-1, - e, - Zpos m)
  | S754_zero _ | S754_nan => (0, 0, 0)
  | S754_finite false m e => (1, e, Zpos m)
  | S754_infinity false => (2, 0, 0)
  end.
Definition key_lt (k l : Z * Z * Z) : Prop :=
  let '(a, b, c) := k in let '(a', b', c') := l in a < a' \/ (a = a' /\ (b < b' \/ (b = b' /\ c < c'))).

Lemma sf_lt_key x y : is_nan x = false -> is_nan y = false -> SFltb x y = true <-> key_lt (sf_key x) (sf_key y).
Proof.
  intros Hx Hy. unfold SFltb, key_lt.
  destruct x as [[]|[]| |[] m e], y as [[]|[]| |[] n f]; try done; cbn [SFcompare sf_key];
    try (split; [done|lia]); try (split; [lia|done]);
    rewrite ?pos_compare_spec; destruct (Z.compare_spec e f); try (split; [done|lia]); try (split; [lia|done]);
    destruct (Pos.compare_spec m n); cbn [CompOpp]; try (split; [done|lia]); split; (lia || done).
Qed.

(** Among numbers, [<] is a strict weak order. *)
Lemma sf_not_lt_trans x y z :
  is_nan x = false -> is_nan y = false -> is_nan z = false ->
  SFltb x y = false -> SFltb y z = false -> SFltb x z = false.
Proof.
  intros Hx Hy Hz H1 H2. apply not_true_iff_false in H1, H2. apply not_true_iff_false.
  rewrite sf_lt_key in * by done. unfold key_lt in *.
  destruct (sf_key x) as [[a b] c], (sf_key y) as [[a' b'] c'], (sf_key z) as [[a'' b''] c'']. lia.
Qed.
Lemma sf_lt_asym x y : is_nan x = false -> is_nan y = false -> SFltb x y = true -> SFltb y x = false.
Proof.
  intros Hx Hy H. apply not_true_iff_false. rewrite sf_lt_key in * by done. unfold key_lt in *.
  destruct (sf_key x) as [[a b] c], (sf_key y) as [[a' b'] c']. lia.
Qed.
Lemma sf_lt_irrefl x : SFltb x x = false.
Proof.
  destruct (is_nan x) eqn:H; [by destruct x|]. apply not_true_iff_false. rewrite sf_lt_key by done. unfold key_lt.
  destruct (sf_key x) as [[a b] c]. lia.
Qed.
