(* ===== verification/NtpPhaselock.v ===== *)
(** * NtpPhaselock: the phase-locked loop of the NTP client (phaselock.c)

    The ring of the last 16 measurements, the search for the convex envelopes of
    their limits, and the choice of a new frequency. *)

From S2P Require Import Prelude NtpFloat.

#[local] Open Scope Z_scope.

(** ** Data *)

Definition RING_SIZE : Z := 16.
Definition MIN_INIT : double := d_of_Z 20.

(** [s.s.min] and [s.s.max] are [ss[0]] and [ss[1]] of the union. *)
Record datum : Type := Datum {
  absolute : Z;   (* unsigned int *)
  skew : double;
  errorbar : double;
  freq : Z;   (* int *)
  smin : double;
  smax : double
}.
Definition set_limits (lo hi : double) (d : datum) : datum :=
  Datum (absolute d) (skew d) (errorbar d) (freq d) lo hi.
(** The curves, by their index in [ss]. *)
Inductive curve : Type := Cmin | Cmax.
Definition ss (c : curve) (d : datum) : double := match c with Cmin => smin d | Cmax => smax d end.

Record seg : Type := Seg { slope : double; offset : double }.
Record polygon : Type := Polygon { l_min : double; r_min : double }.

(** The file's variables, with the static ones of contemplate_data. *)
Record pll : Type := Pll {
  d_ring : list datum;   (* RING_SIZE *)
  maxseg : list seg;   (* RING_SIZE + 1 *)
  minseg : list seg;
  df : polygon;
  rp : Z;
  valid : Z
}.
Definition set_d_ring (x : list datum) (p : pll) : pll := Pll x (maxseg p) (minseg p) (df p) (rp p) (valid p).
Definition set_maxseg (x : list seg) (p : pll) : pll := Pll (d_ring p) x (minseg p) (df p) (rp p) (valid p).
Definition set_minseg (x : list seg) (p : pll) : pll := Pll (d_ring p) (maxseg p) x (df p) (rp p) (valid p).
Definition set_df (x : polygon) (p : pll) : pll := Pll (d_ring p) (maxseg p) (minseg p) x (rp p) (valid p).
Definition set_rp (x : Z) (p : pll) : pll := Pll (d_ring p) (maxseg p) (minseg p) (df p) x (valid p).
Definition set_valid (x : Z) (p : pll) : pll := Pll (d_ring p) (maxseg p) (minseg p) (df p) (rp p) x.
Abbreviation PM := (M pll).

(** An element of an array, and its update. *)
Definition at_index {A} (i : Z) (l : list A) : option A := if decide (0 <= i) then l !! Z.to_nat i else None.
Definition put_index {A} (i : Z) (x : A) (l : list A) : option (list A) :=
  if decide (0 <= i < Z.of_nat (length l)) then Some (<[Z.to_nat i := x]> l) else None.
Definition get_datum (i : Z) : PM datum := r ← gets d_ring; in_bounds (at_index i r).
Definition put_datum (i : Z) (d : datum) : PM unit :=
  r ← gets d_ring; r ← in_bounds (put_index i d r); modify (set_d_ring r).
(** The two arrays of segments, by the curve they bound. *)
Definition segs (c : curve) (p : pll) : list seg := match c with Cmin => minseg p | Cmax => maxseg p end.
Definition set_segs (c : curve) (x : list seg) (p : pll) : pll :=
  match c with Cmin => set_minseg x p | Cmax => set_maxseg x p end.
Definition get_seg (c : curve) (i : Z) : PM seg := r ← gets (segs c); in_bounds (at_index i r).
Definition put_seg (c : curve) (i : Z) (s : seg) : PM unit :=
  r ← gets (segs c); r ← in_bounds (put_index i s r); modify (set_segs c r).

(** ** The search for a segment *)

Definition interpolate (a b c : seg) : double :=
  let x := ddiv (dsub (slope b) (slope a)) (dsub (slope c) (slope a)) in
  dadd (offset a) (dmul x (dsub (offset c) (offset a))).

Definition next_up (i : Z) : Z := let r := i + 1 in if RING_SIZE <=? r then 0 else r.
Definition next_dn (i : Z) : Z := let r := i - 1 in if r <? 0 then RING_SIZE - 1 else r.

(** The segment from [dj] to [dn], whose offset is at the time of [dr]. *)
Definition segment (s0 s1 : curve) (dr dj dn : datum) : seg :=
  let dt := d_of_Z (u32 (absolute dn - absolute dj)) in
  let sl := ddiv (dsub (ss s0 dn) (ss s1 dj)) dt in
  Seg sl (dadd (ss s0 dn) (dmul sl (d_of_Z (u32 (absolute dr - absolute dn))))).
(** [(slope < answer->slope) ^ sign] *)
Definition improves (sign : bool) (s : seg) (answer : option seg) : bool :=
  match answer with None => true | Some a => xorb (d_lt (slope s) (slope a)) sign end.
(** [None] in [answer]: cinit is set. *)
Fixpoint search_loop (fuel : nat) (rp j : Z) (s0 s1 : curve) (sign : bool) (n nextj : Z) (answer : option seg)
  : PM (Z * option seg) :=
  match fuel with
  | O => fail Out_of_fuel
  | S fuel' =>
      if n =? next_up rp then mret (nextj, answer)
      else
        dn ← get_datum n; dj ← get_datum j; dr ← get_datum rp;
        let s := segment s0 s1 dr dj dn in
        if improves sign s answer then search_loop fuel' rp j s0 s1 sign (next_up n) n (Some s)
        else search_loop fuel' rp j s0 s1 sign (next_up n) nextj answer
  end.
Definition search (rp j : Z) (s0 s1 : curve) (sign : bool) : PM (Z * option seg) :=
  search_loop 17 rp j s0 s1 sign (next_up j) 0 None.

(** ** The polygon *)

Definition polygon_reset : PM unit := modify (set_df (Polygon MIN_INIT MIN_INIT)).
Definition zero : double := S754_zero false.
(** The value, and whether the flag is set. *)
Definition find_df (p : polygon) : double * bool :=
  if d_eq (l_min p) zero then
    if d_eq (r_min p) zero then (zero, false) else (dneg (r_min p), false)
  else if d_eq (r_min p) zero then (l_min p, false) else (zero, true).
Definition find_shift (sl off : double) : double :=
  let shift := dsub sl (ddiv off (d_of_Z 600)) in
  let shift2 := dsub (dadd sl (ddiv (d_of_Z 3) (d_of_Z 10))) (ddiv off (d_of_Z 6000)) in
  let shift := if d_lt shift2 shift then shift2 else shift in
  if d_lt shift zero then zero else shift.
Definition constrain (s : seg) (p : polygon) : polygon :=
  let l := find_shift (dneg (slope s)) (offset s) in
  let r := find_shift (slope s) (dneg (offset s)) in
  Polygon (if d_lt l (l_min p) then l else l_min p) (if d_lt r (r_min p) then r else r_min p).
Definition polygon_point (s : seg) : PM unit := modify (fun p => set_df (constrain s (df p)) p).
Definition half : double := ddiv (d_of_Z 1) (d_of_Z 2).
Definition find_df_center (smin smax : seg) : double :=
  let sl := dmul half (dadd (slope smax) (slope smin)) in
  let dslope := dsub (slope smax) (slope smin) in
  let off := dmul half (dadd (offset smax) (offset smin)) in
  let doffset := dsub (offset smax) (offset smin) in
  let delta := dsub (ddiv (dneg off) (d_of_Z 600)) sl in
  let factor := ddiv (d_of_Z 60) (dadd doffset (dmul dslope (d_of_Z 600))) in
  dmul factor delta.

(** ** contemplate_data *)

Section contemplate.
(** The value of [(int)x] when [x] is beyond the range of int. *)
Variable overflow : double -> Z.
Definition to_int (x : double) : Z := match int_of x with Some z => z | None => s32 (overflow x) end.

(** Pass 1, from [j] back to the oldest measurement. *)
Definition cum_step (cum : double) (dj dn : datum) (freq0 : Z) : double :=
  dadd cum (ddiv (dmul (d_of_Z (u32 (absolute dj - absolute dn))) (d_of_Z (s32 (freq dj - freq0)))) (d_of_Z 65536)).
Fixpoint pass1 (fuel : nat) (rp j freq0 : Z) (cum : double) : PM unit :=
  match fuel with
  | O => fail Out_of_fuel
  | S fuel' =>
      d ← get_datum j;
      let hi := dadd (dsub (skew d) cum) (errorbar d) in
      let lo := dsub (dsub (skew d) cum) (errorbar d) in
      put_datum j (set_limits lo hi d);;
      let n := next_dn j in
      if n =? rp then mret tt
      else
        dj ← get_datum j; dn ← get_datum n;
        pass1 fuel' rp n freq0 (cum_step cum dj dn freq0)
  end.

(** Passes 2 (the curve [Cmax]) and 3 ([Cmin]): the envelope of the curve [c], and
    the segment to the other curve that crosses over, [None] while dinit is set. *)
Definition other (c : curve) : curve := match c with Cmin => Cmax | Cmax => Cmin end.
Definition before (c : curve) (x y : double) : bool := match c with Cmax => d_lt x y | Cmin => d_lt y x end.
Definition crosses (c : curve) (check : seg) (s : seg) (last_slope : double) (save : option seg) : bool :=
  before c (slope check) (slope s) && before c last_slope (slope check)
  && match save with None => true | Some a => d_lt (slope check) (slope a) end.
Definition sign_of (c : curve) : bool := match c with Cmax => false | Cmin => true end.
Fixpoint envelope (fuel : nat) (c : curve) (rp j i : Z) (last_slope : double) (save : option seg) : PM (Z * option seg) :=
  match fuel with
  | O => fail Out_of_fuel
  | S fuel' =>
      '(nextj, answer) ← search rp j c c (sign_of c);
      s ← in_bounds answer;
      put_seg c i s;;
      '(_, answer) ← search rp j (other c) c (negb (sign_of c));
      check ← in_bounds answer;
      let save := if crosses c check s last_slope save then Some check else save in
      if nextj =? rp then mret (i + 1, save)
      else envelope fuel' c rp nextj (i + 1) (slope s) save
  end.
Definition pass2 (rp : Z) : PM (Z * option seg) := envelope 16 Cmax rp (next_up rp) 1 (d_of_Z (-100)) None.
Definition pass3 (rp : Z) : PM (Z * option seg) := envelope 16 Cmin rp (next_up rp) 1 (d_of_Z 100) None.

(** The loops of pass 4: from [i] to [avail], between the segments [first] and
    [last]; the result is the index where the loop ends and dinit. The segment [first] is
    stored before the place where the loop begins to use the array ([Cmax]), and in
    place 0 ([Cmin], where min_imin is never assigned). *)
Fixpoint splice (fuel : nat) (c : curve) (first last : seg) (avail i : Z) (dinit : bool) : PM (Z * bool) :=
  match fuel with
  | O => fail Out_of_fuel
  | S fuel' =>
      if i <? avail then
        s ← get_seg c i;
        let found := dinit && before c (slope first) (slope s) in
        when found (put_seg c (match c with Cmax => i - 1 | Cmin => 0 end) first);;
        let dinit := dinit && negb found in
        s ← get_seg c i;
        if before c (slope last) (slope s) then mret (i, dinit)
        else
          when (negb dinit) (polygon_point s);;
          splice fuel' c first last avail (i + 1) dinit
      else mret (i, dinit)
  end.

(** Pass 5: the new frequency. *)
Definition decide_freq (save_min save_max : seg) (p : polygon) (freq0 : Z) : Z :=
  let '(delta_f, both_sides_now) := find_df p in
  let delta_f := if both_sides_now then find_df_center save_min save_max else delta_f in
  let delta_freq := to_int (dadd (dmul delta_f (d_of_Z 65536)) half) in
  let computed_freq := s32 (freq0 - delta_freq) in
  if computed_freq <? -6000000 then -6000000
  else if 6000000 <? computed_freq then 6000000
  else computed_freq.

(** Passes 1 to 5, when the ring is full. [stack_min] and [stack_max] are what
    save_min and save_max hold before they are assigned. *)
Definition lock (debug : bool) (stack_min stack_max : seg) (rp freq0 : Z) : PM Z :=
  pass1 17 rp rp freq0 zero;;
  '(max_avail, cross_min) ← pass2 rp;
  '(min_avail, cross_max) ← pass3 rp;
  let save_min := default stack_min cross_min in
  let save_max := default stack_max cross_max in
  polygon_reset;;
  polygon_point save_min;;
  '(max_imax, dinit_max) ← splice 17 Cmax save_min save_max max_avail 1 true;
  put_seg Cmax max_imax save_max;;
  polygon_point save_max;;
  '(min_imax, dinit_min) ← splice 17 Cmin save_max save_min min_avail 1 true;
  put_seg Cmin min_imax save_max;;
  when debug (polygon_point save_min);;
  let inconsistent := negb (bool_decide (is_Some cross_min)) || negb (bool_decide (is_Some cross_max)) || dinit_max || dinit_min in
  if inconsistent then mret freq0
  else p ← gets df; mret (decide_freq save_min save_max p freq0).

Definition contemplate_data (debug : bool) (stack_min stack_max : seg) (absolute : Z) (skew errorbar : double) (freq0 : Z) : PM Z :=
  rp0 ← gets rp;
  d ← get_datum rp0;
  put_datum rp0 (Datum absolute skew (dsub errorbar (d_of_Z 800)) freq0 (smin d) (smax d));;
  v ← gets valid;
  let v := if v <? RING_SIZE then v + 1 else v in
  modify (set_valid v);;
  computed_freq ← (if v =? RING_SIZE then lock debug stack_min stack_max rp0 freq0 else mret freq0);
  modify (set_rp ((rp0 + 1) mod RING_SIZE));;
  mret computed_freq.
End contemplate.
