(* ===== verification/NtpPhaselockSpec.v ===== *)
(** * NtpPhaselockSpec: what the phase-locked loop computes

    The decision as a function of the last 16 measurements, newest first: no ring, no
    indices, no arrays of segments and nothing that was not assigned. The refinement: the
    code of NtpPhaselock computes it ([contemplate_refines]). *)

From S2P Require Import Prelude NtpFloat NtpPhaselock.

#[local] Open Scope Z_scope.

(** ** The function *)

(** Pass 1: the limits, as if the frequency had been [freq0] all the time. *)
Definition limits (cum : double) (d : datum) : datum :=
  set_limits (dsub (dsub (skew d) cum) (errorbar d)) (dadd (dsub (skew d) cum) (errorbar d)) d.
Fixpoint correct (freq0 : Z) (cum : double) (hist : list datum) : list datum :=
  match hist with
  | [] => []
  | d :: older =>
      limits cum d :: match older with [] => [] | d' :: _ => correct freq0 (cum_step cum d d' freq0) older end
  end.

(** The best segment from [dj] to a later point of [l], and the points from its end on. *)
Fixpoint best (sign : bool) (s0 s1 : curve) (dr dj : datum) (l : list datum) (answer : option seg) (tail : list datum)
  : option seg * list datum :=
  match l with
  | [] => (answer, tail)
  | dn :: l' =>
      let s := segment s0 s1 dr dj dn in
      if improves sign s answer then best sign s0 s1 dr dj l' (Some s) l else best sign s0 s1 dr dj l' answer tail
  end.

(** The envelope of a curve over the points [l], oldest first, and the crossing. *)
Fixpoint hull (fuel : nat) (c : curve) (dr : datum) (l : list datum) (last_slope : double) (save : option seg)
  : list seg * option seg :=
  match fuel, l with
  | S fuel', dj :: rest =>
      match best (sign_of c) c c dr dj rest None [], best (negb (sign_of c)) (other c) c dr dj rest None [] with
      | (Some s, tail), (Some check, _) =>
          let save := if crosses c check s last_slope save then Some check else save in
          match tail with
          | _ :: _ :: _ => let '(l', save) := hull fuel' c dr tail (slope s) save in (s :: l', save)
          | _ => ([s], save)
          end
      | _, _ => ([], save)
      end
  | _, _ => ([], save)
  end.

(** Pass 4: the segments of an envelope between two slopes constrain the polygon. *)
Fixpoint visited (c : curve) (first last : seg) (l : list seg) (dinit : bool) (p : polygon) : polygon * bool :=
  match l with
  | [] => (p, dinit)
  | s :: l' =>
      let dinit := dinit && negb (before c (slope first) (slope s)) in
      if before c (slope last) (slope s) then (p, dinit)
      else visited c first last l' dinit (if dinit then p else constrain s p)
  end.

Section next_freq.
Variable overflow : double -> Z.
Variable debug : bool.

(** The frequency after the measurements [hist], the newest of them with [freq0]. *)
Definition next_freq (hist : list datum) (freq0 : Z) : Z :=
  if (length hist <? 16)%nat then freq0
  else
    let corrected := correct freq0 zero hist in
    let points := rev corrected in
    match corrected with
    | [] => freq0
    | dr :: _ =>
        let '(upper, cross_min) := hull 16 Cmax dr points (d_of_Z (-100)) None in
        let '(lower, cross_max) := hull 16 Cmin dr points (d_of_Z 100) None in
        match cross_min, cross_max with
        | Some a, Some b =>
            let '(p, dinit_max) := visited Cmax a b upper true (constrain a (Polygon MIN_INIT MIN_INIT)) in
            let '(p, dinit_min) := visited Cmin b a lower true (constrain b p) in
            let p := if debug then constrain a p else p in
            if dinit_max || dinit_min then freq0 else decide_freq overflow a b p freq0
        | _, _ => freq0
        end
    end.

(** The new frequency is the old one or within the range of the kernel's clock. *)
Lemma decide_freq_range a b p freq0 : -6000000 <= decide_freq overflow a b p freq0 <= 6000000.
Proof.
  unfold decide_freq. destruct (find_df p) as [delta_f []]; cbv zeta;
    repeat (match goal with |- context [if ?c then _ else _] => let H := fresh in destruct c eqn:H end); lia.
Qed.
Lemma next_freq_range hist freq0 : next_freq hist freq0 = freq0 \/ -6000000 <= next_freq hist freq0 <= 6000000.
Proof.
  unfold next_freq. destruct (_ <? _)%nat; [by left|]. cbv zeta.
  destruct (correct freq0 zero hist) as [|dr l]; [by left|].
  destruct (hull 16 Cmax _ _ _ _) as [upper [a|]], (hull 16 Cmin _ _ _ _) as [lower [b|]]; try by left.
  destruct (visited Cmax _ _ _ _ _) as [p1 d1], (visited Cmin _ _ _ _ _) as [p2 d2].
  destruct (d1 || d2); [by left|right; apply decide_freq_range].
Qed.
End next_freq.

(** ** The ring *)

(** The measurement without the limits of an earlier pass. *)
Definition bare (d : datum) : datum := set_limits zero zero d.
(** Place [t] of the chronological order, when the newest measurement is at [rp0]. *)
Definition place (rp0 : Z) (t : nat) : Z := (rp0 + 1 + Z.of_nat t) mod 16.

Record pll_ok (p : pll) : Prop := {
  po_ring : length (d_ring p) = 16%nat;
  po_maxseg : length (maxseg p) = 17%nat;
  po_minseg : length (minseg p) = 17%nat;
  po_rp : 0 <= rp p < 16
}.
(** The ring, when the newest measurement is at [rp0], holds [l], oldest first. *)
Definition holds_at (rp0 : Z) (l : list datum) (p : pll) : Prop :=
  length l = 16%nat /\ length (d_ring p) = 16%nat /\
  forall t, (t < 16)%nat -> d_ring p !! Z.to_nat (place rp0 t) = l !! t.
(** The last measurements are [hist], newest first. *)
Definition remembers (hist : list datum) (p : pll) : Prop :=
  pll_ok p /\ valid p = Z.of_nat (length hist) /\ (length hist <= 16)%nat /\
  forall k, (k < length hist)%nat -> bare <$> d_ring p !! Z.to_nat ((rp p - 1 - Z.of_nat k) mod 16) = hist !! k.

(** What the passes leave alone. *)
Record keeps (p p' : pll) : Prop := {
  kp_ring : d_ring p' = d_ring p;
  kp_rp : rp p' = rp p;
  kp_valid : valid p' = valid p;
  kp_max : length (maxseg p') = length (maxseg p);
  kp_min : length (minseg p') = length (minseg p)
}.
#[export] Instance keeps_preorder : PreOrder keeps.
Proof. split; [by intros p|]. intros p q r [] []. split; congruence. Qed.

Lemma place_range rp0 t : 0 <= place rp0 t < 16.
Proof. apply Z.mod_pos_bound. lia. Qed.
Lemma place_last rp0 : 0 <= rp0 < 16 -> place rp0 15 = rp0.
Proof. intros H. unfold place. replace (rp0 + 1 + Z.of_nat 15) with (rp0 + 1 * 16) by lia. rewrite Z.mod_add by lia. by rewrite Z.mod_small. Qed.
Lemma place_16 rp0 : place rp0 16 = place rp0 0.
Proof. unfold place. replace (rp0 + 1 + Z.of_nat 16) with (rp0 + 1 + Z.of_nat 0 + 1 * 16) by lia. by rewrite Z.mod_add. Qed.
Lemma place_inj rp0 t u : (t < 16)%nat -> (u < 16)%nat -> place rp0 t = place rp0 u -> t = u.
Proof. unfold place. intros Ht Hu H. Z.div_mod_to_equations. lia. Qed.
Lemma next_up_place rp0 t : next_up (place rp0 t) = place rp0 (S t).
Proof.
  unfold next_up, place, RING_SIZE. pose proof (Z.mod_pos_bound (rp0 + 1 + Z.of_nat t) 16 ltac:(lia)).
  destruct (16 <=? _) eqn:H16; [apply Z.leb_le in H16|apply Z.leb_gt in H16]; Z.div_mod_to_equations; lia.
Qed.
Lemma next_dn_place rp0 t : next_dn (place rp0 (S t)) = place rp0 t.
Proof.
  unfold next_dn, place, RING_SIZE. pose proof (Z.mod_pos_bound (rp0 + 1 + Z.of_nat (S t)) 16 ltac:(lia)).
  destruct (_ <? 0) eqn:H0; [apply Z.ltb_lt in H0|apply Z.ltb_ge in H0]; Z.div_mod_to_equations; lia.
Qed.
