(* ===== verification/NtpPhaselockProofs.v ===== *)
(** * NtpPhaselockProofs: the passes compute the functions of the specification *)

From S2P Require Import Prelude NtpFloat NtpPhaselock NtpPhaselockSpec.

#[local] Open Scope Z_scope.

(** ** Arrays *)

Lemma at_index_ok {A} i (l : list A) x : 0 <= i -> l !! Z.to_nat i = Some x -> at_index i l = Some x.
Proof. intros Hi H. unfold at_index. by rewrite decide_True. Qed.
Lemma put_index_ok {A} i (x : A) l : 0 <= i < Z.of_nat (length l) -> put_index i x l = Some (<[Z.to_nat i := x]> l).
Proof. intros Hi. unfold put_index. by rewrite decide_True. Qed.

Lemma get_datum_run p i d : 0 <= i -> d_ring p !! Z.to_nat i = Some d -> get_datum i p = Ok d p.
Proof. intros Hi H. unfold get_datum. eapply run_bind; [apply gets_run|]. apply in_bounds_run. by apply at_index_ok. Qed.
Lemma put_datum_run p i d : 0 <= i < Z.of_nat (length (d_ring p)) ->
  put_datum i d p = Ok tt (set_d_ring (<[Z.to_nat i := d]> (d_ring p)) p).
Proof.
  intros Hi. unfold put_datum. eapply run_bind; [apply gets_run|]. eapply run_bind; [apply in_bounds_run; by apply put_index_ok|]. done.
Qed.
Lemma get_seg_run p c i s : 0 <= i -> segs c p !! Z.to_nat i = Some s -> get_seg c i p = Ok s p.
Proof. intros Hi H. unfold get_seg. eapply run_bind; [apply gets_run|]. apply in_bounds_run. by apply at_index_ok. Qed.
Lemma put_seg_run p c i s : 0 <= i < Z.of_nat (length (segs c p)) ->
  put_seg c i s p = Ok tt (set_segs c (<[Z.to_nat i := s]> (segs c p)) p).
Proof.
  intros Hi. unfold put_seg. eapply run_bind; [apply gets_run|]. eapply run_bind; [apply in_bounds_run; by apply put_index_ok|]. done.
Qed.
Lemma segs_set c x p : segs c (set_segs c x p) = x.
Proof. by destruct c. Qed.
Lemma segs_set_other c c' x p : c' <> c -> segs c' (set_segs c x p) = segs c' p.
Proof. by destruct c, c'. Qed.
Lemma df_set_segs c x p : df (set_segs c x p) = df p.
Proof. by destruct c. Qed.
Lemma keeps_segs c x p : length x = length (segs c p) -> keeps p (set_segs c x p).
Proof. intros H. destruct c; split; done. Qed.
Lemma keeps_length c p p' : keeps p p' -> length (segs c p') = length (segs c p).
Proof. intros []. by destruct c. Qed.

(** ** The ring in the order of time *)

Section ring.
Context (rp0 : Z) (Hrp : 0 <= rp0 < 16).

Lemma holds_get l p t d : holds_at rp0 l p -> l !! t = Some d -> get_datum (place rp0 t) p = Ok d p.
Proof.
  intros (Hl & _ & H) Ht. apply get_datum_run; [apply place_range|]. rewrite H; [done|].
  apply lookup_lt_Some in Ht. lia.
Qed.
Lemma holds_put l p t d : holds_at rp0 l p -> (t < 16)%nat ->
  put_datum (place rp0 t) d p = Ok tt (set_d_ring (<[Z.to_nat (place rp0 t) := d]> (d_ring p)) p) /\
  holds_at rp0 (<[t := d]> l) (set_d_ring (<[Z.to_nat (place rp0 t) := d]> (d_ring p)) p).
Proof.
  intros (Hl & Hr & H) Ht. pose proof (place_range rp0 t). split; [apply put_datum_run; lia|].
  split; [by rewrite length_insert|]. cbn [d_ring set_d_ring]. split; [by rewrite length_insert|].
  intros u Hu. destruct (decide (u = t)) as [->|Hne].
  - rewrite !list_lookup_insert_eq by lia. done.
  - rewrite (list_lookup_insert_ne l) by done. rewrite list_lookup_insert_ne; [by apply H|].
    intros E. apply Hne. symmetry. pose proof (place_range rp0 u). apply (place_inj rp0); [done|done|lia].
Qed.
Lemma holds_keeps l p p' : keeps p p' -> holds_at rp0 l p -> holds_at rp0 l p'.
Proof. intros [Hr _ _ _ _] (H1 & H2 & H3). unfold holds_at. by rewrite Hr. Qed.
Lemma place_not_last t : (t < 15)%nat -> (place rp0 t =? rp0) = false.
Proof.
  intros Ht. apply Z.eqb_neq. rewrite <- (place_last rp0) at 2 by done. intros E.
  apply place_inj in E; lia.
Qed.
Lemma place_is_last : (place rp0 15 =? rp0) = true.
Proof. by rewrite place_last, Z.eqb_refl. Qed.
Lemma next_up_last : next_up rp0 = place rp0 0.
Proof. rewrite <- (place_last rp0) at 1 by done. by rewrite next_up_place, place_16. Qed.

(** *** Pass 1 *)

Lemma correct_length freq0 hist : forall cum, length (correct freq0 cum hist) = length hist.
Proof. induction hist as [|d [|d' older] IH]; intros cum; [done|done|]. cbn [correct length] in *. f_equal. apply IH. Qed.

Lemma correct_cons freq0 cum d d' older :
  correct freq0 cum (d :: d' :: older) = limits cum d :: correct freq0 (cum_step cum d d' freq0) (d' :: older).
Proof. done. Qed.

Lemma pass1_run freq0 fuel : forall t cum p older d newer,
  (t < fuel)%nat -> length older = t -> holds_at rp0 (older ++ d :: newer) p ->
  exists p', pass1 fuel rp0 (place rp0 t) freq0 cum p = Ok tt p'
    /\ holds_at rp0 (rev (correct freq0 cum (d :: rev older)) ++ newer) p' /\ p' = set_d_ring (d_ring p') p.
Proof.
  induction fuel as [|fuel IH]; intros t cum p older d newer Hf Ht Hh; [lia|].
  assert (Hlen : (t < 16)%nat) by (destruct Hh as [Hl _]; rewrite length_app in Hl; simpl in Hl; lia).
  assert (Hd : (older ++ d :: newer) !! t = Some d) by (rewrite lookup_app_r, Ht, Nat.sub_diag by lia; done).
  destruct (holds_put _ p t (limits cum d) Hh Hlen) as [Hput Hh1]. set (p1 := set_d_ring _ p) in *.
  assert (Hins : <[t := limits cum d]> (older ++ d :: newer) = older ++ limits cum d :: newer).
  { rewrite insert_app_r_alt by lia. by rewrite Ht, Nat.sub_diag. }
  rewrite Hins in Hh1.
  assert (Hd1 : (older ++ limits cum d :: newer) !! t = Some (limits cum d)) by (rewrite lookup_app_r, Ht, Nat.sub_diag by lia; done).
  destruct t as [|t].
  - apply nil_length_inv in Ht. subst older. exists p1. split; [|by split].
    cbn [pass1]. eapply run_bind; [by eapply holds_get|]. eapply run_bind; [exact Hput|].
    assert (E : next_dn (place rp0 0) = rp0).
    { rewrite <- (place_16 rp0), next_dn_place. by apply place_last. }
    cbv zeta. by rewrite E, Z.eqb_refl.
  - destruct (exists_last (l := older)) as (older' & d' & ->); [by intros ->|]. rewrite length_app in Ht. cbn [length] in Ht.
    rewrite <- app_assoc in Hh1, Hd1. cbn [app] in Hh1, Hd1.
    assert (Hd' : (older' ++ d' :: limits cum d :: newer) !! t = Some d') by (rewrite lookup_app_r by lia; by replace (t - length older')%nat with 0%nat by lia).
    destruct (IH t (cum_step cum d d' freq0) p1 older' d' (limits cum d :: newer)) as (p' & Hrun & Hh' & Hp'); [lia|lia|done|].
    exists p'. split; [|split].
    + cbn [pass1]. eapply run_bind; [by eapply holds_get|]. eapply run_bind; [exact Hput|].
      cbv zeta. rewrite next_dn_place, place_not_last by lia.
      eapply run_bind; [by eapply holds_get|]. eapply run_bind; [by eapply holds_get|]. exact Hrun.
    + rewrite rev_app_distr. change (rev [d'] ++ rev older') with (d' :: rev older'). rewrite correct_cons.
      cbn [rev]. by rewrite <- app_assoc.
    + rewrite Hp'. unfold p1. by destruct p.
Qed.
(** *** The search *)

Lemma search_loop_step fuel j s0 s1 sign n nextj answer :
  search_loop (S fuel) rp0 j s0 s1 sign n nextj answer
  = if n =? next_up rp0 then mret (nextj, answer)
    else
      dn ← get_datum n; dj ← get_datum j; dr ← get_datum rp0;
      let s := segment s0 s1 dr dj dn in
      if improves sign s answer then search_loop fuel rp0 j s0 s1 sign (next_up n) n (Some s)
      else search_loop fuel rp0 j s0 s1 sign (next_up n) nextj answer.
Proof. done. Qed.

Lemma search_loop_run l p s0 s1 sign tj dj dr fuel : holds_at rp0 l p -> l !! tj = Some dj -> l !! 15%nat = Some dr ->
  forall tn nextj answer, (1 <= tn <= 16)%nat -> (16 - tn < fuel)%nat ->
  exists t', search_loop fuel rp0 (place rp0 tj) s0 s1 sign (place rp0 tn) (place rp0 nextj) answer p
      = Ok (place rp0 t', fst (best sign s0 s1 dr dj (drop tn l) answer (drop nextj l))) p
    /\ snd (best sign s0 s1 dr dj (drop tn l) answer (drop nextj l)) = drop t' l
    /\ ((t' = nextj /\ fst (best sign s0 s1 dr dj (drop tn l) answer (drop nextj l)) = answer) \/ (tn <= t' <= 15)%nat).
Proof.
  intros Hh Hj Hr. induction fuel as [|fuel IH]; intros tn nextj answer Htn Hf; [lia|].
  pose proof Hh as (Hlen & _ & _). destruct (decide (tn = 16%nat)) as [->|Hne].
  { rewrite search_loop_step, next_up_last, place_16, Z.eqb_refl. exists nextj. rewrite drop_ge by lia. split; [done|]. split; [done|]. by left. }
  assert (Hneq : (place rp0 tn =? place rp0 0) = false).
  { apply Z.eqb_neq. intros E. apply place_inj in E; lia. }
  destruct (lookup_lt_is_Some_2 l tn) as [dn Hn]; [lia|].
  assert (Hdr : get_datum rp0 p = Ok dr p) by (rewrite <- (place_last rp0) at 1 by done; by eapply holds_get).
  rewrite (drop_S l dn tn) by done. cbn [best]. cbv zeta.
  set (s := segment s0 s1 dr dj dn).
  assert (Hgo : forall P : res pll (Z * option seg) -> Prop,
    P ((if improves sign s answer then search_loop fuel rp0 (place rp0 tj) s0 s1 sign (next_up (place rp0 tn)) (place rp0 tn) (Some s)
        else search_loop fuel rp0 (place rp0 tj) s0 s1 sign (next_up (place rp0 tn)) (place rp0 nextj) answer) p) ->
    P (search_loop (S fuel) rp0 (place rp0 tj) s0 s1 sign (place rp0 tn) (place rp0 nextj) answer p)).
  { intros P HP. rewrite search_loop_step, next_up_last, Hneq. eapply run_bind; [by eapply holds_get|].
    eapply run_bind; [by eapply holds_get|]. eapply run_bind; [exact Hdr|]. exact HP. }
  destruct (improves sign s answer).
  - rewrite <- (drop_S l dn tn) by done. destruct (IH (S tn) tn (Some s)) as (t' & Hrun & Htail & Hcase); [lia|lia|].
    exists t'. split; [apply (Hgo (fun r => r = _)); cbv beta; rewrite next_up_place; exact Hrun|]. split; [exact Htail|]. right. destruct Hcase as [[-> _]|?]; lia.
  - destruct (IH (S tn) nextj answer) as (t' & Hrun & Htail & Hcase); [lia|lia|].
    exists t'. split; [apply (Hgo (fun r => r = _)); cbv beta; rewrite next_up_place; exact Hrun|]. split; [exact Htail|].
    destruct Hcase as [[-> ?]|?]; [by left|right; lia].
Qed.
Lemma search_run l p s0 s1 sign tj dj dr : holds_at rp0 l p -> l !! tj = Some dj -> l !! 15%nat = Some dr -> (tj < 15)%nat ->
  exists t' s, search rp0 (place rp0 tj) s0 s1 sign p = Ok (place rp0 t', Some s) p
    /\ best sign s0 s1 dr dj (drop (S tj) l) None [] = (Some s, drop t' l) /\ (S tj <= t' <= 15)%nat.
Proof.
  intros Hh Hj Hr Htj. pose proof Hh as (Hlen & _ & _). destruct (lookup_lt_is_Some_2 l (S tj)) as [dn Hn]; [lia|].
  assert (Hdr : get_datum rp0 p = Ok dr p) by (rewrite <- (place_last rp0) at 1 by done; by eapply holds_get).
  set (s := segment s0 s1 dr dj dn).
  destruct (search_loop_run l p s0 s1 sign tj dj dr 16 Hh Hj Hr (S (S tj)) (S tj) (Some s)) as (t' & Hrun & Htail & Hcase); [lia|lia|].
  assert (Hbest : best sign s0 s1 dr dj (drop (S tj) l) None [] = best sign s0 s1 dr dj (drop (S (S tj)) l) (Some s) (drop (S tj) l)).
  { by rewrite (drop_S l dn (S tj)). }
  assert (Hsome : forall l' a tail, exists a', fst (best sign s0 s1 dr dj l' (Some a) tail) = Some a').
  { induction l' as [|x l' IH]; intros a tail; [by exists a|]. cbn [best]. cbv zeta. destruct (improves _ _ _); apply IH. }
  destruct (Hsome (drop (S (S tj)) l) s (drop (S tj) l)) as [a' Ha']. exists t', a'. split; [|split].
  - unfold search. rewrite next_up_place, (search_loop_step 16), next_up_last.
    rewrite (proj2 (Z.eqb_neq _ _)) by (intros E; apply place_inj in E; lia).
    eapply run_bind; [by eapply holds_get|]. eapply run_bind; [by eapply holds_get|]. eapply run_bind; [exact Hdr|].
    cbn [improves]. cbv zeta. rewrite next_up_place, <- Ha'. exact Hrun.
  - rewrite Hbest. rewrite (surjective_pairing (best _ _ _ _ _ _ _ _)). by rewrite Ha', Htail.
  - destruct Hcase as [[-> _]|?]; lia.
Qed.

(** *** Passes 2 and 3 *)

(** The segments of [l] are stored from [i] on. *)
Definition stored (c : curve) (i : Z) (l : list seg) (p : pll) : Prop :=
  forall k s, l !! k = Some s -> segs c p !! Z.to_nat (i + Z.of_nat k) = Some s.

Lemma envelope_run c l dr fuel : forall tj i last save p,
  holds_at rp0 l p -> l !! 15%nat = Some dr -> (tj < 15)%nat -> (15 - tj <= fuel)%nat ->
  0 <= i -> i + Z.of_nat (15 - tj) <= 17 -> length (segs c p) = 17%nat ->
  exists p', envelope fuel c rp0 (place rp0 tj) i last save p
      = Ok (i + Z.of_nat (length (fst (hull fuel c dr (drop tj l) last save))), snd (hull fuel c dr (drop tj l) last save)) p'
    /\ stored c i (fst (hull fuel c dr (drop tj l) last save)) p' /\ keeps p p' /\ df p' = df p
    /\ segs (other c) p' = segs (other c) p /\ take (Z.to_nat i) (segs c p') = take (Z.to_nat i) (segs c p)
    /\ (length (fst (hull fuel c dr (drop tj l) last save)) <= 15 - tj)%nat.
Proof.
  induction fuel as [|fuel IH]; intros tj i last save p Hh Hr Htj Hf Hi Hroom Hsegs; [lia|].
  pose proof Hh as (Hlen & _ & _). destruct (lookup_lt_is_Some_2 l tj) as [dj Hj]; [lia|].
  destruct (search_run l p c c (sign_of c) tj dj dr Hh Hj Hr Htj) as (t' & s & Hrun & Hbest & Ht').
  set (p1 := set_segs c (<[Z.to_nat i := s]> (segs c p)) p).
  assert (Hput : put_seg c i s p = Ok tt p1) by (apply put_seg_run; lia).
  assert (Hk1 : keeps p p1) by (apply keeps_segs; by rewrite length_insert).
  assert (Hs1 : segs c p1 = <[Z.to_nat i := s]> (segs c p)) by apply segs_set.
  assert (Ho1 : segs (other c) p1 = segs (other c) p) by (apply segs_set_other; by destruct c).
  pose proof (holds_keeps l p p1 Hk1 Hh) as Hh1.
  destruct (search_run l p1 (other c) c (negb (sign_of c)) tj dj dr Hh1 Hj Hr Htj) as (t2 & check & Hrun2 & Hbest2 & _).
  cbn [hull]. rewrite (drop_S l dj tj) by done. rewrite Hbest, Hbest2. cbv zeta.
  set (save' := if crosses c check s last save then Some check else save).
  assert (Hgo : forall (P : res pll (Z * option seg) -> Prop),
    P ((if place rp0 t' =? rp0 then mret (i + 1, save') else envelope fuel c rp0 (place rp0 t') (i + 1) (slope s) save') p1) ->
    P (envelope (S fuel) c rp0 (place rp0 tj) i last save p)).
  { intros P HP. cbn [envelope]. eapply run_bind; [exact Hrun|]. cbn beta iota. eapply run_bind; [by apply in_bounds_run|].
    eapply run_bind; [exact Hput|]. eapply run_bind; [exact Hrun2|]. cbn beta iota. eapply run_bind; [by apply in_bounds_run|]. exact HP. }
  destruct (decide (t' = 15%nat)) as [->|Hne].
  - assert (Htail : drop 15 l = [dr]) by (rewrite (drop_S l dr) by done; rewrite drop_ge by lia; done).
    rewrite Htail. exists p1. cbn [fst snd length]. split; [apply (Hgo (fun r => r = _)); cbv beta; by rewrite place_is_last|].
    split; [|split; [done|]; split; [apply df_set_segs|]; split; [done|]; split; [rewrite Hs1; by apply take_insert_ge|lia]].
    intros [|k] s' Hs'; [|done]. injection Hs' as <-. rewrite Hs1, Z.add_0_r. by rewrite list_lookup_insert_eq by lia.
  - destruct (lookup_lt_is_Some_2 l t') as [d1 H1]; [lia|]. destruct (lookup_lt_is_Some_2 l (S t')) as [d2 H2]; [lia|].
    assert (Htail : drop t' l = d1 :: d2 :: drop (S (S t')) l) by (rewrite (drop_S l d1), (drop_S l d2) by done; done).
    destruct (IH t' (i + 1) (slope s) save' p1) as (p' & Hrun' & Hst & Hk' & Hdf & Ho' & Htake & Hcount); [done|done|lia|lia|lia|lia| |].
    { by rewrite Hs1, length_insert. }
    rewrite Htail. rewrite <- Htail. destruct (hull fuel c dr (drop t' l) (slope s) save') as [l' sv] eqn:Hhull. cbn [fst snd] in *.
    exists p'. split; [|split; [|split; [by etrans|split; [|split; [by rewrite Ho'|split]]]]].
    + apply (Hgo (fun r => r = _)). cbv beta. rewrite place_not_last by lia. rewrite Hrun'. cbn [length]. f_equal. f_equal. lia.
    + intros [|k] s' Hs'; cbn in Hs'.
      * injection Hs' as <-. rewrite Z.add_0_r.
        assert (Hlook : take (Z.to_nat (i + 1)) (segs c p') !! Z.to_nat i = Some s).
        { rewrite Htake, lookup_take_lt, Hs1, list_lookup_insert_eq by lia. done. }
        by rewrite lookup_take_lt in Hlook by lia.
      * specialize (Hst k s' Hs'). by replace (i + Z.of_nat (S k)) with (i + 1 + Z.of_nat k) by lia.
    + rewrite Hdf. apply df_set_segs.
    + assert (Hm : forall q, take (Z.to_nat i) (segs c q) = take (Z.to_nat i) (take (Z.to_nat (i + 1)) (segs c q))).
      { intros q. by rewrite take_take, Nat.min_l by lia. }
      rewrite Hm, Htake, <- Hm, Hs1. by apply take_insert_ge.
    + cbn [length]. lia.
Qed.
End ring.

(** ** Pass 4 *)

Lemma stored_tail c i s l p : stored c i (s :: l) p -> stored c (i + 1) l p.
Proof. intros H k s' Hk. replace (i + 1 + Z.of_nat k) with (i + Z.of_nat (S k)) by lia. by apply H. Qed.
Lemma stored_head c i s l p : stored c i (s :: l) p -> segs c p !! Z.to_nat i = Some s.
Proof. intros H. rewrite <- (Z.add_0_r i). by apply (H 0%nat). Qed.
(** A segment is stored below [i]. *)
Lemma stored_put c i w s l p : 0 <= w < i -> stored c i l p -> stored c i l (set_segs c (<[Z.to_nat w := s]> (segs c p)) p).
Proof. intros Hw H k s' Hk. rewrite segs_set, list_lookup_insert_ne by lia. by apply H. Qed.
Lemma stored_df c i l q p : stored c i l p -> stored c i l (set_df q p).
Proof. by destruct c. Qed.

Lemma splice_run c first last fuel : forall l i dinit p,
  stored c i l p -> 1 <= i -> i + Z.of_nat (length l) <= 17 -> (length l < fuel)%nat -> length (segs c p) = 17%nat ->
  exists e p', splice fuel c first last (i + Z.of_nat (length l)) i dinit p = Ok (e, snd (visited c first last l dinit (df p))) p'
    /\ df p' = fst (visited c first last l dinit (df p)) /\ keeps p p' /\ segs (other c) p' = segs (other c) p
    /\ i <= e <= i + Z.of_nat (length l).
Proof.
  induction fuel as [|fuel IH]; intros l i dinit p Hst Hi Hroom Hf Hlen; [lia|].
  destruct l as [|s l].
  { exists i, p. cbn [splice visited fst snd length]. rewrite (proj2 (Z.ltb_ge _ _)) by (simpl; lia). split; [done|]. split; [done|].
    split; [done|]. split; [done|simpl; lia]. }
  cbn [splice visited]. rewrite (proj2 (Z.ltb_lt _ _)) by (cbn [length]; lia). cbv zeta.
  set (found := dinit && before c (slope first) (slope s)).
  assert (Hdinit : dinit && negb found = dinit && negb (before c (slope first) (slope s))).
  { unfold found. by destruct dinit, (before _ _ _). }
  set (w := match c with Cmax => i - 1 | Cmin => 0 end). assert (Hw : 0 <= w < i) by (unfold w; destruct c; lia).
  set (p1 := if found then set_segs c (<[Z.to_nat w := first]> (segs c p)) p else p).
  assert (Hput : when found (put_seg c w first) p = Ok tt p1).
  { unfold p1. destruct found; [|done]. apply put_seg_run. lia. }
  assert (Hst1 : stored c i (s :: l) p1) by (unfold p1; destruct found; [by apply stored_put|done]).
  assert (Hk1 : keeps p p1) by (unfold p1; destruct found; [apply keeps_segs; by rewrite length_insert|done]).
  assert (Ho1 : segs (other c) p1 = segs (other c) p) by (unfold p1; destruct found; [apply segs_set_other; by destruct c|done]).
  assert (Hdf1 : df p1 = df p) by (unfold p1; destruct found; [apply df_set_segs|done]).
  assert (Hl1 : length (segs c p1) = 17%nat) by (by rewrite (keeps_length c p p1 Hk1)).
  rewrite <- Hdinit. destruct (before c (slope last) (slope s)) eqn:Hlast.
  { exists i, p1. cbn [fst snd]. split; [|split; [done|split; [done|split; [done|lia]]]].
    eapply run_bind; [apply get_seg_run; [lia|by eapply stored_head]|]. eapply run_bind; [exact Hput|].
    eapply run_bind; [apply get_seg_run; [lia|by eapply stored_head]|]. by rewrite Hlast. }
  set (p2 := if dinit && negb found then p1 else set_df (constrain s (df p1)) p1).
  assert (Hpoint : when (negb (dinit && negb found)) (polygon_point s) p1 = Ok tt p2) by (unfold p2; by destruct (dinit && negb found)).
  assert (Hst2 : stored c (i + 1) l p2).
  { apply stored_tail in Hst1. unfold p2. destruct (dinit && negb found); [done|by apply stored_df]. }
  assert (Hk2 : keeps p1 p2) by (unfold p2; destruct (dinit && negb found); [done|by split]).
  assert (Ho2 : segs (other c) p2 = segs (other c) p1) by (unfold p2; destruct (dinit && negb found); [done|by destruct c]).
  destruct (IH l (i + 1) (dinit && negb found) p2) as (e & p' & Hrun & Hdf & Hk & Ho & He);
    [done|lia|cbn [length] in *; lia|cbn [length] in *; lia|by rewrite (keeps_length c p1 p2 Hk2)|].
  assert (Hdf2 : df p2 = if dinit && negb found then df p else constrain s (df p)).
  { unfold p2. rewrite <- Hdf1. by destruct (dinit && negb found). }
  rewrite Hdf2 in Hrun, Hdf. exists e, p'. split; [|split; [exact Hdf|split; [by do 2 (etrans; [eassumption|])|split; [congruence|cbn [length]; lia]]]].
  eapply run_bind; [apply get_seg_run; [lia|by eapply stored_head]|]. eapply run_bind; [exact Hput|].
  eapply run_bind; [apply get_seg_run; [lia|by eapply stored_head]|]. rewrite Hlast. eapply run_bind; [exact Hpoint|].
  replace (i + Z.of_nat (length (s :: l))) with (i + 1 + Z.of_nat (length l)) by (cbn [length]; lia). exact Hrun.
Qed.

Lemma put_seg_frame c i s p : 0 <= i < 17 -> length (segs c p) = 17%nat ->
  exists p', put_seg c i s p = Ok tt p' /\ keeps p p' /\ df p' = df p /\ segs (other c) p' = segs (other c) p.
Proof.
  intros Hi Hl. eexists. split; [apply put_seg_run; lia|]. split; [apply keeps_segs; by rewrite length_insert|].
  split; [apply df_set_segs|]. apply segs_set_other. by destruct c.
Qed.
Lemma stored_same c i l p p' : segs c p' = segs c p -> stored c i l p -> stored c i l p'.
Proof. intros E H k s Hk. rewrite E. by apply H. Qed.

(** ** The passes together *)

Section lock.
Variable overflow : double -> Z.
Variable debug : bool.

(** Passes 4 and 5 on the two envelopes. *)
Definition last_passes (save_min save_max : seg) (max_avail min_avail : Z) (consistent : bool) (freq0 : Z) : PM Z :=
  polygon_reset;;
  polygon_point save_min;;
  '(max_imax, dinit_max) ← splice 17 Cmax save_min save_max max_avail 1 true;
  put_seg Cmax max_imax save_max;;
  polygon_point save_max;;
  '(min_imax, dinit_min) ← splice 17 Cmin save_max save_min min_avail 1 true;
  put_seg Cmin min_imax save_max;;
  when debug (polygon_point save_min);;
  let inconsistent := negb consistent || dinit_max || dinit_min in
  if inconsistent then mret freq0
  else p ← gets df; mret (decide_freq overflow save_min save_max p freq0).
Definition decision (save_min save_max : seg) (upper lower : list seg) (consistent : bool) (freq0 : Z) : Z :=
  let '(p, dinit_max) := visited Cmax save_min save_max upper true (constrain save_min (Polygon MIN_INIT MIN_INIT)) in
  let '(p, dinit_min) := visited Cmin save_max save_min lower true (constrain save_max p) in
  let p := if debug then constrain save_min p else p in
  if negb consistent || dinit_max || dinit_min then freq0 else decide_freq overflow save_min save_max p freq0.

Lemma last_passes_run a b upper lower consistent freq0 p :
  stored Cmax 1 upper p -> stored Cmin 1 lower p -> (length upper <= 15)%nat -> (length lower <= 15)%nat ->
  length (segs Cmax p) = 17%nat -> length (segs Cmin p) = 17%nat ->
  exists p', last_passes a b (1 + Z.of_nat (length upper)) (1 + Z.of_nat (length lower)) consistent freq0 p
      = Ok (decision a b upper lower consistent freq0) p' /\ keeps p p'.
Proof.
  intros Hu Hl Hlu Hll Hmax Hmin.
  set (p1 := set_df (constrain a (Polygon MIN_INIT MIN_INIT)) p).
  assert (Hk1 : keeps p p1) by by split.
  destruct (splice_run Cmax a b 17 upper 1 true p1) as (e1 & p2 & Hrun1 & Hdf1 & Hk2 & Ho2 & He1); [done|lia|lia|lia|done|].
  destruct (put_seg_frame Cmax e1 b p2) as (p3 & Hput3 & Hk3 & Hdf3 & Ho3); [lia|by rewrite (keeps_length Cmax p1 p2 Hk2)|].
  set (p4 := set_df (constrain b (df p3)) p3). assert (Hk4 : keeps p3 p4) by by split.
  assert (Hmin4 : segs Cmin p4 = segs Cmin p) by (change (segs (other Cmax) p3 = segs (other Cmax) p1); congruence).
  destruct (splice_run Cmin b a 17 lower 1 true p4) as (e2 & p5 & Hrun2 & Hdf5 & Hk5 & _ & He2);
    [by apply (stored_same _ _ _ p)|lia|lia|lia|by rewrite Hmin4|].
  destruct (put_seg_frame Cmin e2 b p5) as (p6 & Hput6 & Hk6 & Hdf6 & _); [lia|by rewrite (keeps_length Cmin p4 p5 Hk5), Hmin4|].
  set (p7 := if debug then set_df (constrain a (df p6)) p6 else p6).
  assert (Hk7 : keeps p6 p7) by (unfold p7; destruct debug; [by split|done]).
  exists p7. split; [|by do 6 (etrans; [eassumption|])].
  unfold last_passes. eapply run_bind; [reflexivity|]. eapply run_bind; [reflexivity|]. fold p1.
  eapply run_bind; [exact Hrun1|]. cbn beta iota. eapply run_bind; [exact Hput3|]. eapply run_bind; [reflexivity|]. fold p4.
  eapply run_bind; [exact Hrun2|]. cbn beta iota. eapply run_bind; [exact Hput6|].
  assert (Hd : when debug (polygon_point a) p6 = Ok tt p7) by (unfold p7; by destruct debug).
  eapply run_bind; [exact Hd|]. unfold decision. change (df p1) with (constrain a (Polygon MIN_INIT MIN_INIT)) in *.
  destruct (visited Cmax a b upper true _) as [q1 d1]. cbn [fst snd] in *.
  assert (Hq : df p4 = constrain b q1) by (unfold p4; cbn [df set_df]; by rewrite Hdf3, Hdf1).
  rewrite Hq in *. destruct (visited Cmin b a lower true (constrain b q1)) as [q2 d2]. cbn [fst snd] in *. cbv zeta.
  assert (Hdf7 : df p7 = if debug then constrain a q2 else q2) by (unfold p7; rewrite <- Hdf5, <- Hdf6; by destruct debug).
  destruct (negb consistent || d1 || d2); [done|]. eapply run_bind; [apply gets_run|]. by rewrite Hdf7.
Qed.

Lemma next_freq_decision hist freq0 dr l :
  length hist = 16%nat -> correct freq0 zero hist = dr :: l ->
  let upper := hull 16 Cmax dr (rev (dr :: l)) (d_of_Z (-100)) None in
  let lower := hull 16 Cmin dr (rev (dr :: l)) (d_of_Z 100) None in
  forall ga gb, next_freq overflow debug hist freq0
  = decision (default ga (snd upper)) (default gb (snd lower)) (fst upper) (fst lower)
      (bool_decide (is_Some (snd upper)) && bool_decide (is_Some (snd lower))) freq0.
Proof.
  intros Hlen Hc upper lower ga gb. unfold next_freq. rewrite Hlen. change (16 <? 16)%nat with false. cbv iota zeta. rewrite Hc.
  fold upper lower. destruct upper as [us ua], lower as [ls lb]. cbn [fst snd]. unfold decision.
  destruct ua as [a|], lb as [b|]; cbn [default id];
    destruct (visited Cmax _ _ _ _ _) as [q1 d1], (visited Cmin _ _ _ _ _) as [q2 d2]; done.
Qed.

Lemma lock_run ga gb rp0 freq0 hist p :
  0 <= rp0 < 16 -> length hist = 16%nat -> holds_at rp0 (rev hist) p -> length (maxseg p) = 17%nat -> length (minseg p) = 17%nat ->
  exists p', lock overflow debug ga gb rp0 freq0 p = Ok (next_freq overflow debug hist freq0) p'
    /\ holds_at rp0 (rev (correct freq0 zero hist)) p' /\ rp p' = rp p /\ valid p' = valid p
    /\ length (maxseg p') = 17%nat /\ length (minseg p') = 17%nat.
Proof.
  intros Hrp Hlen Hh Hmax Hmin. destruct hist as [|d older]; [done|]. cbn [length] in Hlen. cbn [rev] in Hh.
  destruct (pass1_run rp0 Hrp freq0 17 15 zero p (rev older) d []) as (p1 & Hrun1 & Hh1 & Hp1); [lia|rewrite length_rev; lia|done|].
  rewrite rev_involutive, app_nil_r in Hh1. rewrite place_last in Hrun1 by done.
  destruct (correct freq0 zero (d :: older)) as [|dr l] eqn:Hc; [by destruct older|].
  assert (Hlr : length (dr :: l) = 16%nat) by (rewrite <- Hc, correct_length; cbn [length]; lia).
  assert (Hnew : rev (dr :: l) !! 15%nat = Some dr).
  { cbn [rev]. rewrite lookup_app_r; rewrite length_rev; cbn [length] in Hlr; [|lia]. by replace (15 - length l)%nat with 0%nat by lia. }
  assert (Hlen1 : length (maxseg p1) = 17%nat /\ length (minseg p1) = 17%nat) by (by rewrite Hp1). destruct Hlen1 as [Hmax1 Hmin1].
  destruct (envelope_run rp0 Hrp Cmax (rev (dr :: l)) dr 16 0 1 (d_of_Z (-100)) None p1) as (p2 & Hrun2 & Hst2 & Hk2 & _ & Ho2 & _ & Hc2);
    [done|done|lia|lia|lia|lia|done|].
  destruct (envelope_run rp0 Hrp Cmin (rev (dr :: l)) dr 16 0 1 (d_of_Z 100) None p2) as (p3 & Hrun3 & Hst3 & Hk3 & _ & Ho3 & _ & Hc3);
    [by eapply holds_keeps|done|lia|lia|lia|lia|by rewrite (keeps_length Cmin p1 p2 Hk2)|].
  rewrite drop_0 in *. pose proof (next_freq_decision (d :: older) freq0 dr l ltac:(cbn [length]; lia) Hc ga gb) as Hnext. cbv zeta in Hnext.
  destruct (hull 16 Cmax dr _ _ _) as [upper ua]. destruct (hull 16 Cmin dr _ _ _) as [lower lb]. cbn [fst snd] in *.
  destruct (last_passes_run (default ga ua) (default gb lb) upper lower (bool_decide (is_Some ua) && bool_decide (is_Some lb)) freq0 p3)
    as (p4 & Hrun4 & Hk4); [by apply (stored_same _ _ _ p2)|done|lia|lia| | |].
  { by rewrite (keeps_length Cmax p2 p3 Hk3), (keeps_length Cmax p1 p2 Hk2). }
  { by rewrite (keeps_length Cmin p2 p3 Hk3), (keeps_length Cmin p1 p2 Hk2). }
  assert (Hk : keeps p1 p4) by (by do 2 (etrans; [eassumption|])).
  exists p4. split; [|split; [by eapply holds_keeps|]].
  - unfold lock. eapply run_bind; [exact Hrun1|]. unfold pass2, pass3. rewrite next_up_last by done.
    eapply run_bind; [exact Hrun2|]. cbn beta iota. eapply run_bind; [exact Hrun3|]. cbn beta iota zeta.
    rewrite Hnext. unfold last_passes in Hrun4. rewrite negb_andb in Hrun4. exact Hrun4.
  - destruct Hk as [_ Hr Hv Hma Hmi]. rewrite Hr, Hv, Hma, Hmi, Hp1. by rewrite Hp1 in Hmax1, Hmin1.
Qed.
End lock.

(** ** The ring and the history *)

Lemma correct_bare freq0 hist : forall cum, correct freq0 cum (bare <$> hist) = correct freq0 cum hist.
Proof. induction hist as [|d [|d' older] IH]; intros cum; [done|done|]. cbn [fmap list_fmap correct] in *. f_equal. apply IH. Qed.
Lemma bare_correct freq0 hist : forall cum, bare <$> correct freq0 cum hist = bare <$> hist.
Proof. induction hist as [|d [|d' older] IH]; intros cum; [done|done|]. cbn [fmap list_fmap correct] in *. f_equal. apply IH. Qed.
Lemma next_freq_bare overflow debug hist freq0 : next_freq overflow debug (bare <$> hist) freq0 = next_freq overflow debug hist freq0.
Proof. unfold next_freq. by rewrite length_fmap, correct_bare. Qed.

Lemma rev_lookup {A} (l : list A) k : (k < length l)%nat -> rev l !! k = l !! (length l - S k)%nat.
Proof. intros Hk. rewrite rev_alt. by apply reverse_lookup. Qed.

(** The ring in the order of time. *)
Definition chronological (rp0 : Z) (ring : list datum) : list datum :=
  drop (S (Z.to_nat rp0)) ring ++ take (S (Z.to_nat rp0)) ring.
Lemma chronological_holds rp0 p : 0 <= rp0 < 16 -> length (d_ring p) = 16%nat -> holds_at rp0 (chronological rp0 (d_ring p)) p.
Proof.
  intros Hrp Hl. unfold holds_at, chronological. split; [rewrite length_app, length_drop, length_take; lia|]. split; [done|].
  intros t Ht. destruct (decide (t < 15 - Z.to_nat rp0)%nat).
  - rewrite lookup_app_l by (rewrite length_drop; lia). rewrite lookup_drop. f_equal. unfold place. Z.div_mod_to_equations. lia.
  - rewrite lookup_app_r by (rewrite length_drop; lia). rewrite length_drop, Hl, lookup_take_lt by lia.
    f_equal. unfold place. Z.div_mod_to_equations. lia.
Qed.
Lemma place_back rp0 k : (k < 16)%nat -> place rp0 (15 - k) = (rp0 - Z.of_nat k) mod 16.
Proof. intros Hk. unfold place. Z.div_mod_to_equations. lia. Qed.

(** The ring after the newest measurement was written. *)
Lemma newest_written hist p d :
  remembers hist p ->
  forall k, (k < length (take 16 (bare d :: hist)))%nat ->
  bare <$> <[Z.to_nat (rp p) := d]> (d_ring p) !! Z.to_nat ((rp p - Z.of_nat k) mod 16) = take 16 (bare d :: hist) !! k.
Proof.
  intros [[Hr _ _ Hrp] (Hv & Hlen & Hk)] k Hlt. rewrite length_take in Hlt. cbn [length] in Hlt.
  rewrite lookup_take_lt by lia. pose proof (Z.mod_pos_bound (rp p - Z.of_nat k) 16 ltac:(lia)).
  destruct k as [|k].
  - rewrite Z.sub_0_r, Z.mod_small by lia. rewrite list_lookup_insert_eq by lia. done.
  - rewrite list_lookup_insert_ne by (Z.div_mod_to_equations; lia). change ((bare d :: hist) !! S k) with (hist !! k). rewrite <- (Hk k) by lia.
    f_equal. f_equal. f_equal. f_equal. lia.
Qed.

Lemma history_full hist p d :
  remembers hist p -> (15 <= length hist)%nat ->
  let p1 := set_d_ring (<[Z.to_nat (rp p) := d]> (d_ring p)) p in
  let full := rev (chronological (rp p) (d_ring p1)) in
  bare <$> full = take 16 (bare d :: hist) /\ length full = 16%nat /\ holds_at (rp p) (rev full) p1.
Proof.
  intros Hrem Hfull p1 full. pose proof Hrem as [[Hr _ _ Hrp] (Hv & Hlen & _)].
  assert (Hr1 : length (d_ring p1) = 16%nat) by (cbn [p1 d_ring set_d_ring]; by rewrite length_insert).
  pose proof (chronological_holds (rp p) p1 Hrp Hr1) as Hh. pose proof Hh as (Hcl & _ & Hlook).
  assert (Hfl : length full = 16%nat) by (unfold full; by rewrite length_rev).
  split; [|split; [done|unfold full; by rewrite rev_involutive]].
  apply list_eq. intros k. destruct (decide (k < 16)%nat) as [Hk|Hk].
  - rewrite <- (newest_written hist p d Hrem k) by (rewrite length_take; cbn [length]; lia).
    rewrite list_lookup_fmap. f_equal. unfold full. rewrite <- (place_back (rp p) k Hk). change (<[_ := d]> (d_ring p)) with (d_ring p1).
    rewrite Hlook by lia. rewrite rev_lookup by lia. by rewrite Hcl.
  - rewrite (lookup_ge_None_2 (bare <$> full)), (lookup_ge_None_2 (take _ _)); [done| |]; rewrite ?length_fmap, ?length_take; lia.
Qed.

Lemma history_kept hist' full rp0 p :
  bare <$> full = hist' -> length full = 16%nat -> holds_at rp0 (rev full) p ->
  forall k, (k < 16)%nat -> bare <$> d_ring p !! Z.to_nat ((rp0 - Z.of_nat k) mod 16) = hist' !! k.
Proof.
  intros <- Hf (_ & _ & Hlook) k Hk. rewrite <- place_back, Hlook, rev_lookup, list_lookup_fmap by lia.
  by replace (length full - S (15 - k))%nat with k by lia.
Qed.

Lemma contemplate_run overflow debug ga gb time sk err f hist p :
  remembers hist p ->
  let hist' := take 16 (Datum time sk (dsub err (d_of_Z 800)) f zero zero :: hist) in
  exists p', contemplate_data overflow debug ga gb time sk err f p = Ok (next_freq overflow debug hist' f) p'
    /\ remembers hist' p'.
Proof.
  intros Hrem hist'. pose proof Hrem as [[Hr Hmax Hmin Hrp] (Hv & Hlen & _)].
  destruct (lookup_lt_is_Some_2 (d_ring p) (Z.to_nat (rp p))) as [old Hold]; [lia|].
  set (d := Datum time sk (dsub err (d_of_Z 800)) f (smin old) (smax old)).
  set (p1 := set_d_ring (<[Z.to_nat (rp p) := d]> (d_ring p)) p).
  assert (Hlen' : length hist' = Nat.min 16 (S (length hist))) by (unfold hist'; rewrite length_take; done).
  assert (Hv' : (if valid p1 <? RING_SIZE then valid p1 + 1 else valid p1) = Z.of_nat (length hist')).
  { change (valid p1) with (valid p). rewrite Hv, Hlen'. unfold RING_SIZE. destruct (Z.ltb_spec (Z.of_nat (length hist)) 16); lia. }
  set (p2 := set_valid (Z.of_nat (length hist')) p1).
  assert (Hlock : exists p3, (if Z.of_nat (length hist') =? RING_SIZE then lock overflow debug ga gb (rp p) f else mret f) p2
    = Ok (next_freq overflow debug hist' f) p3 /\ pll_ok p3 /\ rp p3 = rp p /\ valid p3 = Z.of_nat (length hist')
      /\ forall k, (k < length hist')%nat -> bare <$> d_ring p3 !! Z.to_nat ((rp p - Z.of_nat k) mod 16) = hist' !! k).
  { unfold RING_SIZE. destruct (Z.eqb_spec (Z.of_nat (length hist')) 16) as [H16|H16].
    - destruct (history_full hist p d Hrem ltac:(lia)) as (Hbare & Hfl & Hh). set (full := rev _) in *.
      destruct (lock_run overflow debug ga gb (rp p) f full p2) as (p3 & Hrun & Hh3 & Hrp3 & Hv3 & Hmax3 & Hmin3); [done|done|done|done|done|].
      change (take 16 (bare d :: hist)) with hist' in Hbare. exists p3. split; [by rewrite Hrun, <- Hbare, next_freq_bare|].
      split; [split; [by destruct Hh3 as (_ & ? & _)|done|done|by rewrite Hrp3]|]. split; [done|]. split; [done|].
      intros k Hk. eapply history_kept; [|by rewrite (correct_length f full zero)|exact Hh3|lia]. by rewrite bare_correct.
    - exists p2. split; [unfold next_freq; by rewrite (proj2 (Nat.ltb_lt _ _)) by lia|].
      split; [split; cbn [p2 p1 set_valid set_d_ring d_ring maxseg minseg rp]; rewrite ?length_insert; done|].
      split; [done|]. split; [done|]. exact (newest_written hist p d Hrem). }
  destruct Hlock as (p3 & Hrun & [Hr3 Hmax3 Hmin3 _] & Hrp3 & Hv3 & Hk3).
  exists (set_rp ((rp p + 1) mod RING_SIZE) p3). split.
  - unfold contemplate_data. eapply run_bind; [apply gets_run|]. eapply run_bind; [apply get_datum_run; [lia|exact Hold]|].
    eapply run_bind; [apply put_datum_run; lia|]. fold d p1. eapply run_bind; [apply gets_run|]. cbv zeta. rewrite Hv'.
    eapply run_bind; [reflexivity|]. fold p2. eapply run_bind; [exact Hrun|]. by eapply run_bind.
  - pose proof (Z.mod_pos_bound (rp p + 1) 16 ltac:(lia)). split; [by split|]. cbn [valid set_rp rp d_ring]. split; [done|]. split; [lia|].
    intros k Hk. rewrite <- (Hk3 k Hk). f_equal. f_equal. f_equal. unfold RING_SIZE. Z.div_mod_to_equations. lia.
Qed.

(** C22. The phase-locked loop computes [next_freq] of the last 16 measurements: on a
    ring that holds the history [hist], contemplate_data enters the new
    measurement, ends without an access outside of its arrays, whatever save_min and
    save_max held on the stack, and answers the decision, which is the old
    frequency or in the range of the kernel's clock; the ring then holds the new
    history, the oldest measurement beyond 16 dropped. *)
Theorem contemplate_refines overflow debug ga gb time sk err f hist p :
  remembers hist p ->
  let hist' := take 16 (Datum time sk (dsub err (d_of_Z 800)) f zero zero :: hist) in
  exists p', contemplate_data overflow debug ga gb time sk err f p = Ok (next_freq overflow debug hist' f) p'
    /\ remembers hist' p' /\ (next_freq overflow debug hist' f = f \/ -6000000 <= next_freq overflow debug hist' f <= 6000000).
Proof.
  intros Hrem hist'. destruct (contemplate_run overflow debug ga gb time sk err f hist p Hrem) as (p' & Hrun & Hrem').
  exists p'. split; [exact Hrun|]. split; [exact Hrem'|apply next_freq_range].
Qed.

(** ** What the search finds *)

(** [s] is no better than [a]: with [sign] set the largest slope is looked for, and the
    smallest without it. *)
Definition no_better (sign : bool) (s a : seg) : Prop :=
  if sign then d_lt (slope a) (slope s) = false else d_lt (slope s) (slope a) = false.
Definition numbers (s0 s1 : curve) (dr dj : datum) (l : list datum) : Prop :=
  Forall (fun dn => is_nan (slope (segment s0 s1 dr dj dn)) = false) l.

Lemma best_extreme sign s0 s1 dr dj l : forall a0 tail,
  numbers s0 s1 dr dj l -> is_nan (slope a0) = false ->
  exists a, fst (best sign s0 s1 dr dj l (Some a0) tail) = Some a /\ is_nan (slope a) = false /\ no_better sign a0 a
    /\ (forall dn, dn ∈ l -> no_better sign (segment s0 s1 dr dj dn) a).
Proof.
  induction l as [|dn l IH]; intros a0 tail Hl Ha0.
  { exists a0. split; [done|]. split; [done|]. split; [unfold no_better; destruct sign; apply sf_lt_irrefl|]. intros dn H. by inversion H. }
  inversion Hl as [|? ? Hs Hl']; subst. cbn [best]. cbv zeta. set (s := segment s0 s1 dr dj dn) in *. cbn [improves].
  assert (Htrans : forall x y z, is_nan (slope x) = false -> is_nan (slope y) = false -> is_nan (slope z) = false ->
    no_better sign x y -> no_better sign y z -> no_better sign x z).
  { intros x y z Hx Hy Hz. unfold no_better, d_lt. destruct sign; intros H1 H2; [by apply (sf_not_lt_trans _ (slope y))|by apply (sf_not_lt_trans _ (slope y))]. }
  destruct (xorb (d_lt (slope s) (slope a0)) sign) eqn:Himp.
  - destruct (IH s (dn :: l) Hl' Hs) as (a & Ha & Hna & Hsa & Hall). exists a. split; [done|]. split; [done|].
    assert (H0 : no_better sign a0 s).
    { unfold no_better, d_lt in *. destruct sign; [by destruct (SFltb _ _)|]. rewrite xorb_false_r in Himp. by apply sf_lt_asym. }
    split; [by apply (Htrans a0 s a)|]. intros x [->|Hx]%elem_of_cons; [done|by apply Hall].
  - destruct (IH a0 tail Hl' Ha0) as (a & Ha & Hna & H0a & Hall). exists a. split; [done|]. split; [done|]. split; [done|].
    assert (Hs0 : no_better sign s a0).
    { unfold no_better, d_lt in *. destruct sign; [|by rewrite xorb_false_r in Himp]. apply sf_lt_asym; [done|done|]. by destruct (SFltb _ _). }
    intros x [->|Hx]%elem_of_cons; [by apply (Htrans s a0 a)|by apply Hall].
Qed.

(** The search for a segment ends with the best of all segments from its start to a
    later measurement: the largest slope when sign is set and the smallest
    when it is not, provided that no slope is NaN. (The comment in the source has
    it the other way round.) *)
Theorem search_extreme rp0 l p s0 s1 sign tj dj dr :
  0 <= rp0 < 16 -> holds_at rp0 l p -> l !! tj = Some dj -> l !! 15%nat = Some dr -> (tj < 15)%nat ->
  numbers s0 s1 dr dj (drop (S tj) l) ->
  exists t' s, search rp0 (place rp0 tj) s0 s1 sign p = Ok (place rp0 t', Some s) p /\ (tj < t' <= 15)%nat
    /\ forall dn, dn ∈ drop (S tj) l -> no_better sign (segment s0 s1 dr dj dn) s.
Proof.
  intros Hrp Hh Hj Hr Htj Hnum. destruct (search_run rp0 Hrp l p s0 s1 sign tj dj dr Hh Hj Hr Htj) as (t' & s & Hrun & Hbest & Ht').
  exists t', s. split; [done|]. split; [lia|]. pose proof Hh as (Hlen & _ & _).
  destruct (lookup_lt_is_Some_2 l (S tj)) as [d1 H1]; [lia|]. rewrite (drop_S l d1 (S tj)) in * by done.
  inversion Hnum as [|? ? Hn1 Hnum']; subst. cbn [best improves] in Hbest. cbv zeta in Hbest.
  destruct (best_extreme sign s0 s1 dr dj (drop (S (S tj)) l) (segment s0 s1 dr dj d1) (d1 :: drop (S (S tj)) l) Hnum' Hn1) as (a & Ha & _ & Ha0 & Hall).
  rewrite Hbest in Ha. cbn [fst] in Ha. injection Ha as <-. intros x [->|Hx]%elem_of_cons; [done|by apply Hall].
Qed.
