(* ===== verification/NtpDaylight.v ===== *)
(** * NtpDaylight: the calendar and daylight saving time (Getntp.c)

    gmtime() as the source uses it, the group of a time zone, the test of a day for
    daylight saving time, and the theorem: the test is the rule with the Sundays of
    the calendar. *)

From S2P Require Import Prelude.

#[local] Open Scope Z_scope.

(** ** The calendar *)

(** Days from the first of March of the year 0 to the first of March of [y]. *)
Definition year_start (y : Z) : Z := 365 * y + y / 4 - y / 100 + y / 400.
(** The year of March to February that holds the day [z], counted from there. *)
Definition year_of (z : Z) : Z :=
  let y := 400 * z / 146097 in
  if z <? year_start y then y - 1 else if year_start (y + 1) <=? z then y + 1 else y.
(** The days before the month [mp], 0 for March. *)
Definition month_start (mp : Z) : Z := (153 * mp + 2) / 5.
Definition EPOCH : Z := 719468.   (* 1970-01-01 *)

(** The fields of struct tm that are read. *)
Record tm : Type := Tm {
  tm_year : Z;   (* since 1900 *)
  tm_mon : Z;   (* 0 to 11 *)
  tm_mday : Z;   (* 1 to 31 *)
  tm_wday : Z   (* 0 to 6, from Sunday *)
}.
Definition tm_of_day (d : Z) : tm :=
  let z := d + EPOCH in
  let y := year_of z in
  let yday := z - year_start y in
  let mp := (5 * yday + 2) / 153 in
  Tm ((if mp <? 10 then y else y + 1) - 1900) (if mp <? 10 then mp + 2 else mp - 10)
     (yday - month_start mp + 1) ((d + 4) mod 7).
Definition gmtime (t : Z) : tm := tm_of_day (t / 86400).

(** The day of a date. *)
Definition day_of_date (year mon mday : Z) : Z :=
  let y := if mon <? 2 then year - 1 else year in
  let mp := if mon <? 2 then mon + 10 else mon - 2 in
  year_start y + month_start mp + (mday - 1) - EPOCH.

(** ** The code *)

(** The group of the time zone with index [nation]. *)
Definition nationselect (nation : Z) : Z :=
  if nation =? 1 then 0
  else if nation =? 2 then 0
  else if nation =? 3 then 0
  else if nation =? 4 then 1
  else if nation =? 5 then 1
  else if nation =? 6 then 0
  else if nation =? 7 then 1
  else if nation =? 8 then 1
  else if nation =? 9 then 1
  else if nation =? 10 then 0
  else if nation =? 11 then 1
  else if nation =? 12 then 0
  else if nation =? 13 then 1
  else if nation =? 14 then 0
  else if nation =? 15 then 3
  else if nation =? 16 then 0
  else if nation =? 17 then 0
  else if nation =? 18 then 0
  else if nation =? 19 then 2
  else if nation =? 20 then 0
  else if nation =? 21 then 2
  else if nation =? 22 then 0
  else if nation =? 23 then 2
  else if nation =? 24 then 2
  else if nation =? 26 then 2
  else if nation =? 27 then 2
  else if nation =? 28 then 2
  else if nation =? 31 then 0
  else if nation =? 32 then 1
  else if nation =? 33 then 3
  else if nation =? 34 then 0
  else if nation =? 35 then 0
  else if nation =? 36 then 3
  else 0.

Section daylight.
Context {S : Type}.

(** while (1) { if (mday == stop) return 0; if (wday == 0) return 1; ... } *)
Fixpoint sunday_loop (fuel : nat) (stop mday wday : Z) : M S bool :=
  match fuel with
  | O => fail Out_of_fuel
  | Datatypes.S fuel' =>
      if mday =? stop then mret false
      else if wday =? 0 then mret true
      else sunday_loop fuel' stop (mday - 1) (wday - 1)
  end.
Definition firstSunChk (mday wday : Z) : M S bool := sunday_loop 8 0 mday wday.
Definition lastSunChk (mday wday : Z) : M S bool := sunday_loop 8 24 mday wday.

Definition between (lo hi x : Z) : bool := (lo <=? x) && (x <=? hi).
Definition one_if (b : bool) : Z := if b then 1 else 0.
(** In the last week of a month: [on_sunday] on a Sunday, and otherwise [after] when the
    last Sunday is over and [earlier] when it is to come. *)
Definition last_week (mday wday : Z) (on_sunday after earlier : Z) : M S Z :=
  if wday =? 0 then mret on_sunday
  else b ← lastSunChk mday wday; mret (if (b : bool) then after else earlier).
(** The groups 4 to 7: a week that holds the Sunday of a change, where only the Sunday
    itself gets an answer. The function ends without return after break. *)
Definition sunday_only (lo hi mday wday on_sunday otherwise : Z) : M S Z :=
  if between lo hi mday then (if wday =? 0 then mret on_sunday else fail Uninitialised) else mret otherwise.
Definition southern (mon mday wday : Z) (end_month end_lo end_hi start_lo start_hi : Z) : M S Z :=
  if mon <? end_month then mret 1
  else if mon =? end_month then sunday_only end_lo end_hi mday wday 0 1
  else if mon =? 9 then sunday_only start_lo start_hi mday wday 1 0
  else if 9 <? mon then mret 1
  else mret 0.
Definition daylight (retval : Z) (rv_tm : tm) : M S Z :=
  let '(Tm _ mon mday wday) := rv_tm in
  if retval =? 0 then mret 0
  else if retval =? 1 then
    if mon =? 3 then
      if between 1 7 mday then
        if wday =? 0 then mret 1 else b ← firstSunChk mday wday; mret (one_if b)
      else mret 1
    else if 3 <? mon then
      if mon =? 9 then
        if between 25 31 mday then last_week mday wday 1 0 1 else mret 1
      else if 9 <? mon then mret 0
      else mret 1
    else mret 0
  else if retval =? 2 then
    if mon =? 2 then
      if between 25 31 mday then last_week mday wday 1 1 0 else mret 0
    else if 2 <? mon then
      if mon =? 9 then
        if between 25 31 mday then last_week mday wday 1 0 1 else mret 1
      else if 9 <? mon then mret 0
      else mret 1
    else mret 0
  else if retval =? 3 then
    if mon <? 2 then mret 1
    else if mon =? 2 then
      if between 25 31 mday then last_week mday wday 0 0 1 else mret 1
    else if mon =? 9 then
      if between 25 31 mday then last_week mday wday 1 1 0 else mret 0
    else if 9 <? mon then mret 1
    else mret 0
  else if retval =? 4 then southern mon mday wday 2 8 14 8 14
  else if retval =? 5 then southern mon mday wday 1 15 21 15 21
  else if retval =? 6 then southern mon mday wday 2 15 21 1 7
  else if retval =? 7 then southern mon mday wday 2 25 31 1 7
  else mret 0.
(** [nation] is the number in timezone_index. *)
Definition autodaylightsave (nation tv_sec : Z) : M S Z := daylight (nationselect nation) (gmtime tv_sec).
End daylight.

(** ** The rules *)

Definition weekday (d : Z) : Z := (d + 4) mod 7.
Definition first_sunday (year mon : Z) : Z := let b := day_of_date year mon 1 in b + (- weekday b) mod 7.
(** In a month of 31 days. *)
Definition last_sunday (year mon : Z) : Z := let e := day_of_date year mon 31 in e - weekday e.

Inductive rule : Type := No_saving | April_to_October | March_to_October | October_to_March.
Definition rule_of (group : Z) : rule :=
  if group =? 1 then April_to_October else if group =? 2 then March_to_October
  else if group =? 3 then October_to_March else No_saving.
(** Is the day [d] in daylight saving time? *)
Definition saving (r : rule) (d : Z) : bool :=
  let year := tm_year (tm_of_day d) + 1900 in
  match r with
  | No_saving => false
  | April_to_October => between (first_sunday year 3) (last_sunday year 9) d
  | March_to_October => between (last_sunday year 2) (last_sunday year 9) d
  | October_to_March => (d <? last_sunday year 2) || (last_sunday year 9 <=? d)
  end.

(** ** Proofs *)

Lemma year_of_spec z : year_start (year_of z) <= z < year_start (year_of z + 1).
Proof.
  unfold year_of. set (y := 400 * z / 146097).
  assert (Hy : 146097 * y <= 400 * z < 146097 * y + 146097) by (unfold y; Z.div_mod_to_equations; lia).
  clearbody y. cbv zeta.
  destruct (z <? year_start y) eqn:H1; [apply Z.ltb_lt in H1|apply Z.ltb_ge in H1].
  { unfold year_start in *. Z.div_mod_to_equations. lia. }
  destruct (year_start (y + 1) <=? z) eqn:H2; [apply Z.leb_le in H2|apply Z.leb_gt in H2]; [|lia].
  unfold year_start in *. Z.div_mod_to_equations. lia.
Qed.

Lemma year_length y : year_start (y + 1) - year_start y = 365 \/ year_start (y + 1) - year_start y = 366.
Proof. unfold year_start. Z.div_mod_to_equations. lia. Qed.

(** The date of a day: its month [mp] from March on, in the year that starts at [b]. *)
Lemma tm_of_day_spec d : exists y mp mday,
  tm_of_day d = Tm ((if mp <? 10 then y else y + 1) - 1900) (if mp <? 10 then mp + 2 else mp - 10) mday (weekday d)
  /\ 0 <= mp < 12 /\ 1 <= mday <= month_start (mp + 1) - month_start mp
  /\ d = year_start y + month_start mp + (mday - 1) - EPOCH /\ d < year_start (y + 1) - EPOCH.
Proof.
  set (z := d + EPOCH). set (y := year_of z). set (yday := z - year_start y). set (mp := (5 * yday + 2) / 153).
  exists y, mp, (yday - month_start mp + 1). pose proof (year_of_spec z) as Hz. fold y in Hz. pose proof (year_length y).
  assert (Hyday : 0 <= yday < 366) by lia.
  assert (Hmp : 0 <= mp < 12) by (unfold mp; Z.div_mod_to_equations; lia).
  split; [done|]. split; [done|].
  assert (Hm : month_start mp <= yday < month_start (mp + 1)) by (unfold month_start, mp; Z.div_mod_to_equations; lia).
  split; [lia|]. split; lia.
Qed.

(** The fields of gmtime() are a date of the calendar, and that of the day. *)
Lemma tm_of_day_date d : let t := tm_of_day d in
  0 <= tm_mon t < 12 /\ 1 <= tm_mday t <= 31 /\ day_of_date (tm_year t + 1900) (tm_mon t) (tm_mday t) = d.
Proof.
  destruct (tm_of_day_spec d) as (y & mp & mday & E & Hmp & Hmday & Hd & _). cbv zeta. rewrite E. cbn [tm_year tm_mon tm_mday].
  assert (H31 : month_start (mp + 1) - month_start mp <= 31) by (unfold month_start; Z.div_mod_to_equations; lia).
  unfold day_of_date. destruct (mp <? 10) eqn:H10; [apply Z.ltb_lt in H10|apply Z.ltb_ge in H10].
  - rewrite (proj2 (Z.ltb_ge _ _)) by lia. split; [lia|]. split; [lia|].
    replace (y - 1900 + 1900) with y by lia. replace (mp + 2 - 2) with mp by lia. lia.
  - rewrite (proj2 (Z.ltb_lt _ _)) by lia. split; [lia|]. split; [lia|].
    replace (y + 1 - 1900 + 1900 - 1) with y by lia. replace (mp - 10 + 10) with mp by lia. lia.
Qed.

Section daylight_proofs.
Context {S : Type}.
Implicit Types s : S.

Lemma sunday_loop_run fuel stop s : forall mday wday, stop <= mday -> 0 <= wday < Z.of_nat fuel ->
  sunday_loop fuel stop mday wday s = Ok (wday <? mday - stop) s.
Proof.
  induction fuel as [|fuel IH]; intros mday wday Hm Hw; [lia|]. cbn [sunday_loop].
  destruct (Z.eqb_spec mday stop) as [->|Hne]; [by rewrite (proj2 (Z.ltb_ge _ _)) by lia|].
  destruct (Z.eqb_spec wday 0) as [->|Hw0]; [by rewrite (proj2 (Z.ltb_lt _ _)) by lia|].
  rewrite IH by lia. f_equal. destruct (Z.ltb_spec (wday - 1) (mday - 1 - stop)), (Z.ltb_spec wday (mday - stop)); lia.
Qed.
Lemma last_week_run mday wday x after earlier s : 25 <= mday -> 0 <= wday < 7 ->
  last_week mday wday x after earlier s = Ok (if wday =? 0 then x else if wday <? mday - 24 then after else earlier) s.
Proof.
  intros Hm Hw. unfold last_week. destruct (wday =? 0); [done|]. eapply run_bind; [apply sunday_loop_run; lia|].
  by destruct (wday <? mday - 24).
Qed.

Lemma first_week_run mday wday s : 1 <= mday <= 7 -> 0 <= wday < 7 ->
  (if wday =? 0 then mret 1 else b ← firstSunChk mday wday; mret (one_if b)) s = Ok (if wday <? mday then 1 else 0) s.
Proof.
  intros Hm Hw. destruct (Z.eqb_spec wday 0) as [->|Hw0]; [by rewrite (proj2 (Z.ltb_lt _ _)) by lia|].
  eapply run_bind; [apply sunday_loop_run; lia|]. rewrite Z.sub_0_r. by destruct (wday <? mday).
Qed.

Lemma nationselect_group nation : 0 <= nationselect nation <= 3.
Proof. unfold nationselect. repeat (destruct (_ =? _); [lia|]). lia. Qed.

Lemma last_sunday_spec year mon :
  exists q r, last_sunday year mon = day_of_date year mon 31 - r /\ day_of_date year mon 31 + 4 = 7 * q + r /\ 0 <= r < 7.
Proof.
  set (e := day_of_date year mon 31). exists ((e + 4) / 7), ((e + 4) mod 7). split; [done|]. Z.div_mod_to_equations. lia.
Qed.
Lemma first_sunday_spec year mon :
  exists q r, first_sunday year mon = day_of_date year mon 1 + r /\ day_of_date year mon 1 + r + 4 = 7 * q /\ 0 <= r < 7.
Proof.
  set (b := day_of_date year mon 1). exists ((b + (- ((b + 4) mod 7)) mod 7 + 4) / 7), ((- ((b + 4) mod 7)) mod 7). split; [done|].
  Z.div_mod_to_equations. lia.
Qed.
Lemma weekday_spec d : exists q, d + 4 = 7 * q + weekday d /\ 0 <= weekday d < 7.
Proof. unfold weekday. exists ((d + 4) / 7). Z.div_mod_to_equations. lia. Qed.

(** The closed tests of the goal are evaluated, the others decided. *)
Ltac eval_test b := let v := eval vm_compute in b in lazymatch v with true => change b with true | false => change b with false end.
Ltac eval_tests := repeat match goal with
  | |- context [?a <? ?b] => eval_test (a <? b)
  | |- context [?a <=? ?b] => eval_test (a <=? b)
  | |- context [?a =? ?b] => eval_test (a =? b)
  end; cbv iota.
Ltac decide_goal := repeat match goal with
  | |- context [?x <=? ?y] => destruct (Z.leb_spec x y)
  | |- context [?x <? ?y] => destruct (Z.ltb_spec x y)
  | |- context [?x =? ?y] => destruct (Z.eqb_spec x y)
  end; cbn [andb orb one_if].
Ltac eval_months := repeat match goal with
  | H : context [month_start ?k] |- _ => let v := eval vm_compute in (month_start k) in change (month_start k) with v in H
  end.
Ltac each_month mp := assert (mp = 0 \/ mp = 1 \/ mp = 2 \/ mp = 3 \/ mp = 4 \/ mp = 5 \/ mp = 6 \/ mp = 7 \/ mp = 8 \/ mp = 9 \/ mp = 10 \/ mp = 11)
    as Hcase by lia; repeat destruct Hcase as [Hcase|Hcase]; subst mp; eval_months.
(** A month: the test on the left, the Sundays of the year on the right. *)
Ltac by_month :=
  match goal with |- _ = Ok ?r _ => let a := fresh "answer" in set (a := r); unfold daylight; eval_tests; subst a end; unfold between;
  repeat match goal with
  | |- context [if (?a <=? ?m) && (?m <=? ?b) then _ else _] => destruct (Z.leb_spec a m), (Z.leb_spec m b); cbn [andb]; try lia
  end;
  try match goal with
  | |- context [last_week] => rewrite last_week_run by lia
  | |- context [firstSunChk] => rewrite first_week_run by lia
  end;
  decide_goal; (done || lia || (f_equal; lia)).

Lemma march_31 y : day_of_date y 2 31 = year_start y + 30 - EPOCH.
Proof. change (day_of_date y 2 31) with (year_start y + 0 + (31 - 1) - EPOCH). lia. Qed.
Lemma october_31 y : day_of_date y 9 31 = year_start y + 244 - EPOCH.
Proof. change (day_of_date y 9 31) with (year_start y + 214 + (31 - 1) - EPOCH). lia. Qed.
Lemma april_1 y : day_of_date y 3 1 = year_start y + 31 - EPOCH.
Proof. change (day_of_date y 3 1) with (year_start y + 31 + (1 - 1) - EPOCH). lia. Qed.

(** The date of the day [d], in the year of which the rule speaks. *)
Lemma saving_dates d (P : Z -> Z -> Z -> Z -> Prop) :
  (forall y mp mday year, 0 <= mp < 12 -> (mp < 10 -> year = y) -> (10 <= mp -> year = y + 1) ->
    1 <= mday <= month_start (mp + 1) - month_start mp ->
    d = year_start y + month_start mp + (mday - 1) - 719468 -> d < year_start (y + 1) - 719468 ->
    P (if mp <? 10 then mp + 2 else mp - 10) mday (weekday d) year) ->
  let t := tm_of_day d in P (tm_mon t) (tm_mday t) (tm_wday t) (tm_year t + 1900).
Proof.
  intros H. destruct (tm_of_day_spec d) as (y & mp & mday & E & Hmp & Hmday & Hd & Hend). cbv zeta. rewrite E. cbn [tm_mon tm_mday tm_wday tm_year].
  apply (H y); [done| | |done|done|done]; destruct (Z.ltb_spec mp 10); lia.
Qed.

(** The rule of one group, month by month: the day [d] with its date, and the Sundays. *)
Ltac by_date d := destruct (weekday_spec d) as (q & Hq & Hw);
  match goal with |- daylight ?g _ ?s = Ok (one_if (saving ?r _)) _ =>
    generalize (saving_dates d (fun mon mday wday year => forall z, daylight g (Tm z mon mday wday) s
      = Ok (one_if (match r with
                    | No_saving => false
                    | April_to_October => between (first_sunday year 3) (last_sunday year 9) d
                    | March_to_October => between (last_sunday year 2) (last_sunday year 9) d
                    | October_to_March => (d <? last_sunday year 2) || (last_sunday year 9 <=? d)
                    end)) s)) end;
  cbv zeta beta iota; unfold saving; destruct (tm_of_day d) as [z mon mday wday];
  cbn [tm_mon tm_mday tm_wday tm_year]; let HD := fresh in intros HD; apply HD; clear HD;
  intros y mp md year Hmp Hy1 Hy2 Hmd Hd Hend z0; pose proof (year_length y) as Hyear;
  try (destruct (first_sunday_spec year 3) as (q0 & r0 & -> & H0 & Hr0));
  try (destruct (last_sunday_spec year 2) as (q1 & r1 & -> & H1 & Hr1));
  destruct (last_sunday_spec year 9) as (q2 & r2 & -> & H2 & Hr2);
  rewrite ?march_31, ?october_31, ?april_1 in *; unfold EPOCH in *; set (w := weekday d) in *; clearbody w;
  each_month mp; first [assert (year = y) as -> by lia | assert (year = y + 1) as -> by lia]; by_month.

Lemma daylight_march_october d s : daylight 2 (tm_of_day d) s = Ok (one_if (saving March_to_October d)) s.
Proof. by_date d. Qed.
Lemma daylight_october_march d s : daylight 3 (tm_of_day d) s = Ok (one_if (saving October_to_March d)) s.
Proof. by_date d. Qed.
Lemma daylight_april_october d s : daylight 1 (tm_of_day d) s = Ok (one_if (saving April_to_October d)) s.
Proof. by_date d. Qed.
End daylight_proofs.

Lemma autodaylightsave_run {S : Type} (s : S) nation t :
  autodaylightsave nation t s = Ok (one_if (saving (rule_of (nationselect nation)) (t / 86400))) s.
Proof.
  unfold autodaylightsave, gmtime. pose proof (nationselect_group nation) as Hg.
  assert (Hcase : nationselect nation = 0 \/ nationselect nation = 1 \/ nationselect nation = 2 \/ nationselect nation = 3) by lia.
  repeat destruct Hcase as [Hcase|Hcase]; rewrite Hcase.
  - unfold daylight. by destruct (tm_of_day _).
  - apply daylight_april_october.
  - apply daylight_march_october.
  - apply daylight_october_march.
Qed.

(** C24. Daylight saving time follows the calendar: at every time the answer of
    autodaylightsave is 1 exactly on the days of the rule of the time zone: from the
    first Sunday of April, or the last of March, to the last Sunday of October, that
    Sunday included, or (on the southern half) from the last Sunday of October on and before
    the last Sunday of March. The date that gmtime() gives is the day's date in
    the calendar. No zone leads to the groups 4 to 7, where the function ends without a
    value. *)
Theorem daylight_saving_follows_rule {S : Type} (s : S) nation t :
  autodaylightsave nation t s = Ok (one_if (saving (rule_of (nationselect nation)) (t / 86400))) s
  /\ day_of_date (tm_year (gmtime t) + 1900) (tm_mon (gmtime t)) (tm_mday (gmtime t)) = t / 86400.
Proof. split; [apply autodaylightsave_run|apply tm_of_day_date]. Qed.
