(* ===== verification/NtpTypes.v ===== *)
(** * NtpTypes: the state of the NTP client and what it asks of the system

    The variables of Getntp.c and of phaselock.c, the clock of the kernel, and the
    class [NtpEnv] of the answers of the system calls and of the C library. *)

From stdpp Require Import strings.
From Stdlib Require Import Ascii String.
From S2P Require Import Prelude NtpFloat NtpPhaselock.

#[local] Open Scope Z_scope.

Record ntptime : Type := Ntptime { coarse : Z; fine : Z }.   (* unsigned int *)
Record timeval : Type := Timeval { tv_sec : Z; tv_usec : Z }.   (* long *)
Definition text : Type := list ascii.

(** What the client does to the outside. *)
Inductive ntp_output : Type :=
  | Asks (server : text)   (* setup_transmit *)
  | Probe (bytes : list Z)   (* send *)
  | Clock_set (tv : timeval) (tz_minuteswest tz_dsttime : Z).   (* settimeofday *)

Record ntp_state : Type := NtpState {
  incoming : list Z;   (* char[1500] *)
  time_of_send : timeval;
  live : Z;
  set_clock : Z;
  debug : Z;
  n_pll : pll;   (* phaselock.c *)
  n_clock : Z;   (* the kernel's clock less the time since it started, in us *)
  n_calls : nat;   (* system calls so far *)
  n_out : list ntp_output   (* oldest first *)
}.
Definition set_incoming (x : list Z) (s : ntp_state) : ntp_state :=
  NtpState x (time_of_send s) (live s) (set_clock s) (debug s) (n_pll s) (n_clock s) (n_calls s) (n_out s).
Definition set_time_of_send (x : timeval) (s : ntp_state) : ntp_state :=
  NtpState (incoming s) x (live s) (set_clock s) (debug s) (n_pll s) (n_clock s) (n_calls s) (n_out s).
Definition set_live (x : Z) (s : ntp_state) : ntp_state :=
  NtpState (incoming s) (time_of_send s) x (set_clock s) (debug s) (n_pll s) (n_clock s) (n_calls s) (n_out s).
Definition set_set_clock (x : Z) (s : ntp_state) : ntp_state :=
  NtpState (incoming s) (time_of_send s) (live s) x (debug s) (n_pll s) (n_clock s) (n_calls s) (n_out s).
Definition set_debug (x : Z) (s : ntp_state) : ntp_state :=
  NtpState (incoming s) (time_of_send s) (live s) (set_clock s) x (n_pll s) (n_clock s) (n_calls s) (n_out s).
Definition set_n_pll (x : pll) (s : ntp_state) : ntp_state :=
  NtpState (incoming s) (time_of_send s) (live s) (set_clock s) (debug s) x (n_clock s) (n_calls s) (n_out s).
Definition set_n_clock (x : Z) (s : ntp_state) : ntp_state :=
  NtpState (incoming s) (time_of_send s) (live s) (set_clock s) (debug s) (n_pll s) x (n_calls s) (n_out s).
Definition set_n_calls (x : nat) (s : ntp_state) : ntp_state :=
  NtpState (incoming s) (time_of_send s) (live s) (set_clock s) (debug s) (n_pll s) (n_clock s) x (n_out s).
Definition set_n_out (x : list ntp_output) (s : ntp_state) : ntp_state :=
  NtpState (incoming s) (time_of_send s) (live s) (set_clock s) (debug s) (n_pll s) (n_clock s) (n_calls s) x.
Abbreviation NM := (M ntp_state).

(** ** The environment *)

(** select(): the time has passed, the socket is readable, or the call failed; the seconds
    that are left of the timeout, which Linux stores. *)
Inductive selected : Type := Expired | Readable (left : Z) | Failed (left : Z).
(** What sscanf reads of a line for the replay. *)
Record replay_line : Type := ReplayLine {
  r_day : Z; r_sec : float32; r_etime : float32; r_stime : float32; r_skew : double; r_disp : float32; r_freq : Z
}.

Class NtpEnv : Type := {
  (** microseconds since the kernel started, at a call *)
  nenv_elapsed : nat -> Z;
  (** settimeofday(), socket(), bind() and connect() succeed; fopen() of the pid file *)
  nenv_settime : nat -> bool;
  nenv_socket : nat -> bool;
  nenv_bind : nat -> bool;
  nenv_connect : nat -> bool;
  nenv_pidfile : nat -> bool;
  (** the address gethostbyname() finds *)
  nenv_host : nat -> text -> option (list Z);
  nenv_select : nat -> selected;
  (** the datagram recvfrom() delivers, or -1 *)
  nenv_recv : nat -> option (list Z);
  (** the configuration memory: nvram_safe_get() *)
  nenv_nvram : string -> text;
  (** atof() *)
  nenv_atof : text -> double;
  (** the value of (int)x beyond the range of int *)
  nenv_overflow : double -> Z;
  (** what save_min and save_max hold before they are assigned *)
  nenv_stack : nat -> seg * seg;
  (** the lines of standard input, None when sscanf does not read 7 values *)
  nenv_stdin : list (option replay_line)
}.

Section environment.
Context `{E : NtpEnv}.

(** A system call. *)
Definition nsys {A} (f : nat -> A) : NM A := n ← gets n_calls; modify (set_n_calls (S n));; mret (f n).
Definition ntp_out (o : ntp_output) : NM unit := l ← gets n_out; modify (set_n_out (l ++ [o])).
(** A computation of phaselock.c. *)
Definition in_pll {A} (m : PM A) : NM A := fun s =>
  match m (n_pll s) with
  | Ok a p => Ok a (set_n_pll p s)
  | Err f => Err f
  end.

Definition USEC_PER_SEC : Z := 1000000.
Definition to_timeval (us : Z) : timeval := Timeval (s32 (us / USEC_PER_SEC)) (us mod USEC_PER_SEC).
Definition gettimeofday : NM timeval :=
  e ← nsys nenv_elapsed; c ← gets n_clock; mret (to_timeval (c + e)).
(** The clock shows [tv] from now on. *)
Definition settimeofday (tv : timeval) (tz_minuteswest tz_dsttime : Z) : NM unit :=
  n ← gets n_calls;
  ok ← nsys nenv_settime;
  when ok (modify (set_n_clock (tv_sec tv * USEC_PER_SEC + tv_usec tv - nenv_elapsed n));;
           ntp_out (Clock_set tv tz_minuteswest tz_dsttime)).
End environment.

(** atoi(): blanks, a sign, digits; strtol() stops at the limits of a long. *)
Definition is_digit (c : ascii) : bool := let n := nat_of_ascii c in (48 <=? n)%nat && (n <=? 57)%nat.
Definition is_blank (c : ascii) : bool := let n := nat_of_ascii c in (n =? 32)%nat || ((9 <=? n)%nat && (n <=? 13)%nat).
Fixpoint digits (acc : Z) (s : text) : Z :=
  match s with
  | c :: s' => if is_digit c then digits (10 * acc + Z.of_nat (nat_of_ascii c) - 48) s' else acc
  | [] => acc
  end.
Fixpoint skip_blanks (s : text) : text :=
  match s with c :: s' => if is_blank c then skip_blanks s' else s | [] => [] end.
Definition atoi (s : text) : Z :=
  let s := skip_blanks s in
  let value :=
    match s with
    | c :: s' => if decide (c = "-"%char) then - digits 0 s' else if decide (c = "+"%char) then digits 0 s' else digits 0 s
    | [] => 0
    end in
  Z.max (-2147483648) (Z.min value 2147483647).
