(* ===== verification/NtpClient.v ===== *)
(** * NtpClient: the requests, the replies and the loop of the NTP client (Getntp.c)

    Fixed-point time, the request, the meaning of a reply, setting the clock, the
    loop that waits for replies, the replay, the options and the start. *)

From stdpp Require Import strings.
From Stdlib Require Import Ascii String.
From S2P Require Import Prelude NtpFloat NtpPhaselock NtpDaylight NtpTypes.

#[local] Open Scope Z_scope.

(** ** Time *)

Definition JAN_1970 : Z := 0x83aa7e80.
Definition NTP_PORT : Z := 123.
(** A long as argument. *)
Definition NTPFRAC (x : Z) : Z := s32 (s32 (4294 * x) + Z.shiftr (s32 (1981 * x)) 11).
(** An unsigned int as argument. *)
Definition USEC (x : Z) : Z :=
  u32 (Z.shiftr x 12 - u32 (759 * Z.shiftr (u32 (Z.shiftr x 10 + 32768)) 16)).
Definition sec2u (x : Z) : double := dmul (d_of_Z x) (ddiv (d_of_Z 1000000) (d_of_Z 65536)).

(** The variables a and b of ntpdiff: the difference is [a + b / 2 ^ 32] seconds. *)
Definition ntpdiff_parts (start stop : ntptime) : Z * Z :=
  let a := s32 (coarse stop - coarse start) in
  if fine start <=? fine stop then (a, fine stop - fine start)
  else (s32 (a - 1), u32 (Z.lnot (fine start - fine stop))).
Definition ntpdiff (start stop : ntptime) : double :=
  let '(a, b) := ntpdiff_parts start stop in
  dadd (dmul (d_of_Z a) (d_of_Z 1000000)) (dmul (d_of_Z b) (ddiv (d_of_Z 1000000) (d_of_Z 4294967296))).

Definition get_current_freq : Z := 0.

(** ** The request *)

Definition LI : Z := 0.
Definition VN : Z := 3.
Definition MODE : Z := 3.
Definition STRATUM : Z := 0.
Definition POLL : Z := 4.
Definition PREC : Z := -6.
Definition first_word : Z :=
  Z.lor (Z.lor (Z.lor (Z.lor (Z.lor (Z.shiftl LI 30) (Z.shiftl VN 27)) (Z.shiftl MODE 24)) (Z.shiftl STRATUM 16)) (Z.shiftl POLL 8))
    (Z.land PREC 0xff).
(** The 12 words of the request, in the order of the network. *)
Definition request (now : timeval) : list Z :=
  be32 first_word ++ be32 (Z.shiftl 1 16) ++ be32 (Z.shiftl 1 16) ++ replicate 28 0
  ++ be32 (u32 (tv_sec now + JAN_1970)) ++ be32 (u32 (NTPFRAC (tv_usec now))).

(** ** The reply *)

(** What rfc1305print reads of a packet. *)
Record ntp_packet : Type := NtpPacket {
  li : Z; vn : Z; mode : Z; stratum : Z; poll : Z; prec : Z;
  delay : Z; disp : Z; refid : Z;
  reftime : ntptime; orgtime : ntptime; rectime : ntptime; xmttime : ntptime
}.
Definition Data (i : nat) (data : list Z) : Z := of_be (take 4 (drop (4 * i) data)).
Definition read_packet (data : list Z) : ntp_packet :=
  let word := Data 0 data in
  let prec := Z.land word 0xff in
  NtpPacket (Z.land (Z.shiftr word 30) 0x03) (Z.land (Z.shiftr word 27) 0x07) (Z.land (Z.shiftr word 24) 0x07)
    (Z.land (Z.shiftr word 16) 0xff) (Z.land (Z.shiftr word 8) 0xff)
    (if negb (Z.land prec 0x80 =? 0) then s32 (Z.lor prec 0xffffff00) else prec)
    (s32 (Data 1 data)) (s32 (Data 2 data)) (s32 (Data 3 data))
    (Ntptime (Data 4 data) (Data 5 data)) (Ntptime (Data 6 data) (Data 7 data))
    (Ntptime (Data 8 data) (Data 9 data)) (Ntptime (Data 10 data) (Data 11 data)).

(** strchr(): what is before the first [c] and after it. *)
Fixpoint split_at (c : ascii) (s : text) : option (text * text) :=
  match s with
  | [] => None
  | x :: s' =>
      if decide (x = c) then Some ([], s')
      else match split_at c s' with Some (a, b) => Some (x :: a, b) | None => None end
  end.

Section client.
Context `{E : NtpEnv}.

Abbreviation to_int := (NtpPhaselock.to_int nenv_overflow).

Definition send_packet : NM unit :=
  now ← gettimeofday;
  ntp_out (Probe (request now));;
  modify (set_time_of_send now).

(** The hours that are added to the time, from the text after the index of the zone. *)
Definition minus_one : double := d_of_Z (-1).
Definition timezone_of (s : text) : float32 :=
  match split_at "+" s with
  | Some (_, cp) =>
      match split_at ":" cp with
      | Some (cp, cp2) =>
          f_of_d (dadd (dmul (nenv_atof cp) minus_one) (dmul (ddiv (nenv_atof cp2) (d_of_Z 60)) minus_one))
      | None => f_of_d (dmul (nenv_atof cp) minus_one)
      end
  | None =>
      match split_at "-" s with
      | Some (_, cp) =>
          match split_at ":" cp with
          | Some (cp, cp2) => f_of_d (dadd (nenv_atof cp) (ddiv (nenv_atof cp2) (d_of_Z 60)))
          | None => f_of_d (nenv_atof cp)
          end
      | None => f_of_Z 0
      end
  end.
(** strcpy() into an array of [n] characters. *)
Definition strcpy (n : nat) (s : text) : NM text := in_bounds (if decide (length s < n)%nat then Some s else None).

(** The branch of rfc1305print that sets the clock. *)
Definition new_time (xmt : ntptime) (timezone : float32) : timeval :=
  Timeval (s32 (u32 (coarse xmt + to_int (fmul (f_of_Z 3600) timezone) - JAN_1970))) (s32 (USEC (fine xmt))).
Definition set_the_clock (xmt : ntptime) (timezone : float32) (autodayli : Z) : NM unit :=
  let tv_set := new_time xmt timezone in
  let tz_minuteswest := to_int (fmul (f_of_Z 60) timezone) in
  if autodayli =? 1 then
    dst ← autodaylightsave (atoi (nenv_nvram "timezone_index")) (tv_sec tv_set);
    if negb (dst =? 0) then settimeofday (Timeval (s32 (tv_sec tv_set + 3600)) (tv_usec tv_set)) tz_minuteswest 1
    else settimeofday tv_set tz_minuteswest 0
  else settimeofday tv_set tz_minuteswest 0.

Definition half_of (x : double) : double := ddiv x (d_of_Z 2).
Definition rfc1305print (data : list Z) (arrival : ntptime) : NM unit :=
  let p := read_packet data in
  strrcv ← strcpy 64 (nenv_nvram "timezone_diff");
  let timezone := timezone_of strrcv in
  strrcv ← strcpy 64 (nenv_nvram "timezone_daylightsaving");
  let autodayli := atoi strrcv in
  sc ← gets set_clock;
  when (negb (sc =? 0)) (set_the_clock (xmttime p) timezone autodayli);;
  let etime := ntpdiff (orgtime p) arrival in
  let skew1 := ntpdiff (orgtime p) (rectime p) in
  let skew2 := ntpdiff (xmttime p) arrival in
  l ← gets live;
  when (negb (l =? 0))
    (n ← gets n_calls;
     d ← gets debug;
     let '(stack_min, stack_max) := nenv_stack n in
     new_freq ← in_pll (contemplate_data nenv_overflow (negb (d =? 0)) stack_min stack_max (coarse arrival)
                          (half_of (dsub skew1 skew2)) (dadd etime (sec2u (disp p))) get_current_freq);
     mret tt).

Definition udp_handle : NM unit :=
  arrival ← gettimeofday;
  data ← gets incoming;
  rfc1305print data (Ntptime (u32 (tv_sec arrival + JAN_1970)) (u32 (NTPFRAC (tv_usec arrival)))).

(** ** The loop *)

(** recvfrom() into [incoming], and the packet. *)
Definition receive : NM unit :=
  r ← nsys nenv_recv;
  match r with
  | None => mret tt
  | Some bytes =>
      let bytes := take 1500 bytes in
      buf ← gets incoming;
      modify (set_incoming (bytes ++ drop (length bytes) buf));;
      when ((0 <? length bytes)%nat && (length bytes <? 1500)%nat) udp_handle
  end.
(** One turn: [to] is [to.tv_sec]; [None] is break. *)
Definition enough (num_probes probes_sent : Z) : bool := (num_probes <=? probes_sent) && negb (num_probes =? 0).
Definition primary_turn (num_probes interval to probes_sent : Z) : NM (option (Z * Z)) :=
  sel ← nsys nenv_select;
  match sel with
  | Readable seconds =>
      receive;;
      mret (if enough num_probes probes_sent then None else Some (seconds, probes_sent))
  | Expired | Failed _ =>
      let to := match sel with Failed seconds => seconds | _ => 0 end in
      if to =? 0 then
        if enough num_probes probes_sent then mret None
        else send_packet;; mret (Some (interval, s32 (probes_sent + 1)))
      else mret (Some (to, probes_sent))
  end.
Fixpoint primary_loop (fuel : nat) (num_probes interval to probes_sent : Z) : NM unit :=
  match fuel with
  | O => fail Out_of_fuel
  | S fuel' =>
      r ← primary_turn num_probes interval to probes_sent;
      match r with
      | None => mret tt
      | Some (to, probes_sent) => primary_loop fuel' num_probes interval to probes_sent
      end
  end.

(** ** The replay of recorded measurements *)

Fixpoint do_replay (lines : list (option replay_line)) (simulated_freq last_fake_time : Z) (fake_delta_time : double) : NM unit :=
  match lines with
  | [] => mret tt
  | None :: _ => fail Died
  | Some r :: lines' =>
      let absolute := s32 (s32 ((r_day r - 15020) * 86400) + to_int (r_sec r)) in
      let errorbar := d_of_f (fadd (r_etime r) (r_disp r)) in
      let simulated_freq := if last_fake_time =? 0 then r_freq r else simulated_freq in
      let fake_delta_time := dadd fake_delta_time
        (ddiv (dmul (d_of_Z (u32 (absolute - last_fake_time))) (d_of_Z (s32 (r_freq r - simulated_freq)))) (d_of_Z 65536)) in
      let skew := dadd (r_skew r) fake_delta_time in
      n ← gets n_calls;
      d ← gets debug;
      let '(stack_min, stack_max) := nenv_stack n in
      new_freq ← in_pll (contemplate_data nenv_overflow (negb (d =? 0)) stack_min stack_max (u32 absolute) skew errorbar simulated_freq);
      do_replay lines' new_freq (u32 absolute) fake_delta_time
  end.

(** ** The options *)

(** getopt() with ["c:dh:i:lp:rs"]: the options of a list of words with their
    arguments; words that are no options are passed over, ["--"] ends the options, and
    ["?"] stands for an option that is unknown or lacks its argument. *)
Definition takes_argument (c : ascii) : bool := existsb (Ascii.eqb c) ["c"; "h"; "i"; "p"]%char.
Definition is_flag (c : ascii) : bool := existsb (Ascii.eqb c) ["d"; "l"; "r"; "s"]%char.
Fixpoint cluster (cs : text) (rest : list text) : list (ascii * text) * list text :=
  match cs with
  | [] => ([], rest)
  | c :: cs' =>
      if takes_argument c then
        match cs', rest with
        | [], [] => ([("?"%char, [])], [])
        | [], arg :: rest' => ([(c, arg)], rest')
        | _, _ => ([(c, cs')], rest)
        end
      else
        let '(o, rest') := cluster cs' rest in ((if is_flag c then c else "?"%char, []) :: o, rest')
  end.
Fixpoint getopt (fuel : nat) (words : list text) : list (ascii * text) :=
  match fuel, words with
  | S fuel', word :: rest =>
      match word with
      | c :: _ :: _ =>
          if decide (word = ["-"; "-"]%char) then []
          else if decide (c = "-"%char) then let '(o, rest') := cluster (tail word) rest in o ++ getopt fuel' rest'
          else getopt fuel' rest
      | _ => getopt fuel' rest
      end
  | _, _ => []
  end.

Record ntp_config : Type := NtpConfig {
  udp_local_port : Z; cycle_time : Z; probe_count : Z; hostname : option text; replay : Z
}.
Definition default_config : ntp_config := NtpConfig 0 600 0 None 0.
(** The switch over the options; [None] is return. *)
Fixpoint apply_options (options : list (ascii * text)) (c : ntp_config) : NM (option ntp_config) :=
  match options with
  | [] => mret (Some c)
  | (o, arg) :: options' =>
      if decide (o = "c"%char) then
        apply_options options' (NtpConfig (udp_local_port c) (cycle_time c) (atoi arg) (hostname c) (replay c))
      else if decide (o = "d"%char) then
        d ← gets debug; modify (set_debug (s32 (d + 1)));; apply_options options' c
      else if decide (o = "h"%char) then
        apply_options options' (NtpConfig (udp_local_port c) (cycle_time c) (probe_count c) (Some arg) (replay c))
      else if decide (o = "i"%char) then
        apply_options options' (NtpConfig (udp_local_port c) (atoi arg) (probe_count c) (hostname c) (replay c))
      else if decide (o = "l"%char) then
        l ← gets live; modify (set_live (s32 (l + 1)));; apply_options options' c
      else if decide (o = "p"%char) then
        apply_options options' (NtpConfig ((atoi arg + 2 ^ 15) mod 2 ^ 16 - 2 ^ 15) (cycle_time c) (probe_count c) (hostname c) (replay c))
      else if decide (o = "r"%char) then
        apply_options options' (NtpConfig (udp_local_port c) (cycle_time c) (probe_count c) (hostname c) (s32 (replay c + 1)))
      else if decide (o = "s"%char) then
        sc ← gets set_clock; modify (set_set_clock (s32 (sc + 1)));;
        apply_options options' (NtpConfig (udp_local_port c) (cycle_time c) 1 (hostname c) (replay c))
      else mret None
  end.

(** ** The start *)

Definition stuff_net_addr (host : text) : NM (list Z) :=
  h ← nsys (fun n => nenv_host n host);
  match h with
  | None => fail Died
  | Some addr => if decide (length addr = 4%nat) then mret addr else fail Died
  end.
Definition setup_receive : NM unit := ok ← nsys nenv_bind; if (ok : bool) then mret tt else fail Died.
Definition setup_transmit (host : text) : NM unit :=
  ntp_out (Asks host);;
  _ ← stuff_net_addr host;
  _ ← nsys nenv_connect;
  mret tt.
Definition getntp_main (fuel : nat) (args : list text) : NM Z :=
  opened ← nsys nenv_pidfile;
  deref (if (opened : bool) then Some tt else None);;
  c ← apply_options (getopt (length args) args) default_config;
  match c with
  | None => mret 0
  | Some c =>
      if negb (replay c =? 0) then do_replay nenv_stdin 0 0 (d_of_Z 0);; fail Died
      else
        match hostname c with
        | None => mret 0
        | Some host =>
            opened ← nsys nenv_socket;
            if negb (opened : bool) then fail Died
            else
              setup_receive;;
              setup_transmit host;;
              primary_loop fuel (probe_count c) (cycle_time c) 0 0;;
              mret 0
        end
  end.
End client.
