(* ===== verification/NtpMain.v ===== *)
(** * NtpMain: the control program of the NTP client (exeNtp.c)

    The list of servers, the call of the client for each of them, and the test that
    ends it. *)

From stdpp Require Import strings.
From Stdlib Require Import Ascii String.
From S2P Require Import Prelude NtpFloat NtpPhaselock NtpDaylight NtpTypes NtpClient.

#[local] Open Scope Z_scope.

Definition chars (s : string) : text := list_ascii_of_string s.
Definition T_ZONE : Z := 8.
Definition time_server : list text := chars <$>
  ["192.53.103.104"; "129.69.1.153"; "216.152.68.16"; "204.123.2.5"; "128.118.46.3"; "129.6.15.29"; "133.100.9.2";
   "207.200.81.113"; "209.81.9.7"; "143.232.55.5"; "128.250.36.2"; "204.123.2.5"; "137.92.140.80"; "128.250.36.3";
   "200.19.119.69"; "142.3.100.2"; "136.159.2.254"; "128.233.3.100"; "128.233.3.101"; "193.5.216.14"; "129.132.2.21";
   "146.83.8.200"; "200.68.60.246"; "195.113.144.201"; "131.188.3.220"; "131.188.3.221"; "131.188.3.222";
   "131.188.3.223"; "130.149.17.21"; "130.149.17.8"; "192.53.103.103"; "212.242.86.186"; "192.38.7.240"]%string.
(** gargv after the name of the program. *)
Definition gargv (host : text) : list text := [chars "-h"; host; chars "-s"; chars "-i"; chars "3"].

Section main.
Context `{E : NtpEnv}.

Definition check_time : NM bool :=
  curtime ← gettimeofday;
  mret (negb (tm_year (gmtime (s32 (tv_sec curtime + 3600 * T_ZONE))) + 1900 =? 1970)).

(** A configured server: [other] is the variable for a server that is not in the list. *)
Definition configured_server (fuel : nat) (name : string) (other : option string) : NM unit :=
  let server := nenv_nvram name in
  if decide (server = []) then mret tt
  else
    let host := match other with
                | Some o => if decide (server = chars "Other") then nenv_nvram o else server
                | None => server
                end in
    _ ← getntp_main fuel (gargv host); mret tt.
(** The part under NTP_WITH_DEFAULT_SERVER. *)
Definition default_servers (fuel : nat) : NM unit :=
  configured_server fuel "ntp_server1" (Some "ntp_server_other1"%string);;
  configured_server fuel "ntp_server2" (Some "ntp_server_other2"%string);;
  configured_server fuel "ntp_server3" None.
(** for (i = 0; time_server[i] != NULL; i++) *)
Fixpoint try_servers (fuel : nat) (servers : list text) : NM unit :=
  match servers with
  | [] => mret tt
  | host :: servers' =>
      _ ← getntp_main fuel (gargv host);
      done ← check_time;
      if (done : bool) then mret tt else try_servers fuel servers'
  end.
Definition exe_main (with_default_server : bool) (fuel : nat) : NM Z :=
  when with_default_server (default_servers fuel);;
  try_servers fuel time_server;;
  mret 0.
End main.
