(* ===== verification/NtpProofs.v ===== *)
(** * NtpProofs: time, the request and the loop of the NTP client *)

From stdpp Require Import strings.
From Stdlib Require Import Ascii String.
From S2P Require Import Prelude NtpFloat NtpPhaselock NtpPhaselockSpec NtpPhaselockProofs NtpDaylight NtpTypes NtpClient.

#[local] Open Scope Z_scope.

(** ** Time *)

Lemma ntpfrac_value us : 0 <= us < 1000000 -> u32 (NTPFRAC us) = 4294 * us + 1981 * us / 2048.
Proof.
  intros H. unfold NTPFRAC. rewrite (s32_small (1981 * us)) by lia. rewrite Z.shiftr_div_pow2 by lia. change (2 ^ 11) with 2048.
  unfold u32, s32. change (2 ^ 32) with 4294967296. change (2 ^ 31) with 2147483648.
  Z.div_mod_to_equations. lia.
Qed.
Lemma usec_value x : 0 <= x < 4294967296 -> USEC x = x / 4096 - 759 * ((x / 1024 + 32768) / 65536).
Proof.
  intros H. unfold USEC. rewrite !Z.shiftr_div_pow2 by lia. change (2 ^ 12) with 4096. change (2 ^ 10) with 1024. change (2 ^ 16) with 65536.
  rewrite (u32_small (x / 1024 + 32768)) by (Z.div_mod_to_equations; lia).
  rewrite (u32_small (759 * _)) by (Z.div_mod_to_equations; lia). apply u32_small. Z.div_mod_to_equations. lia.
Qed.

(** The two conversions between microseconds and fractions of [2 ^ 32]: a fraction
    gives microseconds below one million, which differ from the exact value by at most
    381 (the comment in the source calls them exact), and microseconds come back from
    their fraction within 380. *)
Theorem fraction_roundtrip x us :
  0 <= x < 4294967296 -> 0 <= us < 1000000 ->
  (0 <= USEC x < 1000000 /\ Z.abs (4294967296 * USEC x - 1000000 * x) <= 381 * 4294967296)
  /\ Z.abs (USEC (u32 (NTPFRAC us)) - us) <= 380.
Proof.
  intros Hx Hus. rewrite ntpfrac_value, !usec_value by (Z.div_mod_to_equations; lia).
  split; [split|]; Z.div_mod_to_equations; lia.
Qed.

Definition ntptime_ok (t : ntptime) : Prop := 0 <= coarse t < 2 ^ 32 /\ 0 <= fine t < 2 ^ 32.
(** The time in units of [2 ^ -32] seconds. *)
Definition units (t : ntptime) : Z := coarse t * 2 ^ 32 + fine t.

(** The difference of two times less than [2 ^ 31] seconds apart is exact, but one
    unit too small when the fraction borrows. *)
Lemma ntpdiff_exact start stop :
  ntptime_ok start -> ntptime_ok stop -> - 2 ^ 63 + 2 ^ 32 <= units stop - units start < 2 ^ 63 - 2 ^ 32 ->
  let '(a, b) := ntpdiff_parts start stop in
  0 <= b < 2 ^ 32 /\ a * 2 ^ 32 + b = units stop - units start - (if fine start <=? fine stop then 0 else 1).
Proof.
  intros [Hc Hf] [Hc' Hf'] Hd. unfold ntpdiff_parts, units in *.
  destruct (Z.leb_spec (fine start) (fine stop)).
  - rewrite s32_small by lia. lia.
  - rewrite (s32_small (coarse stop - coarse start)) by lia. rewrite s32_small by lia.
    assert (Hb : u32 (Z.lnot (fine start - fine stop)) = 2 ^ 32 - 1 - (fine start - fine stop)).
    { unfold Z.lnot, u32. replace (Z.pred (- (fine start - fine stop))) with (2 ^ 32 - 1 - (fine start - fine stop) + (-1) * 2 ^ 32) by lia.
      rewrite Z.mod_add by lia. apply Z.mod_small. lia. }
    rewrite Hb. lia.
Qed.

(** ** The request *)

Lemma be32_length z : length (be32 z) = 4%nat.
Proof. done. Qed.
Lemma request_length now : length (request now) = 48%nat.
Proof. done. Qed.

(** The request, as a packet of the protocol. *)
Lemma request_read now rest :
  read_packet (request now ++ rest)
  = NtpPacket 0 3 3 0 4 (-6) 65536 65536 0 (Ntptime 0 0) (Ntptime 0 0) (Ntptime 0 0)
      (Ntptime (u32 (tv_sec now + JAN_1970)) (u32 (NTPFRAC (tv_usec now)))).
Proof.
  unfold request. set (c := tv_sec now + JAN_1970). set (f := NTPFRAC (tv_usec now)).
  unfold read_packet, Data.
  assert (H10 : take 4 (drop (4 * 10) ((be32 first_word ++ be32 (1 ≪ 16) ++ be32 (1 ≪ 16) ++ replicate 28 0 ++ be32 (u32 c) ++ be32 (u32 f)) ++ rest)) = be32 (u32 c)) by reflexivity.
  assert (H11 : take 4 (drop (4 * 11) ((be32 first_word ++ be32 (1 ≪ 16) ++ be32 (1 ≪ 16) ++ replicate 28 0 ++ be32 (u32 c) ++ be32 (u32 f)) ++ rest)) = be32 (u32 f)) by reflexivity.
  rewrite H10, H11, !of_be32. 
  assert (Hu : forall z, u32 (u32 z) = u32 z) by (intros z; apply u32_small, u32_range). rewrite !Hu. reflexivity.
Qed.

(** ** What has been done *)

Definition probes_of (l : list ntp_output) : list (list Z) := omap (fun o => match o with Probe b => Some b | _ => None end) l.
Definition asked_of (l : list ntp_output) : list text := omap (fun o => match o with Asks h => Some h | _ => None end) l.
Definition sent_probes (s : ntp_state) : Z := Z.of_nat (length (probes_of (n_out s))).

Record ntp_ok (s : ntp_state) : Prop := {
  no_incoming : length (incoming s) = 1500%nat;
  no_pll : exists hist, remembers hist (n_pll s)
}.
(** The run went on: the state is as it should be, and the output holds [new] more. *)
Record went_on (s s' : ntp_state) (new : list ntp_output) : Prop := {
  wo_ok : ntp_ok s -> ntp_ok s';
  wo_calls : (n_calls s <= n_calls s')%nat;
  wo_out : n_out s' = n_out s ++ new
}.
Lemma went_on_refl s : went_on s s [].
Proof. split; [done|done|by rewrite app_nil_r]. Qed.
Lemma went_on_trans s s1 s2 l1 l2 : went_on s s1 l1 -> went_on s1 s2 l2 -> went_on s s2 (l1 ++ l2).
Proof. intros [H1 H2 H3] [H1' H2' H3']. split; [auto|lia|]. by rewrite H3', H3, app_assoc. Qed.

Section client_proofs.
Context `{E : NtpEnv}.
(** The texts of the configuration memory fit into the arrays of rfc1305print. *)
Context (Hzone : (length (nenv_nvram "timezone_diff") < 64)%nat) (Hsaving : (length (nenv_nvram "timezone_daylightsaving") < 64)%nat).

Lemma nsys_run {A} (f : nat -> A) s : nsys f s = Ok (f (n_calls s)) (set_n_calls (S (n_calls s)) s).
Proof. done. Qed.
Lemma out_run o s : ntp_out o s = Ok tt (set_n_out (n_out s ++ [o]) s).
Proof. done. Qed.
Lemma gettimeofday_run s :
  gettimeofday s = Ok (to_timeval (n_clock s + nenv_elapsed (n_calls s))) (set_n_calls (S (n_calls s)) s).
Proof. done. Qed.
Lemma strcpy_run n t s : (length t < n)%nat -> strcpy n t s = Ok t s.
Proof. intros H. unfold strcpy. apply in_bounds_run. by rewrite decide_True. Qed.

Lemma settimeofday_run tv west dst s : exists s', settimeofday tv west dst s = Ok tt s' /\ n_pll s' = n_pll s /\ incoming s' = incoming s
  /\ n_calls s' = S (n_calls s) /\ exists new, n_out s' = n_out s ++ new /\ probes_of new = [] /\ asked_of new = [].
Proof.
  unfold settimeofday. destruct (nenv_settime (n_calls s)) eqn:Hok.
  - eexists. split; [eapply run_bind; [apply gets_run|]; eapply run_bind; [apply nsys_run|]; rewrite Hok; reflexivity|].
    split; [done|]. split; [done|]. split; [done|]. by exists [Clock_set tv west dst].
  - eexists. split; [eapply run_bind; [apply gets_run|]; eapply run_bind; [apply nsys_run|]; rewrite Hok; reflexivity|].
    split; [done|]. split; [done|]. split; [done|]. exists []. by rewrite app_nil_r.
Qed.

(** The clock is set, or left alone. *)
Lemma set_the_clock_went xmt tz auto s : exists s', set_the_clock xmt tz auto s = Ok tt s'
  /\ exists new, went_on s s' new /\ probes_of new = [] /\ asked_of new = [].
Proof.
  assert (Hset : forall tv west dst, exists s', settimeofday tv west dst s = Ok tt s' /\ exists new, went_on s s' new /\ probes_of new = [] /\ asked_of new = []).
  { intros tv west dst. destruct (settimeofday_run tv west dst s) as (s' & Hrun & Hp & Hi & Hc & new & Ho & Hnp & Hna).
    exists s'. split; [done|]. exists new. split; [|done]. split; [|lia|done]. intros [H1 H2]. split; [by rewrite Hi|by rewrite Hp]. }
  unfold set_the_clock. destruct (auto =? 1); [|apply Hset].
  destruct (Hset (new_time xmt tz) (NtpPhaselock.to_int nenv_overflow (fmul (f_of_Z 60) tz)) 0) as (s0 & Hrun0 & Hw0).
  destruct (Hset (Timeval (s32 (tv_sec (new_time xmt tz) + 3600)) (tv_usec (new_time xmt tz)))
    (NtpPhaselock.to_int nenv_overflow (fmul (f_of_Z 60) tz)) 1) as (s1 & Hrun1 & Hw1).
  destruct (saving (rule_of (nationselect (atoi (nenv_nvram "timezone_index")))) (tv_sec (new_time xmt tz) / 86400)) eqn:Hs;
    [exists s1|exists s0]; (split; [|done]); (eapply run_bind; [apply autodaylightsave_run|]); rewrite Hs; done.
Qed.

Lemma rfc1305print_went data arrival s : ntp_ok s -> exists s', rfc1305print data arrival s = Ok tt s'
  /\ exists new, went_on s s' new /\ probes_of new = [] /\ asked_of new = [].
Proof.
  intros Hs. set (p := read_packet data). set (tz := timezone_of (nenv_nvram "timezone_diff")).
  set (auto := atoi (nenv_nvram "timezone_daylightsaving")).
  assert (Hclock : exists s1, when (negb (set_clock s =? 0)) (set_the_clock (xmttime p) tz auto) s = Ok tt s1
    /\ exists new, went_on s s1 new /\ probes_of new = [] /\ asked_of new = []).
  { destruct (set_clock s =? 0); cbn [negb when]; [|apply set_the_clock_went]. exists s. split; [done|]. exists []. split; [apply went_on_refl|done]. }
  destruct Hclock as (s1 & Hrun1 & new & Hw & Hnp & Hna). pose proof (wo_ok _ _ _ Hw Hs) as [Hi1 [hist Hrem]].
  destruct (nenv_stack (n_calls s1)) as [ga gb] eqn:Hst.
  destruct (contemplate_run nenv_overflow (negb (debug s1 =? 0)) ga gb (coarse arrival)
    (half_of (dsub (ntpdiff (orgtime p) (rectime p)) (ntpdiff (xmttime p) arrival)))
    (dadd (ntpdiff (orgtime p) arrival) (sec2u (disp p))) get_current_freq hist (n_pll s1) Hrem) as (q & Hrun & Hremq).
  set (s2 := if live s1 =? 0 then s1 else set_n_pll q s1). exists s2. split.
  - unfold rfc1305print. eapply run_bind; [by apply strcpy_run|]. eapply run_bind; [by apply strcpy_run|].
    eapply run_bind; [apply gets_run|]. eapply run_bind; [exact Hrun1|]. cbv zeta. eapply run_bind; [apply gets_run|]. unfold s2.
    destruct (live s1 =? 0); [done|]. cbn [negb when]. eapply run_bind; [apply gets_run|]. eapply run_bind; [apply gets_run|]. rewrite Hst.
    eapply run_bind; [|reflexivity]. unfold in_pll. fold p. by rewrite Hrun.
  - exists new. split; [|done]. destruct Hw as [H1 H2 H3]. unfold s2. destruct (live s1 =? 0); split; try done.
    intros _. split; [done|by eexists].
Qed.

Lemma receive_went s : ntp_ok s -> exists s', receive s = Ok tt s' /\ (n_calls s < n_calls s')%nat
  /\ exists new, went_on s s' new /\ probes_of new = [] /\ asked_of new = [].
Proof.
  intros Hs. unfold receive. set (s1 := set_n_calls (S (n_calls s)) s).
  assert (Hw1 : went_on s s1 []) by (split; [by intros []|cbn; lia|by rewrite app_nil_r]).
  destruct (nenv_recv (n_calls s)) as [bytes|] eqn:Hr.
  2:{ exists s1. split; [eapply run_bind; [apply nsys_run|]; by rewrite Hr|]. split; [cbn; lia|]. by exists []. }
  set (b := take 1500 bytes). set (s2 := set_incoming (b ++ drop (length b) (incoming s)) s1).
  assert (Hok2 : ntp_ok s2).
  { destruct Hs as [Hi Hp]. split; [|done]. cbn. rewrite length_app, length_drop, Hi. unfold b. rewrite length_take. lia. }
  assert (Hgo : forall P : res ntp_state unit -> Prop, P (when ((0 <? length b)%nat && (length b <? 1500)%nat) udp_handle s2) ->
    P ((r ← nsys nenv_recv; match r with
        | None => mret tt
        | Some bytes => let bytes := take 1500 bytes in
            buf ← gets incoming; modify (set_incoming (bytes ++ drop (length bytes) buf));;
            when ((0 <? length bytes)%nat && (length bytes <? 1500)%nat) udp_handle end) s)).
  { intros P HP. eapply run_bind; [apply nsys_run|]. rewrite Hr. cbv zeta. eapply run_bind; [apply gets_run|].
    eapply run_bind; [reflexivity|]. exact HP. }
  destruct (_ && _) in Hgo.
  - set (s3 := set_n_calls (S (n_calls s2)) s2). set (tv := to_timeval (n_clock s2 + nenv_elapsed (n_calls s2))).
    destruct (rfc1305print_went (incoming s3) (Ntptime (u32 (tv_sec tv + JAN_1970)) (u32 (NTPFRAC (tv_usec tv)))) s3) as (s4 & Hrun & new & Hw & Hnp & Hna).
    { by destruct Hok2. }
    exists s4. split; [|split; [|exists new; split; [|done]]].
    + apply (Hgo (fun r => r = _)). cbn [when]. unfold udp_handle. eapply run_bind; [apply gettimeofday_run|]. eapply run_bind; [apply gets_run|]. exact Hrun.
    + destruct Hw as [_ Hc _]. cbn in Hc. lia.
    + destruct Hw as [Hw Hc Ho]. split; [intros _; apply Hw; by destruct Hok2|cbn in Hc; lia|exact Ho].
  - exists s2. split; [by apply (Hgo (fun r => r = _))|]. split; [cbn; lia|]. exists []. split; [|done].
    split; [done|cbn; lia|by rewrite app_nil_r].
Qed.

Lemma send_packet_went s : exists s' b, send_packet s = Ok tt s' /\ went_on s s' [Probe b] /\ n_clock s' = n_clock s.
Proof.
  eexists _, (request (to_timeval (n_clock s + nenv_elapsed (n_calls s)))).
  split; [unfold send_packet; eapply run_bind; [apply gettimeofday_run|]; eapply run_bind; [apply out_run|]; reflexivity|].
  split; [split; [by intros []|cbn; lia|done]|done].
Qed.

(** What a turn does: it ends the loop, waits on, or sends a probe. *)
Definition turn_result (k sent : Z) (r : option (Z * Z)) (new : list ntp_output) : Prop :=
  match r with
  | None => enough k sent = true /\ probes_of new = []
  | Some (_, sent') => (sent' = sent /\ probes_of new = []) \/ (sent' = s32 (sent + 1) /\ enough k sent = false /\ length (probes_of new) = 1%nat)
  end.
Lemma primary_turn_went k interval to sent s : ntp_ok s ->
  exists r s' new, primary_turn k interval to sent s = Ok r s' /\ (n_calls s < n_calls s')%nat /\ went_on s s' new
    /\ asked_of new = [] /\ turn_result k sent r new
    /\ (nenv_select (n_calls s) = Expired -> n_clock s' = n_clock s
        /\ if enough k sent then r = None else r = Some (interval, s32 (sent + 1)) /\ length (probes_of new) = 1%nat).
Proof.
  intros Hs. set (s1 := set_n_calls (S (n_calls s)) s).
  assert (Hw1 : went_on s s1 []) by (split; [by intros []|cbn; lia|by rewrite app_nil_r]).
  assert (Hok1 : ntp_ok s1) by by apply Hw1.
  assert (Htimed : forall to', exists r s' new,
    (if to' =? 0 then if enough k sent then mret None else send_packet;; mret (Some (interval, s32 (sent + 1))) else mret (Some (to', sent))) s1
      = Ok r s' /\ went_on s s' new /\ (n_calls s < n_calls s')%nat /\ asked_of new = [] /\ turn_result k sent r new
      /\ n_clock s' = n_clock s /\ (to' = 0 -> if enough k sent then r = None else r = Some (interval, s32 (sent + 1)) /\ length (probes_of new) = 1%nat)).
  { intros to'. destruct (Z.eqb_spec to' 0) as [Hto|Hto]; [destruct (enough k sent) eqn:He|].
    - exists None, s1, []. split; [done|]. split; [done|]. split; [cbn; lia|]. split; [done|]. split; [by split|]. by split.
    - destruct (send_packet_went s1) as (s2 & b & Hrun & Hw & Hclk). exists (Some (interval, s32 (sent + 1))), s2, [Probe b].
      split; [by eapply run_bind; [exact Hrun|]|]. split; [by apply (went_on_trans s s1 s2 [])|].
      split; [destruct Hw as [_ Hc _]; cbn in Hc; lia|]. split; [done|]. split; [by right|]. by split.
    - exists (Some (to', sent)), s1, []. split; [done|]. split; [done|]. split; [cbn; lia|]. split; [done|]. split; [by left|]. by split. }
  unfold primary_turn. destruct (nenv_select (n_calls s)) as [|seconds|seconds] eqn:Hsel.
  - destruct (Htimed 0) as (r & s' & new & Hrun & Hw & Hc & Ha & Ht & Hclk & He). exists r, s', new.
    split; [eapply run_bind; [apply nsys_run|]; rewrite Hsel; exact Hrun|]. split; [done|]. split; [done|]. split; [done|].
    split; [done|]. intros _. split; [exact Hclk|by apply He].
  - destruct (receive_went s1 Hok1) as (s2 & Hrun & Hc & new & Hw & Hnp & Hna).
    eexists _, s2, new. split; [eapply run_bind; [apply nsys_run|]; rewrite Hsel; eapply run_bind; [exact Hrun|]; reflexivity|].
    split; [cbn in Hc; lia|]. split; [by apply (went_on_trans s s1 s2 [])|]. split; [done|]. split; [|done].
    destruct (enough k sent) eqn:He; [by split|by left].
  - destruct (Htimed seconds) as (r & s' & new & Hrun & Hw & Hc & Ha & Ht & _ & _). exists r, s', new.
    split; [eapply run_bind; [apply nsys_run|]; rewrite Hsel; exact Hrun|]. split; [done|]. split; [done|]. split; [done|].
    split; [done|done].
Qed.

Lemma enough_spec k sent : 0 < k -> enough k sent = true <-> k <= sent.
Proof. intros Hk. unfold enough. rewrite andb_true_iff, Z.leb_le, negb_true_iff, Z.eqb_neq. lia. Qed.

(** From the system call [quiet] on, nothing arrives and nothing interrupts. *)
Definition silent_from (quiet : nat) : Prop := forall n, (quiet <= n)%nat -> nenv_select n = Expired.

Lemma primary_loop_went k interval quiet fuel : 0 < k < 2 ^ 31 -> silent_from quiet ->
  forall to sent s, ntp_ok s -> 0 <= sent <= k -> (quiet - n_calls s + Z.to_nat (k - sent) < fuel)%nat ->
  exists s' new, primary_loop fuel k interval to sent s = Ok tt s' /\ went_on s s' new /\ asked_of new = []
    /\ Z.of_nat (length (probes_of new)) <= k - sent
    /\ ((quiet <= n_calls s)%nat -> Z.of_nat (length (probes_of new)) = k - sent /\ n_clock s' = n_clock s).
Proof.
  intros Hk Hq. induction fuel as [|fuel IH]; intros to sent s Hs Hsent Hf; [lia|].
  destruct (primary_turn_went k interval to sent s Hs) as (r & s1 & new & Hrun & Hc & Hw & Ha & Ht & He).
  assert (Hok1 : ntp_ok s1) by by apply Hw. cbn [primary_loop].
  destruct r as [[to' sent']|].
  - assert (Hs' : 0 <= sent' <= k /\ sent' = sent + Z.of_nat (length (probes_of new))).
    { destruct Ht as [[-> ->]|(-> & Hen & Hl)]; [simpl; lia|]. apply not_true_iff_false in Hen. rewrite enough_spec in Hen by lia.
      rewrite s32_small by lia. lia. }
    assert (Hprogress : (quiet <= n_calls s)%nat -> sent' = sent + 1).
    { intros Hqs. destruct (He (Hq _ Hqs)) as [_ He']. destruct (enough k sent); [done|]. destruct He' as [_ He']. lia. }
    destruct (IH to' sent' s1 Hok1) as (s2 & new2 & Hrun2 & Hw2 & Ha2 & Hn2 & Hn2'); [lia|lia|].
    exists s2, (new ++ new2). split; [eapply run_bind; [exact Hrun|exact Hrun2]|]. split; [by eapply went_on_trans|].
    unfold asked_of, probes_of in *. rewrite !omap_app, Ha, Ha2, length_app. split; [done|]. split; [lia|]. intros Hqs. destruct Hn2' as [Hn2' Hclk]; [lia|]. rewrite Nat2Z.inj_add, Hn2', Hclk.
    split; [specialize (Hprogress Hqs); lia|]. by apply He, Hq.
  - destruct Ht as [Hen Hp]. apply enough_spec in Hen; [|lia]. exists s1, new. split; [eapply run_bind; [exact Hrun|done]|].
    split; [done|]. split; [done|]. rewrite Hp. split; [simpl; lia|]. intros Hqs. split; [simpl; lia|]. by apply He, Hq.
Qed.

(** C25. The loop of the client ends. The nvram texts [timezone_diff] and
    [timezone_daylightsaving] have fewer than 64 bytes each (a longer one overflows the
    buffers it is copied to), and the network is silent from some system call on: then
    the loop started for [k] probes returns, without a fault in any reply that it handles,
    after at most [k] probes, and after exactly [k] when it is silent from the start. The
    fuel is one turn per call before the silence and per probe, and two more. *)
Theorem primary_loop_ends k interval quiet s :
  0 < k < 2 ^ 31 -> silent_from quiet -> ntp_ok s ->
  exists s' new, primary_loop (quiet + Z.to_nat k + 2) k interval 0 0 s = Ok tt s' /\ ntp_ok s' /\ n_out s' = n_out s ++ new
    /\ Z.of_nat (length (probes_of new)) <= k /\ ((quiet <= n_calls s)%nat -> Z.of_nat (length (probes_of new)) = k).
Proof.
  intros Hk Hq Hs. destruct (primary_loop_went k interval quiet (quiet + Z.to_nat k + 2) Hk Hq 0 0 s Hs) as (s' & new & Hrun & Hw & _ & Hn & Hn'); [lia|lia|].
  exists s', new. split; [exact Hrun|]. destruct Hw as [Hok _ Ho]. split; [auto|]. split; [done|]. rewrite Z.sub_0_r in *. split; [done|]. intros H. by apply Hn'.
Qed.
End client_proofs.
