(* ===== verification/NtpResults.v ===== *)
(** * NtpResults: the client sets the clock, and the control program ends

    A server that answers sets the clock to the local time of the zone; the control
    program asks the servers in their order until the clock has left 1970. *)

From stdpp Require Import strings.
From Stdlib Require Import Ascii String.
From S2P Require Import Prelude NtpFloat NtpPhaselock NtpPhaselockSpec NtpPhaselockProofs NtpDaylight NtpTypes NtpClient NtpMain NtpProofs.

#[local] Open Scope Z_scope.

(** ** The zone *)

Definition digit (n : Z) : ascii := ascii_of_nat (Z.to_nat (48 + n)).
Definition two_digits (n : Z) : text := [digit (n / 10); digit (n mod 10)].
(** The value of timezone_diff: the index of the zone, a sign and the hours and minutes
    that local time is behind ([+]) or ahead ([-]) of the time of the servers. *)
Definition zone_text (index : text) (behind : bool) (h m : Z) : text :=
  index ++ (if behind then "+" else "-")%char :: two_digits h ++ ":"%char :: two_digits m.
Definition zone_seconds (behind : bool) (h m : Z) : Z := (if behind then -1 else 1) * (3600 * h + 60 * m).
Definition quarter (m : Z) : Prop := m = 0 \/ m = 15 \/ m = 30 \/ m = 45.

Lemma split_at_skip c index s : Forall (fun x => x <> c) index ->
  split_at c (index ++ s) = match split_at c s with Some (a, b) => Some (index ++ a, b) | None => None end.
Proof.
  induction 1 as [|x index Hx _ IH]; cbn [app split_at]; [by destruct (split_at c s) as [[]|]|].
  rewrite decide_False by done. rewrite IH. by destruct (split_at c s) as [[]|].
Qed.

(** atof() reads a number of two digits. *)
Definition atof_reads `{NtpEnv} : Prop := forall n, 0 <= n < 100 -> nenv_atof (two_digits n) = d_of_Z n.

Section zone.
Context `{E : NtpEnv} (Hatof : atof_reads).

Definition zone_float (behind : bool) (h m : Z) : float32 :=
  if behind then f_of_d (dadd (dmul (d_of_Z h) minus_one) (dmul (ddiv (d_of_Z m) (d_of_Z 60)) minus_one))
  else f_of_d (dadd (d_of_Z h) (ddiv (d_of_Z m) (d_of_Z 60))).

Lemma digit_not (n : Z) (c : ascii) : 0 <= n < 10 -> is_digit c = false -> digit n <> c.
Proof.
  intros Hn Hc E'. subst c. assert (Hall : Forall (fun k => is_digit (digit k) = true) (seqZ 0 10)) by (vm_compute; repeat constructor).
  rewrite list.Forall_forall in Hall. rewrite Hall in Hc by (apply elem_of_seqZ; lia). discriminate.
Qed.

Lemma zone_read index behind h m :
  Forall (fun c => is_digit c = true) index -> 0 <= h < 100 -> 0 <= m < 60 ->
  timezone_of (zone_text index behind h m) = zone_float behind h m.
Proof.
  intros Hi Hh Hm. unfold timezone_of, zone_text.
  assert (Hskip : forall c, is_digit c = false -> Forall (fun x => x <> c) index).
  { intros c Hc. eapply Forall_impl; [|exact Hi]. intros x Hx ->. cbv beta in Hx. congruence. }
  assert (Hcolon : split_at ":" (two_digits h ++ ":"%char :: two_digits m) = Some (two_digits h, two_digits m)).
  { cbn [two_digits app split_at]. rewrite !(decide_False (P := digit _ = ":"%char)) by (apply digit_not; [Z.div_mod_to_equations; lia|done]).
    by rewrite decide_True. }
  assert (Hplus : split_at "+" (two_digits h ++ ":"%char :: two_digits m) = None).
  { cbn [two_digits app split_at]. rewrite !(decide_False (P := digit _ = "+"%char)) by (apply digit_not; [Z.div_mod_to_equations; lia|done]). done. }
  rewrite (split_at_skip "+" index) by by apply Hskip. destruct behind.
  - cbn [split_at]. rewrite decide_True by done. cbn beta iota. rewrite Hcolon. rewrite !Hatof by lia. done.
  - cbn [split_at]. rewrite decide_False by done. rewrite Hplus. rewrite (split_at_skip "-" index) by by apply Hskip.
    cbn [split_at]. rewrite decide_True by done. cbn beta iota. rewrite Hcolon. rewrite !Hatof by lia. done.
Qed.

(** Hours up to 14 and quarters of an hour are exact in binary. *)
Definition zone_exact (behind : bool) (h m : Z) : bool :=
  bool_decide (int_of (fmul (f_of_Z 3600) (zone_float behind h m)) = Some (zone_seconds behind h m))
  && bool_decide (int_of (fmul (f_of_Z 60) (zone_float behind h m)) = Some (zone_seconds behind h m / 60)).
Lemma zones_exact : forallb (fun h => forallb (fun m => zone_exact true (Z.of_nat h) m && zone_exact false (Z.of_nat h) m) [0; 15; 30; 45]) (seq 0 15) = true.
Proof. vm_compute. reflexivity. Qed.
Lemma zone_value behind h m : 0 <= h <= 14 -> quarter m ->
  to_int nenv_overflow (fmul (f_of_Z 3600) (zone_float behind h m)) = zone_seconds behind h m
  /\ to_int nenv_overflow (fmul (f_of_Z 60) (zone_float behind h m)) = zone_seconds behind h m / 60.
Proof.
  intros Hh Hm. pose proof zones_exact as H. rewrite forallb_forall in H.
  assert (Hin : In (Z.to_nat h) (seq 0 15)) by (apply in_seq; lia). specialize (H _ Hin). rewrite forallb_forall in H.
  assert (Hin' : In m [0; 15; 30; 45]) by (unfold quarter in Hm; simpl; intuition). specialize (H _ Hin').
  rewrite Z2Nat.id in H by lia. apply andb_true_iff in H. destruct H as [H1 H2].
  assert (Hb : zone_exact behind h m = true) by (by destruct behind). unfold zone_exact in Hb. apply andb_true_iff in Hb.
  destruct Hb as [Hs Hw]. apply bool_decide_eq_true in Hs, Hw. unfold to_int. by rewrite Hs, Hw.
Qed.
End zone.

(** ** A server that answers *)

(** The seconds that the clock is set to. *)
Definition local_time (utc zone : Z) (auto : bool) (nation : Z) : Z :=
  utc + zone + (if auto && saving (rule_of (nationselect nation)) ((utc + zone) / 86400) then 3600 else 0).

Lemma s32_u32 z : s32 (u32 z) = s32 z.
Proof. unfold s32, u32. by rewrite Zplus_mod_idemp_l. Qed.
Lemma u32_add_l a b : u32 (u32 a + b) = u32 (a + b).
Proof. unfold u32. by rewrite Zplus_mod_idemp_l. Qed.

Section answer.
Context `{E : NtpEnv}.

Lemma new_time_value xmt tz utc zone :
  coarse xmt = u32 (utc + JAN_1970) -> 0 <= fine xmt < 4294967296 -> to_int nenv_overflow (fmul (f_of_Z 3600) tz) = zone ->
  - 2 ^ 31 <= utc + zone < 2 ^ 31 -> new_time xmt tz = Timeval (utc + zone) (USEC (fine xmt)).
Proof.
  intros Hc Hf Hz Hr. unfold new_time. rewrite Hz, Hc. rewrite <- Z.add_sub_assoc, u32_add_l, s32_u32.
  replace (utc + JAN_1970 + (zone - JAN_1970)) with (utc + zone) by lia. rewrite s32_small by lia.
  f_equal. apply s32_small. rewrite usec_value by done. Z.div_mod_to_equations. lia.
Qed.

Lemma settimeofday_ok tv west dst s : nenv_settime (n_calls s) = true ->
  settimeofday tv west dst s
  = Ok tt (set_n_out (n_out s ++ [Clock_set tv west dst])
             (set_n_clock (tv_sec tv * USEC_PER_SEC + tv_usec tv - nenv_elapsed (n_calls s)) (set_n_calls (S (n_calls s)) s))).
Proof. intros H. unfold settimeofday. eapply run_bind; [apply gets_run|]. eapply run_bind; [apply nsys_run|]. by rewrite H. Qed.

Lemma set_the_clock_value xmt tz utc zone west auto s :
  coarse xmt = u32 (utc + JAN_1970) -> 0 <= fine xmt < 4294967296 ->
  to_int nenv_overflow (fmul (f_of_Z 3600) tz) = zone -> to_int nenv_overflow (fmul (f_of_Z 60) tz) = west ->
  - 2 ^ 31 <= utc + zone -> utc + zone + 3600 < 2 ^ 31 -> nenv_settime (n_calls s) = true ->
  let t := local_time utc zone (auto =? 1) (atoi (nenv_nvram "timezone_index")) in
  set_the_clock xmt tz auto s
  = Ok tt (set_n_out (n_out s ++ [Clock_set (Timeval t (USEC (fine xmt))) west (one_if (negb (t =? utc + zone)))])
             (set_n_clock (t * USEC_PER_SEC + USEC (fine xmt) - nenv_elapsed (n_calls s)) (set_n_calls (S (n_calls s)) s))).
Proof.
  intros Hc Hf Hz Hw Hlo Hhi Hok t. unfold set_the_clock. rewrite (new_time_value _ _ utc zone) by (done || lia). rewrite Hw. cbn [tv_sec tv_usec].
  unfold t, local_time. destruct (auto =? 1); cbn [andb].
  - eapply run_bind; [apply autodaylightsave_run|]. destruct (saving _ _); cbn [one_if].
    + rewrite (s32_small (utc + zone + 3600)) by lia. rewrite (proj2 (Z.eqb_neq (_ + 3600) _)) by lia. by apply settimeofday_ok.
    + rewrite Z.add_0_r, (Z.eqb_refl (utc + zone)). by apply settimeofday_ok.
  - rewrite Z.add_0_r, (Z.eqb_refl (utc + zone)). by apply settimeofday_ok.
Qed.

(** The system calls of the client when a server answers its first probe, [n] being the
    number of the first call: pid file, socket, bind, host, connect, select, clock, select,
    recvfrom, clock, settimeofday. *)
Record answered (n : nat) (host : text) (reply : list Z) : Prop := {
  an_pidfile : nenv_pidfile n = true;
  an_socket : nenv_socket (n + 1) = true;
  an_bind : nenv_bind (n + 2) = true;
  an_host : exists addr, nenv_host (n + 3) host = Some addr /\ length addr = 4%nat;
  an_expired : nenv_select (n + 5) = Expired;
  an_readable : exists seconds, nenv_select (n + 7) = Readable seconds;
  an_recv : nenv_recv (n + 8) = Some reply;
  an_length : (48 <= length reply < 1500)%nat;
  an_settime : nenv_settime (n + 10) = true
}.

(** The words of a reply do not depend on what was in the buffer. *)
Lemma read_packet_app reply rest : (48 <= length reply)%nat -> read_packet (reply ++ rest) = read_packet reply.
Proof.
  intros H. assert (HD : forall i, (i < 12)%nat -> Data i (reply ++ rest) = Data i reply).
  { intros i Hi. unfold Data. f_equal. rewrite drop_app_le by lia. rewrite take_app_le; [done|]. rewrite length_drop. lia. }
  unfold read_packet. rewrite !HD by lia. done.
Qed.
Lemma options_of_gargv host :
  getopt (length (gargv host)) (gargv host) = [("h"%char, host); ("s"%char, []); ("i"%char, chars "3")].
Proof. reflexivity. Qed.
Lemma options_run host s : exists c,
  apply_options (getopt (length (gargv host)) (gargv host)) default_config s = Ok (Some c) (set_set_clock (s32 (set_clock s + 1)) s)
  /\ probe_count c = 1 /\ cycle_time c = 3 /\ hostname c = Some host /\ replay c = 0.
Proof. rewrite options_of_gargv. eexists. split; [reflexivity|done]. Qed.

(** The client up to its loop: [n] is the number of its first system call. *)
Definition begun (host : text) (s : ntp_state) : ntp_state :=
  set_n_calls (n_calls s + 5) (set_n_out (n_out s ++ [Asks host]) (set_set_clock (s32 (set_clock s + 1)) s)).
Lemma getntp_begun (P : res ntp_state Z -> Prop) fuel host s addr :
  let n := n_calls s in
  nenv_pidfile n = true -> nenv_socket (n + 1) = true -> nenv_bind (n + 2) = true ->
  nenv_host (n + 3) host = Some addr -> length addr = 4%nat ->
  P ((primary_loop fuel 1 3 0 0;; mret 0) (begun host s)) -> P (getntp_main fuel (gargv host) s).
Proof.
  intros n Hpid Hsock Hbind Hhost Haddr HP. unfold getntp_main. eapply run_bind; [apply nsys_run|]. fold n. rewrite Hpid.
  eapply run_bind; [reflexivity|]. destruct (options_run host (set_n_calls (S n) s)) as (c & Hc & Hp & Hi & Hh & Hr).
  eapply run_bind; [exact Hc|]. cbn beta iota. rewrite Hr, Hh, Hp, Hi. cbn [Z.eqb negb].
  eapply run_bind; [apply nsys_run|]. cbn [n_calls set_set_clock set_n_calls]. replace (S n) with (n + 1)%nat by lia. rewrite Hsock. cbn [negb].
  eapply run_bind; [unfold setup_receive; eapply run_bind; [apply nsys_run|]; cbn [n_calls set_n_calls]; replace (S (n + 1)) with (n + 2)%nat by lia; rewrite Hbind; reflexivity|].
  eapply run_bind.
  { unfold setup_transmit. eapply run_bind; [apply out_run|]. eapply run_bind.
    - unfold stuff_net_addr. eapply run_bind; [apply nsys_run|]. cbn [n_calls set_n_calls set_n_out]. replace (S (n + 2)) with (n + 3)%nat by lia.
      rewrite Hhost. rewrite decide_True by done. reflexivity.
    - eapply run_bind; [apply nsys_run|]. reflexivity. }
  cbn [n_calls set_n_calls set_n_out n_out set_set_clock]. replace (S (S (n + 3))) with (n_calls s + 5)%nat by (unfold n; lia).
  unfold begun in HP. exact HP.
Qed.

Lemma answer_run fuel host reply index behind h m utc s :
  let n := n_calls s in
  let zone := zone_seconds behind h m in
  let p := read_packet reply in
  let auto := atoi (nenv_nvram "timezone_daylightsaving") =? 1 in
  let t := local_time utc zone auto (atoi (nenv_nvram "timezone_index")) in
  atof_reads -> nenv_nvram "timezone_diff" = zone_text index behind h m ->
  Forall (fun c => is_digit c = true) index -> (length index < 50)%nat -> 0 <= h <= 14 -> quarter m ->
  (length (nenv_nvram "timezone_daylightsaving") < 64)%nat ->
  answered n host reply -> live s = 0 -> 0 <= set_clock s < 2147483647 ->
  coarse (xmttime p) = u32 (utc + JAN_1970) -> 0 <= fine (xmttime p) < 4294967296 -> - 2 ^ 31 <= utc + zone -> utc + zone + 3600 < 2 ^ 31 ->
  exists s', getntp_main (S (S fuel)) (gargv host) s = Ok 0 s'
    /\ n_out s' = n_out s ++ [Asks host; Probe (request (to_timeval (n_clock s + nenv_elapsed (n + 6))));
         Clock_set (Timeval t (USEC (fine (xmttime p)))) (zone / 60) (one_if (negb (t =? utc + zone)))]
    /\ n_clock s' + nenv_elapsed (n + 10) = t * USEC_PER_SEC + USEC (fine (xmttime p))
    /\ n_calls s' = (n + 11)%nat /\ set_clock s' = set_clock s + 1 /\ live s' = 0.
Proof.
  intros n zone p auto t Hatof Hzone Hindex Hlen Hh Hm Hsaving [Hpid Hsock Hbind (addr & Hhost & Haddr) Hexp (seconds & Hread) Hrecv Hreply Hset] Hlive Hsc Hc Hf Hlo Hhi.
  assert (Hzl : (length (nenv_nvram "timezone_diff") < 64)%nat).
  { rewrite Hzone. unfold zone_text. rewrite length_app. simpl. lia. }
  assert (Htz : timezone_of (nenv_nvram "timezone_diff") = zone_float behind h m).
  { rewrite Hzone. apply zone_read; [done|done|lia|]. destruct Hm as [?|[?|[?|?]]]; lia. }
  destruct (zone_value behind h m Hh Hm) as [Hz Hw]. fold zone in Hz, Hw.
  set (s0 := begun host s). set (tv0 := to_timeval (n_clock s + nenv_elapsed (n + 6))).
  assert (Hsend : primary_turn 1 3 0 0 s0
    = Ok (Some (3, 1)) (set_time_of_send tv0 (set_n_out (n_out s ++ [Asks host; Probe (request tv0)]) (set_n_calls (n + 7) s0)))).
  { unfold primary_turn. eapply run_bind; [apply nsys_run|]. cbn [n_calls s0 begun set_n_calls]. fold n. rewrite Hexp. cbn [Z.eqb].
    change (enough 1 0) with false. eapply run_bind; [unfold send_packet; eapply run_bind; [apply gettimeofday_run|]; eapply run_bind; [apply out_run|]; reflexivity|].
    cbn [n_calls set_n_calls n_clock s0 begun set_n_out set_set_clock n_out]. fold n. rewrite <- app_assoc.
    replace (S (n + 5)) with (n + 6)%nat by lia. replace (S (n + 6)) with (n + 7)%nat by lia. reflexivity. }
  set (s1 := set_time_of_send tv0 _) in Hsend.
  set (buf := reply ++ drop (length reply) (incoming s)).
  set (s2 := set_n_calls (n + 10) (set_incoming buf s1)).
  set (arrival := to_timeval (n_clock s + nenv_elapsed (n + 9))).
  assert (Hp : read_packet buf = p) by (apply read_packet_app; lia).
  pose proof (set_the_clock_value (xmttime p) (zone_float behind h m) utc zone (zone / 60) (atoi (nenv_nvram "timezone_daylightsaving")) s2 Hc Hf Hz Hw Hlo Hhi Hset) as Hclock.
  cbv zeta in Hclock. fold auto t in Hclock. set (s3 := set_n_out _ _) in Hclock.
  assert (Hprint : rfc1305print buf (Ntptime (u32 (tv_sec arrival + JAN_1970)) (u32 (NTPFRAC (tv_usec arrival)))) s2 = Ok tt s3).
  { unfold rfc1305print. eapply run_bind; [by apply strcpy_run|]. eapply run_bind; [by apply strcpy_run|]. eapply run_bind; [apply gets_run|].
    cbn [set_clock s2 set_n_calls set_incoming s1 set_time_of_send set_n_out s0 begun set_set_clock]. rewrite s32_small by lia.
    rewrite (proj2 (Z.eqb_neq _ _)) by lia. cbn [negb when]. rewrite Hp, Htz. eapply run_bind; [exact Hclock|]. cbv zeta.
    eapply run_bind; [apply gets_run|]. cbn [live s3 set_n_out set_n_clock set_n_calls s2 set_incoming s1 set_time_of_send s0 begun set_set_clock]. by rewrite Hlive. }
  assert (Hrecvd : primary_turn 1 3 3 1 s1 = Ok None s3).
  { unfold primary_turn. eapply run_bind; [apply nsys_run|]. cbn [n_calls s1 set_time_of_send set_n_out set_n_calls]. rewrite Hread.
    eapply run_bind; [|reflexivity]. unfold receive. eapply run_bind; [apply nsys_run|]. cbn [n_calls set_n_calls].
    replace (S (n + 7)) with (n + 8)%nat by lia. rewrite Hrecv. cbv zeta. rewrite (take_ge reply 1500) by lia.
    eapply run_bind; [apply gets_run|]. eapply run_bind; [reflexivity|].
    rewrite (proj2 (Nat.ltb_lt 0 _)), (proj2 (Nat.ltb_lt _ 1500)) by lia. cbn [andb when]. unfold udp_handle.
    eapply run_bind; [apply gettimeofday_run|]. eapply run_bind; [apply gets_run|].
    cbn [n_calls set_n_calls set_incoming n_clock set_n_out set_time_of_send s0 begun set_set_clock incoming].
    replace (S (n + 8)) with (n + 9)%nat by lia. fold arrival buf. replace (S (n + 9)) with (n + 10)%nat by lia. exact Hprint. }
  exists s3. split; [|split; [|split; [|split; [|split]]]].
  - apply (getntp_begun (fun r => r = _) _ _ _ addr); [done|done|done|done|done|]. cbn [primary_loop].
    eapply run_bind; [|reflexivity]. eapply run_bind; [exact Hsend|]. cbn beta iota. eapply run_bind; [exact Hrecvd|]. reflexivity.
  - cbn [n_out s3 set_n_out s2 set_n_calls set_incoming s1 set_time_of_send]. by rewrite <- app_assoc.
  - cbn [n_clock s3 set_n_out set_n_clock n_calls s2 set_n_calls]. lia.
  - cbn [n_calls s3 set_n_out set_n_clock set_n_calls s2]. lia.
  - cbn [set_clock s3 set_n_out set_n_clock set_n_calls s2 set_incoming s1 set_time_of_send s0 begun set_set_clock]. apply s32_small. lia.
  - exact Hlive.
Qed.
(** C21. A server that answers sets the clock. When the server answers the first probe and
    the zone is one of the web page (hours and quarters), the client asks it, sends one
    probe and returns with the clock set to the server's time [utc] in local time:
    the zone is added to the second, and an hour when daylight saving time is asked
    for and the rule of the zone says so; the clock then shows this time. *)
Theorem answer_sets_the_clock fuel host reply index behind h m utc s :
  let n := n_calls s in
  let zone := zone_seconds behind h m in
  let p := read_packet reply in
  let auto := atoi (nenv_nvram "timezone_daylightsaving") =? 1 in
  let t := local_time utc zone auto (atoi (nenv_nvram "timezone_index")) in
  atof_reads -> nenv_nvram "timezone_diff" = zone_text index behind h m ->
  Forall (fun c => is_digit c = true) index -> (length index < 50)%nat -> 0 <= h <= 14 -> quarter m ->
  (length (nenv_nvram "timezone_daylightsaving") < 64)%nat ->
  answered n host reply -> live s = 0 -> 0 <= set_clock s < 2147483647 ->
  coarse (xmttime p) = u32 (utc + JAN_1970) -> 0 <= fine (xmttime p) < 4294967296 -> - 2 ^ 31 <= utc + zone -> utc + zone + 3600 < 2 ^ 31 ->
  exists s', getntp_main (S (S fuel)) (gargv host) s = Ok 0 s'
    /\ n_out s' = n_out s ++ [Asks host; Probe (request (to_timeval (n_clock s + nenv_elapsed (n + 6))));
         Clock_set (Timeval t (USEC (fine (xmttime p)))) (zone / 60) (one_if (negb (t =? utc + zone)))]
    /\ n_clock s' + nenv_elapsed (n + 10) = t * USEC_PER_SEC + USEC (fine (xmttime p))
    /\ n_calls s' = (n + 11)%nat /\ set_clock s' = set_clock s + 1 /\ live s' = 0.
Proof. apply answer_run. Qed.
End answer.

(** ** The control program *)

Lemma year_1970 d : tm_year (tm_of_day d) + 1900 = 1970 <-> 0 <= d < 365.
Proof.
  destruct (tm_of_day_spec d) as (y & mp & mday & E & Hmp & Hmday & Hd & Hend). rewrite E. cbn [tm_year].
  assert (Hms : 0 <= month_start mp /\ (mp < 10 -> month_start (mp + 1) <= 306) /\ (10 <= mp -> 306 <= month_start mp)).
  { unfold month_start. Z.div_mod_to_equations. lia. }
  assert (Hys : forall a b, a <= b -> year_start a <= year_start b) by (intros a b Hab; unfold year_start; Z.div_mod_to_equations; lia).
  assert (H69 : year_start 1969 = 719162) by done. assert (H70 : year_start 1970 = 719527) by done. assert (H71 : year_start 1971 = 719892) by done.
  pose proof (Hys y 1968). pose proof (Hys 1969 y). pose proof (Hys y 1969). pose proof (Hys 1970 y). pose proof (Hys y 1970). pose proof (Hys 1971 y).
  pose proof (Hys (y + 1) 1969). pose proof (Hys (y + 1) 1970). assert (H68 : year_start 1968 = 718797) by done. unfold EPOCH in *.
  destruct (Z.ltb_spec mp 10); split; intros Hyear.
  - assert (y = 1970) as -> by lia. lia.
  - assert (~ y <= 1969) by (intros Hy; lia). assert (~ 1971 <= y) by (intros Hy; lia). lia.
  - assert (y = 1969) as -> by lia. lia.
  - assert (~ y <= 1968) by (intros Hy; lia). assert (~ 1970 <= y) by (intros Hy; lia). lia.
Qed.

Section control.
Context `{E : NtpEnv}.

(** The day that check_time finds, in its zone, when the clock is [c], at a call. *)
Definition check_day (c : Z) (n : nat) : Z :=
  s32 (s32 ((c + nenv_elapsed n) / USEC_PER_SEC) + 3600 * T_ZONE) / 86400.
Definition in_1970 (c : Z) (n : nat) : Prop := 0 <= check_day c n < 365.
Lemma check_time_run s : exists b, check_time s = Ok b (set_n_calls (S (n_calls s)) s) /\ (b = false <-> in_1970 (n_clock s) (n_calls s)).
Proof.
  eexists. split; [unfold check_time; eapply run_bind; [apply gettimeofday_run|]; reflexivity|].
  rewrite negb_false_iff, Z.eqb_eq. apply year_1970.
Qed.

(** Nothing fails before the loop of the client. *)
Record starts : Prop := {
  st_pidfile : forall n, nenv_pidfile n = true;
  st_socket : forall n, nenv_socket n = true;
  st_bind : forall n, nenv_bind n = true;
  st_host : forall n h, exists addr, nenv_host n h = Some addr /\ length addr = 4%nat
}.
Context (Hstarts : starts).
Context (Hzone : (length (nenv_nvram "timezone_diff") < 64)%nat) (Hsaving : (length (nenv_nvram "timezone_daylightsaving") < 64)%nat).
Context (quiet : nat) (Hquiet : silent_from quiet).

Lemma getntp_went host s : ntp_ok s -> exists s' new, getntp_main (quiet + 3) (gargv host) s = Ok 0 s' /\ went_on s s' new
  /\ asked_of new = [host] /\ (length (probes_of new) <= 1)%nat
  /\ ((quiet <= n_calls s)%nat -> length (probes_of new) = 1%nat /\ n_clock s' = n_clock s).
Proof.
  intros Hs. destruct Hstarts as [Hpid Hsock Hbind Hhost]. destruct (Hhost (n_calls s + 3)%nat host) as (addr & Ha & Hl).
  assert (Hok0 : ntp_ok (begun host s)) by by destruct Hs.
  destruct (primary_loop_went Hzone Hsaving 1 3 quiet (quiet + 3) ltac:(lia) Hquiet 0 0 (begun host s) Hok0) as (s' & new & Hrun & [Hw Hc Ho] & Hna & Hn & Hn'); [lia|lia|].
  exists s', (Asks host :: new). split; [|split; [|split; [|split]]].
  - apply (getntp_begun (fun r => r = _) _ _ _ addr); [done|done|done|done|done|]. by eapply run_bind; [exact Hrun|].
  - split; [intros _; by apply Hw|cbn in Hc; lia|]. rewrite Ho. cbn [n_out begun set_n_calls set_n_out]. by rewrite <- app_assoc.
  - unfold asked_of in *. cbn. by rewrite Hna.
  - unfold probes_of in *. cbn. lia.
  - intros Hq. destruct Hn' as [Hn' Hclk]; [cbn; lia|]. split; [unfold probes_of in *; cbn; lia|exact Hclk].
Qed.

(** What one start of the client leaves in the output: the question for its server, and
    one probe at most. *)
Definition one_start (host : text) (block : list ntp_output) : Prop := asked_of block = [host] /\ (length (probes_of block) <= 1)%nat.

Lemma try_servers_went servers : forall s, ntp_ok s -> servers <> [] ->
  exists s' blocks j, let new := concat blocks in try_servers (quiet + 3) servers s = Ok tt s' /\ went_on s s' new
    /\ Forall2 one_start (take j servers) blocks /\ (1 <= j <= length servers)%nat
    /\ ((j < length servers)%nat -> ~ in_1970 (n_clock s') (pred (n_calls s')))
    /\ ((quiet <= n_calls s)%nat -> (forall n, in_1970 (n_clock s) n) -> j = length servers /\ length (probes_of new) = j).
Proof.
  induction servers as [|host servers IH]; intros s Hs Hne; [done|]. cbn [try_servers].
  destruct (getntp_went host s Hs) as (s1 & new1 & Hrun1 & Hw1 & Ha1 & Hp1 & Hq1).
  destruct (check_time_run s1) as (b & Hrun2 & Hb). set (s2 := set_n_calls (S (n_calls s1)) s1) in *.
  assert (Hw2 : went_on s s2 new1).
  { destruct Hw1 as [H1 H2 H3]. split; [intros H; by destruct (H1 H)|cbn; lia|done]. }
  assert (Hok2 : ntp_ok s2) by by apply Hw2.
  assert (Hone : b = true \/ servers = [] -> exists s' blocks j, let new := concat blocks in (_ ← getntp_main (quiet + 3) (gargv host); done ← check_time; if (done : bool) then mret tt else try_servers (quiet + 3) servers) s = Ok tt s'
    /\ went_on s s' new /\ Forall2 one_start (take j (host :: servers)) blocks /\ (1 <= j <= length (host :: servers))%nat
    /\ ((j < length (host :: servers))%nat -> ~ in_1970 (n_clock s') (pred (n_calls s')))
    /\ ((quiet <= n_calls s)%nat -> (forall n, in_1970 (n_clock s) n) -> j = length (host :: servers) /\ length (probes_of new) = j)).
  { intros Hcase. exists s2, [new1], 1%nat. cbn [concat]. rewrite app_nil_r. split.
    { eapply run_bind; [exact Hrun1|]. eapply run_bind; [exact Hrun2|]. destruct Hcase as [-> | ->]; [done|by destruct b]. }
    split; [done|]. split; [constructor; [by split|constructor]|]. split; [cbn; lia|]. split.
    - intros Hj. destruct Hcase as [-> | ->]; [|cbn in Hj; lia]. intros Hin. by apply Hb in Hin.
    - intros Hqs Hall. destruct (Hq1 Hqs) as [Hp Hclk]. split; [|done]. destruct Hcase as [-> | ->]; [|done].
      assert (Hbad : true = false) by (apply Hb; rewrite Hclk; apply Hall). done. }
  destruct b; [by apply Hone; left|]. destruct servers as [|host' servers']; [by apply Hone; right|].
  destruct (IH s2 Hok2) as (s3 & blocks & j & Hrun3 & Hw3 & Ha3 & Hj & Hleft & Hall3); [done|].
  exists s3, (new1 :: blocks), (S j). cbn [concat]. split; [eapply run_bind; [exact Hrun1|]; eapply run_bind; [exact Hrun2|]; exact Hrun3|].
  split; [by eapply went_on_trans|].
  split; [by constructor|]. split; [cbn [length] in *; lia|]. split; [intros H; apply Hleft; cbn [length] in *; lia|].
  intros Hqs Hall. destruct (Hq1 Hqs) as [Hp Hclk]. destruct Hall3 as [-> Hp']; [destruct Hw1; cbn; lia|intros n; cbn; rewrite Hclk; apply Hall|].
  split; [done|]. unfold probes_of in *. rewrite omap_app, length_app. cbn [length] in *. lia.
Qed.

(** C23. The control program asks its servers in their order and ends. In the build
    without servers of the nvram (NTP_WITH_DEFAULT_SERVER), when the client can always
    start (its process id file, its socket and the binding succeed and every name
    resolves), the nvram texts [timezone_diff] and [timezone_daylightsaving] have fewer
    than 64 bytes each, and the network is silent from some system call on, it returns 0.
    The output that it adds falls into [j] blocks, one for each of the first [j] of its 33
    servers in their order: the block asks for that server and has one probe at most. It
    stops before the last only when the clock, at the call where the program looked at it
    last, is not in 1970; and when nobody answers and the clock stays in 1970 it asks them
    all, once each. *)
Theorem exe_asks_in_order s : ntp_ok s ->
  exists s' blocks j, exe_main false (quiet + 3) s = Ok 0 s' /\ n_out s' = n_out s ++ concat blocks
    /\ Forall2 one_start (take j time_server) blocks /\ (1 <= j <= 33)%nat
    /\ ((j < 33)%nat -> ~ in_1970 (n_clock s') (pred (n_calls s')))
    /\ ((quiet <= n_calls s)%nat -> (forall n, in_1970 (n_clock s) n) -> j = 33%nat /\ length (probes_of (concat blocks)) = 33%nat).
Proof.
  intros Hs. destruct (try_servers_went time_server s Hs) as (s' & blocks & j & Hrun & [_ _ Ho] & Ha & Hj & Hleft & Hall); [done|].
  exists s', blocks, j. split; [unfold exe_main; eapply run_bind; [reflexivity|]; eapply run_bind; [exact Hrun|]; done|].
  split; [done|]. split; [done|]. split; [exact Hj|]. split; [exact Hleft|].
  intros H1 H2. destruct (Hall H1 H2) as [-> Hp']. by split.
Qed.
End control.
