(* ===== verification/NtpSample.v ===== *)
(** * NtpSample: concrete runs of the NTP client

    A router in the zone of GMT+02:00 with a server that answers, and one without; the
    witnesses of the theorems; and what happens to short replies, unknown hosts, long
    texts and other cases the theorems exclude or the comments get wrong. *)

From stdpp Require Import strings.
From Stdlib Require Import Ascii String.
From S2P Require Import Prelude NtpFloat NtpPhaselock NtpPhaselockSpec NtpPhaselockProofs NtpDaylight NtpTypes NtpClient NtpMain NtpProofs NtpResults.

#[local] Open Scope Z_scope.

(** ** The router *)

Definition no_seg : seg := Seg zero zero.
(** atof() of a text of digits. *)
Definition digits_atof (s : text) : double := d_of_Z (digits 0 s).
Definition router_with (resolves : text -> bool) (select : nat -> selected) (recv : nat -> option (list Z)) (memory : string -> text) : NtpEnv := {|
  nenv_elapsed n := 1000000 * Z.of_nat n + 250000;
  nenv_settime _ := true;
  nenv_socket _ := true;
  nenv_bind _ := true;
  nenv_connect _ := true;
  nenv_pidfile _ := true;
  nenv_host _ h := if resolves h then Some [192; 0; 2; 1] else None;
  nenv_select := select;
  nenv_recv := recv;
  nenv_nvram := memory;
  nenv_atof := digits_atof;
  nenv_overflow _ := 2147483647;
  nenv_stack _ := (no_seg, no_seg);
  nenv_stdin := []
|}.
Definition memory (zone saving server : string) (name : string) : text :=
  if decide (name = "timezone_diff"%string) then chars zone
  else if decide (name = "timezone_index"%string) then chars zone
  else if decide (name = "timezone_daylightsaving"%string) then chars saving
  else if decide (name = "ntp_server1"%string) then chars server
  else [].
Definition all_known : text -> bool := fun _ => true.
Definition silent : nat -> selected := fun _ => Expired.
Definition one_answer (n : nat) : selected := if decide (n = 7%nat) then Readable 2 else Expired.
(** A reply of the server at 2004-07-16 17:46:40 UTC and a quarter of a second. *)
Definition noon : Z := 1090000000.
Definition reply_at (t fraction : Z) : list Z := [28; 2; 4; 0xee] ++ replicate 36 0 ++ be32 (u32 (t + JAN_1970)) ++ be32 fraction.
Definition reply : list Z := reply_at noon 0x40000000.
Definition nobody : NtpEnv := router_with all_known silent (fun _ => None) (memory "023-02:00" "1" "").
Definition server_answers : NtpEnv := router_with all_known one_answer (fun _ => Some reply) (memory "023-02:00" "1" "").

Definition new_pll : pll :=
  Pll (replicate 16 (Datum 0 zero zero 0 zero zero)) (replicate 17 no_seg) (replicate 17 no_seg) (Polygon zero zero) 0 0.
Definition booted : ntp_state := NtpState (replicate 1500 0) (Timeval 0 0) 0 0 0 new_pll 0 0 [].

Lemma new_pll_remembers : remembers [] new_pll.
Proof. split; [by split|]. split; [done|]. split; [simpl; lia|]. intros k Hk. simpl in Hk. lia. Qed.
Lemma booted_ok : ntp_ok booted.
Proof. split; [done|]. exists []. apply new_pll_remembers. Qed.
Lemma digits_read k s r m : @atof_reads (router_with k s r m).
Proof.
  intros n Hn. assert (H : forallb (fun n => Z.eqb (digits 0 (two_digits (Z.of_nat n))) (Z.of_nat n)) (seq 0 100) = true) by (vm_compute; reflexivity).
  rewrite forallb_forall in H. assert (Hin : In (Z.to_nat n) (seq 0 100)) by (apply in_seq; lia). specialize (H _ Hin).
  apply Z.eqb_eq in H. rewrite Z2Nat.id in H by lia. change (digits_atof (two_digits n) = d_of_Z n). unfold digits_atof. by rewrite H.
Qed.

(** ** Witnesses *)

Lemma fraction_roundtrip_witness :
  (0 <= 0x81234567 < 4294967296) /\ (0 <= 999999 < 1000000) /\ Z.abs (USEC (u32 (NTPFRAC 999999)) - 999999) <= 380.
Proof. split; [lia|]. split; [lia|]. apply (fraction_roundtrip 0x81234567 999999); lia. Defined.

Lemma primary_loop_ends_witness :
  @silent_from nobody 0 /\ ntp_ok booted /\
  exists s' new, @primary_loop nobody (0 + Z.to_nat 2 + 2) 2 3 0 0 booted = Ok tt s' /\ n_out s' = n_out booted ++ new
    /\ Z.of_nat (length (probes_of new)) = 2.
Proof.
  assert (Hq : @silent_from nobody 0) by (intros n _; reflexivity). split; [exact Hq|]. split; [exact booted_ok|].
  destruct (@primary_loop_ends nobody ltac:(vm_compute; lia) ltac:(vm_compute; lia) 2 3 0 booted ltac:(lia) Hq booted_ok)
    as (s' & new & Hrun & _ & Ho & _ & Hn).
  exists s', new. split; [exact Hrun|]. split; [exact Ho|]. apply Hn. simpl. lia.
Defined.

Lemma server_answered : @answered server_answers 0 (chars "192.53.103.104") reply.
Proof. split; [done|done|done|by eexists|done|by eexists|done|vm_compute; lia|done]. Qed.

(** The clock is set to 19:46:40 plus an hour of daylight saving time. *)
Lemma answer_sets_the_clock_witness :
  @answered server_answers 0 (chars "192.53.103.104") reply /\
  exists s', @getntp_main server_answers 2 (gargv (chars "192.53.103.104")) booted = Ok 0 s'
    /\ n_out s' = [Asks (chars "192.53.103.104"); Probe (request (Timeval 6 250000)); Clock_set (Timeval (noon + 10800) 250000) 120 1].
Proof.
  split; [exact server_answered|].
  destruct (@answer_sets_the_clock server_answers 0 (chars "192.53.103.104") reply (chars "023") false 2 0 noon booted)
    as (s' & Hrun & Ho & _); [apply digits_read|reflexivity|repeat constructor|vm_compute; lia|lia|by left|vm_compute; lia
      |exact server_answered|reflexivity|vm_compute; split; congruence|reflexivity|vm_compute; split; congruence|vm_compute; congruence|vm_compute; congruence|].
  exists s'. split; [exact Hrun|]. rewrite Ho. vm_compute. reflexivity.
Defined.

Lemma nobody_starts : @starts nobody.
Proof. split; [done|done|done|]. intros n h. by eexists. Qed.
Lemma exe_asks_in_order_witness :
  @silent_from nobody 0 /\ ntp_ok booted /\
  exists s' blocks j, @exe_main nobody false 3 booted = Ok 0 s' /\ n_out s' = n_out booted ++ concat blocks /\ Forall2 one_start (take j time_server) blocks /\ (1 <= j <= 33)%nat.
Proof.
  assert (Hq : @silent_from nobody 0) by (intros n _; reflexivity). split; [exact Hq|]. split; [exact booted_ok|].
  destruct (@exe_asks_in_order nobody nobody_starts ltac:(vm_compute; lia) ltac:(vm_compute; lia) 0 Hq booted booted_ok)
    as (s' & blocks & j & Hrun & Ho & Ha & Hj & _).
  exists s', blocks, j. split; [exact Hrun|]. split; [exact Ho|]. split; [exact Ha|exact Hj].
Defined.

(** *** The phase-locked loop *)

(** Sixteen measurements, ten minutes apart, of a clock that loses a little. *)
Definition measure (k : nat) : datum :=
  Datum (3298988800 + 600 * Z.of_nat k) (d_of_Z (- 5000 - 3000 * Z.of_nat k)) (d_of_Z (700 + 40 * (Z.of_nat k mod 3))) 0 zero zero.
Definition full_ring : pll := Pll (measure <$> seq 0 16) (replicate 17 no_seg) (replicate 17 no_seg) (Polygon zero zero) 0 16.
Definition ring_history : list datum := rev (measure <$> seq 0 16).
Lemma full_ring_remembers : remembers ring_history full_ring.
Proof.
  split; [by split|]. split; [done|]. split; [simpl; lia|]. intros k Hk. simpl in Hk.
  do 16 (destruct k as [|k]; [vm_compute; reflexivity|]). lia.
Qed.
Lemma contemplate_refines_witness :
  remembers ring_history full_ring /\
  exists p', contemplate_data (fun _ => 0) false no_seg no_seg 3298998400 (d_of_Z (-53000)) (d_of_Z 1500) 0 full_ring
    = Ok (next_freq (fun _ => 0) false (take 16 (Datum 3298998400 (d_of_Z (-53000)) (dsub (d_of_Z 1500) (d_of_Z 800)) 0 zero zero :: ring_history)) 0) p'.
Proof.
  split; [exact full_ring_remembers|].
  destruct (contemplate_refines (fun _ => 0) false no_seg no_seg 3298998400 (d_of_Z (-53000)) (d_of_Z 1500) 0 ring_history full_ring full_ring_remembers)
    as (p' & Hrun & _). exists p'. exact Hrun.
Defined.

Definition points : list datum := (fun k => set_limits (d_of_Z (7 * (Z.of_nat k mod 4))) (d_of_Z (9 * (Z.of_nat k mod 5))) (measure k)) <$> seq 0 16.
Definition point_ring : pll := Pll points (replicate 17 no_seg) (replicate 17 no_seg) (Polygon zero zero) 15 16.
Lemma point_ring_holds : holds_at 15 points point_ring.
Proof. split; [done|]. split; [done|]. intros k Hk. do 16 (destruct k as [|k]; [vm_compute; reflexivity|]). lia. Qed.
Definition point (k : nat) : datum := nth k points (measure 0).
Lemma numbers_check s0 s1 dr dj l : forallb (fun dn => negb (is_nan (slope (segment s0 s1 dr dj dn)))) l = true -> numbers s0 s1 dr dj l.
Proof. intros H. apply Forall_forall. intros dn Hdn. rewrite forallb_forall in H. by apply negb_true_iff, H. Qed.
Lemma search_extreme_witness :
  holds_at 15 points point_ring /\
  exists t' s, search 15 (place 15 2) Cmax Cmax false point_ring = Ok (place 15 t', Some s) point_ring /\ (2 < t' <= 15)%nat
    /\ forall dn, dn ∈ drop 3 points -> no_better false (segment Cmax Cmax (point 15) (point 2) dn) s.
Proof.
  split; [exact point_ring_holds|].
  apply (search_extreme 15 points point_ring Cmax Cmax false 2 (point 2) (point 15));
    [lia|exact point_ring_holds|vm_compute; reflexivity|vm_compute; reflexivity|lia|].
  apply numbers_check. vm_compute. reflexivity.
Defined.

(** ** The loop at work, and cases that the theorems exclude *)

(** What a run has done, and whether it ended with a fault. *)
Definition done_by {A} (r : res ntp_state A) : option (list ntp_output) := match r with Ok _ s => Some (n_out s) | Err _ => None end.
Definition fault_of {A} (r : res ntp_state A) : option fault := match r with Ok _ _ => None | Err f => Some f end.
Definition clocks_set (l : list ntp_output) : list timeval := omap (fun o => match o with Clock_set tv _ _ => Some tv | _ => None end) l.

(** A slow clock is made faster: the answer differs from the old frequency. *)
Example frequency_is_corrected :
  next_freq (fun _ => 0) false (take 16 (Datum 3298998400 (d_of_Z (-53000)) (dsub (d_of_Z 1500) (d_of_Z 800)) 0 zero zero :: ring_history)) 0 <> 0.
Proof. vm_compute. discriminate. Qed.

(** The conversion that is called exact is off by 379 microseconds. *)
Example usec_is_not_exact : USEC 0x2000000 = 7433 /\ 1000000 * 0x2000000 / 4294967296 = 7812.
Proof. vm_compute. split; reflexivity. Qed.

(** find_df sets its flag when there are points on each side, or none. *)
Example flag_is_set : find_df (Polygon MIN_INIT MIN_INIT) = (zero, true).
Proof. vm_compute. reflexivity. Qed.

(** A reply of one byte is read as a packet: the bytes behind it are those of the packet
    before, or zeros, which stand for the year 2036; the control program is content. *)
Definition short_reply : NtpEnv := router_with all_known one_answer (fun _ => Some [28]) (memory "018+00:00" "0" "").
Example short_reply_is_believed :
  clocks_set <$> done_by (@exe_main short_reply false 3 booted) = Some [Timeval 2085978496 0].
Proof. vm_compute. reflexivity. Qed.

(** A server whose name is not known ends the control program: the others are not asked. *)
Definition unknown_first : NtpEnv :=
  router_with (fun h => negb (bool_decide (h = chars "192.53.103.104"))) one_answer (fun _ => Some reply) (memory "018+00:00" "0" "").
Example unknown_host_ends_all : fault_of (@exe_main unknown_first false 3 booted) = Some Died.
Proof. vm_compute. reflexivity. Qed.

(** The zone is copied into 64 characters without a test. *)
Definition long_zone : NtpEnv :=
  router_with all_known one_answer (fun _ => Some reply) (fun _ => replicate 64 "0"%char).
Example long_zone_overflows : fault_of (@exe_main long_zone false 3 booted) = Some Out_of_bounds.
Proof. vm_compute. reflexivity. Qed.

(** After an answer of the configured server another one is asked nevertheless. *)
Definition configured : NtpEnv := router_with all_known one_answer (fun _ => Some reply) (memory "018+00:00" "0" "time.isp.net").
Example configured_server_is_not_enough :
  asked_of <$> done_by (@exe_main configured true 3 booted) = Some (chars <$> ["time.isp.net"; "192.53.103.104"]%string).
Proof. vm_compute. reflexivity. Qed.

(** A signal in the last second of the wait counts as its end: i == EINTR never holds. *)
Example signal_ends_the_wait : fault_of (@primary_turn nobody 1 3 0 1 booted) = None /\
  match @primary_turn (router_with all_known (fun _ => Failed 0) (fun _ => None) (memory "" "" "")) 1 3 3 1 booted with
  | Ok r _ => r = None | Err _ => False end.
Proof. vm_compute. split; reflexivity. Qed.

(** In the groups 4 to 7 the weekdays of the week of a change have no answer. *)
Example group_4_without_value : @daylight unit 4 (Tm 104 9 10 3) tt = Err Uninitialised.
Proof. reflexivity. Qed.

(** A zone of 8 hours and 20 minutes loses a second in float. *)
Example odd_zone_loses_a_second : int_of (fmul (f_of_Z 3600) (zone_float false 8 20)) = Some 29999.
Proof. vm_compute. reflexivity. Qed.

(** The list has 33 servers, and some twice. *)
Example servers_listed : length time_server = 33%nat /\ length (remove_dups time_server) = 32%nat.
Proof. vm_compute. split; reflexivity. Qed.
