(* ===== verification/DnsTypes.v ===== *)
(** * DnsTypes: the data of the DNS forwarder (dnsmasq.h) and its environment

    The cache and the servers are linked lists: a record is found under its number, and
    a pointer is such a number, [None] for NULL. The class [DnsEnv] holds the answers of
    the system. *)

From stdpp Require Import gmap strings.
From Stdlib Require Import Ascii String.
From S2P Require Import Prelude.

#[local] Open Scope Z_scope.

(** ** Constants *)

Definition FTABSIZ : nat := 150.
Definition SMALLDNAME : nat := 63.
(** <arpa/nameser.h> *)
Definition PACKETSZ : Z := 512.
Definition MAXDNAME : Z := 1025.
Definition RRFIXEDSZ : Z := 10.
Definition C_IN : Z := 1.
Definition T_A : Z := 1.
Definition T_CNAME : Z := 5.
Definition T_SOA : Z := 6.
Definition T_PTR : Z := 12.
Definition T_MX : Z := 15.
Definition T_SRV : Z := 33.
Definition T_ANY : Z := 255.
Definition QUERY : Z := 0.
Definition NOERROR : Z := 0.
Definition SERVFAIL : Z := 2.
Definition NXDOMAIN : Z := 3.
Definition NOTIMP : Z := 4.
Definition REFUSED : Z := 5.
Definition INADDRSZ : nat := 4.
Definition AF_INET : Z := 2.
Definition NAMESERVER_PORT : Z := 53.

Definition OPT_BOGUSPRIV : Z := 1.
Definition OPT_FILTER : Z := 2.
Definition OPT_SELFMX : Z := 8.
Definition OPT_NO_HOSTS : Z := 16.
Definition OPT_NO_POLL : Z := 32.
Definition OPT_ORDER : Z := 128.

Definition F_IMMORTAL : Z := 1.
Definition F_NEW : Z := 2.
Definition F_REVERSE : Z := 4.
Definition F_FORWARD : Z := 8.
Definition F_DHCP : Z := 16.
Definition F_NEG : Z := 32.
Definition F_HOSTS : Z := 64.
Definition F_IPV4 : Z := 128.
Definition F_IPV6 : Z := 256.
Definition F_BIGNAME : Z := 512.

(** [flags & mask] as a condition. *)
Definition has (mask flags : Z) : bool := negb (Z.land flags mask =? 0).
(** [flags & ~mask]. *)
Definition clear (mask flags : Z) : Z := Z.land flags (Z.lnot mask).

(** ** Records *)

(** What a struct crec holds besides its links; the name is the one that
    cache_get_name() gives, in the record or in a union bigname. *)
Record entry : Type := Entry {
  e_ttd : Z;   (* time_t *)
  e_flags : Z;
  e_addr : list Z;
  e_name : list Z
}.
Definition set_flags (f : Z) (e : entry) : entry := Entry (e_ttd e) f (e_addr e) (e_name e).

Record crec : Type := Crec { c_next : option nat; c_prev : option nat; c_entry : entry }.
Definition set_next (p : option nat) (r : crec) : crec := Crec p (c_prev r) (c_entry r).
Definition set_prev (p : option nat) (r : crec) : crec := Crec (c_next r) p (c_entry r).
Definition set_entry (e : entry) (r : crec) : crec := Crec (c_next r) (c_prev r) e.

(** The variables of cache.c; [big_free] counts the list of free names. *)
Record cache : Type := Cache {
  cache_head : option nat;
  cache_tail : option nat;
  recs : gmap nat crec;
  big_free : nat;
  bignames_left : Z;
  cache_size : Z;
  cache_inserted : Z;
  cache_live_freed : Z
}.
Definition set_head (p : option nat) (c : cache) : cache :=
  Cache p (cache_tail c) (recs c) (big_free c) (bignames_left c) (cache_size c) (cache_inserted c) (cache_live_freed c).
Definition set_tail (p : option nat) (c : cache) : cache :=
  Cache (cache_head c) p (recs c) (big_free c) (bignames_left c) (cache_size c) (cache_inserted c) (cache_live_freed c).
Definition set_recs (m : gmap nat crec) (c : cache) : cache :=
  Cache (cache_head c) (cache_tail c) m (big_free c) (bignames_left c) (cache_size c) (cache_inserted c) (cache_live_freed c).
Definition set_big_free (n : nat) (c : cache) : cache :=
  Cache (cache_head c) (cache_tail c) (recs c) n (bignames_left c) (cache_size c) (cache_inserted c) (cache_live_freed c).
Definition set_bignames_left (n : Z) (c : cache) : cache :=
  Cache (cache_head c) (cache_tail c) (recs c) (big_free c) n (cache_size c) (cache_inserted c) (cache_live_freed c).
Definition set_inserted (n : Z) (c : cache) : cache :=
  Cache (cache_head c) (cache_tail c) (recs c) (big_free c) (bignames_left c) (cache_size c) n (cache_live_freed c).
Definition set_live_freed (n : Z) (c : cache) : cache :=
  Cache (cache_head c) (cache_tail c) (recs c) (big_free c) (bignames_left c) (cache_size c) (cache_inserted c) n.

(** union mysockaddr *)
Record sockaddr : Type := Sockaddr { sa_family : Z; sin_port : Z; sin_addr : list Z }.
#[export] Instance sockaddr_eq_dec : EqDecision sockaddr.
Proof. solve_decision. Defined.

Record server : Type := Server {
  s_addr : sockaddr;
  s_domain : option (list Z);
  s_from_resolv : bool;
  s_next : option nat
}.
Definition set_s_next (p : option nat) (s : server) : server := Server (s_addr s) (s_domain s) (s_from_resolv s) p.

(** struct DNS_MSG_BUF. *)
Record msg_buf : Type := MsgBuf {
  b_servers : option nat;
  b_firstsentto : option nat;
  b_nextsentto : option nat;
  b_plen : Z;
  b_header : list Z;
  b_usedflag : bool
}.
Definition set_usedflag (u : bool) (b : msg_buf) : msg_buf :=
  MsgBuf (b_servers b) (b_firstsentto b) (b_nextsentto b) (b_plen b) (b_header b) u.
Definition set_nextsentto (p : option nat) (b : msg_buf) : msg_buf :=
  MsgBuf (b_servers b) (b_firstsentto b) p (b_plen b) (b_header b) (b_usedflag b).
Definition set_b_header (h : list Z) (b : msg_buf) : msg_buf :=
  MsgBuf (b_servers b) (b_firstsentto b) (b_nextsentto b) (b_plen b) h (b_usedflag b).

(** What an entry of [ftab] holds once it was used: malloc() leaves garbage. *)
Record frec_data : Type := FrecData {
  f_source : sockaddr;
  f_sentto : option nat;
  f_orig_id : Z;
  f_fd : nat
}.
Record frec : Type := Frec {
  f_new_id : Z;
  f_time : Z;
  f_data : option frec_data;
  f_msg_buf : option (option nat)   (* an index of dnsMsgBuf or NULL; None for garbage *)
}.
Definition set_new_id (i : Z) (f : frec) : frec := Frec i (f_time f) (f_data f) (f_msg_buf f).
Definition set_time (t : Z) (f : frec) : frec := Frec (f_new_id f) t (f_data f) (f_msg_buf f).
Definition set_data (d : frec_data) (f : frec) : frec := Frec (f_new_id f) (f_time f) (Some d) (f_msg_buf f).
Definition set_msg_buf (b : option nat) (f : frec) : frec := Frec (f_new_id f) (f_time f) (f_data f) (Some b).
Definition set_sentto (p : option nat) (d : frec_data) : frec_data := FrecData (f_source d) p (f_orig_id d) (f_fd d).

(** ** The process *)

(** A datagram that sendto() accepted. *)
Inductive dns_output : Type :=
  | To_client (fd : nat) (bytes : list Z) (to : sockaddr)
  | To_server (bytes : list Z) (to : sockaddr).

Record dns : Type := Dns {
  d_packet : list Z;   (* char[PACKETSZ+MAXDNAME+RRFIXEDSZ] *)
  d_name : list Z;   (* dnamebuff: char[MAXDNAME] *)
  d_cache : cache;
  ftab : list frec;
  dnsMsgBuf : list msg_buf;
  d_buf_i : Z;   (* the static variable of get_dns_msg_buf *)
  d_heap : gmap nat server;
  d_calls : nat;
  d_out : list dns_output
}.
Definition set_packet (x : list Z) (s : dns) : dns :=
  Dns x (d_name s) (d_cache s) (ftab s) (dnsMsgBuf s) (d_buf_i s) (d_heap s) (d_calls s) (d_out s).
Definition set_name (x : list Z) (s : dns) : dns :=
  Dns (d_packet s) x (d_cache s) (ftab s) (dnsMsgBuf s) (d_buf_i s) (d_heap s) (d_calls s) (d_out s).
Definition set_cache (x : cache) (s : dns) : dns :=
  Dns (d_packet s) (d_name s) x (ftab s) (dnsMsgBuf s) (d_buf_i s) (d_heap s) (d_calls s) (d_out s).
Definition set_ftab (x : list frec) (s : dns) : dns :=
  Dns (d_packet s) (d_name s) (d_cache s) x (dnsMsgBuf s) (d_buf_i s) (d_heap s) (d_calls s) (d_out s).
Definition set_bufs (x : list msg_buf) (s : dns) : dns :=
  Dns (d_packet s) (d_name s) (d_cache s) (ftab s) x (d_buf_i s) (d_heap s) (d_calls s) (d_out s).
Definition set_buf_i (x : Z) (s : dns) : dns :=
  Dns (d_packet s) (d_name s) (d_cache s) (ftab s) (dnsMsgBuf s) x (d_heap s) (d_calls s) (d_out s).
Definition set_heap (x : gmap nat server) (s : dns) : dns :=
  Dns (d_packet s) (d_name s) (d_cache s) (ftab s) (dnsMsgBuf s) (d_buf_i s) x (d_calls s) (d_out s).
Definition set_calls (x : nat) (s : dns) : dns :=
  Dns (d_packet s) (d_name s) (d_cache s) (ftab s) (dnsMsgBuf s) (d_buf_i s) (d_heap s) x (d_out s).
Definition set_out (x : list dns_output) (s : dns) : dns :=
  Dns (d_packet s) (d_name s) (d_cache s) (ftab s) (dnsMsgBuf s) (d_buf_i s) (d_heap s) (d_calls s) x.
Abbreviation DnM := (M dns).

(** ** The environment *)

(** What select() found: the time has passed, a signal came, another error, or sockets
    are readable: the one to the servers, and those of the interfaces by number. *)
Inductive ready : Type := Timeout | Interrupted | Failed | Readable (peer : bool) (ifaces : list nat).

Class DnsEnv : Type := {
  (** time() *)
  denv_time : nat -> Z;
  (** malloc(): what the memory holds, None for NULL *)
  denv_malloc : nat -> option Z;
  (** sendto() does not fail *)
  denv_sendto : nat -> bool;
  (** the datagram that recv() and recvfrom() deliver, and where it comes from; None
      when they fail *)
  denv_recv : nat -> option (list Z * sockaddr);
  denv_select : nat -> ready;
  (** rand() *)
  denv_rand : nat -> Z;
  (** SIGHUP came since the last turn *)
  denv_sighup : nat -> bool;
  (** st_mtime of the file of servers, when stat() succeeds *)
  denv_resolv_mtime : nat -> option Z;
  (** st_size and st_ino of the lease file *)
  denv_lease_stat : nat -> option (Z * Z);
  (** the files /etc/hosts, of servers and of leases, when they can be opened *)
  denv_hosts : nat -> option (list Z);
  denv_resolv : nat -> option (list Z);
  denv_leases : nat -> option (list Z);
  (** the configuration memory: nvram_safe_get() *)
  denv_nvram : string -> list Z;
  (** inet_aton() and inet_pton(): the 4 bytes of the address *)
  denv_inet_aton : list Z -> option (list Z);
  denv_inet_pton : list Z -> option (list Z)
}.

Section environment.
Context `{E : DnsEnv}.

Definition dsys {A} (f : nat -> A) : DnM A := n ← gets d_calls; modify (set_calls (S n));; mret (f n).
Definition time_ : DnM Z := dsys denv_time.
Definition safe_malloc : DnM Z :=
  m ← dsys denv_malloc; match m with Some garbage => mret garbage | None => fail Died end.
(** sendto(): true when it did not return -1. *)
Definition sendto (o : dns_output) : DnM bool :=
  ok ← dsys denv_sendto;
  when ok (l ← gets d_out; modify (set_out (l ++ [o])));;
  mret ok.
End environment.

(** ** The buffers *)

(** A pointer into the packet is its offset. *)
Definition peek (p : Z) : DnM Z :=
  b ← gets d_packet; x ← in_bounds (load 1 b p); mret (of_be x).
Definition peeks (n p : Z) : DnM (list Z) := b ← gets d_packet; in_bounds (load_len n b p).
(** GETSHORT and GETLONG. *)
Definition GETSHORT (p : Z) : DnM (Z * Z) := b ← peeks 2 p; mret (of_be b, p + 2).
Definition GETLONG (p : Z) : DnM (Z * Z) := b ← peeks 4 p; mret (of_be b, p + 4).
Definition put (bytes : list Z) (p : Z) : DnM Z :=
  b ← gets d_packet;
  b' ← in_bounds (store bytes b p);
  modify (set_packet b');;
  mret (p + Z.of_nat (length bytes)).

(** The text before the first zero byte. *)
Fixpoint cut0 (b : list Z) : option (list Z) :=
  match b with
  | [] => None
  | x :: b' => if x =? 0 then Some [] else (fun s => x :: s) <$> cut0 b'
  end.
Definition name_text : DnM (list Z) := b ← gets d_name; in_bounds (cut0 b).

(** ** The header of a message *)

Definition sizeof_HEADER : Z := 12.
Definition h_id : DnM Z := fst <$> GETSHORT 0.
Definition put_id (i : Z) : DnM unit := put (be16 i) 0;; mret tt.
Definition h_bits2 : DnM Z := peek 2.
Definition h_bits3 : DnM Z := peek 3.
Definition h_qr (b2 : Z) : bool := Z.testbit b2 7.
Definition h_opcode (b2 : Z) : Z := Z.land (Z.shiftr b2 3) 15.
Definition h_rd (b2 : Z) : bool := Z.testbit b2 0.
Definition h_rcode (b3 : Z) : Z := Z.land b3 15.
Definition h_qdcount : DnM Z := fst <$> GETSHORT 4.
Definition h_ancount : DnM Z := fst <$> GETSHORT 6.
Definition h_nscount : DnM Z := fst <$> GETSHORT 8.

(** The two bytes of bits of an answer: qr and ra are set, tc and rcode are not. *)
Definition answer_bits2 (aa : bool) (b2 : Z) : Z := Z.lor (Z.land b2 0x79) (if aa then 0x84 else 0x80).
Definition answer_bits3 (b3 : Z) : Z := Z.lor (Z.land b3 0x70) 0x80.
Definition answer_bits (aa : bool) (b2 b3 : Z) : list Z := [answer_bits2 aa b2; answer_bits3 b3].
Definition set_answer_header (aa : bool) (ancount : Z) : DnM unit :=
  b2 ← h_bits2;
  b3 ← h_bits3;
  put (answer_bits aa b2 b3) 2;;
  put (be16 ancount) 6;;
  put (be16 0) 8;;
  put (be16 0) 10;;
  mret tt.
(** header->tc = 0 *)
Definition clear_tc : DnM unit := b2 ← h_bits2; put [Z.land b2 0xfd] 2;; mret tt.
