(* ===== verification/DnsCache.v ===== *)
(** * DnsCache: the cache of the DNS forwarder (cache.c)

    A doubly linked list of records, the youngest first, with the pointers of the code:
    links, the removal of old entries, insertion, the two searches, the names of
    /etc/hosts, and the entries of DHCP. *)

From stdpp Require Import gmap.
From S2P Require Import Prelude DhcpTypes DhcpOptions DhcpConfig DnsTypes.

#[local] Open Scope Z_scope.

Section cache.
Context `{E : DnsEnv}.

(** ** Access through pointers *)

Definition change (f : cache -> cache) : DnM unit := c ← gets d_cache; modify (DnsTypes.set_cache (f c)).
Definition rec_at (p : nat) : DnM crec :=
  c ← gets d_cache;
  match recs c !! p with Some r => mret r | None => fail Use_after_free end.
Definition store_rec (p : nat) (f : crec -> crec) : DnM unit :=
  r ← rec_at p;
  change (fun c => set_recs (<[p := f r]> (recs c)) c).
Definition flags_at (p : nat) : DnM Z := r ← rec_at p; mret (e_flags (c_entry r)).
Definition put_flags (p : nat) (g : Z -> Z) : DnM unit :=
  store_rec p (fun r => set_entry (set_flags (g (e_flags (c_entry r))) (c_entry r)) r).

(** ** Links *)

(** Remove an arbitrary entry. *)
Definition cache_unlink (crecp : nat) : DnM unit :=
  r ← rec_at crecp;
  match c_prev r with
  | Some prev => store_rec prev (set_next (c_next r))
  | None => change (set_head (c_next r))
  end;;
  r ← rec_at crecp;
  match c_next r with
  | Some next => store_rec next (set_prev (c_prev r))
  | None => change (set_tail (c_prev r))
  end.
(** Insert an entry at the head of the list, as the youngest. *)
Definition cache_link (crecp : nat) : DnM unit :=
  c ← gets d_cache;
  match cache_head c with Some head => store_rec head (set_prev (Some crecp)) | None => mret tt end;;
  store_rec crecp (fun r => set_prev None (set_next (cache_head c) r));;
  change (set_head (Some crecp));;
  match cache_tail c with None => change (set_tail (Some crecp)) | Some _ => mret tt end.
(** Give an entry up: it goes to the tail, and its big name to the free ones. *)
Definition cache_free (crecp : nat) : DnM unit :=
  cache_unlink crecp;;
  put_flags crecp (fun f => clear F_REVERSE (clear F_FORWARD f));;
  c ← gets d_cache;
  tail ← deref (cache_tail c);
  store_rec tail (set_next (Some crecp));;
  store_rec crecp (fun r => set_next None (set_prev (Some tail) r));;
  change (set_tail (Some crecp));;
  f ← flags_at crecp;
  when (has F_BIGNAME f)
    (change (fun c => set_big_free (S (big_free c)) c);;
     put_flags crecp (clear F_BIGNAME)).

(** Run [body] on each record of the list from [p] on; the next pointer is read before
    the body runs. *)
Fixpoint for_each (fuel : nat) (body : nat -> crec -> DnM unit) (p : option nat) : DnM unit :=
  match fuel with
  | O => fail Out_of_fuel
  | S fuel' =>
      match p with
      | None => mret tt
      | Some crecp =>
          r ← rec_at crecp;
          body crecp r;;
          for_each fuel' body (c_next r)
      end
  end.
(** A record that is freed during the walk is met once more at the tail. *)
Definition walk (body : nat -> crec -> DnM unit) : DnM unit :=
  c ← gets d_cache;
  for_each (2 * size (recs c) + 1) body (cache_head c).

(** ** The start *)

Definition blank : entry := Entry 0 0 [] [].
(** Link the records [i], [i + 1], ..., of the array. *)
Fixpoint link_array (n i : nat) : DnM unit :=
  match n with
  | O => mret tt
  | S n' =>
      change (fun c => set_recs (<[i := Crec None None blank]> (recs c)) c);;
      cache_link i;;
      put_flags i (fun _ => 0);;
      link_array n' (S i)
  end.
Definition cache_init (size : Z) : DnM unit :=
  change (fun _ => Cache None None ∅ 0 (Z.quot size 10) size 0 0);;
  when (0 <? size)
    (garbage ← safe_malloc;
     link_array (Z.to_nat size) 0).

(** ** Insertion *)

Definition cache_start_insert : DnM unit := walk (fun crecp _ => put_flags crecp (clear F_NEW)).
Definition cache_end_insert (failed : bool) : DnM unit :=
  when failed
    (walk (fun crecp r =>
       when (has F_NEW (e_flags (c_entry r))) (cache_free crecp;; put_flags crecp (clear F_NEW)))).

Definition KIND : Z := Z.lor F_REVERSE (Z.lor F_FORWARD (Z.lor F_IPV6 F_IPV4)).
Definition kind (flags : Z) : Z := Z.land flags KIND.
Definition HELD : Z := Z.lor F_HOSTS F_DHCP.
Definition FOUND : Z := Z.lor F_FORWARD F_REVERSE.
Definition same_addr (a b : list Z) : bool := bool_decide (take INADDRSZ a = take INADDRSZ b).
Definition same_name (a b : list Z) : bool := bool_decide (a = b).

(** An entry that has expired, or that has the name or the address that is inserted
    (an address is given with F_REVERSE). *)
Definition superseded (name : list Z) (addr : option (list Z)) (now flags : Z) (e : entry) : bool :=
  negb (has HELD (e_flags e)) &&
  ((has FOUND (e_flags e) && (e_ttd e <? now) && negb (has F_IMMORTAL (e_flags e)))
   || (negb (has F_NEW (e_flags e)) && (kind (e_flags e) =? flags)
       && ((has F_REVERSE flags && match addr with Some a => same_addr (e_addr e) a | None => false end)
           || (has F_FORWARD flags && same_name (e_name e) name)))).
(** Other entries for what the entry that is overwritten holds. *)
Definition fellow (old e : entry) : bool :=
  negb (has HELD (e_flags e)) && negb (has F_NEW (e_flags e)) && (kind (e_flags e) =? kind (e_flags old)).
Definition free_fellows (old : entry) (crecp : nat) (r : crec) : DnM unit :=
  when (fellow old (c_entry r))
    (when (has F_REVERSE (kind (e_flags old)) && same_addr (e_addr (c_entry r)) (e_addr old)) (cache_free crecp);;
     when (has F_FORWARD (kind (e_flags old)) && same_name (e_name (c_entry r)) (e_name old)) (cache_free crecp)).

(** The entry at the end of the list loses its link to the list. *)
Definition drop_tail (new : nat) : DnM unit :=
  r ← rec_at new;
  change (set_tail (c_prev r));;
  prev ← deref (c_prev r);
  store_rec prev (set_next None).
(** The loop that gets an entry; [None] sets [*fail], and the flag says that the
    entry has a big name. *)
Fixpoint grab (fuel : nat) (long_name : bool) : DnM (option (nat * bool)) :=
  match fuel with
  | O => fail Out_of_fuel
  | S fuel' =>
      c ← gets d_cache;
      new ← deref (cache_tail c);
      f ← flags_at new;
      if has F_NEW f then mret None
      else if has HELD f then drop_tail new;; cache_link new;; grab fuel' long_name
      else if long_name then
        match big_free c with
        | S n => change (set_big_free n);; drop_tail new;; mret (Some (new, true))
        | O =>
            if bignames_left c =? 0 then mret None
            else
              garbage ← safe_malloc;
              change (fun c => set_bignames_left (bignames_left c - 1) c);;
              drop_tail new;;
              mret (Some (new, true))
        end
      else drop_tail new;; mret (Some (new, false))
  end.

(** The entry that is written. *)
Definition new_entry (name : list Z) (addr : option (list Z)) (now ttl flags : Z) (big : bool) (old : entry) : entry :=
  let f := Z.lor F_NEW flags in
  let f := if big then Z.lor f F_BIGNAME else f in
  Entry (s32 (u32 (ttl + now)))
    (match addr with Some _ => f | None => Z.lor f F_NEG end)
    (match addr with Some a => take INADDRSZ a | None => e_addr old end)
    name.
(** The result is [*fail]. *)
Definition cache_insert (name : list Z) (addr : option (list Z)) (now ttl flags : Z) (failed : bool) : DnM bool :=
  c ← gets d_cache;
  if failed || (cache_size c =? 0) then mret failed
  else
    walk (fun crecp r => when (superseded name addr now flags (c_entry r)) (cache_free crecp));;
    got ← grab (size (recs c) + 1) (Nat.ltb (SMALLDNAME - 1) (length name));
    match got with
    | None => mret true
    | Some (new, big) =>
        r ← rec_at new;
        let old := c_entry r in
        when (has FOUND (e_flags old))
          (change (fun c => set_live_freed (s32 (cache_live_freed c + 1)) c);;
           walk (free_fellows old));;
        store_rec new (set_entry (new_entry name addr now ttl flags big old));;
        cache_link new;;
        change (fun c => set_inserted (s32 (cache_inserted c + 1)) c);;
        mret false
    end.

(** ** The searches *)

Definition by_name (name : list Z) (prot : Z) (e : entry) : bool :=
  has F_FORWARD (e_flags e) && has prot (e_flags e) && same_name (e_name e) name.
Definition by_addr (addr : list Z) (prot : Z) (e : entry) : bool :=
  has F_REVERSE (e_flags e) && has prot (e_flags e) && same_addr (e_addr e) addr.
Definition live (now : Z) (e : entry) : bool := has F_IMMORTAL (e_flags e) || (now <? e_ttd e).

(** The first search pushes what it finds to the top of the list and frees what has
    expired; the next ones go on from the record found before. *)
Definition found_at (m : entry -> bool) (p : option nat) : DnM (option nat) :=
  match p with
  | None => mret None
  | Some crecp => r ← rec_at crecp; mret (if m (c_entry r) then Some crecp else None)
  end.
Definition cache_find (m : entry -> bool) (crecp : option nat) (now : Z) : DnM (option nat) :=
  match crecp with
  | Some p => r ← rec_at p; found_at m (c_next r)
  | None =>
      walk (fun crecp r =>
        when (m (c_entry r))
          (if live now (c_entry r) then cache_unlink crecp;; cache_link crecp else cache_free crecp));;
      c ← gets d_cache;
      found_at m (cache_head c)
  end.
Definition cache_find_by_name (crecp : option nat) (name : list Z) (now prot : Z) : DnM (option nat) :=
  cache_find (by_name name prot) crecp now.
Definition cache_find_by_addr (crecp : option nat) (addr : list Z) (now prot : Z) : DnM (option nat) :=
  cache_find (by_addr addr prot) crecp now.

(** ** /etc/hosts *)

(** canonicalise of util.c: lower case, without a final period. *)
Definition canonicalise (s : list Z) : list Z :=
  let s' := tolower <$> s in
  match last s with Some 46 => removelast s' | _ => s' end.
(** A new record, linked in. *)
Definition fresh_rec (c : cache) : nat := fresh (dom (recs c)).
Definition add_rec (e : Z -> entry) : DnM unit :=
  garbage ← safe_malloc;
  c ← gets d_cache;
  let p := fresh_rec c in
  change (fun c => set_recs (<[p := Crec None None (e garbage)]> (recs c)) c);;
  cache_link p.

Definition blanks : list Z := [32; 9; 10].
Definition HOSTS_FLAGS : Z := Z.lor F_HOSTS (Z.lor F_IMMORTAL (Z.lor F_FORWARD (Z.lor F_REVERSE F_IPV4))).
(** The names of a line; only the first is returned to reverse queries. *)
Fixpoint host_names (fuel : nat) (rest addr : list Z) (flags : Z) : DnM unit :=
  match fuel with
  | O => fail Out_of_fuel
  | S fuel' =>
      match strtok blanks rest with
      | None => mret tt
      | Some (token, rest) =>
          match token with
          | 35 :: _ => mret tt
          | _ =>
              add_rec (fun garbage => Entry garbage flags addr (canonicalise token));;
              host_names fuel' rest addr (clear F_REVERSE flags)
          end
      end
  end.
Definition host_line (line : list Z) : DnM unit :=
  match strtok blanks (cstring line) with
  | None => mret tt
  | Some (token, rest) =>
      match token with
      | 35 :: _ => mret tt
      | _ =>
          match denv_inet_pton token with
          | Some addr => host_names (S (length rest)) rest addr HOSTS_FLAGS
          | None => mret tt
          end
      end
  end.
(** [while ((line = fgets(buff, MAXDNAME, f)))] *)
Fixpoint lines (fuel : nat) (body : list Z -> DnM unit) (file : list Z) : DnM unit :=
  match fuel with
  | O => fail Out_of_fuel
  | S fuel' =>
      let '(line, rest, _) := take_line (Z.to_nat (MAXDNAME - 1)) file in
      match line with
      | [] => mret tt
      | _ => body line;; lines fuel' body rest
      end
  end.

Definition cache_reload (no_hosts : bool) : DnM unit :=
  walk (fun crecp r =>
    let f := e_flags (c_entry r) in
    if has F_HOSTS f then cache_unlink crecp;; change (fun c => set_recs (delete crecp (recs c)) c)
    else if negb (has F_DHCP f) then
      when (has F_BIGNAME f) (change (fun c => set_big_free (S (big_free c)) c));;
      put_flags crecp (fun _ => 0)
    else mret tt);;
  if no_hosts then mret tt
  else
    f ← dsys denv_hosts;
    match f with
    | None => mret tt
    | Some file => lines (S (length file)) host_line file
    end.
End cache.
