(* ===== verification/DnsPacket.v ===== *)
(** * DnsPacket: messages of the domain name system (rfc1035.c)

    Names with compression, the sections of a message, what a reply adds to the cache, and
    the answers from the cache. *)

From stdpp Require Import strings.
From Stdlib Require Import Ascii String.
From S2P Require Import Prelude DhcpTypes DhcpOptions DhcpConfig DnsTypes DnsCache.

#[local] Open Scope Z_scope.

(** ** Names *)

(** The (signed) char of a byte. *)
Definition schar (b : Z) : Z := if b <? 128 then b else b - 256.
Definition DOT : Z := 46.

(** The loop that compares a label with the text at [cp]; the result is where the text
    goes on and whether a difference was seen. *)
Fixpoint compare_label (bytes : list Z) (cp : Z) (differ : bool) : DnM (Z * bool) :=
  match bytes with
  | [] => mret (cp, differ)
  | b :: bytes' =>
      name ← gets d_name;
      x ← in_bounds (load 1 name cp);
      let c := schar (of_be x) in
      if c =? 0 then compare_label bytes' cp true
      else compare_label bytes' (cp + 1) (differ || negb (c =? tolower b))
  end.
Definition compare_dot (cp : Z) (differ : bool) : DnM (Z * bool) :=
  name ← gets d_name;
  x ← in_bounds (load 1 name cp);
  let c := schar (of_be x) in
  if c =? 0 then mret (cp, differ) else mret (cp + 1, differ || negb (c =? DOT)).
Definition write_name (bytes : list Z) (cp : Z) : DnM Z :=
  name ← gets d_name;
  name' ← in_bounds (store bytes name cp);
  modify (set_name name');;
  mret (cp + Z.of_nat (List.length bytes)).

(** [None] is 0 (a bad packet); otherwise the end of the name at [p], the place to go
    back to after a pointer, and the state of the text. *)
Fixpoint extract_loop (fuel : nat) (plen : Z) (isExtract : bool) (p : Z) (p1 : option Z) (hops cp : Z) (differ : bool)
  : DnM (option (Z * option Z * Z * bool)) :=
  match fuel with
  | O => fail Out_of_fuel
  | S fuel' =>
      l ← peek p;
      let p := p + 1 in
      if l =? 0 then mret (Some (p, p1, cp, differ))
      else if Z.land l 0xc0 =? 0xc0 then
        if plen <=? p + 1 then mret None
        else
          low ← peek p;
          let l := Z.lor (Z.shiftl (Z.land l 0x3f) 8) low in
          let p := p + 1 in
          if plen <=? l then mret None
          else
            let p1 := match p1 with None => Some p | Some _ => p1 end in
            let hops := hops + 1 in
            if 255 <? hops then mret None
            else if plen <=? l then mret None
            else extract_loop fuel' plen isExtract l p1 hops cp differ
      else if MAXDNAME <=? cp + l + 1 then mret None
      else if plen <=? p + l then mret None
      else
        bytes ← peeks l p;
        let p := p + l in
        r ← (if isExtract then
               cp ← write_name ((tolower <$> bytes) ++ [DOT]) cp; mret (cp, differ)
             else
               r ← compare_label bytes cp differ; compare_dot (fst r) (snd r));
        if plen <=? p then mret None
        else extract_loop fuel' plen isExtract p p1 hops (fst r) (snd r)
  end.
(** Each turn passes a byte of the message or follows one of at most 255 pointers. *)
Definition name_fuel (plen : Z) : nat := 256 * S (Z.to_nat plen).
(** [None] is 0; otherwise 1, or 2 for a name that differs ([true]), and the new [*pp]. *)
Definition extract_name (plen pp : Z) (isExtract : bool) : DnM (option (bool * Z)) :=
  r ← extract_loop (name_fuel plen) plen isExtract pp None 0 0 false;
  match r with
  | None => mret None
  | Some (p, p1, cp, differ) =>
      let result := Some (differ, match p1 with Some p1 => p1 | None => p end) in
      if isExtract then
        if cp =? 0 then mret None
        else write_name [0] (cp - 1);; mret result
      else mret result
  end.

(** The parts of a name between the periods. *)
Fixpoint split_dots (s : list Z) : list (list Z) :=
  match s with
  | [] => [[]]
  | c :: s' =>
      if c =? DOT then [] :: split_dots s'
      else match split_dots s' with l :: ls => (c :: l) :: ls | [] => [[c]] end
  end.
Definition isdigit (c : Z) : bool := (48 <=? c) && (c <=? 57).
(** atoi() of a text of digits. *)
Definition atoi_digits (s : list Z) : Z := Z.min 2147483647 (fst (digits 10 0 s)).
(** The loop over the parts before ["in-addr"]. *)
Fixpoint shift_in (l : list (list Z)) (addr : list Z) : option (list Z) :=
  match l with
  | [] => Some addr
  | part :: l' =>
      if forallb isdigit part then
        match addr with
        | a0 :: a1 :: a2 :: _ => shift_in l' [u8 (atoi_digits part); a0; a1; a2]
        | _ => None
        end
      else None
  end.
(** The address and F_IPV4, or 0. *)
Definition in_arpa_name_2_addr (namein : list Z) : option (list Z) :=
  if Nat.ltb 44 (List.length namein) then None
  else
    let parts := split_dots namein in
    match rev parts with
    | lastchunk :: penchunk :: (_ :: _) as before =>
        if bool_decide (lastchunk = text "arpa") && bool_decide (penchunk = text "in-addr") then
          shift_in (rev (drop 2 before)) [0; 0; 0; 0]
        else None
    | _ => None
    end.

(** ** Sections *)

(** To the end of a name in the section of questions. *)
Fixpoint skip_name (fuel : nat) (plen ansp : Z) : DnM (option Z) :=
  match fuel with
  | O => fail Out_of_fuel
  | S fuel' =>
      if plen <=? ansp then mret None
      else
        l ← peek ansp;
        if Z.land l 0xc0 =? 0xc0 then mret (Some (ansp + 2))
        else if negb (l =? 0) then skip_name fuel' plen (ansp + l + 1)
        else mret (Some (ansp + 1))
  end.
Fixpoint skip_loop (qdcount : nat) (plen ansp : Z) : DnM (option Z) :=
  match qdcount with
  | O => mret (Some ansp)
  | S q =>
      r ← skip_name (S (Z.to_nat plen)) plen ansp;
      match r with
      | None => mret None
      | Some ansp => skip_loop q plen (ansp + 4)
      end
  end.
Definition skip_questions (plen : Z) : DnM (option Z) :=
  qdcount ← h_qdcount;
  r ← skip_loop (Z.to_nat qdcount) plen sizeof_HEADER;
  match r with
  | None => mret None
  | Some ansp => mret (if plen <? ansp then None else Some ansp)
  end.

(** Is the address (in network order) in the IP space that is not globally routed?
    inet_netof() gives the network part of its class. *)
Definition inet_netof (a : Z) : Z :=
  if negb (Z.testbit a 31) then Z.shiftr (Z.land a 0xff000000) 24
  else if negb (Z.testbit a 30) then Z.shiftr (Z.land a 0xffff0000) 16
  else Z.shiftr (Z.land a 0xffffff00) 8.
Definition private_net (addr : list Z) : bool :=
  let net := inet_netof (of_be addr) in
  (net =? 0xa) || ((0xac10 <=? net) && (net <? 0xac20)) || (Z.shiftr net 8 =? 0xc0a8).

(** The labels of a text: each with its length before it. *)
Fixpoint put_labels (fuel : nat) (name : list Z) : list Z :=
  match fuel, name with
  | S fuel', _ :: _ =>
      let '(label, rest) := cut [DOT] name in
      u8 (Z.of_nat (List.length label)) :: label ++ put_labels fuel' (drop 1 rest)
  | _, _ => []
  end.
Definition encoded (name : list Z) : list Z := put_labels (List.length name) name ++ [0].
Definition text_record (nameoffset ttl pref type : Z) (name : list Z) : list Z :=
  let data := (if pref =? 0 then [] else be16 pref) ++ encoded name in
  be16 (Z.lor nameoffset 0xc000) ++ be16 type ++ be16 C_IN ++ be32 ttl
    ++ be16 (Z.of_nat (List.length data)) ++ data.
Definition add_text_record (nameoffset p ttl pref type : Z) (name : list Z) : DnM Z :=
  put (text_record nameoffset ttl pref type name) p.
Definition address_record (nameoffset ttl : Z) (addr : list Z) : list Z :=
  be16 (Z.lor nameoffset 0xc000) ++ be16 T_A ++ be16 C_IN ++ be32 ttl ++ be16 (Z.of_nat INADDRSZ) ++ take INADDRSZ addr.

Section messages.
Context `{E : DnsEnv}.

(** ** What a reply adds to the cache *)

(** The names of the cache are those of dnamebuff. *)
Definition insert_name (addr : option (list Z)) (now ttl flags : Z) (cache_fail : bool) : DnM bool :=
  name ← name_text;
  cache_insert name addr now ttl flags cache_fail.

(** The fields of a resource record after its name: type, class, TTL, length of the
    data, and where the data starts. *)
Definition rr_fields (p : Z) : DnM (Z * Z * Z * Z * Z) :=
  '(qtype, p) ← GETSHORT p;
  '(qclass, p) ← GETSHORT p;
  '(ttl, p) ← GETLONG p;
  '(rdlen, p) ← GETSHORT p;
  mret (qtype, qclass, ttl, rdlen, p).
Definition is_type (t qtype qclass : Z) : bool := (qclass =? C_IN) && (qtype =? t).

(** The SOA records: the smallest TTL, [None] for a bad packet. [found] is [minttl] once
    [found_soa] is set. *)
Fixpoint soa_loop (n : nat) (qlen p : Z) (found : option Z) : DnM (option (option Z)) :=
  match n with
  | O => mret (Some found)
  | S n' =>
      r ← extract_name qlen p true;
      match r with
      | None => mret None
      | Some (_, p) =>
          '(qtype, qclass, ttl, rdlen, p) ← rr_fields p;
          next ← (if is_type T_SOA qtype qclass then
                    mname ← extract_name qlen p true;
                    match mname with
                    | None => mret None
                    | Some (_, p) =>
                        rname ← extract_name qlen p true;
                        match rname with
                        | None => mret None
                        | Some (_, p) =>
                            '(_, p) ← GETLONG p;
                            '(_, p) ← GETLONG p;
                            '(_, p) ← GETLONG p;
                            '(_, p) ← GETLONG p;
                            let minttl := match found with Some m => Z.min ttl m | None => ttl end in
                            '(ttl, p) ← GETLONG p;
                            mret (Some (p, Some (Z.min ttl minttl)))
                        end
                    end
                  else mret (Some (p + rdlen, found)));
          match next with
          | None => mret None
          | Some (p, found) => if qlen <? p then mret None else soa_loop n' qlen p found
          end
      end
  end.
(** A negative entry for each question; [None] for a bad packet. *)
Fixpoint neg_loop (n : nat) (qlen p now minttl : Z) (cache_fail : bool) : DnM (option bool) :=
  match n with
  | O => mret (Some cache_fail)
  | S n' =>
      r ← extract_name qlen p true;
      match r with
      | None => mret None
      | Some (_, p) =>
          '(qtype, p) ← GETSHORT p;
          '(qclass, p) ← GETSHORT p;
          cache_fail ← (if is_type T_A qtype qclass then
                          insert_name None now minttl (Z.lor F_IPV4 F_FORWARD) cache_fail
                        else mret cache_fail);
          neg_loop n' qlen p now minttl cache_fail
      end
  end.
Definition extract_neg_addrs (qlen : Z) : DnM unit :=
  now ← time_;
  ancount ← h_ancount;
  if negb (ancount =? 0) then mret tt
  else
    p ← skip_questions qlen;
    match p with
    | None => mret tt
    | Some p =>
        nscount ← h_nscount;
        soa ← soa_loop (Z.to_nat nscount) qlen p None;
        match soa with
        | None | Some None => mret tt
        | Some (Some minttl) =>
            cache_start_insert;;
            qdcount ← h_qdcount;
            r ← neg_loop (Z.to_nat qdcount) qlen sizeof_HEADER now minttl false;
            match r with None => mret tt | Some cache_fail => cache_end_insert cache_fail end
        end
    end.

(** A record of an answer whose owner's name is in dnamebuff: its data are at [p].
    [None] for a bad packet. *)
Definition insert_record (qlen qtype now ttl p : Z) (cache_fail : bool) : DnM (option bool) :=
  if qtype =? T_A then
    addr ← peeks (Z.of_nat INADDRSZ) p;
    Some <$> insert_name (Some addr) now ttl (Z.lor F_IPV4 F_FORWARD) cache_fail
  else if qtype =? T_PTR then
    name ← name_text;
    match in_arpa_name_2_addr name with
    | None => mret (Some cache_fail)
    | Some addr =>
        r ← extract_name qlen p true;
        match r with
        | None => mret None
        | Some _ => Some <$> insert_name (Some addr) now ttl (Z.lor F_IPV4 F_REVERSE) cache_fail
        end
    end
  else mret (Some cache_fail).
(** The whole answer section again for the target of a CNAME, whose name is at [targp]. *)
Fixpoint cname_loop (n : nat) (qlen targp origname p now ttl : Z) (cache_fail : bool) : DnM (option bool) :=
  match n with
  | O => mret (Some cache_fail)
  | S n' =>
      t ← extract_name qlen targp true;
      match t with
      | None => mret None
      | Some _ =>
          r ← extract_name qlen p false;
          match r with
          | None => mret None
          | Some (differ, p) =>
              '(qtype, qclass, cttl, rdlen, p) ← rr_fields p;
              let endrr1 := p + rdlen in
              if qlen <? endrr1 then mret None
              else if negb (qclass =? C_IN) || differ then cname_loop n' qlen targp origname endrr1 now ttl cache_fail
              else
                o ← extract_name qlen origname true;
                match o with
                | None => mret None
                | Some _ =>
                    r ← insert_record qlen qtype now (Z.min ttl cttl) p cache_fail;
                    match r with
                    | None => mret None
                    | Some cache_fail => cname_loop n' qlen targp origname endrr1 now ttl cache_fail
                    end
                end
          end
      end
  end.
Fixpoint answer_loop (n : nat) (ancount : nat) (qlen psave p now : Z) (cache_fail : bool) : DnM (option bool) :=
  match n with
  | O => mret (Some cache_fail)
  | S n' =>
      let origname := p in
      r ← extract_name qlen p true;
      match r with
      | None => mret None
      | Some (_, p) =>
          '(qtype, qclass, ttl, rdlen, p) ← rr_fields p;
          let endrr := p + rdlen in
          if qlen <? endrr then mret None
          else
            r ← (if negb (qclass =? C_IN) then mret (Some cache_fail)
                 else if qtype =? T_CNAME then cname_loop ancount qlen p origname psave now ttl cache_fail
                 else insert_record qlen qtype now ttl p cache_fail);
            match r with
            | None => mret None
            | Some cache_fail => answer_loop n' ancount qlen psave endrr now cache_fail
            end
      end
  end.
Definition extract_addresses (qlen : Z) : DnM unit :=
  now ← time_;
  b3 ← h_bits3;
  ancount ← h_ancount;
  when ((h_rcode b3 =? NXDOMAIN) || (ancount =? 0)) (extract_neg_addrs qlen);;
  p ← skip_questions qlen;
  match p with
  | None => mret tt
  | Some p =>
      cache_start_insert;;
      ancount ← h_ancount;
      let n := Z.to_nat ancount in
      r ← answer_loop n n qlen p p now false;
      match r with None => mret tt | Some cache_fail => cache_end_insert cache_fail end
  end.

(** ** Queries *)

(** 1 when the message holds exactly one query; its name is then in dnamebuff. *)
Definition extract_request (qlen : Z) : DnM bool :=
  qdcount ← h_qdcount;
  b2 ← h_bits2;
  if negb (qdcount =? 1) || negb (h_opcode b2 =? QUERY) then mret false
  else
    r ← extract_name qlen sizeof_HEADER true;
    mret (match r with Some _ => true | None => false end).

(** The options of read_opts() that the answers use. *)
Record dns_config : Type := DnsConfig {
  options : Z;
  mxname : option (list Z);
  mxtarget : list Z
}.
Definition opt (mask : Z) (c : dns_config) : bool := has mask (options c).

(** strstr(url, "://"), and the address of the router's page without "http://". *)
Fixpoint has_scheme (s : list Z) : bool :=
  match s with
  | [] => false
  | c :: s' => bool_decide (take 3 s = text "://") || has_scheme s'
  end.
Definition router_url : DnM (list Z) :=
  let url_tmp := denv_nvram "url_address"%string in
  if has_scheme url_tmp then in_bounds (if decide (7 <= List.length url_tmp)%nat then Some (drop 7 url_tmp) else None)
  else mret url_tmp.
(** !strncasecmp(name, url, strlen(url)) *)
Definition names_router (name url : list Z) : bool :=
  bool_decide ((tolower <$> take (List.length url) name) = (tolower <$> url)).

(** What a part of the answer gives: return 0, or the place for the next record, the
    records so far and whether the question is answered. *)
Definition part : Type := option (Z * Z * bool).
Definition fits (limit ansp : Z) (k : DnM part) : DnM part := if limit <? ansp then mret None else k.
Definition ttl_of (e : entry) (now : Z) : Z := if has F_IMMORTAL (e_flags e) then 0 else u32 (e_ttd e - now).

(** [while ((crecp = cache_find_by_addr(crecp, ...)))] *)
Fixpoint ptr_loop (fuel : nat) (limit nameoffset qtype now : Z) (addr : list Z) (crecp : option nat) (ansp anscount : Z) (ans : bool)
  : DnM part :=
  match fuel with
  | O => fail Out_of_fuel
  | S fuel' =>
      crecp ← cache_find_by_addr crecp addr now F_IPV4;
      match crecp with
      | None => mret (Some (ansp, anscount, ans))
      | Some p =>
          r ← rec_at p;
          let e := c_entry r in
          if (qtype =? T_ANY) && negb (has HELD (e_flags e)) then mret None
          else
            ansp ← add_text_record nameoffset ansp (ttl_of e now) 0 T_PTR (e_name e);
            fits limit ansp (ptr_loop fuel' limit nameoffset qtype now addr (Some p) ansp (anscount + 1) true)
      end
  end.
(** The decimal digits of a byte, and inet_ntop(). *)
Definition decimal (b : Z) : list Z :=
  (if 100 <=? b then [48 + b / 100] else []) ++ (if 10 <=? b then [48 + b / 10 mod 10] else []) ++ [48 + b mod 10].
Definition inet_ntop (addr : list Z) : list Z :=
  match addr with
  | [a; b; c; d] => decimal a ++ DOT :: decimal b ++ DOT :: decimal c ++ DOT :: decimal d
  | _ => []
  end.
Definition answer_ptr (fuel : nat) (cfg : dns_config) (limit nameoffset qtype now : Z) (arpa : option (list Z)) (ansp anscount : Z) (ans : bool)
  : DnM part :=
  match arpa with
  | Some addr =>
      if (qtype =? T_PTR) || (qtype =? T_ANY) then
        r ← ptr_loop fuel limit nameoffset qtype now addr None ansp anscount ans;
        match r with
        | None => mret None
        | Some (ansp, anscount, ans) =>
            if negb ans && opt OPT_BOGUSPRIV cfg && private_net addr then
              ansp ← add_text_record nameoffset ansp 0 0 T_PTR (inet_ntop addr);
              fits limit ansp (mret (Some (ansp, anscount + 1, true)))
            else mret (Some (ansp, anscount, ans))
        end
      else mret (Some (ansp, anscount, ans))
  | None => mret (Some (ansp, anscount, ans))
  end.

(** [while ((crecp = cache_find_by_name(crecp, name, now, F_IPV4)))] *)
Fixpoint a_loop (fuel : nat) (limit nameoffset qtype now : Z) (name : list Z) (crecp : option nat) (ansp anscount : Z) (ans : bool)
  : DnM part :=
  match fuel with
  | O => fail Out_of_fuel
  | S fuel' =>
      crecp ← cache_find_by_name crecp name now F_IPV4;
      match crecp with
      | None => mret (Some (ansp, anscount, ans))
      | Some p =>
          r ← rec_at p;
          let e := c_entry r in
          if (qtype =? T_ANY) && negb (has HELD (e_flags e)) then mret None
          else if has F_NEG (e_flags e) then a_loop fuel' limit nameoffset qtype now name (Some p) ansp anscount true
          else
            ansp ← put (address_record nameoffset (ttl_of e now) (e_addr e)) ansp;
            fits limit ansp (a_loop fuel' limit nameoffset qtype now name (Some p) ansp (anscount + 1) true)
      end
  end.
Definition UNDERSCORE : Z := 95.
Definition answer_a (fuel : nat) (cfg : dns_config) (limit nameoffset qtype now : Z) (name : list Z) (arpa : option (list Z))
    (ansp anscount : Z) (ans : bool) : DnM part :=
  match arpa with
  | None =>
      if (qtype =? T_A) || (qtype =? T_ANY) then
        if opt OPT_FILTER cfg && (qtype =? T_ANY) && in_set name UNDERSCORE then mret (Some (ansp, anscount, true))
        else a_loop fuel limit nameoffset qtype now name None ansp anscount ans
      else mret (Some (ansp, anscount, ans))
  | Some _ => mret (Some (ansp, anscount, ans))
  end.

(** [options && OPT_SELFMX] of the source holds for any options. *)
Definition answer_mx (cfg : dns_config) (limit nameoffset qtype now : Z) (name : list Z) (arpa : option (list Z)) (ansp anscount : Z) (ans : bool)
  : DnM part :=
  match arpa with
  | None =>
      if (qtype =? T_MX) || (qtype =? T_ANY) then
        r ← (if bool_decide (mxname cfg = Some name) then
               ansp ← add_text_record nameoffset ansp 0 1 T_MX (mxtarget cfg);
               mret (ansp, anscount + 1, true)
             else if negb (options cfg =? 0) then
               found ← cache_find_by_name None name now HELD;
               match found with
               | Some _ =>
                   ansp ← add_text_record nameoffset ansp 0 1 T_MX name;
                   mret (ansp, anscount + 1, true)
               | None => mret (ansp, anscount, ans)
               end
             else mret (ansp, anscount, ans));
        fits limit (fst (fst r)) (mret (Some r))
      else mret (Some (ansp, anscount, ans))
  | Some _ => mret (Some (ansp, anscount, ans))
  end.

(** The query for the name of the router's page is answered with its address. *)
Definition answer_router (nameoffset ansp anscount : Z) : DnM Z :=
  addr ← (match denv_inet_aton (denv_nvram "lan_ipaddr"%string) with Some a => mret a | None => fail Uninitialised end);
  ansp ← put (address_record nameoffset 0 addr) ansp;
  set_answer_header true (anscount + 1);;
  mret ansp.

(** The result of a question: return with the size, or go on with the next one. *)
Inductive question : Type := Return (m : Z) | Go_on (p ansp anscount : Z).
Definition answer_question (cfg : dns_config) (limit qlen now p ansp anscount : Z) : DnM question :=
  let nameoffset := p in
  r ← extract_name qlen p true;
  match r with
  | None => mret (Return 0)
  | Some (_, p) =>
      name ← name_text;
      let is_arpa := in_arpa_name_2_addr name in
      '(qtype, p) ← GETSHORT p;
      '(qclass, p) ← GETSHORT p;
      if negb (qclass =? C_IN) then mret (Return 0)
      else
        let ans := opt OPT_FILTER cfg && ((qtype =? T_SOA) || (qtype =? T_SRV)) in
        url ← router_url;
        if (qtype =? T_A) && names_router name url then
          ansp ← answer_router nameoffset ansp anscount; mret (Return ansp)
        else
          c ← gets d_cache;
          let fuel := (size (recs c) + 2)%nat in
          r ← answer_ptr fuel cfg limit nameoffset qtype now is_arpa ansp anscount ans;
          match r with
          | None => mret (Return 0)
          | Some (ansp, anscount, ans) =>
              r ← answer_a fuel cfg limit nameoffset qtype now name is_arpa ansp anscount ans;
              match r with
              | None => mret (Return 0)
              | Some (ansp, anscount, ans) =>
                  r ← answer_mx cfg limit nameoffset qtype now name is_arpa ansp anscount ans;
                  match r with
                  | None => mret (Return 0)
                  | Some (ansp, anscount, ans) =>
                      mret (if ans : bool then Go_on p ansp anscount else Return 0)
                  end
              end
          end
  end.
Fixpoint question_loop (n : nat) (cfg : dns_config) (limit qlen now p ansp anscount : Z) : DnM Z :=
  match n with
  | O => set_answer_header false anscount;; mret ansp
  | S n' =>
      r ← answer_question cfg limit qlen now p ansp anscount;
      match r with
      | Return m => mret m
      | Go_on p ansp anscount => question_loop n' cfg limit qlen now p ansp anscount
      end
  end.
(** 0 when the query cannot be answered here, or the size of the answer. *)
Definition answer_request (cfg : dns_config) (limit qlen : Z) : DnM Z :=
  qdcount ← h_qdcount;
  now ← time_;
  b2 ← h_bits2;
  if (qdcount =? 0) || negb (h_opcode b2 =? QUERY) then mret 0
  else
    r ← skip_questions qlen;
    match r with
    | None => mret 0
    | Some ansp => question_loop (Z.to_nat qdcount) cfg limit qlen now sizeof_HEADER ansp 0
    end.
End messages.
