(* ===== verification/DnsForward.v ===== *)
(** * DnsForward: queries that are passed on (forward.c, the message buffers of dnsmasq.c)

    The table of outstanding queries, the choice of a server, the retries, and the
    replies. *)

From stdpp Require Import gmap.
From S2P Require Import Prelude DnsTypes DnsCache DnsPacket.

#[local] Open Scope Z_scope.

Section forward.
Context `{E : DnsEnv}.

(** ** Access through pointers *)

Definition srv (p : option nat) : DnM server :=
  i ← deref p;
  h ← gets d_heap;
  match h !! i with Some s => mret s | None => fail Use_after_free end.
Definition frec_at (i : nat) : DnM frec := l ← gets ftab; in_bounds (l !! i).
Definition change_frec (i : nat) (g : frec -> frec) : DnM unit := f ← frec_at i; l ← gets ftab; modify (set_ftab (<[i := g f]> l)).
Definition data_of (f : frec) : DnM frec_data := match f_data f with Some d => mret d | None => fail Uninitialised end.
Definition buf_of (f : frec) : DnM (option nat) := match f_msg_buf f with Some b => mret b | None => fail Uninitialised end.
Definition buf_at (i : nat) : DnM msg_buf := l ← gets dnsMsgBuf; in_bounds (l !! i).
Definition change_buf (i : nat) (g : msg_buf -> msg_buf) : DnM unit := b ← buf_at i; l ← gets dnsMsgBuf; modify (set_bufs (<[i := g b]> l)).

(** The server after [p], and the first of the list after the last. *)
Definition next_server (p servers : option nat) : DnM (option nat) :=
  s ← srv p; mret (match s_next s with Some n => Some n | None => servers end).

(** ** The message buffers *)

Definition DNS_MSG_BUF_NUM : Z := Z.of_nat FTABSIZ.
Definition init_dns_msg_buf : DnM unit := l ← gets dnsMsgBuf; modify (set_bufs (set_usedflag false <$> l)).
(** [for(ii = i++; i != ii; i++)]: the loop never meets [ii] again when it is 0. *)
Fixpoint buf_loop (fuel : nat) (ii : Z) : DnM (option nat) :=
  match fuel with
  | O => fail Out_of_fuel
  | S fuel' =>
      i ← gets d_buf_i;
      if i =? ii then mret None
      else
        let i := Z.rem i DNS_MSG_BUF_NUM in
        modify (set_buf_i i);;
        b ← buf_at (Z.to_nat i);
        if negb (b_usedflag b) then change_buf (Z.to_nat i) (set_usedflag true);; mret (Some (Z.to_nat i))
        else modify (set_buf_i (i + 1));; buf_loop fuel' ii
  end.
Definition get_dns_msg_buf : DnM (option nat) :=
  ii ← gets d_buf_i;
  modify (set_buf_i (ii + 1));;
  buf_loop (FTABSIZ + 1) ii.
Definition free_dns_msg_buf (p : option nat) : DnM unit :=
  match p with Some i => change_buf i (set_usedflag false) | None => mret tt end.
(** What the callers do with the buffer of an entry. *)
Definition release (i : nat) : DnM unit :=
  f ← frec_at i;
  b ← buf_of f;
  match b with
  | Some _ => free_dns_msg_buf b;; change_frec i (set_msg_buf None)
  | None => mret tt
  end.

(** ** The table *)

(** safe_malloc() of the table; its contents are arbitrary. *)
Definition forward_init (first : option (list frec)) : DnM unit :=
  match first with
  | Some contents => garbage ← safe_malloc; modify (set_ftab contents)
  | None => mret tt
  end;;
  l ← gets ftab;
  modify (set_ftab (set_new_id 0 <$> l)).

Fixpoint new_frec_loop (l : list frec) (i oldest : nat) (oldtime now : Z) : DnM nat :=
  match l with
  | [] => change_frec oldest (set_time now);; mret oldest
  | f :: l' =>
      let '(oldest, oldtime) := if f_time f <=? oldtime then (i, f_time f) else (oldest, oldtime) in
      if f_new_id f =? 0 then change_frec i (fun f => set_msg_buf None (set_time now f));; mret i
      else new_frec_loop l' (S i) oldest oldtime now
  end.
Definition get_new_frec (now : Z) : DnM nat := l ← gets ftab; new_frec_loop l 0 0 now now.

Fixpoint find_id (l : list frec) (i : nat) (id : Z) : option nat :=
  match l with
  | [] => None
  | f :: l' => if f_new_id f =? id then Some i else find_id l' (S i) id
  end.
Definition lookup_frec (id : Z) : DnM (option nat) := l ← gets ftab; mret (find_id l 0 id).

(** sockaddr_isequal of util.c *)
Definition sockaddr_isequal (a b : sockaddr) : bool :=
  (sa_family a =? sa_family b) && (sa_family a =? AF_INET) && (sin_port a =? sin_port b) && bool_decide (sin_addr a = sin_addr b).
Fixpoint find_sender (l : list frec) (i : nat) (id : Z) (addr : sockaddr) : DnM (option nat) :=
  match l with
  | [] => mret None
  | f :: l' =>
      if f_new_id f =? 0 then find_sender l' (S i) id addr
      else
        d ← data_of f;
        if (f_orig_id d =? id) && sockaddr_isequal (f_source d) addr then mret (Some i)
        else find_sender l' (S i) id addr
  end.
Definition lookup_frec_by_sender (id : Z) (addr : sockaddr) : DnM (option nat) := l ← gets ftab; find_sender l 0 id addr.

(** rand16 of util.c: the generator is seeded before its first use. *)
Definition rand16 : DnM Z := r ← dsys denv_rand; mret (u16 (Z.shiftr r 15)).
(** A random id that is not in use. *)
Fixpoint get_id (fuel : nat) : DnM Z :=
  match fuel with
  | O => fail Out_of_fuel
  | S fuel' =>
      ret ← rand16;
      if ret =? 0 then get_id fuel'
      else
        used ← lookup_frec ret;
        match used with Some _ => get_id fuel' | None => mret ret end
  end.

(** ** A query *)

Definition ends_with (name domain : list Z) : bool :=
  (length domain <=? length name)%nat && bool_decide (drop (length name - length domain) name = domain).
(** The largest domain of the servers that the name ends with. *)
Fixpoint match_domain (fuel : nat) (p : option nat) (name : list Z) (domain : option (list Z)) (matchlen : nat) : DnM (option (list Z)) :=
  match fuel with
  | O => fail Out_of_fuel
  | S fuel' =>
      match p with
      | None => mret domain
      | Some _ =>
          s ← srv p;
          let '(domain, matchlen) :=
            match s_domain s with
            | Some d => if ends_with name d && (matchlen <? length d)%nat then (Some d, length d) else (domain, matchlen)
            | None => (domain, matchlen)
            end in
          match_domain fuel' (s_next s) name domain matchlen
      end
  end.

(** A server for the domain, or one without a domain. *)
Definition serves (domain : option (list Z)) (s : server) : bool := bool_decide (s_domain s = domain).
(** The copy of the query for the next servers. *)
Definition back_up (i : nat) (plen : Z) (firstsentto sentto servers : option nat) (orig_id : Z) : DnM unit :=
  f ← frec_at i;
  b ← buf_of f;
  match b with
  | Some _ => mret tt
  | None =>
      b ← get_dns_msg_buf;
      change_frec i (set_msg_buf b);;
      match b with
      | None => mret tt
      | Some j =>
          next ← next_server sentto servers;
          query ← peeks plen 0;
          b ← buf_at j;
          h ← in_bounds (store query (b_header b) 0);
          h ← in_bounds (store (be16 orig_id) h 0);
          change_buf j (fun b => MsgBuf servers firstsentto next plen h (b_usedflag b))
      end
  end.
(** Try the servers in a circle; the result is [sendnotfail]. *)
Fixpoint send_loop (fuel : nat) (i : nat) (plen : Z) (domain : option (list Z)) (firstsentto servers : option nat) : DnM bool :=
  match fuel with
  | O => fail Out_of_fuel
  | S fuel' =>
      f ← frec_at i;
      d ← data_of f;
      s ← srv (f_sentto d);
      sent ← (if serves domain s then query ← peeks plen 0; sendto (To_server query (s_addr s)) else mret false);
      if sent : bool then back_up i plen firstsentto (f_sentto d) servers (f_orig_id d);; mret true
      else
        next ← next_server (f_sentto d) servers;
        change_frec i (set_data (set_sentto next d));;
        if bool_decide (next = firstsentto) then mret false
        else send_loop fuel' i plen domain firstsentto servers
  end.

(** The answer without records, to the one who asked. *)
Definition answer_empty (udpfd : nat) (udpaddr : sockaddr) (plen : Z) : DnM unit :=
  set_answer_header false 0;;
  bytes ← peeks plen 0;
  _ ← sendto (To_client udpfd bytes udpaddr);
  mret tt.
(** The entry of the query and the domain of the servers it is for. *)
Definition retry (i : nat) (servers : option nat) : DnM (option (list Z)) :=
  f ← frec_at i;
  d ← data_of f;
  s ← srv (f_sentto d);
  next ← next_server (f_sentto d) servers;
  change_frec i (set_data (set_sentto next d));;
  put_id (f_new_id f);;
  mret (s_domain s).
Definition new_query (id_fuel udpfd : nat) (udpaddr : sockaddr) (now id : Z) (gotname strict_order : bool) (servers last_server : option nat)
  : DnM (nat * option (list Z)) :=
  i ← get_new_frec now;
  h ← gets d_heap;
  domain ← (if gotname then name ← name_text; match_domain (size h + 1) servers name None 0 else mret None);
  let sentto := if bool_decide (is_Some domain) || strict_order then servers else last_server in
  new_id ← get_id id_fuel;
  change_frec i (fun f => set_new_id new_id (set_data (FrecData udpaddr sentto id udpfd) f));;
  put_id new_id;;
  mret (i, domain).
(** The result is the new [last_server], which it never changes. *)
Definition forward_query (id_fuel udpfd : nat) (udpaddr : sockaddr) (plen : Z) (strict_order : bool) (servers last_server : option nat) : DnM unit :=
  now ← time_;
  gotname ← extract_request plen;
  b2 ← h_bits2;
  id ← h_id;
  if negb (h_rd b2) || bool_decide (servers = None) then answer_empty udpfd udpaddr plen
  else
    known ← lookup_frec_by_sender id udpaddr;
    r ← (match known with
         | Some i => domain ← retry i servers; mret (i, domain)
         | None => new_query id_fuel udpfd udpaddr now id gotname strict_order servers last_server
         end);
    let '(i, domain) := r in
    h ← gets d_heap;
    f ← frec_at i;
    d ← data_of f;
    sent ← send_loop (size h + 1) i plen domain (f_sentto d) servers;
    if sent : bool then mret tt
    else
      put_id (f_orig_id d);;
      change_frec i (set_new_id 0);;
      answer_empty udpfd udpaddr plen.

(** ** Retries *)

Fixpoint reforward_loop (fuel : nat) (j : nat) (domain : option (list Z)) : DnM bool :=
  match fuel with
  | O => fail Out_of_fuel
  | S fuel' =>
      b ← buf_at j;
      s ← srv (b_nextsentto b);
      sent ← (if serves domain s then
                query ← in_bounds (load_len (b_plen b) (b_header b) 0);
                sendto (To_server query (s_addr s))
              else mret false);
      next ← next_server (b_nextsentto b) (b_servers b);
      change_buf j (set_nextsentto next);;
      if sent : bool then mret true
      else if bool_decide (next = b_firstsentto b) then mret false
      else reforward_loop fuel' j domain
  end.
(** The query of an entry to the next server: true for 0, false for -1. *)
Definition reforward_query (i : nat) : DnM bool :=
  f ← frec_at i;
  p ← buf_of f;
  match p with
  | None => mret false
  | Some j =>
      b ← buf_at j;
      if bool_decide (b_nextsentto b = b_firstsentto b) then mret false
      else
        s ← srv (b_firstsentto b);
        h ← in_bounds (store (be16 (f_new_id f)) (b_header b) 0);
        change_buf j (set_b_header h);;
        heap ← gets d_heap;
        reforward_loop (size heap + 1) j (s_domain s)
  end.

Definition WAIT_TIMEOUT : Z := 5.
Definition DNS_TIMER : Z := 1.
(** The header alone, and a byte more. *)
Definition empty_packet (id : Z) : list Z := be16 id ++ [0x80; 0x80] ++ replicate 9 0.
Definition check_response (now : Z) (i : nat) : DnM unit :=
  f ← frec_at i;
  if f_new_id f =? 0 then mret tt
  else
    b ← buf_of f;
    match b with
    | Some _ =>
        when (DNS_TIMER <=? now - f_time f)
          (again ← reforward_query i;
           if again : bool then change_frec i (set_time now)
           else free_dns_msg_buf b;; change_frec i (set_msg_buf None))
    | None =>
        when (WAIT_TIMEOUT <=? now - f_time f)
          (d ← data_of f;
           _ ← sendto (To_client (f_fd d) (empty_packet (f_orig_id d)) (f_source d));
           change_frec i (set_new_id 0))
    end.
Definition check_servers_response : DnM unit :=
  now ← time_;
  for_n FTABSIZ 0 (check_response now).

(** ** A reply *)

Definition return_reply (i : nat) (n : Z) : DnM unit :=
  f ← frec_at i;
  d ← data_of f;
  put_id (f_orig_id d);;
  clear_tc;;
  bytes ← peeks n 0;
  _ ← sendto (To_client (f_fd d) bytes (f_source d));
  change_frec i (set_new_id 0).
(** recv() into the packet: the number of bytes. *)
Definition receive (r : option (list Z * sockaddr)) : DnM Z :=
  match r with
  | None => mret (-1)
  | Some (bytes, _) =>
      let bytes := take (Z.to_nat PACKETSZ) bytes in
      put bytes 0;; mret (Z.of_nat (length bytes))
  end.
(** The result is the new [last_server]. *)
Definition reply_query (last_server : option nat) : DnM (option nat) :=
  r ← dsys denv_recv;
  n ← receive r;
  b2 ← h_bits2;
  if (n <? sizeof_HEADER) || negb (h_qr b2) then mret last_server
  else
    id ← h_id;
    found ← lookup_frec id;
    match found with
    | None => mret last_server
    | Some i =>
        b3 ← h_bits3;
        let rcode := h_rcode b3 in
        if rcode =? NOERROR then
          release i;;
          f ← frec_at i;
          d ← data_of f;
          s ← srv (f_sentto d);
          let last_server := match s_domain s with None => f_sentto d | Some _ => last_server end in
          when (h_opcode b2 =? QUERY) (extract_addresses n);;
          return_reply i n;;
          mret last_server
        else if (rcode =? SERVFAIL) || (rcode =? NOTIMP) || (rcode =? REFUSED) then mret last_server
        else
          release i;;
          return_reply i n;;
          mret last_server
    end.
End forward.
