(* ===== verification/DnsMain.v ===== *)
(** * DnsMain: leases, servers and the main loop of the DNS forwarder (dhcp.c, network.c, dnsmasq.c)

    The reader of ISC lease files and the entries of the cache that it makes; the list of
    servers; the start of the program and the turns of its loop. *)

From stdpp Require Import gmap.
From Stdlib Require Import String.
From S2P Require Import Prelude DhcpTypes DhcpOptions DhcpConfig DnsTypes DnsCache DnsPacket DnsForward.

#[local] Open Scope Z_scope.

(** ** Leases *)


(** *** Tokens *)

Definition MAXTOK : nat := 150.
(** What is left after a comment, from its newline on; without one the end of the file
    is taken for a character, which a char holds as 255. *)
Fixpoint skip_comment (s : list Z) : Z * list Z :=
  match s with
  | [] => (255, [])
  | c :: s' => if c =? 10 then (c, s') else skip_comment s'
  end.
Definition ends_token (c : Z) : bool := (c =? 32) || (c =? 9) || (c =? 10) || (c =? 59).
(** [token] holds the characters so far. *)
Fixpoint next_token (fuel buffsize : nat) (token s : list Z) : option (list Z) * list Z :=
  match fuel, s with
  | S fuel', c :: s' =>
      let '(c, s') := if c =? 35 then skip_comment s' else (c, s') in
      if ends_token c then
        match token with [] => next_token fuel' buffsize [] s' | _ => (Some token, s') end
      else if negb (c =? 34) && (List.length token <? buffsize - 1)%nat then next_token fuel' buffsize (token ++ [c]) s'
      else next_token fuel' buffsize token s'
  | _, _ => (match token with [] => None | _ => Some token end, [])
  end.
Definition token_of (s : list Z) : option (list Z) * list Z := next_token (List.length s) MAXTOK [] s.

(** *** Dates *)

(** A number that sscanf reads with %d, and the rest. *)
Definition scan_int (s : list Z) : option (Z * list Z) :=
  let s := skip [32; 9; 10; 11; 12; 13] s in
  let '(sign, s) := match s with 45 :: s' => (-1, s') | 43 :: s' => (1, s') | _ => (1, s) end in
  match s with
  | c :: _ => if isdigit c then let '(v, rest) := digits 10 0 s in Some (Z.max (-2147483648) (Z.min (sign * v) 2147483647), rest) else None
  | [] => None
  end.
(** sscanf() with three numbers and a character between them, when it returns 3. *)
Definition scan3 (sep : Z) (s : list Z) : option (Z * Z * Z) :=
  match scan_int s with
  | Some (a, x :: s) =>
      if x =? sep then
        match scan_int s with
        | Some (b, y :: s) =>
            if y =? sep then match scan_int s with Some (c, _) => Some (a, b, c) | None => None end else None
        | _ => None
        end
      else None
  | _ => None
  end.
Definition months : list Z := [31; 59; 90; 120; 151; 181; 212; 243; 273; 304; 334].
Definition one_when (b : bool) : Z := if b then 1 else 0.
(** The seconds since 1970 of a date and a time. *)
Definition lease_seconds (year mon mday hour min sec : Z) : DnM Z :=
  m ← (if 1 <? mon then in_bounds (if decide (0 <= mon - 2) then months !! Z.to_nat (mon - 2) else None) else mret 0);
  let days := 365 * (year - 1970) + Z.quot (year - 1969) 4 + m
    + one_when ((2 <? mon) && (Z.land (year - 1972) 3 =? 0)) + mday - 1 in
  mret (s32 (((days * 24 + hour) * 60 + min) * 60 + sec)).

(** *** Entries *)

Section leases.
Context `{E : DnsEnv}.

(** cache_clear_dhcp of cache.c: the entries of DHCP leave the list; they are linked to a
    list of spare records, the last first. *)
Fixpoint clear_dhcp (fuel : nat) (p ret : option nat) : DnM (option nat) :=
  match fuel with
  | O => fail Out_of_fuel
  | S fuel' =>
      match p with
      | None => mret ret
      | Some crecp =>
          r ← rec_at crecp;
          if has F_DHCP (e_flags (c_entry r)) then
            cache_unlink crecp;;
            store_rec crecp (set_next ret);;
            clear_dhcp fuel' (c_next r) (Some crecp)
          else clear_dhcp fuel' (c_next r) ret
      end
  end.
Definition cache_clear_dhcp : DnM (option nat) :=
  c ← gets d_cache; clear_dhcp (size (recs c) + 1) (cache_head c) None.

Definition FOREVER : Z := -1.
(** A spare record, when the name fits it, or a new one; and the spares that are left. *)
Definition take_spare (empty_cache : option nat) (host_name : list Z) : DnM (nat * option nat) :=
  match empty_cache with
  | Some p =>
      if (List.length host_name <? SMALLDNAME - 1)%nat then r ← rec_at p; mret (p, c_next r)
      else
        garbage ← safe_malloc;
        c ← gets d_cache;
        change (fun c => set_recs (<[fresh_rec c := Crec None None (Entry garbage 0 [] [])]> (recs c)) c);;
        mret (fresh_rec c, empty_cache)
  | None =>
      garbage ← safe_malloc;
      c ← gets d_cache;
      change (fun c => set_recs (<[fresh_rec c := Crec None None (Entry garbage 0 [] [])]> (recs c)) c);;
      mret (fresh_rec c, None)
  end.
Definition new_lease (empty_cache : option nat) (host_name addr : list Z) (ttd flags : Z) : DnM (option nat) :=
  '(p, spares) ← take_spare empty_cache host_name;
  store_rec p (fun r =>
    let f := Z.lor F_DHCP (Z.lor F_FORWARD (Z.lor F_IPV4 flags)) in
    set_entry (if ttd =? FOREVER then Entry (e_ttd (c_entry r)) (Z.lor f F_IMMORTAL) addr host_name
               else Entry ttd f addr host_name) r);;
  cache_link p;;
  mret spares.
(** The result is the list of spare records. *)
Definition process_lease (empty_cache : option nat) (host_name addr : list Z) (ttd flags : Z) : DnM (option nat) :=
  found ← cache_find_by_name None host_name 0 F_IPV4;
  match found with
  | None => new_lease empty_cache host_name addr ttd flags
  | Some crecp =>
      r ← rec_at crecp;
      let e := c_entry r in
      if has F_HOSTS (e_flags e) then mret empty_cache
      else if negb (has F_DHCP (e_flags e)) then
        if has F_NEG (e_flags e) then
          put_flags crecp (clear F_FORWARD);;
          new_lease empty_cache host_name addr ttd flags
        else mret empty_cache
      else if (e_ttd e <? ttd) || (ttd =? FOREVER) then
        store_rec crecp (set_entry (if ttd =? FOREVER then Entry (e_ttd e) (Z.lor (e_flags e) F_IMMORTAL) addr (e_name e)
                                    else Entry ttd (e_flags e) addr (e_name e)));;
        mret empty_cache
      else mret empty_cache
  end.

(** *** The file *)

(** The statements of a lease: the name, the end and the start ([FOREVER] before they are
    read); the file after them. *)
Definition lease_date (s : list Z) : DnM (option Z * list Z) :=
  match token_of s with
  | (None, s) => mret (None, s)
  | (Some _, s) =>
      match token_of s with
      | (None, s) => mret (None, s)
      | (Some date, s) =>
          match scan3 47 date with
          | None => mret (None, s)
          | Some (year, mon, mday) =>
              match token_of s with
              | (None, s) => mret (None, s)
              | (Some clock, s) =>
                  match scan3 58 clock with
                  | None => mret (None, s)
                  | Some (hour, min, sec) => t ← lease_seconds year mon mday hour min sec; mret (Some t, s)
                  end
              end
          end
      end
  end.
Fixpoint lease_body (fuel : nat) (s hostname : list Z) (ttd tts : Z) : DnM (list Z * Z * Z * list Z) :=
  match fuel with
  | O => fail Out_of_fuel
  | S fuel' =>
      match token_of s with
      | (None, s) => mret (hostname, ttd, tts, s)
      | (Some token, s) =>
          if bool_decide (head token = Some 125) then mret (hostname, ttd, tts, s)
          else if bool_decide (cstring token = text "client-hostname") || bool_decide (cstring token = text "hostname") then
            match next_token (List.length s) (Z.to_nat MAXDNAME) [] s with
            | (Some name, s) => lease_body fuel' s (canonicalise (cstring name)) ttd tts
            | (None, s) => lease_body fuel' s (canonicalise hostname) ttd tts
            end
          else if bool_decide (cstring token = text "ends") || bool_decide (cstring token = text "starts") then
            '(t, s) ← lease_date s;
            match t with
            | None => lease_body fuel' s hostname ttd tts
            | Some t =>
                if bool_decide (cstring token = text "ends") then lease_body fuel' s hostname t tts
                else lease_body fuel' s hostname ttd t
            end
          else lease_body fuel' s hostname ttd tts
      end
  end.

(** The text after the first period. *)
Definition domain_part (hostname : list Z) : option (list Z) :=
  match cut [DOT] hostname with (_, _ :: d) => Some d | _ => None end.
(** strncat() twice and the terminator. *)
Definition with_suffix (hostname suffix : list Z) : list Z := take (Z.to_nat MAXDNAME - 1) (hostname ++ DOT :: suffix).
(** A lease that is complete and has not expired. *)
Definition lease_entry (suffix : option (list Z)) (now : Z) (spares : option nat) (hostname addr : list Z) (ttd tts : Z) : DnM (option nat) :=
  if bool_decide (hostname = []) || (ttd =? FOREVER) then mret spares
  else
    let infinite := negb (tts =? FOREVER) && (ttd =? s32 (tts - 1)) in
    if negb infinite && (ttd <? now) then mret spares
    else
      let ttd := if infinite then FOREVER else ttd in
      match suffix, domain_part hostname with
      | Some suffix, Some d =>
          if bool_decide (d = suffix) then process_lease spares hostname addr ttd F_REVERSE else mret spares
      | Some suffix, None =>
          spares ← process_lease spares hostname addr ttd 0;
          let full := hostname ++ DOT :: suffix in
          in_bounds (if decide (List.length full < Z.to_nat MAXDNAME)%nat then Some tt else None);;
          process_lease spares (with_suffix hostname suffix) addr ttd F_REVERSE
      | None, Some _ => mret spares
      | None, None => process_lease spares hostname addr ttd F_REVERSE
      end.
Fixpoint lease_loop (fuel : nat) (suffix : option (list Z)) (now : Z) (s : list Z) (spares : option nat) : DnM (option nat) :=
  match fuel with
  | O => fail Out_of_fuel
  | S fuel' =>
      match token_of s with
      | (None, _) => mret spares
      | (Some token, s) =>
          if negb (bool_decide (cstring token = text "lease")) then lease_loop fuel' suffix now s spares
          else
            match token_of s with
            | (None, s) => lease_loop fuel' suffix now s spares
            | (Some a, s) =>
                match denv_inet_pton (cstring a) with
                | None => lease_loop fuel' suffix now s spares
                | Some addr =>
                    match token_of s with
                    | (Some (123 :: _), s) =>
                        '(hostname, ttd, tts, s) ← lease_body fuel' s [] FOREVER FOREVER;
                        spares ← lease_entry suffix now spares hostname addr ttd tts;
                        lease_loop fuel' suffix now s spares
                    | (_, s) => lease_loop fuel' suffix now s spares
                    end
                end
            end
      end
  end.
Fixpoint free_spares (fuel : nat) (spares : option nat) : DnM unit :=
  match fuel with
  | O => fail Out_of_fuel
  | S fuel' =>
      match spares with
      | None => mret tt
      | Some p =>
          r ← rec_at p;
          change (fun c => set_recs (delete p (recs c)) c);;
          free_spares fuel' (c_next r)
      end
  end.
Definition load_dhcp (suffix : option (list Z)) (now : Z) : DnM unit :=
  f ← dsys denv_leases;
  match f with
  | None => mret tt
  | Some file =>
      spares ← cache_clear_dhcp;
      spares ← lease_loop (List.length file + 1) suffix now file spares;
      c ← gets d_cache;
      free_spares (size (recs c) + 1) spares
  end.
End leases.

(** ** Servers and the loop *)


(** What the options and the interfaces of the machine set at the start. *)
Record dns_setup : Type := DnsSetup {
  setup_cfg : dns_config;
  setup_resolv : bool;   (* resolv is not NULL *)
  setup_leases : bool;   (* lease_file is not NULL *)
  setup_suffix : option (list Z);
  setup_ifaces : list sockaddr;
  setup_servers : option nat;   (* serv_addrs *)
  setup_cachesize : Z;
  setup_ftab : list frec   (* what malloc() leaves in the table *)
}.
(** The variables of main(). *)
Record dns_loop : Type := DnsLoop {
  l_servers : option nat;
  l_last_server : option nat;
  l_resolv_changed : Z;
  l_lease_size : Z;
  l_lease_inode : Z
}.
Definition set_servers (p : option nat) (L : dns_loop) : dns_loop :=
  DnsLoop p p (l_resolv_changed L) (l_lease_size L) (l_lease_inode L).
Definition set_last (p : option nat) (L : dns_loop) : dns_loop :=
  DnsLoop (l_servers L) p (l_resolv_changed L) (l_lease_size L) (l_lease_inode L).
Definition set_changed (t : Z) (L : dns_loop) : dns_loop :=
  DnsLoop (l_servers L) (l_last_server L) t (l_lease_size L) (l_lease_inode L).
Definition set_lease_stat (n i : Z) (L : dns_loop) : dns_loop :=
  DnsLoop (l_servers L) (l_last_server L) (l_resolv_changed L) n i.

Section main.
Context `{E : DnsEnv}.

(** *** The list of servers *)

Definition store_srv (p : nat) (s : server) : DnM unit := h ← gets d_heap; modify (set_heap (<[p := s]> h)).
Definition free_srv (p : nat) : DnM unit := h ← gets d_heap; modify (set_heap (delete p h)).
(** The loop of check_servers: the servers that are kept, in reverse order. *)
Fixpoint check_loop (fuel : nat) (ifaces : list sockaddr) (new ret : option nat) : DnM (option nat) :=
  match fuel with
  | O => fail Out_of_fuel
  | S fuel' =>
      match new with
      | None => mret ret
      | Some p =>
          s ← srv (Some p);
          if existsb (sockaddr_isequal (s_addr s)) ifaces then free_srv p;; check_loop fuel' ifaces (s_next s) ret
          else store_srv p (set_s_next ret s);; check_loop fuel' ifaces (s_next s) (Some p)
      end
  end.
(** The table of queries refers to servers, so it is emptied. *)
Definition check_servers (new : option nat) (ifaces : list sockaddr) : DnM (option nat) :=
  forward_init None;;
  h ← gets d_heap;
  check_loop (size h + 1) ifaces new None.

(** The servers of the file go to a list of old ones, the others to the new list. *)
Fixpoint old_loop (fuel : nat) (serv old new : option nat) : DnM (option nat * option nat) :=
  match fuel with
  | O => fail Out_of_fuel
  | S fuel' =>
      match serv with
      | None => mret (old, new)
      | Some p =>
          s ← srv (Some p);
          if s_from_resolv s then store_srv p (set_s_next old s);; old_loop fuel' (s_next s) (Some p) new
          else store_srv p (set_s_next new s);; old_loop fuel' (s_next s) old (Some p)
      end
  end.
(** The address of a line ["nameserver ..."]. *)
Definition resolv_line (line : list Z) : option (list Z) :=
  match strtok blanks (cstring line) with
  | None => None
  | Some (token, rest) =>
      if bool_decide (token = text "nameserver") then
        match strtok blanks rest with
        | None => None
        | Some (token, _) => denv_inet_pton token
        end
      else None
  end.
Fixpoint resolv_loop (fuel : nat) (file : list Z) (old new : option nat) : DnM (option nat * option nat) :=
  match fuel with
  | O => fail Out_of_fuel
  | S fuel' =>
      let '(line, rest, _) := take_line (Z.to_nat (MAXDNAME - 1)) file in
      match line with
      | [] => mret (old, new)
      | _ =>
          match resolv_line line with
          | None => resolv_loop fuel' rest old new
          | Some addr =>
              '(p, old) ← (match old with
                           | Some p => s ← srv (Some p); mret (p, s_next s)
                           | None => garbage ← safe_malloc; h ← gets d_heap; mret (fresh (dom h), None)
                           end);
              store_srv p (Server (Sockaddr AF_INET NAMESERVER_PORT addr) None true new);;
              resolv_loop fuel' rest old (Some p)
          end
      end
  end.
Fixpoint free_old (fuel : nat) (old : option nat) : DnM unit :=
  match fuel with
  | O => fail Out_of_fuel
  | S fuel' =>
      match old with
      | None => mret tt
      | Some p => s ← srv (Some p); free_srv p;; free_old fuel' (s_next s)
      end
  end.
Definition reload_servers (serv : option nat) : DnM (option nat) :=
  h ← gets d_heap;
  '(old, new) ← old_loop (size h + 1) serv None None;
  f ← dsys denv_resolv;
  '(old, new) ← (match f with None => mret (old, new) | Some file => resolv_loop (S (List.length file)) file old new end);
  h ← gets d_heap;
  free_old (size h + 1) old;;
  mret new.

(** *** The loop *)

Context (cfg : dns_setup) (id_fuel : nat).
Abbreviation opts := (setup_cfg cfg).

Definition reload (L : dns_loop) : DnM dns_loop :=
  new ← reload_servers (l_servers L);
  p ← check_servers new (setup_ifaces cfg);
  mret (set_servers p L).
Definition on_sighup (L : dns_loop) : DnM dns_loop :=
  cache_reload (opt OPT_NO_HOSTS opts);;
  if setup_resolv cfg && opt OPT_NO_POLL opts then reload L else mret L.
Definition poll_resolv (L : dns_loop) : DnM dns_loop :=
  if setup_resolv cfg && negb (opt OPT_NO_POLL opts) then
    st ← dsys denv_resolv_mtime;
    match st with
    | None => mret L
    | Some mtime =>
        if l_resolv_changed L <? mtime then
          now ← time_;
          if (mtime <? now) || (l_resolv_changed L =? 0) then reload (set_changed mtime L) else mret L
        else mret L
    end
  else mret L.
Definition poll_leases (L : dns_loop) : DnM dns_loop :=
  if setup_leases cfg then
    st ← dsys denv_lease_stat;
    match st with
    | None => mret L
    | Some (bytes, inode) =>
        if (l_lease_size L =? 0) || (l_lease_size L <? bytes) || negb (inode =? l_lease_inode L) then
          now ← time_;
          load_dhcp (setup_suffix cfg) now;;
          mret (set_lease_stat bytes inode L)
        else mret L
    end
  else mret L.

(** A query at the interface [i]. *)
Definition client_addr (i : nat) (a : sockaddr) : DnM sockaddr :=
  iface ← in_bounds (setup_ifaces cfg !! i);
  mret (Sockaddr (sa_family iface) (sin_port a) (sin_addr a)).
Definition serve (L : dns_loop) (i : nat) : DnM unit :=
  r ← dsys denv_recv;
  n ← receive r;
  b2 ← h_bits2;
  match r with
  | None => mret tt
  | Some (_, a) =>
      udpaddr ← client_addr i a;
      if (n <? sizeof_HEADER) || h_qr b2 then mret tt
      else
        m ← answer_request opts PACKETSZ n;
        if 1 <=? m then
          bytes ← peeks m 0;
          _ ← sendto (To_client i bytes udpaddr);
          mret tt
        else
          forward_query id_fuel i udpaddr n (negb (options opts =? 0)) (l_servers L) (l_last_server L)
  end.
Fixpoint serve_all (L : dns_loop) (ifaces : list nat) : DnM unit :=
  match ifaces with
  | [] => mret tt
  | i :: ifaces' => serve L i;; serve_all L ifaces'
  end.

(** What a turn does after select(): signals, files, then the sockets. *)
Definition housekeeping (sighup : bool) (L : dns_loop) : DnM dns_loop :=
  L ← (if sighup then on_sighup L else mret L);
  L ← poll_resolv L;
  poll_leases L.
Definition handle_ready (peer : bool) (ifaces : list nat) (L : dns_loop) : DnM dns_loop :=
  last ← (if peer then reply_query (l_last_server L) else mret (l_last_server L));
  let L := set_last last L in
  check_servers_response;;
  serve_all L ifaces;;
  mret L.
Definition first_turn (L : dns_loop) : DnM dns_loop := housekeeping true L.
Definition dns_turn (L : dns_loop) : DnM dns_loop :=
  r ← dsys denv_select;
  match r with
  | Timeout => check_servers_response;; mret L
  | Failed => mret L
  | Interrupted => sighup ← dsys denv_sighup; housekeeping sighup L
  | Readable peer ifaces =>
      sighup ← dsys denv_sighup;
      L ← housekeeping sighup L;
      handle_ready peer ifaces L
  end.

(** main() between the options and the loop. *)
Definition dns_start : DnM dns_loop :=
  forward_init (Some (setup_ftab cfg));;
  cache_init (setup_cachesize cfg);;
  init_dns_msg_buf;;
  p ← check_servers (setup_servers cfg) (setup_ifaces cfg);
  mret (DnsLoop p p 0 0 0).
Fixpoint dns_turns (n : nat) (L : dns_loop) : DnM dns_loop :=
  match n with O => mret L | S n' => L ← dns_turn L; dns_turns n' L end.
Definition dns_main (n : nat) : DnM dns_loop :=
  L ← dns_start;
  L ← first_turn L;
  dns_turns n L.
End main.
