(* ===== verification/DnsCacheProofs.v ===== *)
(** * DnsCacheProofs: the cache implements a list of entries

    The pointers of the cache form a doubly linked list ([linked]), and its operations are
    functions on the list of entries, the youngest first. *)

From S2P Require Import Prelude DnsTypes DnsCache.
From stdpp Require Import gmap list.

#[local] Open Scope Z_scope.

(** ** Linked segments *)

Definition first_of (l : list (nat * entry)) (next : option nat) : option nat :=
  match l with (p, _) :: _ => Some p | [] => next end.
Fixpoint last_of (prev : option nat) (l : list (nat * entry)) : option nat :=
  match l with (p, _) :: l' => last_of (Some p) l' | [] => prev end.
(** The records of [l] are linked to each other, to [prev] before and to [next] after. *)
Fixpoint seg (m : gmap nat crec) (prev : option nat) (l : list (nat * entry)) (next : option nat) : Prop :=
  match l with
  | [] => True
  | (p, e) :: l' => m !! p = Some (Crec (first_of l' next) prev e) /\ seg m (Some p) l' next
  end.

Lemma first_of_app l1 l2 next : first_of (l1 ++ l2) next = first_of l1 (first_of l2 next).
Proof. by destruct l1 as [|[] ?]. Qed.
Lemma last_of_app prev l1 l2 : last_of prev (l1 ++ l2) = last_of (last_of prev l1) l2.
Proof. revert prev. induction l1 as [|[p e] l1 IH]; intros prev; simpl; auto. Qed.
Lemma last_of_snoc prev l p e : last_of prev (l ++ [(p, e)]) = Some p.
Proof. by rewrite last_of_app. Qed.
Lemma seg_app m prev l1 l2 next : seg m prev (l1 ++ l2) next <-> seg m prev l1 (first_of l2 next) /\ seg m (last_of prev l1) l2 next.
Proof.
  revert prev. induction l1 as [|[p e] l1 IH]; intros prev; simpl; [tauto|].
  rewrite IH, first_of_app. tauto.
Qed.
(** A store outside of the segment. *)
Lemma seg_frame m prev l next p r : p ∉ (l.*1) -> seg m prev l next -> seg (<[p := r]> m) prev l next.
Proof.
  revert prev. induction l as [|[q e] l IH]; intros prev Hp; simpl; [done|]. intros [Hq Hl].
  simpl in Hp. apply not_elem_of_cons in Hp as [Hne Hp]. split; [by rewrite lookup_insert_ne|auto].
Qed.
Lemma seg_delete m prev l next p : p ∉ (l.*1) -> seg m prev l next -> seg (delete p m) prev l next.
Proof.
  revert prev. induction l as [|[q e] l IH]; intros prev Hp; simpl; [done|]. intros [Hq Hl].
  simpl in Hp. apply not_elem_of_cons in Hp as [Hne Hp]. split; [by rewrite lookup_delete_ne|auto].
Qed.
Lemma seg_lookup m prev l1 p e l2 next : seg m prev (l1 ++ (p, e) :: l2) next -> m !! p = Some (Crec (first_of l2 next) (last_of prev l1) e).
Proof. rewrite seg_app. intros [_ [H _]]. exact H. Qed.

(** The link of the last record, and of the first. *)
Lemma seg_relink_last m prev l p e next next' :
  NoDup (l ++ [(p, e)]).*1 -> seg m prev (l ++ [(p, e)]) next ->
  seg (<[p := Crec next' (last_of prev l) e]> m) prev (l ++ [(p, e)]) next'.
Proof.
  rewrite fmap_app, NoDup_app. intros (_ & Hd & _). rewrite !seg_app. simpl. intros [Hl [Hp _]].
  split; [|split; [by rewrite lookup_insert_eq|done]].
  apply seg_frame; [|exact Hl]. intros Hin. apply (Hd p Hin). left.
Qed.
Lemma seg_relink_first m prev prev' p e l next :
  NoDup ((p, e) :: l).*1 -> seg m prev ((p, e) :: l) next ->
  seg (<[p := Crec (first_of l next) prev' e]> m) prev' ((p, e) :: l) next.
Proof.
  simpl. rewrite NoDup_cons. intros [Hp _] [_ Hl]. split; [by rewrite lookup_insert_eq|by apply seg_frame].
Qed.
(** The contents of a record. *)
Lemma seg_store m prev l1 p e e' l2 next :
  NoDup (l1 ++ (p, e) :: l2).*1 -> seg m prev (l1 ++ (p, e) :: l2) next ->
  seg (<[p := Crec (first_of l2 next) (last_of prev l1) e']> m) prev (l1 ++ (p, e') :: l2) next.
Proof.
  rewrite fmap_app, NoDup_app. intros (_ & Hd & Hc). rewrite !seg_app. simpl. intros [Hl [Hp Hr]].
  apply NoDup_cons in Hc as [Hc _]. split; [|split; [by rewrite lookup_insert_eq|by apply seg_frame]].
  apply seg_frame; [|done]. intros Hin. apply (Hd p Hin). left.
Qed.

(** ** The list of the cache *)

Record linked (c : cache) (l : list (nat * entry)) : Prop := Linked {
  lk_nodup : NoDup l.*1;
  lk_head : cache_head c = first_of l None;
  lk_tail : cache_tail c = last_of None l;
  lk_seg : seg (recs c) None l None
}.

(** What an operation on the list leaves: the counters, and the records that are not in
    the list [l]. *)
Record kept (l : list nat) (c c' : cache) : Prop := Kept {
  kp_recs : forall p, p ∉ l -> recs c' !! p = recs c !! p;
  kp_dom : size (recs c') = size (recs c);
  kp_left : bignames_left c' = bignames_left c;
  kp_size : cache_size c' = cache_size c;
  kp_inserted : cache_inserted c' = cache_inserted c;
  kp_live : cache_live_freed c' = cache_live_freed c
}.
Lemma kept_refl l c : kept l c c.
Proof. by split. Qed.
Lemma kept_trans l c c' c'' : kept l c c' -> kept l c' c'' -> kept l c c''.
Proof.
  intros [H1 H2 H3 H4 H5 H6] [K1 K2 K3 K4 K5 K6]. split; try congruence. intros p Hp. by rewrite K1, H1.
Qed.
Lemma kept_perm l l' c c' : l ≡ₚ l' -> kept l c c' -> kept l' c c'.
Proof. intros Hl [H1 H2 H3 H4 H5 H6]. split; try done. intros p Hp. apply H1. by rewrite Hl. Qed.
Lemma kept_more l l' c c' : l ⊆ l' -> kept l c c' -> kept l' c c'.
Proof. intros Hl [H1 H2 H3 H4 H5 H6]. split; try done. intros p Hp. apply H1. set_solver. Qed.
Lemma kept_store c p r r' : recs c !! p = Some r -> kept [p] c (set_recs (<[p := r']> (recs c)) c).
Proof.
  intros Hp. split; try done.
  - intros q Hq. apply lookup_insert_ne. set_solver.
  - apply map_size_insert_Some. by exists r.
Qed.
Lemma set_cache_twice c c' s : set_cache c (set_cache c' s) = set_cache c s.
Proof. done. Qed.

Section proofs.
Context `{E : DnsEnv}.
Implicit Types (s : dns) (c : cache) (l : list (nat * entry)).

Lemma rec_at_run p r s : recs (d_cache s) !! p = Some r -> rec_at p s = Ok r s.
Proof. intros H. unfold rec_at. eapply run_bind; [apply gets_run|]. by rewrite H. Qed.
Lemma change_run f s : change f s = Ok tt (set_cache (f (d_cache s)) s).
Proof. done. Qed.
Lemma store_rec_run p g r s : recs (d_cache s) !! p = Some r ->
  store_rec p g s = Ok tt (set_cache (set_recs (<[p := g r]> (recs (d_cache s))) (d_cache s)) s).
Proof. intros H. unfold store_rec. eapply run_bind; [by apply rec_at_run|]. reflexivity. Qed.

(** ** Links *)

(** The record before a place of the list is linked to [next]: the first step of unlink. *)
Lemma relink_before c l1 old next s : d_cache s = c ->
  NoDup l1.*1 -> cache_head c = first_of l1 old ->
  seg (recs c) None l1 old ->
  exists c', (match last_of None l1 with
              | Some prev => store_rec prev (set_next next)
              | None => change (set_head next)
              end) s = Ok tt (set_cache c' s)
    /\ cache_head c' = first_of l1 next /\ cache_tail c' = cache_tail c /\ seg (recs c') None l1 next
    /\ kept l1.*1 c c' /\ big_free c' = big_free c.
Proof.
  intros <- Hnd Hh Hs. destruct l1 as [|[q e] l1 _] using rev_ind.
  - eexists. split; [apply change_run|]. split; [done|]. by repeat split.
  - rewrite last_of_snoc. rewrite fmap_app in Hnd. pose proof (seg_lookup _ _ _ _ _ [] _ Hs) as Hq.
    eexists. split; [by eapply store_rec_run|].
    split; [cbn; rewrite Hh, !first_of_app; by destruct l1 as [|[]]|]. split; [done|]. split; [|split; [|done]].
    + refine (seg_relink_last _ _ _ _ _ _ _ _ Hs). by rewrite fmap_app.
    + eapply kept_more; [|by eapply kept_store]. rewrite fmap_app. set_solver.
Qed.
(** The record after a place is linked to [prev]. *)
Lemma relink_after c prev prev' l2 s : d_cache s = c ->
  NoDup l2.*1 -> cache_tail c = last_of prev' l2 -> seg (recs c) prev' l2 None ->
  exists c', (match first_of l2 None with
              | Some next => store_rec next (set_prev prev)
              | None => change (set_tail prev)
              end) s = Ok tt (set_cache c' s)
    /\ cache_head c' = cache_head c /\ cache_tail c' = last_of prev l2 /\ seg (recs c') prev l2 None
    /\ kept l2.*1 c c' /\ big_free c' = big_free c.
Proof.
  intros <- Hnd Ht Hs. destruct l2 as [|[q e] l2].
  - eexists. split; [apply change_run|]. by repeat split.
  - eexists. split; [eapply store_rec_run; apply Hs|].
    split; [done|]. split; [exact Ht|]. split; [|split; [|done]].
    + exact (seg_relink_first _ _ prev _ _ _ _ Hnd Hs).
    + eapply kept_more; [|eapply kept_store, Hs]. simpl. set_solver.
Qed.
Lemma nodup_middle l1 p e l2 : NoDup (l1 ++ (p, e) :: l2).*1 ->
  NoDup (l1 ++ l2).*1 /\ NoDup l1.*1 /\ NoDup l2.*1 /\ p ∉ (l1.*1) /\ p ∉ (l2.*1) /\ (forall q, q ∈ (l1.*1) -> q ∉ (l2.*1)).
Proof.
  rewrite !fmap_app. simpl. intros H. assert (H' := H). apply NoDup_app in H as (H1 & Hd & H2). apply NoDup_cons in H2 as [Hp H2].
  assert (Hd' : forall q, q ∈ (l1.*1) -> q ∉ (l2.*1)) by (intros q Hq Hq2; apply (Hd q Hq); by right).
  split; [apply NoDup_app; auto|]. repeat split; try done. intros Hin. apply (Hd p Hin). left.
Qed.
Lemma kept_lookup ps c c' p : kept ps c c' -> p ∉ ps -> recs c' !! p = recs c !! p.
Proof. intros []. auto. Qed.
Lemma seg_kept ps c c' prev l next : kept ps c c' -> (forall q, q ∈ (l.*1) -> q ∉ ps) -> seg (recs c) prev l next -> seg (recs c') prev l next.
Proof.
  intros Hk. revert prev. induction l as [|[q e] l IH]; intros prev Hd; simpl; [done|]. intros [Hq Hs].
  split; [rewrite (kept_lookup _ _ _ q Hk); [done|apply Hd; left]|]. apply IH; [|done]. intros q' Hq'. apply Hd. by right.
Qed.

Lemma cache_unlink_run c l1 p e l2 s : d_cache s = c -> linked c (l1 ++ (p, e) :: l2) ->
  exists c', cache_unlink p s = Ok tt (set_cache c' s) /\ linked c' (l1 ++ l2)
    /\ (exists n q, recs c' !! p = Some (Crec n q e)) /\ kept (l1 ++ (p, e) :: l2).*1 c c' /\ big_free c' = big_free c.
Proof.
  intros Hc [Hnd Hh Ht Hs]. pose proof (nodup_middle _ _ _ _ Hnd) as (Hnd' & Hnd1 & Hnd2 & Hp1 & Hp2 & Hd).
  assert (Hp := seg_lookup _ _ _ _ _ _ _ Hs). apply seg_app in Hs as [Hs1 [_ Hs2]]. rewrite last_of_app in Ht.
  rewrite first_of_app in Hh.
  destruct (relink_before c l1 (Some p) (first_of l2 None) s Hc Hnd1 Hh Hs1) as (c1 & Hrun1 & Hh1 & Ht1 & Hsg1 & Hk1 & Hb1).
  assert (Hp' : recs c1 !! p = recs c !! p) by (by eapply kept_lookup).
  assert (Hs2' : seg (recs c1) (Some p) l2 None).
  { eapply seg_kept; [exact Hk1| |exact Hs2]. intros q Hq2 Hq1. by apply (Hd q Hq1). }
  destruct (relink_after c1 (last_of None l1) (Some p) l2 (set_cache c1 s)) as (c2 & Hrun2 & Hh2 & Ht2 & Hsg2 & Hk2 & Hb2);
    [done|done|by rewrite Ht1, Ht|done|].
  exists c2. split.
  { unfold cache_unlink. eapply run_bind; [apply rec_at_run; by rewrite Hc|]. eapply run_bind; [exact Hrun1|].
    eapply run_bind; [apply rec_at_run; cbn [d_cache set_cache]; by rewrite Hp'|]. exact Hrun2. }
  assert (Hk : kept (l1 ++ (p, e) :: l2).*1 c c2).
  { eapply kept_trans; eapply kept_more; [|exact Hk1| |exact Hk2]; rewrite fmap_app; simpl; set_solver. }
  split; [|split; [|split; [done|by rewrite Hb2]]].
  - split; [done|..].
    + by rewrite Hh2, Hh1, first_of_app.
    + by rewrite last_of_app.
    + apply seg_app. split; [|done]. eapply seg_kept; [exact Hk2|exact Hd|exact Hsg1].
  - rewrite (kept_lookup _ _ _ p Hk2) by done. rewrite Hp', Hp. eauto.
Qed.
(** A store outside of the list, and the contents of a record of the list. *)
Lemma linked_frame c l p r r' : linked c l -> p ∉ (l.*1) -> recs c !! p = Some r ->
  linked (set_recs (<[p := r']> (recs c)) c) l /\ kept [p] c (set_recs (<[p := r']> (recs c)) c).
Proof.
  intros [Hnd Hh Ht Hs] Hp Hr. split; [|by eapply kept_store]. split; [done|done|done|]. by apply seg_frame.
Qed.
Lemma linked_set c l1 p e l2 e' s : d_cache s = c -> linked c (l1 ++ (p, e) :: l2) ->
  exists c', store_rec p (set_entry e') s = Ok tt (set_cache c' s) /\ linked c' (l1 ++ (p, e') :: l2)
    /\ kept (l1 ++ (p, e) :: l2).*1 c c' /\ big_free c' = big_free c.
Proof.
  intros <- [Hnd Hh Ht Hs]. pose proof (seg_lookup _ _ _ _ _ _ _ Hs) as Hp.
  eexists. split; [by apply store_rec_run|]. split; [|split; [|done]].
  - split.
    + by rewrite fmap_app in *.
    + rewrite first_of_app in *. exact Hh.
    + rewrite last_of_app in *. exact Ht.
    + by apply seg_store with (e := e).
  - eapply kept_more; [|by eapply kept_store]. rewrite fmap_app. simpl. set_solver.
Qed.
Lemma linked_lookup c l1 p e l2 : linked c (l1 ++ (p, e) :: l2) -> recs c !! p = Some (Crec (first_of l2 None) (last_of None l1) e).
Proof. intros [_ _ _ Hs]. exact (seg_lookup _ _ _ _ _ _ _ Hs). Qed.
Lemma put_flags_run c l1 p e l2 g s : d_cache s = c -> linked c (l1 ++ (p, e) :: l2) ->
  exists c', put_flags p g s = Ok tt (set_cache c' s) /\ linked c' (l1 ++ (p, set_flags (g (e_flags e)) e) :: l2)
    /\ kept (l1 ++ (p, e) :: l2).*1 c c' /\ big_free c' = big_free c.
Proof.
  intros Hc Hl. destruct (linked_set c l1 p e l2 (set_flags (g (e_flags e)) e) s Hc Hl) as (c' & Hrun & H).
  exists c'. split; [|exact H]. rewrite <- Hrun. unfold put_flags. pose proof (linked_lookup _ _ _ _ _ Hl) as Hp. rewrite <- Hc in Hp.
  by rewrite !(store_rec_run _ _ _ _ Hp).
Qed.

Lemma cache_link_run c l p n q e s : d_cache s = c -> linked c l -> p ∉ (l.*1) -> recs c !! p = Some (Crec n q e) ->
  exists c', cache_link p s = Ok tt (set_cache c' s) /\ linked c' ((p, e) :: l)
    /\ kept (p :: l.*1) c c' /\ big_free c' = big_free c.
Proof.
  intros Hc [Hnd Hh Ht Hs] Hp Hr.
  assert (Hstep : exists c1, match cache_head c with Some head => store_rec head (set_prev (Some p)) | None => mret tt end s = Ok tt (set_cache c1 s)
    /\ cache_tail c1 = cache_tail c /\ seg (recs c1) (Some p) l None /\ kept (l.*1) c c1 /\ big_free c1 = big_free c).
  { rewrite Hh. destruct l as [|[h eh] l].
    - exists c. split; [by rewrite <- Hc; destruct s|]. repeat split.
    - eexists. split; [eapply store_rec_run; rewrite Hc; apply Hs|]. rewrite Hc. split; [done|]. split; [|split; [|done]].
      + exact (seg_relink_first _ _ (Some p) _ _ _ _ Hnd Hs).
      + eapply kept_more; [|eapply kept_store, Hs]. simpl. set_solver. }
  destruct Hstep as (c1 & Hrun1 & Ht1 & Hsg1 & Hk1 & Hb1).
  assert (Hr1 : recs c1 !! p = Some (Crec n q e)) by (by rewrite (kept_lookup _ _ _ _ Hk1)).
  set (c2 := set_head (Some p) (set_recs (<[p := Crec (cache_head c) None e]> (recs c1)) c1)).
  assert (Hk2 : kept [p] c1 c2) by (destruct (kept_store c1 p _ (Crec (cache_head c) None e) Hr1); by split).
  exists (match cache_tail c with None => set_tail (Some p) c2 | Some _ => c2 end). split.
  { unfold cache_link. eapply run_bind; [apply gets_run|]. rewrite Hc. eapply run_bind; [exact Hrun1|].
    eapply run_bind; [by eapply store_rec_run|]. eapply run_bind; [apply change_run|]. by destruct (cache_tail c). }
  assert (Hsg : seg (recs c2) None ((p, e) :: l) None).
  { split; [cbn; by rewrite lookup_insert_eq, Hh|]. by apply seg_frame. }
  assert (Hk : kept (p :: l.*1) c c2).
  { eapply kept_trans; eapply kept_more; [|exact Hk1| |exact Hk2]; set_solver. }
  split; [|split; [|by destruct (cache_tail c)]].
  - split; [simpl; by apply NoDup_cons|by destruct (cache_tail c)| |by destruct (cache_tail c)].
    destruct l as [|[h eh] l]; [by rewrite Ht|]. rewrite Ht. cbn [last_of]. simpl. destruct (last_of (Some h) l) eqn:El.
    + cbn. by rewrite Ht1, Ht.
    + exfalso. clear -El. revert h El. induction l as [|[a b] l IH]; intros h; simpl; [done|apply IH].
  - destruct Hk. by destruct (cache_tail c).
Qed.
(** ** Giving an entry up *)

Definition freed_flags (f : Z) : Z :=
  let f := clear F_REVERSE (clear F_FORWARD f) in if has F_BIGNAME f then clear F_BIGNAME f else f.
Definition freed (e : entry) : entry := set_flags (freed_flags (e_flags e)) e.
Definition big_of (e : entry) : nat := if has F_BIGNAME (clear F_REVERSE (clear F_FORWARD (e_flags e))) then 1 else 0.

Lemma kept_counters ps c c1 c2 : kept ps c c1 -> recs c2 = recs c1 -> bignames_left c2 = bignames_left c1 -> cache_size c2 = cache_size c1 ->
  cache_inserted c2 = cache_inserted c1 -> cache_live_freed c2 = cache_live_freed c1 -> kept ps c c2.
Proof. intros [H1 H2 H3 H4 H5 H6] E1 E2 E3 E4 E5. split; try congruence. intros p Hp. rewrite E1. auto. Qed.
(** A record that is not in the list goes to the tail. *)
Lemma requeue_run c l t et p n q e s : d_cache s = c -> linked c (l ++ [(t, et)]) -> p ∉ (l ++ [(t, et)]).*1 -> recs c !! p = Some (Crec n q e) ->
  exists c', (forall k : DnM unit, (store_rec t (set_next (Some p));; store_rec p (fun r => set_next None (set_prev (Some t) r));;
      change (set_tail (Some p));; k) s = k (set_cache c' s))
    /\ linked c' ((l ++ [(t, et)]) ++ [(p, e)]) /\ kept (p :: (l ++ [(t, et)]).*1) c c' /\ big_free c' = big_free c.
Proof.
  intros Hc [Hnd Hh Ht Hs] Hp Hr. pose proof (seg_lookup _ _ _ _ _ [] _ Hs) as Hl.
  assert (Hpt : p <> t) by (intros ->; apply Hp; rewrite fmap_app; set_solver).
  set (c1 := set_recs (<[t := Crec (Some p) (last_of None l) et]> (recs c)) c).
  assert (Hr1 : recs c1 !! p = Some (Crec n q e)) by (cbn; by rewrite lookup_insert_ne).
  set (c2 := set_recs (<[p := Crec None (Some t) e]> (recs c1)) c1).
  exists (set_tail (Some p) c2). split.
  { intros k. eapply run_bind; [eapply store_rec_run; rewrite Hc; exact Hl|]. rewrite Hc.
    eapply run_bind; [by eapply store_rec_run|]. reflexivity. }
  split; [|split; [|done]].
  - split.
    + rewrite fmap_app. apply NoDup_app. split; [done|]. split; [|apply NoDup_singleton]. intros x Hx Hin.
      apply list_elem_of_singleton in Hin. by subst x.
    + cbn. rewrite Hh, !first_of_app. by destruct l as [|[]].
    + cbn. by rewrite last_of_snoc.
    + apply seg_app. rewrite last_of_snoc. cbn [first_of]. split; [|split; [by apply lookup_insert_eq|done]].
      apply seg_frame; [done|]. by apply (seg_relink_last _ _ _ _ _ None).
  - apply kept_trans with c1.
    + eapply kept_more; [|by eapply kept_store]. rewrite fmap_app. set_solver.
    + apply kept_counters with c2; [|done..]. eapply kept_more; [|apply (kept_store c1 p (Crec n q e) (Crec None (Some t) e) Hr1)]. set_solver.
Qed.

Lemma cache_free_run c l1 p e l2 s : d_cache s = c -> linked c (l1 ++ (p, e) :: l2) -> l1 ++ l2 <> [] ->
  exists c', cache_free p s = Ok tt (set_cache c' s) /\ linked c' ((l1 ++ l2) ++ [(p, freed e)])
    /\ kept (l1 ++ (p, e) :: l2).*1 c c' /\ big_free c' = (big_free c + big_of e)%nat.
Proof.
  intros Hc Hl Hne. pose proof (nodup_middle _ _ _ _ (lk_nodup _ _ Hl)) as (Hnd' & _ & _ & Hp1 & Hp2 & _).
  destruct (cache_unlink_run c l1 p e l2 s Hc Hl) as (c1 & Hrun1 & Hl1 & (n & q & Hr1) & Hk1 & Hb1).
  destruct (exists_last Hne) as (l & [t et] & El). rewrite El in *.
  assert (Hpl : p ∉ (l ++ [(t, et)]).*1) by (rewrite <- El, fmap_app; apply not_elem_of_app; done).
  set (f1 := clear F_REVERSE (clear F_FORWARD (e_flags e))).
  destruct (linked_frame c1 _ p _ (Crec n q (set_flags f1 e)) Hl1 Hpl Hr1) as [Hl2 Hk2].
  set (c2 := set_recs (<[p := Crec n q (set_flags f1 e)]> (recs c1)) c1) in *.
  destruct (requeue_run c2 l t et p n q (set_flags f1 e) (set_cache c2 (set_cache c1 s))) as (c3 & Hrun3 & Hl3 & Hk3 & Hb3);
    [done|done|done|by apply lookup_insert_eq|].
  pose proof (linked_lookup _ _ _ _ [] Hl3) as Hr3. cbn [first_of] in Hr3.
  assert (Hrun : cache_free p s = (f ← flags_at p;
      when (has F_BIGNAME f) (change (fun c => set_big_free (S (big_free c)) c);; put_flags p (clear F_BIGNAME))) (set_cache c3 s)).
  { unfold cache_free. eapply run_bind; [exact Hrun1|].
    eapply run_bind; [eapply store_rec_run; exact Hr1|]. eapply run_bind; [apply gets_run|].
    eapply run_bind; [cbn [d_cache set_cache cache_tail set_recs]; by rewrite (lk_tail _ _ Hl1), last_of_snoc|].
    apply Hrun3. }
  assert (Hk : kept (l1 ++ (p, e) :: l2).*1 c c3).
  { eapply kept_trans; [exact Hk1|]. eapply kept_trans; eapply kept_more; [|exact Hk2| |exact Hk3].
    - rewrite fmap_app. set_solver.
    - rewrite <- El, !fmap_app. set_solver. }
  unfold freed, freed_flags, big_of. fold f1. rewrite Hrun. destruct (has F_BIGNAME f1) eqn:Hbig.
  - set (c4 := set_big_free (S (big_free c3)) c3).
    assert (Hl4 : linked c4 ((l ++ [(t, et)]) ++ (p, set_flags f1 e) :: [])) by (destruct Hl3; by split).
    destruct (put_flags_run c4 _ p _ [] (clear F_BIGNAME) (set_cache c4 s) eq_refl Hl4) as (c5 & Hrun5 & Hl5 & Hk5 & Hb5).
    exists c5. split.
    { eapply run_bind; [unfold flags_at; eapply run_bind; [by apply rec_at_run|reflexivity]|]. cbn [e_flags set_flags c_entry]. rewrite Hbig. cbn [when].
      eapply run_bind; [apply change_run|]. exact Hrun5. }
    split; [exact Hl5|]. split; [|rewrite Hb5; cbn; rewrite Hb3; cbn; lia].
    apply kept_trans with c4; [by apply kept_counters with c3|]. eapply kept_more; [|exact Hk5].
    rewrite <- El, !fmap_app. set_solver.
  - exists c3. split.
    { eapply run_bind; [unfold flags_at; eapply run_bind; [by apply rec_at_run|reflexivity]|]. cbn [e_flags set_flags c_entry]. by rewrite Hbig. }
    split; [exact Hl3|]. split; [exact Hk|]. rewrite Hb3. cbn. lia.
Qed.

(** ** Walks *)

(** What a walk does with an entry: it stays, goes to the top, or is freed to the tail. *)
Inductive act : Type := Stay (e : entry) | Top | Last.
Definition place (a : act) (l1 : list (nat * entry)) (p : nat) (e : entry) (l2 : list (nat * entry)) : list (nat * entry) :=
  match a with
  | Stay e' => l1 ++ (p, e') :: l2
  | Top => (p, e) :: l1 ++ l2
  | Last => (l1 ++ l2) ++ [(p, freed e)]
  end.
Definition is_last (a : act) : bool := match a with Last => true | _ => false end.
Definition cost (A : entry -> act) (e : entry) : nat := match A e with Last => big_of e | _ => 0 end.
Definition implements (A : entry -> act) (body : nat -> crec -> DnM unit) : Prop :=
  forall c s l1 p e l2 r, d_cache s = c -> linked c (l1 ++ (p, e) :: l2) -> (A e = Last -> l1 ++ l2 <> []) -> c_entry r = e ->
  exists c', body p r s = Ok tt (set_cache c' s) /\ linked c' (place (A e) l1 p e l2)
    /\ kept (l1 ++ (p, e) :: l2).*1 c c' /\ big_free c' = (big_free c + cost A e)%nat.

Definition tops (A : entry -> act) (l : list (nat * entry)) : list (nat * entry) :=
  omap (fun pe => match A pe.2 with Top => Some pe | _ => None end) l.
Definition stays (A : entry -> act) (l : list (nat * entry)) : list (nat * entry) :=
  omap (fun pe => match A pe.2 with Stay e' => Some (pe.1, e') | _ => None end) l.
Definition lasts (A : entry -> act) (l : list (nat * entry)) : list (nat * entry) :=
  omap (fun pe => match A pe.2 with Last => Some (pe.1, freed pe.2) | _ => None end) l.
Definition walked (A : entry -> act) (l : list (nat * entry)) : list (nat * entry) := rev (tops A l) ++ stays A l ++ lasts A l.
Definition costs (A : entry -> act) (l : list (nat * entry)) : nat := sum_list_with (fun pe => cost A pe.2) l.

Lemma linked_size c l : linked c l -> (length l <= size (recs c))%nat.
Proof.
  intros Hl. rewrite <- (length_fmap fst), <- (size_list_to_set (C := gset nat) l.*1) by apply Hl. rewrite <- size_dom.
  apply subseteq_size. intros p Hp. apply elem_of_list_to_set, list_elem_of_fmap in Hp as ([q e] & -> & Hq).
  apply list_elem_of_split in Hq as (l1 & l2 & ->). apply elem_of_dom. erewrite linked_lookup by exact Hl. done.
Qed.

Section walk_rule.
Context (A : entry -> act) (body : nat -> crec -> DnM unit).
Hypothesis Hbody : implements A body.
(** What was freed is left alone. *)
Hypothesis Hfreed : forall e, A e = Last -> A (freed e) = Stay (freed e).

Lemma place_perm a l1 p e l2 : (place a l1 p e l2).*1 ≡ₚ (l1 ++ (p, e) :: l2).*1.
Proof.
  destruct a; unfold place; rewrite ?fmap_app; simpl; rewrite ?fmap_app; simpl; [done|by apply Permutation_middle|].
  rewrite <- app_assoc. simpl. rewrite <- Permutation_cons_append. done.
Qed.

Definition still (l : list (nat * entry)) : Prop := Forall (fun pe => A pe.2 = Stay pe.2) l.
(** One step of a walk at [p]. *)
Lemma walk_step fuel c l1 p e l2 s : d_cache s = c -> linked c (l1 ++ (p, e) :: l2) -> (A e = Last -> l1 ++ l2 <> []) ->
  exists c', for_each (S fuel) body (Some p) s = for_each fuel body (first_of l2 None) (set_cache c' s) /\ linked c' (place (A e) l1 p e l2)
    /\ kept (l1 ++ (p, e) :: l2).*1 c c' /\ big_free c' = (big_free c + cost A e)%nat.
Proof.
  intros Hc Hl Hlast. pose proof (linked_lookup _ _ _ _ _ Hl) as Hp.
  destruct (Hbody c s l1 p e l2 _ Hc Hl Hlast (eq_refl : c_entry (Crec (first_of l2 None) (last_of None l1) e) = e)) as (c' & Hrun & H).
  exists c'. split; [|exact H]. cbn [for_each]. eapply run_bind; [apply rec_at_run; by rewrite Hc|]. by eapply run_bind; [exact Hrun|].
Qed.
(** The records that were freed before are met once more. *)
Lemma walk_still l2 : forall l1 c s fuel, d_cache s = c -> linked c (l1 ++ l2) -> still l2 -> (length l2 < fuel)%nat ->
  exists c', for_each fuel body (first_of l2 None) s = Ok tt (set_cache c' s) /\ linked c' (l1 ++ l2)
    /\ kept (l1 ++ l2).*1 c c' /\ big_free c' = big_free c.
Proof.
  induction l2 as [|[p e] l2 IH]; intros l1 c s [|fuel] Hc Hl Hs Hf; simpl in Hf; try lia.
  - exists c. split; [simpl; rewrite <- Hc; by destruct s|]. split; [done|]. split; [apply kept_refl|done].
  - apply Forall_cons in Hs as [He Hs]. simpl in He.
    destruct (walk_step fuel c l1 p e l2 s Hc Hl) as (c1 & Hrun1 & Hl1 & Hk1 & Hb1); [by rewrite He|].
    rewrite He in Hl1. cbn [place] in Hl1.
    destruct (IH (l1 ++ [(p, e)]) c1 (set_cache c1 s) fuel) as (c2 & Hrun2 & Hl2 & Hk2 & Hb2); [done|by rewrite <- app_assoc|done|lia|].
    rewrite <- app_assoc in Hl2, Hk2. exists c2. split; [cbn [first_of]; rewrite Hrun1; exact Hrun2|]. split; [exact Hl2|].
    split; [by eapply kept_trans|]. rewrite Hb2, Hb1. unfold cost. rewrite He. lia.
Qed.
Lemma walk_run todo : forall l1 frd c s fuel, d_cache s = c -> linked c (l1 ++ todo ++ frd) -> still frd ->
  (Exists (fun pe => A pe.2 = Last) todo -> (2 <= length (l1 ++ todo ++ frd))%nat) -> (2 * length todo + length frd < fuel)%nat ->
  exists c', for_each fuel body (first_of (todo ++ frd) None) s = Ok tt (set_cache c' s)
    /\ linked c' (rev (tops A todo) ++ l1 ++ stays A todo ++ frd ++ lasts A todo)
    /\ kept (l1 ++ todo ++ frd).*1 c c' /\ big_free c' = (big_free c + costs A todo)%nat.
Proof.
  induction todo as [|[p e] todo IH]; intros l1 frd c s [|fuel] Hc Hl Hs Hlast Hf; cbn [length] in Hf; try lia.
  { destruct (walk_still frd l1 c s (S fuel) Hc Hl Hs Hf) as (c' & Hrun & Hl' & Hk & Hb). exists c'.
    split; [exact Hrun|]. cbn. rewrite app_nil_r. split; [done|]. split; [done|]. rewrite Hb. unfold costs. cbn. lia. }
  assert (Hlast1 : A e = Last -> l1 ++ todo ++ frd <> []).
  { intros He Hnil. assert (Hex : Exists (fun pe => A pe.2 = Last) ((p, e) :: todo)) by by left.
    apply Hlast in Hex. rewrite !length_app in Hex. apply (f_equal length) in Hnil. rewrite !length_app in Hnil. cbn [length] in *. lia. }
  destruct (walk_step fuel c l1 p e (todo ++ frd) s Hc Hl Hlast1) as (c1 & Hrun1 & Hl1 & Hk1 & Hb1).
  assert (Hlen : length (place (A e) l1 p e (todo ++ frd)) = length (l1 ++ ((p, e) :: todo) ++ frd)).
  { rewrite <- !(length_fmap fst). by rewrite place_perm. }
  assert (Hrest : forall l1' frd', place (A e) l1 p e (todo ++ frd) = l1' ++ todo ++ frd' -> still frd' -> first_of (todo ++ frd') None = first_of (todo ++ frd) None ->
    (2 * length todo + length frd' < fuel)%nat ->
    exists c', for_each (S fuel) body (Some p) s = Ok tt (set_cache c' s)
      /\ linked c' (rev (tops A todo) ++ l1' ++ stays A todo ++ frd' ++ lasts A todo)
      /\ kept (l1 ++ ((p, e) :: todo) ++ frd).*1 c c' /\ big_free c' = (big_free c + costs A ((p, e) :: todo))%nat).
  { intros l1' frd' Hpl Hs' Hfst Hf'. rewrite Hpl in *. assert (Hperm := place_perm (A e) l1 p e (todo ++ frd)). rewrite Hpl in Hperm.
    destruct (IH l1' frd' c1 (set_cache c1 s) fuel eq_refl Hl1 Hs') as (c2 & Hrun2 & Hl2 & Hk2 & Hb2); [|done|].
    { intros Hex. rewrite Hlen. apply Hlast. by right. }
    exists c2. split; [rewrite Hrun1, <- Hfst; exact Hrun2|]. split; [exact Hl2|]. split.
    - eapply kept_trans; [exact Hk1|]. eapply kept_perm; [exact Hperm|exact Hk2].
    - rewrite Hb2, Hb1. unfold costs. cbn. lia. }
  cbn [app first_of]. unfold tops, stays, lasts in *. cbn [omap list_omap snd fst].
  destruct (A e) as [e'| |] eqn:He.
  - destruct (Hrest (l1 ++ [(p, e')]) frd) as (c' & Hrun & Hl' & Hk & Hb); [cbn; by rewrite <- app_assoc|done|done|lia|].
    exists c'. rewrite <- app_assoc in Hl'. by split.
  - destruct (Hrest ((p, e) :: l1) frd) as (c' & Hrun & Hl' & Hk & Hb); [done|done|done|lia|].
    exists c'. split; [done|]. split; [|done]. cbn [rev]. rewrite <- app_assoc. exact Hl'.
  - destruct (decide (todo ++ frd = [])) as [Hnil|Hne].
    + apply app_nil in Hnil as [-> ->]. exists c1. split; [rewrite Hrun1; destruct fuel; [lia|done]|].
      split; [cbn in *; by rewrite app_nil_r in Hl1|]. split; [done|]. rewrite Hb1. unfold costs. cbn. lia.
    + destruct (Hrest l1 (frd ++ [(p, freed e)])) as (c' & Hrun & Hl' & Hk & Hb).
      * cbn. by rewrite <- !app_assoc.
      * apply Forall_app. split; [done|]. apply Forall_singleton. cbn. by apply Hfreed.
      * destruct todo as [|[]]; [|done]. destruct frd as [|[]]; done.
      * rewrite length_app. cbn. lia.
      * exists c'. split; [done|]. split; [|done]. rewrite <- (app_assoc frd) in Hl'. exact Hl'.
Qed.
Lemma walked_run c l s : d_cache s = c -> linked c l -> (Exists (fun pe => A pe.2 = Last) l -> (2 <= length l)%nat) ->
  exists c', walk body s = Ok tt (set_cache c' s) /\ linked c' (walked A l) /\ kept (l.*1) c c' /\ big_free c' = (big_free c + costs A l)%nat.
Proof.
  intros Hc Hl Hlast. pose proof (walk_run l [] [] c s (2 * size (recs c) + 1) Hc) as H. cbn [app] in H. rewrite app_nil_r in H.
  destruct H as (c' & Hrun & H); [done|by constructor|done| |].
  { cbn [length]. enough (length l <= size (recs c))%nat by (simpl; lia). by apply linked_size. }
  exists c'. unfold walk. split; [|exact H]. eapply run_bind; [apply gets_run|]. rewrite Hc, (lk_head _ _ Hl). exact Hrun.
Qed.
End walk_rule.

(** ** Flags *)

Lemma has_bit k f : 0 <= k -> has (2 ^ k) f = Z.testbit f k.
Proof.
  intros Hk. unfold has. destruct (Z.testbit f k) eqn:Hb.
  - apply negb_true_iff, Z.eqb_neq. intros H0. apply (f_equal (fun z => Z.testbit z k)) in H0.
    rewrite Z.land_spec, Hb, Z.pow2_bits_true, Z.bits_0 in H0 by done. done.
  - apply negb_false_iff, Z.eqb_eq, Z.bits_inj'. intros i Hi. rewrite Z.land_spec, Z.bits_0, Z.pow2_bits_eqb by done.
    destruct (Z.eqb_spec k i); [subst; by rewrite Hb|apply andb_false_r].
Qed.
Lemma has_or a b f : has (Z.lor a b) f = has a f || has b f.
Proof.
  unfold has. rewrite Z.land_lor_distr_r. destruct (Z.eqb_spec (Z.land f a) 0) as [->|Ha]; [by rewrite Z.lor_0_l|].
  simpl. apply negb_true_iff, Z.eqb_neq. rewrite Z.lor_eq_0_iff. tauto.
Qed.
Lemma clear_bits mask f i : 0 <= i -> Z.testbit (clear mask f) i = Z.testbit f i && negb (Z.testbit mask i).
Proof. intros Hi. unfold clear. by rewrite Z.land_spec, Z.lnot_spec. Qed.
Lemma has_clear k mask f : 0 <= k -> has (2 ^ k) (clear mask f) = has (2 ^ k) f && negb (Z.testbit mask k).
Proof. intros Hk. rewrite !has_bit by done. by apply clear_bits. Qed.

(** A flag of an entry that was freed. *)
Lemma freed_bit k e : 0 <= k -> has (2 ^ k) (e_flags (freed e)) = has (2 ^ k) (e_flags e) && negb (Z.testbit (Z.lor FOUND F_BIGNAME) k).
Proof.
  intros Hk. unfold freed, freed_flags. cbn [e_flags set_flags]. cbv zeta. rewrite !has_bit by done. change FOUND with 12. change F_BIGNAME with (2 ^ 9).
  rewrite has_bit by done. change (Z.lor 12 (2 ^ 9)) with (Z.lor (Z.lor 4 8) 512). rewrite !Z.lor_spec, !negb_orb.
  change F_REVERSE with 4. change F_FORWARD with 8.
  destruct (Z.testbit (clear 4 (clear 8 (e_flags e))) 9) eqn:H9; rewrite ?clear_bits by done.
  - change (2 ^ 9) with 512. by destruct (Z.testbit (e_flags e) k), (Z.testbit 8 k), (Z.testbit 4 k).
  - rewrite !clear_bits in H9 by done. change (Z.testbit 8 9) with false in H9. change (Z.testbit 4 9) with false in H9.
    rewrite !andb_true_r in H9. change 512 with (2 ^ 9). rewrite Z.pow2_bits_eqb by done.
    destruct (Z.eqb_spec 9 k) as [<-|_]; [by rewrite H9|].
    by destruct (Z.testbit (e_flags e) k), (Z.testbit 8 k), (Z.testbit 4 k).
Qed.
Lemma freed_found e : has FOUND (e_flags (freed e)) = false.
Proof.
  change FOUND with (Z.lor (2 ^ 3) (2 ^ 2)). by rewrite has_or, !freed_bit, !andb_false_r by done.
Qed.
Lemma freed_forward e : has F_FORWARD (e_flags (freed e)) = false.
Proof. change F_FORWARD with (2 ^ 3). by rewrite freed_bit, andb_false_r by done. Qed.
Lemma freed_reverse e : has F_REVERSE (e_flags (freed e)) = false.
Proof. change F_REVERSE with (2 ^ 2). by rewrite freed_bit, andb_false_r by done. Qed.
Lemma freed_held e : has HELD (e_flags (freed e)) = has HELD (e_flags e).
Proof. change HELD with (Z.lor (2 ^ 6) (2 ^ 4)). by rewrite !has_or, !freed_bit, !andb_true_r by done. Qed.
Lemma freed_new e : has F_NEW (e_flags (freed e)) = has F_NEW (e_flags e).
Proof. change F_NEW with (2 ^ 1). by rewrite freed_bit, andb_true_r by done. Qed.

(** ** The searches *)

Definition find_act (m : entry -> bool) (now : Z) (e : entry) : act := if m e then if live now e then Top else Last else Stay e.
Lemma find_implements m now :
  implements (find_act m now) (fun crecp r => when (m (c_entry r))
    (if live now (c_entry r) then cache_unlink crecp;; cache_link crecp else cache_free crecp)).
Proof.
  intros c s l1 p e l2 r Hc Hl Hlast <-. unfold cost, find_act in *. destruct (m (c_entry r)) eqn:Hm; cbn [when].
  - destruct (live now (c_entry r)) eqn:Hlive.
    + destruct (cache_unlink_run c l1 p _ l2 s Hc Hl) as (c1 & Hrun1 & Hl1 & (n & q & Hr1) & Hk1 & Hb1).
      pose proof (nodup_middle _ _ _ _ (lk_nodup _ _ Hl)) as (_ & _ & _ & Hp1 & Hp2 & _).
      destruct (cache_link_run c1 _ p n q (c_entry r) (set_cache c1 s) eq_refl Hl1) as (c2 & Hrun2 & Hl2 & Hk2 & Hb2); [rewrite fmap_app; by apply not_elem_of_app|done|].
      exists c2. split; [by eapply run_bind; [exact Hrun1|]|]. split; [exact Hl2|]. split; [|rewrite Hb2, Hb1; lia].
      eapply kept_trans; [exact Hk1|]. eapply kept_more; [|exact Hk2]. rewrite !fmap_app. simpl. set_solver.
    + by apply cache_free_run; auto.
  - exists c. split; [by rewrite <- Hc; destruct s|]. split; [done|]. split; [apply kept_refl|lia].
Qed.

(** What a search takes to the top of a list, what it leaves, and what it frees. *)
Definition found (m : entry -> bool) (now : Z) (l : list (nat * entry)) : list (nat * entry) := rev (filter (fun pe => m pe.2 && live now pe.2 = true) l).
Definition others (m : entry -> bool) (l : list (nat * entry)) : list (nat * entry) := filter (fun pe => m pe.2 = false) l.
Definition expired (m : entry -> bool) (now : Z) (l : list (nat * entry)) : list (nat * entry) :=
  (fun pe => (pe.1, freed pe.2)) <$> filter (fun pe => m pe.2 && negb (live now pe.2) = true) l.
Definition searched (m : entry -> bool) (now : Z) (l : list (nat * entry)) : list (nat * entry) := found m now l ++ others m l ++ expired m now l.
Lemma searched_walked m now l : walked (find_act m now) l = searched m now l.
Proof.
  unfold walked, searched, found, others, expired, tops, stays, lasts, find_act. f_equal; [f_equal|f_equal].
  - induction l as [|[p e] l IH]; [done|]. cbn [omap list_omap snd]. rewrite filter_cons. cbn [snd].
    destruct (m e), (live now e); cbn; rewrite IH; done.
  - induction l as [|[p e] l IH]; [done|]. cbn [omap list_omap snd fst]. rewrite filter_cons. cbn [snd].
    destruct (m e), (live now e); cbn; rewrite IH; done.
  - induction l as [|[p e] l IH]; [done|]. cbn [omap list_omap snd fst]. rewrite filter_cons. cbn [snd].
    destruct (m e), (live now e); cbn; rewrite IH; done.
Qed.
End proofs.
