(* ===== verification/DnsLookup.v ===== *)
(** * DnsLookup: searches and insertion on the list of entries

    The searches find the live entries; an insertion replaces what it supersedes and takes
    the place of the oldest entry. *)

From S2P Require Import Prelude DnsTypes DnsCache DnsCacheProofs.
From stdpp Require Import gmap list.

#[local] Open Scope Z_scope.

Section lookup.
Context `{E : DnsEnv}.
Implicit Types (s : dns) (c : cache) (l : list (nat * entry)).

Lemma set_cache_id s : set_cache (d_cache s) s = s.
Proof. by destruct s. Qed.

(** ** The searches *)

Lemma by_name_freed name prot e : by_name name prot (freed e) = false.
Proof. unfold by_name. by rewrite freed_forward. Qed.
Lemma by_addr_freed addr prot e : by_addr addr prot (freed e) = false.
Proof. unfold by_addr. by rewrite freed_reverse. Qed.

Lemma found_true m now l : Forall (fun pe => m pe.2 = true) (found m now l).
Proof.
  unfold found. apply Forall_rev, Forall_forall. intros pe Hin. apply list_elem_of_filter in Hin as [H _]. by apply andb_true_iff in H as [H _].
Qed.
Lemma rest_false m now l : (forall e, m (freed e) = false) -> Forall (fun pe => m pe.2 = false) (others m l ++ expired m now l).
Proof.
  intros Hm. apply Forall_app. split; apply Forall_forall.
  - intros pe Hin. by apply list_elem_of_filter in Hin as [H _].
  - intros pe Hin. apply list_elem_of_fmap in Hin as (pe' & -> & _). apply Hm.
Qed.
(** What is found at the first record of a part of the list. *)
Lemma found_at_run m c l1 l2 s : d_cache s = c -> linked c (l1 ++ l2) ->
  found_at m (first_of l2 None) s = Ok (match l2 with (p, e) :: _ => if m e then Some p else None | [] => None end) s.
Proof.
  intros Hc Hl. destruct l2 as [|[p e] l2]; [done|]. cbn [first_of found_at].
  eapply run_bind; [apply rec_at_run; rewrite Hc; by eapply linked_lookup|]. done.
Qed.
Lemma find_first_run m now c l s : d_cache s = c -> linked c l -> (forall e, m (freed e) = false) ->
  (expired m now l <> [] -> (2 <= length l)%nat) ->
  exists c', cache_find m None now s = Ok (first_of (found m now l) None) (set_cache c' s)
    /\ linked c' (searched m now l) /\ kept (l.*1) c c'.
Proof.
  intros Hc Hl Hm Hexp.
  destruct (walked_run (find_act m now) _ (find_implements m now)) with (c := c) (l := l) (s := s) as (c' & Hrun & Hl' & Hk & _); [|done|done| |].
  { intros e _. unfold find_act. by rewrite Hm. }
  { intros Hex. apply Hexp. apply Exists_exists in Hex as ([p e] & Hin & He). unfold find_act in He. cbn in He.
    destruct (m e) eqn:Hme; [|done]. destruct (live now e) eqn:Hlive; [done|]. unfold expired. intros H0. apply fmap_nil_inv in H0.
    apply (filter_nil_not_elem_of _ _ (p, e) H0); [|done]. cbn. by rewrite Hme, Hlive. }
  rewrite searched_walked in Hl'. exists c'. split; [|by split].
  unfold cache_find. eapply run_bind; [exact Hrun|]. eapply run_bind; [apply gets_run|].
  cbn [d_cache set_cache]. rewrite (lk_head _ _ Hl'). rewrite (found_at_run m c' [] (searched m now l)) by done.
  f_equal. pose proof (found_true m now l) as Hf. pose proof (rest_false m now l Hm) as Hr. unfold searched.
  destruct (found m now l) as [|[p e] f]; cbn [app].
  - destruct (others m l ++ expired m now l) as [|[p e] r]; [done|]. apply Forall_cons in Hr as [Hr _]. cbn in Hr. by rewrite Hr.
  - apply Forall_cons in Hf as [Hf _]. cbn in *. by rewrite Hf.
Qed.
Lemma find_next_run m now c l1 p e l2 s : d_cache s = c -> linked c (l1 ++ (p, e) :: l2) ->
  cache_find m (Some p) now s = Ok (match l2 with (q, e') :: _ => if m e' then Some q else None | [] => None end) s.
Proof.
  intros Hc Hl. unfold cache_find. eapply run_bind; [apply rec_at_run; rewrite Hc; by eapply linked_lookup|]. cbn [c_next].
  eapply (found_at_run m c (l1 ++ [(p, e)])); [done|]. by rewrite <- app_assoc.
Qed.

(** The searches as the answers make them: until nothing more is found. *)
Fixpoint search_all (fuel : nat) (m : entry -> bool) (crecp : option nat) (now : Z) : DnM (list entry) :=
  match fuel with
  | O => fail Out_of_fuel
  | S fuel' =>
      crecp ← cache_find m crecp now;
      match crecp with
      | None => mret []
      | Some p => r ← rec_at p; es ← search_all fuel' m (Some p) now; mret (c_entry r :: es)
      end
  end.
Lemma search_rest m now c rest s : d_cache s = c -> Forall (fun pe => m pe.2 = false) rest ->
  forall l2 l1 p e fuel, linked c (l1 ++ (p, e) :: l2 ++ rest) -> Forall (fun pe => m pe.2 = true) l2 -> (length l2 < fuel)%nat ->
  search_all fuel m (Some p) now s = Ok l2.*2 s.
Proof.
  intros Hc Hrest. induction l2 as [|[q e'] l2 IH]; intros l1 p e [|fuel] Hl Ht Hf; simpl in Hf; try lia; cbn [search_all].
  - eapply run_bind; [by eapply find_next_run|]. cbn [app]. destruct rest as [|[q e'] rest]; [done|].
    apply Forall_cons in Hrest as [Hq _]. cbn in Hq. by rewrite Hq.
  - apply Forall_cons in Ht as [Hq Ht]. cbn in Hq. eapply run_bind; [by eapply find_next_run|]. cbn [app]. rewrite Hq.
    assert (Hl' : linked c ((l1 ++ [(p, e)]) ++ (q, e') :: l2 ++ rest)) by (by rewrite <- app_assoc).
    eapply run_bind; [apply rec_at_run; rewrite Hc; by eapply linked_lookup|].
    eapply run_bind; [eapply IH; [exact Hl'|done|lia]|]. done.
Qed.
Lemma search_all_run m now c l fuel s : d_cache s = c -> linked c l -> (forall e, m (freed e) = false) ->
  (expired m now l <> [] -> (2 <= length l)%nat) -> (length l < fuel)%nat ->
  exists c', search_all fuel m None now s = Ok (found m now l).*2 (set_cache c' s)
    /\ linked c' (searched m now l) /\ kept (l.*1) c c'.
Proof.
  intros Hc Hl Hm Hexp Hf. destruct (find_first_run m now c l s Hc Hl Hm Hexp) as (c' & Hrun & Hl' & Hk). exists c'.
  split; [|by split]. destruct fuel as [|fuel]; [lia|]. cbn [search_all]. eapply run_bind; [exact Hrun|].
  pose proof (found_true m now l) as Ht. pose proof (rest_false m now l Hm) as Hr. unfold searched in Hl'.
  assert (Hlen : (length (found m now l) <= length l)%nat) by (unfold found; rewrite length_rev; apply length_filter).
  destruct (found m now l) as [|[p e] f]; [done|]. cbn [first_of]. apply Forall_cons in Ht as [_ Ht]. cbn [length] in Hlen.
  eapply run_bind; [apply rec_at_run; by eapply (linked_lookup _ [])|].
  eapply run_bind; [eapply (search_rest m now c'); [done|exact Hr|exact (Hl' : linked c' ([] ++ (p, e) :: f ++ _))|done|lia]|]. done.
Qed.

(** ** Insertion *)

Definition sup_act (name : list Z) (addr : option (list Z)) (now flags : Z) (e : entry) : act :=
  if superseded name addr now flags e then Last else Stay e.
Definition twin (old e : entry) : bool :=
  fellow old e && ((has F_REVERSE (kind (e_flags old)) && same_addr (e_addr e) (e_addr old))
                   || (has F_FORWARD (kind (e_flags old)) && same_name (e_name e) (e_name old))).
Definition fellow_act (old e : entry) : act := if twin old e then Last else Stay e.

Lemma keep_run c l s : d_cache s = c -> linked c l -> exists c', Ok tt s = Ok tt (set_cache c' s) /\ linked c' l
  /\ kept (l.*1) c c' /\ big_free c' = (big_free c + 0)%nat.
Proof.
  intros <- Hl. exists (d_cache s). split; [by rewrite set_cache_id|]. split; [done|]. split; [apply kept_refl|lia].
Qed.
Lemma sup_implements name addr now flags :
  implements (sup_act name addr now flags) (fun crecp r => when (superseded name addr now flags (c_entry r)) (cache_free crecp)).
Proof.
  intros c s l1 p e l2 r Hc Hl Hlast <-. unfold cost, sup_act in *. destruct (superseded name addr now flags (c_entry r)); cbn [when].
  - by apply cache_free_run; auto.
  - by apply keep_run.
Qed.
(** An entry is for names or for addresses, not for both. *)
Definition one_way (e : entry) : Prop := has F_FORWARD (e_flags e) && has F_REVERSE (e_flags e) = false.
Lemma kind_bit k f : 0 <= k -> Z.testbit KIND k = true -> has (2 ^ k) (kind f) = has (2 ^ k) f.
Proof. intros Hk Hb. unfold kind. by rewrite !has_bit, Z.land_spec, Hb, andb_true_r by done. Qed.
Lemma kind_forward f : has F_FORWARD (kind f) = has F_FORWARD f.
Proof. change F_FORWARD with (2 ^ 3). by apply kind_bit. Qed.
Lemma kind_reverse f : has F_REVERSE (kind f) = has F_REVERSE f.
Proof. change F_REVERSE with (2 ^ 2). by apply kind_bit. Qed.
Lemma found_bits f : has FOUND f = has F_FORWARD f || has F_REVERSE f.
Proof. apply has_or. Qed.

Lemma fellow_implements old : one_way old -> implements (fellow_act old) (free_fellows old).
Proof.
  intros Hone c s l1 p e l2 r Hc Hl Hlast <-. unfold one_way in Hone. rewrite <- kind_forward, <- kind_reverse in Hone.
  unfold free_fellows, cost, fellow_act, twin in *. destruct (fellow old (c_entry r)); cbn [when andb] in *; [|by apply keep_run].
  destruct (has F_REVERSE (kind (e_flags old))) eqn:Hrev, (has F_FORWARD (kind (e_flags old))) eqn:Hfwd; cbn [andb orb] in *; try done;
    rewrite ?orb_false_r in *.
  - destruct (same_addr _ _); cbn [when].
    + destruct (cache_free_run c l1 p (c_entry r) l2 s Hc Hl) as (c' & Hrun & H); [auto|]. exists c'. split; [|exact H]. by eapply run_bind; [exact Hrun|].
    + destruct (keep_run _ _ _ Hc Hl) as (c' & Hrun & H). exists c'. split; [|exact H]. by eapply run_bind; [exact Hrun|].
  - destruct (same_name _ _); cbn [when].
    + destruct (cache_free_run c l1 p (c_entry r) l2 s Hc Hl) as (c' & Hrun & H); [auto|]. exists c'. by split.
    + destruct (keep_run _ _ _ Hc Hl) as (c' & Hrun & H). exists c'. by split.
  - destruct (keep_run _ _ _ Hc Hl) as (c' & Hrun & H). exists c'. by split.
Qed.
Lemma sup_freed name addr now flags e : has FOUND flags = true -> superseded name addr now flags (freed e) = false.
Proof.
  intros Hf. unfold superseded. rewrite freed_found. cbn [andb orb]. destruct (Z.eqb_spec (kind (e_flags (freed e))) flags) as [Hk|].
  - exfalso. rewrite <- Hk, found_bits, kind_forward, kind_reverse, freed_forward, freed_reverse in Hf. done.
  - by rewrite !andb_false_r.
Qed.
Lemma twin_freed old e : has FOUND (e_flags old) = true -> twin old (freed e) = false.
Proof.
  intros Hf. unfold twin, fellow. destruct (Z.eqb_spec (kind (e_flags (freed e))) (kind (e_flags old))) as [Hk|].
  - exfalso. rewrite found_bits, <- kind_forward, <- kind_reverse, <- Hk, kind_forward, kind_reverse, freed_forward, freed_reverse in Hf. done.
  - by rewrite !andb_false_r.
Qed.

(** Freeing what a test selects: the others keep their order. *)
Definition freeing (P : entry -> bool) (l : list (nat * entry)) : list (nat * entry) :=
  filter (fun pe => P pe.2 = false) l ++ ((fun pe => (pe.1, freed pe.2)) <$> filter (fun pe => P pe.2 = true) l).
Lemma freeing_walked (P : entry -> bool) l : walked (fun e => if P e then Last else Stay e) l = freeing P l.
Proof.
  unfold walked, freeing. assert (Ht : tops (fun e => if P e then Last else Stay e) l = []).
  { unfold tops. induction l as [|[p e] l IH]; [done|]. cbn [omap list_omap snd]. by destruct (P e). }
  rewrite Ht. clear Ht. cbn [rev app]. f_equal; unfold stays, lasts.
  - induction l as [|[p e] l IH]; [done|]. cbn [omap list_omap snd fst]. rewrite filter_cons. cbn [snd]. destruct (P e); repeat case_decide; try congruence; cbn; by rewrite IH.
  - induction l as [|[p e] l IH]; [done|]. cbn [omap list_omap snd fst]. rewrite filter_cons. cbn [snd]. destruct (P e); repeat case_decide; try congruence; cbn; by rewrite IH.
Qed.
(** The big names that this gives back. *)
Definition released (P : entry -> bool) (l : list (nat * entry)) : nat := costs (fun e => if P e then Last else Stay e) l.
Lemma freeing_run (P : entry -> bool) body c l s : d_cache s = c -> linked c l -> implements (fun e => if P e then Last else Stay e) body ->
  (forall e, P (freed e) = false) -> (2 <= length l)%nat ->
  exists c', walk body s = Ok tt (set_cache c' s) /\ linked c' (freeing P l) /\ kept (l.*1) c c' /\ big_free c' = (big_free c + released P l)%nat.
Proof.
  intros Hc Hl Hbody HP Hlen. destruct (walked_run _ _ Hbody) with (c := c) (l := l) (s := s) as (c' & Hrun & Hl' & Hk & Hb);
    [intros e _; by rewrite HP|done|done|done|].
  exists c'. rewrite freeing_walked in Hl'. by split_and!.
Qed.
Lemma freeing_perm (P : entry -> bool) l : (freeing P l).*1 ≡ₚ l.*1.
Proof.
  unfold freeing. induction l as [|[p e] l IH]; [done|]. rewrite !filter_cons. cbn [snd]. destruct (P e); repeat case_decide; try congruence; cbn.
  - rewrite fmap_app. cbn. rewrite <- Permutation_middle. constructor. by rewrite <- fmap_app.
  - by constructor.
Qed.

(** ** The entry that is taken *)

(** The records of other lists and the sizes. *)
Record tracks (ps : list nat) (c c' : cache) : Prop := Tracks {
  tr_recs : forall p, p ∉ ps -> recs c' !! p = recs c !! p;
  tr_dom : size (recs c') = size (recs c);
  tr_size : cache_size c' = cache_size c
}.
Lemma kept_tracks ps c c' : kept ps c c' -> tracks ps c c'.
Proof. intros []. by split. Qed.
Lemma tracks_trans ps c c' c'' : tracks ps c c' -> tracks ps c' c'' -> tracks ps c c''.
Proof. intros [H1 H2 H3] [K1 K2 K3]. split; try congruence. intros p Hp. by rewrite K1, H1. Qed.
Lemma tracks_more ps ps' c c' : ps ⊆ ps' -> tracks ps c c' -> tracks ps' c c'.
Proof. intros Hl [H1 H2 H3]. split; try done. intros p Hp. apply H1. set_solver. Qed.
Lemma tracks_counters ps c c1 c2 : tracks ps c c1 -> recs c2 = recs c1 -> cache_size c2 = cache_size c1 -> tracks ps c c2.
Proof. intros [H1 H2 H3] E1 E2. split; try congruence. intros p Hp. rewrite E1. auto. Qed.

Lemma drop_tail_run c l p e s : d_cache s = c -> linked c (l ++ [(p, e)]) -> l <> [] ->
  exists c', drop_tail p s = Ok tt (set_cache c' s) /\ linked c' l /\ (exists n q, recs c' !! p = Some (Crec n q e))
    /\ kept (l ++ [(p, e)]).*1 c c' /\ big_free c' = big_free c.
Proof.
  intros Hc Hl Hne. destruct (exists_last Hne) as (l' & [t et] & ->). pose proof (linked_lookup _ _ _ _ _ Hl) as Hp.
  rewrite last_of_snoc in Hp. cbn [first_of] in Hp.
  assert (Hnd := lk_nodup _ _ Hl). rewrite fmap_app in Hnd. apply NoDup_app in Hnd as (Hnd & Hd & _).
  assert (Hpt : p <> t). { intros ->. apply (Hd t); [rewrite fmap_app; set_solver|simpl; left]. }
  assert (Ht : recs c !! t = Some (Crec (Some p) (last_of None l') et)).
  { pose proof (lk_seg _ _ Hl) as Hs. rewrite <- app_assoc in Hs. exact (seg_lookup _ _ _ _ _ _ _ Hs). }
  set (c1 := set_tail (Some t) c).
  set (c2 := set_recs (<[t := Crec None (last_of None l') et]> (recs c)) c1). exists c2. split.
  { unfold drop_tail. eapply run_bind; [apply rec_at_run; by rewrite Hc|]. eapply run_bind; [apply change_run|]. rewrite Hc.
    eapply run_bind; [reflexivity|]. exact (store_rec_run t (set_next None) _ (set_cache c1 s) Ht). }
  split; [|split; [|split; [|done]]].
  - destruct Hl as [_ Hh _ Hs]. apply seg_app in Hs as [Hs _]. split.
    + done.
    + cbn. rewrite Hh, !first_of_app. by destruct l' as [|[]].
    + cbn. by rewrite last_of_snoc.
    + by apply (seg_relink_last _ _ _ _ _ (Some p)).
  - exists None, (Some t). cbn. by rewrite lookup_insert_ne.
  - apply kept_counters with (set_recs (<[t := Crec None (last_of None l') et]> (recs c)) c); [|done..].
    eapply kept_more; [|by eapply kept_store]. rewrite !fmap_app. set_solver.
Qed.

Definition held (pe : nat * entry) : Prop := has HELD (e_flags pe.2) = true /\ has F_NEW (e_flags pe.2) = false.
Definition full (c : cache) (long_name : bool) : Prop := long_name = true /\ big_free c = O /\ bignames_left c = 0.
Definition memory : Prop := forall n, denv_malloc n <> None.
Lemma flags_at_run c l1 p e l2 s : d_cache s = c -> linked c (l1 ++ (p, e) :: l2) -> flags_at p s = Ok (e_flags e) s.
Proof. intros Hc Hl. unfold flags_at. eapply run_bind; [apply rec_at_run; rewrite Hc; by eapply linked_lookup|]. done. Qed.

(** What may change: the cache, and the number of calls. *)
Definition only_cache (s s' : dns) : Prop := s' = set_calls (d_calls s') (set_cache (d_cache s') s).
Lemma only_cache_refl s : only_cache s s.
Proof. by destruct s. Qed.
Lemma only_cache_trans s s' s'' : only_cache s s' -> only_cache s' s'' -> only_cache s s''.
Proof. unfold only_cache. intros -> ->. done. Qed.
Lemma only_cache_set c s : only_cache s (set_cache c s).
Proof. done. Qed.
Lemma safe_malloc_twp (Q : Z -> dns -> Prop) s : memory -> (forall g, Q g (set_calls (S (d_calls s)) s)) -> twp safe_malloc Q s.
Proof.
  intros Hmem HQ. unfold safe_malloc. apply twp_bind. eapply twp_run; [reflexivity|]. destruct (denv_malloc (d_calls s)) eqn:Hm; [|by apply Hmem in Hm].
  apply twp_ret, HQ.
Qed.

(** The result of the loop on a list whose last ordinary entry is [(p, e)]: the entry of the
    list [l1] with the held ones on top, or nothing when the entry is new or there is no
    memory for a long name. *)
Definition grabbed (c : cache) (l1 : list (nat * entry)) (p : nat) (e : entry) (long_name : bool) (r : option (nat * bool)) (c' : cache) : Prop :=
  match r with
  | None => linked c' (l1 ++ [(p, e)]) /\ (has F_NEW (e_flags e) = true \/ full c long_name)
  | Some (q, b) => q = p /\ b = long_name /\ has F_NEW (e_flags e) = false /\ ~ full c long_name /\ linked c' l1
      /\ exists n q, recs c' !! p = Some (Crec n q e)
  end.
Lemma drop_tail_twp c l p e (Q : unit -> dns -> Prop) s : linked c (l ++ [(p, e)]) -> l <> [] -> d_cache s = c ->
  (forall c', linked c' l -> (exists n q, recs c' !! p = Some (Crec n q e)) -> kept (l ++ [(p, e)]).*1 c c' -> big_free c' = big_free c -> Q tt (set_cache c' s)) ->
  twp (drop_tail p) Q s.
Proof. intros Hl Hne Hc HQ. destruct (drop_tail_run c l p e s Hc Hl Hne) as (c' & Hrun & H1 & H2 & H3 & H4). eapply twp_run; [exact Hrun|]. auto. Qed.

Lemma grab_last c l1 p e fuel long_name s : memory -> d_cache s = c -> linked c (l1 ++ [(p, e)]) -> has HELD (e_flags e) = false -> l1 <> [] ->
  twp (grab (S fuel) long_name) (fun r s' => grabbed c l1 p e long_name r (d_cache s') /\ tracks (l1 ++ [(p, e)]).*1 c (d_cache s') /\ only_cache s s') s.
Proof.
  intros Hmem Hc Hl Hord Hne. cbn [grab].
  assert (Htail : cache_tail c = Some p) by (by rewrite (lk_tail _ _ Hl), last_of_snoc).
  apply twp_bind, twp_gets. rewrite Hc, Htail. apply twp_bind. eapply twp_run; [reflexivity|].
  apply twp_bind. eapply twp_run; [by eapply flags_at_run|].
  destruct (has F_NEW (e_flags e)) eqn:Hnew.
  { apply twp_ret. rewrite Hc. split; [split; [done|by left]|]. split; [apply kept_tracks, kept_refl|apply only_cache_refl]. }
  rewrite Hord.
  assert (Hdrop : forall c1 s1, d_cache s1 = c1 -> linked c1 (l1 ++ [(p, e)]) -> tracks (l1 ++ [(p, e)]).*1 c c1 -> only_cache s s1 -> ~ full c long_name ->
    forall m, (forall s', m s' = Ok (Some (p, long_name)) s') ->
    twp (drop_tail p;; m) (fun r s' => grabbed c l1 p e long_name r (d_cache s') /\ tracks (l1 ++ [(p, e)]).*1 c (d_cache s') /\ only_cache s s') s1).
  { intros c1 s1 Hc1 Hl1 Ht1 Ho1 Hnf m Hm. apply twp_bind. eapply drop_tail_twp; [exact Hl1|done|done|]. intros c' Hl' Hr' Hk' Hb'.
    eapply twp_run; [apply Hm|]. split; [unfold grabbed; by split_and!|]. split; [|by eapply only_cache_trans].
    eapply tracks_trans; [exact Ht1|by apply kept_tracks]. }
  destruct long_name.
  - destruct (big_free c) as [|n] eqn:Hbig.
    + destruct (Z.eqb_spec (bignames_left c) 0) as [Hleft|Hleft].
      { apply twp_ret. rewrite Hc. split; [split; [done|by right]|]. split; [apply kept_tracks, kept_refl|apply only_cache_refl]. }
      apply twp_bind, safe_malloc_twp; [done|]. intros g. apply twp_bind. eapply twp_run; [apply change_run|]. cbn [d_cache set_calls]. rewrite Hc.
      eapply Hdrop; [reflexivity| | |done|by intros (_ & _ & ?)|done].
      * destruct Hl. by split.
      * eapply tracks_counters; [apply kept_tracks, kept_refl|done|done].
    + apply twp_bind. eapply twp_run; [apply change_run|]. rewrite Hc.
      eapply Hdrop; [reflexivity| | |done|intros (_ & ? & _); congruence|done].
      * destruct Hl. by split.
      * eapply tracks_counters; [apply kept_tracks, kept_refl|done|done].
  - eapply Hdrop; [exact Hc|done|apply kept_tracks, kept_refl|apply only_cache_refl|by intros (? & _)|done].
Qed.
(** Entries of /etc/hosts and of DHCP at the end go to the top. *)
Lemma grab_twp hs : forall c l1 p e fuel long_name s, memory -> d_cache s = c -> linked c (l1 ++ (p, e) :: hs) -> Forall held hs ->
  has HELD (e_flags e) = false -> (hs ++ l1 <> []) -> (length hs < fuel)%nat ->
  twp (grab fuel long_name) (fun r s' => grabbed c (hs ++ l1) p e long_name r (d_cache s')
    /\ tracks (l1 ++ (p, e) :: hs).*1 c (d_cache s') /\ only_cache s s') s.
Proof.
  induction hs as [|[h eh] hs IH] using rev_ind; intros c l1 p e [|fuel] long_name s Hmem Hc Hl Hh Hord Hne Hf; try (simpl in Hf; lia); [by apply grab_last|].
  apply Forall_app in Hh as [Hh [Hheld Hnew]%Forall_singleton]. cbn [snd] in *.
  assert (Hl' : linked c ((l1 ++ (p, e) :: hs) ++ [(h, eh)])) by (by rewrite <- app_assoc).
  assert (Htail : cache_tail c = Some h) by (by rewrite (lk_tail _ _ Hl'), last_of_snoc).
  cbn [grab]. apply twp_bind, twp_gets. rewrite Hc, Htail. apply twp_bind. eapply twp_run; [reflexivity|].
  apply twp_bind. eapply twp_run; [by eapply flags_at_run|]. rewrite Hnew, Hheld.
  apply twp_bind. eapply drop_tail_twp; [exact Hl'|by destruct l1|done|]. intros c1 Hl1 (n & q & Hr1) Hk1 Hb1.
  assert (Hnd := lk_nodup _ _ Hl'). rewrite fmap_app in Hnd. apply NoDup_app in Hnd as (_ & Hd & _).
  destruct (cache_link_run c1 _ h n q eh (set_cache c1 s) eq_refl Hl1) as (c2 & Hrun2 & Hl2 & Hk2 & Hb2); [|done|].
  { intros Hin. apply (Hd _ Hin). simpl. left. }
  apply twp_bind. eapply twp_run; [exact Hrun2|].
  assert (Hk : kept (l1 ++ (p, e) :: hs ++ [(h, eh)]).*1 c c2).
  { eapply kept_trans; eapply kept_more; [|exact Hk1| |exact Hk2]; rewrite ?fmap_app; simpl; rewrite ?fmap_app; set_solver. }
  assert (Hleft : bignames_left c2 = bignames_left c) by apply Hk.
  eapply twp_mono; [apply (IH c2 ((h, eh) :: l1) p e fuel long_name); [done|done|done|done|done| |rewrite length_app in Hf; simpl in Hf; lia]|].
  { by destruct hs. }
  intros r s' (Hg & Ht & Ho). split; [|split].
  - rewrite <- (app_assoc hs). cbn [app]. destruct r as [[]|]; unfold grabbed, full in *; rewrite ?Hb2, ?Hb1, ?Hleft in Hg; exact Hg.
  - eapply tracks_trans; [apply kept_tracks, Hk|]. eapply tracks_more; [|exact Ht]. simpl. rewrite !fmap_app. simpl. rewrite !fmap_app. set_solver.
  - eapply only_cache_trans; [|exact Ho]. done.
Qed.

(** ** The whole insertion *)

(** The last entry that is not from /etc/hosts or DHCP, what is before it, and after it. *)
Fixpoint last_ordinary (l : list (nat * entry)) : option (list (nat * entry) * (nat * entry) * list (nat * entry)) :=
  match l with
  | [] => None
  | pe :: l' =>
      match last_ordinary l' with
      | Some (front, x, hs) => Some (pe :: front, x, hs)
      | None => if has HELD (e_flags pe.2) then None else Some ([], pe, l')
      end
  end.
Definition long (name : list Z) : bool := Nat.ltb (SMALLDNAME - 1) (length name).
(** The insertion as a function: [room] says that there is memory for a long name. *)
Definition insert_list (room : bool) (name : list Z) (addr : option (list Z)) (now ttl flags : Z) (l : list (nat * entry))
  : option (bool * list (nat * entry)) :=
  match last_ordinary (freeing (superseded name addr now flags) l) with
  | None => None
  | Some (front, (p, old), hs) =>
      if has F_NEW (e_flags old) || (long name && negb room) then Some (true, (hs ++ front) ++ [(p, old)])
      else
        Some (false, (p, new_entry name addr now ttl flags (long name) old)
                       :: (if has FOUND (e_flags old) then freeing (twin old) (hs ++ front) else hs ++ front))
  end.
Definition room_in (c : cache) (more : nat) : bool := negb ((big_free c + more =? 0)%nat && (bignames_left c =? 0)).

Definition insertable (flags : Z) : Prop := flags = Z.lor F_IPV4 F_FORWARD \/ flags = Z.lor F_IPV4 F_REVERSE.
Record entry_ok (e : entry) : Prop := EntryOk {
  eo_held : has HELD (e_flags e) = true -> has F_NEW (e_flags e) = false;
  eo_ordinary : has HELD (e_flags e) = false -> one_way e
}.
Definition ordinary (pe : nat * entry) : Prop := has HELD (e_flags pe.2) = false.
(** The list of a cache that can take entries: with fewer records the code frees the last
    one and follows NULL. *)
Record list_ok (l : list (nat * entry)) : Prop := ListOk {
  lo_length : (3 <= length l)%nat;
  lo_ordinary : Exists ordinary l;
  lo_entries : Forall (fun pe => entry_ok pe.2) l
}.

Lemma last_ordinary_parts l : match last_ordinary l with
  | Some (front, x, hs) => l = front ++ x :: hs /\ ordinary x /\ Forall (fun pe => has HELD (e_flags pe.2) = true) hs
  | None => Forall (fun pe => has HELD (e_flags pe.2) = true) l
  end.
Proof.
  induction l as [|pe l IH]; [by constructor|]. cbn [last_ordinary]. destruct (last_ordinary l) as [[[front x] hs]|].
  - destruct IH as (-> & H1 & H2). by split_and!.
  - destruct (has HELD (e_flags pe.2)) eqn:Hp; [by constructor|]. by split_and!.
Qed.
Lemma freed_ok e : entry_ok e -> entry_ok (freed e).
Proof.
  intros [H1 H2]. split.
  - rewrite freed_held, freed_new. done.
  - intros _. unfold one_way. by rewrite freed_forward.
Qed.
Lemma freeing_Forall (Q : nat * entry -> Prop) P l : (forall p e, Q (p, e) -> Q (p, freed e)) -> Forall Q l -> Forall Q (freeing P l).
Proof.
  rewrite !Forall_forall. intros HQ Hl x Hx. unfold freeing in Hx. apply elem_of_app in Hx as [[_ Hx]%list_elem_of_filter|([p e] & -> & Hx)%list_elem_of_fmap]; [auto|].
  apply list_elem_of_filter in Hx as [_ Hx]. apply HQ, Hl, Hx.
Qed.
Lemma freeing_ordinary P l : Exists ordinary l -> Exists ordinary (freeing P l).
Proof.
  rewrite !Exists_exists. intros ([p e] & Hin & Ho). unfold freeing. destruct (P e) eqn:HP.
  - exists (p, freed e). split; [|unfold ordinary in *; cbn [fst snd] in *; by rewrite freed_held].
    apply elem_of_app. right. apply list_elem_of_fmap. exists (p, e). split; [done|]. by apply list_elem_of_filter.
  - exists (p, e). split; [|done]. apply elem_of_app. left. by apply list_elem_of_filter.
Qed.
Lemma freeing_length P l : length (freeing P l) = length l.
Proof. rewrite <- !(length_fmap fst). by rewrite freeing_perm. Qed.
Lemma freeing_ok P l : list_ok l -> list_ok (freeing P l).
Proof.
  intros [H1 H2 H3]. split.
  - by rewrite freeing_length.
  - by apply freeing_ordinary.
  - apply freeing_Forall; [|done]. intros p e. apply freed_ok.
Qed.
Lemma new_entry_flags name addr now ttl flags big old : insertable flags ->
  let f := e_flags (new_entry name addr now ttl flags big old) in
  has HELD f = false /\ has F_NEW f = true /\ has F_IMMORTAL f = false /\ has F_IPV4 f = true
  /\ has F_FORWARD f = has F_FORWARD flags /\ has F_REVERSE f = has F_REVERSE flags
  /\ has F_FORWARD flags && has F_REVERSE flags = false /\ has F_NEG f = bool_decide (addr = None) /\ kind f = flags.
Proof. intros [-> | ->]; destruct addr, big; vm_compute; auto 10. Qed.

Lemma insertable_found flags : insertable flags -> has FOUND flags = true.
Proof. by intros [-> | ->]. Qed.
Lemma kept_linked_length c c' l l' : linked c l -> l'.*1 ≡ₚ l.*1 -> length l' = length l.
Proof. intros _ H. rewrite <- !(length_fmap fst). by rewrite H. Qed.
Lemma held_forall l : Forall (fun pe => entry_ok pe.2) l -> Forall (fun pe => has HELD (e_flags pe.2) = true) l -> Forall held l.
Proof.
  rewrite !Forall_forall. intros Hok Hh pe Hin. split; [by apply Hh|]. apply (eo_held _ (Hok pe Hin)). by apply Hh.
Qed.
(** The second half: the entry [(p, old)] is off the list, and is written. *)
Lemma write_new c l p n q old name addr now ttl flags s : d_cache s = c -> linked c l -> p ∉ (l.*1) -> recs c !! p = Some (Crec n q old) ->
  (2 <= length l)%nat -> one_way old -> insertable flags ->
  twp (r ← rec_at p;
       let old := c_entry r in
       when (has FOUND (e_flags old))
         (change (fun c => set_live_freed (s32 (cache_live_freed c + 1)) c);;
          walk (free_fellows old));;
       store_rec p (set_entry (new_entry name addr now ttl flags (long name) old));;
       cache_link p;;
       change (fun c => set_inserted (s32 (cache_inserted c + 1)) c);;
       mret false)
    (fun failed s' => failed = false /\ linked (d_cache s') ((p, new_entry name addr now ttl flags (long name) old)
        :: (if has FOUND (e_flags old) then freeing (twin old) l else l)) /\ tracks (p :: l.*1) c (d_cache s') /\ only_cache s s') s.
Proof.
  intros Hc Hl Hp Hr Hlen Hone Hins. apply twp_bind. eapply twp_run; [apply rec_at_run; by rewrite Hc|]. cbv zeta. cbn [c_entry].
  set (l2 := if has FOUND (e_flags old) then freeing (twin old) l else l).
  apply twp_bind. eapply (twp_mono _ (fun _ s1 => only_cache s s1 /\ linked (d_cache s1) l2 /\ tracks (l.*1) c (d_cache s1))).
  { subst l2. destruct (has FOUND (e_flags old)) eqn:Hf; cbn [when].
    - apply twp_bind. eapply twp_run; [apply change_run|]. rewrite Hc.
      set (c1 := set_live_freed (s32 (cache_live_freed c + 1)) c).
      assert (Hl1 : linked c1 l) by (destruct Hl; by split).
      destruct (freeing_run (twin old) _ c1 l (set_cache c1 s) eq_refl Hl1 (fellow_implements old Hone)) as (c2 & Hrun & Hl2 & Hk & _);
        [intros e; by apply twin_freed|done|].
      eapply twp_run; [exact Hrun|]. split; [done|]. split; [done|]. destruct Hk as [K1 K2 _ K4 _ _]. by split.
    - apply twp_ret. rewrite Hc. split; [apply only_cache_refl|]. split; [done|apply kept_tracks, kept_refl]. }
  intros [] s1 (Ho1 & Hl1 & Ht1). assert (Hp1 : p ∉ (l2.*1)) by (subst l2; destruct (has FOUND _); [by rewrite freeing_perm|done]).
  assert (Hr1 : recs (d_cache s1) !! p = Some (Crec n q old)) by (rewrite (tr_recs _ _ _ Ht1); done).
  apply twp_bind. eapply twp_run; [by eapply store_rec_run|].
  destruct (linked_frame (d_cache s1) l2 p _ (set_entry (new_entry name addr now ttl flags (long name) old) (Crec n q old)) Hl1 Hp1 Hr1) as [Hl3 Hk3].
  set (c3 := set_recs _ _) in *.
  destruct (cache_link_run c3 l2 p n q (new_entry name addr now ttl flags (long name) old) (set_cache c3 s1) eq_refl Hl3 Hp1) as (c4 & Hrun4 & Hl4 & Hk4 & _).
  { cbn. apply lookup_insert_eq. }
  apply twp_bind. eapply twp_run; [exact Hrun4|]. apply twp_bind. eapply twp_run; [apply change_run|]. apply twp_ret. split; [done|].
  split; [destruct Hl4; by split|]. split; [|by eapply only_cache_trans].
  apply tracks_counters with c4; [|done|done]. eapply tracks_trans; [eapply tracks_more; [|exact Ht1]; set_solver|].
  apply kept_tracks. eapply kept_trans; eapply kept_more; [|exact Hk3| |exact Hk4]; [set_solver|].
  subst l2. destruct (has FOUND _); [rewrite freeing_perm|]; done.
Qed.
Lemma cache_insert_twp c l name addr now ttl flags s : memory -> d_cache s = c -> linked c l -> list_ok l -> insertable flags -> cache_size c <> 0 ->
  twp (cache_insert name addr now ttl flags false) (fun failed s' => exists l',
      insert_list (room_in c (released (superseded name addr now flags) l)) name addr now ttl flags l = Some (failed, l')
      /\ linked (d_cache s') l' /\ tracks (l.*1) c (d_cache s') /\ only_cache s s') s.
Proof.
  intros Hmem Hc Hl Hok Hins Hsz. unfold cache_insert. apply twp_bind, twp_gets. rewrite Hc. cbn [orb].
  destruct (Z.eqb_spec (cache_size c) 0) as [|_]; [done|].
  set (P := superseded name addr now flags).
  destruct (freeing_run P _ c l s Hc Hl (sup_implements name addr now flags)) as (c1 & Hrun1 & Hl1 & Hk1 & Hb1);
    [intros e; by apply sup_freed, insertable_found|pose proof (lo_length _ Hok); lia|].
  apply twp_bind. eapply twp_run; [exact Hrun1|]. pose proof (freeing_ok P l Hok) as Hok1. unfold insert_list.
  fold P. pose proof (last_ordinary_parts (freeing P l)) as Hlast. destruct (last_ordinary (freeing P l)) as [[[front [p old]] hs]|].
  2: { exfalso. destruct Hok1 as [_ Hex _]. apply Exists_exists in Hex as (pe & Hin & Ho). rewrite Forall_forall in Hlast.
       specialize (Hlast pe Hin). cbn in Hlast. unfold ordinary in Ho. congruence. }
  destruct Hlast as (Eq & Hord & Hhs). assert (Hlen := lo_length _ Hok1). rewrite Eq in Hl1, Hlen.
  assert (Hen := lo_entries _ Hok1). rewrite Eq in Hen. apply Forall_app in Hen as [Hen1 [Hen2 Hen3]%Forall_cons].
  rewrite length_app in Hlen. cbn [length] in Hlen.
  apply twp_bind. eapply twp_mono.
  { apply (grab_twp hs c1 front p old); [done|done|exact Hl1|by apply held_forall|exact Hord| |].
    - intros H0. apply (f_equal length) in H0. rewrite length_app in H0. cbn in H0. lia.
    - destruct Hk1 as [_ Hd _ _ _ _]. pose proof (linked_size _ _ Hl1) as Hsize. rewrite length_app in Hsize. cbn in Hsize. lia. }
  assert (Hids : front.*1 ++ p :: hs.*1 ≡ₚ l.*1) by (rewrite <- (freeing_perm P l), Eq, fmap_app; done).
  intros r s1 (Hg & Ht1 & Ho1). rewrite fmap_app in Ht1. cbn [fmap list_fmap fst] in Ht1.
  assert (Htr : tracks (l.*1) c (d_cache s1)).
  { eapply tracks_trans; [apply kept_tracks, Hk1|]. eapply tracks_more; [|exact Ht1]. rewrite Hids. done. }
  assert (Ho : only_cache s s1) by (eapply only_cache_trans; [apply only_cache_set|exact Ho1]).
  assert (Hroom : full c1 (long name) <-> long name && negb (room_in c (released P l)) = true).
  { unfold full, room_in. rewrite Hb1. assert (Hleft : bignames_left c1 = bignames_left c) by apply Hk1. rewrite Hleft, negb_involutive, !andb_true_iff, Nat.eqb_eq, Z.eqb_eq. tauto. }
  destruct r as [[p' b]|].
  - destruct Hg as (-> & -> & Hnew & Hfull & Hl2 & n & q & Hr2). change (Nat.ltb (SMALLDNAME - 1) (length name)) with (long name).
    rewrite Hnew. destruct (long name && negb (room_in c (released P l))) eqn:Hlr; [by exfalso; apply Hfull, Hroom|]. cbn [orb].
    assert (Hnd := lk_nodup _ _ Hl1). rewrite fmap_app in Hnd.
    eapply twp_mono; [apply (write_new (d_cache s1) (hs ++ front) p n q old); [done|done| |exact Hr2| |by apply Hen2|done]|].
    + apply NoDup_app in Hnd as (_ & Hd & [Hn _]%NoDup_cons). rewrite fmap_app. apply not_elem_of_app. split; [done|].
      intros Hin. apply (Hd p Hin). simpl. left.
    + rewrite length_app. lia.
    + intros failed s2 (-> & Hl3 & Ht3 & Ho3). eexists. split; [done|]. split; [exact Hl3|]. split; [|by eapply only_cache_trans].
      eapply tracks_trans; [exact Htr|]. eapply tracks_more; [|exact Ht3]. rewrite <- Hids, fmap_app. set_solver.
  - apply twp_ret. destruct Hg as [Hl2 Hwhy]. eexists. split; [|split; [exact Hl2|]; split; [exact Htr|exact Ho]].
    assert (Hw : has F_NEW (e_flags old) || long name && negb (room_in c (released P l)) = true).
    { destruct Hwhy as [Hw|Hw]; [by rewrite Hw|]. apply Hroom in Hw. by rewrite Hw, orb_true_r. }
    by rewrite Hw.
Qed.
End lookup.
