(* ===== verification/DnsName.v ===== *)
(** * DnsName: the names of a message

    Names with compression as RFC 1035 defines them, and what extract_name makes of
    them; its behaviour on any message. *)

From S2P Require Import Prelude DhcpTypes DhcpOptions DhcpConfig DhcpConfigText DnsTypes DnsCache DnsPacket.
From stdpp Require Import list.

#[local] Open Scope Z_scope.

(** ** Access *)

Definition BUFFER : nat := 1547.
Lemma buffer_size : Z.of_nat BUFFER = PACKETSZ + MAXDNAME + RRFIXEDSZ.
Proof. done. Qed.
(** The two buffers. *)
Record bufs_ok (s : dns) : Prop := BufsOk {
  bo_packet : length (d_packet s) = BUFFER;
  bo_bytes : Forall is_byte (d_packet s);
  bo_name : Z.of_nat (length (d_name s)) = MAXDNAME;
  bo_name_bytes : Forall is_byte (d_name s)
}.

Lemma load1 (b : list Z) p x : 0 <= p -> b !! Z.to_nat p = Some x -> load 1 b p = Some [x].
Proof.
  intros Hp Hx. pose proof (lookup_lt_Some _ _ _ Hx). rewrite load_ok by (try done; lia). f_equal.
  rewrite (drop_S b x) by done. done.
Qed.
Lemma of_be1 x : of_be [x] = x.
Proof. done. Qed.
Lemma peek_run p x s : 0 <= p -> d_packet s !! Z.to_nat p = Some x -> peek p s = Ok x s.
Proof. intros Hp Hx. unfold peek. eapply run_bind; [apply gets_run|]. rewrite (load1 _ _ _ Hp Hx). unfold in_bounds. eapply run_bind; [reflexivity|]. by rewrite of_be1. Qed.
Lemma peeks_run n p s : 0 <= p -> 0 <= n -> p + n <= Z.of_nat (length (d_packet s)) ->
  peeks n p s = Ok (take (Z.to_nat n) (drop (Z.to_nat p) (d_packet s))) s.
Proof. intros. unfold peeks. eapply run_bind; [apply gets_run|]. by rewrite load_len_ok. Qed.

Lemma store_take bytes b off b' : store bytes b off = Some b' ->
  take (Z.to_nat off + length bytes) b' = take (Z.to_nat off) b ++ bytes /\ length b' = length b.
Proof.
  intros H. split; [|by eapply store_length]. unfold store in H. case_decide as Hd; [|done]. injection H as <-.
  rewrite inserts_app by lia. rewrite app_assoc, take_app_le by (rewrite length_app, length_take; lia).
  apply take_ge. rewrite length_app, length_take. lia.
Qed.
Lemma write_name_run bytes cp s : 0 <= cp -> cp + Z.of_nat (length bytes) <= Z.of_nat (length (d_name s)) ->
  exists n', write_name bytes cp s = Ok (cp + Z.of_nat (length bytes)) (set_name n' s)
    /\ take (Z.to_nat cp + length bytes) n' = take (Z.to_nat cp) (d_name s) ++ bytes /\ length n' = length (d_name s)
    /\ (Forall is_byte (d_name s) -> Forall is_byte bytes -> Forall is_byte n').
Proof.
  intros H1 H2. pose proof (store_ok bytes (d_name s) cp H1 H2) as Hs. eexists. split.
  - unfold write_name. eapply run_bind; [apply gets_run|]. rewrite Hs. reflexivity.
  - destruct (store_take _ _ _ _ Hs) as [H3 H4]. split; [done|]. split; [done|]. intros. by eapply store_bytes.
Qed.

(** ** The names of RFC 1035 *)

(** [name_at pkt plen p labels next jumps]: at [p] of a message of [plen] bytes is the name
    of these labels, it ends before [next], and [jumps] pointers are followed. *)
Inductive name_at (pkt : list Z) (plen : Z) : Z -> list (list Z) -> Z -> nat -> Prop :=
  | At_end p : 0 <= p -> pkt !! Z.to_nat p = Some 0 -> name_at pkt plen p [] (p + 1) 0
  | At_label p l ls next jumps :
      0 <= p -> pkt !! Z.to_nat p = Some (Z.of_nat (length l)) -> (0 < length l < 64)%nat ->
      p + 1 + Z.of_nat (length l) < plen -> take (length l) (drop (Z.to_nat (p + 1)) pkt) = l ->
      name_at pkt plen (p + 1 + Z.of_nat (length l)) ls next jumps -> name_at pkt plen p (l :: ls) next jumps
  | At_pointer p high low ls next jumps :
      0 <= p -> 0 <= high < 64 -> 0 <= low < 256 ->
      pkt !! Z.to_nat p = Some (192 + high) -> pkt !! Z.to_nat (p + 1) = Some low -> p + 2 < plen -> high * 256 + low < plen ->
      name_at pkt plen (high * 256 + low) ls next jumps -> name_at pkt plen p ls (p + 2) (S jumps).

(** The labels in lower case, a period after each. *)
Definition dotted (ls : list (list Z)) : list Z := concat ((fun l => (tolower <$> l) ++ [DOT]) <$> ls).
(** The text of a name: periods between the labels. *)
Definition name_of (ls : list (list Z)) : list Z := removelast (dotted ls).

Section names.
Context `{E : DnsEnv}.

Lemma pointer_bits high low : 0 <= high < 64 -> 0 <= low < 256 ->
  Z.land (192 + high) 0xc0 = 0xc0 /\ Z.lor (Z.shiftl (Z.land (192 + high) 0x3f) 8) low = high * 256 + low.
Proof.
  intros Hh Hl.
  assert (Hall : Forall (fun h => Z.land (192 + h) 0xc0 = 0xc0 /\ Forall (fun w => Z.lor (Z.shiftl (Z.land (192 + h) 0x3f) 8) w = h * 256 + w) (seqZ 0 256)) (seqZ 0 64)).
  { apply (bool_decide_unpack _). vm_compute. exact I. }
  rewrite Forall_forall in Hall. destruct (Hall high) as [H1 H2]; [apply elem_of_seqZ; lia|]. split; [done|].
  rewrite Forall_forall in H2. apply H2, elem_of_seqZ. lia.
Qed.
Lemma label_bits n : 0 < n < 64 -> (Z.land n 0xc0 =? 0xc0) = false.
Proof.
  intros Hn. assert (Hall : Forall (fun n => (Z.land n 0xc0 =? 0xc0) = false) (seqZ 0 64)) by (apply (bool_decide_unpack _); vm_compute; exact I).
  rewrite Forall_forall in Hall. apply Hall, elem_of_seqZ. lia.
Qed.
Lemma tolower_byte b : is_byte b -> is_byte (tolower b).
Proof. unfold is_byte, tolower. intros H. destruct ((65 <=? b) && (b <=? 90)) eqn:Hb; bool_to_prop; lia. Qed.
Lemma dotted_cons l ls : dotted (l :: ls) = ((tolower <$> l) ++ [DOT]) ++ dotted ls.
Proof. done. Qed.

Lemma extract_at pkt plen p ls next jumps : name_at pkt plen p ls next jumps ->
  forall fuel p1 hops cp s, d_packet s = pkt -> 0 <= hops -> 0 <= cp -> Z.of_nat (length (d_name s)) = MAXDNAME ->
  hops + Z.of_nat jumps <= 255 -> cp + Z.of_nat (length (dotted ls)) < MAXDNAME -> (length ls + jumps < fuel)%nat ->
  exists e n', extract_loop fuel plen true p p1 hops cp false s
      = Ok (Some (e, (if (jumps =? 0)%nat then p1 else match p1 with Some _ => p1 | None => Some next end), cp + Z.of_nat (length (dotted ls)), false)) (set_name n' s)
    /\ (jumps = O -> e = next) /\ take (Z.to_nat cp + length (dotted ls)) n' = take (Z.to_nat cp) (d_name s) ++ dotted ls
    /\ length n' = length (d_name s).
Proof.
  induction 1 as [p Hp H0|p l ls next jumps Hp Hlen Hl Hend Hbytes Hn IH|p high low ls next jumps Hp Hh Hlow Hp0 Hp1 Hend Htgt Hn IH];
    intros [|fuel] p1 hops cp s Hpk Hhops Hcp Hsz Hj Hfit Hf; cbn [length] in *; try lia; cbn [extract_loop]; cbv zeta.
  - exists (p + 1), (d_name s). split; [eapply run_bind; [apply peek_run; [done|by rewrite Hpk]|]|].
    { cbn. rewrite Z.add_0_r. by destruct s. }
    split; [done|]. by rewrite Nat.add_0_r, app_nil_r.
  - rewrite dotted_cons in *. rewrite !length_app, length_fmap in Hfit. cbn [length] in Hfit.
    destruct (write_name_run ((tolower <$> l) ++ [DOT]) cp s Hcp) as (n1 & Hrun1 & Ht1 & Hl1 & _); [rewrite length_app, length_fmap; cbn; lia|].
    rewrite length_app, length_fmap in Hrun1, Ht1. cbn [length] in Hrun1, Ht1.
    destruct (IH fuel p1 hops (cp + Z.of_nat (length l + 1)) (set_name n1 s)) as (e & n2 & Hrun2 & He & Ht2 & Hl2);
      [done|done|lia|by cbn; rewrite Hl1|done|lia|lia|].
    exists e, n2. split; [|split; [done|split; [|cbn in Hl2; congruence]]].
    + eapply run_bind; [apply peek_run; [done|by rewrite Hpk]|]. rewrite (proj2 (Z.eqb_neq _ 0)) by lia.
      rewrite label_bits by lia. rewrite (proj2 (Z.leb_gt _ _)) by lia. rewrite (proj2 (Z.leb_gt _ _)) by lia.
      pose proof (lookup_lt_Some _ _ _ Hlen) as Hlt.
      assert (Hin : (length l <= length (drop (Z.to_nat (p + 1)) pkt))%nat) by (rewrite <- Hbytes at 1; rewrite length_take; lia).
      rewrite length_drop in Hin.
      eapply run_bind; [apply peeks_run; rewrite ?Hpk; lia|]. rewrite Hpk, Nat2Z.id, Hbytes.
      eapply run_bind; [eapply run_bind; [exact Hrun1|reflexivity]|]. cbn [fst snd]. rewrite Hrun2, !length_app, length_fmap. cbn [length].
      by replace (cp + Z.of_nat (length l + 1) + Z.of_nat (length (dotted ls))) with (cp + Z.of_nat (length l + 1 + length (dotted ls))) by lia.
    + rewrite !length_app, length_fmap. cbn [length]. cbn in Ht2.
      replace (Z.to_nat (cp + Z.of_nat (length l + 1))) with (Z.to_nat cp + (length l + 1))%nat in Ht2 by lia.
      rewrite Ht1 in Ht2. rewrite Nat.add_assoc. rewrite Ht2. by rewrite <- app_assoc.
  - destruct (pointer_bits high low Hh Hlow) as [Hb1 Hb2].
    destruct (IH fuel (match p1 with None => Some (p + 2) | Some _ => p1 end) (hops + 1) cp s) as (e & n2 & Hrun2 & He & Ht2 & Hl2);
      [done|lia|done|done|lia|lia|lia|].
    exists e, n2. split; [|split; [done|by split]].
    eapply run_bind; [apply peek_run; [done|by rewrite Hpk]|]. rewrite (proj2 (Z.eqb_neq _ 0)) by lia.
    rewrite Hb1, Z.eqb_refl. rewrite (proj2 (Z.leb_gt _ _)) by lia.
    eapply run_bind; [apply peek_run; [lia|by rewrite Hpk]|]. rewrite Hb2. cbv zeta.
    rewrite (proj2 (Z.leb_gt _ _)) by lia. rewrite (proj2 (Z.ltb_ge _ _)) by lia.
    replace (p + 1 + 1) with (p + 2) by lia. rewrite Hrun2. destruct p1; by destruct jumps.
Qed.

Lemma cut0_take b k t : take k b = t ++ [0] -> Forall (fun x => x <> 0) t -> cut0 b = Some t.
Proof.
  revert b k. induction t as [|x t IH]; intros [|y b] [|k] H Ht; try done; cbn [take app] in H; injection H as -> H.
  - done.
  - apply Forall_cons in Ht as [Hx Ht]. cbn [cut0]. rewrite (proj2 (Z.eqb_neq x 0)) by done. by rewrite (IH b k H Ht).
Qed.
Lemma dotted_length ls : Forall (fun l => 0 < length l)%nat ls -> (2 * length ls <= length (dotted ls))%nat.
Proof.
  induction 1 as [|l ls Hl _ IH]; [done|]. rewrite dotted_cons, !length_app, length_fmap. cbn [length]. lia.
Qed.
Lemma name_at_labels pkt plen p ls next jumps : name_at pkt plen p ls next jumps ->
  Forall (fun l => 0 < length l)%nat ls /\ (ls <> [] -> 2 < plen).
Proof.
  induction 1 as [p|p l ls next jumps Hp Hlen Hl Hend Hb Hn [IH1 IH2]|p high low ls next jumps Hp Hh Hlow H0 H1 Hend Htgt Hn [IH1 IH2]].
  - by split.
  - split; [constructor; [lia|done]|lia].
  - split; [done|lia].
Qed.
Lemma dotted_last l ls : exists t, dotted (l :: ls) = t ++ [DOT].
Proof.
  revert l. induction ls as [|l' ls IH]; intros l.
  - exists (tolower <$> l). rewrite dotted_cons. apply app_nil_r.
  - destruct (IH l') as [t Ht]. exists (((tolower <$> l) ++ [DOT]) ++ t). by rewrite dotted_cons, Ht, <- !app_assoc.
Qed.
Lemma extract_name_at plen p ls next jumps s : name_at (d_packet s) plen p ls next jumps -> ls <> [] -> (jumps <= 255)%nat ->
  Z.of_nat (length (dotted ls)) < MAXDNAME -> Z.of_nat (length (d_name s)) = MAXDNAME ->
  exists n', extract_name plen p true s = Ok (Some (false, next)) (set_name n' s) /\ length n' = length (d_name s)
    /\ (Forall (fun x => x <> 0) (name_of ls) -> cut0 n' = Some (name_of ls)).
Proof.
  intros Hat Hne Hj Hfit Hsz. destruct (name_at_labels _ _ _ _ _ _ Hat) as [Hlab Hplen]. specialize (Hplen Hne).
  pose proof (dotted_length ls Hlab) as Hdl. unfold MAXDNAME in *.
  destruct (extract_at _ _ _ _ _ _ Hat (name_fuel plen) None 0 0 s) as (e & n1 & Hrun & He & Ht & Hl); [done|lia|lia|done|lia|unfold MAXDNAME; lia| |].
  { unfold name_fuel. assert (3 <= Z.to_nat plen)%nat by lia. lia. }
  destruct ls as [|l ls]; [done|]. destruct (dotted_last l ls) as [t Hdot].
  assert (Hname : name_of (l :: ls) = t) by (unfold name_of; rewrite Hdot; apply removelast_last).
  rewrite Hname, Hdot in *. rewrite length_app in *. cbn [length] in *.
  destruct (write_name_run [0] (Z.of_nat (length t)) (set_name n1 s)) as (n2 & Hrun2 & Ht2 & Hl2 & _); [lia|cbn; lia|].
  exists n2. split; [|split; [cbn in Hl2; congruence|]].
  - unfold extract_name. eapply run_bind; [exact Hrun|]. cbv beta iota zeta. rewrite (proj2 (Z.eqb_neq _ 0)) by lia.
    replace (0 + Z.of_nat (length t + 1) - 1) with (Z.of_nat (length t)) by lia.
    eapply run_bind; [exact Hrun2|]. destruct jumps; [by rewrite He|done].
  - intros Hz. apply (cut0_take _ (length t + 1)); [|done]. cbn [d_name set_name length] in Ht2. rewrite Nat2Z.id in Ht2. rewrite Ht2. f_equal.
    cbn [Z.to_nat plus] in Ht. rewrite take_0 in Ht. cbn [app] in Ht.
    apply (f_equal (take (length t))) in Ht. rewrite take_take in Ht. rewrite Nat.min_l in Ht by lia. rewrite Ht. apply take_app_length.
Qed.

(** ** Names that the program writes *)

(** A label in lower case without a period in it, and the labels on the wire. *)
Definition label_ok (l : list Z) : Prop := (0 < length l < 64)%nat /\ Forall (fun b => 0 < b < 256 /\ b <> DOT /\ tolower b = b) l.
Definition wire (ls : list (list Z)) : list Z := concat ((fun l => Z.of_nat (length l) :: l) <$> ls) ++ [0].
Lemma wire_cons l ls : wire (l :: ls) = Z.of_nat (length l) :: l ++ wire ls.
Proof. unfold wire. cbn. by rewrite <- app_assoc. Qed.
Lemma lower_label l : label_ok l -> tolower <$> l = l.
Proof.
  intros [_ H]. induction H as [|b l (_ & _ & Hb) _ IH]; [done|]. cbn. by rewrite Hb, IH.
Qed.
Lemma name_of_one l : label_ok l -> name_of [l] = l.
Proof. intros H. unfold name_of. rewrite dotted_cons. cbn. rewrite app_nil_r, lower_label by done. apply removelast_last. Qed.
Lemma name_of_more l l' ls : label_ok l -> name_of (l :: l' :: ls) = l ++ DOT :: name_of (l' :: ls).
Proof.
  intros H. unfold name_of. rewrite dotted_cons, lower_label by done. destruct (dotted_last l' ls) as [t Ht]. rewrite Ht, app_assoc, !removelast_last.
  by rewrite <- app_assoc.
Qed.
Lemma label_no_dot l : label_ok l -> Forall (fun c => in_set [DOT] c = false) l.
Proof. intros [_ H]. eapply Forall_impl; [exact H|]. intros b (_ & Hb & _). cbn. by rewrite (proj2 (Z.eqb_neq b DOT)). Qed.
Lemma put_labels_wire ls : Forall label_ok ls -> forall l fuel, label_ok l -> (length (name_of (l :: ls)) <= fuel)%nat ->
  put_labels fuel (name_of (l :: ls)) ++ [0] = wire (l :: ls).
Proof.
  induction 1 as [|l' ls Hl' Hls IH]; intros l fuel Hl Hf.
  - rewrite name_of_one in * by done. destruct Hl as [Hlen Hb]. destruct fuel as [|fuel]; [lia|]. destruct l as [|b l]; [simpl in Hlen; lia|].
    cbn [put_labels]. rewrite (cut_all [DOT] (b :: l)) by by apply label_no_dot.
    unfold wire. cbn [fmap list_fmap concat app drop]. rewrite app_nil_r. destruct fuel; cbn [put_labels]; rewrite ?app_nil_r; cbn; rewrite u8_small by (simpl in Hlen; lia); done.
  - rewrite name_of_more in * by done. assert (Hl2 := Hl). destruct Hl2 as [Hlen Hb]. destruct fuel as [|fuel]; [rewrite length_app in Hf; simpl in Hf; lia|].
    rewrite wire_cons. destruct l as [|b l]; [simpl in Hlen; lia|]. cbn [put_labels app].
    change (b :: l ++ DOT :: name_of (l' :: ls)) with ((b :: l) ++ DOT :: name_of (l' :: ls)).
    rewrite (cut_word [DOT] (b :: l) DOT) by (try done; by apply label_no_dot). cbn [drop]. rewrite drop_0.
    rewrite <- (IH l' fuel Hl'); [|rewrite length_app in Hf; cbn [length] in Hf; lia].
    rewrite u8_small by lia. cbn [app]. by rewrite <- app_assoc.
Qed.
Lemma encoded_wire ls : Forall label_ok ls -> ls <> [] -> encoded (name_of ls) = wire ls.
Proof. intros H Hne. destruct ls as [|l ls]; [done|]. apply Forall_cons in H as [Hl Hls]. by apply put_labels_wire. Qed.
Lemma name_of_nonzero ls : Forall label_ok ls -> Forall (fun x => x <> 0) (name_of ls).
Proof.
  intros H. unfold name_of. assert (Hd : Forall (fun x => x <> 0) (dotted ls)).
  { induction H as [|l ls Hl _ IH]; [constructor|]. rewrite dotted_cons, lower_label by done. apply Forall_app. split; [|done].
    apply Forall_app. split; [|by constructor]. eapply Forall_impl; [apply Hl|]. intros b ((? & ?) & _). lia. }
  destruct ls as [|l ls]; [constructor|]. destruct (dotted_last l ls) as [t Ht]. rewrite Ht in *. rewrite removelast_last. by apply Forall_app in Hd as [Hd _].
Qed.

Lemma lookup_at (pre post : list Z) x : (pre ++ x :: post) !! Z.to_nat (Z.of_nat (length pre)) = Some x.
Proof. by rewrite Nat2Z.id, lookup_app_r, Nat.sub_diag by lia. Qed.
Lemma wire_at ls : Forall label_ok ls -> forall plen pre post, Z.of_nat (length pre + length (wire ls)) <= plen ->
  name_at (pre ++ wire ls ++ post) plen (Z.of_nat (length pre)) ls (Z.of_nat (length pre + length (wire ls))) 0.
Proof.
  induction 1 as [|l ls [Hlen Hb] Hls IH]; intros plen pre post Hp.
  - change (wire []) with [0] in *. cbn [length app] in *. rewrite Nat2Z.inj_add. apply At_end; [lia|apply lookup_at].
  - rewrite wire_cons in *. cbn [app length] in *. rewrite length_app in Hp.
    assert (Hw : (1 <= length (wire ls))%nat) by (unfold wire; rewrite length_app; simpl; lia).
    apply At_label; [lia|apply lookup_at|lia|lia| |].
    + replace (Z.to_nat (Z.of_nat (length pre) + 1)) with (length (pre ++ [Z.of_nat (length l)])) by (rewrite length_app; simpl; lia).
      change (Z.of_nat (length l) :: (l ++ wire ls) ++ post) with ([Z.of_nat (length l)] ++ (l ++ wire ls) ++ post).
      rewrite app_assoc, drop_app_length, <- app_assoc. apply take_app_length.
    + specialize (IH plen (pre ++ Z.of_nat (length l) :: l) post). rewrite length_app in IH. cbn [length] in IH.
      replace (Z.of_nat (length pre) + 1 + Z.of_nat (length l)) with (Z.of_nat (length pre + S (length l))) by lia.
      rewrite length_app. replace (length pre + S (length l + length (wire ls)))%nat with (length pre + S (length l) + length (wire ls))%nat by lia.
      replace (pre ++ Z.of_nat (length l) :: (l ++ wire ls) ++ post) with ((pre ++ Z.of_nat (length l) :: l) ++ wire ls ++ post) by (rewrite <- !app_assoc; done).
      apply IH. lia.
Qed.
Lemma pointer_bytes p : 0 <= p < Z.of_nat BUFFER -> be16 (Z.lor p 0xc000) = [192 + p / 256; p mod 256] /\ 0 <= p / 256 < 64.
Proof.
  intros Hp. assert (Hall : Forall (fun p => be16 (Z.lor p 0xc000) = [192 + p / 256; p mod 256]) (seqZ 0 (Z.of_nat BUFFER))).
  { apply (bool_decide_unpack _). vm_compute. exact I. }
  rewrite Forall_forall in Hall. split; [apply Hall, elem_of_seqZ; lia|]. change (Z.of_nat BUFFER) with 1547 in Hp. Z.div_mod_to_equations. lia.
Qed.

(** ** Any message *)

Definition only_name (s s' : dns) : Prop := s' = set_name (d_name s') s.
Lemma only_name_refl s : only_name s s.
Proof. by destruct s. Qed.
Lemma only_name_trans s s' s'' : only_name s s' -> only_name s' s'' -> only_name s s''.
Proof. unfold only_name. intros -> ->. done. Qed.
Lemma only_name_bufs s s' : bufs_ok s -> only_name s s' -> length (d_name s') = length (d_name s) -> Forall is_byte (d_name s') -> bufs_ok s'.
Proof. intros [H1 H2 H3 H4] -> Hl Hb. cbn in *. split; cbn; congruence. Qed.

Lemma cut0_lookup b i : b !! i = Some 0 -> exists t, cut0 b = Some t /\ (length t <= i)%nat.
Proof.
  revert i. induction b as [|x b IH]; intros i Hi; [done|]. cbn [cut0]. destruct (Z.eqb_spec x 0) as [->|Hx]; [exists []; split; [done|simpl; lia]|].
  destruct i as [|i]; [cbn in Hi; congruence|]. destruct (IH i Hi) as (t & Ht & Hlen). exists (x :: t). rewrite Ht. split; [done|simpl; lia].
Qed.
Lemma cut0_before b t i : cut0 b = Some t -> (i <= length t)%nat -> exists x, b !! i = Some x /\ (x = 0 <-> i = length t).
Proof.
  revert t i. induction b as [|x b IH]; intros t i Ht Hi; [done|]. cbn [cut0] in Ht. destruct (Z.eqb_spec x 0) as [->|Hx].
  - injection Ht as <-. simpl in Hi. assert (i = O) as -> by lia. by exists 0.
  - destruct (cut0 b) as [t'|] eqn:Hc; [|done]. injection Ht as <-. destruct i as [|i]; [exists x; simpl; split; [done|lia]|].
    simpl in Hi. destruct (IH t' i eq_refl) as (y & Hy & Hi'); [lia|]. exists y. simpl. split; [done|]. rewrite Hi'. lia.
Qed.
Lemma schar_zero b : is_byte b -> (schar b =? 0) = (b =? 0).
Proof. unfold is_byte, schar. intros Hb. destruct (Z.ltb_spec b 128); destruct (Z.eqb_spec b 0); lia. Qed.

(** The text at [cp] is inside its terminator. *)
Lemma char_run t cp s : bufs_ok s -> cut0 (d_name s) = Some t -> 0 <= cp <= Z.of_nat (length t) ->
  exists x, load 1 (d_name s) cp = Some [x] /\ (schar x =? 0) = (cp =? Z.of_nat (length t)).
Proof.
  intros Hb Ht Hcp. destruct (cut0_before _ _ (Z.to_nat cp) Ht) as (x & Hx & Hz); [lia|]. exists x. split; [apply load1; [lia|done]|].
  rewrite schar_zero by (eapply Forall_lookup_1; [exact (bo_name_bytes _ Hb)|exact Hx]). destruct (Z.eqb_spec x 0), (Z.eqb_spec cp (Z.of_nat (length t))); try done; lia.
Qed.
Lemma compare_label_run t s bytes : bufs_ok s -> cut0 (d_name s) = Some t -> forall cp differ, 0 <= cp <= Z.of_nat (length t) ->
  exists cp' d, compare_label bytes cp differ s = Ok (cp', d) s /\ 0 <= cp' <= Z.of_nat (length t).
Proof.
  intros Hb Ht. induction bytes as [|b bytes IH]; intros cp differ Hcp; [by exists cp, differ|].
  destruct (char_run t cp s Hb Ht Hcp) as (x & Hx & Hz).
  assert (Hrun : exists cp1 d1, compare_label (b :: bytes) cp differ s = compare_label bytes cp1 d1 s /\ 0 <= cp1 <= Z.of_nat (length t)).
  { destruct (schar x =? 0) eqn:Hc; [exists cp, true|exists (cp + 1), (differ || negb (schar x =? tolower b))]; split.
    - cbn [compare_label]. eapply run_bind; [apply gets_run|]. rewrite Hx. eapply run_bind; [reflexivity|]. cbv zeta. by rewrite of_be1, Hc.
    - done.
    - cbn [compare_label]. eapply run_bind; [apply gets_run|]. rewrite Hx. eapply run_bind; [reflexivity|]. cbv zeta. by rewrite of_be1, Hc.
    - symmetry in Hz. apply Z.eqb_neq in Hz. lia. }
  destruct Hrun as (cp1 & d1 & -> & Hcp1). by apply IH.
Qed.
Lemma compare_dot_run t s cp differ : bufs_ok s -> cut0 (d_name s) = Some t -> 0 <= cp <= Z.of_nat (length t) ->
  exists cp' d, compare_dot cp differ s = Ok (cp', d) s /\ 0 <= cp' <= Z.of_nat (length t).
Proof.
  intros Hb Ht Hcp. destruct (char_run t cp s Hb Ht Hcp) as (x & Hx & Hz).
  destruct (schar x =? 0) eqn:Hc; [exists cp, differ|exists (cp + 1), (differ || negb (schar x =? DOT))]; split; try done.
  - unfold compare_dot. eapply run_bind; [apply gets_run|]. rewrite Hx. eapply run_bind; [reflexivity|]. cbv zeta. by rewrite of_be1, Hc.
  - unfold compare_dot. eapply run_bind; [apply gets_run|]. rewrite Hx. eapply run_bind; [reflexivity|]. cbv zeta. by rewrite of_be1, Hc.
  - symmetry in Hz. apply Z.eqb_neq in Hz. lia.
Qed.

(** Where the text stands: room for more, or inside the text that is compared. *)
Definition cp_ok (ex : bool) (cp : Z) (s : dns) : Prop :=
  0 <= cp /\ if ex then cp < MAXDNAME else exists t, cut0 (d_name s) = Some t /\ cp <= Z.of_nat (length t).
Lemma label_step ex bytes cp differ s : bufs_ok s -> Forall is_byte bytes -> cp_ok ex cp s -> (ex = true -> cp + Z.of_nat (length bytes) + 1 < MAXDNAME) ->
  twp (if ex then cp ← write_name ((tolower <$> bytes) ++ [DOT]) cp; mret (cp, differ)
       else r ← compare_label bytes cp differ; compare_dot (fst r) (snd r))
    (fun r s' => bufs_ok s' /\ only_name s s' /\ cp_ok ex (fst r) s') s.
Proof.
  intros Hb Hby [Hcp Hok] Hfit. destruct ex.
  - specialize (Hfit eq_refl). assert (Hsz := bo_name _ Hb).
    destruct (write_name_run ((tolower <$> bytes) ++ [DOT]) cp s Hcp) as (n' & Hrun & _ & Hl & Hnb); [rewrite length_app, length_fmap; simpl; lia|].
    apply twp_bind. eapply twp_run; [exact Hrun|]. apply twp_ret. split; [|split; [done|]].
    + eapply only_name_bufs; [done|done|done|]. apply Hnb; [apply Hb|]. apply Forall_app. split; [|by constructor].
      apply Forall_fmap. eapply Forall_impl; [exact Hby|]. apply tolower_byte.
    + rewrite length_app, length_fmap. cbn. split; lia.
  - destruct Hok as (t & Ht & Hlt). destruct (compare_label_run t s bytes Hb Ht cp differ) as (cp1 & d1 & Hrun1 & Hcp1); [lia|].
    destruct (compare_dot_run t s cp1 d1 Hb Ht Hcp1) as (cp2 & d2 & Hrun2 & Hcp2).
    apply twp_bind. eapply twp_run; [exact Hrun1|]. eapply twp_run; [exact Hrun2|]. split; [done|]. split; [apply only_name_refl|].
    unfold cp_ok. cbn [fst]. split; [lia|]. exists t. split; [done|lia].
Qed.

Lemma peek_byte p s : bufs_ok s -> 0 <= p < Z.of_nat BUFFER -> exists x, peek p s = Ok x s /\ is_byte x.
Proof.
  intros Hb Hp. destruct (lookup_lt_is_Some_2 (d_packet s) (Z.to_nat p)) as [x Hx]; [rewrite (bo_packet _ Hb); lia|].
  exists x. split; [apply peek_run; [lia|done]|]. exact (Forall_lookup_1 _ _ _ _ (bo_bytes _ Hb) Hx).
Qed.
Lemma peeks_bytes n p s : bufs_ok s -> 0 <= p -> 0 <= n -> p + n <= Z.of_nat BUFFER ->
  exists bs, peeks n p s = Ok bs s /\ Forall is_byte bs /\ Z.of_nat (length bs) = n.
Proof.
  intros Hb Hp Hn Hfit. eexists. split; [apply peeks_run; [done|done|rewrite (bo_packet _ Hb); lia]|].
  split; [apply Forall_take, Forall_drop, Hb|]. rewrite length_take, length_drop, (bo_packet _ Hb). lia.
Qed.
Lemma extract_loop_twp plen ex pp fuel : 0 < plen <= PACKETSZ -> 0 <= pp < Z.of_nat BUFFER - 1 ->
  forall p p1 hops cp differ s, bufs_ok s -> 0 <= p -> p < plen \/ (p = pp /\ cp = 0) -> (forall q, p1 = Some q -> 0 < q <= plen) -> 0 <= hops <= 255 ->
  cp_ok ex cp s -> (255 - hops) * (plen + 1) + Z.max 0 (plen - p) < Z.of_nat fuel ->
  twp (extract_loop fuel plen ex p p1 hops cp differ) (fun r s' => bufs_ok s' /\ only_name s s' /\
    match r with
    | None => True
    | Some (p', p1', cp', _) => cp_ok ex cp' s' /\ 0 < match p1' with Some q => q | None => p' end <= (if cp' =? 0 then Z.max plen (pp + 1) else plen)
    end) s.
Proof.
  intros Hplen Hpp. unfold PACKETSZ in Hplen. change (Z.of_nat BUFFER) with 1547 in Hpp.
  induction fuel as [|fuel IH]; intros p p1 hops cp differ s Hb Hp Hrange Hp1 Hhops Hcp Hm; [nia|]. cbn [extract_loop]. cbv zeta.
  assert (Hnone : forall m : DnM (option (Z * option Z * Z * bool)), m = mret None -> twp m (fun r s' => bufs_ok s' /\ only_name s s' /\
    match r with None => True | Some (p', p1', cp', _) => cp_ok ex cp' s' /\ 0 < match p1' with Some q => q | None => p' end <= (if cp' =? 0 then Z.max plen (pp + 1) else plen) end) s).
  { intros m ->. apply twp_ret. split; [done|]. split; [apply only_name_refl|done]. }
  destruct (peek_byte p s Hb) as (l & Hrun & Hl); [change (Z.of_nat BUFFER) with 1547; lia|]. unfold is_byte in Hl.
  apply twp_bind. eapply twp_run; [exact Hrun|]. destruct (Z.eqb_spec l 0) as [->|Hl0].
  { apply twp_ret. split; [done|]. split; [apply only_name_refl|]. split; [done|].
    destruct p1 as [q|]; [specialize (Hp1 q eq_refl)|]; destruct (Z.eqb_spec cp 0); lia. }
  destruct (Z.land l 192 =? 192).
  - destruct (Z.leb_spec plen (p + 1 + 1)); [by apply Hnone|].
    destruct (peek_byte (p + 1) s Hb) as (low & Hrun2 & Hlow); [change (Z.of_nat BUFFER) with 1547; lia|].
    apply twp_bind. eapply twp_run; [exact Hrun2|]. set (tgt := Z.lor _ low). destruct (Z.leb_spec plen tgt); [by apply Hnone|].
    destruct (Z.ltb_spec 255 (hops + 1)); [by apply Hnone|].
    assert (Htgt : 0 <= tgt). { apply Z.lor_nonneg. split; [apply Z.shiftl_nonneg, Z.land_nonneg; lia|unfold is_byte in Hlow; lia]. }
    apply IH; [done|done|by left| |lia|done|nia].
    intros q. destruct p1 as [q'|]; [by apply Hp1|]. intros [= <-]. lia.
  - destruct (Z.leb_spec MAXDNAME (cp + l + 1)); [by apply Hnone|]. destruct (Z.leb_spec plen (p + 1 + l)); [by apply Hnone|].
    destruct (peeks_bytes l (p + 1) s Hb) as (bs & Hrun2 & Hbs & Hlen); [lia|lia|change (Z.of_nat BUFFER) with 1547; lia|].
    apply twp_bind. eapply twp_run; [exact Hrun2|]. apply twp_bind.
    eapply twp_mono; [apply label_step; [done|done|exact Hcp|intros _; lia]|].
    intros r s1 (Hb1 & Ho1 & Hcp1). destruct (Z.leb_spec plen (p + 1 + l)); [lia|].
    eapply twp_mono; [apply IH; [done|lia|by left|done|done|done|nia]|].
    intros r' s2 (Hb2 & Ho2 & H2). split; [done|]. split; [by eapply only_name_trans|done].
Qed.

(** What extract_name gives on any message: it ends inside of its buffers, a name
    that it gives is a text of at most 1023 characters, and the place after it is at most the
    end of the message (for a comparison also the byte after the place where it started). *)
Definition extracted (plen pp : Z) (isExtract : bool) (s : dns) (r : option (bool * Z)) (s' : dns) : Prop :=
  bufs_ok s' /\ only_name s s' /\
  match r with
  | None => True
  | Some (_, p') => 0 < p' <= (if isExtract then plen else Z.max plen (pp + 1)) /\ exists t, cut0 (d_name s') = Some t /\ Z.of_nat (length t) < MAXDNAME
  end.
Lemma cut0_length b t : cut0 b = Some t -> (length t < length b)%nat.
Proof.
  revert t. induction b as [|x b IH]; intros t; [done|]. cbn [cut0]. destruct (x =? 0); [intros [= <-]; simpl; lia|].
  destruct (cut0 b) as [t'|]; [|done]. intros [= <-]. specialize (IH t' eq_refl). simpl. lia.
Qed.
Lemma extract_name_twp plen pp isExtract s : bufs_ok s -> 0 < plen <= PACKETSZ -> 0 <= pp < Z.of_nat BUFFER - 1 ->
  (isExtract = false -> is_Some (cut0 (d_name s))) -> twp (extract_name plen pp isExtract) (extracted plen pp isExtract s) s.
Proof.
  intros Hb Hplen Hpp Hname. unfold extract_name. apply twp_bind. eapply twp_mono.
  { apply (extract_loop_twp plen isExtract pp); [done|done|done|lia|by right|done|lia| |].
    - split; [lia|]. destruct isExtract; [done|]. destruct (Hname eq_refl) as [t Ht]. exists t. split; [done|lia].
    - unfold name_fuel. unfold PACKETSZ in Hplen. lia. }
  intros r s1 (Hb1 & Ho1 & Hr). destruct r as [[[[p' p1'] cp'] d]|]; [|by apply twp_ret].
  destruct Hr as [[Hcp Hok] Hend]. destruct isExtract.
  - destruct (Z.eqb_spec cp' 0) as [|Hcp0]; [by apply twp_ret|].
    destruct (write_name_run [0] (cp' - 1) s1) as (n' & Hrun & Ht & Hl & Hnb); [lia|rewrite (bo_name _ Hb1); simpl; lia|].
    apply twp_bind. eapply twp_run; [exact Hrun|]. apply twp_ret. split; [|split; [by eapply only_name_trans|]].
    + eapply only_name_bufs; [exact Hb1|done|done|]. apply Hnb; [apply Hb1|by constructor].
    + split; [by destruct (Z.eqb_spec cp' 0)|]. cbn [d_name set_name].
      destruct (cut0_lookup n' (Z.to_nat (cp' - 1))) as (t & Hcut & Hlen).
      { apply (f_equal (lookup (Z.to_nat (cp' - 1)))) in Ht. cbn [length] in Ht. rewrite lookup_take_lt in Ht by lia. rewrite Ht.
        rewrite lookup_app_r by (rewrite length_take; lia). rewrite length_take, Nat.min_l; [by rewrite Nat.sub_diag|].
        assert (Hsz := bo_name _ Hb1). lia. }
      exists t. split; [done|lia].
  - apply twp_ret. split; [done|]. split; [done|]. split; [destruct (Z.eqb_spec cp' 0); lia|]. destruct Hok as (t & Ht & _). exists t. split; [done|].
    pose proof (cut0_length _ _ Ht). rewrite <- (bo_name _ Hb1). lia.
Qed.
End names.
