(* ===== verification/DnsSafe.v ===== *)
(** * DnsSafe: any message, with the cache off

    With no cache but the names of /etc/hosts, the handlers of messages end inside of
    their buffers on any message. *)

From S2P Require Import Prelude DhcpTypes DhcpOptions DhcpConfig DnsTypes DnsCache DnsPacket DnsCacheProofs DnsLookup DnsName.
From stdpp Require Import gmap list.

#[local] Open Scope Z_scope.

Section safe.
Context `{E : DnsEnv}.
Implicit Types (s : dns) (l : list (nat * entry)).

(** ** The state *)

(** A name of /etc/hosts: it stays for ever and fits an answer. *)
Record host_ok (e : entry) : Prop := HostOk {
  ho_immortal : has F_IMMORTAL (e_flags e) = true;
  ho_addr : length (e_addr e) = INADDRSZ;
  ho_addr_bytes : Forall is_byte (e_addr e);
  ho_name : (length (e_name e) <= 1000)%nat;
  ho_name_bytes : Forall is_byte (e_name e)
}.
Definition hosts (l : list (nat * entry)) : Prop := Forall (fun pe => host_ok pe.2) l.
Definition cache_off (c : cache) (l : list (nat * entry)) : Prop := linked c l /\ hosts l /\ cache_size c = 0.
Record msg_ok (s : dns) : Prop := MsgOk { mo_bufs : bufs_ok s; mo_cache : exists l, cache_off (d_cache s) l }.
(** What the handling of a message leaves alone. *)
Record keeps (s s' : dns) : Prop := Keeps {
  ks_ftab : ftab s' = ftab s;
  ks_bufs : dnsMsgBuf s' = dnsMsgBuf s;
  ks_buf_i : d_buf_i s' = d_buf_i s;
  ks_heap : d_heap s' = d_heap s;
  ks_out : d_out s' = d_out s;
  ks_records : size (recs (d_cache s')) = size (recs (d_cache s))
}.
Lemma rest_refl s : keeps s s.
Proof. by split. Qed.
Lemma rest_trans s s' s'' : keeps s s' -> keeps s' s'' -> keeps s s''.
Proof. intros [] []. split; congruence. Qed.
Lemma only_name_keeps s s' : only_name s s' -> keeps s s'.
Proof. intros ->. by split. Qed.
Lemma only_cache_bufs s s' : only_cache s s' -> bufs_ok s -> bufs_ok s'.
Proof. intros -> []. by split. Qed.
Lemma set_calls_ok n s : msg_ok s -> msg_ok (set_calls n s).
Proof. intros [[] H]. by repeat split. Qed.

(** A step that keeps the state good. *)
Definition good {A} (m : DnM A) (Q : A -> Prop) (s : dns) : Prop := twp m (fun a s' => Q a /\ msg_ok s' /\ keeps s s') s.
Lemma good_bind {A B} (m : DnM A) (f : A -> DnM B) (P : A -> Prop) (Q : B -> Prop) s :
  good m P s -> (forall a s', P a -> msg_ok s' -> keeps s s' -> good (f a) Q s') -> good (m ≫= f) Q s.
Proof.
  intros Hm Hf. apply twp_bind. eapply twp_mono; [exact Hm|]. intros a s' (HP & Hok & Hk).
  eapply twp_mono; [by apply Hf|]. intros b s'' (HQ & Hok' & Hk'). split; [done|]. split; [done|by eapply rest_trans].
Qed.
Lemma good_ret {A} (a : A) (Q : A -> Prop) s : msg_ok s -> Q a -> good (mret a) Q s.
Proof. intros H HQ. apply twp_ret. split; [done|]. split; [done|apply rest_refl]. Qed.
Lemma good_mono {A} (m : DnM A) (P Q : A -> Prop) s : good m P s -> (forall a, P a -> Q a) -> good m Q s.
Proof. intros Hm HPQ. eapply twp_mono; [exact Hm|]. intros a s' (HP & H). split; [auto|done]. Qed.
Lemma good_run {A} (m : DnM A) a (Q : A -> Prop) s : msg_ok s -> m s = Ok a s -> Q a -> good m Q s.
Proof. intros H Hm HQ. eapply twp_run; [exact Hm|]. split; [done|]. split; [done|apply rest_refl]. Qed.
Lemma good_gets {A B} (f : dns -> A) (m : A -> DnM B) Q s : good (m (f s)) Q s -> good (a ← gets f; m a) Q s.
Proof. intros H. by apply twp_bind, twp_gets. Qed.

Lemma dsys_good {A} (f : nat -> A) s : msg_ok s -> good (dsys f) (fun _ => True) s.
Proof.
  intros Hok. unfold dsys. apply good_gets, twp_bind, twp_modify, twp_ret. split; [done|]. split; [by apply set_calls_ok|by split].
Qed.

(** ** The buffers *)

Lemma peek_good p s : msg_ok s -> 0 <= p < Z.of_nat BUFFER -> good (peek p) is_byte s.
Proof. intros Hok Hp. destruct (peek_byte p s (mo_bufs _ Hok) Hp) as (x & Hrun & Hx). by eapply good_run. Qed.
Lemma peeks_good n p s : msg_ok s -> 0 <= p -> 0 <= n -> p + n <= Z.of_nat BUFFER ->
  good (peeks n p) (fun bs => Forall is_byte bs /\ Z.of_nat (length bs) = n) s.
Proof. intros Hok H1 H2 H3. destruct (peeks_bytes n p s (mo_bufs _ Hok) H1 H2 H3) as (bs & Hrun & H). by eapply good_run. Qed.
Lemma getshort_good p s : msg_ok s -> 0 <= p -> p + 2 <= Z.of_nat BUFFER -> good (GETSHORT p) (fun r => 0 <= fst r < 65536 /\ snd r = p + 2) s.
Proof.
  intros Hok H1 H2. eapply good_bind; [apply peeks_good; [done|done|lia|done]|]. intros bs s' [Hb Hl] Hok' _.
  apply good_ret; [done|]. cbn [fst snd]. split; [|done]. pose proof (of_be_range bs Hb) as Hr. rewrite Hl in Hr. exact Hr.
Qed.
Lemma getlong_good p s : msg_ok s -> 0 <= p -> p + 4 <= Z.of_nat BUFFER -> good (GETLONG p) (fun r => 0 <= fst r < 4294967296 /\ snd r = p + 4) s.
Proof.
  intros Hok H1 H2. eapply good_bind; [apply peeks_good; [done|done|lia|done]|]. intros bs s' [Hb Hl] Hok' _.
  apply good_ret; [done|]. cbn [fst snd]. split; [|done]. pose proof (of_be_range bs Hb) as Hr. rewrite Hl in Hr. exact Hr.
Qed.
Lemma put_good bytes p s : msg_ok s -> Forall is_byte bytes -> 0 <= p -> p + Z.of_nat (length bytes) <= Z.of_nat BUFFER ->
  good (put bytes p) (fun r => r = p + Z.of_nat (length bytes)) s.
Proof.
  intros [[H1 H2 H3 H4] Hc] Hb Hp Hfit. unfold put. apply good_gets. rewrite store_ok by (rewrite ?H1; done).
  apply twp_bind. eapply twp_run; [reflexivity|]. apply twp_bind, twp_modify, twp_ret. split; [done|].
  split; [|by split]. split; [|done]. split; cbn; [by rewrite length_inserts|by apply Forall_inserts|done|done].
Qed.
Lemma extract_good plen pp isExtract s : msg_ok s -> 0 < plen <= PACKETSZ -> 0 <= pp < Z.of_nat BUFFER - 1 ->
  (isExtract = false -> is_Some (cut0 (d_name s))) ->
  twp (extract_name plen pp isExtract) (fun r s' => match r with
      | None => True
      | Some (_, p') => 0 < p' <= (if isExtract then plen else Z.max plen (pp + 1)) /\ exists t, cut0 (d_name s') = Some t /\ Z.of_nat (length t) < MAXDNAME /\ Forall is_byte t
      end /\ msg_ok s' /\ keeps s s') s.
Proof.
  intros Hok H1 H2 H3. eapply twp_mono; [by apply extract_name_twp; [apply Hok|..]|]. intros r s' (Hb & Ho & Hr).
  assert (Hok' : msg_ok s') by (split; [done|]; rewrite Ho; apply Hok).
  split; [|split; [done|by apply only_name_keeps]]. destruct r as [[d p']|]; [|done]. destruct Hr as (Hp & t & Ht & Hlen).
  split; [done|]. exists t. split; [done|]. split; [done|].
  assert (Hbytes : Forall is_byte (d_name s')) by apply Hb. clear -Ht Hbytes. revert t Ht. induction (d_name s') as [|x b IH]; intros t Ht; [done|].
  apply Forall_cons in Hbytes as [Hx Hb]. cbn [cut0] in Ht. destruct (x =? 0); [injection Ht as <-; constructor|].
  destruct (cut0 b) as [t'|]; [|done]. injection Ht as <-. constructor; auto.
Qed.

(** An extraction, and what comes after it. *)
Lemma extract_then {B} plen pp (f : option (bool * Z) -> DnM B) (Q : B -> Prop) s : msg_ok s -> 0 < plen <= PACKETSZ -> 0 <= pp < Z.of_nat BUFFER - 1 ->
  (forall s', msg_ok s' -> good (f None) Q s') ->
  (forall d p' t s', msg_ok s' -> keeps s s' -> 0 < p' <= plen -> cut0 (d_name s') = Some t -> Z.of_nat (length t) < MAXDNAME -> Forall is_byte t ->
     good (f (Some (d, p'))) Q s') ->
  good (r ← extract_name plen pp true; f r) Q s.
Proof.
  intros Hok H1 H2 Hnone Hsome. apply twp_bind. eapply twp_mono; [by apply extract_good|]. intros r s' (Hr & Hok' & Hk).
  assert (Hg : good (f r) Q s') by (destruct r as [[d p']|]; [destruct Hr as (Hp & t & Ht & Hl & Hb); by eapply Hsome|by apply Hnone]).
  eapply twp_mono; [exact Hg|]. intros b s'' (HQ & Hok'' & Hk'). split; [done|]. split; [done|by eapply rest_trans].
Qed.
Lemma name_text_good t s : msg_ok s -> cut0 (d_name s) = Some t -> good name_text (fun r => r = t) s.
Proof. intros Hok Ht. eapply good_run; [done| |done]. unfold name_text. eapply run_bind; [apply gets_run|]. by rewrite Ht. Qed.

Lemma small_buffer p n : 0 <= p <= 1000 -> 0 <= n <= 500 -> 0 <= p /\ p + n <= Z.of_nat BUFFER /\ p < Z.of_nat BUFFER - 1.
Proof. change (Z.of_nat BUFFER) with 1547. lia. Qed.
Lemma rr_fields_good p s : msg_ok s -> 0 <= p <= 1000 ->
  good (rr_fields p) (fun r => let '(qtype, qclass, ttl, rdlen, p') := r in 0 <= ttl < 4294967296 /\ 0 <= rdlen < 65536 /\ p' = p + 10) s.
Proof.
  intros Hok Hp. change (Z.of_nat BUFFER) with 1547 in *. unfold rr_fields.
  eapply good_bind; [apply getshort_good; [done|lia|change (Z.of_nat BUFFER) with 1547; lia]|]. intros [a p1] s1 [_ H1] Hok1 _. cbn [fst snd] in *.
  eapply good_bind; [apply getshort_good; [done|lia|change (Z.of_nat BUFFER) with 1547; lia]|]. intros [b p2] s2 [_ H2] Hok2 _. cbn [fst snd] in *.
  eapply good_bind; [apply getlong_good; [done|lia|change (Z.of_nat BUFFER) with 1547; lia]|]. intros [c p3] s3 [Hc H3] Hok3 _. cbn [fst snd] in *.
  eapply good_bind; [apply getshort_good; [done|lia|change (Z.of_nat BUFFER) with 1547; lia]|]. intros [d p4] s4 [Hd H4] Hok4 _. cbn [fst snd] in *.
  apply good_ret; [done|]. split; [done|]. split; [done|lia].
Qed.

(** ** The sections *)

Lemma skip_name_good fuel plen : 0 < plen <= PACKETSZ -> forall p s, msg_ok s -> 0 <= p -> Z.max 0 (plen - p) < Z.of_nat fuel ->
  good (skip_name fuel plen p) (fun r => match r with Some p' => p < p' <= plen + 1 | None => True end) s.
Proof.
  intros Hplen. unfold PACKETSZ in Hplen. induction fuel as [|fuel IH]; intros p s Hok Hp Hf; [lia|]; cbn [skip_name].
  destruct (Z.leb_spec plen p); [by apply good_ret|].
  eapply good_bind; [apply peek_good; [done|change (Z.of_nat BUFFER) with 1547; lia]|]. intros l s1 Hl Hok1 _. unfold is_byte in Hl. cbn beta in Hl.
  destruct (Z.land l 192 =? 192); [apply good_ret; [done|lia]|]. destruct (Z.eqb_spec l 0); cbn [negb]; [apply good_ret; [done|lia]|].
  eapply good_mono; [apply IH; [done|lia|lia]|]. intros [p'|]; [lia|done].
Qed.
Lemma skip_loop_good plen : 0 < plen <= PACKETSZ -> forall q p s, msg_ok s -> 12 <= p ->
  good (skip_loop q plen p) (fun r => match r with Some p' => p <= p' | None => True end) s.
Proof.
  intros Hplen. induction q as [|q IH]; intros p s Hok Hp; cbn [skip_loop]; [apply good_ret; [done|lia]|].
  eapply good_bind; [apply skip_name_good; [done|done|lia|lia]|]. intros [p'|] s1 Hp' Hok1 _; [|by apply good_ret].
  eapply good_mono; [apply IH; [done|lia]|]. intros [p''|]; [lia|done].
Qed.
Lemma header_short p s : msg_ok s -> 0 <= p <= 10 -> good (fst <$> GETSHORT p) (fun r => 0 <= r < 65536) s.
Proof.
  intros Hok Hp. apply (good_bind (GETSHORT p) (fun r => mret (fst r)) (fun r => 0 <= fst r < 65536)).
  - eapply good_mono; [apply getshort_good; [done|lia|change (Z.of_nat BUFFER) with 1547; lia]|]. by intros [a b] [H _].
  - intros [a b] s' H Hok' _. by apply good_ret.
Qed.
Lemma skip_questions_good qlen s : msg_ok s -> 0 < qlen <= PACKETSZ ->
  good (skip_questions qlen) (fun r => match r with Some p => 12 <= p <= qlen | None => True end) s.
Proof.
  intros Hok Hq. unfold skip_questions. eapply good_bind; [by apply header_short|]. intros n s1 _ Hok1 _.
  eapply good_bind; [by apply skip_loop_good|]. intros [p|] s2 Hp Hok2 _; [|by apply good_ret]. apply good_ret; [done|].
  unfold sizeof_HEADER in Hp. destruct (Z.ltb_spec qlen p); [done|lia].
Qed.

(** ** The cache, while it is off *)

(** The flag of a failed insertion stays as it is. *)
Definition same_fail (failed : bool) (r : option bool) : Prop := match r with Some f => f = failed | None => True end.
Lemma insert_off name addr now ttl flags failed s : msg_ok s -> good (cache_insert name addr now ttl flags failed) (eq failed) s.
Proof.
  intros Hok. destruct (mo_cache _ Hok) as (l & _ & _ & H0). unfold cache_insert. apply good_gets. rewrite H0. destruct failed; by apply good_ret.
Qed.
Lemma walked_stay (g : entry -> entry) l : walked (fun e => Stay (g e)) l = (fun pe => (pe.1, g pe.2)) <$> l.
Proof.
  unfold walked. assert (Ht : tops (fun e => Stay (g e)) l = [] /\ lasts (fun e => Stay (g e)) l = [] /\ stays (fun e => Stay (g e)) l = (fun pe => (pe.1, g pe.2)) <$> l).
  { unfold tops, lasts, stays. split; [by induction l|]. split; [by induction l|].
    induction l as [|[p e] l IH]; [done|]. cbn. by f_equal. }
  destruct Ht as (-> & -> & ->). cbn. apply app_nil_r.
Qed.
(** A walk that clears flags other than those of [host_ok]. *)
Lemma cache_off_step c c' l l' : cache_off c l -> linked c' l' -> hosts l' -> cache_size c' = cache_size c -> cache_off c' l'.
Proof. intros (_ & _ & H0) Hl Hh Hs. split; [done|]. split; [done|congruence]. Qed.
Lemma start_insert_good s : msg_ok s -> good cache_start_insert (fun _ => True) s.
Proof.
  intros Hok. destruct (mo_cache _ Hok) as (l & Hl & Hh & H0).
  set (A := fun e => Stay (set_flags (clear F_NEW (e_flags e)) e)).
  destruct (walked_run A (fun crecp _ => put_flags crecp (clear F_NEW))) with (c := d_cache s) (l := l) (s := s) as (c' & Hrun & Hl' & Hk & _); [|done|done|done| |].
  { intros c s1 l1 p e l2 r Hc Hl1 _ _. destruct (put_flags_run c l1 p e l2 (clear F_NEW) s1 Hc Hl1) as (c1 & Hrun & H1 & H2 & H3).
    exists c1. split; [done|]. split; [done|]. split; [done|]. unfold cost, A. lia. }
  { intros Hex. apply Exists_exists in Hex as (pe & _ & He). done. }
  eapply twp_run; [exact Hrun|]. split; [done|]. split; [|split; try done; apply Hk]. split; [by eapply only_cache_bufs; [apply only_cache_set|apply Hok]|].
  exists (walked A l). apply (cache_off_step (d_cache s) c' l); [by split|done| |apply Hk].
  unfold A. rewrite walked_stay. apply Forall_fmap. eapply Forall_impl; [exact Hh|]. intros [p e] [H1 H2 H3 H4 H5]. split; try done. cbn.
  change F_IMMORTAL with (2 ^ 0). rewrite has_clear by done. change (2 ^ 0) with F_IMMORTAL. cbn [snd] in H1. by rewrite H1.
Qed.

Lemma insert_name_off addr now ttl flags failed t s : msg_ok s -> cut0 (d_name s) = Some t -> good (insert_name addr now ttl flags failed) (eq failed) s.
Proof.
  intros Hok Ht. unfold insert_name. eapply good_bind; [by eapply name_text_good|]. intros ? s1 -> Hok1 _. by apply insert_off.
Qed.

(** ** Replies *)

Lemma soa_loop_good qlen : 0 < qlen <= PACKETSZ -> forall n p found s, msg_ok s -> 0 <= p <= qlen -> good (soa_loop n qlen p found) (fun _ => True) s.
Proof.
  intros Hq. assert (Hq' := Hq). unfold PACKETSZ in Hq'. induction n as [|n IH]; intros p found s Hok Hp; cbn [soa_loop]; [by apply good_ret|].
  apply extract_then; [done|done|change (Z.of_nat BUFFER) with 1547; lia|intros; by apply good_ret|].
  intros d p1 t s1 Hok1 _ Hp1 _ _ _.
  eapply good_bind; [apply rr_fields_good; [done|lia]|]. intros [[[[qtype qclass] ttl] rdlen] p2] s2 (_ & Hrd & ->) Hok2 _.
  eapply (good_bind _ _ (fun r => match r with Some (p', _) => 0 <= p' | None => True end)).
  { destruct (is_type T_SOA qtype qclass).
    - apply extract_then; [done|done|change (Z.of_nat BUFFER) with 1547; lia|intros; by apply good_ret|].
      intros d3 p3 t3 s3 Hok3 _ Hp3 _ _ _.
      apply extract_then; [done|done|change (Z.of_nat BUFFER) with 1547; lia|intros; by apply good_ret|].
      intros d4 p4 t4 s4 Hok4 _ Hp4 _ _ _.
      eapply good_bind; [apply getlong_good; [done|lia|change (Z.of_nat BUFFER) with 1547; lia]|]. intros [x5 p5] s5 [_ H5] Hok5 _. cbn [fst snd] in H5.
      eapply good_bind; [apply getlong_good; [done|lia|change (Z.of_nat BUFFER) with 1547; lia]|]. intros [x6 p6] s6 [_ H6] Hok6 _. cbn [fst snd] in H6.
      eapply good_bind; [apply getlong_good; [done|lia|change (Z.of_nat BUFFER) with 1547; lia]|]. intros [x7 p7] s7 [_ H7] Hok7 _. cbn [fst snd] in H7.
      eapply good_bind; [apply getlong_good; [done|lia|change (Z.of_nat BUFFER) with 1547; lia]|]. intros [x8 p8] s8 [_ H8] Hok8 _. cbn [fst snd] in H8.
      eapply good_bind; [apply getlong_good; [done|lia|change (Z.of_nat BUFFER) with 1547; lia]|]. intros [x9 p9] s9 [_ H9] Hok9 _. cbn [fst snd] in H9.
      apply good_ret; [done|]. cbn. lia.
    - apply good_ret; [done|]. cbn. lia. }
  intros [[p3 found']|] s3 Hp3 Hok3 _; [|by apply good_ret]. destruct (Z.ltb_spec qlen p3); [by apply good_ret|]. apply IH; [done|lia].
Qed.
Lemma neg_loop_good qlen now minttl : 0 < qlen <= PACKETSZ -> forall n p failed s, msg_ok s -> 0 <= p <= qlen + 4 ->
  good (neg_loop n qlen p now minttl failed) (same_fail failed) s.
Proof.
  intros Hq. assert (Hq' := Hq). unfold PACKETSZ in Hq'. induction n as [|n IH]; intros p failed s Hok Hp; cbn [neg_loop]; [by apply good_ret|].
  apply twp_bind. eapply twp_mono; [apply extract_good; [done|done|change (Z.of_nat BUFFER) with 1547; lia|done]|]. intros r s1 (Hr & Hok1 & Hk1).
  destruct r as [[d p1]|]; [|by apply twp_ret]. destruct Hr as (Hp1 & t & Ht & _).
  assert (Hg : good ('(qtype, p) ← GETSHORT p1; '(qclass, p) ← GETSHORT p;
    cache_fail ← (if is_type T_A qtype qclass then insert_name None now minttl (Z.lor F_IPV4 F_FORWARD) failed else mret failed);
    neg_loop n qlen p now minttl cache_fail) (same_fail failed) s1).
  { eapply twp_bind, twp_run; [unfold GETSHORT; eapply run_bind; [apply peeks_run; [lia|lia|rewrite (bo_packet _ (mo_bufs _ Hok1)); change (Z.of_nat BUFFER) with 1547; lia]|reflexivity]|].
    eapply twp_bind, twp_run; [unfold GETSHORT; eapply run_bind; [apply peeks_run; [lia|lia|rewrite (bo_packet _ (mo_bufs _ Hok1)); change (Z.of_nat BUFFER) with 1547; lia]|reflexivity]|].
    eapply (good_bind _ _ (eq failed)); [|intros failed' s2 <- Hok2 _; apply IH; [done|lia]].
    destruct (is_type T_A _ _); [by eapply insert_name_off|by apply good_ret]. }
  eapply twp_mono; [exact Hg|]. intros a s2 (Ha & Hok2 & Hk2). split; [exact Ha|]. split; [done|by eapply rest_trans].
Qed.

Lemma buffer_1547 : Z.of_nat BUFFER = 1547.
Proof. done. Qed.
Lemma name_changes t s : cut0 (d_name s) = Some t -> forall n s', s' = set_calls n s -> cut0 (d_name s') = Some t.
Proof. by intros Ht n s' ->. Qed.
Lemma insert_record_good qlen qtype now ttl p failed t s : msg_ok s -> 0 < qlen <= PACKETSZ -> 0 <= p <= 1000 -> cut0 (d_name s) = Some t ->
  good (insert_record qlen qtype now ttl p failed) (same_fail failed) s.
Proof.
  intros Hok Hq Hp Ht. unfold insert_record. destruct (qtype =? T_A).
  - destruct (peeks_bytes (Z.of_nat INADDRSZ) p s (mo_bufs _ Hok)) as (bs & Hrun & _); [lia|done|rewrite buffer_1547; change (Z.of_nat INADDRSZ) with 4; lia|].
    apply twp_bind. eapply twp_run; [exact Hrun|]. eapply (good_bind _ (fun a => mret (Some a))); [by eapply insert_name_off|]. intros a s1 <- Hok1 _. by apply good_ret.
  - destruct (qtype =? T_PTR); [|by apply good_ret].
    assert (Hn : name_text s = Ok t s) by (unfold name_text; eapply run_bind; [apply gets_run|]; by rewrite Ht).
    apply twp_bind. eapply twp_run; [exact Hn|]. destruct (in_arpa_name_2_addr t) as [addr|]; [|by apply good_ret].
    apply extract_then; [done|done|rewrite buffer_1547; lia|intros; by apply good_ret|]. intros d p' t' s' Hok' _ _ Ht' _ _.
    eapply (good_bind _ (fun a => mret (Some a))); [by eapply insert_name_off|]. intros a s1 <- Hok1 _. by apply good_ret.
Qed.
(** The search for the target of a CNAME. *)
Lemma cname_loop_good qlen targp origname now ttl : 0 < qlen <= PACKETSZ -> 0 <= targp <= 1000 -> 0 <= origname <= 1000 ->
  forall n p failed s, msg_ok s -> 0 <= p <= qlen -> good (cname_loop n qlen targp origname p now ttl failed) (same_fail failed) s.
Proof.
  intros Hq Ht Ho. assert (Hq' := Hq). unfold PACKETSZ in Hq'. induction n as [|n IH]; intros p failed s Hok Hp; cbn [cname_loop]; [by apply good_ret|].
  apply extract_then; [done|done|rewrite buffer_1547; lia|intros; by apply good_ret|]. intros d1 p1 t1 s1 Hok1 _ _ Ht1 _ _.
  apply twp_bind. eapply twp_mono; [apply extract_good; [done|done|rewrite buffer_1547; lia|by intros _; exists t1]|]. intros r s2 (Hr & Hok2 & Hk2).
  assert (Hg : good (match r with
          | None => mret None
          | Some (differ, p) =>
              '(qtype, qclass, cttl, rdlen, p) ← rr_fields p;
              let endrr1 := p + rdlen in
              if qlen <? endrr1 then mret None
              else if negb (qclass =? C_IN) || differ then cname_loop n qlen targp origname endrr1 now ttl failed
              else
                o ← extract_name qlen origname true;
                match o with
                | None => mret None
                | Some _ =>
                    r ← insert_record qlen qtype now (Z.min ttl cttl) p failed;
                    match r with
                    | None => mret None
                    | Some cache_fail => cname_loop n qlen targp origname endrr1 now ttl cache_fail
                    end
                end
          end) (same_fail failed) s2).
  { destruct r as [[differ p2]|]; [|by apply good_ret]. destruct Hr as (Hp2 & _).
    eapply good_bind; [apply rr_fields_good; [done|lia]|]. intros [[[[qtype qclass] cttl] rdlen] p3] s3 (_ & Hrd & ->) Hok3 _. cbv zeta.
    destruct (Z.ltb_spec qlen (p2 + 10 + rdlen)); [by apply good_ret|]. destruct (negb (qclass =? C_IN) || differ); [apply IH; [done|lia]|].
    apply extract_then; [done|done|rewrite buffer_1547; lia|intros; by apply good_ret|]. intros d4 p4 t4 s4 Hok4 _ _ Ht4 _ _.
    eapply good_bind; [eapply insert_record_good; [done|done|lia|done]|]. intros [failed'|] s5 Hf Hok5 _; [cbn in Hf; subst failed'; apply IH; [done|lia]|by apply good_ret]. }
  eapply twp_mono; [exact Hg|]. intros a s3 (Ha & Hok3 & Hk3). split; [exact Ha|]. split; [done|by eapply rest_trans].
Qed.
(** The fields are only read. *)
Lemma getshort_run p s : msg_ok s -> 0 <= p <= 1000 -> exists v, GETSHORT p s = Ok (v, p + 2) s /\ 0 <= v < 65536.
Proof.
  intros Hok Hp. destruct (peeks_bytes 2 p s (mo_bufs _ Hok)) as (bs & Hrun & Hb & Hl); [lia|lia|rewrite buffer_1547; lia|].
  exists (of_be bs). split; [unfold GETSHORT; by eapply run_bind; [exact Hrun|]|]. pose proof (of_be_range bs Hb) as Hr. by rewrite Hl in Hr.
Qed.
Lemma getlong_run p s : msg_ok s -> 0 <= p <= 1000 -> exists v, GETLONG p s = Ok (v, p + 4) s /\ 0 <= v < 4294967296.
Proof.
  intros Hok Hp. destruct (peeks_bytes 4 p s (mo_bufs _ Hok)) as (bs & Hrun & Hb & Hl); [lia|lia|rewrite buffer_1547; lia|].
  exists (of_be bs). split; [unfold GETLONG; by eapply run_bind; [exact Hrun|]|]. pose proof (of_be_range bs Hb) as Hr. by rewrite Hl in Hr.
Qed.
Lemma rr_fields_run p s : msg_ok s -> 0 <= p <= 900 -> exists qtype qclass ttl rdlen,
  rr_fields p s = Ok (qtype, qclass, ttl, rdlen, p + 10) s /\ 0 <= rdlen < 65536.
Proof.
  intros Hok Hp. destruct (getshort_run p s Hok) as (a & Ha & _); [lia|]. destruct (getshort_run (p + 2) s Hok) as (b & Hb & _); [lia|].
  destruct (getlong_run (p + 4) s Hok) as (c & Hc & _); [lia|]. destruct (getshort_run (p + 8) s Hok) as (d & Hd & Hr); [lia|].
  exists a, b, c, d. split; [|done]. unfold rr_fields. eapply run_bind; [exact Ha|]. cbv beta iota.
  eapply run_bind; [exact Hb|]. cbv beta iota. replace (p + 2 + 2) with (p + 4) by lia. eapply run_bind; [exact Hc|]. cbv beta iota.
  replace (p + 4 + 4) with (p + 8) by lia. eapply run_bind; [exact Hd|]. cbv beta iota. by replace (p + 8 + 2) with (p + 10) by lia.
Qed.
Lemma answer_loop_good ancount qlen psave now : 0 < qlen <= PACKETSZ -> 0 <= psave <= qlen ->
  forall n p failed s, msg_ok s -> 0 <= p <= qlen -> good (answer_loop n ancount qlen psave p now failed) (same_fail failed) s.
Proof.
  intros Hq Hps. assert (Hq' := Hq). unfold PACKETSZ in Hq'. induction n as [|n IH]; intros p failed s Hok Hp; cbn [answer_loop]; [by apply good_ret|].
  cbv zeta. apply extract_then; [done|done|rewrite buffer_1547; lia|intros; by apply good_ret|]. intros d1 p1 t1 s1 Hok1 _ Hp1 Ht1 _ _.
  destruct (rr_fields_run p1 s1 Hok1) as (qtype & qclass & ttl & rdlen & Hrr & Hrd); [lia|].
  apply twp_bind. eapply twp_run; [exact Hrr|]. cbv beta iota. destruct (Z.ltb_spec qlen (p1 + 10 + rdlen)); [by apply good_ret|].
  eapply (good_bind _ _ (same_fail failed)); [|intros [failed'|] s2 Hf Hok2 _; [cbn in Hf; subst failed'; apply IH; [done|lia]|by apply good_ret]].
  destruct (negb (qclass =? C_IN)); [by apply good_ret|]. destruct (qtype =? T_CNAME).
  - apply cname_loop_good; [done|lia|lia|done|lia].
  - eapply insert_record_good; [done|done|lia|done].
Qed.
Lemma header_count p s : msg_ok s -> 0 <= p <= 10 -> good (fst <$> GETSHORT p) (fun _ => True) s.
Proof. intros Hok Hp. by eapply good_mono; [apply header_short|]. Qed.
(** Messages whose size recv() gave. *)
Lemma extract_neg_good qlen s : msg_ok s -> 0 < qlen <= PACKETSZ -> good (extract_neg_addrs qlen) (fun _ => True) s.
Proof.
  intros Hok Hq. unfold extract_neg_addrs.
  eapply good_bind; [by apply dsys_good|]. intros now s1 _ Hok1 _.
  eapply good_bind; [by apply header_count|]. intros an s2 _ Hok2 _. destruct (negb (an =? 0)); [by apply good_ret|].
  eapply good_bind; [by apply skip_questions_good|]. intros [p|] s3 Hp Hok3 _; [|by apply good_ret].
  eapply good_bind; [by apply header_count|]. intros ns s4 _ Hok4 _.
  eapply good_bind; [apply soa_loop_good; [done|done|lia]|]. intros [[minttl|]|] s5 _ Hok5 _; [|by apply good_ret..].
  eapply good_bind; [by apply start_insert_good|]. intros [] s6 _ Hok6 _.
  eapply good_bind; [by apply header_count|]. intros qd s7 _ Hok7 _.
  eapply good_bind; [apply neg_loop_good; [done|done|unfold sizeof_HEADER; lia]|]. intros [f|] s8 Hf Hok8 _; [|by apply good_ret].
  cbn in Hf. subst f. by apply good_ret.
Qed.
Lemma extract_addresses_good qlen s : msg_ok s -> 0 < qlen <= PACKETSZ -> good (extract_addresses qlen) (fun _ => True) s.
Proof.
  intros Hok Hq. unfold extract_addresses.
  eapply good_bind; [by apply dsys_good|]. intros now s1 _ Hok1 _.
  eapply good_bind; [apply peek_good; [done|rewrite buffer_1547; lia]|]. intros b3 s2 _ Hok2 _.
  eapply good_bind; [by apply header_count|]. intros an s3 _ Hok3 _.
  eapply (good_bind _ _ (fun _ => True)). { destruct (_ || _); [by apply extract_neg_good|by apply good_ret]. } intros [] s4 _ Hok4 _.
  eapply good_bind; [by apply skip_questions_good|]. intros [p|] s5 Hp Hok5 _; [|by apply good_ret].
  eapply good_bind; [by apply start_insert_good|]. intros [] s6 _ Hok6 _.
  eapply good_bind; [by apply header_count|]. intros an' s7 _ Hok7 _.
  eapply good_bind; [apply answer_loop_good; [done|lia|done|lia]|]. intros [f|] s8 Hf Hok8 _; [|by apply good_ret].
  cbn in Hf. subst f. by apply good_ret.
Qed.
Lemma extract_request_good qlen s : msg_ok s -> 0 < qlen <= PACKETSZ -> good (extract_request qlen) (fun _ => True) s.
Proof.
  intros Hok Hq. unfold extract_request. eapply good_bind; [by apply header_count|]. intros qd s1 _ Hok1 _.
  eapply good_bind; [apply peek_good; [done|rewrite buffer_1547; lia]|]. intros b2 s2 _ Hok2 _. destruct (_ || _); [by apply good_ret|].
  apply extract_then; [done|done|rewrite buffer_1547; unfold sizeof_HEADER; lia| |]; intros; by apply good_ret.
Qed.
End safe.
