(* ===== verification/DnsAnswers.v ===== *)
(** * DnsAnswers: the answers stay inside of the packet

    The records that answer_request writes, their sizes, and the whole answer to any query
    with the names of /etc/hosts in the cache; the bytes of the answer to a query for the
    name of the router's page. *)

From Stdlib Require Import Ascii String.
From S2P Require Import Prelude DhcpTypes DhcpOptions DhcpConfig DnsTypes DnsCache DnsPacket DnsCacheProofs DnsLookup DnsName DnsSafe.
From stdpp Require Import gmap list.

#[local] Open Scope Z_scope.

(** ** Records *)

Lemma put_labels_size fuel : forall name, (length (put_labels fuel name) <= S (length name))%nat.
Proof.
  induction fuel as [|fuel IH]; intros name; [simpl; lia|]. destruct name as [|x name]; [simpl; lia|]. cbn [put_labels].
  pose proof (cut_parts [DOT] (x :: name)) as Hc. destruct (cut [DOT] (x :: name)) as [label rest]. cbn [fst snd] in Hc.
  apply (f_equal length) in Hc. rewrite length_app in Hc. cbn [length]. rewrite length_app. specialize (IH (drop 1 rest)). rewrite length_drop in IH.
  destruct rest; [destruct fuel; cbn [drop put_labels length] in *; lia|cbn [length] in *; lia].
Qed.
Lemma put_labels_bytes fuel : forall name, Forall is_byte name -> Forall is_byte (put_labels fuel name).
Proof.
  induction fuel as [|fuel IH]; intros name Hb; [constructor|]. destruct name as [|x name]; [constructor|]. cbn [put_labels].
  pose proof (cut_parts [DOT] (x :: name)) as Hc. destruct (cut [DOT] (x :: name)) as [label rest]. cbn [fst snd] in Hc.
  rewrite <- Hc in Hb. apply Forall_app in Hb as [H1 H2]. constructor; [apply u8_range|]. apply Forall_app. split; [done|]. by apply IH, Forall_drop.
Qed.
Lemma encoded_size name : (length (encoded name) <= length name + 2)%nat.
Proof. unfold encoded. rewrite length_app. pose proof (put_labels_size (length name) name). simpl. lia. Qed.
Lemma encoded_bytes name : Forall is_byte name -> Forall is_byte (encoded name).
Proof. intros H. apply Forall_app. split; [by apply put_labels_bytes|]. by repeat constructor. Qed.
Lemma text_record_size nameoffset ttl pref type name : (length (text_record nameoffset ttl pref type name) <= length name + 16)%nat.
Proof.
  unfold text_record. cbv zeta. rewrite !length_app. pose proof (encoded_size name). destruct (pref =? 0); unfold be16, be32; cbn [length]; lia.
Qed.
Lemma text_record_bytes nameoffset ttl pref type name : Forall is_byte name -> Forall is_byte (text_record nameoffset ttl pref type name).
Proof.
  intros H. unfold text_record. cbv zeta. pose proof (encoded_bytes _ H). destruct (pref =? 0); rewrite !Forall_app; auto 10 using be16_bytes, be32_bytes.
Qed.
Lemma address_record_size nameoffset ttl addr : (length (address_record nameoffset ttl addr) <= 16)%nat.
Proof. unfold address_record. rewrite !length_app, length_take. unfold be16, be32, INADDRSZ. cbn [length]. lia. Qed.
Lemma address_record_bytes nameoffset ttl addr : Forall is_byte addr -> Forall is_byte (address_record nameoffset ttl addr).
Proof. intros H. unfold address_record. rewrite !Forall_app. auto 10 using be16_bytes, be32_bytes, Forall_take. Qed.

Lemma shift_in_bytes l : forall addr a, length addr = 4%nat -> Forall is_byte addr -> shift_in l addr = Some a -> length a = 4%nat /\ Forall is_byte a.
Proof.
  induction l as [|part l IH]; intros addr a Hlen Hb H; cbn [shift_in] in H; [by injection H as <-|].
  destruct (forallb isdigit part); [|done]. destruct addr as [|a0 [|a1 [|a2 rest]]]; try done. apply (fun Hb => IH _ _ (eq_refl : length [u8 (atoi_digits part); a0; a1; a2] = 4%nat) Hb H).
  apply Forall_cons in Hb as [H0 Hb]. apply Forall_cons in Hb as [H1 Hb]. apply Forall_cons in Hb as [H2 _].
  constructor; [apply u8_range|]. by repeat (constructor; [done|]).
Qed.
Lemma arpa_bytes name a : in_arpa_name_2_addr name = Some a -> length a = 4%nat /\ Forall is_byte a.
Proof.
  unfold in_arpa_name_2_addr. destruct (Nat.ltb 44 (length name)); [done|]. destruct (rev (split_dots name)) as [|x [|y [|z before]]]; try done.
  destruct (_ && _); [|done]. apply shift_in_bytes; [done|]. by repeat constructor.
Qed.
Lemma decimal_bytes b : is_byte b -> (length (decimal b) <= 3)%nat /\ Forall is_byte (decimal b).
Proof.
  unfold is_byte. intros Hb. assert (H1 : 0 <= b / 100 < 3) by (split; [apply Z.div_pos|apply Z.div_lt_upper_bound]; lia).
  pose proof (Z.mod_pos_bound (b / 10) 10 eq_refl). pose proof (Z.mod_pos_bound b 10 eq_refl).
  unfold decimal. destruct (100 <=? b), (10 <=? b); cbn [app length]; (split; [lia|]); repeat constructor; unfold is_byte; lia.
Qed.
Lemma inet_ntop_bytes a : length a = 4%nat -> Forall is_byte a -> (length (inet_ntop a) <= 15)%nat /\ Forall is_byte (inet_ntop a).
Proof.
  destruct a as [|a [|b [|c [|d [|]]]]]; try done. intros _ H.
  apply Forall_cons in H as [Ha H]. apply Forall_cons in H as [Hb H]. apply Forall_cons in H as [Hc H]. apply Forall_cons in H as [Hd _].
  apply decimal_bytes in Ha as [La Ha], Hb as [Lb Hb], Hc as [Lc Hc], Hd as [Ld Hd]. unfold inet_ntop.
  rewrite !length_app. cbn [length]. rewrite !length_app. cbn [length]. rewrite !length_app. cbn [length]. split; [lia|].
  assert (HD : is_byte DOT) by done. rewrite !Forall_app, !Forall_cons, !Forall_app, !Forall_cons, !Forall_app, !Forall_cons. auto 10.
Qed.

Section answers.
Context `{E : DnsEnv}.
Implicit Types (s : dns) (l : list (nat * entry)).

(** What the answers take for granted: the router has an address, and a URL with a scheme
    has at least the 7 bytes of "http://"; the target for MX records is no longer than a
    name of the cache. *)
Record page_ok : Prop := PageOk {
  po_addr : exists a, denv_inet_aton (denv_nvram "lan_ipaddr"%string) = Some a /\ Forall is_byte a;
  po_url : has_scheme (denv_nvram "url_address"%string) = true -> (7 <= length (denv_nvram "url_address"%string))%nat
}.
Definition config_ok (cfg : dns_config) : Prop := (length (mxtarget cfg) <= 1000)%nat /\ Forall is_byte (mxtarget cfg).

Lemma put_keeps bytes p s : msg_ok s -> Forall is_byte bytes -> 0 <= p -> p + Z.of_nat (length bytes) <= Z.of_nat BUFFER ->
  exists b, put bytes p s = Ok (p + Z.of_nat (length bytes)) (set_packet b s) /\ msg_ok (set_packet b s) /\ keeps s (set_packet b s).
Proof.
  intros [[H1 H2 H3 H4] Hc] Hb Hp Hfit. eexists. split.
  { unfold put. eapply run_bind; [apply gets_run|]. rewrite store_ok by (rewrite ?H1; done). eapply run_bind; [reflexivity|]. eapply run_bind; [reflexivity|]. reflexivity. }
  split; [|by split]. split; [|done]. split; cbn; [by rewrite length_inserts|by apply Forall_inserts|done|done].
Qed.
Lemma add_text_good nameoffset ansp ttl pref type name s : msg_ok s -> Forall is_byte name -> (length name <= 1000)%nat -> 12 <= ansp <= 512 ->
  exists b n, add_text_record nameoffset ansp ttl pref type name s = Ok (ansp + n) (set_packet b s) /\ 0 <= n /\ msg_ok (set_packet b s) /\ keeps s (set_packet b s).
Proof.
  intros Hok Hb Hlen Ha. pose proof (text_record_size nameoffset ttl pref type name) as Hsz.
  destruct (put_keeps (text_record nameoffset ttl pref type name) ansp s Hok) as (b & Hrun & H1 & H2); [by apply text_record_bytes|lia|rewrite buffer_1547; lia|].
  exists b, (Z.of_nat (length (text_record nameoffset ttl pref type name))). unfold add_text_record. split; [exact Hrun|]. split; [lia|done].
Qed.
Lemma add_address_good nameoffset ttl addr ansp s : msg_ok s -> Forall is_byte addr -> 12 <= ansp <= 512 ->
  exists b n, put (address_record nameoffset ttl addr) ansp s = Ok (ansp + n) (set_packet b s) /\ 0 <= n /\ msg_ok (set_packet b s) /\ keeps s (set_packet b s).
Proof.
  intros Hok Hb Ha. pose proof (address_record_size nameoffset ttl addr) as Hsz.
  destruct (put_keeps (address_record nameoffset ttl addr) ansp s Hok) as (b & Hrun & H1 & H2); [by apply address_record_bytes|lia|rewrite buffer_1547; lia|].
  exists b, (Z.of_nat (length (address_record nameoffset ttl addr))). split; [exact Hrun|]. split; [lia|done].
Qed.

(** The next record goes into the first 512 bytes, or there is no answer. *)
Definition place_ok (r : part) : Prop := match r with Some (ansp, _, _) => 12 <= ansp <= PACKETSZ | None => True end.
Lemma fits_good ansp k s : msg_ok s -> 12 <= ansp -> (ansp <= PACKETSZ -> good k place_ok s) -> good (fits PACKETSZ ansp k) place_ok s.
Proof. intros Hok Ha Hk. unfold fits. destruct (Z.ltb_spec PACKETSZ ansp); [by apply good_ret|auto]. Qed.
Lemma good_keeps {A} (m : DnM A) (Q : A -> Prop) s s' : keeps s s' -> good m Q s' -> twp m (fun a s'' => Q a /\ msg_ok s'' /\ keeps s s'') s'.
Proof. intros Hk Hm. eapply twp_mono; [exact Hm|]. intros a s'' (HQ & Hok & Hk'). split; [done|]. split; [done|by eapply rest_trans]. Qed.
(** A step with a known result. *)
Lemma good_step {A B} (m : DnM A) (f : A -> DnM B) (Q : B -> Prop) a s s' : m s = Ok a s' -> keeps s s' -> good (f a) Q s' -> good (m ≫= f) Q s.
Proof. intros Hm Hk Hf. apply twp_bind. eapply twp_run; [exact Hm|]. by apply good_keeps. Qed.

(** ** Answers from the cache *)

(** A search: what it finds is a record of the list. *)
Lemma find_first_good m now s : msg_ok s -> (forall e, m (freed e) = false) ->
  exists c' l r, cache_find m None now s = Ok r (set_cache c' s) /\ cache_off c' l
    /\ (forall p, r = Some p -> exists e l2, l = (p, e) :: l2 /\ m e = true) /\ msg_ok (set_cache c' s) /\ keeps s (set_cache c' s).
Proof.
  intros Hok Hm. destruct (mo_cache _ Hok) as (l & Hl & Hh & H0).
  assert (Hexp : expired m now l = []).
  { unfold expired. enough (filter (fun pe => m pe.2 && negb (live now pe.2) = true) l = []) as -> by done. clear -Hh. induction Hh as [|pe l [Hi _ _ _ _] Hl IH]; [done|]. rewrite filter_cons. unfold live. rewrite Hi, andb_false_r.
    by rewrite decide_False. }
  destruct (find_first_run m now (d_cache s) l s eq_refl Hl Hm) as (c' & Hrun & Hl' & Hk); [by rewrite Hexp|].
  assert (Hh' : hosts (searched m now l)).
  { unfold searched. rewrite Hexp, app_nil_r. apply Forall_app. unfold hosts in *. rewrite (Forall_forall _ l) in Hh.
    split; [apply Forall_rev|]; apply Forall_forall; intros pe Hpe; apply Hh; by apply list_elem_of_filter in Hpe as [_ Hpe]. }
  assert (Hoff : cache_off c' (searched m now l)) by (apply (cache_off_step (d_cache s) c' l); [by split|done|done|apply Hk]).
  pose proof (found_true m now l) as Hf. exists c', (searched m now l), (first_of (found m now l) None).
  split; [done|]. split; [done|]. split; [|split; [|split; try done; apply Hk]].
  - intros p Hp. unfold searched. destruct (found m now l) as [|[q e] f]; [done|]. injection Hp as ->. apply Forall_cons in Hf as [Hf _].
    by exists e, (f ++ others m l ++ expired m now l).
  - split; [|by exists (searched m now l)]. by eapply only_cache_bufs; [apply only_cache_set|apply Hok].
Qed.
(** The state during the searches for more: the cache stays as it is. *)
Lemma off_lookup c l1 p e l2 s : d_cache s = c -> linked c (l1 ++ (p, e) :: l2) -> rec_at p s = Ok (Crec (first_of l2 None) (last_of None l1) e) s.
Proof. intros Hc Hl. apply rec_at_run. rewrite Hc. by eapply linked_lookup. Qed.
Lemma hosts_middle c l1 p e l2 : cache_off c (l1 ++ (p, e) :: l2) -> host_ok e.
Proof. intros (_ & Hh & _). by apply Forall_app in Hh as [_ [He _]%Forall_cons]. Qed.
Lemma by_addr_good addr now s : msg_ok s ->
  exists c' l r, cache_find_by_addr None addr now F_IPV4 s = Ok r (set_cache c' s) /\ cache_off c' l
    /\ (forall p, r = Some p -> exists e l2, l = (p, e) :: l2 /\ by_addr addr F_IPV4 e = true) /\ msg_ok (set_cache c' s) /\ keeps s (set_cache c' s).
Proof. intros Hok. apply find_first_good; [done|]. intros e. apply by_addr_freed. Qed.
Lemma by_name_good name now prot s : msg_ok s ->
  exists c' l r, cache_find_by_name None name now prot s = Ok r (set_cache c' s) /\ cache_off c' l
    /\ (forall p, r = Some p -> exists e l2, l = (p, e) :: l2 /\ by_name name prot e = true) /\ msg_ok (set_cache c' s) /\ keeps s (set_cache c' s).
Proof. intros Hok. apply find_first_good; [done|]. intros e. apply by_name_freed. Qed.

Section loops.
Context (nameoffset qtype now : Z).
(** The rest of the list bounds the records that are still found. *)
Lemma ptr_next c addr : forall l2 fuel l1 p e s ansp anscount ans, msg_ok s -> d_cache s = c -> cache_off c (l1 ++ (p, e) :: l2) ->
  (length l2 < fuel)%nat -> 12 <= ansp <= PACKETSZ -> good (ptr_loop fuel PACKETSZ nameoffset qtype now addr (Some p) ansp anscount ans) place_ok s.
Proof.
  induction l2 as [|[q e'] l2 IH]; intros [|fuel] l1 p e s ansp anscount ans Hok Hc Hoff Hf Ha; cbn [length] in Hf; try lia; cbn [ptr_loop];
    (eapply good_step; [eapply find_next_run; [exact Hc|apply Hoff]|apply rest_refl|]); cbv beta iota.
  - by apply good_ret.
  - destruct (by_addr addr F_IPV4 e'); [|by apply good_ret]. assert (Hoff' : cache_off c ((l1 ++ [(p, e)]) ++ (q, e') :: l2)) by (by rewrite <- app_assoc).
    eapply good_step; [eapply off_lookup; [exact Hc|apply Hoff']|apply rest_refl|]. cbv zeta. cbn [c_entry]. destruct (_ && _); [by apply good_ret|].
    pose proof (hosts_middle _ _ _ _ _ Hoff') as [_ _ _ Hlen Hb].
    destruct (add_text_good nameoffset ansp (ttl_of e' now) 0 T_PTR (e_name e') s Hok Hb Hlen Ha) as (b & n & Hrun & Hn & Hok' & Hk).
    eapply good_step; [exact Hrun|exact Hk|]. apply fits_good; [done|lia|]. intros Hle. eapply IH; [done|done|exact Hoff'|lia|lia].
Qed.
Lemma ptr_loop_good addr fuel ansp anscount ans s : msg_ok s -> (size (recs (d_cache s)) + 1 < fuel)%nat -> 12 <= ansp <= PACKETSZ ->
  good (ptr_loop fuel PACKETSZ nameoffset qtype now addr None ansp anscount ans) place_ok s.
Proof.
  intros Hok Hf Ha. destruct fuel as [|fuel]; [lia|]. cbn [ptr_loop].
  destruct (by_addr_good addr now s Hok) as (c' & l & r & Hrun & Hoff & Hr & Hok' & Hk). eapply good_step; [exact Hrun|exact Hk|].
  destruct r as [p|]; [|by apply good_ret]. destruct (Hr p eq_refl) as (e & l2 & -> & _).
  eapply good_step; [eapply (off_lookup c' []); [done|apply Hoff]|apply rest_refl|]. cbv zeta. cbn [c_entry]. destruct (_ && _); [by apply good_ret|].
  pose proof (hosts_middle c' [] _ _ _ Hoff) as [_ _ _ Hlen Hb].
  destruct (add_text_good nameoffset ansp (ttl_of e now) 0 T_PTR (e_name e) _ Hok' Hb Hlen Ha) as (b & n & Hrun' & Hn & Hok'' & Hk').
  eapply good_step; [exact Hrun'|exact Hk'|]. apply fits_good; [done|lia|]. intros Hle.
  eapply (ptr_next c' addr l2 fuel []); [done|done|exact Hoff| |lia].
  pose proof (linked_size _ _ (proj1 Hoff)) as Hsz. pose proof (ks_records _ _ Hk) as Hs. cbn [length d_cache set_cache] in Hsz, Hs. lia.
Qed.
Lemma a_next c name : forall l2 fuel l1 p e s ansp anscount ans, msg_ok s -> d_cache s = c -> cache_off c (l1 ++ (p, e) :: l2) ->
  (length l2 < fuel)%nat -> 12 <= ansp <= PACKETSZ -> good (a_loop fuel PACKETSZ nameoffset qtype now name (Some p) ansp anscount ans) place_ok s.
Proof.
  induction l2 as [|[q e'] l2 IH]; intros [|fuel] l1 p e s ansp anscount ans Hok Hc Hoff Hf Ha; cbn [length] in Hf; try lia; cbn [a_loop];
    (eapply good_step; [eapply find_next_run; [exact Hc|apply Hoff]|apply rest_refl|]); cbv beta iota.
  - by apply good_ret.
  - destruct (by_name name F_IPV4 e'); [|by apply good_ret]. assert (Hoff' : cache_off c ((l1 ++ [(p, e)]) ++ (q, e') :: l2)) by (by rewrite <- app_assoc).
    eapply good_step; [eapply off_lookup; [exact Hc|apply Hoff']|apply rest_refl|]. cbv zeta. cbn [c_entry]. destruct (_ && _); [by apply good_ret|].
    destruct (has F_NEG (e_flags e')); [eapply IH; [done|done|exact Hoff'|lia|lia]|].
    pose proof (hosts_middle _ _ _ _ _ Hoff') as [_ _ Hb _ _].
    destruct (add_address_good nameoffset (ttl_of e' now) (e_addr e') ansp s Hok Hb Ha) as (b & n & Hrun & Hn & Hok' & Hk).
    eapply good_step; [exact Hrun|exact Hk|]. apply fits_good; [done|lia|]. intros Hle. eapply IH; [done|done|exact Hoff'|lia|lia].
Qed.
Lemma a_loop_good name fuel ansp anscount ans s : msg_ok s -> (size (recs (d_cache s)) + 1 < fuel)%nat -> 12 <= ansp <= PACKETSZ ->
  good (a_loop fuel PACKETSZ nameoffset qtype now name None ansp anscount ans) place_ok s.
Proof.
  intros Hok Hf Ha. destruct fuel as [|fuel]; [lia|]. cbn [a_loop].
  destruct (by_name_good name now F_IPV4 s Hok) as (c' & l & r & Hrun & Hoff & Hr & Hok' & Hk). eapply good_step; [exact Hrun|exact Hk|].
  destruct r as [p|]; [|by apply good_ret]. destruct (Hr p eq_refl) as (e & l2 & -> & _).
  assert (Hl2 : (length l2 < fuel)%nat).
  { pose proof (linked_size _ _ (proj1 Hoff)) as Hsz. pose proof (ks_records _ _ Hk) as Hs. cbn [length d_cache set_cache] in Hsz, Hs. lia. }
  eapply good_step; [eapply (off_lookup c' []); [done|apply Hoff]|apply rest_refl|]. cbv zeta. cbn [c_entry]. destruct (_ && _); [by apply good_ret|].
  destruct (has F_NEG (e_flags e)); [by eapply (a_next c' name l2 fuel [])|].
  pose proof (hosts_middle c' [] _ _ _ Hoff) as [_ _ Hb _ _].
  destruct (add_address_good nameoffset (ttl_of e now) (e_addr e) ansp _ Hok' Hb Ha) as (b & n & Hrun' & Hn & Hok'' & Hk').
  eapply good_step; [exact Hrun'|exact Hk'|]. apply fits_good; [done|lia|]. intros Hle.
  eapply (a_next c' name l2 fuel []); [done|done|exact Hoff|done|lia].
Qed.
End loops.

(** ** The whole answer *)

Lemma answer_ptr_good fuel cfg nameoffset qtype now arpa ansp anscount ans s : msg_ok s -> (forall a, arpa = Some a -> length a = 4%nat /\ Forall is_byte a) ->
  (size (recs (d_cache s)) + 1 < fuel)%nat -> 12 <= ansp <= PACKETSZ -> good (answer_ptr fuel cfg PACKETSZ nameoffset qtype now arpa ansp anscount ans) place_ok s.
Proof.
  intros Hok Harpa Hf Ha. unfold answer_ptr. destruct arpa as [addr|]; [|by apply good_ret]. destruct (_ || _); [|by apply good_ret].
  eapply good_bind; [by apply ptr_loop_good|]. intros [[[ansp' anscount'] ans']|] s1 Hr Hok1 Hk1; [|by apply good_ret]. cbn in Hr.
  destruct (_ && _); [|by apply good_ret]. destruct (inet_ntop_bytes addr) as [Hlen Hb]; [by apply Harpa|by apply Harpa|].
  destruct (add_text_good nameoffset ansp' 0 0 T_PTR (inet_ntop addr) s1 Hok1 Hb) as (b & n & Hrun & Hn & Hok2 & Hk2); [lia|done|].
  eapply good_step; [exact Hrun|exact Hk2|]. apply fits_good; [done|lia|]. intros Hle. apply good_ret; [done|]. cbn. lia.
Qed.
Lemma answer_a_good fuel cfg nameoffset qtype now name arpa ansp anscount ans s : msg_ok s ->
  (size (recs (d_cache s)) + 1 < fuel)%nat -> 12 <= ansp <= PACKETSZ -> good (answer_a fuel cfg PACKETSZ nameoffset qtype now name arpa ansp anscount ans) place_ok s.
Proof.
  intros Hok Hf Ha. unfold answer_a. destruct arpa; [by apply good_ret|]. destruct (_ || _); [|by apply good_ret].
  destruct (_ && _); [by apply good_ret|by apply a_loop_good].
Qed.
(** Only a name of the cache is written. *)
Lemma answer_mx_good cfg nameoffset qtype now name arpa ansp anscount ans s : msg_ok s -> config_ok cfg ->
  12 <= ansp <= PACKETSZ -> good (answer_mx cfg PACKETSZ nameoffset qtype now name arpa ansp anscount ans) place_ok s.
Proof.
  intros Hok [Hmx Hmxb] Ha. unfold answer_mx. destruct arpa; [by apply good_ret|]. destruct (_ || _); [|by apply good_ret].
  eapply (good_bind _ _ (fun r => 12 <= fst (fst r))).
  2: { intros [[ansp' anscount'] ans'] s1 Hr Hok1 _. apply fits_good; [done|exact Hr|]. intros Hle. apply good_ret; [done|]. cbn in *. lia. }
  destruct (bool_decide _).
  { destruct (add_text_good nameoffset ansp 0 1 T_MX (mxtarget cfg) s Hok Hmxb Hmx Ha) as (b & n & Hrun & Hn & Hok2 & Hk2).
    eapply good_step; [exact Hrun|exact Hk2|]. apply good_ret; [done|]. cbn. lia. }
  destruct (negb _); [|apply good_ret; [done|cbn; lia]].
  destruct (by_name_good name now HELD s Hok) as (c' & l & r & Hrun & Hoff & Hr & Hok' & Hk). eapply good_step; [exact Hrun|exact Hk|].
  destruct r as [p|]; [|apply good_ret; [done|cbn; lia]]. destruct (Hr p eq_refl) as (e & l2 & -> & He).
  pose proof (hosts_middle c' [] _ _ _ Hoff) as [_ _ _ Hlen Hb].
  unfold by_name, same_name in He. apply andb_true_iff in He as [_ <-%bool_decide_eq_true].
  destruct (add_text_good nameoffset ansp 0 1 T_MX (e_name e) _ Hok' Hb Hlen Ha) as (b & n & Hrun2 & Hn & Hok2 & Hk2).
  eapply good_step; [exact Hrun2|exact Hk2|]. apply good_ret; [done|]. cbn. lia.
Qed.
(** A fact about the bytes, by trying each. *)
Lemma each_byte (P : Z -> bool) : forallb (fun n => P (Z.of_nat n)) (seq 0 256) = true -> forall b, is_byte b -> P b = true.
Proof.
  intros H b Hb. unfold is_byte in Hb. rewrite forallb_forall in H. specialize (H (Z.to_nat b)). rewrite Z2Nat.id in H by lia. apply H, in_seq. lia.
Qed.
Definition byteb (x : Z) : bool := (0 <=? x) && (x <? 256).
Lemma byteb_true x : byteb x = true -> is_byte x.
Proof. unfold byteb, is_byte. lia. Qed.
Lemma answer_bits_bytes aa b2 b3 : is_byte b2 -> is_byte b3 -> Forall is_byte (answer_bits aa b2 b3).
Proof.
  intros H2 H3. constructor; [|constructor; [|constructor]]; apply byteb_true.
  - apply (each_byte (fun b => byteb (answer_bits2 aa b))); [by destruct aa|done].
  - by apply (each_byte (fun b => byteb (answer_bits3 b))).
Qed.
Lemma put_good_in bytes p s : msg_ok s -> Forall is_byte bytes -> 0 <= p -> p + Z.of_nat (length bytes) <= 512 -> good (put bytes p) (fun _ => True) s.
Proof. intros Hok Hb Hp Hfit. eapply good_mono; [apply put_good; [done|done|done|rewrite buffer_1547; lia]|done]. Qed.
Lemma set_answer_header_good aa n s : msg_ok s -> good (set_answer_header aa n) (fun _ => True) s.
Proof.
  intros Hok. unfold set_answer_header.
  eapply good_bind; [apply peek_good; [done|rewrite buffer_1547; lia]|]. intros b2 s1 Hb2 Hok1 _.
  eapply good_bind; [apply peek_good; [done|rewrite buffer_1547; lia]|]. intros b3 s2 Hb3 Hok2 _.
  eapply good_bind; [apply put_good_in; [done|by apply answer_bits_bytes|lia|done]|]. intros x3 s3 _ Hok3 _.
  eapply good_bind; [apply put_good_in; [done|apply be16_bytes|lia|done]|]. intros x4 s4 _ Hok4 _.
  eapply good_bind; [apply put_good_in; [done|apply be16_bytes|lia|done]|]. intros x5 s5 _ Hok5 _.
  eapply good_bind; [apply put_good_in; [done|apply be16_bytes|lia|done]|]. intros x6 s6 _ Hok6 _. by apply good_ret.
Qed.

Context (Hpage : page_ok).
Lemma router_url_good s : msg_ok s -> good router_url (fun _ => True) s.
Proof.
  intros Hok. unfold router_url. cbv zeta. destruct (has_scheme _) eqn:Hs; [|by apply good_ret]. rewrite decide_True by (by apply (po_url Hpage)).
  by eapply good_run.
Qed.
Lemma answer_router_good nameoffset ansp anscount s : msg_ok s -> 12 <= ansp <= PACKETSZ -> good (answer_router nameoffset ansp anscount) (fun m => 0 <= m <= 528) s.
Proof.
  intros Hok Ha. destruct (po_addr Hpage) as (a & Hinet & Hb). unfold answer_router. rewrite Hinet. eapply good_step; [reflexivity|apply rest_refl|].
  eapply good_bind; [apply (put_good _ _ _ Hok); [by apply address_record_bytes|lia|]|].
  - pose proof (address_record_size nameoffset 0 a). rewrite buffer_1547. unfold PACKETSZ in Ha. lia.
  - intros m s1 -> Hok1 _. eapply good_bind; [by apply set_answer_header_good|]. intros [] s2 _ Hok2 _. apply good_ret; [done|].
    pose proof (address_record_size nameoffset 0 a). unfold PACKETSZ in Ha. lia.
Qed.

Context (cfg : dns_config) (Hcfg : config_ok cfg) (qlen now : Z) (Hq : 0 < qlen <= PACKETSZ).
(** The question after this one, and the place for its answer. *)
Definition question_ok (r : question) : Prop :=
  match r with Return m => 0 <= m <= 528 | Go_on p ansp _ => 0 <= p <= PACKETSZ + 4 /\ 12 <= ansp <= PACKETSZ end.
Lemma answer_question_good p ansp anscount s : msg_ok s -> 0 <= p <= PACKETSZ + 4 -> 12 <= ansp <= PACKETSZ ->
  good (answer_question cfg PACKETSZ qlen now p ansp anscount) question_ok s.
Proof.
  intros Hok Hp Ha. unfold answer_question. cbv zeta. assert (HP : PACKETSZ = 512) by done.
  apply extract_then; [done|done|rewrite buffer_1547; lia|intros; apply good_ret; [done|cbn; lia]|]. intros d p1 name s1 Hok1 _ Hp1 Hname Hlen Hb.
  eapply good_bind; [by eapply name_text_good|]. intros ? s2 -> Hok2 _.
  eapply good_bind; [apply getshort_good; [done|lia|rewrite buffer_1547; lia]|]. intros [qtype p3] s3 [_ H3] Hok3 _. cbn [fst snd] in H3.
  eapply good_bind; [apply getshort_good; [done|lia|rewrite buffer_1547; lia]|]. intros [qclass p4] s4 [_ H4] Hok4 _. cbn [fst snd] in H4.
  destruct (negb _); [apply good_ret; [done|cbn; lia]|].
  eapply good_bind; [by apply router_url_good|]. intros url s5 _ Hok5 _. destruct (_ && names_router _ _).
  { eapply good_bind; [by apply answer_router_good|]. intros m s6 Hm Hok6 _. by apply good_ret. }
  apply good_gets. eapply good_bind; [apply answer_ptr_good; [done|by intros a Ha'; apply (arpa_bytes name)|lia|done]|].
  intros [[[ansp6 an6] ans6]|] s6 Hr6 Hok6 Hk6; [|apply good_ret; [done|cbn; lia]].
  eapply good_bind; [apply answer_a_good; [done|rewrite (ks_records _ _ Hk6); lia|done]|].
  intros [[[ansp7 an7] ans7]|] s7 Hr7 Hok7 _; [|apply good_ret; [done|cbn; lia]].
  eapply good_bind; [by apply answer_mx_good|].
  intros [[[ansp8 an8] ans8]|] s8 Hr8 Hok8 _; [|apply good_ret; [done|cbn; lia]]. apply good_ret; [done|]. destruct ans8; cbn in *; lia.
Qed.
Lemma question_loop_good n : forall p ansp anscount s, msg_ok s -> 0 <= p <= PACKETSZ + 4 -> 12 <= ansp <= PACKETSZ ->
  good (question_loop n cfg PACKETSZ qlen now p ansp anscount) (fun m => 0 <= m <= 528) s.
Proof.
  induction n as [|n IH]; intros p ansp anscount s Hok Hp Ha; cbn [question_loop].
  - eapply good_bind; [by apply set_answer_header_good|]. intros [] s1 _ Hok1 _. apply good_ret; [done|]. unfold PACKETSZ in Ha. lia.
  - eapply good_bind; [by apply answer_question_good|]. intros [m|p1 ansp1 an1] s1 Hr Hok1 _; [by apply good_ret|]. destruct Hr. by apply IH.
Qed.
End answers.

Section request.
Context `{E : DnsEnv}.
Lemma answer_request_good cfg qlen s : page_ok -> config_ok cfg -> 0 < qlen <= PACKETSZ -> msg_ok s ->
  good (answer_request cfg PACKETSZ qlen) (fun m => 0 <= m <= 528) s.
Proof.
  intros Hpage Hcfg Hq Hok. unfold answer_request.
  eapply good_bind; [by apply header_count|]. intros qd s1 _ Hok1 _.
  eapply good_bind; [by apply dsys_good|]. intros now s2 _ Hok2 _.
  eapply good_bind; [apply peek_good; [done|rewrite buffer_1547; lia]|]. intros b2 s3 _ Hok3 _. destruct (_ || _); [by apply good_ret|].
  eapply good_bind; [by apply skip_questions_good|]. intros [p|] s4 Hp Hok4 _; [|by apply good_ret].
  apply question_loop_good; [done|done|done|done|unfold sizeof_HEADER, PACKETSZ; lia|lia].
Qed.
End request.

(** ** The bytes of answers *)


Section replies.
Context `{E : DnsEnv}.
Implicit Types s : dns.

Lemma put_run pre bytes old rest s : d_packet s = pre ++ old ++ rest -> length old = length bytes ->
  put bytes (Z.of_nat (length pre)) s = Ok (Z.of_nat (length pre) + Z.of_nat (length bytes)) (set_packet (pre ++ bytes ++ rest) s).
Proof.
  intros Hp Hl. unfold put. eapply run_bind; [apply gets_run|]. rewrite (store_middle pre bytes old rest) by done.
  eapply run_bind; [reflexivity|]. eapply run_bind; [reflexivity|]. reflexivity.
Qed.
Lemma peek_at pre x rest s : d_packet s = pre ++ x :: rest -> peek (Z.of_nat (length pre)) s = Ok x s.
Proof. intros Hp. apply peek_run; [lia|]. rewrite Hp. apply lookup_at. Qed.
Lemma short_at pre a b rest s : d_packet s = pre ++ a :: b :: rest -> is_byte a -> is_byte b ->
  GETSHORT (Z.of_nat (length pre)) s = Ok (a * 256 + b, Z.of_nat (length pre) + 2) s.
Proof.
  intros Hp Ha Hb. unfold GETSHORT. eapply run_bind.
  { apply peeks_run; [lia|lia|]. rewrite Hp, length_app. cbn [length]. lia. }
  rewrite Hp, Nat2Z.id, drop_app_length. change (Z.to_nat 2) with 2%nat. cbn [take]. unfold of_be. cbn [fold_left]. unfold is_byte in *.
  do 3 f_equal.
Qed.

(** The header of a message, by its bytes. *)
Definition head (id : list Z) (b2 b3 : Z) (qd an rest : list Z) : list Z := id ++ [b2; b3] ++ qd ++ an ++ rest.
Lemma set_answer_header_run aa n i1 i2 b2 b3 q1 q2 a1 a2 n1 n2 t1 t2 rest s :
  d_packet s = [i1; i2; b2; b3; q1; q2; a1; a2; n1; n2; t1; t2] ++ rest ->
  set_answer_header aa n s
    = Ok tt (set_packet ([i1; i2] ++ answer_bits aa b2 b3 ++ [q1; q2] ++ be16 n ++ be16 0 ++ be16 0 ++ rest) s).
Proof.
  intros Hp. unfold set_answer_header, h_bits2, h_bits3.
  eapply run_bind; [eapply (peek_at [i1; i2]); exact Hp|]. eapply run_bind; [eapply (peek_at [i1; i2; b2]); exact Hp|].
  eapply run_bind; [apply (put_run [i1; i2] (answer_bits aa b2 b3) [b2; b3] _ s Hp); done|].
  eapply run_bind; [apply (put_run ([i1; i2] ++ answer_bits aa b2 b3 ++ [q1; q2]) (be16 n) [a1; a2] ([n1; n2; t1; t2] ++ rest)); done|].
  eapply run_bind; [apply (put_run ([i1; i2] ++ answer_bits aa b2 b3 ++ [q1; q2] ++ be16 n) (be16 0) [n1; n2] ([t1; t2] ++ rest)); done|].
  eapply run_bind; [apply (put_run ([i1; i2] ++ answer_bits aa b2 b3 ++ [q1; q2] ++ be16 n ++ be16 0) (be16 0) [t1; t2] rest); done|].
  reflexivity.
Qed.

(** ** The end of a question *)

Lemma skip_name_at pkt plen p ls next jumps s : name_at pkt plen p ls next jumps -> d_packet s = pkt -> next <= plen ->
  forall fuel, (Z.to_nat (plen - p) < fuel)%nat -> skip_name fuel plen p s = Ok (Some next) s.
Proof.
  intros Hat Hpk. induction Hat as [p Hp H0|p l ls next jumps Hp Hlen Hl Hend Hbytes Hn IH|p high low ls next jumps Hp Hh Hlow Hp0 Hp1 Hend Htgt Hn _];
    intros Hnext [|fuel] Hf; try lia; cbn [skip_name].
  - rewrite (proj2 (Z.leb_gt _ _)) by lia. eapply run_bind; [apply peek_run; [done|by rewrite Hpk]|]. done.
  - rewrite (proj2 (Z.leb_gt _ _)) by lia. eapply run_bind; [apply peek_run; [done|by rewrite Hpk]|].
    change 192 with 0xc0. rewrite label_bits by lia. rewrite (proj2 (Z.eqb_neq _ 0)) by lia. cbn [negb].
    replace (p + Z.of_nat (length l) + 1) with (p + 1 + Z.of_nat (length l)) by lia. apply IH; [done|lia].
  - rewrite (proj2 (Z.leb_gt _ _)) by lia. eapply run_bind; [apply peek_run; [done|by rewrite Hpk]|].
    destruct (pointer_bits high low Hh Hlow) as [Hb _]. rewrite Hb. done.
Qed.

(** ** A query with one question *)

(** The message of [qlen] bytes is one question of the class IN and the type [qtype] for
    the name of the labels [ls]; the question ends at [qend]. *)
Record asks (s : dns) (qlen : Z) (i1 i2 b2 b3 : Z) (ls : list (list Z)) (qtype qend : Z) : Prop := Asks {
  as_bufs : bufs_ok s;
  as_len : 0 < qlen <= PACKETSZ;
  as_head : exists counts rest, d_packet s = [i1; i2; b2; b3; 0; 1] ++ counts ++ rest /\ length counts = 6%nat;
  as_opcode : h_opcode b2 = QUERY;
  as_name : exists next jumps, name_at (d_packet s) qlen 12 ls next jumps /\ (jumps <= 255)%nat /\ qend = next + 4;
  as_labels : ls <> [] /\ Z.of_nat (length (dotted ls)) < MAXDNAME /\ Forall (fun x => x <> 0) (name_of ls);
  as_end : qend <= qlen;
  as_type : take 4 (drop (Z.to_nat (qend - 4)) (d_packet s)) = be16 qtype ++ be16 C_IN;
  as_qtype : 0 <= qtype < 65536
}.

Lemma short_run p a b s : 0 <= p -> take 2 (drop (Z.to_nat p) (d_packet s)) = [a; b] -> is_byte a -> is_byte b -> GETSHORT p s = Ok (a * 256 + b, p + 2) s.
Proof.
  intros Hp Ht Ha Hb. unfold GETSHORT. assert (Hl : (Z.to_nat p + 2 <= length (d_packet s))%nat).
  { apply (f_equal length) in Ht. rewrite length_take, length_drop in Ht. cbn [length] in Ht. lia. }
  eapply run_bind; [apply peeks_run; lia|]. change (Z.to_nat 2) with 2%nat. rewrite Ht. done.
Qed.
Lemma asks_calls n s qlen i1 i2 b2 b3 ls qtype qend : asks s qlen i1 i2 b2 b3 ls qtype qend -> asks (set_calls n s) qlen i1 i2 b2 b3 ls qtype qend.
Proof. intros [[B1 B2 B3 B4] H2 H3 H4 H5 H6 H7 H8 H9]. split; try assumption. by split. Qed.
(** What a message that asks lets the program read. *)
Section question.
Context (s : dns) (qlen i1 i2 b2 b3 : Z) (ls : list (list Z)) (qtype qend : Z) (Hask : asks s qlen i1 i2 b2 b3 ls qtype qend).
Lemma asks_counts : h_qdcount s = Ok 1 s /\ h_bits2 s = Ok b2 s /\ h_bits3 s = Ok b3 s.
Proof.
  destruct (as_head _ _ _ _ _ _ _ _ _ Hask) as (counts & rest & Hp & Hc). repeat split.
  - assert (HG : GETSHORT 4 s = Ok (1, 6) s) by (apply (short_at [i1; i2; b2; b3] 0 1 (counts ++ rest)); done).
    change (h_qdcount s) with (match GETSHORT 4 s with Ok r s' => Ok (fst r) s' | Err f => Err f end). by rewrite HG.
  - eapply (peek_at [i1; i2]). exact Hp.
  - eapply (peek_at [i1; i2; b2]). exact Hp.
Qed.
Lemma asks_range : 16 < qend <= 512.
Proof.
  destruct Hask as [_ Hq _ _ (next & jumps & Hat & _ & ->) (Hne & _) He _ _]. unfold PACKETSZ in Hq. split; [|lia].
  enough (12 < next) by lia. clear -Hat. remember 12 as p. assert (Hp : 0 <= p) by lia. clear Heqp. induction Hat; lia.
Qed.
Lemma asks_skip : skip_questions qlen s = Ok (Some qend) s.
Proof.
  destruct asks_counts as [Hn _]. destruct Hask as [_ Hq _ _ (next & jumps & Hat & _ & ->) _ He _ _].
  unfold skip_questions. eapply run_bind; [exact Hn|]. change (Z.to_nat 1) with 1%nat. cbn [skip_loop].
  eapply run_bind; [eapply run_bind; [eapply skip_name_at; [exact Hat|done|lia|unfold sizeof_HEADER; lia]|reflexivity]|].
  cbv beta iota. by rewrite (proj2 (Z.ltb_ge _ _)) by lia.
Qed.
Lemma asks_extract : exists n', extract_name qlen 12 true s = Ok (Some (false, qend - 4)) (set_name n' s) /\ cut0 n' = Some (name_of ls) /\ length n' = length (d_name s).
Proof.
  destruct Hask as [Hb Hq _ _ (next & jumps & Hat & Hj & ->) (Hne & Hd & Hz) _ _ _].
  destruct (extract_name_at qlen 12 ls next jumps s Hat Hne Hj Hd (bo_name _ Hb)) as (n' & Hrun & Hl & Hname). exists n'.
  replace (next + 4 - 4) with next by lia. split; [exact Hrun|]. split; [by apply Hname|done].
Qed.
Lemma asks_fields s' : d_packet s' = d_packet s -> GETSHORT (qend - 4) s' = Ok (qtype, qend - 2) s' /\ GETSHORT (qend - 2) s' = Ok (C_IN, qend) s'.
Proof.
  intros Hpk. pose proof asks_range as Hr. destruct Hask as [_ _ _ _ _ _ _ Ht Hqt].
  assert (Hu : be16 qtype = [qtype / 256; qtype mod 256] /\ is_byte (qtype / 256) /\ is_byte (qtype mod 256)).
  { pose proof (Z.mod_pos_bound qtype 256 eq_refl). assert (0 <= qtype / 256 < 256) by (split; [apply Z.div_pos|apply Z.div_lt_upper_bound]; lia).
    unfold be16, u8, is_byte. by rewrite (Z.mod_small (qtype / 256)) by lia. }
  destruct Hu as (Hbe & H1 & H2). rewrite Hbe in Ht. cbn [app] in Ht. change (be16 C_IN) with [0; 1] in Ht. split.
  - rewrite (short_run (qend - 4) (qtype / 256) (qtype mod 256)); [|lia| |done|done].
    + rewrite Z.mul_comm, <- Z.div_mod by lia. by replace (qend - 4 + 2) with (qend - 2) by lia.
    + rewrite Hpk. apply (f_equal (take 2)) in Ht. by rewrite take_take in Ht.
  - rewrite (short_run (qend - 2) 0 1); [|lia| |done|done].
    + by replace (qend - 2 + 2) with qend by lia.
    + rewrite Hpk. apply (f_equal (drop 2)) in Ht. rewrite take_drop_commute, drop_drop in Ht. cbn [drop] in Ht.
      rewrite take_drop_commute. replace (Z.to_nat (qend - 2) + 2)%nat with (Z.to_nat (qend - 4) + 4)%nat by lia.
      replace (Z.to_nat (qend - 4) + 2)%nat with (Z.to_nat (qend - 2)) in Ht by lia. exact Ht.
Qed.
End question.

(** The address under which the router's page is asked for. *)
Definition page_name : list Z :=
  let url := denv_nvram "url_address"%string in if has_scheme url then drop 7 url else url.
Lemma router_url_run s : page_ok -> router_url s = Ok page_name s.
Proof.
  intros Hpage. unfold router_url, page_name. cbv zeta. destruct (has_scheme _) eqn:Hs; [|done]. by rewrite decide_True by (by apply (po_url Hpage)).
Qed.
Lemma page_question cfg limit now s qlen i1 i2 b2 b3 ls qend a : page_ok -> asks s qlen i1 i2 b2 b3 ls T_A qend ->
  names_router (name_of ls) page_name = true -> denv_inet_aton (denv_nvram "lan_ipaddr"%string) = Some a -> length a = INADDRSZ ->
  exists n' counts quest rest, d_packet s = [i1; i2; b2; b3; 0; 1] ++ counts ++ quest ++ rest /\ length counts = 6%nat
    /\ Z.of_nat (length quest) = qend - 12
    /\ answer_question cfg limit qlen now 12 qend 0 s = Ok (Return (qend + 16))
      (set_packet ([i1; i2] ++ answer_bits true b2 b3 ++ [0; 1] ++ be16 1 ++ be16 0 ++ be16 0 ++ quest ++ address_record 12 0 a ++ drop 16 rest) (set_name n' s)).
Proof.
  intros Hpage Hask Hname Ha Hla. pose proof (asks_range _ _ _ _ _ _ _ _ _ Hask) as Hr.
  destruct (asks_extract _ _ _ _ _ _ _ _ _ Hask) as (n' & Hrun & Hcut & Hln).
  destruct (asks_fields _ _ _ _ _ _ _ _ _ Hask (set_name n' s) eq_refl) as [Hf1 Hf2].
  destruct (as_head _ _ _ _ _ _ _ _ _ Hask) as (counts & rest & Hp & Hc).
  pose proof (bo_packet _ (as_bufs _ _ _ _ _ _ _ _ _ Hask)) as Hbuf. unfold BUFFER in Hbuf.
  set (quest := take (Z.to_nat (qend - 12)) rest). set (tail := drop (Z.to_nat (qend - 12)) rest).
  assert (Hlr : (length rest = 1547 - 12)%nat) by (rewrite Hp, !length_app, Hc in Hbuf; cbn [length] in Hbuf; lia).
  assert (Hlq : length quest = Z.to_nat (qend - 12)) by (subst quest; rewrite length_take; lia).
  assert (Hlt : (16 <= length tail)%nat) by (subst tail; rewrite length_drop; lia).
  exists n', counts, quest, tail. assert (Hp' : d_packet s = [i1; i2; b2; b3; 0; 1] ++ counts ++ quest ++ tail) by (subst quest tail; by rewrite take_drop).
  split; [done|]. split; [done|]. split; [lia|].
  unfold answer_question. cbv zeta. eapply run_bind; [exact Hrun|]. cbv beta iota.
  eapply run_bind; [unfold name_text; eapply run_bind; [apply gets_run|]; cbn [d_name set_name]; by rewrite Hcut|].
  eapply run_bind; [exact Hf1|]. cbv beta iota. eapply run_bind; [exact Hf2|]. cbv beta iota.
  change (negb (C_IN =? C_IN)) with false. cbv iota. eapply run_bind; [by apply router_url_run|]. rewrite Hname. change ((T_A =? T_A) && true) with true. cbv iota.
  destruct counts as [|c1 [|c2 [|c3 [|c4 [|c5 [|c6 [|]]]]]]]; try done.
  assert (Hrec : length (address_record 12 0 a) = 16%nat) by (unfold address_record; rewrite !length_app, length_take, Hla; done).
  set (pre := [i1; i2; b2; b3; 0; 1] ++ [c1; c2; c3; c4; c5; c6] ++ quest).
  assert (Hpre : Z.of_nat (length pre) = qend) by (subst pre; rewrite !length_app, Hlq; cbn [length]; lia).
  eapply run_bind.
  { unfold answer_router. rewrite Ha. eapply run_bind; [reflexivity|].
    eapply run_bind; [rewrite <- Hpre; apply (put_run pre (address_record 12 0 a) (take 16 tail) (drop 16 tail))|].
    - cbn [d_packet set_name]. rewrite Hp'. subst pre. by rewrite take_drop, <- !app_assoc.
    - by rewrite length_take, Hrec, Nat.min_l.
    - eapply run_bind; [apply (set_answer_header_run true (0 + 1) i1 i2 b2 b3 0 1 c1 c2 c3 c4 c5 c6 (quest ++ address_record 12 0 a ++ drop 16 tail))|].
      { cbn [d_packet set_packet]. subst pre. by rewrite <- !app_assoc. }
      reflexivity. }
  rewrite Hrec, Hpre. reflexivity.
Qed.
End replies.
