(* ===== verification/DnsForwardProofs.v ===== *)
(** * DnsForwardProofs: the table of queries, its servers and its buffers

    The servers as a circle, the invariant of the table, and what each operation of
    forwarding does to it. *)

From S2P Require Import Prelude DhcpTypes DhcpOptions DhcpConfig DnsTypes DnsCache DnsPacket DnsForward DnsCacheProofs DnsLookup DnsName DnsSafe DnsAnswers.
From stdpp Require Import gmap list.

#[local] Open Scope Z_scope.

(** ** The circle of servers *)

Definition head_ptr (l : list (nat * server)) : option nat := match l with [] => None | (p, _) :: _ => Some p end.
Fixpoint chain (h : gmap nat server) (l : list (nat * server)) : Prop :=
  match l with
  | [] => True
  | (p, sv) :: l' => h !! p = Some sv /\ s_next sv = head_ptr l' /\ chain h l'
  end.
Record servers_ok (h : gmap nat server) (l : list (nat * server)) : Prop := ServersOk {
  so_chain : chain h l;
  so_nodup : NoDup l.*1
}.
(** The same list, begun at another server. *)
Definition rot (l r : list (nat * server)) : Prop := exists l1 l2, l = l1 ++ l2 /\ r = l2 ++ l1.

Lemma chain_app h l1 l2 : chain h (l1 ++ l2) -> chain h l2.
Proof. induction l1 as [|[p sv] l1 IH]; [done|]. intros (_ & _ & H). auto. Qed.
Lemma chain_next h l1 p sv l2 : chain h (l1 ++ (p, sv) :: l2) -> h !! p = Some sv /\ s_next sv = head_ptr l2.
Proof. intros H. apply chain_app in H as (H1 & H2 & _). done. Qed.
Lemma chain_in h l p sv : chain h l -> (p, sv) ∈ l -> h !! p = Some sv.
Proof. intros H Hin. apply list_elem_of_split in Hin as (l1 & l2 & ->). by apply chain_next in H as [H _]. Qed.
Lemma rot_perm l r : rot l r -> r ≡ₚ l.
Proof. intros (l1 & l2 & -> & ->). apply Permutation_app_comm. Qed.
Lemma rot_at l p sv : (p, sv) ∈ l -> exists r, rot l ((p, sv) :: r).
Proof. intros Hin. apply list_elem_of_split in Hin as (l1 & l2 & ->). exists (l2 ++ l1), l1, ((p, sv) :: l2). done. Qed.
Lemma rot_step l x r : rot l (x :: r) -> rot l (r ++ [x]).
Proof.
  intros (l1 & l2 & -> & Hr). destruct l2 as [|y l2]; cbn in Hr.
  - exists [x], r. subst l1. by rewrite app_nil_r.
  - injection Hr as <- ->. exists (l1 ++ [x]), l2. by rewrite <- !app_assoc.
Qed.

Lemma chain_size h l : chain h l -> NoDup l.*1 -> (length l <= size h)%nat.
Proof.
  intros Hc Hn. rewrite <- (length_fmap fst), <- (size_list_to_set (C := gset nat) l.*1) by done. rewrite <- size_dom.
  apply subseteq_size. intros x Hx. apply elem_of_list_to_set, list_elem_of_fmap in Hx as ([y sy] & -> & Hy). apply list_elem_of_split in Hy as (l1 & l2 & ->).
  apply chain_next in Hc as [Hc _]. apply elem_of_dom. by eexists.
Qed.

Section servers.
Context `{E : DnsEnv}.
Implicit Types s : dns.
Lemma srv_run s p sv : d_heap s !! p = Some sv -> srv (Some p) s = Ok sv s.
Proof. intros H. unfold srv. eapply run_bind; [reflexivity|]. eapply run_bind; [apply gets_run|]. by rewrite H. Qed.
Lemma rot_server h l p sv r : servers_ok h l -> rot l ((p, sv) :: r) -> h !! p = Some sv.
Proof.
  intros [Hc _] (l1 & l2 & -> & Hr). destruct l2 as [|y l2]; cbn in Hr.
  - subst l1. rewrite app_nil_r in Hc. apply Hc.
  - injection Hr as <- _. by apply chain_next in Hc as [H _].
Qed.
Lemma rot_next l p sv r s : servers_ok (d_heap s) l -> rot l ((p, sv) :: r) -> next_server (Some p) (head_ptr l) s = Ok (head_ptr (r ++ [(p, sv)])) s.
Proof.
  intros Hok Hrot. pose proof (rot_server _ _ _ _ _ Hok Hrot) as Hp. destruct Hok as [Hc _].
  unfold next_server. eapply run_bind; [by apply srv_run|]. f_equal. destruct Hrot as (l1 & l2 & -> & Hr). destruct l2 as [|y l2]; cbn in Hr.
  - subst l1. rewrite app_nil_r in *. destruct Hc as (_ & -> & _). by destruct r as [|[]].
  - injection Hr as <- ->. apply chain_next in Hc as [_ ->]. destruct l2 as [|[]]; [|done]. by destruct l1 as [|[]].
Qed.
End servers.

(** ** The invariant *)

Definition active (f : frec) : Prop := f_new_id f <> 0.
(** The buffer of an entry that is in use. *)
Definition own (f : frec) : option nat := if f_new_id f =? 0 then None else match f_msg_buf f with Some b => b | None => None end.
Definition owned (t : list frec) : list nat := omap own t.

Section table.
Context (l : list (nat * server)).
Implicit Types s : dns.

Record buf_fine (b : msg_buf) : Prop := BufFine {
  bf_servers : b_servers b = head_ptr l;
  bf_first : exists p, b_firstsentto b = Some p /\ p ∈ l.*1;
  bf_next : exists p, b_nextsentto b = Some p /\ p ∈ l.*1;
  bf_plen : 0 <= b_plen b <= PACKETSZ;
  bf_used : b_usedflag b = true
}.
Record entry_fine (bufs : list msg_buf) (f : frec) : Prop := EntryFine {
  ef_id : 0 < f_new_id f < 65536;
  ef_data : exists d p, f_data f = Some d /\ f_sentto d = Some p /\ p ∈ l.*1;
  ef_buf : exists bp, f_msg_buf f = Some bp /\ forall j, bp = Some j -> exists b, bufs !! j = Some b /\ buf_fine b
}.
Record table_ok (s : dns) : Prop := TableOk {
  tk_length : length (ftab s) = FTABSIZ;
  tk_servers : servers_ok (d_heap s) l;
  tk_bufs : length (dnsMsgBuf s) = FTABSIZ;
  tk_headers : Forall (fun b => length (b_header b) = BUFFER) (dnsMsgBuf s);
  tk_i : 0 <= d_buf_i s < 150;
  tk_entries : forall i f, ftab s !! i = Some f -> active f -> entry_fine (dnsMsgBuf s) f;
  tk_ids : forall i j f g, ftab s !! i = Some f -> ftab s !! j = Some g -> active f -> f_new_id f = f_new_id g -> i = j;
  tk_owners : forall i j f g k, ftab s !! i = Some f -> ftab s !! j = Some g -> own f = Some k -> own g = Some k -> i = j;
  tk_used : forall k b, dnsMsgBuf s !! k = Some b -> b_usedflag b = true -> exists i f, ftab s !! i = Some f /\ own f = Some k
}.
(** The parts of the state that this is about. *)
Record same_table (s s' : dns) : Prop := SameTable {
  st_ftab : ftab s' = ftab s;
  st_bufs : dnsMsgBuf s' = dnsMsgBuf s;
  st_i : d_buf_i s' = d_buf_i s;
  st_heap : d_heap s' = d_heap s
}.
Lemma same_table_refl s : same_table s s.
Proof. by split. Qed.
Lemma same_table_trans s s' s'' : same_table s s' -> same_table s' s'' -> same_table s s''.
Proof. intros [] []. split; congruence. Qed.
Lemma keeps_table s s' : keeps s s' -> same_table s s'.
Proof. intros []. by split. Qed.
Lemma same_table_ok s s' : same_table s s' -> table_ok s -> table_ok s'.
Proof. intros [E1 E2 E3 E4] []. split; rewrite ?E1, ?E2, ?E3, ?E4; assumption. Qed.

Lemma own_active f k : own f = Some k -> active f /\ f_msg_buf f = Some (Some k).
Proof. unfold own, active. destruct (Z.eqb_spec (f_new_id f) 0); [done|]. destruct (f_msg_buf f) as [[]|]; naive_solver. Qed.
Lemma active_own f k : active f -> f_msg_buf f = Some (Some k) -> own f = Some k.
Proof. unfold own, active. intros H Hb. by rewrite (proj2 (Z.eqb_neq _ _) H), Hb. Qed.

(** Another entry in the place of one: its buffer, if any, is the one of the old entry. *)
Lemma change_entry s i f f' : table_ok s -> ftab s !! i = Some f -> (active f' -> entry_fine (dnsMsgBuf s) f') -> own f' = own f ->
  (active f' -> forall k g, k <> i -> ftab s !! k = Some g -> f_new_id g <> f_new_id f') -> table_ok (set_ftab (<[i := f']> (ftab s)) s).
Proof.
  intros [H1 H2 H3 H4 H5 H6 H7 H8 H9] Hi Hf Hown Hid. pose proof (lookup_lt_Some _ _ _ Hi) as Hlt. split; cbn; try assumption.
  - by rewrite length_insert.
  - intros k g Hk Hg. apply list_lookup_insert_Some in Hk as [(-> & <- & _)|[Hne Hk]]; [by apply Hf|by apply (H6 k)].
  - intros k1 k2 g1 g2 Hk1 Hk2 Hg Heq.
    apply list_lookup_insert_Some in Hk1 as [(-> & <- & _)|[Hn1 Hk1]]; apply list_lookup_insert_Some in Hk2 as [(-> & <- & _)|[Hn2 Hk2]]; [done| | |by eapply H7].
    + exfalso. by eapply (Hid Hg k2); [..|exact Hk2|].
    + exfalso. assert (Ha : active f') by (unfold active in *; congruence). by eapply (Hid Ha k1); [..|exact Hk1|].
  - intros k1 k2 g1 g2 k Hk1 Hk2 Hg1 Hg2.
    apply list_lookup_insert_Some in Hk1 as [(-> & <- & _)|[Hn1 Hk1]]; apply list_lookup_insert_Some in Hk2 as [(-> & <- & _)|[Hn2 Hk2]]; [done| | |by eapply H8].
    + rewrite Hown in Hg1. by eapply (H8 k1 k2).
    + rewrite Hown in Hg2. by eapply (H8 k1 k2).
  - intros k b Hk Hb. destruct (H9 k b Hk Hb) as (i' & g & Hi' & Hg). destruct (decide (i' = i)) as [->|Hne].
    + exists i, f'. rewrite list_lookup_insert_eq by done. split; [done|]. rewrite Hown. congruence.
    + exists i', g. by rewrite list_lookup_insert_ne.
Qed.
End table.

(** ** The message buffers *)

Section buffers.
Context (l : list (nat * server)).
Implicit Types s : dns.

(** The buffer [k] of a table. *)
Lemma owner_fine s i f k : table_ok l s -> ftab s !! i = Some f -> own f = Some k -> exists b, dnsMsgBuf s !! k = Some b /\ buf_fine l b.
Proof.
  intros Hok Hi Hk. apply own_active in Hk as [Ha Hb]. destruct (tk_entries _ _ Hok i f Hi Ha) as [_ _ (bp & Hbp & Hj)].
  apply Hj. congruence.
Qed.
(** The buffers change at [k], whose owner is the entry [i]. *)
Lemma change_owned s i f f' k b' : table_ok l s -> ftab s !! i = Some f -> active f -> f_new_id f' = f_new_id f -> f_data f' = f_data f ->
  (forall j g, j <> i -> ftab s !! j = Some g -> own g <> Some k) -> (k < FTABSIZ)%nat -> length (b_header b') = BUFFER ->
  (own f = None \/ own f = Some k) ->
  (f_msg_buf f' = Some (Some k) /\ buf_fine l b' \/ f_msg_buf f' = Some None /\ b_usedflag b' = false) ->
  table_ok l (set_ftab (<[i := f']> (ftab s)) (set_bufs (<[k := b']> (dnsMsgBuf s)) s)).
Proof.
  intros [H1 H2 H3 H4 H5 H6 H7 H8 H9] Hi Ha Hid Hdata Hother Hk Hh Hown Hnew. pose proof (lookup_lt_Some _ _ _ Hi) as Hlt.
  assert (Ha' : active f') by (unfold active in *; congruence).
  assert (Hown' : own f' = None \/ own f' = Some k).
  { destruct Hnew as [[Hb _]|[Hb _]]; [right; by apply active_own|left; unfold own; rewrite Hb; by destruct (f_new_id f' =? 0)]. }
  assert (Hrest : forall j g q, j <> i -> ftab s !! j = Some g -> own g = Some q -> q <> k) by (intros j g q Hj Hg Hq ->; by eapply Hother).
  split; cbn; try assumption.
  - by rewrite length_insert.
  - by rewrite length_insert.
  - by apply Forall_insert.
  - intros j g Hj Hg. apply list_lookup_insert_Some in Hj as [(-> & <- & _)|[Hne Hj]].
    + destruct (H6 _ f Hi Ha) as [E1 E2 _]. split; [by rewrite Hid|by rewrite Hdata|].
      destruct Hnew as [[Hb Hf]|[Hb _]]; (eexists; split; [exact Hb|]); [|done]. intros q [= <-]. exists b'. split; [|done]. apply list_lookup_insert_eq. lia.
    + destruct (H6 j g Hj Hg) as [E1 E2 (bp & Hbp & E3)]. split; [done|done|]. exists bp. split; [done|]. intros q ->. destruct (E3 q eq_refl) as (b & Hb & Hf).
      exists b. split; [|done]. rewrite list_lookup_insert_ne; [done|]. intros ->. eapply (Hother j g); [done|done|]. by apply active_own.
  - intros k1 k2 g1 g2 Hk1 Hk2 Hg Heq.
    apply list_lookup_insert_Some in Hk1 as [(-> & <- & _)|[Hn1 Hk1]]; apply list_lookup_insert_Some in Hk2 as [(-> & <- & _)|[Hn2 Hk2]]; [done| | |by eapply H7].
    + apply (H7 k1 k2 f g2); [done|done|done|congruence].
    + apply (H7 k1 k2 g1 f); [done|done|done|congruence].
  - intros k1 k2 g1 g2 q Hk1 Hk2 Hg1 Hg2.
    apply list_lookup_insert_Some in Hk1 as [(-> & <- & _)|[Hn1 Hk1]]; apply list_lookup_insert_Some in Hk2 as [(-> & <- & _)|[Hn2 Hk2]]; [done| | |by eapply H8].
    + exfalso. destruct Hown' as [Ho|Ho]; [congruence|]. eapply Hrest; [|exact Hk2|exact Hg2|congruence]. done.
    + exfalso. destruct Hown' as [Ho|Ho]; [congruence|]. eapply Hrest; [|exact Hk1|exact Hg1|congruence]. done.
  - intros q b Hq Hb. apply list_lookup_insert_Some in Hq as [(-> & <- & _)|[Hne Hq]].
    + exists i, f'. rewrite list_lookup_insert_eq by done. split; [done|]. destruct Hnew as [[Hm _]|[_ Hu]]; [by apply active_own|congruence].
    + destruct (H9 q b Hq Hb) as (j & g & Hj & Hg). destruct (decide (j = i)) as [->|Hji].
      * exfalso. rewrite Hi in Hj. injection Hj as <-. destruct Hown as [Ho|Ho]; congruence.
      * exists j, g. by rewrite list_lookup_insert_ne.
Qed.

(** A free buffer, when an entry has none: each buffer in use has an entry of its own. *)
Lemma owned_short t i f : t !! i = Some f -> own f = None -> (length (owned t) < length t)%nat.
Proof.
  intros Hi Hf. apply list_elem_of_split_length in Hi as (l1 & l2 & -> & _). unfold owned. rewrite omap_app, !length_app. cbn. rewrite Hf.
  assert (H : forall t, (length (omap own t) <= length t)%nat) by (intros t; induction t as [|x t IH]; [done|cbn; destruct (own x); cbn; lia]).
  pose proof (H l1). pose proof (H l2). lia.
Qed.
Lemma free_buffer s i f : table_ok l s -> ftab s !! i = Some f -> own f = None -> exists k b, dnsMsgBuf s !! k = Some b /\ b_usedflag b = false.
Proof.
  intros Hok Hi Hf. destruct (decide (Exists (fun b => b_usedflag b = false) (dnsMsgBuf s))) as [Hex|Hall].
  - apply Exists_exists in Hex as (b & Hb & Hu). apply list_elem_of_lookup in Hb as [k Hk]. by exists k, b.
  - exfalso. assert (Hsub : seq 0 FTABSIZ ⊆+ owned (ftab s)).
    { apply NoDup_submseteq; [apply NoDup_seq|]. intros k Hk. apply elem_of_seq in Hk. destruct (lookup_lt_is_Some_2 (dnsMsgBuf s) k) as [b Hb]; [rewrite (tk_bufs _ _ Hok); lia|].
      destruct (tk_used _ _ Hok k b Hb) as (j & g & Hj & Hg).
      - destruct (b_usedflag b) eqn:Hu; [done|]. exfalso. apply Hall, Exists_exists. exists b. split; [by eapply list_elem_of_lookup_2|done].
      - apply list_elem_of_omap. exists g. split; [by eapply list_elem_of_lookup_2|done]. }
    apply submseteq_length in Hsub. rewrite length_seq in Hsub. pose proof (owned_short _ _ _ Hi Hf). rewrite (tk_length _ _ Hok) in *. lia.
Qed.
End buffers.

Section operations.
Context `{E : DnsEnv}.
Context (l : list (nat * server)).
Implicit Types s : dns.

(** What the search for a buffer finds, with the place where the next one begins. *)
Definition took (s : dns) (r : option nat) (s' : dns) : Prop :=
  exists i, 0 <= i < 150 /\ match r with
  | None => s' = set_buf_i i s
  | Some k => exists b, dnsMsgBuf s !! k = Some b /\ b_usedflag b = false
      /\ s' = set_bufs (<[k := set_usedflag true b]> (dnsMsgBuf s)) (set_buf_i i s)
  end.
(** One turn of the loop. *)
Lemma buf_step fuel ii s b : length (dnsMsgBuf s) = FTABSIZ -> 0 <= d_buf_i s -> d_buf_i s <> ii ->
  dnsMsgBuf s !! Z.to_nat (Z.rem (d_buf_i s) 150) = Some b ->
  buf_loop (S fuel) ii s = if b_usedflag b then buf_loop fuel ii (set_buf_i (Z.rem (d_buf_i s) 150 + 1) s)
    else Ok (Some (Z.to_nat (Z.rem (d_buf_i s) 150))) (set_bufs (<[Z.to_nat (Z.rem (d_buf_i s) 150) := set_usedflag true b]> (dnsMsgBuf s)) (set_buf_i (Z.rem (d_buf_i s) 150) s)).
Proof.
  intros Hlen Hi Hne Hb. cbn [buf_loop]. eapply run_bind; [apply gets_run|]. rewrite (proj2 (Z.eqb_neq _ _) Hne). cbv zeta.
  change DNS_MSG_BUF_NUM with 150. eapply run_bind; [reflexivity|].
  eapply (run_bind (buf_at _)); [unfold buf_at; eapply run_bind; [apply gets_run|]; cbn; by rewrite Hb|]. destruct (b_usedflag b); cbn [negb].
  - eapply run_bind; [reflexivity|]. reflexivity.
  - eapply run_bind; [|reflexivity]. unfold change_buf, buf_at. eapply run_bind; [eapply run_bind; [apply gets_run|]; cbn; by rewrite Hb|]. eapply run_bind; [apply gets_run|]. reflexivity.
Qed.
Lemma buf_of_index s i : length (dnsMsgBuf s) = FTABSIZ -> 0 <= i -> exists b, dnsMsgBuf s !! Z.to_nat (Z.rem i 150) = Some b.
Proof. intros Hlen Hi. apply lookup_lt_is_Some_2. rewrite Hlen. pose proof (Z.rem_bound_pos i 150). unfold FTABSIZ. lia. Qed.
Lemma took_calls s i r s' : took (set_buf_i i s) r s' -> took s r s'.
Proof. intros (k & Hk & H). by exists k. Qed.
(** Up to the place where the search began, after the end of the array. *)
Lemma buf_before ii fuel : forall s, length (dnsMsgBuf s) = FTABSIZ -> 0 <= d_buf_i s <= ii -> ii < 150 -> ii - d_buf_i s < Z.of_nat fuel ->
  exists r s', buf_loop fuel ii s = Ok r s' /\ took s r s'.
Proof.
  induction fuel as [|fuel IH]; intros s Hlen Hi Hii Hf; [lia|]. destruct (decide (d_buf_i s = ii)) as [Heq|Hne].
  - exists None, s. split; [cbn [buf_loop]; eapply run_bind; [apply gets_run|]; by rewrite (proj2 (Z.eqb_eq _ _) Heq)|].
    exists (d_buf_i s). split; [lia|by destruct s].
  - destruct (buf_of_index s (d_buf_i s) Hlen) as [b Hb]; [lia|]. rewrite (buf_step fuel ii s b Hlen) by (done || lia). rewrite Z.rem_small in * by lia.
    destruct (b_usedflag b) eqn:Hu.
    + destruct (IH (set_buf_i (d_buf_i s + 1) s)) as (r & s' & Hrun & Ht); [done|cbn; lia|done|cbn; lia|]. exists r, s'. split; [done|]. by eapply took_calls.
    + eexists _, _. split; [reflexivity|]. exists (d_buf_i s). split; [lia|]. by exists b.
Qed.
(** From there to the end of the array. *)
Lemma buf_after ii n : forall s fuel, length (dnsMsgBuf s) = FTABSIZ -> 0 <= ii < d_buf_i s -> d_buf_i s = 150 - Z.of_nat n -> (n + Z.to_nat ii + 1 < fuel)%nat ->
  (ii = 0 -> exists k b, (k = O \/ d_buf_i s <= Z.of_nat k) /\ dnsMsgBuf s !! k = Some b /\ b_usedflag b = false) ->
  exists r s', buf_loop fuel ii s = Ok r s' /\ took s r s'.
Proof.
  induction n as [|n IH]; intros s [|fuel] Hlen Hi Hn Hf Hfree; try lia; (destruct (buf_of_index s (d_buf_i s) Hlen) as [b Hb]; [lia|]);
    rewrite (buf_step fuel ii s b Hlen) by (done || lia).
  - rewrite Hn in *. change (Z.rem (150 - Z.of_nat 0) 150) with 0 in *. destruct (b_usedflag b) eqn:Hu.
    + destruct (decide (ii = 0)) as [->|Hii].
      * exfalso. destruct Hfree as (k & b' & [-> | Hk] & Hb' & Hu'); [done|change (Z.to_nat 0) with 0%nat in *; congruence|].
        apply lookup_lt_Some in Hb'. rewrite Hlen in Hb'. unfold FTABSIZ in Hb'. lia.
      * destruct (buf_before ii fuel (set_buf_i (0 + 1) s)) as (r & s' & Hrun & Ht); [done|cbn; lia|lia|cbn; lia|]. exists r, s'. split; [done|]. by eapply took_calls.
    + eexists _, _. split; [reflexivity|]. exists 0. split; [lia|]. by exists b.
  - rewrite Z.rem_small in * by lia. destruct (b_usedflag b) eqn:Hu.
    + destruct (IH (set_buf_i (d_buf_i s + 1) s) fuel) as (r & s' & Hrun & Ht); [done|cbn; lia|cbn; lia|lia| |].
      * intros ->. destruct Hfree as (k & b' & Hk & Hb' & Hu'); [done|]. exists k, b'. split; [|done]. destruct Hk as [->|Hk]; [by left|]. right. cbn.
        enough (k <> Z.to_nat (d_buf_i s)) by lia. intros ->. congruence.
      * exists r, s'. split; [done|]. by eapply took_calls.
    + eexists _, _. split; [reflexivity|]. exists (d_buf_i s). split; [lia|]. by exists b.
Qed.
Lemma get_dns_msg_buf_run s : length (dnsMsgBuf s) = FTABSIZ -> 0 <= d_buf_i s < 150 -> (exists k b, dnsMsgBuf s !! k = Some b /\ b_usedflag b = false) ->
  exists r s', get_dns_msg_buf s = Ok r s' /\ took s r s'.
Proof.
  intros Hlen Hi (k & b & Hb & Hu). destruct (buf_after (d_buf_i s) (Z.to_nat (149 - d_buf_i s)) (set_buf_i (d_buf_i s + 1) s) (FTABSIZ + 1)) as (r & s' & Hrun & Ht);
    [done|cbn; lia|cbn; lia|unfold FTABSIZ; lia| |].
  - intros H0. exists k, b. split; [|done]. cbn. rewrite H0. destruct k; [by left|right; lia].
  - exists r, s'. split; [|by eapply took_calls]. unfold get_dns_msg_buf. eapply run_bind; [apply gets_run|]. eapply run_bind; [reflexivity|]. exact Hrun.
Qed.

(** ** Access to the table *)

Lemma frec_at_run s i f : ftab s !! i = Some f -> frec_at i s = Ok f s.
Proof. intros H. unfold frec_at. eapply run_bind; [apply gets_run|]. by rewrite H. Qed.
Lemma change_frec_run s i f g : ftab s !! i = Some f -> change_frec i g s = Ok tt (set_ftab (<[i := g f]> (ftab s)) s).
Proof. intros H. unfold change_frec. eapply run_bind; [by apply frec_at_run|]. eapply run_bind; [apply gets_run|]. reflexivity. Qed.
Lemma buf_at_run s k b : dnsMsgBuf s !! k = Some b -> buf_at k s = Ok b s.
Proof. intros H. unfold buf_at. eapply run_bind; [apply gets_run|]. by rewrite H. Qed.
Lemma change_buf_run s k b g : dnsMsgBuf s !! k = Some b -> change_buf k g s = Ok tt (set_bufs (<[k := g b]> (dnsMsgBuf s)) s).
Proof. intros H. unfold change_buf. eapply run_bind; [by apply buf_at_run|]. eapply run_bind; [apply gets_run|]. reflexivity. Qed.

(** Nothing but the table and the buffers. *)
Definition only_table (s s' : dns) : Prop := s' = set_ftab (ftab s') (set_bufs (dnsMsgBuf s') (set_buf_i (d_buf_i s') s)).
Lemma only_table_refl s : only_table s s.
Proof. by destruct s. Qed.

(** An entry without a buffer gets one, when there is one, for the rest of the circle. *)
Lemma back_up_run s i f p first plen orig_id : table_ok l s -> bufs_ok s -> ftab s !! i = Some f -> active f -> p ∈ l.*1 -> first ∈ l.*1 -> 0 <= plen <= PACKETSZ ->
  exists s' bp, back_up i plen (Some first) (Some p) (head_ptr l) orig_id s = Ok tt s' /\ table_ok l s' /\ only_table s s'
    /\ ftab s' = <[i := set_msg_buf bp f]> (ftab s).
Proof.
  intros Hok Hb Hi Ha Hp Hfirst Hplen. destruct (tk_entries _ _ Hok i f Hi Ha) as [Hid Hdata (bp & Hbp & Hj)].
  assert (Hbuf : buf_of f s = Ok bp s) by (unfold buf_of; by rewrite Hbp). unfold PACKETSZ in Hplen.
  destruct bp as [k|].
  { exists s, (Some k). split; [|split; [done|split; [apply only_table_refl|]]].
    - unfold back_up. eapply run_bind; [by apply frec_at_run|]. eapply run_bind; [exact Hbuf|]. reflexivity.
    - rewrite list_insert_id; [done|]. rewrite Hi. f_equal. destruct f; cbn in *. by rewrite Hbp. }
  assert (Hown : own f = None) by (unfold own; rewrite Hbp; by destruct (f_new_id f =? 0)).
  destruct (get_dns_msg_buf_run s) as (r & s1 & Hrun & (n & Hn & Ht)); [apply Hok|apply Hok|by eapply free_buffer|].
  assert (Hft1 : ftab s1 = ftab s) by (destruct r; [destruct Ht as (b & _ & _ & ->)|subst s1]; done).
  set (s2 := set_ftab (<[i := set_msg_buf r f]> (ftab s1)) s1).
  assert (Hrun2 : change_frec i (set_msg_buf r) s1 = Ok tt s2) by (apply change_frec_run; by rewrite Hft1).
  destruct r as [k|].
  2: { subst s1. exists s2, None. split; [unfold back_up; eapply run_bind; [by apply frec_at_run|]; eapply run_bind; [exact Hbuf|]; cbv iota;
         eapply run_bind; [exact Hrun|]; eapply run_bind; [exact Hrun2|]; reflexivity|].
       split; [|split; [done|done]]. apply (change_entry l (set_buf_i n s) i f); [|done| | |].
       - destruct Hok. split; done.
       - intros _. split; [done|done|]. by exists None.
       - unfold own. cbn. rewrite Hbp. done.
       - intros _ q g Hq Hg Heq. apply Hq. eapply (tk_ids _ _ Hok q i g f); [done|done| |done]. unfold active in *. cbn in Heq. congruence. }
  destruct Ht as (b & Hk & Hu & ->). assert (Hklt := lookup_lt_Some _ _ _ Hk). rewrite (tk_bufs _ _ Hok) in Hklt.
  assert (Hpl := Hp). apply list_elem_of_fmap in Hpl as ([p' sv] & -> & Hin). cbn [fst] in *. destruct (rot_at l p' sv Hin) as [r Hrot].
  pose proof (rot_next l p' sv r s2 (tk_servers _ _ Hok) Hrot) as Hnext.
  destruct (head_ptr (r ++ [(p', sv)])) as [nx|] eqn:Hnx; [|by destruct r as [|[]]].
  assert (Hnxl : nx ∈ l.*1).
  { pose proof (rot_perm _ _ (rot_step _ _ _ Hrot)) as Hpm. rewrite <- Hpm. destruct (r ++ [(p', sv)]) as [|[]]; [done|]. injection Hnx as <-. by left. }
  assert (Hb2 : bufs_ok s2) by (destruct Hb; by split).
  destruct (peeks_bytes plen 0 s2 Hb2) as (query & Hq & _ & Hql); [lia|lia|rewrite buffer_1547; lia|].
  assert (Hk2 : dnsMsgBuf s2 !! k = Some (set_usedflag true b)) by (cbn; by rewrite list_lookup_insert_eq by (rewrite (tk_bufs _ _ Hok); done)).
  assert (Hhl : length (b_header b) = BUFFER).
  { pose proof (tk_headers _ _ Hok) as Hh. rewrite Forall_lookup in Hh. by apply (Hh k). }
  set (h1 := list_inserts 0 query (b_header b)).
  assert (Hs1 : store query (b_header (set_usedflag true b)) 0 = Some h1) by (apply store_ok; cbn; [lia|rewrite Hhl, buffer_1547; lia]).
  assert (Hl1 : length h1 = BUFFER) by (subst h1; by rewrite length_inserts).
  set (h2 := list_inserts 0 (be16 orig_id) h1).
  assert (Hs2 : store (be16 orig_id) h1 0 = Some h2) by (apply store_ok; [lia|rewrite Hl1, buffer_1547; cbn; lia]).
  set (b' := MsgBuf (head_ptr l) (Some first) (Some nx) plen h2 true).
  exists (set_ftab (<[i := set_msg_buf (Some k) f]> (ftab s)) (set_bufs (<[k := b']> (dnsMsgBuf s)) (set_buf_i n s))), (Some k).
  split; [|split; [|split; [done|done]]].
  - unfold back_up. eapply run_bind; [by apply frec_at_run|]. eapply run_bind; [exact Hbuf|]. cbv iota. eapply run_bind; [exact Hrun|].
    eapply run_bind; [exact Hrun2|]. eapply run_bind; [exact Hnext|]. eapply run_bind; [exact Hq|]. eapply run_bind; [by apply buf_at_run|].
    eapply run_bind; [by rewrite Hs1|]. eapply run_bind; [by rewrite Hs2|]. rewrite (change_buf_run _ _ _ _ Hk2). cbn [dnsMsgBuf set_ftab set_bufs s2]. 
    rewrite list_insert_insert_eq. reflexivity.
  - assert (Hok' : table_ok l (set_buf_i n s)) by (destruct Hok; split; done).
    apply (change_owned l (set_buf_i n s) i f); [done|done|done|done|done| |done| |by left|left; split; [done|]].
    + intros j g Hji Hg Hgk. destruct (owner_fine l s j g k Hok Hg Hgk) as (b0 & Hb0 & [_ _ _ _ Hbu]). congruence.
    + change (length h2 = BUFFER). subst h2. by rewrite length_inserts.
    + split; cbn; [done|by exists first|by exists nx|unfold PACKETSZ; lia|done].
Qed.

(** ** Sending *)

(** What forwarding leaves alone. *)
Record same_rest (s s' : dns) : Prop := SameRest {
  sr_packet : d_packet s' = d_packet s;
  sr_name : d_name s' = d_name s;
  sr_cache : d_cache s' = d_cache s;
  sr_heap : d_heap s' = d_heap s
}.
Lemma same_rest_refl s : same_rest s s.
Proof. by split. Qed.
Lemma same_rest_trans s s' s'' : same_rest s s' -> same_rest s' s'' -> same_rest s s''.
Proof. intros [] []. split; congruence. Qed.
Lemma same_rest_msg s s' : same_rest s s' -> msg_ok s -> msg_ok s'.
Proof. intros [E1 E2 E3 _] [[] Hc]. split; [split; by rewrite ?E1, ?E2|by rewrite E3]. Qed.
Lemma only_table_rest s s' : only_table s s' -> same_rest s s' /\ d_out s' = d_out s /\ d_calls s' = d_calls s.
Proof. intros ->. by repeat split. Qed.

Definition sends : Prop := forall n, denv_sendto n = true.
Lemma sendto_run o s : sends -> sendto o s = Ok true (set_out (d_out s ++ [o]) (set_calls (S (d_calls s)) s)).
Proof.
  intros Hs. unfold sendto. eapply (run_bind (dsys denv_sendto)); [reflexivity|]. rewrite (Hs (d_calls s)). cbn [when].
  eapply run_bind; [|reflexivity]. reflexivity.
Qed.
Lemma sent_ok o s : table_ok l s -> table_ok l (set_out (d_out s ++ [o]) (set_calls (S (d_calls s)) s)).
Proof. apply same_table_ok. by split. Qed.
(** Another server for an entry. *)
Definition resent (p : nat) (d : frec_data) (f : frec) : frec := set_data (set_sentto (Some p) d) f.
Lemma resent_ok s i f d p : table_ok l s -> ftab s !! i = Some f -> active f -> f_data f = Some d -> p ∈ l.*1 ->
  table_ok l (set_ftab (<[i := resent p d f]> (ftab s)) s).
Proof.
  intros Hok Hi Ha Hd Hp. destruct (tk_entries _ _ Hok i f Hi Ha) as [Hid _ Hb]. apply (change_entry l s i f); [done|done| |done|].
  - intros _. split; [done| |done]. by exists (set_sentto (Some p) d), p.
  - intros _ q g Hq Hg Heq. apply Hq. eapply (tk_ids _ _ Hok q i g f); [done|done| |done]. unfold active in *. cbn in Heq. congruence.
Qed.
Lemma data_of_run f d s : f_data f = Some d -> data_of f s = Ok d s.
Proof. intros H. unfold data_of. by rewrite H. Qed.
Lemma head_in r x : head_ptr r = Some x -> x ∈ r.*1.
Proof. destruct r as [|[]]; [done|]. intros [= ->]. by left. Qed.

Lemma send_loop_run plen domain first i p sv : sends -> 0 <= plen <= PACKETSZ -> serves domain sv = true -> first ∈ l.*1 ->
  forall skipped more fuel s f d, table_ok l s -> bufs_ok s -> rot l (skipped ++ (p, sv) :: more) ->
  ftab s !! i = Some f -> active f -> f_data f = Some d -> f_sentto d = head_ptr (skipped ++ (p, sv) :: more) ->
  Forall (fun x => serves domain x.2 = false) skipped -> first ∉ (tail (skipped ++ [(p, sv)])).*1 -> (length skipped < fuel)%nat ->
  exists s' bp, send_loop fuel i plen domain (Some first) (head_ptr l) s = Ok true s' /\ table_ok l s' /\ same_rest s s'
    /\ ftab s' = <[i := set_msg_buf bp (resent p d f)]> (ftab s) /\ d_out s' = d_out s ++ [To_server (take (Z.to_nat plen) (d_packet s)) (s_addr sv)].
Proof.
  intros Hsend Hplen Hserves Hfirst. unfold PACKETSZ in Hplen. induction skipped as [|[q sq] skipped IH];
    intros more [|fuel] s f d Hok Hb Hrot Hi Ha Hd Hto Hskip Hnf Hf; cbn [length] in Hf; try lia; cbn [send_loop]; cbn [app] in *.
  - assert (Hp : p ∈ l.*1) by (rewrite <- (rot_perm _ _ Hrot); by left).
    assert (Hsv := rot_server _ _ _ _ _ (tk_servers _ _ Hok) Hrot). cbn in Hto.
    set (query := take (Z.to_nat plen) (d_packet s)).
    assert (Hpk : peeks plen 0 s = Ok query s).
    { rewrite peeks_run; [done|lia|lia|]. rewrite (bo_packet _ Hb), buffer_1547. lia. }
    set (s1 := set_out (d_out s ++ [To_server query (s_addr sv)]) (set_calls (S (d_calls s)) s)).
    assert (Hb1 : bufs_ok s1) by (destruct Hb; by split).
    destruct (back_up_run s1 i f p first plen (f_orig_id d)) as (s2 & bp & Hrun & Hok2 & Ho & Hft); [by apply sent_ok|done|done|done|done|done|unfold PACKETSZ; lia|].
    destruct (only_table_rest _ _ Ho) as (Hrest & Hout & _). exists s2, bp. split; [|split; [done|split; [|split; [|done]]]].
    + eapply run_bind; [by apply frec_at_run|]. eapply run_bind; [by apply data_of_run|]. eapply run_bind; [rewrite Hto; by apply srv_run|].
      rewrite Hserves. eapply run_bind; [eapply run_bind; [exact Hpk|]; by apply sendto_run|]. cbv iota. rewrite Hto. eapply run_bind; [exact Hrun|]. reflexivity.
    + eapply same_rest_trans; [|exact Hrest]. by split.
    + rewrite Hft. cbn. f_equal. unfold resent. destruct f, d; cbn in *. by rewrite Hd, Hto.
  - apply Forall_cons in Hskip as [Hq Hskip]. cbn in Hq. cbn in Hto. assert (Hsq := rot_server _ _ _ _ _ (tk_servers _ _ Hok) Hrot).
    pose proof (rot_next _ _ _ _ s (tk_servers _ _ Hok) Hrot) as Hnext. rewrite <- app_assoc in Hnext. cbn [app] in Hnext.
    apply rot_step in Hrot. rewrite <- app_assoc in Hrot. cbn [app] in Hrot.
    destruct (head_ptr (skipped ++ (p, sv) :: more ++ [(q, sq)])) as [nx|] eqn:Hnx; [|by destruct skipped as [|[]]].
    assert (Hnxl : nx ∈ l.*1) by (rewrite <- (rot_perm _ _ Hrot); by apply head_in).
    assert (Hne : bool_decide (Some nx = Some first) = false).
    { apply bool_decide_eq_false. intros [= ->]. apply Hnf. cbn. apply (head_in (skipped ++ [(p, sv)])). by destruct skipped as [|[]]. }
    set (s1 := set_ftab (<[i := resent nx d f]> (ftab s)) s).
    assert (Hi1 : ftab s1 !! i = Some (resent nx d f)) by (cbn; apply list_lookup_insert_eq; by eapply lookup_lt_Some).
    destruct (IH (more ++ [(q, sq)]) fuel s1 (resent nx d f) (set_sentto (Some nx) d)) as (s2 & bp & Hrun & Hok2 & Hrest & Hft & Hout);
      [by apply resent_ok|destruct Hb; by split|exact Hrot|exact Hi1|done|done|by rewrite Hnx|done| |lia|].
    { intros Hin. apply Hnf. cbn. destruct skipped as [|x skipped]; cbn in *; [by apply elem_of_nil in Hin|by right]. }
    exists s2, bp. split; [|split; [done|split; [|split; [|done]]]].
    + eapply run_bind; [by apply frec_at_run|]. eapply run_bind; [by apply data_of_run|]. eapply run_bind; [rewrite Hto; by apply srv_run|].
      rewrite Hq. eapply run_bind; [reflexivity|]. cbv iota. rewrite Hto. eapply run_bind; [exact Hnext|]. eapply run_bind; [by apply change_frec_run|].
      rewrite Hne. exact Hrun.
    + eapply same_rest_trans; [|exact Hrest]. by split.
    + rewrite Hft. cbn. by rewrite list_insert_insert_eq.
Qed.
(** The first server of the circle for a domain. *)
Lemma first_serving domain (r : list (nat * server)) : Exists (fun x => serves domain x.2 = true) r ->
  exists skipped p sv more, r = skipped ++ (p, sv) :: more /\ serves domain sv = true /\ Forall (fun x => serves domain x.2 = false) skipped.
Proof.
  induction r as [|[q sq] r IH]; intros Hex; [by apply Exists_nil in Hex|]. destruct (serves domain sq) eqn:Hs.
  - by exists [], q, sq, r.
  - apply Exists_cons in Hex as [Hex|Hex]; [cbn in Hex; congruence|]. destruct (IH Hex) as (skipped & p & sv & more & -> & H1 & H2).
    exists ((q, sq) :: skipped), p, sv, more. split; [done|]. split; [done|by constructor].
Qed.
Lemma send_run plen domain i s f d : sends -> 0 <= plen <= PACKETSZ -> table_ok l s -> bufs_ok s -> Exists (fun x => serves domain x.2 = true) l ->
  ftab s !! i = Some f -> active f -> f_data f = Some d ->
  exists s' p sv bp, send_loop (size (d_heap s) + 1) i plen domain (f_sentto d) (head_ptr l) s = Ok true s' /\ table_ok l s' /\ same_rest s s'
    /\ (p, sv) ∈ l /\ serves domain sv = true
    /\ ftab s' = <[i := set_msg_buf bp (resent p d f)]> (ftab s) /\ d_out s' = d_out s ++ [To_server (take (Z.to_nat plen) (d_packet s)) (s_addr sv)].
Proof.
  intros Hsend Hplen Hok Hb Hex Hi Ha Hd. destruct (tk_entries _ _ Hok i f Hi Ha) as [_ (d' & first & Hd' & Hto & Hfirst) _].
  rewrite Hd in Hd'. injection Hd' as <-. assert (Hf := Hfirst). apply list_elem_of_fmap in Hf as ([first' sf] & -> & Hin). cbn [fst] in *.
  destruct (rot_at _ _ _ Hin) as [r Hrot]. assert (Hex' : Exists (fun x => serves domain x.2 = true) ((first', sf) :: r)) by (by rewrite (rot_perm _ _ Hrot)).
  destruct (first_serving _ _ Hex') as (skipped & p & sv & more & Er & Hserves & Hskip). pose proof (so_nodup _ _ (tk_servers _ _ Hok)) as Hnd.
  rewrite <- (rot_perm _ _ Hrot) in Hnd. rewrite Er in *.
  destruct (send_loop_run plen domain first' i p sv Hsend Hplen Hserves Hfirst skipped more (size (d_heap s) + 1) s f d) as (s' & bp & Hrun & Hok' & Hrest & Hft & Hout);
    [done|done|done|done|done|done| |done| | |].
  - rewrite Hto. by rewrite <- Er.
  - destruct skipped as [|[q sq] skipped]; cbn in *; [by intros Hn%elem_of_nil|]. injection Er as <- <- _. apply NoDup_cons in Hnd as [Hn _].
    intros Hin'. apply Hn. rewrite fmap_app in *. cbn in *. apply elem_of_app. apply elem_of_app in Hin' as [H|H%list_elem_of_singleton]; [by left|subst; right; by left].
  - destruct (tk_servers _ _ Hok) as [Hc Hn]. pose proof (chain_size _ _ Hc Hn) as Hs. rewrite <- (rot_perm _ _ Hrot), length_app in Hs. cbn in Hs. lia.
  - exists s', p, sv, bp. rewrite Hto. split; [done|]. split; [done|]. split; [done|]. split; [|by split].
    rewrite <- (rot_perm _ _ Hrot). apply elem_of_app. right. by left.
Qed.

(** ** A new entry *)

(** The free entry that comes first, or the oldest when all are in use. *)
Definition fresh_entry (now : Z) (t : list frec) (f f' : frec) : Prop :=
  (f_new_id f = 0 /\ f' = set_msg_buf None (set_time now f)) \/ (Forall active t /\ f' = set_time now f).
Lemma new_frec_run now t : forall pre s oldest oldtime, ftab s = pre ++ t -> (oldest < length (ftab s))%nat ->
  exists i f f', new_frec_loop t (length pre) oldest oldtime now s = Ok i (set_ftab (<[i := f']> (ftab s)) s) /\ ftab s !! i = Some f /\ fresh_entry now t f f'.
Proof.
  induction t as [|f t IH]; intros pre s oldest oldtime Hft Hold; cbn [new_frec_loop].
  - destruct (lookup_lt_is_Some_2 _ _ Hold) as [f Hf]. exists oldest, f, (set_time now f).
    split; [eapply run_bind; [by apply change_frec_run|]; reflexivity|]. split; [done|]. right. by split.
  - assert (Hi : ftab s !! length pre = Some f) by (rewrite Hft, lookup_app_r, Nat.sub_diag; done).
    destruct (if f_time f <=? oldtime then (length pre, f_time f) else (oldest, oldtime)) as [oldest' oldtime'] eqn:Ho.
    assert (Hold' : (oldest' < length (ftab s))%nat) by (destruct (f_time f <=? oldtime); injection Ho as <- _; [rewrite Hft, length_app; cbn; lia|done]).
    destruct (Z.eqb_spec (f_new_id f) 0) as [H0|Hne].
    + exists (length pre), f, (set_msg_buf None (set_time now f)). split; [|split; [done|by left]].
      eapply run_bind; [by eapply change_frec_run|]. reflexivity.
    + destruct (IH (pre ++ [f]) s oldest' oldtime') as (i & g & g' & Hrun & Hg & Hfresh); [by rewrite <- app_assoc|done|].
      rewrite length_app in Hrun. cbn [length] in Hrun. rewrite Nat.add_1_r in Hrun. exists i, g, g'. split; [done|]. split; [done|].
      destruct Hfresh as [H|[H1 H2]]; [by left|right]. split; [by constructor|done].
Qed.
Lemma get_new_frec_run now s : table_ok l s ->
  exists i f f', get_new_frec now s = Ok i (set_ftab (<[i := f']> (ftab s)) s) /\ ftab s !! i = Some f /\ fresh_entry now (ftab s) f f'.
Proof.
  intros Hok. destruct (new_frec_run now (ftab s) [] s 0 now) as (i & f & f' & Hrun & H); [done|rewrite (tk_length _ _ Hok); unfold FTABSIZ; lia|].
  exists i, f, f'. split; [|done]. unfold get_new_frec. eapply run_bind; [apply gets_run|]. exact Hrun.
Qed.

(** ** Identifiers *)

Lemma find_id_none t id : forall i, find_id t i id = None <-> Forall (fun f => f_new_id f <> id) t.
Proof.
  induction t as [|f t IH]; intros i; cbn [find_id]; [split; [by constructor|done]|]. destruct (Z.eqb_spec (f_new_id f) id) as [He|Hne].
  - split; [done|]. intros H. apply Forall_cons in H as [H _]. done.
  - rewrite Forall_cons, IH. tauto.
Qed.
Lemma find_id_some t id : forall i j, find_id t i id = Some j -> exists f, (i <= j)%nat /\ t !! (j - i)%nat = Some f /\ f_new_id f = id.
Proof.
  induction t as [|f t IH]; intros i j; cbn [find_id]; [done|]. destruct (Z.eqb_spec (f_new_id f) id) as [He|Hne].
  - intros [= ->]. exists f. by rewrite Nat.sub_diag.
  - intros H. destruct (IH _ _ H) as (g & Hij & Hg & Hid). exists g. split; [lia|]. replace (j - i)%nat with (S (j - S i)) by lia. done.
Qed.
Lemma lookup_frec_run id s : lookup_frec id s = Ok (find_id (ftab s) 0 id) s.
Proof. reflexivity. Qed.

(** rand() gives an identifier that is not in use within [id_fuel] calls. *)
Context (id_fuel : nat).
Definition id_of (n : nat) : Z := u16 (Z.shiftr (denv_rand n) 15).
Definition fresh_ids : Prop := forall n (used : list Z), length used = FTABSIZ -> exists k, (k < id_fuel)%nat /\ id_of (n + k) <> 0 /\ id_of (n + k) ∉ used.
Lemma get_id_loop t k : forall fuel s, ftab s = t -> (k < fuel)%nat -> id_of (d_calls s + k) <> 0 -> id_of (d_calls s + k) ∉ f_new_id <$> t ->
  exists n id, get_id fuel s = Ok id (set_calls n s) /\ 0 < id < 65536 /\ Forall (fun f => f_new_id f <> id) t.
Proof.
  induction k as [|k IH]; intros [|fuel] s Ht Hk Hne Hnew; try lia; cbn [get_id].
  all: assert (Hrun : rand16 s = Ok (id_of (d_calls s)) (set_calls (S (d_calls s)) s)) by (unfold rand16; eapply (run_bind (dsys denv_rand)); [reflexivity|]; reflexivity).
  - rewrite Nat.add_0_r in *. exists (S (d_calls s)), (id_of (d_calls s)).
    assert (Hall : Forall (fun f => f_new_id f <> id_of (d_calls s)) t).
    { apply Forall_forall. intros f Hf He. apply Hnew. apply list_elem_of_fmap. by exists f. }
    split; [|split; [|done]].
    + eapply run_bind; [exact Hrun|]. rewrite (proj2 (Z.eqb_neq _ _) Hne). eapply run_bind; [apply lookup_frec_run|].
      cbn [ftab set_calls]. rewrite Ht. by rewrite (proj2 (find_id_none t _ 0%nat) Hall).
    + unfold id_of in *. pose proof (u16_range (Z.shiftr (denv_rand (d_calls s)) 15)). lia.
  - rewrite Nat.add_succ_r in Hne, Hnew. set (s1 := set_calls (S (d_calls s)) s). destruct (IH fuel s1) as (n & id & Hid & H); [done|lia|done|done|].
    destruct ((id_of (d_calls s) =? 0) || bool_decide (is_Some (find_id t 0 (id_of (d_calls s))))) eqn:Hretry.
    + exists n, id. split; [|done]. eapply run_bind; [exact Hrun|]. destruct (id_of (d_calls s) =? 0); [exact Hid|]. cbn in Hretry.
      apply bool_decide_eq_true in Hretry as [j Hj]. eapply run_bind; [apply lookup_frec_run|]. cbn [ftab set_calls]. rewrite Ht, Hj. exact Hid.
    + apply orb_false_iff in Hretry as [H0 Hn]. exists (S (d_calls s)), (id_of (d_calls s)).
      assert (Hnone : find_id t 0 (id_of (d_calls s)) = None) by (apply bool_decide_eq_false in Hn; destruct (find_id t 0 _); [by exfalso; apply Hn|done]).
      split; [|split].
      * eapply run_bind; [exact Hrun|]. rewrite H0. eapply run_bind; [apply lookup_frec_run|]. cbn [ftab set_calls]. by rewrite Ht, Hnone.
      * unfold id_of in *. pose proof (u16_range (Z.shiftr (denv_rand (d_calls s)) 15)). apply Z.eqb_neq in H0. lia.
      * by apply find_id_none in Hnone.
Qed.
Lemma get_id_run s : fresh_ids -> table_ok l s ->
  exists n id, get_id id_fuel s = Ok id (set_calls n s) /\ 0 < id < 65536 /\ Forall (fun f => f_new_id f <> id) (ftab s).
Proof.
  intros Hfresh Hok. destruct (Hfresh (d_calls s) (f_new_id <$> ftab s)) as (k & Hk & H1 & H2); [rewrite length_fmap; apply Hok|].
  by apply (get_id_loop (ftab s) k).
Qed.

(** ** The domain of a query *)

Fixpoint best (servers : list server) (name : list Z) (domain : option (list Z)) (matchlen : nat) : option (list Z) :=
  match servers with
  | [] => domain
  | s :: servers' =>
      match s_domain s with
      | Some d => if ends_with name d && (matchlen <? length d)%nat then best servers' name (Some d) (length d) else best servers' name domain matchlen
      | None => best servers' name domain matchlen
      end
  end.
Lemma match_domain_run name s : forall r fuel domain matchlen, chain (d_heap s) r -> (length r < fuel)%nat ->
  match_domain fuel (head_ptr r) name domain matchlen s = Ok (best r.*2 name domain matchlen) s.
Proof.
  induction r as [|[p sv] r IH]; intros [|fuel] domain matchlen Hc Hf; cbn [length] in Hf; try lia; [done|]. destruct Hc as (Hp & Hn & Hc).
  cbn [match_domain head_ptr]. eapply run_bind; [by apply srv_run|]. rewrite Hn. cbn [fmap list_fmap best snd].
  destruct (s_domain sv) as [d|]; [|apply IH; [done|lia]]. destruct (_ && _); (apply IH; [done|lia]).
Qed.
(** The longest domain that the name ends with. *)
Lemma best_longest name r : forall domain matchlen, matchlen = length (default [] domain) ->
  let d := best r name domain matchlen in
  (d = domain \/ exists sv x, sv ∈ r /\ s_domain sv = Some x /\ d = Some x /\ ends_with name x = true)
  /\ (matchlen <= length (default [] d))%nat
  /\ forall sv x, sv ∈ r -> s_domain sv = Some x -> ends_with name x = true -> (length x <= length (default [] d))%nat.
Proof.
  induction r as [|sv r IH]; intros domain matchlen Hm; cbn [best]; cbv zeta.
  - split; [by left|]. split; [lia|]. by intros sv x Hin%elem_of_nil.
  - destruct (s_domain sv) as [x|] eqn:Hx.
    + destruct (ends_with name x && (matchlen <? length x)%nat) eqn:Hb.
      * apply andb_true_iff in Hb as [He Hl%Nat.ltb_lt]. destruct (IH (Some x) (length x) eq_refl) as (H1 & H2 & H3). split; [|split; [lia|]].
        -- right. destruct H1 as [->|(sv' & x' & Hin & H)]; [exists sv, x; split; [by left|done]|exists sv', x'; split; [by right|done]].
        -- intros sv' x' [-> | Hin]%elem_of_cons Hx' He'; [|by eapply H3]. rewrite Hx in Hx'. injection Hx' as <-. done.
      * destruct (IH domain matchlen Hm) as (H1 & H2 & H3). split; [|split; [done|]].
        -- destruct H1 as [->|(sv' & x' & Hin & H)]; [by left|right; exists sv', x'; split; [by right|done]].
        -- intros sv' x' [-> | Hin]%elem_of_cons Hx' He'; [|by eapply H3]. rewrite Hx in Hx'. injection Hx' as <-. rewrite He' in Hb. apply Nat.ltb_ge in Hb. lia.
    + destruct (IH domain matchlen Hm) as (H1 & H2 & H3). split; [|split; [done|]].
      * destruct H1 as [->|(sv' & x' & Hin & H)]; [by left|right; exists sv', x'; split; [by right|done]].
      * intros sv' x' [-> | Hin]%elem_of_cons Hx' He'; [congruence|by eapply H3].
Qed.

(** ** A query *)

Lemma put_id_run i s : bufs_ok s -> put_id i s = Ok tt (set_packet (be16 i ++ drop 2 (d_packet s)) s).
Proof.
  intros Hb. unfold put_id. eapply run_bind; [apply (put_run [] (be16 i) (take 2 (d_packet s)) (drop 2 (d_packet s)) s)|reflexivity].
  - cbn [app]. by rewrite take_drop.
  - rewrite length_take, (bo_packet _ Hb). reflexivity.
Qed.
Lemma id_packet_ok i s : msg_ok s -> msg_ok (set_packet (be16 i ++ drop 2 (d_packet s)) s).
Proof.
  intros [[B1 B2 B3 B4] Hc]. split; [|done]. split; cbn [d_packet d_name set_packet]; [|by apply Forall_app; split; [apply be16_bytes|apply Forall_drop]|done|done].
  rewrite length_app, length_drop, B1. reflexivity.
Qed.
Lemma head_some p : p ∈ l.*1 -> exists q, head_ptr l = Some q /\ q ∈ l.*1.
Proof. intros Hp. destruct l as [|[q sv] l']; [by apply elem_of_nil in Hp|]. exists q. split; [done|by left]. Qed.
(** The entry of a new query, its server included. *)
Definition asked (udpaddr : sockaddr) (sentto : option nat) (orig : Z) (udpfd : nat) (id : Z) (f : frec) : frec :=
  set_new_id id (set_data (FrecData udpaddr sentto orig udpfd) f).
Lemma fresh_fine now s i f f' : table_ok l s -> ftab s !! i = Some f -> fresh_entry now (ftab s) f f' ->
  exists bp, f_msg_buf f' = Some bp /\ own f = bp /\ forall j, bp = Some j -> exists b, dnsMsgBuf s !! j = Some b /\ buf_fine l b.
Proof.
  intros Hok Hi [[H0 ->]|[Hall ->]].
  - exists None. split; [done|]. split; [unfold own; by rewrite H0|done].
  - rewrite Forall_lookup in Hall. assert (Ha := Hall _ _ Hi). destruct (tk_entries _ _ Hok i f Hi Ha) as [_ _ (bp & Hbp & Hj)].
    exists bp. split; [done|]. split; [|done]. unfold own. rewrite (proj2 (Z.eqb_neq _ _) Ha), Hbp. by destruct bp.
Qed.
Lemma asked_ok now s i f f' udpaddr sentto orig udpfd id p : table_ok l s -> ftab s !! i = Some f -> fresh_entry now (ftab s) f f' ->
  sentto = Some p -> p ∈ l.*1 -> 0 < id < 65536 -> Forall (fun f => f_new_id f <> id) (ftab s) ->
  table_ok l (set_ftab (<[i := asked udpaddr sentto orig udpfd id f']> (ftab s)) s).
Proof.
  intros Hok Hi Hfresh -> Hp Hid Hnew. destruct (fresh_fine _ _ _ _ _ Hok Hi Hfresh) as (bp & Hbp & Hown & Hj).
  apply (change_entry l s i f); [done|done| | |].
  - intros _. split; [done| |].
    + by exists (FrecData udpaddr (Some p) orig udpfd), p.
    + exists bp. split; [exact Hbp|exact Hj].
  - unfold own at 1. cbn. rewrite (proj2 (Z.eqb_neq id 0)) by lia. rewrite Hbp, Hown. by destruct bp.
  - intros _ k g _ Hg. rewrite Forall_lookup in Hnew. by apply (Hnew k).
Qed.
Lemma new_query_run now udpfd udpaddr orig gotname strict q name s : fresh_ids -> table_ok l s -> msg_ok s -> q ∈ l.*1 ->
  (gotname = true -> cut0 (d_name s) = Some name) ->
  exists i f f' n id sentto p, let domain := if gotname then best l.*2 name None 0 else None in
    new_query id_fuel udpfd udpaddr now orig gotname strict (head_ptr l) (Some q) s
      = Ok (i, domain) (set_packet (be16 id ++ drop 2 (d_packet s)) (set_ftab (<[i := asked udpaddr sentto orig udpfd id f']> (ftab s)) (set_calls n s)))
    /\ ftab s !! i = Some f /\ fresh_entry now (ftab s) f f' /\ sentto = Some p /\ p ∈ l.*1 /\ 0 < id < 65536 /\ Forall (fun f => f_new_id f <> id) (ftab s).
Proof.
  intros Hfresh Hok Hmsg Hq Hname. destruct (get_new_frec_run now s Hok) as (i & f & f' & Hrun & Hi & Hf).
  set (s1 := set_ftab (<[i := f']> (ftab s)) s).
  assert (Hidf : f_new_id f' = f_new_id f) by (destruct Hf as [[_ ->]|[_ ->]]; done).
  set (domain := if gotname then best l.*2 name None 0 else None).
  set (sentto := if bool_decide (is_Some domain) || strict then head_ptr l else Some q).
  assert (Hto : exists p, sentto = Some p /\ p ∈ l.*1) by (subst sentto; destruct (_ || _); [by eapply head_some|by exists q]).
  destruct Hto as (p & Hto & Hp).
  destruct (Hfresh (d_calls s) (f_new_id <$> ftab s)) as (k & Hk & H1 & H2); [rewrite length_fmap; apply Hok|].
  assert (Hids : f_new_id <$> ftab s1 = f_new_id <$> ftab s).
  { cbn. rewrite list_fmap_insert, Hidf. apply list_insert_id. by rewrite list_lookup_fmap, Hi. }
  destruct (get_id_loop (ftab s1) k id_fuel s1) as (n & id & Hrun2 & Hid & Hnew); [done|done|done|by rewrite Hids|].
  assert (Hnew' : Forall (fun f => f_new_id f <> id) (ftab s)).
  { change (Forall ((fun x => x <> id) ∘ f_new_id) (ftab s)). apply Forall_fmap. rewrite <- Hids. by apply Forall_fmap. }
  exists i, f, f', n, id, sentto, p. cbv zeta. split; [|by split].
  assert (Hi1 : ftab (set_calls n s1) !! i = Some f') by (cbn; apply list_lookup_insert_eq; by eapply lookup_lt_Some).
  assert (Hdom : (if gotname then name ← name_text; match_domain (size (d_heap s1) + 1) (head_ptr l) name None 0 else mret None) s1 = Ok domain s1).
  { subst domain. destruct gotname; [|done]. eapply run_bind; [unfold name_text; eapply run_bind; [apply gets_run|]; cbn; by rewrite Hname|].
    destruct (tk_servers _ _ Hok) as [Hc Hn]. pose proof (chain_size _ _ Hc Hn). apply match_domain_run; [done|cbn; lia]. }
  unfold new_query. eapply run_bind; [exact Hrun|]. fold s1. eapply run_bind; [apply gets_run|]. eapply run_bind; [exact Hdom|].
  fold sentto. eapply run_bind; [exact Hrun2|]. eapply run_bind; [by apply change_frec_run|].
  set (s2 := set_ftab _ _). assert (Hb2 : bufs_ok s2) by (destruct Hmsg as [[] _]; by split).
  eapply run_bind; [by apply put_id_run|]. subst s2. cbn [ftab set_calls set_ftab s1 d_packet]. rewrite list_insert_insert_eq. reflexivity.
Qed.

(** The query of a sender, when there is one. *)
Definition from (id : Z) (addr : sockaddr) (f : frec) : Prop :=
  active f /\ exists d, f_data f = Some d /\ f_orig_id d = id /\ sockaddr_isequal (f_source d) addr = true.
Lemma find_sender_run id addr s t : (forall f, f ∈ t -> active f -> exists d, f_data f = Some d) -> forall i,
  exists r, find_sender t i id addr s = Ok r s /\ match r with
    | Some j => exists f, (i <= j)%nat /\ t !! (j - i)%nat = Some f /\ from id addr f
    | None => Forall (fun f => ~ from id addr f) t
    end.
Proof.
  induction t as [|f t IH]; intros Hd i; cbn [find_sender]; [exists None; by split; [|constructor]|].
  destruct (IH (fun g Hg => Hd g (list_elem_of_further _ _ _ Hg)) (S i)) as (r & Hrun & Hr).
  assert (Hgo : ~ from id addr f -> match r with
    | Some j => exists f0, (i <= j)%nat /\ (f :: t) !! (j - i)%nat = Some f0 /\ from id addr f0
    | None => Forall (fun f => ~ from id addr f) (f :: t) end).
  { intros Hn. destruct r as [j|]; [|by constructor]. destruct Hr as (g & Hj & Hg & Hfrom). exists g. split; [lia|]. split; [|done].
    replace (j - i)%nat with (S (j - S i)) by lia. done. }
  destruct (Z.eqb_spec (f_new_id f) 0) as [H0|Hne].
  - exists r. split; [done|]. apply Hgo. by intros [Ha _].
  - destruct (Hd f (list_elem_of_here _ _) Hne) as [d Hdata].
    destruct ((f_orig_id d =? id) && sockaddr_isequal (f_source d) addr) eqn:Hm.
    + exists (Some i). split; [eapply run_bind; [by apply data_of_run|]; by rewrite Hm|]. exists f. rewrite Nat.sub_diag. split; [lia|]. split; [done|].
      apply andb_true_iff in Hm as [Hi%Z.eqb_eq Ha]. split; [done|]. by exists d.
    + exists r. split; [eapply run_bind; [by apply data_of_run|]; by rewrite Hm|]. apply Hgo. intros (_ & d' & Hd' & Hi & Ha). rewrite Hdata in Hd'. injection Hd' as <-.
      by rewrite Hi, Z.eqb_refl, Ha in Hm.
Qed.
Lemma lookup_sender_run id addr s : table_ok l s -> exists r, lookup_frec_by_sender id addr s = Ok r s /\ match r with
    | Some j => exists f, ftab s !! j = Some f /\ from id addr f
    | None => Forall (fun f => ~ from id addr f) (ftab s)
    end.
Proof.
  intros Hok. destruct (find_sender_run id addr s (ftab s)) with (i := 0%nat) as (r & Hrun & Hr).
  - intros f Hf Ha. apply list_elem_of_lookup in Hf as [i Hi]. destruct (tk_entries _ _ Hok i f Hi Ha) as [_ (d & _ & Hd & _) _]. by exists d.
  - exists r. split; [unfold lookup_frec_by_sender; eapply run_bind; [apply gets_run|]; exact Hrun|].
    destruct r as [j|]; [|done]. destruct Hr as (f & _ & Hf & Hfrom). rewrite Nat.sub_0_r in Hf. by exists f.
Qed.
(** A query that is asked again goes on to the next server. *)
Lemma retry_run i f s : table_ok l s -> msg_ok s -> ftab s !! i = Some f -> active f ->
  exists d p sv s', retry i (head_ptr l) s = Ok (s_domain sv) s' /\ f_data f = Some d /\ table_ok l s' /\ msg_ok s'
    /\ (exists q, (q, sv) ∈ l) /\ p ∈ l.*1 /\ ftab s' = <[i := resent p d f]> (ftab s)
    /\ d_packet s' = be16 (f_new_id f) ++ drop 2 (d_packet s) /\ d_out s' = d_out s /\ d_heap s' = d_heap s.
Proof.
  intros Hok Hmsg Hi Ha. destruct (tk_entries _ _ Hok i f Hi Ha) as [_ (d & q & Hd & Hto & Hq) _].
  assert (Hq' := Hq). apply list_elem_of_fmap in Hq' as ([q' sv] & -> & Hin). cbn [fst] in *. destruct (rot_at _ _ _ Hin) as [r Hrot].
  pose proof (rot_server _ _ _ _ _ (tk_servers _ _ Hok) Hrot) as Hsv. pose proof (rot_next _ _ _ _ s (tk_servers _ _ Hok) Hrot) as Hnext.
  destruct (head_ptr (r ++ [(q', sv)])) as [p|] eqn:Hp; [|by destruct r as [|[]]].
  assert (Hpl : p ∈ l.*1) by (rewrite <- (rot_perm _ _ (rot_step _ _ _ Hrot)); by apply head_in).
  set (s1 := set_ftab (<[i := resent p d f]> (ftab s)) s). assert (Hmsg1 : msg_ok s1) by (by apply (same_rest_msg s)).
  exists d, p, sv, (set_packet (be16 (f_new_id f) ++ drop 2 (d_packet s)) s1). split.
  { unfold retry. eapply run_bind; [by apply frec_at_run|]. eapply run_bind; [by apply data_of_run|]. rewrite Hto. eapply run_bind; [by apply srv_run|].
    eapply run_bind; [exact Hnext|]. eapply run_bind; [by apply change_frec_run|]. eapply run_bind; [by apply put_id_run, Hmsg1|]. reflexivity. }
  split; [done|]. split; [|split; [|split; [by exists q'|split; [done|by split]]]].
  - apply (same_table_ok l s1); [by split|]. by apply resent_ok.
  - by apply (id_packet_ok _ s1).
Qed.

(** Any query is passed on, or answered with nothing. *)
Definition goodt {A} (m : DnM A) (Q : A -> Prop) (s : dns) : Prop := twp m (fun a s' => Q a /\ msg_ok s' /\ table_ok l s') s.
Lemma goodt_good {A} (m : DnM A) (Q : A -> Prop) s : good m Q s -> table_ok l s -> goodt m Q s.
Proof.
  intros Hm Hok. eapply twp_mono; [exact Hm|]. intros a s' (HQ & Hmsg & Hk). split; [done|]. split; [done|]. by eapply same_table_ok; [apply keeps_table|].
Qed.
Lemma goodt_bind {A B} (m : DnM A) (f : A -> DnM B) (P : A -> Prop) (Q : B -> Prop) s :
  goodt m P s -> (forall a s', P a -> msg_ok s' -> table_ok l s' -> goodt (f a) Q s') -> goodt (m ≫= f) Q s.
Proof. intros Hm Hf. apply twp_bind. eapply twp_mono; [exact Hm|]. intros a s' (HP & H1 & H2). by apply Hf. Qed.
Lemma goodt_run {A B} (m : DnM A) (f : A -> DnM B) (Q : B -> Prop) a s s' : m s = Ok a s' -> goodt (f a) Q s' -> goodt (m ≫= f) Q s.
Proof. intros Hm Hf. apply twp_bind. eapply twp_run; [exact Hm|]. exact Hf. Qed.
Lemma goodt_ret {A} (a : A) (Q : A -> Prop) s : msg_ok s -> table_ok l s -> Q a -> goodt (mret a) Q s.
Proof. intros H1 H2 HQ. by apply twp_ret. Qed.
Lemma send_good o s : sends -> msg_ok s -> table_ok l s -> goodt (sendto o) (fun _ => True) s.
Proof.
  intros Hs Hmsg Hok. eapply twp_run; [by apply sendto_run|]. split; [done|]. split; [by apply (same_rest_msg s)|by apply sent_ok].
Qed.
Lemma answer_empty_good fd addr plen s : sends -> msg_ok s -> table_ok l s -> 0 < plen <= PACKETSZ -> goodt (answer_empty fd addr plen) (fun _ => True) s.
Proof.
  intros Hs Hmsg Hok Hp. unfold PACKETSZ in Hp. unfold answer_empty. eapply goodt_bind; [apply goodt_good; [by apply set_answer_header_good|done]|]. intros [] s1 _ Hm1 Ht1.
  eapply goodt_bind; [apply goodt_good; [apply peeks_good; [done|lia|lia|rewrite buffer_1547; lia]|done]|]. intros bs s2 _ Hm2 Ht2.
  eapply goodt_bind; [by apply send_good|]. intros x s3 _ Hm3 Ht3. by apply goodt_ret.
Qed.
(** The end of a query, whichever entry it has. *)
Lemma send_on_good i f plen domain fd addr s : sends -> msg_ok s -> table_ok l s -> 0 < plen <= PACKETSZ -> ftab s !! i = Some f -> active f ->
  Exists (fun x => serves domain x.2 = true) l ->
  goodt (h ← gets d_heap;
         f ← frec_at i;
         d ← data_of f;
         sent ← send_loop (size h + 1) i plen domain (f_sentto d) (head_ptr l);
         if sent : bool then mret tt
         else
           put_id (f_orig_id d);;
           change_frec i (set_new_id 0);;
           answer_empty fd addr plen) (fun _ => True) s.
Proof.
  intros Hs Hmsg Hok Hp Hi Ha Hex. destruct (tk_entries _ _ Hok i f Hi Ha) as [_ (d & q & Hd & _) _].
  destruct (send_run plen domain i s f d Hs) as (s' & p & sv & bp & Hrun & Hok' & Hrest & _); [lia|done|apply Hmsg|done|done|done|done|].
  eapply goodt_run; [apply gets_run|]. eapply goodt_run; [by apply frec_at_run|]. eapply goodt_run; [by apply data_of_run|]. eapply goodt_run; [exact Hrun|].
  apply goodt_ret; [by eapply same_rest_msg|done|done].
Qed.
Lemma serves_own sv : serves (s_domain sv) sv = true.
Proof. unfold serves. by apply bool_decide_eq_true. Qed.
Lemma serves_exists domain sv q : (q, sv) ∈ l -> s_domain sv = domain -> Exists (fun x => serves domain x.2 = true) l.
Proof. intros Hin <-. apply Exists_exists. exists (q, sv). split; [done|apply serves_own]. Qed.
Lemma best_serves name : Exists (fun x => s_domain x.2 = None) l -> Exists (fun x => serves (best l.*2 name None 0) x.2 = true) l.
Proof.
  intros Hex. destruct (best_longest name l.*2 None 0 eq_refl) as ([H|(sv & x & Hin & Hx & H & _)] & _); rewrite H.
  - eapply Exists_impl; [exact Hex|]. intros x Hx. unfold serves. by apply bool_decide_eq_true.
  - apply list_elem_of_fmap in Hin as ([q sv'] & -> & Hin). by eapply serves_exists.
Qed.
Lemma extract_request_named qlen s : msg_ok s -> 0 < qlen <= PACKETSZ ->
  twp (extract_request qlen) (fun r s' => (r = true -> is_Some (cut0 (d_name s'))) /\ msg_ok s' /\ keeps s s') s.
Proof.
  intros Hok Hq. unfold extract_request.
  apply twp_bind. eapply twp_mono; [by apply header_short|]. intros qd s1 (_ & Hok1 & Hk1).
  apply twp_bind. eapply twp_mono; [apply peek_good; [done|rewrite buffer_1547; lia]|]. intros b2 s2 (_ & Hok2 & Hk2).
  assert (Hk : keeps s s2) by (by eapply rest_trans). destruct (_ || _); [by apply twp_ret|].
  apply twp_bind. eapply twp_mono; [apply extract_good; [done|done|rewrite buffer_1547; unfold sizeof_HEADER; lia|done]|].
  intros r s3 (Hr & Hok3 & Hk3). apply twp_ret. split; [|split; [done|by eapply rest_trans]]. destruct r as [[dd p']|]; [|done]. intros _.
  destruct Hr as (_ & t & Ht & _). by exists t.
Qed.
Lemma forward_query_good udpfd udpaddr plen strict last s : sends -> fresh_ids -> (l <> [] -> Exists (fun x => s_domain x.2 = None) l) ->
  (l <> [] -> exists q, last = Some q /\ q ∈ l.*1) -> msg_ok s -> table_ok l s -> 0 < plen <= PACKETSZ ->
  goodt (forward_query id_fuel udpfd udpaddr plen strict (head_ptr l) last) (fun _ => True) s.
Proof.
  intros Hs Hfresh Hdef Hlast Hmsg Hok Hp. unfold forward_query.
  eapply goodt_bind; [apply goodt_good; [by apply dsys_good|done]|]. intros now s1 _ Hm1 Ht1.
  apply twp_bind. eapply twp_mono; [by apply extract_request_named|]. intros gotname s2 (Hname & Hm2 & Hk2).
  assert (Ht2 : table_ok l s2) by (by eapply same_table_ok; [apply keeps_table|]).
  destruct (peek_byte 2 s2 (mo_bufs _ Hm2)) as (b2 & Hb2 & _); [rewrite buffer_1547; lia|]. eapply goodt_run; [exact Hb2|].
  destruct (getshort_run 0 s2 Hm2) as (id & Hid & _); [lia|].
  assert (Hid' : h_id s2 = Ok id s2) by (change (h_id s2) with (match GETSHORT 0 s2 with Ok r s' => Ok (fst r) s' | Err f => Err f end); by rewrite Hid).
  eapply goodt_run; [exact Hid'|]. destruct (negb (h_rd b2) || bool_decide (head_ptr l = None)) eqn:Hno; [by apply answer_empty_good|].
  assert (Hne : l <> []). { intros H0. apply orb_false_iff in Hno as [_ Hno]. apply bool_decide_eq_false in Hno. by rewrite H0 in Hno. }
  destruct (Hlast Hne) as (q & -> & Hq).
  destruct (lookup_sender_run id udpaddr s2 Ht2) as (known & Hkn & Hk). eapply goodt_run; [exact Hkn|]. destruct known as [i|].
  - destruct Hk as (f & Hi & Ha & _). destruct (retry_run i f s2 Ht2 Hm2 Hi Ha) as (d & p & sv & s3 & Hrun & Hd & Ht3 & Hm3 & (q' & Hin) & Hpl & Hft & _ & _ & Hheap).
    eapply goodt_run; [eapply run_bind; [exact Hrun|]; reflexivity|]. cbv beta iota.
    eapply (send_on_good i (resent p d f)); [done|done|done|done| |done|by eapply serves_exists].
    rewrite Hft. apply list_lookup_insert_eq. by eapply lookup_lt_Some.
  - assert (Hcut : exists name, gotname = true -> cut0 (d_name s2) = Some name).
    { destruct gotname; [|by exists []]. destruct (Hname eq_refl) as [name Hn]. by exists name. }
    destruct Hcut as [name Hcut].
    destruct (new_query_run now udpfd udpaddr id gotname strict q name s2 Hfresh Ht2 Hm2 Hq Hcut) as (i & f & f' & n & nid & sentto & p & Hrun & Hi & Hfr & Hto & Hpl & Hnid & Hnew).
    eapply goodt_run; [exact Hrun|]. cbv beta iota. set (s3 := set_packet _ _).
    pose proof (asked_ok now s2 i f f' udpaddr sentto id udpfd nid p Ht2 Hi Hfr Hto Hpl Hnid Hnew) as Hok3.
    eapply (send_on_good i (asked udpaddr sentto id udpfd nid f')); [done| |by apply (same_table_ok l (set_ftab (<[i := asked udpaddr sentto id udpfd nid f']> (ftab s2)) s2)); [by split|]|done| | |].
    + apply (id_packet_ok _ (set_ftab (<[i := asked udpaddr sentto id udpfd nid f']> (ftab s2)) (set_calls n s2))). by apply (same_rest_msg s2).
    + subst s3. cbn. apply list_lookup_insert_eq. by eapply lookup_lt_Some.
    + unfold active, asked. cbn. lia.
    + destruct gotname; [by apply best_serves, Hdef|]. eapply Exists_impl; [by apply Hdef|]. intros x Hx. unfold serves. by apply bool_decide_eq_true.
Qed.
End operations.

(** ** The packet is kept *)

(** What is learned from a reply leaves the reply itself alone. *)
Section packet.
Context `{E : DnsEnv}.
Definition pk {A} (m : DnM A) : Prop := forall s a s', m s = Ok a s' -> d_packet s' = d_packet s.
Lemma pk_bind {A B} (m : DnM A) (f : A -> DnM B) : pk m -> (forall a, pk (f a)) -> pk (m ≫= f).
Proof.
  intros Hm Hf s b s' H. unfold mbind, M_bind in H. destruct (m s) as [a s1|] eqn:Ha; [|done]. rewrite (Hf a s1 b s' H). by eapply Hm.
Qed.
Lemma pk_ret {A} (a : A) : pk (mret a).
Proof. intros s b s' H. cbn in H. by injection H as <- <-. Qed.
Lemma pk_fail {A} (f : fault) : pk (fail f : DnM A).
Proof. by intros s b s' H. Qed.
Lemma pk_gets {A} (f : dns -> A) : pk (gets f).
Proof. intros s b s' H. by injection H as <- <-. Qed.
Lemma pk_modify (f : dns -> dns) : (forall s, d_packet (f s) = d_packet s) -> pk (modify f).
Proof. intros Hf s b s' H. injection H as <- <-. apply Hf. Qed.
Lemma pk_bounds {A} (o : option A) : pk (in_bounds o : DnM A).
Proof. destruct o; [apply pk_ret|apply pk_fail]. Qed.
Lemma pk_deref {A} (o : option A) : pk (deref o : DnM A).
Proof. destruct o; [apply pk_ret|apply pk_fail]. Qed.
Lemma pk_fmap {A B} (f : A -> B) (m : DnM A) : pk m -> pk (f <$> m).
Proof. intros Hm. apply (pk_bind m (fun a => mret (f a))); [done|]. intros. apply pk_ret. Qed.
End packet.
Create HintDb pk.
#[export] Hint Resolve pk_ret pk_fail pk_gets pk_bounds pk_deref pk_fmap : pk.
(** Go through a computation: its steps, its tests and its matches. *)
Ltac pk_steps :=
  repeat first [ solve [auto with pk]
               | apply pk_bind; [|intros ?]
               | apply pk_fmap
               | apply pk_modify; intros ?; reflexivity
               | match goal with
                 | |- pk (when ?b _) => destruct b; cbn [when]
                 | |- pk (if ?b then _ else _) => destruct b
                 | |- pk (match ?x with _ => _ end) => destruct x
                 | |- pk (let _ := _ in _) => cbv zeta
                 end ].

Section learned.
Context `{E : DnsEnv}.
Lemma pk_dsys {A} (f : nat -> A) : pk (dsys f).
Proof. unfold dsys. pk_steps. Qed.
Lemma pk_malloc : pk safe_malloc.
Proof. unfold safe_malloc. apply pk_bind; [apply pk_dsys|intros]. pk_steps. Qed.
Lemma pk_peeks n p : pk (peeks n p).
Proof. unfold peeks. pk_steps. Qed.
Lemma pk_peek p : pk (peek p).
Proof. unfold peek. pk_steps. Qed.
#[local] Hint Resolve pk_dsys pk_malloc pk_peeks pk_peek : pk.
Lemma pk_short p : pk (GETSHORT p).
Proof. unfold GETSHORT. pk_steps. Qed.
Lemma pk_long p : pk (GETLONG p).
Proof. unfold GETLONG. pk_steps. Qed.
Lemma pk_name : pk name_text.
Proof. unfold name_text. pk_steps. Qed.
#[local] Hint Resolve pk_short pk_long pk_name : pk.

(** The cache. *)
Lemma pk_change f : pk (change f).
Proof. unfold change. pk_steps. Qed.
Lemma pk_rec_at p : pk (rec_at p).
Proof. unfold rec_at. pk_steps. Qed.
#[local] Hint Resolve pk_change pk_rec_at : pk.
Lemma pk_store_rec p f : pk (store_rec p f).
Proof. unfold store_rec. pk_steps. Qed.
Lemma pk_flags_at p : pk (flags_at p).
Proof. unfold flags_at. pk_steps. Qed.
#[local] Hint Resolve pk_store_rec pk_flags_at : pk.
Lemma pk_put_flags p g : pk (put_flags p g).
Proof. unfold put_flags. pk_steps. Qed.
#[local] Hint Resolve pk_put_flags : pk.
Lemma pk_unlink p : pk (cache_unlink p).
Proof. unfold cache_unlink. pk_steps. Qed.
Lemma pk_link p : pk (cache_link p).
Proof. unfold cache_link. pk_steps. Qed.
#[local] Hint Resolve pk_unlink pk_link : pk.
Lemma pk_free p : pk (cache_free p).
Proof. unfold cache_free. pk_steps. Qed.
Lemma pk_drop p : pk (drop_tail p).
Proof. unfold drop_tail. pk_steps. Qed.
#[local] Hint Resolve pk_free pk_drop : pk.
Lemma pk_for_each body fuel : (forall p r, pk (body p r)) -> forall p, pk (for_each fuel body p).
Proof. intros Hb. induction fuel as [|fuel IH]; intros p; cbn [for_each]; pk_steps. Qed.
Lemma pk_walk body : (forall p r, pk (body p r)) -> pk (walk body).
Proof. intros Hb. unfold walk. apply pk_bind; [apply pk_gets|intros]. by apply pk_for_each. Qed.
Lemma pk_grab fuel long_name : pk (grab fuel long_name).
Proof. induction fuel as [|fuel IH]; cbn [grab]; pk_steps. Qed.
#[local] Hint Resolve pk_grab : pk.
Lemma pk_insert name addr now ttl flags failed : pk (cache_insert name addr now ttl flags failed).
Proof.
  unfold cache_insert. pk_steps; first [apply pk_for_each|apply pk_walk]; intros p r; unfold free_fellows; pk_steps.
Qed.
#[local] Hint Resolve pk_insert : pk.
Lemma pk_start : pk cache_start_insert.
Proof. unfold cache_start_insert. apply pk_walk. intros. pk_steps. Qed.
Lemma pk_end failed : pk (cache_end_insert failed).
Proof. unfold cache_end_insert. destruct failed; cbn [when]; [|pk_steps]. apply pk_walk. intros. pk_steps. Qed.
#[local] Hint Resolve pk_start pk_end : pk.
Lemma pk_insert_name addr now ttl flags failed : pk (insert_name addr now ttl flags failed).
Proof. unfold insert_name. pk_steps. Qed.
#[local] Hint Resolve pk_insert_name : pk.

(** Messages. *)
Lemma pk_write_name bytes cp : pk (write_name bytes cp).
Proof. unfold write_name. pk_steps. Qed.
Lemma pk_compare_label bytes : forall cp differ, pk (compare_label bytes cp differ).
Proof. induction bytes as [|b bytes IH]; intros; cbn [compare_label]; pk_steps. Qed.
Lemma pk_compare_dot cp differ : pk (compare_dot cp differ).
Proof. unfold compare_dot. pk_steps. Qed.
#[local] Hint Resolve pk_write_name pk_compare_label pk_compare_dot : pk.
Lemma pk_extract_loop plen ex fuel : forall p p1 hops cp differ, pk (extract_loop fuel plen ex p p1 hops cp differ).
Proof. induction fuel as [|fuel IH]; intros; cbn [extract_loop]; pk_steps. Qed.
#[local] Hint Resolve pk_extract_loop : pk.
Lemma pk_extract plen pp ex : pk (extract_name plen pp ex).
Proof. unfold extract_name. pk_steps. Qed.
#[local] Hint Resolve pk_extract : pk.
Lemma pk_skip_name fuel plen : forall p, pk (skip_name fuel plen p).
Proof. induction fuel as [|fuel IH]; intros; cbn [skip_name]; pk_steps. Qed.
#[local] Hint Resolve pk_skip_name : pk.
Lemma pk_skip_loop plen q : forall p, pk (skip_loop q plen p).
Proof. induction q as [|q IH]; intros; cbn [skip_loop]; pk_steps. Qed.
#[local] Hint Resolve pk_skip_loop : pk.
Lemma pk_counts : pk h_qdcount /\ pk h_ancount /\ pk h_nscount /\ pk h_bits3.
Proof. unfold h_qdcount, h_ancount, h_nscount, h_bits3. repeat split; pk_steps. Qed.
Lemma pk_skip plen : pk (skip_questions plen).
Proof. destruct pk_counts as (H1 & H2 & H3 & H4). unfold skip_questions. pk_steps. Qed.
Lemma pk_fields p : pk (rr_fields p).
Proof. unfold rr_fields. pk_steps. Qed.
#[local] Hint Resolve pk_skip pk_fields : pk.
Lemma pk_soa qlen n : forall p found, pk (soa_loop n qlen p found).
Proof. induction n as [|n IH]; intros; cbn [soa_loop]; pk_steps. Qed.
Lemma pk_neg qlen now minttl n : forall p failed, pk (neg_loop n qlen p now minttl failed).
Proof. induction n as [|n IH]; intros; cbn [neg_loop]; pk_steps. Qed.
Lemma pk_record qlen qtype now ttl p failed : pk (insert_record qlen qtype now ttl p failed).
Proof. unfold insert_record. pk_steps. Qed.
#[local] Hint Resolve pk_soa pk_neg pk_record : pk.
Lemma pk_cname qlen targp origname now ttl n : forall p failed, pk (cname_loop n qlen targp origname p now ttl failed).
Proof. induction n as [|n IH]; intros; cbn [cname_loop]; pk_steps. Qed.
#[local] Hint Resolve pk_cname : pk.
Lemma pk_answers ancount qlen psave now n : forall p failed, pk (answer_loop n ancount qlen psave p now failed).
Proof. induction n as [|n IH]; intros; cbn [answer_loop]; pk_steps. Qed.
#[local] Hint Resolve pk_answers : pk.
Lemma pk_extract_neg qlen : pk (extract_neg_addrs qlen).
Proof. destruct pk_counts as (H1 & H2 & H3 & H4). unfold extract_neg_addrs, time_. pk_steps. Qed.
Lemma pk_extract_addresses qlen : pk (extract_addresses qlen).
Proof. destruct pk_counts as (H1 & H2 & H3 & H4). pose proof (pk_extract_neg qlen). unfold extract_addresses, time_. pk_steps. Qed.
Lemma pk_extract_request qlen : pk (extract_request qlen).
Proof. destruct pk_counts as (H1 & H2 & H3 & H4). unfold extract_request, h_bits2. pk_steps. Qed.
(** The two facts about replies together. *)
Lemma extract_addresses_keeps qlen s : msg_ok s -> 0 < qlen <= PACKETSZ ->
  twp (extract_addresses qlen) (fun _ s' => msg_ok s' /\ keeps s s' /\ d_packet s' = d_packet s) s.
Proof.
  intros Hok Hq. pose proof (extract_addresses_good qlen s Hok Hq) as Hg. unfold good, twp in *.
  destruct (extract_addresses qlen s) as [[] s'|] eqn:Hrun; [|done]. destruct Hg as (_ & H1 & H2). split; [done|]. split; [done|]. by eapply pk_extract_addresses.
Qed.
End learned.

(** ** The clients that wait *)

(** The client of an entry: its identifier here, the socket, the identifier and the
    address of the client. *)
Record waiting : Type := Waiting { w_id : Z; w_fd : nat; w_orig : Z; w_addr : sockaddr }.
Definition awaits (f : frec) : option waiting :=
  if f_new_id f =? 0 then None else (fun d => Waiting (f_new_id f) (f_fd d) (f_orig_id d) (f_source d)) <$> f_data f.
Definition pending (s : dns) : list (option waiting) := awaits <$> ftab s.

Section clients.
Context `{E : DnsEnv}.
Context (l : list (nat * server)).
Implicit Types s : dns.
Lemma awaits_sent p d f bp : f_data f = Some d -> awaits (set_msg_buf bp (resent p d f)) = awaits f.
Proof. intros Hd. unfold awaits. cbn. by rewrite Hd. Qed.
Lemma awaits_same f f' : f_new_id f' = f_new_id f -> f_data f' = f_data f -> awaits f' = awaits f.
Proof. intros H1 H2. unfold awaits. by rewrite H1, H2. Qed.
Lemma awaits_active f d : active f -> f_data f = Some d -> awaits f = Some (Waiting (f_new_id f) (f_fd d) (f_orig_id d) (f_source d)).
Proof. intros Ha Hd. unfold awaits. by rewrite (proj2 (Z.eqb_neq _ _) Ha), Hd. Qed.
Lemma pending_insert (i : nat) (f : frec) (t : list frec) : awaits <$> <[i := f]> t = <[i := awaits f]> (awaits <$> t).
Proof. apply list_fmap_insert. Qed.
(** The entry for a new query: a free one, or one of a full table. *)
Lemma fresh_pending now (t : list frec) i f f' : t !! i = Some f -> fresh_entry now t f f' -> Exists (fun f => f_new_id f = 0) t -> (awaits <$> t) !! i = Some None.
Proof.
  intros Hi [[H0 _]|[Hall _]] Hex.
  - rewrite list_lookup_fmap, Hi. cbn. unfold awaits. by rewrite H0.
  - exfalso. apply Exists_exists in Hex as (g & Hg & H0). rewrite Forall_forall in Hall. by apply (Hall g).
Qed.
(** The rest of the message after its identifier. *)
Lemma take_id n i (b : list Z) : 2 <= n -> take (Z.to_nat n) (be16 i ++ drop 2 b) = be16 i ++ drop 2 (take (Z.to_nat n) b).
Proof.
  intros Hn. rewrite take_app_ge by (cbn [length be16]; lia). f_equal. change (length (be16 i)) with 2%nat. by rewrite take_drop_commute, <- Nat.le_add_sub by lia.
Qed.
(** What extract_request finds in a query. *)
Lemma asks_request s qlen i1 i2 b2 b3 ls qtype qend : asks s qlen i1 i2 b2 b3 ls qtype qend ->
  exists n', extract_request qlen s = Ok true (set_name n' s) /\ cut0 n' = Some (name_of ls) /\ length n' = length (d_name s)
    /\ h_id (set_name n' s) = Ok (i1 * 256 + i2) (set_name n' s) /\ h_bits2 (set_name n' s) = Ok b2 (set_name n' s).
Proof.
  intros Hask. destruct (asks_extract _ _ _ _ _ _ _ _ _ Hask) as (n' & Hrun & Hcut & Hl).
  destruct (asks_counts _ _ _ _ _ _ _ _ _ Hask) as (Hq & Hb2 & _).
  destruct (as_head _ _ _ _ _ _ _ _ _ Hask) as (counts & rest & Hp & _). exists n'. split; [|split; [done|split; [done|split]]].
  - unfold extract_request. eapply run_bind; [exact Hq|]. eapply run_bind; [exact Hb2|]. rewrite (as_opcode _ _ _ _ _ _ _ _ _ Hask).
    change (negb (1 =? 1) || negb (QUERY =? QUERY)) with false. cbv iota. eapply run_bind; [exact Hrun|]. reflexivity.
  - assert (Hb := bo_bytes _ (as_bufs _ _ _ _ _ _ _ _ _ Hask)). rewrite Hp in Hb. apply Forall_cons in Hb as [H1 [H2 _]%Forall_cons].
    assert (HG : GETSHORT 0 (set_name n' s) = Ok (i1 * 256 + i2, 2) (set_name n' s)) by (apply short_run; [lia| |done|done]; cbn [d_packet set_name]; by rewrite Hp).
    change (h_id (set_name n' s)) with (match GETSHORT 0 (set_name n' s) with Ok r s' => Ok (fst r) s' | Err f => Err f end). by rewrite HG.
  - eapply (peek_at [i1; i2]). exact Hp.
Qed.
End clients.

(** ** Replies *)

Section replies.
Context `{E : DnsEnv}.
Context (l : list (nat * server)).
Implicit Types s : dns.

(** A message at the start of the packet. *)
Definition filled_with (bytes : list Z) (s : dns) : dns := set_packet (bytes ++ drop (length bytes) (d_packet s)) s.
Lemma front_run bytes s : bufs_ok s -> (length bytes <= BUFFER)%nat -> put bytes 0 s = Ok (Z.of_nat (length bytes)) (filled_with bytes s).
Proof.
  intros Hb Hl. apply (put_run [] bytes (take (length bytes) (d_packet s)) (drop (length bytes) (d_packet s)) s).
  - cbn [app]. by rewrite take_drop.
  - rewrite length_take, (bo_packet _ Hb). lia.
Qed.
Lemma packet_ok p s : msg_ok s -> length p = BUFFER -> Forall is_byte p -> msg_ok (set_packet p s).
Proof. intros [[B1 B2 B3 B4] Hc] Hl Hb. by split; [split|]. Qed.
Lemma filled_ok bytes s : msg_ok s -> Forall is_byte bytes -> (length bytes <= BUFFER)%nat -> msg_ok (filled_with bytes s).
Proof.
  intros Hmsg Hb Hl. assert (H := mo_bufs _ Hmsg). apply packet_ok; [done| |].
  - rewrite length_app, length_drop, (bo_packet _ H). lia.
  - apply Forall_app. split; [done|apply Forall_drop, (bo_bytes _ H)].
Qed.
Lemma packet_table p s : table_ok l s -> table_ok l (set_packet p s).
Proof. by apply same_table_ok. Qed.

(** The buffer of an entry is given back. *)
Lemma release_run i f s : table_ok l s -> ftab s !! i = Some f -> active f ->
  exists f' s', release i s = Ok tt s' /\ table_ok l s' /\ only_table s s' /\ ftab s' = <[i := f']> (ftab s)
    /\ own f' = None /\ f_new_id f' = f_new_id f /\ f_data f' = f_data f.
Proof.
  intros Hok Hi Ha. destruct (tk_entries _ _ Hok i f Hi Ha) as [_ _ (bp & Hbp & Hj)].
  assert (Hbuf : buf_of f s = Ok bp s) by (unfold buf_of; by rewrite Hbp). destruct bp as [k|].
  - destruct (Hj k eq_refl) as (b & Hk & Hfine). set (s1 := set_bufs (<[k := set_usedflag false b]> (dnsMsgBuf s)) s).
    exists (set_msg_buf None f), (set_ftab (<[i := set_msg_buf None f]> (ftab s)) s1). split; [|split; [|split; [done|split; [done|split; [|done]]]]].
    + unfold release. eapply run_bind; [by apply frec_at_run|]. eapply run_bind; [exact Hbuf|]. cbv iota.
      eapply run_bind; [exact (change_buf_run s k b (set_usedflag false) Hk)|]. fold s1. by rewrite (change_frec_run s1 i f _ Hi).
    + pose proof (active_own f k Ha Hbp) as Hown. assert (Hkl := lookup_lt_Some _ _ _ Hk). rewrite (tk_bufs _ _ Hok) in Hkl.
      apply (change_owned l s i f); [done|done|done|done|done| |done| |by right|by right].
      * intros j g Hji Hg Hgk. apply Hji. by eapply (tk_owners _ _ Hok).
      * pose proof (tk_headers _ _ Hok) as Hh. rewrite Forall_lookup in Hh. exact (Hh k b Hk).
    + unfold own. cbn. by destruct (f_new_id f =? 0).
  - exists f, s. split; [|split; [done|split; [apply only_table_refl|split; [by rewrite list_insert_id|split; [|done]]]]].
    + unfold release. eapply run_bind; [by apply frec_at_run|]. eapply run_bind; [exact Hbuf|]. reflexivity.
    + unfold own. rewrite Hbp. by destruct (f_new_id f =? 0).
Qed.
(** An entry without a buffer becomes free. *)
Lemma freed_entry_ok i f s : table_ok l s -> ftab s !! i = Some f -> own f = None -> table_ok l (set_ftab (<[i := set_new_id 0 f]> (ftab s)) s).
Proof. intros Hok Hi Ho. apply (change_entry l s i f); [done|done|by intros []|by rewrite Ho|by intros []]. Qed.
Lemma awaits_freed f : awaits (set_new_id 0 f) = None.
Proof. reflexivity. Qed.

Lemma land_byte x m : is_byte x -> 0 <= m < 256 -> is_byte (Z.land x m).
Proof.
  intros Hx Hm. unfold is_byte in *. assert (Hn : 0 <= Z.land x m) by (apply Z.land_nonneg; lia). split; [done|].
  destruct (Z.eq_dec (Z.land x m) 0) as [->|Hne]; [lia|]. change 256 with (2 ^ 8). apply Z.log2_lt_pow2; [lia|].
  eapply Z.le_lt_trans; [apply Z.log2_land; lia|]. apply Z.min_lt_iff. destruct (Z.eq_dec m 0) as [->|Hm0]; [by rewrite Z.land_0_r in Hne|].
  right. apply Z.log2_lt_pow2; lia.
Qed.
(** The reply with the identifier of the client and without the bit tc. *)
Lemma return_reply_run i f d n i1 i2 b2 b3 rest junk s : sends -> table_ok l s -> msg_ok s -> ftab s !! i = Some f -> own f = None -> f_data f = Some d ->
  d_packet s = [i1; i2; b2; b3] ++ rest ++ junk -> n = 4 + Z.of_nat (length rest) ->
  exists s', return_reply i n s = Ok tt s' /\ table_ok l s' /\ msg_ok s' /\ ftab s' = <[i := set_new_id 0 f]> (ftab s)
    /\ d_out s' = d_out s ++ [To_client (f_fd d) (be16 (f_orig_id d) ++ [Z.land b2 0xfd; b3] ++ rest) (f_source d)].
Proof.
  intros Hs Hok Hmsg Hi Ho Hd Hp ->. set (reply := be16 (f_orig_id d) ++ [Z.land b2 0xfd; b3] ++ rest).
  assert (Hbytes := bo_bytes _ (mo_bufs _ Hmsg)). assert (Hlen := bo_packet _ (mo_bufs _ Hmsg)). rewrite Hp in Hbytes, Hlen.
  rewrite !Forall_app, !Forall_cons in Hbytes. destruct Hbytes as ((_ & _ & Hb2 & Hb3 & _) & Hr & Hj).
  set (s1 := set_packet (be16 (f_orig_id d) ++ drop 2 (d_packet s)) s). assert (Hp1 : d_packet s1 = be16 (f_orig_id d) ++ b2 :: b3 :: rest ++ junk) by (cbn; by rewrite Hp).
  set (s2 := set_packet (reply ++ junk) s).
  assert (Hput : put [Z.land b2 253] 2 s1 = Ok 3 s2).
  { change 2 with (Z.of_nat (length (be16 (f_orig_id d)))). rewrite (put_run (be16 (f_orig_id d)) [Z.land b2 253] [b2] (b3 :: rest ++ junk) s1) by done.
    unfold s2, reply. by rewrite <- !app_assoc. }
  assert (Hl2 : length (reply ++ junk) = BUFFER) by (rewrite <- Hlen; unfold reply; rewrite !length_app; done).
  assert (Hpk : peeks (4 + Z.of_nat (length rest)) 0 s2 = Ok reply s2).
  { rewrite peeks_run; [|lia|lia|cbn [d_packet s2 set_packet]; unfold reply; rewrite !length_app; cbn [length be16]; lia]. f_equal.
    change (Z.to_nat 0) with 0%nat. rewrite drop_0. cbn [d_packet s2 set_packet]. apply take_app_length'. unfold reply. rewrite !length_app. cbn [length be16]. lia. }
  set (s3 := set_out (d_out s ++ [To_client (f_fd d) reply (f_source d)]) (set_calls (S (d_calls s)) s2)).
  exists (set_ftab (<[i := set_new_id 0 f]> (ftab s)) s3). split; [|split; [|split; [|by split]]].
  - unfold return_reply. eapply run_bind; [by apply frec_at_run|]. eapply run_bind; [by apply data_of_run|].
    eapply run_bind; [apply put_id_run, Hmsg|]. fold s1. eapply (run_bind clear_tc).
    { unfold clear_tc. eapply run_bind; [exact (peek_at (be16 (f_orig_id d)) b2 _ s1 Hp1)|]. eapply run_bind; [exact Hput|]. reflexivity. }
    eapply run_bind; [exact Hpk|]. eapply run_bind; [by apply sendto_run|]. exact (change_frec_run s3 i f (set_new_id 0) Hi).
  - assert (Hok3 : table_ok l s3) by (apply (sent_ok l _ s2); by apply packet_table). by apply (freed_entry_ok i f s3).
  - apply (same_rest_msg s2); [by split|]. apply packet_ok; [done|done|]. apply Forall_app. split; [|done]. unfold reply.
    apply Forall_app. split; [apply be16_bytes|]. cbn. constructor; [apply land_byte; [done|lia]|by constructor].
Qed.
Lemma run_then {B} (m1 m2 : DnM unit) (k : DnM B) s s' : (m1;; m2) s = Ok tt s' -> (m1;; m2;; k) s = k s'.
Proof. unfold mbind, M_bind. destruct (m1 s) as [[] s1|]; [|done]. by intros ->. Qed.
(** A message that came, in the packet. *)
Lemma receive_run bytes src s : msg_ok s -> (length bytes <= Z.to_nat PACKETSZ)%nat -> Forall is_byte bytes ->
  receive (Some (bytes, src)) s = Ok (Z.of_nat (length bytes)) (filled_with bytes s) /\ msg_ok (filled_with bytes s).
Proof.
  intros Hmsg Hl Hb. assert (Hfit : (length bytes <= BUFFER)%nat) by (pose proof buffer_1547; unfold PACKETSZ in Hl; lia).
  split; [|by apply filled_ok]. unfold receive. rewrite take_ge by done. eapply run_bind; [by apply front_run, Hfit; apply Hmsg|]. reflexivity.
Qed.
Lemma find_active id i f s : table_ok l s -> ftab s !! i = Some f -> f_new_id f = id -> active f -> find_id (ftab s) 0 id = Some i.
Proof.
  intros Hok Hi Hid Ha. destruct (find_id (ftab s) 0 id) as [j|] eqn:Hf.
  - destruct (find_id_some _ _ _ _ Hf) as (g & _ & Hg & Hgid). rewrite Nat.sub_0_r in Hg. f_equal. symmetry. by eapply (tk_ids _ _ Hok i j f g); [| | |congruence].
  - exfalso. apply find_id_none in Hf. rewrite Forall_lookup in Hf. by eapply (Hf i).
Qed.
(** The rest of a reply: what is learned from it, if anything, and its return. *)
Lemma deliver_run learn i f d n i1 i2 b2 b3 rest junk s : sends -> table_ok l s -> msg_ok s -> ftab s !! i = Some f -> own f = None -> f_data f = Some d ->
  d_packet s = [i1; i2; b2; b3] ++ rest ++ junk -> n = 4 + Z.of_nat (length rest) -> 0 < n <= PACKETSZ ->
  exists s', (when learn (extract_addresses n);; return_reply i n) s = Ok tt s' /\ table_ok l s' /\ msg_ok s' /\ ftab s' = <[i := set_new_id 0 f]> (ftab s)
    /\ d_out s' = d_out s ++ [To_client (f_fd d) (be16 (f_orig_id d) ++ [Z.land b2 0xfd; b3] ++ rest) (f_source d)].
Proof.
  intros Hs Hok Hmsg Hi Ho Hd Hp Hn Hr.
  assert (Hlearn : exists s1, when learn (extract_addresses n) s = Ok tt s1 /\ msg_ok s1 /\ keeps s s1 /\ d_packet s1 = d_packet s).
  { destruct learn; [|by exists s; split; [|split; [|split; [apply rest_refl|]]]]. pose proof (extract_addresses_keeps n s Hmsg Hr) as H. unfold twp in H.
    cbn [when]. destruct (extract_addresses n s) as [[] s1|]; [|done]. by exists s1. }
  destruct Hlearn as (s1 & Hrun & Hmsg1 & Hk & Hp1).
  destruct (return_reply_run i f d n i1 i2 b2 b3 rest junk s1) as (s2 & Hrun2 & Hok2 & Hmsg2 & Hft & Hout); try done.
  - by eapply same_table_ok; [apply keeps_table|].
  - by rewrite (ks_ftab _ _ Hk).
  - by rewrite Hp1.
  - exists s2. rewrite <- (ks_ftab _ _ Hk), <- (ks_out _ _ Hk). split; [|done]. eapply run_bind; [exact Hrun|exact Hrun2].
Qed.

(** The server without a domain that gave an answer becomes the first for the next query. *)
Definition new_last (rcode : Z) (d : frec_data) (sv : server) (last : option nat) : option nat :=
  if (rcode =? NOERROR) && bool_decide (s_domain sv = None) then f_sentto d else last.
Definition gives_up (rcode : Z) : bool := (rcode =? SERVFAIL) || (rcode =? NOTIMP) || (rcode =? REFUSED).
(** The end of reply_query, when the entry was found. *)
Definition found_reply (last : option nat) (i : nat) (n b2 b3 : Z) : DnM (option nat) :=
  let rcode := h_rcode b3 in
  if rcode =? NOERROR then
    release i;;
    f ← frec_at i;
    d ← data_of f;
    s ← srv (f_sentto d);
    let last_server := match s_domain s with None => f_sentto d | Some _ => last end in
    when (h_opcode b2 =? QUERY) (extract_addresses n);;
    return_reply i n;;
    mret last_server
  else if (rcode =? SERVFAIL) || (rcode =? NOTIMP) || (rcode =? REFUSED) then mret last
  else
    release i;;
    return_reply i n;;
    mret last.
Lemma found_run last i f d p sv n i1 i2 b2 b3 rest junk s : sends -> table_ok l s -> msg_ok s -> ftab s !! i = Some f -> active f ->
  f_data f = Some d -> f_sentto d = Some p -> (p, sv) ∈ l -> d_packet s = [i1; i2; b2; b3] ++ rest ++ junk -> n = 4 + Z.of_nat (length rest) -> n <= PACKETSZ ->
  gives_up (h_rcode b3) = false ->
  exists s', found_reply last i n b2 b3 s = Ok (new_last (h_rcode b3) d sv last) s' /\ table_ok l s' /\ msg_ok s'
    /\ pending s' = <[i := None]> (pending s)
    /\ d_out s' = d_out s ++ [To_client (f_fd d) (be16 (f_orig_id d) ++ [Z.land b2 0xfd; b3] ++ rest) (f_source d)].
Proof.
  intros Hs Hok Hmsg Hi Ha Hd Hto Hin Hp Hn Hr Hrc. destruct (release_run i f s Hok Hi Ha) as (f' & s2 & Hrel & Hok2 & Honly & Hft2 & Hown & Hid' & Hd').
  destruct (only_table_rest _ _ Honly) as (Hrest & Hout2 & _). rewrite Hd in Hd'.
  assert (Hi2 : ftab s2 !! i = Some f') by (rewrite Hft2; apply list_lookup_insert_eq; by eapply lookup_lt_Some).
  set (learn := (h_rcode b3 =? NOERROR) && (h_opcode b2 =? QUERY)).
  destruct (deliver_run learn i f' d n i1 i2 b2 b3 rest junk s2) as (s3 & Hdel & Hok3 & Hmsg3 & Hft3 & Hout3);
    [done|done|by eapply same_rest_msg|done|done|done|by rewrite (sr_packet _ _ Hrest)|done|lia|].
  exists s3. split; [|split; [done|split; [done|split; [|by rewrite Hout3, Hout2]]]].
  - unfold found_reply, new_last. cbv zeta. subst learn. destruct (h_rcode b3 =? NOERROR) eqn:Hno; cbn [andb] in Hdel |- *.
    + eapply run_bind; [exact Hrel|]. eapply run_bind; [by apply frec_at_run|]. eapply run_bind; [by apply data_of_run|].
      eapply run_bind; [rewrite Hto; apply srv_run; exact (chain_in _ _ _ _ (so_chain _ _ (tk_servers _ _ Hok2)) Hin)|].
      rewrite (run_then _ _ _ _ _ Hdel). by destruct (s_domain sv).
    + unfold gives_up in Hrc. rewrite Hrc. eapply run_bind; [exact Hrel|]. eapply run_bind; [exact Hdel|]. reflexivity.
  - unfold pending. by rewrite Hft3, pending_insert, awaits_freed, Hft2, pending_insert, list_insert_insert_eq.
Qed.
(** The identifier of the message in the packet. *)
Lemma packet_id i1 i2 rest s : bufs_ok s -> d_packet s = i1 :: i2 :: rest -> h_id s = Ok (i1 * 256 + i2) s /\ is_byte i1 /\ is_byte i2.
Proof.
  intros Hb Hp. assert (Hbytes := bo_bytes _ Hb). rewrite Hp in Hbytes. apply Forall_cons in Hbytes as [H1 [H2 _]%Forall_cons]. split; [|done].
  assert (HG : GETSHORT 0 s = Ok (i1 * 256 + i2, 2) s) by (apply short_run; [lia| |done|done]; by rewrite Hp).
  change (h_id s) with (match GETSHORT 0 s with Ok r s' => Ok (fst r) s' | Err f => Err f end). by rewrite HG.
Qed.
End replies.

(** ** Retries *)

Section retries.
Context `{E : DnsEnv}.
Context (l : list (nat * server)).
Implicit Types s : dns.

(** From the server [p] the server [q] is reached in [m] steps of the circle. *)
Definition dist (p q m : nat) : Prop := exists r, rot l r /\ r.*1 !! 0%nat = Some p /\ r.*1 !! m = Some q.
Lemma dist_start p q : p ∈ l.*1 -> q ∈ l.*1 -> exists m, (m < length l)%nat /\ dist p q m.
Proof.
  intros Hp Hq. apply list_elem_of_fmap in Hp as ([p' sv] & -> & Hin). destruct (rot_at _ _ _ Hin) as [r Hrot]. pose proof (rot_perm _ _ Hrot) as Hpm.
  rewrite <- Hpm in Hq. apply list_elem_of_lookup in Hq as [m Hm]. exists m. split; [|by exists ((p', sv) :: r)].
  apply lookup_lt_Some in Hm. by rewrite length_fmap, Hpm in Hm.
Qed.
Lemma dist_step p sv r q m : rot l ((p, sv) :: r) -> ((p, sv) :: r).*1 !! S m = Some q ->
  rot l (r ++ [(p, sv)]) /\ (r ++ [(p, sv)]).*1 !! m = Some q.
Proof. intros Hrot Hq. split; [by apply rot_step|]. cbn in Hq. rewrite fmap_app. by apply lookup_app_l_Some. Qed.
Lemma split_unique {A} (x : A) a : forall b a' b', NoDup (a ++ x :: b) -> a ++ x :: b = a' ++ x :: b' -> a = a' /\ b = b'.
Proof.
  induction a as [|y a IH]; intros b [|z a'] b' Hn Heq; cbn in *.
  - by injection Heq.
  - exfalso. injection Heq as <- ->. apply NoDup_cons in Hn as [Hn _]. apply Hn, elem_of_app. right. by left.
  - exfalso. injection Heq as <- <-. apply NoDup_cons in Hn as [Hn _]. apply Hn, elem_of_app. right. by left.
  - injection Heq as -> Heq. apply NoDup_cons in Hn as [_ Hn]. by destruct (IH b a' b' Hn Heq) as [-> ->].
Qed.
Lemma rot_keys r p : rot l r -> r.*1 !! 0%nat = Some p -> exists a b, l.*1 = a ++ p :: b /\ r.*1 = p :: b ++ a.
Proof.
  intros (l1 & l2 & -> & ->) H0. destruct l2 as [|[p' sv] l2]; cbn in H0.
  - destruct l1 as [|[p' sv] l1]; [done|]. cbn in H0. injection H0 as ->. exists [], l1.*1. by rewrite !app_nil_r.
  - injection H0 as ->. exists l1.*1, l2.*1. by rewrite !fmap_app.
Qed.
Lemma dist_unique p q m m' : NoDup l.*1 -> dist p q m -> dist p q m' -> m = m'.
Proof.
  intros Hn (r & Hrot & H0 & Hm) (r' & Hrot' & H0' & Hm'). destruct (rot_keys r p Hrot H0) as (a & b & Hl & Hr). destruct (rot_keys r' p Hrot' H0') as (a' & b' & Hl' & Hr').
  assert (Hnr : NoDup r.*1) by (by rewrite (rot_perm _ _ Hrot)). rewrite Hl in Hn, Hl'. destruct (split_unique _ _ _ _ _ Hn Hl') as [-> ->].
  rewrite Hr', <- Hr in Hm'. by eapply NoDup_lookup.
Qed.

(** The rotation that starts at [p] is the only one. *)
Lemma key_unique k a b : NoDup l.*1 -> (k, a) ∈ l -> (k, b) ∈ l -> a = b.
Proof.
  intros Hn [i Hi]%list_elem_of_lookup [j Hj]%list_elem_of_lookup.
  assert (Hij : i = j) by (eapply NoDup_lookup; [exact Hn|rewrite list_lookup_fmap, Hi; reflexivity|by rewrite list_lookup_fmap, Hj]). congruence.
Qed.
Lemma rot_unique p r r' : NoDup l.*1 -> rot l r -> rot l r' -> r.*1 !! 0%nat = Some p -> r'.*1 !! 0%nat = Some p -> r = r'.
Proof.
  intros Hn Hrot Hrot' H0 H0'. destruct (rot_keys r p Hrot H0) as (a & b & Hl & Hr). destruct (rot_keys r' p Hrot' H0') as (a' & b' & Hl' & Hr').
  assert (Hk : r.*1 = r'.*1).
  { rewrite Hl in Hl'. assert (Hn' := Hn). rewrite Hl in Hn'. destruct (split_unique _ _ _ _ _ Hn' Hl') as [-> ->]. congruence. }
  apply list_eq. intros i. assert (Hi := f_equal (lookup i) Hk). rewrite !list_lookup_fmap in Hi.
  destruct (r !! i) as [[k x]|] eqn:Hx, (r' !! i) as [[k' y]|] eqn:Hy; cbn in Hi; try done. injection Hi as <-. do 2 f_equal.
  apply (key_unique k); [done|rewrite <- (rot_perm _ _ Hrot)|rewrite <- (rot_perm _ _ Hrot')]; by eapply list_elem_of_lookup_2.
Qed.

(** The server [sv] comes in the circle from [p] on and before [q]. *)
Definition ahead (p q : nat) (sv : server) : Prop :=
  exists r m n key, rot l r /\ r.*1 !! 0%nat = Some p /\ r.*1 !! m = Some q /\ (n < m)%nat /\ r !! n = Some (key, sv).
Lemma ahead_same q sv : NoDup l.*1 -> ~ ahead q q sv.
Proof.
  intros Hn (r & m & n & key & Hrot & H0 & Hm & Hlt & _). assert (Hnr : NoDup r.*1) by (by rewrite (rot_perm _ _ Hrot)).
  assert (m = 0%nat) by (by eapply NoDup_lookup). lia.
Qed.
Lemma ahead_step p sv r p1 q sv' : NoDup l.*1 -> rot l ((p, sv) :: r) -> (r ++ [(p, sv)]).*1 !! 0%nat = Some p1 -> ahead p q sv' -> sv' = sv \/ ahead p1 q sv'.
Proof.
  intros Hn Hrot Hp1 (r' & m & n & key & Hrot' & H0 & Hm & Hlt & Hsv). assert (r' = (p, sv) :: r) as -> by (by eapply rot_unique).
  destruct m as [|m]; [lia|]. destruct n as [|n]; [left; cbn in Hsv; congruence|]. right.
  destruct (dist_step p sv r q m Hrot Hm) as [Hrot1 Hq1]. exists (r ++ [(p, sv)]), m, n, key. do 3 (split; [done|]). split; [lia|].
  cbn in Hsv. by apply lookup_app_l_Some.
Qed.
(** The servers that a buffer's query is still for, and what goes to one of them. *)
Definition untried (b : msg_buf) (sv : server) : Prop :=
  exists p q svq, b_nextsentto b = Some p /\ b_firstsentto b = Some q /\ (q, svq) ∈ l /\ ahead p q sv /\ serves (s_domain svq) sv = true.
Definition query_of (f : frec) (b : msg_buf) : list Z := take (Z.to_nat (b_plen b)) (list_inserts 0 (be16 (f_new_id f)) (b_header b)).
Definition to_send (bufs : list msg_buf) (f : frec) (x : dns_output) : Prop :=
  exists k b sv, own f = Some k /\ bufs !! k = Some b /\ untried b sv /\ x = To_server (query_of f b) (s_addr sv).
Lemma to_send_none bufs f x : own f = None -> ~ to_send bufs f x.
Proof. intros Ho (k & b & sv & Hk & _). congruence. Qed.
Lemma to_send_frame bufs bufs' f x : (forall k, own f = Some k -> bufs' !! k = bufs !! k) -> to_send bufs f x -> to_send bufs' f x.
Proof. intros Hb (k & b & sv & Hk & Hbk & H). exists k, b, sv. split; [done|]. by rewrite (Hb k Hk). Qed.
Lemma inserts_twice {A} (xs h : list A) : (length xs <= length h)%nat -> list_inserts 0 xs (list_inserts 0 xs h) = list_inserts 0 xs h.
Proof. intros H. rewrite (inserts_app 0 xs h) by done. rewrite inserts_app by (rewrite !length_app, take_0; simpl; lia). rewrite !take_0. cbn [app Nat.add]. by rewrite drop_app_length. Qed.

(** What is sent to servers, with the new value of a buffer. *)
Definition resent_to (k : nat) (b' : msg_buf) (o : list dns_output) (s s' : dns) : Prop :=
  exists n, s' = set_bufs (<[k := b']> (dnsMsgBuf s)) (set_out (d_out s ++ o) (set_calls n s)) /\ (d_calls s <= n)%nat.
Lemma reforward_loop_run k dom q : sends -> forall m fuel s b p sv r, servers_ok (d_heap s) l -> dnsMsgBuf s !! k = Some b ->
  b_servers b = head_ptr l -> b_firstsentto b = Some q -> b_nextsentto b = Some p -> 0 <= b_plen b <= PACKETSZ -> length (b_header b) = BUFFER ->
  rot l ((p, sv) :: r) -> ((p, sv) :: r).*1 !! S m = Some q -> (m < fuel)%nat ->
  exists again s' p' o, reforward_loop fuel k dom s = Ok again s' /\ resent_to k (set_nextsentto (Some p') b) o s s' /\ p' ∈ l.*1
    /\ (again = true -> exists m', (m' <= m)%nat /\ dist p' q m')
    /\ forall sv', ahead p q sv' -> serves dom sv' = true -> To_server (take (Z.to_nat (b_plen b)) (b_header b)) (s_addr sv') ∈ o \/ (again = true /\ ahead p' q sv').
Proof.
  intros Hs m. induction m as [m IH] using lt_wf_ind. intros [|fuel] s b p sv r Hsv Hk Hserv Hfirst Hnext Hplen Hh Hrot Hq Hf; [lia|]. cbn [reforward_loop].
  unfold PACKETSZ in Hplen. pose proof (rot_server _ _ _ _ _ Hsv Hrot) as Hp. destruct (dist_step p sv r q m Hrot Hq) as [Hrot1 Hq1].
  destruct (r ++ [(p, sv)]) as [|[p1 sv1] r1] eqn:Er; [by destruct r|].
  assert (Hp1 : p1 ∈ l.*1) by (rewrite <- (rot_perm _ _ Hrot1); by left).
  pose proof (fun sv' => ahead_step p sv r p1 q sv' (so_nodup _ _ Hsv) Hrot ltac:(by rewrite Er)) as Hstep1.
  set (b1 := set_nextsentto (Some p1) b).
  assert (Hnx : forall s', d_heap s' = d_heap s -> next_server (b_nextsentto b) (b_servers b) s' = Ok (Some p1) s').
  { intros s' He. rewrite Hnext, Hserv, (rot_next l p sv r s'); [by rewrite Er|by rewrite He|done]. }
  assert (Hload : load_len (b_plen b) (b_header b) 0 = Some (take (Z.to_nat (b_plen b)) (b_header b))) by (rewrite load_len_ok; [done|lia|lia|rewrite Hh, buffer_1547; lia]).
  set (o := To_server (take (Z.to_nat (b_plen b)) (b_header b)) (s_addr sv)). set (s1 := set_out (d_out s ++ [o]) (set_calls (S (d_calls s)) s)).
  destruct (serves dom sv) eqn:Hserves.
  - exists true, (set_bufs (<[k := b1]> (dnsMsgBuf s)) s1), p1, [o]. split; [|split; [|split; [done|split]]].
    + eapply run_bind; [by apply buf_at_run|]. eapply run_bind; [rewrite Hnext; by apply srv_run|]. rewrite Hserves.
      eapply run_bind; [eapply run_bind; [by rewrite Hload|]; by apply sendto_run|]. fold o s1. eapply run_bind; [by apply Hnx|].
      eapply run_bind; [by apply (change_buf_run s1 k b)|]. reflexivity.
    + exists (S (d_calls s)). split; [done|lia].
    + intros _. exists m. split; [lia|]. by exists ((p1, sv1) :: r1).
    + intros sv' Hah _. destruct (Hstep1 sv' Hah) as [->|Hah']; [left; by left|by right].
  - set (s2 := set_bufs (<[k := b1]> (dnsMsgBuf s)) s).
    assert (Hstep : forall again s' p' o', (if bool_decide (Some p1 = b_firstsentto b) then mret false else reforward_loop fuel k dom) s2 = Ok again s' ->
      resent_to k (set_nextsentto (Some p') b1) o' s2 s' -> p' ∈ l.*1 -> (again = true -> exists m', (m' <= m)%nat /\ dist p' q m') ->
      (forall sv', ahead p1 q sv' -> serves dom sv' = true -> To_server (take (Z.to_nat (b_plen b)) (b_header b)) (s_addr sv') ∈ o' \/ (again = true /\ ahead p' q sv')) ->
      exists again s' p' o', reforward_loop (S fuel) k dom s = Ok again s' /\ resent_to k (set_nextsentto (Some p') b) o' s s' /\ p' ∈ l.*1
        /\ (again = true -> exists m', (m' <= m)%nat /\ dist p' q m')
        /\ forall sv', ahead p q sv' -> serves dom sv' = true -> To_server (take (Z.to_nat (b_plen b)) (b_header b)) (s_addr sv') ∈ o' \/ (again = true /\ ahead p' q sv')).
    { intros again s' p' o' Hrun (n & -> & Hn) Hin Hd Htold. eexists again, _, p', o'. split; [|split; [|split; [done|split; [done|]]]].
      - cbn [reforward_loop]. eapply run_bind; [by apply buf_at_run|]. eapply run_bind; [rewrite Hnext; by apply srv_run|]. rewrite Hserves.
        eapply run_bind; [reflexivity|]. eapply run_bind; [by apply Hnx|]. eapply run_bind; [by apply (change_buf_run s k b)|]. exact Hrun.
      - exists n. split; [|done]. subst s2. cbn. by rewrite list_insert_insert_eq.
      - intros sv' Hah Hsv'. destruct (Hstep1 sv' Hah) as [->|Hah']; [congruence|]. by apply Htold. }
    destruct (decide (p1 = q)) as [->|Hne].
    + apply (Hstep false s2 q []); [by rewrite Hfirst, bool_decide_eq_true_2| |done|done|].
      * exists (d_calls s). rewrite app_nil_r. split; [|done]. subst s2. destruct s. cbn. by rewrite list_insert_insert_eq.
      * intros sv' Hah. by apply ahead_same in Hah; [|apply Hsv].
    + destruct m as [|m]; [exfalso; cbn in Hq1; congruence|].
      assert (Hk2 : dnsMsgBuf s2 !! k = Some b1) by (cbn; apply list_lookup_insert_eq; by eapply lookup_lt_Some).
      destruct (IH m (Nat.lt_succ_diag_r m) fuel s2 b1 p1 sv1 r1) as (again & s' & p' & o' & Hrun & Hres & Hin & Hd & Htold); try done; [lia|].
      apply (Hstep again s' p' o'); [|done|done| |done].
      * rewrite Hfirst, bool_decide_eq_false_2 by congruence. exact Hrun.
      * intros Ha. destruct (Hd Ha) as (m' & Hm' & Hdist). exists m'. split; [lia|done].
Qed.
(** The copy of a query is sent to the next server, when there is one that was not tried. *)
Lemma reforward_run i f k b p q m s : sends -> table_ok l s -> ftab s !! i = Some f -> f_msg_buf f = Some (Some k) -> dnsMsgBuf s !! k = Some b -> buf_fine l b ->
  b_nextsentto b = Some p -> b_firstsentto b = Some q -> dist p q m ->
  exists again s' b' o, reforward_query i s = Ok again s' /\ resent_to k b' o s s' /\ buf_fine l b' /\ length (b_header b') = BUFFER
    /\ (again = true -> exists p' m', b_nextsentto b' = Some p' /\ b_firstsentto b' = Some q /\ (m' < m)%nat /\ dist p' q m')
    /\ query_of f b' = query_of f b
    /\ forall sv', untried b sv' -> To_server (query_of f b) (s_addr sv') ∈ o \/ (again = true /\ untried b' sv').
Proof.
  intros Hs Hok Hi Hbp Hk Hfine Hp Hq (r & Hrot & Hr0 & Hrm). assert (Hbuf : buf_of f s = Ok (Some k) s) by (unfold buf_of; by rewrite Hbp).
  assert (Hhl : length (b_header b) = BUFFER) by (pose proof (tk_headers _ _ Hok) as Hh; rewrite Forall_lookup in Hh; exact (Hh k b Hk)).
  destruct (decide (p = q)) as [->|Hne].
  { exists false, s, b, []. split; [|split; [|split; [done|split; [done|split; [done|split; [done|]]]]]].
    - unfold reforward_query. eapply run_bind; [by apply frec_at_run|]. eapply run_bind; [exact Hbuf|]. eapply run_bind; [by apply buf_at_run|].
      by rewrite Hp, Hq, bool_decide_eq_true_2.
    - exists (d_calls s). rewrite app_nil_r, list_insert_id by done. split; [by destruct s|done].
    - intros sv' (p' & q' & svq & Hp' & Hq' & _ & Hah & _). assert (p' = q') as -> by congruence. by apply ahead_same in Hah; [|apply Hok]. }
  assert (Hql : q ∈ l.*1) by (destruct Hfine as [_ (q' & Hq' & Hin) _ _ _]; congruence). destruct Hfine as [F1 _ _ F4 F5].
  set (h := list_inserts 0 (be16 (f_new_id f)) (b_header b)). set (b1 := set_b_header h b). set (s1 := set_bufs (<[k := b1]> (dnsMsgBuf s)) s).
  assert (Hst : store (be16 (f_new_id f)) (b_header b) 0 = Some h) by (apply store_ok; [lia|rewrite Hhl, buffer_1547; cbn; lia]).
  assert (Hk1 : dnsMsgBuf s1 !! k = Some b1) by (cbn; apply list_lookup_insert_eq; by eapply lookup_lt_Some).
  assert (Hh1 : length h = BUFFER) by (unfold h; by rewrite length_inserts).
  destruct r as [|[p' svp] r]; [done|]. cbn in Hr0. injection Hr0 as ->. destruct m as [|m]; [cbn in Hrm; congruence|].
  assert (Hql' := Hql). apply list_elem_of_fmap in Hql' as ([q' svq] & Eq & Hin). cbn [fst] in Eq. subst q'.
  pose proof (chain_in _ _ _ _ (so_chain _ _ (tk_servers _ _ Hok)) Hin) as Hsq.
  pose proof (chain_size _ _ (so_chain _ _ (tk_servers _ _ Hok)) (so_nodup _ _ (tk_servers _ _ Hok))) as Hsize.
  assert (Hm : (m < size (d_heap s) + 1)%nat).
  { apply lookup_lt_Some in Hrm. rewrite length_fmap in Hrm. rewrite (Permutation_length (rot_perm _ _ Hrot)) in Hrm. lia. }
  destruct (reforward_loop_run k (s_domain svq) q Hs m (size (d_heap s) + 1) s1 b1 p svp r) as (again & s' & p' & o & Hrun & (n & -> & Hn) & Hin' & Hd & Htold); try done; [apply Hok|].
  assert (Hsame : query_of f (set_nextsentto (Some p') b1) = query_of f b) by (unfold query_of; change (b_header (set_nextsentto (Some p') b1)) with h; unfold h; rewrite inserts_twice; [done|rewrite Hhl; pose proof buffer_1547; cbn [be16 length]; lia]).
  exists again. eexists _, (set_nextsentto (Some p') b1), o. split; [|split; [|split; [|split; [done|split; [|split; [done|]]]]]].
  - unfold reforward_query. eapply run_bind; [by apply frec_at_run|]. eapply run_bind; [exact Hbuf|]. eapply run_bind; [by apply buf_at_run|].
    rewrite Hp, Hq, bool_decide_eq_false_2 by congruence. eapply run_bind; [by apply srv_run|]. eapply run_bind; [by rewrite Hst|].
    eapply run_bind; [by apply (change_buf_run s k b)|]. eapply run_bind; [apply gets_run|]. exact Hrun.
  - exists n. split; [|done]. subst s1. cbn. by rewrite list_insert_insert_eq.
  - split; cbn; eauto.
  - intros Ha. destruct (Hd Ha) as (m' & Hm' & Hdist). exists p', m'. split; [done|]. split; [done|]. split; [lia|done].
  - intros sv' (p0 & q0 & svq0 & Hp0 & Hq0 & Hin0 & Hah & Hserves). assert (p0 = p) as -> by congruence. assert (q0 = q) as -> by congruence.
    assert (svq0 = svq) as -> by (eapply key_unique; [apply Hok|exact Hin0|exact Hin]).
    destruct (Htold sv' Hah Hserves) as [Ho|[-> Hah']]; [left; exact Ho|]. right. split; [done|]. by exists p', q, svq.
Qed.

(** ** A silent network *)

(** How long an entry can last: [n] checks, seen from the time [t]. *)
Definition within (t n : Z) (bufs : list msg_buf) (f : frec) : Prop := active f -> f_time f <= t /\ match own f with
  | Some k => exists b p q m, bufs !! k = Some b /\ b_nextsentto b = Some p /\ b_firstsentto b = Some q /\ dist p q m /\ 6 + Z.of_nat m <= n
  | None => Z.max 1 (5 - (t - f_time f)) <= n
  end.
Definition given_up (w : waiting) : dns_output := To_client (w_fd w) (empty_packet (w_orig w)) (w_addr w).
(** What a check does to the entry [i]. *)
Record checked (now : Z) (i : nat) (f f' : frec) (s s' : dns) : Prop := Checked {
  ck_table : table_ok l s';
  ck_rest : same_rest s s';
  ck_ftab : ftab s' = <[i := f']> (ftab s);
  ck_calls : (d_calls s <= d_calls s')%nat;
  ck_out : exists o, d_out s' = d_out s ++ o /\ (forall w, awaits f = Some w -> awaits f' = Some w \/ given_up w ∈ o)
    /\ forall x, to_send (dnsMsgBuf s) f x -> x ∈ o \/ to_send (dnsMsgBuf s') f' x;
  ck_others : forall k, own f <> Some k -> dnsMsgBuf s' !! k = dnsMsgBuf s !! k;
  ck_within : forall t n, within t n (dnsMsgBuf s) f -> t + 1 <= now -> within now (n - 1) (dnsMsgBuf s') f'
}.
(** The entry stays as it is: it is free, or its time has not come. *)
Lemma checked_same now i f s : table_ok l s -> ftab s !! i = Some f ->
  (active f -> match own f with Some _ => now - f_time f < 1 | None => now - f_time f < 5 end) -> checked now i f f s s.
Proof.
  intros Hok Hi Ht. split; [done|apply same_rest_refl|by rewrite list_insert_id|done| |done|].
  - exists []. rewrite app_nil_r. split; [done|]. split; [intros w Hw; by left|]. intros x Hx. by right.
  - intros t n Hw Hnow Ha. destruct (Hw Ha) as [Hf Hn]. specialize (Ht Ha). destruct (own f) as [k|]; [lia|]. split; lia.
Qed.
(** A query that was waited for in vain. *)
Lemma checked_answer now i f d s : sends -> table_ok l s -> ftab s !! i = Some f -> active f -> own f = None -> f_data f = Some d ->
  checked now i f (set_new_id 0 f) s
    (set_ftab (<[i := set_new_id 0 f]> (ftab s)) (set_out (d_out s ++ [To_client (f_fd d) (empty_packet (f_orig_id d)) (f_source d)]) (set_calls (S (d_calls s)) s))).
Proof.
  intros Hs Hok Hi Ha Ho Hd. set (s1 := set_out _ _). split; [|by split|done|cbn; lia| |done|by intros t n _ _ []].
  - apply (freed_entry_ok l i f s1); [by apply (sent_ok l _ s)|done|done].
  - eexists. split; [done|]. split; [|by intros x Hx%to_send_none].
    intros w Hw. right. rewrite (awaits_active f d Ha Hd) in Hw. injection Hw as <-. by left.
Qed.
(** A query that is sent again, or whose buffer is given back. *)
Lemma checked_retry again now i f k b b' o s s' : table_ok l s -> ftab s !! i = Some f -> active f -> f_msg_buf f = Some (Some k) ->
  dnsMsgBuf s !! k = Some b -> resent_to k b' o s s' -> buf_fine l b' -> length (b_header b') = BUFFER -> query_of f b' = query_of f b ->
  (forall sv, untried b sv -> To_server (query_of f b) (s_addr sv) ∈ o \/ (again = true /\ untried b' sv)) ->
  (forall t n, within t n (dnsMsgBuf s) f -> t + 1 <= now -> again = true -> within now (n - 1) (<[k := b']> (dnsMsgBuf s)) (set_time now f)) ->
  (forall t n, within t n (dnsMsgBuf s) f -> f_time f <= t /\ 6 <= n) ->
  let f' := if again then set_time now f else set_msg_buf None f in
  let b'' := if again then b' else set_usedflag false b' in
  checked now i f f' s (set_ftab (<[i := f']> (ftab s)) (set_bufs (<[k := b'']> (dnsMsgBuf s)) s')).
Proof.
  intros Hok Hi Ha Hbp Hk (n0 & -> & Hn0) Hfine Hh Hquery Htold Hagain Hleft f' b''. pose proof (active_own f k Ha Hbp) as Hown.
  pose proof (lookup_lt_Some _ _ _ Hk) as Hlt.
  assert (Hid : f_new_id f' = f_new_id f) by (by destruct again). assert (Hd : f_data f' = f_data f) by (by destruct again).
  split; [|by split|done|done| | |]; cbn [dnsMsgBuf set_ftab set_bufs set_out set_calls ftab d_out d_calls].
  - apply (same_table_ok l (set_ftab (<[i := f']> (ftab s)) (set_bufs (<[k := b'']> (dnsMsgBuf s)) s))); [by split|].
    apply (change_owned l s i f); [done|done|done|done|done| | | |by right|].
    + intros j g Hji Hg Hgk. apply Hji. by eapply (tk_owners _ _ Hok).
    + by rewrite (tk_bufs _ _ Hok) in Hlt.
    + by destruct again.
    + destruct again; [left; by split|right; by split].
  - exists o. split; [done|]. split; [intros w Hw; left; by rewrite (awaits_same f f')|].
    intros x (k' & b0 & sv & Hk' & Hb0 & Hun & ->). assert (k' = k) as -> by congruence. assert (b0 = b) as -> by congruence.
    destruct (Htold sv Hun) as [Ho|[-> Hun']]; [by left|]. right. exists k, b', sv. split; [done|]. split; [by apply list_lookup_insert_eq|]. by rewrite <- Hquery.
  - intros q Hq. rewrite list_lookup_insert_ne; [done|congruence].
  - intros t n Hw Ht. destruct (Hleft t n Hw) as [Hft Hn]. destruct again; [by apply (Hagain t n)|]. intros Ha'. split; [cbn; lia|].
    assert (Ho : own f' = None) by (unfold own, f'; cbn; by destruct (f_new_id f =? 0)). rewrite Ho. cbn. lia.
Qed.
Lemma check_response_run now i f s : sends -> table_ok l s -> ftab s !! i = Some f ->
  exists s' f', check_response now i s = Ok tt s' /\ checked now i f f' s s'.
Proof.
  intros Hs Hok Hi. destruct (Z.eqb_spec (f_new_id f) 0) as [H0|Ha].
  { exists s, f. split; [|by apply checked_same; [| |intros []]]. unfold check_response. eapply run_bind; [by apply frec_at_run|]. by rewrite (proj2 (Z.eqb_eq _ _) H0). }
  destruct (tk_entries _ _ Hok i f Hi Ha) as [_ (d & p0 & Hd & _) (bp & Hbp & Hj)].
  assert (Hbuf : buf_of f s = Ok bp s) by (unfold buf_of; by rewrite Hbp).
  assert (Hstart : forall m s', match bp with
      | Some _ => when (DNS_TIMER <=? now - f_time f) (again ← reforward_query i; if again : bool then change_frec i (set_time now) else free_dns_msg_buf bp;; change_frec i (set_msg_buf None))
      | None => when (WAIT_TIMEOUT <=? now - f_time f) (d ← data_of f; _ ← sendto (To_client (f_fd d) (empty_packet (f_orig_id d)) (f_source d)); change_frec i (set_new_id 0))
      end s = Ok m s' -> check_response now i s = Ok m s').
  { intros m s' Hrun. unfold check_response. eapply run_bind; [by apply frec_at_run|]. rewrite (proj2 (Z.eqb_neq _ _) Ha). eapply run_bind; [exact Hbuf|]. exact Hrun. }
  destruct bp as [k|].
  - pose proof (active_own f k Ha Hbp) as Hown. destruct (Z.leb_spec DNS_TIMER (now - f_time f)) as [Ht|Ht].
    2: { exists s, f. split; [by apply Hstart|]. apply checked_same; [done|done|]. intros _. by rewrite Hown. }
    destruct (Hj k eq_refl) as (b & Hk & Hfine). destruct (bf_first _ _ Hfine) as (q & Hq & Hql). destruct (bf_next _ _ Hfine) as (p & Hp & Hpl).
    destruct (dist_start p q Hpl Hql) as (m & _ & Hdist).
    destruct (reforward_run i f k b p q m s) as (again & s1 & b' & o & Hrun & Hres & Hfine' & Hh & Hagain & Hquery & Htold); try done.
    assert (Hknown : forall t n, within t n (dnsMsgBuf s) f -> f_time f <= t /\ 6 + Z.of_nat m <= n).
    { intros t n Hw. destruct (Hw Ha) as [Hft Hn]. rewrite Hown in Hn. destruct Hn as (b0 & p' & q' & m' & Hb0 & Hp' & Hq' & Hd' & Hn).
      replace m with m'; [done|]. apply (dist_unique p q); [apply Hok| |done]. congruence. }
    assert (Hft : ftab s1 !! i = Some f) by (by destruct Hres as (n & -> & _)).
    assert (Hk1 : dnsMsgBuf s1 !! k = Some b') by (destruct Hres as (n & -> & _); cbn; apply list_lookup_insert_eq; by eapply lookup_lt_Some).
    assert (Hb1 : ftab s1 = ftab s /\ dnsMsgBuf s1 = <[k := b']> (dnsMsgBuf s)) by (by destruct Hres as (n & -> & _)). destruct Hb1 as [Ef Eb].
    eexists _, _. split; [|apply (checked_retry again now i f k b b' o s s1); [done|done|done|done|done|done|done|done|done|done| |]].
    + apply Hstart. cbn [when]. eapply run_bind; [exact Hrun|]. destruct again.
      * rewrite (change_frec_run s1 i f _ Hft), <- Ef, <- Eb. by destruct s1.
      * eapply run_bind; [exact (change_buf_run s1 k b' _ Hk1)|]. rewrite (change_frec_run (set_bufs _ s1) i f _ Hft). cbn [ftab set_bufs].
        by rewrite Ef, Eb, list_insert_insert_eq.
    + intros t n Hw Htn ->. destruct (Hknown t n Hw) as [Hft' Hn]. destruct (Hagain eq_refl) as (p' & m' & Hp' & Hq' & Hm' & Hd').
      intros _. split; [cbn; lia|]. change (own (set_time now f)) with (own f). rewrite Hown. exists b', p', q, m'.
      split; [rewrite <- Eb; exact Hk1|]. split; [done|]. split; [done|]. split; [done|lia].
    + intros t n Hw. destruct (Hknown t n Hw). lia.
  - assert (Hown : own f = None) by (unfold own; rewrite Hbp; by destruct (f_new_id f =? 0)). destruct (Z.leb_spec WAIT_TIMEOUT (now - f_time f)) as [Ht|Ht].
    + eexists _, _. split; [|by apply (checked_answer now i f d s)]. apply Hstart. cbn [when].
      eapply run_bind; [by apply data_of_run|]. eapply run_bind; [by apply sendto_run|].
      exact (change_frec_run (set_out _ (set_calls _ s)) i f _ Hi).
    + exists s, f. split; [|by apply checked_same; [| |rewrite Hown]]. by apply Hstart.
Qed.
(** What the entry [j] has still to send. *)
Definition asks_still (s : dns) (j : nat) (x : dns_output) : Prop := exists f, ftab s !! j = Some f /\ to_send (dnsMsgBuf s) f x.
(** What a round of checks does, from the entry [i] on. *)
Record turned (now : Z) (i : nat) (s s' : dns) : Prop := Turned {
  tn_table : table_ok l s';
  tn_rest : same_rest s s';
  tn_calls : (d_calls s <= d_calls s')%nat;
  tn_out : exists o, d_out s' = d_out s ++ o
    /\ (forall j w, pending s !! j = Some (Some w) -> pending s' !! j = Some (Some w) \/ given_up w ∈ o)
    /\ forall j x, (i <= j)%nat -> asks_still s j x -> x ∈ o \/ asks_still s' j x;
  tn_before : forall j f, (j < i)%nat -> ftab s !! j = Some f -> ftab s' !! j = Some f /\ forall k, own f = Some k -> dnsMsgBuf s' !! k = dnsMsgBuf s !! k;
  tn_after : forall j f, (i <= j)%nat -> ftab s !! j = Some f -> exists f', ftab s' !! j = Some f'
    /\ forall t n, within t n (dnsMsgBuf s) f -> t + 1 <= now -> within now (n - 1) (dnsMsgBuf s') f'
}.
Lemma within_frame t n bufs bufs' f : (forall k, own f = Some k -> bufs' !! k = bufs !! k) -> within t n bufs f -> within t n bufs' f.
Proof.
  intros Hb Hw Ha. destruct (Hw Ha) as [Hf Hn]. split; [done|]. destruct (own f) as [k|]; [|done]. by rewrite (Hb k eq_refl).
Qed.
(** The owners of other buffers. *)
Lemma checked_frame now i f f' s s' j g k : table_ok l s -> checked now i f f' s s' -> ftab s !! i = Some f -> j <> i -> ftab s !! j = Some g ->
  own g = Some k -> dnsMsgBuf s' !! k = dnsMsgBuf s !! k.
Proof. intros Hok Hc Hi Hji Hg Hk. apply (ck_others _ _ _ _ _ _ Hc). intros Hf. apply Hji. by eapply (tk_owners _ _ Hok). Qed.
Lemma pending_at s j f : ftab s !! j = Some f -> pending s !! j = Some (awaits f).
Proof. intros H. unfold pending. by rewrite list_lookup_fmap, H. Qed.
Lemma asks_step now i f f' s s1 s' o o' : table_ok l s -> ftab s !! i = Some f -> checked now i f f' s s1 ->
  ftab s1 !! i = Some f' -> (forall j, j <> i -> ftab s1 !! j = ftab s !! j) -> ftab s' !! i = Some f' -> (forall k, own f' = Some k -> dnsMsgBuf s' !! k = dnsMsgBuf s1 !! k) ->
  (forall x, to_send (dnsMsgBuf s) f x -> x ∈ o \/ to_send (dnsMsgBuf s1) f' x) -> (forall j x, (S i <= j)%nat -> asks_still s1 j x -> x ∈ o' \/ asks_still s' j x) ->
  forall j x, (i <= j)%nat -> asks_still s j x -> x ∈ o ++ o' \/ asks_still s' j x.
Proof.
  intros Hok Hi Hc Hi1 Hne Hi' Hb' Hx Hrest j x Hj (g & Hg & Hsend). rewrite elem_of_app. destruct (decide (j = i)) as [->|Hji].
  - assert (g = f) as -> by congruence. destruct (Hx x Hsend) as [|Hsend1]; [auto|]. right. exists f'. split; [done|]. by eapply to_send_frame.
  - destruct (Hrest j x) as [|]; [lia| |auto|auto]. exists g. rewrite Hne by done. split; [done|].
    eapply to_send_frame; [|exact Hsend]. intros k Hk. by eapply checked_frame.
Qed.
Lemma turned_step now i f f' s s1 s' : table_ok l s -> ftab s !! i = Some f -> checked now i f f' s s1 -> turned now (S i) s1 s' -> turned now i s s'.
Proof.
  intros Hok Hi Hc [T1 T2 T3 (o' & Ho' & T4 & T7) T5 T6]. pose proof (lookup_lt_Some _ _ _ Hi) as Hlt.
  assert (Hi1 : ftab s1 !! i = Some f') by (rewrite (ck_ftab _ _ _ _ _ _ Hc); by apply list_lookup_insert_eq).
  assert (Hne : forall j, j <> i -> ftab s1 !! j = ftab s !! j) by (intros j Hj; rewrite (ck_ftab _ _ _ _ _ _ Hc); by apply list_lookup_insert_ne).
  destruct (T5 i f' (Nat.lt_succ_diag_r i) Hi1) as [Hi' Hb']. destruct (ck_out _ _ _ _ _ _ Hc) as (o & Ho & Hw & Hx).
  split; [done|by eapply same_rest_trans; [apply Hc|]|pose proof (ck_calls _ _ _ _ _ _ Hc); lia| | |].
  - exists (o ++ o'). rewrite Ho', Ho, app_assoc. split; [done|]. split; [|by apply (asks_step now i f f' s s1 s')]. intros j w Hj.
    assert (Hj1 : pending s1 !! j = Some (Some w) \/ given_up w ∈ o).
    { destruct (decide (j = i)) as [->|Hji]; [|left; unfold pending in *; by rewrite list_lookup_fmap, Hne, <- list_lookup_fmap].
      rewrite (pending_at s i f Hi) in Hj. injection Hj as Hj. rewrite (pending_at s1 i f' Hi1). destruct (Hw w Hj) as [->|]; auto. }
    rewrite elem_of_app. destruct Hj1 as [Hj1|Hj1]; [|auto]. destruct (T4 j w Hj1); auto.
  - intros j g Hj Hg. assert (Hji : j <> i) by lia. rewrite <- (Hne j Hji) in Hg. destruct (T5 j g) as [Hg' Hb]; [lia|done|]. split; [done|].
    intros k Hk. rewrite (Hb k Hk). rewrite (Hne j Hji) in Hg. by eapply checked_frame.
  - intros j g Hj Hg. destruct (decide (j = i)) as [->|Hji].
    + rewrite Hi in Hg. injection Hg as <-. exists f'. split; [done|]. intros t n Hwt Ht. apply (within_frame _ _ (dnsMsgBuf s1)); [done|].
      by apply (ck_within _ _ _ _ _ _ Hc t).
    + assert (Hg1 := Hg). rewrite <- (Hne j Hji) in Hg1. destruct (T6 j g) as (g' & Hg' & Hwg); [lia|done|]. exists g'. split; [done|].
      intros t n Hwt Ht. apply (Hwg t n); [|done]. apply (within_frame _ _ (dnsMsgBuf s)); [|done]. intros k Hk. by eapply checked_frame.
Qed.
Lemma checks_run now : sends -> forall n i s, table_ok l s -> (i + n = FTABSIZ)%nat -> exists s', for_n n i (check_response now) s = Ok tt s' /\ turned now i s s'.
Proof.
  intros Hs. induction n as [|n IH]; intros i s Hok Hn.
  - exists s. split; [done|]. split; [done|apply same_rest_refl|done| |done|].
    + exists []. rewrite app_nil_r. split; [done|]. split; [intros j w Hj; by left|]. intros j x _ Hx. by right.
    + intros j f Hj Hf. exfalso. apply lookup_lt_Some in Hf. rewrite (tk_length _ _ Hok) in Hf. lia.
  - destruct (lookup_lt_is_Some_2 (ftab s) i) as [f Hi]; [rewrite (tk_length _ _ Hok); lia|].
    destruct (check_response_run now i f s Hs Hok Hi) as (s1 & f' & Hrun & Hc).
    destruct (IH (S i) s1) as (s' & Hrun' & Ht); [apply Hc|lia|]. exists s'. split; [|by eapply turned_step].
    cbn [for_n]. eapply run_bind; [exact Hrun|exact Hrun'].
Qed.
Lemma check_servers_run s : sends -> table_ok l s -> exists s', check_servers_response s = Ok tt s' /\ turned (denv_time (d_calls s)) 0 (set_calls (S (d_calls s)) s) s'.
Proof.
  intros Hs Hok. destruct (checks_run (denv_time (d_calls s)) Hs FTABSIZ 0 (set_calls (S (d_calls s)) s)) as (s' & Hrun & Ht);
    [by apply (same_table_ok l s)|done|]. exists s'. split; [|done]. unfold check_servers_response. eapply (run_bind time_); [reflexivity|]. exact Hrun.
Qed.
End retries.

(** ** Any datagram *)

Section datagrams.
Context `{E : DnsEnv}.
Context (l : list (nat * server)).
Implicit Types s : dns.

(** What comes from the network are bytes, and no reply has the identifier 0: such a reply
    finds a free entry of the table, whose contents are garbage or those of an old query. *)
Definition datagrams_ok : Prop := forall n bytes src, denv_recv n = Some (bytes, src) ->
  Forall is_byte bytes /\ (forall b2, take 3 bytes = [0; 0; b2] -> h_qr b2 = false).
Definition known_last (last : option nat) : Prop := l <> [] -> exists q, last = Some q /\ q ∈ l.*1.

(** The message that came, cut to the size of the packet. *)
Definition arrived (r : option (list Z * sockaddr)) : list Z := match r with Some (bytes, _) => take (Z.to_nat PACKETSZ) bytes | None => [] end.
Lemma receive_good r s : (forall bytes src, r = Some (bytes, src) -> Forall is_byte bytes) -> msg_ok s -> table_ok l s ->
  exists n s1, receive r s = Ok n s1 /\ msg_ok s1 /\ table_ok l s1 /\ (n = -1 \/ 0 <= n <= PACKETSZ)
    /\ d_packet s1 = arrived r ++ drop (length (arrived r)) (d_packet s) /\ (n = -1 \/ n = Z.of_nat (length (arrived r))).
Proof.
  intros Hr Hmsg Hok. destruct r as [[bytes src]|]; [|exists (-1), s; split; [done|split; [done|split; [done|split; [by left|split; [done|by left]]]]]].
  set (b := take (Z.to_nat PACKETSZ) bytes). assert (Hl : (length b <= Z.to_nat PACKETSZ)%nat) by (unfold b; rewrite length_take; lia).
  destruct (receive_run b src s Hmsg Hl) as [Hrun Hmsg1]; [by apply Forall_take, (Hr bytes src)|].
  exists (Z.of_nat (length b)), (filled_with b s). split; [|split; [done|split; [by apply packet_table|split; [right; unfold PACKETSZ in *; lia|split; [done|by right]]]]].
  unfold receive in *. fold b. unfold b in Hrun. by rewrite take_take, Nat.min_id in Hrun.
Qed.
(** Any reply that belongs to an entry. *)
Lemma found_good last i f n i1 i2 b2 b3 tail s : sends -> msg_ok s -> table_ok l s -> known_last last -> ftab s !! i = Some f -> active f ->
  d_packet s = i1 :: i2 :: b2 :: b3 :: tail -> 4 <= n <= PACKETSZ -> goodt l (found_reply last i n b2 b3) known_last s.
Proof.
  intros Hs Hmsg Hok Hlast Hi Ha Hp Hn. destruct (gives_up (h_rcode b3)) eqn:Hg.
  - unfold found_reply. cbv zeta. unfold gives_up in Hg. rewrite Hg. destruct (Z.eqb_spec (h_rcode b3) NOERROR) as [He|_]; [by rewrite He in Hg|by apply goodt_ret].
  - destruct (tk_entries _ _ Hok i f Hi Ha) as [_ (d & p & Hd & Hto & Hpl) _]. apply list_elem_of_fmap in Hpl as ([p' sv] & Ep & Hin). cbn [fst] in Ep. subst p'.
    pose proof (f_equal length Hp) as Hlen. rewrite (bo_packet _ (mo_bufs _ Hmsg)) in Hlen. cbn [length] in Hlen. pose proof buffer_1547. unfold PACKETSZ in Hn.
    destruct (found_run l last i f d p sv n i1 i2 b2 b3 (take (Z.to_nat n - 4) tail) (drop (Z.to_nat n - 4) tail) s) as (s' & Hrun & Hok' & Hmsg' & _); try done.
    + by rewrite take_drop.
    + rewrite length_take. lia.
    + unfold PACKETSZ. lia.
    + eapply twp_run; [exact Hrun|]. split; [|by split]. unfold new_last. destruct (_ && _); [|done]. intros _. exists p. split; [done|].
      apply list_elem_of_fmap. by exists (p, sv).
Qed.
(** Any reply. *)
Lemma reply_query_good last s : sends -> datagrams_ok -> msg_ok s -> table_ok l s -> known_last last -> goodt l (reply_query last) known_last s.
Proof.
  intros Hs Hdg Hmsg Hok Hlast. set (s0 := set_calls (S (d_calls s)) s). set (r := denv_recv (d_calls s)).
  assert (Hr : forall bytes src, r = Some (bytes, src) -> Forall is_byte bytes) by (intros bytes src Hr; by apply (Hdg _ _ _ Hr)).
  destruct (receive_good r s0 Hr) as (n & s1 & Hrun & Hmsg1 & Hok1 & Hn & Hp & Hn'); [by apply set_calls_ok|by apply (same_table_ok l s)|].
  unfold reply_query. eapply goodt_run; [reflexivity|]. fold s0 r. eapply goodt_run; [exact Hrun|]. assert (Hlen := bo_packet _ (mo_bufs _ Hmsg1)).
  destruct (d_packet s1) as [|i1 [|i2 [|b2 [|b3 tail]]]] eqn:Hpk; try (pose proof buffer_1547; cbn in Hlen; lia).
  eapply goodt_run; [exact (peek_at [i1; i2] b2 _ s1 Hpk)|]. destruct ((n <? sizeof_HEADER) || negb (h_qr b2)) eqn:Hshort; [by apply goodt_ret|].
  apply orb_false_iff in Hshort as [Hsz%Z.ltb_ge Hqr%negb_false_iff]. unfold sizeof_HEADER in Hsz. destruct Hn' as [->|Hn']; [lia|]. destruct Hn as [->|Hn]; [lia|].
  destruct (packet_id i1 i2 _ s1 (mo_bufs _ Hmsg1) Hpk) as (Hid & H1 & H2). eapply goodt_run; [exact Hid|].
  eapply goodt_run; [apply lookup_frec_run|]. destruct (find_id (ftab s1) 0 (i1 * 256 + i2)) as [i|] eqn:Hf; [|by apply goodt_ret].
  destruct (find_id_some _ _ _ _ Hf) as (f & _ & Hi & Hfid). rewrite Nat.sub_0_r in Hi.
  assert (Ha : active f).
  { unfold active. rewrite Hfid. unfold is_byte in *. intros H0. assert (i1 = 0) as -> by lia. assert (i2 = 0) as -> by lia.
    destruct r as [[bytes src]|] eqn:Er; [|cbn in Hn'; lia]. cbn [arrived] in *. destruct (Hdg _ _ _ Er) as [_ Hz].
    assert (H3 : take 3 bytes = [0; 0; b2]); [|by rewrite (Hz _ H3) in Hqr]. apply (f_equal (take 3)) in Hp. cbn in Hp.
    rewrite take_app_le, take_take in Hp by lia. by rewrite Hp. }
  eapply goodt_run; [exact (peek_at [i1; i2; b2] b3 _ s1 Hpk)|]. apply (found_good last i f n i1 i2 b2 b3 tail); try done. lia.
Qed.
End datagrams.
