(* ===== verification/DnsResults.v ===== *)
(** * DnsResults: the cache and the messages of the DNS forwarder

    The properties of the cache as a list of entries, of names, and of the handling of
    messages. *)

From Stdlib Require Import Ascii String.
From S2P Require Import Prelude DhcpTypes DhcpOptions DhcpConfig DnsTypes DnsCache DnsPacket DnsForward DnsMain DnsCacheProofs DnsLookup DnsName DnsSafe DnsAnswers DnsForwardProofs.
From stdpp Require Import gmap list.

#[local] Open Scope Z_scope.

Section results.
Context `{E : DnsEnv}.
Implicit Types (s : dns) (c : cache) (l : list (nat * entry)).

(** ** The cache *)

(** A test of the searches of the program. *)
Definition is_search (m : entry -> bool) : Prop :=
  (exists name prot, m = by_name name prot) \/ (exists addr prot, m = by_addr addr prot).
Lemma is_search_freed m : is_search m -> forall e, m (freed e) = false.
Proof. intros [(name & prot & ->)|(addr & prot & ->)] e; [apply by_name_freed|apply by_addr_freed]. Qed.
Lemma found_elem m now l e : e ∈ (found m now l).*2 <-> e ∈ l.*2 /\ m e = true /\ live now e = true.
Proof.
  unfold found. rewrite !list_elem_of_fmap. setoid_rewrite list_elem_of_In. setoid_rewrite <- in_rev. setoid_rewrite <- list_elem_of_In.
  setoid_rewrite list_elem_of_filter. setoid_rewrite andb_true_iff. split.
  - intros (pe & -> & (H1 & H2) & H). eauto.
  - intros ((pe & -> & H) & H1 & H2). eauto 10.
Qed.
Lemma searched_perm m now l : (searched m now l).*1 ≡ₚ l.*1.
Proof.
  unfold searched, found, others, expired. rewrite !fmap_app, <- list_fmap_compose. induction l as [|[p e] l IH]; [done|].
  rewrite !filter_cons. cbn [snd]. destruct (m e), (live now e); cbn [andb negb]; repeat case_decide; try congruence; cbn [rev fmap list_fmap fst].
  - rewrite fmap_app. cbn. rewrite <- app_assoc. cbn. rewrite <- Permutation_middle. by constructor.
  - cbn. rewrite app_assoc, <- Permutation_middle, <- app_assoc. by constructor.
  - cbn. rewrite <- Permutation_middle. by constructor.
  - cbn. rewrite <- Permutation_middle. by constructor.
Qed.

(** C30. The searches find the live entries: on a cache whose doubly linked list holds the
    entries [l], two at least (with one record, giving it up follows NULL), cache_find_by_name (or cache_find_by_addr), called again until it finds
    nothing, gives exactly the entries of the name (the address) that have not expired; after
    it the list holds the same records, those entries first and the expired ones given up at
    the end, and the counters are as they were. *)
Theorem searches_find_live m now c l fuel s : is_search m -> d_cache s = c -> linked c l -> (2 <= length l)%nat -> (length l < fuel)%nat ->
  exists c', search_all fuel m None now s = Ok (found m now l).*2 (set_cache c' s)
    /\ (forall e, e ∈ (found m now l).*2 <-> e ∈ l.*2 /\ m e = true /\ live now e = true)
    /\ linked c' (found m now l ++ others m l ++ expired m now l) /\ (found m now l ++ others m l ++ expired m now l).*1 ≡ₚ l.*1
    /\ kept (l.*1) c c'.
Proof.
  intros Hm Hc Hl Hlen Hf. destruct (search_all_run m now c l fuel s Hc Hl (is_search_freed m Hm)) as (c' & Hrun & Hl' & Hk); [done|done|].
  exists c'. split; [done|]. split; [intros e; apply found_elem|]. split; [done|]. split; [apply searched_perm|done].
Qed.

(** What an insertion leaves, for the next one. *)
Lemma insert_list_ok room name addr now ttl flags l failed l' : insertable flags -> list_ok l ->
  insert_list room name addr now ttl flags l = Some (failed, l') -> list_ok l' /\ l'.*1 ≡ₚ l.*1.
Proof.
  intros Hins Hok. unfold insert_list. set (P := superseded name addr now flags). pose proof (freeing_ok P l Hok) as Hok1.
  pose proof (freeing_perm P l) as Hperm. pose proof (last_ordinary_parts (freeing P l)) as Hlast.
  destruct (last_ordinary (freeing P l)) as [[[front [p old]] hs]|]; [|done]. destruct Hlast as (Eq & Hord & _). rewrite Eq in *.
  destruct Hok1 as [H1 _ H3]. apply Forall_app in H3 as [Hen1 [Hen2 Hen3]%Forall_cons].
  assert (Hrest : Forall (fun pe => entry_ok pe.2) (hs ++ front)) by (by apply Forall_app).
  assert (Hids : p :: (hs ++ front).*1 ≡ₚ l.*1).
  { rewrite <- Hperm, !fmap_app. cbn. rewrite <- Permutation_middle. by rewrite Permutation_app_comm. }
  assert (Hlen : length (hs ++ front) = (length l - 1)%nat).
  { rewrite <- (length_fmap fst l), <- Hids. cbn. rewrite length_fmap. lia. }
  destruct Hok as [Hl _ _]. destruct (_ || _); intros [= <- <-].
  - split; [split|].
    + rewrite length_app. cbn. lia.
    + apply Exists_app. right. by left.
    + apply Forall_app. split; [done|]. by apply Forall_singleton.
    + rewrite fmap_app. cbn. by rewrite <- Permutation_cons_append.
  - destruct (new_entry_flags name addr now ttl flags (long name) old Hins) as (Hh & _ & _ & _ & Hfw & Hrv & Hone & _).
    set (rest := if has FOUND (e_flags old) then freeing (twin old) (hs ++ front) else hs ++ front).
    assert (Hr : length rest = length (hs ++ front) /\ Forall (fun pe => entry_ok pe.2) rest /\ rest.*1 ≡ₚ (hs ++ front).*1).
    { subst rest. destruct (has FOUND _); [|done]. rewrite freeing_length. split; [done|]. split; [|apply freeing_perm].
      apply freeing_Forall; [|done]. intros q e. apply freed_ok. }
    destruct Hr as (Hr1 & Hr2 & Hr3). split; [split|].
    + cbn. lia.
    + by left.
    + constructor; [|done]. split; cbn [snd]; [rewrite Hh; done|]. intros _. unfold one_way. by rewrite Hfw, Hrv.
    + cbn. by rewrite Hr3.
Qed.
(** C29. An insertion is the function [insert_list]: with memory, on a cache of at least
    three records of which one is not from /etc/hosts or DHCP, cache_insert ends without a
    fault; its result and the new list of entries are those of [insert_list] (the superseded
    entries given up, the oldest ordinary entry overwritten and moved to the front, or a
    failure when that entry is as new or there is no room for a long name), and the new list
    is again one of the same records that the next insertion can use. *)
Theorem insertion_refines c l name addr now ttl flags s : memory -> d_cache s = c -> linked c l -> list_ok l -> insertable flags -> cache_size c <> 0 ->
  twp (cache_insert name addr now ttl flags false) (fun failed s' => exists l',
      insert_list (room_in c (released (superseded name addr now flags) l)) name addr now ttl flags l = Some (failed, l')
      /\ linked (d_cache s') l' /\ list_ok l' /\ l'.*1 ≡ₚ l.*1 /\ cache_size (d_cache s') = cache_size c /\ only_cache s s') s.
Proof.
  intros Hmem Hc Hl Hok Hins Hsz. eapply twp_mono; [by apply (cache_insert_twp c l)|]. intros failed s' (l' & Heq & Hl' & Ht & Ho).
  exists l'. split; [done|]. split; [done|]. destruct (insert_list_ok _ _ _ _ _ _ _ _ _ Hins Hok Heq) as [H1 H2].
  split; [done|]. split; [done|]. split; [apply Ht|done].
Qed.

(** What an address is inserted with. *)
Definition NAME_FLAGS : Z := Z.lor F_IPV4 F_FORWARD.
Lemma freeing_elem P l e : e ∈ (freeing P l).*2 -> (e ∈ l.*2 /\ P e = false) \/ exists e0, e = freed e0.
Proof.
  unfold freeing. rewrite fmap_app, elem_of_app. intros [H|H]; apply list_elem_of_fmap in H as (pe & -> & H).
  - apply list_elem_of_filter in H as [H1 H2]. left. split; [|done]. apply list_elem_of_fmap. by exists pe.
  - apply list_elem_of_fmap in H as (pe' & -> & _). right. by eexists.
Qed.
(** The entries of the name after an insertion: the new one, and those it may not replace. *)
Lemma insert_list_found room name a now ttl t l l' : (0 < ttl) -> 0 <= now -> now + ttl < 2147483648 -> now <= t < now + ttl -> length a = INADDRSZ ->
  insert_list room name (Some a) now ttl NAME_FLAGS l = Some (false, l') ->
  (exists e, e ∈ (found (by_name name F_IPV4) t l').*2 /\ e_addr e = a /\ e_ttd e = now + ttl)
  /\ forall e, e ∈ (found (by_name name F_IPV4) t l').*2 -> (e_addr e = a /\ e_ttd e = now + ttl)
       \/ (e ∈ l.*2 /\ (has HELD (e_flags e) || has F_NEW (e_flags e) || negb (kind (e_flags e) =? NAME_FLAGS) = true)).
Proof.
  intros Ht Hn Hs Hlive Ha. unfold insert_list. set (P := superseded name (Some a) now NAME_FLAGS).
  pose proof (last_ordinary_parts (freeing P l)) as Hlast. destruct (last_ordinary (freeing P l)) as [[[front [p old]] hs]|]; [|done].
  destruct Hlast as (Eq & _ & _). destruct (_ || _); [done|]. intros [= <-].
  set (new := new_entry name (Some a) now ttl NAME_FLAGS (long name) old).
  set (rest := if has FOUND (e_flags old) then freeing (twin old) (hs ++ front) else hs ++ front).
  assert (Hnew : e_addr new = a /\ e_ttd new = now + ttl).
  { split; [change (take INADDRSZ a = a); rewrite <- Ha; apply firstn_all|]. change (s32 (u32 (ttl + now)) = now + ttl). unfold s32, u32. change (2 ^ 32) with 4294967296. change (2 ^ 31) with 2147483648. rewrite (Z.mod_small (ttl + now)) by lia. rewrite Z.mod_small by lia. lia. }
  destruct (new_entry_flags name (Some a) now ttl NAME_FLAGS (long name) old (or_introl eq_refl)) as (_ & _ & _ & H4 & Hf & _).
  split.
  - exists new. split; [|done]. apply found_elem. split; [by left|]. split.
    + unfold by_name. change (e_flags new) with (e_flags (new_entry name (Some a) now ttl NAME_FLAGS (long name) old)). rewrite H4, Hf. cbn.
      unfold same_name. by apply bool_decide_eq_true.
    + unfold live. destruct Hnew as [_ ->]. apply orb_true_iff. right. lia.
  - intros e He. apply found_elem in He as (He & Hm & _). cbn [fmap list_fmap snd] in He. apply elem_of_cons in He as [->|He]; [by left|]. right.
    assert (Hfr : e ∈ (hs ++ front).*2 \/ exists e0, e = freed e0).
    { subst rest. destruct (has FOUND (e_flags old)); [|by left]. apply freeing_elem in He as [[He _]|He]; [by left|by right]. }
    destruct Hfr as [Hin|[e0 ->]]; [|by rewrite by_name_freed in Hm].
    assert (Hin' : e ∈ (freeing P l).*2).
    { rewrite Eq. rewrite fmap_app in *. cbn. rewrite elem_of_app, elem_of_cons. apply elem_of_app in Hin. tauto. }
    apply freeing_elem in Hin' as [[Hl HP]|[e0 ->]]; [|by rewrite by_name_freed in Hm]. split; [done|].
    unfold P, superseded in HP. unfold by_name in Hm. apply andb_true_iff in Hm as [_ Hname]. rewrite Hname in HP.
    destruct (has HELD (e_flags e)); [done|]. destruct (has F_NEW (e_flags e)); [done|]. cbn [negb andb orb] in *.
    apply orb_false_iff in HP as [_ HP]. destruct (kind (e_flags e) =? NAME_FLAGS); [|done]. cbn in HP. by rewrite ?orb_true_r in HP.
Qed.
(** C31. What is inserted is found: with memory, on a cache of at least three records of
    which one is not from /etc/hosts or DHCP, when cache_insert stores the address [a] of a
    name with a time to live whose end is before [2 ^ 31] (a later one wraps around), a
    lookup of the name before that time is over finds an entry with that address and that
    end of life; and of the entries for that name that were in the cache before, it finds
    only those an insertion leaves alone: the ones from /etc/hosts or DHCP, the ones of the
    same reply, and those of another kind. *)
Theorem inserted_is_found c l name a now ttl t s : memory -> d_cache s = c -> linked c l -> list_ok l -> cache_size c <> 0 ->
  0 < ttl -> 0 <= now -> now + ttl < 2147483648 -> now <= t < now + ttl -> length a = INADDRSZ ->
  twp (cache_insert name (Some a) now ttl NAME_FLAGS false) (fun failed s' => failed = false ->
    exists es s'', search_all (S (length l)) (by_name name F_IPV4) None t s' = Ok es s''
      /\ (exists e, e ∈ es /\ e_addr e = a /\ e_ttd e = now + ttl)
      /\ forall e, e ∈ es -> (e_addr e = a /\ e_ttd e = now + ttl)
           \/ (e ∈ l.*2 /\ (has HELD (e_flags e) || has F_NEW (e_flags e) || negb (kind (e_flags e) =? NAME_FLAGS) = true))) s.
Proof.
  intros Hmem Hc Hl Hok Hsz H1 H2 H3 H4 Ha. assert (Hins : insertable NAME_FLAGS) by by left.
  eapply twp_mono; [by apply (cache_insert_twp c l)|]. intros failed s' (l' & Heq & Hl' & _ & _) ->.
  destruct (insert_list_ok _ _ _ _ _ _ _ _ _ Hins Hok Heq) as [Hok' Hids].
  assert (Hlen : length l' = length l) by (rewrite <- !(length_fmap fst); by rewrite Hids).
  destruct (search_all_run (by_name name F_IPV4) t _ l' (S (length l)) s' eq_refl Hl') as (c'' & Hrun & _ & _).
  { intros e. apply by_name_freed. }
  { destruct Hok' as [Hl3 _ _]. lia. }
  { lia. }
  exists (found (by_name name F_IPV4) t l').*2, (set_cache c'' s'). split; [done|]. by eapply insert_list_found.
Qed.

(** ** Names *)

(** C32. Names are read back as they are written: of a message in which the program's
    encoding of a name of lower-case labels stands, extract_name gives the name and the place
    after it; and of a place with the compressed form of the program's records, a pointer to
    that name, it gives the same name and the place after the pointer. *)
Theorem names_read_back plen pre post ls q s :
  let p := Z.of_nat (length pre) in
  let name := name_of ls in
  d_packet s = pre ++ encoded name ++ post -> length (d_packet s) = BUFFER -> Forall label_ok ls -> ls <> [] ->
  Z.of_nat (length name) + 1 < MAXDNAME -> Z.of_nat (length (d_name s)) = MAXDNAME -> p + Z.of_nat (length (encoded name)) <= plen ->
  (exists n', extract_name plen p true s = Ok (Some (false, p + Z.of_nat (length (encoded name)))) (set_name n' s) /\ cut0 n' = Some name)
  /\ (0 <= q -> load 2 (d_packet s) q = Some (be16 (Z.lor p 0xc000)) -> q + 2 < plen ->
      exists n', extract_name plen q true s = Ok (Some (false, q + 2)) (set_name n' s) /\ cut0 n' = Some name).
Proof.
  intros p name Hpk Hbuf Hok Hne Hlen Hsz Hfit. subst name. rewrite encoded_wire in * by done.
  assert (Hdot : Z.of_nat (length (dotted ls)) < MAXDNAME).
  { destruct ls as [|l ls]; [done|]. destruct (dotted_last l ls) as [t Ht]. unfold name_of in Hlen. rewrite Ht, removelast_last in Hlen.
    rewrite Ht, length_app. cbn [length]. lia. }
  assert (Hat : name_at (d_packet s) plen p ls (p + Z.of_nat (length (wire ls))) 0).
  { rewrite Hpk. unfold p. rewrite <- Nat2Z.inj_add. apply wire_at; [done|]. unfold p in Hfit. lia. }
  split.
  - destruct (extract_name_at _ _ _ _ _ s Hat Hne) as (n' & Hrun & _ & Hname); [lia|done|done|]. exists n'. split; [done|]. by apply Hname, name_of_nonzero.
  - intros Hq Hload Hq2. assert (Hpw : 0 <= p < Z.of_nat BUFFER).
    { rewrite <- Hbuf, Hpk, !length_app. unfold p, wire. rewrite length_app. simpl. lia. }
    destruct (pointer_bytes p Hpw) as [Hbe Hhigh]. rewrite Hbe in Hload.
    unfold load in Hload. rewrite decide_True in Hload by done. apply sublist_lookup_Some' in Hload as [Hload Hlq].
    assert (Hq0 : d_packet s !! Z.to_nat q = Some (192 + p / 256)).
    { rewrite <- (Nat.add_0_r (Z.to_nat q)), <- lookup_drop, <- (lookup_take_lt _ 2) by lia. by rewrite <- Hload. }
    assert (Hq1 : d_packet s !! Z.to_nat (q + 1) = Some (p mod 256)).
    { replace (Z.to_nat (q + 1)) with (Z.to_nat q + 1)%nat by lia. rewrite <- lookup_drop, <- (lookup_take_lt _ 2) by lia. by rewrite <- Hload. }
    assert (Hptr : name_at (d_packet s) plen q ls (q + 2) 1).
    { apply (At_pointer _ _ q (p / 256) (p mod 256) ls (p + Z.of_nat (length (wire ls)))); try done.
      - apply Z.mod_pos_bound. lia.
      - rewrite Z.mul_comm, <- Z.div_mod by lia. unfold wire in Hfit. rewrite length_app in Hfit. simpl in Hfit. lia.
      - by rewrite Z.mul_comm, <- Z.div_mod by lia. }
    destruct (extract_name_at _ _ _ _ _ s Hptr Hne) as (n' & Hrun & _ & Hname); [lia|done|done|]. exists n'. split; [done|]. by apply Hname, name_of_nonzero.
Qed.

(** ** Messages *)

(** Any message is handled inside of the buffers: whatever bytes of a message of at most
    512 are in the packet, with a cache of size 0 that holds names of /etc/hosts,
    extract_addresses (for a reply), extract_request and answer_request (for a query) end, by
    returns of the code, without an access outside of an object, without following NULL and
    without using freed memory; they leave such a cache and whole buffers behind, and
    answer_request answers with at most 528 bytes. *)
Theorem any_message_is_handled cfg qlen s : page_ok -> config_ok cfg -> 0 < qlen <= PACKETSZ -> msg_ok s ->
  good (extract_addresses qlen) (fun _ => True) s
  /\ good (extract_request qlen) (fun _ => True) s
  /\ good (answer_request cfg PACKETSZ qlen) (fun m => 0 <= m <= 528) s.
Proof.
  intros Hpage Hcfg Hq Hok. split; [by apply extract_addresses_good|]. split; [by apply extract_request_good|by apply answer_request_good].
Qed.

(** C33. The router's own page is found: a query for one address (type A, class IN) whose
    name begins, in any case of letters, with the host of the router's URL is answered here,
    whatever the cache and the options are: the answer is the query itself with the bits of
    an authoritative answer, one answer and no other record, followed after the question by
    an address record with a time to live of 0 that points to the name of the question and
    holds the router's address of the LAN. *)
Theorem router_page_is_answered cfg s qlen i1 i2 b2 b3 ls qend a : page_ok -> asks s qlen i1 i2 b2 b3 ls T_A qend ->
  names_router (name_of ls) page_name = true -> denv_inet_aton (denv_nvram "lan_ipaddr"%string) = Some a -> length a = INADDRSZ ->
  exists counts quest rest s', d_packet s = [i1; i2; b2; b3; 0; 1] ++ counts ++ quest ++ rest /\ length counts = 6%nat
    /\ Z.of_nat (length quest) = qend - 12
    /\ answer_request cfg PACKETSZ qlen s = Ok (qend + 16) s'
    /\ d_packet s' = [i1; i2] ++ answer_bits true b2 b3 ++ [0; 1] ++ be16 1 ++ be16 0 ++ be16 0
         ++ quest ++ address_record 12 0 a ++ drop 16 rest.
Proof.
  intros Hpage Hask Hname Ha Hla. pose proof (asks_skip _ _ _ _ _ _ _ _ _ Hask) as Hskip.
  destruct (asks_counts _ _ _ _ _ _ _ _ _ Hask) as (Hq & Hb2 & _).
  set (s0 := set_calls (S (d_calls s)) s). set (now := denv_time (d_calls s)).
  assert (Hask' : asks s0 qlen i1 i2 b2 b3 ls T_A qend) by (by apply asks_calls).
  destruct (page_question cfg PACKETSZ now s0 qlen i1 i2 b2 b3 ls qend a Hpage Hask' Hname Ha Hla) as (n' & counts & quest & rest & Hp & Hc & Hl & Hrun).
  eexists counts, quest, rest, _. split; [exact Hp|]. split; [done|]. split; [done|]. split.
  - unfold answer_request. eapply run_bind; [exact Hq|]. eapply (run_bind time_); [reflexivity|]. fold s0 now.
    destruct (asks_counts _ _ _ _ _ _ _ _ _ Hask') as (_ & Hb2' & _). eapply run_bind; [exact Hb2'|].
    rewrite (as_opcode _ _ _ _ _ _ _ _ _ Hask). change ((1 =? 0) || negb (QUERY =? QUERY)) with false. cbv iota.
    eapply run_bind; [exact (asks_skip _ _ _ _ _ _ _ _ _ Hask')|]. change (Z.to_nat 1) with 1%nat. cbv iota. cbn [question_loop].
    eapply run_bind; [exact Hrun|]. reflexivity.
  - reflexivity.
Qed.
End results.

(** ** Forwarding *)

Section forwarding.
Context `{E : DnsEnv}.
Context (l : list (nat * server)).
Implicit Types s : dns.

(** A server that is responsible for a name: its domain is the longest one that the name
    ends with, or it has none when there is no such domain. *)
Definition responsible (name : list Z) (sv : server) : Prop :=
  (forall d, s_domain sv = Some d -> ends_with name d = true)
  /\ forall sv' d, sv' ∈ l.*2 -> s_domain sv' = Some d -> ends_with name d = true -> (length d <= length (default [] (s_domain sv)))%nat.
Lemma best_responsible name sv : serves (best l.*2 name None 0) sv = true -> responsible name sv.
Proof.
  intros Hs%bool_decide_eq_true. destruct (best_longest name l.*2 None 0 eq_refl) as (H1 & _ & H3). rewrite <- Hs in *. split; [|done].
  intros d Hd. destruct H1 as [H1|(sv' & x & _ & _ & H1 & He)]; congruence.
Qed.

(** C34. A new query is passed on: with an interface that sends, a random generator that gives
    an identifier that is not in use, and a server without a domain, a query for one name
    that asks for recursion, from a client that does not wait for it already, goes to one
    server responsible for the name, unchanged but for its identifier, which is new; an
    entry of the table, a free one when there is any, waits for it with the client's socket,
    address and identifier, the other clients wait as before, and the table of queries, the
    servers and the buffers are consistent again. *)
Theorem query_is_forwarded id_fuel fd addr strict q s qlen i1 i2 b2 b3 ls qtype qend : sends -> fresh_ids id_fuel ->
  Exists (fun x => s_domain x.2 = None) l -> q ∈ l.*1 -> table_ok l s -> msg_ok s -> asks s qlen i1 i2 b2 b3 ls qtype qend -> h_rd b2 = true ->
  Forall (fun f => ~ from (i1 * 256 + i2) addr f) (ftab s) ->
  exists s' i id sv, forward_query id_fuel fd addr qlen strict (head_ptr l) (Some q) s = Ok tt s'
    /\ sv ∈ l.*2 /\ responsible (name_of ls) sv
    /\ 0 < id < 65536 /\ Forall (fun f => f_new_id f <> id) (ftab s)
    /\ d_out s' = d_out s ++ [To_server (be16 id ++ drop 2 (take (Z.to_nat qlen) (d_packet s))) (s_addr sv)]
    /\ pending s' = <[i := Some (Waiting id fd (i1 * 256 + i2) addr)]> (pending s)
    /\ (Exists (fun f => f_new_id f = 0) (ftab s) -> pending s !! i = Some None)
    /\ table_ok l s' /\ msg_ok s'.
Proof.
  intros Hs Hfresh Hdef Hq Hok Hmsg Hask Hrd Hnew. set (s0 := set_calls (S (d_calls s)) s).
  assert (Hask0 : asks s0 qlen i1 i2 b2 b3 ls qtype qend) by (by apply asks_calls). pose proof (as_len _ _ _ _ _ _ _ _ _ Hask) as Hql.
  destruct (asks_request _ _ _ _ _ _ _ _ _ Hask0) as (n' & Hreq & Hcut & _ & Hid & Hb2). set (s1 := set_name n' s0) in *.
  assert (Hmsg1 : msg_ok s1).
  { pose proof (extract_request_good qlen s0 (set_calls_ok _ _ Hmsg) Hql) as H. unfold good, twp in H. rewrite Hreq in H. apply H. }
  assert (Hok1 : table_ok l s1) by (by apply (same_table_ok l s)).
  destruct (lookup_sender_run l (i1 * 256 + i2) addr s1 Hok1) as (known & Hkn & Hk).
  destruct known as [i|]; [exfalso; destruct Hk as (f & Hf & Hfr); rewrite Forall_lookup in Hnew; by eapply (Hnew i)|]. clear Hk.
  destruct (new_query_run l id_fuel (denv_time (d_calls s)) fd addr (i1 * 256 + i2) true strict q (name_of ls) s1)
    as (i & f & f' & n & id & sentto & p & Hrun & Hi & Hfr & Hto & Hp & Hidr & Hids); [done|done|done|done|done|].
  set (fi := asked addr sentto (i1 * 256 + i2) fd id f') in *. set (s2 := set_packet _ _) in Hrun.
  assert (Hi2 : ftab s2 !! i = Some fi) by (apply list_lookup_insert_eq; by eapply lookup_lt_Some).
  assert (Ha : active fi) by (unfold active, fi, asked; cbn; lia).
  assert (Hok2 : table_ok l s2) by (apply (same_table_ok l (set_ftab (<[i := fi]> (ftab s1)) s1)); [done|by eapply asked_ok]).
  assert (Hmsg2 : msg_ok s2) by (apply (id_packet_ok _ (set_ftab (<[i := fi]> (ftab s1)) (set_calls n s1))); by apply (same_rest_msg s1)).
  destruct (send_run l qlen (best l.*2 (name_of ls) None 0) i s2 fi (FrecData addr sentto (i1 * 256 + i2) fd) Hs)
    as (s3 & p3 & sv & bp & Hsend & Hok3 & Hrest & Hin & Hserves & Hft & Hout); [lia|done|apply Hmsg2|by apply best_serves|done|done|done|].
  exists s3, i, id, sv. split; [|split; [|split; [by apply best_responsible|split; [done|split; [done|split; [|split; [|split; [|split; [done|by eapply same_rest_msg]]]]]]]]].
  - unfold forward_query. eapply (run_bind time_); [reflexivity|]. fold s0. eapply run_bind; [exact Hreq|]. eapply run_bind; [exact Hb2|]. eapply run_bind; [exact Hid|].
    rewrite Hrd. rewrite bool_decide_eq_false_2 by (destruct l; [by apply elem_of_nil in Hq|by destruct p0]). cbn [negb orb].
    eapply run_bind; [exact Hkn|]. cbv beta iota. eapply run_bind; [exact Hrun|]. cbv beta iota. eapply run_bind; [apply gets_run|].
    eapply run_bind; [by apply frec_at_run|]. eapply run_bind; [by apply data_of_run|]. eapply run_bind; [exact Hsend|]. reflexivity.
  - apply list_elem_of_fmap. by exists (p3, sv).
  - rewrite Hout. cbn [d_packet s2 set_packet]. pose proof (asks_range _ _ _ _ _ _ _ _ _ Hask). pose proof (as_end _ _ _ _ _ _ _ _ _ Hask). rewrite take_id by lia. reflexivity.
  - unfold pending. rewrite Hft, pending_insert, (awaits_sent p3 (FrecData addr sentto (i1 * 256 + i2) fd) fi bp eq_refl). cbn [ftab s2 set_packet set_ftab]. rewrite pending_insert, list_insert_insert_eq.
    f_equal. exact (awaits_active fi (FrecData addr sentto (i1 * 256 + i2) fd) Ha eq_refl).
  - intros Hex. by eapply fresh_pending.
Qed.

(** C35. A reply goes back to the client: with an interface that sends and the cache of size 0
    that holds names of /etc/hosts only, a reply of at least a
    header and at most 512 bytes, not one of a server that failed or refused, whose
    identifier is the one of an entry, is sent to the client that the entry waits for, on
    the client's socket, with the identifier that the client gave and without the bit tc,
    otherwise unchanged; the entry and its buffer are free, the other clients wait as
    before, and the table is consistent again. *)
Theorem reply_is_returned last s i f bytes src i1 i2 b2 b3 rest : sends -> table_ok l s -> msg_ok s ->
  denv_recv (d_calls s) = Some (bytes, src) -> bytes = [i1; i2; b2; b3] ++ rest -> Forall is_byte bytes -> (8 <= length rest <= 508)%nat ->
  h_qr b2 = true -> gives_up (h_rcode b3) = false -> ftab s !! i = Some f -> f_new_id f = i1 * 256 + i2 -> active f ->
  exists s' d p sv, f_data f = Some d /\ f_sentto d = Some p /\ (p, sv) ∈ l
    /\ reply_query last s = Ok (new_last (h_rcode b3) d sv last) s'
    /\ d_out s' = d_out s ++ [To_client (f_fd d) (be16 (f_orig_id d) ++ [Z.land b2 0xfd; b3] ++ rest) (f_source d)]
    /\ pending s !! i = Some (Some (Waiting (i1 * 256 + i2) (f_fd d) (f_orig_id d) (f_source d)))
    /\ pending s' = <[i := None]> (pending s)
    /\ table_ok l s' /\ msg_ok s'.
Proof.
  intros Hs Hok Hmsg Hrecv Heq Hbytes Hlen Hqr Hrc Hi Hid Ha. pose proof (tk_entries _ _ Hok i f Hi Ha) as [_ (d & p & Hd & Hto & Hp) _].
  apply list_elem_of_fmap in Hp as ([p' sv] & Hp & Hin). cbn [fst] in Hp. subst p'. set (s0 := set_calls (S (d_calls s)) s).
  assert (Hlb : length bytes = (4 + length rest)%nat) by (by rewrite Heq).
  destruct (receive_run bytes src s0) as [Hget Hmsg1]; [by apply set_calls_ok|unfold PACKETSZ; lia|done|]. set (s1 := filled_with bytes s0) in *.
  assert (Hok1 : table_ok l s1) by (by apply (same_table_ok l s)). set (junk := drop (length bytes) (d_packet s)).
  assert (Hp1 : d_packet s1 = [i1; i2; b2; b3] ++ rest ++ junk) by (change (d_packet s1) with (bytes ++ junk); by rewrite Heq, <- app_assoc).
  destruct (packet_id i1 i2 _ s1 (mo_bufs _ Hmsg1) Hp1) as [Hidr _].
  destruct (found_run l last i f d p sv (Z.of_nat (length bytes)) i1 i2 b2 b3 rest junk s1) as (s3 & Hrun & Hok3 & Hmsg3 & Hpend & Hout); try done; [lia|unfold PACKETSZ; lia|].
  exists s3, d, p, sv. split; [done|]. split; [done|]. split; [done|]. split; [|split; [done|split; [|by split]]].
  - unfold reply_query. eapply (run_bind (dsys denv_recv)); [reflexivity|]. fold s0. rewrite Hrecv. eapply run_bind; [exact Hget|].
    eapply run_bind; [exact (peek_at [i1; i2] b2 _ s1 Hp1)|]. rewrite Hqr. rewrite (proj2 (Z.ltb_ge _ _)) by (unfold sizeof_HEADER; lia). cbn [orb negb].
    eapply run_bind; [exact Hidr|]. eapply run_bind; [apply lookup_frec_run|]. rewrite (find_active l _ i f s1 Hok1 Hi Hid Ha).
    eapply run_bind; [exact (peek_at [i1; i2; b2] b3 _ s1 Hp1)|]. exact Hrun.
  - by rewrite (pending_at s i f Hi), (awaits_active f d Ha Hd), Hid.
Qed.

(** ** Silence *)


Context (cfg : dns_setup) (id_fuel : nat) (L : dns_loop).

End forwarding.

(** ** Serving *)

Section serving.
Context `{E : DnsEnv}.
Context (l : list (nat * server)) (cfg : dns_setup) (id_fuel : nat).
Implicit Types (s : dns) (L : dns_loop).

(** No signal, and the files of servers and of leases are the ones that were read. *)
Record files_rest (L : dns_loop) : Prop := FilesRest {
  fr_sighup : forall n, denv_sighup n = false;
  fr_resolv : forall n t, denv_resolv_mtime n = Some t -> t <= l_resolv_changed L;
  fr_leases : forall n bytes inode, denv_lease_stat n = Some (bytes, inode) -> 0 < l_lease_size L /\ bytes <= l_lease_size L /\ inode = l_lease_inode L
}.
Record loop_ok (L : dns_loop) : Prop := LoopOk {
  lo_servers : l_servers L = head_ptr l;
  lo_last : known_last l (l_last_server L);
  lo_files : files_rest L
}.
(** select() names interfaces of the program. *)
Definition ready_ok : Prop := forall n peer ifaces, denv_select n = Readable peer ifaces -> Forall (fun i => (i < length (setup_ifaces cfg))%nat) ifaces.
Context (Hsends : sends) (Hids : fresh_ids id_fuel) (Hpage : page_ok) (Hcfg : config_ok (setup_cfg cfg)) (Hdg : datagrams_ok) (Hready : ready_ok).
Context (Hdef : l <> [] -> Exists (fun x => s_domain x.2 = None) l).

Lemma client_addr_run i a s : (i < length (setup_ifaces cfg))%nat -> exists a', client_addr cfg i a s = Ok a' s.
Proof.
  intros Hi. destruct (lookup_lt_is_Some_2 _ _ Hi) as [x Hx]. eexists. unfold client_addr. eapply run_bind; [by rewrite Hx|]. reflexivity.
Qed.
Lemma serve_good L i s : loop_ok L -> (i < length (setup_ifaces cfg))%nat -> msg_ok s -> table_ok l s -> goodt l (serve cfg id_fuel L i) (fun _ => True) s.
Proof.
  intros HL Hi Hmsg Hok. unfold serve. set (s0 := set_calls (S (d_calls s)) s). set (r := denv_recv (d_calls s)).
  assert (Hr : forall bytes src, r = Some (bytes, src) -> Forall is_byte bytes) by (intros bytes src Hr; by apply (Hdg _ _ _ Hr)).
  destruct (receive_good l r s0 Hr) as (n & s1 & Hrun & Hmsg1 & Hok1 & Hn & _); [by apply set_calls_ok|by apply (same_table_ok l s)|].
  eapply goodt_run; [reflexivity|]. fold s0 r. eapply goodt_run; [exact Hrun|]. destruct (peek_byte 2 s1 (mo_bufs _ Hmsg1)) as (b2 & Hb2 & _); [rewrite buffer_1547; lia|].
  eapply goodt_run; [exact Hb2|]. destruct r as [[bytes a]|]; [|by apply goodt_ret]. destruct (client_addr_run i a s1 Hi) as [a' Ha]. eapply goodt_run; [exact Ha|].
  destruct ((n <? sizeof_HEADER) || h_qr b2) eqn:Hshort; [by apply goodt_ret|]. apply orb_false_iff in Hshort as [Hsz%Z.ltb_ge _]. unfold sizeof_HEADER in Hsz.
  assert (Hlen : 0 < n <= PACKETSZ) by (destruct Hn as [->|Hn]; lia).
  eapply goodt_bind; [apply goodt_good; [by apply answer_request_good|done]|]. intros m s2 Hm Hmsg2 Hok2. cbv beta in Hm. destruct (1 <=? m).
  - eapply goodt_bind; [apply goodt_good; [apply peeks_good; [done|lia|lia|rewrite buffer_1547; lia]|done]|]. intros bs s3 _ Hmsg3 Hok3.
    eapply goodt_bind; [by apply send_good|]. intros x s4 _ Hmsg4 Hok4. by apply goodt_ret.
  - rewrite (lo_servers _ HL). apply forward_query_good; try done. apply HL.
Qed.
Lemma serve_all_good L : loop_ok L -> forall ifaces s, Forall (fun i => (i < length (setup_ifaces cfg))%nat) ifaces -> msg_ok s -> table_ok l s ->
  goodt l (serve_all cfg id_fuel L ifaces) (fun _ => True) s.
Proof.
  intros HL. induction ifaces as [|i ifaces IH]; intros s Hi Hmsg Hok; [by apply goodt_ret|]. apply Forall_cons in Hi as [Hi Hrest].
  eapply goodt_bind; [by apply serve_good|]. intros [] s1 _ Hmsg1 Hok1. by apply IH.
Qed.
Lemma check_servers_good s : msg_ok s -> table_ok l s -> goodt l check_servers_response (fun _ => True) s.
Proof.
  intros Hmsg Hok. destruct (check_servers_run l s Hsends Hok) as (s' & Hrun & Ht). eapply twp_run; [exact Hrun|]. split; [done|]. split; [|apply Ht].
  apply (same_rest_msg (set_calls (S (d_calls s)) s)); [apply Ht|by apply set_calls_ok].
Qed.
Lemma handle_ready_good peer ifaces L s : loop_ok L -> Forall (fun i => (i < length (setup_ifaces cfg))%nat) ifaces -> msg_ok s -> table_ok l s ->
  goodt l (handle_ready cfg id_fuel peer ifaces L) loop_ok s.
Proof.
  intros HL Hi Hmsg Hok. unfold handle_ready.
  eapply (goodt_bind l _ _ (known_last l)); [destruct peer; [by apply reply_query_good; [..|apply HL]|apply goodt_ret; [done|done|apply HL]]|].
  intros last s1 Hlast Hmsg1 Hok1. assert (HL' : loop_ok (set_last last L)) by (destruct HL as [H1 _ [H2 H3 H4]]; split; [exact H1|exact Hlast|by split]).
  eapply goodt_bind; [by apply check_servers_good|]. intros [] s2 _ Hmsg2 Hok2.
  eapply goodt_bind; [by apply serve_all_good|]. intros [] s3 _ Hmsg3 Hok3. by apply goodt_ret.
Qed.
Lemma housekeeping_good L s : loop_ok L -> msg_ok s -> table_ok l s -> goodt l (housekeeping cfg false L) (fun L' => L' = L) s.
Proof.
  intros HL Hmsg Hok. destruct HL as [_ _ [_ Hres Hlea]]. assert (Hcalls : forall n, msg_ok (set_calls n s) /\ table_ok l (set_calls n s)) by (intros n; split; [by apply set_calls_ok|by apply (same_table_ok l s)]).
  assert (Hpoll : exists n, poll_resolv cfg L s = Ok L (set_calls n s)).
  { unfold poll_resolv. destruct (_ && _); [|exists (d_calls s); by destruct s]. exists (S (d_calls s)). eapply (run_bind (dsys denv_resolv_mtime)); [reflexivity|].
    destruct (denv_resolv_mtime (d_calls s)) as [t|] eqn:Ht; [|done]. by rewrite (proj2 (Z.ltb_ge _ _) (Hres _ _ Ht)). }
  destruct Hpoll as [n Hpoll]. unfold housekeeping. eapply goodt_run; [reflexivity|]. eapply goodt_run; [exact Hpoll|]. destruct (Hcalls n) as [Hmsg1 Hok1].
  assert (Hmsg2 : msg_ok (set_calls (S n) (set_calls n s))) by (by apply set_calls_ok).
  assert (Hok2 : table_ok l (set_calls (S n) (set_calls n s))) by (by apply (same_table_ok l (set_calls n s))).
  unfold poll_leases. destruct (setup_leases cfg); [|by apply goodt_ret]. eapply (goodt_run l (dsys denv_lease_stat)); [reflexivity|].
  destruct (denv_lease_stat _) as [[bytes inode]|] eqn:Hst; [|by apply goodt_ret]. destruct (Hlea _ _ _ Hst) as (H1 & H2 & ->).
  rewrite (proj2 (Z.eqb_neq _ 0)), (proj2 (Z.ltb_ge _ _)), Z.eqb_refl by lia. by apply goodt_ret.
Qed.
Lemma dns_turn_good L s : loop_ok L -> msg_ok s -> table_ok l s -> goodt l (dns_turn cfg id_fuel L) loop_ok s.
Proof.
  intros HL Hmsg Hok. assert (Hcalls : forall n s, msg_ok s -> table_ok l s -> msg_ok (set_calls n s) /\ table_ok l (set_calls n s)).
  { intros n s' H1 H2. split; [by apply set_calls_ok|by apply (same_table_ok l s')]. }
  destruct (Hcalls (S (d_calls s)) s Hmsg Hok) as [Hmsg0 Hok0]. set (s0 := set_calls (S (d_calls s)) s) in *. destruct (Hcalls (S (d_calls s0)) s0 Hmsg0 Hok0) as [Hmsg1 Hok1].
  unfold dns_turn. eapply (goodt_run l (dsys denv_select)); [reflexivity|]. fold s0. destruct (denv_select (d_calls s)) as [| | |peer ifaces] eqn:Hsel.
  - eapply goodt_bind; [by apply check_servers_good|]. intros [] s1 _ Hm1 Ht1. by apply goodt_ret.
  - eapply (goodt_run l (dsys denv_sighup)); [reflexivity|]. rewrite (fr_sighup _ (lo_files _ HL)). eapply twp_mono; [by apply housekeeping_good|]. by intros L' s1 (-> & H).
  - by apply goodt_ret.
  - eapply (goodt_run l (dsys denv_sighup)); [reflexivity|]. rewrite (fr_sighup _ (lo_files _ HL)). eapply goodt_bind; [by apply housekeeping_good|].
    intros L' s1 -> Hm1 Ht1. apply handle_ready_good; [done| |done|done]. by eapply Hready.
Qed.

(** C27. The forwarder serves any network. The interfaces send, the identifiers that the
    random numbers give are free ones, the nvram names an address of the LAN and a URL of
    at least seven characters when it has a scheme, the target of MX records has at most
    1000 bytes, the cache has the size 0 and names of /etc/hosts only, and of the servers,
    if there are any, one has no domain; select() names interfaces of the program; no
    SIGHUP comes, and the files of the servers and of the leases stay as they were read (a
    reload of the servers loses the message buffers). Then any number of turns of the main
    loop ends without an access outside of an object, without following NULL and without
    using freed or uninitialised memory, whatever datagrams the clients and the servers
    send in whatever order, a reply with the identifier 0 excepted; after them the
    buffers, the cache, the table of queries, the servers and the message buffers are as
    consistent as before, so the next turns run as well. *)
Theorem any_network_is_served n L s : loop_ok L -> msg_ok s -> table_ok l s -> goodt l (dns_turns cfg id_fuel n L) loop_ok s.
Proof.
  revert L s. induction n as [|n IH]; intros L s HL Hmsg Hok; [by apply goodt_ret|]. cbn [dns_turns].
  eapply goodt_bind; [by apply dns_turn_good|]. intros L1 s1 HL1 Hmsg1 Hok1. by apply IH.
Qed.
End serving.
