(* ===== verification/DnsSample.v ===== *)
(** * DnsSample: concrete runs of the DNS forwarder

    A router with two servers and a name of /etc/hosts, the witnesses of the theorems, and
    inputs that the theorems exclude. *)

From Stdlib Require Import Ascii String.
From S2P Require Import Prelude DhcpTypes DhcpOptions DhcpConfig DnsTypes DnsCache DnsPacket DnsForward DnsMain DnsCacheProofs DnsLookup DnsName DnsSafe DnsAnswers DnsForwardProofs DnsResults.
From stdpp Require Import gmap list strings.

#[local] Open Scope Z_scope.

(** ** The router *)

Definition dotted_quad (s : list Z) : option (list Z) :=
  if bool_decide (s = text "192.168.1.1") then Some [192; 168; 1; 1]
  else if bool_decide (s = text "192.168.1.5") then Some [192; 168; 1; 5]
  else None.
Definition dns_router (select : nat -> ready) (recv : nat -> option (list Z * sockaddr)) (seconds : nat -> Z) : DnsEnv := {|
  denv_time := seconds;
  denv_malloc _ := Some 0;
  denv_sendto _ := true;
  denv_recv := recv;
  denv_select := select;
  denv_rand n := 32768 * (Z.of_nat n + 256);
  denv_sighup _ := false;
  denv_resolv_mtime _ := None;
  denv_lease_stat _ := None;
  denv_hosts _ := Some (text "192.168.1.5 nas.lan nas");
  denv_resolv _ := None;
  denv_leases _ := None;
  denv_nvram k := if bool_decide (k = "lan_ipaddr"%string) then text "192.168.1.1" else text "http://router.lan";
  denv_inet_aton := dotted_quad;
  denv_inet_pton := dotted_quad
|}.
Definition www : list Z := text "www.example.com".
Definition question_of (name : list Z) : list Z := encoded name ++ be16 T_A ++ be16 C_IN.
Definition www_reply : list Z := [1; 4; 0x81; 0x80; 0; 1; 0; 1; 0; 0; 0; 0] ++ question_of www ++ address_record 12 60 [198; 51; 100; 7].
Definition upstream (n : Z) : sockaddr := Sockaddr AF_INET NAMESERVER_PORT [192; 0; 2; n].
Definition quiet : DnsEnv := dns_router (fun _ => Timeout) (fun _ => Some (www_reply, upstream 54)) (fun _ => 1000).

#[local] Existing Instance quiet.

(** Whole buffers, and no more. *)
Definition powered : dns :=
  Dns (replicate BUFFER 0) (replicate (Z.to_nat MAXDNAME) 0) (Cache None None ∅ 0 0 0 0 0) [] [] 0 ∅ 0 [].
Definition state_of {A} (r : res dns A) (s : dns) : dns := match r with Ok _ s' => s' | Err _ => s end.
(** The list of a cache, from [p] on. *)
Fixpoint entries_from (fuel : nat) (m : gmap nat crec) (p : option nat) : list (nat * entry) :=
  match fuel, p with
  | S fuel', Some q => match m !! q with Some r => (q, c_entry r) :: entries_from fuel' m (c_next r) | None => [] end
  | _, _ => []
  end.
Definition entries_of (s : dns) : list (nat * entry) := entries_from (size (recs (d_cache s)) + 1) (recs (d_cache s)) (cache_head (d_cache s)).

(** *** The cache *)

(** A cache of 3 records, and an address in it. *)
Definition three : dns := state_of (cache_init 3 powered) powered.
Definition filled : dns := state_of (cache_insert www (Some [192; 0; 2; 1]) 1000 60 NAME_FLAGS false three) three.

Ltac linked_now := split; [apply (bool_decide_unpack _); vm_compute; exact I|reflexivity|reflexivity|vm_compute; repeat split; reflexivity].
Lemma three_linked : linked (d_cache three) (entries_of three).
Proof. linked_now. Qed.
Lemma filled_linked : linked (d_cache filled) (entries_of filled).
Proof. linked_now. Qed.
Lemma quiet_memory : memory.
Proof. intros n. done. Qed.
Lemma three_on : cache_size (d_cache three) <> 0.
Proof. vm_compute. congruence. Qed.
Lemma three_ok : list_ok (entries_of three).
Proof.
  split; [vm_compute; lia|vm_compute; left; reflexivity|].
  vm_compute. repeat constructor; intros; done.
Qed.

Lemma searches_find_live_witness : exists c', search_all 4 (by_name www F_IPV4) None 1001 filled
  = Ok [Entry 1060 (Z.lor F_NEW NAME_FLAGS) [192; 0; 2; 1] www] (set_cache c' filled).
Proof.
  destruct (searches_find_live (by_name www F_IPV4) 1001 (d_cache filled) (entries_of filled) 4 filled) as (c' & Hrun & _);
    [left; by exists www, F_IPV4|reflexivity|exact filled_linked|vm_compute; lia|vm_compute; lia|].
  exists c'. rewrite Hrun. f_equal; vm_compute; reflexivity.
Defined.
Lemma insertion_refines_witness : exists s' l', cache_insert www (Some [192; 0; 2; 1]) 1000 60 NAME_FLAGS false three = Ok false s'
  /\ linked (d_cache s') l' /\ list_ok l' /\ l'.*1 ≡ₚ (entries_of three).*1.
Proof.
  pose proof (insertion_refines (d_cache three) (entries_of three) www (Some [192; 0; 2; 1]) 1000 60 NAME_FLAGS three quiet_memory eq_refl three_linked three_ok
    (or_introl eq_refl) three_on) as H.
  assert (Hrun : cache_insert www (Some [192; 0; 2; 1]) 1000 60 NAME_FLAGS false three = Ok false filled) by (vm_compute; reflexivity).
  unfold twp in H. rewrite Hrun in H. destruct H as (l' & _ & H1 & H2 & H3 & _). exists filled, l'. split; [exact Hrun|]. split; [exact H1|]. split; [exact H2|exact H3].
Defined.
Lemma inserted_is_found_witness : exists es s'', search_all 4 (by_name www F_IPV4) None 1059 filled = Ok es s''
  /\ exists e, e ∈ es /\ e_addr e = [192; 0; 2; 1] /\ e_ttd e = 1060.
Proof.
  pose proof (inserted_is_found (d_cache three) (entries_of three) www [192; 0; 2; 1] 1000 60 1059 three quiet_memory eq_refl three_linked three_ok
    three_on ltac:(lia) ltac:(lia) ltac:(lia) ltac:(lia) eq_refl) as H.
  assert (Hrun : cache_insert www (Some [192; 0; 2; 1]) 1000 60 NAME_FLAGS false three = Ok false filled) by (vm_compute; reflexivity).
  unfold twp in H. rewrite Hrun in H. destruct (H eq_refl) as (es & s'' & Hs & He & _). exists es, s''. split; [exact Hs|exact He].
Defined.

(** *** Names *)

Definition labels : list (list Z) := [text "www"; text "example"; text "com"].
Definition message : list Z := replicate 12 7 ++ encoded www ++ be16 (Z.lor 12 0xc000) ++ replicate 1516 7.
Lemma labels_ok : Forall label_ok labels.
Proof. vm_compute. repeat constructor; lia || congruence. Qed.
Lemma names_read_back_witness : exists n1 n2,
  extract_name 100 12 true (set_packet message powered) = Ok (Some (false, 29)) (set_name n1 (set_packet message powered))
  /\ extract_name 100 29 true (set_packet message powered) = Ok (Some (false, 31)) (set_name n2 (set_packet message powered))
  /\ cut0 n1 = Some www /\ cut0 n2 = Some www.
Proof.
  destruct (names_read_back 100 (replicate 12 7) (be16 (Z.lor 12 0xc000) ++ replicate 1516 7) labels 29 (set_packet message powered)) as [(n1 & H1 & H2) H];
    [vm_compute; reflexivity|vm_compute; reflexivity|exact labels_ok|done|vm_compute; reflexivity|vm_compute; reflexivity|vm_compute; congruence|].
  destruct H as (n2 & H3 & H4); [lia|vm_compute; reflexivity|lia|]. exists n1, n2. split; [exact H1|]. split; [exact H3|]. split; [exact H2|exact H4].
Defined.

(** *** Messages *)

(** The cache is off, and /etc/hosts names one machine twice. *)
Definition hosted : dns := state_of ((cache_init 0;; cache_reload false) powered) powered.
Lemma hosted_ok : msg_ok hosted.
Proof.
  split; [split; [vm_compute; reflexivity| |vm_compute; reflexivity|]|].
  - assert (H : forallb byteb (d_packet hosted) = true) by (vm_compute; reflexivity). apply Forall_forall. intros x Hx. rewrite forallb_forall in H.
    apply byteb_true, H, list_elem_of_In, Hx.
  - assert (H : forallb byteb (d_name hosted) = true) by (vm_compute; reflexivity). apply Forall_forall. intros x Hx. rewrite forallb_forall in H.
    apply byteb_true, H, list_elem_of_In, Hx.
  - exists (entries_of hosted). split; [linked_now|]. split; [|reflexivity].
    vm_compute. repeat constructor; try (intros; congruence); lia.
Qed.
Lemma router_page select recv seconds : page_ok (E := dns_router select recv seconds).
Proof. split; [exists [192; 168; 1; 1]; split; [reflexivity|repeat constructor; lia]|]. intros _. vm_compute. lia. Qed.
Definition plain : dns_config := DnsConfig OPT_SELFMX None [].
Definition in_packet (m : list Z) (s : dns) : dns := set_packet (m ++ replicate (BUFFER - length m) 0) s.
Lemma in_packet_ok m s : msg_ok s -> (length m <= BUFFER)%nat -> forallb byteb m = true -> msg_ok (in_packet m s).
Proof.
  intros [[H1 H2 H3 H4] Hc] Hl Hb. split; [|done]. split; try assumption.
  - unfold in_packet. cbn [d_packet set_packet]. rewrite length_app, length_replicate. lia.
  - unfold in_packet. cbn [d_packet set_packet]. apply Forall_app. split.
    + apply Forall_forall. intros x Hx. rewrite forallb_forall in Hb. apply byteb_true, Hb, list_elem_of_In, Hx.
    + apply Forall_replicate. unfold is_byte. lia.
Qed.
Definition query_for (name : list Z) : list Z := [171; 205; 1; 0; 0; 1; 0; 0; 0; 0; 0; 0] ++ question_of name.
Definition nas_query : list Z := query_for (text "nas.lan").
Lemma any_message_is_handled_witness : msg_ok (in_packet nas_query hosted) /\ good (extract_addresses 25) (fun _ => True) (in_packet nas_query hosted)
  /\ good (answer_request plain PACKETSZ 25) (fun m => 0 <= m <= 528) (in_packet nas_query hosted).
Proof.
  assert (Hok : msg_ok (in_packet nas_query hosted)) by (apply in_packet_ok; [exact hosted_ok|vm_compute; lia|reflexivity]). split; [exact Hok|].
  destruct (any_message_is_handled plain 25 (in_packet nas_query hosted) (router_page _ _ _ : page_ok (E := quiet))) as (H1 & _ & H2);
    [split; [vm_compute; lia|constructor]|unfold PACKETSZ; lia|exact Hok|]. split; [exact H1|exact H2].
Defined.
(** The name of /etc/hosts is answered with its address. *)
Example nas_answered : exists s', answer_request plain PACKETSZ 25 (in_packet nas_query hosted) = Ok 41 s'
  /\ take 16 (drop 25 (d_packet s')) = address_record 12 0 [192; 168; 1; 5].
Proof. eexists. split; vm_compute; reflexivity. Qed.

Definition page_query : list Z := query_for (text "ROUTER.LAN").
Definition page_labels : list (list Z) := [text "ROUTER"; text "LAN"].
Lemma page_asked : asks (in_packet page_query hosted) 28 171 205 1 0 page_labels T_A 28.
Proof.
  split.
  - apply mo_bufs, in_packet_ok; [exact hosted_ok|vm_compute; lia|reflexivity].
  - unfold PACKETSZ. lia.
  - eexists [0; 0; 0; 0; 0; 0], _. split; [vm_compute; reflexivity|reflexivity].
  - reflexivity.
  - exists 24, O. split; [|split; [lia|reflexivity]].
    apply (At_label _ _ 12 (text "ROUTER")); [lia|reflexivity|vm_compute; lia|vm_compute; reflexivity|reflexivity|].
    apply (At_label _ _ 19 (text "LAN")); [lia|reflexivity|vm_compute; lia|vm_compute; reflexivity|reflexivity|].
    apply (At_end _ _ 23); [lia|reflexivity].
  - split; [done|]. split; [vm_compute; reflexivity|]. vm_compute. repeat constructor; lia.
  - lia.
  - reflexivity.
  - unfold T_A. lia.
Qed.
Lemma router_page_is_answered_witness : asks (in_packet page_query hosted) 28 171 205 1 0 page_labels T_A 28 /\
  exists s', answer_request plain PACKETSZ 28 (in_packet page_query hosted) = Ok 44 s'.
Proof.
  split; [exact page_asked|].
  destruct (router_page_is_answered plain (in_packet page_query hosted) 28 171 205 1 0 page_labels 28 [192; 168; 1; 1])
    as (counts & quest & rest & s' & _ & _ & _ & Hrun & _); [exact (router_page _ _ _)|exact page_asked|vm_compute; reflexivity|reflexivity|reflexivity|].
  exists s'. exact Hrun.
Defined.

(** *** Forwarding *)

Definition servers : list (nat * server) :=
  [(1%nat, Server (upstream 53) None true (Some 2%nat)); (2%nat, Server (upstream 54) (Some (text "example.com")) false None)].
Definition unused : msg_buf := MsgBuf None None None 0 (replicate BUFFER 0) false.
Definition forwarder (s : dns) : dns :=
  set_heap (list_to_map servers) (set_bufs (replicate FTABSIZ unused) (set_ftab (replicate FTABSIZ (Frec 0 0 None None)) s)).
Lemma servers_linked : servers_ok (list_to_map servers) servers.
Proof. split; [vm_compute; repeat split; reflexivity|]. apply (bool_decide_unpack _). vm_compute. exact I. Qed.
Lemma forwarder_table s : d_buf_i s = 0 -> table_ok servers (forwarder s).
Proof.
  intros Hi. assert (Hfree : forall i f, ftab (forwarder s) !! i = Some f -> f = Frec 0 0 None None) by (by intros i f [-> _]%lookup_replicate).
  split; try reflexivity.
  - exact servers_linked.
  - apply Forall_replicate. unfold unused. cbn [b_header]. by rewrite length_replicate.
  - change (d_buf_i (forwarder s)) with (d_buf_i s). lia.
  - intros i f Hf Ha. exfalso. rewrite (Hfree i f Hf) in Ha. by apply Ha.
  - intros i j f g Hf _ Ha. exfalso. rewrite (Hfree i f Hf) in Ha. by apply Ha.
  - intros i j f g k Hf _ Ho. by rewrite (Hfree i f Hf) in Ho.
  - intros k b [-> _]%lookup_replicate. done.
Qed.
Lemma id_of_step n : id_of n = (Z.of_nat n + 256) mod 65536.
Proof. unfold id_of. cbn [denv_rand quiet dns_router]. rewrite Z.shiftr_div_pow2 by lia. change (2 ^ 15) with 32768. by rewrite Z.mul_comm, Z.div_mul. Qed.
(** The generator gives 152 different numbers, and 151 are enough. *)
Lemma quiet_ids : fresh_ids 152.
Proof.
  intros n used Hl. destruct (decide (Exists (fun k => id_of (n + k) ∉ 0 :: used) (seq 0 152))) as [Hex|Hall].
  - apply Exists_exists in Hex as (k & Hk & Hn). apply elem_of_seq in Hk. rewrite not_elem_of_cons in Hn. exists k. split; [lia|done].
  - exfalso. assert (Hsub : ((fun k => id_of (n + k)) <$> seq 0 152) ⊆+ 0 :: used).
    { apply NoDup_submseteq.
      - apply NoDup_fmap_2_strong; [|apply NoDup_seq]. intros x y Hx Hy Heq. apply elem_of_seq in Hx, Hy. rewrite !id_of_step in Heq.
        pose proof (Z.div_mod (Z.of_nat (n + x) + 256) 65536 ltac:(lia)). pose proof (Z.div_mod (Z.of_nat (n + y) + 256) 65536 ltac:(lia)). lia.
      - intros z Hz. apply list_elem_of_fmap in Hz as (k & -> & Hk). destruct (decide (id_of (n + k) ∈ 0 :: used)) as [Hin|Hn]; [done|].
        exfalso. apply Hall, Exists_exists. by exists k. }
    apply submseteq_length in Hsub. rewrite length_fmap, length_seq in Hsub. cbn [length] in Hsub. rewrite Hl in Hsub. unfold FTABSIZ in Hsub. lia.
Qed.
Lemma quiet_sends : sends.
Proof. intros n. done. Qed.
Definition www_query : list Z := query_for www.
Definition laptop : sockaddr := Sockaddr AF_INET 40000 [192; 168; 1; 20].
Definition asking : dns := forwarder (in_packet www_query hosted).
Lemma forwarder_msg s : msg_ok s -> msg_ok (forwarder s).
Proof. intros [[B1 B2 B3 B4] Hc]. split; [split; assumption|exact Hc]. Qed.
Lemma asking_msg : msg_ok asking.
Proof. apply forwarder_msg, in_packet_ok; [exact hosted_ok|vm_compute; lia|reflexivity]. Qed.
Definition www_labels : list (list Z) := [text "www"; text "example"; text "com"].
Lemma www_asked : asks asking 33 171 205 1 0 www_labels T_A 33.
Proof.
  split.
  - exact (mo_bufs _ asking_msg).
  - unfold PACKETSZ. lia.
  - eexists [0; 0; 0; 0; 0; 0], _. split; [vm_compute; reflexivity|reflexivity].
  - reflexivity.
  - exists 29, O. split; [|split; [lia|reflexivity]].
    apply (At_label _ _ 12 (text "www")); [lia|reflexivity|vm_compute; lia|vm_compute; reflexivity|reflexivity|].
    apply (At_label _ _ 16 (text "example")); [lia|reflexivity|vm_compute; lia|vm_compute; reflexivity|reflexivity|].
    apply (At_label _ _ 24 (text "com")); [lia|reflexivity|vm_compute; lia|vm_compute; reflexivity|reflexivity|].
    apply (At_end _ _ 28); [lia|reflexivity].
  - split; [done|]. split; [vm_compute; reflexivity|]. vm_compute. repeat constructor; lia.
  - lia.
  - reflexivity.
  - unfold T_A. lia.
Qed.
Lemma asking_table : table_ok servers asking.
Proof. apply forwarder_table. vm_compute. reflexivity. Qed.
Lemma without_domain : Exists (fun x => s_domain x.2 = None) servers.
Proof. left. reflexivity. Qed.
(** The query after it was passed on. *)
Definition forwarding : DnM unit := forward_query 152 7 laptop 33 false (head_ptr servers) (Some 1%nat).
Definition asked_on : dns := state_of (forwarding asking) asking.
(** Nothing waits, so the query is a new one. *)
Lemma nobody_waits : Forall (fun f => ~ from (171 * 256 + 205) laptop f) (ftab asking).
Proof. apply Forall_replicate. intros [Ha _]. by apply Ha. Qed.
Lemma query_is_forwarded_witness : exists s' i id sv, forwarding asking = Ok tt s' /\ sv ∈ servers.*2 /\ responsible servers www sv
  /\ d_out s' = [To_server (be16 id ++ drop 2 (take 33 (d_packet asking))) (s_addr sv)]
  /\ pending s' = <[i := Some (Waiting id 7 43981 laptop)]> (pending asking).
Proof.
  destruct (query_is_forwarded servers 152 7 laptop false 1%nat asking 33 171 205 1 0 www_labels T_A 33)
    as (s' & i & id & sv & Hrun & Hin & Hresp & _ & _ & Hout & Hp & _);
    [exact quiet_sends|exact quiet_ids|exact without_domain|vm_compute; left|exact asking_table|exact asking_msg|exact www_asked|reflexivity|exact nobody_waits|].
  exists s', i, id, sv. split; [exact Hrun|]. split; [exact Hin|]. split; [exact Hresp|]. split; [exact Hout|exact Hp].
Defined.
Lemma asked_on_ok : msg_ok asked_on /\ table_ok servers asked_on.
Proof.
  assert (Hlast : servers <> [] -> exists q, Some 1%nat = Some q /\ q ∈ servers.*1) by (intros _; exists 1%nat; split; [reflexivity|vm_compute; left]).
  assert (Hlen : 0 < 33 <= PACKETSZ) by (unfold PACKETSZ; lia).
  pose proof (forward_query_good servers 152 7 laptop 33 false (Some 1%nat) asking quiet_sends quiet_ids (fun _ => without_domain) Hlast asking_msg asking_table Hlen) as H.
  unfold goodt, twp in H. unfold asked_on. fold forwarding in H. destruct (forwarding asking) as [[] s'|]; [apply H|destruct H].
Qed.
Definition waiting_entry : frec := Frec 260 1000 (Some (FrecData laptop (Some 2%nat) 43981 7)) (Some (Some 1%nat)).
Lemma reply_is_returned_witness : exists s' last, reply_query (Some 1%nat) asked_on = Ok last s'
  /\ d_out s' = d_out asked_on ++ [To_client 7 ([171; 205] ++ drop 2 www_reply) laptop].
Proof.
  destruct asked_on_ok as [Hmsg Htab].
  assert (Hentry : ftab asked_on !! 0%nat = Some waiting_entry) by (vm_compute; reflexivity).
  revert Hmsg Htab Hentry. generalize asked_on. intros s Hmsg Htab Hentry.
  destruct (reply_is_returned servers (Some 1%nat) s 0 waiting_entry www_reply (upstream 54) 1 4 0x81 0x80 (drop 4 www_reply))
    as (s' & d & p & sv & Hd & _ & _ & Hrun & Hout & _);
    [exact quiet_sends|exact Htab|exact Hmsg|reflexivity|vm_compute; reflexivity| |vm_compute; lia|reflexivity|reflexivity|exact Hentry|reflexivity|
     unfold active; vm_compute; congruence|].
  - vm_compute. repeat constructor; discriminate || lia.
  - injection Hd as <-. eexists s', _. split; [exact Hrun|exact Hout].
Defined.

(** *** Silence *)

Definition turning : dns_loop := DnsLoop (Some 1%nat) (Some 1%nat) 0 0 0.

(** *** Any network *)

(** Every turn brings a reply to a query that nobody asked, and a query. *)
Definition busy : DnsEnv := dns_router (fun _ => Readable true [0%nat])
  (fun n => Some (if Nat.even n then www_reply else www_query, upstream 54)) (fun n => 1000 + Z.of_nat n).
Definition setup_lan : dns_setup := DnsSetup plain false false None [Sockaddr AF_INET NAMESERVER_PORT [192; 168; 1; 1]] (Some 1%nat) 0 [].
Lemma busy_datagrams : datagrams_ok (E := busy).
Proof.
  assert (Hb : forallb byteb www_reply = true /\ forallb byteb www_query = true) by (split; vm_compute; reflexivity).
  intros n bytes src H. injection H as <- _. split.
  - apply Forall_forall. intros x Hx. apply byteb_true. destruct Hb as [H1 H2]. rewrite forallb_forall in H1, H2.
    destruct (Nat.even n); [apply H1|apply H2]; by apply list_elem_of_In.
  - intros b2 H. exfalso. destruct (Nat.even n); discriminate H.
Qed.
Lemma turning_ok : loop_ok (E := busy) servers turning.
Proof. split; [reflexivity|intros _; exists 1%nat; split; [reflexivity|vm_compute; left]|split; [intros n; reflexivity|intros n t H; discriminate H|intros n x y H; discriminate H]]. Qed.
Lemma any_network_is_served_witness : exists L' s', dns_turns (E := busy) setup_lan 152 20 turning (forwarder hosted) = Ok L' s' /\ msg_ok s' /\ table_ok servers s'.
Proof.
  assert (Hplain : config_ok plain) by (split; [vm_compute; lia|constructor]).
  assert (Hready : ready_ok (E := busy) setup_lan) by (intros n peer ifaces H; injection H as _ <-; constructor; [vm_compute; lia|constructor]).
  assert (Hi : d_buf_i hosted = 0) by (vm_compute; reflexivity).
  pose proof (any_network_is_served (E := busy) servers setup_lan 152 quiet_sends quiet_ids (router_page _ _ _) Hplain busy_datagrams Hready (fun _ => without_domain)
    20 turning (forwarder hosted) turning_ok (forwarder_msg _ hosted_ok) (forwarder_table _ Hi)) as H.
  unfold goodt, twp in H. destruct (dns_turns (E := busy) setup_lan 152 20 turning (forwarder hosted)) as [L' s'|]; [|destruct H].
  exists L', s'. split; [reflexivity|apply H].
Defined.

(** *** Inputs that the theorems exclude *)

(** A reply with the identifier 0 finds a free entry, whose buffer pointer is garbage. *)
Definition zero_reply : DnsEnv := dns_router (fun _ => Timeout) (fun _ => Some ([0; 0] ++ drop 2 www_reply, upstream 54)) (fun _ => 1000).
Example zero_id_is_found : reply_query (E := zero_reply) (Some 1%nat) (forwarder hosted) = Err Uninitialised.
Proof. vm_compute. reflexivity. Qed.
(** When no buffer is free and the search begins at 0, it never ends. *)
Lemma full_search_never_ends fuel : forall s, length (dnsMsgBuf s) = FTABSIZ -> Forall (fun b => b_usedflag b = true) (dnsMsgBuf s) -> 1 <= d_buf_i s ->
  buf_loop fuel 0 s = Err Out_of_fuel.
Proof.
  induction fuel as [|fuel IH]; intros s Hl Hu Hi; [done|]. destruct (buf_of_index s (d_buf_i s) Hl) as [b Hb]; [lia|].
  rewrite (buf_step fuel 0 s b Hl) by (done || lia). rewrite Forall_lookup in Hu. rewrite (Hu _ _ Hb). apply IH; [done|by apply Forall_lookup|].
  cbn [d_buf_i set_buf_i]. pose proof (Z.rem_bound_pos (d_buf_i s) 150). lia.
Qed.
(** A cache of one record, or of two, loses its list. *)
Example one_record_faults : cache_insert www (Some [192; 0; 2; 1]) 1000 60 NAME_FLAGS false (state_of (cache_init 1 powered) powered) = Err Null_deref.
Proof. vm_compute. reflexivity. Qed.
(** Without a URL every name is the one of the router. *)
Example empty_url_takes_all : names_router www [] = true.
Proof. reflexivity. Qed.
Example two_records_fault :
  (cache_insert www (Some [192; 0; 2; 1]) 1000 60 NAME_FLAGS false;; cache_insert www (Some [192; 0; 2; 2]) 1000 60 NAME_FLAGS false;; cache_end_insert false;;
   cache_start_insert;; cache_insert (text "ftp.example.com") (Some [192; 0; 2; 3]) 1000 60 NAME_FLAGS false) (state_of (cache_init 2 powered) powered) = Err Null_deref.
Proof. vm_compute. reflexivity. Qed.
